(* ===== verification/_CoqProject ===== *)
-Q . S2P
Prelude.v
Params.v
Mem.v
Spinlock.v
Pages.v
Kalloc.v
Vm.v
PageTable.v
AddrSpace.v
CopyVm.v
Shm.v
Segments.v
SharedMem.v
Proc.v
Swap.v
Fork.v
Sched.v
FsState.v
Bio.v
Log.v
FsRun.v
BioSpec.v
LogSpec.v
Crash.v
Transaction.v
Inode.v
Console.v
Fs.v
File.v
PipeSpec.v
Blocks.v
FileBlocks.v
FileSpec.v
FileIO.v
FileWrite.v
Dirs.v
Paths.v
Machine.v
ForkFiles.v
Syscall.v
Kbd.v
Exec.v
ExecSpec.v
Ulib.v
Grep.v
Digits.v
ConsoleSpec.v
Sh.v
Tools.v
ShRun.v
Umalloc.v
Mkfs.v
Names.v
Mp.v
Devices.v
Descriptors.v
Asm.v
TrapAsm.v
Resume.v
Start.v
Boot.v
