(* ===== verification/Prelude.v ===== *)
(** * Verification of a teaching kernel: xv6 with swapping and shared memory

    The program is a 32-bit multiprocessor kernel in C (under src): xv6
    with two additions, the swapping of sleeping processes to files, and shared
    memory segments.  With it come the boot loader, the builder of the disk
    image, and a small user space (a library, a shell, grep and other programs).

    *** How code is modelled

    Every C function of the modelled parts is a definition with its name; a C
    expression keeps its width ([u8], [u16], [u32], [s32]).  Code is of type
    [M S A], a function from a state to an [outcome]: a return, a panic with its
    message, a fault (an access that C leaves undefined), a wait that only
    others can end, or the end of the fuel of a loop.  Memory ([mem], Mem.v) is
    a function from addresses to bytes, and the page tables, the free list, the
    trap frames, the pipes' rings and the blocks of the user-level allocator lie
    in it as they do in the machine.  Structures of the kernel that nothing
    overlays (the process table, the buffer cache, the inode cache, open files)
    are records; a pointer into such a table is an index.

    A call of sched() leaves the CPU.  A function that sleeps is therefore cut at
    the sleep: the definition before it ends there, the code after it is the next
    definition, and the interleavings of these sections are step relations
    (Spinlock, Swap, Sched, PipeSpec).

    *** The parts, and the files that model them

    - The monad, the integers, the tactics and the hints: Prelude.  Constants and
      address macros (param.h, memlayout.h, mmu.h): Params.  Memory and string.c:
      Mem.
    - Spin locks (spinlock.c): Spinlock, as code of one CPU, and one access to
      memory at a time over all CPUs (module Contention).
    - The page allocator (kalloc.c): Kalloc.  Pages states what it promises (the
      class that vm.c and the shared memory code are verified against), and Kalloc
      discharges it.
    - Page tables and address spaces (vm.c): Vm is the code, PageTable the meaning
      of a two-level table as a map from pages to entries, AddrSpace and CopyVm
      the properties.
    - Shared memory (second half of kalloc.c): Shm is the code, Segments its
      invariant, SharedMem the properties and the failures.
    - Processes, swapping and scheduling (proc.c): Proc is the code, Swap and
      Sched the protocols, Fork and ForkFiles the correctness of fork.
    - The file system, from the bottom: FsState (its data, and the class [Kernel]
      of what it uses of the kernel), Bio (ide.c, bio.c), Log (log.c), Inode and Fs
      (fs.c), File (file.c, pipe.c), Paths (sysfile.c).  FsRun states what the code
      relies on ([KernelSpec]) and how it runs; BioSpec, LogSpec, Crash,
      Transaction, Blocks, FileBlocks, FileSpec, FileIO and FileWrite climb from
      the sectors of the drive to the write system call; Dirs is about directories,
      Names about paths on the image of mkfs, PipeSpec about pipes.
    - The console (console.c, uart.c) and the keyboard (kbd.c): Console, Kbd,
      ConsoleSpec, Digits.
    - Machine puts processes and the file system together on one state: each is
      written against a class, and Machine has the instances.  Syscall and Exec
      are the system calls (syscall.c, sysproc.c, sysfile.c), exec.c and trap.c on
      that machine; ExecSpec is about the stack that exec builds.
    - Assembly: Asm is the part of the processor that it uses; TrapAsm has the trap
      entry and exit, the context switch and the system call stubs (vectors.S,
      trapasm.S, swtch.S, usys.S), Resume the way of a new process to user mode,
      Start the way of the processors from reset to main (bootasm.S, entry.S,
      entryother.S, startothers and mpenter of main.c).
    - Start-up: Boot (bootmain.c), Mp (mp.c), Devices (lapic.c, ioapic.c, picirq.c,
      timer.c, uart.c, ideinit), Descriptors (the segment and gate descriptors of
      mmu.h, seginit, switchuvm, tvinit).
    - The disk image: Mkfs (mkfs.c).
    - User space: Ulib (ulib.c, printf.c), Umalloc (umalloc.c), Sh (the parser of
      sh.c) and ShRun (its runcmd), Grep (grep.c), Tools (wc.c, cat.c, fmtname of
      ls.c).

    *** What the theorems show

    - File system: a write is all or nothing under a crash at any sector write;
      a transaction of any updates is; what writei stores readi returns, and other
      files keep their bytes; a directory is a map from names to inodes.  The image
      that mkfs writes is a file system with every file in place, and the kernel
      reads from it what mkfs was given.
    - Concurrency: mutual exclusion of spin locks on any number of CPUs; pipes are
      queues in every interleaving and each section of their code returns; a
      runnable process is not passed over for ever by the scheduler; the counter of
      swapped processes, also when loads fail, and the races that break it.
    - Processes: fork makes a runnable child with a private copy of the caller's
      memory and shared files, or fails without a trace in the table; that child
      returns to user mode where its parent called fork; a trap saves and restores
      every register, and a context switch every register that C preserves; the
      stack of a program that exec starts has its arguments.
    - Memory: the allocator refines a stack of pages; mappages, allocuvm,
      deallocuvm, copyuvm, copyout, freevm and setupkvm, as operations on the map of
      an address space, with every page accounted for, the one that allocuvm loses
      when it runs out of memory included; shared segments are
      created, shared, detached and freed; the conditions under which the code
      leaks, panics or keeps a lock.
    - Console: the line discipline refines a queue and a line being edited; the two
      printf agree but for the case of hexadecimal digits; printed numbers fit their buffers and are right.
    - Start-up: the boot loader loads the kernel, the interrupts of
      startothers start every processor of the machine on a stack of its own, the tables of the firmware are
      read, the interrupts are on for the devices that have handlers, and the
      descriptors protect the kernel.
    - User space: the allocator refines a set of disjoint blocks; the shell parses
      back every command that is printed, and starts its programs with the
      descriptors it asks for and no others, in the processes that wait too; the matcher of grep agrees with the
      semantics of its patterns, and grep prints the lines that match, of
      files of which none is shorter than one before it, since its buffer is kept.

    *** Fuel

    A loop whose end is not structural carries a bound computed from its
    arguments: the number of pages in a range, of blocks in a file, of entries in
    a table.  The theorems state that the code returns, so the bound is enough.
    Where another party ends the loop (a lock, the disk, the local APIC), the
    fuel is an argument and the hypothesis says that the answer comes within it.

    *** What is not modelled

    - initcode.S, two system calls from the page that userinit copies, and the
      code after calls that do not return.
    - The caches and the memory order of the hardware: accesses to memory are
      atomic and in program order.
    - memide.c, a replacement of ide.c for a kernel without a disk.
    - The loops of main in the user programs other than grep and mkfs, the programs that only call the
      system, and the test programs
      (usertests.c, forktest.c, stressfs.c, sharetest.c, swaptest.c,
      simpletest.c).
    - The field [pcs] of a lock, which exists for debugging; the text that cprintf
      would print inside mpinit is kept as a message. *)

From Stdlib Require Import ZArith Lia String.
From stdpp Require Import base numbers list.

#[global] Open Scope Z_scope.

(** ** Outcomes and the kernel monad *)

(** What one run of a piece of kernel code comes to.  [Ret] is a normal
    return; [Panic] is a call of [panic] (console.c), after which the machine
    stops; [Fault] is an access the C language leaves undefined (a null
    pointer, an index past an array); [Blocked] is a wait that only another
    CPU, an interrupt or another process can end; [NoFuel] is the bound of a
    fuelled loop running out, which the theorems exclude. *)
Inductive outcome (A : Type) : Type :=
| Ret (a : A)
| Panic (msg : string)
| Fault (why : string)
| Blocked
| NoFuel.
Arguments Ret {A} a.
Arguments Panic {A} msg.
Arguments Fault {A} why.
Arguments Blocked {A}.
Arguments NoFuel {A}.

(** Code that threads a state [S] and may stop abnormally. *)
Definition M (S A : Type) : Type := S -> outcome (A * S).

Definition ret {S A : Type} (a : A) : M S A := fun s => Ret (a, s).

Definition bind {S A B : Type} (c : M S A) (k : A -> M S B) : M S B :=
  fun s => match c s with
           | Ret (a, s') => k a s'
           | Panic m => Panic m
           | Fault w => Fault w
           | Blocked => Blocked
           | NoFuel => NoFuel
           end.

Definition get {S : Type} : M S S := fun s => Ret (s, s).
Definition gets {S A : Type} (f : S -> A) : M S A := fun s => Ret (f s, s).
Definition modify {S : Type} (f : S -> S) : M S unit := fun s => Ret (tt, f s).
Definition panic {S A : Type} (msg : string) : M S A := fun _ => Panic msg.
Definition fault {S A : Type} (why : string) : M S A := fun _ => Fault why.
Definition nofuel {S A : Type} : M S A := fun _ => NoFuel.

Declare Scope kmon_scope.
Delimit Scope kmon_scope with kmon.
#[global] Open Scope kmon_scope.
Notation "'let*' x ':=' c 'in' k" := (bind c (fun x => k))
  (at level 10, x pattern, c at level 100, k at level 200) : kmon_scope.
Notation "c ';;' k" := (bind c (fun _ => k))
  (at level 100, k at level 200, right associativity) : kmon_scope.

(** One step of a sequence whose first command is known to return. *)
Lemma bind_ret_eq {S A B : Type} (c : M S A) (k : A -> M S B) (s s' : S) (a : A) :
  c s = Ret (a, s') -> bind c k s = k a s'.
Proof. unfold bind. intros ->. reflexivity. Qed.

(** A sequence returns only when both of its halves do. *)
Lemma bind_inv {S A B : Type} (c : M S A) (k : A -> M S B) (s : S) (r : B * S) :
  bind c k s = Ret r -> exists a s', c s = Ret (a, s') /\ k a s' = Ret r.
Proof. unfold bind. destruct (c s) as [[a s']| | | |]; intros H; try discriminate; eauto. Qed.

(** Step over a command that returns by computation, or by a given equation. *)
Ltac mstep := erewrite bind_ret_eq; [|reflexivity]; cbv beta.
Ltac mstep_with H := erewrite bind_ret_eq; [|exact H]; cbv beta.

(** ** Lenses: a component's state inside a larger one *)

Record lens (S T : Type) : Type := Lens { view : S -> T; put : T -> S -> S }.
Arguments Lens {S T} view put.
Arguments view {S T} l s.
Arguments put {S T} l t s.

Class LensOk {S T : Type} (l : lens S T) : Prop := {
  view_put : forall t s, view l (put l t s) = t;
  put_put : forall t t' s, put l t (put l t' s) = put l t s;
  put_view : forall s, put l (view l s) s = s
}.

Definition lens_comp {S T U : Type} (l : lens S T) (k : lens T U) : lens S U :=
  Lens (fun s => view k (view l s)) (fun u s => put l (put k u (view l s)) s).

#[export] Instance lens_comp_ok {S T U : Type} (l : lens S T) (k : lens T U)
  `{!LensOk l} `{!LensOk k} : LensOk (lens_comp l k).
Proof.
  split; intros; cbn.
  - by rewrite !view_put.
  - by rewrite view_put, !put_put.
  - by rewrite !put_view.
Qed.

(** Run code of a component on the part of a larger state a lens selects. *)
Definition zoom {S T A : Type} (l : lens S T) (c : M T A) : M S A :=
  fun s => match c (view l s) with
           | Ret (a, t) => Ret (a, put l t s)
           | Panic m => Panic m
           | Fault w => Fault w
           | Blocked => Blocked
           | NoFuel => NoFuel
           end.

Lemma zoom_ret {S T A : Type} (l : lens S T) (c : M T A) (s : S) (a : A) (t : T) :
  c (view l s) = Ret (a, t) -> zoom l c s = Ret (a, put l t s).
Proof. unfold zoom. by intros ->. Qed.

(** Evaluate the monad's plumbing in the goal. *)
Ltac mred := cbv beta iota delta [bind zoom gets modify ret get panic fault nofuel].

(** ** Machine integers *)

(** [lia] with quotients and remainders by constants. *)
Ltac mlia := Z.to_euclidean_division_equations; lia.

(** Decide the comparisons in the goal from the context. *)
Ltac decide_bounds :=
  repeat match goal with
  | |- context [Z.leb ?a ?b] => first [rewrite (proj2 (Z.leb_le a b)) by lia | rewrite (proj2 (Z.leb_gt a b)) by lia]
  | |- context [Z.ltb ?a ?b] => first [rewrite (proj2 (Z.ltb_lt a b)) by lia | rewrite (proj2 (Z.ltb_ge a b)) by lia]
  end; cbn [andb].

(** [uint] and [int] of the i386 ABI: 32 bits, unsigned and two's complement. *)
Definition u32 (z : Z) : Z := z mod 0x100000000.
Definition s32 (z : Z) : Z := if u32 z <? 0x80000000 then u32 z else u32 z - 0x100000000.
Definition u16 (z : Z) : Z := z mod 0x10000.
Definition u8 (z : Z) : Z := z mod 0x100.

Lemma u32_range z : 0 <= u32 z < 0x100000000.
Proof. unfold u32. mlia. Qed.
Lemma u8_range z : 0 <= u8 z < 0x100.
Proof. unfold u8. mlia. Qed.
Lemma u32_small z : 0 <= z < 0x100000000 -> u32 z = z.
Proof. unfold u32. mlia. Qed.
Lemma u8_small z : 0 <= z < 0x100 -> u8 z = z.
Proof. unfold u8. mlia. Qed.
Lemma u32_idem z : u32 (u32 z) = u32 z.
Proof. unfold u32. mlia. Qed.
Lemma u8_idem z : u8 (u8 z) = u8 z.
Proof. unfold u8. mlia. Qed.
Lemma s32_small z : 0 <= z < 0x80000000 -> s32 z = z.
Proof. intros. unfold s32, u32. rewrite Z.mod_small by lia. destruct (Z.ltb_spec z 0x80000000); lia. Qed.
Lemma s32_range z : -0x80000000 <= s32 z < 0x80000000.
Proof. unfold s32. pose proof (u32_range z). destruct (Z.ltb_spec (u32 z) 0x80000000); lia. Qed.

(** ** Bit masks *)

(** Masking with [2^n - 1] and with its complement is remainder and rounding. *)
Lemma land_low_mask a n : 0 <= n -> Z.land a (2 ^ n - 1) = a mod 2 ^ n.
Proof. intros. rewrite <- Z.land_ones by lia. by rewrite Z.ones_equiv, Z.sub_1_r. Qed.

Lemma land_high_mask a n k :
  0 <= n -> n <= k -> 0 <= a < 2 ^ k ->
  Z.land a (2 ^ k - 2 ^ n) = a - a mod 2 ^ n.
Proof.
  intros Hn Hk Ha.
  assert (Hm : 2 ^ k - 2 ^ n = Z.shiftl (Z.ones (k - n)) n).
  { rewrite Z.shiftl_mul_pow2, Z.ones_equiv by lia.
    replace (2 ^ k) with (2 ^ (k - n) * 2 ^ n) by (rewrite <- Z.pow_add_r by lia; f_equal; lia). lia. }
  assert (Hr : a - a mod 2 ^ n = Z.shiftl (Z.shiftr a n) n).
  { rewrite Z.shiftl_mul_pow2, Z.shiftr_div_pow2 by lia.
    pose proof (Z.div_mod a (2 ^ n)). lia. }
  rewrite Hm, Hr. apply Z.bits_inj'. intros i Hi.
  rewrite Z.land_spec, !Z.shiftl_spec by lia.
  destruct (Z.ltb_spec i n) as [Hlt|Hge].
  - rewrite (Z.testbit_neg_r _ (i - n)) by lia.
    rewrite (Z.testbit_neg_r (Z.shiftr a n) (i - n)) by lia. by rewrite andb_false_r.
  - rewrite Z.shiftr_spec by lia. replace (i - n + n) with i by lia.
    rewrite Z.testbit_ones by lia.
    destruct (Z.ltb_spec (i - n) (k - n)) as [Hlt|Hge'].
    + replace (0 <=? i - n) with true by (symmetry; apply Z.leb_le; lia). by rewrite andb_true_r.
    + rewrite andb_false_r, andb_false_r.
      destruct (Z.eq_dec a 0) as [->|]; [by rewrite Z.bits_0|].
      symmetry. apply Z.bits_above_log2; [lia|].
      apply Z.log2_lt_pow2; [lia|].
      eapply Z.lt_le_trans; [apply Ha|]. apply Z.pow_le_mono_r; lia.
Qed.

(** Disjoint bits: or is addition. *)
Lemma lor_low_add a b n :
  0 <= n -> a mod 2 ^ n = 0 -> 0 <= b < 2 ^ n -> Z.lor a b = a + b.
Proof.
  intros Hn Ha Hb. symmetry. rewrite <- Z.lxor_lor, Z.add_nocarry_lxor; [done| |];
  apply Z.bits_inj'; intros i Hi; rewrite Z.land_spec, Z.bits_0;
  (destruct (Z.ltb_spec i n) as [Hlt|Hge];
   [ assert (Z.testbit a i = false) as ->; [|by rewrite andb_false_l];
     rewrite <- (Z.mod_pow2_bits_low a n i) by lia; by rewrite Ha, Z.bits_0
   | assert (Z.testbit b i = false) as ->; [|by rewrite andb_false_r];
     destruct (Z.eq_dec b 0) as [->|]; [by rewrite Z.bits_0|];
     apply Z.bits_above_log2; [lia|]; apply Z.log2_lt_pow2; [lia|];
     eapply Z.lt_le_trans; [apply Hb|]; apply Z.pow_le_mono_r; lia ]).
Qed.
