(* ===== verification/Params.v ===== *)
(** * Constants and address arithmetic

    The macros of param.h, memlayout.h, mmu.h and fcntl.h that the kernel
    components share, at their 32-bit width, with the arithmetic facts that
    every other file uses in place of the bit operations. *)

From Stdlib Require Import ZArith Lia String.
From stdpp Require Import base numbers list.
From S2P Require Import Prelude.

(** ** param.h *)
Definition NPROC : Z := 64.
Definition KSTACKSIZE : Z := 4096.
Definition NOFILE : Z := 16.
Definition NFILE : Z := 100.
Definition NBUF : Z := 10.
Definition NINODE : Z := 50.
Definition NDEV : Z := 10.
Definition ROOTDEV : Z := 1.
Definition MAXARG : Z := 32.
Definition LOGSIZE : Z := 10.
Definition CREAT : Z := 20.
Definition GET : Z := 21.
Definition SHM_RDONLY : Z := 22.
Definition SHM_RDWR : Z := 23.
Definition numOfSegs : Z := 100.

(** ** memlayout.h *)
Definition EXTMEM : Z := 0x100000.
Definition PHYSTOP : Z := 0xE000000.
Definition DEVSPACE : Z := 0xFE000000.
Definition KERNBASE : Z := 0x80000000.
Definition KERNLINK : Z := KERNBASE + EXTMEM.
Definition v2p (a : Z) : Z := u32 (a - KERNBASE).
Definition p2v (a : Z) : Z := u32 (a + KERNBASE).

(** ** mmu.h *)
Definition FL_IF : Z := 0x200.
Definition NPDENTRIES : Z := 1024.
Definition NPTENTRIES : Z := 1024.
Definition PGSIZE : Z := 4096.
Definition PTXSHIFT : Z := 12.
Definition PDXSHIFT : Z := 22.
Definition PDX (va : Z) : Z := Z.land (Z.shiftr (u32 va) PDXSHIFT) 0x3FF.
Definition PTX (va : Z) : Z := Z.land (Z.shiftr (u32 va) PTXSHIFT) 0x3FF.
Definition PGADDR (d t o : Z) : Z := u32 (Z.lor (Z.lor (Z.shiftl d PDXSHIFT) (Z.shiftl t PTXSHIFT)) o).
Definition PGROUNDUP (sz : Z) : Z := Z.land (u32 (sz + PGSIZE - 1)) (u32 (Z.lnot (PGSIZE - 1))).
Definition PGROUNDDOWN (a : Z) : Z := Z.land (u32 a) (u32 (Z.lnot (PGSIZE - 1))).
Definition PTE_P : Z := 0x001.
Definition PTE_W : Z := 0x002.
Definition PTE_U : Z := 0x004.
Definition PTE_ADDR (pte : Z) : Z := Z.land (u32 pte) (u32 (Z.lnot 0xFFF)).

(** ** fcntl.h *)
Definition O_RDONLY : Z := 0x000.
Definition O_WRONLY : Z := 0x001.
Definition O_RDWR : Z := 0x002.
Definition O_CREATE : Z := 0x200.

Create HintDb consts.
#[export] Hint Unfold NPROC KSTACKSIZE NOFILE NFILE NBUF NINODE NDEV ROOTDEV MAXARG LOGSIZE
  CREAT GET SHM_RDONLY SHM_RDWR numOfSegs EXTMEM PHYSTOP DEVSPACE KERNBASE KERNLINK FL_IF
  NPDENTRIES NPTENTRIES PGSIZE PTXSHIFT PDXSHIFT PTE_P PTE_W PTE_U
  O_RDONLY O_WRONLY O_RDWR O_CREATE : consts.

(** Arithmetic goals that mention the constants by name. *)
Ltac clia := autounfold with consts in *; lia.
Ltac cmlia := autounfold with consts in *; mlia.

(** ** The macros as quotients and remainders *)

Lemma high_mask_12 a : Z.land (u32 a) (u32 (Z.lnot 0xFFF)) = u32 a - u32 a mod 4096.
Proof.
  pose proof (u32_range a).
  change (u32 (Z.lnot 0xFFF)) with (2 ^ 32 - 2 ^ 12). change 4096 with (2 ^ 12).
  apply land_high_mask; lia.
Qed.

Lemma PTE_ADDR_eq a : PTE_ADDR a = u32 a - u32 a mod 4096.
Proof. apply high_mask_12. Qed.
Lemma PGROUNDDOWN_eq a : PGROUNDDOWN a = u32 a - u32 a mod 4096.
Proof. apply high_mask_12. Qed.
Lemma PGROUNDUP_eq sz : PGROUNDUP sz = u32 (sz + 4095) - u32 (sz + 4095) mod 4096.
Proof. unfold PGROUNDUP, PGSIZE. rewrite <- high_mask_12. do 2 f_equal; lia. Qed.
Lemma PDX_eq va : PDX va = u32 va / 0x400000.
Proof.
  unfold PDX, PDXSHIFT. pose proof (u32_range va).
  change 0x3FF with (2 ^ 10 - 1). rewrite land_low_mask, Z.shiftr_div_pow2 by lia.
  change (2 ^ 22) with 0x400000. change (2 ^ 10) with 1024. mlia.
Qed.
Lemma PTX_eq va : PTX va = (u32 va / 4096) mod 1024.
Proof.
  unfold PTX, PTXSHIFT. change 0x3FF with (2 ^ 10 - 1).
  rewrite land_low_mask, Z.shiftr_div_pow2 by lia. done.
Qed.

Lemma PDX_range va : 0 <= PDX va < 1024.
Proof. rewrite PDX_eq. pose proof (u32_range va). mlia. Qed.
Lemma PTX_range va : 0 <= PTX va < 1024.
Proof. rewrite PTX_eq. mlia. Qed.

Lemma PGADDR_eq d t o :
  0 <= d < 1024 -> 0 <= t < 1024 -> 0 <= o < 4096 ->
  PGADDR d t o = d * 0x400000 + t * 4096 + o.
Proof.
  intros Hd Ht Ho. unfold PGADDR, PDXSHIFT, PTXSHIFT.
  rewrite !Z.shiftl_mul_pow2 by lia.
  change (2 ^ 22) with 0x400000. change (2 ^ 12) with 4096.
  rewrite (lor_low_add (d * 0x400000) _ 22); [|lia|change (2 ^ 22) with 0x400000; mlia|change (2 ^ 22) with 0x400000; lia].
  rewrite (lor_low_add _ o 12); [|lia|change (2 ^ 12) with 4096; mlia|change (2 ^ 12) with 4096; lia].
  apply u32_small. lia.
Qed.

(** Rounding up gives the least multiple of the page size that is large
    enough, as long as it fits in 32 bits. *)
Lemma PGROUNDUP_spec sz :
  0 <= sz <= 0xFFFFF000 ->
  PGROUNDUP sz mod 4096 = 0 /\ sz <= PGROUNDUP sz < sz + 4096.
Proof. intros. rewrite PGROUNDUP_eq, u32_small by lia. mlia. Qed.

Lemma PGROUNDDOWN_spec a :
  0 <= a < 0x100000000 ->
  PGROUNDDOWN a mod 4096 = 0 /\ a - 4096 < PGROUNDDOWN a <= a.
Proof. intros. rewrite PGROUNDDOWN_eq, u32_small by lia. mlia. Qed.

Lemma PGROUNDUP_aligned sz : 0 <= sz < 0x100000000 -> sz mod 4096 = 0 -> PGROUNDUP sz = sz.
Proof. intros. rewrite PGROUNDUP_eq. unfold u32. mlia. Qed.
Lemma PGROUNDDOWN_aligned a : 0 <= a < 0x100000000 -> a mod 4096 = 0 -> PGROUNDDOWN a = a.
Proof. intros. rewrite PGROUNDDOWN_eq, u32_small by lia. lia. Qed.

(** [walkpgdir] indexes by page: a virtual address is rebuilt from its page
    directory index, its page table index and its offset. *)
Lemma PGADDR_PDX_PTX va : 0 <= va < 0x100000000 -> PGADDR (PDX va) (PTX va) (va mod 4096) = va.
Proof.
  intros. rewrite PGADDR_eq; [|apply PDX_range|apply PTX_range|mlia].
  rewrite PDX_eq, PTX_eq, u32_small by lia. mlia.
Qed.

Lemma v2p_p2v a : 0 <= a < 0x100000000 -> v2p (p2v a) = a.
Proof. intros. unfold v2p, p2v, u32, KERNBASE. mlia. Qed.
Lemma p2v_v2p a : 0 <= a < 0x100000000 -> p2v (v2p a) = a.
Proof. intros. unfold v2p, p2v, u32, KERNBASE. mlia. Qed.
