(* ===== verification/Mem.v ===== *)
(** * Byte memory and string.c

    Memory is a total function from addresses to bytes; loads reduce what
    they find to eight bits, so no well-formedness invariant is needed.  The
    file gives the string instructions of x86.h, the routines of string.c over
    this memory, and what they compute. *)

From Stdlib Require Import ZArith Lia String Bool.
From stdpp Require Import base numbers list.
From S2P Require Import Prelude Params.

(** ** Loads and stores *)

Definition mem : Type := Z -> Z.
Definition ld8 (m : mem) (a : Z) : Z := u8 (m a).
Definition st8 (m : mem) (a v : Z) : mem := fun b => if b =? a then v else m b.
(** Little-endian 32-bit words. *)
Definition ld32 (m : mem) (a : Z) : Z :=
  ld8 m a + ld8 m (a + 1) * 0x100 + ld8 m (a + 2) * 0x10000 + ld8 m (a + 3) * 0x1000000.
Definition st32 (m : mem) (a v : Z) : mem :=
  st8 (st8 (st8 (st8 m a v) (a + 1) (Z.shiftr v 8)) (a + 2) (Z.shiftr v 16)) (a + 3) (Z.shiftr v 24).

(** Two memories agree where [P] holds. *)
Definition agree (P : Z -> Prop) (m m' : mem) : Prop := forall a, P a -> ld8 m' a = ld8 m a.

(** ** x86.h *)

(** [rep stosb] and [rep stosl] store [cnt] bytes or words upwards from [addr]. *)
Definition stosb (m : mem) (addr data cnt : Z) : mem :=
  fun b => if (addr <=? b) && (b <? addr + cnt) then u8 data else m b.
Definition stosl (m : mem) (addr data cnt : Z) : mem :=
  fun b => if (addr <=? b) && (b <? addr + 4 * cnt)
           then u8 (Z.shiftr data (8 * ((b - addr) mod 4))) else m b.

(** ** string.c *)

(** The copying routines return their destination, which the callers in the
    kernel ignore; the definitions return the memory they leave. *)
Definition memset (m : mem) (dst c n : Z) : mem :=
  if (Z.rem (s32 dst) 4 =? 0) && (n mod 4 =? 0) then
    let c := Z.land c 0xFF in
    stosl m dst (Z.lor (Z.lor (Z.lor (Z.shiftl c 24) (Z.shiftl c 16)) (Z.shiftl c 8)) c) (n / 4)
  else stosb m dst c n.

Fixpoint memcmp (m : mem) (s1 s2 : Z) (n : nat) : Z :=
  match n with
  | O => 0
  | S n => if negb (ld8 m s1 =? ld8 m s2) then ld8 m s1 - ld8 m s2
           else memcmp m (s1 + 1) (s2 + 1) n
  end.

Fixpoint memmove_up (m : mem) (d s : Z) (n : nat) : mem :=
  match n with
  | O => m
  | S n => memmove_up (st8 m d (ld8 m s)) (d + 1) (s + 1) n
  end.

Fixpoint memmove_down (m : mem) (d s : Z) (n : nat) : mem :=
  match n with
  | O => m
  | S n => memmove_down (st8 m (d - 1) (ld8 m (s - 1))) (d - 1) (s - 1) n
  end.

Definition memmove (m : mem) (dst src n : Z) : mem :=
  if (src <? dst) && (src + n >? dst) then memmove_down m (dst + n) (src + n) (Z.to_nat n)
  else memmove_up m dst src (Z.to_nat n).

Fixpoint strncmp (m : mem) (p q : Z) (n : nat) : Z :=
  match n with
  | O => 0
  | S n => if negb (ld8 m p =? 0) && (ld8 m p =? ld8 m q) then strncmp m (p + 1) (q + 1) n
           else ld8 m p - ld8 m q
  end.

Fixpoint zero_fill (m : mem) (s : Z) (n : nat) : mem :=
  match n with
  | O => m
  | S n => zero_fill (st8 m s 0) (s + 1) n
  end.

Fixpoint strncpy (m : mem) (s t : Z) (n : nat) : mem :=
  match n with
  | O => m
  | S n => let m' := st8 m s (ld8 m t) in
           if ld8 m t =? 0 then zero_fill m' (s + 1) n else strncpy m' (s + 1) (t + 1) n
  end.

(** [n] counts the copies left by [while(--n > 0 && ...)]. *)
Fixpoint safestrcpy_loop (m : mem) (s t : Z) (n : nat) : mem :=
  match n with
  | O => st8 m s 0
  | S n => let m' := st8 m s (ld8 m t) in
           if ld8 m t =? 0 then st8 m' (s + 1) 0 else safestrcpy_loop m' (s + 1) (t + 1) n
  end.

Definition safestrcpy (m : mem) (s t n : Z) : mem :=
  if n <=? 0 then m else safestrcpy_loop m s t (Z.to_nat (n - 1)).

(** The scan has no bound of its own; the fuel is one. *)
Fixpoint strlen_from (m : mem) (s n : Z) (fuel : nat) : option Z :=
  match fuel with
  | O => None
  | S fuel => if ld8 m (s + n) =? 0 then Some n else strlen_from m s (n + 1) fuel
  end.
Definition strlen (m : mem) (s : Z) (fuel : nat) : option Z := strlen_from m s 0 fuel.

(** ** Facts about loads and stores *)

Lemma ld8_range m a : 0 <= ld8 m a < 256.
Proof. apply u8_range. Qed.
Lemma ld32_range m a : 0 <= ld32 m a < 0x100000000.
Proof.
  unfold ld32. pose proof (ld8_range m a). pose proof (ld8_range m (a + 1)).
  pose proof (ld8_range m (a + 2)). pose proof (ld8_range m (a + 3)). lia.
Qed.
Lemma u32_ld32 m a : u32 (ld32 m a) = ld32 m a.
Proof. apply u32_small, ld32_range. Qed.

Lemma ld8_st8 m a v b : ld8 (st8 m a v) b = if b =? a then u8 v else ld8 m b.
Proof. unfold ld8, st8. by destruct (b =? a). Qed.

(** Case analysis on every address comparison in sight. *)
Ltac addr_cases :=
  repeat match goal with
         | |- context [?a =? ?b] => destruct (Z.eqb_spec a b)
         | |- context [?a <=? ?b] => destruct (Z.leb_spec a b)
         | |- context [?a <? ?b] => destruct (Z.ltb_spec a b)
         end; cbn [andb orb negb] in *.

Lemma ld8_st32 m a v b :
  ld8 (st32 m a v) b =
  if (a <=? b) && (b <? a + 4) then u8 (Z.shiftr v (8 * (b - a))) else ld8 m b.
Proof.
  unfold st32. rewrite !ld8_st8.
  addr_cases; subst; try lia; try done;
    [replace (a + 3 - a) with 3 by lia|replace (a + 2 - a) with 2 by lia
    |replace (a + 1 - a) with 1 by lia|replace (a - a) with 0 by lia]; by rewrite ?Z.shiftr_0_r.
Qed.

Lemma ld32_st32_same m a v : ld32 (st32 m a v) a = u32 v.
Proof.
  unfold ld32. rewrite !ld8_st32. addr_cases; try lia.
  replace (a - a) with 0 by lia. replace (a + 1 - a) with 1 by lia.
  replace (a + 2 - a) with 2 by lia. replace (a + 3 - a) with 3 by lia.
  unfold u8, u32. rewrite !Z.shiftr_div_pow2 by lia.
  change (2 ^ (8 * 0)) with 1. change (2 ^ (8 * 1)) with 0x100.
  change (2 ^ (8 * 2)) with 0x10000. change (2 ^ (8 * 3)) with 0x1000000. mlia.
Qed.

Lemma ld32_agree (P : Z -> Prop) m m' a :
  agree P m m' -> (forall b, a <= b < a + 4 -> P b) -> ld32 m' a = ld32 m a.
Proof. intros H HP. unfold ld32. by rewrite !H by (apply HP; lia). Qed.

Lemma st32_agree m a v : agree (fun b => ~ (a <= b < a + 4)) m (st32 m a v).
Proof. intros b Hb. cbn in Hb. rewrite ld8_st32. addr_cases; done || lia. Qed.

Lemma ld32_st32_ne m a b v : a + 4 <= b \/ b + 4 <= a -> ld32 (st32 m a v) b = ld32 m b.
Proof. intros H. eapply ld32_agree; [apply st32_agree|]. cbn. lia. Qed.

Lemma agree_trans (P : Z -> Prop) m1 m2 m3 : agree P m1 m2 -> agree P m2 m3 -> agree P m1 m3.
Proof. intros H1 H2 a Ha. by rewrite H2, H1. Qed.
Lemma agree_weaken (P Q : Z -> Prop) m m' : (forall a, Q a -> P a) -> agree P m m' -> agree Q m m'.
Proof. intros H HA a Ha. apply HA, H, Ha. Qed.
Lemma agree_refl (P : Z -> Prop) m : agree P m m.
Proof. by intros ?. Qed.

(** ** Facts about string.c *)

Lemma rem4_iff a : (Z.rem (s32 a) 4 =? 0) = (a mod 4 =? 0).
Proof.
  unfold s32, u32. apply eq_iff_eq_true. rewrite !Z.eqb_eq, Z.rem_divide, <- Z.mod_divide by lia.
  destruct (Z.ltb_spec (a mod 0x100000000) 0x80000000); mlia.
Qed.

(** Every byte of the word [memset] stores is the fill byte. *)
Lemma fill_word c k :
  0 <= c < 256 -> 0 <= k < 4 ->
  u8 (Z.shiftr (Z.lor (Z.lor (Z.lor (Z.shiftl c 24) (Z.shiftl c 16)) (Z.shiftl c 8)) c) (8 * k)) = c.
Proof.
  intros Hc Hk. rewrite !Z.shiftl_mul_pow2 by lia.
  change (2 ^ 24) with 0x1000000. change (2 ^ 16) with 0x10000. change (2 ^ 8) with 0x100.
  rewrite (lor_low_add (c * 0x1000000) _ 24), (lor_low_add _ (c * 0x100) 16), (lor_low_add _ c 8);
    try lia; try (change (2 ^ 24) with 0x1000000); try (change (2 ^ 16) with 0x10000);
    try (change (2 ^ 8) with 0x100); try lia; try mlia.
  assert (k = 0 \/ k = 1 \/ k = 2 \/ k = 3) as [->|[->|[->| ->]]] by lia;
    rewrite Z.shiftr_div_pow2 by lia; unfold u8;
    [change (2 ^ (8 * 0)) with 1|change (2 ^ (8 * 1)) with 0x100
    |change (2 ^ (8 * 2)) with 0x10000|change (2 ^ (8 * 3)) with 0x1000000]; mlia.
Qed.

(** [memset] fills exactly the [n] bytes from [dst], whichever of its two
    instructions it uses. *)
Lemma ld8_memset m dst c n a :
  ld8 (memset m dst c n) a = if (dst <=? a) && (a <? dst + n) then u8 c else ld8 m a.
Proof.
  unfold memset. rewrite rem4_iff.
  destruct (Z.eqb_spec (dst mod 4) 0); destruct (Z.eqb_spec (n mod 4) 0); cbn [andb].
  1: { unfold stosl, ld8 at 1. replace (4 * (n / 4)) with n by mlia.
       destruct ((dst <=? a) && (a <? dst + n)); [|done].
       change 0xFF with (2 ^ 8 - 1). rewrite land_low_mask by lia. change (2 ^ 8) with 0x100.
       fold (u8 c). rewrite u8_idem. apply fill_word; [apply u8_range|mlia]. }
  all: unfold stosb, ld8 at 1; destruct ((dst <=? a) && (a <? dst + n)); by rewrite ?u8_idem.
Qed.

Lemma memmove_up_spec n : forall m d s a,
  d <= s \/ s + Z.of_nat n <= d ->
  ld8 (memmove_up m d s n) a =
  if (d <=? a) && (a <? d + Z.of_nat n) then ld8 m (s + (a - d)) else ld8 m a.
Proof.
  induction n as [|n IH]; intros m d s a H; cbn [memmove_up].
  - addr_cases; done || lia.
  - rewrite IH by lia. rewrite !ld8_st8. unfold ld8 at 1; fold (ld8 m s).
    addr_cases; try lia; try done; try (f_equal; lia).
    all: subst; rewrite ?u8_idem; unfold ld8; rewrite ?u8_idem; do 2 f_equal; lia.
Qed.

Lemma memmove_down_spec n : forall m d s a,
  s <= d ->
  ld8 (memmove_down m (d + Z.of_nat n) (s + Z.of_nat n) n) a =
  if (d <=? a) && (a <? d + Z.of_nat n) then ld8 m (s + (a - d)) else ld8 m a.
Proof.
  induction n as [|n IH]; intros m d s a H; cbn [memmove_down].
  - addr_cases; done || lia.
  - replace (d + Z.of_nat (S n) - 1) with (d + Z.of_nat n) by lia.
    replace (s + Z.of_nat (S n) - 1) with (s + Z.of_nat n) by lia.
    rewrite IH by lia. rewrite !ld8_st8. 
    addr_cases; try lia; try done.
    all: subst; unfold ld8; rewrite ?u8_idem; do 2 f_equal; lia.
Qed.

Lemma ld8_memmove m dst src n a :
  0 <= n ->
  ld8 (memmove m dst src n) a =
  if (dst <=? a) && (a <? dst + n) then ld8 m (src + (a - dst)) else ld8 m a.
Proof.
  intros Hn. unfold memmove. rewrite Z.gtb_ltb.
  destruct (Z.ltb_spec src dst); destruct (Z.ltb_spec dst (src + n)); cbn [andb].
  1: rewrite <- (Z2Nat.id n) at 1 2 by done; rewrite memmove_down_spec by lia.
  2-4: rewrite memmove_up_spec by lia.
  all: by rewrite Z2Nat.id.
Qed.

(** The [i]-th character of the C string at [t], read as padded with NULs. *)
Fixpoint cchar (m : mem) (t : Z) (i : nat) : Z :=
  match i with
  | O => ld8 m t
  | S i => if ld8 m t =? 0 then 0 else cchar m (t + 1) i
  end.

Lemma cchar_agree (P : Z -> Prop) m m' i : forall t,
  agree P m m' -> (forall b, t <= b <= t + Z.of_nat i -> P b) -> cchar m' t i = cchar m t i.
Proof.
  induction i as [|i IH]; intros t H HP; cbn [cchar].
  - apply H, HP. lia.
  - rewrite H by (apply HP; lia). destruct (ld8 m t =? 0); [done|]. apply IH; [done|].
    intros. apply HP. lia.
Qed.

Lemma zero_fill_spec n : forall m s a,
  ld8 (zero_fill m s n) a = if (s <=? a) && (a <? s + Z.of_nat n) then 0 else ld8 m a.
Proof.
  induction n as [|n IH]; intros m s a; cbn [zero_fill].
  - addr_cases; done || lia.
  - rewrite IH, ld8_st8. addr_cases; done || lia.
Qed.

Lemma strncpy_frame n : forall m s t a, ~ (s <= a < s + Z.of_nat n) -> ld8 (strncpy m s t n) a = ld8 m a.
Proof.
  induction n as [|n IH]; intros m s t a H; cbn [strncpy]; [done|].
  destruct (ld8 m t =? 0).
  - rewrite zero_fill_spec, ld8_st8. addr_cases; done || lia.
  - rewrite IH, ld8_st8 by lia. addr_cases; done || lia.
Qed.

Lemma strncpy_chars n : forall m s t i,
  t + Z.of_nat n <= s \/ s + Z.of_nat n <= t -> (i < n)%nat ->
  ld8 (strncpy m s t n) (s + Z.of_nat i) = cchar m t i.
Proof.
  induction n as [|n IH]; intros m s t i H Hi; [lia|]. cbn [strncpy].
  destruct i as [|i]; cbn [cchar].
  - assert (Hs : ld8 (st8 m s (ld8 m t)) (s + Z.of_nat 0) = ld8 m t).
    { rewrite ld8_st8. addr_cases; [|lia]. apply u8_small, ld8_range. }
    destruct (ld8 m t =? 0).
    + rewrite zero_fill_spec. addr_cases; lia.
    + rewrite strncpy_frame by lia. done.
  - destruct (Z.eqb_spec (ld8 m t) 0) as [E|E].
    + rewrite zero_fill_spec. addr_cases; lia.
    + replace (s + Z.of_nat (S i)) with (s + 1 + Z.of_nat i) by lia.
      rewrite IH by lia.
      apply cchar_agree with (P := fun b => b <> s); [|lia].
      intros b Hb. rewrite ld8_st8. addr_cases; done || lia.
Qed.

Lemma cchar_shift m t i : ld8 m t <> 0 -> cchar m t (S i) = cchar m (t + 1) i.
Proof. intros H. cbn [cchar]. by destruct (Z.eqb_spec (ld8 m t) 0). Qed.

Lemma cchar_zero m t i : ld8 m t = 0 -> cchar m t i = 0.
Proof. intros H. destruct i; cbn [cchar]; by rewrite H. Qed.

Lemma strncmp_zero n : forall m p q,
  strncmp m p q n = 0 <-> forall i, (i < n)%nat -> cchar m p i = cchar m q i.
Proof.
  induction n as [|n IH]; intros m p q; cbn [strncmp]; [split; [lia|done]|].
  destruct (Z.eqb_spec (ld8 m p) 0) as [E|E]; destruct (Z.eqb_spec (ld8 m p) (ld8 m q)) as [E'|E']; cbn [negb andb].
  - split; [|lia]. intros _ i _. rewrite !cchar_zero by congruence. done.
  - split; [lia|]. intros H. specialize (H 0%nat ltac:(lia)). cbn in H. lia.
  - rewrite IH. split; intros H i Hi.
    + destruct i as [|i]; [done|]. rewrite !cchar_shift by congruence. apply H. lia.
    + specialize (H (S i) ltac:(lia)). by rewrite !cchar_shift in H by congruence.
  - split; [lia|]. intros H. specialize (H 0%nat ltac:(lia)). cbn in H. lia.
Qed.

Lemma cchar_stored n : forall m s t i, (i < n)%nat ->
  (forall j, (j < n)%nat -> ld8 m (s + Z.of_nat j) = cchar m t j) -> cchar m s i = cchar m t i.
Proof.
  induction n as [|n IH]; intros m s t i Hi H; [lia|].
  pose proof (H 0%nat ltac:(lia)) as H0. cbn [cchar] in H0. rewrite Z.add_0_r in H0.
  destruct i as [|i]; cbn [cchar]; [done|]. rewrite H0.
  destruct (Z.eqb_spec (ld8 m t) 0) as [E|E]; [done|].
  apply IH; [lia|]. intros j Hj. specialize (H (S j) ltac:(lia)).
  rewrite cchar_shift in H by done. rewrite <- H. f_equal. lia.
Qed.

Lemma safestrcpy_loop_frame n : forall m s t a,
  ~ (s <= a <= s + Z.of_nat n) -> ld8 (safestrcpy_loop m s t n) a = ld8 m a.
Proof.
  induction n as [|n IH]; intros m s t a H; cbn [safestrcpy_loop].
  - rewrite ld8_st8. addr_cases; done || lia.
  - destruct (ld8 m t =? 0); [rewrite ld8_st8|rewrite IH by lia]; rewrite ld8_st8; addr_cases; done || lia.
Qed.

Lemma safestrcpy_loop_spec n : forall m s t,
  t + Z.of_nat n <= s \/ s + Z.of_nat n < t ->
  exists k, 0 <= k <= Z.of_nat n /\
    (forall i, 0 <= i < k -> ld8 (safestrcpy_loop m s t n) (s + i) = ld8 m (t + i) /\ ld8 m (t + i) <> 0) /\
    ld8 (safestrcpy_loop m s t n) (s + k) = 0 /\ (ld8 m (t + k) = 0 \/ k = Z.of_nat n).
Proof.
  induction n as [|n IH]; intros m s t H; cbn [safestrcpy_loop].
  - exists 0. rewrite ld8_st8, Z.add_0_r. addr_cases; [|lia]. split_and!; try lia; done || lia.
  - destruct (Z.eqb_spec (ld8 m t) 0) as [E|E].
    + exists 0. rewrite !ld8_st8, !Z.add_0_r. addr_cases; try lia. split_and!; try lia.
      rewrite E. done.
    + destruct (IH (st8 m s (ld8 m t)) (s + 1) (t + 1)) as (k & Hk & Hc & H0 & Hend); [lia|].
      assert (Hsrc : forall j, 0 <= j < Z.of_nat n -> ld8 (st8 m s (ld8 m t)) (t + 1 + j) = ld8 m (t + (j + 1))).
      { intros j Hj. rewrite ld8_st8. addr_cases; [lia|]. f_equal. lia. }
      exists (k + 1). split_and!; [lia|lia| | |].
      * intros i Hi. destruct (Z.eq_dec i 0) as [->|Hi0].
        -- rewrite !Z.add_0_r. split; [|done]. rewrite safestrcpy_loop_frame by lia.
           rewrite ld8_st8. addr_cases; [|lia]. apply u8_small, ld8_range.
        -- destruct (Hc (i - 1)) as [A B]; [lia|]. rewrite Hsrc in A, B by lia.
           replace (i - 1 + 1) with i in A, B by lia.
           replace (s + 1 + (i - 1)) with (s + i) in A by lia. done.
      * rewrite <- H0. f_equal. lia.
      * destruct (Z.eq_dec k (Z.of_nat n)); [right; lia|]. left.
        rewrite <- Hsrc by lia. destruct Hend; [done|lia].
Qed.

Lemma strlen_from_spec fuel : forall m s n k,
  n <= k -> k - n < Z.of_nat fuel -> ld8 m (s + k) = 0 ->
  (forall i, n <= i < k -> ld8 m (s + i) <> 0) -> strlen_from m s n fuel = Some k.
Proof.
  induction fuel as [|fuel IH]; intros m s n k Hn Hf Hk Hi; [lia|]. cbn [strlen_from].
  destruct (Z.eq_dec n k) as [->|Hne]; [by rewrite Hk|].
  destruct (Z.eqb_spec (ld8 m (s + n)) 0) as [E|E]; [exfalso; apply (Hi n); lia|].
  apply IH; try lia; try done. intros. apply Hi. lia.
Qed.

(** ** What string.c promises its callers *)

(** [memmove] copies the [n] source bytes as they were before the call and
    changes nothing else, also when the two ranges overlap. *)
Theorem memmove_copies (m : mem) (dst src n a : Z) :
  0 <= n ->
  ld8 (memmove m dst src n) a =
  if (dst <=? a) && (a <? dst + n) then ld8 m (src + (a - dst)) else ld8 m a.
Proof.
  apply ld8_memmove.
Qed.

Lemma memmove_copies_witness :
  ld8 (memmove (fun a => a) 12 10 5) 14 = 12 /\ ld8 (memmove (fun a => a) 12 10 5) 17 = 17.
Proof.
  split; (rewrite (memmove_copies (fun a => a) 12 10 5) by lia; reflexivity).
Defined.

(** A name stored with [strncpy] into a field of [n] bytes is NUL-padded
    there, compares equal to the original with [strncmp] over the same [n]
    bytes, and [strncpy] touches no byte outside the field. *)
Theorem strncpy_strncmp (m : mem) (s t : Z) (n : nat) :
  t + Z.of_nat n <= s \/ s + Z.of_nat n <= t ->
  strncmp (strncpy m s t n) s t n = 0 /\
  (forall i, (i < n)%nat -> ld8 (strncpy m s t n) (s + Z.of_nat i) = cchar m t i) /\
  agree (fun a => ~ (s <= a < s + Z.of_nat n)) m (strncpy m s t n).
Proof.
  intros Hdis. assert (Hf : agree (fun a => ~ (s <= a < s + Z.of_nat n)) m (strncpy m s t n)).
  { intros a Ha. by apply strncpy_frame. }
  split_and!; [|intros; by apply strncpy_chars|done].
  apply strncmp_zero. intros i Hi. apply cchar_stored with n; [done|].
  intros j Hj. rewrite strncpy_chars by done. symmetry. eapply cchar_agree; [apply Hf|].
  cbn. lia.
Qed.

Lemma strncpy_strncmp_witness : strncmp (strncpy (fun a => if a =? 102 then 0 else 65) 0 100 14) 0 100 14 = 0.
Proof. apply (strncpy_strncmp (fun a => if a =? 102 then 0 else 65) 0 100 14). lia. Defined.

(** [safestrcpy] into a buffer of [n > 0] bytes always leaves a NUL inside
    the buffer, preceded by a copy of a prefix of the source that stops at the
    source's NUL or at the buffer's last byte, and [strlen] finds that NUL. *)
Theorem safestrcpy_terminates (m : mem) (s t n : Z) :
  0 < n -> t + n <= s \/ s + n <= t ->
  exists k, 0 <= k < n /\
    strlen (safestrcpy m s t n) s (Z.to_nat n) = Some k /\
    (forall i, 0 <= i < k -> ld8 (safestrcpy m s t n) (s + i) = ld8 m (t + i)) /\
    (ld8 m (t + k) = 0 \/ k = n - 1) /\
    agree (fun a => ~ (s <= a < s + n)) m (safestrcpy m s t n).
Proof.
  intros Hn Hdis. unfold safestrcpy. destruct (Z.leb_spec n 0); [lia|].
  destruct (safestrcpy_loop_spec (Z.to_nat (n - 1)) m s t) as (k & Hk & Hc & H0 & Hend); [lia|].
  exists k. split_and!; [lia|lia| | | |].
  - apply strlen_from_spec; [lia|lia|done|]. intros i Hi. destruct (Hc i Hi) as [-> ?]. done.
  - intros i Hi. by apply Hc.
  - destruct Hend; [by left|right; lia].
  - intros a Ha. cbn in Ha. apply safestrcpy_loop_frame. lia.
Qed.

Lemma safestrcpy_terminates_witness :
  exists k, 0 <= k < 4 /\ strlen (safestrcpy (fun _ => 65) 0 100 4) 0 4 = Some k.
Proof.
  destruct (safestrcpy_terminates (fun _ => 65) 0 100 4) as (k & Hk & Hs & _); [lia|lia|].
  exists k. exact (conj Hk Hs).
Defined.
