(* ===== verification/Spinlock.v ===== *)
(** * Spin locks (spinlock.c)

    The CPU's interrupt state, [pushcli]/[popcli], and the lock operations as
    code run by one CPU; then the same [acquire] and [release] one atomic
    access at a time, interleaved over all CPUs, with mutual exclusion.
    The fields [name] and [pcs] of a lock exist for debugging; the name is
    kept, the recorded call stack is not. *)

From Stdlib Require Import ZArith Lia String Bool.
From stdpp Require Import base numbers functions list.
From S2P Require Import Prelude Params.

(** ** The CPU and its interrupt flag *)

(** The fields of struct cpu that locking uses, the address of the struct,
    and the interrupt bit of the flags register. *)
Record cpu : Type := mkCpu { cpu_ptr : Z; ncli : Z; intena : bool; eflags_if : bool }.

Record spinlock : Type := mkLock { lk_name : string; locked : Z; lk_cpu : Z }.

Definition initlock (name : string) : spinlock := mkLock name 0 0.

Definition cli (c : cpu) : cpu := mkCpu (cpu_ptr c) (ncli c) (intena c) false.
Definition sti (c : cpu) : cpu := mkCpu (cpu_ptr c) (ncli c) (intena c) true.

Definition pushcli : M cpu unit :=
  let* eflags := gets eflags_if in
  modify cli ;;
  let* n := gets ncli in
  modify (fun c => mkCpu (cpu_ptr c) (ncli c + 1) (intena c) (eflags_if c)) ;;
  if n =? 0 then modify (fun c => mkCpu (cpu_ptr c) (ncli c) eflags (eflags_if c)) else ret tt.

Definition popcli : M cpu unit :=
  let* eflags := gets eflags_if in
  if eflags then panic "popcli - interruptible" else
  modify (fun c => mkCpu (cpu_ptr c) (ncli c - 1) (intena c) (eflags_if c)) ;;
  let* n := gets ncli in
  if n <? 0 then panic "popcli" else
  let* ie := gets intena in
  if (n =? 0) && ie then modify sti else ret tt.

(** ** Acquire and release as one CPU runs them *)

(** States that contain the CPU the code runs on. *)
Class HasCpu (S : Type) : Type := cpuL : lens S cpu.

Section ops.
Context {S : Type} `{!HasCpu S}.

Definition holding (l : lens S spinlock) : M S bool :=
  let* lk := gets (view l) in
  let* c := gets (view cpuL) in
  ret (negb (locked lk =? 0) && (lk_cpu lk =? cpu_ptr c)).

(** The loop around [xchg] ends at once on a free lock; on a lock another CPU
    holds it waits for that CPU. *)
Definition xchg_loop (l : lens S spinlock) : M S unit := fun s =>
  if locked (view l s) =? 0
  then Ret (tt, put l (mkLock (lk_name (view l s)) 1 (lk_cpu (view l s))) s)
  else Blocked.

Definition acquire (l : lens S spinlock) : M S unit :=
  zoom cpuL pushcli ;;
  let* h := holding l in
  if h then panic "acquire" else
  xchg_loop l ;;
  let* c := gets (view cpuL) in
  modify (fun s => put l (mkLock (lk_name (view l s)) (locked (view l s)) (cpu_ptr c)) s).

Definition release (l : lens S spinlock) : M S unit :=
  let* h := holding l in
  if negb h then panic "release" else
  modify (fun s => put l (mkLock (lk_name (view l s)) (locked (view l s)) 0) s) ;;
  modify (fun s => put l (mkLock (lk_name (view l s)) 0 (lk_cpu (view l s))) s) ;;
  zoom cpuL popcli.

End ops.

(** ** Interrupt nesting *)

Record cpu_ok (c : cpu) : Prop := {
  ok_ncli : 0 <= ncli c;
  ok_off : 0 < ncli c -> eflags_if c = false;
  ok_ptr : 0 < cpu_ptr c
}.

(** CPUs that differ at most in a saved flag that is not in use. *)
Record same_cpu (c c' : cpu) : Prop := {
  same_ptr : cpu_ptr c' = cpu_ptr c;
  same_ncli : ncli c' = ncli c;
  same_if : eflags_if c' = eflags_if c;
  same_intena : 0 < ncli c -> intena c' = intena c
}.

#[export] Instance same_cpu_equiv : Equivalence same_cpu.
Proof.
  split.
  - by intros c.
  - intros c c' [? ? ? H]. split; try done. intros. symmetry. apply H. lia.
  - intros a b c [? ? ? H] [? ? ? H']. split; try congruence.
    intros. rewrite H' by lia. by apply H.
Qed.

#[export] Instance cpu_ok_proper : Proper (same_cpu ==> iff) cpu_ok.
Proof.
  intros c c' [Hp Hn Hi _]. split; intros [A B C]; split; intros;
    rewrite ?Hp, ?Hn, ?Hi in *; auto.
Qed.

(** The CPU after [pushcli], and after the matching [popcli]. *)
Definition pushed (c : cpu) : cpu :=
  mkCpu (cpu_ptr c) (ncli c + 1) (if ncli c =? 0 then eflags_if c else intena c) false.
Definition popped (c : cpu) : cpu :=
  mkCpu (cpu_ptr c) (ncli c - 1) (intena c) ((ncli c - 1 =? 0) && intena c).

Lemma pushcli_eq c : pushcli c = Ret (tt, pushed c).
Proof. unfold pushcli, bind, gets, modify, pushed, cli, ret. cbn. by destruct (ncli c =? 0). Qed.

Lemma popcli_eq c : eflags_if c = false -> 0 < ncli c -> popcli c = Ret (tt, popped c).
Proof.
  intros Hi Hn. unfold popcli, bind, gets, modify, popped, sti, ret. cbn. rewrite Hi. cbn.
  destruct (Z.ltb_spec (ncli c - 1) 0); [lia|].
  destruct (ncli c - 1 =? 0), (intena c); cbn; by rewrite ?Hi.
Qed.

Lemma popped_pushed c : cpu_ok c -> same_cpu c (popped (pushed c)).
Proof.
  intros [Hn Hi _]. unfold pushed, popped. split; cbn; [done|lia| |].
  - replace (ncli c + 1 - 1) with (ncli c) by lia.
    destruct (Z.eqb_spec (ncli c) 0) as [E|E]; cbn; [done|]. symmetry. apply Hi. lia.
  - intros. destruct (Z.eqb_spec (ncli c) 0); [lia|done].
Qed.

Lemma popped_ok c : cpu_ok c -> 0 < ncli c -> cpu_ok (popped c).
Proof.
  intros [? ? ?] ?. split; cbn [popped cpu_ptr ncli eflags_if]; try lia.
Qed.

Lemma pushed_ok c : cpu_ok c -> cpu_ok (pushed c).
Proof. intros [? ? ?]. split; cbn; lia || done. Qed.

(** ** The lock operations on a state whose lock and CPU are apart *)

Class LensApart {S T U : Type} (l : lens S T) (k : lens S U) : Prop := {
  apart_view_l : forall u s, view l (put k u s) = view l s;
  apart_view_r : forall t s, view k (put l t s) = view k s;
  apart_comm : forall t u s, put l t (put k u s) = put k u (put l t s)
}.

(** Normalise views of puts through lenses that are apart. *)
Ltac lens_norm :=
  repeat (progress (rewrite ?view_put, ?apart_view_l, ?apart_view_r, ?put_put;
                    cbn [negb andb lk_name locked lk_cpu cpu_ptr])).

Section laws.
Context {S : Type} `{!HasCpu S} (l : lens S spinlock).
Context `{!LensOk (cpuL : lens S cpu)} `{!LensOk l} `{!LensApart l (cpuL : lens S cpu)}.

(** A free lock is taken: the lock records the CPU, interrupts are off. *)
Lemma acquire_free (s : S) :
  locked (view l s) = 0 ->
  acquire l s = Ret (tt, put l (mkLock (lk_name (view l s)) 1 (cpu_ptr (view cpuL s)))
                          (put cpuL (pushed (view cpuL s)) s)).
Proof.
  intros Hf. unfold acquire, holding, xchg_loop. mred.
  rewrite pushcli_eq. cbv beta iota. lens_norm. rewrite Hf. cbn [negb andb Z.eqb]. lens_norm.
  rewrite Hf. cbn [Z.eqb]. lens_norm. done.
Qed.

(** A lock this CPU holds is given back. *)
Lemma release_held (s : S) :
  locked (view l s) = 1 -> lk_cpu (view l s) = cpu_ptr (view cpuL s) ->
  eflags_if (view cpuL s) = false -> 0 < ncli (view cpuL s) ->
  release l s = Ret (tt, put l (mkLock (lk_name (view l s)) 0 0)
                          (put cpuL (popped (view cpuL s)) s)).
Proof.
  intros Hl Hc Hi Hn. unfold release, holding. mred.
  rewrite Hl, Hc. cbv beta iota. cbn [Z.eqb negb andb]. rewrite Z.eqb_refl. cbn [negb].
  lens_norm. rewrite popcli_eq by done. cbv beta iota. by rewrite (apart_comm (l := l)).
Qed.

(** Acquiring twice on one CPU panics, whatever the interrupt state. *)
Lemma acquire_held_panics (s : S) :
  locked (view l s) <> 0 -> lk_cpu (view l s) = cpu_ptr (view cpuL s) ->
  acquire l s = Panic "acquire".
Proof.
  intros Hl Hc. unfold acquire, holding. mred.
  rewrite pushcli_eq. cbv beta iota. rewrite apart_view_l, view_put. cbn [cpu_ptr pushed].
  apply Z.eqb_neq in Hl. rewrite Hl, Hc, Z.eqb_refl. done.
Qed.

End laws.

(** ** Balanced use of pushcli and popcli *)

(** A run of calls, [true] for [pushcli] and [false] for [popcli]. *)
Fixpoint run_cli (w : list bool) : M cpu unit :=
  match w with
  | [] => ret tt
  | true :: w => pushcli ;; run_cli w
  | false :: w => popcli ;; run_cli w
  end.

Fixpoint depth (w : list bool) : Z :=
  match w with
  | [] => 0
  | true :: w => 1 + depth w
  | false :: w => -1 + depth w
  end.

(** Started [d] calls deep, the run never pops what it did not push. *)
Fixpoint never_below (d : Z) (w : list bool) : bool :=
  match w with
  | [] => true
  | true :: w => never_below (d + 1) w
  | false :: w => (0 <? d) && never_below (d - 1) w
  end.

(** Inside a run at depth [d > 0] over a base [c]: what the CPU looks like. *)
Record nested (c c' : cpu) (d : Z) : Prop := {
  nest_d : 0 <= d;
  nest_ncli : ncli c' = ncli c + d;
  nest_ptr : cpu_ptr c' = cpu_ptr c;
  nest_off : 0 < d -> eflags_if c' = false;
  nest_saved : 0 < d -> ncli c = 0 -> intena c' = eflags_if c;
  nest_base : d = 0 -> eflags_if c' = eflags_if c
}.

Lemma nested_push c c' d : cpu_ok c -> nested c c' d -> nested c (pushed c') (d + 1).
Proof.
  intros [Hn Hi _] [Hd Hc Hp Ho Hs Hb].
  split; cbn [pushed cpu_ptr ncli intena eflags_if]; try lia; try done.
  intros _ H0. destruct (Z.eqb_spec (ncli c') 0); [apply Hb; lia|apply Hs; lia].
Qed.

Lemma nested_pop c c' d : cpu_ok c -> 0 < d -> nested c c' d -> nested c (popped c') (d - 1).
Proof.
  intros [Hn Hi _] Hd0 [Hd Hc Hp Ho Hs Hb].
  split; cbn [popped cpu_ptr ncli intena eflags_if]; try lia; try done.
  - intros. apply Hs; lia.
  - intros H. destruct (Z.eqb_spec (ncli c' - 1) 0); cbn.
    + apply Hs; lia.
    + symmetry. apply Hi. lia.
Qed.

Lemma run_cli_nested w : forall c c' d,
  cpu_ok c -> nested c c' d -> never_below d w = true ->
  exists c'', run_cli w c' = Ret (tt, c'') /\ nested c c'' (d + depth w).
Proof.
  induction w as [|[] w IH]; intros c c' d Hc Hn Hb; cbn [run_cli depth never_below] in *.
  - exists c'. rewrite Z.add_0_r. done.
  - erewrite bind_ret_eq by apply pushcli_eq.
    replace (d + (1 + depth w)) with (d + 1 + depth w) by lia.
    apply IH; auto using nested_push.
  - apply andb_true_iff in Hb as [Hd Hb]. apply Z.ltb_lt in Hd.
    erewrite bind_ret_eq; [|apply popcli_eq; [by apply (nest_off _ _ _ Hn)|]].
    + replace (d + (-1 + depth w)) with (d - 1 + depth w) by lia.
      apply IH; auto using nested_pop.
    + pose proof (nest_ncli _ _ _ Hn). destruct Hc. lia.
Qed.

(** Matched [pushcli]/[popcli]: a run of calls that never pops more than it
    pushed never panics, leaves interrupts off as long as one push is open,
    and, once every push is popped, leaves the interrupt flag and the nesting
    depth as they were before the run. *)
Theorem pushcli_popcli_matched (c : cpu) (w : list bool) :
  cpu_ok c -> never_below 0 w = true ->
  exists c', run_cli w c = Ret (tt, c') /\ ncli c' = ncli c + depth w /\ 0 <= depth w /\
    (0 < depth w -> eflags_if c' = false) /\
    (depth w = 0 -> eflags_if c' = eflags_if c).
Proof.
  intros Hc Hb. destruct (run_cli_nested w c c 0 Hc) as (c' & Hr & [Hd Hn _ Ho _ Hz]).
  - split; cbn; try lia; done.
  - done.
  - exists c'. split_and!; [done|lia|lia|apply Ho|apply Hz].
Qed.

Lemma pushcli_popcli_matched_witness :
  exists c', run_cli [true; true; false; false] (mkCpu 1 0 false true) = Ret (tt, c') /\ eflags_if c' = true.
Proof.
  destruct (pushcli_popcli_matched (mkCpu 1 0 false true) [true; true; false; false])
    as (c' & Hr & _ & _ & _ & Hz); [split; cbn; lia|reflexivity|].
  exists c'. split; [exact Hr|exact (Hz eq_refl)].
Defined.

(** ** All CPUs contending for one lock *)

Module Contention.

(** Where a CPU stands in [acquire] and [release], one shared-memory access
    per step: [holding] reads [locked] and then [cpu]. *)
Inductive lpc : Type :=
| Idle | AHold1 | AHold2 | AXchg | AOwner
| Crit
| RHold1 | RHold2 | RClear | RXchg | RPop
| Stuck.

Record sys : Type := mkSys { s_lock : spinlock; s_pc : nat -> lpc; s_cpu : nat -> cpu }.

Definition goto (i : nat) (p : lpc) (s : sys) : sys :=
  mkSys (s_lock s) (<[i := p]> (s_pc s)) (s_cpu s).
Definition set_locked (v : Z) (s : sys) : sys :=
  mkSys (mkLock (lk_name (s_lock s)) v (lk_cpu (s_lock s))) (s_pc s) (s_cpu s).
Definition set_owner (v : Z) (s : sys) : sys :=
  mkSys (mkLock (lk_name (s_lock s)) (locked (s_lock s)) v) (s_pc s) (s_cpu s).
Definition set_cpu (i : nat) (c : cpu) (s : sys) : sys :=
  mkSys (s_lock s) (s_pc s) (<[i := c]> (s_cpu s)).

(** The next access of CPU [i]. *)
Definition cpu_step (i : nat) (s : sys) : sys :=
  let me := cpu_ptr (s_cpu s i) in
  match s_pc s i with
  | Idle => match pushcli (s_cpu s i) with
            | Ret (_, c) => goto i AHold1 (set_cpu i c s)
            | _ => goto i Stuck s
            end
  | AHold1 => goto i (if locked (s_lock s) =? 0 then AXchg else AHold2) s
  | AHold2 => goto i (if lk_cpu (s_lock s) =? me then Stuck else AXchg) s
  | AXchg => goto i (if locked (s_lock s) =? 0 then AOwner else AXchg) (set_locked 1 s)
  | AOwner => goto i Crit (set_owner me s)
  | Crit => goto i RHold1 s
  | RHold1 => goto i (if locked (s_lock s) =? 0 then Stuck else RHold2) s
  | RHold2 => goto i (if lk_cpu (s_lock s) =? me then RClear else Stuck) s
  | RClear => goto i RXchg (set_owner 0 s)
  | RXchg => goto i RPop (set_locked 0 s)
  | RPop => match popcli (s_cpu s i) with
            | Ret (_, c) => goto i Idle (set_cpu i c s)
            | _ => goto i Stuck s
            end
  | Stuck => s
  end.

(** Any number of CPUs, in any interleaving, from a freshly initialised lock. *)
Inductive reach (cpus : nat -> cpu) : sys -> Prop :=
| reach_init name : reach cpus (mkSys (initlock name) (fun _ => Idle) cpus)
| reach_step s i : reach cpus s -> reach cpus (cpu_step i s).

(** The CPU has won the [xchg] and not yet undone it. *)
Definition owns (p : lpc) : bool :=
  match p with AOwner | Crit | RHold1 | RHold2 | RClear | RXchg => true | _ => false end.
(** The lock records this CPU as its holder. *)
Definition recorded (p : lpc) : bool :=
  match p with Crit | RHold1 | RHold2 | RClear => true | _ => false end.

Record inv (cpus : nat -> cpu) (s : sys) (o : option nat) : Prop := {
  inv_owner : forall i, owns (s_pc s i) = true <-> o = Some i;
  inv_locked : locked (s_lock s) = match o with Some _ => 1 | None => 0 end;
  inv_cpu : lk_cpu (s_lock s) =
            match o with
            | Some i => if recorded (s_pc s i) then cpu_ptr (cpus i) else 0
            | None => 0
            end;
  inv_stuck : forall i, s_pc s i <> Stuck;
  inv_ok : forall i, cpu_ok (s_cpu s i) /\ cpu_ptr (s_cpu s i) = cpu_ptr (cpus i);
  inv_cli : forall i, s_pc s i <> Idle -> 0 < ncli (s_cpu s i)
}.

(** Split on whether an index is the one just updated. *)
Ltac upd_case i j :=
  destruct (decide (i = j)) as [<-|];
  [rewrite ?fn_lookup_insert in *|rewrite ?fn_lookup_insert_ne in * by done].
Ltac upd_cases :=
  rewrite ?fn_lookup_insert in *;
  repeat match goal with
         | |- context [<[?i := _]> ?f ?j] => upd_case i j
         | _ : context [<[?i := _]> ?f ?j] |- _ => upd_case i j
         end.

Section safety.
Context (cpus : nat -> cpu).
Hypothesis cpus_ok : forall i, cpu_ok (cpus i).
Hypothesis cpus_apart : forall i j, cpu_ptr (cpus i) = cpu_ptr (cpus j) -> i = j.

Lemma inv_init name : inv cpus (mkSys (initlock name) (fun _ => Idle) cpus) None.
Proof. split; cbn; auto; try done. Qed.

(** A CPU changes its interrupt state. *)
Lemma inv_set_cpu s o i c :
  inv cpus s o -> cpu_ok c -> cpu_ptr c = cpu_ptr (cpus i) -> (s_pc s i <> Idle -> 0 < ncli c) ->
  inv cpus (set_cpu i c s) o.
Proof. intros [H1 H2 H3 H4 H5 H6] Hc Hp Hn. split; cbn; try done; intros; upd_cases; auto. Qed.

(** A CPU moves without winning or losing the lock. *)
Lemma inv_goto s o i p :
  inv cpus s o -> owns p = owns (s_pc s i) -> recorded p = recorded (s_pc s i) -> p <> Stuck ->
  (p <> Idle -> 0 < ncli (s_cpu s i)) -> inv cpus (goto i p s) o.
Proof.
  intros [H1 H2 H3 H4 H5 H6] Ho Hr Hs Hn. split; cbn; try done; intros; upd_cases; auto.
  - rewrite Ho. apply H1.
  - rewrite H3. destruct o as [j|]; [|done]. upd_cases; [by rewrite Hr|done].
Qed.

(** The owner changes what the lock records while it moves. *)
Lemma inv_owner_move s i p v :
  inv cpus s (Some i) -> owns p = true -> p <> Stuck -> p <> Idle ->
  v = (if recorded p then cpu_ptr (cpus i) else 0) ->
  inv cpus (goto i p (set_owner v s)) (Some i).
Proof.
  intros [H1 H2 H3 H4 H5 H6] Ho Hs Hi Hv. split; cbn; try done; intros; upd_cases; auto.
  - rewrite Ho. done.
  - apply H6. intros Hx. assert (owns (s_pc s i) = true) as Hy by (by apply H1). by rewrite Hx in Hy.
Qed.

(** The lock passes from nobody to CPU [i], and back. *)
Lemma inv_win s i :
  inv cpus s None -> s_pc s i = AXchg -> inv cpus (goto i AOwner (set_locked 1 s)) (Some i).
Proof.
  intros [H1 H2 H3 H4 H5 H6] Hp. split; cbn; try done; intros; upd_cases; auto.
  - done.
  - rewrite H1. split; [done|]. congruence.
  - apply H6. by rewrite Hp.
Qed.

Lemma inv_lose s i :
  inv cpus s (Some i) -> s_pc s i = RXchg -> inv cpus (goto i RPop (set_locked 0 s)) None.
Proof.
  intros [H1 H2 H3 H4 H5 H6] Hp. split; cbn; try done; intros; upd_cases; auto.
  - done.
  - rewrite H1. split; congruence.
  - by rewrite H3, Hp.
  - apply H6. by rewrite Hp.
Qed.

Lemma inv_step s o i : inv cpus s o -> exists o', inv cpus (cpu_step i s) o'.
Proof.
  intros H. pose proof H as [H1 H2 H3 H4 H5 H6]. destruct (H5 i) as [Hok Hptr].
  pose proof (H6 i) as Hn. pose proof (H1 i) as Hi. unfold cpu_step.
  destruct (s_pc s i) eqn:Hp; cbn [owns] in *.
  - (* pushcli *)
    rewrite pushcli_eq. exists o. apply inv_goto; cbn; rewrite ?Hp, ?fn_lookup_insert; try done.
    + apply inv_set_cpu; [done|by apply pushed_ok|done|]. intros _. destruct Hok. cbn. lia.
    + intros _. destruct Hok. cbn. lia.
  - (* holding reads locked *)
    exists o. apply inv_goto; rewrite ?Hp; auto; by destruct (locked (s_lock s) =? 0).
  - (* holding reads cpu: another CPU's *)
    exists o. assert (lk_cpu (s_lock s) <> cpu_ptr (s_cpu s i)) as Hne.
    { rewrite H3, Hptr. destruct o as [j|]; [|destruct (cpus_ok i); lia].
      destruct (recorded (s_pc s j)) eqn:E; [|destruct (cpus_ok i); lia].
      intros Hj. apply cpus_apart in Hj. subst j. by rewrite Hp in E. }
    apply Z.eqb_neq in Hne. rewrite Hne. apply inv_goto; rewrite ?Hp; auto; done.
  - (* xchg *)
    rewrite H2. destruct o as [j|]; cbn [Z.eqb].
    + exists (Some j). replace (set_locked 1 s) with s.
      * apply inv_goto; rewrite ?Hp; auto; done.
      * destruct s as [[] ? ?]. unfold set_locked. cbn in *. by rewrite H2.
    + exists (Some i). by apply inv_win.
  - assert (o = Some i) as -> by (by apply Hi). exists (Some i). rewrite Hptr. by apply inv_owner_move.
  - exists o. apply inv_goto; rewrite ?Hp; auto; done.
  - assert (o = Some i) as -> by (by apply Hi). rewrite H2. cbn [Z.eqb].
    exists (Some i). apply inv_goto; rewrite ?Hp; auto; done.
  - assert (o = Some i) as -> by (by apply Hi). rewrite H3, Hp. cbn [recorded]. rewrite Hptr, Z.eqb_refl.
    exists (Some i). apply inv_goto; rewrite ?Hp; auto; done.
  - assert (o = Some i) as -> by (by apply Hi). exists (Some i). by apply inv_owner_move.
  - assert (o = Some i) as -> by (by apply Hi). exists None. by apply inv_lose.
  - (* popcli *)
    assert (0 < ncli (s_cpu s i)) as Hpos by (by apply Hn).
    rewrite popcli_eq by (try (by apply Hok); done). exists o.
    change (goto i Idle (set_cpu i (popped (s_cpu s i)) s))
      with (set_cpu i (popped (s_cpu s i)) (goto i Idle s)).
    apply inv_set_cpu; [apply inv_goto; by rewrite ?Hp|by apply popped_ok|done|].
    cbn. by rewrite fn_lookup_insert.
  - by destruct (H4 i).
Qed.

Lemma reach_inv s : reach cpus s -> exists o, inv cpus s o.
Proof. induction 1 as [name|s i _ [o Ho]]; [exists None; apply inv_init|by eapply inv_step]. Qed.

(** The owner runs through release. *)
Lemma release_steps s i : inv cpus s (Some i) -> s_pc s i = Crit ->
  let s' := Nat.iter 6 (cpu_step i) s in s_pc s' i = Idle /\ locked (s_lock s') = 0 /\ s_cpu s' i = popped (s_cpu s i).
Proof.
  intros [H1 H2 H3 H4 H5 H6] Hi. rewrite Hi in H3. cbn [recorded] in H3. destruct (H5 i) as [Hok Hptr].
  assert (0 < ncli (s_cpu s i)) as Hn by (apply H6; by rewrite Hi).
  assert (cpu_step i s = goto i RHold1 s) as E1 by (unfold cpu_step; by rewrite Hi).
  set (s1 := goto i RHold1 s) in *. set (s2 := goto i RHold2 s1). set (s3 := goto i RClear s2). set (s4 := goto i RXchg (set_owner 0 s3)). set (s5 := goto i RPop (set_locked 0 s4)).
  assert (s_pc s1 i = RHold1 /\ s_pc s2 i = RHold2 /\ s_pc s3 i = RClear /\ s_pc s4 i = RXchg /\ s_pc s5 i = RPop) as (P1 & P2 & P3 & P4 & P5) by (split_and!; apply fn_lookup_insert).
  assert (cpu_step i s1 = s2) as E2 by (unfold cpu_step; rewrite P1; cbn [s1 s_lock goto]; by rewrite H2).
  assert (cpu_step i s2 = s3) as E3 by (unfold cpu_step; rewrite P2; cbn [s1 s2 s_lock s_cpu goto]; by rewrite H3, Hptr, Z.eqb_refl).
  assert (cpu_step i s3 = s4) as E4 by (unfold cpu_step; by rewrite P3). assert (cpu_step i s4 = s5) as E5 by (unfold cpu_step; by rewrite P4).
  cbn [Nat.iter nat_rect]. rewrite E1, E2, E3, E4, E5. unfold cpu_step. rewrite P5. change (s_cpu s5 i) with (s_cpu s i). rewrite popcli_eq by (try (by apply Hok); done). cbn. by rewrite !fn_lookup_insert.
Qed.

End safety.

(** C27 The lock excludes and never panics.  However the CPUs interleave their
    accesses, no CPU reaches a panic of [acquire] or [release], and at most one of
    them is between [acquire] and [release].  For a CPU that is, the lock is taken
    and names it, so that [holding] answers for it alone, its interrupts are off,
    and the six accesses of its release give the lock back, with the interrupt
    state of one popcli. *)
Theorem mutual_exclusion (cpus : nat -> cpu) (s : sys) :
  (forall k, cpu_ok (cpus k)) -> (forall k l, cpu_ptr (cpus k) = cpu_ptr (cpus l) -> k = l) -> reach cpus s ->
  (forall i, s_pc s i <> Stuck) /\
  (forall i j, s_pc s i = Crit -> s_pc s j = Crit -> i = j) /\
  forall i, s_pc s i = Crit ->
    locked (s_lock s) = 1 /\ (forall j, lk_cpu (s_lock s) = cpu_ptr (s_cpu s j) <-> i = j) /\ eflags_if (s_cpu s i) = false /\
    let s' := Nat.iter 6 (cpu_step i) s in s_pc s' i = Idle /\ locked (s_lock s') = 0 /\ s_cpu s' i = popped (s_cpu s i).
Proof.
  intros Hok Hap Hr. destruct (reach_inv cpus Hok Hap s Hr) as [o H]. pose proof H as [H1 H2 H3 H4 H5 H6].
  assert (forall i, s_pc s i = Crit -> o = Some i) as Ho by (intros i Hi; apply H1; by rewrite Hi).
  split_and!; [exact H4|intros i j Hi%Ho Hj%Ho; congruence|]. intros i Hi. pose proof (Ho i Hi) as ->. rewrite Hi in H3. cbn [recorded] in H3. split_and!.
  - done.
  - intros j. rewrite H3. destruct (H5 j) as [_ ->]. split; [apply Hap|by intros ->].
  - destruct (H5 i) as [Hc _]. apply Hc, H6. by rewrite Hi.
  - by apply (release_steps cpus).
Qed.

(** Two CPUs; the first has taken the lock, the second is spinning. *)
Definition two_cpus (i : nat) : cpu := mkCpu (1 + Z.of_nat i) 0 false true.
Definition demo : sys :=
  cpu_step 1 (cpu_step 1 (cpu_step 0 (cpu_step 1 (cpu_step 1 (cpu_step 0 (cpu_step 0 (cpu_step 0
    (mkSys (initlock "demo") (fun _ => Idle) two_cpus)))))))).

Lemma mutual_exclusion_witness : s_pc demo 0 = Crit /\ s_pc demo 1 = AXchg /\ s_pc demo 1 <> Stuck /\ locked (s_lock (Nat.iter 6 (cpu_step 0) demo)) = 0.
Proof.
  destruct (mutual_exclusion two_cpus demo) as (H1 & H2 & H3).
  - intros k. split; unfold two_cpus; cbn; lia.
  - intros k l. unfold two_cpus. cbn [cpu_ptr]. lia.
  - unfold demo. repeat apply reach_step. apply reach_init.
  - split; [reflexivity|]. split; [reflexivity|]. split; [apply H1|]. apply (H3 0%nat). reflexivity.
Defined.

End Contention.
