(* ===== verification/Pages.v ===== *)
(** * Pages of physical memory: the interface between kalloc.c and its clients

    The layout of kernel memory the linker script fixes, pages as aligned
    4096-byte ranges, and what the page allocator promises to the code that
    calls [kalloc] and [kfree].  Kalloc.v discharges the promise; vm.c and the
    shared-memory code are verified against it. *)

From Stdlib Require Import ZArith Lia String Bool.
From stdpp Require Import base numbers list.
From S2P Require Import Prelude Params Mem.

(** ** Kernel layout *)

(** The linker symbols [data] and [end].  kernel.ld links the kernel at
    KERNLINK, aligns [data] to a page and puts [end] after it; main.c calls
    [kinit1] on [end, 4MB), so [end] lies below 4MB. *)
Class Layout : Type := {
  k_data : Z;
  k_end : Z;
  k_data_lo : KERNLINK < k_data;
  k_data_aligned : k_data mod PGSIZE = 0;
  k_data_end : k_data <= k_end;
  k_end_hi : k_end <= KERNBASE + 0x400000
}.

(** The symbols of the kernel image in the repository (kernel.sym). *)
Definition kernel_sym : Layout.
Proof. refine {| k_data := 0x8010a000; k_end := 0x8012a55c |}; reflexivity || (cbv; discriminate). Defined.

(** Closed facts about concrete pages. *)
Ltac page_ok_tac := repeat split; vm_compute; first [reflexivity|discriminate|congruence].

(** ** Pages *)

Section pages.
Context {Lay : Layout}.

(** The pages [kfree] accepts, as kernel addresses. *)
Definition page_ok (p : Z) : Prop :=
  p mod PGSIZE = 0 /\ k_end <= p /\ p < KERNBASE + PHYSTOP.

Definition in_page (p a : Z) : Prop := p <= a < p + PGSIZE.

#[global] Instance in_page_dec p a : Decision (in_page p a).
Proof. unfold in_page. apply _. Defined.

(** The bytes of the pages of a list. *)
Definition in_pages (l : list Z) (a : Z) : Prop := exists p, p ∈ l /\ in_page p a.

Lemma page_ok_bounds p : page_ok p -> 0x80100000 < p /\ p + PGSIZE <= 0x8E000000.
Proof.
  intros (Hal & Hlo & Hhi). pose proof k_data_lo. pose proof k_data_end.
  autounfold with consts in *. split; [lia|mlia].
Qed.

(** A page by its physical address, as page tables store it. *)
Lemma page_phys p : page_ok p ->
  v2p p = p - KERNBASE /\ v2p p mod 4096 = 0 /\ 0 < v2p p < PHYSTOP /\ p2v (v2p p) = p.
Proof.
  intros H. pose proof (page_ok_bounds p H) as [Hlo Hhi]. destruct H as (Hal & _ & Hp).
  unfold v2p, p2v, u32. autounfold with consts in *. split_and!; mlia.
Qed.

Lemma in_page_unique p q a :
  p mod PGSIZE = 0 -> q mod PGSIZE = 0 -> in_page p a -> in_page q a -> p = q.
Proof. unfold in_page, PGSIZE. intros. mlia. Qed.

Lemma pages_apart p q a b :
  page_ok p -> page_ok q -> p <> q -> in_page p a -> in_page q b -> a <> b.
Proof. intros [Hp _] [Hq _] Hne Ha Hb ->. by apply Hne, (in_page_unique p q b). Qed.

Lemma ld8_clear_page m p a :
  ld8 (memset m p 0 PGSIZE) a = if decide (in_page p a) then 0 else ld8 m a.
Proof.
  rewrite ld8_memset. unfold in_page. case_decide as H;
    destruct (Z.leb_spec p a); destruct (Z.ltb_spec a (p + PGSIZE)); cbn; done || lia.
Qed.

Lemma ld8_copy_page m p q a :
  ld8 (memmove m p q PGSIZE) a = if decide (in_page p a) then ld8 m (q + (a - p)) else ld8 m a.
Proof.
  rewrite ld8_memmove by done. unfold in_page. case_decide as H;
    destruct (Z.leb_spec p a); destruct (Z.ltb_spec a (p + PGSIZE)); cbn; done || lia.
Qed.

Lemma in_pages_cons p l a : in_pages (p :: l) a <-> in_page p a \/ in_pages l a.
Proof.
  unfold in_pages. split.
  - intros (q & Hq & Ha). apply elem_of_cons in Hq as [->|Hq]; [by left|right; by exists q].
  - intros [Ha|(q & Hq & Ha)]; [exists p|exists q]; split; by rewrite ?elem_of_cons; auto.
Qed.

Lemma not_in_pages p l a :
  page_ok p -> Forall page_ok l -> p ∉ l -> in_page p a -> ~ in_pages l a.
Proof.
  intros Hp Hl Hn Ha (q & Hq & Hqa). rewrite Forall_forall in Hl. specialize (Hl q Hq).
  apply Hn. by rewrite (in_page_unique p q a (proj1 Hp) (proj1 Hl) Ha Hqa).
Qed.

End pages.

(** ** The allocator's operations and promise *)

(** A state with memory, on which pages can be allocated and freed. *)
Class PageOps (S : Type) : Type := {
  memL : lens S mem;
  kalloc : M S Z;
  kfree : Z -> M S unit
}.

Section ops.
Context {S : Type} {PO : PageOps S}.
Definition mem_of (s : S) : mem := view memL s.
Definition load32 (a : Z) : M S Z := gets (fun s => ld32 (mem_of s) a).
Definition store32 (a v : Z) : M S unit := modify (fun s => put memL (st32 (mem_of s) a v) s).
Definition on_mem (f : mem -> mem) : M S unit := modify (fun s => put memL (f (mem_of s)) s).
End ops.

(** [free_pages s l]: the allocator is in order and its free list is [l].
    [env s s']: the two states differ at most in memory and in the free list. *)
Class PageSpec (S : Type) {Lay : Layout} {PO : PageOps S} : Type := {
  free_pages : S -> list Z -> Prop;
  env : S -> S -> Prop;
  env_equiv :: Equivalence env;
  env_mem : forall s m, env s (put memL m s);
  mem_ok :: LensOk (memL : lens S mem);
  free_nodup : forall s l, free_pages s l -> NoDup l;
  free_ok : forall s l, free_pages s l -> Forall page_ok l;
  free_frame : forall s l m, free_pages s l -> agree (in_pages l) (mem_of s) m ->
    free_pages (put memL m s) l;
  kalloc_spec : forall s l, free_pages s l ->
    exists s', kalloc s = Ret (hd 0 l, s') /\ free_pages s' (tail l) /\
               mem_of s' = mem_of s /\ env s s';
  kfree_spec : forall s l p, free_pages s l -> page_ok p -> p ∉ l ->
    exists s', kfree p s = Ret (tt, s') /\ free_pages s' (p :: l) /\
               agree (fun a => ~ in_page p a) (mem_of s) (mem_of s') /\ env s s'
}.

(** The same operations on a part of a larger state. *)
Definition PageOps_zoom {S T : Type} {PO : PageOps S} (l : lens T S) : PageOps T := {|
  memL := lens_comp l memL;
  kalloc := zoom l kalloc;
  kfree := fun v => zoom l (kfree v)
|}.

Section facts.
Context {S : Type} {Lay : Layout} {PO : PageOps S} {PS : PageSpec S}.

Lemma mem_of_put m (s : S) : mem_of (put memL m s) = m.
Proof. apply view_put. Qed.

Lemma load32_eq a (s : S) : load32 a s = Ret (ld32 (mem_of s) a, s).
Proof. done. Qed.
Lemma store32_eq a v (s : S) : store32 a v s = Ret (tt, put memL (st32 (mem_of s) a v) s).
Proof. done. Qed.

(** A word store outside the free pages. *)
Lemma free_store32 (s : S) l a v :
  free_pages s l -> (forall b, a <= b < a + 4 -> ~ in_pages l b) ->
  free_pages (put memL (st32 (mem_of s) a v) s) l.
Proof.
  intros H Ha. apply free_frame; [done|]. intros b Hb. apply st32_agree. cbn.
  intros Hc. by apply (Ha b).
Qed.

End facts.

(** ** The promise on a larger state *)

Section zoomed.
Context {S T : Type} {Lay : Layout} {PO : PageOps S} {PS : PageSpec S}.
Context (l : lens T S) `{!LensOk l}.

Definition env_zoom (t t' : T) : Prop := env (view l t) (view l t') /\ t' = put l (view l t') t.

#[local] Instance env_zoom_equiv : Equivalence env_zoom.
Proof.
  split.
  - intros t. split; [done|by rewrite put_view].
  - intros t t' [H1 H2]. split; [done|]. rewrite H2, put_put. by rewrite put_view.
  - intros t t' t'' [H1 H2] [H3 H4]. split; [by etransitivity|].
    rewrite H4 at 1. rewrite H2 at 1. by rewrite put_put.
Qed.

Lemma zoom_env {A : Type} (c : M S A) (t : T) (s : S) (a : A) :
  c (view l t) = Ret (a, s) -> env (view l t) s ->
  zoom l c t = Ret (a, put l s t) /\ env_zoom t (put l s t).
Proof. intros H He. split; [by apply zoom_ret|]. split; by rewrite view_put. Qed.

Definition PageSpec_zoom : @PageSpec T Lay (PageOps_zoom l).
Proof.
  refine {| free_pages t k := free_pages (view l t) k; env := env_zoom |}.
  - intros t m. split; cbn; rewrite view_put; [apply env_mem|done].
  - intros t k. apply free_nodup.
  - intros t k. apply free_ok.
  - intros t k m H Ha. cbn. rewrite view_put. by apply free_frame.
  - intros t k H. destruct (kalloc_spec _ _ H) as (s & H1 & H2 & H3 & H4).
    destruct (zoom_env _ t s _ H1 H4) as [H5 H6]. exists (put l s t). split_and!; [done| | |done].
    + by rewrite view_put.
    + unfold mem_of. cbn. by rewrite view_put.
  - intros t k p H Hp Hn. destruct (kfree_spec _ _ _ H Hp Hn) as (s & H1 & H2 & H3 & H4).
    destruct (zoom_env _ t s _ H1 H4) as [H5 H6]. exists (put l s t). split_and!; [done| | |done].
    + by rewrite view_put.
    + unfold mem_of. cbn. by rewrite view_put.
Defined.

End zoomed.
