(* ===== verification/Kalloc.v ===== *)
(** * The physical page allocator (kalloc.c, first part)

    Free pages form a linked list threaded through the pages themselves.  The
    file translates [kinit1], [kinit2], [freerange], [kfree] and [kalloc] with
    their locking, relates the list in memory to the list of free pages, and
    shows that the code keeps the promise of Pages.v. *)

From Stdlib Require Import ZArith Lia String Bool.
From stdpp Require Import base numbers list.
From S2P Require Import Prelude Params Mem Spinlock Pages.

(** ** State *)

Record kmem_t : Type := mkKmem { kmem_lock : spinlock; use_lock : Z; freelist : Z }.

(** The allocator's view of the machine: the CPU that runs it, memory, and
    the structure kmem. *)
Record kst : Type := mkKst { ks_cpu : cpu; ks_mem : mem; kmem : kmem_t }.

#[export] Instance kst_cpu : HasCpu kst :=
  Lens ks_cpu (fun c s => mkKst c (ks_mem s) (kmem s)).
Definition ks_memL : lens kst mem := Lens ks_mem (fun m s => mkKst (ks_cpu s) m (kmem s)).
Definition kmemL : lens kst kmem_t := Lens kmem (fun k s => mkKst (ks_cpu s) (ks_mem s) k).
Definition kmem_lockL : lens kst spinlock :=
  Lens (fun s => kmem_lock (kmem s))
       (fun k s => put kmemL (mkKmem k (use_lock (kmem s)) (freelist (kmem s))) s).

Definition set_freelist (v : Z) : M kst unit :=
  modify (fun s => put kmemL (mkKmem (kmem_lock (kmem s)) (use_lock (kmem s)) v) s).
Definition set_use_lock (v : Z) : M kst unit :=
  modify (fun s => put kmemL (mkKmem (kmem_lock (kmem s)) v (freelist (kmem s))) s).

(** ** Operations *)

Section ops.
Context {Lay : Layout}.

Definition kmem_kfree (v : Z) : M kst unit :=
  if negb (v mod PGSIZE =? 0) || (v <? k_end) || (PHYSTOP <=? v2p v) then panic "kfree" else
  modify (fun s => put ks_memL (memset (ks_mem s) v 1 PGSIZE) s) ;;
  let* ul := gets (fun s => use_lock (kmem s)) in
  (if negb (ul =? 0) then acquire kmem_lockL else ret tt) ;;
  let* head := gets (fun s => freelist (kmem s)) in
  modify (fun s => put ks_memL (st32 (ks_mem s) v head) s) ;;
  set_freelist v ;;
  let* ul := gets (fun s => use_lock (kmem s)) in
  if negb (ul =? 0) then release kmem_lockL else ret tt.

Definition kmem_kalloc : M kst Z :=
  let* ul := gets (fun s => use_lock (kmem s)) in
  (if negb (ul =? 0) then acquire kmem_lockL else ret tt) ;;
  let* r := gets (fun s => freelist (kmem s)) in
  (if negb (r =? 0) then
     let* next := gets (fun s => ld32 (ks_mem s) r) in set_freelist next
   else ret tt) ;;
  let* ul := gets (fun s => use_lock (kmem s)) in
  (if negb (ul =? 0) then release kmem_lockL else ret tt) ;;
  ret r.

(** The loop [for(; p + PGSIZE <= vend; p += PGSIZE) kfree(p)]. *)
Fixpoint freerange_loop (fuel : nat) (p vend : Z) : M kst unit :=
  match fuel with
  | O => if p + PGSIZE <=? vend then nofuel else ret tt
  | S fuel => if p + PGSIZE <=? vend
              then kmem_kfree p ;; freerange_loop fuel (p + PGSIZE) vend else ret tt
  end.

Definition freerange (vstart vend : Z) : M kst unit :=
  let p := PGROUNDUP vstart in
  freerange_loop (Z.to_nat ((vend - p) / PGSIZE)) p vend.

Definition kinit1 (vstart vend : Z) : M kst unit :=
  modify (put kmem_lockL (initlock "kmem")) ;;
  set_use_lock 0 ;;
  freerange vstart vend.

Definition kinit2 (vstart vend : Z) : M kst unit :=
  freerange vstart vend ;;
  set_use_lock 1.

#[export] Instance kst_pages : PageOps kst := {|
  memL := ks_memL;
  kalloc := kmem_kalloc;
  kfree := kmem_kfree
|}.

End ops.

#[export] Instance ks_memL_ok : LensOk ks_memL.
Proof. split; intros; by destruct s. Qed.
#[export] Instance kmem_lockL_ok : LensOk kmem_lockL.
Proof. split; intros; by destruct s as [? ? []]. Qed.
#[export] Instance kst_cpu_ok : LensOk (cpuL : lens kst cpu).
Proof. split; intros; by destruct s. Qed.
#[export] Instance kst_lock_cpu : LensApart kmem_lockL (cpuL : lens kst cpu).
Proof. by split. Qed.

(** ** The free list in memory *)

(** The list of pages linked from [h], each page's first word the next one. *)
Fixpoint flist (m : mem) (h : Z) (l : list Z) : Prop :=
  match l with
  | [] => h = 0
  | p :: l => h = p /\ flist m (ld32 m p) l
  end.

Section proofs.
Context {Lay : Layout}.

Record alloc_inv (s : kst) (l : list Z) : Prop := {
  ai_cpu : cpu_ok (ks_cpu s);
  ai_unlocked : locked (kmem_lock (kmem s)) = 0;
  ai_list : flist (ks_mem s) (freelist (kmem s)) l;
  ai_nodup : NoDup l;
  ai_pages : Forall page_ok l
}.

(** Only memory and the free list differ; the lock is free in both. *)
Record alloc_env (s s' : kst) : Prop := {
  ae_cpu : same_cpu (ks_cpu s) (ks_cpu s');
  ae_use : use_lock (kmem s') = use_lock (kmem s);
  ae_name : lk_name (kmem_lock (kmem s')) = lk_name (kmem_lock (kmem s))
}.

#[export] Instance alloc_env_equiv : Equivalence alloc_env.
Proof.
  split.
  - intros s. by split.
  - intros s s' [? ? ?]. split; [by symmetry|done|done].
  - intros s s' s'' [A ? ?] [B ? ?]. split; [by rewrite A|congruence|congruence].
Qed.

Lemma flist_agree m m' l : forall h,
  flist m h l -> Forall page_ok l -> agree (in_pages l) m m' -> flist m' h l.
Proof.
  induction l as [|p l IH]; intros h; cbn [flist]; [done|]. intros [-> Hl] Hok Ha.
  apply Forall_cons in Hok as [Hp Hok]. split; [done|].
  rewrite (ld32_agree _ _ _ p Ha).
  - apply IH; [done|done|]. eapply agree_weaken; [|exact Ha]. intros a H. by apply in_pages_cons; right.
  - intros b Hb. apply in_pages_cons. left. unfold in_page, PGSIZE. lia.
Qed.

Lemma flist_head_range m h l : flist m h l -> Forall page_ok l -> 0 <= h < 0x100000000.
Proof.
  destruct l as [|p l]; cbn [flist]; [lia|]. intros [-> _] [Hp _]%Forall_cons.
  pose proof (page_ok_bounds p Hp). clia.
Qed.

Lemma flist_head_nz m h p l : flist m h (p :: l) -> page_ok p -> h <> 0.
Proof. intros [-> _] Hp. pose proof (page_ok_bounds p Hp). lia. Qed.

(** The code between the two conditional lock operations runs with the lock
    held or, before [kinit2], without it; either way it returns to a state
    with the same CPU and a free lock. *)
Definition under_lock (s s' : kst) : Prop :=
  if use_lock (kmem s) =? 0 then s' = s
  else s' = put kmem_lockL (mkLock (lk_name (kmem_lock (kmem s))) 1 (cpu_ptr (ks_cpu s)))
                (put cpuL (pushed (ks_cpu s)) s).

Lemma enter_lock s :
  locked (kmem_lock (kmem s)) = 0 ->
  exists s', (if negb (use_lock (kmem s) =? 0) then acquire kmem_lockL else ret tt) s = Ret (tt, s')
             /\ under_lock s s'.
Proof.
  intros H. unfold under_lock. destruct (use_lock (kmem s) =? 0); cbn [negb]; [by exists s|].
  eexists. split; [exact (acquire_free kmem_lockL s H)|done].
Qed.

Lemma leave_lock s s1 s2 :
  cpu_ok (ks_cpu s) -> locked (kmem_lock (kmem s)) = 0 -> under_lock s s1 ->
  ks_cpu s2 = ks_cpu s1 -> kmem_lock (kmem s2) = kmem_lock (kmem s1) ->
  use_lock (kmem s2) = use_lock (kmem s) ->
  exists s3, (if negb (use_lock (kmem s2) =? 0) then release kmem_lockL else ret tt) s2 = Ret (tt, s3) /\
    ks_mem s3 = ks_mem s2 /\ freelist (kmem s3) = freelist (kmem s2) /\
    locked (kmem_lock (kmem s3)) = 0 /\ alloc_env s s3.
Proof.
  intros Hc Hl Hu E1 E2 E3. unfold under_lock in Hu. rewrite E3.
  destruct (use_lock (kmem s) =? 0); cbn [negb].
  - subst s1. exists s2. split_and!; try done; [by rewrite E2|]. split; rewrite ?E1, ?E2; done.
  - destruct Hc as [Hn Hi Hp]. subst s1. cbn in E1, E2.
    eexists. split.
    + apply (release_held kmem_lockL); cbn; rewrite ?E1, ?E2; cbn; done || lia.
    + cbn. split_and!; try done. split; cbn; rewrite ?E1, ?E2, ?E3; try done.
      by apply popped_pushed.
Qed.

Lemma under_lock_fields s s' : under_lock s s' ->
  ks_mem s' = ks_mem s /\ freelist (kmem s') = freelist (kmem s) /\ use_lock (kmem s') = use_lock (kmem s).
Proof. unfold under_lock. by destruct (use_lock (kmem s) =? 0); intros ->. Qed.

Lemma kmem_kalloc_spec s l : alloc_inv s l ->
  exists s', kmem_kalloc s = Ret (hd 0 l, s') /\ alloc_inv s' (tail l) /\
             ks_mem s' = ks_mem s /\ alloc_env s s'.
Proof.
  intros [Hc Hl Hf Hn Hp]. unfold kmem_kalloc. mstep.
  destruct (enter_lock s Hl) as (s1 & H1 & Hu). mstep_with H1. mstep.
  destruct (under_lock_fields _ _ Hu) as (Em & Ef & Eu). rewrite Ef.
  assert (exists s2, (if negb (freelist (kmem s) =? 0) then
            let* next := gets (fun s' => ld32 (ks_mem s') (freelist (kmem s))) in set_freelist next
            else ret tt) s1 = Ret (tt, s2) /\
          ks_cpu s2 = ks_cpu s1 /\ kmem_lock (kmem s2) = kmem_lock (kmem s1) /\
          use_lock (kmem s2) = use_lock (kmem s) /\ ks_mem s2 = ks_mem s /\
          flist (ks_mem s) (freelist (kmem s2)) (tail l))
    as (s2 & Hpop & Ec2 & El2 & Eu2 & Em2 & Hf2).
  { destruct l as [|p l].
    - cbn in Hf. rewrite Hf. cbn [Z.eqb negb]. exists s1. split_and!; try done. cbn. congruence.
    - pose proof (flist_head_nz _ _ _ _ Hf (Forall_inv Hp)) as Hnz. apply Z.eqb_neq in Hnz as ->.
      cbn [negb]. eexists. split; [reflexivity|]. cbn. rewrite Em. destruct Hf as [-> Hf]. done. }
  mstep_with Hpop. mstep.
  destruct (leave_lock s s1 s2 Hc Hl Hu Ec2 El2 Eu2) as (s3 & H3 & Em3 & Ef3 & Hl3 & Henv).
  mstep_with H3. exists s3. split_and!; try done.
  - unfold ret. do 3 f_equal. destruct l; [done|by destruct Hf].
  - split; [by rewrite <- (ae_cpu _ _ Henv)|done| | |].
    + by rewrite Em3, Em2, Ef3.
    + destruct l; [done|]. by apply NoDup_cons in Hn as [_ ?].
    + destruct l; [done|]. by apply Forall_cons in Hp as [_ ?].
  - congruence.
Qed.

(** The test of [kfree] is the definition of an allocatable page. *)
Lemma kfree_guard p : 
  negb (p mod PGSIZE =? 0) || (p <? k_end) || (PHYSTOP <=? v2p p) = false <->
  p mod PGSIZE = 0 /\ k_end <= p /\ v2p p < PHYSTOP.
Proof.
  rewrite !orb_false_iff, negb_false_iff, Z.eqb_eq, Z.ltb_ge, Z.leb_gt. tauto.
Qed.

Lemma page_ok_guard p : page_ok p ->
  negb (p mod PGSIZE =? 0) || (p <? k_end) || (PHYSTOP <=? v2p p) = false.
Proof. intros H. apply kfree_guard. destruct (page_phys p H) as (_ & _ & ? & _). destruct H as (? & ? & _). lia. Qed.

Lemma kmem_kfree_spec s l p : alloc_inv s l -> page_ok p -> p ∉ l ->
  exists s', kmem_kfree p s = Ret (tt, s') /\ alloc_inv s' (p :: l) /\
    (forall a, ld8 (ks_mem s') a =
       if (p + 4 <=? a) && (a <? p + PGSIZE) then 1
       else if (p <=? a) && (a <? p + 4) then u8 (Z.shiftr (freelist (kmem s)) (8 * (a - p)))
       else ld8 (ks_mem s) a) /\
    alloc_env s s'.
Proof.
  intros [Hc Hl Hf Hn Hp] Hok Hnin. unfold kmem_kfree. rewrite page_ok_guard by done.
  mstep. mstep.
  set (s0 := put ks_memL (memset (ks_mem s) p 1 PGSIZE) s).
  destruct (enter_lock s0 Hl) as (s1 & H1 & Hu). mstep_with H1.
  destruct (under_lock_fields _ _ Hu) as (Em & Ef & Eu).
  mstep. mstep. mstep. mstep.
  match goal with |- exists _, _ ?s2 = _ /\ _ => 
    destruct (leave_lock s0 s1 s2 Hc Hl Hu) as (s3 & H3 & Em3 & Ef3 & Hl3 & Henv); try done end.
  cbn in Em3, Ef3. rewrite Em, Ef in *.
  assert (Hmem : forall a, ld8 (ks_mem s3) a =
       if (p + 4 <=? a) && (a <? p + PGSIZE) then 1
       else if (p <=? a) && (a <? p + 4) then u8 (Z.shiftr (freelist (kmem s)) (8 * (a - p)))
       else ld8 (ks_mem s) a).
  { intros a. rewrite Em3. cbn. rewrite ld8_st32, ld8_memset. unfold PGSIZE. addr_cases; done || lia. }
  exists s3. split_and!; [exact H3| |done|].
  - split; [by rewrite <- (ae_cpu _ _ Henv)|done| | |by constructor].
    + cbn [flist]. rewrite Ef3. split; [done|].
      rewrite Em3 at 2. cbn. rewrite ld32_st32_same, u32_small by (by eapply flist_head_range).
      apply flist_agree with (ks_mem s); [done|done|].
      intros a Ha. rewrite Hmem. addr_cases; try done; exfalso;
        apply (not_in_pages p l a Hok Hp Hnin); unfold in_page; try done; clia.
    + apply NoDup_cons. done.
  - etransitivity; [|exact Henv]. by split.
Qed.

#[export] Instance kst_page_spec : PageSpec kst.
Proof.
  refine {| free_pages := alloc_inv; env := alloc_env |}.
  - by split.
  - by intros s l [].
  - by intros s l [].
  - intros s l m [] Ha. split; try done. cbn. by apply flist_agree with (ks_mem s).
  - apply kmem_kalloc_spec.
  - intros s l p Hs Hp Hn. destruct (kmem_kfree_spec s l p Hs Hp Hn) as (s' & H1 & H2 & H3 & H4).
    exists s'. split_and!; try done. intros a Ha. unfold mem_of. cbn. rewrite H3.
    unfold in_page in Ha. addr_cases; try done; clia.
Defined.

(** ** Filling the free list at boot *)

(** The pages of a range, from its first page upwards. *)
Fixpoint page_range (p : Z) (n : nat) : list Z :=
  match n with
  | O => []
  | S n => p :: page_range (p + PGSIZE) n
  end.

Lemma elem_of_page_range n : forall p q,
  q ∈ page_range p n <-> exists i, 0 <= i < Z.of_nat n /\ q = p + i * PGSIZE.
Proof.
  induction n as [|n IH]; intros p q; cbn [page_range].
  - rewrite elem_of_nil. split; [done|]. intros (i & Hi & _). lia.
  - rewrite elem_of_cons, IH. split.
    + intros [->|(i & Hi & ->)]; [exists 0|exists (i + 1)]; split; lia.
    + intros (i & Hi & ->). destruct (Z.eq_dec i 0) as [->|]; [left; lia|right; exists (i - 1)]. split; lia.
Qed.

Lemma freerange_loop_spec n : forall s l p vend,
  alloc_inv s l -> p mod PGSIZE = 0 -> k_end <= p ->
  p + Z.of_nat n * PGSIZE <= vend < p + Z.of_nat n * PGSIZE + PGSIZE -> vend <= KERNBASE + PHYSTOP ->
  (forall i, 0 <= i < Z.of_nat n -> p + i * PGSIZE ∉ l) ->
  exists s', freerange_loop n p vend s = Ret (tt, s') /\
             alloc_inv s' (rev (page_range p n) ++ l) /\ alloc_env s s'.
Proof.
  induction n as [|n IH]; intros s l p vend Hs Hal Hlo Hv Hhi Hni; cbn [freerange_loop page_range rev].
  - destruct (Z.leb_spec (p + PGSIZE) vend); [lia|]. by exists s.
  - destruct (Z.leb_spec (p + PGSIZE) vend); [|clia].
    assert (Hp : page_ok p) by (unfold page_ok; clia).
    assert (Hpl : p ∉ l) by (specialize (Hni 0); rewrite Z.add_0_r in Hni; apply Hni; lia).
    destruct (kmem_kfree_spec s l p Hs Hp Hpl) as (s1 & H1 & Hs1 & _ & He1).
    destruct (IH s1 (p :: l) (p + PGSIZE) vend) as (s2 & H2 & Hs2 & He2); try done.
    + rewrite Zplus_mod, Hal. done.
    + clia.
    + clia.
    + intros i Hi. rewrite elem_of_cons. intros [E|E]; [clia|].
      apply (Hni (i + 1)); [lia|]. by replace (p + (i + 1) * PGSIZE) with (p + PGSIZE + i * PGSIZE) by lia.
    + mstep_with H1. exists s2. split_and!; [done| |by etransitivity].
      by rewrite <- app_assoc.
Qed.

Lemma freerange_spec s l vstart vend :
  alloc_inv s l -> k_end <= vstart -> vstart <= vend <= KERNBASE + PHYSTOP -> vend mod PGSIZE = 0 ->
  (forall q, q ∈ l -> q < vstart) ->
  exists s' l', freerange vstart vend s = Ret (tt, s') /\ alloc_inv s' l' /\ alloc_env s s' /\
    forall q, q ∈ l' <-> q ∈ l \/ (q mod PGSIZE = 0 /\ vstart <= q < vend).
Proof.
  intros Hs Hlo Hv Hal Hl. unfold freerange.
  pose proof k_data_lo. pose proof k_data_end.
  destruct (PGROUNDUP_spec vstart) as [Hpal Hp]; [clia|].
  set (p := PGROUNDUP vstart) in *.
  assert (Hn : p + Z.of_nat (Z.to_nat ((vend - p) / PGSIZE)) * PGSIZE = vend) by cmlia.
  destruct (freerange_loop_spec (Z.to_nat ((vend - p) / PGSIZE)) s l p vend) as (s' & H1 & Hs' & He);
    try done; try clia.
  { intros i Hi Hin. specialize (Hl _ Hin). clia. }
  exists s', (rev (page_range p (Z.to_nat ((vend - p) / PGSIZE))) ++ l). split_and!; try done.
  intros q. rewrite elem_of_app, list_elem_of_In, <- in_rev, <- list_elem_of_In, elem_of_page_range.
  split; [intros [(i & Hi & ->)|?]; [right|by left]|intros [?|[Hq Hr]]; [by right|left]].
  - autounfold with consts in *. mlia.
  - exists ((q - p) / PGSIZE). autounfold with consts in *. mlia.
Qed.

End proofs.

(** ** Properties *)

(** What a client may ask, and the abstract allocator: a stack of pages. *)
Inductive request : Type := Alloc | Free (p : Z).

Definition spec_step (l : list Z) (r : request) : Z * list Z :=
  match r with
  | Alloc => (hd 0 l, tail l)
  | Free p => (0, p :: l)
  end.

Fixpoint spec_run (l : list Z) (rs : list request) : list Z * list Z :=
  match rs with
  | [] => ([], l)
  | r :: rs => let '(a, l') := spec_step l r in
               let '(as_, l'') := spec_run l' rs in (a :: as_, l'')
  end.

Section runs.
Context {Lay : Layout}.

(** Only valid pages that are not free are freed. *)
Fixpoint legal (l : list Z) (rs : list request) : Prop :=
  match rs with
  | [] => True
  | r :: rs => (match r with Alloc => True | Free p => page_ok p /\ p ∉ l end) /\
               legal (snd (spec_step l r)) rs
  end.

Definition serve (r : request) : M kst Z :=
  match r with
  | Alloc => kmem_kalloc
  | Free p => kmem_kfree p ;; ret 0
  end.

Fixpoint serve_all (rs : list request) : M kst (list Z) :=
  match rs with
  | [] => ret []
  | r :: rs => let* a := serve r in let* as_ := serve_all rs in ret (a :: as_)
  end.

End runs.

Section properties.
Context {Lay : Layout}.

(** [kfree] accepts exactly the addresses that are page aligned, at or
    above [end] and below PHYSTOP, and panics on every other address. *)
Theorem kfree_rejects (s : kst) (v : Z) :
  0 <= v < 0x100000000 -> ~ page_ok v -> kmem_kfree v s = Panic "kfree".
Proof.
  intros Hv Hbad. unfold kmem_kfree.
  destruct (negb (v mod PGSIZE =? 0) || (v <? k_end) || (PHYSTOP <=? v2p v)) eqn:E; [done|].
  apply kfree_guard in E as (Hal & Hlo & Hhi). exfalso. apply Hbad. split_and!; [done|done|].
  pose proof k_data_lo. pose proof k_data_end. unfold v2p, u32 in Hhi. autounfold with consts in *. mlia.
Qed.

(** C8 The allocator refines a stack of pages: for every sequence of requests
    that frees only valid pages that are not already free, the code returns
    from every call, hands out exactly the pages the stack hands out (0 when
    it is empty), and ends with the stack's pages, each once, on its list. *)
Theorem allocator_refines_stack (s : kst) (l : list Z) (rs : list request) :
  alloc_inv s l -> legal l rs ->
  exists s', serve_all rs s = Ret (fst (spec_run l rs), s') /\
             alloc_inv s' (snd (spec_run l rs)) /\ alloc_env s s'.
Proof.
  revert s l. induction rs as [|r rs IH]; intros s l Hs Hleg; cbn [serve_all spec_run]; [by exists s|].
  cbn [legal] in Hleg. destruct Hleg as [Hr Hleg].
  assert (exists s1, serve r s = Ret (fst (spec_step l r), s1) /\
                     alloc_inv s1 (snd (spec_step l r)) /\ alloc_env s s1) as (s1 & H1 & Hs1 & He1).
  { destruct r as [|p]; cbn [serve spec_step fst snd].
    - destruct (kmem_kalloc_spec s l Hs) as (s1 & ? & ? & _ & ?). by exists s1.
    - destruct Hr as [Hp Hn]. destruct (kmem_kfree_spec s l p Hs Hp Hn) as (s1 & H1 & ? & _ & ?).
      exists s1. split; [by mstep_with H1|done]. }
  destruct (spec_step l r) as [a l1]. cbn [fst snd] in *.
  destruct (IH s1 l1 Hs1 Hleg) as (s2 & H2 & Hs2 & He2).
  destruct (spec_run l1 rs) as [as_ l2]. cbn [fst snd] in *.
  mstep_with H1. mstep_with H2. exists s2. split_and!; [done|done|by etransitivity].
Qed.

(** Boot: [kinit1] on [end, 4MB) and [kinit2] on [4MB, PHYSTOP), as main
    calls them on an empty list, return, and leave every page between [end]
    and PHYSTOP on the free list exactly once, with locking switched on. *)
Theorem kinit_frees_all (s : kst) :
  cpu_ok (ks_cpu s) -> freelist (kmem s) = 0 ->
  exists s' l, (kinit1 k_end (KERNBASE + 0x400000) ;; kinit2 (KERNBASE + 0x400000) (KERNBASE + PHYSTOP)) s
               = Ret (tt, s') /\
    alloc_inv s' l /\ (forall q, q ∈ l <-> page_ok q) /\ use_lock (kmem s') = 1.
Proof.
  intros Hc Hf. unfold kinit1, kinit2.
  pose proof k_data_lo as Hd. pose proof k_data_end as Hde. pose proof k_end_hi as Hhi.
  set (s0 := mkKst (ks_cpu s) (ks_mem s) (mkKmem (initlock "kmem") 0 (freelist (kmem s)))).
  assert (Hs0 : alloc_inv s0 []) by (split; cbn; try done; by constructor).
  destruct (freerange_spec s0 [] k_end (KERNBASE + 0x400000) Hs0) as (s1 & l1 & H1 & Hs1 & He1 & Hl1);
    try clia; try done; [intros q; by rewrite elem_of_nil|].
  destruct (freerange_spec s1 l1 (KERNBASE + 0x400000) (KERNBASE + PHYSTOP) Hs1) as (s2 & l2 & H2 & Hs2 & He2 & Hl2);
    try clia; try done.
  { intros q [Hq|[_ Hq]]%Hl1; [by apply elem_of_nil in Hq|lia]. }
  exists (put kmemL (mkKmem (kmem_lock (kmem s2)) 1 (freelist (kmem s2))) s2), l2. split_and!.
  - mred. cbn [put kmem_lockL kmemL kmem ks_cpu ks_mem]. unfold set_use_lock. mred.
    fold s0. change (freerange k_end (KERNBASE + 0x400000) s0 = Ret (tt, s1)) in H1.
    cbn. fold s0. rewrite H1. cbv beta iota. rewrite H2. done.
  - destruct Hs2. by split.
  - intros q. rewrite Hl2, Hl1, elem_of_nil. unfold page_ok.
    split; [intros [[Hf'|[Ha Hb]]|[Ha Hb]]; [done| |]; split_and!; clia|intros (Ha & Hb & Hb')].
    destruct (Z.lt_ge_cases q (KERNBASE + 0x400000)); [left; right|right]; split; clia.
  - done.
Qed.

End properties.

Lemma kfree_rejects_witness :
  @kmem_kfree kernel_sym 0x80100001 (mkKst (mkCpu 1 0 false false) (fun _ => 0) (mkKmem (initlock "kmem") 0 0))
  = Panic "kfree".
Proof. apply (@kfree_rejects kernel_sym); [lia|]. intros (H & _). discriminate H. Defined.

(** A state whose free list is the two pages 0x80200000 and 0x80201000. *)
Definition two_pages : kst :=
  mkKst (mkCpu 1 0 false true) (st32 (fun _ => 0) 0x80200000 0x80201000)
        (mkKmem (initlock "kmem") 1 0x80200000).

Lemma two_pages_inv : @alloc_inv kernel_sym two_pages [0x80200000; 0x80201000].
Proof.
  split.
  - split; cbn; done || lia.
  - done.
  - cbn [flist]. split; [reflexivity|]. split; reflexivity.
  - by apply (bool_decide_unpack _).
  - repeat constructor; page_ok_tac.
Qed.

Lemma allocator_refines_stack_witness :
  exists s', @serve_all kernel_sym [Alloc; Alloc; Alloc; Free 0x80201000; Alloc] two_pages
             = Ret ([0x80200000; 0x80201000; 0; 0; 0x80201000], s').
Proof.
  destruct (@allocator_refines_stack kernel_sym two_pages [0x80200000; 0x80201000]
              [Alloc; Alloc; Alloc; Free 0x80201000; Alloc]) as (s' & H & _).
  - apply two_pages_inv.
  - cbn [legal spec_step snd fst tail]. do 3 (split; [exact I|]). split; [|split; exact I].
    split; [page_ok_tac|apply not_elem_of_nil].
  - exists s'. exact H.
Defined.

Lemma kinit_frees_all_witness :
  exists s' l, (@kinit1 kernel_sym 0x8012a55c (KERNBASE + 0x400000) ;;
                @kinit2 kernel_sym (KERNBASE + 0x400000) (KERNBASE + PHYSTOP))
                 (mkKst (mkCpu 1 0 false false) (fun _ => 0) (mkKmem (initlock "kmem") 0 0)) = Ret (tt, s') /\
               0x8012b000 ∈ l /\ @alloc_inv kernel_sym s' l.
Proof.
  destruct (@kinit_frees_all kernel_sym (mkKst (mkCpu 1 0 false false) (fun _ => 0) (mkKmem (initlock "kmem") 0 0)))
    as (s' & l & H & Hi & Hl & _).
  - split; cbn; done || lia.
  - reflexivity.
  - exists s', l. split; [exact H|]. split; [|exact Hi].
    apply Hl. page_ok_tac.
Defined.
