(* ===== verification/Vm.v ===== *)
(** * Page tables (vm.c): the code

    The operations of vm.c on two-level page tables in memory, over any state
    on which pages can be allocated and freed.  Loops carry the number of
    pages they can visit as fuel. *)

From Stdlib Require Import ZArith Lia String Bool.
From stdpp Require Import base numbers list.
From S2P Require Import Prelude Params Mem Pages.

(** The test [*p & PTE_P]. *)
Definition present (v : Z) : bool := negb (Z.land v PTE_P =? 0).

Section ops.
Context {Lay : Layout} {St : Type} {PO : PageOps St}.

Definition walkpgdir (pgdir va alloc : Z) : M St Z :=
  let pde := pgdir + 4 * PDX va in
  let* v := load32 pde in
  if present v then ret (p2v (PTE_ADDR v) + 4 * PTX va)
  else
    if alloc =? 0 then ret 0 else
    let* pgtab := kalloc in
    if pgtab =? 0 then ret 0 else
    on_mem (fun m => memset m pgtab 0 PGSIZE) ;;
    store32 pde (Z.lor (Z.lor (Z.lor (v2p pgtab) PTE_P) PTE_W) PTE_U) ;;
    ret (pgtab + 4 * PTX va).

Fixpoint mappages_loop (fuel : nat) (pgdir a last pa perm : Z) : M St Z :=
  match fuel with
  | O => nofuel
  | S fuel =>
    let* pte := walkpgdir pgdir a 1 in
    if pte =? 0 then ret (-1) else
    let* v := load32 pte in
    if present v then panic "remap" else
    store32 pte (Z.lor (Z.lor pa perm) PTE_P) ;;
    if a =? last then ret 0
    else mappages_loop fuel pgdir (u32 (a + PGSIZE)) last (u32 (pa + PGSIZE)) perm
  end.

Definition mappages (pgdir va size pa perm : Z) : M St Z :=
  let a := PGROUNDDOWN va in
  let last := PGROUNDDOWN (u32 (u32 (va + size) - 1)) in
  mappages_loop (S (Z.to_nat (u32 (last - a) / PGSIZE))) pgdir a last pa perm.

(** The table kmap: virtual start, physical start and end, permissions. *)
Record kmap_entry : Type := mkKmap { virt : Z; phys_start : Z; phys_end : Z; kperm : Z }.

Definition kmap : list kmap_entry := [
  mkKmap KERNBASE 0 EXTMEM PTE_W;
  mkKmap KERNLINK (v2p KERNLINK) (v2p k_data) 0;
  mkKmap k_data (v2p k_data) PHYSTOP PTE_W;
  mkKmap DEVSPACE DEVSPACE 0 PTE_W
].

Fixpoint setupkvm_loop (pgdir : Z) (ks : list kmap_entry) : M St Z :=
  match ks with
  | [] => ret pgdir
  | k :: ks =>
    let* r := mappages pgdir (virt k) (u32 (phys_end k - phys_start k)) (phys_start k) (kperm k) in
    if r <? 0 then ret 0 else setupkvm_loop pgdir ks
  end.

Definition setupkvm : M St Z :=
  let* pgdir := kalloc in
  if pgdir =? 0 then ret 0 else
  on_mem (fun m => memset m pgdir 0 PGSIZE) ;;
  if DEVSPACE <? p2v PHYSTOP then panic "PHYSTOP too high" else
  setupkvm_loop pgdir kmap.

(** [init] is the kernel address of the initial program's bytes. *)
Definition inituvm (pgdir init sz : Z) : M St unit :=
  if PGSIZE <=? sz then panic "inituvm: more than a page" else
  let* mem := kalloc in
  if mem =? 0 then fault "inituvm: memset of a null page" else
  on_mem (fun m => memset m mem 0 PGSIZE) ;;
  let* _ := mappages pgdir 0 PGSIZE (v2p mem) (Z.lor PTE_W PTE_U) in
  on_mem (fun m => memmove m mem init sz).

(** [readi dst off n] reads the program's inode to a kernel address. *)
Fixpoint loaduvm_loop (fuel : nat) (readi : Z -> Z -> Z -> M St Z) (pgdir addr i offset sz : Z) : M St Z :=
  match fuel with
  | O => if i <? sz then nofuel else ret 0
  | S fuel =>
    if i <? sz then
      let* pte := walkpgdir pgdir (u32 (addr + i)) 0 in
      if pte =? 0 then panic "loaduvm: address should exist" else
      let* v := load32 pte in
      let pa := PTE_ADDR v in
      let n := if sz - i <? PGSIZE then sz - i else PGSIZE in
      let* r := readi (p2v pa) (u32 (offset + i)) n in
      if negb (r =? n) then ret (-1)
      else loaduvm_loop fuel readi pgdir addr (u32 (i + PGSIZE)) offset sz
    else ret 0
  end.

Definition loaduvm (readi : Z -> Z -> Z -> M St Z) (pgdir addr offset sz : Z) : M St Z :=
  if negb (addr mod PGSIZE =? 0) then panic "loaduvm: addr must be page aligned" else
  loaduvm_loop (Z.to_nat ((sz + PGSIZE - 1) / PGSIZE)) readi pgdir addr 0 offset sz.

Fixpoint deallocuvm_loop (fuel : nat) (pgdir a oldsz : Z) : M St unit :=
  match fuel with
  | O => if a <? oldsz then nofuel else ret tt
  | S fuel =>
    if a <? oldsz then
      let* pte := walkpgdir pgdir a 0 in
      if pte =? 0
      then deallocuvm_loop fuel pgdir (u32 (u32 (a + (NPTENTRIES - 1) * PGSIZE) + PGSIZE)) oldsz
      else
        let* v := load32 pte in
        (if present v then
           let pa := PTE_ADDR v in
           if pa =? 0 then panic "kfree" else
           kfree (p2v pa) ;; store32 pte 0
         else ret tt) ;;
        deallocuvm_loop fuel pgdir (u32 (a + PGSIZE)) oldsz
    else ret tt
  end.

Definition deallocuvm (pgdir oldsz newsz : Z) : M St Z :=
  if oldsz <=? newsz then ret oldsz else
  let a := PGROUNDUP newsz in
  deallocuvm_loop (Z.to_nat ((oldsz - a + PGSIZE - 1) / PGSIZE)) pgdir a oldsz ;;
  ret newsz.

Fixpoint allocuvm_loop (fuel : nat) (pgdir a oldsz newsz : Z) : M St Z :=
  match fuel with
  | O => if a <? newsz then nofuel else ret newsz
  | S fuel =>
    if a <? newsz then
      let* mem := kalloc in
      if mem =? 0 then
        let* _ := deallocuvm pgdir newsz oldsz in ret 0
      else
        on_mem (fun m => memset m mem 0 PGSIZE) ;;
        let* _ := mappages pgdir a PGSIZE (v2p mem) (Z.lor PTE_W PTE_U) in
        allocuvm_loop fuel pgdir (u32 (a + PGSIZE)) oldsz newsz
    else ret newsz
  end.

Definition allocuvm (pgdir oldsz newsz : Z) : M St Z :=
  if KERNBASE <=? newsz then ret 0 else
  if newsz <? oldsz then ret oldsz else
  let a := PGROUNDUP oldsz in
  allocuvm_loop (Z.to_nat ((newsz - a + PGSIZE - 1) / PGSIZE)) pgdir a oldsz newsz.

(** The loop over the directory entries [i], [i + 1], ... *)
Fixpoint freevm_loop (n : nat) (pgdir i : Z) : M St unit :=
  match n with
  | O => ret tt
  | S n =>
    let* v := load32 (pgdir + 4 * i) in
    (if present v then kfree (p2v (PTE_ADDR v)) else ret tt) ;;
    freevm_loop n pgdir (i + 1)
  end.

Definition freevm (pgdir : Z) : M St unit :=
  if pgdir =? 0 then panic "freevm: no pgdir" else
  let* _ := deallocuvm pgdir KERNBASE 0 in
  freevm_loop (Z.to_nat NPDENTRIES) pgdir 0 ;;
  kfree pgdir.

Definition clearpteu (pgdir uva : Z) : M St unit :=
  let* pte := walkpgdir pgdir uva 0 in
  if pte =? 0 then panic "clearpteu" else
  let* v := load32 pte in
  store32 pte (Z.land v (u32 (Z.lnot PTE_U))).

Fixpoint copyuvm_loop (fuel : nat) (pgdir d i sz : Z) : M St Z :=
  match fuel with
  | O => if i <? sz then nofuel else ret d
  | S fuel =>
    if i <? sz then
      let* pte := walkpgdir pgdir i 0 in
      if pte =? 0 then panic "copyuvm: pte should exist" else
      let* v := load32 pte in
      if negb (present v) then panic "copyuvm: page not present" else
      let pa := PTE_ADDR v in
      let* mem := kalloc in
      if mem =? 0 then freevm d ;; ret 0 else
      on_mem (fun m => memmove m mem (p2v pa) PGSIZE) ;;
      let* r := mappages d i PGSIZE (v2p mem) (Z.lor PTE_W PTE_U) in
      if r <? 0 then freevm d ;; ret 0
      else copyuvm_loop fuel pgdir d (u32 (i + PGSIZE)) sz
    else ret d
  end.

Definition copyuvm (pgdir sz : Z) : M St Z :=
  let* d := setupkvm in
  if d =? 0 then ret 0 else
  copyuvm_loop (Z.to_nat ((sz + PGSIZE - 1) / PGSIZE)) pgdir d 0 sz.

(** A missing page table makes [walkpgdir] return 0, which is dereferenced. *)
Definition uva2ka (pgdir uva : Z) : M St Z :=
  let* pte := walkpgdir pgdir uva 0 in
  if pte =? 0 then fault "uva2ka: null pte" else
  let* v := load32 pte in
  if Z.land v PTE_P =? 0 then ret 0 else
  if Z.land v PTE_U =? 0 then ret 0 else
  ret (p2v (PTE_ADDR v)).

Fixpoint copyout_loop (fuel : nat) (pgdir va buf len : Z) : M St Z :=
  match fuel with
  | O => if 0 <? len then nofuel else ret 0
  | S fuel =>
    if 0 <? len then
      let va0 := PGROUNDDOWN va in
      let* pa0 := uva2ka pgdir va0 in
      if pa0 =? 0 then ret (-1) else
      let n := PGSIZE - (va - va0) in
      let n := if len <? n then len else n in
      on_mem (fun m => memmove m (pa0 + (va - va0)) buf n) ;;
      copyout_loop fuel pgdir (u32 (va0 + PGSIZE)) (buf + n) (len - n)
    else ret 0
  end.

(** Each turn copies at least one byte. *)
Definition copyout (pgdir va p len : Z) : M St Z :=
  copyout_loop (Z.to_nat len) pgdir va p len.

End ops.
