(* ===== verification/PageTable.v ===== *)
(** * Page tables as finite maps

    What the two-level table in memory means: the page tables a directory
    refers to, the entry of each virtual page, and the user pages it maps.
    [tables] is the ownership invariant that makes the C code's writes hit
    exactly the entry they mean to; the lemmas lift walkpgdir and mappages to
    updates of the map from virtual page numbers to entries. *)

From Stdlib Require Import ZArith Lia String Bool.
From stdpp Require Import base numbers list.
From S2P Require Import Prelude Params Mem Pages Vm.

(** ** Lists indexed by a partial function *)

Lemma omap_ext_in {A B : Type} (f g : A -> option B) (l : list A) :
  (forall x, x ∈ l -> f x = g x) -> omap f l = omap g l.
Proof.
  induction l as [|x l IH]; intros H; [done|]. cbn.
  rewrite (H x) by (apply elem_of_cons; by left).
  rewrite IH; [done|]. intros y Hy. apply H. apply elem_of_cons. by right.
Qed.

(** Defining a partial function at one more point adds one element. *)
Lemma omap_define {A B : Type} (f g : A -> option B) (l : list A) (k : A) (b : B) :
  NoDup l -> k ∈ l -> f k = None -> g k = Some b ->
  (forall x, x ∈ l -> x <> k -> g x = f x) ->
  omap g l ≡ₚ b :: omap f l.
Proof.
  intros Hnd Hk Hf Hg Hx. apply list_elem_of_split in Hk as (l1 & l2 & ->).
  apply NoDup_app in Hnd as (_ & Hl1 & Hnd). apply NoDup_cons in Hnd as [Hl2 _].
  rewrite !omap_app. cbn. rewrite Hf, Hg.
  rewrite (omap_ext_in g f l1), (omap_ext_in g f l2).
  - by rewrite <- Permutation_middle.
  - intros x Hin. apply Hx; [|by intros ->]. apply elem_of_app. right. apply elem_of_cons. by right.
  - intros x Hin. apply Hx; [apply elem_of_app; by left|]. intros ->. apply (Hl1 k Hin). apply elem_of_cons. by left.
Qed.

Lemma omap_inj {A B : Type} (f : A -> option B) (l : list A) (i j : A) (b : B) :
  NoDup (omap f l) -> i ∈ l -> j ∈ l -> f i = Some b -> f j = Some b -> i = j.
Proof.
  intros Hnd Hi Hj Hfi Hfj. apply list_elem_of_split in Hi as (l1 & l2 & ->).
  rewrite omap_app in Hnd. cbn in Hnd. rewrite Hfi in Hnd.
  apply NoDup_app in Hnd as (_ & Hd & Hnd). apply NoDup_cons in Hnd as [Hn _].
  apply elem_of_app in Hj as [Hj|Hj].
  - exfalso. apply (Hd b); [apply list_elem_of_omap; eauto|apply elem_of_cons; by left].
  - apply elem_of_cons in Hj as [->|Hj]; [done|].
    exfalso. apply Hn. apply list_elem_of_omap. eauto.
Qed.

Lemma omap_length {A B : Type} (f : A -> option B) (l : list A) : (length (omap f l) <= length l)%nat.
Proof. induction l as [|x l IH]; [done|]. cbn in *. destruct (f x); cbn; lia. Qed.

(** The numbers below [n], not to be computed. *)
Definition upto_aux (n : Z) : { l : list Z | l = seqZ 0 n }.
Proof. by exists (seqZ 0 n). Qed.
Definition upto (n : Z) : list Z := proj1_sig (upto_aux n).

Lemma upto_in i n : 0 <= i < n <-> i ∈ upto n.
Proof. unfold upto. destruct (upto_aux n) as [l ->]. cbn [proj1_sig]. rewrite elem_of_seqZ. lia. Qed.
Lemma upto_eq n : upto n = seqZ 0 n.
Proof. unfold upto. by destruct (upto_aux n). Qed.
Lemma upto_nodup n : NoDup (upto n).
Proof. unfold upto. destruct (upto_aux n) as [l ->]. apply NoDup_seqZ. Qed.

(** ** Entries *)

Definition NVPN : Z := 0x100000.
Definition NUVPN : Z := 0x80000.

Definition pde_of (m : mem) (pgdir i : Z) : Z := ld32 m (pgdir + 4 * i).
Definition target (v : Z) : option Z := if present v then Some (p2v (PTE_ADDR v)) else None.
(** The page table of directory entry [i]. *)
Definition tab_of (m : mem) (pgdir i : Z) : option Z := target (pde_of m pgdir i).
Definition tabs (m : mem) (pgdir : Z) : list Z := omap (tab_of m pgdir) (upto 1024).
(** The entry of virtual page [n]; 0 where there is no page table. *)
Definition pte_of (m : mem) (pgdir n : Z) : Z :=
  match tab_of m pgdir (n / 1024) with
  | Some t => ld32 m (t + 4 * (n mod 1024))
  | None => 0
  end.
(** The pages mapped below KERNBASE. *)
Definition upages (m : mem) (pgdir : Z) : list Z :=
  omap (fun n => target (pte_of m pgdir n)) (upto NUVPN).
Definition space (m : mem) (pgdir : Z) : list Z := pgdir :: tabs m pgdir ++ upages m pgdir.

Lemma PDX_vpn n : 0 <= n < NVPN -> PDX (n * 4096) = n / 1024.
Proof. intros. rewrite PDX_eq. unfold u32, NVPN in *. mlia. Qed.
Lemma PTX_vpn n : 0 <= n < NVPN -> PTX (n * 4096) = n mod 1024.
Proof. intros. rewrite PTX_eq. unfold u32, NVPN in *. mlia. Qed.

Lemma present_0 : present 0 = false.
Proof. done. Qed.
Lemma target_present v p : target v = Some p -> present v = true /\ p = p2v (PTE_ADDR v).
Proof. unfold target. destruct (present v); intros [=]; auto. Qed.
Lemma target_absent v : target v = None <-> present v = false.
Proof. unfold target. by destruct (present v). Qed.

(** An entry built by [pa | perm | PTE_P] points at the page. *)
Lemma entry_add pa perm : pa mod 4096 = 0 -> 0 <= perm < 4096 ->
  Z.lor (Z.lor pa perm) PTE_P = pa + Z.lor perm PTE_P /\ 0 <= Z.lor perm PTE_P < 4096.
Proof.
  intros Ha Hp. assert (0 <= Z.lor perm PTE_P < 4096) as Hb.
  { split; [apply Z.lor_nonneg; unfold PTE_P; lia|].
    destruct (Z.eq_dec (Z.lor perm PTE_P) 0) as [->|]; [lia|].
    change 4096 with (2 ^ 12). apply Z.log2_lt_pow2.
    - assert (0 <= Z.lor perm PTE_P) by (apply Z.lor_nonneg; unfold PTE_P; lia). lia.
    - rewrite Z.log2_lor by (unfold PTE_P; lia). apply Z.max_lub_lt; [|done].
      destruct (Z.eq_dec perm 0) as [->|]; [done|]. apply Z.log2_lt_pow2; lia. }
  split; [|done]. rewrite <- Z.lor_assoc. by apply (lor_low_add _ _ 12).
Qed.

Lemma present_odd v : present v = Z.odd v.
Proof.
  unfold present, PTE_P. change 1 with (2 ^ 1 - 1). rewrite land_low_mask by lia.
  change (2 ^ 1) with 2. rewrite Zmod_odd. by destruct (Z.odd v).
Qed.

Lemma target_entry pa perm :
  pa mod 4096 = 0 -> 0 <= pa < 0x100000000 -> 0 <= perm < 4096 ->
  target (Z.lor (Z.lor pa perm) PTE_P) = Some (p2v pa).
Proof.
  intros Ha Hr Hp. unfold target.
  replace (present _) with true.
  2:{ rewrite present_odd, <- Z.bit0_odd, Z.lor_spec. unfold PTE_P.
      change (Z.testbit 1 0) with true. by rewrite orb_true_r. }
  f_equal. f_equal. destruct (entry_add pa perm Ha Hp) as [-> Hb].
  rewrite PTE_ADDR_eq, u32_small by mlia. mlia.
Qed.

(** ** Updates of a well-formed table *)

Section tables.
Context {Lay : Layout}.

(** Different pages, all of them pages the allocator can manage. *)
Definition distinct_pages (l : list Z) : Prop := NoDup l /\ Forall page_ok l.

#[global] Instance distinct_pages_perm : Proper (Permutation ==> iff) distinct_pages.
Proof.
  intros l l' H. unfold distinct_pages.
  split; intros [H1 H2]; (split; [by rewrite H in * || by rewrite <- H in *|]);
    apply Forall_forall; intros x Hx; rewrite Forall_forall in H2; apply H2; [by rewrite H|by rewrite <- H].
Qed.

Lemma distinct_app_l l k : distinct_pages (l ++ k) -> distinct_pages l.
Proof. intros [H1 H2]. apply NoDup_app in H1 as (? & _). apply Forall_app in H2 as [? _]. by split. Qed.

Lemma distinct_sub l k : l ⊆+ k -> distinct_pages k -> distinct_pages l.
Proof. intros [k' Hk]%submseteq_Permutation H. rewrite Hk in H. by eapply distinct_app_l. Qed.

Lemma in_pages_perm l k a : l ≡ₚ k -> in_pages l a -> in_pages k a.
Proof. intros H (p & Hp & Ha). exists p. by rewrite <- H. Qed.

Lemma in_pages_app l k a : in_pages (l ++ k) a <-> in_pages l a \/ in_pages k a.
Proof.
  unfold in_pages. setoid_rewrite elem_of_app. split.
  - intros (p & [?|?] & ?); eauto.
  - intros [(p & ? & ?)|(p & ? & ?)]; eauto.
Qed.

Lemma in_pages_1 p l a : p ∈ l -> in_page p a -> in_pages l a.
Proof. intros ??. by exists p. Qed.

(** Different pages have no byte in common. *)
Lemma distinct_apart l k a : distinct_pages (l ++ k) -> in_pages l a -> in_pages k a -> False.
Proof.
  intros [Hnd Hok] (p & Hp & Hpa) (q & Hq & Hqa).
  rewrite Forall_app, !Forall_forall in Hok. destruct Hok as [Hl Hk].
  assert (p = q) as <- by (apply (in_page_unique p q a); [by apply Hl|by apply Hk|done|done]).
  apply NoDup_app in Hnd as (_ & Hd & _). by apply (Hd p).
Qed.

Lemma tab_page m pgdir rest i t :
  distinct_pages (pgdir :: tabs m pgdir ++ rest) -> 0 <= i < 1024 -> tab_of m pgdir i = Some t ->
  page_ok t /\ t <> pgdir /\ (t ∉ rest) /\ (t ∈ tabs m pgdir).
Proof.
  intros [Hnd Hok] Hi Ht. assert (t ∈ tabs m pgdir) as Hin.
  { apply list_elem_of_omap. exists i. split; [by apply upto_in|done]. }
  apply NoDup_cons in Hnd as [Hn Hnd]. apply NoDup_app in Hnd as (_ & Hd & _).
  rewrite Forall_forall in Hok. split_and!; [|intros ->|by apply Hd|done].
  - apply Hok. rewrite elem_of_cons, elem_of_app. auto.
  - apply Hn. apply elem_of_app. by left.
Qed.

Lemma dir_page m pgdir rest :
  distinct_pages (pgdir :: tabs m pgdir ++ rest) -> page_ok pgdir /\ pgdir ∉ rest.
Proof.
  intros [Hnd Hok]. apply Forall_cons in Hok as [Hok _].
  apply NoDup_cons in Hnd as [Hn _]. split; [done|]. intros H. apply Hn. apply elem_of_app. by right.
Qed.

Lemma tab_inj m pgdir rest i j t :
  distinct_pages (pgdir :: tabs m pgdir ++ rest) -> 0 <= i < 1024 -> 0 <= j < 1024 ->
  tab_of m pgdir i = Some t -> tab_of m pgdir j = Some t -> i = j.
Proof.
  intros [Hnd _] Hi Hj. apply NoDup_cons in Hnd as [_ Hnd]. apply NoDup_app in Hnd as (Hnd & _).
  apply (omap_inj _ _ _ _ _ Hnd); by apply upto_in.
Qed.

(** The four bytes of an entry lie in its page. *)
Lemma entry_in_page p i a : 0 <= i < 1024 -> p + 4 * i <= a < p + 4 * i + 4 -> in_page p a.
Proof. unfold in_page, PGSIZE. lia. Qed.

Lemma vpn_range n : 0 <= n < NVPN -> 0 <= n / 1024 < 1024 /\ 0 <= n mod 1024 < 1024.
Proof. unfold NVPN. mlia. Qed.

(** Memory that keeps the directory and its tables keeps the mapping. *)
Lemma tables_frame m m' pgdir :
  agree (in_pages (pgdir :: tabs m pgdir)) m m' ->
  (forall i, 0 <= i < 1024 -> tab_of m' pgdir i = tab_of m pgdir i) /\
  (forall n, 0 <= n < NVPN -> pte_of m' pgdir n = pte_of m pgdir n).
Proof.
  intros Hag.
  assert (forall i, 0 <= i < 1024 -> tab_of m' pgdir i = tab_of m pgdir i) as Ht.
  { intros i Hi. unfold tab_of, pde_of. f_equal. apply (ld32_agree _ _ _ _ Hag).
    intros a Ha. apply in_pages_cons. left. by apply (entry_in_page pgdir i). }
  split; [done|]. intros n Hn. destruct (vpn_range n Hn) as [Hi Hj].
  unfold pte_of. rewrite (Ht _ Hi). destruct (tab_of m pgdir (n / 1024)) as [t|] eqn:E; [|done].
  apply (ld32_agree _ _ _ _ Hag). intros a Ha. apply in_pages_cons. right.
  exists t. split; [|by apply (entry_in_page t (n mod 1024))].
  apply list_elem_of_omap. exists (n / 1024). split; [by apply upto_in|done].
Qed.

Lemma tabs_ext m m' pgdir :
  (forall i, 0 <= i < 1024 -> tab_of m' pgdir i = tab_of m pgdir i) -> tabs m' pgdir = tabs m pgdir.
Proof. intros H. apply omap_ext_in. intros i Hi. apply H. by apply upto_in. Qed.

Lemma upages_ext m m' pgdir :
  (forall n, 0 <= n < NUVPN -> pte_of m' pgdir n = pte_of m pgdir n) -> upages m' pgdir = upages m pgdir.
Proof. intros H. apply omap_ext_in. intros n Hn. rewrite H; [done|]. by apply upto_in. Qed.

(** A word store in one table entry. *)
Lemma set_pte m pgdir rest n t v :
  distinct_pages (pgdir :: tabs m pgdir ++ rest) -> 0 <= n < NVPN ->
  tab_of m pgdir (n / 1024) = Some t ->
  let m' := st32 m (t + 4 * (n mod 1024)) v in
  (forall i, 0 <= i < 1024 -> tab_of m' pgdir i = tab_of m pgdir i) /\
  (forall k, 0 <= k < NVPN -> pte_of m' pgdir k = if k =? n then u32 v else pte_of m pgdir k) /\
  agree (fun a => ~ in_page t a) m m'.
Proof.
  intros HD Hn Ht m'. destruct (vpn_range n Hn) as [Hi Hj].
  destruct (tab_page _ _ _ _ _ HD Hi Ht) as (Htok & Htd & Htr & _).
  assert (agree (fun a => ~ in_page t a) m m') as Hag.
  { eapply agree_weaken; [|apply st32_agree]. cbn. intros a Ha Hc.
    by apply Ha, (entry_in_page t (n mod 1024)). }
  assert (forall i, 0 <= i < 1024 -> tab_of m' pgdir i = tab_of m pgdir i) as Htab.
  { intros i Hir. unfold tab_of, pde_of. f_equal. apply (ld32_agree _ _ _ _ Hag).
    intros a Ha Hc. destruct (dir_page _ _ _ HD) as [Hdok _].
    by apply (pages_apart t pgdir a a Htok Hdok Htd Hc (entry_in_page _ _ _ Hir Ha)). }
  split_and!; [done| |done]. intros k Hk. destruct (vpn_range k Hk) as [Hki Hkj].
  unfold pte_of. rewrite (Htab _ Hki). destruct (tab_of m pgdir (k / 1024)) as [t'|] eqn:E.
  - destruct (Z.eq_dec (k / 1024) (n / 1024)) as [Hq|Hq].
    + assert (t' = t) as -> by congruence. unfold m'. destruct (Z.eqb_spec k n) as [->|Hne].
      * by rewrite ld32_st32_same.
      * apply ld32_st32_ne. mlia.
    + destruct (Z.eqb_spec k n) as [->|_]; [done|].
      assert (t <> t') as Htt by (intros ->; by apply Hq, (tab_inj _ _ _ _ _ _ HD Hki Hi E Ht)).
      destruct (tab_page _ _ _ _ _ HD Hki E) as (Htok' & _).
      apply (ld32_agree _ _ _ _ Hag). intros a Ha Hc.
      by apply (pages_apart t t' a a Htok Htok' Htt Hc (entry_in_page _ _ _ Hkj Ha)).
  - destruct (Z.eqb_spec k n) as [->|_]; [congruence|done].
Qed.

(** The directory entry walkpgdir installs for a fresh, zeroed table. *)
Lemma add_tab m pgdir rest i p :
  distinct_pages (pgdir :: tabs m pgdir ++ p :: rest) -> 0 <= i < 1024 ->
  tab_of m pgdir i = None ->
  let m' := st32 (memset m p 0 PGSIZE) (pgdir + 4 * i)
              (Z.lor (Z.lor (Z.lor (v2p p) PTE_P) PTE_W) PTE_U) in
  (forall j, 0 <= j < 1024 -> tab_of m' pgdir j = if j =? i then Some p else tab_of m pgdir j) /\
  (forall k, 0 <= k < NVPN -> pte_of m' pgdir k = pte_of m pgdir k) /\
  agree (fun a => ~ in_page p a /\ ~ in_page pgdir a) m m'.
Proof.
  intros HD Hi Hnone m'. destruct (dir_page _ _ _ HD) as [Hdok Hdr].
  assert (page_ok p /\ p <> pgdir) as [Hpok Hpd].
  { destruct HD as [_ Hok]. rewrite Forall_forall in Hok. split.
    - apply Hok. rewrite elem_of_cons, elem_of_app, elem_of_cons. auto.
    - intros ->. apply Hdr, elem_of_cons. by left. }
  destruct (page_phys p Hpok) as (_ & Hpal & Hpr & Hpv).
  assert (Z.lor (Z.lor (Z.lor (v2p p) PTE_P) PTE_W) PTE_U = Z.lor (Z.lor (v2p p) 6) PTE_P) as Hor.
  { rewrite <- !Z.lor_assoc. f_equal. }
  assert (forall a, ld8 m' a = if decide (pgdir + 4 * i <= a < pgdir + 4 * i + 4) then ld8 m' a
                   else if decide (in_page p a) then 0 else ld8 m a) as Hld.
  { intros a. case_decide as Hc; [done|]. unfold m'. rewrite (st32_agree _ _ _ a Hc).
    apply ld8_clear_page. }
  assert (agree (fun a => ~ in_page p a /\ ~ in_page pgdir a) m m') as Hag.
  { intros a [Hp Hd]. rewrite Hld. rewrite (decide_False (P := in_page p a)) by done.
    case_decide as Hc; [|done]. by destruct Hd; apply (entry_in_page pgdir i). }
  assert (forall j, 0 <= j < 1024 -> tab_of m' pgdir j = if j =? i then Some p else tab_of m pgdir j) as Htab.
  { intros j Hj. unfold tab_of, pde_of. destruct (Z.eqb_spec j i) as [->|Hne].
    - unfold m'. rewrite ld32_st32_same, Hor. clear Hld Hag m'.
      assert (u32 (Z.lor (Z.lor (v2p p) 6) PTE_P) = Z.lor (Z.lor (v2p p) 6) PTE_P) as ->.
      { apply u32_small. destruct (entry_add (v2p p) 6 Hpal) as [-> ?]; [lia|]. clia. }
      rewrite target_entry; [by rewrite Hpv|done|clia|lia].
    - unfold m'. rewrite ld32_st32_ne by lia. f_equal. apply ld32_agree with (P := fun a => in_page pgdir a).
      + intros a Ha. rewrite ld8_clear_page. case_decide as Hc; [|done].
        by destruct (pages_apart p pgdir a a Hpok Hdok Hpd Hc Ha).
      + intros a Ha. by apply (entry_in_page pgdir j). }
  split_and!; [done| |done]. intros k Hk. destruct (vpn_range k Hk) as [Hki Hkj].
  unfold pte_of. rewrite (Htab _ Hki). destruct (Z.eqb_spec (k / 1024) i) as [->|Hne].
  - rewrite Hnone. rewrite (ld32_agree (in_page p) (fun _ => 0) m'); [done| |by intros a; apply entry_in_page].
    intros a Ha. rewrite Hld, (decide_True (P := in_page p a)) by done. case_decide as Hc; [|done].
    destruct (pages_apart p pgdir a a Hpok Hdok Hpd Ha); [|done]. by apply (entry_in_page pgdir i).
  - destruct (tab_of m pgdir (k / 1024)) as [t|] eqn:E; [|done].
    destruct (tab_page _ _ _ _ _ HD Hki E) as (Htok & Htd & Htr & _).
    apply (ld32_agree _ _ _ _ Hag). intros a Ha. pose proof (entry_in_page _ _ _ Hkj Ha) as Hta.
    split; intros Hc.
    + apply (pages_apart p t a a Hpok Htok); try done. intros ->. apply Htr, elem_of_cons. by left.
    + by apply (pages_apart pgdir t a a Hdok Htok (not_eq_sym Htd) Hc Hta).
Qed.

Lemma add_tab_perm m m' pgdir i p :
  0 <= i < 1024 -> tab_of m pgdir i = None ->
  (forall j, 0 <= j < 1024 -> tab_of m' pgdir j = if j =? i then Some p else tab_of m pgdir j) ->
  tabs m' pgdir ≡ₚ p :: tabs m pgdir.
Proof.
  intros Hi Hn H. apply (omap_define _ _ _ i); [apply upto_nodup|by apply upto_in|done| |].
  - rewrite H by done. by rewrite Z.eqb_refl.
  - intros j Hj Hne. rewrite H by (by apply upto_in). by destruct (Z.eqb_spec j i).
Qed.

End tables.

(** ** walkpgdir and mappages *)

Section walk.
Context {Lay : Layout} {St : Type} {PO : PageOps St} {PS : PageSpec St}.

(** The free list is [l]; the directory, its tables, the pages [held] by
    someone else and the free pages are different allocatable pages. *)
Definition tables (s : St) (pgdir : Z) (held l : list Z) : Prop :=
  free_pages s l /\ distinct_pages (pgdir :: tabs (mem_of s) pgdir ++ held ++ l).

(** What an operation that maps pages may do: take free pages for tables,
    and write nothing but the directory, its tables and free pages. *)
Record mapped (s s' : St) (pgdir : Z) (held l l' : list Z) : Prop := {
  mp_tables : tables s' pgdir held l';
  mp_env : env s s';
  mp_free : forall p, p ∈ l' -> p ∈ l;
  mp_pages : tabs (mem_of s') pgdir ++ l' ≡ₚ tabs (mem_of s) pgdir ++ l;
  mp_frame : agree (fun a => ~ in_pages (pgdir :: tabs (mem_of s) pgdir ++ l) a) (mem_of s) (mem_of s')
}.

Lemma mapped_refl s pgdir held l : tables s pgdir held l -> mapped s s pgdir held l l.
Proof. intros H. by split. Qed.

Lemma mapped_trans s1 s2 s3 pgdir held l1 l2 l3 :
  mapped s1 s2 pgdir held l1 l2 -> mapped s2 s3 pgdir held l2 l3 -> mapped s1 s3 pgdir held l1 l3.
Proof.
  intros [T1 E1 L1 P1 F1] [T2 E2 L2 P2 F2]. split; [done|by etransitivity|auto|by rewrite P2|].
  eapply agree_trans; [done|]. eapply agree_weaken; [|exact F2]. intros a Ha Hc. apply Ha.
  rewrite in_pages_cons in *. destruct Hc as [?|Hc]; [by left|right]. by eapply in_pages_perm.
Qed.

(** Pages held by someone else keep their bytes. *)
Lemma mapped_held s s' pgdir held l l' a :
  tables s pgdir held l -> mapped s s' pgdir held l l' -> in_pages held a ->
  ld8 (mem_of s') a = ld8 (mem_of s) a.
Proof.
  intros [_ HD] [_ _ _ _ Hf] Ha. apply Hf. intros Hc.
  apply (distinct_apart (pgdir :: tabs (mem_of s) pgdir ++ l) held a); [|done|done].
  eapply distinct_pages_perm; [|exact HD]. solve_Permutation.
Qed.

(** The allocator hands out the first free page. *)
Lemma kalloc_take s pgdir held p l :
  tables s pgdir held (p :: l) ->
  exists s', kalloc s = Ret (p, s') /\ mem_of s' = mem_of s /\ env s s' /\ p <> 0 /\
             tables s' pgdir (p :: held) l.
Proof.
  intros [Hf HD]. destruct (kalloc_spec s (p :: l) Hf) as (s' & Hs' & Hf' & Hm & He).
  exists s'. split_and!; [done..| |split; [done|]].
  - pose proof (free_ok _ _ Hf) as Hok. apply Forall_cons in Hok as [Hok _].
    pose proof (page_ok_bounds p Hok). lia.
  - rewrite Hm. eapply distinct_pages_perm; [|exact HD]. solve_Permutation.
Qed.

Lemma kalloc_empty s pgdir held :
  tables s pgdir held [] ->
  exists s', kalloc s = Ret (0, s') /\ mem_of s' = mem_of s /\ env s s' /\ tables s' pgdir held [].
Proof.
  intros [Hf HD]. destruct (kalloc_spec s [] Hf) as (s' & Hs' & Hf' & Hm & He).
  exists s'. split_and!; [done..|split; [done|by rewrite Hm]].
Qed.

(** walkpgdir reads the directory entry. *)
Lemma walk_eq (s : St) pgdir n alloc : 0 <= n < NVPN ->
  walkpgdir pgdir (n * 4096) alloc s =
  match tab_of (mem_of s) pgdir (n / 1024) with
  | Some t => Ret (t + 4 * (n mod 1024), s)
  | None =>
    if alloc =? 0 then Ret (0, s) else
    (let* pgtab := kalloc in
     if pgtab =? 0 then ret 0 else
     on_mem (fun m => memset m pgtab 0 PGSIZE) ;;
     store32 (pgdir + 4 * (n / 1024)) (Z.lor (Z.lor (Z.lor (v2p pgtab) PTE_P) PTE_W) PTE_U) ;;
     ret (pgtab + 4 * (n mod 1024))) s
  end.
Proof.
  intros Hn. unfold walkpgdir. rewrite PDX_vpn, PTX_vpn by done. mstep.
  unfold tab_of, target, pde_of. by destruct (present _); [|destruct (alloc =? 0)].
Qed.

(** With [alloc] set: either no page is left for a missing table, or the
    entry of page [n] exists and the mapping is as before. *)
Lemma walk_alloc s pgdir held l n :
  tables s pgdir held l -> 0 <= n < NVPN ->
  exists s' l', mapped s s' pgdir held l l' /\
    (forall k, 0 <= k < NVPN -> pte_of (mem_of s') pgdir k = pte_of (mem_of s) pgdir k) /\
    (forall i t, 0 <= i < 1024 -> tab_of (mem_of s) pgdir i = Some t -> tab_of (mem_of s') pgdir i = Some t) /\
    match tab_of (mem_of s') pgdir (n / 1024) with
    | Some t => walkpgdir pgdir (n * 4096) 1 s = Ret (t + 4 * (n mod 1024), s') /\
        (length l <= S (length l'))%nat
    | None => walkpgdir pgdir (n * 4096) 1 s = Ret (0, s') /\ l = [] /\ l' = [] /\ mem_of s' = mem_of s
    end.
Proof.
  intros HT Hn. rewrite (walk_eq s pgdir n 1 Hn). destruct (vpn_range n Hn) as [Hi Hj].
  destruct (tab_of (mem_of s) pgdir (n / 1024)) as [t|] eqn:E.
  { exists s, l. split_and!; [by apply mapped_refl|done|done|]. rewrite E. split; [done|lia]. }
  cbn [Z.eqb]. destruct l as [|p l].
  { destruct (kalloc_empty _ _ _ HT) as (s1 & K & Hm & He & HT'). exists s1, [].
    rewrite Hm, E. mstep_with K. split_and!; [|done..].
    by split; rewrite ?Hm. }
  destruct (kalloc_take _ _ _ _ _ HT) as (s1 & K & Hm & He & Hp0 & [Hf1 HD1]).
  mstep_with K. rewrite (proj2 (Z.eqb_neq p 0) Hp0). do 2 mstep. cbv [ret].
  rewrite mem_of_put, put_put, Hm.
  assert (distinct_pages (pgdir :: tabs (mem_of s) pgdir ++ p :: held ++ l)) as HD by (by rewrite <- Hm).
  pose proof (add_tab (mem_of s) pgdir (held ++ l) (n / 1024) p HD Hi E) as (Htab & Hpte & Hag).
  pose proof (add_tab_perm _ _ _ _ _ Hi E Htab) as Hperm.
  destruct (dir_page _ _ _ HD) as [Hdok Hdr].
  set (m' := st32 _ _ _) in *.
  assert (distinct_pages (pgdir :: tabs m' pgdir ++ held ++ l)) as HD'.
  { eapply distinct_pages_perm; [|exact HD]. rewrite Hperm. solve_Permutation. }
  eexists _, l. rewrite !mem_of_put. rewrite (Htab _ Hi), Z.eqb_refl. split_and!; [|done| |done|cbn; lia].
  - split; [|etransitivity; [exact He|apply env_mem]|by intros q Hq; apply elem_of_cons; right| |]; rewrite ?mem_of_put.
    + split; [|by rewrite mem_of_put]. apply free_frame; [done|]. rewrite Hm.
      eapply agree_weaken; [|exact Hag]. intros a Ha.
      assert (distinct_pages ((p :: pgdir :: tabs (mem_of s) pgdir ++ held) ++ l)) as HDl.
      { eapply distinct_pages_perm; [|exact HD]. solve_Permutation. }
      split; intros Hc; apply (distinct_apart _ _ a HDl); try done;
        rewrite !in_pages_cons; tauto.
    + rewrite Hperm. solve_Permutation.
    + eapply agree_weaken; [|exact Hag]. cbn. intros a Ha. rewrite in_pages_cons, in_pages_app, in_pages_cons in Ha. tauto.
  - intros i t Hir Ht. rewrite (Htab _ Hir). destruct (Z.eqb_spec i (n / 1024)) as [->|]; congruence.
Qed.

(** Writing the entry of a page that has a table. *)
Lemma set_pte_mapped s pgdir held l n t v :
  tables s pgdir held l -> 0 <= n < NVPN -> tab_of (mem_of s) pgdir (n / 1024) = Some t ->
  let s' := put memL (st32 (mem_of s) (t + 4 * (n mod 1024)) v) s in
  mapped s s' pgdir held l l /\
  (forall i, 0 <= i < 1024 -> tab_of (mem_of s') pgdir i = tab_of (mem_of s) pgdir i) /\
  (forall k, 0 <= k < NVPN -> pte_of (mem_of s') pgdir k = if k =? n then u32 v else pte_of (mem_of s) pgdir k).
Proof.
  intros [Hf HD] Hn Ht s'. destruct (vpn_range n Hn) as [Hi Hj].
  pose proof (set_pte _ _ _ n t v HD Hn Ht) as (Htab & Hpte & Hag).
  destruct (tab_page _ _ _ _ _ HD Hi Ht) as (_ & _ & _ & Hin).
  assert (forall a, in_page t a -> in_pages (pgdir :: tabs (mem_of s) pgdir) a) as Hsub.
  { intros a Ha. apply in_pages_cons. right. by exists t. }
  unfold s'. rewrite mem_of_put. split_and!; [|done|done]. split; [split| |done| |]; rewrite ?mem_of_put.
  - apply free_frame; [done|]. eapply agree_weaken; [|exact Hag]. intros a Ha Hc.
    apply (distinct_apart ((pgdir :: tabs (mem_of s) pgdir) ++ held) l a); [by rewrite <- app_assoc| |done].
    apply in_pages_app. left. by apply Hsub.
  - by rewrite (tabs_ext _ _ _ Htab).
  - apply env_mem.
  - by rewrite (tabs_ext _ _ _ Htab).
  - eapply agree_weaken; [|exact Hag]. intros a Ha Hc. apply Ha. rewrite app_comm_cons.
    apply in_pages_app. left. by apply Hsub.
Qed.

Lemma tab_nonzero s pgdir held l i t j :
  tables s pgdir held l -> 0 <= i < 1024 -> tab_of (mem_of s) pgdir i = Some t -> 0 <= j -> t + 4 * j <> 0.
Proof.
  intros [_ HD] Hi Ht Hj. destruct (tab_page _ _ _ _ _ HD Hi Ht) as (Hok & _).
  pose proof (page_ok_bounds t Hok). lia.
Qed.

(** One turn of the loop of mappages. *)
Lemma map_step s pgdir held l n last pa perm fuel :
  tables s pgdir held l -> 0 <= n < NVPN -> present (pte_of (mem_of s) pgdir n) = false ->
  exists s' l', mapped s s' pgdir held l l' /\
    (forall i t, 0 <= i < 1024 -> tab_of (mem_of s) pgdir i = Some t -> tab_of (mem_of s') pgdir i = Some t) /\
    (mappages_loop (S fuel) pgdir (n * 4096) last pa perm s = Ret (-1, s') /\
       l = [] /\ l' = [] /\ mem_of s' = mem_of s
     \/ (length l <= S (length l'))%nat /\
       (forall k, 0 <= k < NVPN -> pte_of (mem_of s') pgdir k =
          if k =? n then u32 (Z.lor (Z.lor pa perm) PTE_P) else pte_of (mem_of s) pgdir k) /\
       mappages_loop (S fuel) pgdir (n * 4096) last pa perm s =
         (if n * 4096 =? last then ret 0
          else mappages_loop fuel pgdir (u32 (n * 4096 + PGSIZE)) last (u32 (pa + PGSIZE)) perm) s').
Proof.
  intros HT Hn Hfree. destruct (vpn_range n Hn) as [Hi Hj].
  destruct (walk_alloc s pgdir held l n HT Hn) as (s1 & l1 & Hmp & Hpte1 & Htab1 & Hw).
  cbn [mappages_loop]. destruct (tab_of (mem_of s1) pgdir (n / 1024)) as [t|] eqn:Et.
  - destruct Hw as [Hw Hlen]. mstep_with Hw.
    rewrite (proj2 (Z.eqb_neq _ 0) (tab_nonzero _ _ _ _ _ _ (n mod 1024) (mp_tables _ _ _ _ _ _ Hmp) Hi Et ltac:(lia))).
    mstep. assert (ld32 (mem_of s1) (t + 4 * (n mod 1024)) = pte_of (mem_of s) pgdir n) as ->.
    { rewrite <- (Hpte1 n Hn). unfold pte_of. by rewrite Et. }
    rewrite Hfree. mstep.
    destruct (set_pte_mapped s1 pgdir held l1 n t (Z.lor (Z.lor pa perm) PTE_P)
      (mp_tables _ _ _ _ _ _ Hmp) Hn Et) as (Hmp2 & Htab2 & Hpte2).
    eexists _, l1. split_and!; [by eapply mapped_trans| |right; split_and!; [done| |done]].
    + intros i t' Hir Ht'. rewrite Htab2 by done. by apply Htab1.
    + intros k Hk. rewrite (Hpte2 k Hk). by rewrite (Hpte1 k Hk).
  - destruct Hw as (Hw & -> & -> & Hm). mstep_with Hw. exists s1, []. split_and!; try done. by left.
Qed.

(** The entry mappages writes for the [i]-th page of its range. *)
Definition map_entry (pa perm i : Z) : Z := u32 (Z.lor (Z.lor (u32 (pa + i * 4096)) perm) PTE_P).

Definition update_range (f g : Z -> Z) (n d k : Z) : Z :=
  if (n <=? k) && (k <? n + d) then g (k - n) else f k.

Lemma update_range_0 f g n k : update_range f g n 0 k = f k.
Proof. unfold update_range. destruct (Z.leb_spec n k), (Z.ltb_spec k (n + 0)); cbn; done || lia. Qed.

Lemma update_range_cons f g n d k : 0 <= d ->
  update_range f g n (d + 1) k = if k =? n then g 0 else update_range f (fun i => g (i + 1)) (n + 1) d k.
Proof.
  intros Hd. unfold update_range.
  destruct (Z.leb_spec n k), (Z.ltb_spec k (n + (d + 1))), (Z.leb_spec (n + 1) k), (Z.ltb_spec k (n + 1 + d)),
    (Z.eqb_spec k n); cbn; try lia; try done; f_equal; lia.
Qed.

Lemma map_entry_0 pa perm : 0 <= pa < 0x100000000 ->
  map_entry pa perm 0 = u32 (Z.lor (Z.lor pa perm) PTE_P).
Proof. intros. unfold map_entry. by rewrite Z.mul_0_l, Z.add_0_r, (u32_small pa). Qed.

Lemma map_entry_S pa perm i : map_entry (u32 (pa + PGSIZE)) perm i = map_entry pa perm (i + 1).
Proof. unfold map_entry, u32, PGSIZE. rewrite Zplus_mod_idemp_l. do 4 f_equal. lia. Qed.

(** mappages on [cnt + 1] unmapped pages from page [n]: it writes the entries
    of the first [d] of them and nothing else, and it fails only when no page
    is left. *)
Lemma mappages_loop_spec pgdir held perm cnt : forall s l n pa,
  tables s pgdir held l -> 0 <= n -> n + Z.of_nat cnt < NVPN -> 0 <= pa < 0x100000000 ->
  (forall k, n <= k <= n + Z.of_nat cnt -> present (pte_of (mem_of s) pgdir k) = false) ->
  exists r s' l' d,
    mappages_loop (S cnt) pgdir (n * 4096) ((n + Z.of_nat cnt) * 4096) pa perm s = Ret (r, s') /\
    mapped s s' pgdir held l l' /\
    (forall i t, 0 <= i < 1024 -> tab_of (mem_of s) pgdir i = Some t -> tab_of (mem_of s') pgdir i = Some t) /\
    (forall k, 0 <= k < NVPN -> pte_of (mem_of s') pgdir k =
       update_range (pte_of (mem_of s) pgdir) (map_entry pa perm) n d k) /\
    0 <= d /\ Z.of_nat (length l) <= Z.of_nat (length l') + d /\
    (r = 0 /\ d = Z.of_nat cnt + 1 \/ r = -1 /\ d <= Z.of_nat cnt /\ l' = []).
Proof.
  induction cnt as [|cnt IH]; intros s l n pa HT Hn0 Hn1 Hpa Hfree;
    (assert (Hn : 0 <= n < NVPN) by lia); (assert (Hfn : present (pte_of (mem_of s) pgdir n) = false) by (apply Hfree; lia)).
  - destruct (map_step s pgdir held l n ((n + Z.of_nat 0) * 4096) pa perm 0 HT Hn Hfn)
      as (s1 & l1 & Hmp & Htab & [(Hr & -> & -> & Hm)|(Hlen & Hpte & Hr)]).
    { exists (-1), s1, [], 0. rewrite Hm. split_and!; try done; [|right; split_and!; done || lia].
      intros. by rewrite update_range_0. }
    exists 0, s1, l1, 1. rewrite Hr.
    replace (n * 4096 =? (n + Z.of_nat 0) * 4096) with true by (symmetry; apply Z.eqb_eq; lia).
    split_and!; try done; [|lia|left; lia]. intros k Hk. rewrite (Hpte k Hk).
    by rewrite (update_range_cons _ _ n 0 k), update_range_0, map_entry_0 by lia.
  - destruct (map_step s pgdir held l n ((n + Z.of_nat (S cnt)) * 4096) pa perm (S cnt) HT Hn Hfn)
      as (s1 & l1 & Hmp & Htab & [(Hr & -> & -> & Hm)|(Hlen & Hpte & Hr)]).
    { exists (-1), s1, [], 0. rewrite Hm. split_and!; try done; [|right; split_and!; done || lia].
      intros. by rewrite update_range_0. }
    rewrite Hr. replace (n * 4096 =? (n + Z.of_nat (S cnt)) * 4096) with false by (symmetry; apply Z.eqb_neq; lia).
    replace (u32 (n * 4096 + PGSIZE)) with ((n + 1) * 4096) by (unfold u32, PGSIZE, NVPN in *; mlia).
    replace (n + Z.of_nat (S cnt)) with ((n + 1) + Z.of_nat cnt) in * by lia.
    destruct (IH s1 l1 (n + 1) (u32 (pa + PGSIZE)) (mp_tables _ _ _ _ _ _ Hmp)) as
      (r & s' & l' & d & Hr' & Hmp' & Htab' & Hpte' & Hd & Hlen' & Hres);
      [lia|lia|apply u32_range| |].
    { intros k Hk. rewrite Hpte by lia. rewrite (proj2 (Z.eqb_neq k n)) by lia. apply Hfree. lia. }
    exists r, s', l', (d + 1). split_and!; [done|by eapply mapped_trans| | |lia|lia|].
    + intros i t Hi Ht. by apply Htab', Htab.
    + intros k Hk. rewrite (Hpte' k Hk). rewrite (update_range_cons _ _ n d k), map_entry_0 by lia.
      unfold update_range. rewrite (Hpte k Hk), map_entry_S.
      destruct (Z.leb_spec (n + 1) k); destruct (Z.eqb_spec k n); cbn [andb]; done || lia.
    + destruct Hres as [[-> ->]|(-> & ? & ->)]; [left; lia|right; split_and!; done || lia].
Qed.

(** The pages mappages visits. *)
Lemma mappages_eq pgdir va size pa perm c :
  0 <= va -> 0 < size -> va + size <= 0x100000000 ->
  (va + size - 1) / 4096 = va / 4096 + Z.of_nat c ->
  mappages pgdir va size pa perm =
  mappages_loop (S c) pgdir (va / 4096 * 4096) ((va / 4096 + Z.of_nat c) * 4096) pa perm.
Proof.
  intros Hva Hsz Htop Hc. unfold mappages. rewrite !PGROUNDDOWN_eq.
  replace (u32 (u32 (u32 (va + size) - 1))) with (va + size - 1) by (unfold u32; mlia).
  rewrite (u32_small va) by lia.
  replace (va - va mod 4096) with (va / 4096 * 4096) by mlia.
  replace (va + size - 1 - (va + size - 1) mod 4096) with ((va / 4096 + Z.of_nat c) * 4096) by mlia.
  replace (u32 _ / PGSIZE) with (Z.of_nat c) by (unfold u32, PGSIZE in *; mlia).
  by rewrite Nat2Z.id.
Qed.

(** Without a page table and without a free page it fails at once. *)
Lemma mappages_no_table s pgdir held n pa perm :
  tables s pgdir held [] -> 0 <= n < NVPN -> tab_of (mem_of s) pgdir (n / 1024) = None ->
  exists s', mappages pgdir (n * 4096) PGSIZE pa perm s = Ret (-1, s') /\
    mem_of s' = mem_of s /\ env s s' /\ free_pages s' [].
Proof.
  intros HT Hn Ht. destruct (kalloc_empty _ _ _ HT) as (s' & K & Hm & He & HT').
  exists s'. split_and!; [|done|done|apply HT'].
  unfold PGSIZE, NVPN in *. rewrite (mappages_eq _ _ _ _ _ 0) by mlia.
  replace (n * 4096 / 4096) with n by mlia. cbn [mappages_loop].
  assert (walkpgdir pgdir (n * 4096) 1 s = Ret (0, s')) as Hw; [|by mstep_with Hw].
  rewrite walk_eq, Ht by (unfold NVPN; lia). by mstep_with K.
Qed.

(** mappages itself, on any range of addresses that does not wrap. *)
Lemma mappages_spec s pgdir held l va size pa perm :
  tables s pgdir held l -> 0 <= va -> 0 < size -> va + size <= 0x100000000 -> 0 <= pa < 0x100000000 ->
  let n := va / 4096 in
  let cnt := (va + size - 1) / 4096 - n + 1 in
  (forall k, n <= k < n + cnt -> present (pte_of (mem_of s) pgdir k) = false) ->
  exists r s' l' d,
    mappages pgdir va size pa perm s = Ret (r, s') /\
    mapped s s' pgdir held l l' /\
    (forall i t, 0 <= i < 1024 -> tab_of (mem_of s) pgdir i = Some t -> tab_of (mem_of s') pgdir i = Some t) /\
    (forall k, 0 <= k < NVPN -> pte_of (mem_of s') pgdir k =
       update_range (pte_of (mem_of s) pgdir) (map_entry pa perm) n d k) /\
    0 <= d /\ Z.of_nat (length l) <= Z.of_nat (length l') + d /\
    (r = 0 /\ d = cnt \/ r = -1 /\ d < cnt /\ l' = []).
Proof.
  intros HT Hva Hsz Htop Hpa n cnt Hfree.
  assert (exists c, cnt = Z.of_nat c + 1) as [c Hc].
  { exists (Z.to_nat (cnt - 1)). unfold cnt, n. mlia. }
  rewrite (mappages_eq _ _ _ _ _ c) by (unfold cnt, n in *; lia). fold n.
  destruct (mappages_loop_spec pgdir held perm c s l n pa HT) as (r & s' & l' & d & H1 & H2 & H3 & H4 & H5 & H6 & H7);
    [unfold n; mlia|unfold NVPN, cnt, n in *; mlia|done|intros k Hk; apply Hfree; lia|].
  exists r, s', l', d. split_and!; try done.
  destruct H7 as [[-> ->]|(-> & ? & ->)]; [left; lia|right; split_and!; done || lia].
Qed.

End walk.
