(* ===== verification/AddrSpace.v ===== *)
(** * User address spaces

    The growth, shrinking, copying and release of a user address space
    (allocuvm, deallocuvm, freevm, setupkvm, copyuvm, copyout of vm.c) as
    operations on the map from virtual pages to physical pages, with the
    accounting of every physical page. *)

From Stdlib Require Import ZArith Lia String Bool.
From stdpp Require Import base numbers list.
From S2P Require Import Prelude Params Mem Pages Vm PageTable.

Section user.
Context {Lay : Layout} {St : Type} {PO : PageOps St} {PS : PageSpec St}.

(** The directory owns its tables and its user pages: they are mapped once,
    not free and not [held] elsewhere. *)
Definition owns (s : St) (pgdir : Z) (held l : list Z) : Prop :=
  tables s pgdir (upages (mem_of s) pgdir ++ held) l.

Lemma owns_distinct s pgdir held l :
  owns s pgdir held l <-> free_pages s l /\ distinct_pages (space (mem_of s) pgdir ++ held ++ l).
Proof. unfold owns, tables, space. cbn. by rewrite <- !app_assoc. Qed.

(** Mapping one more user page adds its target. *)
Lemma upages_map m m' pgdir n v p :
  0 <= n < NUVPN -> present (pte_of m pgdir n) = false -> target v = Some p ->
  (forall k, 0 <= k < NVPN -> pte_of m' pgdir k = if k =? n then v else pte_of m pgdir k) ->
  upages m' pgdir ≡ₚ p :: upages m pgdir.
Proof.
  intros Hn Hf Hv H. unfold NUVPN, NVPN in *.
  apply (omap_define _ _ _ n); [apply upto_nodup|by apply upto_in|by apply target_absent| |].
  - by rewrite H, Z.eqb_refl by lia.
  - intros k Hk Hne. apply upto_in in Hk. rewrite H by (unfold NUVPN in *; lia). by destruct (Z.eqb_spec k n).
Qed.

Lemma upages_elem m pgdir n p : 0 <= n < NUVPN -> target (pte_of m pgdir n) = Some p -> p ∈ upages m pgdir.
Proof. intros Hn Hp. apply list_elem_of_omap. exists n. split; [by apply upto_in|done]. Qed.

Lemma upages_mono m m' pgdir :
  (forall k, 0 <= k < NVPN -> present (pte_of m pgdir k) = true -> pte_of m' pgdir k = pte_of m pgdir k) ->
  forall p, p ∈ upages m pgdir -> p ∈ upages m' pgdir.
Proof.
  intros H p Hp. apply list_elem_of_omap in Hp as (k & Hk & Hp). apply upto_in in Hk.
  apply (upages_elem _ _ k); [done|]. rewrite H; [done| |by apply target_present in Hp as [? _]].
  unfold NVPN, NUVPN in *. lia.
Qed.

(** Mapping a page [p] in hand at the unmapped user page [n]. *)
Lemma map_user_page s pgdir held l n p perm :
  owns s pgdir (p :: held) l -> 0 <= n < NUVPN -> present (pte_of (mem_of s) pgdir n) = false ->
  0 <= perm < 4096 ->
  exists r s' l', mappages pgdir (n * 4096) PGSIZE (v2p p) perm s = Ret (r, s') /\ env s s' /\
    agree (fun a => ~ in_pages (pgdir :: tabs (mem_of s) pgdir ++ l) a) (mem_of s) (mem_of s') /\
    (forall i t, 0 <= i < 1024 -> tab_of (mem_of s) pgdir i = Some t -> tab_of (mem_of s') pgdir i = Some t) /\
    (r = 0 /\ owns s' pgdir held l' /\
       space (mem_of s') pgdir ++ l' ≡ₚ p :: space (mem_of s) pgdir ++ l /\
       tab_of (mem_of s') pgdir (n / 1024) <> None /\
       (length l <= S (length l'))%nat /\ (forall q, q ∈ l' -> q ∈ l) /\
       (forall k, 0 <= k < NVPN -> pte_of (mem_of s') pgdir k =
          if k =? n then Z.lor (Z.lor (v2p p) perm) PTE_P else pte_of (mem_of s) pgdir k)
     \/ r = -1 /\ owns s' pgdir (p :: held) l' /\ l' = [] /\ l = [] /\
       space (mem_of s') pgdir ≡ₚ space (mem_of s) pgdir /\
       (forall k, 0 <= k < NVPN -> pte_of (mem_of s') pgdir k = pte_of (mem_of s) pgdir k)).
Proof.
  intros HO Hn Hf Hperm. assert (page_ok p) as Hpok.
  { destruct HO as [_ [_ Hok]]. rewrite Forall_forall in Hok. apply Hok.
    rewrite elem_of_cons, !elem_of_app, elem_of_cons. tauto. }
  destruct (page_phys p Hpok) as (Hv2p & Hal & Hpr & Hpv). unfold NUVPN, PHYSTOP, PGSIZE in *.
  destruct (mappages_spec s pgdir _ l (n * 4096) 4096 (v2p p) perm HO) as
    (r & s' & l' & d & Hr & Hmp & Htab & Hpte & Hd & Hlen & Hres); [lia..| |].
  { intros k Hk. assert (k = n) as -> by mlia. done. }
  assert (Hn1 : n * 4096 / 4096 = n) by mlia. assert (Hn2 : (n * 4096 + 4096 - 1) / 4096 = n) by mlia.
  rewrite Hn1, Hn2 in *. exists r, s', l'. split_and!; [done|apply Hmp|apply Hmp|done|].
  destruct Hres as [[-> Hd1]|(-> & Hd1 & ->)]; [left|right].
  - assert (forall k, 0 <= k < NVPN -> pte_of (mem_of s') pgdir k =
          if k =? n then Z.lor (Z.lor (v2p p) perm) PTE_P else pte_of (mem_of s) pgdir k) as Hpte'.
    { intros k Hk. rewrite (Hpte k Hk), Hd1. replace (n - n + 1) with (0 + 1) by lia.
      rewrite update_range_cons, update_range_0, map_entry_0 by lia.
      destruct (entry_add (v2p p) perm Hal Hperm) as [-> ?]. rewrite u32_small by lia. done. }
    assert (upages (mem_of s') pgdir ≡ₚ p :: upages (mem_of s) pgdir) as Hup.
    { eapply upages_map; [|exact Hf| |exact Hpte']; [unfold NUVPN; lia|].
      rewrite target_entry by lia. by rewrite Hpv. }
    destruct Hmp as [[Hfr HD] He Hfl Hpg Hfrm]. split_and!; try done; [split; [done|]| | |lia].
    + eapply distinct_pages_perm; [|exact HD]. rewrite Hup. solve_Permutation.
    + unfold space. rewrite Hup. cbn. rewrite <- !app_assoc, (Permutation_app_comm (p :: _) l'), app_assoc, Hpg.
      solve_Permutation.
    + intros Hnone. assert (pte_of (mem_of s') pgdir n = 0) as H0 by (unfold pte_of; by rewrite Hnone).
      rewrite Hpte', Z.eqb_refl in H0 by (unfold NVPN; lia).
      destruct (entry_add (v2p p) perm Hal Hperm) as [Hx ?]. lia.
  - assert (d = 0) as -> by lia.
    assert (forall k, 0 <= k < NVPN -> pte_of (mem_of s') pgdir k = pte_of (mem_of s) pgdir k) as Hpte'.
    { intros k Hk. by rewrite (Hpte k Hk), update_range_0. }
    assert (upages (mem_of s') pgdir = upages (mem_of s) pgdir) as Hup.
    { apply upages_ext. intros k Hk. apply Hpte'. unfold NUVPN, NVPN in *. lia. }
    assert (l = []) as -> by (destruct l; [done|cbn in Hlen; lia]).
    destruct Hmp as [HT He _ Hpg Hfrm]. split_and!; try done.
    + unfold owns. by rewrite Hup.
    + unfold space. rewrite Hup. rewrite !app_nil_r in Hpg. by rewrite Hpg.
Qed.

(** ** Unmapping *)

(** The user pages numbered [n] to [e - 1] are unmapped and freed; the pages
    still mapped and the pages held elsewhere keep their bytes. *)
Record unmapped (s s' : St) (pgdir : Z) (held l l' : list Z) (n e : Z) : Prop := {
  um_owns : owns s' pgdir held l';
  um_env : env s s';
  um_tab : forall i, 0 <= i < 1024 -> tab_of (mem_of s') pgdir i = tab_of (mem_of s) pgdir i;
  um_pages : upages (mem_of s') pgdir ++ l' ≡ₚ upages (mem_of s) pgdir ++ l;
  um_frame : agree (in_pages (upages (mem_of s') pgdir ++ held)) (mem_of s) (mem_of s');
  um_pte : forall k, 0 <= k < NVPN -> pte_of (mem_of s') pgdir k =
    if (n <=? k) && (k <? e) && present (pte_of (mem_of s) pgdir k) then 0 else pte_of (mem_of s) pgdir k
}.

(** Unmapping can only shrink the set of user pages. *)
Lemma upages_shrink m m' pgdir :
  (forall k, 0 <= k < NVPN -> pte_of m' pgdir k = 0 \/ pte_of m' pgdir k = pte_of m pgdir k) ->
  forall p, p ∈ upages m' pgdir -> p ∈ upages m pgdir.
Proof.
  intros H p Hp. apply list_elem_of_omap in Hp as (k & Hk & Hp). apply upto_in in Hk.
  apply (upages_elem _ _ k); [done|]. destruct (H k) as [E|E]; [unfold NVPN, NUVPN in *; lia| |congruence].
  by rewrite E in Hp.
Qed.

Lemma um_shrink s s' pgdir held l l' n e p :
  unmapped s s' pgdir held l l' n e -> p ∈ upages (mem_of s') pgdir -> p ∈ upages (mem_of s) pgdir.
Proof.
  intros H. apply upages_shrink. intros k Hk. rewrite (um_pte _ _ _ _ _ _ _ _ H k Hk).
  destruct (_ && _ && _); auto.
Qed.

Lemma unmapped_none s pgdir held l n e :
  owns s pgdir held l ->
  (forall k, n <= k < e -> 0 <= k < NVPN -> present (pte_of (mem_of s) pgdir k) = false) ->
  unmapped s s pgdir held l l n e.
Proof.
  intros HO H. split; try done.
  intros k Hk. destruct (Z.leb_spec n k), (Z.ltb_spec k e); cbn [andb]; try done. by rewrite H.
Qed.

Lemma unmapped_trans s1 s2 s3 pgdir held l1 l2 l3 n j e :
  n <= j <= e ->
  unmapped s1 s2 pgdir held l1 l2 n j -> unmapped s2 s3 pgdir held l2 l3 j e ->
  unmapped s1 s3 pgdir held l1 l3 n e.
Proof.
  intros Hj H1 H2. pose proof (fun p => um_shrink _ _ _ _ _ _ _ _ p H2) as Hsub.
  destruct H1 as [O1 E1 T1 P1 F1 M1], H2 as [O2 E2 T2 P2 F2 M2].
  split; [done|by etransitivity| |by rewrite P2| |].
  - intros i Hi. by rewrite T2, T1.
  - eapply agree_trans; [|exact F2]. eapply agree_weaken; [|exact F1].
    intros a. rewrite !in_pages_app. intros [(p & Hp & Ha)|Ha]; [left; exists p; auto|by right].
  - intros k Hk. rewrite M2, M1 by done.
    destruct (Z.leb_spec n k), (Z.ltb_spec k j), (Z.leb_spec j k), (Z.ltb_spec k e);
      cbn [andb]; try lia; try done; by destruct (present (pte_of (mem_of s1) pgdir k)) eqn:E; rewrite ?present_0.
Qed.

(** Freeing the page mapped at [n] and clearing its entry. *)
Lemma free_user_page s pgdir held l n t p :
  owns s pgdir held l -> 0 <= n < NUVPN -> tab_of (mem_of s) pgdir (n / 1024) = Some t ->
  target (pte_of (mem_of s) pgdir n) = Some p ->
  exists s', (kfree p ;; store32 (t + 4 * (n mod 1024)) 0) s = Ret (tt, s') /\
    unmapped s s' pgdir held l (p :: l) n (n + 1).
Proof.
  intros [Hf HD] Hn Ht Hp. assert (Hnv : 0 <= n < NVPN) by (unfold NUVPN, NVPN in *; lia).
  pose proof (upages_elem _ _ _ _ Hn Hp) as Hin.
  apply elem_of_Permutation in Hin as [up Hup].
  assert (distinct_pages ((pgdir :: tabs (mem_of s) pgdir ++ up ++ held ++ l) ++ [p])) as HD1.
  { eapply distinct_pages_perm; [|exact HD]. rewrite Hup. solve_Permutation. }
  assert (page_ok p /\ p ∉ l) as [Hpok Hpl].
  { destruct HD1 as [Hnd Hok]. rewrite Forall_forall in Hok. split.
    - apply Hok. apply elem_of_app. right. apply elem_of_cons. by left.
    - apply NoDup_app in Hnd as (_ & Hd & _). intros Hc. apply (Hd p); [|apply elem_of_cons; by left].
      rewrite elem_of_cons, !elem_of_app. auto. }
  destruct (kfree_spec s l p Hf Hpok Hpl) as (s1 & K & Hf1 & Hag1 & He1).
  assert (agree (in_pages (pgdir :: tabs (mem_of s) pgdir ++ up ++ held ++ l)) (mem_of s) (mem_of s1)) as Hag.
  { eapply agree_weaken; [|exact Hag1]. intros a Ha Hc.
    apply (distinct_apart _ _ a HD1 Ha). exists p. split; [apply elem_of_cons; by left|done]. }
  destruct (tables_frame (mem_of s) (mem_of s1) pgdir) as [Htab1 Hpte1].
  { eapply agree_weaken; [|exact Hag]. intros a. rewrite app_comm_cons, in_pages_app. by left. }
  assert (tables s1 pgdir (up ++ held) (p :: l)) as HT1.
  { split; [done|]. rewrite (tabs_ext _ _ _ Htab1). eapply distinct_pages_perm; [|exact HD1]. solve_Permutation. }
  rewrite <- (Htab1 _ (proj1 (vpn_range n Hnv))) in Ht.
  pose proof (set_pte_mapped s1 pgdir _ _ n t 0 HT1 Hnv Ht) as (Hmp & Htab2 & Hpte2).
  mstep_with K. rewrite store32_eq. eexists. split; [done|]. set (s2 := put memL _ s1) in *.
  assert (forall k, 0 <= k < NVPN -> pte_of (mem_of s2) pgdir k = if k =? n then 0 else pte_of (mem_of s) pgdir k) as Hpte.
  { intros k Hk. rewrite Hpte2, Hpte1 by done. done. }
  assert (upages (mem_of s2) pgdir ≡ₚ up) as Hup2.
  { apply (Permutation_cons_inv (a := p)). rewrite <- Hup. symmetry.
    eapply (upages_map (mem_of s2) _ pgdir n (pte_of (mem_of s) pgdir n)); [done| |done|].
    - by rewrite Hpte, Z.eqb_refl.
    - intros k Hk. rewrite Hpte by done. by destruct (Z.eqb_spec k n) as [->|]. }
  split.
  - destruct Hmp as [[Hf2 HD2] _ _ _ _]. split; [done|]. eapply distinct_pages_perm; [|exact HD2]. by rewrite Hup2.
  - etransitivity; [exact He1|apply Hmp].
  - intros i Hi. by rewrite Htab2, Htab1.
  - rewrite Hup2, Hup. solve_Permutation.
  - intros a Ha. rewrite (mapped_held _ _ _ _ _ _ a HT1 Hmp).
    + apply Hag. rewrite app_comm_cons, !in_pages_app. rewrite in_pages_app in Ha.
      destruct Ha as [Ha|Ha]; [|tauto]. eapply in_pages_perm in Ha; [|exact Hup2]. tauto.
    + rewrite in_pages_app in *. destruct Ha as [Ha|Ha]; [left|by right]. by eapply in_pages_perm.
  - intros k Hk. rewrite Hpte by done. apply target_present in Hp as [Hpr _].
    destruct (Z.eqb_spec k n) as [->|Hne].
    + by rewrite Z.leb_refl, (proj2 (Z.ltb_lt n (n + 1))), Hpr by lia.
    + destruct (Z.leb_spec n k), (Z.ltb_spec k (n + 1)); cbn [andb]; done || lia.
Qed.

(** The loop of deallocuvm from page [n] to below page [e].  It may skip 1024
    pages at a time, which is right when it does so from a table's first
    page, or when nothing is mapped further on. *)
Lemma deallocuvm_loop_spec pgdir held oldsz e fuel : forall s l n,
  owns s pgdir held l -> 0 <= n -> e <= NUVPN -> (e - 1) * 4096 < oldsz <= e * 4096 ->
  e - n <= Z.of_nat fuel ->
  (n mod 1024 = 0 \/ tab_of (mem_of s) pgdir (n / 1024) <> None \/
     forall k, n <= k < e -> present (pte_of (mem_of s) pgdir k) = false) ->
  exists s' l', deallocuvm_loop fuel pgdir (n * 4096) oldsz s = Ret (tt, s') /\
    unmapped s s' pgdir held l l' n e.
Proof.
  induction fuel as [|fuel IH]; intros s l n HO Hn0 He Hsz Hfu Hskip.
  { cbn [deallocuvm_loop]. rewrite (proj2 (Z.ltb_ge _ _)) by lia. exists s, l. split; [done|].
    apply unmapped_none; [done|]. lia. }
  cbn [deallocuvm_loop]. destruct (Z.ltb_spec (n * 4096) oldsz) as [Hlt|Hge].
  2:{ exists s, l. split; [done|]. apply unmapped_none; [done|]. lia. }
  assert (Hn : 0 <= n < NUVPN) by lia. assert (Hnv : 0 <= n < NVPN) by (unfold NUVPN, NVPN in *; lia).
  pose proof (walk_eq s pgdir n 0 Hnv) as Hw. cbn [Z.eqb] in Hw.
  destruct (tab_of (mem_of s) pgdir (n / 1024)) as [t|] eqn:Et.
  - mstep_with Hw. destruct (vpn_range n Hnv) as [Hi Hj].
    rewrite (proj2 (Z.eqb_neq _ 0) (tab_nonzero _ _ _ _ _ _ (n mod 1024) HO Hi Et ltac:(lia))). mstep.
    replace (u32 (n * 4096 + PGSIZE)) with ((n + 1) * 4096) by (unfold u32, PGSIZE, NUVPN in *; mlia).
    assert (ld32 (mem_of s) (t + 4 * (n mod 1024)) = pte_of (mem_of s) pgdir n) as Hld.
    { unfold pte_of. by rewrite Et. }
    assert (exists s1 l1, (if present (pte_of (mem_of s) pgdir n) then
        let pa := PTE_ADDR (pte_of (mem_of s) pgdir n) in
        if pa =? 0 then panic "kfree" else kfree (p2v pa) ;; store32 (t + 4 * (n mod 1024)) 0
       else ret tt) s = Ret (tt, s1) /\ unmapped s s1 pgdir held l l1 n (n + 1)) as (s1 & l1 & Hs1 & Hu1).
    { destruct (present (pte_of (mem_of s) pgdir n)) eqn:Epr.
      - assert (target (pte_of (mem_of s) pgdir n) = Some (p2v (PTE_ADDR (pte_of (mem_of s) pgdir n)))) as Htg.
        { unfold target. by rewrite Epr. }
        destruct (free_user_page s pgdir held l n t _ HO Hn Et Htg) as (s1 & Hs1 & Hu1).
        exists s1. eexists. split; [|exact Hu1]. cbv zeta.
        destruct (Z.eqb_spec (PTE_ADDR (pte_of (mem_of s) pgdir n)) 0) as [E0|_]; [|done].
        exfalso. destruct HO as [_ [_ Hok]]. rewrite Forall_forall in Hok.
        assert (page_ok (p2v (PTE_ADDR (pte_of (mem_of s) pgdir n)))) as Hp.
        { apply Hok. rewrite elem_of_cons, !elem_of_app. do 2 right. do 2 left. by eapply upages_elem. }
        rewrite E0 in Hp. apply page_ok_bounds in Hp. change (p2v 0) with 0x80000000 in Hp. lia.
      - exists s, l. split; [done|]. apply unmapped_none; [done|]. intros k Hk _. by replace k with n by lia. }
    rewrite Hld. mstep_with Hs1.
    destruct (IH s1 l1 (n + 1)) as (s' & l' & Hs' & Hu'); [apply Hu1|lia|done|done|lia| |].
    { rewrite (um_tab _ _ _ _ _ _ _ _ Hu1) by (unfold NUVPN, NVPN in *; mlia).
      destruct (Z.eq_dec ((n + 1) mod 1024) 0); [by left|right; left].
      replace ((n + 1) / 1024) with (n / 1024) by mlia. congruence. }
    exists s', l'. split; [done|]. eapply unmapped_trans; [|exact Hu1|exact Hu']. lia.
  - mstep_with Hw. cbn [Z.eqb].
    replace (u32 (u32 (n * 4096 + (NPTENTRIES - 1) * PGSIZE) + PGSIZE)) with ((n + 1024) * 4096)
      by (unfold u32, NPTENTRIES, PGSIZE, NUVPN in *; mlia).
    destruct (IH s l (n + 1024)) as (s' & l' & Hs' & Hu'); [done|lia|done|done|lia| |].
    { destruct Hskip as [Ha|[Hc|Hall]]; [left; mlia|done|right; right; intros; apply Hall; lia]. }
    exists s', l'. split; [done|].
    destruct Hu' as [O' E' T' P' F' M']. split; try done. intros k Hk. rewrite M' by done.
    destruct (Z.leb_spec n k), (Z.ltb_spec k e), (Z.leb_spec (n + 1024) k); cbn [andb]; try lia; try done.
    assert (present (pte_of (mem_of s) pgdir k) = false) as ->; [|done].
    destruct Hskip as [Ha|[Hc|Hall]]; [|done|apply Hall; lia].
    unfold pte_of. replace (k / 1024) with (n / 1024) by mlia. by rewrite Et.
Qed.

(** Pages needed for [sz] bytes. *)
Definition npages (sz : Z) : Z := (sz + 4095) / 4096.

Lemma npages_bounds sz : 0 <= sz <= KERNBASE ->
  0 <= npages sz <= NUVPN /\ (npages sz - 1) * 4096 < sz <= npages sz * 4096.
Proof. unfold npages, KERNBASE, NUVPN. mlia. Qed.

Lemma PGROUNDUP_npages sz : 0 <= sz <= KERNBASE -> PGROUNDUP sz = npages sz * 4096.
Proof. intros. rewrite PGROUNDUP_eq. unfold KERNBASE, npages, u32 in *. mlia. Qed.

Lemma deallocuvm_spec s pgdir held l oldsz newsz :
  owns s pgdir held l -> 0 <= newsz < oldsz -> oldsz <= KERNBASE ->
  let n := npages newsz in
  (n mod 1024 = 0 \/ tab_of (mem_of s) pgdir (n / 1024) <> None \/
     forall k, n <= k < npages oldsz -> present (pte_of (mem_of s) pgdir k) = false) ->
  exists s' l', deallocuvm pgdir oldsz newsz s = Ret (newsz, s') /\
    unmapped s s' pgdir held l l' n (npages oldsz).
Proof.
  intros HO Hsz Hk n Hskip. unfold deallocuvm. rewrite (proj2 (Z.leb_gt _ _)) by lia.
  rewrite PGROUNDUP_npages by lia. destruct (npages_bounds newsz) as [Hn1 Hn2]; [lia|].
  destruct (npages_bounds oldsz) as [He1 He2]; [lia|]. fold n in Hn1, Hn2 |- *.
  destruct (deallocuvm_loop_spec pgdir held oldsz (npages oldsz)
    (Z.to_nat ((oldsz - n * 4096 + PGSIZE - 1) / PGSIZE)) s l n) as (s' & l' & Hs' & Hu); try done; try lia.
  { unfold npages, PGSIZE. mlia. }
  exists s', l'. split; [|done]. by mstep_with Hs'.
Qed.

(** ** Releasing an address space *)

Lemma freevm_loop_spec pgdir held n : forall s l i,
  free_pages s l ->
  distinct_pages (pgdir :: omap (tab_of (mem_of s) pgdir) (seqZ i (Z.of_nat n)) ++ held ++ l) ->
  0 <= i -> i + Z.of_nat n <= 1024 ->
  exists s' l', freevm_loop n pgdir i s = Ret (tt, s') /\ free_pages s' l' /\ env s s' /\
    l' ≡ₚ omap (tab_of (mem_of s) pgdir) (seqZ i (Z.of_nat n)) ++ l /\
    agree (in_pages (pgdir :: held)) (mem_of s) (mem_of s').
Proof.
  induction n as [|n IH]; intros s l i Hf HD Hi Hn.
  { exists s, l. by split_and!. }
  cbn [freevm_loop]. mstep. fold (pde_of (mem_of s) pgdir i).
  rewrite seqZ_cons in * by lia. replace (Z.succ i) with (i + 1) in * by lia.
  replace (Z.pred (Z.of_nat (S n))) with (Z.of_nat n) in * by lia.
  cbn [omap list_omap] in *. unfold tab_of in HD at 1. unfold tab_of at 1. unfold target in *.
  destruct (present (pde_of (mem_of s) pgdir i)).
  - set (p := p2v _) in *. set (ts := omap (tab_of (mem_of s) pgdir) (seqZ (i + 1) (Z.of_nat n))) in *.
    assert (distinct_pages ((pgdir :: ts ++ held ++ l) ++ [p])) as HD1.
    { eapply distinct_pages_perm; [|exact HD]. solve_Permutation. }
    assert (page_ok p /\ p ∉ l) as [Hpok Hpl].
    { destruct HD1 as [Hnd Hok]. rewrite Forall_forall in Hok. split.
      - apply Hok. apply elem_of_app. right. apply elem_of_cons. by left.
      - apply NoDup_app in Hnd as (_ & Hd & _). intros Hc. apply (Hd p); [|apply elem_of_cons; by left].
        rewrite elem_of_cons, !elem_of_app. auto. }
    destruct (kfree_spec s l p Hf Hpok Hpl) as (s1 & K & Hf1 & Hag1 & He1).
    assert (agree (in_pages (pgdir :: ts ++ held ++ l)) (mem_of s) (mem_of s1)) as Hag.
    { eapply agree_weaken; [|exact Hag1]. intros a Ha Hc.
      apply (distinct_apart _ _ a HD1 Ha). exists p. split; [apply elem_of_cons; by left|done]. }
    assert (omap (tab_of (mem_of s1) pgdir) (seqZ (i + 1) (Z.of_nat n)) = ts) as Hts.
    { apply omap_ext_in. intros j Hj. apply elem_of_seqZ in Hj. unfold tab_of, pde_of. f_equal.
      apply (ld32_agree _ _ _ _ Hag). intros a Ha. apply in_pages_cons. left. apply (entry_in_page _ j); lia. }
    mstep_with K. destruct (IH s1 (p :: l) (i + 1)) as (s' & l' & Hs' & Hf' & He' & Hl' & Hag'); [done| |lia|lia|].
    { rewrite Hts. eapply distinct_pages_perm; [|exact HD1]. solve_Permutation. }
    exists s', l'. split_and!; [done|done|by etransitivity| |].
    + rewrite Hl', Hts. solve_Permutation.
    + eapply agree_trans; [|exact Hag']. eapply agree_weaken; [|exact Hag].
      intros a. rewrite !in_pages_cons, !in_pages_app. tauto.
  - by apply IH; try lia.
Qed.

Lemma freevm_spec s pgdir held l :
  owns s pgdir held l ->
  exists s' l', freevm pgdir s = Ret (tt, s') /\ free_pages s' l' /\ env s s' /\
    l' ≡ₚ space (mem_of s) pgdir ++ l /\ agree (in_pages held) (mem_of s) (mem_of s').
Proof.
  intros HO. destruct (dir_page _ _ _ (proj2 HO)) as [Hdok _]. unfold freevm.
  rewrite (proj2 (Z.eqb_neq pgdir 0)) by (pose proof (page_ok_bounds pgdir Hdok); lia).
  destruct (deallocuvm_spec s pgdir held l KERNBASE 0 HO) as (s1 & l1 & Hs1 & [O1 E1 T1 P1 F1 M1]);
    [unfold KERNBASE; lia|lia|by left|]. mstep_with Hs1.
  change (npages 0) with 0 in M1. change (npages KERNBASE) with NUVPN in M1.
  assert (upages (mem_of s1) pgdir = []) as Hup.
  { destruct (upages (mem_of s1) pgdir) as [|p us] eqn:E; [done|].
    assert (p ∈ upages (mem_of s1) pgdir) as Hp by (rewrite E; apply elem_of_cons; by left).
    apply list_elem_of_omap in Hp as (k & Hk & Hp). apply upto_in in Hk.
    rewrite M1 in Hp by (unfold NUVPN, NVPN in *; lia).
    rewrite (proj2 (Z.leb_le 0 k)), (proj2 (Z.ltb_lt k NUVPN)) in Hp by lia. cbn [andb] in Hp.
    destruct (present (pte_of (mem_of s) pgdir k)) eqn:E'; [done|]. unfold target in Hp. by rewrite E' in Hp. }
  unfold owns in O1. rewrite Hup in *. destruct O1 as [Hf1 HD1].
  pose proof (tabs_ext _ _ _ T1) as Ht.
  assert (tabs (mem_of s1) pgdir = omap (tab_of (mem_of s1) pgdir) (seqZ 0 (Z.of_nat (Z.to_nat NPDENTRIES)))) as Htt.
  { unfold tabs. by rewrite upto_eq. }
  rewrite Htt in HD1.
  destruct (freevm_loop_spec pgdir held _ s1 l1 0 Hf1 HD1) as (s2 & l2 & Hs2 & Hf2 & E2 & Hl2 & Hag2);
    [lia|by unfold NPDENTRIES|]. mstep_with Hs2. rewrite <- Htt in *.
  assert (pgdir ∉ l2) as Hnl.
  { rewrite Hl2. destruct HD1 as [Hnd _]. apply NoDup_cons in Hnd as [Hnd _].
    rewrite !elem_of_app in *. tauto. }
  destruct (kfree_spec s2 l2 pgdir Hf2 Hdok Hnl) as (s3 & K & Hf3 & Hag3 & E3).
  exists s3, (pgdir :: l2). split_and!; [done|done|by do 2 (etransitivity; [eassumption|])| |].
  - unfold space. rewrite Hl2, Ht. cbn. rewrite <- app_assoc. by rewrite <- P1.
  - eapply agree_trans; [exact F1|]. eapply agree_trans.
    + eapply agree_weaken; [|exact Hag2]. intros a Ha. apply in_pages_cons. by right.
    + eapply agree_weaken; [|exact Hag3]. intros a Ha Hc.
      apply (distinct_apart [pgdir] held a); [| |done].
      * eapply distinct_sub; [|exact HD1]. solve_submseteq.
      * exists pgdir. split; [apply elem_of_cons; by left|done].
Qed.

(** ** Growth *)

(** Writing a user page or a page in hand changes no mapping. *)
Lemma write_held s pgdir held l p m' :
  owns s pgdir held l -> p ∈ upages (mem_of s) pgdir ++ held -> agree (fun a => ~ in_page p a) (mem_of s) m' ->
  owns (put memL m' s) pgdir held l /\
  (forall i, 0 <= i < 1024 -> tab_of m' pgdir i = tab_of (mem_of s) pgdir i) /\
  (forall k, 0 <= k < NVPN -> pte_of m' pgdir k = pte_of (mem_of s) pgdir k) /\
  space m' pgdir = space (mem_of s) pgdir.
Proof.
  intros HO Hp Hag. apply owns_distinct in HO as HO'. destruct HO' as [Hf HD].
  assert (forall a, in_page p a -> in_pages ((pgdir :: tabs (mem_of s) pgdir) ++ l) a -> False) as Hap.
  { intros a Ha Hc. apply (distinct_apart ((pgdir :: tabs (mem_of s) pgdir) ++ l) (upages (mem_of s) pgdir ++ held) a); [|exact Hc|by exists p].
    eapply distinct_pages_perm; [|exact HD]. unfold space. solve_Permutation. }
  destruct (tables_frame (mem_of s) m' pgdir) as [Ht Hpt].
  { eapply agree_weaken; [|exact Hag]. intros a Ha Hc. apply (Hap a Hc).
    apply in_pages_app. by left. }
  assert (space m' pgdir = space (mem_of s) pgdir) as Hsp.
  { unfold space. rewrite (tabs_ext _ _ _ Ht). rewrite (upages_ext (mem_of s) m'); [done|].
    intros n Hn. apply Hpt. unfold NUVPN, NVPN in *. lia. }
  split_and!; try done. apply owns_distinct. rewrite mem_of_put, Hsp. split; [|done].
  apply free_frame; [done|]. eapply agree_weaken; [|exact Hag]. intros a Ha Hc. apply (Hap a Hc).
  apply in_pages_app. by right.
Qed.

(** The bytes of page [p] by their offset. *)
Definition filled (f : Z -> Z) (m : mem) (p : Z) : Prop := forall a, in_page p a -> ld8 m a = f (a - p).
Definition zeroes (_ _ : Z) : Z := 0.

(** The user pages numbered [n] to [n + j - 1] are mapped to fresh pages whose
    bytes [fill] gives by page number and offset; [lost] are the pages taken
    from the free list that ended nowhere. *)
Record grown (fill : Z -> Z -> Z) (s s' : St) (pgdir : Z) (held lost l l' : list Z) (n j : Z) : Prop := {
  gr_owns : owns s' pgdir (lost ++ held) l';
  gr_env : env s s';
  gr_pages : space (mem_of s') pgdir ++ lost ++ l' ≡ₚ space (mem_of s) pgdir ++ l;
  gr_free : forall p, p ∈ l' -> p ∈ l;
  gr_up : forall p, p ∈ upages (mem_of s) pgdir -> p ∈ upages (mem_of s') pgdir;
  gr_frame : agree (in_pages (upages (mem_of s) pgdir ++ held)) (mem_of s) (mem_of s');
  gr_tab : forall i t, 0 <= i < 1024 -> tab_of (mem_of s) pgdir i = Some t -> tab_of (mem_of s') pgdir i = Some t;
  gr_old : forall k, 0 <= k < NVPN -> ~ (n <= k < n + j) -> pte_of (mem_of s') pgdir k = pte_of (mem_of s) pgdir k;
  gr_new : forall k, n <= k < n + j -> exists p, p ∈ l /\ filled (fill k) (mem_of s') p /\
    pte_of (mem_of s') pgdir k = Z.lor (Z.lor (v2p p) (Z.lor PTE_W PTE_U)) PTE_P
}.

Lemma grown_none fill s s' pgdir held l n :
  owns s' pgdir held l -> env s s' -> mem_of s' = mem_of s -> grown fill s s' pgdir held [] l l n 0.
Proof. intros HO He Hm. split; rewrite ?Hm; try done. intros k Hk. lia. Qed.

Lemma user_target p : page_ok p -> target (Z.lor (Z.lor (v2p p) (Z.lor PTE_W PTE_U)) PTE_P) = Some p.
Proof.
  intros Hp. destruct (page_phys p Hp) as (_ & Hal & Hr & Hv). unfold PHYSTOP in *.
  rewrite target_entry; [by rewrite Hv|done|lia|by vm_compute].
Qed.

Lemma grown_trans fill s1 s2 s3 pgdir held lost l1 l2 l3 n j j' :
  0 <= n -> 0 <= j -> 0 <= j' -> n + j <= NUVPN -> free_pages s1 l1 ->
  grown fill s1 s2 pgdir held [] l1 l2 n j -> grown fill s2 s3 pgdir held lost l2 l3 (n + j) j' ->
  grown fill s1 s3 pgdir held lost l1 l3 n (j + j').
Proof.
  intros Hn Hj Hj' Htop Hf [O1 E1 P1 F1 U1 A1 T1 D1 N1] [O2 E2 P2 F2 U2 A2 T2 D2 N2].
  assert (forall a, in_pages (upages (mem_of s1) pgdir ++ held) a ->
                    in_pages (upages (mem_of s2) pgdir ++ held) a) as Hup.
  { intros a. rewrite !in_pages_app. intros [(p & Hp & Ha)|Ha]; [left; exists p; auto|by right]. }
  split; try done; [by etransitivity|by rewrite P2|auto|auto| |auto| |].
  - eapply agree_trans; [exact A1|]. by eapply agree_weaken.
  - intros k Hk Hr. rewrite D2, D1 by lia. done.
  - intros k Hk. destruct (Z.lt_ge_cases k (n + j)) as [Hlt|Hge].
    + destruct (N1 k) as (p & Hp & Hz & Hpt); [lia|]. exists p. split_and!; [done| |].
      * pose proof (free_ok _ _ Hf) as Hok. rewrite Forall_forall in Hok.
        intros a Ha. rewrite A2; [by apply Hz|]. apply in_pages_app. left. exists p. split; [|done].
        apply (upages_elem _ _ k); [lia|]. rewrite Hpt. apply user_target, Hok, Hp.
      * rewrite D2; [done| |lia]. unfold NUVPN, NVPN in *. lia.
    + destruct (N2 k) as (p & Hp & Hz & Hpt); [lia|]. exists p. auto.
Qed.

(** A page taken from the free list and written. *)
Lemma take_page s pgdir held p l :
  owns s pgdir held (p :: l) ->
  exists s1, kalloc s = Ret (p, s1) /\ p <> 0 /\ mem_of s1 = mem_of s /\
    forall m2, agree (fun a => ~ in_page p a) (mem_of s) m2 ->
    let s2 := put memL m2 s1 in
    owns s2 pgdir (p :: held) l /\ env s s2 /\
    agree (in_pages (upages (mem_of s) pgdir ++ held)) (mem_of s) (mem_of s2) /\
    (forall i, 0 <= i < 1024 -> tab_of (mem_of s2) pgdir i = tab_of (mem_of s) pgdir i) /\
    (forall k, 0 <= k < NVPN -> pte_of (mem_of s2) pgdir k = pte_of (mem_of s) pgdir k) /\
    space (mem_of s2) pgdir = space (mem_of s) pgdir.
Proof.
  intros HO. destruct (kalloc_take _ _ _ _ _ HO) as (s1 & K & Hm & He & Hp0 & HT1).
  assert (owns s1 pgdir (p :: held) l) as HO1.
  { destruct HT1 as [Hf1 HD1]. split; [done|]. eapply distinct_pages_perm; [|exact HD1].
    rewrite Hm. solve_Permutation. }
  exists s1. split; [done|]. split; [done|]. split; [done|]. intros m2 Hag. cbv zeta. rewrite mem_of_put, <- Hm in *.
  destruct (write_held s1 pgdir (p :: held) l p m2 HO1) as (HO2 & Ht2 & Hpt2 & Hsp2).
  { rewrite elem_of_app, elem_of_cons. auto. }
  { done. }
  split_and!; try done.
  - etransitivity; [exact He|apply env_mem].
  - intros a Ha. apply Hag. intros Hc.
    apply (distinct_apart [p] (upages (mem_of s1) pgdir ++ held) a);
      [|exists p; split; [apply elem_of_cons; by left|done]|done].
    eapply distinct_sub; [|exact (proj2 HO1)]. solve_submseteq.
Qed.

(** One turn of allocuvm or copyuvm with a page to hand out: the page is
    filled and mapped, or it is lost because no page table can be had. *)
Lemma fill_step fill s pgdir held p l n :
  owns s pgdir held (p :: l) -> 0 <= n < NUVPN -> present (pte_of (mem_of s) pgdir n) = false ->
  exists s1, kalloc s = Ret (p, s1) /\ p <> 0 /\ mem_of s1 = mem_of s /\
    forall m2, agree (fun a => ~ in_page p a) (mem_of s) m2 -> filled (fill n) m2 p ->
    exists r s' l', mappages pgdir (n * 4096) PGSIZE (v2p p) (Z.lor PTE_W PTE_U) (put memL m2 s1) = Ret (r, s') /\
    (r = 0 /\ grown fill s s' pgdir held [] (p :: l) l' n 1 /\ (length l <= S (length l'))%nat
     \/ r = -1 /\ grown fill s s' pgdir held [p] (p :: l) [] n 0 /\ l = []).
Proof.
  intros HO Hn Hf. assert (Hnv : 0 <= n < NVPN) by (unfold NUVPN, NVPN in *; lia).
  destruct (take_page _ _ _ _ _ HO) as (s1 & K & Hp0 & Hm1 & Htake). exists s1. split_and!; [done..|].
  intros m2 Hw Hfill. destruct (Htake m2 Hw) as (HO2 & He2 & Hag2 & Ht2 & Hpt2 & Hsp2).
  set (s2 := put memL _ s1) in *.
  destruct (map_user_page s2 pgdir held l n p (Z.lor PTE_W PTE_U) HO2 Hn) as (r & s' & l' & Hr & He' & Hag & Htp & Hres);
    [by rewrite Hpt2|by vm_compute|].
  exists r, s', l'. split; [done|].
  assert (mem_of s2 = m2) as Hm2 by apply mem_of_put. rewrite <- Hm2 in Hfill.
  assert (env s s') as Hee by (by etransitivity).
  assert (Hup2 : upages (mem_of s2) pgdir = upages (mem_of s) pgdir).
  { apply upages_ext. intros k Hk. apply Hpt2. unfold NUVPN, NVPN in *. lia. }
  assert (forall a, in_pages (p :: upages (mem_of s) pgdir ++ held) a -> ld8 (mem_of s') a = ld8 (mem_of s2) a) as Hfr.
  { intros a Ha. apply Hag. intros Hc. destruct HO2 as [_ HD2]. rewrite Hup2 in HD2.
    eapply (distinct_apart _ _ a); [|exact Ha|exact Hc]. eapply distinct_pages_perm; [|exact HD2]. solve_Permutation. }
  assert (agree (in_pages (upages (mem_of s) pgdir ++ held)) (mem_of s) (mem_of s')) as Hframe.
  { intros a Ha. rewrite Hfr by (apply in_pages_cons; by right). by apply Hag2. }
  assert (forall i t, 0 <= i < 1024 -> tab_of (mem_of s) pgdir i = Some t -> tab_of (mem_of s') pgdir i = Some t) as Htab.
  { intros i t Hi Ht. apply Htp; [done|]. by rewrite Ht2. }
  destruct Hres as [(-> & HO' & Hsp & Htn & Hlen & Hfl & Hpte)|(-> & HO' & -> & -> & Hsp & Hpte)]; [left|right].
  - assert (forall k, 0 <= k < NVPN -> k <> n -> pte_of (mem_of s') pgdir k = pte_of (mem_of s) pgdir k) as Hold.
    { intros k Hk Hne. rewrite Hpte by done. rewrite (proj2 (Z.eqb_neq k n)) by lia. by apply Hpt2. }
    split_and!; [done| |done]. split; try done.
    + cbn [app]. rewrite Hsp, Hsp2. solve_Permutation.
    + intros q Hq. apply elem_of_cons. auto.
    + apply upages_mono. intros k Hk Hpr. apply Hold; [done|]. intros ->. congruence.
    + intros k Hk Hne. apply Hold; lia.
    + intros k Hk. assert (k = n) as -> by lia. exists p. split_and!; [apply elem_of_cons; by left| |].
      * intros a Ha. rewrite Hfr by (apply in_pages_cons; by left). by apply Hfill.
      * by rewrite Hpte, Z.eqb_refl.
  - assert (forall k, 0 <= k < NVPN -> pte_of (mem_of s') pgdir k = pte_of (mem_of s) pgdir k) as Hold.
    { intros k Hk. rewrite Hpte by done. by apply Hpt2. }
    split_and!; [done| |done]. split; try done.
    + rewrite Hsp, Hsp2. solve_Permutation.
    + intros q Hq. by apply not_elem_of_nil in Hq.
    + apply upages_mono. auto.
    + auto.
    + intros k Hk. lia.
Qed.

(** With no free page left the loop gives up at once. *)
Lemma alloc_loop_empty s pgdir held n fuel oldsz newsz :
  owns s pgdir held [] -> n * 4096 < newsz ->
  exists s', owns s' pgdir held [] /\ env s s' /\ mem_of s' = mem_of s /\
    allocuvm_loop (S fuel) pgdir (n * 4096) oldsz newsz s =
    (let* _ := deallocuvm pgdir newsz oldsz in ret 0) s'.
Proof.
  intros HO Hlt. destruct (kalloc_empty _ _ _ HO) as (s' & K & Hm & He & HT).
  exists s'. split_and!; [unfold owns; by rewrite Hm|done|done|].
  cbn [allocuvm_loop]. rewrite (proj2 (Z.ltb_lt _ _) Hlt). by mstep_with K.
Qed.

Lemma grown_lost_env fill s s1 s2 pgdir held lost l n j :
  grown fill s s1 pgdir held lost l [] n j -> owns s2 pgdir (lost ++ held) [] -> env s1 s2 ->
  mem_of s2 = mem_of s1 -> grown fill s s2 pgdir held lost l [] n j.
Proof. intros [] HO He Hm. split; rewrite ?Hm; try done. by etransitivity. Qed.

(** How the loop of allocuvm ends: having mapped everything; having lost the
    last page for want of a page table; or giving up after [j] pages. *)
Lemma alloc_loop_run pgdir held oldsz newsz e fuel : forall s l n,
  owns s pgdir held l -> 0 <= n <= e -> e <= NUVPN -> (e - 1) * 4096 < newsz <= e * 4096 ->
  e - n <= Z.of_nat fuel ->
  (forall k, n <= k < e -> present (pte_of (mem_of s) pgdir k) = false) ->
  exists s' l' lost j, grown zeroes s s' pgdir held lost l l' n j /\ 0 <= j <= e - n /\
    Z.of_nat (length l) <= Z.of_nat (length l') + Z.of_nat (length lost) + 2 * j /\
    (allocuvm_loop fuel pgdir (n * 4096) oldsz newsz s = Ret (newsz, s') /\
       (lost = [] /\ j = e - n \/ length lost = 1%nat /\ j = e - n - 1 /\ l' = [])
     \/ allocuvm_loop fuel pgdir (n * 4096) oldsz newsz s =
          (let* _ := deallocuvm pgdir newsz oldsz in ret 0) s' /\
        j < e - n /\ l' = [] /\ (length lost <= 1)%nat).
Proof.
  induction fuel as [|fuel IH]; intros s l n HO Hn He Hsz Hfu Hfree.
  { exists s, l, [], 0. cbn [allocuvm_loop]. rewrite (proj2 (Z.ltb_ge _ _)) by lia.
    split_and!; [by apply grown_none|lia|lia|cbn; lia|]. left. split; [done|]. left. split; [done|lia]. }
  destruct (Z.ltb_spec (n * 4096) newsz) as [Hlt|Hge].
  2:{ exists s, l, [], 0. cbn [allocuvm_loop]. rewrite (proj2 (Z.ltb_ge _ _)) by lia.
      split_and!; [by apply grown_none|lia|lia|cbn; lia|]. left. split; [done|]. left. split; [done|lia]. }
  destruct l as [|p l].
  { destruct (alloc_loop_empty s pgdir held n fuel oldsz newsz HO Hlt) as (s' & HO' & He' & Hm & Hr).
    exists s', [], [], 0. split_and!; [by apply grown_none|lia|lia|cbn; lia|].
    right. split_and!; [done|lia|done|cbn; lia]. }
  destruct (fill_step zeroes s pgdir held p l n HO) as (s1 & K & Hp0 & Hm1 & Hmap);
    [lia|by apply Hfree; lia|].
  destruct (Hmap (memset (mem_of s1) p 0 PGSIZE)) as (r & s2 & l2 & Hr2 & Hcase).
  { intros a Ha. by rewrite ld8_clear_page, decide_False, Hm1. }
  { intros a Ha. by rewrite ld8_clear_page, decide_True. }
  assert (allocuvm_loop (S fuel) pgdir (n * 4096) oldsz newsz s =
          allocuvm_loop fuel pgdir ((n + 1) * 4096) oldsz newsz s2) as ->.
  { cbn [allocuvm_loop]. rewrite (proj2 (Z.ltb_lt _ _) Hlt). mstep_with K.
    rewrite (proj2 (Z.eqb_neq p 0) Hp0). mstep. mstep_with Hr2. f_equal.
    unfold u32, PGSIZE, NUVPN in *. mlia. }
  destruct Hcase as [(-> & Hg & Hlen)|(-> & Hg & ->)].
  - destruct (IH s2 l2 (n + 1)) as (s' & l' & lost & j & Hg' & Hj & Hln & Hres);
      [apply Hg|lia|done|done|lia| |].
    { intros k Hk. rewrite (gr_old _ _ _ _ _ _ _ _ _ _ Hg) by (unfold NUVPN, NVPN in *; lia). apply Hfree. lia. }
    exists s', l', lost, (1 + j). split_and!; [|lia|lia|cbn [length] in *; lia|].
    + eapply grown_trans; [lia|lia|lia|lia|apply HO|exact Hg|exact Hg'].
    + destruct Hres as [[Hr [[-> ->]|(? & -> & ->)]]|(Hr & ? & -> & ?)]; [left|left|right];
        (split; [done|]); [left; split; [done|lia]|right; split_and!; done || lia|split_and!; done || lia].
  - destruct (Z.eq_dec (n + 1) e) as [Hne|Hne].
    + exists s2, [], [p], 0. split_and!; [done|lia|lia|cbn; lia|]. left. split.
      * destruct fuel as [|fuel]; cbn [allocuvm_loop]; rewrite (proj2 (Z.ltb_ge _ _)) by lia; done.
      * right. split_and!; [done|lia|done].
    + destruct fuel as [|fuel]; [lia|].
      destruct (alloc_loop_empty s2 pgdir ([p] ++ held) (n + 1) fuel oldsz newsz) as (s' & HO' & He' & Hm & Hr);
        [apply Hg|lia|].
      exists s', [], [p], 0. split_and!; [by eapply grown_lost_env|lia|lia|cbn; lia|].
      right. split_and!; [done|lia|done|cbn; lia].
Qed.

(** ** Address spaces as memory *)

(** The byte a user program sees at [va]. *)
Definition ubyte (m : mem) (pgdir va : Z) : option Z :=
  match target (pte_of m pgdir (va / 4096)) with
  | Some p => Some (ld8 m (p + va mod 4096))
  | None => None
  end.

Lemma in_page_offset p va : in_page p (p + va mod 4096).
Proof. unfold in_page, PGSIZE. mlia. Qed.

(** Same entry, same page contents: same byte. *)
Lemma ubyte_eq m m' pgdir pgdir' va :
  pte_of m' pgdir' (va / 4096) = pte_of m pgdir (va / 4096) ->
  (forall p a, target (pte_of m pgdir (va / 4096)) = Some p -> in_page p a -> ld8 m' a = ld8 m a) ->
  ubyte m' pgdir' va = ubyte m pgdir va.
Proof.
  intros H1 H2. unfold ubyte. rewrite H1. destruct (target _) as [p|]; [|done].
  f_equal. apply (H2 p); [done|]. apply in_page_offset.
Qed.

Lemma uva_range va : 0 <= va < KERNBASE -> 0 <= va / 4096 < NUVPN /\ 0 <= va / 4096 < NVPN.
Proof. unfold KERNBASE, NUVPN, NVPN. mlia. Qed.

Lemma ubyte_unmapped m pgdir va : present (pte_of m pgdir (va / 4096)) = false -> ubyte m pgdir va = None.
Proof. intros H. unfold ubyte. apply target_absent in H. by rewrite H. Qed.

(** What unmapping pages [n] to [e - 1] does to the user's memory. *)
Lemma unmapped_ubyte s s' pgdir held l l' n e va :
  unmapped s s' pgdir held l l' n e -> 0 <= va < KERNBASE ->
  ubyte (mem_of s') pgdir va =
    if (n <=? va / 4096) && (va / 4096 <? e) then None else ubyte (mem_of s) pgdir va.
Proof.
  intros H Hva. destruct (uva_range va Hva) as [Hu Hv]. pose proof (um_pte _ _ _ _ _ _ _ _ H _ Hv) as Hp.
  destruct ((n <=? va / 4096) && (va / 4096 <? e)); cbn [andb] in Hp.
  - apply ubyte_unmapped. rewrite Hp. by destruct (present (pte_of (mem_of s) _ _)) eqn:E.
  - apply ubyte_eq; [done|]. intros p a Ht Ha. apply (um_frame _ _ _ _ _ _ _ _ H).
    apply in_pages_app. left. exists p. split; [|done]. apply (upages_elem _ _ (va / 4096)); [done|].
    by rewrite Hp.
Qed.

(** What mapping the pages [n] to [n + j - 1] does to it. *)
Lemma grown_ubyte fill s s' pgdir held lost l l' n j va :
  grown fill s s' pgdir held lost l l' n j -> free_pages s l -> 0 <= va < KERNBASE ->
  ubyte (mem_of s') pgdir va =
    if (n <=? va / 4096) && (va / 4096 <? n + j) then Some (fill (va / 4096) (va mod 4096)) else ubyte (mem_of s) pgdir va.
Proof.
  intros H Hf Hva. destruct (uva_range va Hva) as [Hu Hv].
  destruct (Z.leb_spec n (va / 4096)), (Z.ltb_spec (va / 4096) (n + j)); cbn [andb].
  1: { destruct (gr_new _ _ _ _ _ _ _ _ _ _ H (va / 4096)) as (p & Hp & Hz & Hpt); [lia|].
       unfold ubyte. pose proof (free_ok _ _ Hf) as Hok. rewrite Forall_forall in Hok.
       rewrite Hpt, user_target by auto. f_equal. rewrite Hz by apply in_page_offset. f_equal. lia. }
  all: apply ubyte_eq; [apply (gr_old _ _ _ _ _ _ _ _ _ _ H); lia|];
    intros p a Ht Ha; apply (gr_frame _ _ _ _ _ _ _ _ _ _ H); apply in_pages_app; left;
    exists p; split; [by apply (upages_elem _ _ (va / 4096))|done].
Qed.

(** The user's memory after the pages from [n] to [e - 1] appeared, zeroed. *)
Definition extended (m m' : mem) (pgdir n e : Z) : Prop :=
  forall va, 0 <= va < KERNBASE ->
    ubyte m' pgdir va = if (n <=? va / 4096) && (va / 4096 <? e) then Some 0 else ubyte m pgdir va.

Lemma allocuvm_spec s pgdir held l oldsz newsz :
  owns s pgdir held l -> 0 <= oldsz <= newsz -> newsz < KERNBASE ->
  let n := npages oldsz in
  let e := npages newsz in
  (forall k, n <= k < e -> present (pte_of (mem_of s) pgdir k) = false) ->
  exists r s' l' lost e', allocuvm pgdir oldsz newsz s = Ret (r, s') /\ env s s' /\
    owns s' pgdir (lost ++ held) l' /\
    space (mem_of s') pgdir ++ lost ++ l' ≡ₚ space (mem_of s) pgdir ++ l /\
    agree (in_pages held) (mem_of s) (mem_of s') /\
    extended (mem_of s) (mem_of s') pgdir n e' /\
    (r = newsz /\ (lost = [] /\ e' = e \/ length lost = 1%nat /\ e' = e - 1)
     \/ r = 0 /\ e' = n /\ (length lost <= 1)%nat) /\
    (2 * (e - n) <= Z.of_nat (length l) -> r = newsz /\ lost = [] /\ e' = e).
Proof.
  intros HO Hsz Hk n e Hfree. pose proof (npages_bounds oldsz ltac:(lia)) as [Hn1 Hn2].
  pose proof (npages_bounds newsz ltac:(lia)) as [He1 He2]. fold n in Hn1, Hn2. fold e in He1, He2.
  assert (n <= e) as Hne by (unfold n, e, npages; mlia).
  unfold allocuvm. rewrite (proj2 (Z.leb_gt _ _)), (proj2 (Z.ltb_ge _ _)) by lia.
  rewrite PGROUNDUP_npages by lia. fold n.
  destruct (alloc_loop_run pgdir held oldsz newsz e (Z.to_nat ((newsz - n * 4096 + PGSIZE - 1) / PGSIZE)) s l n)
    as (s1 & l1 & lost & j & Hg & Hj & Hlen & Hres); [done|lia|lia|lia|unfold e, npages, PGSIZE; mlia|done|].
  assert (extended (mem_of s) (mem_of s1) pgdir n (n + j)) as Hext.
  { intros va Hva. by apply (grown_ubyte _ _ _ _ _ _ _ _ _ _ _ Hg (proj1 HO)). }
  assert (agree (in_pages held) (mem_of s) (mem_of s1)) as Hheld.
  { intros a Ha. apply (gr_frame _ _ _ _ _ _ _ _ _ _ Hg). apply in_pages_app. by right. }
  destruct Hres as [[-> Hcase]|(Hr & Hlt & -> & Hlost)].
  - exists newsz, s1, l1, lost, (n + j). split_and!; try apply Hg; try done.
    + left. split; [done|]. destruct Hcase as [[-> ->]|(? & -> & ->)]; [left; split; [done|lia]|right; lia].
    + intros Hm. destruct Hcase as [[-> ->]|(? & -> & ->)]; [split_and!; done || lia|cbn in Hlen; lia].
  - destruct (deallocuvm_spec s1 pgdir (lost ++ held) [] newsz oldsz) as (s2 & l2 & Hs2 & Hu).
    { apply Hg. } { unfold n, e, npages in *. mlia. } { lia. }
    { right. fold n e. destruct (Z.eq_dec j 0) as [->|Hj0]; [right|left].
      - intros k Hkr. rewrite (gr_old _ _ _ _ _ _ _ _ _ _ Hg) by (unfold NUVPN, NVPN in *; lia). by apply Hfree.
      - intros Hnone. destruct (gr_new _ _ _ _ _ _ _ _ _ _ Hg n) as (p & Hp & _ & Hpt); [lia|].
        assert (target (pte_of (mem_of s1) pgdir n) = Some p) as Ht.
        { rewrite Hpt. apply user_target. pose proof (free_ok _ _ (proj1 HO)) as Hok.
          rewrite Forall_forall in Hok. by apply Hok. }
        unfold pte_of in Ht. by rewrite Hnone in Ht. }
    rewrite Hr. mstep_with Hs2. fold n e in Hu.
    exists 0, s2, l2, lost, n. split_and!; [done| |apply Hu| | | |right; by split_and!|cbn in Hlen; lia].
    + etransitivity; [apply Hg|apply Hu].
    + rewrite <- (gr_pages _ _ _ _ _ _ _ _ _ _ Hg), app_nil_r. unfold space.
      rewrite (tabs_ext _ _ _ (um_tab _ _ _ _ _ _ _ _ Hu)), (Permutation_app_comm lost l2).
      cbn [app]. rewrite <- !app_assoc, (app_assoc (upages _ _) l2), (um_pages _ _ _ _ _ _ _ _ Hu).
      by rewrite app_nil_r.
    + eapply agree_trans; [exact Hheld|]. intros a Ha. apply (um_frame _ _ _ _ _ _ _ _ Hu).
      rewrite !in_pages_app. auto.
    + intros va Hva. rewrite (unmapped_ubyte _ _ _ _ _ _ _ _ _ Hu Hva), (Hext va Hva).
      destruct (uva_range va Hva) as [Hur _].
      destruct (Z.leb_spec n (va / 4096)), (Z.ltb_spec (va / 4096) e), (Z.ltb_spec (va / 4096) n),
        (Z.ltb_spec (va / 4096) (n + j)); cbn [andb]; try lia; try done.
      all: symmetry; apply ubyte_unmapped, Hfree; lia.
Qed.

(** ** The kernel's part of an address space *)

(** The number of virtual pages of a line of kmap, and the map after it. *)
Definition kmap_count (k : kmap_entry) : Z :=
  (virt k + u32 (phys_end k - phys_start k) - 1) / 4096 - virt k / 4096 + 1.
Definition kmap_apply (f : Z -> Z) (k : kmap_entry) : Z -> Z :=
  update_range f (map_entry (phys_start k) (kperm k)) (virt k / 4096) (kmap_count k).

Fixpoint kmap_fits (f : Z -> Z) (ks : list kmap_entry) : Prop :=
  match ks with
  | [] => True
  | k :: ks => 0 <= virt k /\ 0 < u32 (phys_end k - phys_start k) /\
      virt k + u32 (phys_end k - phys_start k) <= 0x100000000 /\ 0 <= phys_start k < 0x100000000 /\
      (forall n, virt k / 4096 <= n < virt k / 4096 + kmap_count k -> present (f n) = false) /\
      kmap_fits (kmap_apply f k) ks
  end.

Lemma kmap_fits_ext f g ks : (forall n, 0 <= n < NVPN -> f n = g n) -> kmap_fits f ks -> kmap_fits g ks.
Proof.
  revert f g. induction ks as [|k ks IH]; intros f g H; [done|]. cbn [kmap_fits].
  intros (H1 & H2 & H3 & H4 & H5 & H6). split_and!; try done; [lia|lia| |].
  - intros n Hn. rewrite <- H; [by apply H5|]. unfold kmap_count, NVPN in *. mlia.
  - eapply IH; [|exact H6]. intros n Hn. unfold kmap_apply, update_range. by rewrite H.
Qed.

Lemma kmap_fold_ext ks : forall f g n,
  (forall n, 0 <= n < NVPN -> f n = g n) -> 0 <= n < NVPN ->
  fold_left kmap_apply ks f n = fold_left kmap_apply ks g n.
Proof.
  induction ks as [|k ks IH]; intros f g n H Hn; cbn [fold_left]; [by apply H|].
  apply IH; [|done]. intros n' Hn'. unfold kmap_apply, update_range. by rewrite H.
Qed.

Lemma setupkvm_loop_spec pgdir held ks : forall s l,
  tables s pgdir held l -> kmap_fits (pte_of (mem_of s) pgdir) ks ->
  exists r s' l', setupkvm_loop pgdir ks s = Ret (r, s') /\ mapped s s' pgdir held l l' /\
    (r = pgdir /\ (forall n, 0 <= n < NVPN ->
        pte_of (mem_of s') pgdir n = fold_left kmap_apply ks (pte_of (mem_of s) pgdir) n)
     \/ r = 0 /\ l' = []).
Proof.
  induction ks as [|k ks IH]; intros s l HT Hfit.
  { exists pgdir, s, l. split_and!; [done|by apply mapped_refl|]. by left. }
  destruct Hfit as (H1 & H2 & H3 & H4 & H5 & H6).
  destruct (mappages_spec s pgdir held l (virt k) _ (phys_start k) (kperm k) HT H1 H2 H3 H4)
    as (r & s1 & l1 & d & Hr & Hmp & _ & Hpte & _ & _ & Hres).
  { intros n Hn. apply H5. unfold kmap_count. lia. }
  cbn [setupkvm_loop]. mstep_with Hr. destruct Hres as [[-> Hd]|(-> & _ & ->)].
  2:{ exists 0, s1, []. split_and!; [done|done|by right]. }
  assert (forall n, 0 <= n < NVPN -> pte_of (mem_of s1) pgdir n = kmap_apply (pte_of (mem_of s) pgdir) k n) as Hpte'.
  { intros n Hn. rewrite (Hpte n Hn), Hd. done. }
  cbn [Z.ltb Z.compare].
  destruct (IH s1 l1 (mp_tables _ _ _ _ _ _ Hmp)) as (r & s' & l' & Hr' & Hmp' & Hres).
  { eapply kmap_fits_ext; [|exact H6]. intros n Hn. by rewrite Hpte'. }
  exists r, s', l'. split_and!; [done|by eapply mapped_trans|].
  destruct Hres as [[-> Hf]|Hf]; [left|by right]. split; [done|]. intros n Hn. rewrite Hf by done.
  by apply (kmap_fold_ext ks).
Qed.

(** The kernel's entries: physical memory at KERNBASE, read-only where the
    kernel's text is, and the devices at their own addresses; none of them
    accessible to user code. *)
Definition kernel_pte (n : Z) : Z :=
  if (0x80000 <=? n) && (n <? 0x8E000) then
    (n - 0x80000) * 4096 + (if (0x80100 <=? n) && (n <? k_data / 4096) then PTE_P else PTE_W + PTE_P)
  else if (0xFE000 <=? n) && (n <? 0x100000) then n * 4096 + (PTE_W + PTE_P)
  else 0.

Lemma map_entry_add pa perm i :
  0 <= pa + i * 4096 < 0x100000000 -> pa mod 4096 = 0 -> perm = 0 \/ perm = PTE_W ->
  map_entry pa perm i = pa + i * 4096 + perm + PTE_P.
Proof.
  intros Hr Hal Hp. unfold map_entry. rewrite (u32_small (pa + i * 4096)) by done.
  destruct (entry_add (pa + i * 4096) perm) as [-> ?]; [mlia|destruct Hp as [-> | ->]; by vm_compute|].
  rewrite u32_small by mlia. destruct Hp as [-> | ->];
    [change (Z.lor 0 PTE_P) with 1|change (Z.lor PTE_W PTE_P) with 3]; clia.
Qed.

(** The ranges of virtual pages of the four lines. *)
Lemma kmap_ranges :
  map (fun k => (virt k / 4096, kmap_count k)) kmap =
  [(0x80000, 0x100); (0x80100, k_data / 4096 - 0x80100);
   (k_data / 4096, 0x8E000 - k_data / 4096); (0xFE000, 0x2000)] /\
  k_data = k_data / 4096 * 4096 /\ 0x80100 < k_data / 4096 <= 0x80400.
Proof.
  pose proof k_data_lo as H1. pose proof k_data_aligned as H2. pose proof k_data_end as H3.
  pose proof k_end_hi as H4. cbn [kmap map]. unfold kmap_count, v2p, u32. cbn [virt phys_start phys_end].
  autounfold with consts in *. split; [|mlia]. repeat f_equal; mlia.
Qed.

Ltac kmap_line H i R := assert (R := f_equal (fun l => nth i l (0, 0)) H); cbn [nth map kmap] in R.

Lemma kmap_apply_unfold (f : Z -> Z) k v c n :
  (virt k / 4096, kmap_count k) = (v, c) ->
  kmap_apply f k n = if (v <=? n) && (n <? v + c) then map_entry (phys_start k) (kperm k) (n - v) else f n.
Proof. intros [= <- <-]. done. Qed.

Lemma kmap_kernel_pte n : 0 <= n < NVPN -> fold_left kmap_apply kmap (fun _ => 0) n = kernel_pte n.
Proof.
  intros Hn. destruct kmap_ranges as (Hr & Hal & Hd). unfold NVPN in Hn.
  kmap_line Hr 0%nat R1. kmap_line Hr 1%nat R2. kmap_line Hr 2%nat R3. kmap_line Hr 3%nat R4. cbn [kmap fold_left].
  rewrite (kmap_apply_unfold _ _ _ _ n R4), (kmap_apply_unfold _ _ _ _ n R3),
    (kmap_apply_unfold _ _ _ _ n R2), (kmap_apply_unfold _ _ _ _ n R1).
  cbn [phys_start kperm]. unfold kernel_pte. set (D := k_data / 4096) in *. rewrite Hal.
  assert (v2p KERNLINK = 0x100000) as -> by done.
  assert (v2p (D * 4096) = (D - 0x80000) * 4096) as -> by (unfold v2p, u32, KERNBASE; mlia).
  change DEVSPACE with (0xFE000 * 4096).
  assert (n < 0x80000 \/ 0x80000 <= n < 0x80100 \/ 0x80100 <= n < D \/ D <= n < 0x8E000 \/
          0x8E000 <= n < 0xFE000 \/ 0xFE000 <= n) as Hcase by lia.
  destruct Hcase as [H|[H|[H|[H|[H|H]]]]]; decide_bounds; try done;
    rewrite map_entry_add; (lia || mlia || auto).
Qed.

Lemma kmap_fits_zero : kmap_fits (fun _ => 0) kmap.
Proof.
  destruct kmap_ranges as (Hr & Hal & Hd).
  kmap_line Hr 0%nat R1. kmap_line Hr 1%nat R2. kmap_line Hr 2%nat R3. kmap_line Hr 3%nat R4.
  assert (forall k v c, (virt k / 4096, kmap_count k) = (v, c) -> virt k / 4096 = v /\ kmap_count k = c) as Hp
    by (by intros k v c [= <- <-]).
  destruct (Hp _ _ _ R1) as [V1 C1], (Hp _ _ _ R2) as [V2 C2], (Hp _ _ _ R3) as [V3 C3], (Hp _ _ _ R4) as [V4 C4].
  cbn [kmap_fits kmap]. rewrite V1, C1, V2, C2, V3, C3, V4, C4.
  split_and!; try done; try (intros n Hn;
    rewrite ?(kmap_apply_unfold _ _ _ _ n R3), ?(kmap_apply_unfold _ _ _ _ n R2), ?(kmap_apply_unfold _ _ _ _ n R1);
    decide_bounds; done).
  all: cbn [virt phys_start phys_end]; unfold v2p, u32; autounfold with consts; mlia.
Qed.

(** A cleared page is an empty directory. *)
Lemma empty_dir m p : page_ok p -> filled (fun _ => 0) m p ->
  tabs m p = [] /\ (forall n, 0 <= n < NVPN -> pte_of m p n = 0).
Proof.
  intros Hp Hz. assert (forall i, 0 <= i < 1024 -> tab_of m p i = None) as Ht.
  { intros i Hi. unfold tab_of, pde_of. rewrite (ld32_agree (in_page p) (fun _ => 0)); [done|done|].
    intros a Ha. by apply (entry_in_page p i). }
  split; [|intros n Hn; unfold pte_of; rewrite Ht; [done|by apply vpn_range]].
  destruct (tabs m p) as [|t ts] eqn:E; [done|].
  assert (t ∈ tabs m p) as Hin by (rewrite E; apply elem_of_cons; by left).
  apply list_elem_of_omap in Hin as (i & Hi & Hti). apply upto_in in Hi. by rewrite Ht in Hti.
Qed.

Lemma length_tabs m pgdir : (length (tabs m pgdir) <= 1024)%nat.
Proof.
  unfold tabs. rewrite upto_eq. etransitivity; [apply omap_length|]. by rewrite length_seqZ.
Qed.

Lemma kernel_pte_user n : 0 <= n < NUVPN -> kernel_pte n = 0.
Proof. intros Hn. unfold NUVPN, kernel_pte in *. by decide_bounds. Qed.

Lemma upages_kernel m pgdir :
  (forall n, 0 <= n < NVPN -> pte_of m pgdir n = kernel_pte n) -> upages m pgdir = [].
Proof.
  intros H. destruct (upages m pgdir) as [|p us] eqn:E; [done|].
  assert (p ∈ upages m pgdir) as Hp by (rewrite E; apply elem_of_cons; by left).
  apply list_elem_of_omap in Hp as (k & Hk & Hp). apply upto_in in Hk.
  rewrite H, kernel_pte_user in Hp by (unfold NUVPN, NVPN in *; lia). done.
Qed.

Lemma setupkvm_spec s held l :
  free_pages s l -> distinct_pages (held ++ l) ->
  exists r s' l', setupkvm s = Ret (r, s') /\ env s s' /\
    agree (in_pages held) (mem_of s) (mem_of s') /\
    (r <> 0 /\ owns s' r held l' /\ space (mem_of s') r ++ l' ≡ₚ l /\
       (forall n, 0 <= n < NVPN -> pte_of (mem_of s') r n = kernel_pte n)
     \/ r = 0 /\ free_pages s' [] /\ (length l <= 1025)%nat).
Proof.
  intros Hf HD. destruct (kalloc_spec s l Hf) as (s1 & K & Hf1 & Hm & He). unfold setupkvm. mstep_with K.
  destruct l as [|p l]; cbn [hd tail] in *.
  { exists 0, s1, []. split_and!; [done|done|by rewrite Hm|]. right. split_and!; [done..|cbn; lia]. }
  pose proof (free_ok _ _ Hf) as Hok. apply Forall_cons in Hok as [Hpok _].
  rewrite (proj2 (Z.eqb_neq p 0)) by (pose proof (page_ok_bounds p Hpok); lia). mstep.
  rewrite Hm. set (s2 := put memL _ s1).
  assert (mem_of s2 = memset (mem_of s) p 0 PGSIZE) as Hm2 by apply mem_of_put.
  change (DEVSPACE <? p2v PHYSTOP) with false. cbv iota.
  destruct (empty_dir (mem_of s2) p Hpok) as [Htabs Hpte].
  { intros a Ha. by rewrite Hm2, ld8_clear_page, decide_True. }
  assert (forall a, in_pages (held ++ l) a -> ~ in_page p a) as Hap.
  { intros a Ha Hc. apply (distinct_apart (held ++ l) [p] a); [|done|exists p; split; [apply elem_of_cons; by left|done]].
    eapply distinct_pages_perm; [|exact HD]. solve_Permutation. }
  assert (agree (in_pages (held ++ l)) (mem_of s) (mem_of s2)) as Hag2.
  { intros a Ha. rewrite Hm2, ld8_clear_page. rewrite decide_False; [done|by apply Hap]. }
  assert (tables s2 p held l) as HT2.
  { split; [|rewrite Htabs; eapply distinct_pages_perm; [|exact HD]; solve_Permutation].
    apply free_frame; [done|]. rewrite Hm, <- Hm2. eapply agree_weaken; [|exact Hag2].
    intros a Ha. apply in_pages_app. by right. }
  destruct (setupkvm_loop_spec p held kmap s2 l HT2) as (r & s' & l' & Hr & Hmp & Hres).
  { eapply kmap_fits_ext; [|apply kmap_fits_zero]. intros n Hn. cbn. by rewrite Hpte. }
  exists r, s', l'. split_and!; [done| | |].
  - etransitivity; [exact He|]. etransitivity; [apply env_mem|apply Hmp].
  - intros a Ha. rewrite (mapped_held _ _ _ _ _ _ a HT2 Hmp Ha). apply Hag2. apply in_pages_app. by left.
  - pose proof (mp_pages _ _ _ _ _ _ Hmp) as Hpg. rewrite Htabs in Hpg. cbn [app] in Hpg.
    destruct Hres as [[-> Hpt]|[-> ->]]; [left|right].
    + assert (forall n, 0 <= n < NVPN -> pte_of (mem_of s') p n = kernel_pte n) as Hk.
      { intros n Hn. rewrite (Hpt n Hn), <- (kmap_kernel_pte n Hn).
        by apply kmap_fold_ext. }
      pose proof (upages_kernel _ _ Hk) as Hup. pose proof (page_ok_bounds p Hpok).
      split_and!; [lia| | |done].
      * unfold owns. rewrite Hup. apply Hmp.
      * unfold space. rewrite Hup, app_nil_r. cbn. by rewrite Hpg.
    + split_and!; [done|apply (mp_tables _ _ _ _ _ _ Hmp)|]. rewrite app_nil_r in Hpg.
      apply Permutation_length in Hpg. pose proof (length_tabs (mem_of s') p). cbn. lia.
Qed.

End user.
