(* ===== verification/CopyVm.v ===== *)
(** * Copying address spaces and copying into them

    copyuvm and copyout of vm.c, and the properties of vm.c stated on the
    memory a user program sees. *)

From Stdlib Require Import ZArith Lia String Bool.
From stdpp Require Import base numbers list.
From S2P Require Import Prelude Params Mem Spinlock Pages Kalloc Vm PageTable AddrSpace.

Section copy.
Context {Lay : Layout} {St : Type} {PO : PageOps St} {PS : PageSpec St}.

(** The byte at offset [o] of virtual page [k]. *)
Definition page_byte (m : mem) (pgdir k o : Z) : Z :=
  match target (pte_of m pgdir k) with Some q => ld8 m (q + o) | None => 0 end.

(** A space whose pages keep their bytes keeps its mapping and its contents. *)
Lemma space_frame m m' pgdir :
  agree (in_pages (space m pgdir)) m m' ->
  (forall i, 0 <= i < 1024 -> tab_of m' pgdir i = tab_of m pgdir i) /\
  (forall n, 0 <= n < NVPN -> pte_of m' pgdir n = pte_of m pgdir n) /\
  space m' pgdir = space m pgdir /\
  (forall va, 0 <= va < KERNBASE -> ubyte m' pgdir va = ubyte m pgdir va).
Proof.
  intros Hag. destruct (tables_frame m m' pgdir) as [Ht Hp].
  { eapply agree_weaken; [|exact Hag]. intros a Ha. unfold space. rewrite app_comm_cons. apply in_pages_app. by left. }
  split_and!; [done|done| |].
  - unfold space. rewrite (tabs_ext _ _ _ Ht), (upages_ext m m'); [done|].
    intros n Hn. apply Hp. unfold NUVPN, NVPN in *. lia.
  - intros va Hva. destruct (uva_range va Hva) as [Hu Hv]. apply ubyte_eq; [by apply Hp|].
    intros p a Htg Ha. apply Hag. unfold space. rewrite app_comm_cons. apply in_pages_app. right.
    exists p. split; [by apply (upages_elem _ _ (va / 4096))|done].
Qed.

(** A page table of the space held is no null pointer. *)
Lemma held_table s m0 pgdir d held l i t j :
  owns s d (space m0 pgdir ++ held) l -> 0 <= i < 1024 -> tab_of m0 pgdir i = Some t -> 0 <= j -> t + 4 * j <> 0.
Proof.
  intros HO Hi Ht Hj. assert (page_ok t) as Htok; [|pose proof (page_ok_bounds t Htok); lia].
  apply owns_distinct in HO as [_ [_ Hok]]. rewrite Forall_forall in Hok. apply Hok.
  rewrite !elem_of_app. right. left. left. unfold space. rewrite elem_of_cons, elem_of_app. right. left.
  apply list_elem_of_omap. exists i. split; [by apply upto_in|done].
Qed.

(** One turn of copyuvm at a page the parent has: out of pages, the child's
    page lost for want of a table, or copied. *)
Lemma copy_step m0 pgdir d held sz fuel s l n :
  agree (in_pages (space m0 pgdir)) m0 (mem_of s) ->
  owns s d (space m0 pgdir ++ held) l -> 0 <= n < NUVPN -> n * 4096 < sz ->
  present (pte_of m0 pgdir n) = true -> present (pte_of (mem_of s) d n) = false ->
  exists s' l' lost j, grown (page_byte m0 pgdir) s s' d (space m0 pgdir ++ held) lost l l' n j /\
    (copyuvm_loop (S fuel) pgdir d (n * 4096) sz s = copyuvm_loop fuel pgdir d ((n + 1) * 4096) sz s' /\
       lost = [] /\ j = 1 /\ (length l <= 2 + length l')%nat
     \/ copyuvm_loop (S fuel) pgdir d (n * 4096) sz s = (freevm d ;; ret 0) s' /\
       l' = [] /\ j = 0 /\ length lost = length l /\ (length l <= 1)%nat).
Proof.
  intros Hag HO Hn Hlt Hpar Hfree. assert (Hnv : 0 <= n < NVPN) by (unfold NUVPN, NVPN in *; lia).
  cbn [copyuvm_loop]. rewrite (proj2 (Z.ltb_lt _ _) Hlt).
  destruct (space_frame m0 (mem_of s) pgdir Hag) as (Ht & Hp & _ & _).
  rewrite <- (Hp n Hnv) in Hpar. destruct (vpn_range n Hnv) as [Hi Hj].
  pose proof (walk_eq s pgdir n 0 Hnv) as Hw. unfold pte_of in Hpar.
  destruct (tab_of (mem_of s) pgdir (n / 1024)) as [t|] eqn:Et; [|by rewrite present_0 in Hpar].
  mstep_with Hw. rewrite (proj2 (Z.eqb_neq (t + 4 * (n mod 1024)) 0)).
  2:{ apply (held_table s m0 pgdir d held l (n / 1024)); [done..|by rewrite <- Ht|lia]. }
  mstep. rewrite Hpar. cbn [negb]. set (pa := PTE_ADDR _).
  assert (target (pte_of m0 pgdir n) = Some (p2v pa)) as Htg.
  { rewrite <- (Hp n Hnv). unfold pte_of. rewrite Et. unfold target. by rewrite Hpar. }
  destruct l as [|p l].
  { destruct (kalloc_empty _ _ _ HO) as (s' & K & Hm & He' & HT). mstep_with K.
    exists s', [], [], 0. split; [apply grown_none; [unfold owns; by rewrite Hm|done|done]|].
    right. split_and!; try done. cbn. lia. }
  destruct (fill_step (page_byte m0 pgdir) s d _ p l n HO Hn Hfree) as (s1 & K & Hp0 & Hm1 & Hmap).
  destruct (Hmap (memmove (mem_of s1) p (p2v pa) PGSIZE)) as (r & s2 & l2 & Hr2 & Hcase).
  { intros a Ha. by rewrite ld8_copy_page, decide_False, Hm1. }
  { intros a Ha. rewrite ld8_copy_page, decide_True, Hm1 by done. unfold page_byte. rewrite Htg.
    apply Hag. exists (p2v pa). split; [|unfold in_page, PGSIZE in *; lia].
    unfold space. rewrite elem_of_cons, elem_of_app. do 2 right. apply (upages_elem _ _ n); [lia|done]. }
  mstep_with K. rewrite (proj2 (Z.eqb_neq p 0) Hp0). mstep. mstep_with Hr2.
  destruct Hcase as [(-> & Hg & Hlen)|(-> & Hg & ->)]; cbn [Z.ltb Z.compare].
  - replace (u32 (n * 4096 + PGSIZE)) with ((n + 1) * 4096) by (unfold u32, PGSIZE, NUVPN in *; mlia).
    exists s2, l2, [], 1. split; [done|]. left. split_and!; try done. cbn. lia.
  - exists s2, [], [p], 0. split; [done|]. right. split_and!; done.
Qed.

(** The loop of copyuvm, up to the point where it returns or gives up. *)
Lemma copy_loop_run m0 pgdir d held sz e fuel : forall s l n,
  agree (in_pages (space m0 pgdir)) m0 (mem_of s) ->
  owns s d (space m0 pgdir ++ held) l -> 0 <= n <= e -> e <= NUVPN ->
  (e - 1) * 4096 < sz <= e * 4096 -> e - n <= Z.of_nat fuel ->
  (forall k, 0 <= k < e -> present (pte_of m0 pgdir k) = true) ->
  (forall k, n <= k < e -> present (pte_of (mem_of s) d k) = false) ->
  exists s' l' lost j,
    grown (page_byte m0 pgdir) s s' d (space m0 pgdir ++ held) lost l l' n j /\ 0 <= j <= e - n /\
    Z.of_nat (length l) <= Z.of_nat (length l') + Z.of_nat (length lost) + 2 * j /\
    (copyuvm_loop fuel pgdir d (n * 4096) sz s = Ret (d, s') /\ lost = [] /\ j = e - n
     \/ copyuvm_loop fuel pgdir d (n * 4096) sz s = (freevm d ;; ret 0) s' /\
        j < e - n /\ l' = [] /\ (length lost <= 1)%nat).
Proof.
  induction fuel as [|fuel IH]; intros s l n Hag HO Hn He Hsz Hfu Hpar Hfree.
  { exists s, l, [], 0. cbn [copyuvm_loop]. rewrite (proj2 (Z.ltb_ge _ _)) by lia.
    split_and!; [by apply grown_none|lia|lia|cbn; lia|]. left. split_and!; [done|done|lia]. }
  destruct (Z.ltb_spec (n * 4096) sz) as [Hlt|Hge].
  2:{ exists s, l, [], 0. cbn [copyuvm_loop]. rewrite (proj2 (Z.ltb_ge _ _)) by lia.
      split_and!; [by apply grown_none|lia|lia|cbn; lia|]. left. split_and!; [done|done|lia]. }
  destruct (copy_step m0 pgdir d held sz fuel s l n Hag HO) as
    (s1 & l1 & lost & j & Hg & [(Hr & -> & -> & Hlen)|(Hr & -> & -> & Hlost & Hlen)]); [lia|done|apply Hpar; lia|apply Hfree; lia| |].
  - destruct (IH s1 l1 (n + 1)) as (s' & l' & lost & j & Hg' & Hj' & Hln & Hres);
      [|apply Hg|lia|done|done|lia|done| |].
    { eapply agree_trans; [exact Hag|]. eapply agree_weaken; [|apply Hg].
      intros a Ha. rewrite !in_pages_app. auto. }
    { intros k Hk. rewrite (gr_old _ _ _ _ _ _ _ _ _ _ Hg) by (unfold NUVPN, NVPN in *; lia). apply Hfree. lia. }
    exists s', l', lost, (1 + j). split_and!; [|lia|lia|lia|].
    + eapply grown_trans; [lia|lia|lia|lia|apply HO|exact Hg|exact Hg'].
    + rewrite Hr. destruct Hres as [(Hr' & -> & ->)|(Hr' & ? & -> & ?)]; [left|right]; split_and!; done || lia.
  - exists s1, [], lost, 0. split_and!; [done|lia|lia|cbn; lia|]. right. split_and!; [done|lia|done|lia].
Qed.

(** A page below the size that the parent does not have stops the kernel. *)
Lemma copy_loop_hole m0 pgdir d held sz h fuel : forall s l n,
  agree (in_pages (space m0 pgdir)) m0 (mem_of s) ->
  owns s d (space m0 pgdir ++ held) l -> 0 <= n <= h -> h < NUVPN -> h * 4096 < sz ->
  h - n < Z.of_nat fuel -> 2 * (h - n) <= Z.of_nat (length l) ->
  (forall k, 0 <= k < h -> present (pte_of m0 pgdir k) = true) ->
  tab_of m0 pgdir (h / 1024) <> None -> present (pte_of m0 pgdir h) = false ->
  (forall k, n <= k < h -> present (pte_of (mem_of s) d k) = false) ->
  copyuvm_loop fuel pgdir d (n * 4096) sz s = Panic "copyuvm: page not present".
Proof.
  induction fuel as [|fuel IH]; intros s l n Hag HO Hn Hh Hsz Hfu Hmem Hpar Htab Hhole Hfree; [lia|].
  destruct (Z.eq_dec n h) as [->|Hne].
  - assert (Hnv : 0 <= h < NVPN) by (unfold NUVPN, NVPN in *; lia).
    destruct (space_frame m0 (mem_of s) pgdir Hag) as (Ht & Hp & _ & _). destruct (vpn_range h Hnv) as [Hi Hj].
    rewrite <- (Hp h Hnv) in Hhole. rewrite <- (Ht _ Hi) in Htab. pose proof (walk_eq s pgdir h 0 Hnv) as Hw.
    unfold pte_of in Hhole. destruct (tab_of (mem_of s) pgdir (h / 1024)) as [t|] eqn:Et; [|done].
    cbn [copyuvm_loop]. rewrite (proj2 (Z.ltb_lt _ _) Hsz). mstep_with Hw.
    rewrite (proj2 (Z.eqb_neq (t + 4 * (h mod 1024)) 0)).
    2:{ apply (held_table s m0 pgdir d held l (h / 1024)); [done..|by rewrite <- Ht|lia]. }
    mstep. rewrite Hhole. done.
  - destruct (copy_step m0 pgdir d held sz fuel s l n Hag HO) as
      (s1 & l1 & lost & j & Hg & [(Hr & -> & -> & Hlen)|(Hr & -> & -> & Hlost & Hlen)]);
      [lia|lia|apply Hpar; lia|apply Hfree; lia| |lia].
    rewrite Hr. apply (IH s1 l1); try lia; try done; [|apply Hg|].
    + eapply agree_trans; [exact Hag|]. eapply agree_weaken; [|apply Hg]. intros a Ha. rewrite !in_pages_app. auto.
    + intros k Hk. rewrite (gr_old _ _ _ _ _ _ _ _ _ _ Hg) by (unfold NUVPN, NVPN in *; lia). apply Hfree. lia.
Qed.

Lemma copyuvm_spec s pgdir held l sz :
  owns s pgdir held l -> 0 <= sz <= KERNBASE ->
  (forall k, 0 <= k < npages sz -> present (pte_of (mem_of s) pgdir k) = true) ->
  exists r s' l', copyuvm pgdir sz s = Ret (r, s') /\ env s s' /\
    agree (in_pages (space (mem_of s) pgdir ++ held)) (mem_of s) (mem_of s') /\
    (r <> 0 /\ owns s' r (space (mem_of s) pgdir ++ held) l' /\ space (mem_of s') r ++ l' ≡ₚ l /\
       (forall va, 0 <= va < KERNBASE -> ubyte (mem_of s') r va =
          if va / 4096 <? npages sz then ubyte (mem_of s) pgdir va else None)
     \/ r = 0 /\ free_pages s' l' /\ Z.of_nat (length l) <= 1025 + 2 * npages sz /\
       exists lost, lost ++ l' ≡ₚ l /\ (l' = [] \/ (length lost <= 1)%nat)).
Proof.
  intros HO Hsz Hpar. pose proof (npages_bounds sz Hsz) as [He1 He2]. set (e := npages sz) in *.
  apply owns_distinct in HO as [Hf HD]. set (H := space (mem_of s) pgdir ++ held).
  assert (distinct_pages (H ++ l)) as HD' by (unfold H; by rewrite <- app_assoc).
  destruct (setupkvm_spec s H l Hf HD') as (d & s1 & l1 & Hd & Henv & Hag & Hres).
  unfold copyuvm. mstep_with Hd. destruct Hres as [(Hd0 & HO1 & Hpg & Hpt)|(-> & Hf1 & Hlen)].
  2:{ exists 0, s1, []. split_and!; [done..|]. right. split_and!; [done|done|lia|].
      exists l. split; [by rewrite app_nil_r|by left]. }
  rewrite (proj2 (Z.eqb_neq d 0) Hd0).
  assert (agree (in_pages (space (mem_of s) pgdir)) (mem_of s) (mem_of s1)) as Hag1.
  { eapply agree_weaken; [|exact Hag]. intros a Ha. apply in_pages_app. by left. }
  assert (Z.of_nat (length l) <= 1025 + Z.of_nat (length l1)) as Hl1.
  { apply Permutation_length in Hpg. unfold space in Hpg. cbn [app length] in Hpg.
    rewrite (upages_kernel _ _ Hpt), !length_app in Hpg. cbn in Hpg. pose proof (length_tabs (mem_of s1) d). lia. }
  destruct (copy_loop_run (mem_of s) pgdir d held sz e (Z.to_nat ((sz + PGSIZE - 1) / PGSIZE)) s1 l1 0)
    as (s2 & l2 & lost & j & Hg & Hj & Hlen & Hres); [done|done|lia|lia|done|unfold e, npages, PGSIZE; mlia|done| |].
  { intros k Hk. rewrite Hpt, kernel_pte_user by (unfold NUVPN, NVPN in *; lia). done. }
  assert (agree (in_pages H) (mem_of s) (mem_of s2)) as Hag2.
  { eapply agree_trans; [exact Hag|]. eapply agree_weaken; [|apply Hg].
    intros a Ha. apply in_pages_app. by right. }
  destruct Hres as [(Hr & -> & ->)|(Hr & Hlt & -> & Hlost)]; change (0 * 4096) with 0 in Hr; rewrite Hr.
  - exists d, s2, l2. split_and!; [done|by etransitivity; [|apply Hg]|done|]. left.
    split_and!; [done|apply Hg| |].
    + rewrite <- Hpg. apply (gr_pages _ _ _ _ _ _ _ _ _ _ Hg).
    + intros va Hva. rewrite (grown_ubyte _ _ _ _ _ _ _ _ _ _ _ Hg (proj1 HO1) Hva).
      destruct (uva_range va Hva) as [Hu Hv]. rewrite (proj2 (Z.leb_le 0 (va / 4096))) by lia.
      replace (0 + (e - 0)) with e by lia. cbn [andb]. destruct (Z.ltb_spec (va / 4096) e) as [Hlt|Hge].
      * unfold page_byte, ubyte. pose proof (Hpar (va / 4096) ltac:(lia)) as Hpr. unfold target. by rewrite Hpr.
      * apply ubyte_unmapped. rewrite Hpt, kernel_pte_user by lia. done.
  - destruct (freevm_spec s2 d (lost ++ H) []) as (s3 & l3 & Hs3 & Hf3 & He3 & Hl3 & Hag3); [apply Hg|].
    mstep_with Hs3. exists 0, s3, l3. split_and!; [done| | |].
    + etransitivity; [exact Henv|]. etransitivity; [apply Hg|done].
    + eapply agree_trans; [exact Hag2|]. eapply agree_weaken; [|exact Hag3].
      intros a Ha. apply in_pages_app. by right.
    + right. split_and!; [done|done|cbn in Hlen; lia|]. exists lost. split; [|by right].
      rewrite Hl3, app_nil_r, <- Hpg, <- (gr_pages _ _ _ _ _ _ _ _ _ _ Hg). rewrite app_nil_r. solve_Permutation.
Qed.

Lemma copyuvm_hole s pgdir held l sz h :
  owns s pgdir held l -> 0 <= sz <= KERNBASE -> 0 <= h < npages sz ->
  (forall k, 0 <= k < h -> present (pte_of (mem_of s) pgdir k) = true) ->
  tab_of (mem_of s) pgdir (h / 1024) <> None -> present (pte_of (mem_of s) pgdir h) = false ->
  1025 + 2 * h < Z.of_nat (length l) ->
  copyuvm pgdir sz s = Panic "copyuvm: page not present".
Proof.
  intros HO Hsz Hh Hpar Htab Hhole Hlen. pose proof (npages_bounds sz Hsz) as [He1 He2].
  apply owns_distinct in HO as [Hf HD]. rewrite app_assoc in HD.
  destruct (setupkvm_spec s _ l Hf HD) as (d & s1 & l1 & Hd & Henv & Hag & [(Hd0 & HO1 & Hpg & Hpt)|(_ & _ & Hl)]); [|lia].
  unfold copyuvm. mstep_with Hd. rewrite (proj2 (Z.eqb_neq d 0) Hd0). change 0 with (0 * 4096) at 1.
  apply (copy_loop_hole (mem_of s) pgdir d held sz h _ s1 l1); try done; try lia.
  - eapply agree_weaken; [|exact Hag]. intros a Ha. apply in_pages_app. by left.
  - unfold PGSIZE, npages in *. mlia.
  - apply Permutation_length in Hpg. unfold space in Hpg. cbn [app length] in Hpg.
    rewrite (upages_kernel _ _ Hpt), !length_app in Hpg. cbn in Hpg. pose proof (length_tabs (mem_of s1) d). lia.
  - intros k Hk. rewrite Hpt, kernel_pte_user by (unfold NUVPN, NVPN in *; lia). done.
Qed.

(** ** copyout *)

Definition user_ok (v : Z) : bool := present v && negb (Z.land v PTE_U =? 0).

Lemma uva2ka_spec (s : St) pgdir held l n :
  owns s pgdir held l -> 0 <= n < NUVPN -> tab_of (mem_of s) pgdir (n / 1024) <> None ->
  uva2ka pgdir (n * 4096) s =
  Ret (if user_ok (pte_of (mem_of s) pgdir n) then p2v (PTE_ADDR (pte_of (mem_of s) pgdir n)) else 0, s).
Proof.
  intros HO Hn Ht. assert (Hnv : 0 <= n < NVPN) by (unfold NUVPN, NVPN in *; lia).
  destruct (vpn_range n Hnv) as [Hi Hj]. pose proof (walk_eq s pgdir n 0 Hnv) as Hw.
  unfold uva2ka, pte_of. destruct (tab_of (mem_of s) pgdir (n / 1024)) as [t|] eqn:Et; [|done].
  mstep_with Hw.
  rewrite (proj2 (Z.eqb_neq _ 0) (tab_nonzero _ _ _ _ _ _ (n mod 1024) HO Hi Et ltac:(lia))). mstep.
  unfold user_ok, present.
  by destruct (Z.land _ PTE_P =? 0); destruct (Z.land _ PTE_U =? 0).
Qed.

(** A write inside the page mapped at [k] is seen at [k] and nowhere else. *)
Lemma write_ubyte s pgdir held l k p m' va :
  owns s pgdir held l -> 0 <= k < NUVPN -> target (pte_of (mem_of s) pgdir k) = Some p ->
  agree (fun a => ~ in_page p a) (mem_of s) m' -> 0 <= va < KERNBASE ->
  ubyte m' pgdir va =
    if va / 4096 =? k then Some (ld8 m' (p + va mod 4096)) else ubyte (mem_of s) pgdir va.
Proof.
  intros HO Hk Hp Hag Hva. destruct (uva_range va Hva) as [Hu Hv].
  destruct (write_held s pgdir held l p m' HO) as (_ & _ & Hpte & _); [|done|].
  { apply elem_of_app. left. by apply (upages_elem _ _ k). }
  unfold ubyte. rewrite (Hpte _ Hv). destruct (Z.eqb_spec (va / 4096) k) as [->|Hne]; [by rewrite Hp|].
  destruct (target (pte_of (mem_of s) pgdir (va / 4096))) as [q|] eqn:Eq; [|done].
  f_equal. apply Hag. intros Hc. apply Hne. apply owns_distinct in HO as [_ [Hnd Hok]].
  rewrite Forall_forall in Hok.
  assert (forall n r, 0 <= n < NUVPN -> target (pte_of (mem_of s) pgdir n) = Some r -> page_ok r) as Hpg.
  { intros n r Hn Hr. apply Hok. unfold space. rewrite !elem_of_app, elem_of_cons, elem_of_app.
    left. do 2 right. by apply (upages_elem _ _ n). }
  assert (p = q) as <-.
  { apply (in_page_unique p q _ (proj1 (Hpg _ _ Hk Hp)) (proj1 (Hpg _ _ Hu Eq)) Hc), in_page_offset. }
  apply NoDup_app in Hnd as (Hnd & _). unfold space in Hnd. apply NoDup_cons in Hnd as [_ Hnd].
  apply NoDup_app in Hnd as (_ & _ & Hnd). eapply (omap_inj _ _ _ _ _ Hnd); [by apply upto_in|by apply upto_in|done|done].
Qed.

Lemma user_ok_target m pgdir n : user_ok (pte_of m pgdir n) = true ->
  target (pte_of m pgdir n) = Some (p2v (PTE_ADDR (pte_of m pgdir n))) /\ tab_of m pgdir (n / 1024) <> None.
Proof.
  unfold user_ok. intros [Hp _]%andb_true_iff. split; [unfold target; by rewrite Hp|].
  intros Hn. unfold pte_of in Hp. by rewrite Hn, present_0 in Hp.
Qed.

(** One turn of copyout: [n] bytes at [va], all in one page. *)
Lemma copyout_step s pgdir held l va buf n :
  owns s pgdir held l -> 0 <= va -> 0 < n -> va mod 4096 + n <= 4096 -> va + n <= KERNBASE ->
  user_ok (pte_of (mem_of s) pgdir (va / 4096)) = true ->
  let m' := memmove (mem_of s) (p2v (PTE_ADDR (pte_of (mem_of s) pgdir (va / 4096))) + va mod 4096) buf n in
  owns (put memL m' s) pgdir held l /\
  (forall k, 0 <= k < NVPN -> pte_of m' pgdir k = pte_of (mem_of s) pgdir k) /\
  agree (fun a => ~ in_pages (upages (mem_of s) pgdir) a) (mem_of s) m' /\
  (forall x, 0 <= x < KERNBASE -> ubyte m' pgdir x =
     if (va <=? x) && (x <? va + n) then Some (ld8 (mem_of s) (buf + (x - va))) else ubyte (mem_of s) pgdir x).
Proof.
  intros HO Hva Hn Hpage Htop Hok m'. destruct (uva_range va ltac:(lia)) as [Hu Hv].
  destruct (user_ok_target _ _ _ Hok) as [Htg _]. set (p := p2v _) in *.
  assert (agree (fun a => ~ in_page p a) (mem_of s) m') as Hag.
  { intros a Ha. unfold m'. rewrite ld8_memmove by lia. unfold in_page, PGSIZE in Ha.
    destruct (Z.leb_spec (p + va mod 4096) a), (Z.ltb_spec a (p + va mod 4096 + n)); cbn [andb]; try done. mlia. }
  pose proof (upages_elem _ _ _ _ Hu Htg) as Hin.
  destruct (write_held s pgdir held l p m' HO) as (HO' & _ & Hpte & _); [apply elem_of_app; by left|done|].
  split_and!; [done|done| |].
  - eapply agree_weaken; [|exact Hag]. intros a Ha Hc. apply Ha. by exists p.
  - intros x Hx. rewrite (write_ubyte s pgdir held l (va / 4096) p m' x HO Hu Htg Hag Hx).
    destruct (Z.eqb_spec (x / 4096) (va / 4096)) as [Heq|Hne].
    + unfold m'. rewrite ld8_memmove by lia. unfold ubyte. rewrite Heq, Htg.
      destruct (Z.leb_spec va x), (Z.ltb_spec x (va + n)),
        (Z.leb_spec (p + va mod 4096) (p + x mod 4096)), (Z.ltb_spec (p + x mod 4096) (p + va mod 4096 + n));
        cbn [andb]; try done; try (f_equal; f_equal; mlia); mlia.
    + destruct (Z.leb_spec va x), (Z.ltb_spec x (va + n)); cbn [andb]; try done. mlia.
Qed.

Lemma copyout_loop_spec pgdir held l fuel : forall s va buf len,
  owns s pgdir held l -> 0 <= va -> 0 <= len <= Z.of_nat fuel -> va + len <= KERNBASE ->
  (forall a, buf <= a < buf + len -> ~ in_pages (upages (mem_of s) pgdir) a) ->
  (forall k, va <= k < va + len -> user_ok (pte_of (mem_of s) pgdir (k / 4096)) = true) ->
  exists s', copyout_loop fuel pgdir va buf len s = Ret (0, s') /\ owns s' pgdir held l /\ env s s' /\
    agree (fun a => ~ in_pages (upages (mem_of s) pgdir) a) (mem_of s) (mem_of s') /\
    (forall x, 0 <= x < KERNBASE -> ubyte (mem_of s') pgdir x =
       if (va <=? x) && (x <? va + len) then Some (ld8 (mem_of s) (buf + (x - va))) else ubyte (mem_of s) pgdir x).
Proof.
  induction fuel as [|fuel IH]; intros s va buf len HO Hva Hlen Htop Hsrc Hok; cbn [copyout_loop];
    destruct (Z.ltb_spec 0 len) as [Hpos|Hz]; try lia.
  1,3: exists s; split_and!; try done; intros x Hx;
    destruct (Z.leb_spec va x), (Z.ltb_spec x (va + len)); cbn [andb]; done || lia.
  destruct (uva_range va ltac:(lia)) as [Hu Hv]. pose proof (Hok va ltac:(lia)) as Hokva.
  rewrite PGROUNDDOWN_eq, (u32_small va) by (unfold KERNBASE in *; lia).
  replace (va - va mod 4096) with (va / 4096 * 4096) by mlia.
  destruct (user_ok_target _ _ _ Hokva) as [Htg Htab].
  mstep_with (uva2ka_spec s pgdir held l (va / 4096) HO Hu Htab). rewrite Hokva.
  assert (page_ok (p2v (PTE_ADDR (pte_of (mem_of s) pgdir (va / 4096))))) as Hpok.
  { destruct HO as [_ [_ Hall]]. rewrite Forall_forall in Hall. apply Hall.
    rewrite elem_of_cons, !elem_of_app. do 2 right. do 2 left. by apply (upages_elem _ _ (va / 4096)). }
  rewrite (proj2 (Z.eqb_neq _ 0)) by (pose proof (page_ok_bounds _ Hpok); lia).
  replace (va - va / 4096 * 4096) with (va mod 4096) by mlia.
  set (n := if len <? PGSIZE - va mod 4096 then len else PGSIZE - va mod 4096).
  assert (0 < n <= len /\ va mod 4096 + n <= 4096 /\ (n = len \/ va + n = (va / 4096 + 1) * 4096)) as (Hn1 & Hn2 & Hn3).
  { unfold n, PGSIZE. destruct (Z.ltb_spec len (4096 - va mod 4096)); mlia. }
  mstep. destruct (copyout_step s pgdir held l va buf n HO) as (HO' & Hpte & Hag & Hub); try lia; [done|].
  set (m' := memmove _ _ _ _) in *. set (s1 := put memL _ s) in *.
  assert (mem_of s1 = m') as Hm1 by apply mem_of_put. rewrite <- Hm1 in *.
  assert (Hup : upages (mem_of s1) pgdir = upages (mem_of s) pgdir).
  { apply upages_ext. intros k Hk. apply Hpte. unfold NUVPN, NVPN in *. lia. }
  assert (Hnext : n < len -> u32 (va / 4096 * 4096 + PGSIZE) = va + n).
  { intros. unfold u32, PGSIZE, KERNBASE in *. mlia. }
  destruct (Z.eq_dec n len) as [Heq|Hne].
  - rewrite Heq in *. replace (len - len) with 0 by lia. exists s1. split_and!; try done; [|apply env_mem].
    by destruct fuel.
  - rewrite Hnext by lia. destruct (IH s1 (va + n) (buf + n) (len - n)) as (s' & Hs' & HO'' & He' & Hag' & Hub');
      [done|lia|lia|lia| | |].
    { intros a Ha. rewrite Hup. apply Hsrc. lia. }
    { intros k Hk. rewrite Hpte by (apply uva_range; lia). apply Hok. lia. }
    exists s'. rewrite Hup in Hag'. split_and!; [done|done| | |].
    + etransitivity; [apply env_mem|exact He'].
    + by eapply agree_trans.
    + intros x Hx. rewrite (Hub' x Hx), (Hub x Hx).
      destruct (Z.leb_spec (va + n) x), (Z.ltb_spec x (va + n + (len - n))), (Z.leb_spec va x),
        (Z.ltb_spec x (va + n)), (Z.ltb_spec x (va + len)); cbn [andb]; try lia; try done.
      f_equal. rewrite Hag by (apply Hsrc; lia). f_equal. lia.
Qed.

End copy.

(** ** What vm.c promises *)

Section properties.
Context {Lay : Layout} {St : Type} {PO : PageOps St} {PS : PageSpec St}.

(** mappages on an unmapped range of addresses writes the entries of the
    pages of that range, from the first one on, and no other entry; it returns
    0 with all of them written, or -1 with the free list exhausted; the pages
    it takes become page tables of this directory, and no byte of a page held
    elsewhere changes. *)
Theorem mappages_maps_range (s : St) (pgdir : Z) (held l : list Z) (va size pa perm : Z) :
  tables s pgdir held l -> 0 <= va -> 0 < size -> va + size <= 0x100000000 -> 0 <= pa < 0x100000000 ->
  let n := va / 4096 in
  let cnt := (va + size - 1) / 4096 - n + 1 in
  (forall k, n <= k < n + cnt -> present (pte_of (mem_of s) pgdir k) = false) ->
  exists r s' l' d,
    mappages pgdir va size pa perm s = Ret (r, s') /\ tables s' pgdir held l' /\
    tabs (mem_of s') pgdir ++ l' ≡ₚ tabs (mem_of s) pgdir ++ l /\
    (forall a, in_pages held a -> ld8 (mem_of s') a = ld8 (mem_of s) a) /\
    (forall k, 0 <= k < NVPN -> pte_of (mem_of s') pgdir k =
       if (n <=? k) && (k <? n + d) then map_entry pa perm (k - n) else pte_of (mem_of s) pgdir k) /\
    (r = 0 /\ d = cnt \/ r = -1 /\ d < cnt /\ l' = []) /\
    (cnt <= Z.of_nat (length l) -> r = 0).
Proof.
  intros HT H1 H2 H3 H4 n cnt Hf.
  destruct (mappages_spec s pgdir held l va size pa perm HT H1 H2 H3 H4 Hf)
    as (r & s' & l' & d & Hr & Hmp & _ & Hpte & Hd & Hlen & Hres).
  exists r, s', l', d. split_and!; try done; try apply Hmp.
  - intros a. by apply (mapped_held _ _ _ _ _ _ a HT Hmp).
  - intros Hc. destruct Hres as [[-> _]|(_ & Hlt & ->)]; [done|]. cbn in Hlen. fold n cnt in Hlt. lia.
Qed.

(** allocuvm ignores a failure of mappages: with one free page left and no
    page table for the new page, it returns the new size although the page is
    not mapped, and the free page is lost. *)
Lemma allocuvm_silent_failure (s : St) (pgdir : Z) (held : list Z) (p oldsz newsz : Z) :
  owns s pgdir held [p] -> 0 <= oldsz <= newsz -> newsz < KERNBASE ->
  npages newsz = npages oldsz + 1 -> tab_of (mem_of s) pgdir (npages oldsz / 1024) = None ->
  exists s', allocuvm pgdir oldsz newsz s = Ret (newsz, s') /\
    ubyte (mem_of s') pgdir (npages oldsz * 4096) = None /\ free_pages s' [] /\
    p ∉ space (mem_of s') pgdir.
Proof.
  intros HO Hsz Hk Hn Ht. pose proof (npages_bounds oldsz ltac:(lia)) as [Hn1 Hn2].
  pose proof (npages_bounds newsz ltac:(lia)) as [He1 He2]. set (n := npages oldsz) in *.
  assert (Hnv : 0 <= n < NVPN) by (unfold NUVPN, NVPN in *; lia).
  destruct (take_page _ _ _ _ _ HO) as (s1 & K & Hp0 & Hm1 & Htake).
  destruct (Htake (memset (mem_of s1) p 0 PGSIZE)) as (HO2 & He & _ & Ht2 & Hpt2 & Hsp2).
  { intros a Ha. by rewrite ld8_clear_page, decide_False, Hm1. }
  set (s2 := put memL _ s1) in *. destruct (vpn_range n Hnv) as [Hi _].
  destruct (mappages_no_table s2 pgdir (upages (mem_of s2) pgdir ++ p :: held) n (v2p p) (Z.lor PTE_W PTE_U))
    as (s3 & Hs3 & Hm3 & He3 & Hf3); [done|done|by rewrite Ht2|].
  exists s3. rewrite Hm3, Hsp2. split_and!; [| |done|].
  - unfold allocuvm. rewrite (proj2 (Z.leb_gt _ _)), (proj2 (Z.ltb_ge _ _)), PGROUNDUP_npages by lia. fold n.
    replace (Z.to_nat _) with 1%nat by (unfold PGSIZE; unfold n, npages in *; mlia).
    cbn [allocuvm_loop]. rewrite (proj2 (Z.ltb_lt _ _)) by lia. mstep_with K.
    rewrite (proj2 (Z.eqb_neq p 0) Hp0). mstep. mstep_with Hs3.
    rewrite (proj2 (Z.ltb_ge _ _)); [done|]. unfold u32, PGSIZE, NUVPN in *. mlia.
  - apply ubyte_unmapped. replace (n * 4096 / 4096) with n by mlia. rewrite Hpt2 by done.
    unfold pte_of. by rewrite Ht.
  - apply owns_distinct in HO as [_ [Hnd _]]. apply NoDup_app in Hnd as (_ & Hd & _).
    intros Hc. apply (Hd p Hc). rewrite elem_of_app, elem_of_cons. auto.
Qed.

(** C25 What allocuvm does on every branch.  A size from KERNBASE on is refused with 0,
    a smaller size than the old one returns the old one, both with nothing changed.
    From [oldsz] to [newsz], on pages not mapped yet, the memory the program had is
    kept and every page is accounted for.  With two free pages for each new page, one for
    it and one for a page table, the result is [newsz], every new page is mapped
    and reads as zeroes, and no page is lost.  With fewer the result may be 0; then
    the program sees the memory it had, although page tables that were added stay, and
    at most one page is lost.  Or it is [newsz] with the last page lost and unmapped,
    since the result of mappages is ignored: so it is with one free page, one new
    page and no page table for it. *)
Theorem allocuvm_extends (s : St) (pgdir : Z) (held l : list Z) (oldsz newsz : Z) :
  owns s pgdir held l -> 0 <= oldsz <= newsz -> newsz < KERNBASE ->
  let n := npages oldsz in
  let e := npages newsz in
  (forall k, n <= k < e -> present (pte_of (mem_of s) pgdir k) = false) ->
  (forall sz sz', KERNBASE <= sz' -> allocuvm pgdir sz sz' s = Ret (0, s)) /\
  (forall sz sz', sz' < KERNBASE -> sz' < sz -> allocuvm pgdir sz sz' s = Ret (sz, s)) /\
  exists r s' l' lost e', allocuvm pgdir oldsz newsz s = Ret (r, s') /\
    owns s' pgdir (lost ++ held) l' /\
    space (mem_of s') pgdir ++ lost ++ l' ≡ₚ space (mem_of s) pgdir ++ l /\
    agree (in_pages held) (mem_of s) (mem_of s') /\
    extended (mem_of s) (mem_of s') pgdir n e' /\
    (2 * (e - n) <= Z.of_nat (length l) -> r = newsz /\ lost = [] /\ e' = e) /\
    (r = newsz /\ lost = [] /\ e' = e \/ r = 0 /\ (length lost <= 1)%nat /\ e' = n \/ r = newsz /\ length lost = 1%nat /\ e' = e - 1) /\
    (length l = 1%nat -> e = n + 1 -> tab_of (mem_of s) pgdir (n / 1024) = None -> r = newsz /\ length lost = 1%nat /\ e' = n).
Proof.
  intros HO Hsz Hk n e Hf. split; [|split].
  - intros sz sz' H. unfold allocuvm. by rewrite (proj2 (Z.leb_le _ _)).
  - intros sz sz' H H'. unfold allocuvm. by rewrite (proj2 (Z.leb_gt _ _)), (proj2 (Z.ltb_lt _ _)).
  - destruct (allocuvm_spec s pgdir held l oldsz newsz HO Hsz Hk Hf) as (r & s' & l' & lost & e' & Hr & _ & HO' & Hpg & Hag & Hext & Hres & Hok).
    exists r, s', l', lost, e'. split_and!; [done..|fold n e in Hres; tauto|].
    intros Hl He Ht. destruct l as [|p [|q l]]; try done.
    destruct (allocuvm_silent_failure s pgdir held p oldsz newsz HO Hsz Hk He Ht) as (s1 & Hr1 & Hu & _). rewrite Hr in Hr1. injection Hr1 as -> ->.
    fold n e in Hres. destruct Hres as [[_ [[-> ->]|[H1 ->]]]|[E _]]; [|split_and!; [done|done|lia]|unfold n, e, npages in *; mlia].
    pose proof (npages_bounds oldsz ltac:(lia)) as [Hn1 _]. pose proof (npages_bounds newsz ltac:(lia)) as [He1 _]. fold n in Hn1. fold e in He1.
    fold n in Hu. rewrite Hext in Hu by (unfold KERNBASE, NUVPN in *; lia). replace (n * 4096 / 4096) with n in Hu by mlia.
    rewrite (proj2 (Z.leb_le _ _)), (proj2 (Z.ltb_lt _ _)) in Hu by lia. done.
Qed.

(** deallocuvm from [oldsz] down to [newsz]: the pages above [newsz] are
    unmapped and freed, each once, and the memory below is kept.  It needs the
    page table of the first such page to exist (or that page to start one). *)
Theorem deallocuvm_shrinks (s : St) (pgdir : Z) (held l : list Z) (oldsz newsz : Z) :
  owns s pgdir held l -> 0 <= newsz < oldsz -> oldsz <= KERNBASE ->
  (npages newsz mod 1024 = 0 \/ tab_of (mem_of s) pgdir (npages newsz / 1024) <> None) ->
  exists s' l', deallocuvm pgdir oldsz newsz s = Ret (newsz, s') /\ owns s' pgdir held l' /\
    space (mem_of s') pgdir ++ l' ≡ₚ space (mem_of s) pgdir ++ l /\
    (forall va, 0 <= va < KERNBASE -> ubyte (mem_of s') pgdir va =
       if (npages newsz <=? va / 4096) && (va / 4096 <? npages oldsz) then None
       else ubyte (mem_of s) pgdir va).
Proof.
  intros HO Hsz Hk Hs. destruct (deallocuvm_spec s pgdir held l oldsz newsz HO Hsz Hk) as (s' & l' & Hr & Hu).
  { destruct Hs as [?|?]; [by left|by right; left]. }
  exists s', l'. split_and!; [done|apply Hu| |].
  - unfold space. rewrite (tabs_ext _ _ _ (um_tab _ _ _ _ _ _ _ _ Hu)). cbn.
    by rewrite <- !app_assoc, (um_pages _ _ _ _ _ _ _ _ Hu).
  - intros va. by apply (unmapped_ubyte _ _ _ _ _ _ _ _ _ Hu).
Qed.

(** C16 freevm gives back every page of an address space, the directory, its
    page tables and its user pages, each exactly once. *)
Theorem freevm_frees_all (s : St) (pgdir : Z) (held l : list Z) :
  owns s pgdir held l ->
  exists s' l', freevm pgdir s = Ret (tt, s') /\ free_pages s' l' /\
    l' ≡ₚ space (mem_of s) pgdir ++ l /\ agree (in_pages held) (mem_of s) (mem_of s').
Proof.
  intros HO. destruct (freevm_spec s pgdir held l HO) as (s' & l' & ? & ? & _ & ? & ?). by exists s', l'.
Qed.

(** setupkvm builds a directory that maps physical memory at KERNBASE (the
    kernel's text read-only), the devices at their own addresses and nothing
    else, with no entry open to user code; it fails only when fewer than 1026
    pages are free. *)
Theorem setupkvm_maps_kernel (s : St) (held l : list Z) :
  free_pages s l -> distinct_pages (held ++ l) ->
  exists r s' l', setupkvm s = Ret (r, s') /\ agree (in_pages held) (mem_of s) (mem_of s') /\
    (r <> 0 /\ owns s' r held l' /\ space (mem_of s') r ++ l' ≡ₚ l /\
       (forall n, 0 <= n < NVPN -> pte_of (mem_of s') r n = kernel_pte n)
     \/ r = 0 /\ free_pages s' [] /\ (length l <= 1025)%nat).
Proof.
  intros Hf HD. destruct (setupkvm_spec s held l Hf HD) as (r & s' & l' & ? & _ & ? & ?). by exists r, s', l'.
Qed.

(** C13 copyuvm gives the child the parent's memory: every byte below the size
    rounded up to a page reads the same, in pages of the child's own, nothing
    is mapped above, and the parent's pages are untouched.  When it returns 0
    the parent is untouched too. *)
Theorem copyuvm_copies (s : St) (pgdir : Z) (held l : list Z) (sz : Z) :
  owns s pgdir held l -> 0 <= sz <= KERNBASE ->
  (forall k, 0 <= k < npages sz -> present (pte_of (mem_of s) pgdir k) = true) ->
  exists r s' l', copyuvm pgdir sz s = Ret (r, s') /\
    (forall va, 0 <= va < KERNBASE -> ubyte (mem_of s') pgdir va = ubyte (mem_of s) pgdir va) /\
    (r <> 0 /\ owns s' r (space (mem_of s) pgdir ++ held) l' /\ space (mem_of s') r ++ l' ≡ₚ l /\
       (forall va, 0 <= va < KERNBASE -> ubyte (mem_of s') r va =
          if va / 4096 <? npages sz then ubyte (mem_of s) pgdir va else None)
     \/ r = 0 /\ free_pages s' l' /\ Z.of_nat (length l) <= 1025 + 2 * npages sz).
Proof.
  intros HO Hsz Hp. destruct (copyuvm_spec s pgdir held l sz HO Hsz Hp) as (r & s' & l' & Hr & _ & Hag & Hres).
  exists r, s', l'. split_and!; [done| |].
  - apply space_frame. eapply agree_weaken; [|exact Hag]. intros a Ha. apply in_pages_app. by left.
  - destruct Hres as [?|(? & ? & ? & _)]; [by left|by right].
Qed.

(** copyout to user-accessible pages writes the [len] source bytes at [va]
    of the address space, whatever page boundaries they cross, and changes no
    other byte of it. *)
Theorem copyout_writes (s : St) (pgdir : Z) (held l : list Z) (va p len : Z) :
  owns s pgdir held l -> 0 <= va -> 0 <= len -> va + len <= KERNBASE ->
  (forall a, p <= a < p + len -> ~ in_pages (upages (mem_of s) pgdir) a) ->
  (forall x, va <= x < va + len -> user_ok (pte_of (mem_of s) pgdir (x / 4096)) = true) ->
  exists s', copyout pgdir va p len s = Ret (0, s') /\ owns s' pgdir held l /\
    (forall x, 0 <= x < KERNBASE -> ubyte (mem_of s') pgdir x =
       if (va <=? x) && (x <? va + len) then Some (ld8 (mem_of s) (p + (x - va)))
       else ubyte (mem_of s) pgdir x).
Proof.
  intros HO Hva Hlen Htop Hsrc Hok.
  destruct (copyout_loop_spec pgdir held l (Z.to_nat len) s va p len) as (s' & Hs' & HO' & _ & _ & Hub);
    try done; [lia|]. by exists s'.
Qed.

(** copyout at an address whose page table does not exist dereferences the
    null entry walkpgdir returned, instead of returning -1. *)
Theorem copyout_missing_table (s : St) (pgdir va p len : Z) :
  0 <= va < KERNBASE -> 0 < len -> tab_of (mem_of s) pgdir (va / 4096 / 1024) = None ->
  copyout pgdir va p len s = Fault "uva2ka: null pte".
Proof.
  intros Hva Hlen Ht. unfold copyout. destruct (Z.to_nat len) as [|f] eqn:E; [lia|]. cbn [copyout_loop].
  rewrite (proj2 (Z.ltb_lt 0 len) Hlen), PGROUNDDOWN_eq, (u32_small va) by (unfold KERNBASE in *; lia).
  replace (va - va mod 4096) with (va / 4096 * 4096) by mlia.
  assert (walkpgdir pgdir (va / 4096 * 4096) 0 s = Ret (0, s)) as Hw.
  { rewrite walk_eq, Ht by (apply uva_range; lia). done. }
  unfold bind at 1, uva2ka. by mstep_with Hw.
Qed.

End properties.

(** ** A concrete machine

    The free list holds the pages from 4MB to 12MB in order.  The directory at
    0x80300000 has one page table, which maps one user page at address 0. *)

(** [n] pages from [p] on, each linked to the next. *)
Fixpoint link_pages (p : Z) (n : nat) : mem :=
  match n with
  | O => fun _ => 0
  | S n => st32 (link_pages (p + 4096) n) p (if (n =? 0)%nat then 0 else p + 4096)
  end.

(** 2048 pages, not to be computed. *)
Definition demo_n_aux : { n : nat | Z.of_nat n = 2048 }.
Proof. by exists 2048%nat. Qed.
Definition demo_n : nat := proj1_sig demo_n_aux.
Lemma demo_n_eq : Z.of_nat demo_n = 2048.
Proof. unfold demo_n. by destruct demo_n_aux. Qed.

Definition demo_dir : Z := 0x80300000.
Definition demo_mem : mem := st32 (st32 (link_pages 0x80400000 demo_n) demo_dir 0x301007) 0x80301000 0x302007.
Definition demo : kst := mkKst (mkCpu 1 0 false true) demo_mem (mkKmem (initlock "kmem") 1 0x80400000).
Definition demo_free : list Z := page_range 0x80400000 demo_n.

Lemma link_pages_below n : forall p a, a < p -> ld8 (link_pages p n) a = 0.
Proof.
  induction n as [|n IH]; intros p a Ha; [done|]. cbn [link_pages].
  rewrite st32_agree by lia. apply IH. lia.
Qed.

Lemma flist_ext m m' l : forall h, (forall q, q ∈ l -> ld32 m' q = ld32 m q) -> flist m h l -> flist m' h l.
Proof.
  induction l as [|p l IH]; intros h H; cbn [flist]; [done|]. intros [-> Hl]. split; [done|].
  rewrite H by (apply elem_of_cons; by left). apply IH; [|done]. intros q Hq. apply H. apply elem_of_cons. by right.
Qed.

Lemma flist_link n : forall p, 0 <= p -> p + 4096 * Z.of_nat n < 0x100000000 ->
  flist (link_pages p n) (if (n =? 0)%nat then 0 else p) (page_range p n).
Proof.
  induction n as [|n IH]; intros p Hp Htop; [done|]. cbn [link_pages page_range flist Nat.eqb]. split; [done|].
  rewrite ld32_st32_same, u32_small by (destruct (n =? 0)%nat; lia).
  eapply flist_ext; [|apply (IH (p + 4096)); lia]. intros q (i & Hi & ->)%elem_of_page_range.
  apply ld32_st32_ne. clia.
Qed.

Lemma NoDup_page_range n : forall p, NoDup (page_range p n).
Proof.
  induction n as [|n IH]; intros p; cbn [page_range]; constructor; [|done].
  intros (i & Hi & Heq)%elem_of_page_range. clia.
Qed.

Lemma demo_ld32 a : a + 4 <= 0x80400000 ->
  ld32 demo_mem a = if a =? demo_dir then 0x301007 else if a =? 0x80301000 then 0x302007 else
    if (a mod 4 =? 0) then 0 else ld32 demo_mem a.
Proof.
  intros Ha. unfold demo_mem, demo_dir. destruct (Z.eqb_spec a 0x80300000) as [->|H1].
  { by rewrite ld32_st32_ne, ld32_st32_same by lia. }
  destruct (Z.eqb_spec a 0x80301000) as [->|H2]; [by rewrite ld32_st32_same|].
  destruct (Z.eqb_spec (a mod 4) 0) as [H4|]; [|done].
  rewrite !ld32_st32_ne by mlia. unfold ld32. by rewrite !link_pages_below by lia.
Qed.

Lemma demo_tab i : 0 <= i < 1024 -> tab_of demo_mem demo_dir i = if i =? 0 then Some 0x80301000 else None.
Proof.
  intros Hi. unfold tab_of, pde_of. rewrite demo_ld32 by (unfold demo_dir; lia). unfold demo_dir.
  destruct (Z.eqb_spec i 0) as [->|Hne]; [done|].
  rewrite (proj2 (Z.eqb_neq _ 0x80300000)), (proj2 (Z.eqb_neq _ 0x80301000)), (proj2 (Z.eqb_eq _ 0)) by mlia. done.
Qed.

Lemma demo_pte n : 0 <= n < NVPN -> pte_of demo_mem demo_dir n = if n =? 0 then 0x302007 else 0.
Proof.
  intros Hn. destruct (vpn_range n Hn) as [Hi Hj]. unfold pte_of. rewrite demo_tab by done.
  destruct (Z.eqb_spec (n / 1024) 0) as [H0|H0].
  - rewrite demo_ld32 by lia. unfold demo_dir. rewrite (proj2 (Z.eqb_neq _ 0x80300000)) by lia.
    destruct (Z.eqb_spec n 0) as [->|Hne]; [done|].
    rewrite (proj2 (Z.eqb_neq _ 0x80301000)), (proj2 (Z.eqb_eq _ 0)) by mlia. done.
  - by destruct (Z.eqb_spec n 0) as [->|].
Qed.

Lemma omap_single {A B : Type} (f : A -> option B) (l : list A) k b :
  NoDup l -> k ∈ l -> f k = Some b -> (forall x, x ∈ l -> x <> k -> f x = None) -> omap f l = [b].
Proof.
  intros Hnd Hk Hb Hx. apply Permutation_singleton_r.
  rewrite (omap_define (fun _ => None) f l k b Hnd Hk eq_refl Hb); [|by intros; apply Hx].
  assert (omap (fun _ : A => @None B) l = []) as ->; [|done]. clear. by induction l.
Qed.

Lemma demo_pages : tabs demo_mem demo_dir = [0x80301000] /\ upages demo_mem demo_dir = [0x80302000].
Proof.
  split.
  - apply (omap_single _ _ 0); [apply upto_nodup|by apply upto_in|by rewrite demo_tab|].
    intros i Hi Hne. apply upto_in in Hi. rewrite demo_tab by done. by apply Z.eqb_neq in Hne as ->.
  - apply (omap_single _ _ 0); [apply upto_nodup|by apply upto_in|by rewrite demo_pte|].
    intros i Hi Hne. apply upto_in in Hi. rewrite demo_pte by (unfold NUVPN, NVPN in *; lia).
    by apply Z.eqb_neq in Hne as ->.
Qed.

#[local] Existing Instance kernel_sym.

(** Pages below the free ones are different from them. *)
Lemma demo_distinct ps : NoDup ps -> Forall page_ok ps -> Forall (fun p => p < 0x80400000) ps ->
  distinct_pages (ps ++ demo_free).
Proof.
  intros Hnd Hok Hlow. pose proof demo_n_eq as Hn. split.
  - apply NoDup_app. split_and!; [done| |apply NoDup_page_range].
    intros q Hq (i & Hi & ->)%elem_of_page_range. rewrite Forall_forall in Hlow. specialize (Hlow _ Hq). cbn in Hlow. clia.
  - apply Forall_app. split; [done|]. apply Forall_forall. intros q (i & Hi & ->)%elem_of_page_range.
    unfold page_ok. cbn [k_end kernel_sym]. cmlia.
Qed.

(** Closed lists of pages below the free ones. *)
Ltac demo_distinct_tac := apply demo_distinct;
  [by apply (bool_decide_unpack _)|repeat constructor; page_ok_tac|repeat constructor].

Lemma demo_alloc m : agree (fun a => 0x80400000 <= a) demo_mem m -> 
  alloc_inv (mkKst (mkCpu 1 0 false true) m (mkKmem (initlock "kmem") 1 0x80400000)) demo_free.
Proof.
  intros Hag. pose proof demo_n_eq as Hn. split.
  - split; cbn; done || lia.
  - done.
  - cbn [kmem freelist ks_mem]. assert (flist (link_pages 0x80400000 demo_n) 0x80400000 demo_free) as Hfl.
    { pose proof (flist_link demo_n 0x80400000 ltac:(lia) ltac:(lia)) as H.
      destruct (Nat.eqb_spec demo_n 0) as [E|_]; [lia|done]. }
    eapply flist_ext; [|exact Hfl].
    intros q (i & Hi & ->)%elem_of_page_range. rewrite (ld32_agree _ _ _ _ Hag) by (intros; clia).
    unfold demo_mem, demo_dir. rewrite !ld32_st32_ne by clia. done.
  - apply NoDup_page_range.
  - apply (demo_distinct []); constructor.
Qed.

Lemma demo_owns : owns demo demo_dir [] demo_free.
Proof.
  apply owns_distinct. unfold space. change (mem_of demo) with demo_mem.
  destruct demo_pages as [-> ->]. split; [by apply demo_alloc|].
  change (distinct_pages ([demo_dir; 0x80301000; 0x80302000] ++ demo_free)). unfold demo_dir. demo_distinct_tac.
Qed.

Lemma demo_free_length : Z.of_nat (length demo_free) = 2048.
Proof.
  rewrite <- demo_n_eq. unfold demo_free. generalize demo_n, 0x80400000.
  intros n. induction n as [|n IH]; intros p; cbn [page_range length]; [done|]. specialize (IH (p + PGSIZE)). lia.
Qed.

Lemma demo_unmapped n e k : 1 <= n -> e <= NUVPN -> n <= k < e ->
  present (pte_of (mem_of demo) demo_dir k) = false.
Proof.
  intros. change (mem_of demo) with demo_mem. rewrite demo_pte by (unfold NUVPN, NVPN in *; lia).
  by rewrite (proj2 (Z.eqb_neq k 0)) by lia.
Qed.

Lemma mappages_maps_range_witness :
  exists s', mappages demo_dir 0x1000 0x2000 0x5000 (Z.lor PTE_W PTE_U) demo = Ret (0, s') /\
    pte_of (mem_of s') demo_dir 2 = 0x6007.
Proof.
  destruct (mappages_maps_range demo demo_dir _ demo_free 0x1000 0x2000 0x5000 (Z.lor PTE_W PTE_U) demo_owns)
    as (r & s' & l' & d & Hr & _ & _ & _ & Hpte & Hres & Hok); [lia..| |].
  - intros k Hk. apply (demo_unmapped 1 3); [lia|done|]. change (0x1000 / 4096) with 1 in Hk.
    change ((0x1000 + 0x2000 - 1) / 4096) with 2 in Hk. lia.
  - rewrite demo_free_length in Hok. assert (r = 0) as -> by (apply Hok; vm_compute; discriminate).
    exists s'. split; [exact Hr|]. rewrite Hpte by (unfold NVPN; lia).
    destruct Hres as [[_ ->]|[H _]]; [reflexivity|discriminate H].
Defined.

Lemma allocuvm_extends_witness :
  exists s', allocuvm demo_dir 4000 9000 demo = Ret (9000, s') /\ ubyte (mem_of s') demo_dir 8200 = Some 0.
Proof.
  destruct (allocuvm_extends demo demo_dir [] demo_free 4000 9000 demo_owns)
    as (_ & _ & r & s' & l' & lost & e' & Hr & _ & _ & _ & Hext & Hok & _); [lia|reflexivity| |].
  - intros k Hk. apply (demo_unmapped 1 3); [lia|done|]. change (npages 4000) with 1 in Hk.
    change (npages 9000) with 3 in Hk. lia.
  - rewrite demo_free_length in Hok. destruct Hok as (-> & _ & ->); [vm_compute; discriminate|].
    exists s'. split; [exact Hr|]. rewrite Hext by (unfold KERNBASE; lia). reflexivity.
Defined.

Lemma deallocuvm_shrinks_witness :
  exists s', deallocuvm demo_dir 4096 0 demo = Ret (0, s') /\ ubyte (mem_of s') demo_dir 5 = None.
Proof.
  destruct (deallocuvm_shrinks demo demo_dir [] demo_free 4096 0 demo_owns) as (s' & l' & Hr & _ & _ & Hub);
    [lia|unfold KERNBASE; lia|left; reflexivity|].
  exists s'. split; [exact Hr|]. rewrite Hub by (unfold KERNBASE; lia). reflexivity.
Defined.

Lemma freevm_frees_all_witness :
  exists s' l', freevm demo_dir demo = Ret (tt, s') /\ alloc_inv s' l' /\ 0x80302000 ∈ l'.
Proof.
  destruct (freevm_frees_all demo demo_dir [] demo_free demo_owns) as (s' & l' & Hr & Hf & Hl & _).
  exists s', l'. split; [exact Hr|]. split; [exact Hf|]. rewrite Hl. unfold space.
  change (mem_of demo) with demo_mem. destruct demo_pages as [_ ->].
  rewrite !elem_of_app, elem_of_cons, elem_of_app, elem_of_cons. auto.
Defined.

Lemma setupkvm_maps_kernel_witness :
  exists r s', setupkvm demo = Ret (r, s') /\ pte_of (mem_of s') r 0x80100 = 0x100001.
Proof.
  destruct (setupkvm_maps_kernel demo [] demo_free) as (r & s' & l' & Hr & _ & [(_ & _ & _ & Hpt)|(_ & _ & Hlen)]).
  - exact (proj1 demo_owns).
  - eapply distinct_sub; [|exact (proj2 demo_owns)]. solve_submseteq.
  - exists r, s'. split; [exact Hr|]. rewrite Hpt by (unfold NVPN; lia). reflexivity.
  - pose proof demo_free_length. lia.
Defined.

Lemma copyuvm_copies_witness :
  exists d s', copyuvm demo_dir 4096 demo = Ret (d, s') /\ ubyte (mem_of s') d 5 = ubyte demo_mem demo_dir 5.
Proof.
  destruct (copyuvm_copies demo demo_dir [] demo_free 4096 demo_owns)
    as (d & s' & l' & Hr & _ & [(_ & _ & _ & Hub)|(_ & _ & Hlen)]).
  - unfold KERNBASE. lia.
  - intros k Hk. change (npages 4096) with 1 in Hk. assert (k = 0) as -> by lia.
    change (mem_of demo) with demo_mem. by rewrite demo_pte.
  - exists d, s'. split; [exact Hr|]. rewrite Hub by (unfold KERNBASE; lia). reflexivity.
  - rewrite demo_free_length in Hlen. change (npages 4096) with 1 in Hlen. lia.
Defined.

Lemma copyout_writes_witness :
  exists s', copyout demo_dir 100 0x80200000 8 demo = Ret (0, s') /\
    ubyte (mem_of s') demo_dir 103 = Some (ld8 demo_mem 0x80200003).
Proof.
  destruct (copyout_writes demo demo_dir [] demo_free 100 0x80200000 8 demo_owns) as (s' & Hr & _ & Hub).
  - lia.
  - lia.
  - unfold KERNBASE. lia.
  - change (mem_of demo) with demo_mem. destruct demo_pages as [_ ->].
    intros a Ha (p & Hp & Hpa). apply list_elem_of_singleton in Hp as ->. unfold in_page, PGSIZE in Hpa. lia.
  - intros x Hx. change (mem_of demo) with demo_mem. replace (x / 4096) with 0 by mlia. by rewrite demo_pte.
  - exists s'. split; [exact Hr|]. rewrite Hub by (unfold KERNBASE; lia). reflexivity.
Defined.

Lemma copyout_missing_table_witness :
  copyout demo_dir 0x400000 0x80200000 8 demo = Fault "uva2ka: null pte".
Proof.
  apply copyout_missing_table; [unfold KERNBASE; lia|lia|].
  change (mem_of demo) with demo_mem. by rewrite demo_tab by (vm_compute; split; congruence).
Defined.

(** One free page and an empty directory. *)
Definition scarce : kst := mkKst (mkCpu 1 0 false true) (fun _ => 0) (mkKmem (initlock "kmem") 1 0x80200000).

Lemma scarce_owns : owns scarce demo_dir [] [0x80200000].
Proof.
  destruct (empty_dir (mem_of scarce) demo_dir) as [Ht Hp]; [unfold demo_dir; page_ok_tac|done|].
  apply owns_distinct. unfold space. rewrite Ht.
  assert (upages (mem_of scarce) demo_dir = []) as ->.
  { destruct (upages (mem_of scarce) demo_dir) as [|p us] eqn:E; [done|].
    assert (p ∈ upages (mem_of scarce) demo_dir) as Hin by (rewrite E; apply elem_of_cons; by left).
    apply list_elem_of_omap in Hin as (k & Hk & Hpk). apply upto_in in Hk.
    by rewrite Hp in Hpk by (unfold NUVPN, NVPN in *; lia). }
  split; [split|split].
  - split; cbn; done || lia.
  - done.
  - cbn [flist]. split; reflexivity.
  - by apply (bool_decide_unpack _).
  - repeat constructor; page_ok_tac.
  - by apply (bool_decide_unpack _).
  - repeat constructor; unfold demo_dir; page_ok_tac.
Qed.

Lemma allocuvm_silent_failure_witness :
  exists s', allocuvm demo_dir 0 4096 scarce = Ret (4096, s') /\ ubyte (mem_of s') demo_dir 0 = None.
Proof.
  destruct (allocuvm_silent_failure scarce demo_dir [] 0x80200000 0 4096 scarce_owns) as (s' & Hr & Hu & _);
    [lia|unfold KERNBASE; lia|reflexivity|reflexivity|].
  exists s'. split; [exact Hr|exact Hu].
Defined.
