(* ===== verification/Shm.v ===== *)
(** * Shared memory segments (kalloc.c)

    shmget, shmdel, shmat, shmdt and deallocshm, on the allocator's state, the
    table [shm] and the fields of the current process they use.  An index
    outside a C array and a null page-table entry that is dereferenced are
    faults. *)

From Stdlib Require Import ZArith Lia String Bool.
From stdpp Require Import base numbers list.
From S2P Require Import Prelude Params Mem Spinlock Pages Kalloc Vm.

(** The table: [seg key i] is the kernel address of page [i] of the segment,
    [refs key 1 64] its number of pages, [refs key 0 64] its reference count
    and [refs key 0 pid] the flag of process [pid]. *)
Record shm_t : Type := mkShm {
  seg : Z -> Z -> Z;
  refs : Z -> Z -> Z -> Z;
  shm_lock : spinlock
}.

(** The fields of the current process. *)
Record shm_proc : Type := mkShmProc { p_pgdir : Z; p_sz : Z; p_pid : Z; p_has_shm : Z }.

Record sst : Type := mkSst { ss_k : kst; shm : shm_t; cur : shm_proc }.

Definition ss_kL : lens sst kst := Lens ss_k (fun k s => mkSst k (shm s) (cur s)).
Definition shmL : lens sst shm_t := Lens shm (fun x s => mkSst (ss_k s) x (cur s)).
Definition shm_lockL : lens sst spinlock :=
  Lens (fun s => shm_lock (shm s)) (fun x s => mkSst (ss_k s) (mkShm (seg (shm s)) (refs (shm s)) x) (cur s)).
Definition curL : lens sst shm_proc := Lens cur (fun x s => mkSst (ss_k s) (shm s) x).
#[export] Instance sst_cpu : HasCpu sst := lens_comp ss_kL (cpuL : lens kst cpu).

Definition upd2 (f : Z -> Z -> Z) (i j v : Z) : Z -> Z -> Z :=
  fun i' j' => if (i' =? i) && (j' =? j) then v else f i' j'.
Definition upd3 (f : Z -> Z -> Z -> Z) (i j k v : Z) : Z -> Z -> Z -> Z :=
  fun i' j' k' => if (i' =? i) && (j' =? j) && (k' =? k) then v else f i' j' k'.

Definition inb (i n : Z) : bool := (0 <=? i) && (i <? n).

Definition get_seg (key i : Z) : M sst Z :=
  if inb key numOfSegs && inb i numOfSegs then gets (fun s => seg (shm s) key i)
  else fault "shm.seg: index out of range".
Definition set_seg (key i v : Z) : M sst unit :=
  if inb key numOfSegs && inb i numOfSegs then
    modify (fun s => put shmL (mkShm (upd2 (seg (shm s)) key i v) (refs (shm s)) (shm_lock (shm s))) s)
  else fault "shm.seg: index out of range".
Definition get_ref (key i j : Z) : M sst Z :=
  if inb key numOfSegs && inb i 2 && inb j 65 then gets (fun s => refs (shm s) key i j)
  else fault "shm.refs: index out of range".
Definition set_ref (key i j v : Z) : M sst unit :=
  if inb key numOfSegs && inb i 2 && inb j 65 then
    modify (fun s => put shmL (mkShm (seg (shm s)) (upd3 (refs (shm s)) key i j v) (shm_lock (shm s))) s)
  else fault "shm.refs: index out of range".

Definition set_sz (v : Z) : M sst unit :=
  modify (fun s => put curL (mkShmProc (p_pgdir (cur s)) v (p_pid (cur s)) (p_has_shm (cur s))) s).
Definition add_has_shm (d : Z) : M sst unit :=
  modify (fun s => put curL (mkShmProc (p_pgdir (cur s)) (p_sz (cur s)) (p_pid (cur s)) (s32 (p_has_shm (cur s) + d))) s).

Section ops.
Context {Lay : Layout}.

#[export] Instance sst_pages : PageOps sst := PageOps_zoom ss_kL.

(** The loop [for(key = 0; key < numOfSegs; key++)] that shmdel, shmat and
    shmdt use: at the first segment whose first page passes the test, run the
    body and leave the loop. *)
Fixpoint find_seg {A : Type} (n : nat) (key : Z) (hit : Z -> bool) (body : Z -> M sst A) (none : A) : M sst A :=
  match n with
  | O => ret none
  | S n =>
    let* p := get_seg key 0 in
    if hit p then body key else find_seg n (key + 1) hit body none
  end.

(** ** shmget *)

(** Allocate the pages from number [i] on; the result is the [i] at which the
    loop stopped. *)
Fixpoint shmget_alloc (fuel : nat) (key i numOfPages : Z) : M sst Z :=
  match fuel with
  | O => if i <? numOfPages then nofuel else ret i
  | S fuel =>
    if i <? numOfPages then
      let* p := kalloc in
      set_seg key i p ;;
      if p =? 0 then ret i else shmget_alloc fuel key (i + 1) numOfPages
    else ret i
  end.

(** Free the pages numbered [j] to [j + n - 1]. *)
Fixpoint shmget_undo (n : nat) (key j : Z) : M sst unit :=
  match n with
  | O => ret tt
  | S n =>
    let* p := get_seg key j in
    kfree p ;;
    shmget_undo n key (j + 1)
  end.

Definition shmget (key size shmflg : Z) : M sst Z :=
  if (key <? 0) || (1023 <? key) then ret (-1) else
  if shmflg =? CREAT then
    let* n := get_ref key 1 64 in
    if n =? 0 then
      let sz := PGROUNDUP size in
      let numOfPages := sz / PGSIZE in
      let* i := shmget_alloc (Z.to_nat numOfPages) key 0 numOfPages in
      if i =? numOfPages then
        let* p := get_seg key 0 in
        set_ref key 1 64 numOfPages ;;
        ret (s32 p)
      else
        shmget_undo (Z.to_nat i) key 0 ;;
        ret (-1)
    else ret (-1)
  else if shmflg =? GET then
    let* n := get_ref key 1 64 in
    if n =? 0 then ret (-1)
    else let* p := get_seg key 0 in ret (s32 p)
  else fault "shmget: ans is not initialised".

(** ** shmdel *)

Fixpoint shmdel_free (n : nat) (key i : Z) : M sst unit :=
  match n with
  | O => ret tt
  | S n =>
    let* p := get_seg key i in
    kfree p ;;
    let* c := get_ref key 1 64 in
    set_ref key 1 64 (c - 1) ;;
    shmdel_free n key (i + 1)
  end.

Definition shmdel_key (key : Z) : M sst Z :=
  let* c := get_ref key 0 64 in
  if 0 <? c then ret (-1)
  else
    let* numOfPages := get_ref key 1 64 in
    shmdel_free (Z.to_nat numOfPages) key 0 ;;
    ret numOfPages.

Definition shmdel (shmid : Z) : M sst Z :=
  find_seg (Z.to_nat numOfSegs) 0 (fun p => shmid =? s32 p) shmdel_key (-1).

(** ** shmat *)

(** The loop over the pages of the segment; the result is the flag [forFlag]
    and the address [a] at its end. *)
Fixpoint shmat_map (fuel : nat) (key i a shmflg forFlag : Z) : M sst (Z * Z) :=
  let* n := get_ref key 1 64 in
  if (i <? n) && (a <? KERNBASE) then
    match fuel with
    | O => nofuel
    | S fuel =>
      let* mem := get_seg key i in
      let* pd := gets (fun s => p_pgdir (cur s)) in
      let* forFlag :=
        (if shmflg =? SHM_RDONLY then
           let* _ := mappages pd a PGSIZE (v2p mem) PTE_U in ret 1
         else if shmflg =? SHM_RDWR then
           let* _ := mappages pd a PGSIZE (v2p mem) (Z.lor PTE_W PTE_U) in ret 1
         else ret 0) in
      shmat_map fuel key (i + 1) (u32 (a + PGSIZE)) shmflg forFlag
    end
  else ret (forFlag, a).

Definition shmat_key (key shmflg : Z) : M sst Z :=
  let* n := get_ref key 1 64 in
  if 0 <? n then
    let* sz := gets (fun s => p_sz (cur s)) in
    let a := PGROUNDUP sz in
    if KERNBASE <=? u32 (a + PGSIZE) then ret (-1) else
    let* c := get_ref key 0 64 in
    set_ref key 0 64 (c + 1) ;;
    let* pid := gets (fun s => p_pid (cur s)) in
    set_ref key 0 pid 1 ;;
    add_has_shm 1 ;;
    let* r := shmat_map (Z.to_nat n) key 0 a shmflg 0 in
    let (forFlag, a') := r in
    if negb (forFlag =? 0) then set_sz a' ;; ret (s32 a)
    else ret (-1)
  else ret (-1).

Definition shmat (shmid shmflg : Z) : M sst Z :=
  acquire shm_lockL ;;
  let* ans := find_seg (Z.to_nat numOfSegs) 0 (fun p => shmid =? s32 p) (fun key => shmat_key key shmflg) (-1) in
  release shm_lockL ;;
  ret ans.

(** ** shmdt *)

(** What the search under the lock comes to: an error return (which leaves
    the lock held), no segment, or the number of pages of the segment. *)
Inductive dt_result : Type := DtError | DtNone | DtFound (numOfPages : Z).

Definition shmdt_key (key : Z) : M sst dt_result :=
  let* np := get_ref key 1 64 in
  if 0 <? np then
    let* c := get_ref key 0 64 in
    if c <=? 0 then ret DtError else
    set_ref key 0 64 (c - 1) ;;
    let* pid := gets (fun s => p_pid (cur s)) in
    set_ref key 0 pid 0 ;;
    add_has_shm (-1) ;;
    let* np := get_ref key 1 64 in
    ret (DtFound np)
  else ret DtError.

(** Clear the entries of the pages from [a] below [top]. *)
Fixpoint clear_ptes (fuel : nat) (a top : Z) : M sst unit :=
  match fuel with
  | O => if a <? top then nofuel else ret tt
  | S fuel =>
    if a <? top then
      let* pd := gets (fun s => p_pgdir (cur s)) in
      let* pte := walkpgdir pd a 0 in
      if pte =? 0 then fault "shm: write through a null pte" else
      store32 pte 0 ;;
      clear_ptes fuel (u32 (a + PGSIZE)) top
    else ret tt
  end.

Definition shmdt (shmaddr : Z) : M sst Z :=
  let* pd := gets (fun s => p_pgdir (cur s)) in
  let* pte := walkpgdir pd shmaddr 0 in
  if pte =? 0 then fault "shmdt: null pte" else
  let* v := load32 pte in
  let r := p2v (PTE_ADDR v) in
  acquire shm_lockL ;;
  let* found := find_seg (Z.to_nat numOfSegs) 0 (fun p => p =? r) shmdt_key DtNone in
  match found with
  | DtError => ret (-1)
  | DtNone => release shm_lockL ;; ret (-1)
  | DtFound numOfPages =>
    release shm_lockL ;;
    clear_ptes (Z.to_nat numOfPages) shmaddr (u32 (shmaddr + u32 (numOfPages * PGSIZE))) ;;
    ret 0
  end.

(** ** deallocshm *)

(** The scan of the process's memory for the segment [key], from [a] on; the
    result is the address it stopped at. *)
Fixpoint dealloc_scan (fuel : nat) (key a : Z) : M sst Z :=
  let* sz := gets (fun s => p_sz (cur s)) in
  if a <? sz then
    match fuel with
    | O => nofuel
    | S fuel =>
      let* pd := gets (fun s => p_pgdir (cur s)) in
      let* pte := walkpgdir pd a 0 in
      if pte =? 0 then dealloc_scan fuel key (u32 (u32 (a + (NPTENTRIES - 1) * PGSIZE) + PGSIZE))
      else
        let* v := load32 pte in
        if present v then
          let pa := p2v (PTE_ADDR v) in
          let* p := get_seg key 0 in
          if p =? pa then
            let* numOfPages := get_ref key 1 64 in
            clear_ptes (Z.to_nat numOfPages) a (u32 (a + u32 (numOfPages * PGSIZE))) ;;
            let* c := get_ref key 0 64 in
            (if 0 <? c then set_ref key 0 64 (c - 1) else ret tt) ;;
            ret a
          else dealloc_scan fuel key (u32 (a + PGSIZE))
        else dealloc_scan fuel key (u32 (a + PGSIZE))
    end
  else ret a.

Fixpoint dealloc_loop (n : nat) (key a : Z) : M sst unit :=
  match n with
  | O => ret tt
  | S n =>
    let* pid := gets (fun s => p_pid (cur s)) in
    let* f := get_ref key 0 pid in
    let* a' :=
      (if negb (f =? 0) then
         let* sz := gets (fun s => p_sz (cur s)) in
         dealloc_scan (Z.to_nat (sz / PGSIZE + 1)) key a
       else ret a) in
    dealloc_loop n (key + 1) a'
  end.

(** The parameter [pid] is not used: the code reads [proc->pid]. *)
Definition deallocshm (pid : Z) : M sst unit :=
  acquire shm_lockL ;;
  dealloc_loop (Z.to_nat numOfSegs) 0 0 ;;
  release shm_lockL.

End ops.
