(* ===== verification/Segments.v ===== *)
(** * Shared memory segments: what the code does

    The invariant of the table of segments and the effect of each call on the
    pages, the reference counts and the page tables. *)

From Stdlib Require Import ZArith Lia String Bool.
From stdpp Require Import base numbers list.
From S2P Require Import Prelude Params Mem Spinlock Pages Kalloc Vm PageTable AddrSpace Shm.

Section segments.
Context {Lay : Layout}.

#[export] Instance ss_kL_ok : LensOk ss_kL.
Proof. by split; try intros ?? []; try intros []. Qed.
#[export] Instance shm_lockL_ok : LensOk shm_lockL.
Proof. split; try intros ?? []; try intros []; try done. by destruct shm as []. Qed.
#[export] Instance sst_cpu_ok : LensOk (cpuL : lens sst cpu).
Proof. apply lens_comp_ok; apply _. Qed.
#[export] Instance sst_lock_cpu : LensApart shm_lockL (cpuL : lens sst cpu).
Proof. by split. Qed.
#[export] Instance sst_page_spec : PageSpec sst := PageSpec_zoom ss_kL.

(** Number of pages, pages and reference count of a segment. *)
Definition npg (s : sst) (k : Z) : Z := refs (shm s) k 1 64.
Definition seg_pages (s : sst) (k : Z) : list Z := map (seg (shm s) k) (seqZ 0 (npg s k)).
Definition count (s : sst) (k : Z) : Z := refs (shm s) k 0 64.
Definition all_segs (s : sst) : list Z := mjoin (map (seg_pages s) (upto numOfSegs)).

(** The pages of the segments, the pages held elsewhere and the free pages
    are different allocatable pages. *)
Record shm_ok (s : sst) (held l : list Z) : Prop := {
  so_free : free_pages s l;
  so_pages : distinct_pages (all_segs s ++ held ++ l);
  so_npg : forall k, 0 <= k < numOfSegs -> 0 <= npg s k <= numOfSegs;
  so_count : forall k, 0 <= k < numOfSegs -> 0 <= count s k
}.

(** The same table, up to the segment [k]. *)
Definition others_same (s s' : sst) (k : Z) : Prop :=
  (forall k' i, k' <> k -> seg (shm s') k' i = seg (shm s) k' i) /\
  (forall k' i j, k' <> k -> refs (shm s') k' i j = refs (shm s) k' i j) /\
  shm_lock (shm s') = shm_lock (shm s) /\ cur s' = cur s.

Lemma env_zoom_shm s s' : env s s' -> shm s' = shm s /\ cur s' = cur s.
Proof. intros [_ ->]. done. Qed.

Lemma inb_true i n : 0 <= i < n -> inb i n = true.
Proof. unfold inb. intros. by rewrite (proj2 (Z.leb_le _ _)), (proj2 (Z.ltb_lt _ _)) by lia. Qed.

Lemma get_seg_eq key i s : 0 <= key < numOfSegs -> 0 <= i < numOfSegs -> get_seg key i s = Ret (seg (shm s) key i, s).
Proof. intros. unfold get_seg. by rewrite !inb_true. Qed.
Lemma set_seg_eq key i v s : 0 <= key < numOfSegs -> 0 <= i < numOfSegs ->
  set_seg key i v s = Ret (tt, put shmL (mkShm (upd2 (seg (shm s)) key i v) (refs (shm s)) (shm_lock (shm s))) s).
Proof. intros. unfold set_seg. by rewrite !inb_true. Qed.
Lemma get_ref_eq key i j s : 0 <= key < numOfSegs -> 0 <= i < 2 -> 0 <= j < 65 ->
  get_ref key i j s = Ret (refs (shm s) key i j, s).
Proof. intros. unfold get_ref. by rewrite !inb_true. Qed.
Lemma set_ref_eq key i j v s : 0 <= key < numOfSegs -> 0 <= i < 2 -> 0 <= j < 65 ->
  set_ref key i j v s = Ret (tt, put shmL (mkShm (seg (shm s)) (upd3 (refs (shm s)) key i j v) (shm_lock (shm s))) s).
Proof. intros. unfold set_ref. by rewrite !inb_true. Qed.

Lemma upd2_same f i j v : upd2 f i j v i j = v.
Proof. unfold upd2. by rewrite !Z.eqb_refl. Qed.
Lemma upd2_ne f i j v i' j' : i' <> i \/ j' <> j -> upd2 f i j v i' j' = f i' j'.
Proof. unfold upd2. intros. destruct (Z.eqb_spec i' i), (Z.eqb_spec j' j); cbn; try done; lia. Qed.
Lemma upd3_same f i j k v : upd3 f i j k v i j k = v.
Proof. unfold upd3. by rewrite !Z.eqb_refl. Qed.
Lemma upd3_ne f i j k v i' j' k' : i' <> i \/ j' <> j \/ k' <> k -> upd3 f i j k v i' j' k' = f i' j' k'.
Proof. unfold upd3. intros. destruct (Z.eqb_spec i' i), (Z.eqb_spec j' j), (Z.eqb_spec k' k); cbn; try done; lia. Qed.

(** The free list does not depend on the table. *)
Lemma free_put_shm x s l : free_pages (put shmL x s) l <-> free_pages s l.
Proof. done. Qed.

(** ** shmget *)

(** Allocating from number [i] on fills the row with the first free pages. *)
Lemma shmget_alloc_spec key n fuel : forall s l i,
  0 <= key < numOfSegs -> free_pages s l -> 0 <= i <= n -> n <= numOfSegs -> n - i <= Z.of_nat fuel ->
  exists s' l' got, shmget_alloc fuel key i n s = Ret (i + Z.of_nat (length got), s') /\
    free_pages s' l' /\ l = got ++ l' /\ Z.of_nat (length got) <= n - i /\
    (Z.of_nat (length got) < n - i -> l' = []) /\
    mem_of s' = mem_of s /\ refs (shm s') = refs (shm s) /\ others_same s s' key /\
    (forall j, 0 <= j < i -> seg (shm s') key j = seg (shm s) key j) /\
    (forall j, got !! j = None \/ got !! j = Some (seg (shm s') key (i + Z.of_nat j))).
Proof.
  induction fuel as [|fuel IH]; intros s l i Hk Hf Hi Hn Hfu; cbn [shmget_alloc].
  { rewrite (proj2 (Z.ltb_ge _ _)) by lia. exists s, l, []. cbn. rewrite Z.add_0_r.
    split_and!; try done; try lia. by left. }
  destruct (Z.ltb_spec i n) as [Hlt|Hge].
  2:{ exists s, l, []. cbn. rewrite Z.add_0_r. split_and!; try done; try lia. by left. }
  destruct (kalloc_spec s l Hf) as (s1 & K & Hf1 & Hm1 & He1). mstep_with K.
  destruct (env_zoom_shm _ _ He1) as [Hs1 Hc1].
  mstep_with (set_seg_eq key i (hd 0 l) s1 Hk ltac:(lia)). set (s2 := put shmL _ s1).
  assert (others_same s s2 key) as Ho2.
  { split_and!; cbn; rewrite ?Hs1; try done. intros k' j Hne. apply upd2_ne. by left. }
  destruct l as [|p l]; cbn [hd tail] in *.
  { cbn [Z.eqb]. exists s2, [], []. cbn [length]. rewrite Z.add_0_r. split_and!; try done; try lia.
    - by cbn; rewrite Hs1.
    - intros j Hj. cbn. rewrite Hs1. apply upd2_ne. lia.
    - by left. }
  assert (page_ok p) as Hp by (pose proof (free_ok _ _ Hf) as Hok; by apply Forall_cons in Hok as [? _]).
  rewrite (proj2 (Z.eqb_neq p 0)) by (pose proof (page_ok_bounds p Hp); lia).
  destruct (IH s2 l (i + 1) Hk Hf1 ltac:(lia) Hn ltac:(lia)) as
    (s' & l' & got & Hr & Hf' & -> & Hlen & Hout & Hm' & Hrf & Ho & Hlow & Hgot).
  exists s', l', (p :: got). cbn [length app]. rewrite Hr. split_and!; try done; try lia.
  - do 2 f_equal. lia.
  - intros. apply Hout. lia.
  - by rewrite Hm'.
  - rewrite Hrf. cbn. by rewrite Hs1.
  - destruct Ho as (Ha & Hb & Hc & Hd), Ho2 as (Ha2 & Hb2 & Hc2 & Hd2). split_and!.
    + intros. by rewrite Ha, Ha2. + intros. by rewrite Hb, Hb2. + congruence. + congruence.
  - intros j Hj. rewrite Hlow by lia. cbn. rewrite Hs1. apply upd2_ne. lia.
  - intros [|j]; cbn [lookup list_lookup].
    + right. rewrite Z.add_0_r, Hlow by lia. cbn. by rewrite upd2_same.
    + destruct (Hgot j) as [Hj|Hj]; [by left|right]. etransitivity; [exact Hj|]. do 2 f_equal. lia.
Qed.

(** Freeing pages [j] to [j + n - 1] of a row. *)
Lemma shmget_undo_spec key n : forall s l j ps,
  0 <= key < numOfSegs -> free_pages s l -> 0 <= j -> j + Z.of_nat n <= numOfSegs ->
  length ps = n -> distinct_pages (ps ++ l) ->
  (forall i, ps !! i = None \/ ps !! i = Some (seg (shm s) key (j + Z.of_nat i))) ->
  exists s' l', shmget_undo n key j s = Ret (tt, s') /\ free_pages s' l' /\ l' ≡ₚ ps ++ l /\ env s s' /\
    agree (fun a => ~ in_pages ps a) (mem_of s) (mem_of s').
Proof.
  induction n as [|n IH]; intros s l j ps Hk Hf Hj Hn Hlen HD Hps; cbn [shmget_undo].
  { destruct ps; [|done]. exists s, l. by split_and!. }
  destruct ps as [|p ps]; [done|]. injection Hlen as Hlen.
  mstep_with (get_seg_eq key j s Hk ltac:(lia)).
  assert (seg (shm s) key j = p) as ->.
  { destruct (Hps 0%nat) as [H|H]; cbn in H; [done|]. rewrite Z.add_0_r in H. congruence. }
  assert (page_ok p /\ p ∉ l) as [Hp Hpl].
  { destruct HD as [Hnd Hok]. cbn in Hok. apply Forall_cons in Hok as [Hok _]. split; [done|].
    cbn in Hnd. apply NoDup_cons in Hnd as [Hnd _]. rewrite elem_of_app in Hnd. tauto. }
  destruct (kfree_spec s l p Hf Hp Hpl) as (s1 & K & Hf1 & Hag1 & He1). mstep_with K.
  destruct (env_zoom_shm _ _ He1) as [Hs1 _].
  destruct (IH s1 (p :: l) (j + 1) ps) as (s' & l' & Hr & Hf' & Hl' & He' & Hag'); try done; try lia.
  { eapply distinct_pages_perm; [|exact HD]. solve_Permutation. }
  { intros i. rewrite Hs1. destruct (Hps (S i)) as [H|H]; cbn in H; [by left|right]. etransitivity; [exact H|]. do 2 f_equal. lia. }
  exists s', l'. split_and!; [done|done|rewrite Hl'; solve_Permutation|by etransitivity|].
  eapply agree_trans; (eapply agree_weaken; [|eassumption]); intros a Ha Hc; apply Ha; apply in_pages_cons; auto.
Qed.

(** The row of one segment among all the pages. *)
Lemma mjoin_row {A : Type} (f : Z -> list A) (l : list Z) k : NoDup l -> k ∈ l ->
  exists rest, mjoin (map f l) ≡ₚ f k ++ rest /\
    forall g, (forall x, x ∈ l -> x <> k -> g x = f x) -> mjoin (map g l) ≡ₚ g k ++ rest.
Proof.
  intros Hnd Hk. apply list_elem_of_split in Hk as (l1 & l2 & ->).
  apply NoDup_app in Hnd as (_ & Hl1 & Hnd). apply NoDup_cons in Hnd as [Hl2 _].
  exists (mjoin (map f l1) ++ mjoin (map f l2)).
  assert (forall g, (forall x, x ∈ l1 ++ k :: l2 -> x <> k -> g x = f x) ->
    mjoin (map g (l1 ++ k :: l2)) ≡ₚ g k ++ mjoin (map f l1) ++ mjoin (map f l2)) as H.
  { intros g Hg. rewrite map_app, join_app. cbn [map mjoin list_join].
    rewrite (map_ext_in g f l1), (map_ext_in g f l2); [solve_Permutation| |].
    - intros x Hx%list_elem_of_In. apply Hg; [|by intros ->]. rewrite elem_of_app, elem_of_cons. auto.
    - intros x Hx%list_elem_of_In. apply Hg; [rewrite elem_of_app; auto|]. intros ->.
      apply (Hl1 k Hx). apply elem_of_cons. by left. }
  split; [by apply H|done].
Qed.

Lemma all_segs_row s key : 0 <= key < numOfSegs ->
  exists rest, all_segs s ≡ₚ seg_pages s key ++ rest /\
    forall s', others_same s s' key -> all_segs s' ≡ₚ seg_pages s' key ++ rest.
Proof.
  intros Hk. destruct (mjoin_row (seg_pages s) (upto numOfSegs) key (upto_nodup _)) as (rest & H1 & H2).
  { by apply upto_in. }
  exists rest. split; [done|]. intros s' (Ha & Hb & _). apply H2. intros x Hx Hne.
  unfold seg_pages, npg. rewrite Hb by done. apply map_ext. intros i. by apply Ha.
Qed.

Lemma row_eq (f : Z -> Z) (got : list Z) :
  (forall j, got !! j = None \/ got !! j = Some (f (Z.of_nat j))) ->
  map f (seqZ 0 (Z.of_nat (length got))) = got.
Proof.
  intros H. apply list_eq. intros j. rewrite list_lookup_fmap.
  destruct (decide (j < length got)%nat) as [Hj|Hj].
  - rewrite lookup_seqZ_lt by lia. cbn. destruct (H j) as [E|E]; [by apply lookup_lt_is_Some in Hj as [? ?]; congruence|].
    by rewrite E, Z.add_0_l.
  - rewrite lookup_seqZ_ge by lia. cbn. symmetry. apply lookup_ge_None. lia.
Qed.

(** Creating a segment of 1 to 100 pages under an unused key. *)
Lemma shmget_create s held l key size :
  shm_ok s held l -> 0 <= key < numOfSegs -> npg s key = 0 -> 0 < size <= numOfSegs * PGSIZE ->
  let n := npages size in
  exists r s' l', shmget key size CREAT s = Ret (r, s') /\ shm_ok s' held l' /\ others_same s s' key /\
    agree (in_pages (all_segs s ++ held)) (mem_of s) (mem_of s') /\
    all_segs s' ++ l' ≡ₚ all_segs s ++ l /\ count s' key = count s key /\
    (n <= Z.of_nat (length l) -> r = s32 (hd 0 l) /\ npg s' key = n /\
       seg_pages s' key = take (Z.to_nat n) l /\ l' = drop (Z.to_nat n) l) /\
    (Z.of_nat (length l) < n -> r = -1 /\ npg s' key = 0 /\ l' ≡ₚ l).
Proof.
  intros [Hf HD Hnp Hct] Hk H0 Hsz n. unfold shmget, numOfSegs in *.
  replace ((key <? 0) || (1023 <? key)) with false
    by (symmetry; apply orb_false_iff; rewrite !Z.ltb_ge; lia).
  rewrite Z.eqb_refl. cbv iota. mstep_with (get_ref_eq key 1 64 s Hk ltac:(lia) ltac:(lia)). fold (npg s key). rewrite H0. cbn [Z.eqb].
  rewrite PGROUNDUP_npages by clia. replace (npages size * 4096 / PGSIZE) with n by (unfold n, PGSIZE; mlia).
  assert (1 <= n <= 100) as Hn by (unfold n, npages, PGSIZE in *; mlia).
  destruct (shmget_alloc_spec key n (Z.to_nat n) s l 0 Hk Hf) as
    (s1 & l1 & got & Hr & Hf1 & -> & Hlen & Hout & Hm & Hrf & Ho & _ & Hgot); try (unfold numOfSegs; lia).
  mstep_with Hr. rewrite Z.add_0_l. destruct (all_segs_row s key Hk) as (rest & Hrest & Hrow).
  assert (seg_pages s key = []) as Hsp by (unfold seg_pages; by rewrite H0).
  rewrite Hsp in Hrest. cbn [app] in Hrest.
  destruct (Z.eqb_spec (Z.of_nat (length got)) n) as [Heq|Hne].
  - mstep_with (get_seg_eq key 0 s1 Hk ltac:(unfold numOfSegs; lia)).
    mstep_with (set_ref_eq key 1 64 n s1 Hk ltac:(lia) ltac:(lia)). set (s2 := put shmL _ s1).
    assert (others_same s s2 key) as Ho2.
    { destruct Ho as (Ha & Hb & Hc & Hd). split_and!; cbn; try done.
      intros k' i j Hne. rewrite upd3_ne by auto. by apply Hb. }
    assert (npg s2 key = n) as Hn2 by (unfold npg; cbn; by rewrite upd3_same).
    assert (seg_pages s2 key = got) as Hg2.
    { unfold seg_pages. rewrite Hn2, <- Heq. apply row_eq. intros j. apply Hgot. }
    pose proof (Hrow s2 Ho2) as Hall. rewrite Hg2 in Hall.
    assert (forall k, 0 <= k < 100 -> k <> key -> npg s2 k = npg s k) as Hnk.
    { intros k Hkr Hne. unfold npg. by apply Ho2. }
    assert (forall k, count s2 k = count s k) as Hck.
    { intros k. unfold count. cbn. rewrite upd3_ne by lia. by rewrite Hrf. }
    exists (s32 (seg (shm s1) key 0)), s2, l1. split_and!; [done| |done| | |by rewrite Hck| |].
    + split; [done| | |].
      * rewrite Hall. rewrite Hrest in HD. eapply distinct_pages_perm; [|exact HD]. solve_Permutation.
      * intros k Hkr. unfold numOfSegs in *. destruct (Z.eq_dec k key) as [->|Hne]; [lia|]. rewrite Hnk by done. auto.
      * intros k Hkr. rewrite Hck. auto.
    + change (mem_of s2) with (mem_of s1). rewrite Hm. apply agree_refl.
    + rewrite Hall, Hrest. solve_Permutation.
    + intros _. split_and!; [|done| |].
      * destruct got as [|p got]; [cbn in Heq; lia|]. destruct (Hgot 0%nat) as [E|E]; [done|].
        cbn [app hd]. injection E as E. by rewrite E.
      * rewrite Hg2, <- Heq, Nat2Z.id. by rewrite take_app_length.
      * rewrite <- Heq, Nat2Z.id. by rewrite drop_app_length.
    + rewrite length_app. lia.
  - rewrite (Hout ltac:(lia)) in *.
    destruct (shmget_undo_spec key (length got) s1 [] 0 got) as (s2 & l2 & Hr2 & Hf2 & Hl2 & He2 & Hag2);
      try done; [unfold numOfSegs; lia| |].
    { rewrite app_nil_r in *. eapply distinct_sub; [|exact HD]. solve_submseteq. }
    rewrite Nat2Z.id. mstep_with Hr2. destruct (env_zoom_shm _ _ He2) as [Hs2 Hc2].
    assert (others_same s s2 key) as Ho2.
    { unfold others_same. rewrite Hs2, Hc2. exact Ho. }
    assert (forall k, npg s2 k = npg s k) as Hnk by (intros k; unfold npg; by rewrite Hs2, Hrf).
    assert (seg_pages s2 key = []) as Hg2 by (unfold seg_pages; by rewrite Hnk, H0).
    pose proof (Hrow s2 Ho2) as Hall. rewrite Hg2 in Hall. cbn [app] in Hall. rewrite !app_nil_r in *.
    assert (forall k, count s2 k = count s k) as Hck by (intros k; unfold count; by rewrite Hs2, Hrf).
    exists (-1), s2, l2. split_and!; [done| |done| | |by rewrite Hck|lia|].
    + split; [done| | |].
      * rewrite Hall, Hl2. by rewrite Hrest in HD.
      * intros k. rewrite Hnk. auto.
      * intros k. rewrite Hck. auto.
    + eapply agree_trans; [rewrite <- Hm; apply agree_refl|]. eapply agree_weaken; [|exact Hag2].
      intros a Ha Hc. apply (distinct_apart (all_segs s ++ held) got a); [|done|done]. by rewrite <- app_assoc.
    + by rewrite Hall, Hl2, Hrest.
    + rewrite Hnk. intros _. by split_and!.
Qed.

(** ** Finding a segment *)

Lemma find_seg_hit {A : Type} (hit : Z -> bool) (body : Z -> M sst A) none s key n : forall k0,
  0 <= k0 <= key -> key < numOfSegs -> k0 + Z.of_nat n = numOfSegs ->
  (forall k, k0 <= k < key -> hit (seg (shm s) k 0) = false) -> hit (seg (shm s) key 0) = true ->
  find_seg n k0 hit body none s = body key s.
Proof.
  induction n as [|n IH]; intros k0 Hk Hkey Hn Hmiss Hhit; [lia|]. cbn [find_seg].
  mstep_with (get_seg_eq k0 0 s ltac:(lia) ltac:(done)).
  destruct (Z.eq_dec k0 key) as [->|Hne]; [by rewrite Hhit|].
  rewrite Hmiss by lia. apply IH; try lia; try done. intros k Hkr. apply Hmiss. lia.
Qed.

Lemma s32_inj a b : 0 <= a < 0x100000000 -> 0 <= b < 0x100000000 -> s32 a = s32 b -> a = b.
Proof.
  intros Ha Hb. unfold s32. rewrite !u32_small by lia.
  destruct (Z.ltb_spec a 0x80000000), (Z.ltb_spec b 0x80000000); lia.
Qed.

(** No earlier row starts with the same page. *)
Definition first_id (s : sst) (key : Z) : Prop :=
  forall k, 0 <= k < key -> s32 (seg (shm s) k 0) <> s32 (seg (shm s) key 0).

Lemma find_id {A : Type} (body : Z -> M sst A) none s key :
  0 <= key < numOfSegs -> first_id s key ->
  find_seg (Z.to_nat numOfSegs) 0 (fun p => s32 (seg (shm s) key 0) =? s32 p) body none s = body key s.
Proof.
  intros Hk Hid. apply find_seg_hit; [lia|lia|done| |apply Z.eqb_refl].
  intros k Hkr. apply Z.eqb_neq. intros E. by apply (Hid k).
Qed.

(** ** shmdel *)

Lemma shmdel_free_spec key n : forall s l i ps,
  0 <= key < numOfSegs -> free_pages s l -> 0 <= i -> i + Z.of_nat n <= numOfSegs ->
  length ps = n -> distinct_pages (ps ++ l) ->
  (forall j, ps !! j = None \/ ps !! j = Some (seg (shm s) key (i + Z.of_nat j))) ->
  exists s' l', shmdel_free n key i s = Ret (tt, s') /\ free_pages s' l' /\ l' = reverse ps ++ l /\
    others_same s s' key /\ seg (shm s') = seg (shm s) /\ (forall j, refs (shm s') key 0 j = refs (shm s) key 0 j) /\
    npg s' key = npg s key - Z.of_nat n /\ agree (fun a => ~ in_pages ps a) (mem_of s) (mem_of s').
Proof.
  induction n as [|n IH]; intros s l i ps Hk Hf Hi Hn Hlen HD Hps; cbn [shmdel_free].
  { destruct ps; [|done]. exists s, l. split_and!; try done. lia. }
  destruct ps as [|p ps]; [done|]. injection Hlen as Hlen.
  mstep_with (get_seg_eq key i s Hk ltac:(lia)).
  assert (seg (shm s) key i = p) as ->.
  { destruct (Hps 0%nat) as [H|H]; cbn in H; [done|]. rewrite Z.add_0_r in H. congruence. }
  assert (page_ok p /\ p ∉ l) as [Hp Hpl].
  { destruct HD as [Hnd Hok]. cbn in Hok. apply Forall_cons in Hok as [Hok _]. split; [done|].
    cbn in Hnd. apply NoDup_cons in Hnd as [Hnd _]. rewrite elem_of_app in Hnd. tauto. }
  destruct (kfree_spec s l p Hf Hp Hpl) as (s1 & K & Hf1 & Hag1 & He1). mstep_with K.
  destruct (env_zoom_shm _ _ He1) as [Hs1 Hc1].
  mstep_with (get_ref_eq key 1 64 s1 Hk ltac:(lia) ltac:(lia)).
  mstep_with (set_ref_eq key 1 64 (refs (shm s1) key 1 64 - 1) s1 Hk ltac:(lia) ltac:(lia)). set (s2 := put shmL _ s1).
  destruct (IH s2 (p :: l) (i + 1) ps) as (s' & l' & Hr & Hf' & Hl' & Ho & Hseg & Hrf & Hnp & Hag'); try done; try lia.
  { eapply distinct_pages_perm; [|exact HD]. solve_Permutation. }
  { intros j. cbn. rewrite Hs1. destruct (Hps (S j)) as [H|H]; cbn in H; [by left|right].
    etransitivity; [exact H|]. do 2 f_equal. lia. }
  exists s', l'. split_and!; [done|done|by rewrite Hl', reverse_cons, <- app_assoc| | | | |].
  - destruct Ho as (Ha & Hb & Hc & Hd). unfold others_same. cbn in *. rewrite <- Hs1, <- Hc1. split_and!; try done.
    intros k' i' j' Hne. rewrite Hb by done. rewrite upd3_ne by auto. done.
  - rewrite Hseg. cbn. by rewrite Hs1.
  - intros j. rewrite Hrf. cbn. rewrite upd3_ne by lia. by rewrite Hs1.
  - rewrite Hnp. unfold npg. cbn. rewrite upd3_same, Hs1. lia.
  - eapply agree_trans; (eapply agree_weaken; [|eassumption]); intros a Ha Hc; apply Ha; apply in_pages_cons; auto.
Qed.

(** The pages of a row by position. *)
Lemma seg_pages_lookup s k : 0 <= npg s k ->
  length (seg_pages s k) = Z.to_nat (npg s k) /\
  forall j, seg_pages s k !! j = None \/ seg_pages s k !! j = Some (seg (shm s) k (0 + Z.of_nat j)).
Proof.
  intros Hn. unfold seg_pages. split; [by rewrite length_map, length_seqZ|].
  intros j. rewrite list_lookup_fmap. destruct (decide (j < Z.to_nat (npg s k))%nat).
  - rewrite lookup_seqZ_lt by lia. cbn. auto.
  - rewrite lookup_seqZ_ge by lia. by left.
Qed.

Lemma shmdel_unused s held l key :
  shm_ok s held l -> 0 <= key < numOfSegs -> count s key = 0 -> first_id s key ->
  exists s' l', shmdel (s32 (seg (shm s) key 0)) s = Ret (npg s key, s') /\ shm_ok s' held l' /\
    others_same s s' key /\ seg (shm s') = seg (shm s) /\ npg s' key = 0 /\ count s' key = 0 /\
    l' = reverse (seg_pages s key) ++ l /\
    agree (in_pages (all_segs s' ++ held)) (mem_of s) (mem_of s').
Proof.
  intros [Hf HD Hnp Hct] Hk Hc0 Hid. unfold shmdel. rewrite find_id by done. unfold shmdel_key.
  mstep_with (get_ref_eq key 0 64 s Hk ltac:(lia) ltac:(lia)). fold (count s key). rewrite Hc0. cbn [Z.ltb Z.compare].
  mstep_with (get_ref_eq key 1 64 s Hk ltac:(lia) ltac:(lia)). fold (npg s key).
  destruct (all_segs_row s key Hk) as (rest & Hrest & Hrow). pose proof (Hnp key Hk) as Hn.
  destruct (seg_pages_lookup s key ltac:(lia)) as [Hlen Hlk].
  assert (distinct_pages (seg_pages s key ++ rest ++ held ++ l)) as HD1.
  { rewrite Hrest in HD. by rewrite <- app_assoc in HD. }
  destruct (shmdel_free_spec key (Z.to_nat (npg s key)) s l 0 (seg_pages s key)) as
    (s' & l' & Hr & Hf' & Hl' & Ho & Hseg & Hrf & Hnp' & Hag); try done; [lia| |].
  { eapply distinct_sub; [|exact HD1]. solve_submseteq. }
  mstep_with Hr. exists s', l'. assert (npg s' key = 0) as Hz by lia.
  assert (forall k, count s' k = count s k) as Hck.
  { intros k. unfold count. destruct (Z.eq_dec k key) as [->|Hne]; [apply Hrf|by apply Ho]. }
  pose proof (Hrow s' Ho) as Hall. unfold seg_pages at 1 in Hall. rewrite Hz in Hall. cbn [map seqZ app] in Hall.
  split_and!; try done; [|by rewrite Hck|].
  - split; [done| | |].
    + rewrite Hall, Hl', reverse_Permutation. eapply distinct_pages_perm; [|exact HD1]. solve_Permutation.
    + intros k Hkr. destruct (Z.eq_dec k key) as [->|Hne]; [unfold numOfSegs; lia|].
      unfold npg. rewrite (proj1 (proj2 Ho)) by done. by apply Hnp.
    + intros k Hkr. rewrite Hck. auto.
  - eapply agree_weaken; [|exact Hag]. intros a Ha Hc.
    apply (distinct_apart (seg_pages s key) (rest ++ held) a); [|done|].
    + eapply distinct_sub; [|exact HD1]. solve_submseteq.
    + rewrite in_pages_app in *. destruct Ha as [Ha|Ha]; [left; by eapply in_pages_perm|by right].
Qed.

(** ** The lock of the table *)

(** Two states that differ in the CPU's bookkeeping and in the lock only. *)
Record upto_lock (s s' : sst) : Prop := {
  ul_cur : cur s' = cur s;
  ul_seg : seg (shm s') = seg (shm s);
  ul_refs : refs (shm s') = refs (shm s);
  ul_mem : ks_mem (ss_k s') = ks_mem (ss_k s);
  ul_kmem : kmem (ss_k s') = kmem (ss_k s)
}.

#[global] Instance upto_lock_equiv : Equivalence upto_lock.
Proof.
  split.
  - by intros s.
  - by intros s s' [].
  - intros s s' s'' [] []. split; congruence.
Qed.

Definition shm_cpu (s : sst) : cpu := ks_cpu (ss_k s).

Lemma upto_lock_free s s' l : upto_lock s s' -> cpu_ok (shm_cpu s') -> free_pages s l -> free_pages s' l.
Proof. intros [_ _ _ Hm Hk] Hc [_ H2 H3 H4 H5]. split; cbn; rewrite ?Hm, ?Hk; done. Qed.

Lemma upto_lock_tables s s' pd held l :
  upto_lock s s' -> cpu_ok (shm_cpu s') -> tables s pd held l -> tables s' pd held l.
Proof.
  intros Hu Hc [Hf HD]. split; [by eapply upto_lock_free|]. unfold mem_of. cbn. by rewrite (ul_mem _ _ Hu).
Qed.

Lemma same_cpu_popped c c' : same_cpu c c' -> 0 < ncli c -> same_cpu (popped c) (popped c').
Proof.
  intros [Hp Hn Hi Hs] Hpos. unfold popped. split; cbn; try congruence.
  - rewrite Hn, Hs by lia. done.
  - intros. rewrite Hs; [done|lia].
Qed.

(** Code that runs under the lock: the state it starts from and how the
    bracket ends. *)
Lemma under_shm_lock s :
  locked (shm_lock (shm s)) = 0 -> cpu_ok (shm_cpu s) ->
  exists s1, acquire shm_lockL s = Ret (tt, s1) /\ upto_lock s s1 /\ cpu_ok (shm_cpu s1) /\
    locked (shm_lock (shm s1)) = 1 /\ lk_cpu (shm_lock (shm s1)) = cpu_ptr (shm_cpu s) /\
    forall s2, shm_lock (shm s2) = shm_lock (shm s1) -> same_cpu (shm_cpu s1) (shm_cpu s2) ->
    exists s3, release shm_lockL s2 = Ret (tt, s3) /\ upto_lock s2 s3 /\
      locked (shm_lock (shm s3)) = 0 /\ same_cpu (shm_cpu s) (shm_cpu s3).
Proof.
  intros Hl Hc. eexists. split; [exact (acquire_free shm_lockL s Hl)|]. split_and!; try done.
  { by apply pushed_ok. }
  intros s2 Hlk Hcpu. destruct Hc as [Hn Hi Hp] eqn:Ec. clear Ec. cbn in Hlk, Hcpu.
  pose proof Hcpu as [Hcp Hcn Hci Hcs]. unfold shm_cpu in *. cbn in Hcp, Hcn, Hci, Hn.
  eexists. split.
  - apply (release_held shm_lockL); cbn.
    + by rewrite Hlk. + rewrite Hlk. cbn. congruence. + done. + lia.
  - split_and!; try done. cbn. etransitivity; [apply popped_pushed; by split|].
    apply same_cpu_popped; [exact Hcpu|]. cbn. lia.
Qed.

(** ** shmat *)

(** One page mapped while pages are left. *)
Lemma map_one (s : sst) pd held l n pa perm :
  tables s pd held l -> 0 <= n < NVPN -> present (pte_of (mem_of s) pd n) = false ->
  0 <= pa < 0x100000000 -> l <> [] ->
  exists s' l', mappages pd (n * 4096) PGSIZE pa perm s = Ret (0, s') /\ mapped s s' pd held l l' /\
    (length l <= S (length l'))%nat /\
    (forall k, 0 <= k < NVPN -> pte_of (mem_of s') pd k =
       if k =? n then u32 (Z.lor (Z.lor pa perm) PTE_P) else pte_of (mem_of s) pd k).
Proof.
  intros HT Hn Hf Hpa Hl. unfold NVPN, PGSIZE in *.
  assert (Hn1 : n * 4096 / 4096 = n) by mlia. assert (Hn2 : (n * 4096 + 4096 - 1) / 4096 = n) by mlia.
  destruct (mappages_spec s pd held l (n * 4096) 4096 pa perm HT) as
    (r & s' & l' & d & Hr & Hmp & _ & Hpte & Hd & Hlen & Hres); [lia..| |].
  { rewrite Hn1, Hn2. intros k Hk. by replace k with n by lia. }
  rewrite Hn1, Hn2 in *. destruct Hres as [[-> ->]|(_ & Hlt & ->)].
  2:{ destruct l; [done|]. cbn in Hlen. lia. }
  exists s', l'. split_and!; [done|done|lia|]. intros k Hk. rewrite Hpte by done.
  replace (n - n + 1) with (0 + 1) by lia. by rewrite update_range_cons, update_range_0, map_entry_0 by lia.
Qed.

(** The permissions of the two flags. *)
Definition shm_perm (flg : Z) : option Z :=
  if flg =? SHM_RDONLY then Some PTE_U
  else if flg =? SHM_RDWR then Some (Z.lor PTE_W PTE_U) else None.

Lemma mapped_shm (s s' : sst) pd held l l' : mapped s s' pd held l l' ->
  shm s' = shm s /\ cur s' = cur s /\ same_cpu (shm_cpu s) (shm_cpu s').
Proof. intros H. destruct (mp_env _ _ _ _ _ _ H) as [[He _ _] ->]. done. Qed.

(** The entry of page [i] of segment [key] of the table [t]. *)
Definition seg_entry (t : shm_t) (key perm i : Z) : Z := u32 (Z.lor (Z.lor (v2p (seg t key i)) perm) PTE_P).

Lemma shmat_map_spec pd held key flg perm n0 np fuel : forall s l i f,
  tables s pd held l -> p_pgdir (cur s) = pd -> shm_perm flg = Some perm ->
  0 <= key < numOfSegs -> npg s key = np -> np <= numOfSegs -> 0 <= i <= np -> np - i <= Z.of_nat fuel ->
  0 <= n0 -> n0 + np <= NUVPN -> np - i <= Z.of_nat (length l) ->
  (forall k, n0 + i <= k < n0 + np -> present (pte_of (mem_of s) pd k) = false) ->
  exists s' l', shmat_map fuel key i ((n0 + i) * 4096) flg f s =
      Ret ((if i <? np then 1 else f, (n0 + np) * 4096), s') /\
    mapped s s' pd held l l' /\
    (forall k, 0 <= k < NVPN -> pte_of (mem_of s') pd k =
       if (n0 + i <=? k) && (k <? n0 + np) then seg_entry (shm s) key perm (k - n0)
       else pte_of (mem_of s) pd k) /\ Z.of_nat (length l) <= Z.of_nat (length l') + (np - i).
Proof.
  induction fuel as [|fuel IH]; intros s l i f HT Hpd Hperm Hk Hnp Hn100 Hi Hfu Hn0 Htop Hlen Hfree.
  all: cbn [shmat_map]; mstep_with (get_ref_eq key 1 64 s Hk ltac:(lia) ltac:(lia)); fold (npg s key); rewrite Hnp.
  all: destruct (Z.ltb_spec i np) as [Hlt|Hge]; try lia; cbn [andb].
  1,3: assert (i = np) as -> by lia; exists s, l; split_and!; [done|by apply mapped_refl| |lia];
    intros k Hkr; destruct (Z.leb_spec (n0 + np) k), (Z.ltb_spec k (n0 + np)); cbn [andb]; done || lia.
  rewrite (proj2 (Z.ltb_lt _ _)) by (unfold NUVPN, KERNBASE in *; lia).
  mstep_with (get_seg_eq key i s Hk ltac:(lia)). mstep. rewrite Hpd.
  assert (0 <= n0 + i < NVPN) as Hnv by (unfold NUVPN, NVPN in *; lia).
  destruct (map_one s pd held l (n0 + i) (v2p (seg (shm s) key i)) perm HT Hnv) as (s1 & l1 & Hr & Hmp & Hl1 & Hpte);
    [apply Hfree; lia|apply u32_range|by destruct l; cbn in Hlen; lia || done|].
  destruct (mapped_shm _ _ _ _ _ _ Hmp) as (Hs1 & Hc1 & _).
  assert ((if flg =? SHM_RDONLY then let* _ := mappages pd ((n0 + i) * 4096) PGSIZE (v2p (seg (shm s) key i)) PTE_U in ret 1
    else if flg =? SHM_RDWR then let* _ := mappages pd ((n0 + i) * 4096) PGSIZE (v2p (seg (shm s) key i)) (Z.lor PTE_W PTE_U) in ret 1
    else ret 0) s = Ret (1, s1)) as Hstep.
  { revert Hperm. unfold shm_perm. destruct (flg =? SHM_RDONLY); [|destruct (flg =? SHM_RDWR)];
      intros [= Hp]; rewrite Hp; by mstep_with Hr. }
  mstep_with Hstep. replace (u32 ((n0 + i) * 4096 + PGSIZE)) with ((n0 + (i + 1)) * 4096)
    by (unfold u32, PGSIZE, NUVPN in *; mlia).
  destruct (IH s1 l1 (i + 1) 1) as (s' & l' & Hr' & Hmp' & Hpte' & Hln'); try done; try lia.
  { apply Hmp. } { by rewrite Hc1. } { unfold npg. by rewrite Hs1. }
  { intros k Hkr. rewrite Hpte by (unfold NUVPN, NVPN in *; lia). rewrite (proj2 (Z.eqb_neq _ _)) by lia. apply Hfree. lia. }
  exists s', l'. split_and!; [by rewrite Hr'; destruct (i + 1 <? np)|by eapply mapped_trans| |lia].
  intros k Hkr. rewrite Hpte', Hpte, Hs1 by done.
  destruct (Z.leb_spec (n0 + (i + 1)) k), (Z.ltb_spec k (n0 + np)), (Z.leb_spec (n0 + i) k), (Z.eqb_spec k (n0 + i));
    cbn [andb]; try lia; try done.
  unfold seg_entry. do 4 f_equal. subst k. f_equal. lia.
Qed.

(** The fields of the current process after an attach. *)
Definition attached (p : shm_proc) (n : Z) : shm_proc :=
  mkShmProc (p_pgdir p) ((npages (p_sz p) + n) * 4096) (p_pid p) (s32 (p_has_shm p + 1)).

(** What a process needs to attach a segment of [np] pages at page [n0]. *)
Record can_attach (s : sst) (held l : list Z) (key n0 np : Z) : Prop := {
  ca_tables : tables s (p_pgdir (cur s)) held l;
  ca_key : 0 <= key < numOfSegs;
  ca_pages : 0 < np <= numOfSegs;
  ca_pid : 0 <= p_pid (cur s) < 65;
  ca_sz : 0 <= p_sz (cur s) <= KERNBASE;
  ca_at : n0 = npages (p_sz (cur s));
  ca_top : n0 + np < NUVPN;
  ca_mem : np <= Z.of_nat (length l);
  ca_room : forall k, n0 <= k < n0 + np -> present (pte_of (mem_of s) (p_pgdir (cur s)) k) = false
}.

Lemma shmat_key_spec s held l key flg perm :
  let n0 := npages (p_sz (cur s)) in
  let pd := p_pgdir (cur s) in
  can_attach s held l key n0 (npg s key) -> shm_perm flg = Some perm ->
  exists s' l', shmat_key key flg s = Ret (n0 * 4096, s') /\
    tables s' pd held l' /\ seg (shm s') = seg (shm s) /\ shm_lock (shm s') = shm_lock (shm s) /\
    same_cpu (shm_cpu s) (shm_cpu s') /\
    refs (shm s') = upd3 (upd3 (refs (shm s)) key 0 64 (count s key + 1)) key 0 (p_pid (cur s)) 1 /\
    cur s' = attached (cur s) (npg s key) /\
    agree (in_pages held) (mem_of s) (mem_of s') /\
    (forall k, 0 <= k < NVPN -> pte_of (mem_of s') pd k =
       if (n0 <=? k) && (k <? n0 + npg s key) then seg_entry (shm s) key perm (k - n0)
       else pte_of (mem_of s) pd k) /\ Z.of_nat (length l) <= Z.of_nat (length l') + npg s key.
Proof.
  intros n0 pd [HT Hk Hnp Hpid Hsz _ Htop Hlen Hfree] Hperm. fold pd in HT, Hfree.
  pose proof (npages_bounds (p_sz (cur s)) Hsz) as [Hn0 _]. fold n0 in Hn0. unfold shmat_key.
  mstep_with (get_ref_eq key 1 64 s Hk ltac:(lia) ltac:(lia)). fold (npg s key).
  rewrite (proj2 (Z.ltb_lt 0 (npg s key))) by lia. mstep.
  rewrite PGROUNDUP_npages by done. fold n0.
  rewrite (proj2 (Z.leb_gt KERNBASE _)) by (unfold u32, PGSIZE, KERNBASE, NUVPN in *; mlia).
  mstep_with (get_ref_eq key 0 64 s Hk ltac:(lia) ltac:(lia)). fold (count s key).
  mstep_with (set_ref_eq key 0 64 (count s key + 1) s Hk ltac:(lia) ltac:(lia)). mstep. cbn [put shmL cur].
  mstep_with (set_ref_eq key 0 (p_pid (cur s)) 1 (put shmL (mkShm (seg (shm s)) (upd3 (refs (shm s)) key 0 64 (count s key + 1))
    (shm_lock (shm s))) s) Hk ltac:(lia) ltac:(lia)). mstep. cbn [put shmL curL cur shm ss_k seg refs shm_lock].
  set (s1 := mkSst _ _ _).
  assert (npg s1 key = npg s key) as Hnp1 by (unfold npg; cbn; by rewrite !upd3_ne by lia).
  destruct (shmat_map_spec pd held key flg perm n0 (npg s key) (Z.to_nat (npg s key)) s1 l 0 0) as (s2 & l2 & Hr & Hmp & Hpte & Hln);
    try done; try lia; [by rewrite Z.add_0_r|].
  rewrite Z.add_0_r in Hr, Hpte. mstep_with Hr. rewrite (proj2 (Z.ltb_lt 0 (npg s key))) by lia. cbn [Z.eqb negb].
  destruct (mapped_shm _ _ _ _ _ _ Hmp) as (Hs2 & Hc2 & Hcpu2). mstep. unfold ret.
  rewrite s32_small by (unfold NUVPN in *; lia). rewrite Hc2.
  eexists _, l2. split; [done|]. cbn [put curL cur shm ss_k]. rewrite Hs2. split_and!; try done.
  - apply (mp_tables _ _ _ _ _ _ Hmp).
  - intros a Ha. exact (mapped_held s1 s2 pd held l l2 a HT Hmp Ha).
  - lia.
Qed.

(** Attaching the segment [key]. *)
Lemma shmat_attach s held l key flg perm :
  let n0 := npages (p_sz (cur s)) in
  let pd := p_pgdir (cur s) in
  can_attach s held l key n0 (npg s key) -> shm_perm flg = Some perm -> first_id s key ->
  locked (shm_lock (shm s)) = 0 -> cpu_ok (shm_cpu s) ->
  exists s' l', shmat (s32 (seg (shm s) key 0)) flg s = Ret (n0 * 4096, s') /\
    tables s' pd held l' /\ seg (shm s') = seg (shm s) /\ locked (shm_lock (shm s')) = 0 /\
    same_cpu (shm_cpu s) (shm_cpu s') /\
    refs (shm s') = upd3 (upd3 (refs (shm s)) key 0 64 (count s key + 1)) key 0 (p_pid (cur s)) 1 /\
    cur s' = attached (cur s) (npg s key) /\
    agree (in_pages held) (mem_of s) (mem_of s') /\
    (forall k, 0 <= k < NVPN -> pte_of (mem_of s') pd k =
       if (n0 <=? k) && (k <? n0 + npg s key) then seg_entry (shm s) key perm (k - n0)
       else pte_of (mem_of s) pd k) /\ Z.of_nat (length l) <= Z.of_nat (length l') + npg s key.
Proof.
  intros n0 pd Hca Hperm Hid Hl Hc. pose proof (ca_key _ _ _ _ _ _ Hca) as Hk.
  destruct (under_shm_lock s Hl Hc) as (s1 & Ha & Hu & Hc1 & Hl1 & _ & Hrel).
  destruct (Hu) as [U1 U2 U3 U4 U5]. unfold shmat. mstep_with Ha.
  assert (npg s1 key = npg s key) as Hnp by (unfold npg; by rewrite U3).
  assert (mem_of s1 = mem_of s) as Hm1 by exact U4.
  destruct (shmat_key_spec s1 held l key flg perm) as (s2 & l2 & Hr & HT2 & Hseg & Hlk & Hcpu & Hrf & Hcur & Hag & Hpte & Hln).
  { rewrite U1, Hnp. destruct Hca as [HT]. split; rewrite ?U1, ?Hm1; try done. by eapply upto_lock_tables. }
  { done. }
  rewrite Hnp, U1, Hm1 in *. fold n0 pd in Hr, HT2, Hpte.
  assert (first_id s1 key) as Hid1 by (unfold first_id; rewrite U2; exact Hid).
  pose proof (find_id (fun key => shmat_key key flg) (-1) s1 key Hk Hid1) as Hfind. rewrite U2 in Hfind.
  erewrite bind_ret_eq; [|rewrite Hfind; exact Hr].
  destruct (Hrel s2 Hlk Hcpu) as (s3 & Hr3 & Hu3 & Hl3 & Hcpu3). mstep_with Hr3.
  assert (cpu_ok (shm_cpu s3)) as Hc3 by (by rewrite <- Hcpu3).
  pose proof (upto_lock_tables _ _ _ _ _ Hu3 Hc3 HT2) as HT3. destruct Hu3 as [V1 V2 V3 V4 V5].
  assert (mem_of s3 = mem_of s2) as Hm3 by exact V4.
  exists s3, l2. rewrite Hm3, V1, V2, V3. unfold count in *. rewrite U3 in *. split_and!; try done.
  - congruence.
  - intros k Hkr. rewrite Hpte by done. unfold seg_entry. by rewrite U2.
Qed.

(** ** shmdt *)

Lemma clear_ptes_spec pd held l e fuel : forall s n,
  tables s pd held l -> p_pgdir (cur s) = pd -> 0 <= n -> e <= NUVPN -> e - n <= Z.of_nat fuel ->
  (forall k, n <= k < e -> tab_of (mem_of s) pd (k / 1024) <> None) ->
  exists s', clear_ptes fuel (n * 4096) (e * 4096) s = Ret (tt, s') /\ mapped s s' pd held l l /\
    (forall i, 0 <= i < 1024 -> tab_of (mem_of s') pd i = tab_of (mem_of s) pd i) /\
    (forall k, 0 <= k < NVPN -> pte_of (mem_of s') pd k =
       if (n <=? k) && (k <? e) then 0 else pte_of (mem_of s) pd k).
Proof.
  induction fuel as [|fuel IH]; intros s n HT Hpd Hn He Hfu Htab; cbn [clear_ptes];
    destruct (Z.ltb_spec (n * 4096) (e * 4096)) as [Hlt|Hge]; try lia.
  1,3: exists s; split_and!; [done|by apply mapped_refl|done|]; intros k Hk;
    destruct (Z.leb_spec n k), (Z.ltb_spec k e); cbn [andb]; done || lia.
  assert (0 <= n < NVPN) as Hnv by (unfold NUVPN, NVPN in *; lia). destruct (vpn_range n Hnv) as [Hi Hj].
  mstep. rewrite Hpd. pose proof (walk_eq s pd n 0 Hnv) as Hw. pose proof (Htab n ltac:(lia)) as Hn0.
  destruct (tab_of (mem_of s) pd (n / 1024)) as [t|] eqn:Et; [|done]. mstep_with Hw.
  rewrite (proj2 (Z.eqb_neq _ 0) (tab_nonzero _ _ _ _ _ _ (n mod 1024) HT Hi Et ltac:(lia))). mstep.
  destruct (set_pte_mapped s pd held l n t 0 HT Hnv Et) as (Hmp & Htab1 & Hpte1). set (s1 := put memL _ s) in *.
  replace (u32 (n * 4096 + PGSIZE)) with ((n + 1) * 4096) by (unfold u32, PGSIZE, NUVPN in *; mlia).
  destruct (IH s1 (n + 1)) as (s' & Hr & Hmp' & Htab' & Hpte'); try done; try lia; [apply Hmp| |].
  { intros k Hk. rewrite Htab1 by (unfold NUVPN in *; mlia). apply Htab. lia. }
  exists s'. split_and!; [done|by eapply mapped_trans|intros i Hir; by rewrite Htab', Htab1|].
  intros k Hk. rewrite Hpte', Hpte1 by done.
  destruct (Z.leb_spec (n + 1) k), (Z.ltb_spec k e), (Z.leb_spec n k), (Z.eqb_spec k n); cbn [andb]; try lia; done.
Qed.

(** The segment of the page mapped at [shmaddr]. *)
Lemma shmdt_lookup s pd held l n p :
  tables s pd held l -> 0 <= n < NUVPN -> target (pte_of (mem_of s) pd n) = Some p ->
  exists t, walkpgdir pd (n * 4096) 0 s = Ret (t, s) /\ t <> 0 /\ p2v (PTE_ADDR (ld32 (mem_of s) t)) = p.
Proof.
  intros HT Hn Hp. assert (0 <= n < NVPN) as Hnv by (unfold NUVPN, NVPN in *; lia).
  destruct (vpn_range n Hnv) as [Hi Hj]. pose proof (walk_eq s pd n 0 Hnv) as Hw.
  apply target_present in Hp as [Hpr ->]. unfold pte_of in *.
  destruct (tab_of (mem_of s) pd (n / 1024)) as [t|] eqn:Et; [|by rewrite present_0 in Hpr].
  exists (t + 4 * (n mod 1024)). split_and!; [done| |done].
  apply (tab_nonzero _ _ _ _ _ _ _ HT Hi Et). lia.
Qed.

Definition detached (p : shm_proc) : shm_proc :=
  mkShmProc (p_pgdir p) (p_sz p) (p_pid p) (s32 (p_has_shm p + -1)).

Lemma find_page {A : Type} (body : Z -> M sst A) none s key p :
  0 <= key < numOfSegs -> seg (shm s) key 0 = p ->
  (forall k, 0 <= k < key -> seg (shm s) k 0 <> p) ->
  find_seg (Z.to_nat numOfSegs) 0 (fun q => q =? p) body none s = body key s.
Proof.
  intros Hk <- Hid. apply find_seg_hit; [lia|lia|done| |apply Z.eqb_refl].
  intros k Hkr. by apply Z.eqb_neq, Hid.
Qed.

Lemma shmdt_key_spec s key :
  0 <= key < numOfSegs -> 0 < npg s key -> 0 < count s key -> 0 <= p_pid (cur s) < 65 ->
  exists s', shmdt_key key s = Ret (DtFound (npg s key), s') /\ ss_k s' = ss_k s /\
    seg (shm s') = seg (shm s) /\ shm_lock (shm s') = shm_lock (shm s) /\ cur s' = detached (cur s) /\
    refs (shm s') = upd3 (upd3 (refs (shm s)) key 0 64 (count s key - 1)) key 0 (p_pid (cur s)) 0.
Proof.
  intros Hk Hnp Hct Hpid. unfold shmdt_key.
  mstep_with (get_ref_eq key 1 64 s Hk ltac:(lia) ltac:(lia)). fold (npg s key).
  rewrite (proj2 (Z.ltb_lt 0 (npg s key))) by lia.
  mstep_with (get_ref_eq key 0 64 s Hk ltac:(lia) ltac:(lia)). fold (count s key).
  rewrite (proj2 (Z.leb_gt (count s key) 0)) by lia.
  mstep_with (set_ref_eq key 0 64 (count s key - 1) s Hk ltac:(lia) ltac:(lia)). mstep. cbn [put shmL cur].
  mstep_with (set_ref_eq key 0 (p_pid (cur s)) 0 (put shmL (mkShm (seg (shm s)) (upd3 (refs (shm s)) key 0 64 (count s key - 1))
    (shm_lock (shm s))) s) Hk ltac:(lia) ltac:(lia)). mstep. cbn [put shmL curL cur shm ss_k seg refs shm_lock].
  set (s1 := mkSst _ _ _). mstep_with (get_ref_eq key 1 64 s1 Hk ltac:(lia) ltac:(lia)).
  exists s1. split_and!; try done. unfold ret, npg. cbn. by rewrite !upd3_ne by lia.
Qed.

Lemma shmdt_detach s held l key n0 :
  let pd := p_pgdir (cur s) in
  tables s pd held l -> 0 <= key < numOfSegs -> 0 < npg s key -> 0 < count s key ->
  0 <= p_pid (cur s) < 65 -> 0 <= n0 -> n0 + npg s key < NUVPN ->
  (forall k, 0 <= k < key -> seg (shm s) k 0 <> seg (shm s) key 0) ->
  target (pte_of (mem_of s) pd n0) = Some (seg (shm s) key 0) ->
  (forall k, n0 <= k < n0 + npg s key -> present (pte_of (mem_of s) pd k) = true) ->
  locked (shm_lock (shm s)) = 0 -> cpu_ok (shm_cpu s) ->
  exists s', shmdt (n0 * 4096) s = Ret (0, s') /\
    tables s' pd held l /\ seg (shm s') = seg (shm s) /\ locked (shm_lock (shm s')) = 0 /\
    same_cpu (shm_cpu s) (shm_cpu s') /\
    refs (shm s') = upd3 (upd3 (refs (shm s)) key 0 64 (count s key - 1)) key 0 (p_pid (cur s)) 0 /\
    cur s' = detached (cur s) /\ agree (in_pages held) (mem_of s) (mem_of s') /\
    (forall i, 0 <= i < 1024 -> tab_of (mem_of s') pd i = tab_of (mem_of s) pd i) /\
    (forall k, 0 <= k < NVPN -> pte_of (mem_of s') pd k =
       if (n0 <=? k) && (k <? n0 + npg s key) then 0 else pte_of (mem_of s) pd k).
Proof.
  intros pd HT Hk Hnp Hct Hpid Hn0 Htop Hid Htg Hpres Hl Hc.
  destruct (shmdt_lookup s pd held l n0 _ HT ltac:(lia) Htg) as (t & Hw & Ht & Hr0).
  unfold shmdt. mstep. fold pd. mstep_with Hw. rewrite (proj2 (Z.eqb_neq t 0) Ht). mstep. rewrite Hr0.
  destruct (under_shm_lock s Hl Hc) as (s1 & Ha & Hu & Hc1 & Hl1 & _ & Hrel). destruct (Hu) as [U1 U2 U3 U4 U5].
  mstep_with Ha. unfold npg, count in *. rewrite <- U3, <- U2, <- U1 in *.
  destruct (shmdt_key_spec s1 key Hk Hnp Hct Hpid) as (s2 & Hr2 & Hk2 & Hsg2 & Hlk2 & Hcur2 & Hrf2).
  erewrite bind_ret_eq; [|rewrite (find_page _ _ s1 key (seg (shm s1) key 0)); [exact Hr2|done|done|exact Hid]].
  destruct (Hrel s2 Hlk2) as (s3 & Hr3 & Hu3 & Hl3 & Hcpu3).
  { unfold shm_cpu. by rewrite Hk2. }
  mstep_with Hr3. assert (cpu_ok (shm_cpu s3)) as Hc3 by (by rewrite <- Hcpu3).
  destruct (Hu3) as [V1 V2 V3 V4 V5].
  assert (mem_of s3 = mem_of s) as Hm3 by (unfold mem_of; cbn; rewrite V4, Hk2; exact U4).
  assert (tables s3 pd held l) as HT3.
  { eapply upto_lock_tables; [exact Hu3|done|]. destruct HT as [[F1 F2 F3 F4 F5] HD]. split.
    - split; cbn; rewrite ?Hk2, ?U4, ?U5; try done.
    - unfold mem_of. cbn. rewrite Hk2, U4. exact HD. }
  unfold PGSIZE, NUVPN, npg in *. replace (u32 (n0 * 4096 + u32 (refs (shm s1) key 1 64 * 4096))) with ((n0 + refs (shm s1) key 1 64) * 4096)
    by (unfold u32; mlia).
  destruct (clear_ptes_spec pd held l (n0 + refs (shm s1) key 1 64) (Z.to_nat (refs (shm s1) key 1 64)) s3 n0 HT3)
    as (s4 & Hr4 & Hmp & Htab4 & Hpte); [rewrite V1, Hcur2; cbn; unfold pd; by rewrite ?U1|lia|unfold NUVPN; lia|lia| |].
  { intros k Hkr Hnone. rewrite Hm3 in Hnone. specialize (Hpres k Hkr). unfold pte_of in Hpres.
    by rewrite Hnone, present_0 in Hpres. }
  mstep_with Hr4. destruct (mapped_shm _ _ _ _ _ _ Hmp) as (Hs4 & Hc4 & Hcpu4).
  exists s4. rewrite Hs4, Hc4, V1, V2, V3, Hm3 in *. split_and!; try done; try congruence.
  - apply Hmp.
  - by etransitivity.
  - intros a Hin. rewrite (mapped_held _ _ _ _ _ _ a HT3 Hmp Hin). by rewrite Hm3.
Qed.

End segments.
