(* ===== verification/SharedMem.v ===== *)
(** * Shared memory: the promises and where they fail

    Properties of shmget, shmdel, shmat and shmdt (kalloc.c), among them the
    situations in which the code does not do what it is meant to. *)

From Stdlib Require Import ZArith Lia String Bool.
From stdpp Require Import base numbers list.
From S2P Require Import Prelude Params Mem Spinlock Pages Kalloc Vm PageTable AddrSpace CopyVm Shm Segments.

Section properties.
Context {Lay : Layout}.

(** C32 shmget with CREAT under an unused key: with enough free pages it
    returns the id of a segment made of the first free pages, which a later
    shmget with GET returns again; otherwise it returns -1 and gives back the
    pages it had taken.  In both cases every page is accounted for, the other
    segments are untouched, and no byte of a segment changes. *)
Theorem shmget_creates_segment (s : sst) (held l : list Z) (key size size' : Z) :
  shm_ok s held l -> 0 <= key < numOfSegs -> npg s key = 0 -> 0 < size <= numOfSegs * PGSIZE ->
  let n := npages size in
  exists r s' l', shmget key size CREAT s = Ret (r, s') /\ shm_ok s' held l' /\ others_same s s' key /\
    all_segs s' ++ l' ≡ₚ all_segs s ++ l /\
    agree (in_pages (all_segs s ++ held)) (mem_of s) (mem_of s') /\
    (n <= Z.of_nat (length l) -> r = s32 (hd 0 l) /\ npg s' key = n /\
       seg_pages s' key = take (Z.to_nat n) l /\ shmget key size' GET s' = Ret (r, s')) /\
    (Z.of_nat (length l) < n -> r = -1 /\ npg s' key = 0 /\ l' ≡ₚ l).
Proof.
  intros Hok Hk H0 Hsz n.
  destruct (shmget_create s held l key size Hok Hk H0 Hsz) as (r & s' & l' & Hr & Hok' & Ho & Hag & Hpg & _ & Hyes & Hno).
  exists r, s', l'. split_and!; try done. intros Hn. destruct (Hyes Hn) as (Hid & Hnp & Hsp & _). split_and!; try done.
  assert (0 < n) as Hpos by (unfold n, npages in *; mlia). fold n in Hnp, Hsp.
  unfold shmget. replace ((key <? 0) || (1023 <? key)) with false
    by (symmetry; apply orb_false_iff; rewrite !Z.ltb_ge; unfold numOfSegs in *; lia).
  change (GET =? CREAT) with false. change (GET =? GET) with true. cbv iota.
  mstep_with (get_ref_eq key 1 64 s' Hk ltac:(lia) ltac:(lia)). fold (npg s' key). rewrite Hnp.
  rewrite (proj2 (Z.eqb_neq n 0)) by lia.
  mstep_with (get_seg_eq key 0 s' Hk ltac:(by unfold numOfSegs)). unfold ret. rewrite Hid. do 3 f_equal.
  destruct (seg_pages_lookup s' key ltac:(lia)) as [Hlen Hlk].
  destruct (Hlk 0%nat) as [E|E].
  - apply lookup_ge_None in E. rewrite Hlen, Hnp in E. lia.
  - rewrite Hsp in E. rewrite lookup_take_lt in E by lia. destruct l; [done|]. cbn in E. by injection E as ->.
Qed.

(** C33 shmdel of a segment nobody is attached to, whose id no earlier key
    still carries: it frees exactly the pages of the segment and returns their
    number, the other segments and all bytes still in use are untouched. *)
Theorem shmdel_frees_segment (s : sst) (held l : list Z) (key : Z) :
  shm_ok s held l -> 0 <= key < numOfSegs -> count s key = 0 -> first_id s key ->
  exists s' l', shmdel (s32 (seg (shm s) key 0)) s = Ret (npg s key, s') /\ shm_ok s' held l' /\
    others_same s s' key /\ npg s' key = 0 /\ l' ≡ₚ seg_pages s key ++ l /\
    agree (in_pages (all_segs s' ++ held)) (mem_of s) (mem_of s').
Proof.
  intros Hok Hk Hc Hid.
  destruct (shmdel_unused s held l key Hok Hk Hc Hid) as (s' & l' & ? & ? & ? & _ & ? & _ & -> & ?).
  exists s', (reverse (seg_pages s key) ++ l). split_and!; try done. by rewrite reverse_Permutation.
Qed.

(** The pages of a segment as page-table entries. *)
Lemma seg_entry_target t key perm i :
  page_ok (seg t key i) -> 0 <= perm < 4096 -> target (seg_entry t key perm i) = Some (seg t key i).
Proof.
  intros Hp Hperm. destruct (page_phys _ Hp) as (_ & Hal & Hr & Hv). unfold PHYSTOP in *. unfold seg_entry.
  rewrite u32_small; [rewrite target_entry by lia; by rewrite Hv|].
  destruct (entry_add _ perm Hal Hperm) as [-> ?]. lia.
Qed.

Lemma shm_perm_range flg perm : shm_perm flg = Some perm -> 0 <= perm < 4096.
Proof.
  unfold shm_perm. destruct (flg =? SHM_RDONLY); [|destruct (flg =? SHM_RDWR)]; intros [= <-]; by vm_compute.
Qed.

(** The state of an attached segment, seen from the page table. *)
Definition attached_at (m : mem) (t : shm_t) (pd key n np : Z) : Prop :=
  forall i, 0 <= i < np -> target (pte_of m pd (n + i)) = Some (seg t key i).

(** Attaching and detaching again. *)
Lemma attach_detach s held l key flg perm :
  let n0 := npages (p_sz (cur s)) in
  let pd := p_pgdir (cur s) in
  can_attach s held l key n0 (npg s key) -> shm_perm flg = Some perm -> first_id s key ->
  (forall i, 0 <= i < npg s key -> page_ok (seg (shm s) key i)) ->
  0 <= count s key -> p_pid (cur s) <> 64 ->
  locked (shm_lock (shm s)) = 0 -> cpu_ok (shm_cpu s) ->
  exists s1 s2 l', shmat (s32 (seg (shm s) key 0)) flg s = Ret (n0 * 4096, s1) /\
    attached_at (mem_of s1) (shm s) pd key n0 (npg s key) /\
    count s1 key = count s key + 1 /\ locked (shm_lock (shm s1)) = 0 /\
    shmdt (n0 * 4096) s1 = Ret (0, s2) /\ tables s2 pd held l' /\
    count s2 key = count s key /\ locked (shm_lock (shm s2)) = 0 /\
    (forall k, 0 <= k < NVPN -> target (pte_of (mem_of s2) pd k) = target (pte_of (mem_of s) pd k)) /\
    p_sz (cur s2) = (n0 + npg s key) * 4096 /\ tab_of (mem_of s2) pd (n0 / 1024) <> None /\
    Z.of_nat (length l) <= Z.of_nat (length l') + npg s key.
Proof.
  intros n0 pd Hca Hperm Hid Hpg Hct Hpid Hl Hc. pose proof Hca as [HT Hk Hnp Hp65 Hsz _ Htop _ Hroom].
  destruct (npages_bounds (p_sz (cur s)) Hsz) as [Hn0 _]. fold n0 in Hn0. fold pd in HT, Hroom.
  destruct (shmat_attach s held l key flg perm Hca Hperm Hid Hl Hc) as
    (s1 & l' & Hr1 & HT1 & Hsg1 & Hl1 & Hcpu1 & Hrf1 & Hcur1 & Hag1 & Hpte1 & Hln). fold n0 pd in Hr1, HT1, Hpte1.
  pose proof (shm_perm_range _ _ Hperm) as Hpr.
  assert (count s1 key = count s key + 1) as Hct1.
  { unfold count at 1. rewrite Hrf1. rewrite upd3_ne by lia. apply upd3_same. }
  assert (npg s1 key = npg s key) as Hnp1 by (unfold npg; rewrite Hrf1; by rewrite !upd3_ne by lia).
  assert (attached_at (mem_of s1) (shm s) pd key n0 (npg s key)) as Hat.
  { intros i Hi. rewrite Hpte1 by (unfold NUVPN, NVPN in *; lia). decide_bounds.
    replace (n0 + i - n0) with i by lia. apply seg_entry_target; auto. }
  pose proof (Hat 0 ltac:(lia)) as Hat0. rewrite Z.add_0_r in Hat0.
  destruct (shmdt_detach s1 held l' key n0) as (s2 & Hr2 & HT2 & Hsg2 & Hl2 & Hcpu2 & Hrf2 & Hcur2 & Hag2 & Htab2 & Hpte2);
    rewrite ?Hcur1, ?Hnp1, ?Hct1, ?Hsg1; try done; try lia; fold pd.
  { intros k Hkr E. by apply (Hid k Hkr); rewrite E. }
  { intros k Hkr. replace k with (n0 + (k - n0)) by lia. pose proof (Hat (k - n0) ltac:(lia)) as H.
    by apply target_present in H as [? _]. }
  { by rewrite <- Hcpu1. }
  rewrite Hcur1 in HT2, Hpte2, Hcur2, Htab2. cbn [p_pgdir attached] in HT2, Hpte2, Htab2. fold pd in HT2, Hpte2, Htab2.
  exists s1, s2, l'. split_and!; try done.
  - unfold count at 1. rewrite Hrf2, Hcur1, Hct1. cbn [p_pid attached]. rewrite upd3_ne by lia. rewrite upd3_same. lia.
  - intros k Hkr. rewrite Hpte2, Hpte1, Hnp1 by done.
    destruct (Z.leb_spec n0 k), (Z.ltb_spec k (n0 + npg s key)); cbn [andb]; try done.
    symmetry. apply target_absent, Hroom. lia.
  - by rewrite Hcur2.
  - rewrite Htab2 by (unfold NUVPN in *; mlia). intros Hnone. unfold pte_of in Hat0. by rewrite Hnone in Hat0.
Qed.

(** C23 shmat followed by shmdt of the address it returned: attached, the
    segment's pages are mapped in order from the first page above the process
    and the reference count is one higher; detached, the mappings and the
    count are as before; the lock is free in between and after. *)
Theorem shmat_shmdt_roundtrip (s : sst) (held l : list Z) (key flg perm : Z) :
  let n0 := npages (p_sz (cur s)) in
  let pd := p_pgdir (cur s) in
  can_attach s held l key n0 (npg s key) -> shm_perm flg = Some perm -> first_id s key ->
  (forall i, 0 <= i < npg s key -> page_ok (seg (shm s) key i)) ->
  0 <= count s key -> p_pid (cur s) <> 64 ->
  locked (shm_lock (shm s)) = 0 -> cpu_ok (shm_cpu s) ->
  exists s1 s2 l', shmat (s32 (seg (shm s) key 0)) flg s = Ret (n0 * 4096, s1) /\
    attached_at (mem_of s1) (shm s) pd key n0 (npg s key) /\
    count s1 key = count s key + 1 /\ locked (shm_lock (shm s1)) = 0 /\
    shmdt (n0 * 4096) s1 = Ret (0, s2) /\ tables s2 pd held l' /\
    count s2 key = count s key /\ locked (shm_lock (shm s2)) = 0 /\
    (forall k, 0 <= k < NVPN -> target (pte_of (mem_of s2) pd k) = target (pte_of (mem_of s) pd k)).
Proof.
  intros n0 pd H1 H2 H3 H4 H5 H6 H7 H8.
  destruct (attach_detach s held l key flg perm H1 H2 H3 H4 H5 H6 H7 H8) as (s1 & s2 & l' & H).
  exists s1, s2, l'. tauto.
Qed.

(** C39 shmdt does not give back the size shmat added.  After the two calls the process
    has a hole below its size, and copyuvm, which a later fork of it calls, stops the
    kernel with a panic; the free pages are enough for copyuvm to come to the hole, one
    page and one page table for each page below it besides the kernel's tables. *)
Theorem fork_after_shmdt_panics (s : sst) (held l : list Z) (key flg perm : Z) :
  let n0 := npages (p_sz (cur s)) in
  let pd := p_pgdir (cur s) in
  can_attach s (upages (mem_of s) pd ++ held) l key n0 (npg s key) -> shm_perm flg = Some perm -> first_id s key ->
  (forall i, 0 <= i < npg s key -> page_ok (seg (shm s) key i)) ->
  0 <= count s key -> p_pid (cur s) <> 64 ->
  locked (shm_lock (shm s)) = 0 -> cpu_ok (shm_cpu s) ->
  (forall k, 0 <= k < n0 -> present (pte_of (mem_of s) pd k) = true) ->
  1025 + 2 * n0 + npg s key < Z.of_nat (length l) ->
  exists s1 s2, shmat (s32 (seg (shm s) key 0)) flg s = Ret (n0 * 4096, s1) /\
    shmdt (n0 * 4096) s1 = Ret (0, s2) /\ p_sz (cur s2) = (n0 + npg s key) * 4096 /\
    present (pte_of (mem_of s2) pd n0) = false /\
    copyuvm pd (p_sz (cur s2)) s2 = Panic "copyuvm: page not present".
Proof.
  intros n0 pd H1 H2 H3 H4 H5 H6 H7 H8 Hall Hlen. pose proof H1 as [_ _ Hnp _ Hsz _ Htop _ Hroom].
  destruct (npages_bounds (p_sz (cur s)) Hsz) as [Hn0 _]. fold n0 in Hn0. fold pd in Hroom.
  destruct (attach_detach s _ l key flg perm H1 H2 H3 H4 H5 H6 H7 H8) as
    (s1 & s2 & l' & Hr1 & _ & _ & _ & Hr2 & HT2 & _ & _ & Htg & Hsz2 & Htab & Hln). fold n0 pd in Hr1, Hr2, HT2, Htg, Hsz2, Htab.
  assert (forall k, 0 <= k < NVPN -> present (pte_of (mem_of s2) pd k) = present (pte_of (mem_of s) pd k)) as Hpr.
  { intros k Hk. specialize (Htg k Hk). unfold target in Htg.
    destruct (present (pte_of (mem_of s2) pd k)), (present (pte_of (mem_of s) pd k)); done. }
  assert (present (pte_of (mem_of s2) pd n0) = false) as Hhole by (rewrite Hpr by (unfold NUVPN, NVPN in *; lia); apply Hroom; lia).
  exists s1, s2. split_and!; [done..|]. rewrite Hsz2. apply (copyuvm_hole s2 pd held l' _ n0); try done.
  - unfold owns. replace (upages (mem_of s2) pd) with (upages (mem_of s) pd); [done|].
    apply omap_ext_in. intros k Hk. apply upto_in in Hk. symmetry. apply Htg. unfold NUVPN, NVPN in *. lia.
  - unfold KERNBASE, NUVPN in *. lia.
  - unfold npages. mlia.
  - intros k Hk. rewrite Hpr by (unfold NUVPN, NVPN in *; lia). by apply Hall.
  - lia.
Qed.

(** The kernel address behind a user address. *)
Definition uaddr (m : mem) (pd va : Z) : option Z :=
  match target (pte_of m pd (va / 4096)) with Some p => Some (p + va mod 4096) | None => None end.

(** C26 Sharing: when one process has a segment attached and another attaches
    it, every address of the segment in the one and the corresponding address
    in the other are the same byte of memory. *)
Theorem shmat_shares (s : sst) (held l : list Z) (key flg perm pdA nA : Z) :
  let n0 := npages (p_sz (cur s)) in
  let pd := p_pgdir (cur s) in
  can_attach s held l key n0 (npg s key) -> shm_perm flg = Some perm -> first_id s key ->
  (forall i, 0 <= i < npg s key -> page_ok (seg (shm s) key i)) ->
  locked (shm_lock (shm s)) = 0 -> cpu_ok (shm_cpu s) ->
  (forall p, p ∈ pdA :: tabs (mem_of s) pdA -> p ∈ held) ->
  0 <= nA -> nA + npg s key <= NUVPN -> attached_at (mem_of s) (shm s) pdA key nA (npg s key) ->
  exists s', shmat (s32 (seg (shm s) key 0)) flg s = Ret (n0 * 4096, s') /\
    forall x, 0 <= x < npg s key * 4096 ->
      uaddr (mem_of s') pdA (nA * 4096 + x) = Some (seg (shm s) key (x / 4096) + x mod 4096) /\
      uaddr (mem_of s') pd (n0 * 4096 + x) = Some (seg (shm s) key (x / 4096) + x mod 4096).
Proof.
  intros n0 pd Hca Hperm Hid Hpg Hl Hc HA HnA HtopA Hat. pose proof Hca as [HT Hk Hnp Hp65 Hsz _ Htop _ Hroom].
  destruct (npages_bounds (p_sz (cur s)) Hsz) as [Hn0 _]. fold n0 in Hn0.
  destruct (shmat_attach s held l key flg perm Hca Hperm Hid Hl Hc) as
    (s1 & l' & Hr1 & HT1 & Hsg1 & Hl1 & Hcpu1 & Hrf1 & Hcur1 & Hag1 & Hpte1 & _). fold n0 pd in Hr1, HT1, Hpte1.
  exists s1. split; [done|]. intros x Hx.
  assert (forall n, (n * 4096 + x) / 4096 = n + x / 4096 /\ (n * 4096 + x) mod 4096 = x mod 4096) as Hdm by (intros; mlia).
  unfold uaddr. rewrite !(proj1 (Hdm _)), !(proj2 (Hdm _)). split.
  - destruct (tables_frame (mem_of s) (mem_of s1) pdA) as [_ Hp].
    { eapply agree_weaken; [|exact Hag1]. intros a (p & Hp & Ha). exists p. auto. }
    rewrite Hp by (unfold NUVPN, NVPN in *; mlia). by rewrite (Hat (x / 4096)) by mlia.
  - rewrite Hpte1 by (unfold NUVPN, NVPN in *; mlia). rewrite (proj2 (Z.leb_le _ _)), (proj2 (Z.ltb_lt _ _)) by mlia.
    cbn [andb]. replace (n0 + x / 4096 - n0) with (x / 4096) by lia.
    rewrite seg_entry_target; [done|apply Hpg; mlia|by eapply shm_perm_range].
Qed.

(** ** Where the code fails *)

(** shmget accepts keys up to 1023, but the table has 100 rows: from key
    100 on it indexes past the array. *)
Theorem shmget_key_overrun (s : sst) (key size flg : Z) :
  numOfSegs <= key <= 1023 -> flg = CREAT \/ flg = GET ->
  shmget key size flg s = Fault "shm.refs: index out of range".
Proof.
  intros Hk Hf. unfold numOfSegs in Hk. unfold shmget.
  replace ((key <? 0) || (1023 <? key)) with false by (symmetry; apply orb_false_iff; rewrite !Z.ltb_ge; lia).
  assert (get_ref key 1 64 s = Fault "shm.refs: index out of range") as Hg.
  { unfold get_ref. replace (inb key numOfSegs) with false; [done|]. symmetry. apply andb_false_iff. right.
    apply Z.ltb_ge. unfold numOfSegs. lia. }
  destruct Hf as [-> | ->]; [change (CREAT =? CREAT) with true|change (GET =? CREAT) with false; change (GET =? GET) with true];
    cbv iota; unfold bind at 1; by rewrite Hg.
Qed.

(** The flag of process 64 and the reference count are the same cell: when
    that process attaches, the count becomes 1 whatever it was. *)
Theorem shmat_pid64_resets_count (s : sst) (held l : list Z) (key flg perm : Z) :
  can_attach s held l key (npages (p_sz (cur s))) (npg s key) -> shm_perm flg = Some perm -> first_id s key ->
  locked (shm_lock (shm s)) = 0 -> cpu_ok (shm_cpu s) -> p_pid (cur s) = 64 ->
  exists s', shmat (s32 (seg (shm s) key 0)) flg s = Ret (npages (p_sz (cur s)) * 4096, s') /\ count s' key = 1.
Proof.
  intros Hca Hperm Hid Hl Hc Hpid.
  destruct (shmat_attach s held l key flg perm Hca Hperm Hid Hl Hc) as
    (s1 & l' & Hr1 & _ & _ & _ & _ & Hrf1 & _ & _ & _).
  exists s1. split; [done|]. unfold count. rewrite Hrf1, Hpid. apply upd3_same.
Qed.

(** shmdt of an address whose page is the first page of a row with no pages
    (a deleted segment's id stays in the table) returns -1 with the lock still
    held, and the next shmat on that CPU panics. *)
Theorem shmdt_error_keeps_lock (s : sst) (held l : list Z) (n key p : Z) :
  let pd := p_pgdir (cur s) in
  tables s pd held l -> 0 <= n < NUVPN -> target (pte_of (mem_of s) pd n) = Some p ->
  0 <= key < numOfSegs -> seg (shm s) key 0 = p -> (forall k, 0 <= k < key -> seg (shm s) k 0 <> p) ->
  npg s key <= 0 -> locked (shm_lock (shm s)) = 0 -> cpu_ok (shm_cpu s) ->
  exists s', shmdt (n * 4096) s = Ret (-1, s') /\ locked (shm_lock (shm s')) = 1 /\
    forall id flg, shmat id flg s' = Panic "acquire".
Proof.
  intros pd HT Hn Htg Hk Hseg Hid Hnp Hl Hc.
  destruct (shmdt_lookup s pd held l n p HT Hn Htg) as (t & Hw & Ht & Hr0).
  unfold shmdt. mstep. fold pd. mstep_with Hw. rewrite (proj2 (Z.eqb_neq t 0) Ht). mstep. rewrite Hr0.
  pose proof (acquire_free shm_lockL s Hl) as Ha. mstep_with Ha. set (s1 := put shm_lockL _ _).
  assert (shmdt_key key s1 = Ret (DtError, s1)) as Hr.
  { unfold shmdt_key. mstep_with (get_ref_eq key 1 64 s1 Hk ltac:(lia) ltac:(lia)).
    change (refs (shm s1) key 1 64) with (npg s key). by rewrite (proj2 (Z.ltb_ge _ _)) by lia. }
  erewrite bind_ret_eq; [|rewrite (find_page _ _ s1 key p); [exact Hr|done|exact Hseg|exact Hid]].
  exists s1. split_and!; [done|done|]. intros id flg. unfold shmat.
  assert (acquire shm_lockL s1 = Panic "acquire") as Hp by exact (acquire_held_panics shm_lockL s1 (fun E => Z.neq_succ_diag_l 0 E) eq_refl).
  unfold bind at 1. by rewrite Hp.
Qed.

(** Attaching a row that has no pages. *)
Lemma shmat_dead s key flg :
  0 <= key < numOfSegs -> first_id s key -> npg s key = 0 -> locked (shm_lock (shm s)) = 0 -> cpu_ok (shm_cpu s) ->
  exists s', shmat (s32 (seg (shm s) key 0)) flg s = Ret (-1, s') /\ upto_lock s s'.
Proof.
  intros Hk Hid Hnp Hl Hc. destruct (under_shm_lock s Hl Hc) as (s1 & Ha & Hu & Hc1 & Hl1 & _ & Hrel).
  unfold shmat. mstep_with Ha. destruct (Hu) as [U1 U2 U3 U4 U5].
  assert (shmat_key key flg s1 = Ret (-1, s1)) as Hr.
  { unfold shmat_key. mstep_with (get_ref_eq key 1 64 s1 Hk ltac:(lia) ltac:(lia)).
    rewrite U3. fold (npg s key). by rewrite Hnp. }
  assert (first_id s1 key) as Hid1 by (unfold first_id; rewrite U2; exact Hid).
  pose proof (find_id (fun key => shmat_key key flg) (-1) s1 key Hk Hid1) as Hfind. rewrite U2 in Hfind.
  erewrite bind_ret_eq; [|rewrite Hfind; exact Hr].
  destruct (Hrel s1 eq_refl ltac:(reflexivity)) as (s3 & Hr3 & Hu3 & _). mstep_with Hr3.
  exists s3. split; [done|]. by etransitivity.
Qed.

(** A deleted segment's id stays in its row, and the allocator hands the
    page out again: create under key [k1], delete, create under [k2 > k1].
    Both creations return the same id, and attaching it fails, because the
    search stops at the dead row. *)
Theorem shm_stale_id (s : sst) (held l : list Z) (p k1 k2 flg : Z) :
  shm_ok s held (p :: l) -> 0 <= k1 < k2 -> k2 < numOfSegs ->
  npg s k1 = 0 -> count s k1 = 0 -> npg s k2 = 0 ->
  (forall k, 0 <= k < k1 -> s32 (seg (shm s) k 0) <> s32 p) -> locked (shm_lock (shm s)) = 0 ->
  exists s', (let* id1 := shmget k1 1 CREAT in
              let* n := shmdel id1 in
              let* id2 := shmget k2 1 CREAT in
              let* va := shmat id2 flg in
              ret [id1; n; id2; va]) s = Ret ([s32 p; 1; s32 p; -1], s') /\ npg s' k2 = 1.
Proof.
  intros Hok Hk1 Hk2 Hn1 Hc1 Hn2 Hid Hl. assert (0 <= k1 < numOfSegs) as Hk1r by lia.
  assert (0 <= k2 < numOfSegs) as Hk2r by lia.
  assert (Hone : npages 1 = 1) by done.
  destruct (shmget_create s held (p :: l) k1 1 Hok Hk1r Hn1) as (r & s1 & l1 & Hr & Hok1 & Ho1 & _ & _ & Hct1 & Hyes & _); [done|].
  rewrite Hone in Hyes. destruct Hyes as (-> & Hnp1 & Hsp1 & ->); [cbn; lia|]. cbn [hd] in Hr.
  change (Z.to_nat 1) with 1%nat in *. cbn [take drop] in Hsp1, Hok1. mstep_with Hr.
  assert (seg (shm s1) k1 0 = p) as Hseg1.
  { unfold seg_pages in Hsp1. rewrite Hnp1 in Hsp1. cbn in Hsp1. by injection Hsp1. }
  destruct (shmdel_unused s1 held l k1 Hok1 Hk1r) as (s2 & l2 & Hr2 & Hok2 & Ho2 & Hsg2 & Hnp2 & Hct2 & Hl2 & _).
  { congruence. }
  { intros k Hk. rewrite Hseg1, (proj1 Ho1) by lia. by apply Hid. }
  rewrite Hseg1, Hnp1 in Hr2. mstep_with Hr2. rewrite Hsp1 in Hl2. cbn in Hl2. rewrite Hl2 in Hok2.
  assert (npg s2 k2 = 0) as Hn22.
  { unfold npg. rewrite (proj1 (proj2 Ho2)), (proj1 (proj2 Ho1)) by lia. done. }
  destruct (shmget_create s2 held (p :: l) k2 1 Hok2 Hk2r Hn22) as (r & s3 & l3 & Hr3 & Hok3 & Ho3 & _ & _ & _ & Hyes3 & _); [done|].
  rewrite Hone in Hyes3. destruct Hyes3 as (-> & Hnp3 & Hsp3 & ->); [cbn; lia|]. cbn [hd] in Hr3. mstep_with Hr3.
  assert (seg (shm s3) k1 0 = p) as Hseg3 by (rewrite (proj1 Ho3), Hsg2 by lia; done).
  assert (npg s3 k1 = 0) as Hn31 by (unfold npg; rewrite (proj1 (proj2 Ho3)) by lia; exact Hnp2).
  assert (first_id s3 k1) as Hid3.
  { intros k Hk. rewrite Hseg3, (proj1 Ho3), Hsg2, (proj1 Ho1) by lia. by apply Hid. }
  assert (locked (shm_lock (shm s3)) = 0) as Hl3.
  { destruct Ho1 as (_ & _ & E1 & _), Ho2 as (_ & _ & E2 & _), Ho3 as (_ & _ & E3 & _). congruence. }
  destruct (shmat_dead s3 k1 flg Hk1r Hid3 Hn31 Hl3) as (s4 & Hr4 & Hu4).
  { apply Hok3. }
  rewrite Hseg3 in Hr4. mstep_with Hr4. exists s4. split; [done|]. unfold npg. by rewrite (ul_refs _ _ Hu4).
Qed.

End properties.

(** ** A concrete machine with a segment

    The machine of CopyVm with a segment of two pages under key 3 and a second
    address space, at 0x80320000, that has it attached from page 1 on. *)

#[local] Existing Instance kernel_sym.

Definition other_dir : Z := 0x80320000.
Definition smem : mem :=
  st32 (st32 (st32 demo_mem other_dir 0x321007) 0x80321004 0x310007) 0x80321008 0x311007.
Definition stable : shm_t := mkShm
  (fun k i => if (k =? 3) && (0 <=? i) && (i <? 2) then 0x80310000 + i * 4096 else 0)
  (fun k i j => if (k =? 3) && (i =? 1) && (j =? 64) then 2 else 0) (initlock "shm").
Definition sdemo : sst := mkSst
  (mkKst (mkCpu 1 0 false true) smem (mkKmem (initlock "kmem") 1 0x80400000)) stable
  (mkShmProc demo_dir 4096 5 0).

Lemma smem_low : agree (fun a => ~ (0x80320000 <= a < 0x80322000)) demo_mem smem.
Proof.
  unfold smem, other_dir. intros a Ha. cbv beta in Ha. rewrite !st32_agree by (cbv beta; lia). done.
Qed.

Lemma smem_maps :
  (forall i, 0 <= i < 1024 -> tab_of smem demo_dir i = tab_of demo_mem demo_dir i) /\
  (forall n, 0 <= n < NVPN -> pte_of smem demo_dir n = pte_of demo_mem demo_dir n).
Proof.
  apply tables_frame. destruct demo_pages as [-> _]. eapply agree_weaken; [|exact smem_low].
  intros a (p & Hp & Ha). rewrite !elem_of_cons in Hp. unfold in_page, PGSIZE, demo_dir in *.
  destruct Hp as [->|[->|Hp]]; [lia|lia|]. by apply elem_of_nil in Hp.
Qed.

Lemma smem_pages : tabs smem demo_dir = [0x80301000] /\ upages smem demo_dir = [0x80302000].
Proof.
  destruct smem_maps as [Ht Hp]. destruct demo_pages as [<- <-]. split; [by apply tabs_ext|].
  apply upages_ext. intros n Hn. apply Hp. unfold NUVPN, NVPN in *. lia.
Qed.

Lemma sdemo_tables ps : NoDup (demo_dir :: 0x80301000 :: ps) -> Forall page_ok ps -> Forall (fun p => p < 0x80400000) ps ->
  tables sdemo demo_dir ps demo_free.
Proof.
  intros H1 H2 H3. split; [apply demo_alloc; eapply agree_weaken; [|exact smem_low]; cbn; lia|].
  change (mem_of sdemo) with smem. destruct smem_pages as [-> _].
  change (distinct_pages ((demo_dir :: 0x80301000 :: ps) ++ demo_free)). apply demo_distinct; [done| |].
  - do 2 (constructor; [unfold demo_dir; page_ok_tac|]). done.
  - do 2 (constructor; [done|]). done.
Qed.

Lemma sdemo_free : free_pages sdemo demo_free.
Proof. apply (sdemo_tables []); try constructor; by apply (bool_decide_unpack _). Qed.

Lemma sdemo_segs : all_segs sdemo ≡ₚ [0x80310000; 0x80311000].
Proof.
  destruct (mjoin_row (fun _ => @nil Z) (upto numOfSegs) 3 (upto_nodup _)) as (rest & H1 & H2).
  { by apply upto_in. }
  assert (rest = []) as ->.
  { assert (forall l, mjoin (map (fun _ : Z => @nil Z) l) = []) as E by (intros l; by induction l).
    rewrite E in H1. by apply Permutation_nil in H1. }
  unfold all_segs. rewrite (H2 (seg_pages sdemo)); [done|]. intros x Hx Hne. unfold seg_pages, npg. cbn.
  by rewrite (proj2 (Z.eqb_neq x 3)).
Qed.

Lemma sdemo_ok : shm_ok sdemo [] demo_free.
Proof.
  split; [apply sdemo_free| | |].
  - rewrite sdemo_segs. cbn [app]. change (distinct_pages ([0x80310000; 0x80311000] ++ demo_free)). demo_distinct_tac.
  - intros k Hk. unfold npg. cbn. unfold numOfSegs. destruct (k =? 3); cbn; lia.
  - intros k Hk. unfold count. cbn. destruct (k =? 3); cbn; lia.
Qed.

Lemma sdemo_first : first_id sdemo 3.
Proof. intros k Hk. cbn. rewrite (proj2 (Z.eqb_neq k 3)) by lia. by vm_compute. Qed.

Lemma sdemo_can held : tables sdemo demo_dir held demo_free -> can_attach sdemo held demo_free 3 1 2.
Proof.
  intros HT. split; try done; try (unfold numOfSegs, KERNBASE; cbn; lia).
  - pose proof demo_free_length. lia.
  - intros k Hk. change (mem_of sdemo) with smem. cbn [cur sdemo p_pgdir].
    rewrite (proj2 smem_maps) by (unfold NVPN; lia). apply (demo_unmapped 1 3); [lia|done|lia].
Qed.

Lemma sdemo_page_ok i : 0 <= i < 2 -> page_ok (seg (shm sdemo) 3 i).
Proof. intros Hi. assert (i = 0 \/ i = 1) as [-> | ->] by lia; page_ok_tac. Qed.

Lemma sdemo_cpu : cpu_ok (shm_cpu sdemo).
Proof. split; cbn; done || lia. Qed.

Lemma sdemo_held : tables sdemo demo_dir (upages (mem_of sdemo) demo_dir ++ [0x80310000; 0x80311000; 0x80320000; 0x80321000]) demo_free.
Proof.
  change (mem_of sdemo) with smem. destruct smem_pages as [_ ->].
  apply sdemo_tables; [by apply (bool_decide_unpack _)|repeat constructor; page_ok_tac|repeat constructor].
Qed.

Lemma shmget_creates_segment_witness :
  exists r s', shmget 7 5000 CREAT sdemo = Ret (r, s') /\ npg s' 7 = 2 /\ shmget 7 1 GET s' = Ret (r, s').
Proof.
  destruct (shmget_creates_segment sdemo [] demo_free 7 5000 1 sdemo_ok) as (r & s' & l' & Hr & _ & _ & _ & _ & Hyes & _);
    [unfold numOfSegs; lia|reflexivity|unfold numOfSegs, PGSIZE; lia|].
  change (npages 5000) with 2 in Hyes. destruct Hyes as (_ & Hn & _ & Hg); [pose proof demo_free_length; lia|].
  exists r, s'. split; [exact Hr|]. split; [exact Hn|exact Hg].
Defined.

Lemma shmdel_frees_segment_witness :
  exists s' l', shmdel (s32 0x80310000) sdemo = Ret (2, s') /\ shm_ok s' [] l' /\ 0x80311000 ∈ l'.
Proof.
  destruct (shmdel_frees_segment sdemo [] demo_free 3 sdemo_ok) as (s' & l' & Hr & Hok & _ & _ & Hl & _);
    [unfold numOfSegs; lia|reflexivity|exact sdemo_first|].
  exists s', l'. split; [exact Hr|]. split; [exact Hok|]. rewrite Hl. apply elem_of_app. left.
  apply elem_of_cons. right. apply elem_of_cons. left. reflexivity.
Defined.

Lemma shmat_shmdt_roundtrip_witness :
  exists s1 s2, shmat (s32 0x80310000) SHM_RDWR sdemo = Ret (4096, s1) /\ count s1 3 = 1 /\
    shmdt 4096 s1 = Ret (0, s2) /\ count s2 3 = 0.
Proof.
  destruct (shmat_shmdt_roundtrip sdemo _ demo_free 3 SHM_RDWR (Z.lor PTE_W PTE_U) (sdemo_can _ sdemo_held))
    as (s1 & s2 & l' & Hr1 & _ & Hc1 & _ & Hr2 & _ & Hc2 & _).
  - reflexivity.
  - exact sdemo_first.
  - exact sdemo_page_ok.
  - discriminate.
  - discriminate.
  - reflexivity.
  - exact sdemo_cpu.
  - exists s1, s2. split; [exact Hr1|]. split; [exact Hc1|]. split; [exact Hr2|exact Hc2].
Defined.

Lemma fork_after_shmdt_panics_witness :
  exists s1 s2, shmat (s32 0x80310000) SHM_RDWR sdemo = Ret (4096, s1) /\ shmdt 4096 s1 = Ret (0, s2) /\
    copyuvm demo_dir (p_sz (cur s2)) s2 = Panic "copyuvm: page not present".
Proof.
  destruct (fork_after_shmdt_panics sdemo _ demo_free 3 SHM_RDWR (Z.lor PTE_W PTE_U) (sdemo_can _ sdemo_held))
    as (s1 & s2 & Hr1 & Hr2 & _ & _ & Hp).
  - reflexivity.
  - exact sdemo_first.
  - exact sdemo_page_ok.
  - discriminate.
  - discriminate.
  - reflexivity.
  - exact sdemo_cpu.
  - intros k Hk. change (npages (p_sz (cur sdemo))) with 1 in Hk. assert (k = 0) as -> by lia.
    change (mem_of sdemo) with smem. cbn [cur sdemo p_pgdir]. rewrite (proj2 smem_maps), demo_pte by done. reflexivity.
  - rewrite demo_free_length. reflexivity.
  - exists s1, s2. split; [exact Hr1|]. split; [exact Hr2|exact Hp].
Defined.

Lemma other_tabs : tabs smem other_dir = [0x80321000].
Proof.
  assert (forall i, 0 <= i < 1024 -> tab_of smem other_dir i = if i =? 0 then Some 0x80321000 else None) as Ht.
  { intros i Hi. unfold tab_of, pde_of, smem, other_dir. rewrite !ld32_st32_ne by lia.
    destruct (Z.eqb_spec i 0) as [->|Hne]; [by rewrite ld32_st32_same|].
    rewrite ld32_st32_ne, demo_ld32 by lia. unfold demo_dir.
    rewrite (proj2 (Z.eqb_neq _ 0x80300000)), (proj2 (Z.eqb_neq _ 0x80301000)), (proj2 (Z.eqb_eq _ 0)) by mlia. done. }
  apply (omap_single _ _ 0); [apply upto_nodup|by apply upto_in|by rewrite Ht|].
  intros i Hi Hne. apply upto_in in Hi. rewrite Ht by done. by apply Z.eqb_neq in Hne as ->.
Qed.

Lemma shmat_shares_witness :
  exists s', shmat (s32 0x80310000) SHM_RDONLY sdemo = Ret (4096, s') /\
    uaddr (mem_of s') other_dir 8200 = Some 0x80311008 /\ uaddr (mem_of s') demo_dir 8200 = Some 0x80311008.
Proof.
  destruct (shmat_shares sdemo _ demo_free 3 SHM_RDONLY PTE_U other_dir 1 (sdemo_can _ sdemo_held)) as (s' & Hr & Hx).
  - reflexivity.
  - exact sdemo_first.
  - exact sdemo_page_ok.
  - reflexivity.
  - exact sdemo_cpu.
  - change (mem_of sdemo) with smem. rewrite other_tabs. intros p Hp. unfold other_dir in Hp.
    rewrite !elem_of_cons, elem_of_nil in Hp. rewrite elem_of_app, !elem_of_cons. destruct Hp as [->|[->|[]]]; auto 10.
  - lia.
  - vm_compute. discriminate.
  - intros i Hi. change (npg sdemo 3) with 2 in Hi. assert (i = 0 \/ i = 1) as [-> | ->] by lia; reflexivity.
  - exists s'. split; [exact Hr|]. apply (Hx 4104). vm_compute. split; [discriminate|reflexivity].
Defined.

Lemma shmget_key_overrun_witness : shmget 500 4096 CREAT sdemo = Fault "shm.refs: index out of range".
Proof. apply shmget_key_overrun; [unfold numOfSegs; lia|left; reflexivity]. Defined.

(** The same machine with three references to the segment and process 64
    running. *)
Definition sdemo64 : sst := mkSst (ss_k sdemo)
  (mkShm (seg stable) (upd3 (refs stable) 3 0 64 3) (shm_lock stable)) (mkShmProc demo_dir 4096 64 0).

Lemma shmat_pid64_resets_count_witness :
  count sdemo64 3 = 3 /\
  exists s', shmat (s32 0x80310000) SHM_RDWR sdemo64 = Ret (4096, s') /\ count s' 3 = 1.
Proof.
  split; [reflexivity|].
  apply (shmat_pid64_resets_count sdemo64 (upages (mem_of sdemo) demo_dir ++ [0x80310000; 0x80311000; 0x80320000; 0x80321000])
           demo_free 3 SHM_RDWR (Z.lor PTE_W PTE_U)).
  - destruct (sdemo_can _ sdemo_held) as [HT ? ? ? ? ? ? ? ?].
    split; [exact HT|assumption|assumption|cbn; lia|assumption|assumption|assumption|assumption|assumption].
  - reflexivity.
  - exact sdemo_first.
  - reflexivity.
  - exact sdemo_cpu.
  - reflexivity.
Defined.

(** The same machine after the page at 0x80302000 had been a segment under
    key 2, since deleted. *)
Definition sdemo_dead : sst := mkSst (ss_k sdemo)
  (mkShm (upd2 (seg stable) 2 0 0x80302000) (refs stable) (shm_lock stable)) (cur sdemo).

Lemma shmdt_error_keeps_lock_witness :
  exists s', shmdt 0 sdemo_dead = Ret (-1, s') /\ locked (shm_lock (shm s')) = 1 /\
    shmat 0 SHM_RDWR s' = Panic "acquire".
Proof.
  destruct (shmdt_error_keeps_lock sdemo_dead _ demo_free 0 2 0x80302000 sdemo_held) as (s' & Hr & Hl & Hp).
  - unfold NUVPN. lia.
  - change (mem_of sdemo_dead) with smem. cbn [cur sdemo_dead sdemo p_pgdir].
    rewrite (proj2 smem_maps), demo_pte by done. reflexivity.
  - unfold numOfSegs. lia.
  - reflexivity.
  - intros k Hk. assert (k = 0 \/ k = 1) as [-> | ->] by lia; vm_compute; discriminate.
  - vm_compute. discriminate.
  - reflexivity.
  - exact sdemo_cpu.
  - exists s'. split; [exact Hr|]. split; [exact Hl|apply Hp].
Defined.

Lemma shm_stale_id_witness :
  exists p s', (let* id1 := shmget 5 1 CREAT in
              let* n := shmdel id1 in
              let* id2 := shmget 8 1 CREAT in
              let* va := shmat id2 SHM_RDWR in
              ret [id1; n; id2; va]) sdemo = Ret ([s32 p; 1; s32 p; -1], s') /\ npg s' 8 = 1.
Proof.
  pose proof sdemo_ok as Hok. pose proof demo_n_eq as Hn. unfold demo_free in Hok.
  destruct demo_n as [|n]; [discriminate Hn|]. cbn [page_range] in Hok.
  destruct (shm_stale_id sdemo [] _ 0x80400000 5 8 SHM_RDWR Hok) as (s' & Hr & Hn8).
  - lia.
  - unfold numOfSegs. lia.
  - reflexivity.
  - reflexivity.
  - reflexivity.
  - intros k Hk. assert (k = 0 \/ k = 1 \/ k = 2 \/ k = 3 \/ k = 4) as [->|[->|[->|[->| ->]]]] by lia; vm_compute; discriminate.
  - reflexivity.
  - exists 0x80400000, s'. split; [exact Hr|exact Hn8].
Defined.
