(* ===== verification/Proc.v ===== *)
(** * Processes (proc.c): the code

    The process table, process creation and exit, sleep and wakeup, and the
    swapping of processes out to files and back.  A pointer to an entry of the
    table is its index, the null pointer -1.  The trap frame and the saved
    context of a process are in memory, on its kernel stack.

    A call of sched() leaves the CPU: [sched] stands for its checks, and a
    function that calls it is modelled as the part up to the switch and the
    part after it.  The file system is used through the interface [FsOps]. *)

From Stdlib Require Import ZArith Lia String Bool.
From stdpp Require Import base numbers list.
From S2P Require Import Prelude Params Mem Spinlock Pages Kalloc Vm Shm.

(** ** Data *)

Inductive procstate : Type :=
  UNUSED | EMBRYO | SLEEPING | RUNNABLE | RUNNING | ZOMBIE | SLEEPING_SUSPENDED | RUNNABLE_SUSPENDED.

#[export] Instance procstate_eq_dec : EqDecision procstate.
Proof. solve_decision. Defined.

Record proc : Type := mkProc {
  sz : Z; pgdir : Z; kstack : Z; state : procstate; pid : Z; parent : Z; tf : Z; context : Z;
  chan : Z; killed : Z; ofile : Z -> Z; cwd : Z; name : list Z; swap : Z; swapFileName : list Z;
  swappingOut : Z; wokenUp : Z; has_shm : Z
}.

(** The table and the variables of proc.c. *)
Record ptable_t : Type := mkPtable {
  procs : Z -> proc; ptable_lock : spinlock; swaplock : spinlock; wakeuplock : spinlock;
  initproc : Z; inswapper : Z; nextpid : Z; swapFlag : Z; swappedout : Z
}.

(** The CPU's current process, page directory and kernel stack top. *)
Record running : Type := mkRunning { curp : Z; cr3 : Z; esp0 : Z; kpgdir : Z }.

Record pst (F : Type) : Type := mkPst { ps_k : kst; ps_shm : shm_t; ps_t : ptable_t; ps_r : running; ps_fs : F }.
Arguments mkPst {F}.
Arguments ps_k {F}.
Arguments ps_shm {F}.
Arguments ps_t {F}.
Arguments ps_r {F}.
Arguments ps_fs {F}.

(** What proc.c uses of file.c, fs.c and sysfile.c.  Names are byte strings,
    files and inodes the addresses of their structures, 0 for none. *)
Class FsOps (S : Type) : Type := {
  fileopen : list Z -> Z -> M S Z;
  filewrite : Z -> Z -> Z -> M S Z;
  fileclose : Z -> M S unit;
  file_ip : Z -> M S Z;
  readi : Z -> Z -> Z -> Z -> M S Z;
  unlink : list Z -> M S Z;
  filedup : Z -> M S Z;
  idup : Z -> M S Z;
  iput : Z -> M S unit;
  namei : list Z -> M S Z
}.

Section ops.
Context {Lay : Layout} {F : Type} {FS : FsOps (pst F)}.
(** The kernel's addresses of trapret, forkret, swapIn and ptable.proc, and
    the initial program in the kernel image. *)
Context (trapret forkret_addr swapIn_addr initcode_start initcode_size ptable_addr : Z).

Abbreviation P := (pst F).

(** ** Access to the state *)

Definition ps_kL : lens P kst := Lens ps_k (fun k s => mkPst k (ps_shm s) (ps_t s) (ps_r s) (ps_fs s)).
Definition ps_tL : lens P ptable_t := Lens ps_t (fun t s => mkPst (ps_k s) (ps_shm s) t (ps_r s) (ps_fs s)).
Definition ps_rL : lens P running := Lens ps_r (fun r s => mkPst (ps_k s) (ps_shm s) (ps_t s) r (ps_fs s)).
Definition ps_fsL : lens P F := Lens ps_fs (fun f s => mkPst (ps_k s) (ps_shm s) (ps_t s) (ps_r s) f).
#[export] Instance pst_cpu : HasCpu P := lens_comp ps_kL (cpuL : lens kst cpu).
#[export] Instance pst_pages : PageOps P := PageOps_zoom ps_kL.

Definition ptable_lockL : lens P spinlock := lens_comp ps_tL
  (Lens ptable_lock (fun l t => mkPtable (procs t) l (swaplock t) (wakeuplock t) (initproc t) (inswapper t) (nextpid t) (swapFlag t) (swappedout t))).
Definition swaplockL : lens P spinlock := lens_comp ps_tL
  (Lens swaplock (fun l t => mkPtable (procs t) (ptable_lock t) l (wakeuplock t) (initproc t) (inswapper t) (nextpid t) (swapFlag t) (swappedout t))).
Definition wakeuplockL : lens P spinlock := lens_comp ps_tL
  (Lens wakeuplock (fun l t => mkPtable (procs t) (ptable_lock t) (swaplock t) l (initproc t) (inswapper t) (nextpid t) (swapFlag t) (swappedout t))).
Definition procL (i : Z) : lens P proc := lens_comp ps_tL
  (Lens (fun t => procs t i) (fun p t => mkPtable (fun j => if j =? i then p else procs t j) (ptable_lock t) (swaplock t)
     (wakeuplock t) (initproc t) (inswapper t) (nextpid t) (swapFlag t) (swappedout t))).
Definition swappedoutL : lens P Z := lens_comp ps_tL
  (Lens swappedout (fun n t => mkPtable (procs t) (ptable_lock t) (swaplock t) (wakeuplock t) (initproc t) (inswapper t) (nextpid t) (swapFlag t) n)).
Definition nextpidL : lens P Z := lens_comp ps_tL
  (Lens nextpid (fun n t => mkPtable (procs t) (ptable_lock t) (swaplock t) (wakeuplock t) (initproc t) (inswapper t) n (swapFlag t) (swappedout t))).
Definition initprocL : lens P Z := lens_comp ps_tL
  (Lens initproc (fun i t => mkPtable (procs t) (ptable_lock t) (swaplock t) (wakeuplock t) i (inswapper t) (nextpid t) (swapFlag t) (swappedout t))).
Definition inswapperL : lens P Z := lens_comp ps_tL
  (Lens inswapper (fun i t => mkPtable (procs t) (ptable_lock t) (swaplock t) (wakeuplock t) (initproc t) i (nextpid t) (swapFlag t) (swappedout t))).

Definition getf {T : Type} (l : lens P T) : M P T := gets (view l).
Definition setf {T : Type} (l : lens P T) (v : T) : M P unit := modify (put l v).
(** A field of an entry of the table, and an assignment to one. *)
Definition pget {T : Type} (i : Z) (f : proc -> T) : M P T := gets (fun s => f (view (procL i) s)).
Definition pset (i : Z) (f : proc -> proc) : M P unit := modify (fun s => put (procL i) (f (view (procL i) s)) s).

Definition proc_ : M P Z := gets (fun s => curp (ps_r s)).

Definition with_sz (v : Z) (p : proc) : proc := mkProc v (pgdir p) (kstack p) (state p) (pid p) (parent p) (tf p) (context p) (chan p) (killed p) (ofile p) (cwd p) (name p) (swap p) (swapFileName p) (swappingOut p) (wokenUp p) (has_shm p).
Definition with_pgdir (v : Z) (p : proc) : proc := mkProc (sz p) v (kstack p) (state p) (pid p) (parent p) (tf p) (context p) (chan p) (killed p) (ofile p) (cwd p) (name p) (swap p) (swapFileName p) (swappingOut p) (wokenUp p) (has_shm p).
Definition with_kstack (v : Z) (p : proc) : proc := mkProc (sz p) (pgdir p) v (state p) (pid p) (parent p) (tf p) (context p) (chan p) (killed p) (ofile p) (cwd p) (name p) (swap p) (swapFileName p) (swappingOut p) (wokenUp p) (has_shm p).
Definition with_state (v : procstate) (p : proc) : proc := mkProc (sz p) (pgdir p) (kstack p) v (pid p) (parent p) (tf p) (context p) (chan p) (killed p) (ofile p) (cwd p) (name p) (swap p) (swapFileName p) (swappingOut p) (wokenUp p) (has_shm p).
Definition with_pid (v : Z) (p : proc) : proc := mkProc (sz p) (pgdir p) (kstack p) (state p) v (parent p) (tf p) (context p) (chan p) (killed p) (ofile p) (cwd p) (name p) (swap p) (swapFileName p) (swappingOut p) (wokenUp p) (has_shm p).
Definition with_parent (v : Z) (p : proc) : proc := mkProc (sz p) (pgdir p) (kstack p) (state p) (pid p) v (tf p) (context p) (chan p) (killed p) (ofile p) (cwd p) (name p) (swap p) (swapFileName p) (swappingOut p) (wokenUp p) (has_shm p).
Definition with_tf (v : Z) (p : proc) : proc := mkProc (sz p) (pgdir p) (kstack p) (state p) (pid p) (parent p) v (context p) (chan p) (killed p) (ofile p) (cwd p) (name p) (swap p) (swapFileName p) (swappingOut p) (wokenUp p) (has_shm p).
Definition with_context (v : Z) (p : proc) : proc := mkProc (sz p) (pgdir p) (kstack p) (state p) (pid p) (parent p) (tf p) v (chan p) (killed p) (ofile p) (cwd p) (name p) (swap p) (swapFileName p) (swappingOut p) (wokenUp p) (has_shm p).
Definition with_chan (v : Z) (p : proc) : proc := mkProc (sz p) (pgdir p) (kstack p) (state p) (pid p) (parent p) (tf p) (context p) v (killed p) (ofile p) (cwd p) (name p) (swap p) (swapFileName p) (swappingOut p) (wokenUp p) (has_shm p).
Definition with_killed (v : Z) (p : proc) : proc := mkProc (sz p) (pgdir p) (kstack p) (state p) (pid p) (parent p) (tf p) (context p) (chan p) v (ofile p) (cwd p) (name p) (swap p) (swapFileName p) (swappingOut p) (wokenUp p) (has_shm p).
Definition with_ofile (fd v : Z) (p : proc) : proc := mkProc (sz p) (pgdir p) (kstack p) (state p) (pid p) (parent p) (tf p) (context p) (chan p) (killed p) (fun j => if j =? fd then v else ofile p j) (cwd p) (name p) (swap p) (swapFileName p) (swappingOut p) (wokenUp p) (has_shm p).
Definition with_cwd (v : Z) (p : proc) : proc := mkProc (sz p) (pgdir p) (kstack p) (state p) (pid p) (parent p) (tf p) (context p) (chan p) (killed p) (ofile p) v (name p) (swap p) (swapFileName p) (swappingOut p) (wokenUp p) (has_shm p).
Definition with_name (v : list Z) (p : proc) : proc := mkProc (sz p) (pgdir p) (kstack p) (state p) (pid p) (parent p) (tf p) (context p) (chan p) (killed p) (ofile p) (cwd p) v (swap p) (swapFileName p) (swappingOut p) (wokenUp p) (has_shm p).
Definition with_swap (v : Z) (p : proc) : proc := mkProc (sz p) (pgdir p) (kstack p) (state p) (pid p) (parent p) (tf p) (context p) (chan p) (killed p) (ofile p) (cwd p) (name p) v (swapFileName p) (swappingOut p) (wokenUp p) (has_shm p).
Definition with_swapFileName (v : list Z) (p : proc) : proc := mkProc (sz p) (pgdir p) (kstack p) (state p) (pid p) (parent p) (tf p) (context p) (chan p) (killed p) (ofile p) (cwd p) (name p) (swap p) v (swappingOut p) (wokenUp p) (has_shm p).
Definition with_swappingOut (v : Z) (p : proc) : proc := mkProc (sz p) (pgdir p) (kstack p) (state p) (pid p) (parent p) (tf p) (context p) (chan p) (killed p) (ofile p) (cwd p) (name p) (swap p) (swapFileName p) v (wokenUp p) (has_shm p).
Definition with_wokenUp (v : Z) (p : proc) : proc := mkProc (sz p) (pgdir p) (kstack p) (state p) (pid p) (parent p) (tf p) (context p) (chan p) (killed p) (ofile p) (cwd p) (name p) (swap p) (swapFileName p) (swappingOut p) v (has_shm p).
Definition with_has_shm (v : Z) (p : proc) : proc := mkProc (sz p) (pgdir p) (kstack p) (state p) (pid p) (parent p) (tf p) (context p) (chan p) (killed p) (ofile p) (cwd p) (name p) (swap p) (swapFileName p) (swappingOut p) (wokenUp p) v.

(** A pointer to an entry of the table as a sleep channel. *)
Definition sizeof_proc : Z := 148.
Definition proc_chan (i : Z) : Z := if i =? -1 then 0 else ptable_addr + i * sizeof_proc.

(** ** Allocating an entry *)

Definition pinit : M P unit :=
  setf ptable_lockL (initlock "ptable") ;;
  setf swaplockL (initlock "swaplock") ;;
  setf wakeuplockL (initlock "wakeuplock").

(** The loop of allocproc over the entries from [i] on. *)
Fixpoint find_unused (n : nat) (i : Z) : M P Z :=
  match n with
  | O => ret (-1)
  | S n => let* st := pget i state in
           if decide (st = UNUSED) then ret i else find_unused n (i + 1)
  end.

(** Sizes and field offsets of struct trapframe (x86.h) and struct context. *)
Definition sizeof_tf : Z := 76.
Definition tf_eax : Z := 28.
Definition tf_es : Z := 40.
Definition tf_ds : Z := 44.
Definition tf_eip : Z := 56.
Definition tf_cs : Z := 60.
Definition tf_eflags : Z := 64.
Definition tf_esp : Z := 68.
Definition tf_ss : Z := 72.
Definition sizeof_context : Z := 20.
Definition context_eip : Z := 16.

(** Strings are the bytes before the NUL.  safestrcpy of a string into a
    buffer of [n] bytes keeps at most [n - 1] of them. *)
Fixpoint cstring (l : list Z) : list Z :=
  match l with
  | [] => []
  | c :: l => if c =? 0 then [] else c :: cstring l
  end.
Definition str_copy (n : nat) (l : list Z) : list Z := take (n - 1) (cstring l).

(** The name of a process's swap file: two characters from its pid, ".swap". *)
Definition swap_name (pid : Z) : list Z :=
  let i := Z.quot pid 10 in
  str_copy 8 [ (if i =? 0 then 48 else u8 (48 + i)); u8 (48 + Z.rem pid 10); 46; 115; 119; 97; 112; 0 ].

Definition allocproc : M P Z :=
  acquire ptable_lockL ;;
  let* p := find_unused (Z.to_nat NPROC) 0 in
  if p =? -1 then release ptable_lockL ;; ret (-1) else
  pset p (with_state EMBRYO) ;;
  let* n := getf nextpidL in
  setf nextpidL (s32 (n + 1)) ;;
  pset p (with_pid n) ;;
  release ptable_lockL ;;
  let* ks := kalloc in
  pset p (with_kstack ks) ;;
  if ks =? 0 then pset p (with_state UNUSED) ;; ret (-1) else
  let sp := ks + KSTACKSIZE in
  let sp := sp - sizeof_tf in
  pset p (with_tf sp) ;;
  let sp := sp - 4 in
  store32 sp trapret ;;
  let sp := sp - sizeof_context in
  pset p (with_context sp) ;;
  on_mem (fun m => memset m sp 0 sizeof_context) ;;
  store32 (sp + context_eip) forkret_addr ;;
  let* pd := pget p pid in
  pset p (with_swapFileName (swap_name pd)) ;;
  ret p.

(** Store a 16-bit segment selector in a trap frame. *)
Definition store16 (a v : Z) : M P unit :=
  on_mem (fun m => st8 (st8 m a (u8 v)) (a + 1) (u8 (Z.shiftr v 8))).

(** [sizeof(name)] is the size of a pointer here. *)
Definition createInternalProcess (nm : list Z) (entrypoint : Z) : M P unit :=
  let* np := allocproc in
  if np =? -1 then ret tt else
  let* pd := setupkvm in
  pset np (with_pgdir pd) ;;
  if pd =? 0 then panic "inswapper: out of memory?" else
  pset np (with_sz PGSIZE) ;;
  let* ip := getf initprocL in
  pset np (with_parent ip) ;;
  let* t := pget np tf in
  on_mem (fun m => memset m t 0 sizeof_tf) ;;
  store16 (t + tf_cs) (Z.shiftl 1 3) ;;
  store16 (t + tf_ds) (Z.shiftl 2 3) ;;
  store16 (t + tf_es) (Z.shiftl 2 3) ;;
  store16 (t + tf_ss) (Z.shiftl 2 3) ;;
  store32 (t + tf_eflags) FL_IF ;;
  let* cx := pget np context in
  store32 (cx + context_eip) entrypoint ;;
  setf inswapperL np ;;
  let* root := namei [47] in
  pset np (with_cwd root) ;;
  pset np (with_name (str_copy 4 nm)) ;;
  pset np (with_state RUNNABLE).

Definition userinit : M P unit :=
  let* p := allocproc in
  setf initprocL p ;;
  if p =? -1 then fault "userinit: no process" else
  let* pd := setupkvm in
  pset p (with_pgdir pd) ;;
  if pd =? 0 then panic "userinit: out of memory?" else
  inituvm pd initcode_start initcode_size ;;
  pset p (with_sz PGSIZE) ;;
  let* t := pget p tf in
  on_mem (fun m => memset m t 0 sizeof_tf) ;;
  store16 (t + tf_cs) (Z.lor (Z.shiftl 4 3) 3) ;;
  store16 (t + tf_ds) (Z.lor (Z.shiftl 5 3) 3) ;;
  store16 (t + tf_es) (Z.lor (Z.shiftl 5 3) 3) ;;
  store16 (t + tf_ss) (Z.lor (Z.shiftl 5 3) 3) ;;
  store32 (t + tf_eflags) FL_IF ;;
  store32 (t + tf_esp) PGSIZE ;;
  store32 (t + tf_eip) 0 ;;
  pset p (with_name (str_copy 16 [105; 110; 105; 116; 99; 111; 100; 101])) ;;
  let* root := namei [47] in
  pset p (with_cwd root) ;;
  pset p (with_state RUNNABLE) ;;
  createInternalProcess [105; 110; 115; 119; 97; 112; 112; 101; 114] swapIn_addr.

(** ** Page directories and the CPU (vm.c) *)

Definition kvmalloc : M P unit :=
  let* pd := setupkvm in
  modify (fun s => put ps_rL (mkRunning (curp (ps_r s)) (v2p pd) (esp0 (ps_r s)) pd) s).

Definition switchkvm : M P unit :=
  modify (fun s => put ps_rL (mkRunning (curp (ps_r s)) (v2p (kpgdir (ps_r s))) (esp0 (ps_r s)) (kpgdir (ps_r s))) s).

(** The kernel stack loaded is that of [proc], the directory that of [p]. *)
Definition switchuvm (p : Z) : M P unit :=
  zoom cpuL pushcli ;;
  let* c := proc_ in
  let* ks := pget c kstack in
  modify (fun s => put ps_rL (mkRunning c (cr3 (ps_r s)) (u32 (ks + KSTACKSIZE)) (kpgdir (ps_r s))) s) ;;
  let* pd := pget p pgdir in
  if pd =? 0 then panic "switchuvm: no pgdir" else
  modify (fun s => put ps_rL (mkRunning c (v2p pd) (esp0 (ps_r s)) (kpgdir (ps_r s))) s) ;;
  zoom cpuL popcli.

Definition growproc (n : Z) : M P Z :=
  let* c := proc_ in
  let* size := pget c sz in
  let* pd := pget c pgdir in
  let* size' :=
    (if 0 <? n then allocuvm pd size (u32 (size + n))
     else if n <? 0 then deallocuvm pd size (u32 (size + n))
     else ret size) in
  if negb (n =? 0) && (size' =? 0) then ret (-1) else
  pset c (with_sz size') ;;
  switchuvm c ;;
  ret 0.

(** ** fork *)

Fixpoint dup_files (n : nat) (c np i : Z) : M P unit :=
  match n with
  | O => ret tt
  | S n =>
    let* f := pget c (fun p => ofile p i) in
    (if negb (f =? 0) then let* f' := filedup f in pset np (with_ofile i f') else ret tt) ;;
    dup_files n c np (i + 1)
  end.

Definition fork : M P Z :=
  let* np := allocproc in
  if np =? -1 then ret (-1) else
  let* c := proc_ in
  let* pd := pget c pgdir in
  let* size := pget c sz in
  let* npd := copyuvm pd size in
  pset np (with_pgdir npd) ;;
  if npd =? 0 then
    let* ks := pget np kstack in
    kfree ks ;;
    pset np (with_kstack 0) ;;
    pset np (with_state UNUSED) ;;
    ret (-1)
  else
  let* size := pget c sz in
  pset np (with_sz size) ;;
  pset np (with_parent c) ;;
  let* t := pget c tf in
  let* t' := pget np tf in
  on_mem (fun m => memmove m t' t sizeof_tf) ;;
  store32 (t' + tf_eax) 0 ;;
  dup_files (Z.to_nat NOFILE) c np 0 ;;
  let* d := pget c cwd in
  let* d' := idup d in
  pset np (with_cwd d') ;;
  let* id := pget np pid in
  pset np (with_state RUNNABLE) ;;
  let* nm := pget c name in
  pset np (with_name (str_copy 16 nm)) ;;
  ret id.

(** ** Leaving the CPU *)

(** The checks of sched(); a return stands for the switch to the scheduler. *)
Definition sched : M P unit :=
  let* h := holding ptable_lockL in
  if negb h then panic "sched ptable.lock" else
  let* c := getf cpuL in
  if negb (ncli c =? 1) then panic "sched locks" else
  let* p := proc_ in
  let* st := pget p state in
  if decide (st = RUNNING) then panic "sched running" else
  if eflags_if c then panic "sched interruptible" else
  ret tt.

(** yield(), up to the switch and after it. *)
Definition yield_before : M P unit :=
  acquire ptable_lockL ;;
  let* p := proc_ in
  pset p (with_state RUNNABLE) ;;
  sched.
Definition yield_after : M P unit := release ptable_lockL.

(** The scheduler's search for a process from entry [i] on: run the first one
    that is RUNNABLE, up to the switch to it. *)
Fixpoint scheduler_pick (n : nat) (i : Z) : M P (option Z) :=
  match n with
  | O => ret None
  | S n =>
    let* st := pget i state in
    if decide (st = RUNNABLE) then
      modify (fun s => put ps_rL (mkRunning i (cr3 (ps_r s)) (esp0 (ps_r s)) (kpgdir (ps_r s))) s) ;;
      switchuvm i ;;
      pset i (with_state RUNNING) ;;
      ret (Some i)
    else scheduler_pick n (i + 1)
  end.

(** What the scheduler does when a process comes back. *)
Definition scheduler_back : M P unit :=
  switchkvm ;;
  modify (fun s => put ps_rL (mkRunning (-1) (cr3 (ps_r s)) (esp0 (ps_r s)) (kpgdir (ps_r s))) s).

(** ** Swapping *)

(** The loop of swapOut over the pages from [j] on; the result tells whether
    every write succeeded. *)
Fixpoint swapOut_loop (fuel : nat) (c j : Z) : M P bool :=
  let* size := pget c sz in
  if j <? size then
    match fuel with
    | O => nofuel
    | S fuel =>
      let* pd := pget c pgdir in
      let* pte := walkpgdir pd j 0 in
      if pte =? 0 then panic "walkpgdir: pte should exist" else
      let* v := load32 pte in
      if negb (present v) then panic "walkpgdir: page not present" else
      let pa := PTE_ADDR v in
      let* f := pget c swap in
      let* n := filewrite f (p2v pa) PGSIZE in
      if n <? 0 then ret false else swapOut_loop fuel c (u32 (j + PGSIZE))
    end
  else ret true.

Definition swapOut : M P unit :=
  let* c := proc_ in
  let* nm := pget c swapFileName in
  let* f := fileopen nm (Z.lor O_CREATE O_RDWR) in
  pset c (with_swap f) ;;
  if f =? 0 then ret tt else
  let* size := pget c sz in
  let* ok := swapOut_loop (Z.to_nat ((size + PGSIZE - 1) / PGSIZE)) c 0 in
  if negb ok then ret tt else
  let* f := pget c swap in
  fileclose f ;;
  pset c (with_swap 0) ;;
  let* pd := pget c pgdir in
  let* size := pget c sz in
  let* _ := deallocuvm pd size 0 in
  ret tt.

(** The body of swapIn's loop for the entry [t]: false for the two [break]s. *)
Definition swapIn_one (t : Z) : M P bool :=
  let* h := holding ptable_lockL in
  (if h then release ptable_lockL else ret tt) ;;
  let* nm := pget t swapFileName in
  let* f := fileopen nm O_RDONLY in
  pset t (with_swap f) ;;
  if f =? 0 then ret false else
  let* pd := pget t pgdir in
  let* size := pget t sz in
  let* r := allocuvm pd 0 size in
  if r =? 0 then ret false else
  let* ip := file_ip f in
  let* _ := loaduvm (readi ip) pd 0 0 size in
  let* f := pget t swap in
  fileclose f ;;
  pset t (with_swap 0) ;;
  let* nm := pget t swapFileName in
  let* _ := unlink nm in
  acquire ptable_lockL ;;
  pset t (with_state RUNNABLE) ;;
  acquire swaplockL ;;
  let* n := getf swappedoutL in
  setf swappedoutL (n - 1) ;;
  release swaplockL ;;
  ret true.

Fixpoint swapIn_scan (n : nat) (t : Z) : M P unit :=
  match n with
  | O => ret tt
  | S n =>
    let* st := pget t state in
    if decide (st = RUNNABLE_SUSPENDED) then
      let* ok := swapIn_one t in
      if ok then swapIn_scan n (t + 1) else ret tt
    else swapIn_scan n (t + 1)
  end.

(** swapIn from the label [swapin] to its sched(), in at most [fuel] rounds. *)
Fixpoint swapIn_rounds (fuel : nat) : M P unit :=
  match fuel with
  | O => nofuel
  | S fuel =>
    swapIn_scan (Z.to_nat NPROC) 0 ;;
    acquire swaplockL ;;
    let* n := getf swappedoutL in
    release swaplockL ;;
    if 0 <? n then swapIn_rounds fuel else
    let* c := proc_ in
    let* i := getf inswapperL in
    pset c (with_chan (proc_chan i)) ;;
    pset c (with_state SLEEPING) ;;
    sched
  end.
Definition swapIn_after : M P unit := let* c := proc_ in pset c (with_chan 0).

(** ** Sleep and wakeup *)

(** The lock passed to sleep: none, ptable.lock itself, or another one. *)
Inductive sleep_lock : Type := LkNull | LkPtable | LkOther (l : lens P spinlock).

(** The part of sleep() under [if(swapFlag)], with ptable.lock held. *)
Definition sleep_swap (c : Z) : M P unit :=
  pset c (with_wokenUp 0) ;;
  pset c (with_swappingOut 1) ;;
  release ptable_lockL ;;
  swapOut ;;
  acquire ptable_lockL ;;
  pset c (with_swappingOut 0) ;;
  let* w := pget c wokenUp in
  if w =? 1 then
    pset c (with_wokenUp 0) ;;
    pset c (with_state RUNNABLE_SUSPENDED) ;;
    let* i := getf inswapperL in
    pset i (with_state RUNNABLE)
  else pset c (with_state SLEEPING_SUSPENDED).

Definition sleep_before (ch : Z) (lk : sleep_lock) : M P unit :=
  let* c := proc_ in
  if c =? -1 then panic "sleep" else
  match lk with
  | LkNull => panic "sleep without lk"
  | _ =>
    (match lk with LkOther l => acquire ptable_lockL ;; release l | _ => ret tt end) ;;
    pset c (with_chan ch) ;;
    pset c (with_state SLEEPING) ;;
    let* fl := gets (fun s => swapFlag (ps_t s)) in
    let* id := pget c pid in
    (if negb (fl =? 0) && (3 <? id) then sleep_swap c else ret tt) ;;
    sched
  end.

Definition sleep_after (lk : sleep_lock) : M P unit :=
  let* c := proc_ in
  pset c (with_chan 0) ;;
  match lk with LkOther l => release ptable_lockL ;; acquire l | _ => ret tt end.

(** A SLEEPING_SUSPENDED process becomes RUNNABLE_SUSPENDED. *)
Definition resume_suspended (p : Z) : M P unit :=
  acquire swaplockL ;;
  let* n := getf swappedoutL in
  setf swappedoutL (n + 1) ;;
  pset p (with_state RUNNABLE_SUSPENDED) ;;
  let* i := getf inswapperL in
  pset i (with_state RUNNABLE) ;;
  release swaplockL.

(** One entry of wakeup1; [found_suspended] is never set. *)
Definition wakeup_one (p ch : Z) : M P unit :=
  let* st := pget p state in
  let* pc := pget p chan in
  if decide (st = SLEEPING /\ pc = ch) then
    let* so := pget p swappingOut in
    if so =? 1 then pset p (with_wokenUp 1) else pset p (with_state RUNNABLE)
  else if decide (st = SLEEPING_SUSPENDED /\ pc = ch) then resume_suspended p
  else ret tt.

Fixpoint wakeup_loop (n : nat) (p ch : Z) : M P unit :=
  match n with
  | O => ret tt
  | S n => wakeup_one p ch ;; wakeup_loop n (p + 1) ch
  end.

Definition wakeup1 (ch : Z) : M P unit := wakeup_loop (Z.to_nat NPROC) 0 ch.

Definition wakeup (ch : Z) : M P unit :=
  acquire ptable_lockL ;;
  wakeup1 ch ;;
  release ptable_lockL.

Fixpoint kill_loop (n : nat) (p id : Z) : M P Z :=
  match n with
  | O => ret (-1)
  | S n =>
    let* pd := pget p pid in
    if pd =? id then
      pset p (with_killed 1) ;;
      let* st := pget p state in
      (if decide (st = SLEEPING) then pset p (with_state RUNNABLE)
       else if decide (st = SLEEPING_SUSPENDED) then resume_suspended p
       else ret tt) ;;
      ret 0
    else kill_loop n (p + 1) id
  end.

Definition kill (id : Z) : M P Z :=
  acquire ptable_lockL ;;
  let* r := kill_loop (Z.to_nat NPROC) 0 id in
  release ptable_lockL ;;
  ret r.

(** ** Exit and wait *)

(** The state of the shared-memory code, with the current process's fields. *)
Definition sstL : lens P sst := Lens
  (fun s => let p := view (procL (curp (ps_r s))) s in
            mkSst (ps_k s) (ps_shm s) (mkShmProc (pgdir p) (sz p) (pid p) (has_shm p)))
  (fun x s => let c := curp (ps_r s) in
              let p := view (procL c) s in
              let q := with_pgdir (p_pgdir (cur x)) (with_sz (p_sz (cur x)) (with_pid (p_pid (cur x))
                         (with_has_shm (p_has_shm (cur x)) p))) in
              put (procL c) q (mkPst (ss_k x) (shm x) (ps_t s) (ps_r s) (ps_fs s))).

Fixpoint close_files (n : nat) (c fd : Z) : M P unit :=
  match n with
  | O => ret tt
  | S n =>
    let* f := pget c (fun p => ofile p fd) in
    (if negb (f =? 0) then fileclose f ;; pset c (with_ofile fd 0) else ret tt) ;;
    close_files n c (fd + 1)
  end.

(** Abandoned children of [c] are passed to init. *)
Fixpoint pass_children (n : nat) (c i : Z) : M P unit :=
  match n with
  | O => ret tt
  | S n =>
    let* pr := pget i parent in
    (if pr =? c then
       let* ip := getf initprocL in
       pset i (with_parent ip) ;;
       let* st := pget i state in
       if decide (st = ZOMBIE) then wakeup1 (proc_chan ip) else ret tt
     else ret tt) ;;
    pass_children n c (i + 1)
  end.

(** exit(), up to the switch it does not come back from. *)
Definition exit_before : M P unit :=
  let* c := proc_ in
  let* ip := getf initprocL in
  if c =? ip then panic "init exiting" else
  close_files (Z.to_nat NOFILE) c 0 ;;
  let* d := pget c cwd in
  iput d ;;
  pset c (with_cwd 0) ;;
  let* hs := pget c has_shm in
  let* id := pget c pid in
  (if negb (hs =? 0) then zoom sstL (deallocshm id) else ret tt) ;;
  acquire ptable_lockL ;;
  let* pr := pget c parent in
  wakeup1 (proc_chan pr) ;;
  pass_children (Z.to_nat NPROC) c 0 ;;
  pset c (with_state ZOMBIE) ;;
  sched.

(** What wait() finds in a scan of the table. *)
Inductive wait_result : Type := Reaped (pid : Z) | Children (havekids : bool).

Fixpoint wait_scan (n : nat) (c i : Z) (havekids : bool) : M P wait_result :=
  match n with
  | O => ret (Children havekids)
  | S n =>
    let* pr := pget i parent in
    if negb (pr =? c) then wait_scan n c (i + 1) havekids else
    let* st := pget i state in
    if decide (st = ZOMBIE) then
      let* id := pget i pid in
      let* ks := pget i kstack in
      kfree ks ;;
      pset i (with_kstack 0) ;;
      let* pd := pget i pgdir in
      freevm pd ;;
      pset i (with_state UNUSED) ;;
      pset i (with_pid 0) ;;
      pset i (with_parent (-1)) ;;
      pset i (with_name []) ;;
      pset i (with_killed 0) ;;
      ret (Reaped id)
    else wait_scan n c (i + 1) true
  end.

(** One round of wait(), with ptable.lock held: the result it returns, or
    nothing when it goes to sleep. *)
Definition wait_round : M P (option Z) :=
  let* c := proc_ in
  let* r := wait_scan (Z.to_nat NPROC) c 0 false in
  match r with
  | Reaped id => release ptable_lockL ;; ret (Some id)
  | Children havekids =>
    let* k := pget c killed in
    if negb havekids || negb (k =? 0) then release ptable_lockL ;; ret (Some (-1))
    else sleep_before (proc_chan c) LkPtable ;; ret None
  end.

Definition wait_start : M P (option Z) := acquire ptable_lockL ;; wait_round.

(** ** Signal handlers and page counts *)

Definition register_handler (sighandler : Z) : M P unit :=
  let* c := proc_ in
  let* pd := pget c pgdir in
  let* t := pget c tf in
  let* esp := load32 (t + tf_esp) in
  let* addr := uva2ka pd esp in
  if Z.land esp 0xFFF =? 0 then panic "esp_offset == 0" else
  let* eip := load32 (t + tf_eip) in
  store32 (addr + Z.land (u32 (esp - 4)) 0xFFF) eip ;;
  store32 (t + tf_esp) (u32 (esp - 4)) ;;
  store32 (t + tf_eip) sighandler.

Fixpoint find_pid (n : nat) (i id : Z) : M P Z :=
  match n with
  | O => ret i
  | S n => let* pd := pget i pid in if pd =? id then ret i else find_pid n (i + 1) id
  end.

Fixpoint count_ptes (n : nat) (pt k acc : Z) : M P Z :=
  match n with
  | O => ret acc
  | S n => let* v := load32 (pt + 4 * k) in
           count_ptes n pt (k + 1) (if Z.land v PTE_U =? 0 then acc else acc + 1)
  end.

Fixpoint count_pdes (n : nat) (pd j acc : Z) : M P Z :=
  match n with
  | O => ret acc
  | S n =>
    let* acc :=
      (if negb (pd =? 0) then
         let* v := load32 (pd + 4 * j) in
         if present v then count_ptes 1024 (p2v (PTE_ADDR v)) 0 acc else ret acc
       else ret acc) in
    count_pdes n pd (j + 1) acc
  end.

(** With no process of that number the search ends at the entry behind the
    table. *)
Definition getAllocatedPages (id : Z) : M P Z :=
  acquire ptable_lockL ;;
  let* p := find_pid (Z.to_nat NPROC) 0 id in
  release ptable_lockL ;;
  if p =? NPROC then fault "getAllocatedPages: entry behind the table" else
  let* pd := pget p pgdir in
  count_pdes 1024 pd 0 0.

End ops.
