(* ===== verification/Swap.v ===== *)
(** * Swapping: the protocol between sleepers, wakers and the inswapper

    The critical sections of sleep, wakeup1, kill and swapIn as functions on
    the process table, the proof that the code computes them, and the
    interleavings of these sections as a step relation. *)

From Stdlib Require Import ZArith Lia String Bool.
From stdpp Require Import base numbers relations list.
From S2P Require Import Prelude Params Mem Spinlock Pages Kalloc Vm Shm Proc.

(** ** Critical sections as functions on the table *)

Definition tset (i : Z) (f : proc -> proc) (t : ptable_t) : ptable_t :=
  mkPtable (fun j => if j =? i then f (procs t i) else procs t j) (ptable_lock t) (swaplock t) (wakeuplock t)
    (initproc t) (inswapper t) (nextpid t) (swapFlag t) (swappedout t).
Definition tcount (d : Z) (t : ptable_t) : ptable_t :=
  mkPtable (procs t) (ptable_lock t) (swaplock t) (wakeuplock t)
    (initproc t) (inswapper t) (nextpid t) (swapFlag t) (swappedout t + d).

Definition t_resume (p : Z) (t : ptable_t) : ptable_t :=
  tset (inswapper t) (with_state RUNNABLE) (tset p (with_state RUNNABLE_SUSPENDED) (tcount 1 t)).

Definition t_wake_one (p ch : Z) (t : ptable_t) : ptable_t :=
  if decide (state (procs t p) = SLEEPING /\ chan (procs t p) = ch) then
    if swappingOut (procs t p) =? 1 then tset p (with_wokenUp 1) t else tset p (with_state RUNNABLE) t
  else if decide (state (procs t p) = SLEEPING_SUSPENDED /\ chan (procs t p) = ch) then t_resume p t
  else t.

Fixpoint t_wake_loop (n : nat) (p ch : Z) (t : ptable_t) : ptable_t :=
  match n with
  | O => t
  | S n => t_wake_loop n (p + 1) ch (t_wake_one p ch t)
  end.

Definition t_wake (ch : Z) (t : ptable_t) : ptable_t := t_wake_loop 64 0 ch t.

Fixpoint t_kill (n : nat) (p id : Z) (t : ptable_t) : ptable_t * Z :=
  match n with
  | O => (t, -1)
  | S n =>
    if pid (procs t p) =? id then
      let t := tset p (with_killed 1) t in
      (if decide (state (procs t p) = SLEEPING) then tset p (with_state RUNNABLE) t
       else if decide (state (procs t p) = SLEEPING_SUSPENDED) then t_resume p t
       else t, 0)
    else t_kill n (p + 1) id t
  end.

Definition t_kill_pid (id : Z) (t : ptable_t) : ptable_t * Z := t_kill 64 0 id t.

(** The start and the end of the swap-out in sleep(). *)
Definition t_swap_begin (c : Z) (t : ptable_t) : ptable_t :=
  tset c (with_swappingOut 1) (tset c (with_wokenUp 0) t).
Definition t_swap_end (c : Z) (t : ptable_t) : ptable_t :=
  let t := tset c (with_swappingOut 0) t in
  if wokenUp (procs t c) =? 1 then
    let t := tset c (with_state RUNNABLE_SUSPENDED) (tset c (with_wokenUp 0) t) in
    tset (inswapper t) (with_state RUNNABLE) t
  else tset c (with_state SLEEPING_SUSPENDED) t.

(** ** The code computes them *)

Section refinement.
Context {Lay : Layout} {F : Type}.
Abbreviation P := (pst F).

#[export] Instance ps_kL_ok : LensOk (ps_kL : lens P kst).
Proof. by split; try intros ?? []; try intros []. Qed.
#[export] Instance pst_cpu_ok : LensOk (cpuL : lens P cpu).
Proof. apply lens_comp_ok; apply _. Qed.
#[export] Instance swaplockL_ok : LensOk (swaplockL : lens P spinlock).
Proof. split; try intros ?? []; try intros []; try done. by destruct ps_t. Qed.
#[export] Instance ptable_lockL_ok : LensOk (ptable_lockL : lens P spinlock).
Proof. split; try intros ?? []; try intros []; try done. by destruct ps_t. Qed.
#[export] Instance swaplock_cpu : LensApart (swaplockL : lens P spinlock) cpuL.
Proof. by split. Qed.
#[export] Instance ptable_lock_cpu : LensApart (ptable_lockL : lens P spinlock) cpuL.
Proof. by split. Qed.

(** The CPU runs with a lock held, and swaplock is free. *)
Record in_section (s : P) : Prop := {
  is_ncli : 0 < ncli (view cpuL s);
  is_off : eflags_if (view cpuL s) = false;
  is_free : exists nm, swaplock (ps_t s) = mkLock nm 0 0
}.

Lemma nested_cpu c : 0 < ncli c -> eflags_if c = false -> popped (pushed c) = c.
Proof.
  intros Hn Hi. unfold popped, pushed. destruct c as [p n ie fl]. cbn in *.
  rewrite (proj2 (Z.eqb_neq n 0)) by lia. replace (n + 1 - 1) with n by lia.
  rewrite (proj2 (Z.eqb_neq n 0)) by lia. by subst.
Qed.

(** The bracket around the counter, inside a section. *)
Lemma resume_suspended_eq p s : in_section s -> resume_suspended p s = Ret (tt, put ps_tL (t_resume p (ps_t s)) s).
Proof.
  intros [Hn Hi [nm Hf]]. unfold resume_suspended.
  assert (locked (view swaplockL s) = 0) as Hl by (cbn; by rewrite Hf).
  mstep_with (acquire_free swaplockL s Hl). do 5 mstep.
  rewrite (release_held swaplockL); [|done|done|done|cbn; cbn in Hn; lia].
  cbn in *. rewrite nested_cpu by done. rewrite Hf. cbn.
  destruct s as [[] ? [] ? ?]. cbn in *. subst. done.
Qed.

Lemma in_section_put s t : in_section s -> swaplock t = swaplock (ps_t s) -> in_section (put ps_tL t s).
Proof. intros [Hn Hi [nm Hf]] E. split; [done..|]. exists nm. cbn. by rewrite E. Qed.

Lemma t_wake_one_lock p ch t : swaplock (t_wake_one p ch t) = swaplock t.
Proof. unfold t_wake_one. repeat case_decide; [case_match|..]; done. Qed.

Lemma wakeup_one_eq p ch s : in_section s -> wakeup_one p ch s = Ret (tt, put ps_tL (t_wake_one p ch (ps_t s)) s).
Proof.
  intros H. unfold wakeup_one, t_wake_one. do 2 mstep. cbn [view procL lens_comp ps_tL].
  repeat case_decide.
  - mstep. cbn [view procL lens_comp ps_tL]. by destruct (_ =? 1).
  - by apply resume_suspended_eq.
  - by destruct s.
Qed.

Lemma wakeup_loop_eq n p ch s : in_section s -> wakeup_loop n p ch s = Ret (tt, put ps_tL (t_wake_loop n p ch (ps_t s)) s).
Proof.
  revert p s. induction n as [|n IH]; intros p s H; cbn [wakeup_loop t_wake_loop]; [by destruct s|].
  mstep_with (wakeup_one_eq p ch s H). rewrite IH; [done|]. apply in_section_put; [done|]. apply t_wake_one_lock.
Qed.

Lemma wakeup1_eq ch s : in_section s -> wakeup1 ch s = Ret (tt, put ps_tL (t_wake ch (ps_t s)) s).
Proof. apply wakeup_loop_eq. Qed.

Lemma kill_loop_eq n p id s :
  in_section s ->
  kill_loop n p id s = Ret (snd (t_kill n p id (ps_t s)), put ps_tL (fst (t_kill n p id (ps_t s))) s).
Proof.
  intros H. revert p. induction n as [|n IH]; intros p; cbn [kill_loop t_kill]; [by destruct s|].
  mstep. cbn [view procL lens_comp ps_tL]. destruct (_ =? id); [|apply IH].
  set (t1 := tset p (with_killed 1) (ps_t s)). set (s1 := put ps_tL t1 s).
  assert (pset p (with_killed 1) s = Ret (tt, s1)) as E by done. mstep_with E. mstep. cbn zeta.
  change (state (view (procL p) s1)) with (state (procs t1 p)). fold t1.
  repeat case_decide; [done| |done].
  assert (in_section s1) as Hs1 by by apply in_section_put.
  mstep_with (resume_suspended_eq p s1 Hs1). done.
Qed.

(** The table with another state of its lock; the sections do not see it. *)
Definition t_lock (l : spinlock) (t : ptable_t) : ptable_t :=
  mkPtable (procs t) l (swaplock t) (wakeuplock t) (initproc t) (inswapper t) (nextpid t) (swapFlag t) (swappedout t).

Lemma t_wake_loop_lock n p ch l t : t_wake_loop n p ch (t_lock l t) = t_lock l (t_wake_loop n p ch t).
Proof.
  revert p t. induction n as [|n IH]; intros p t; cbn [t_wake_loop]; [done|]. rewrite <- IH. f_equal.
  unfold t_wake_one. cbn [procs t_lock]. repeat case_decide; [case_match|..]; done.
Qed.

Lemma t_kill_lock n p id l t :
  t_kill n p id (t_lock l t) = (t_lock l (fst (t_kill n p id t)), snd (t_kill n p id t)).
Proof.
  revert p. induction n as [|n IH]; intros p; cbn [t_kill]; [done|].
  cbn [procs t_lock]. destruct (_ =? id); [|apply IH]. cbn zeta.
  change (procs (tset p (with_killed 1) (t_lock l t)) p) with (procs (tset p (with_killed 1) t) p).
  repeat case_decide; done.
Qed.

Lemma t_wake_lock ch l t : t_wake ch (t_lock l t) = t_lock l (t_wake ch t).
Proof. exact (t_wake_loop_lock _ _ _ _ _). Qed.

Lemma t_kill_pid_lock id l t :
  t_kill_pid id (t_lock l t) = (t_lock l (fst (t_kill_pid id t)), snd (t_kill_pid id t)).
Proof. exact (t_kill_lock _ _ _ _ _). Qed.

Lemma kill_pid_eq id s :
  in_section s ->
  kill_loop (Z.to_nat NPROC) 0 id s = Ret (snd (t_kill_pid id (ps_t s)), put ps_tL (fst (t_kill_pid id (ps_t s))) s).
Proof. exact (kill_loop_eq _ _ _ _). Qed.

#[local] Opaque t_wake t_kill_pid wakeup1 kill_loop.

(** No CPU holds ptable.lock or swaplock. *)
Record ptable_free (s : P) : Prop := {
  pf_cpu : cpu_ok (view cpuL s);
  pf_lock : exists nm, ptable_lock (ps_t s) = mkLock nm 0 0;
  pf_swap : exists nm, swaplock (ps_t s) = mkLock nm 0 0
}.

(** A section on the table between acquire and release of ptable.lock. *)
Lemma ptable_section {A : Type} (c : M P A) (f : ptable_t -> ptable_t) (g : ptable_t -> A) s :
  ptable_free s ->
  (forall s, in_section s -> c s = Ret (g (ps_t s), put ps_tL (f (ps_t s)) s)) ->
  (forall l t, f (t_lock l t) = t_lock l (f t) /\ g (t_lock l t) = g t) ->
  exists c', same_cpu (view cpuL s) c' /\
    (acquire ptable_lockL ;; let* r := c in release ptable_lockL ;; ret r) s
    = Ret (g (ps_t s), put cpuL c' (put ps_tL (f (ps_t s)) s)).
Proof.
  intros [Hc [nm Hl] Hs] Hsec Hcomm. exists (popped (pushed (view cpuL s))). split; [by apply popped_pushed|].
  assert (locked (view ptable_lockL s) = 0) as Hf by (cbn; by rewrite Hl).
  mstep_with (acquire_free ptable_lockL s Hf).
  set (s1 := put ptable_lockL _ _).
  assert (in_section s1) as Hin.
  { split; [|done|done]. cbn. destruct Hc. cbn in *. lia. }
  assert (ps_t s1 = t_lock (mkLock nm 1 (cpu_ptr (view cpuL s))) (ps_t s)) as Et by (unfold s1; cbn; by rewrite Hl).
  mstep_with (Hsec s1 Hin). rewrite Et. destruct (Hcomm (mkLock nm 1 (cpu_ptr (view cpuL s))) (ps_t s)) as [-> ->].
  assert (f (ps_t s) = t_lock (mkLock nm 0 0) (f (ps_t s))) as Ef.
  { destruct (Hcomm (mkLock nm 0 0) (ps_t s)) as [<- _]. f_equal. destruct (ps_t s). cbn in *. by subst. }
  erewrite bind_ret_eq; [|apply (release_held ptable_lockL); [done|done|done|]].
  - unfold ret. do 2 f_equal. rewrite Ef. destruct s as [[] ? ? ? ?]. reflexivity.
  - destruct Hc. cbn in *. lia.
Qed.

Lemma wakeup_eq ch s :
  ptable_free s -> exists c', same_cpu (view cpuL s) c' /\
    wakeup ch s = Ret (tt, put cpuL c' (put ps_tL (t_wake ch (ps_t s)) s)).
Proof.
  intros H. destruct (ptable_section (wakeup1 ch) (t_wake ch) (fun _ => tt) s H (wakeup1_eq ch)) as (c' & Hc & E).
  - intros. by rewrite t_wake_lock.
  - exists c'. split; [done|]. unfold wakeup. rewrite <- E. unfold bind.
    destruct (acquire _ _) as [[[] ?]| | | |]; try done. destruct (wakeup1 _ _) as [[[] ?]| | | |]; try done.
    by destruct (release _ _) as [[[] ?]| | | |].
Qed.

Lemma kill_eq id s :
  ptable_free s -> exists c', same_cpu (view cpuL s) c' /\
    kill id s = Ret (snd (t_kill_pid id (ps_t s)), put cpuL c' (put ps_tL (fst (t_kill_pid id (ps_t s))) s)).
Proof.
  intros H. unfold kill. generalize (kill_pid_eq id). generalize (kill_loop (F := F) (Z.to_nat NPROC) 0 id). intros c Hk.
  apply (ptable_section c (fun t => fst (t_kill_pid id t)) (fun t => snd (t_kill_pid id t)) s H Hk).
  intros. by rewrite t_kill_pid_lock.
Qed.

End refinement.

(** ** The interleaving of the critical sections *)

(** Where a process is.  [Off k] and [On k]: switched away, and executing, with [k]
    calls of swapOut on its stack; the file operations of swapOut sleep, and a sleep
    there begins another swap-out.  [Scan t]: the inswapper at entry [t], with
    ptable.lock held; [Bare t]: the same after a load failed, without the lock;
    [Load t]: the inswapper reading the swap file of [t], without the lock;
    [Panicked]: the inswapper has called sched without the lock. *)
Inductive place : Type := Off (k : nat) | On (k : nat) | Scan (t : Z) | Bare (t : Z) | Load (t : Z) | Panicked.

#[export] Instance place_eq_dec : EqDecision place.
Proof. solve_decision. Defined.

(** [drift] counts the processes woken while they were in swapOut. *)
Record sys : Type := mkSys { tab : ptable_t; at_ : Z -> place; drift : Z }.

Definition move (i : Z) (p : place) (f : Z -> place) : Z -> place := fun j => if j =? i then p else f j.
Definition st (y : sys) (i : Z) : procstate := state (procs (tab y) i).
Definition inswp (y : sys) : Z := inswapper (tab y).
Definition is_proc (i : Z) : Prop := 0 <= i < NPROC.
(** ptable.lock is free between steps unless the inswapper scans with it; after a
    panic nothing happens. *)
Definition lock_free (y : sys) : Prop := match at_ y (inswp y) with Scan _ | Panicked => False | _ => True end.

Definition t_state (i : Z) (v : procstate) (t : ptable_t) : ptable_t := tset i (with_state v) t.
Definition t_sleep (i ch : Z) (t : ptable_t) : ptable_t := t_state i SLEEPING (tset i (with_chan ch) t).
(** enableSwapping and disableSwapping *)
Definition t_flag (v : Z) (t : ptable_t) : ptable_t :=
  mkPtable (procs t) (ptable_lock t) (swaplock t) (wakeuplock t) (initproc t) (inswapper t) (nextpid t) v (swappedout t).
(** swapIn when the process is loaded. *)
Definition t_loaded (i : Z) (t : ptable_t) : ptable_t := tcount (-1) (t_state i RUNNABLE t).

(** fork sets the state of its child, and the two system calls the flag, without
    ptable.lock, so these steps may come at any time. *)
Inductive step : sys -> sys -> Prop :=
| step_alloc y i id : lock_free y -> is_proc i -> st y i = UNUSED -> 3 < id -> i <> inswp y ->
    step y (mkSys (t_state i EMBRYO (tset i (with_pid id) (tab y))) (at_ y) (drift y))
| step_start y i : is_proc i -> st y i = EMBRYO -> i <> inswp y ->
    step y (mkSys (t_state i RUNNABLE (tab y)) (at_ y) (drift y))
| step_undo y i : is_proc i -> st y i = EMBRYO -> i <> inswp y ->
    step y (mkSys (t_state i UNUSED (tab y)) (at_ y) (drift y))
| step_run y i : lock_free y -> is_proc i -> st y i = RUNNABLE -> i <> inswp y \/ (forall k, at_ y i <> Off k) ->
    step y (mkSys (t_state i RUNNING (tab y)) (move i (match at_ y i with Off k => On k | p => p end) (at_ y)) (drift y))
| step_yield y i k : lock_free y -> is_proc i -> st y i = RUNNING -> at_ y i = On k ->
    step y (mkSys (t_state i RUNNABLE (tab y)) (move i (Off k) (at_ y)) (drift y))
| step_exit y i : lock_free y -> is_proc i -> st y i = RUNNING -> at_ y i = On 0 ->
    step y (mkSys (t_state i ZOMBIE (tab y)) (move i (Off 0) (at_ y)) (drift y))
| step_reap y i : lock_free y -> is_proc i -> st y i = ZOMBIE -> i <> inswp y ->
    step y (mkSys (t_state i UNUSED (tab y)) (at_ y) (drift y))
| step_flag y v : step y (mkSys (t_flag v (tab y)) (at_ y) (drift y))
| step_sleep y i k ch : lock_free y -> is_proc i -> at_ y i = On k ->
    swapFlag (tab y) = 0 \/ pid (procs (tab y) i) <= 3 ->
    step y (mkSys (t_sleep i ch (tab y)) (move i (Off k) (at_ y)) (drift y))
| step_swap_begin y i k ch : lock_free y -> is_proc i -> at_ y i = On k ->
    swapFlag (tab y) <> 0 -> 3 < pid (procs (tab y) i) ->
    step y (mkSys (t_swap_begin i (t_sleep i ch (tab y))) (move i (On (S k)) (at_ y)) (drift y))
| step_swap_end y i k : lock_free y -> is_proc i -> at_ y i = On (S k) ->
    step y (mkSys (t_swap_end i (tab y)) (move i (Off k) (at_ y))
              (drift y + if wokenUp (procs (tab y) i) =? 1 then 1 else 0))
| step_wakeup y ch : lock_free y -> step y (mkSys (t_wake ch (tab y)) (at_ y) (drift y))
| step_kill y id : lock_free y -> step y (mkSys (fst (t_kill_pid id (tab y))) (at_ y) (drift y))
| step_in_run y : st y (inswp y) = RUNNABLE -> at_ y (inswp y) = Off 0 ->
    step y (mkSys (t_state (inswp y) RUNNING (tset (inswp y) (with_chan 0) (tab y))) (move (inswp y) (Scan 0) (at_ y)) (drift y))
| step_in_skip y t : at_ y (inswp y) = Scan t -> t < NPROC -> st y t <> RUNNABLE_SUSPENDED ->
    step y (mkSys (tab y) (move (inswp y) (Scan (t + 1)) (at_ y)) (drift y))
| step_in_found y t : at_ y (inswp y) = Scan t \/ at_ y (inswp y) = Bare t -> t < NPROC -> st y t = RUNNABLE_SUSPENDED ->
    step y (mkSys (tab y) (move (inswp y) (Load t) (at_ y)) (drift y))
| step_in_block y t ch : at_ y (inswp y) = Load t ->
    step y (mkSys (t_sleep (inswp y) ch (tab y)) (at_ y) (drift y))
| step_in_yield y t : at_ y (inswp y) = Load t \/ at_ y (inswp y) = Bare t -> st y (inswp y) = RUNNING ->
    step y (mkSys (t_state (inswp y) RUNNABLE (tab y)) (at_ y) (drift y))
| step_in_loaded y t : at_ y (inswp y) = Load t ->
    step y (mkSys (t_loaded t (tab y)) (move (inswp y) (Scan (t + 1)) (at_ y)) (drift y))
| step_in_again y : at_ y (inswp y) = Scan NPROC -> 0 < swappedout (tab y) ->
    step y (mkSys (tab y) (move (inswp y) (Scan 0) (at_ y)) (drift y))
| step_in_sleep y ch : at_ y (inswp y) = Scan NPROC -> swappedout (tab y) <= 0 ->
    step y (mkSys (t_sleep (inswp y) ch (tab y)) (move (inswp y) (Off 0) (at_ y)) (drift y))
(* the break after a fileopen or an allocuvm that fails *)
| step_in_fail y t : at_ y (inswp y) = Load t ->
    step y (mkSys (tab y) (move (inswp y) (Bare NPROC) (at_ y)) (drift y))
| step_in_bare_skip y t : at_ y (inswp y) = Bare t -> t < NPROC -> st y t <> RUNNABLE_SUSPENDED ->
    step y (mkSys (tab y) (move (inswp y) (Bare (t + 1)) (at_ y)) (drift y))
| step_in_bare_again y : at_ y (inswp y) = Bare NPROC -> 0 < swappedout (tab y) ->
    step y (mkSys (tab y) (move (inswp y) (Bare 0) (at_ y)) (drift y))
| step_in_panic y ch : at_ y (inswp y) = Bare NPROC -> swappedout (tab y) <= 0 ->
    step y (mkSys (t_sleep (inswp y) ch (tab y)) (move (inswp y) Panicked (at_ y)) (drift y)).

(** ** The invariant *)

Definition ind (p : procstate) : Z := if decide (p = RUNNABLE_SUSPENDED) then 1 else 0.
Lemma ind_susp : ind RUNNABLE_SUSPENDED = 1.
Proof. done. Qed.
Lemma ind_other p : p <> RUNNABLE_SUSPENDED -> ind p = 0.
Proof. unfold ind. by case_decide. Qed.

Fixpoint cnt (n : nat) (t : ptable_t) : Z :=
  match n with
  | O => 0
  | S n => cnt n t + ind (state (procs t (Z.of_nat n)))
  end.
Definition nproc_aux : { n : nat | Z.of_nat n = NPROC }.
Proof. by exists 64%nat. Qed.
(** The processes that wait for the inswapper. *)
Definition suspended (t : ptable_t) : Z := cnt (proj1_sig nproc_aux) t.

Definition swapped (p : procstate) : Prop := p = RUNNABLE_SUSPENDED \/ p = SLEEPING_SUSPENDED.

Definition on (p : place) : Prop := match p with On _ => True | _ => False end.

Record tinv (a : Z -> place) (d : Z) (t : ptable_t) : Prop := {
  ti_in : is_proc (inswapper t);
  ti_count : suspended t = swappedout t + d;
  ti_drift : 0 <= d;
  ti_on : forall i, on (a i) -> ~ swapped (state (procs t i)) /\ i <> inswapper t;
  ti_inst : ~ swapped (state (procs t (inswapper t)));
  ti_load : forall i, a (inswapper t) = Load i -> is_proc i /\ state (procs t i) = RUNNABLE_SUSPENDED;
  ti_scan : forall i, a (inswapper t) = Scan i \/ a (inswapper t) = Bare i -> 0 <= i;
  ti_asleep : a (inswapper t) = Off 0 -> state (procs t (inswapper t)) = SLEEPING -> swappedout t <= 0
}.

Lemma cnt_tset n i f t :
  0 <= i -> cnt n (tset i f t)
  = cnt n t + if i <? Z.of_nat n then ind (state (f (procs t i))) - ind (state (procs t i)) else 0.
Proof.
  intros Hi. induction n as [|n IH]; cbn [cnt].
  - destruct (Z.ltb_spec i (Z.of_nat 0)); lia.
  - rewrite IH. cbn [procs tset].
    destruct (Z.eqb_spec (Z.of_nat n) i) as [E|];
      destruct (Z.ltb_spec i (Z.of_nat n)), (Z.ltb_spec i (Z.of_nat (S n))); rewrite ?E; lia.
Qed.

Lemma suspended_tset i f t :
  is_proc i -> suspended (tset i f t) = suspended t + ind (state (f (procs t i))) - ind (state (procs t i)).
Proof.
  unfold is_proc, suspended. intros Hi. rewrite cnt_tset by lia.
  destruct nproc_aux as [n Hn]. cbn [proj1_sig].
  rewrite (proj2 (Z.ltb_lt _ _)); lia.
Qed.

Lemma suspended_tcount d t : suspended (tcount d t) = suspended t.
Proof. unfold suspended. induction (proj1_sig nproc_aux) as [|n IH]; cbn; [done|]. by rewrite IH. Qed.

Lemma cnt_nonneg n t : 0 <= cnt n t.
Proof. induction n as [|m IH]; cbn; [lia|]. unfold ind. case_decide; lia. Qed.

Lemma cnt_zero n t i : cnt n t = 0 -> 0 <= i < Z.of_nat n -> state (procs t i) <> RUNNABLE_SUSPENDED.
Proof.
  induction n as [|n IH]; cbn; intros H Hi; [lia|].
  pose proof (cnt_nonneg n t) as Hn. unfold ind in H. case_decide as E; [lia|].
  destruct (decide (i = Z.of_nat n)) as [->|]; [done|]. apply IH; lia.
Qed.

Lemma suspended_none t i : suspended t <= 0 -> is_proc i -> state (procs t i) <> RUNNABLE_SUSPENDED.
Proof.
  unfold suspended, is_proc. destruct nproc_aux as [n Hn]. cbn [proj1_sig]. intros H Hi.
  apply (cnt_zero n); [|lia]. pose proof (cnt_nonneg n t). lia.
Qed.

(** ** Every step preserves it *)

(** A section that sets the state of one process. *)
Lemma tinv_state a a' d d' i f t :
  tinv a d t -> is_proc i ->
  ind (state (f (procs t i))) - ind (state (procs t i)) = d' - d -> 0 <= d' ->
  (forall j, j <> i -> a' j = a j) ->
  (on (a' i) -> ~ swapped (state (f (procs t i))) /\ i <> inswapper t) ->
  (i = inswapper t -> ~ swapped (state (f (procs t i))) /\ a' i = a i /\
     (a i = Off 0 -> state (f (procs t i)) = SLEEPING -> swappedout t <= 0)) ->
  (forall j, a (inswapper t) = Load j -> j = i -> state (f (procs t i)) = RUNNABLE_SUSPENDED) ->
  tinv a' d' (tset i f t).
Proof.
  intros [Hin Hc Hd Hon Hst Hl Hsc Has] Hi Hind Hd' Ha Hon' Hins Hload.
  assert (a' (inswapper t) = a (inswapper t)) as Ea.
  { destruct (decide (inswapper t = i)) as [<-|]; [by apply Hins|by apply Ha]. }
  split; cbn [inswapper swappedout tset]; try done.
  - rewrite suspended_tset by done. cbn. lia.
  - intros j Hj. cbn [procs tset]. destruct (Z.eqb_spec j i) as [->|]; [by apply Hon'|].
    rewrite Ha in Hj by done. by apply Hon.
  - cbn [procs tset]. destruct (Z.eqb_spec (inswapper t) i) as [<-|]; [by apply Hins|done].
  - intros j Hj. rewrite Ea in Hj. destruct (Hl j Hj) as [? ?]. split; [done|].
    cbn [procs tset]. destruct (Z.eqb_spec j i) as [->|]; [by apply (Hload i)|done].
  - intros j Hj. rewrite Ea in Hj. by apply Hsc.
  - rewrite Ea. intros Ho. cbn [procs tset].
    destruct (Z.eqb_spec (inswapper t) i) as [<-|]; [by apply Hins|by apply Has].
Qed.

(** The proof obligations of [tinv_state], where the state set is not suspended. *)
Ltac not_swapped := unfold swapped, ind in *; intuition (try congruence).

Lemma tinv_resume a d p t :
  tinv a d t -> is_proc p -> state (procs t p) = SLEEPING_SUSPENDED -> tinv a d (t_resume p t).
Proof.
  intros [Hin Hc Hd Hon Hst Hl Hsc Has] Hp Es.
  assert (p <> inswapper t) as Hne by (intros ->; apply Hst; by right).
  assert ((inswapper t =? p) = false) as Hb by (apply Z.eqb_neq; congruence).
  unfold t_resume. split; cbn [inswapper swappedout tset tcount procs]; rewrite ?Z.eqb_refl, ?Hb; try done.
  - rewrite suspended_tset by done. cbn [procs tset tcount]. rewrite Hb, suspended_tset by done.
    rewrite suspended_tcount. cbn [procs tcount with_state state]. rewrite Es.
    assert (ind (state (procs t (inswapper t))) = 0) as -> by (apply ind_other; not_swapped).
    rewrite ind_susp, !ind_other by done. lia.
  - intros i Hi. destruct (Hon i Hi) as [? ?]. rewrite (proj2 (Z.eqb_neq i (inswapper t))) by done.
    destruct (Z.eqb_spec i p) as [->|]; [|done]. rewrite Es in *. not_swapped.
  - cbn. not_swapped.
  - intros i Hi. destruct (Hl i Hi) as [? E]. rewrite (proj2 (Z.eqb_neq i (inswapper t))).
    + split; [done|]. by destruct (i =? p).
    + intros ->. apply Hst. by left.
Qed.

Lemma tinv_wake_one a d p ch t : tinv a d t -> is_proc p -> tinv a d (t_wake_one p ch t).
Proof.
  intros H Hp. unfold t_wake_one. case_decide as H1.
  - destruct H1 as [Es _].
    destruct (_ =? 1); apply (tinv_state a a d d); try done; cbn [with_wokenUp with_state state]; rewrite ?Es;
      try (rewrite !ind_other by done; lia); try apply H;
      try (intros; destruct (ti_load _ _ _ H p); [congruence|congruence]).
    + intros Hi. by destruct (ti_on _ _ _ H p Hi); rewrite <- Es.
    + intros ->. split_and!; [not_swapped|done|]. intros ? _. by apply (ti_asleep _ _ _ H).
    + intros Hi. split; [not_swapped|]. by apply (ti_on _ _ _ H p Hi).
    + intros ->. split_and!; [not_swapped|done|done].
  - case_decide as H2; [|done]. apply tinv_resume; [done..|]. apply H2.
Qed.

Lemma tinv_wake_loop a d n p ch t :
  tinv a d t -> 0 <= p -> p + Z.of_nat n <= NPROC -> tinv a d (t_wake_loop n p ch t).
Proof.
  revert p t. induction n as [|n IH]; intros p t H Hp Hn; cbn [t_wake_loop]; [done|].
  apply IH; [apply tinv_wake_one; [done|unfold is_proc; lia]|lia|lia].
Qed.

Lemma tinv_wake a d ch t : tinv a d t -> tinv a d (t_wake ch t).
Proof. intros. apply tinv_wake_loop; [done|lia|unfold NPROC; lia]. Qed.

(** Changes that leave every state, the inswapper and the counter alone. *)
Lemma tinv_neutral a d i f t :
  tinv a d t -> is_proc i -> state (f (procs t i)) = state (procs t i) -> tinv a d (tset i f t).
Proof.
  intros H Hi E. apply (tinv_state a a d d); rewrite ?E; try done; try lia.
  - apply (ti_drift _ _ _ H).
  - apply (ti_on _ _ _ H).
  - intros ->. split_and!; [apply (ti_inst _ _ _ H)|done|]. apply (ti_asleep _ _ _ H).
  - intros j Hj ->. by apply (ti_load _ _ _ H).
Qed.

(** A process that is not suspended gets another state that is not. *)
Lemma tinv_set a i v t d :
  tinv a d t -> is_proc i -> ~ swapped v -> state (procs t i) <> RUNNABLE_SUSPENDED ->
  (i = inswapper t -> a i = Off 0 -> v = SLEEPING -> swappedout t <= 0) -> tinv a d (t_state i v t).
Proof.
  intros H Hi Hv Hs Ha. apply (tinv_state a a d d); cbn [with_state state]; try done.
  - rewrite !ind_other; [lia|done|not_swapped].
  - apply (ti_drift _ _ _ H).
  - intros Hon. split; [done|]. by apply (ti_on _ _ _ H i Hon).
  - intros ->. split_and!; [done..|]. by apply Ha.
  - intros j Hj ->. by destruct (ti_load _ _ _ H i Hj).
Qed.

Lemma tinv_kill a d n p id t :
  tinv a d t -> 0 <= p -> p + Z.of_nat n <= NPROC -> tinv a d (fst (t_kill n p id t)).
Proof.
  intros H. revert p. induction n as [|n IH]; intros p Hp Hn; cbn [t_kill]; [done|].
  destruct (_ =? id); [|apply IH; lia]. cbn [fst].
  assert (is_proc p) as Hi by (unfold is_proc; lia).
  assert (tinv a d (tset p (with_killed 1) t)) as H1 by by apply tinv_neutral.
  repeat case_decide; [|by apply tinv_resume|done].
  apply tinv_set; [done|done|not_swapped|congruence|done].
Qed.

(** Processes other than the inswapper move freely while they are not suspended. *)
Lemma tinv_move a d i q t :
  tinv a d t -> i <> inswapper t -> ~ swapped (state (procs t i)) \/ ~ on q ->
  tinv (move i q a) d t.
Proof.
  intros [Hin Hc Hd Hon Hst Hl Hsc Has] Hi Hq.
  assert (move i q a (inswapper t) = a (inswapper t)) as E.
  { unfold move. by rewrite (proj2 (Z.eqb_neq _ _)) by done. }
  split; rewrite ?E; try done.
  intros j. unfold move. destruct (Z.eqb_spec j i) as [->|]; [|by apply Hon]. tauto.
Qed.

(** The inswapper moves on in its loop. *)
Lemma tinv_scan a d q t :
  tinv a d t -> ~ on q ->
  (forall i, q = Load i -> is_proc i /\ state (procs t i) = RUNNABLE_SUSPENDED) ->
  (forall i, q = Scan i \/ q = Bare i -> 0 <= i) -> (q = Off 0 -> state (procs t (inswapper t)) = SLEEPING -> swappedout t <= 0) ->
  tinv (move (inswapper t) q a) d t.
Proof.
  intros [Hin Hc Hd Hon Hst Hl Hsc Has] H1 H3 H4 H5.
  assert (move (inswapper t) q a (inswapper t) = q) as E by (unfold move; by rewrite Z.eqb_refl).
  split; rewrite ?E; try done.
  intros j. unfold move. destruct (Z.eqb_spec j (inswapper t)) as [->|]; [|by apply Hon]. tauto.
Qed.

Lemma tinv_loaded a d i t :
  tinv a d t -> a (inswapper t) = Load i -> tinv (move (inswapper t) (Scan (i + 1)) a) d (t_loaded i t).
Proof.
  intros H Hi. destruct (ti_load _ _ _ H i Hi) as [Hp Es].
  assert (i <> inswapper t) as Hne by (intros ->; apply (ti_inst _ _ _ H); by left).
  destruct H as [Hin Hc Hd Hon Hst Hl Hsc Has].
  assert (move (inswapper t) (Scan (i + 1)) a (inswapper t) = Scan (i + 1)) as E by (unfold move; by rewrite Z.eqb_refl).
  unfold t_loaded, t_state.
  split; cbn [inswapper swappedout tset tcount procs]; rewrite ?E; try done.
  - rewrite suspended_tcount, suspended_tset by done. rewrite Es, ind_susp. cbn [with_state state].
    rewrite ind_other by done. lia.
  - intros j. unfold move. destruct (Z.eqb_spec j (inswapper t)) as [->|]; [done|].
    intros Hj. destruct (Hon j Hj) as [? ?]. split; [|done]. destruct (Z.eqb_spec j i) as [->|]; [|done]. cbn. not_swapped.
  - rewrite (proj2 (Z.eqb_neq _ _)) by done. done.
  - intros j [[= <-]|[=]]. unfold is_proc in Hp. lia.
Qed.

(** The end of a swap-out, for a process woken meanwhile and for another. *)
Lemma tinv_swap_end a d i k t :
  tinv a d t -> is_proc i -> a i = On (S k) ->
  tinv (move i (Off k) a) (d + if wokenUp (procs t i) =? 1 then 1 else 0) (t_swap_end i t).
Proof.
  intros H Hi Ha. destruct (ti_on _ _ _ H i) as [Hs Hne]; [by rewrite Ha|].
  assert (move i (Off k) a i = Off k) as Em by (unfold move; by rewrite Z.eqb_refl).
  assert (forall j, j <> i -> move i (Off k) a j = a j) as Ej by (intros; unfold move; by rewrite (proj2 (Z.eqb_neq _ _))).
  unfold t_swap_end. cbn zeta. cbn [procs tset]. rewrite Z.eqb_refl. cbn [wokenUp with_swappingOut].
  assert (tinv a d (tset i (with_swappingOut 0) t)) as H1 by by apply tinv_neutral.
  destruct (_ =? 1).
  - assert (tinv a d (tset i (with_wokenUp 0) (tset i (with_swappingOut 0) t))) as H2 by by apply tinv_neutral.
    apply tinv_set; [|apply H|not_swapped| |done].
    + apply (tinv_state a _ d); try done; cbn [procs tset]; rewrite ?Z.eqb_refl; cbn [state with_state with_wokenUp with_swappingOut].
      * rewrite ind_susp, ind_other by not_swapped. lia.
      * pose proof (ti_drift _ _ _ H). lia.
      * by rewrite Em.
    + cbn [procs tset inswapper]. rewrite !(proj2 (Z.eqb_neq (inswapper t) i)) by done.
      pose proof (ti_inst _ _ _ H). not_swapped.
  - apply (tinv_state a _ d); try done; cbn [procs tset]; rewrite ?Z.eqb_refl; cbn [state with_state with_swappingOut].
    + rewrite !ind_other by not_swapped. lia.
    + pose proof (ti_drift _ _ _ H). lia.
    + by rewrite Em.
    + intros j Hj ->. destruct (ti_load _ _ _ H i Hj). not_swapped.
Qed.

Definition inv (y : sys) : Prop := tinv (at_ y) (drift y) (tab y).

(** A process on the CPU sleeps. *)
Lemma tinv_sleep a d i k ch q t :
  tinv a d t -> is_proc i -> a i = On k -> tinv (move i q a) d (t_sleep i ch t).
Proof.
  intros H Hi Ha. destruct (ti_on _ _ _ H i) as [Hs Hne]; [by rewrite Ha|].
  unfold t_sleep. apply tinv_set; [|done|not_swapped| |done].
  - apply tinv_neutral; [|done|done]. apply tinv_move; [done|done|by left].
  - cbn [procs tset]. rewrite Z.eqb_refl. cbn. not_swapped.
Qed.

(** The inswapper sleeps. *)
Lemma tinv_insleep a d ch t :
  tinv a d t -> (a (inswapper t) = Off 0 -> swappedout t <= 0) -> tinv a d (t_sleep (inswapper t) ch t).
Proof.
  intros H Ha. pose proof (ti_inst _ _ _ H). unfold t_sleep. apply tinv_set.
  - by apply tinv_neutral; [|apply H|].
  - apply H.
  - not_swapped.
  - cbn [procs tset]. rewrite Z.eqb_refl. cbn. not_swapped.
  - intros _ ? _. by apply Ha.
Qed.

Lemma move_same (a : Z -> place) i j : move i (a i) a j = a j.
Proof. unfold move. by destruct (Z.eqb_spec j i) as [->|]. Qed.

Lemma tinv_ext a a' d t : (forall j, a' j = a j) -> tinv a d t -> tinv a' d t.
Proof. intros E [? ? ? ? ? ? ? ?]. split; intros *; rewrite ?E; eauto. Qed.

Lemma tinv_flag a d v t : tinv a d t -> tinv a d (t_flag v t).
Proof.
  assert (suspended (t_flag v t) = suspended t) as E by (unfold suspended; induction (proj1_sig nproc_aux) as [|n IH]; cbn; [done|]; by rewrite IH).
  intros [? ? ? ? ? ? ? ?]. split; try done. by rewrite E.
Qed.

Lemma swap_step_inv y y' : step y y' -> inv y -> inv y'.
Proof.
  unfold inv. intros Hs. destruct Hs as [y i id Hl Hi Es Hid Hne|y i Hi Es Hne|y i Hi Es Hne|y i Hl Hi Es Hne|y i k Hl Hi Es Ha
    |y i Hl Hi Es Ha|y i Hl Hi Es Hne|y v|y i k ch Hl Hi Ha _|y i k ch Hl Hi Ha _ _|y i k Hl Hi Ha|y ch Hl|y id Hl|y Es Ha
    |y t Ha Ht Es|y t Ha Ht Es|y t ch Ha|y t Ha Es|y t Ha|y Ha Hn|y ch Ha Hn|y t Ha|y t Ha Ht Es|y Ha Hn|y ch Ha Hn]; intros H;
    pose proof (ti_inst _ _ _ H) as Hin; cbn [tab at_ drift]; unfold st, inswp in *.
  - apply tinv_set; [by apply tinv_neutral|done|not_swapped| |done].
    cbn [procs tset]. rewrite Z.eqb_refl. cbn. congruence.
  - apply tinv_set; [done|done|not_swapped|congruence|done].
  - apply tinv_set; [done|done|not_swapped|congruence|done].
  - apply tinv_set; [|done|not_swapped|congruence|done].
    destruct (at_ y i) as [k|k|k|k|k|] eqn:E; try (apply (tinv_ext (at_ y)); [|done]; intros j; rewrite <- E; apply move_same).
    apply tinv_move; [done| |left; not_swapped]. destruct Hne as [|Hne]; [done|by destruct (Hne k)].
  - destruct (ti_on _ _ _ H i) as [? ?]; [by rewrite Ha|]. apply tinv_set; [|done|not_swapped|congruence|done].
    apply tinv_move; [done..|]. right. tauto.
  - destruct (ti_on _ _ _ H i) as [? ?]; [by rewrite Ha|]. apply tinv_set; [|done|not_swapped|congruence|done].
    apply tinv_move; [done..|]. right. tauto.
  - apply tinv_set; [done|done|not_swapped|congruence|done].
  - by apply tinv_flag.
  - by eapply tinv_sleep.
  - unfold t_swap_begin. apply tinv_neutral; [|done|done]. apply tinv_neutral; [|done|done]. by eapply tinv_sleep.
  - by apply tinv_swap_end.
  - by apply tinv_wake.
  - apply tinv_kill; [done|lia|unfold NPROC; lia].
  - apply tinv_set; [|apply H|not_swapped| |done].
    + apply tinv_neutral; [|apply H|done]. apply tinv_scan; [done|tauto|done| |done]. intros i [[= <-]|[=]]. lia.
    + cbn [procs tset]. rewrite Z.eqb_refl. cbn. congruence.
  - apply tinv_scan; [done|tauto|done| |done]. intros i [[= <-]|[=]]. pose proof (ti_scan _ _ _ H t (or_introl Ha)). lia.
  - apply tinv_scan; [done|tauto| |by intros i [[=]|[=]]|done]. intros i [= <-]. pose proof (ti_scan _ _ _ H t Ha). by unfold is_proc.
  - apply tinv_insleep; [done|congruence].
  - apply tinv_set; [done|apply H|not_swapped|congruence|done].
  - by apply tinv_loaded.
  - apply tinv_scan; [done|tauto|done| |done]. intros i [[= <-]|[=]]. lia.
  - apply (tinv_insleep _ _ _ (tab y)); [|done]. apply tinv_scan; [done|tauto|done|by intros i [[=]|[=]]|done].
  - apply tinv_scan; [done|tauto|done| |done]. intros i [[=]|[= <-]]. done.
  - apply tinv_scan; [done|tauto|done| |done]. intros i [[=]|[= <-]]. pose proof (ti_scan _ _ _ H t (or_intror Ha)). lia.
  - apply tinv_scan; [done|tauto|done| |done]. intros i [[=]|[= <-]]. lia.
  - apply (tinv_insleep _ _ _ (tab y)); [|done]. apply tinv_scan; [done|tauto|done|by intros i [[=]|[=]]|done].
Qed.

(** ** Reachable states *)

(** A start: no process is suspended, and the inswapper, one of the first three
    processes, has not run. *)
Record start (y : sys) : Prop := {
  s_in : is_proc (inswp y);
  s_pid : pid (procs (tab y) (inswp y)) <= 3;
  s_off : forall i, at_ y i = Off 0;
  s_state : forall i, ~ swapped (st y i);
  s_count : swappedout (tab y) = 0;
  s_drift : drift y = 0
}.

Definition reach (y : sys) : Prop := exists y0, start y0 /\ rtc step y0 y.

Lemma start_inv y : start y -> inv y.
Proof.
  intros [Hin _ Hoff Hst Hc Hd]. unfold inv. split; rewrite ?Hoff; try done; try lia.
  - rewrite Hc, Hd. unfold suspended. induction (proj1_sig nproc_aux) as [|n IH]; cbn; [done|].
    rewrite IH, ind_other; [done|]. pose proof (Hst (Z.of_nat n)). unfold st in *. not_swapped.
  - intros i. by rewrite Hoff.
  - apply Hst.
  - by intros i [[=]|[=]].
Qed.

Lemma swap_reach_inv y : reach y -> inv y.
Proof.
  intros (y0 & Hs & Hr). pose proof (start_inv y0 Hs) as H. clear Hs.
  induction Hr as [|x z w Hs _ IH]; [done|]. apply IH. by apply (swap_step_inv x).
Qed.

(** ** Executing a schedule *)

Inductive act : Type :=
| ARun (i : Z) | ABegin (i ch : Z) | AEnd (i : Z) | AWake (ch : Z) | AKill (id : Z) | AIn (ch : Z) | AFail.

Definition lock_freeb (y : sys) : bool := match at_ y (inswp y) with Scan _ | Panicked => false | _ => true end.
Definition is_procb (i : Z) : bool := (0 <=? i) && (i <? NPROC).

(** The next step of the inswapper; [ch] is the channel it sleeps on. *)
Definition exec_in (ch : Z) (y : sys) : option sys :=
  let i := inswp y in
  let go p := Some (mkSys (tab y) (move i p (at_ y)) (drift y)) in
  match at_ y i with
  | Off 0 => if decide (st y i = RUNNABLE)
           then Some (mkSys (t_state i RUNNING (tset i (with_chan 0) (tab y))) (move i (Scan 0) (at_ y)) (drift y)) else None
  | Scan t =>
    if t <? NPROC then
      if decide (st y t = RUNNABLE_SUSPENDED) then go (Load t) else go (Scan (t + 1))
    else if t =? NPROC then
      if 0 <? swappedout (tab y) then go (Scan 0)
      else Some (mkSys (t_sleep i ch (tab y)) (move i (Off 0) (at_ y)) (drift y))
    else None
  | Bare t =>
    if t <? NPROC then
      if decide (st y t = RUNNABLE_SUSPENDED) then go (Load t) else go (Bare (t + 1))
    else if t =? NPROC then
      if 0 <? swappedout (tab y) then go (Bare 0)
      else Some (mkSys (t_sleep i ch (tab y)) (move i Panicked (at_ y)) (drift y))
    else None
  | Load t => Some (mkSys (t_loaded t (tab y)) (move i (Scan (t + 1)) (at_ y)) (drift y))
  | _ => None
  end.
Definition exec_fail (y : sys) : option sys :=
  match at_ y (inswp y) with Load t => Some (mkSys (tab y) (move (inswp y) (Bare NPROC) (at_ y)) (drift y)) | _ => None end.

Definition exec (a : act) (y : sys) : option sys :=
  match a with
  | AIn ch => exec_in ch y
  | AFail => exec_fail y
  | _ => if negb (lock_freeb y) then None else
    match a with
    | ARun i => match at_ y i with
                | Off k => if is_procb i && bool_decide (st y i = RUNNABLE) && negb (i =? inswp y)
                           then Some (mkSys (t_state i RUNNING (tab y)) (move i (On k) (at_ y)) (drift y)) else None
                | _ => None
                end
    | ABegin i ch => match at_ y i with
                     | On k => if is_procb i && negb (swapFlag (tab y) =? 0) && (3 <? pid (procs (tab y) i))
                               then Some (mkSys (t_swap_begin i (t_sleep i ch (tab y))) (move i (On (S k)) (at_ y)) (drift y)) else None
                     | _ => None
                     end
    | AEnd i => match at_ y i with
                | On (S k) => if is_procb i
                              then Some (mkSys (t_swap_end i (tab y)) (move i (Off k) (at_ y))
                                     (drift y + if wokenUp (procs (tab y) i) =? 1 then 1 else 0)) else None
                | _ => None
                end
    | AWake ch => Some (mkSys (t_wake ch (tab y)) (at_ y) (drift y))
    | AKill id => Some (mkSys (fst (t_kill_pid id (tab y))) (at_ y) (drift y))
    | _ => None
    end
  end.

Fixpoint exec_all (l : list act) (y : sys) : option sys :=
  match l with
  | [] => Some y
  | a :: l => match exec a y with Some y' => exec_all l y' | None => None end
  end.

Lemma lock_freeb_ok y : lock_freeb y = true -> lock_free y.
Proof. unfold lock_freeb, lock_free. by destruct (at_ y (inswp y)). Qed.

Lemma is_procb_ok i : is_procb i = true -> is_proc i.
Proof. unfold is_procb, is_proc. lia. Qed.

Lemma exec_in_step ch y y' : exec_in ch y = Some y' -> step y y'.
Proof.
  unfold exec_in. destruct (at_ y (inswp y)) as [[|k]|k|t|t|t|] eqn:Ea; try done; cbv zeta.
  - case_decide; [|done]. intros [= <-]. by apply step_in_run.
  - destruct (Z.ltb_spec t NPROC).
    + case_decide; intros [= <-]; [apply step_in_found; auto|by apply step_in_skip].
    + destruct (Z.eqb_spec t NPROC) as [->|]; [|done].
      destruct (Z.ltb_spec 0 (swappedout (tab y))); intros [= <-]; [by apply step_in_again|by apply step_in_sleep].
  - destruct (Z.ltb_spec t NPROC).
    + case_decide; intros [= <-]; [apply step_in_found; auto|by apply step_in_bare_skip].
    + destruct (Z.eqb_spec t NPROC) as [->|]; [|done].
      destruct (Z.ltb_spec 0 (swappedout (tab y))); intros [= <-]; [by apply step_in_bare_again|by apply step_in_panic].
  - intros [= <-]. by apply step_in_loaded.
Qed.

Lemma exec_step a y y' : exec a y = Some y' -> step y y'.
Proof.
  unfold exec, exec_fail. destruct a as [i|i ch|i|ch|id|ch|]; try apply exec_in_step.
  6: destruct (at_ y (inswp y)) as [k|k|t|t|t|] eqn:Ea; try done; intros [= <-]; by eapply step_in_fail.
  all: destruct (lock_freeb y) eqn:El; cbn [negb]; [|done]; apply lock_freeb_ok in El.
  - destruct (at_ y i) as [k|k|t|t|t|] eqn:Ea; try done. destruct (_ && _) eqn:E; [|done]. intros [= <-].
    apply andb_true_iff in E as [E E3]. apply andb_true_iff in E as [E1 E2].
    apply is_procb_ok in E1. apply bool_decide_eq_true in E2. apply negb_true_iff, Z.eqb_neq in E3.
    pose proof (step_run y i El E1 E2 (or_introl E3)) as H. by rewrite Ea in H.
  - destruct (at_ y i) as [k|k|t|t|t|] eqn:Ea; try done. destruct (_ && _) eqn:E; [|done]. intros [= <-].
    apply andb_true_iff in E as [E E4]. apply andb_true_iff in E as [E1 E3].
    apply is_procb_ok in E1. apply negb_true_iff, Z.eqb_neq in E3. apply step_swap_begin; [done..|lia].
  - destruct (at_ y i) as [k|[|k]|t|t|t|] eqn:Ea; try done. destruct (is_procb i) eqn:E1; [|done]. intros [= <-].
    apply is_procb_ok in E1. by apply step_swap_end.
  - intros [= <-]. by apply step_wakeup.
  - intros [= <-]. by apply step_kill.
Qed.

Lemma exec_all_steps l y y' : exec_all l y = Some y' -> rtc step y y'.
Proof.
  revert y. induction l as [|a l IH]; intros y; cbn; [intros [= ->]; apply rtc_refl|].
  destruct (exec a y) as [z|] eqn:E; [|done]. intros H. apply (rtc_l _ _ z); [by apply (exec_step a)|by apply IH].
Qed.

(** ** What the protocol guarantees, and where it fails *)

(** Process 0 is init, 1 the inswapper (asleep), 2 to 4 are user processes. *)
Definition sched_proc (i : Z) : proc :=
  mkProc 4096 0 0 (if i =? 1 then SLEEPING else if (2 <=? i) && (i <=? 4) then RUNNABLE else UNUSED)
    (i + 1 + if 2 <=? i then 1 else 0) (-1) 0 0 0 0 (fun _ => 0) 0 [] 0 [] 0 0 0.
Definition sched_start : sys :=
  mkSys (mkPtable sched_proc (initlock "ptable") (initlock "swaplock") (initlock "wakeuplock") 0 1 7 1 0)
    (fun _ => Off 0) 0.

Lemma sched_start_ok : start sched_start.
Proof.
  split; try done. intros i. unfold st, sched_start, sched_proc, swapped. cbn.
  destruct (i =? 1); [by intros [|]|]. destruct (_ && _); by intros [|].
Qed.

Lemma exec_reach l y : exec_all l sched_start = Some y -> reach y.
Proof. intros H. exists sched_start. split; [apply sched_start_ok|by apply (exec_all_steps l)]. Qed.

(** A state a schedule leads to that passes a test. *)
Lemma exec_found l (Q : sys -> bool) :
  match exec_all l sched_start with Some y => Q y | None => false end = true -> exists y, reach y /\ Q y = true.
Proof. destruct (exec_all l sched_start) as [y|] eqn:E; [|done]. intros H. exists y. split; [by apply (exec_reach l)|done]. Qed.

(** C37 The counter of waiting processes.  In every reachable interleaving of
    sleep, swap-outs (also the nested ones of a sleep inside swapOut), wakeup, kill and
    swap-in, with loads that succeed and loads that fail and leave the inswapper without
    the lock, and with swapping turned on and off, the number of RUNNABLE_SUSPENDED
    processes is the counter swappedout plus the number of processes that were woken
    during their swap-out; and while there was no such process, the inswapper never
    sleeps on a process that waits to be swapped in. *)
Theorem swap_counter_tracks (y : sys) :
  reach y ->
  suspended (tab y) = swappedout (tab y) + drift y /\
  (at_ y (inswp y) = Off 0 -> st y (inswp y) = SLEEPING -> drift y = 0 ->
   forall i, is_proc i -> st y i <> RUNNABLE_SUSPENDED).
Proof.
  intros H%swap_reach_inv. split; [apply H|]. intros Ha Hs Hd i Hi.
  apply suspended_none; [|done]. rewrite (ti_count _ _ _ H), Hd.
  pose proof (ti_asleep _ _ _ H Ha Hs). lia.
Qed.

(** Process 2 sleeps and is swapped out, with a sleep and another swap-out inside the
    first one, and is woken from both; process 3 is swapped out and woken.  The first
    attempt to load 2 fails, the second one does not; then 3 is loaded. *)
Definition failing_schedule : list act :=
  [ARun 2; ABegin 2 100; ABegin 2 101; AEnd 2; ARun 3; ABegin 3 102; AEnd 3; AWake 101; AWake 102] ++ repeat (AIn 9) 4 ++ [AFail].
Definition loading_schedule : list act := failing_schedule ++ repeat (AIn 9) 4 ++ repeat (AIn 9) 64.
Definition after_schedule (l : list act) : sys := default sched_start (exec_all l sched_start).

Lemma after_reach l : match exec_all l sched_start with Some _ => true | None => false end = true -> reach (after_schedule l).
Proof. unfold after_schedule. destruct (exec_all l sched_start) as [y|] eqn:E; [|done]. intros _. by apply (exec_reach l). Qed.

Lemma swap_counter_tracks_witness :
  (at_ (after_schedule failing_schedule) 1 = Bare NPROC /\ suspended (tab (after_schedule failing_schedule)) = 2) /\
  (at_ (after_schedule loading_schedule) 2 = Off 1 /\ forall i, is_proc i -> st (after_schedule loading_schedule) i <> RUNNABLE_SUSPENDED).
Proof.
  split; (split; [vm_compute; reflexivity|]).
  - destruct (swap_counter_tracks (after_schedule failing_schedule)) as [H _]; [apply after_reach; vm_compute; reflexivity|]. rewrite H. vm_compute. reflexivity.
  - destruct (swap_counter_tracks (after_schedule loading_schedule)) as [_ H]; [apply after_reach; vm_compute; reflexivity|]. apply H; vm_compute; reflexivity.
Defined.

(** A load that fails when no other process waits, after one was woken during its
    swap-out, ends in the panic of sched. *)
Lemma swap_failure_panics : exists y, reach y /\ at_ y (inswp y) = Panicked.
Proof.
  destruct (exec_found ([ARun 2; ABegin 2 100; AWake 100; AEnd 2] ++ repeat (AIn 9) 4 ++ [AFail; AIn 9]) (fun y => bool_decide (at_ y (inswp y) = Panicked)))
    as (y & Hr & H); [vm_compute; reflexivity|]. exists y. rewrite bool_decide_eq_true in H. done.
Qed.

(** The schedule: process 2 is woken during its swap-out and swapped in, which
    leaves the counter at -1; then 4 is being loaded when 3 is woken. *)
Definition lost_schedule : list act :=
  [ARun 2; ABegin 2 100; AWake 100; AEnd 2] ++ repeat (AIn 9) 67 ++
  [ARun 3; ABegin 3 101; AEnd 3; ARun 4; ABegin 4 102; AEnd 4; AWake 102] ++ repeat (AIn 9) 6 ++
  [AWake 101] ++ repeat (AIn 9) 61.

(** C40 sleep does not count a process woken during its swap-out, while swapIn
    uncounts it: a schedule leads to a state where the inswapper sleeps, with
    the counter at 0, while process 3 waits to be swapped in. *)
Theorem swap_wakeup_lost :
  exists y, reach y /\ at_ y (inswp y) = Off 0 /\ st y (inswp y) = SLEEPING /\
    swappedout (tab y) = 0 /\ st y 3 = RUNNABLE_SUSPENDED.
Proof.
  destruct (exec_found lost_schedule (fun y => bool_decide (at_ y (inswp y) = Off 0) && bool_decide (st y (inswp y) = SLEEPING)
    && (swappedout (tab y) =? 0) && bool_decide (st y 3 = RUNNABLE_SUSPENDED))) as (y & Hr & H); [vm_compute; reflexivity|].
  exists y. split; [done|]. rewrite !andb_true_iff, !bool_decide_eq_true, Z.eqb_eq in H. tauto.
Qed.

(** Two paths make a process RUNNABLE while it is executing, so that another
    CPU may run it a second time on the same stack: kill of a process that is
    in swapOut, and the wakeup of a suspended process while the inswapper is
    loading another one. *)
Theorem swap_double_dispatch :
  (exists y i, reach y /\ at_ y i = On 1 /\ st y i = RUNNABLE) /\
  (exists y t, reach y /\ at_ y (inswp y) = Load t /\ st y (inswp y) = RUNNABLE).
Proof.
  split.
  - destruct (exec_found [ARun 2; ABegin 2 100; AKill 4] (fun y => bool_decide (at_ y 2 = On 1) && bool_decide (st y 2 = RUNNABLE)))
      as (y & Hr & H); [vm_compute; reflexivity|].
    exists y, 2. rewrite !andb_true_iff, !bool_decide_eq_true in H. tauto.
  - destruct (exec_found ([ARun 2; ABegin 2 100; AEnd 2; ARun 3; ABegin 3 101; AEnd 3; AWake 100] ++ repeat (AIn 9) 4 ++ [AWake 101])
      (fun y => bool_decide (at_ y (inswp y) = Load 2) && bool_decide (st y (inswp y) = RUNNABLE)))
      as (y & Hr & H); [vm_compute; reflexivity|].
    exists y, 2. rewrite !andb_true_iff, !bool_decide_eq_true in H. tauto.
Qed.
