(* ===== verification/Fork.v ===== *)
(** * fork makes a copy of the process

    allocproc, copyuvm and the rest of fork (proc.c) put together: the entry of
    the child, its kernel stack, its address space and its trap frame. *)

From Stdlib Require Import ZArith Lia String Bool.
From stdpp Require Import base numbers list.
From S2P Require Import Prelude Params Mem Spinlock Pages Kalloc Vm PageTable AddrSpace CopyVm Shm Proc Swap.

Section fork.
Context {Lay : Layout} {F : Type} {FS : FsOps (pst F)}.
Context (trapret forkret_addr : Z).
Abbreviation P := (pst F).
#[local] Instance fork_page_spec : PageSpec P := PageSpec_zoom ps_kL.

(** ** An entry of the table *)

(** The first entry that is not in use *)
Record first_unused (t : ptable_t) (np : Z) : Prop := {
  fu_range : 0 <= np < NPROC;
  fu_state : state (procs t np) = UNUSED;
  fu_before : forall j, 0 <= j < np -> state (procs t j) <> UNUSED
}.

Lemma find_unused_spec (s : P) np n : forall i, i <= np < i + Z.of_nat n -> (forall j, i <= j < np -> state (procs (ps_t s) j) <> UNUSED) ->
  state (procs (ps_t s) np) = UNUSED -> find_unused n i s = Ret (np, s).
Proof.
  induction n as [|n IH]; intros i Hi Hb Hu; [lia|]. cbn [find_unused]. mstep. cbn [view procL lens_comp ps_tL].
  destruct (decide (i = np)) as [->|Hne]; [by rewrite decide_True|]. rewrite decide_False by (apply Hb; lia). apply IH; [lia| |done]. intros j Hj. apply Hb. lia.
Qed.

(** What allocproc makes of the entry, with the page [k] as kernel stack *)
Definition newborn (p : proc) (id k : Z) : proc :=
  with_swapFileName (swap_name id) (with_context (k + 3996) (with_tf (k + 4020) (with_kstack k (with_pid id (with_state EMBRYO p))))).

(** The entry [np] is [p]; the rest of the table and the CPU's process are those of [s0]. *)
Record at_entry (s0 s : P) (np : Z) (p : proc) : Prop := {
  ae_entry : procs (ps_t s) np = p;
  ae_other : forall j, j <> np -> procs (ps_t s) j = procs (ps_t s0) j;
  ae_run : ps_r s = ps_r s0;
  ae_lock : locked (ptable_lock (ps_t s)) = locked (ptable_lock (ps_t s0))
}.

Lemma at_entry_table s0 s s' np p : at_entry s0 s np p -> ps_t s' = ps_t s -> ps_r s' = ps_r s -> at_entry s0 s' np p.
Proof. intros [? ? ? ?] E1 E2. split; by rewrite ?E1, ?E2. Qed.

Lemma pset_at s0 s np p f : at_entry s0 s np p ->
  exists s', pset np f s = Ret (tt, s') /\ at_entry s0 s' np (f p) /\ ps_k s' = ps_k s /\ ps_fs s' = ps_fs s.
Proof.
  intros [E Ho Hr Hl]. eexists. split; [reflexivity|]. split; [|done]. cbn [view procL lens_comp ps_tL]. rewrite E. split; cbn.
  - by rewrite Z.eqb_refl.
  - intros j Hj. rewrite (proj2 (Z.eqb_neq j np)) by done. by apply Ho.
  - done.
  - done.
Qed.

Lemma owns_state (s s' : P) pd held l : owns s pd held l -> ps_k s' = ps_k s -> owns s' pd held l.
Proof. intros HO E. unfold owns, tables in *. unfold mem_of in *. cbn in *. by rewrite E. Qed.

(** allocproc up to the release of the lock *)
Lemma claim_entry (s : P) np pd held l : owns s pd held l -> locked (ptable_lock (ps_t s)) = 0 -> first_unused (ps_t s) np ->
  exists s', (forall (A : Type) (x : M P A) (k : Z -> M P A), (acquire ptable_lockL ;;
    let* p := find_unused (Z.to_nat NPROC) 0 in
    if p =? -1 then x else
    pset p (with_state EMBRYO) ;;
    let* n := getf nextpidL in
    setf nextpidL (s32 (n + 1)) ;;
    pset p (with_pid n) ;;
    release ptable_lockL ;; k p) s = k np s') /\
  at_entry s s' np (with_pid (nextpid (ps_t s)) (with_state EMBRYO (procs (ps_t s) np))) /\ mem_of s' = mem_of s /\ owns s' pd held l /\ ps_fs s' = ps_fs s.
Proof.
  intros HO Hl [Hr Hu Hb]. assert (cpu_ok (view cpuL s)) as Hc by (destruct HO as [[] _]; done).
  set (s1 := put ptable_lockL (mkLock (lk_name (view ptable_lockL s)) 1 (cpu_ptr (view cpuL s))) (put cpuL (pushed (view cpuL s)) s)).
  assert (find_unused (Z.to_nat NPROC) 0 s1 = Ret (np, s1)) as E1. { apply find_unused_spec; [unfold NPROC in *; lia|done|done]. }
  set (y := put nextpidL (s32 (nextpid (ps_t s) + 1)) (put (procL np) (with_state EMBRYO (procs (ps_t s) np)) s1)).
  set (s2 := put (procL np) (with_pid (nextpid (ps_t s)) (view (procL np) y)) y).
  set (s3 := put ptable_lockL (mkLock (lk_name (view ptable_lockL s2)) 0 0) (put cpuL (popped (view cpuL s2)) s2)).
  assert (release ptable_lockL s2 = Ret (tt, s3)) as E2.
  { pose proof (ok_ncli _ Hc). apply release_held; try apply _; try done. cbn in *. lia. }
  exists s3. split.
  { intros A x k. mstep_with (acquire_free (ptable_lockL : lens P spinlock) s Hl). fold s1. mstep_with E1. rewrite (proj2 (Z.eqb_neq np (-1))) by lia. mstep. mstep. mstep. mstep.
    change (bind (release ptable_lockL) (fun _ => k np) s2 = k np s3). by mstep_with E2. }
  split; [|split; [reflexivity|split; [|reflexivity]]].
  - split; cbn; rewrite ?Z.eqb_refl; try done. intros j Hj. by rewrite !(proj2 (Z.eqb_neq j np)).
  - destruct HO as [[H1 H2 H3 H4 H5] HD]. split; [|exact HD]. split; try done. cbn. cbn in H1. by apply (cpu_ok_proper _ _ (popped_pushed _ H1)).
Qed.

(** A write to a held page *)
Lemma write_page (s : P) pd held l p m' : owns s pd held l -> p ∈ held -> agree (fun a => ~ in_page p a) (mem_of s) m' ->
  owns (put memL m' s) pd held l /\ mem_of (put memL m' s) = m' /\
  (forall va, 0 <= va < KERNBASE -> ubyte m' pd va = ubyte (mem_of s) pd va) /\ space m' pd = space (mem_of s) pd.
Proof.
  intros HO Hp Hag. destruct (write_held s pd held l p m' HO) as (HO' & _ & Hpte & Hsp); [apply elem_of_app; by right|done|].
  split_and!; [done|apply mem_of_put| |done]. intros va Hva. destruct (uva_range va Hva) as [Hu Hv]. apply ubyte_eq; [by apply Hpte|]. intros q a Hq Ha. apply Hag. intros Hc.
  apply owns_distinct in HO as [_ HD]. apply (distinct_apart (space (mem_of s) pd) held a).
  - eapply distinct_sub; [|exact HD]. solve_submseteq.
  - apply (in_pages_1 q); [|done]. unfold space. apply elem_of_cons. right. apply elem_of_app. right. by apply (upages_elem _ _ (va / 4096)).
  - by apply (in_pages_1 p).
Qed.

Lemma allocproc_spec (s : P) np pd held k l :
  owns s pd held (k :: l) -> locked (ptable_lock (ps_t s)) = 0 -> first_unused (ps_t s) np ->
  exists s', allocproc trapret forkret_addr s = Ret (np, s') /\ owns s' pd (k :: held) l /\ ps_fs s' = ps_fs s /\
    at_entry s s' np (newborn (procs (ps_t s) np) (nextpid (ps_t s)) k) /\
    agree (fun a => ~ in_page k a) (mem_of s) (mem_of s') /\
    ld32 (mem_of s') (k + 4016) = u32 trapret /\ ld32 (mem_of s') (k + 3996 + context_eip) = u32 forkret_addr.
Proof.
  intros HO Hl Hfu. destruct (claim_entry s np pd held (k :: l) HO Hl Hfu) as (s1 & E1 & A1 & M1 & HO1 & Fs1).
  destruct (take_page s1 pd held k l HO1) as (s2 & E2 & Hk & M2 & H2). destruct (H2 (mem_of s1) ltac:(done)) as (HO2 & Env & _).
  assert (put memL (mem_of s1) s2 = s2) as Ep by (rewrite <- M2; apply put_view). rewrite Ep in HO2, Env. destruct Env as [_ Es2].
  assert (at_entry s s2 np (with_pid (nextpid (ps_t s)) (with_state EMBRYO (procs (ps_t s) np)))) as A2 by (rewrite Es2; by eapply at_entry_table).
  assert (ps_fs s2 = ps_fs s) as Fs2 by (by rewrite Es2). clear Es2 H2 Ep.
  assert (page_ok k) as Hok by (destruct HO1 as [Hf _]; pose proof (free_ok _ _ Hf) as Ha; by apply Forall_cons in Ha as [? _]). pose proof (page_ok_bounds k Hok) as Hkb.
  destruct (pset_at s s2 np _ (with_kstack k) A2) as (s3 & E3 & A3 & K3 & Fs3).
  destruct (pset_at s s3 np _ (with_tf (k + 4020)) A3) as (s4 & E4 & A4 & K4 & Fs4).
  assert (owns s4 pd (k :: held) l) as HO4 by (eapply owns_state; [exact HO2|congruence]). assert (mem_of s4 = mem_of s) as M4 by (unfold mem_of in *; cbn in *; congruence).
  set (s5 := put memL (st32 (mem_of s4) (k + 4016) trapret) s4).
  assert (forall m a v, k <= a -> a + 4 <= k + 4096 -> agree (fun b => ~ in_page k b) m (st32 m a v)) as Hst.
  { intros m a v H1 H2'. eapply agree_weaken; [|apply st32_agree]. intros b Hb Hc. apply Hb. unfold in_page, PGSIZE. lia. }
  destruct (write_page s4 pd (k :: held) l k (st32 (mem_of s4) (k + 4016) trapret) HO4) as (HO5 & M5 & _ & _); [apply elem_of_cons; by left|apply Hst; lia|]. fold s5 in HO5, M5.
  destruct (pset_at s s5 np _ (with_context (k + 3996)) (at_entry_table s s4 s5 np _ A4 eq_refl eq_refl)) as (s6 & E6 & A6 & K6 & Fs6).
  assert (owns s6 pd (k :: held) l) as HO6 by (eapply owns_state; [exact HO5|done]). assert (mem_of s6 = mem_of s5) as M6 by (unfold mem_of; cbn; by rewrite K6).
  set (m7 := memset (mem_of s6) (k + 3996) 0 sizeof_context). set (m8 := st32 m7 (k + 3996 + context_eip) forkret_addr).
  assert (agree (fun b => ~ in_page k b) (mem_of s6) m7) as Ag7.
  { intros b Hb. unfold m7. rewrite ld8_memset. unfold in_page, PGSIZE, sizeof_context in *. destruct (Z.leb_spec (k + 3996) b), (Z.ltb_spec b (k + 3996 + 20)); cbn [andb]; done || lia. }
  destruct (write_page s6 pd (k :: held) l k m7 HO6) as (HO7 & M7 & _ & _); [apply elem_of_cons; by left|done|]. set (s7 := put memL m7 s6) in *.
  destruct (write_page s7 pd (k :: held) l k m8 HO7) as (HO8 & M8 & _ & _); [apply elem_of_cons; by left|rewrite M7; apply Hst; unfold context_eip; lia|]. set (s8 := put memL m8 s7) in *.
  assert (pid (procs (ps_t s8) np) = nextpid (ps_t s)) as Ei by (change (ps_t s8) with (ps_t s6); by rewrite (ae_entry _ _ _ _ A6)).
  destruct (pset_at s s8 np _ (with_swapFileName (swap_name (nextpid (ps_t s)))) (at_entry_table s s6 s8 np _ A6 eq_refl eq_refl)) as (s9 & E9 & A9 & K9 & Fs9).
  assert (mem_of s9 = m8) as M9 by (unfold mem_of in *; cbn in *; by rewrite K9).
  exists s9. split_and!; [|by eapply owns_state|rewrite Fs9; change (ps_fs s8) with (ps_fs s6); rewrite Fs6; change (ps_fs s5) with (ps_fs s4); congruence|exact A9|..].
  - unfold allocproc. rewrite E1. mstep_with E2. mstep_with E3. rewrite (proj2 (Z.eqb_neq k 0)) by done.
    change (k + KSTACKSIZE - sizeof_tf) with (k + 4096 - 76). replace (k + 4096 - 76) with (k + 4020) by lia. mstep_with E4.
    replace (k + 4020 - 4) with (k + 4016) by lia. mstep. fold s5. replace (k + 4016 - sizeof_context) with (k + 3996) by (unfold sizeof_context; lia). mstep_with E6.
    mstep. fold m7. fold s7. mstep. rewrite M7. fold m8. fold s8. mstep. change (view (procL np) s8) with (procs (ps_t s8) np). rewrite Ei. by mstep_with E9.
  - rewrite M9. intros b Hb. unfold m8. rewrite (Hst m7 _ _) by (unfold context_eip; lia || done). rewrite (Ag7 b Hb), M6, M5, (Hst (mem_of s4)) by (lia || done). by rewrite M4.
  - rewrite M9. unfold m8. rewrite ld32_st32_ne by (unfold context_eip; lia). rewrite (ld32_agree (fun b => ~ (k + 3996 <= b < k + 4016)) (mem_of s6)); [rewrite M6, M5; apply ld32_st32_same| |].
    + intros b Hb. unfold m7. rewrite ld8_memset. unfold sizeof_context. destruct (Z.leb_spec (k + 3996) b), (Z.ltb_spec b (k + 3996 + 20)); cbn [andb]; done || lia.
    + cbn. lia.
  - rewrite M9. apply ld32_st32_same.
Qed.

(** ** Files *)

(** Nothing but the file system and the bookkeeping of locks differs. *)
Record same_machine (s s' : P) : Prop := {
  sm_mem : mem_of s' = mem_of s;
  sm_table : ps_t s' = ps_t s;
  sm_run : ps_r s' = ps_r s;
  sm_pages : forall l, free_pages s l -> free_pages s' l
}.

(** One more reference to [f] in the counts [r] *)
Definition one_more (r : Z -> Z) (f : Z) : Z -> Z := fun g => r g + (if g =? f then 1 else 0).

(** What fork relies on from file.c and fs.c, when the locks of the two tables are
    free: a file that is open, and an inode that is in use, get one more
    reference, and stay where they are. *)
Class FsDup : Type := {
  fs_ready : F -> Prop;
  file_refs : F -> Z -> Z;
  inode_refs : F -> Z -> Z;
  filedup_spec : forall (s : P) l f, free_pages s l -> fs_ready (ps_fs s) -> 1 <= file_refs (ps_fs s) f ->
    exists s', filedup f s = Ret (f, s') /\ same_machine s s' /\ fs_ready (ps_fs s') /\
      (forall g, file_refs (ps_fs s') g = one_more (file_refs (ps_fs s)) f g) /\ (forall d, inode_refs (ps_fs s') d = inode_refs (ps_fs s) d);
  idup_spec : forall (s : P) l d, free_pages s l -> fs_ready (ps_fs s) ->
    exists s', idup d s = Ret (d, s') /\ same_machine s s' /\ fs_ready (ps_fs s') /\
      (forall g, file_refs (ps_fs s') g = file_refs (ps_fs s) g) /\ (forall e, inode_refs (ps_fs s') e = one_more (inode_refs (ps_fs s)) d e)
}.

(** How many of the [n] descriptors from [i] on refer to [f] *)
Fixpoint fds (n : nat) (i : Z) (g : Z -> Z) (f : Z) : Z :=
  match n with O => 0 | S n => (if negb (g i =? 0) && (f =? g i) then 1 else 0) + fds n (i + 1) g f end.

Lemma same_owns s s' pd held l : same_machine s s' -> owns s pd held l -> owns s' pd held l.
Proof. intros [Hm _ _ Hp] [Hf HD]. split; [by apply Hp|]. by rewrite Hm. Qed.

Definition with_files (g : Z -> Z) (p : proc) : proc :=
  mkProc (sz p) (pgdir p) (kstack p) (state p) (pid p) (parent p) (tf p) (context p) (chan p) (killed p) g (cwd p) (name p) (swap p) (swapFileName p) (swappingOut p) (wokenUp p) (has_shm p).

Lemma dup_files_spec {FD : FsDup} s0 np c p (g : Z -> Z) n : forall (s : P) i pd held l, at_entry s0 s np p -> c <> np -> ofile (procs (ps_t s0) c) = g ->
  owns s pd held l -> fs_ready (ps_fs s) -> (forall j, g j <> 0 -> 1 <= file_refs (ps_fs s) (g j)) ->
  exists s' g', dup_files n c np i s = Ret (tt, s') /\ at_entry s0 s' np (with_files g' p) /\ owns s' pd held l /\ mem_of s' = mem_of s /\
    (forall j, g' j = if (i <=? j) && (j <? i + Z.of_nat n) && negb (g j =? 0) then g j else ofile p j) /\
    fs_ready (ps_fs s') /\ (forall f, file_refs (ps_fs s') f = file_refs (ps_fs s) f + fds n i g f) /\ (forall d, inode_refs (ps_fs s') d = inode_refs (ps_fs s) d).
Proof.
  induction n as [|n IH] in p |- *; intros s i pd held l A Hc Hg HO Hrd Hop.
  - exists s, (ofile p). split_and!; try done; [by destruct p| |intros f; cbn; lia]. intros j. destruct (Z.leb_spec i j), (Z.ltb_spec j (i + Z.of_nat 0)); cbn [andb]; done || lia.
  - cbn [dup_files fds]. mstep. change (view (procL c) s) with (procs (ps_t s) c). rewrite (ae_other _ _ _ _ A c Hc), Hg.
    destruct (Z.eqb_spec (g i) 0) as [Ez|Ez]; cbn [negb andb].
    + mstep. destruct (IH p s (i + 1) pd held l) as (s' & g' & E & A' & HO' & M' & Hg' & Hd); try done. exists s', g'. split_and!; try done; [|apply Hd..]. intros j. rewrite Hg'.
      destruct (Z.leb_spec (i + 1) j), (Z.ltb_spec j (i + 1 + Z.of_nat n)), (Z.leb_spec i j), (Z.ltb_spec j (i + Z.of_nat (S n))); cbn [andb]; try done; try lia.
      replace j with i by lia. by rewrite Ez.
    + destruct (filedup_spec s l (g i) (proj1 HO) Hrd (Hop i Ez)) as (s1 & E1 & S1 & Rd1 & Hf1 & Hi1).
      destruct (pset_at s0 s1 np p (with_ofile i (g i))) as (s2 & E2 & A2 & K2 & F2); [eapply at_entry_table; [exact A|apply S1|apply S1]|].
      assert (owns s2 pd held l) as HO2 by (eapply owns_state; [by eapply same_owns|done]). assert (mem_of s2 = mem_of s) as M2 by (rewrite <- (sm_mem _ _ S1); unfold mem_of; cbn; by rewrite K2).
      assert ((let* f' := filedup (g i) in pset np (with_ofile i f')) s = Ret (tt, s2)) as E12 by (by rewrite (bind_ret_eq _ _ _ _ _ E1)). rewrite (bind_ret_eq _ _ _ _ _ E12).
      destruct (IH (with_ofile i (g i) p) s2 (i + 1) pd held l) as (s' & g' & E & A' & HO' & M' & Hg' & Hd1 & Hd2 & Hd3); try done.
      { by rewrite F2. } { intros j Hj. rewrite F2, Hf1. unfold one_more. specialize (Hop j Hj). case_match; lia. }
      exists s', g'. split_and!; [done|done|done|congruence| |done|intros f|intros d]; [|rewrite Hd2, F2, Hf1; unfold one_more; cbn [andb]; lia|by rewrite Hd3, F2].
      intros j. rewrite Hg'. cbn [ofile with_ofile]. destruct (Z.eqb_spec j i) as [->|Hji].
      * rewrite (proj2 (Z.leb_gt (i + 1) i)), (proj2 (Z.leb_le i i)), (proj2 (Z.ltb_lt i (i + Z.of_nat (S n)))), (proj2 (Z.eqb_neq _ 0) Ez) by lia. done.
      * destruct (Z.leb_spec (i + 1) j), (Z.ltb_spec j (i + 1 + Z.of_nat n)), (Z.leb_spec i j), (Z.ltb_spec j (i + Z.of_nat (S n))); cbn [andb]; done || lia.
Qed.

(** ** fork *)

(** The process that calls fork, at [c]: it owns its address space, its trap frame
    is on the kernel stack [kp], and its files are open. *)
Record can_fork {FD : FsDup} (s : P) (c kp : Z) (held l : list Z) : Prop := {
  cf_owns : owns s (pgdir (procs (ps_t s) c)) held l;
  cf_lock : locked (ptable_lock (ps_t s)) = 0;
  cf_used : state (procs (ps_t s) c) <> UNUSED;
  cf_size : 0 <= sz (procs (ps_t s) c) <= KERNBASE;
  cf_pages : forall k, 0 <= k < npages (sz (procs (ps_t s) c)) -> present (pte_of (mem_of s) (pgdir (procs (ps_t s) c)) k) = true;
  cf_stack : kp ∈ held;
  cf_frame : kp <= tf (procs (ps_t s) c) /\ tf (procs (ps_t s) c) + sizeof_tf <= kp + PGSIZE;
  cf_ready : fs_ready (ps_fs s);
  cf_files : forall i, ofile (procs (ps_t s) c) i <> 0 -> 1 <= file_refs (ps_fs s) (ofile (procs (ps_t s) c) i)
}.

(** The child [q] of the process [p] with index [c], in memory [m'] after and [m]
    before *)
Record child_of (c : Z) (p q : proc) (id : Z) (m m' : mem) : Prop := {
  co_state : state q = RUNNABLE; co_pid : pid q = id; co_parent : parent q = c; co_size : sz q = sz p; co_cwd : cwd q = cwd p;
  co_name : name q = str_copy 16 (name p);
  co_files : forall i, 0 <= i < NOFILE -> ofile p i <> 0 -> ofile q i = ofile p i;
  co_space : forall va, 0 <= va < KERNBASE -> ubyte m' (pgdir q) va = if va / 4096 <? npages (sz p) then ubyte m (pgdir p) va else None;
  co_frame : forall i, 0 <= i < sizeof_tf -> ld8 m' (tf q + i) = if (tf_eax <=? i) && (i <? tf_eax + 4) then 0 else ld8 m (tf p + i);
  co_resume : context q = tf q - 4 - sizeof_context /\ ld32 m' (context q + context_eip) = u32 forkret_addr /\ ld32 m' (tf q - 4) = u32 trapret
}.

(** The references of the process [p] once more: its descriptors and its directory *)
Definition dup_refs {FD : FsDup} (x x' : F) (p : proc) : Prop :=
  (forall f, file_refs x' f = file_refs x f + fds (Z.to_nat NOFILE) 0 (ofile p) f) /\ (forall d, inode_refs x' d = one_more (inode_refs x) (cwd p) d).

(** The end of fork, from the copy of the trap frame on *)
Lemma fork_finish {FD : FsDup} s0 s np c p pd held l k : let pp := procs (ps_t s0) c in
  at_entry s0 s np p -> c <> np -> owns s pd held l -> k ∈ held -> tf p = k + 4020 -> fs_ready (ps_fs s) -> (forall i, ofile pp i <> 0 -> 1 <= file_refs (ps_fs s) (ofile pp i)) ->
  exists s' q, (let* size := pget c sz in pset np (with_sz size) ;; pset np (with_parent c) ;; let* t := pget c tf in let* t' := pget np tf in
    on_mem (fun m => memmove m t' t sizeof_tf) ;; store32 (t' + tf_eax) 0 ;; dup_files (Z.to_nat NOFILE) c np 0 ;;
    let* d := pget c cwd in let* d' := idup d in pset np (with_cwd d') ;; let* id := pget np pid in pset np (with_state RUNNABLE) ;;
    let* nm := pget c name in pset np (with_name (str_copy 16 nm)) ;; ret id) s = Ret (pid p, s') /\ at_entry s0 s' np q /\ owns s' pd held l /\
    state q = RUNNABLE /\ pid q = pid p /\ parent q = c /\ sz q = sz pp /\ cwd q = cwd pp /\ name q = str_copy 16 (name pp) /\ pgdir q = pgdir p /\ tf q = tf p /\ context q = context p /\
    (forall i, 0 <= i < NOFILE -> ofile pp i <> 0 -> ofile q i = ofile pp i) /\
    (forall va, 0 <= va < KERNBASE -> ubyte (mem_of s') pd va = ubyte (mem_of s) pd va) /\
    agree (fun a => ~ (k + 4020 <= a < k + 4096)) (mem_of s) (mem_of s') /\
    (forall i, 0 <= i < sizeof_tf -> ld8 (mem_of s') (k + 4020 + i) = if (tf_eax <=? i) && (i <? tf_eax + 4) then 0 else ld8 (mem_of s) (tf pp + i)) /\
    dup_refs (ps_fs s) (ps_fs s') pp.
Proof.
  intros pp A Hc HO Hk Htf Hrd Hop.
  assert (forall s' p', at_entry s0 s' np p' -> procs (ps_t s') c = pp) as Hpp by (intros s' p' A'; by apply (ae_other _ _ _ _ A')).
  destruct (pset_at s0 s np _ (with_sz (sz pp)) A) as (s1 & E1 & A1 & K1 & F1). destruct (pset_at s0 s1 np _ (with_parent c) A1) as (s2 & E2 & A2 & K2 & F2).
  assert (owns s2 pd held l) as HO2 by (eapply owns_state; [exact HO|congruence]). assert (mem_of s2 = mem_of s) as M2 by (unfold mem_of; cbn; congruence).
  set (m3 := memmove (mem_of s2) (k + 4020) (tf pp) sizeof_tf). set (m4 := st32 m3 (k + 4020 + tf_eax) 0).
  assert (forall a, ld8 m3 a = if (k + 4020 <=? a) && (a <? k + 4020 + 76) then ld8 (mem_of s2) (tf pp + (a - (k + 4020))) else ld8 (mem_of s2) a) as Hm3 by (intros a; apply ld8_memmove; unfold sizeof_tf; lia).
  assert (agree (fun a => ~ (k + 4020 <= a < k + 4096)) (mem_of s2) m3) as Ag3.
  { intros a Ha. rewrite Hm3. destruct (Z.leb_spec (k + 4020) a), (Z.ltb_spec a (k + 4020 + 76)); cbn [andb]; try done. exfalso. apply Ha. lia. }
  assert (agree (fun a => ~ (k + 4020 <= a < k + 4096)) m3 m4) as Ag4.
  { eapply agree_weaken; [|apply st32_agree]. intros a Ha Hc'. apply Ha. unfold tf_eax in Hc'. lia. }
  assert (forall a, ~ in_page k a -> ~ (k + 4020 <= a < k + 4096)) as Hin by (intros a Ha Hc'; apply Ha; unfold in_page, PGSIZE; lia).
  destruct (write_page s2 pd held l k m3 HO2 Hk) as (HO3 & M3 & U3 & _); [eapply agree_weaken; [|exact Ag3]; exact Hin|]. set (s3 := put memL m3 s2) in *.
  destruct (write_page s3 pd held l k m4 HO3 Hk) as (HO4 & M4 & U4 & _); [rewrite M3; eapply agree_weaken; [|exact Ag4]; exact Hin|]. set (s4 := put memL m4 s3) in *.
  pose proof (at_entry_table s0 s2 s4 np _ A2 eq_refl eq_refl) as A4.
  destruct (dup_files_spec s0 np c _ (ofile pp) (Z.to_nat NOFILE) s4 0 pd held l A4 Hc eq_refl HO4) as (s5 & g & E5 & A5 & HO5 & M5 & Hg & Rd5 & Fr5 & Ir5).
  { change (ps_fs s4) with (ps_fs s2). by rewrite F2, F1. } { intros j Hj. change (ps_fs s4) with (ps_fs s2). rewrite F2, F1. by apply Hop. }
  destruct (idup_spec s5 l (cwd pp) (proj1 HO5) Rd5) as (s6 & E6 & S6 & _ & Fr6 & Ir6).
  pose proof (at_entry_table s0 s5 s6 np _ A5 (sm_table _ _ S6) (sm_run _ _ S6)) as A6.
  destruct (pset_at s0 s6 np _ (with_cwd (cwd pp)) A6) as (s7 & E7 & A7 & K7 & F7). destruct (pset_at s0 s7 np _ (with_state RUNNABLE) A7) as (s8 & E8 & A8 & K8 & F8).
  destruct (pset_at s0 s8 np _ (with_name (str_copy 16 (name pp))) A8) as (s9 & E9 & A9 & K9 & F9).
  assert (mem_of s9 = m4) as M9. { rewrite <- M4, <- M5, <- (sm_mem _ _ S6). unfold mem_of. cbn. congruence. }
  exists s9. eexists. split_and!; [|exact A9|eapply owns_state; [exact (same_owns _ _ _ _ _ S6 HO5)|congruence]|try done..].
  - mstep. change (view (procL c) s) with (procs (ps_t s) c). rewrite (Hpp _ _ A). mstep_with E1. mstep_with E2. mstep. change (view (procL c) s2) with (procs (ps_t s2) c). rewrite (Hpp _ _ A2).
    mstep. change (view (procL np) s2) with (procs (ps_t s2) np). rewrite (ae_entry _ _ _ _ A2). cbn [tf with_parent with_sz]. rewrite Htf. mstep. fold m3. fold s3.
    mstep. rewrite M3. fold m4. fold s4. mstep_with E5. mstep. change (view (procL c) s5) with (procs (ps_t s5) c). rewrite (Hpp _ _ A5). mstep_with E6. mstep_with E7.
    mstep. change (view (procL np) s7) with (procs (ps_t s7) np). rewrite (ae_entry _ _ _ _ A7). mstep_with E8. mstep. change (view (procL c) s8) with (procs (ps_t s8) c). rewrite (Hpp _ _ A8).
    mstep_with E9. done.
  - intros i Hi Hne. cbn. rewrite Hg. unfold NOFILE in Hi. rewrite (proj2 (Z.leb_le 0 i)), (proj2 (Z.ltb_lt i _)), (proj2 (Z.eqb_neq _ 0) Hne) by (unfold NOFILE; lia). done.
  - intros va Hva. by rewrite M9, U4, M3, U3, M2.
  - rewrite M9, <- M2. eapply agree_trans; [exact Ag3|exact Ag4].
  - intros i Hi. rewrite M9. unfold m4. rewrite ld8_st32. unfold sizeof_tf in Hi. destruct (Z.leb_spec (k + 4020 + tf_eax) (k + 4020 + i)), (Z.leb_spec tf_eax i), (Z.ltb_spec (k + 4020 + i) (k + 4020 + tf_eax + 4)), (Z.ltb_spec i (tf_eax + 4)); cbn [andb]; try lia; [by rewrite Z.shiftr_0_l|..].
    all: rewrite Hm3, (proj2 (Z.leb_le _ _)), (proj2 (Z.ltb_lt _ _)), M2 by lia; cbn [andb]; f_equal; lia.
  - assert (ps_fs s4 = ps_fs s) as F4 by (change (ps_fs s4) with (ps_fs s2); congruence). unfold dup_refs, one_more. rewrite F9, F8, F7. split; [intros f; by rewrite Fr6, Fr5, F4|intros d; rewrite Ir6; unfold one_more; by rewrite Ir5, F4].
Qed.

(** What fork changes: one entry of the table, and no byte of the pages in use
    before *)
Record forked (s s' : P) (np : Z) (used : list Z) : Prop := {
  fk_others : forall j, j <> np -> procs (ps_t s') j = procs (ps_t s) j;
  fk_run : ps_r s' = ps_r s;
  fk_mem : agree (in_pages used) (mem_of s) (mem_of s')
}.

(** A free page is apart from the pages in use. *)
Lemma free_apart (s : P) pd held k l a : owns s pd held (k :: l) -> in_pages (space (mem_of s) pd ++ held) a -> ~ in_page k a.
Proof.
  intros [_ HD]%owns_distinct Ha Hk. apply (distinct_apart (space (mem_of s) pd ++ held) [k] a); [|done|apply (in_pages_1 k); [by apply list_elem_of_singleton|done]].
  eapply distinct_sub; [|exact HD]. solve_submseteq.
Qed.

(** The end of fork when copyuvm has failed *)
Lemma fork_undo s0 s np p l : at_entry s0 s np p -> free_pages s l -> page_ok (kstack p) -> kstack p ∉ l ->
  exists s' q, (let* ks := pget np kstack in kfree ks ;; pset np (with_kstack 0) ;; pset np (with_state UNUSED) ;; ret (-1)) s = Ret (-1, s') /\
    at_entry s0 s' np q /\ state q = UNUSED /\ agree (fun a => ~ in_page (kstack p) a) (mem_of s) (mem_of s').
Proof.
  intros A Hf Hok Hn. destruct (kfree_spec s l (kstack p) Hf Hok Hn) as (s1 & E1 & _ & Ag1 & [_ Es1]).
  assert (at_entry s0 s1 np p) as A1 by (rewrite Es1; by eapply at_entry_table).
  destruct (pset_at s0 s1 np _ (with_kstack 0) A1) as (s2 & E2 & A2 & K2 & _). destruct (pset_at s0 s2 np _ (with_state UNUSED) A2) as (s3 & E3 & A3 & K3 & _).
  exists s3. eexists. split_and!; [|exact A3|done|].
  - mstep. change (view (procL np) s) with (procs (ps_t s) np). rewrite (ae_entry _ _ _ _ A). mstep_with E1. mstep_with E2. by mstep_with E3.
  - replace (mem_of s3) with (mem_of s1) by (unfold mem_of; cbn; congruence). exact Ag1.
Qed.

Lemma fork_spec {FD : FsDup} (s : P) (np kp k : Z) (held l : list Z) : let c := curp (ps_r s) in let p := procs (ps_t s) c in
  can_fork s c kp held (k :: l) -> first_unused (ps_t s) np ->
  exists r s', fork trapret forkret_addr s = Ret (r, s') /\ forked s s' np (space (mem_of s) (pgdir p) ++ held) /\
    let q := procs (ps_t s') np in
    (r = nextpid (ps_t s) /\ child_of c p q r (mem_of s) (mem_of s') /\ dup_refs (ps_fs s) (ps_fs s') p /\
       (exists l', owns s' (pgdir q) (space (mem_of s) (pgdir p) ++ k :: held) l') \/
     r = -1 /\ state q = UNUSED /\ Z.of_nat (length l) <= 1025 + 2 * npages (sz p)).
Proof.
  intros c p [HO Hl Hus Hsz Hpg Hkp [Ht1 Ht2] Hrd Hop] Hfu. fold p in HO, Hus, Hsz, Hpg, Ht1, Ht2, Hop.
  assert (c <> np) as Hc by (intros E; apply Hus; unfold p; rewrite E; apply Hfu). set (pd := pgdir p) in *. set (used := space (mem_of s) pd ++ held) in *.
  destruct (allocproc_spec s np pd held k l HO Hl Hfu) as (s1 & E1 & HO1 & F1 & A1 & Ag1 & Hr1 & Hr2).
  assert (forall s' p', at_entry s s' np p' -> procs (ps_t s') c = p) as Hpp by (intros s' p' A'; by apply (ae_other _ _ _ _ A')).
  assert (forall a, in_pages used a -> ~ in_page k a) as Hnk by (intros a; by apply (free_apart s pd held k l)).
  assert (agree (in_pages used) (mem_of s) (mem_of s1)) as Agu by (intros a Ha; by apply Ag1, Hnk).
  destruct (space_frame (mem_of s) (mem_of s1) pd) as (_ & Pte1 & Sp1 & U1).
  { intros a Ha. apply Agu, in_pages_app. by left. }
  pose proof (npages_bounds _ Hsz) as [Hnp _]. pose proof (free_nodup _ _ (proj1 HO)) as [Hkl _]%NoDup_cons. pose proof (free_ok _ _ (proj1 HO)) as [Hok _]%Forall_cons.
  destruct (copyuvm_spec s1 pd (k :: held) l (sz p) HO1 Hsz) as (npd & s2 & l' & E2 & Env2 & Ag2 & Hres).
  { intros j Hj. rewrite Pte1; [by apply Hpg|]. unfold NUVPN, NVPN in *. lia. }
  rewrite Sp1 in Ag2, Hres. destruct Env2 as [_ Es2].
  assert (at_entry s s2 np (newborn (procs (ps_t s) np) (nextpid (ps_t s)) k)) as A2 by (rewrite Es2; by eapply at_entry_table).
  assert (ps_fs s2 = ps_fs s) as F2 by (rewrite Es2; exact F1).
  destruct (pset_at s s2 np _ (with_pgdir npd) A2) as (s3 & E3 & A3 & K3 & F3). assert (mem_of s3 = mem_of s2) as M3 by (unfold mem_of; cbn; by rewrite K3).
  assert (forall X (k' : Z -> M P X), (let* c0 := proc_ in k' c0) s1 = k' c s1) as Ec.
  { intros X k'. unfold proc_. mstep. f_equal. exact (f_equal curp (ae_run _ _ _ _ A1)). }
  assert (agree (in_pages used) (mem_of s) (mem_of s3)) as Agu3.
  { rewrite M3. eapply agree_trans; [exact Agu|]. eapply agree_weaken; [|exact Ag2]. intros a. unfold used. rewrite !in_pages_app. intros [?|?]; [by left|right]. by apply (in_pages_app [k]); right. }
  unfold fork. mstep_with E1. rewrite (proj2 (Z.eqb_neq np (-1))) by (destruct Hfu as [? _ _]; lia). rewrite Ec.
  mstep. change (view (procL c) s1) with (procs (ps_t s1) c). rewrite (Hpp _ _ A1). mstep. change (view (procL c) s1) with (procs (ps_t s1) c). rewrite (Hpp _ _ A1). fold pd. mstep_with E2. mstep_with E3.
  destruct Hres as [(Hn0 & HO2 & _ & Hub)|(-> & Hf & Hlen & lost & Hlost & _)].
  - rewrite (proj2 (Z.eqb_neq npd 0)) by done.
    destruct (fork_finish s s3 np c _ npd (space (mem_of s) pd ++ k :: held) l' k A3 Hc) as (s4 & q & E4 & A4 & HO4 & Q1 & Q2 & Q3 & Q4 & Q5 & Q6 & Q7 & Q8 & Q9 & Q10 & U4 & Ag4 & T4 & Rf4); fold p.
    { by eapply owns_state. } { apply elem_of_app. right. apply elem_of_cons. by left. } { done. } { by rewrite F3, F2. } { intros i Hi. rewrite F3, F2. by apply Hop. }
    assert (forall a, k <= a -> a + 4 <= k + 4020 -> ld32 (mem_of s1) a = ld32 (mem_of s4) a) as Hkeep.
    { intros a Ha1 Ha2. symmetry. apply (ld32_agree (fun b => k <= b < k + 4020)); [|cbn; lia]. eapply agree_trans; [|eapply agree_weaken; [|exact Ag4]; cbn; intros b; lia].
      rewrite M3. eapply agree_weaken; [|exact Ag2]. intros b Hb. apply in_pages_app. right. apply (in_pages_1 k); [apply elem_of_cons; by left|]. unfold in_page, PGSIZE. lia. }
    exists (nextpid (ps_t s)), s4. split; [exact E4|]. split; [|left].
    { split; [apply A4|apply A4|]. eapply agree_trans; [exact Agu3|]. eapply agree_weaken; [|exact Ag4]. intros a Ha Hb. apply (Hnk a Ha). unfold in_page, PGSIZE. lia. }
    cbv zeta. rewrite (ae_entry _ _ _ _ A4), Q7. split_and!; [done| |by rewrite <- F2, <- F3|by exists l'].
    split; try done.
    + intros va Hva. rewrite Q7. cbn [pgdir with_pgdir]. rewrite U4, M3, Hub by done. destruct (va / 4096 <? npages (sz p)); [by apply U1|done].
    + intros i Hi. rewrite Q8. cbn [tf with_pgdir newborn with_swapFileName with_context with_tf]. rewrite T4 by done. destruct ((tf_eax <=? i) && (i <? tf_eax + 4)); [done|].
      apply Agu3. apply (in_pages_1 kp); [apply elem_of_app; by right|]. unfold in_page. lia.
    + rewrite Q8, Q9. cbn [tf context with_pgdir newborn with_swapFileName with_context with_tf]. split_and!; [unfold sizeof_context; lia|..].
      * rewrite <- Hr2. symmetry. apply (Hkeep (k + 3996 + context_eip)); unfold context_eip; lia.
      * rewrite <- Hr1. replace (k + 4020 - 4) with (k + 4016) by lia. symmetry. apply (Hkeep (k + 4016)); lia.
  - destruct (fork_undo s s3 np _ l' A3) as (s4 & q & E4 & A4 & Hq & Ag4); [cbn in Hf |- *; by rewrite K3|done|intros Hin; apply Hkl; rewrite <- Hlost; apply elem_of_app; by right|].
    exists (-1), s4. split; [exact E4|]. split; [|right; cbv zeta; rewrite (ae_entry _ _ _ _ A4); split_and!; [done|done|lia]].
    split; [apply A4|apply A4|]. eapply agree_trans; [exact Agu3|]. eapply agree_weaken; [|exact Ag4]. exact Hnk.
Qed.
End fork.
