(* ===== verification/Sched.v ===== *)
(** * The scheduler: no runnable process is passed over for ever

    The passes of the schedulers over the process table, one scheduler for
    each CPU, interleaved with everything else that changes the states of
    processes.  The search is the one of the code; between two steps of a
    scheduler any number of processes may be woken, killed, created or run by
    other CPUs. *)

From Stdlib Require Import ZArith Lia String Bool.
From stdpp Require Import base numbers relations list.
From S2P Require Import Prelude Params Mem Spinlock Pages Kalloc Vm Shm Proc Swap.

(** ** The search *)

(** The first RUNNABLE entry among the [n] from [i] on. *)
Fixpoint next_runnable (n : nat) (i : Z) (t : ptable_t) : option Z :=
  match n with
  | O => None
  | S n => if decide (state (procs t i) = RUNNABLE) then Some i else next_runnable n (i + 1) t
  end.
(** From [i] to the end of the table. *)
Definition search (i : Z) (t : ptable_t) : option Z := next_runnable (Z.to_nat (NPROC - i)) i t.

Section code.
Context {Lay : Layout} {F : Type}.

(** The scheduler's code finds that entry, and switches to it. *)
Lemma scheduler_pick_eq n i (s : pst F) :
  scheduler_pick n i s =
  match next_runnable n i (ps_t s) with
  | None => Ret (None, s)
  | Some j =>
    (modify (fun s => put ps_rL (mkRunning j (cr3 (ps_r s)) (esp0 (ps_r s)) (kpgdir (ps_r s))) s) ;;
     switchuvm j ;; pset j (with_state RUNNING) ;; ret (Some j)) s
  end.
Proof.
  revert i. induction n as [|n IH]; intros i; cbn [scheduler_pick next_runnable]; [done|].
  mstep. cbn [view procL lens_comp ps_tL]. case_decide; [done|]. apply IH.
Qed.
End code.

Lemma next_runnable_some n : forall i t j, next_runnable n i t = Some j ->
  i <= j < i + Z.of_nat n /\ state (procs t j) = RUNNABLE /\ forall k, i <= k < j -> state (procs t k) <> RUNNABLE.
Proof.
  induction n as [|n IH]; intros i t j; cbn [next_runnable]; [done|]. case_decide as E.
  - intros [= <-]. split_and!; [lia..|done|]. intros k Hk. lia.
  - intros H. destruct (IH _ _ _ H) as (H1 & H2 & H3). split_and!; [lia..|done|]. intros k Hk. destruct (decide (k = i)) as [->|]; [done|]. apply H3. lia.
Qed.
Lemma next_runnable_none n : forall i t, next_runnable n i t = None -> forall k, i <= k < i + Z.of_nat n -> state (procs t k) <> RUNNABLE.
Proof.
  induction n as [|n IH]; intros i t; cbn [next_runnable]; [lia|]. case_decide as E; [done|]. intros H k Hk.
  destruct (decide (k = i)) as [->|]; [done|]. apply (IH _ _ H). lia.
Qed.

(** The search does not go past a RUNNABLE process. *)
Lemma search_some i t j : i <= NPROC -> search i t = Some j -> i <= j < NPROC /\ state (procs t j) = RUNNABLE.
Proof. intros Hi H. apply next_runnable_some in H as (H1 & H2 & _). split; [lia|done]. Qed.
Lemma search_before i t p : i <= p < NPROC -> state (procs t p) = RUNNABLE -> exists j, search i t = Some j /\ i <= j <= p.
Proof.
  intros Hp Hr. unfold search. destruct (next_runnable _ i t) as [j|] eqn:E.
  - apply next_runnable_some in E as (H1 & H2 & H3). exists j. split; [done|]. split; [lia|]. destruct (Z.le_gt_cases j p) as [|Hlt]; [done|]. exfalso. apply (H3 p); [lia|done].
  - exfalso. apply (next_runnable_none _ _ _ E p); [lia|done].
Qed.

(** ** The system *)

(** Where a CPU's scheduler is: outside the lock, at entry [i] of its pass, or
    switched to the process of entry [j]. *)
Inductive spos : Type := Idle | At (i : Z) | Busy (j : Z).
Record sched_sys : Type := mkSched { stab : ptable_t; scpu : Z -> spos }.

Definition cpu_at (k : Z) (p : spos) (f : Z -> spos) : Z -> spos := fun j => if j =? k then p else f j.

(** How the process of entry [j] gives up the CPU: yield, sleep, sleep after it
    was swapped out, and exit; the wakeups of exit are steps of their own. *)
Inductive gives_up (j : Z) (t : ptable_t) : ptable_t -> Prop :=
| gu_yield : gives_up j t (t_state j RUNNABLE t)
| gu_sleep ch : gives_up j t (t_sleep j ch t)
| gu_swapped : gives_up j t (t_swap_end j t)
| gu_exit : gives_up j t (t_state j ZOMBIE t).

(** The other sections that change states or the flag of swapping: wakeup, kill,
    allocproc, the end of fork and its failure, wait, the start of a swap-out by the
    running process [j], the end of a swap-in, enableSwapping and disableSwapping. *)
Inductive changes (cpus : Z -> spos) (t : ptable_t) : ptable_t -> Prop :=
| ch_wake ch : changes cpus t (t_wake ch t)
| ch_kill id : changes cpus t (fst (t_kill_pid id t))
| ch_alloc i id : state (procs t i) = UNUSED -> changes cpus t (t_state i EMBRYO (tset i (with_pid id) t))
| ch_start i : state (procs t i) = EMBRYO -> changes cpus t (t_state i RUNNABLE t)
| ch_undo i : state (procs t i) = EMBRYO -> changes cpus t (t_state i UNUSED t)
| ch_reap i : state (procs t i) = ZOMBIE -> changes cpus t (t_state i UNUSED t)
| ch_swap_begin k j ch : cpus k = Busy j -> changes cpus t (t_swap_begin j (t_sleep j ch t))
| ch_loaded i : state (procs t i) = RUNNABLE_SUSPENDED -> changes cpus t (t_loaded i t)
| ch_flag v : changes cpus t (t_flag v t).

(** One step; the label is the CPU whose scheduler moves. *)
Inductive sched_step : option Z -> sched_sys -> sched_sys -> Prop :=
| ss_acquire k y : scpu y k = Idle -> sched_step (Some k) y (mkSched (stab y) (cpu_at k (At 0) (scpu y)))
| ss_pick k i j y : scpu y k = At i -> search i (stab y) = Some j ->
    sched_step (Some k) y (mkSched (t_state j RUNNING (stab y)) (cpu_at k (Busy j) (scpu y)))
| ss_release k i y : scpu y k = At i -> search i (stab y) = None -> sched_step (Some k) y (mkSched (stab y) (cpu_at k Idle (scpu y)))
| ss_back k j t y : scpu y k = Busy j -> gives_up j (stab y) t -> sched_step (Some k) y (mkSched t (cpu_at k (At (j + 1)) (scpu y)))
| ss_other t y : changes (scpu y) (stab y) t -> sched_step None y (mkSched t (scpu y))
| ss_user y : sched_step None y y.

Definition pos_ok (p : spos) : Prop := match p with Idle => True | At i => 0 <= i <= NPROC | Busy j => 0 <= j < NPROC end.
Definition sched_ok (y : sched_sys) : Prop := forall k, pos_ok (scpu y k).

(** [p] waits for a CPU: it is RUNNABLE, and no CPU is in its code. *)
Definition waits (p : Z) (y : sched_sys) : Prop := state (procs (stab y) p) = RUNNABLE /\ forall k, scpu y k <> Busy p.

(** ** Waiting is not lost *)

Lemma state_tset i f t p : state (procs (tset i f t) p) = if p =? i then state (f (procs t i)) else state (procs t p).
Proof. cbn. by destruct (p =? i). Qed.
Lemma state_set i v t p : state (procs (t_state i v t) p) = if p =? i then v else state (procs t p).
Proof. apply state_tset. Qed.

(** A change that leaves RUNNABLE processes alone. *)
Definition keeps (p : Z) (f : ptable_t -> ptable_t) : Prop := forall t, state (procs t p) = RUNNABLE -> state (procs (f t) p) = RUNNABLE.

Lemma resume_keeps p q t : state (procs t p) = RUNNABLE -> state (procs t q) <> RUNNABLE -> state (procs (t_resume q t) p) = RUNNABLE.
Proof.
  intros Hp Hq. unfold t_resume. rewrite state_tset. cbn. destruct (Z.eqb_spec p (inswapper t)); [done|].
  destruct (Z.eqb_spec p q) as [->|]; [congruence|done].
Qed.
Lemma wake_one_keeps p q ch : keeps p (t_wake_one q ch).
Proof.
  intros t Hp. unfold t_wake_one. case_decide as E1; [|case_decide as E2].
  - destruct (_ =? 1); rewrite state_tset; destruct (Z.eqb_spec p q) as [->|]; done.
  - apply resume_keeps; [done|]. destruct E2 as [-> _]. done.
  - done.
Qed.
Lemma wake_keeps p ch : keeps p (t_wake ch).
Proof.
  unfold t_wake. generalize 0 64%nat. intros i n. revert i. induction n as [|n IH]; intros i t Hp; cbn [t_wake_loop]; [done|]. by apply IH, wake_one_keeps.
Qed.
Lemma kill_keeps p id : keeps p (fun t => fst (t_kill_pid id t)).
Proof.
  unfold t_kill_pid. generalize 0 64%nat. intros i n. revert i. induction n as [|n IH]; intros i t Hp; cbn [t_kill]; [done|].
  destruct (_ =? id); [|by apply IH]. cbn [fst]. set (t1 := tset i (with_killed 1) t).
  assert (state (procs t1 p) = RUNNABLE) as H1 by (unfold t1; rewrite state_tset; destruct (Z.eqb_spec p i) as [->|]; done).
  case_decide as E; [|case_decide as E2]; [| |done].
  - rewrite state_tset. by destruct (p =? i).
  - apply resume_keeps; [done|]. by rewrite E2.
Qed.

Lemma gives_up_keeps j t t' p : gives_up j t t' -> p <> j -> state (procs t p) = RUNNABLE -> state (procs t' p) = RUNNABLE.
Proof.
  intros H Hp Hr. destruct H; unfold t_sleep, t_swap_end; rewrite ?state_set.
  - by rewrite (proj2 (Z.eqb_neq p j)).
  - rewrite (proj2 (Z.eqb_neq p j)), state_tset, (proj2 (Z.eqb_neq p j)) by done. done.
  - cbn zeta. destruct (_ =? 1); rewrite state_tset; [|by rewrite (proj2 (Z.eqb_neq p j)), state_tset, (proj2 (Z.eqb_neq p j)) by done].
    destruct (p =? _); [done|]. rewrite state_tset, (proj2 (Z.eqb_neq p j)), state_tset, (proj2 (Z.eqb_neq p j)), state_tset, (proj2 (Z.eqb_neq p j)) by done. done.
  - by rewrite (proj2 (Z.eqb_neq p j)).
Qed.
Lemma changes_keeps cpus t t' p : changes cpus t t' -> (forall k, cpus k <> Busy p) -> state (procs t p) = RUNNABLE -> state (procs t' p) = RUNNABLE.
Proof.
  intros H Hb Hr. destruct H as [ch|id|i id E|i E|i E|i E|k j ch E|i E|v]; [by apply wake_keeps|by apply kill_keeps|..].
  - rewrite state_set. destruct (Z.eqb_spec p i) as [->|]; [congruence|]. rewrite state_tset. by rewrite (proj2 (Z.eqb_neq p i)).
  - rewrite state_set. by destruct (p =? i).
  - rewrite state_set. destruct (Z.eqb_spec p i) as [->|]; [congruence|done].
  - rewrite state_set. destruct (Z.eqb_spec p i) as [->|]; [congruence|done].
  - assert (p <> j) by (intros ->; by apply (Hb k)). unfold t_swap_begin, t_sleep. rewrite !state_tset, state_set, !state_tset, (proj2 (Z.eqb_neq p j)) by done. done.
  - unfold t_loaded. cbn. destruct (Z.eqb_spec p i) as [->|]; [congruence|done].
  - exact Hr.
Qed.

(** ** Progress *)

(** The steps of a scheduler at [pos] before it comes to [p], at most. *)
Definition lag (p : Z) (pos : spos) : Z :=
  match pos with
  | Idle => 2 * p + 2
  | At i => if i <=? p then 2 * (p - i) + 1 else 2 * (NPROC - i) + 2 * p + 3
  | Busy j => if j <? p then 2 * (p - j) else 2 * (NPROC - j) + 2 * p + 2
  end.

Lemma lag_range p pos : 0 <= p < NPROC -> pos_ok pos -> 0 <= lag p pos <= 4 * NPROC.
Proof. intros Hp Hpos. unfold NPROC in *. destruct pos as [|i|j]; cbn [lag pos_ok] in *; unfold NPROC in *; [lia|destruct (Z.leb_spec i p); lia|destruct (Z.ltb_spec j p); lia]. Qed.

Lemma cpu_at_same k v f : cpu_at k v f k = v.
Proof. unfold cpu_at. by rewrite Z.eqb_refl. Qed.
Lemma cpu_at_ne k v f j : j <> k -> cpu_at k v f j = f j.
Proof. intros H. unfold cpu_at. by rewrite (proj2 (Z.eqb_neq j k)). Qed.

Lemma sched_step_ok l y y' : sched_step l y y' -> sched_ok y -> sched_ok y'.
Proof.
  intros H Hok. destruct H as [k y E|k i j y E Hs|k i y E Hs|k j t y E Hg|t y Hc|y]; try done; intros q; cbn [scpu]; unfold cpu_at;
    destruct (Z.eqb_spec q k) as [->|]; try apply Hok; pose proof (Hok k) as Hk; rewrite E in Hk; cbn in *; unfold NPROC in *; try lia.
  apply search_some in Hs as [? _]; unfold NPROC in *; lia.
Qed.

(** A step leaves a waiting process waiting or runs it. *)
Lemma waits_step l y y' p : sched_step l y y' -> waits p y -> waits p y' \/ state (procs (stab y') p) = RUNNING.
Proof.
  intros H [Hr Hb]. destruct H as [k y E|k i j y E Hs|k i y E Hs|k j t y E Hg|t y Hc|y]; cbn [stab scpu].
  - left. split; [done|]. intros q. cbn [scpu]. unfold cpu_at. destruct (q =? k); [done|apply Hb].
  - destruct (Z.eqb_spec p j) as [->|Hne]; [right; by rewrite state_set, Z.eqb_refl|]. left. split; cbn [stab scpu].
    + by rewrite state_set, (proj2 (Z.eqb_neq p j)).
    + intros q. unfold cpu_at. destruct (q =? k); [congruence|apply Hb].
  - left. split; [done|]. intros q. cbn [scpu]. unfold cpu_at. destruct (q =? k); [done|apply Hb].
  - assert (p <> j) by (intros ->; by apply (Hb k)). left. split; cbn [stab scpu]; [by eapply gives_up_keeps|].
    intros q. unfold cpu_at. destruct (q =? k); [done|apply Hb].
  - left. split; cbn [stab scpu]; [by eapply changes_keeps|done].
  - by left.
Qed.

(** Every step of a scheduler brings it closer to [p]; no other step moves it. *)
Lemma lag_step l y y' p k : 0 <= p < NPROC -> sched_step l y y' -> sched_ok y -> waits p y -> waits p y' ->
  if decide (l = Some k) then lag p (scpu y' k) < lag p (scpu y k) else scpu y' k = scpu y k.
Proof.
  intros Hp H Hok [Hr Hb] [Hr' Hb']. assert (forall q v f, Some q <> Some k -> cpu_at q v f k = f k) as Hne by (intros q v f Hq; apply cpu_at_ne; congruence).
  destruct H as [q y E|q i j y E Hs|q i y E Hs|q j t y E Hg|t y Hc|y]; try done; cbn [scpu] in *; case_decide as El; try (by apply Hne);
    injection El as ->; rewrite cpu_at_same, E; pose proof (Hok k) as Hk; rewrite E in Hk; cbn [lag pos_ok] in *.
  - rewrite (proj2 (Z.leb_le 0 p)) by lia. lia.
  - pose proof (search_some i _ _ ltac:(lia) Hs) as [Hj _]. pose proof (Hb' k) as Hj'. rewrite cpu_at_same in Hj'. destruct (Z.leb_spec i p).
    + destruct (search_before i _ p ltac:(lia) Hr) as (j' & Hs' & Hle). rewrite Hs in Hs'. injection Hs' as <-.
      assert (j <> p) by congruence. rewrite (proj2 (Z.ltb_lt j p)) by lia. lia.
    + rewrite (proj2 (Z.ltb_ge j p)) by lia. lia.
  - destruct (Z.leb_spec i p); [|lia]. destruct (search_before i _ p ltac:(lia) Hr) as (j' & Hs' & _). congruence.
  - assert (j <> p) by (intros ->; by apply (Hb k)). destruct (Z.ltb_spec j p).
    + rewrite (proj2 (Z.leb_le (j + 1) p)) by lia. lia.
    + rewrite (proj2 (Z.leb_gt (j + 1) p)) by lia. lia.
Qed.

(** ** Executions *)

(** An infinite execution, in which the scheduler of CPU [k] always moves
    again: a process that runs there comes back to it, since the timer makes it
    yield, and the lock is granted. *)
Record execution (tr : nat -> sched_sys) (lab : nat -> option Z) : Prop := {
  ex_ok : sched_ok (tr 0%nat);
  ex_step : forall n, sched_step (lab n) (tr n) (tr (S n))
}.
Definition fair (lab : nat -> option Z) (k : Z) : Prop := forall n, exists m, (n <= m)%nat /\ lab m = Some k.

Lemma execution_ok tr lab n : execution tr lab -> sched_ok (tr n).
Proof. intros [H0 Hs]. induction n as [|n IH]; [done|]. by eapply sched_step_ok. Qed.

(** Until the scheduler of CPU [k] moves. *)
Lemma waits_until tr lab p k d : execution tr lab -> 0 <= p < NPROC -> forall n, waits p (tr n) -> (forall i, (n <= i < n + d)%nat -> lab i <> Some k) ->
  (exists m, (n < m)%nat /\ state (procs (stab (tr m)) p) = RUNNING) \/ (waits p (tr (n + d)%nat) /\ scpu (tr (n + d)%nat) k = scpu (tr n) k).
Proof.
  intros Ex Hp. induction d as [|d IH]; intros n Hw Hl; [rewrite Nat.add_0_r; by right|].
  destruct (waits_step _ _ _ p (ex_step _ _ Ex n) Hw) as [Hw'|]; [|left; exists (S n); split; [lia|done]].
  pose proof (lag_step _ _ _ p k Hp (ex_step _ _ Ex n) (execution_ok _ _ n Ex) Hw Hw') as Hst. rewrite decide_False in Hst by (apply Hl; lia).
  destruct (IH (S n) Hw') as [(m & Hm & ?)|[Hw2 E2]]; [intros i Hi; apply Hl; lia|left; exists m; split; [lia|done]|].
  right. rewrite Nat.add_succ_r. cbn in Hw2, E2. split; [done|congruence].
Qed.

(** The next move of the scheduler. *)
Lemma next_move lab k n : fair lab k -> exists d, lab (n + d)%nat = Some k /\ forall i, (n <= i < n + d)%nat -> lab i <> Some k.
Proof.
  intros Hf. destruct (Hf n) as (m & Hm & Hl). remember (m - n)%nat as r eqn:Er. revert n m Hm Hl Er. induction r as [|r IH]; intros n m Hm Hl Er.
  - exists 0%nat. rewrite Nat.add_0_r. replace n with m by lia. split; [done|lia].
  - destruct (decide (lab n = Some k)) as [E|E]; [exists 0%nat; rewrite Nat.add_0_r; split; [done|lia]|].
    destruct (IH (S n) m ltac:(lia) Hl ltac:(lia)) as (d & Hd & Hno). exists (S d). rewrite Nat.add_succ_r. split; [done|].
    intros i Hi. destruct (decide (i = n)) as [->|]; [done|]. apply Hno. lia.
Qed.

(** C20 No process starves: in every execution in which one CPU's scheduler keeps
    moving, whatever other CPUs run and whatever is woken, killed, forked or
    swapped meanwhile, a process that is RUNNABLE and not on a CPU runs. *)
Theorem scheduler_fair (tr : nat -> sched_sys) (lab : nat -> option Z) (k p : Z) (n : nat) :
  execution tr lab -> fair lab k -> 0 <= p < NPROC -> waits p (tr n) ->
  exists m, (n < m)%nat /\ state (procs (stab (tr m)) p) = RUNNING.
Proof.
  intros Ex Hf Hp. pose proof (fun m => lag_range p (scpu (tr m) k) Hp (execution_ok _ _ m Ex k)) as Hr.
  remember (Z.to_nat (lag p (scpu (tr n) k))) as g eqn:Eg. revert n Eg. induction g as [g IH] using lt_wf_ind. intros n Eg Hw.
  destruct (next_move lab k n Hf) as (d & Hd & Hno). destruct (waits_until tr lab p k d Ex Hp n Hw Hno) as [|[Hw1 E1]]; [done|].
  destruct (waits_step _ _ _ p (ex_step _ _ Ex (n + d)%nat) Hw1) as [Hw2|]; [|exists (S (n + d)); split; [lia|done]].
  pose proof (lag_step _ _ _ p k Hp (ex_step _ _ Ex (n + d)%nat) (execution_ok _ _ _ Ex) Hw1 Hw2) as Hl. rewrite decide_True, E1 in Hl by done.
  pose proof (Hr (S (n + d))) as H1.
  assert (Z.to_nat (lag p (scpu (tr (S (n + d))) k)) < g)%nat as Hg by lia.
  destruct (IH _ Hg (S (n + d)) eq_refl Hw2) as (m & Hm & Hrun). exists m. split; [lia|done].
Qed.

(** ** An execution: one CPU, and processes that only yield *)

Definition spin (y : sched_sys) : sched_sys :=
  match scpu y 0 with
  | Idle => mkSched (stab y) (cpu_at 0 (At 0) (scpu y))
  | At i => match search i (stab y) with
            | Some j => mkSched (t_state j RUNNING (stab y)) (cpu_at 0 (Busy j) (scpu y))
            | None => mkSched (stab y) (cpu_at 0 Idle (scpu y))
            end
  | Busy j => mkSched (t_state j RUNNABLE (stab y)) (cpu_at 0 (At (j + 1)) (scpu y))
  end.
Lemma spin_step y : sched_step (Some 0) y (spin y).
Proof.
  unfold spin. destruct (scpu y 0) as [|i|j] eqn:E; [by apply ss_acquire| |by eapply ss_back; [|apply gu_yield]].
  destruct (search i (stab y)) eqn:Es; [by eapply ss_pick|by eapply ss_release].
Qed.

(** Processes 5 and 9 are RUNNABLE. *)
Definition two_tab : ptable_t :=
  mkPtable (fun i => mkProc 0 0 0 (if (i =? 5) || (i =? 9) then RUNNABLE else UNUSED) i 0 0 0 0 0 (fun _ => 0) 0 [] 0 [] 0 0 0)
    (mkLock "l" 0 0) (mkLock "l" 0 0) (mkLock "l" 0 0) 0 2 10 0 0.
Definition two_start : sched_sys := mkSched two_tab (fun _ => Idle).

Lemma scheduler_fair_witness : exists m, (0 < m)%nat /\ state (procs (stab (Nat.iter m spin two_start)) 9) = RUNNING.
Proof.
  apply (scheduler_fair (fun n => Nat.iter n spin two_start) (fun _ => Some 0) 0 9 0).
  - split; [by intros k|]. intros n. apply spin_step.
  - intros n. by exists n.
  - unfold NPROC. lia.
  - by split.
Defined.
