(* ===== verification/FsState.v ===== *)
(** * The state of the file system, and what its code needs of the kernel

    The data of buf.h, fs.h, file.h, ide.c, bio.c, log.c, fs.c and file.c, and
    the class [Kernel]: the locks, sleeping and waking, and the memory that
    these files use.  The code of the file system is written against the class,
    so that it runs on the whole machine, with the spin locks and the process
    table, and on the file system alone. *)

From Stdlib Require Import ZArith Lia String Bool.
From stdpp Require Import base numbers list.
From S2P Require Import Prelude Params Mem Spinlock.

(** Functions as tables. *)
Definition upd {A : Type} (f : Z -> A) (i : Z) (v : A) : Z -> A := fun j => if j =? i then v else f j.

Lemma upd_same {A : Type} (f : Z -> A) i v : upd f i v i = v.
Proof. unfold upd. by rewrite Z.eqb_refl. Qed.
Lemma upd_ne {A : Type} (f : Z -> A) i j v : j <> i -> upd f i v j = f j.
Proof. intros. unfold upd. by rewrite (proj2 (Z.eqb_neq _ _)). Qed.

(** [n] bytes of another object, copied to offset [d]. *)
Definition blit (m : mem) (d : Z) (src : mem) (n : Z) : mem :=
  fun a => if (d <=? a) && (a <? d + n) then src (a - d) else m a.

(** ** Buffers and the disk *)

Definition B_BUSY : Z := 1.
Definition B_VALID : Z := 2.
Definition B_DIRTY : Z := 4.
Definition BSIZE : Z := 512.

(** Buffers are numbered; [NBUF] is bcache.head, and -1 the null pointer. *)
Record buf : Type := mkBuf {
  b_flags : Z; b_dev : Z; b_sector : Z; b_prev : Z; b_next : Z; b_qnext : Z; b_data : mem
}.

Definition has (flags f : Z) : bool := negb (Z.land flags f =? 0).

(** The drive: its image, and the sectors written since, the latest first. *)
Record drive : Type := mkDrive { image : Z -> Z -> mem; writes : list (Z * Z * mem) }.

Fixpoint dread_from (ws : list (Z * Z * mem)) (img : Z -> Z -> mem) (d n : Z) : mem :=
  match ws with
  | [] => img d n
  | (d', n', m) :: ws => if (d =? d') && (n =? n') then m else dread_from ws img d n
  end.
Definition dread (x : drive) (d n : Z) : mem := dread_from (writes x) (image x) d n.
Definition dwrite (x : drive) (d n : Z) (m : mem) : drive := mkDrive (image x) ((d, n, m) :: writes x).

(** The controller: the task-file registers 0x1f2 to 0x1f6, the command, the
    sector sent to it, and its status once it is ready. *)
Record ctrl : Type := mkCtrl {
  r_count : Z; r_lba0 : Z; r_lba1 : Z; r_lba2 : Z; r_dev : Z; r_cmd : Z; r_latch : mem; r_status : Z
}.

Record ide_t : Type := mkIde { idequeue : Z; havedisk1 : Z; ctl : ctrl; drv : drive }.

(** ** The log *)

Record log_t : Type := mkLog { log_start : Z; log_size : Z; log_busy : Z; log_dev : Z; lh_n : Z; lh_sector : Z -> Z }.

(** ** Inodes *)

Definition I_BUSY : Z := 1.
Definition I_VALID : Z := 2.
Definition T_DIR : Z := 1.
Definition T_FILE : Z := 2.
Definition T_DEV : Z := 3.
Definition NDIRECT : Z := 12.
Definition NINDIRECT : Z := BSIZE / 4.
Definition MAXFILE : Z := NDIRECT + NINDIRECT.
Definition ROOTINO : Z := 1.
Definition DIRSIZ : Z := 14.
Definition CONSOLE : Z := 1.

(** struct dinode: byte offsets of the fields, and its size. *)
Definition sizeof_dinode : Z := 64.
Definition di_type : Z := 0.
Definition di_major : Z := 2.
Definition di_minor : Z := 4.
Definition di_nlink : Z := 6.
Definition di_size : Z := 8.
Definition di_addrs : Z := 12.
Definition sizeof_dirent : Z := 16.
Definition IPB : Z := BSIZE / sizeof_dinode.
Definition IBLOCK (i : Z) : Z := i / IPB + 2.
Definition BPB : Z := BSIZE * 8.
Definition BBLOCK (b ninodes : Z) : Z := u32 (b / BPB + ninodes / IPB + 3).

(** struct superblock. *)
Record superblock : Type := mkSb { sb_size : Z; sb_nblocks : Z; sb_ninodes : Z; sb_nlog : Z }.

(** In-memory inodes, numbered; -1 is the null pointer. *)
Record inode : Type := mkInode {
  i_dev : Z; i_inum : Z; i_ref : Z; i_flags : Z;
  i_type : Z; i_major : Z; i_minor : Z; i_nlink : Z; i_size : Z; i_addrs : Z -> Z
}.

(** ** Open files *)

Inductive fdtype : Type := FD_NONE | FD_PIPE | FD_INODE.

Record file : Type := mkFile {
  f_type : fdtype; f_ref : Z; f_readable : Z; f_writable : Z; f_pipe : Z; f_ip : Z; f_off : Z
}.

(** devsw: whether a device has a read and a write function. *)
Record devsw_t : Type := mkDevsw { dv_read : bool; dv_write : bool }.

(** Pipes, by the address of their page. *)
Definition PIPESIZE : Z := 512.
Record pipe : Type := mkPipe { p_data : mem; nread : Z; nwrite : Z; readopen : Z; writeopen : Z }.

(** ** The console *)

(** The screen, the cursor registers 14 and 15 of the display controller, the
    serial port with the bytes sent to it (the latest first), the variables
    panicked and cons.locking, and the input buffer. *)
Definition INPUT_BUF : Z := 128.
Record console : Type := mkCons {
  crt : Z -> Z; crt_hi : Z; crt_lo : Z; uart : Z; serial : list Z; panicked : Z; locking : Z;
  in_buf : mem; in_r : Z; in_w : Z; in_e : Z
}.

Record fsys : Type := mkFsys {
  bufs : Z -> buf; ide : ide_t; log : log_t; icache : Z -> inode; ftable : Z -> file; devsw : Z -> devsw_t;
  pipes : Z -> pipe; cons : console
}.

(** ** What the code uses of the rest of the kernel *)

Inductive fslock : Type := L_bcache | L_ide | L_log | L_icache | L_ftable | L_pipe (p : Z) | L_cons | L_input.
#[export] Instance fslock_eq_dec : EqDecision fslock.
Proof. solve_decision. Defined.

(** Objects whose addresses are sleep channels. *)
Inductive fsobj : Type := O_buf (i : Z) | O_inode (i : Z) | O_nread (p : Z) | O_nwrite (p : Z) | O_input.

Class Kernel (S : Type) : Type := {
  fsL : lens S fsys;
  initlock_ : fslock -> M S unit;
  lock_ : fslock -> M S unit;
  unlock_ : fslock -> M S unit;
  sti_ : M S unit;
  wakeup_ : fsobj -> M S unit;
  (** sleep: only another process can go on from here. *)
  sleep_ : forall A : Type, fsobj -> fslock -> M S A;
  (** Memory as the running process addresses it. *)
  fetch_ : Z -> Z -> M S mem;
  store_ : Z -> mem -> Z -> M S unit;
  (** The running process: its current directory, and whether it is killed. *)
  cwd_ : M S Z;
  killed_ : M S Z;
  (** Pages for pipes. *)
  kalloc_ : M S Z;
  kfree_ : Z -> M S unit
}.

(** ** Access to the state *)

Section access.
Context {St : Type} {K : Kernel St}.

Definition fget {A : Type} (f : fsys -> A) : M St A := gets (fun s => f (view fsL s)).
Definition fmod (f : fsys -> fsys) : M St unit := modify (fun s => put fsL (f (view fsL s)) s).

Definition set_bufs (v : Z -> buf) (x : fsys) : fsys := mkFsys v (ide x) (log x) (icache x) (ftable x) (devsw x) (pipes x) (cons x).
Definition set_ide (v : ide_t) (x : fsys) : fsys := mkFsys (bufs x) v (log x) (icache x) (ftable x) (devsw x) (pipes x) (cons x).
Definition set_log (v : log_t) (x : fsys) : fsys := mkFsys (bufs x) (ide x) v (icache x) (ftable x) (devsw x) (pipes x) (cons x).
Definition set_icache (v : Z -> inode) (x : fsys) : fsys := mkFsys (bufs x) (ide x) (log x) v (ftable x) (devsw x) (pipes x) (cons x).
Definition set_ftable (v : Z -> file) (x : fsys) : fsys := mkFsys (bufs x) (ide x) (log x) (icache x) v (devsw x) (pipes x) (cons x).

Definition set_pipes (v : Z -> pipe) (x : fsys) : fsys := mkFsys (bufs x) (ide x) (log x) (icache x) (ftable x) (devsw x) v (cons x).

Definition set_cons (v : console) (x : fsys) : fsys := mkFsys (bufs x) (ide x) (log x) (icache x) (ftable x) (devsw x) (pipes x) v.
Definition set_devsw (v : Z -> devsw_t) (x : fsys) : fsys := mkFsys (bufs x) (ide x) (log x) (icache x) (ftable x) v (pipes x) (cons x).

Definition bget_ {A : Type} (i : Z) (f : buf -> A) : M St A := fget (fun x => f (bufs x i)).
Definition bset (i : Z) (f : buf -> buf) : M St unit := fmod (fun x => set_bufs (upd (bufs x) i (f (bufs x i))) x).
Definition iget_ {A : Type} (i : Z) (f : inode -> A) : M St A := fget (fun x => f (icache x i)).
Definition iset (i : Z) (f : inode -> inode) : M St unit := fmod (fun x => set_icache (upd (icache x) i (f (icache x i))) x).
Definition fdget {A : Type} (i : Z) (f : file -> A) : M St A := fget (fun x => f (ftable x i)).
Definition fdset (i : Z) (f : file -> file) : M St unit := fmod (fun x => set_ftable (upd (ftable x) i (f (ftable x i))) x).
Definition pget_ {A : Type} (i : Z) (f : pipe -> A) : M St A := fget (fun x => f (pipes x i)).
Definition pset_ (i : Z) (f : pipe -> pipe) : M St unit := fmod (fun x => set_pipes (upd (pipes x) i (f (pipes x i))) x).
Definition lget {A : Type} (f : log_t -> A) : M St A := fget (fun x => f (log x)).
Definition lset (f : log_t -> log_t) : M St unit := fmod (fun x => set_log (f (log x)) x).
Definition dget {A : Type} (f : ide_t -> A) : M St A := fget (fun x => f (ide x)).
Definition dset (f : ide_t -> ide_t) : M St unit := fmod (fun x => set_ide (f (ide x)) x).
Definition cget {A : Type} (f : console -> A) : M St A := fget (fun x => f (cons x)).
Definition cset (f : console -> console) : M St unit := fmod (fun x => set_cons (f (cons x)) x).

Definition b_with_flags (v : Z) (b : buf) : buf := mkBuf v (b_dev b) (b_sector b) (b_prev b) (b_next b) (b_qnext b) (b_data b).
Definition b_with_dev (v : Z) (b : buf) : buf := mkBuf (b_flags b) v (b_sector b) (b_prev b) (b_next b) (b_qnext b) (b_data b).
Definition b_with_sector (v : Z) (b : buf) : buf := mkBuf (b_flags b) (b_dev b) v (b_prev b) (b_next b) (b_qnext b) (b_data b).
Definition b_with_prev (v : Z) (b : buf) : buf := mkBuf (b_flags b) (b_dev b) (b_sector b) v (b_next b) (b_qnext b) (b_data b).
Definition b_with_next (v : Z) (b : buf) : buf := mkBuf (b_flags b) (b_dev b) (b_sector b) (b_prev b) v (b_qnext b) (b_data b).
Definition b_with_qnext (v : Z) (b : buf) : buf := mkBuf (b_flags b) (b_dev b) (b_sector b) (b_prev b) (b_next b) v (b_data b).
Definition b_with_data (v : mem) (b : buf) : buf := mkBuf (b_flags b) (b_dev b) (b_sector b) (b_prev b) (b_next b) (b_qnext b) v.
(** [b->flags |= f] and [b->flags &= ~f]. *)
Definition b_set (f : Z) (b : buf) : buf := b_with_flags (Z.lor (b_flags b) f) b.
Definition b_clear (f : Z) (b : buf) : buf := b_with_flags (Z.ldiff (b_flags b) f) b.

Definition i_with_dev (v : Z) (i : inode) : inode := mkInode v (i_inum i) (i_ref i) (i_flags i) (i_type i) (i_major i) (i_minor i) (i_nlink i) (i_size i) (i_addrs i).
Definition i_with_inum (v : Z) (i : inode) : inode := mkInode (i_dev i) v (i_ref i) (i_flags i) (i_type i) (i_major i) (i_minor i) (i_nlink i) (i_size i) (i_addrs i).
Definition i_with_ref (v : Z) (i : inode) : inode := mkInode (i_dev i) (i_inum i) v (i_flags i) (i_type i) (i_major i) (i_minor i) (i_nlink i) (i_size i) (i_addrs i).
Definition i_with_flags (v : Z) (i : inode) : inode := mkInode (i_dev i) (i_inum i) (i_ref i) v (i_type i) (i_major i) (i_minor i) (i_nlink i) (i_size i) (i_addrs i).
Definition i_with_type (v : Z) (i : inode) : inode := mkInode (i_dev i) (i_inum i) (i_ref i) (i_flags i) v (i_major i) (i_minor i) (i_nlink i) (i_size i) (i_addrs i).
Definition i_with_major (v : Z) (i : inode) : inode := mkInode (i_dev i) (i_inum i) (i_ref i) (i_flags i) (i_type i) v (i_minor i) (i_nlink i) (i_size i) (i_addrs i).
Definition i_with_minor (v : Z) (i : inode) : inode := mkInode (i_dev i) (i_inum i) (i_ref i) (i_flags i) (i_type i) (i_major i) v (i_nlink i) (i_size i) (i_addrs i).
Definition i_with_nlink (v : Z) (i : inode) : inode := mkInode (i_dev i) (i_inum i) (i_ref i) (i_flags i) (i_type i) (i_major i) (i_minor i) v (i_size i) (i_addrs i).
Definition i_with_size (v : Z) (i : inode) : inode := mkInode (i_dev i) (i_inum i) (i_ref i) (i_flags i) (i_type i) (i_major i) (i_minor i) (i_nlink i) v (i_addrs i).
Definition i_with_addrs (v : Z -> Z) (i : inode) : inode := mkInode (i_dev i) (i_inum i) (i_ref i) (i_flags i) (i_type i) (i_major i) (i_minor i) (i_nlink i) (i_size i) v.

Definition f_with_type (v : fdtype) (f : file) : file := mkFile v (f_ref f) (f_readable f) (f_writable f) (f_pipe f) (f_ip f) (f_off f).
Definition f_with_ref (v : Z) (f : file) : file := mkFile (f_type f) v (f_readable f) (f_writable f) (f_pipe f) (f_ip f) (f_off f).
Definition f_with_readable (v : Z) (f : file) : file := mkFile (f_type f) (f_ref f) v (f_writable f) (f_pipe f) (f_ip f) (f_off f).
Definition f_with_writable (v : Z) (f : file) : file := mkFile (f_type f) (f_ref f) (f_readable f) v (f_pipe f) (f_ip f) (f_off f).
Definition f_with_pipe (v : Z) (f : file) : file := mkFile (f_type f) (f_ref f) (f_readable f) (f_writable f) v (f_ip f) (f_off f).
Definition f_with_ip (v : Z) (f : file) : file := mkFile (f_type f) (f_ref f) (f_readable f) (f_writable f) (f_pipe f) v (f_off f).
Definition f_with_off (v : Z) (f : file) : file := mkFile (f_type f) (f_ref f) (f_readable f) (f_writable f) (f_pipe f) (f_ip f) v.

Definition l_with_n (v : Z) (l : log_t) : log_t := mkLog (log_start l) (log_size l) (log_busy l) (log_dev l) v (lh_sector l).
Definition l_with_sector (i v : Z) (l : log_t) : log_t := mkLog (log_start l) (log_size l) (log_busy l) (log_dev l) (lh_n l) (upd (lh_sector l) i v).
Definition l_with_busy (v : Z) (l : log_t) : log_t := mkLog (log_start l) (log_size l) v (log_dev l) (lh_n l) (lh_sector l).

Definition p_with_data (i v : Z) (p : pipe) : pipe := mkPipe (upd (p_data p) i v) (nread p) (nwrite p) (readopen p) (writeopen p).
Definition p_with_nread (v : Z) (p : pipe) : pipe := mkPipe (p_data p) v (nwrite p) (readopen p) (writeopen p).
Definition p_with_nwrite (v : Z) (p : pipe) : pipe := mkPipe (p_data p) (nread p) v (readopen p) (writeopen p).
Definition p_with_readopen (v : Z) (p : pipe) : pipe := mkPipe (p_data p) (nread p) (nwrite p) v (writeopen p).
Definition p_with_writeopen (v : Z) (p : pipe) : pipe := mkPipe (p_data p) (nread p) (nwrite p) (readopen p) v.

Definition d_with_queue (v : Z) (d : ide_t) : ide_t := mkIde v (havedisk1 d) (ctl d) (drv d).
Definition d_with_ctl (v : ctrl) (d : ide_t) : ide_t := mkIde (idequeue d) (havedisk1 d) v (drv d).
Definition d_with_drv (v : drive) (d : ide_t) : ide_t := mkIde (idequeue d) (havedisk1 d) (ctl d) v.

Definition c_with_crt (v : Z -> Z) (c : console) : console := mkCons v (crt_hi c) (crt_lo c) (uart c) (serial c) (panicked c) (locking c) (in_buf c) (in_r c) (in_w c) (in_e c).
Definition c_with_hi (v : Z) (c : console) : console := mkCons (crt c) v (crt_lo c) (uart c) (serial c) (panicked c) (locking c) (in_buf c) (in_r c) (in_w c) (in_e c).
Definition c_with_lo (v : Z) (c : console) : console := mkCons (crt c) (crt_hi c) v (uart c) (serial c) (panicked c) (locking c) (in_buf c) (in_r c) (in_w c) (in_e c).
Definition c_with_serial (v : list Z) (c : console) : console := mkCons (crt c) (crt_hi c) (crt_lo c) (uart c) v (panicked c) (locking c) (in_buf c) (in_r c) (in_w c) (in_e c).
Definition c_with_locking (v : Z) (c : console) : console := mkCons (crt c) (crt_hi c) (crt_lo c) (uart c) (serial c) (panicked c) v (in_buf c) (in_r c) (in_w c) (in_e c).
Definition c_with_buf (i v : Z) (c : console) : console := mkCons (crt c) (crt_hi c) (crt_lo c) (uart c) (serial c) (panicked c) (locking c) (upd (in_buf c) i v) (in_r c) (in_w c) (in_e c).
Definition c_with_r (v : Z) (c : console) : console := mkCons (crt c) (crt_hi c) (crt_lo c) (uart c) (serial c) (panicked c) (locking c) (in_buf c) v (in_w c) (in_e c).
Definition c_with_w (v : Z) (c : console) : console := mkCons (crt c) (crt_hi c) (crt_lo c) (uart c) (serial c) (panicked c) (locking c) (in_buf c) (in_r c) v (in_e c).
Definition c_with_e (v : Z) (c : console) : console := mkCons (crt c) (crt_hi c) (crt_lo c) (uart c) (serial c) (panicked c) (locking c) (in_buf c) (in_r c) (in_w c) v.

End access.
