(* ===== verification/Bio.v ===== *)
(** * The disk driver (ide.c) and the buffer cache (bio.c): the code

    iderw waits for the interrupt that ends its request; in its loop the
    interrupt arrives whenever interrupts are on.  A buffer that another
    process holds is waited for with [sleep_]. *)

From Stdlib Require Import ZArith Lia String Bool.
From stdpp Require Import base numbers list.
From S2P Require Import Prelude Params Mem Spinlock FsState.

Section ops.
Context {St : Type} {K : Kernel St}.

(** ** ide.c *)

Definition IDE_DF : Z := 0x20.
Definition IDE_ERR : Z := 0x01.
Definition IDE_CMD_READ : Z := 0x20.
Definition IDE_CMD_WRITE : Z := 0x30.

(** The drive gets ready; its status then tells of an error. *)
Definition idewait (checkerr : bool) : M St Z :=
  let* r := dget (fun d => r_status (ctl d)) in
  if checkerr && has r (Z.lor IDE_DF IDE_ERR) then ret (-1) else ret 0.

(** Writes to the ports, in the order of the code. *)
Definition outb (port v : Z) (c : ctrl) : ctrl :=
  if port =? 0x1f2 then mkCtrl v (r_lba0 c) (r_lba1 c) (r_lba2 c) (r_dev c) (r_cmd c) (r_latch c) (r_status c)
  else if port =? 0x1f3 then mkCtrl (r_count c) v (r_lba1 c) (r_lba2 c) (r_dev c) (r_cmd c) (r_latch c) (r_status c)
  else if port =? 0x1f4 then mkCtrl (r_count c) (r_lba0 c) v (r_lba2 c) (r_dev c) (r_cmd c) (r_latch c) (r_status c)
  else if port =? 0x1f5 then mkCtrl (r_count c) (r_lba0 c) (r_lba1 c) v (r_dev c) (r_cmd c) (r_latch c) (r_status c)
  else if port =? 0x1f6 then mkCtrl (r_count c) (r_lba0 c) (r_lba1 c) (r_lba2 c) v (r_cmd c) (r_latch c) (r_status c)
  else if port =? 0x1f7 then mkCtrl (r_count c) (r_lba0 c) (r_lba1 c) (r_lba2 c) (r_dev c) v (r_latch c) (r_status c)
  else c.
Definition outsl (m : mem) (c : ctrl) : ctrl :=
  mkCtrl (r_count c) (r_lba0 c) (r_lba1 c) (r_lba2 c) (r_dev c) (r_cmd c) m (r_status c).
Definition port_out (port v : Z) : M St unit := dset (fun d => d_with_ctl (outb port v (ctl d)) d).

Definition idestart (b : Z) : M St unit :=
  if b =? -1 then panic "idestart" else
  let* _ := idewait false in
  let* sector := bget_ b b_sector in
  let* dev := bget_ b b_dev in
  port_out 0x3f6 0 ;;
  port_out 0x1f2 1 ;;
  port_out 0x1f3 (Z.land sector 0xff) ;;
  port_out 0x1f4 (Z.land (Z.shiftr sector 8) 0xff) ;;
  port_out 0x1f5 (Z.land (Z.shiftr sector 16) 0xff) ;;
  port_out 0x1f6 (Z.lor (Z.lor 0xe0 (Z.shiftl (Z.land dev 1) 4)) (Z.land (Z.shiftr sector 24) 0x0f)) ;;
  let* fl := bget_ b b_flags in
  if has fl B_DIRTY then
    port_out 0x1f7 IDE_CMD_WRITE ;;
    let* m := bget_ b b_data in
    dset (fun d => d_with_ctl (outsl m (ctl d)) d)
  else port_out 0x1f7 IDE_CMD_READ.

(** The drive and the sector the registers select. *)
Definition reg_drive (c : ctrl) : Z := Z.land (Z.shiftr (r_dev c) 4) 1.
Definition reg_sector (c : ctrl) : Z :=
  Z.lor (Z.lor (r_lba0 c) (Z.shiftl (r_lba1 c) 8)) (Z.lor (Z.shiftl (r_lba2 c) 16) (Z.shiftl (Z.land (r_dev c) 0x0f) 24)).

(** What the drive does with a command before it raises its interrupt. *)
Definition drive_done (d : ide_t) : ide_t :=
  if r_cmd (ctl d) =? IDE_CMD_WRITE
  then d_with_drv (dwrite (drv d) (reg_drive (ctl d)) (reg_sector (ctl d)) (r_latch (ctl d))) d
  else d.
(** The sector it offers after a read command. *)
Definition insl (d : ide_t) : mem := dread (drv d) (reg_drive (ctl d)) (reg_sector (ctl d)).

Definition ideintr : M St unit :=
  lock_ L_ide ;;
  let* b := dget idequeue in
  if b =? -1 then unlock_ L_ide else
  let* qn := bget_ b b_qnext in
  dset (d_with_queue qn) ;;
  let* fl := bget_ b b_flags in
  (if negb (has fl B_DIRTY) then
     let* r := idewait true in
     if 0 <=? r then
       let* m := dget insl in bset b (b_with_data m)
     else ret tt
   else ret tt) ;;
  bset b (b_set B_VALID) ;;
  bset b (b_clear B_DIRTY) ;;
  let* q := dget idequeue in
  (if negb (q =? -1) then idestart q else ret tt) ;;
  unlock_ L_ide.

(** The walk along the queue to its last buffer. *)
Fixpoint queue_last (fuel : nat) (b : Z) : M St Z :=
  match fuel with
  | O => nofuel
  | S fuel => let* n := bget_ b b_qnext in if n =? -1 then ret b else queue_last fuel n
  end.

(** The wait for the request; each round lets one interrupt in. *)
Fixpoint iderw_wait (fuel : nat) (b : Z) : M St unit :=
  let* fl := bget_ b b_flags in
  if Z.land fl (Z.lor B_VALID B_DIRTY) =? B_VALID then ret tt else
  match fuel with
  | O => nofuel
  | S fuel =>
    unlock_ L_ide ;;
    sti_ ;;
    dset drive_done ;;
    ideintr ;;
    lock_ L_ide ;;
    iderw_wait fuel b
  end.

Definition iderw (b : Z) : M St unit :=
  let* fl := bget_ b b_flags in
  if negb (has fl B_BUSY) then panic "iderw: buf not busy" else
  if Z.land fl (Z.lor B_VALID B_DIRTY) =? B_VALID then panic "iderw: nothing to do" else
  let* dev := bget_ b b_dev in
  let* d1 := dget havedisk1 in
  if negb (dev =? 0) && (d1 =? 0) then panic "iderw: ide disk 1 not present" else
  lock_ L_ide ;;
  bset b (b_with_qnext (-1)) ;;
  let* q := dget idequeue in
  (if q =? -1 then dset (d_with_queue b)
   else let* l := queue_last (Z.to_nat NBUF) q in bset l (b_with_qnext b)) ;;
  let* q := dget idequeue in
  (if q =? b then idestart b else ret tt) ;;
  iderw_wait (Z.to_nat NBUF) b ;;
  unlock_ L_ide.

(** ** bio.c *)

Definition head : Z := NBUF.

(** The loop of binit from buffer [b] on. *)
Fixpoint binit_loop (n : nat) (b : Z) : M St unit :=
  match n with
  | O => ret tt
  | S n =>
    let* hn := bget_ head b_next in
    bset b (b_with_next hn) ;;
    bset b (b_with_prev head) ;;
    bset b (b_with_dev 0xFFFFFFFF) ;;
    let* hn := bget_ head b_next in
    bset hn (b_with_prev b) ;;
    bset head (b_with_next b) ;;
    binit_loop n (b + 1)
  end.
Definition binit : M St unit :=
  initlock_ L_bcache ;;
  bset head (b_with_prev head) ;;
  bset head (b_with_next head) ;;
  binit_loop (Z.to_nat NBUF) 0.

(** The search for a cached sector, along the next pointers from [b]. *)
Fixpoint find_cached (fuel : nat) (b dev sector : Z) : M St Z :=
  match fuel with
  | O => nofuel
  | S fuel =>
    if b =? head then ret (-1) else
    let* d := bget_ b b_dev in
    let* s := bget_ b b_sector in
    if (d =? dev) && (s =? sector) then ret b else
    let* n := bget_ b b_next in find_cached fuel n dev sector
  end.

(** The search for a buffer to recycle, along the prev pointers. *)
Fixpoint find_clean (fuel : nat) (b : Z) : M St Z :=
  match fuel with
  | O => nofuel
  | S fuel =>
    if b =? head then ret (-1) else
    let* fl := bget_ b b_flags in
    if negb (has fl B_BUSY) && negb (has fl B_DIRTY) then ret b else
    let* p := bget_ b b_prev in find_clean fuel p
  end.

Definition bget (dev sector : Z) : M St Z :=
  lock_ L_bcache ;;
  let* first := bget_ head b_next in
  let* b := find_cached (S (Z.to_nat NBUF)) first dev sector in
  if negb (b =? -1) then
    let* fl := bget_ b b_flags in
    if negb (has fl B_BUSY) then
      bset b (b_set B_BUSY) ;;
      unlock_ L_bcache ;;
      ret b
    else sleep_ Z (O_buf b) L_bcache
  else
    let* last := bget_ head b_prev in
    let* b := find_clean (S (Z.to_nat NBUF)) last in
    if b =? -1 then panic "bget: no buffers" else
    bset b (b_with_dev dev) ;;
    bset b (b_with_sector sector) ;;
    bset b (b_with_flags B_BUSY) ;;
    unlock_ L_bcache ;;
    ret b.

Definition bread (dev sector : Z) : M St Z :=
  let* b := bget dev sector in
  let* fl := bget_ b b_flags in
  (if negb (has fl B_VALID) then iderw b else ret tt) ;;
  ret b.

Definition bwrite (b : Z) : M St unit :=
  let* fl := bget_ b b_flags in
  if negb (has fl B_BUSY) then panic "bwrite" else
  bset b (b_set B_DIRTY) ;;
  iderw b.

Definition brelse (b : Z) : M St unit :=
  let* fl := bget_ b b_flags in
  if negb (has fl B_BUSY) then panic "brelse" else
  lock_ L_bcache ;;
  let* n := bget_ b b_next in
  let* p := bget_ b b_prev in
  bset n (b_with_prev p) ;;
  let* p := bget_ b b_prev in
  let* n := bget_ b b_next in
  bset p (b_with_next n) ;;
  let* hn := bget_ head b_next in
  bset b (b_with_next hn) ;;
  bset b (b_with_prev head) ;;
  let* hn := bget_ head b_next in
  bset hn (b_with_prev b) ;;
  bset head (b_with_next b) ;;
  bset b (b_clear B_BUSY) ;;
  wakeup_ (O_buf b) ;;
  unlock_ L_bcache.

End ops.
