(* ===== verification/Log.v ===== *)
(** * The log (log.c): the code

    One transaction at a time: log_write appends blocks to the log on disk,
    commit_trans writes the header, installs the blocks and erases the log. *)

From Stdlib Require Import ZArith Lia String Bool.
From stdpp Require Import base numbers list.
From S2P Require Import Prelude Params Mem Spinlock FsState Bio.

Section ops.
Context {St : Type} {K : Kernel St}.

(** readsb (fs.c). *)
Definition readsb (dev : Z) : M St superblock :=
  let* bp := bread dev 1 in
  let* m := bget_ bp b_data in
  brelse bp ;;
  ret (mkSb (ld32 m 0) (ld32 m 4) (ld32 m 8) (ld32 m 12)).

(** An int field of a block. *)
Definition int_at (m : mem) (a : Z) : Z := s32 (ld32 m a).

Fixpoint install_loop (fuel : nat) (tail : Z) : M St unit :=
  let* n := lget lh_n in
  if tail <? n then
    match fuel with
    | O => nofuel
    | S fuel =>
      let* dev := lget log_dev in
      let* st := lget log_start in
      let* lbuf := bread dev (u32 (st + tail + 1)) in
      let* sec := lget (fun l => lh_sector l tail) in
      let* dbuf := bread dev (u32 sec) in
      let* m := bget_ lbuf b_data in
      bset dbuf (fun b => b_with_data (blit (b_data b) 0 m BSIZE) b) ;;
      bwrite dbuf ;;
      brelse lbuf ;;
      brelse dbuf ;;
      install_loop fuel (tail + 1)
    end
  else ret tt.
Definition install_trans : M St unit := let* n := lget lh_n in install_loop (Z.to_nat n) 0.

(** The copies of the sector numbers between the header block and memory. *)
Fixpoint read_sectors (n : nat) (m : mem) (i : Z) : M St unit :=
  match n with
  | O => ret tt
  | S n => lset (l_with_sector i (int_at m (4 + 4 * i))) ;; read_sectors n m (i + 1)
  end.
Definition read_head : M St unit :=
  let* dev := lget log_dev in
  let* st := lget log_start in
  let* b := bread dev (u32 st) in
  let* m := bget_ b b_data in
  lset (l_with_n (int_at m 0)) ;;
  let* n := lget lh_n in
  (if LOGSIZE <? n then fault "read_head: sector array" else read_sectors (Z.to_nat n) m 0) ;;
  brelse b.

Fixpoint write_sectors (n : nat) (b i : Z) : M St unit :=
  match n with
  | O => ret tt
  | S n => let* v := lget (fun l => lh_sector l i) in
           bset b (fun x => b_with_data (st32 (b_data x) (4 + 4 * i) v) x) ;;
           write_sectors n b (i + 1)
  end.
Definition write_head : M St unit :=
  let* dev := lget log_dev in
  let* st := lget log_start in
  let* b := bread dev (u32 st) in
  let* n := lget lh_n in
  bset b (fun x => b_with_data (st32 (b_data x) 0 n) x) ;;
  write_sectors (Z.to_nat n) b 0 ;;
  bwrite b ;;
  brelse b.

Definition recover_from_log : M St unit :=
  read_head ;;
  install_trans ;;
  lset (l_with_n 0) ;;
  write_head.

Definition sizeof_logheader : Z := 4 + 4 * LOGSIZE.

Definition initlog : M St unit :=
  if BSIZE <=? sizeof_logheader then panic "initlog: too big logheader" else
  initlock_ L_log ;;
  let* sb := readsb ROOTDEV in
  lset (fun l => mkLog (s32 (sb_size sb - sb_nlog sb)) (s32 (sb_nlog sb)) (log_busy l) ROOTDEV (lh_n l) (lh_sector l)) ;;
  recover_from_log.

(** While another process is in a transaction, only that process can go on. *)
Definition begin_trans : M St unit :=
  lock_ L_log ;;
  let* b := lget log_busy in
  if negb (b =? 0) then fun _ => Blocked else
  lset (l_with_busy 1) ;;
  unlock_ L_log.

Definition commit_trans : M St unit :=
  let* n := lget lh_n in
  (if 0 <? n then
     write_head ;;
     install_trans ;;
     lset (l_with_n 0) ;;
     write_head
   else ret tt) ;;
  lock_ L_log ;;
  lset (l_with_busy 0) ;;
  unlock_ L_log.

(** The search for the sector among those logged from [i] on. *)
Fixpoint find_logged (n : nat) (i sector : Z) : M St Z :=
  match n with
  | O => ret i
  | S n => let* v := lget (fun l => lh_sector l i) in
           if u32 v =? sector then ret i else find_logged n (i + 1) sector
  end.

Definition log_write (b : Z) : M St unit :=
  let* n := lget lh_n in
  let* sz := lget log_size in
  if (LOGSIZE <=? n) || (sz - 1 <=? n) then panic "too big a transaction" else
  let* busy := lget log_busy in
  if busy =? 0 then panic "write outside of trans" else
  let* sector := bget_ b b_sector in
  let* i := find_logged (Z.to_nat n) 0 sector in
  lset (l_with_sector i (s32 sector)) ;;
  let* dev := bget_ b b_dev in
  let* st := lget log_start in
  let* lbuf := bread dev (u32 (st + i + 1)) in
  let* m := bget_ b b_data in
  bset lbuf (fun x => b_with_data (blit (b_data x) 0 m BSIZE) x) ;;
  bwrite lbuf ;;
  brelse lbuf ;;
  let* n := lget lh_n in
  (if i =? n then lset (l_with_n (n + 1)) else ret tt) ;;
  bset b (b_set B_DIRTY).

End ops.
