(* ===== verification/FsRun.v ===== *)
(** * Reasoning about file-system code

    [KernelSpec]: what the file system relies on from locks and wakeups.
    [runs H c x a x' H']: with the locks [H] held and the file system in state
    [x], the code [c] returns [a] and leaves [x'], with [H'] held and the rest
    of the machine as the interface keeps it. *)

From Stdlib Require Import ZArith Lia String Bool.
From stdpp Require Import base numbers sets list.
From S2P Require Import Prelude Params Mem Spinlock FsState.

(** [kin s H]: this CPU holds exactly the locks [H] of the file system.
    [keep s s']: the states differ at most in the file system and in the
    bookkeeping of locks and wakeups. *)
Class KernelSpec (S : Type) {K : Kernel S} : Type := {
  kin : S -> list fslock -> Prop;
  keep : S -> S -> Prop;
  keep_pre :: PreOrder keep;
  fsL_ok :: LensOk (fsL : lens S fsys);
  kin_put : forall s H x, kin s H -> kin (put fsL x s) H;
  keep_put : forall s x, keep s (put fsL x s);
  lock_spec : forall s H l, kin s H -> l ∉ H ->
    exists s', lock_ l s = Ret (tt, s') /\ kin s' (l :: H) /\ view fsL s' = view fsL s /\ keep s s';
  unlock_spec : forall s H l, kin s (l :: H) ->
    exists s', unlock_ l s = Ret (tt, s') /\ kin s' H /\ view fsL s' = view fsL s /\ keep s s';
  wakeup_spec : forall s H o, kin s H ->
    exists s', wakeup_ o s = Ret (tt, s') /\ kin s' H /\ view fsL s' = view fsL s /\ keep s s';
  sti_spec : forall s, kin s [] ->
    exists s', sti_ s = Ret (tt, s') /\ kin s' [] /\ view fsL s' = view fsL s /\ keep s s'
}.

Section runs.
Context {St : Type} {K : Kernel St} {KS : KernelSpec St}.

Definition runs {A : Type} (H : list fslock) (c : M St A) (x : fsys) (a : A) (x' : fsys) (H' : list fslock) : Prop :=
  forall s, kin s H -> view fsL s = x ->
  exists s', c s = Ret (a, s') /\ kin s' H' /\ view fsL s' = x' /\ keep s s'.

Lemma runs_ret {A : Type} H (a : A) x : runs H (ret a) x a x H.
Proof. intros s Hs Hx. exists s. by split_and!. Qed.

Lemma runs_eq {A : Type} H (c : M St A) x a a1 x1 x2 H1 :
  runs H c x a x1 H1 -> a = a1 -> x1 = x2 -> runs H c x a1 x2 H1.
Proof. by intros ? <- <-. Qed.

Lemma runs_bind {A B : Type} H H1 H2 (c : M St A) (k : A -> M St B) x a x1 b x2 :
  runs H c x a x1 H1 -> runs H1 (k a) x1 b x2 H2 -> runs H (bind c k) x b x2 H2.
Proof.
  intros Hc Hk s Hs Hx. destruct (Hc s Hs Hx) as (s1 & E1 & Hs1 & Hx1 & K1).
  destruct (Hk s1 Hs1 Hx1) as (s2 & E2 & Hs2 & Hx2 & K2).
  exists s2. split_and!; try done; [by rewrite (bind_ret_eq _ _ _ _ _ E1)|by etransitivity].
Qed.

Lemma runs_fget {A : Type} H (f : fsys -> A) x : runs H (fget f) x (f x) x H.
Proof. intros s Hs Hx. exists s. split_and!; try done. unfold fget, gets. by rewrite Hx. Qed.

Lemma runs_fmod H (f : fsys -> fsys) x : runs H (fmod f) x tt (f x) H.
Proof.
  intros s Hs Hx. exists (put fsL (f x) s). split_and!.
  - unfold fmod, modify. by rewrite Hx.
  - by apply kin_put.
  - apply view_put.
  - apply keep_put.
Qed.

Lemma runs_lock H l x : l ∉ H -> runs H (lock_ l) x tt x (l :: H).
Proof.
  intros Hl s Hs Hx. destruct (lock_spec s H l Hs Hl) as (s' & E & ? & Hv & ?).
  exists s'. split_and!; try done. by rewrite Hv.
Qed.
Lemma runs_unlock H l x : runs (l :: H) (unlock_ l) x tt x H.
Proof.
  intros s Hs Hx. destruct (unlock_spec s H l Hs) as (s' & E & ? & Hv & ?).
  exists s'. split_and!; try done. by rewrite Hv.
Qed.
Lemma runs_wakeup H o x : runs H (wakeup_ o) x tt x H.
Proof.
  intros s Hs Hx. destruct (wakeup_spec s H o Hs) as (s' & E & ? & Hv & ?).
  exists s'. split_and!; try done. by rewrite Hv.
Qed.
Lemma runs_sti x : runs [] sti_ x tt x [].
Proof.
  intros s Hs Hx. destruct (sti_spec s Hs) as (s' & E & ? & Hv & ?).
  exists s'. split_and!; try done. by rewrite Hv.
Qed.

End runs.

(** ** Memory of the running process *)

(** [umem s a]: the byte at [a]; [uok s a]: the process may read and write it. *)
Class UserSpec (S : Type) {K : Kernel S} {KS : KernelSpec S} : Type := {
  umem : S -> mem;
  uok : S -> Z -> Prop;
  ukilled : S -> Z;
  keep_user : forall s s', keep s s' -> umem s' = umem s /\ uok s' = uok s /\ ukilled s' = ukilled s;
  killed_spec : forall s, killed_ s = Ret (ukilled s, s);
  fetch_spec : forall s a n, 0 <= a -> 0 <= n -> a + n <= 0x100000000 -> (forall b, a <= b < a + n -> uok s b) ->
    exists m, fetch_ a n s = Ret (m, s) /\ forall i, 0 <= i < n -> m i = umem s (a + i);
  store_spec : forall s H a m, kin s H -> uok s a ->
    exists s', store_ a m 1 s = Ret (tt, s') /\ kin s' H /\ view fsL s' = view fsL s /\
      (forall b, umem s' b = if b =? a then m 0 else umem s b) /\ uok s' = uok s /\ ukilled s' = ukilled s
}.

Section user.
Context {St : Type} {K : Kernel St} {KS : KernelSpec St} {US : UserSpec St}.

Lemma fetch_byte s a : 0 <= a < 0x100000000 -> uok s a -> exists m, fetch_ a 1 s = Ret (m, s) /\ m 0 = umem s a.
Proof.
  intros Ha Hok. destruct (fetch_spec s a 1) as (m & E & Hm); [lia|lia|lia|intros b Hb; by replace b with a by lia|].
  exists m. split; [done|]. by rewrite Hm, Z.add_0_r by lia.
Qed.

Record user_same (s s' : St) : Prop := {
  us_mem : umem s' = umem s;
  us_ok : uok s' = uok s;
  us_killed : ukilled s' = ukilled s
}.
Lemma keep_user_same s s' : keep s s' -> user_same s s'.
Proof. intros H. by destruct (keep_user s s' H) as (? & ? & ?). Qed.
#[export] Instance user_same_pre : PreOrder user_same.
Proof. split; [by intros s|intros s1 s2 s3 [? ? ?] [? ? ?]; split; congruence]. Qed.

(** A primitive step of code that keeps the memory of the process. *)
Lemma runs_at {A B : Type} H (c : M St A) (k : A -> M St B) x a x' H' s :
  runs H c x a x' H' -> kin s H -> view fsL s = x ->
  exists s', bind c k s = k a s' /\ kin s' H' /\ view fsL s' = x' /\ user_same s s'.
Proof.
  intros R Hs Hx. destruct (R s Hs Hx) as (s' & E & Hs' & Hx' & Kp). exists s'.
  split_and!; [by rewrite (bind_ret_eq _ _ _ _ _ E)|done|done|by apply keep_user_same].
Qed.
End user.

(** One step of code whose first command is a primitive; the state is left
    as the term the definitions give. *)
Ltac rprim :=
  first [ apply runs_ret | apply runs_fget | apply runs_fmod | apply runs_unlock | apply runs_wakeup | apply runs_sti
        | apply runs_lock; set_solver ].
Ltac rstep := eapply runs_bind; [rprim|cbv beta].
(** The last command. *)
Ltac rlast := eapply runs_eq; [rprim|reflexivity|reflexivity].
(** Step with a specification. *)
Ltac rstep_with H := eapply runs_bind; [apply H|cbv beta].

(** ** The file system alone *)

(** Without other processes there is nothing to lock against; memory is flat. *)
Record alone : Type := mkAlone { a_fs : fsys; a_mem : mem; a_cwd : Z }.

Definition a_fsL : lens alone fsys := Lens a_fs (fun x s => mkAlone x (a_mem s) (a_cwd s)).
#[export] Instance a_fsL_ok : LensOk a_fsL.
Proof. split; try intros ?? []; try intros []; done. Qed.

#[export] Instance alone_kernel : Kernel alone := {|
  fsL := a_fsL;
  initlock_ := fun _ => ret tt;
  lock_ := fun _ => ret tt;
  unlock_ := fun _ => ret tt;
  sti_ := ret tt;
  wakeup_ := fun _ => ret tt;
  sleep_ := fun _ _ _ _ => Blocked;
  fetch_ := fun a n => gets (fun s => fun i => a_mem s (a + i));
  store_ := fun a m n => modify (fun s => mkAlone (a_fs s) (blit (a_mem s) a m n) (a_cwd s));
  cwd_ := gets a_cwd;
  killed_ := ret 0;
  kalloc_ := ret 0;
  kfree_ := fun _ => ret tt
|}.

#[export] Instance alone_spec : KernelSpec alone.
Proof.
  refine {| kin := fun _ _ => True; keep := fun s s' => a_mem s' = a_mem s /\ a_cwd s' = a_cwd s |}; try done.
  - split; [done|]. intros a b c [? ?] [? ?]. split; congruence.
  - intros s H l _ _. exists s. by split_and!.
  - intros s H l _. exists s. by split_and!.
  - intros s H o _. exists s. by split_and!.
  - intros s _. exists s. by split_and!.
Defined.

#[export] Instance alone_user : UserSpec alone.
Proof.
  refine {| umem := a_mem; uok := fun _ _ => True; ukilled := fun _ => 0 |}.
  - intros s s' [E _]. by rewrite E.
  - done.
  - intros s a n _ _ _ _. eexists. split; [reflexivity|done].
  - intros s H a m _ _. eexists. split; [reflexivity|]. split_and!; try done. intros b. cbn. unfold blit.
    destruct (Z.eqb_spec b a) as [->|Hb]; [by rewrite Z.leb_refl, (proj2 (Z.ltb_lt _ _)), Z.sub_diag by lia|].
    destruct (Z.leb_spec a b), (Z.ltb_spec b (a + 1)); cbn; try done. lia.
Defined.

(** Memory that is zero, with an idle second drive. *)
Definition blank_fs (z : drive) : fsys :=
  mkFsys (fun _ => mkBuf 0 0 0 0 0 0 (fun _ => 0)) (mkIde (-1) 1 (mkCtrl 0 0 0 0 0 0 (fun _ => 0) 0) z)
    (mkLog 0 0 0 0 0 (fun _ => 0)) (fun _ => mkInode 0 0 0 0 0 0 0 0 0 (fun _ => 0))
    (fun _ => mkFile FD_NONE 0 0 0 0 0 0) (fun _ => mkDevsw false false) (fun _ => mkPipe (fun _ => 0) 0 0 0 0)
    (mkCons (fun _ => 0) 0 0 0 [] 0 0 (fun _ => 0) 0 0 0).
