(* ===== verification/BioSpec.v ===== *)
(** * The buffer cache is a cache of the disk

    What iderw, bread, bwrite and brelse do to a cache in order: the ring of
    buffers, one buffer per sector, clean buffers equal to the disk.  The
    lemmas describe the logical contents of the disk, [lv]: the cached sector
    if there is one, the sector on the drive otherwise. *)

From Stdlib Require Import ZArith Lia String Bool.
From stdpp Require Import base numbers sets list.
From S2P Require Import Prelude Params Mem Spinlock FsState Bio FsRun.

(** ** Flags *)

Lemma has_spec f k : 0 <= k -> has f (2 ^ k) = Z.testbit f k.
Proof.
  intros Hk. unfold has. destruct (Z.testbit f k) eqn:E.
  - apply negb_true_iff, Z.eqb_neq. intros H0.
    assert (Z.testbit (Z.land f (2 ^ k)) k = false) as Hc by (rewrite H0; apply Z.bits_0).
    rewrite Z.land_spec, E, Z.pow2_bits_true in Hc by lia. done.
  - apply negb_false_iff, Z.eqb_eq. apply Z.bits_inj'. intros i Hi.
    rewrite Z.land_spec, Z.bits_0. destruct (decide (i = k)) as [->|].
    + by rewrite E.
    + rewrite Z.pow2_bits_false by done. apply andb_false_r.
Qed.

Lemma has_bits f : has f B_BUSY = Z.testbit f 0 /\ has f B_VALID = Z.testbit f 1 /\ has f B_DIRTY = Z.testbit f 2.
Proof. split_and!; apply (has_spec f 0) || apply (has_spec f 1) || apply (has_spec f 2); lia. Qed.

Ltac flag_bits :=
  rewrite ?(proj1 (has_bits _)), ?(proj1 (proj2 (has_bits _))), ?(proj2 (proj2 (has_bits _))),
    ?Z.lor_spec, ?Z.ldiff_spec.

(** Setting and clearing a flag, as the other flags see it. *)
Lemma flags_set f :
  (has (Z.lor f B_BUSY) B_BUSY = true /\ has (Z.lor f B_BUSY) B_VALID = has f B_VALID /\ has (Z.lor f B_BUSY) B_DIRTY = has f B_DIRTY) /\
  (has (Z.lor f B_VALID) B_BUSY = has f B_BUSY /\ has (Z.lor f B_VALID) B_VALID = true /\ has (Z.lor f B_VALID) B_DIRTY = has f B_DIRTY) /\
  (has (Z.lor f B_DIRTY) B_BUSY = has f B_BUSY /\ has (Z.lor f B_DIRTY) B_VALID = has f B_VALID /\ has (Z.lor f B_DIRTY) B_DIRTY = true).
Proof. split_and!; flag_bits; cbn; by rewrite ?orb_true_r, ?orb_false_r. Qed.

Lemma flags_clear f :
  (has (Z.ldiff f B_BUSY) B_BUSY = false /\ has (Z.ldiff f B_BUSY) B_VALID = has f B_VALID /\ has (Z.ldiff f B_BUSY) B_DIRTY = has f B_DIRTY) /\
  (has (Z.ldiff f B_DIRTY) B_BUSY = has f B_BUSY /\ has (Z.ldiff f B_DIRTY) B_VALID = has f B_VALID /\ has (Z.ldiff f B_DIRTY) B_DIRTY = false).
Proof. split_and!; flag_bits; cbn; by rewrite ?andb_false_r, ?andb_true_r. Qed.

Lemma flags_idle f :
  (Z.land f (Z.lor B_VALID B_DIRTY) =? B_VALID) = has f B_VALID && negb (has f B_DIRTY).
Proof.
  flag_bits. change (Z.lor B_VALID B_DIRTY) with 6. change B_VALID with 2.
  destruct (Z.eqb_spec (Z.land f 6) 2) as [E|E].
  - assert (Z.testbit (Z.land f 6) 1 = true /\ Z.testbit (Z.land f 6) 2 = false) as [H1 H2] by (rewrite E; done).
    rewrite Z.land_spec in H1, H2. change (Z.testbit 6 1) with true in H1. change (Z.testbit 6 2) with true in H2.
    rewrite andb_true_r in H1, H2. by rewrite H1, H2.
  - destruct (Z.testbit f 1) eqn:E1, (Z.testbit f 2) eqn:E2; cbn; try done. exfalso. apply E.
    apply Z.bits_inj'. intros i Hi. rewrite Z.land_spec.
    destruct (decide (i = 1)) as [->|]; [by rewrite E1|]. destruct (decide (i = 2)) as [->|]; [by rewrite E2|].
    change 6 with (Z.lor (2 ^ 1) (2 ^ 2)). rewrite Z.lor_spec, !Z.pow2_bits_false by lia.
    rewrite andb_false_r. change 2 with (2 ^ 1). by rewrite Z.pow2_bits_false by lia.
Qed.

(** ** The driver *)

(** The task-file registers carry a 28-bit sector number and the drive. *)
Definition regs (dev sector : Z) (c : ctrl) : ctrl :=
  outb 0x1f6 (Z.lor (Z.lor 0xe0 (Z.shiftl (Z.land dev 1) 4)) (Z.land (Z.shiftr sector 24) 0x0f))
    (outb 0x1f5 (Z.land (Z.shiftr sector 16) 0xff) (outb 0x1f4 (Z.land (Z.shiftr sector 8) 0xff)
      (outb 0x1f3 (Z.land sector 0xff) (outb 0x1f2 1 c)))).

Lemma low_mod x n : 0 <= n -> Z.land x (2 ^ n - 1) = x mod 2 ^ n.
Proof. apply land_low_mask. Qed.

(** The drive register: 0xe0, the drive bit and the top four sector bits. *)
Lemma dev_reg d t : 0 <= t < 16 ->
  Z.lor (Z.lor 0xe0 (Z.shiftl (Z.land d 1) 4)) t = 0xe0 + d mod 2 * 16 + t.
Proof.
  intros Ht. rewrite Z.shiftl_mul_pow2 by lia. change 1 with (2 ^ 1 - 1) at 1. rewrite low_mod by lia.
  rewrite (lor_low_add 0xe0 _ 5), (lor_low_add _ t 4); [done|lia|mlia|lia|lia|done|mlia].
Qed.

Lemma outb_regs port v c :
  r_lba0 (outb port v c) = (if port =? 0x1f3 then v else r_lba0 c) /\
  r_lba1 (outb port v c) = (if port =? 0x1f4 then v else r_lba1 c) /\
  r_lba2 (outb port v c) = (if port =? 0x1f5 then v else r_lba2 c) /\
  r_dev (outb port v c) = (if port =? 0x1f6 then v else r_dev c) /\
  r_cmd (outb port v c) = (if port =? 0x1f7 then v else r_cmd c) /\
  r_latch (outb port v c) = r_latch c /\ r_status (outb port v c) = r_status c.
Proof.
  unfold outb. destruct (Z.eqb_spec port 0x1f2) as [->|]; [done|]. destruct (Z.eqb_spec port 0x1f3) as [->|]; [done|].
  destruct (Z.eqb_spec port 0x1f4) as [->|]; [done|]. destruct (Z.eqb_spec port 0x1f5) as [->|]; [done|].
  destruct (Z.eqb_spec port 0x1f6) as [->|]; [done|]. destruct (Z.eqb_spec port 0x1f7) as [->|]; done.
Qed.

Ltac outb_norm :=
  repeat match goal with
  | |- context [r_lba0 (outb ?p ?v ?c)] => rewrite (proj1 (outb_regs p v c)); cbn [Z.eqb Pos.eqb]
  | |- context [r_lba1 (outb ?p ?v ?c)] => rewrite (proj1 (proj2 (outb_regs p v c))); cbn [Z.eqb Pos.eqb]
  | |- context [r_lba2 (outb ?p ?v ?c)] => rewrite (proj1 (proj2 (proj2 (outb_regs p v c)))); cbn [Z.eqb Pos.eqb]
  | |- context [r_dev (outb ?p ?v ?c)] => rewrite (proj1 (proj2 (proj2 (proj2 (outb_regs p v c))))); cbn [Z.eqb Pos.eqb]
  | |- context [r_cmd (outb ?p ?v ?c)] => rewrite (proj1 (proj2 (proj2 (proj2 (proj2 (outb_regs p v c)))))); cbn [Z.eqb Pos.eqb]
  | |- context [r_latch (outb ?p ?v ?c)] => rewrite (proj1 (proj2 (proj2 (proj2 (proj2 (proj2 (outb_regs p v c)))))))
  | |- context [r_status (outb ?p ?v ?c)] => rewrite (proj2 (proj2 (proj2 (proj2 (proj2 (proj2 (outb_regs p v c)))))))
  end.

Lemma regs_eq dev sector c : 0 <= sector < 2 ^ 28 ->
  let r := regs dev sector c in
  r_lba0 r = sector mod 256 /\ r_lba1 r = sector / 256 mod 256 /\ r_lba2 r = sector / 65536 mod 256 /\
  r_dev r = 0xe0 + dev mod 2 * 16 + sector / 16777216 mod 16.
Proof.
  intros Hs r. subst r. unfold regs. outb_norm.
  change 0xff with (2 ^ 8 - 1). change 0x0f with (2 ^ 4 - 1).
  rewrite !low_mod, !Z.shiftr_div_pow2 by lia. rewrite dev_reg by mlia. done.
Qed.

Lemma regs_sector dev sector c : 0 <= sector < 2 ^ 28 -> reg_sector (regs dev sector c) = sector.
Proof.
  intros Hs. destruct (regs_eq dev sector c Hs) as (E0 & E1 & E2 & E3). unfold reg_sector. rewrite E0, E1, E2, E3.
  change 0x0f with (2 ^ 4 - 1). rewrite low_mod by lia. rewrite !Z.shiftl_mul_pow2 by lia.
  rewrite (Z.lor_comm (sector mod 256)), (lor_low_add _ (sector mod 256) 8) by mlia.
  rewrite (Z.lor_comm (_ * 2 ^ 16)), (lor_low_add _ (_ * 2 ^ 16) 24) by mlia.
  rewrite Z.lor_comm, (lor_low_add _ _ 16) by mlia. mlia.
Qed.

Lemma regs_drive dev sector c : 0 <= dev <= 1 -> 0 <= sector < 2 ^ 28 -> reg_drive (regs dev sector c) = dev.
Proof.
  intros Hd Hs. destruct (regs_eq dev sector c Hs) as (_ & _ & _ & E). unfold reg_drive. rewrite E.
  match goal with |- Z.land ?e 1 = _ => change (Z.land e 1) with (Z.land e (2 ^ 1 - 1)) end.
  rewrite low_mod, Z.shiftr_div_pow2 by lia. mlia.
Qed.

(** ** The ring of buffers *)

(** A path from [p] through [l] to [q] along a relation. *)
Fixpoint chain (R : Z -> Z -> Prop) (p : Z) (l : list Z) (q : Z) : Prop :=
  match l with
  | [] => R p q
  | b :: l => R p b /\ chain R b l q
  end.

Lemma chain_app R p l1 b l2 q : chain R p (l1 ++ b :: l2) q <-> chain R p l1 b /\ chain R b l2 q.
Proof. revert p. induction l1 as [|c l1 IH]; intros p; cbn; [done|]. rewrite IH. tauto. Qed.

Lemma chain_mono (R R' : Z -> Z -> Prop) p l q :
  (forall a c, a ∈ p :: l -> c ∈ l ++ [q] -> R a c -> R' a c) -> chain R p l q -> chain R' p l q.
Proof.
  revert p. induction l as [|b l IH]; intros p H; cbn; [apply H; set_solver|].
  intros [H1 H2]. split; [apply H; [set_solver|set_solver|done]|]. apply IH; [|done].
  intros a c Ha Hc. apply H; set_solver.
Qed.

(** The same path to another end. *)
Lemma chain_retarget (R R' : Z -> Z -> Prop) p l b q :
  chain R p l b -> (forall a c, a ∈ p :: l -> c ∈ l -> R a c -> R' a c) ->
  (forall a, a ∈ p :: l -> R a b -> R' a q) -> chain R' p l q.
Proof.
  revert p. induction l as [|c l IH]; intros p; cbn; intros H H1 H2; [apply H2; [set_solver|done]|].
  destruct H as [Hp Hc]. split; [apply H1; [set_solver|set_solver|done]|].
  apply IH; [done|intros; apply H1; [set_solver|set_solver|done]|intros; apply H2; [set_solver|done]].
Qed.

Lemma chain_last R p l q : chain R p l q -> exists a, a ∈ p :: l /\ R a q.
Proof.
  revert p. induction l as [|b l IH]; intros p; cbn; [exists p; set_solver|].
  intros [_ H]. destruct (IH b H) as (a & ? & ?). exists a. set_solver.
Qed.
Lemma chain_first R p l q : chain R p l q -> exists a, a ∈ l ++ [q] /\ R p a.
Proof. destruct l as [|b l]; cbn; [exists q; set_solver|]. intros [H _]. exists b. set_solver. Qed.

(** Links both ways. *)
Definition link (f : Z -> buf) (a c : Z) : Prop := b_next (f a) = c /\ b_prev (f c) = a.
Definition dll (f : Z -> buf) : Z -> list Z -> Z -> Prop := chain (link f).

Lemma dll_same f f' p l q :
  (forall i, b_next (f' i) = b_next (f i) /\ b_prev (f' i) = b_prev (f i)) -> dll f p l q -> dll f' p l q.
Proof.
  intros H. apply chain_mono. intros a c _ _ [H1 H2]. split; [by rewrite (proj1 (H a))|by rewrite (proj2 (H c))].
Qed.

(** Taking [b] out, and putting it at the front, as brelse does. *)
Definition unlink_buf (b : Z) (f : Z -> buf) : Z -> buf :=
  let f1 := upd f (b_next (f b)) (b_with_prev (b_prev (f b)) (f (b_next (f b)))) in
  upd f1 (b_prev (f1 b)) (b_with_next (b_next (f1 b)) (f1 (b_prev (f1 b)))).
Definition push_buf (b : Z) (f : Z -> buf) : Z -> buf :=
  let f1 := upd f b (b_with_next (b_next (f head)) (f b)) in
  let f2 := upd f1 b (b_with_prev head (f1 b)) in
  let f3 := upd f2 (b_next (f2 head)) (b_with_prev b (f2 (b_next (f2 head)))) in
  upd f3 head (b_with_next b (f3 head)).

Lemma unlink_links b f :
  b_next (f b) <> b -> forall i,
  b_next (unlink_buf b f i) = (if i =? b_prev (f b) then b_next (f b) else b_next (f i)) /\
  b_prev (unlink_buf b f i) = (if i =? b_next (f b) then b_prev (f b) else b_prev (f i)).
Proof.
  intros Hb i. unfold unlink_buf. cbv zeta. rewrite (upd_ne _ (b_next (f b)) b) by congruence.
  set (pp := b_prev (f b)). set (nn := b_next (f b)). unfold upd.
  destruct (Z.eqb_spec i pp) as [E|E].
  - rewrite E. cbn. split; [done|]. by destruct (pp =? nn).
  - by destruct (Z.eqb_spec i nn) as [->|].
Qed.

Lemma push_links b f :
  b <> head -> b_next (f head) <> b -> forall i,
  b_next (push_buf b f i) = (if i =? head then b else if i =? b then b_next (f head) else b_next (f i)) /\
  b_prev (push_buf b f i) = (if i =? b then head else if i =? b_next (f head) then b else b_prev (f i)).
Proof.
  intros Hb Hh i. unfold push_buf. cbv zeta.
  assert (forall (g : Z -> buf) v w, upd (upd g b v) b w head = g head) as E by (intros; unfold upd; by rewrite (proj2 (Z.eqb_neq head b))).
  rewrite !E. unfold upd. rewrite !Z.eqb_refl.
  destruct (Z.eqb_spec i head) as [->|]; cbn [b_next b_prev b_with_next b_with_prev].
  - rewrite (proj2 (Z.eqb_neq head b)) by done. destruct (Z.eqb_spec head (b_next (f head))) as [E1|]; cbn [b_next b_prev b_with_next b_with_prev]; done.
  - destruct (Z.eqb_spec i (b_next (f head))) as [->|]; cbn [b_next b_prev b_with_next b_with_prev].
    + by rewrite (proj2 (Z.eqb_neq (b_next (f head)) b)).
    + by destruct (Z.eqb_spec i b) as [->|].
Qed.

(** The middle of a doubly linked path. *)
Lemma dll_unlink f p l1 b l2 :
  dll f p (l1 ++ b :: l2) p -> NoDup (p :: l1 ++ b :: l2) -> dll (unlink_buf b f) p (l1 ++ l2) p.
Proof.
  intros [H1 H2]%chain_app Hnd.
  assert (b <> p /\ (b ∉ l1) /\ (b ∉ l2)) as (Hb0 & Hb1 & Hb2).
  { apply NoDup_cons in Hnd as [Hp Hnd]. apply NoDup_app in Hnd as (? & Hx & Hy). apply NoDup_cons in Hy as [? ?].
    clear -Hp Hx H0. set_solver. }
  assert (b_next (f b) <> b) as Hnb.
  { destruct l2 as [|c l2]; cbn in H2; [destruct H2 as [-> _]|destruct H2 as [[-> _] _]]; set_solver. }
  pose proof (unlink_links b f Hnb) as Hl.
  destruct (chain_last _ _ _ _ H1) as (pp & Hpp & Lp). destruct (chain_first _ _ _ _ H2) as (nn & Hnn & Ln).
  assert (b_prev (f b) = pp) as Epp by apply Lp. assert (b_next (f b) = nn) as Enn by apply Ln.
  rewrite Epp, Enn in Hl.
  assert (forall a c, a <> b -> c <> b -> link f a c -> link (unlink_buf b f) a c) as Hkeep.
  { intros a c Ha Hc [Hn Hp]. destruct Lp as [Lp _], Ln as [_ Ln]. split.
    - rewrite (proj1 (Hl a)). destruct (Z.eqb_spec a pp) as [->|]; [congruence|done].
    - rewrite (proj2 (Hl c)). destruct (Z.eqb_spec c nn) as [->|]; [congruence|done]. }
  assert (link (unlink_buf b f) pp nn) as Hj.
  { split; [rewrite (proj1 (Hl pp))|rewrite (proj2 (Hl nn))]; by rewrite Z.eqb_refl. }
  assert (forall a, link f a b -> a = pp) as Hpu by (intros a [_ ?]; congruence).
  destruct l2 as [|c l2].
  - rewrite app_nil_r. cbn in H2. assert (nn = p) as -> by (destruct Ln as [? _], H2 as [? _]; congruence).
    apply (chain_retarget (link f) _ p l1 b); [done|intros; apply Hkeep; [set_solver|set_solver|done]|].
    intros a _ ->%Hpu. done.
  - destruct H2 as [Hbc H2]. assert (nn = c) as -> by (destruct Ln as [? _], Hbc as [? _]; congruence).
    apply chain_app. split.
    + apply (chain_retarget (link f) _ p l1 b); [done|intros; apply Hkeep; [set_solver|set_solver|done]|].
      intros a _ ->%Hpu. done.
    + revert H2. apply chain_mono. intros a d Ha Hd. apply Hkeep; set_solver.
Qed.

Lemma dll_push f l b :
  dll f head l head -> NoDup (b :: head :: l) -> dll (push_buf b f) head (b :: l) head.
Proof.
  intros H Hnd. apply NoDup_cons in Hnd as [Hb Hnd]. apply NoDup_cons in Hnd as [Hh Hnd].
  destruct (chain_first _ _ _ _ H) as (nn & Hnn & Ln). assert (b_next (f head) = nn) as Enn by apply Ln.
  assert (b <> head /\ b <> nn) as [Hbh Hbn] by set_solver.
  pose proof (push_links b f Hbh ltac:(congruence)) as Hl. rewrite Enn in Hl.
  assert (link (push_buf b f) b nn) as Lbn.
  { split; [rewrite (proj1 (Hl b))|rewrite (proj2 (Hl nn))]; rewrite ?Z.eqb_refl;
      rewrite ?(proj2 (Z.eqb_neq b head)), ?(proj2 (Z.eqb_neq nn b)) by done; done. }
  split.
  - split; [rewrite (proj1 (Hl head))|rewrite (proj2 (Hl b))]; by rewrite Z.eqb_refl.
  - destruct l as [|c l]; cbn.
    + cbn in H. assert (nn = head) as <- by (destruct Ln, H; congruence). done.
    + destruct H as [Hc H]. assert (nn = c) as -> by (destruct Ln, Hc; congruence). split; [done|].
      revert H. apply chain_mono. intros a d Ha Hd [H1 H2].
      assert (a <> head /\ a <> b /\ d <> b /\ d <> c) as (? & ? & ? & ?).
      { apply NoDup_cons in Hnd as [Hcl _]. clear -Hcl Hb Hh Ha Hd. rewrite !not_elem_of_cons in *.
        rewrite elem_of_cons in Ha. rewrite elem_of_app, list_elem_of_singleton in Hd.
        split_and!; naive_solver. }
      split; [rewrite (proj1 (Hl a))|rewrite (proj2 (Hl d))]; rewrite !(proj2 (Z.eqb_neq _ _)) by done; done.
Qed.

Section specs.
Context {St : Type} {K : Kernel St} {KS : KernelSpec St}.

(** The controller after idestart. *)
Definition started (b : buf) (c : ctrl) : ctrl :=
  let c := regs (b_dev b) (b_sector b) (outb 0x3f6 0 c) in
  if has (b_flags b) B_DIRTY then outsl (b_data b) (outb 0x1f7 IDE_CMD_WRITE c) else outb 0x1f7 IDE_CMD_READ c.

Lemma idestart_runs H b x :
  b <> -1 -> runs H (idestart b) x tt (set_ide (d_with_ctl (started (bufs x b) (ctl (ide x))) (ide x)) x) H.
Proof.
  intros Hb. unfold idestart, idewait. rewrite (proj2 (Z.eqb_neq _ _)) by done.
  eapply runs_bind. { eapply runs_bind; [rprim|]. cbn [andb]. rprim. }
  do 9 rstep. unfold started, regs. cbn [bufs set_ide].
  destruct (has _ B_DIRTY).
  - do 2 rstep. rlast.
  - rlast.
Qed.

(** The driver is idle, the drives work and disk 1 is present. *)
Record ide_ok (d : ide_t) : Prop := {
  io_idle : idequeue d = -1;
  io_status : has (r_status (ctl d)) (Z.lor IDE_DF IDE_ERR) = false;
  io_disk1 : havedisk1 d <> 0
}.

(** States that differ at most in buffers and disk. *)
Record same_rest (x x' : fsys) : Prop := {
  sr_log : log x' = log x;
  sr_icache : icache x' = icache x;
  sr_ftable : ftable x' = ftable x;
  sr_devsw : devsw x' = devsw x;
  sr_pipes : pipes x' = pipes x
}.

#[export] Instance same_rest_equiv : Equivalence same_rest.
Proof.
  split.
  - by intros x.
  - intros x y [? ? ? ? ?]. by split.
  - intros x y z [? ? ? ? ?] [? ? ? ? ?]. split; congruence.
Qed.

Definition bno (b : Z) : Prop := 0 <= b < NBUF.
Definition addressable (dev sector : Z) : Prop := 0 <= dev <= 1 /\ 0 <= sector < 2 ^ 28.

(** The buffer and the drive after the transfer of a buffer. *)
Definition synced (d : drive) (b : buf) : buf :=
  mkBuf (Z.ldiff (Z.lor (b_flags b) B_VALID) B_DIRTY) (b_dev b) (b_sector b) (b_prev b) (b_next b) (-1)
    (if has (b_flags b) B_DIRTY then b_data b else dread d (b_dev b) (b_sector b)).
Definition sync_drive (d : drive) (b : buf) : drive :=
  if has (b_flags b) B_DIRTY then dwrite d (b_dev b) (b_sector b) (b_data b) else d.

Lemma started_facts b c : addressable (b_dev b) (b_sector b) ->
  reg_drive (started b c) = b_dev b /\ reg_sector (started b c) = b_sector b /\
  r_status (started b c) = r_status c /\
  r_cmd (started b c) = (if has (b_flags b) B_DIRTY then IDE_CMD_WRITE else IDE_CMD_READ) /\
  (has (b_flags b) B_DIRTY = true -> r_latch (started b c) = b_data b).
Proof.
  intros [Hd Hs]. unfold started. cbv zeta. set (c0 := outb 0x3f6 0 c).
  pose proof (regs_sector (b_dev b) (b_sector b) c0 Hs) as E1.
  pose proof (regs_drive (b_dev b) (b_sector b) c0 Hd Hs) as E2.
  assert (r_status (regs (b_dev b) (b_sector b) c0) = r_status c) as E3.
  { unfold regs, c0. by outb_norm. }
  generalize dependent (regs (b_dev b) (b_sector b) c0). intros c1 E1 E2 E3.
  unfold reg_drive, reg_sector in *. destruct (has _ _); cbn [outsl r_lba0 r_lba1 r_lba2 r_dev r_status r_cmd r_latch];
    outb_norm; split_and!; done.
Qed.

Lemma drive_done_facts d :
  idequeue (drive_done d) = idequeue d /\ havedisk1 (drive_done d) = havedisk1 d /\ ctl (drive_done d) = ctl d /\
  drv (drive_done d) = (if r_cmd (ctl d) =? IDE_CMD_WRITE
    then dwrite (drv d) (reg_drive (ctl d)) (reg_sector (ctl d)) (r_latch (ctl d)) else drv d).
Proof. unfold drive_done. by destruct (r_cmd (ctl d) =? IDE_CMD_WRITE). Qed.

(** Buffers as functions, compared entry by entry. *)
Definition bufs_are (x : fsys) (f : Z -> buf) : Prop := forall i, bufs x i = f i.

Lemma ideintr_runs b x :
  bno b -> idequeue (ide x) = b -> b_qnext (bufs x b) = -1 ->
  has (r_status (ctl (ide x))) (Z.lor IDE_DF IDE_ERR) = false ->
  let bf := bufs x b in
  exists x', runs [] ideintr x tt x' [] /\ same_rest x x' /\ ide x' = d_with_queue (-1) (ide x) /\
    bufs_are x' (upd (bufs x) b (mkBuf (Z.ldiff (Z.lor (b_flags bf) B_VALID) B_DIRTY) (b_dev bf) (b_sector bf)
      (b_prev bf) (b_next bf) (-1) (if has (b_flags bf) B_DIRTY then b_data bf else insl (ide x)))).
Proof.
  intros Hb Hq Hqn Hst bf. subst bf. unfold bno in Hb.
  assert ((b =? -1) = false) as Hb1 by (apply Z.eqb_neq; lia).
  destruct (has (b_flags (bufs x b)) B_DIRTY) eqn:Ed; eexists; split.
  - unfold ideintr. do 2 rstep. rewrite Hq, Hb1. do 3 rstep.  cbn [bufs set_ide].  rewrite Ed. cbn [negb].
    do 4 rstep. cbn [ide set_bufs set_ide idequeue d_with_queue]. rewrite Hqn. cbn [Z.eqb Pos.eqb negb]. rstep. rlast.
  - split; [done|]. split; [cbn; by rewrite ?Hqn|]. intros i. cbn. unfold upd. rewrite !Z.eqb_refl.
    destruct (Z.eqb_spec i b) as [->|]; [|done]. unfold b_clear, b_set, b_with_flags. cbn. by rewrite Hqn.
  - unfold ideintr, idewait. do 2 rstep. rewrite Hq, Hb1. do 3 rstep. cbn [bufs set_ide].  rewrite Ed. cbn [negb].
    eapply runs_bind.
    { eapply runs_bind. { rstep. cbn [ide set_ide d_with_queue ctl]. rewrite Hst. cbn [andb]. rprim. }
      cbn [Z.leb Z.compare]. rstep. rlast. }
    do 3 rstep. cbn [ide set_bufs set_ide idequeue d_with_queue]. rewrite Hqn. cbn [Z.eqb Pos.eqb negb]. rstep. rlast.
  - split; [done|]. split; [cbn; by rewrite ?Hqn|]. intros i. cbn. unfold upd. rewrite !Z.eqb_refl.
    destruct (Z.eqb_spec i b) as [->|]; [|done]. unfold b_clear, b_set, b_with_flags. cbn. by rewrite Hqn.
Qed.

Lemma iderw_runs b x :
  bno b -> ide_ok (ide x) -> addressable (b_dev (bufs x b)) (b_sector (bufs x b)) ->
  has (b_flags (bufs x b)) B_BUSY = true ->
  has (b_flags (bufs x b)) B_VALID && negb (has (b_flags (bufs x b)) B_DIRTY) = false ->
  exists x', runs [] (iderw b) x tt x' [] /\ same_rest x x' /\ ide_ok (ide x') /\
    drv (ide x') = sync_drive (drv (ide x)) (bufs x b) /\
    bufs_are x' (upd (bufs x) b (synced (drv (ide x)) (bufs x b))).
Proof.
  intros Hb [Hq Hst H1] Ha Hbusy Hidle.
  assert (b <> -1) as Hb1 by (unfold bno in Hb; lia).
  set (bf := b_with_qnext (-1) (bufs x b)). set (c1 := started bf (ctl (ide x))).
  destruct (started_facts bf (ctl (ide x)) Ha) as (Rd & Rs & Rst & Rc & Rl). fold c1 in Rd, Rs, Rst, Rc, Rl.
  set (d1 := drive_done (mkIde b (havedisk1 (ide x)) c1 (drv (ide x)))).
  set (x1 := mkFsys (upd (bufs x) b bf) d1 (log x) (icache x) (ftable x) (devsw x) (pipes x) (cons x)).
  destruct (drive_done_facts (mkIde b (havedisk1 (ide x)) c1 (drv (ide x)))) as (D1 & D2 & D3 & D4).
  fold d1 in D1, D2, D3, D4. cbn [idequeue havedisk1 ctl drv] in D1, D2, D3, D4.
  destruct (ideintr_runs b x1 Hb) as (x2 & R2 & S2 & I2 & B2);
    [done|cbn; by rewrite upd_same|cbn; by rewrite D3, Rst|]. cbn [x1 bufs ide] in I2, B2. rewrite upd_same in B2.
  exists x2. split_and!.
  - unfold iderw. rstep. rewrite Hbusy. cbn [negb]. rewrite flags_idle, Hidle. do 2 rstep.
    rewrite (proj2 (Z.eqb_neq (havedisk1 _) 0)) by done. rewrite andb_false_r. cbv iota.
    do 3 rstep. cbn [ide set_bufs]. rewrite Hq. cbn [Z.eqb Pos.eqb]. rstep. rstep.
    cbn [idequeue ide set_ide d_with_queue]. rewrite Z.eqb_refl.
    eapply runs_bind; [apply idestart_runs; lia|]. cbv beta.
    eapply runs_bind; [|cbv beta; rprim].
    change (Z.to_nat NBUF) with 10%nat. cbn [iderw_wait].
    cbn [ide set_ide set_bufs d_with_queue ctl bufs log icache ftable devsw pipes d_with_ctl]. rewrite upd_same. fold bf c1.
    rstep. cbn [bufs set_ide set_bufs]. rewrite upd_same. change (b_flags bf) with (b_flags (bufs x b)).
    rewrite flags_idle, Hidle. do 3 rstep.
    eapply runs_bind; [exact R2|]. cbv beta. do 2 rstep.
    rewrite B2, upd_same. cbn [b_flags].
    rewrite flags_idle. pose proof (flags_set (b_flags bf)) as (_ & (_ & Fv & _) & _).
    pose proof (flags_clear (Z.lor (b_flags bf) B_VALID)) as (_ & (_ & Fv' & Fd)). rewrite Fv', Fv, Fd. rprim.
  - by destruct S2 as [? ? ? ? ?]; split.
  - rewrite I2. split; cbn; [done|by rewrite D3, Rst|by rewrite D2].
  - rewrite I2. cbn. rewrite D4, Rc, Rd, Rs. unfold sync_drive. change (b_flags bf) with (b_flags (bufs x b)) in *.
    destruct (has _ B_DIRTY); [|done]. by rewrite Rl.
  - intros i. rewrite B2. unfold upd. destruct (i =? b); [|done]. unfold synced.
    change (b_flags bf) with (b_flags (bufs x b)) in *. destruct (has _ B_DIRTY) eqn:Ed; [done|].
    unfold insl. rewrite D3, Rd, Rs, D4, Rc. change (b_flags bf) with (b_flags (bufs x b)). by rewrite ?Ed.
Qed.

(** ** The cache *)

Definition nodev : Z := 0xFFFFFFFF.
Definition busy (x : fsys) (i : Z) : bool := has (b_flags (bufs x i)) B_BUSY.
Definition dirty (x : fsys) (i : Z) : bool := has (b_flags (bufs x i)) B_DIRTY.
Definition used (x : fsys) (i : Z) : Prop := b_dev (bufs x i) <> nodev.
Definition cached (x : fsys) (d n i : Z) : Prop := bno i /\ b_dev (bufs x i) = d /\ b_sector (bufs x i) = n.

(** Equal sectors. *)
Definition blk_eq : mem -> mem -> Prop := agree (fun a => 0 <= a < BSIZE).
#[export] Instance blk_eq_equiv : Equivalence blk_eq.
Proof.
  split; unfold blk_eq, agree.
  - done.
  - intros m m' H a Ha. by rewrite H.
  - intros m m' m'' H H' a Ha. by rewrite H', H.
Qed.

(** What holds of every buffer between operations: a sector has one buffer,
    and a buffer nobody holds is dirty or equal to the disk. *)
Record cache (x : fsys) (l : list Z) : Prop := {
  ca_perm : l ≡ₚ seqZ 0 NBUF;
  ca_ring : dll (bufs x) head l head;
  ca_ide : ide_ok (ide x);
  ca_uniq : forall d n i j, d <> nodev -> cached x d n i -> cached x d n j -> i = j;
  ca_addr : forall i, bno i -> used x i -> addressable (b_dev (bufs x i)) (b_sector (bufs x i));
  ca_valid : forall i, bno i -> used x i -> has (b_flags (bufs x i)) B_VALID = true;
  ca_free : forall i, bno i -> ~ used x i -> busy x i = false /\ dirty x i = false;
  ca_clean : forall i, bno i -> used x i -> busy x i = false -> dirty x i = false ->
    blk_eq (dread (drv (ide x)) (b_dev (bufs x i)) (b_sector (bufs x i))) (b_data (bufs x i))
}.

Lemma ring_nodup l : l ≡ₚ seqZ 0 NBUF -> NoDup (head :: l) /\ (forall i, bno i <-> i ∈ l) /\ length l = 10%nat.
Proof.
  intros H.
  assert (forall i, bno i <-> i ∈ l) as Hi by (intros i; rewrite H; unfold bno; rewrite elem_of_seqZ; lia).
  split_and!; [|done|by rewrite H].
  apply NoDup_cons. split; [rewrite <- Hi; unfold bno, head; lia|]. rewrite H. apply NoDup_seqZ.
Qed.

(** The first buffer of a list that satisfies a test, or -1. *)
Fixpoint first (t : Z -> bool) (l : list Z) : Z :=
  match l with
  | [] => -1
  | i :: l => if t i then i else first t l
  end.

Lemma elem_rev (i : Z) l : i ∈ rev l <-> i ∈ l.
Proof. by rewrite !list_elem_of_In, <- in_rev. Qed.

Lemma first_spec t l : (first t l = -1 /\ forall i, i ∈ l -> t i = false) \/ (first t l ∈ l /\ t (first t l) = true).
Proof.
  induction l as [|i l IH]; cbn; [left; split; [done|intros i []%elem_of_nil]|].
  destruct (t i) eqn:E; [right; set_solver|]. destruct IH as [[H1 H2]|[H1 H2]]; [left|right]; [|set_solver].
  split; [done|]. intros j [->|Hj]%elem_of_cons; [done|by apply H2].
Qed.

Definition at_sector (x : fsys) (d n i : Z) : bool := (b_dev (bufs x i) =? d) && (b_sector (bufs x i) =? n).
Definition evictable (x : fsys) (i : Z) : bool := negb (busy x i) && negb (dirty x i).

Lemma find_cached_runs H x d n l : forall fuel p,
  dll (bufs x) p l head -> (head ∉ l) -> (length l < fuel)%nat ->
  runs H (find_cached fuel (b_next (bufs x p)) d n) x (first (at_sector x d n) l) x H.
Proof.
  induction l as [|i l IH]; intros fuel p Hd Hh Hf; (destruct fuel as [|fuel]; [cbn in Hf; lia|]); cbn [find_cached first].
  - destruct Hd as [-> _]. rewrite Z.eqb_refl. apply runs_ret.
  - destruct Hd as [[-> _] Hd]. apply not_elem_of_cons in Hh as [Hh1 Hh2].
    rewrite (proj2 (Z.eqb_neq i head)) by done. do 2 rstep. unfold at_sector at 1.
    destruct (_ && _); [apply runs_ret|]. rstep. apply IH; [done|done|cbn in Hf; lia].
Qed.

Lemma find_clean_runs H x l : forall fuel q,
  dll (bufs x) head l q -> (head ∉ l) -> (length l < fuel)%nat ->
  runs H (find_clean fuel (b_prev (bufs x q))) x (first (evictable x) (rev l)) x H.
Proof.
  induction l as [|i l IH] using rev_ind; intros fuel q Hd Hh Hf;
    (destruct fuel as [|fuel]; [rewrite ?length_app in Hf; cbn in Hf; lia|]); cbn [find_clean].
  - destruct Hd as [_ ->]. rewrite Z.eqb_refl. apply runs_ret.
  - apply chain_app in Hd as [Hd [_ ->]]. rewrite rev_app_distr. cbn [rev app first].
    rewrite (proj2 (Z.eqb_neq i head)) by set_solver. rstep. unfold evictable at 1, busy, dirty.
    destruct (_ && _); [apply runs_ret|]. rstep. apply IH; [done|set_solver|rewrite length_app in Hf; cbn in Hf; lia].
Qed.

(** The logical contents of a sector. *)
Definition lv (x : fsys) (d n : Z) : mem :=
  let i := first (at_sector x d n) (seqZ 0 NBUF) in
  if i =? -1 then dread (drv (ide x)) d n else b_data (bufs x i).

Lemma at_sector_cached x d n i : bno i -> at_sector x d n i = true <-> cached x d n i.
Proof. intros. unfold at_sector, cached. rewrite andb_true_iff, !Z.eqb_eq. tauto. Qed.

Lemma lv_cached x l d n i : cache x l -> d <> nodev -> cached x d n i -> lv x d n = b_data (bufs x i).
Proof.
  intros Hc Hd Hi. unfold lv. destruct (first_spec (at_sector x d n) (seqZ 0 NBUF)) as [[_ Hn]|[Hin Ht]].
  - assert (at_sector x d n i = true) as E by (apply at_sector_cached; [apply Hi|done]).
    rewrite Hn in E; [done|]. destruct Hi as [Hi _]. unfold bno in Hi. apply elem_of_seqZ. lia.
  - apply elem_of_seqZ in Hin. rewrite (proj2 (Z.eqb_neq _ _)) by lia. f_equal. f_equal.
    apply (ca_uniq x l Hc d n); [done| |done]. apply at_sector_cached; [unfold bno; lia|done].
Qed.

Lemma lv_uncached x d n : (forall i, ~ cached x d n i) -> lv x d n = dread (drv (ide x)) d n.
Proof.
  intros Hn. unfold lv. destruct (first_spec (at_sector x d n) (seqZ 0 NBUF)) as [[-> _]|[Hin Ht]]; [done|].
  apply elem_of_seqZ in Hin. exfalso. apply (Hn (first (at_sector x d n) (seqZ 0 NBUF))).
  apply at_sector_cached; [unfold bno; lia|done].
Qed.

Lemma dread_dwrite z d n m d' n' : dread (dwrite z d n m) d' n' = if (d' =? d) && (n' =? n) then m else dread z d' n'.
Proof. done. Qed.

Lemma cached_dec x d n : (exists i, cached x d n i) \/ (forall i, ~ cached x d n i).
Proof.
  destruct (first_spec (at_sector x d n) (seqZ 0 NBUF)) as [[_ Hn]|[Hin Ht]].
  - right. intros i Hi. pose proof (proj2 (at_sector_cached x d n i (proj1 Hi)) Hi) as E. rewrite Hn in E; [done|].
    destruct Hi as [Hi _]. unfold bno in Hi. apply elem_of_seqZ. lia.
  - left. apply elem_of_seqZ in Hin. exists (first (at_sector x d n) (seqZ 0 NBUF)). apply at_sector_cached; [unfold bno; lia|done].
Qed.

(** One buffer changes, its links apart. *)
Record changed (x x' : fsys) (b : Z) (v : buf) : Prop := {
  ch_bno : bno b;
  ch_bufs : bufs_are x' (upd (bufs x) b v);
  ch_next : b_next v = b_next (bufs x b);
  ch_prev : b_prev v = b_prev (bufs x b);
  ch_dev : b_dev v <> nodev;
  ch_disk : forall d n, ~ (d = b_dev v /\ n = b_sector v) -> dread (drv (ide x')) d n = dread (drv (ide x)) d n;
  ch_alone : forall j, j <> b -> ~ cached x (b_dev v) (b_sector v) j
}.

Lemma changed_at x x' b v : changed x x' b v -> bufs x' b = v.
Proof. intros H. rewrite (ch_bufs _ _ _ _ H). apply upd_same. Qed.
Lemma changed_ne x x' b v i : changed x x' b v -> i <> b -> bufs x' i = bufs x i.
Proof. intros H Hi. rewrite (ch_bufs _ _ _ _ H). by apply upd_ne. Qed.

Lemma changed_cached x x' b v d n i : changed x x' b v -> i <> b -> cached x' d n i <-> cached x d n i.
Proof. intros H Hi. unfold cached. by rewrite (changed_ne _ _ _ _ _ H Hi). Qed.

Lemma changed_cache x x' b v l :
  cache x l -> changed x x' b v -> ide_ok (ide x') ->
  addressable (b_dev v) (b_sector v) -> has (b_flags v) B_VALID = true ->
  (has (b_flags v) B_BUSY = false -> has (b_flags v) B_DIRTY = false ->
     blk_eq (dread (drv (ide x')) (b_dev v) (b_sector v)) (b_data v)) ->
  cache x' l.
Proof.
  intros Hc Hch Hide Ha Hv Hcl. pose proof (changed_at _ _ _ _ Hch) as Eb.
  pose proof (fun i => changed_ne _ _ _ _ i Hch) as En. destruct Hch as [Hb Hbufs Hn Hp Hdev Hdisk Hal].
  split; [apply Hc| |done|..].
  - eapply dll_same; [|apply Hc]. intros i. rewrite Hbufs. unfold upd. by destruct (Z.eqb_spec i b) as [->|].
  - intros d n i j Hd Hi Hj. unfold cached in Hi, Hj.
    destruct (decide (i = b)) as [->|Hib], (decide (j = b)) as [->|Hjb]; [done|..];
      try rewrite Eb in Hi; try rewrite Eb in Hj; try rewrite En in Hi by done; try rewrite En in Hj by done.
    + exfalso. apply (Hal j Hjb). destruct Hi as (_ & -> & ->). done.
    + exfalso. apply (Hal i Hib). destruct Hj as (_ & -> & ->). done.
    + by apply (ca_uniq x l Hc d n).
  - intros i Hi. unfold used. destruct (decide (i = b)) as [->|]; [by rewrite Eb|rewrite En by done]. by apply Hc.
  - intros i Hi. unfold used. destruct (decide (i = b)) as [->|]; [by rewrite Eb|rewrite En by done]. by apply Hc.
  - intros i Hi. unfold used, busy, dirty. destruct (decide (i = b)) as [->|]; [by rewrite Eb|rewrite En by done]. by apply Hc.
  - intros i Hi. unfold used, busy, dirty. destruct (decide (i = b)) as [->|Hib]; [by rewrite Eb; intros; apply Hcl|rewrite En by done].
    intros Hu Hbu Hdi. rewrite Hdisk; [by apply Hc|]. intros [E1 E2]. apply (Hal i Hib). done.
Qed.

(** The other sectors read as before. *)
Lemma changed_lv x x' b v l l' d n :
  cache x l -> cache x' l' -> changed x x' b v -> d <> nodev -> ~ (d = b_dev v /\ n = b_sector v) ->
  (cached x d n b -> evictable x b = true) -> blk_eq (lv x d n) (lv x' d n).
Proof.
  intros Hc Hc' Hch Hd Hne Hev.
  destruct (cached_dec x d n) as [[i Hi]|Hno].
  - rewrite (lv_cached x l d n i) by done. destruct (decide (i = b)) as [->|Hib].
    + rewrite lv_uncached, (ch_disk _ _ _ _ Hch) by (exact Hne || (intros j Hj; destruct (decide (j = b)) as [->|Hjb];
        [destruct Hj as (_ & E1 & E2); rewrite (changed_at _ _ _ _ Hch) in E1, E2; apply Hne; by subst
        |apply (changed_cached _ _ _ _ d n j Hch Hjb) in Hj; apply Hjb; by apply (ca_uniq x l Hc d n)])).
      specialize (Hev Hi). unfold evictable in Hev. apply andb_true_iff in Hev as [E1%negb_true_iff E2%negb_true_iff].
      destruct Hi as (Hi & <- & <-). symmetry. by apply Hc.
    + rewrite (lv_cached x' l' d n i); [by rewrite (changed_ne _ _ _ _ _ Hch Hib)|done|done|by apply (changed_cached _ _ _ _ d n i Hch Hib)].
  - rewrite (lv_uncached x) by done. rewrite lv_uncached, (ch_disk _ _ _ _ Hch); [done|done|].
    intros j Hj. destruct (decide (j = b)) as [->|Hjb].
    + destruct Hj as (_ & E1 & E2). rewrite (changed_at _ _ _ _ Hch) in E1, E2. apply Hne. by subst.
    + apply (changed_cached _ _ _ _ d n j Hch Hjb) in Hj. by apply (Hno j).
Qed.

(** ** bread *)

(** What a process gets: the buffer of the sector, marked busy; [x'] differs
    from [x] in that buffer only. *)
Record got (x x' : fsys) (d n b : Z) : Prop := {
  g_cached : cached x' d n b;
  g_busy : busy x' b = true;
  g_was : busy x b = false;
  g_data : blk_eq (lv x d n) (b_data (bufs x' b));
  g_dirty : dirty x' b = dirty x b;
  g_kept : dirty x b = true -> cached x d n b;
  g_clean : dirty x' b = false -> blk_eq (dread (drv (ide x)) d n) (b_data (bufs x' b));
  g_other : forall i, i <> b -> bufs x' i = bufs x i;
  g_drv : drv (ide x') = drv (ide x);
  g_rest : same_rest x x';
  g_lv : forall d' n', d' <> nodev -> blk_eq (lv x d' n') (lv x' d' n')
}.

Lemma addressable_dev d n : addressable d n -> d <> nodev.
Proof. unfold addressable, nodev. lia. Qed.

Lemma bread_cached x l d n b :
  cache x l -> addressable d n -> cached x d n b -> busy x b = false ->
  exists x', runs [] (bread d n) x b x' [] /\ cache x' l /\ got x x' d n b.
Proof.
  intros Hc Ha Hb Hbusy. pose proof (addressable_dev d n Ha) as Hd.
  destruct (ring_nodup l (ca_perm x l Hc)) as (Hnd & Hin & Hlen). apply NoDup_cons in Hnd as [Hh _].
  set (v := b_set B_BUSY (bufs x b)). set (x' := set_bufs (upd (bufs x) b v) x).
  pose proof Hb as (Hbn & Ed & En).
  assert (used x b) as Hu by (unfold used; congruence).
  assert (changed x x' b v) as Hch.
  { split; try done. cbn. rewrite Ed, En. intros j Hj Hcj. apply Hj. by apply (ca_uniq x l Hc d n). }
  destruct (flags_set (b_flags (bufs x b))) as ((F1 & F2 & F3) & _).
  assert (cache x' l) as Hc'.
  { apply (changed_cache x x' b v); [done|done|apply Hc|cbn; by rewrite Ed, En|cbn; rewrite F2; by apply Hc|].
    cbn. by rewrite F1. }
  pose proof (changed_at _ _ _ _ Hch) as Eb.
  assert (cached x' d n b) as Hb' by (unfold cached; by rewrite Eb).
  exists x'. split_and!; [|done|].
  - assert (first (at_sector x d n) l = b) as Ef.
    { destruct (first_spec (at_sector x d n) l) as [[_ Hn]|[Hi Ht]].
      - specialize (Hn b (proj1 (Hin b) Hbn)). by rewrite (proj2 (at_sector_cached x d n b Hbn)) in Hn.
      - apply (ca_uniq x l Hc d n); [done| |done]. apply at_sector_cached; [by apply Hin|done]. }
    unfold bread, bget. eapply runs_bind.
    { do 2 rstep. eapply runs_bind; [apply (find_cached_runs _ x d n l); [apply Hc|done|rewrite Hlen; unfold NBUF; lia]|]. cbv beta.
      rewrite Ef. rewrite (proj2 (Z.eqb_neq b (-1))) by (unfold bno in Hbn; lia). cbn [negb]. rstep.
      unfold busy in Hbusy. rewrite Hbusy. cbn [negb]. do 2 rstep. rprim. }
    cbv beta. rstep. cbn [bufs set_bufs]. rewrite upd_same. cbn [b_flags b_set b_with_flags]. rewrite F2, (ca_valid x l Hc b Hbn Hu).
    cbn [negb]. rstep. rlast.
  - split; unfold busy, dirty; rewrite ?Eb; try done.
    + by rewrite (lv_cached x l d n b).
    + cbn. rewrite F3. intros Hdi. rewrite <- Ed, <- En. by apply Hc.
    + intros i Hi. by apply (changed_ne _ _ _ _ _ Hch).
    + intros d' n' Hd'. destruct (decide (d' = d /\ n' = n)) as [[-> ->]|Hne].
      * rewrite (lv_cached x l d n b), (lv_cached x' l d n b), Eb by done. done.
      * apply (changed_lv x x' b v l l); [done..| |].
        -- cbn. by rewrite Ed, En.
        -- intros (_ & E1 & E2). exfalso. apply Hne. by rewrite <- E1, <- E2.
Qed.

Lemma bread_evict x l d n :
  cache x l -> addressable d n -> (forall i, ~ cached x d n i) -> (exists i, bno i /\ evictable x i = true) ->
  exists b x', runs [] (bread d n) x b x' [] /\ cache x' l /\ got x x' d n b.
Proof.
  intros Hc Ha Hno [i0 [Hi0 He0]]. pose proof (addressable_dev d n Ha) as Hd.
  destruct (ring_nodup l (ca_perm x l Hc)) as (Hnd & Hin & Hlen). apply NoDup_cons in Hnd as [Hh _].
  set (b := first (evictable x) (rev l)).
  assert (bno b /\ evictable x b = true) as [Hb He].
  { destruct (first_spec (evictable x) (rev l)) as [[_ Hn]|[Hi Ht]].
    - rewrite Hn in He0; [done|]. apply elem_rev. by apply Hin.
    - split; [|done]. apply Hin. by apply (elem_rev b l). }
  assert (first (at_sector x d n) l = -1) as Ef.
  { destruct (first_spec (at_sector x d n) l) as [[? _]|[Hi Ht]]; [done|]. apply Hin in Hi.
    apply at_sector_cached in Ht; [|done]. by apply Hno in Ht. }
  set (x1 := set_bufs (upd (upd (upd (bufs x) b (b_with_dev d (bufs x b))) b (b_with_sector n (b_with_dev d (bufs x b)))) b
               (b_with_flags B_BUSY (b_with_sector n (b_with_dev d (bufs x b))))) x).
  assert (bufs x1 b = b_with_flags B_BUSY (b_with_sector n (b_with_dev d (bufs x b)))) as E1 by (cbn; apply upd_same).
  destruct (iderw_runs b x1 Hb) as (x' & R & S & I & D & B); rewrite ?E1; try done; [apply Hc|].
  rewrite E1 in D, B. cbn in D. set (v := synced _ _) in B.
  assert (changed x x' b v) as Hch.
  { split; try done; cbn.
    - intros i. rewrite B. unfold upd, x1. cbn. unfold upd. by destruct (i =? b).
    - intros. by rewrite D. }
  assert (cache x' l) as Hc'.
  { apply (changed_cache x x' b v); [done|done|done|done|done|done]. }
  pose proof (changed_at _ _ _ _ Hch) as Eb.
  assert (cached x' d n b) as Hb' by (unfold cached; by rewrite Eb).
  exists b, x'. split_and!; [|done|].
  - unfold bread, bget. apply (runs_bind [] [] [] _ _ x b x1).
    { do 2 rstep. eapply runs_bind; [apply (find_cached_runs _ x d n l); [apply Hc|done|rewrite Hlen; unfold NBUF; lia]|]. cbv beta.
      rewrite Ef. cbn [Z.eqb Pos.eqb negb]. rstep.
      eapply runs_bind; [apply (find_clean_runs _ x l); [apply Hc|done|rewrite Hlen; unfold NBUF; lia]|]. cbv beta. fold b.
      rewrite (proj2 (Z.eqb_neq b (-1))) by (unfold bno in Hb; lia). do 4 rstep.
      eapply runs_eq; [rprim|done|]. cbn [bufs set_bufs ide log icache ftable devsw pipes]. by rewrite !upd_same. }
    rstep. rewrite E1. cbn [b_flags b_with_flags].
    eapply runs_bind; [exact R|]. cbv beta. rprim.
  - unfold evictable in He. apply andb_true_iff in He as [He1%negb_true_iff He2%negb_true_iff].
    split; unfold busy, dirty in *; rewrite ?Eb; try done.
    + by rewrite lv_uncached.
    + by rewrite He2.
    + intros i Hi. by apply (changed_ne _ _ _ _ _ Hch).
    + etransitivity; [|exact S]. done.
    + intros d' n' Hd'. destruct (decide (d' = d /\ n' = n)) as [[-> ->]|Hne].
      * rewrite lv_uncached by done. rewrite (lv_cached x' l d n b), Eb by done. done.
      * apply (changed_lv x x' b v l l); [done..|]. intros _. unfold evictable, busy, dirty. by rewrite He1, He2.
Qed.

Lemma bread_spec x l d n :
  cache x l -> addressable d n -> (forall i, cached x d n i -> busy x i = false) ->
  (exists i, cached x d n i) \/ (exists i, bno i /\ evictable x i = true) ->
  exists b x', runs [] (bread d n) x b x' [] /\ cache x' l /\ got x x' d n b.
Proof.
  intros Hc Ha Hb Hr. destruct (cached_dec x d n) as [[i Hi]|Hno].
  - destruct (bread_cached x l d n i Hc Ha Hi (Hb i Hi)) as (x' & ?). by exists i, x'.
  - apply bread_evict; [done..|]. destruct Hr as [[i Hi]|]; [|done]. by destruct (Hno i).
Qed.

(** ** bwrite, brelse, and changes to a buffer one holds *)

Record holding_buf (x : fsys) (b d n : Z) : Prop := {
  hb_cached : cached x d n b;
  hb_busy : busy x b = true;
  hb_addr : addressable d n
}.

Lemma holding_used x b d n : holding_buf x b d n -> used x b.
Proof. intros [(? & E & _) _ Ha]. unfold used. rewrite E. by apply (addressable_dev d n). Qed.

Lemma holding_alone x l b d n : cache x l -> holding_buf x b d n -> forall j, j <> b -> ~ cached x d n j.
Proof.
  intros Hc [Hb _ Ha] j Hj Hcj. apply Hj. apply (ca_uniq x l Hc d n); [by apply (addressable_dev d n)|done|done].
Qed.

(** The holder stores new data or flags into the buffer. *)
Lemma hold_change x x' l b d n v :
  cache x l -> holding_buf x b d n ->
  bufs_are x' (upd (bufs x) b v) -> ide x' = ide x ->
  b_dev v = d -> b_sector v = n -> b_next v = b_next (bufs x b) -> b_prev v = b_prev (bufs x b) ->
  has (b_flags v) B_BUSY = true -> has (b_flags v) B_VALID = true ->
  cache x' l /\ holding_buf x' b d n /\ bufs x' b = v /\ lv x' d n = b_data v /\
  (forall d' n', d' <> nodev -> ~ (d' = d /\ n' = n) -> blk_eq (lv x d' n') (lv x' d' n')).
Proof.
  intros Hc Hh Hbufs Hide Ed En Hn Hp Hbu Hv. pose proof Hh as [Hb Hb2 Ha]. pose proof (addressable_dev d n Ha) as Hd.
  assert (changed x x' b v) as Hch.
  { split; try done; [apply Hb|congruence|by rewrite Hide|]. rewrite Ed, En. by apply (holding_alone x l). }
  assert (cache x' l) as Hc'.
  { apply (changed_cache x x' b v); [done|done|rewrite Hide; apply Hc|by rewrite Ed, En|done|]. by rewrite Hbu. }
  pose proof (changed_at _ _ _ _ Hch) as Eb.
  assert (cached x' d n b) as Hb' by (unfold cached; rewrite Eb; split_and!; [apply Hb|done|done]).
  split_and!; [done| |done| |].
  - split; [done|unfold busy; by rewrite Eb|done].
  - by rewrite (lv_cached x' l d n b), Eb.
  - intros d' n' Hd' Hne. apply (changed_lv x x' b v l l); [done..|by rewrite Ed, En|].
    intros (_ & E1 & E2). destruct Hb as (_ & E3 & E4). exfalso. apply Hne. by rewrite <- E1, <- E2.
Qed.

Lemma bwrite_spec x l b d n :
  cache x l -> holding_buf x b d n ->
  exists x', runs [] (bwrite b) x tt x' [] /\ cache x' l /\ holding_buf x' b d n /\ same_rest x x' /\
    drv (ide x') = dwrite (drv (ide x)) d n (b_data (bufs x b)) /\
    dirty x' b = false /\ b_data (bufs x' b) = b_data (bufs x b) /\
    (forall i, i <> b -> bufs x' i = bufs x i) /\
    (forall d' n', d' <> nodev -> blk_eq (lv x d' n') (lv x' d' n')).
Proof.
  intros Hc Hh. pose proof Hh as [Hb Hb2 Ha]. pose proof (addressable_dev d n Ha) as Hd.
  pose proof Hb as (Hbn & Ed & En). pose proof (holding_used _ _ _ _ Hh) as Hu.
  set (x1 := set_bufs (upd (bufs x) b (b_set B_DIRTY (bufs x b))) x).
  assert (bufs x1 b = b_set B_DIRTY (bufs x b)) as E1 by (cbn; apply upd_same).
  destruct (flags_set (b_flags (bufs x b))) as (_ & _ & (F1 & F2 & F3)).
  destruct (iderw_runs b x1 Hbn) as (x' & R & S & I & D & B); rewrite ?E1; cbn [b_set b_with_flags b_flags b_dev b_sector].
  { apply Hc. } { by rewrite Ed, En. } { by rewrite F1. } { rewrite F3. apply andb_false_r. }
  rewrite E1 in D, B. set (v := synced _ _) in B.
  unfold sync_drive in D. cbn [b_set b_with_flags b_flags b_dev b_sector b_data] in D. rewrite F3, Ed, En in D. cbn in D.
  assert (b_data v = b_data (bufs x b)) as Ev by (unfold v, synced; cbn [b_data b_set b_with_flags b_flags]; by rewrite F3).
  set (f := Z.lor (b_flags (bufs x b)) B_DIRTY) in *.
  destruct (flags_set f) as (_ & (G1 & G2 & G3) & _). destruct (flags_clear (Z.lor f B_VALID)) as (_ & (K1 & K2 & K3)).
  assert (b_flags v = Z.ldiff (Z.lor f B_VALID) B_DIRTY) as Efl by done.
  assert (changed x x' b v) as Hch.
  { split; try done.
    - intros i. rewrite B. unfold upd, x1. cbn. unfold upd. by destruct (i =? b).
    - change (b_dev v) with (b_dev (bufs x b)). change (b_sector v) with (b_sector (bufs x b)). rewrite Ed, En.
      intros d' n' Hne. rewrite D, dread_dwrite. destruct (Z.eqb_spec d' d), (Z.eqb_spec n' n); cbn; try done. tauto.
    - change (b_dev v) with (b_dev (bufs x b)). change (b_sector v) with (b_sector (bufs x b)). rewrite Ed, En.
      by apply (holding_alone x l). }
  assert (cache x' l) as Hc'.
  { apply (changed_cache x x' b v); [done|done|done| | |].
    - change (b_dev v) with (b_dev (bufs x b)). change (b_sector v) with (b_sector (bufs x b)). by rewrite Ed, En.
    - by rewrite Efl, K2.
    - rewrite Efl, K1, G1, F1. unfold busy in Hb2. by rewrite Hb2. }
  pose proof (changed_at _ _ _ _ Hch) as Eb.
  assert (cached x' d n b) as Hb' by (unfold cached; rewrite Eb; done).
  exists x'. split_and!; [|done| |by destruct S; split|done| | | |].
  - unfold bwrite. rstep. unfold busy in Hb2. rewrite Hb2. cbn [negb]. rstep. exact R.
  - split; [done| |done]. unfold busy. by rewrite Eb, Efl, K1, G1, F1.
  - unfold dirty. by rewrite Eb, Efl, K3.
  - by rewrite Eb.
  - intros i Hi. by apply (changed_ne _ _ _ _ _ Hch).
  - intros d' n' Hd'. destruct (decide (d' = d /\ n' = n)) as [[-> ->]|Hne].
    + rewrite (lv_cached x l d n b), (lv_cached x' l d n b), Eb by done. by rewrite Ev.
    + apply (changed_lv x x' b v l l); [done..| |].
      * change (b_dev v) with (b_dev (bufs x b)). change (b_sector v) with (b_sector (bufs x b)). by rewrite Ed, En.
      * intros (_ & E3 & E4). exfalso. apply Hne. by rewrite <- E3, <- E4.
Qed.

(** The buffers as clients see them: everything but the links. *)
Definition core (b : buf) : Z * Z * Z * mem := (b_flags b, b_dev b, b_sector b, b_data b).

Lemma core_eq b b' : core b' = core b ->
  b_flags b' = b_flags b /\ b_dev b' = b_dev b /\ b_sector b' = b_sector b /\ b_data b' = b_data b.
Proof. unfold core. intros [= -> -> -> ->]. done. Qed.

Lemma unlink_core b f i : core (unlink_buf b f i) = core (f i).
Proof.
  unfold unlink_buf. cbv zeta. set (f1 := upd f (b_next (f b)) _).
  assert (forall j, core (f1 j) = core (f j)) as H1 by (intros j; unfold f1, upd; by destruct (Z.eqb_spec j (b_next (f b))) as [->|]).
  rewrite <- H1. unfold upd. by destruct (Z.eqb_spec i (b_prev (f1 b))) as [->|].
Qed.

Lemma push_core b f i : core (push_buf b f i) = core (f i).
Proof.
  unfold push_buf. cbv zeta. set (f1 := upd f b _). set (f2 := upd f1 b _). set (f3 := upd f2 (b_next (f2 head)) _).
  assert (forall j, core (f1 j) = core (f j)) as H1 by (intros j; unfold f1, upd; by destruct (Z.eqb_spec j b) as [->|]).
  assert (forall j, core (f2 j) = core (f j)) as H2 by (intros j; rewrite <- H1; unfold f2, upd; by destruct (Z.eqb_spec j b) as [->|]).
  assert (forall j, core (f3 j) = core (f j)) as H3.
  { intros j. rewrite <- H2. unfold f3, upd. by destruct (Z.eqb_spec j (b_next (f2 head))) as [->|]. }
  rewrite <- H3. unfold upd. by destruct (Z.eqb_spec i head) as [->|].
Qed.

(** Two states with the same contents of buffers and disk. *)
Lemma core_lv x x' d n :
  (forall i, bno i -> core (bufs x' i) = core (bufs x i) \/
     (b_dev (bufs x' i) = b_dev (bufs x i) /\ b_sector (bufs x' i) = b_sector (bufs x i) /\ b_data (bufs x' i) = b_data (bufs x i))) ->
  drv (ide x') = drv (ide x) -> lv x' d n = lv x d n.
Proof.
  intros Hb Hd.
  assert (forall i, bno i -> b_dev (bufs x' i) = b_dev (bufs x i) /\ b_sector (bufs x' i) = b_sector (bufs x i) /\ b_data (bufs x' i) = b_data (bufs x i)) as H.
  { intros i Hi. destruct (Hb i Hi) as [(? & ? & ? & ?)%core_eq|]; done. }
  assert (forall l, (forall i, i ∈ l -> bno i) -> first (at_sector x' d n) l = first (at_sector x d n) l) as Hf.
  { induction l as [|i l IH]; intros Hl; cbn; [done|]. unfold at_sector at 1 3.
    destruct (H i ltac:(apply Hl; set_solver)) as (-> & -> & _). destruct (_ && _); [done|]. apply IH. set_solver. }
  unfold lv. rewrite Hf by (intros i Hi; apply elem_of_seqZ in Hi; unfold bno; lia). rewrite Hd.
  destruct (first_spec (at_sector x d n) (seqZ 0 NBUF)) as [[-> _]|[Hin _]]; [done|].
  apply elem_of_seqZ in Hin. destruct (_ =? _); [done|]. apply H. unfold bno. lia.
Qed.

Lemma brelse_spec x l b d n :
  cache x l -> holding_buf x b d n ->
  (dirty x b = false -> blk_eq (dread (drv (ide x)) d n) (b_data (bufs x b))) ->
  exists x' l', runs [] (brelse b) x tt x' [] /\ cache x' l' /\ same_rest x x' /\ ide x' = ide x /\
    (forall i, core (bufs x' i) = core (if i =? b then b_clear B_BUSY (bufs x b) else bufs x i)) /\
    (forall d' n', lv x' d' n' = lv x d' n').
Proof.
  intros Hc Hh Hcl. pose proof Hh as [Hb Hb2 Ha]. pose proof Hb as (Hbn & Ed & En).
  pose proof (holding_used _ _ _ _ Hh) as Hu.
  destruct (ring_nodup l (ca_perm x l Hc)) as (Hnd & Hin & Hlen).
  destruct (list_elem_of_split l b (proj1 (Hin b) Hbn)) as (l1 & l2 & ->).
  assert (b <> head) as Hbh by (unfold bno, head in *; lia).
  pose proof (dll_unlink _ _ _ _ _ (ca_ring _ _ Hc) Hnd) as R1. set (f1 := unlink_buf b (bufs x)) in R1.
  assert (NoDup (b :: head :: l1 ++ l2)) as Hnd2.
  { apply (NoDup_Permutation_proper _ _ (Permutation_sym (Permutation_trans (perm_skip head (Permutation_sym (Permutation_middle l1 l2 b))) (perm_swap b head (l1 ++ l2))))). done. }
  pose proof (dll_push f1 (l1 ++ l2) b R1 Hnd2) as R2. set (f2 := push_buf b f1) in R2.
  set (x' := set_bufs (upd f2 b (b_clear B_BUSY (f2 b))) x).
  assert (forall i, core (bufs x' i) = core (if i =? b then b_clear B_BUSY (bufs x b) else bufs x i)) as Hcore.
  { assert (forall i, core (f2 i) = core (bufs x i)) as H2 by (intros i; unfold f2, f1; by rewrite push_core, unlink_core).
    intros i. cbn. unfold upd. destruct (Z.eqb_spec i b) as [->|]; [|done].
    destruct (core_eq _ _ (H2 b)) as (E1 & E2 & E3 & E4). unfold core. cbn. by rewrite E1, E2, E3, E4. }
  destruct (flags_clear (b_flags (bufs x b))) as ((F1 & F2 & F3) & _).
  assert (forall i, bno i -> b_dev (bufs x' i) = b_dev (bufs x i) /\ b_sector (bufs x' i) = b_sector (bufs x i) /\
    b_data (bufs x' i) = b_data (bufs x i) /\ has (b_flags (bufs x' i)) B_VALID = has (b_flags (bufs x i)) B_VALID /\
    dirty x' i = dirty x i /\ busy x' i = if i =? b then false else busy x i) as Hs.
  { intros i _. unfold dirty, busy. generalize (Hcore i). destruct (Z.eqb_spec i b) as [->|];
      intros (E1 & E2 & E3 & E4)%core_eq; rewrite E1, E2, E3, E4; cbn; split_and!; done. }
  exists x', (b :: l1 ++ l2). split_and!; [|split|done|done|done|].
  - unfold brelse. rstep. unfold busy in Hb2. rewrite Hb2. cbn [negb]. do 15 rstep. rlast.
  - rewrite <- (ca_perm _ _ Hc). solve_Permutation.
  - eapply dll_same; [|exact R2]. intros i. cbn. unfold upd. by destruct (Z.eqb_spec i b) as [->|].
  - apply Hc.
  - intros d' n' i j Hd' (Hi & E1 & E2) (Hj & E3 & E4). destruct (Hs i Hi) as (K1 & K2 & _), (Hs j Hj) as (K3 & K4 & _).
    apply (ca_uniq _ _ Hc d' n'); [done|split_and!; congruence|split_and!; congruence].
  - intros i Hi. unfold used. destruct (Hs i Hi) as (-> & -> & _). by apply Hc.
  - intros i Hi. unfold used. destruct (Hs i Hi) as (-> & _ & _ & -> & _). by apply Hc.
  - intros i Hi. unfold used. destruct (Hs i Hi) as (-> & _ & _ & _ & -> & ->). intros Hnu.
    destruct (ca_free _ _ Hc i Hi Hnu) as [-> ->]. by destruct (i =? b).
  - intros i Hi. unfold used. destruct (Hs i Hi) as (-> & -> & -> & _ & -> & ->).
    destruct (Z.eqb_spec i b) as [->|]; [|by apply Hc]. rewrite Ed, En. intros _ _. apply Hcl.
  - intros d' n'. apply core_lv; [|done]. intros i Hi. right. destruct (Hs i Hi) as (-> & -> & -> & _). done.
Qed.

End specs.

(** ** The cache after binit *)

Definition booted (z : drive) : fsys :=
  match binit (mkAlone (blank_fs z) (fun _ => 0) 0) with
  | Ret (_, s) => a_fs s
  | _ => blank_fs z
  end.

(** The buffers in the order of the ring. *)
Definition boot_ring : list Z := [9; 8; 7; 6; 5; 4; 3; 2; 1; 0].

Lemma booted_bufs z i : bno i -> b_flags (bufs (booted z) i) = 0 /\ b_dev (bufs (booted z) i) = nodev.
Proof.
  intros Hi. assert (Forall (fun i => b_flags (bufs (booted z) i) = 0 /\ b_dev (bufs (booted z) i) = nodev) (seqZ 0 NBUF)) as H.
  { vm_compute. repeat constructor. }
  rewrite Forall_forall in H. apply H, elem_of_seqZ. unfold bno in Hi. lia.
Qed.

(** binit puts the cache in order. *)
Lemma booted_cache z : cache (booted z) boot_ring.
Proof.
  pose proof (booted_bufs z) as Hb.
  assert (forall i, bno i -> ~ used (booted z) i) as Hu by (intros i Hi Hu; by apply Hu, Hb).
  split.
  - change boot_ring with (reverse (seqZ 0 NBUF)). apply reverse_Permutation.
  - vm_compute. tauto.
  - split; vm_compute; congruence.
  - intros d n i j Hd (Hi & <- & _). by destruct Hd; apply Hb.
  - intros i Hi Hui. by destruct (Hu i Hi).
  - intros i Hi Hui. by destruct (Hu i Hi).
  - intros i Hi _. unfold busy, dirty. by rewrite (proj1 (Hb i Hi)).
  - intros i Hi Hui. by destruct (Hu i Hi).
Qed.
