(* ===== verification/LogSpec.v ===== *)
(** * The log makes transactions atomic

    What write_head, install_trans and recovery do to the cache and the disk,
    and the effect of a crash at any disk write of a commit. *)

From Stdlib Require Import ZArith Lia String Bool.
From stdpp Require Import base numbers sets list.
From S2P Require Import Prelude Params Mem Spinlock FsState Bio Log FsRun BioSpec.

(** ** Buffers held and dirty, as clients count them *)

(** The busy buffers are [hs]. *)
Definition held (x : fsys) (hs : list Z) : Prop := forall i, bno i -> (busy x i = true <-> i ∈ hs).
(** The sector has a buffer with changes that are not on disk. *)
Definition dsec (x : fsys) (d n : Z) : Prop := exists i, cached x d n i /\ dirty x i = true.
Definition spare (x : fsys) : Prop := exists i, bno i /\ evictable x i = true.
Definition room (x : fsys) (d n : Z) : Prop := (exists i, cached x d n i) \/ spare x.

Section clients.
Context {St : Type} {K : Kernel St} {KS : KernelSpec St}.

Lemma take_spec x l hs d n :
  cache x l -> held x hs -> addressable d n -> (forall b, b ∈ hs -> ~ cached x d n b) -> room x d n ->
  exists b x', runs [] (bread d n) x b x' [] /\ cache x' l /\ held x' (b :: hs) /\ (b ∉ hs) /\
    holding_buf x' b d n /\ got x x' d n b /\ (forall d' n', d' <> nodev -> dsec x' d' n' <-> dsec x d' n') /\
    (forall i, i <> b -> evictable x' i = evictable x i).
Proof.
  intros Hc Hh Ha Hn Hr. pose proof (addressable_dev d n Ha) as Hd.
  destruct (bread_spec x l d n Hc Ha) as (b & x' & R & Hc' & G).
  { intros i Hi. apply not_true_is_false. intros Hb. apply (Hn i); [|done]. apply Hh; [apply Hi|done]. }
  { done. }
  pose proof (g_cached _ _ _ _ _ G) as Hcb.
  assert (b ∉ hs) as Hbh. { intros Hb. apply Hh in Hb; [|apply Hcb]. by rewrite (g_was _ _ _ _ _ G) in Hb. }
  exists b, x'. split_and!; [done|done| |done| |done| |].
  - intros i Hi. rewrite elem_of_cons. destruct (decide (i = b)) as [->|Hib].
    + rewrite (g_busy _ _ _ _ _ G). tauto.
    + unfold busy. rewrite (g_other _ _ _ _ _ G) by done. rewrite (Hh i Hi). tauto.
  - split; [done|apply G|done].
  - intros d' n' Hd'. split; intros (i & Hi & Hdi); destruct (decide (i = b)) as [->|Hib].
    + rewrite (g_dirty _ _ _ _ _ G) in Hdi. exists b. split; [|done].
      destruct Hi as (_ & <- & <-). destruct Hcb as (? & -> & ->). by apply (g_kept _ _ _ _ _ G).
    + exists i. unfold cached, dirty in *. by rewrite (g_other _ _ _ _ _ G) in Hi, Hdi by done.
    + exists b. rewrite (g_dirty _ _ _ _ _ G). split; [|done]. pose proof (g_kept _ _ _ _ _ G Hdi) as Hk.
      destruct Hi as (_ & <- & <-). destruct Hk as (_ & -> & ->). done.
    + exists i. unfold cached, dirty in *. by rewrite (g_other _ _ _ _ _ G) by done.
  - intros i Hi. unfold evictable, busy, dirty. by rewrite (g_other _ _ _ _ _ G).
Qed.

Lemma drop_spec x l hs b d n :
  cache x l -> held x (b :: hs) -> (b ∉ hs) -> holding_buf x b d n ->
  (dirty x b = false -> blk_eq (dread (drv (ide x)) d n) (b_data (bufs x b))) ->
  exists x' l', runs [] (brelse b) x tt x' [] /\ cache x' l' /\ held x' hs /\ same_rest x x' /\ ide x' = ide x /\
    (forall d' n', lv x' d' n' = lv x d' n') /\ (forall d' n', dsec x' d' n' <-> dsec x d' n') /\
    (forall i, dirty x' i = dirty x i) /\ (forall d' n' i, cached x' d' n' i <-> cached x d' n' i) /\
    (forall i, i <> b -> core (bufs x' i) = core (bufs x i)) /\ evictable x' b = negb (dirty x b).
Proof.
  intros Hc Hh Hbh Hb Hcl. destruct (brelse_spec x l b d n Hc Hb Hcl) as (x' & l' & R & Hc' & S & I & C & L).
  destruct (flags_clear (b_flags (bufs x b))) as ((F1 & F2 & F3) & _).
  assert (forall i, dirty x' i = dirty x i /\ (i <> b -> busy x' i = busy x i) /\ busy x' b = false /\
    b_dev (bufs x' i) = b_dev (bufs x i) /\ b_sector (bufs x' i) = b_sector (bufs x i)) as Hi.
  { assert (busy x' b = false) as Eb.
    { unfold busy. destruct (core_eq _ _ (C b)) as (E & _). rewrite E, Z.eqb_refl. done. }
    intros i. generalize (C i). destruct (Z.eqb_spec i b) as [->|]; intros (E1 & E2 & E3 & _)%core_eq;
      unfold dirty, busy; rewrite E1, E2, E3; split_and!; done. }
  assert (forall d' n' i, cached x' d' n' i <-> cached x d' n' i) as Hca.
  { intros d' n' i. unfold cached. destruct (Hi i) as (_ & _ & _ & -> & ->). done. }
  exists x', l'. split_and!; try done.
  - intros i Hbi. destruct (decide (i = b)) as [->|Hne].
    + destruct (Hi b) as (_ & _ & -> & _). split; [done|]. intros ?. by destruct Hbh.
    + destruct (Hi i) as (_ & -> & _); [|done]. rewrite (Hh i Hbi), elem_of_cons. tauto.
  - intros d' n'. unfold dsec. split; intros (i & H1 & H2); exists i; rewrite Hca in * || rewrite Hca;
      by rewrite ?(proj1 (Hi i)) in *.
  - intros i. apply Hi.
  - intros i Hne. rewrite C. by rewrite (proj2 (Z.eqb_neq i b)).
  - unfold evictable. destruct (Hi b) as (-> & _ & -> & _). done.
Qed.

(** The holder of a buffer changes its data. *)
Lemma modified x x' l hs b d n m :
  cache x l -> held x hs -> holding_buf x b d n ->
  bufs_are x' (upd (bufs x) b (b_with_data m (bufs x b))) -> ide x' = ide x ->
  cache x' l /\ held x' hs /\ holding_buf x' b d n /\ b_data (bufs x' b) = m /\
  (forall i, i <> b -> bufs x' i = bufs x i) /\ lv x' d n = m /\
  (forall d' n', d' <> nodev -> ~ (d' = d /\ n' = n) -> blk_eq (lv x d' n') (lv x' d' n')) /\
  (forall d' n', dsec x' d' n' <-> dsec x d' n') /\ (forall i, dirty x' i = dirty x i).
Proof.
  intros Hc Hh Hb Hbufs Hide. pose proof (hb_cached _ _ _ _ Hb) as (Hbn & Ed & En).
  destruct (hold_change x x' l b d n _ Hc Hb Hbufs Hide) as (Hc' & Hb' & Eb & L1 & L2); try done.
  { apply Hb. } { apply Hc; [done|]. by apply (holding_used x b d n). }
  assert (forall i, i <> b -> bufs x' i = bufs x i) as En' by (intros; rewrite Hbufs; by apply upd_ne).
  assert (forall i, busy x' i = busy x i /\ dirty x' i = dirty x i /\ b_dev (bufs x' i) = b_dev (bufs x i) /\
    b_sector (bufs x' i) = b_sector (bufs x i)) as Hi.
  { intros i. unfold busy, dirty. destruct (decide (i = b)) as [->|Hne]; [by rewrite Eb|by rewrite En']. }
  split_and!; try done.
  - intros i Hbi. destruct (Hi i) as (-> & _). by apply Hh.
  - by rewrite Eb.
  - intros d' n'. unfold dsec, cached. split; intros (i & H1 & H2); exists i; destruct (Hi i) as (_ & E2 & E3 & E4);
      [by rewrite <- E2, <- E3, <- E4|by rewrite E2, E3, E4].
  - intros i. apply Hi.
Qed.

(** The holder of a buffer writes it to the disk. *)
Lemma flush_spec x l hs b d n :
  cache x l -> held x hs -> holding_buf x b d n ->
  exists x', runs [] (bwrite b) x tt x' [] /\ cache x' l /\ held x' hs /\ holding_buf x' b d n /\ same_rest x x' /\
    drv (ide x') = dwrite (drv (ide x)) d n (b_data (bufs x b)) /\
    dirty x' b = false /\ b_data (bufs x' b) = b_data (bufs x b) /\ (forall i, i <> b -> bufs x' i = bufs x i) /\
    (forall d' n', d' <> nodev -> blk_eq (lv x d' n') (lv x' d' n')) /\
    (forall d' n', ~ (d' = d /\ n' = n) -> dsec x' d' n' <-> dsec x d' n').
Proof.
  intros Hc Hh Hb. destruct (bwrite_spec x l b d n Hc Hb) as (x' & R & Hc' & Hb' & S & D & Di & Da & O & L).
  exists x'. split_and!; try done.
  - intros i Hi. destruct (decide (i = b)) as [->|Hne].
    + rewrite (hb_busy _ _ _ _ Hb'). rewrite <- (Hh b Hi). by rewrite (hb_busy _ _ _ _ Hb).
    + unfold busy. rewrite O by done. by apply Hh.
  - intros d' n' Hne. unfold dsec, cached, dirty. split; intros (i & H1 & H2); exists i.
    + destruct (decide (i = b)) as [->|Hib]; [|by rewrite O in H1, H2].
      destruct (hb_cached _ _ _ _ Hb') as (_ & E1 & E2). destruct H1 as (_ & E3 & E4). exfalso. apply Hne. split; congruence.
    + destruct (decide (i = b)) as [->|Hib]; [|by rewrite O].
      destruct (hb_cached _ _ _ _ Hb) as (_ & E1 & E2). destruct H1 as (_ & E3 & E4). exfalso. apply Hne. split; congruence.
Qed.

End clients.

(** ** The header block *)

(** The header says [n] and the sectors [sec]. *)
Definition header_is (m : mem) (n : Z) (sec : Z -> Z) : Prop :=
  int_at m 0 = n /\ forall k, 0 <= k < n -> int_at m (4 + 4 * k) = sec k.

Definition sector_no (s : Z) : Prop := 0 <= s < 2 ^ 28.

Lemma int_at_st32 m a v : -0x80000000 <= v < 0x80000000 -> int_at (st32 m a v) a = v.
Proof.
  intros Hv. unfold int_at. rewrite ld32_st32_same. unfold s32, u32.
  destruct (Z.ltb_spec (v mod 4294967296 mod 4294967296) 0x80000000); mlia.
Qed.

Lemma int_at_st32_ne m a b v : (b + 4 <= a \/ a + 4 <= b) -> int_at (st32 m a v) b = int_at m b.
Proof. intros H. unfold int_at. rewrite ld32_st32_ne by lia. done. Qed.

Lemma int_at_blk m m' a : blk_eq m m' -> 0 <= a -> a + 4 <= BSIZE -> int_at m' a = int_at m a.
Proof. intros H Ha Hb. unfold int_at. f_equal. eapply ld32_agree; [exact H|]. cbv beta. lia. Qed.

(** What write_sectors stores. *)
Fixpoint put_sectors (n : nat) (sec : Z -> Z) (i : Z) (m : mem) : mem :=
  match n with
  | O => m
  | S n => put_sectors n sec (i + 1) (st32 m (4 + 4 * i) (sec i))
  end.

Lemma put_sectors_other n sec : forall i m a, a + 4 <= 4 + 4 * i -> int_at (put_sectors n sec i m) a = int_at m a.
Proof.
  induction n as [|n IH]; intros i m a Ha; cbn [put_sectors]; [done|].
  rewrite IH by lia. apply int_at_st32_ne. lia.
Qed.

Lemma put_sectors_at n sec : forall i m k, i <= k < i + Z.of_nat n -> sector_no (sec k) ->
  int_at (put_sectors n sec i m) (4 + 4 * k) = sec k.
Proof.
  induction n as [|n IH]; intros i m k Hk Hs; cbn [put_sectors]; [lia|].
  destruct (decide (k = i)) as [->|].
  - rewrite put_sectors_other by lia. apply int_at_st32. unfold sector_no in Hs. lia.
  - apply IH; [lia|done].
Qed.

(** ** Writing and reading the header *)

Section log.
Context {St : Type} {K : Kernel St} {KS : KernelSpec St}.
Context (dev start : Z).

(** The log's place on the disk. *)
Definition log_place : Prop := 0 <= dev <= 1 /\ 0 <= start /\ start + LOGSIZE < 2 ^ 28.

Record log_is (x : fsys) (n : Z) (sec : Z -> Z) : Prop := {
  li_dev : log_dev (log x) = dev;
  li_start : log_start (log x) = start;
  li_n : lh_n (log x) = n;
  li_range : 0 <= n <= LOGSIZE;
  li_sec : forall k, 0 <= k < n -> lh_sector (log x) k = sec k
}.

Lemma log_is_rest x x' n sec : same_rest x x' -> log_is x n sec -> log_is x' n sec.
Proof. intros [E _ _ _ _] [? ? ? ? ?]. split; by rewrite ?E. Qed.

Lemma write_sectors_runs x sec b n : forall m i,
  (forall k, i <= k < i + Z.of_nat n -> lh_sector (log x) k = sec k) ->
  forall y, log y = log x -> b_data (bufs y b) = m ->
  exists y', runs [] (write_sectors n b i) y tt y' [] /\ same_rest y y' /\ ide y' = ide y /\
    bufs_are y' (upd (bufs y) b (b_with_data (put_sectors n sec i m) (bufs y b))).
Proof.
  induction n as [|n IH]; intros m i Hs y Hl Hm; cbn [write_sectors put_sectors].
  - exists y. split_and!; [rprim|done|done|]. intros j. unfold upd. destruct (Z.eqb_spec j b) as [->|]; [|done].
    rewrite <- Hm. by destruct (bufs y b).
  - set (v := b_with_data (st32 (b_data (bufs y b)) (4 + 4 * i) (lh_sector (log y) i)) (bufs y b)).
    set (y1 := set_bufs (upd (bufs y) b v) y).
    destruct (IH (st32 m (4 + 4 * i) (sec i)) (i + 1) ltac:(intros; apply Hs; lia) y1) as (y' & R & S & I & B).
    { done. } { unfold y1. cbn. rewrite upd_same. cbn. by rewrite Hm, Hl, Hs by lia. }
    exists y'. split_and!; [|by destruct S; split|done|].
    + rstep. rstep. exact R.
    + intros j. rewrite B. unfold upd, y1. cbn. unfold upd. rewrite Z.eqb_refl. by destruct (j =? b).
Qed.

Lemma write_head_spec x l n sec :
  cache x l -> held x [] -> log_place -> log_is x n sec -> (forall k, 0 <= k < n -> sector_no (sec k)) -> room x dev start ->
  exists x' l' hdr, runs [] write_head x tt x' [] /\ cache x' l' /\ held x' [] /\ same_rest x x' /\
    drv (ide x') = dwrite (drv (ide x)) dev start hdr /\ header_is hdr n sec /\
    (forall d s, d <> nodev -> ~ (d = dev /\ s = start) -> blk_eq (lv x d s) (lv x' d s)) /\
    (forall d s, d <> nodev -> ~ (d = dev /\ s = start) -> dsec x' d s <-> dsec x d s) /\
    ~ dsec x' dev start /\ spare x'.
Proof.
  intros Hc Hh (Hdev & Hst0 & Hst1) Hlog Hsec Hroom. pose proof (li_range _ _ _ Hlog) as Hn.
  assert (addressable dev start) as Ha by (unfold addressable, LOGSIZE in *; lia).
  destruct (take_spec x l [] dev start Hc Hh Ha) as (b & x1 & R1 & C1 & H1 & _ & B1 & G & D1 & _); [set_solver|done|].
  assert (log_is x1 n sec) as Hl1 by (eapply log_is_rest; [apply G|done]).
  set (x2 := set_bufs (upd (bufs x1) b (b_with_data (st32 (b_data (bufs x1 b)) 0 n) (bufs x1 b))) x1).
  set (m := put_sectors (Z.to_nat n) sec 0 (st32 (b_data (bufs x1 b)) 0 n)).
  destruct (write_sectors_runs x2 sec b (Z.to_nat n) (st32 (b_data (bufs x1 b)) 0 n) 0) with (y := x2) as (x3 & R3 & S3 & I3 & B3).
  { intros k Hk. apply (li_sec _ _ _ Hl1). lia. } { done. } { unfold x2. cbn. by rewrite upd_same. }
  assert (bufs_are x3 (upd (bufs x1) b (b_with_data m (bufs x1 b)))) as B3'.
  { intros i. rewrite B3. unfold upd, x2. cbn. unfold upd. rewrite Z.eqb_refl. by destruct (i =? b). }
  destruct (modified x1 x3 l [b] b dev start m C1 H1 B1 B3' I3) as (C3 & H3 & K3 & E3 & O3 & L3 & L3' & D3 & _).
  destruct (flush_spec x3 l [b] b dev start C3 H3 K3) as (x4 & R4 & C4 & H4 & K4 & S4 & V4 & Di4 & E4 & O4 & L4 & D4).
  rewrite E3 in V4, E4.
  destruct (drop_spec x4 l [] b dev start C4 H4) as (x5 & l5 & R5 & C5 & H5 & S5 & I5 & L5 & D5 & Di5 & Ca5 & O5 & Ev5).
  { set_solver. } { done. } { intros _. by rewrite V4, dread_dwrite, !Z.eqb_refl, E4. }
  assert (same_rest x1 x3) as S3' by (etransitivity; [|exact S3]; by split).
  exists x5, l5, m. split_and!; try done.
  - unfold write_head. rstep. rstep. rewrite (li_dev _ _ _ Hlog), (li_start _ _ _ Hlog), u32_small by lia.
    eapply runs_bind; [exact R1|]. cbv beta. rstep. rewrite (li_n _ _ _ Hl1). rstep. fold x2.
    eapply runs_bind; [exact R3|]. cbv beta. eapply runs_bind; [exact R4|]. exact R5.
  - transitivity x1; [apply G|]. transitivity x3; [done|]. by transitivity x4.
  - rewrite I5, V4, I3. cbn. by rewrite (g_drv _ _ _ _ _ G).
  - split.
    + unfold m. rewrite put_sectors_other by lia. apply int_at_st32. unfold LOGSIZE in Hn. lia.
    + intros k Hk. unfold m. apply put_sectors_at; [lia|by apply Hsec].
  - intros d s Hd Hne. rewrite L5. rewrite (g_lv _ _ _ _ _ G d s Hd), (L3' d s Hd Hne), (L4 d s Hd). done.
  - intros d s Hd Hne. rewrite D5, D4, D3, D1 by done. done.
  - intros (i & Hi & Hdi). assert (i = b) as ->; [|by rewrite Di5, Di4 in Hdi].
    apply (ca_uniq _ _ C5 dev start); [unfold nodev; lia|done|]. apply Ca5. apply K4.
  - exists b. split; [apply B1|]. by rewrite Ev5, Di4.
Qed.

(** ** Installing the logged blocks *)

Definition lb (k : Z) : Z := start + k + 1.

(** The sectors of a transaction: distinct and outside the log. *)
Record home (n : Z) (sec : Z -> Z) : Prop := {
  ho_no : forall k, 0 <= k < n -> sector_no (sec k);
  ho_out : forall k, 0 <= k < n -> ~ (start <= sec k <= start + LOGSIZE);
  ho_inj : forall j k, 0 <= j < n -> 0 <= k < n -> sec j = sec k -> j = k
}.

(** Enough buffers: all are clean, or one is and the home blocks are pinned. *)
Definition ready (x : fsys) (tail n : Z) (sec : Z -> Z) : Prop :=
  (forall i, bno i -> dirty x i = false) \/ (spare x /\ forall k, tail <= k < n -> dsec x dev (sec k)).

Lemma held_nil_spare x : held x [] -> (forall i, bno i -> dirty x i = false) -> forall b, exists i, bno i /\ i <> b /\ evictable x i = true.
Proof.
  intros Hh Hd b. exists (if b =? 0 then 1 else 0). set (i := if b =? 0 then 1 else 0).
  assert (bno i /\ i <> b) as [Hi Hb] by (unfold i, bno, NBUF; destruct (Z.eqb_spec b 0); lia).
  split_and!; [done|done|]. unfold evictable. rewrite (Hd i Hi).
  destruct (busy x i) eqn:E; [|done]. apply Hh in E; [|done]. by apply elem_of_nil in E.
Qed.

Lemma ready_spare x tail n sec : held x [] -> ready x tail n sec -> spare x.
Proof.
  intros Hh [Hd|[Hs _]]; [|done]. destruct (held_nil_spare x Hh Hd 0) as (i & ? & _ & ?). by exists i.
Qed.

(** One block: read it from the log, copy it to its home and write that. *)
Lemma install_one x l n sec tail :
  cache x l -> held x [] -> log_place -> log_is x n sec -> home n sec -> ready x tail n sec -> 0 <= tail < n ->
  exists x' l' m, (forall (A : Type) (k : M St A) a y,
      runs [] k x' a y [] ->
      runs [] (let* dev := lget log_dev in
               let* st := lget log_start in
               let* lbuf := bread dev (u32 (st + tail + 1)) in
               let* sc := lget (fun l => lh_sector l tail) in
               let* dbuf := bread dev (u32 sc) in
               let* m := bget_ lbuf b_data in
               bset dbuf (fun b => b_with_data (blit (b_data b) 0 m BSIZE) b) ;;
               bwrite dbuf ;; brelse lbuf ;; brelse dbuf ;; k) x a y []) /\
    cache x' l' /\ held x' [] /\ same_rest x x' /\ drv (ide x') = dwrite (drv (ide x)) dev (sec tail) m /\
    blk_eq (lv x dev (lb tail)) m /\ blk_eq m (lv x' dev (sec tail)) /\
    (forall d s, d <> nodev -> ~ (d = dev /\ s = sec tail) -> blk_eq (lv x d s) (lv x' d s)) /\
    (forall d s, d <> nodev -> ~ (d = dev /\ s = sec tail) -> dsec x' d s <-> dsec x d s) /\
    ~ dsec x' dev (sec tail) /\ ready x' (tail + 1) n sec.
Proof.
  intros Hc Hh (Hdev & Hst0 & Hst1) Hlog Hhome Hready Ht. pose proof (li_range _ _ _ Hlog) as Hn.
  assert (dev <> nodev) as Hdn by (unfold nodev; lia).
  assert (addressable dev (lb tail)) as Ha by (unfold addressable, lb, LOGSIZE in *; lia).
  assert (addressable dev (sec tail)) as Ha2 by (split; [done|by apply (ho_no _ _ Hhome)]).
  assert (lb tail <> sec tail) as Hne.
  { pose proof (ho_out _ _ Hhome tail Ht). unfold lb, LOGSIZE in *. lia. }
  destruct (take_spec x l [] dev (lb tail) Hc Hh Ha) as (lb_ & x1 & R1 & C1 & H1 & _ & B1 & G1 & D1 & V1).
  { set_solver. } { right. by apply (ready_spare x tail n sec). }
  destruct (take_spec x1 l [lb_] dev (sec tail) C1 H1 Ha2) as (db & x2 & R2 & C2 & H2 & N2 & B2 & G2 & D2 & V2).
  { intros b ->%list_elem_of_singleton Hb. destruct (hb_cached _ _ _ _ B1) as (_ & _ & E1), Hb as (_ & _ & E2). congruence. }
  { destruct Hready as [Hd|[_ Hd]].
    - destruct (held_nil_spare x Hh Hd lb_) as (i & ? & ? & ?). right. exists i. split; [done|]. by rewrite V1.
    - left. destruct (proj2 (D1 dev (sec tail) Hdn) (Hd tail ltac:(lia))) as (i & ? & _). by exists i. }
  assert (db <> lb_) as Hdl by (intros ->; apply N2; set_solver).
  assert (bufs x2 lb_ = bufs x1 lb_) as El by (apply (g_other _ _ _ _ _ G2); congruence).
  assert (holding_buf x2 lb_ dev (lb tail)) as B2l.
  { destruct B1 as [? ? ?]. split; [unfold cached in *; by rewrite El|unfold busy in *; by rewrite El|done]. }
  set (m := blit (b_data (bufs x2 db)) 0 (b_data (bufs x2 lb_)) BSIZE).
  set (x3 := set_bufs (upd (bufs x2) db (b_with_data m (bufs x2 db))) x2).
  destruct (modified x2 x3 l [db; lb_] db dev (sec tail) m C2 H2 B2) as (C3 & H3 & K3 & E3 & O3 & L3 & L3' & D3 & Di3); [done..|].
  destruct (flush_spec x3 l [db; lb_] db dev (sec tail) C3 H3 K3) as (x4 & R4 & C4 & H4 & K4 & S4 & V4 & Di4 & E4 & O4 & L4 & D4).
  rewrite E3 in V4, E4.
  assert (bufs x4 lb_ = bufs x1 lb_) as El4 by (rewrite O4, O3 by congruence; done).
  assert (holding_buf x4 lb_ dev (lb tail)) as B4l.
  { destruct B1 as [? ? ?]. split; [unfold cached in *; by rewrite El4|unfold busy in *; by rewrite El4|done]. }
  assert (drv (ide x4) = dwrite (drv (ide x)) dev (sec tail) m) as V.
  { rewrite V4. cbn. by rewrite (g_drv _ _ _ _ _ G2), (g_drv _ _ _ _ _ G1). }
  destruct (drop_spec x4 l [db] lb_ dev (lb tail) C4) as (x5 & l5 & R5 & C5 & H5 & S5 & I5 & L5 & D5 & Di5 & Ca5 & O5 & _).
  { intros i Hi. rewrite (H4 i Hi). set_solver. } { set_solver. } { done. }
  { unfold dirty. rewrite El4. intros Hdi. rewrite V, dread_dwrite.
    rewrite (proj2 (Z.eqb_neq (lb tail) (sec tail))) by done. rewrite andb_false_r. by apply (g_clean _ _ _ _ _ G1). }
  assert (core (bufs x5 db) = core (bufs x4 db)) as Ec by by apply O5.
  destruct (core_eq _ _ Ec) as (Ec1 & Ec2 & Ec3 & Ec4).
  assert (holding_buf x5 db dev (sec tail)) as B5.
  { destruct K4 as [? ? ?]. split; [by apply Ca5|unfold busy in *; by rewrite Ec1|done]. }
  destruct (drop_spec x5 l5 [] db dev (sec tail) C5 H5) as (x6 & l6 & R6 & C6 & H6 & S6 & I6 & L6 & D6 & Di6 & Ca6 & O6 & Ev6).
  { set_solver. } { done. } { intros _. by rewrite I5, V, dread_dwrite, !Z.eqb_refl, Ec4, E4. }
  assert (log_is x1 n sec) as Hlog1 by (eapply log_is_rest; [apply G1|done]).
  assert (dirty x6 db = false) as Hdb by by rewrite Di6, Di5.
  exists x6, l6, m. split_and!.
  - intros A k a y Hk. rstep. rstep. rewrite (li_dev _ _ _ Hlog), (li_start _ _ _ Hlog).
    fold (lb tail). rewrite u32_small by (unfold addressable in Ha; lia).
    eapply runs_bind; [exact R1|]. cbv beta. rstep. rewrite (li_sec _ _ _ Hlog1) by done.
    rewrite u32_small by (unfold addressable in Ha2; lia).
    eapply runs_bind; [exact R2|]. cbv beta. do 2 rstep. fold m x3.
    eapply runs_bind; [exact R4|]. cbv beta. eapply runs_bind; [exact R5|]. cbv beta. by eapply runs_bind; [exact R6|].
  - done.
  - done.
  - transitivity x1; [apply G1|]. transitivity x2; [apply G2|]. transitivity x4; [by destruct S4; split|]. by transitivity x5.
  - by rewrite I6, I5.
  - rewrite (g_data _ _ _ _ _ G1). rewrite <- El. intros a Ha'. unfold m, blit, ld8. cbv beta in Ha'.
    rewrite (proj2 (Z.leb_le 0 a)), (proj2 (Z.ltb_lt a (0 + BSIZE))) by lia. cbn [andb]. by rewrite Z.sub_0_r.
  - rewrite L6, L5. rewrite <- L3. by apply L4.
  - intros d s Hd Hns. rewrite L6, L5. rewrite (g_lv _ _ _ _ _ G1 d s Hd), (g_lv _ _ _ _ _ G2 d s Hd), (L3' d s Hd Hns). by apply L4.
  - intros d s Hd Hns. by rewrite D6, D5, D4, D3, D2, D1.
  - intros (i & Hi & Hdi). assert (i = db) as ->; [|congruence].
    apply (ca_uniq _ _ C6 dev (sec tail)); [done|done|]. apply Ca6, Ca5. apply K4.
  - destruct Hready as [Hd|[_ Hd]]; [left|right].
    + intros i Hi. rewrite Di6, Di5. destruct (decide (i = db)) as [->|Hib]; [done|].
      unfold dirty. rewrite O4, O3 by done. rewrite (g_other _ _ _ _ _ G2) by done.
      change (dirty x1 i = false). destruct (decide (i = lb_)) as [->|Hil]; [rewrite (g_dirty _ _ _ _ _ G1)|
        unfold dirty; rewrite (g_other _ _ _ _ _ G1) by done]; by apply Hd.
    + split; [exists db; split; [apply K4|]; by rewrite Ev6, Di5, Di4|]. intros k Hk.
      assert (sec k <> sec tail) as Hk2 by (intros E; apply (ho_inj _ _ Hhome) in E; lia).
      rewrite D6, D5, D4, D3, D2, D1 by (done || tauto). apply Hd. lia.
Qed.

Lemma install_spec n sec : log_place -> home n sec -> forall fuel x l tail,
  cache x l -> held x [] -> log_is x n sec -> ready x tail n sec -> 0 <= tail -> tail + Z.of_nat fuel = n ->
  exists x' l' ms, runs [] (install_loop fuel tail) x tt x' [] /\ cache x' l' /\ held x' [] /\ same_rest x x' /\
    drv (ide x') = mkDrive (image (drv (ide x)))
      (rev (map (fun k => (dev, sec k, ms k)) (seqZ tail (n - tail))) ++ writes (drv (ide x))) /\
    (forall k, tail <= k < n -> blk_eq (lv x dev (lb k)) (ms k) /\ blk_eq (ms k) (lv x' dev (sec k)) /\ ~ dsec x' dev (sec k)) /\
    (forall d s, d <> nodev -> (d = dev -> forall k, tail <= k < n -> s <> sec k) -> blk_eq (lv x d s) (lv x' d s)) /\
    (forall d s, d <> nodev -> (d = dev -> forall k, tail <= k < n -> s <> sec k) -> dsec x' d s <-> dsec x d s) /\
    ready x' n n sec.
Proof.
  intros Hp Hhome. assert (dev <> nodev) as Hdn by (destruct Hp; unfold nodev; lia).
  induction fuel as [|fuel IH]; intros x l tail Hc Hh Hlog Hr Ht Hf.
  - assert (tail = n) as -> by lia. exists x, l, (fun _ _ => 0). split_and!; try done; try lia.
    + cbn [install_loop]. rstep. rewrite (li_n _ _ _ Hlog), Z.ltb_irrefl. rprim.
    + rewrite Z.sub_diag. cbn. by destruct (drv (ide x)).
  - destruct (install_one x l n sec tail Hc Hh Hp Hlog Hhome Hr ltac:(lia))
      as (x1 & l1 & m & R1 & C1 & H1 & S1 & V1 & M1 & M1' & L1 & D1 & N1 & Rd1).
    destruct (IH x1 l1 (tail + 1)) as (x2 & l2 & ms & R2 & C2 & H2 & S2 & V2 & M2 & L2 & D2 & Rd2);
      [done|done|by eapply log_is_rest|done|lia|lia|].
    assert (forall k, tail + 1 <= k < n -> sec tail <> sec k) as Hne
      by (intros k Hk E; apply (ho_inj _ _ Hhome) in E; lia).
    exists x2, l2, (fun k => if k =? tail then m else ms k). split_and!; try done.
    + cbn [install_loop]. rstep. rewrite (li_n _ _ _ Hlog), (proj2 (Z.ltb_lt tail n)) by lia. by apply R1.
    + by transitivity x1.
    + rewrite V2, V1. cbn. rewrite (seqZ_cons tail) by lia. cbn [map rev]. rewrite Z.eqb_refl.
      replace (Z.pred (n - tail)) with (n - (tail + 1)) by lia. replace (Z.succ tail) with (tail + 1) by lia.
      rewrite <- app_assoc. cbn. do 3 f_equal. apply map_ext_in. intros k Hk%list_elem_of_In%elem_of_seqZ.
      by rewrite (proj2 (Z.eqb_neq k tail)) by lia.
    + intros k Hk. destruct (Z.eqb_spec k tail) as [->|].
      * split_and!; [done|rewrite M1'; apply L2; [done|]|rewrite D2; [done|done|]]; intros _ j Hj; by apply Hne.
      * destruct (M2 k ltac:(lia)) as (E1 & E2 & E3). split_and!; [|done|done].
        rewrite (L1 dev (lb k)); [done|done|]. intros [_ E]. pose proof (ho_out _ _ Hhome tail ltac:(lia)).
        pose proof (li_range _ _ _ Hlog). unfold lb, LOGSIZE in *. lia.
    + intros d s Hd Hns. rewrite (L1 d s Hd) by (intros [-> ->]; by apply (Hns eq_refl tail ltac:(lia))).
      apply L2; [done|]. intros -> k Hk. apply Hns; [done|lia].
    + intros d s Hd Hns. rewrite D2, D1; [done|done| |done|].
      * intros [-> ->]. by apply (Hns eq_refl tail ltac:(lia)).
      * intros -> k Hk. apply Hns; [done|lia].
Qed.

(** ** Recovery *)

(** States that differ at most in buffers, disk and log. *)
Record same_tables (x x' : fsys) : Prop := {
  st_icache : icache x' = icache x;
  st_ftable : ftable x' = ftable x;
  st_devsw : devsw x' = devsw x;
  st_pipes : pipes x' = pipes x
}.

Lemma read_sectors_runs x m n : forall i,
  exists x', runs [] (read_sectors n m i) x tt x' [] /\ bufs x' = bufs x /\ ide x' = ide x /\ same_tables x x' /\
    log_dev (log x') = log_dev (log x) /\ log_start (log x') = log_start (log x) /\ lh_n (log x') = lh_n (log x) /\
    (forall k, lh_sector (log x') k = if (i <=? k) && (k <? i + Z.of_nat n) then int_at m (4 + 4 * k) else lh_sector (log x) k).
Proof.
  revert x. induction n as [|n IH]; intros x i; cbn [read_sectors].
  - exists x. split_and!; try done; [rprim|]. intros k. destruct (Z.leb_spec i k), (Z.ltb_spec k (i + Z.of_nat 0)); try done. lia.
  - destruct (IH (set_log (l_with_sector i (int_at m (4 + 4 * i)) (log x)) x) (i + 1)) as (x' & R & B & I & T & E1 & E2 & E3 & E4).
    exists x'. split_and!; try done; [by rstep|by destruct T; split|]. intros k. rewrite E4. cbn. unfold upd.
    destruct (Z.leb_spec (i + 1) k), (Z.ltb_spec k (i + 1 + Z.of_nat n)), (Z.leb_spec i k), (Z.ltb_spec k (i + Z.of_nat (S n))),
      (Z.eqb_spec k i); subst; cbn [andb]; try done; lia.
Qed.

Lemma read_head_spec x l n sec :
  cache x l -> held x [] -> log_place -> log_dev (log x) = dev -> log_start (log x) = start -> room x dev start ->
  header_is (lv x dev start) n sec -> 0 <= n <= LOGSIZE ->
  exists x' l', runs [] read_head x tt x' [] /\ cache x' l' /\ held x' [] /\ log_is x' n sec /\ same_tables x x' /\
    drv (ide x') = drv (ide x) /\ (forall d s, d <> nodev -> blk_eq (lv x d s) (lv x' d s)) /\
    (forall d s, d <> nodev -> dsec x' d s <-> dsec x d s) /\
    ((forall i, bno i -> dirty x i = false) -> forall i, bno i -> dirty x' i = false).
Proof.
  intros Hc Hh (Hdev & Hst0 & Hst1) E1 E2 Hroom [Hn0 Hk0] Hn. unfold LOGSIZE in *.
  assert (addressable dev start) as Ha by (unfold addressable in *; lia).
  destruct (take_spec x l [] dev start Hc Hh Ha) as (b & x1 & R1 & C1 & H1 & _ & B1 & G1 & D1 & _); [set_solver|done|].
  pose proof (sr_log _ _ (g_rest _ _ _ _ _ G1)) as Elog.
  set (m := b_data (bufs x1 b)).
  assert (int_at m 0 = n) as Em0 by (rewrite <- Hn0; apply int_at_blk; [apply G1|lia|unfold BSIZE; lia]).
  assert (forall k, 0 <= k < n -> int_at m (4 + 4 * k) = sec k) as Emk.
  { intros k Hk. rewrite <- Hk0 by done. apply int_at_blk; [apply G1|lia|unfold BSIZE; lia]. }
  set (x2 := set_log (l_with_n n (log x1)) x1).
  destruct (read_sectors_runs x2 m (Z.to_nat n) 0) as (x3 & R3 & B3 & I3 & T3 & F1 & F2 & F3 & F4).
  cbn [x2 set_log bufs ide log l_with_n log_dev log_start lh_n lh_sector] in B3, I3, F1, F2, F3, F4.
  assert (forall i, bufs x3 i = bufs x1 i) as Bi by (intros; by rewrite B3).
  assert (cache x3 l) as C3.
  { destruct C1 as [A1 A2 A3 A4 A5 A6 A7 A8].
    split; unfold cached, used, busy, dirty in *; rewrite ?B3, ?I3 in *; done. }
  assert (holding_buf x3 b dev start) as K3.
  { destruct B1 as [? ? ?]. split; unfold cached, busy in *; by rewrite ?B3. }
  destruct (drop_spec x3 l [] b dev start C3) as (x4 & l4 & R4 & C4 & H4 & S4 & I4 & L4 & D4 & Di4 & Ca4 & O4 & Ev4).
  { intros i Hi. unfold busy. rewrite B3. by apply H1. } { set_solver. } { done. }
  { unfold dirty. rewrite B3, I3, (g_drv _ _ _ _ _ G1). apply (g_clean _ _ _ _ _ G1). }
  assert (forall d s, lv x3 d s = lv x1 d s) as L3 by (intros; apply core_lv; [intros; left; by rewrite B3|by rewrite I3]).
  exists x4, l4. split_and!; try done.
  - unfold read_head. rstep. rstep. rewrite E1, E2, u32_small by lia.
    eapply runs_bind; [exact R1|]. cbv beta. rstep. fold m. rewrite Em0. rstep. rstep. cbn [log set_log l_with_n lh_n].
    unfold LOGSIZE. rewrite (proj2 (Z.ltb_ge 10 n)) by lia. eapply runs_bind; [exact R3|]. exact R4.
  - eapply log_is_rest; [exact S4|]. split; [congruence|congruence|done|unfold LOGSIZE; lia|].
    intros k Hk. rewrite F4. rewrite (proj2 (Z.leb_le 0 k)), (proj2 (Z.ltb_lt k (0 + Z.of_nat (Z.to_nat n)))) by lia. by apply Emk.
  - destruct T3 as [? ? ? ?], S4 as [? ? ? ? ?], (g_rest _ _ _ _ _ G1) as [? ? ? ? ?]. split; cbn in *; congruence.
  - by rewrite I4, I3, (g_drv _ _ _ _ _ G1).
  - intros d s Hd. rewrite L4, L3. by apply G1.
  - intros d s Hd. rewrite D4, <- D1 by done. unfold dsec, cached, dirty. by rewrite B3.
  - intros Hd i Hi. rewrite Di4. unfold dirty. rewrite B3. destruct (decide (i = b)) as [->|Hib].
    + change (dirty x1 b = false). rewrite (g_dirty _ _ _ _ _ G1). by apply Hd.
    + rewrite (g_other _ _ _ _ _ G1) by done. by apply Hd.
Qed.

Definition clean (x : fsys) : Prop := forall i, bno i -> dirty x i = false.

Lemma clean_dsec x l : cache x l -> clean x <-> forall d s, d <> nodev -> ~ dsec x d s.
Proof.
  intros Hc. split.
  - intros H d s _ (i & Hi & Hd). by rewrite (H i (proj1 Hi)) in Hd.
  - intros H i Hi. destruct (dirty x i) eqn:E; [|done]. exfalso.
    destruct (decide (b_dev (bufs x i) = nodev)) as [Hu|Hu].
    + destruct (ca_free x l Hc i Hi) as [_ E']; [intros Hc'; by apply Hc'|congruence].
    + apply (H (b_dev (bufs x i)) (b_sector (bufs x i)) Hu). by exists i.
Qed.

(** A sector without unwritten changes reads as on the disk. *)
Lemma lv_disk x l d s : cache x l -> held x [] -> d <> nodev -> ~ dsec x d s -> blk_eq (dread (drv (ide x)) d s) (lv x d s).
Proof.
  intros Hc Hh Hd Hn. destruct (cached_dec x d s) as [[i Hi]|Hno]; [|by rewrite lv_uncached].
  rewrite (lv_cached x l d s i) by done. pose proof Hi as (Hb & <- & <-). apply Hc; [done|done| |].
  - destruct (busy x i) eqn:E; [|done]. apply Hh in E; [|done]. by apply elem_of_nil in E.
  - destruct (dirty x i) eqn:E; [|done]. exfalso. apply Hn. by exists i.
Qed.

Lemma cache_set_log x l v : cache x l -> cache (set_log v x) l.
Proof. intros [? ? ? ? ? ? ? ?]. by split. Qed.

Lemma header_zero m sec : int_at m 0 = 0 -> header_is m 0 sec.
Proof. intros H. split; [done|lia]. Qed.

(** From a clean cache, recovery installs what the header on the disk says,
    changes nothing else outside the log, and empties the log. *)
Lemma recover_spec x l n sec :
  cache x l -> held x [] -> clean x -> log_place -> log_dev (log x) = dev -> log_start (log x) = start ->
  header_is (dread (drv (ide x)) dev start) n sec -> 0 <= n <= LOGSIZE -> home n sec ->
  exists x' l', runs [] recover_from_log x tt x' [] /\ cache x' l' /\ held x' [] /\ clean x' /\ same_tables x x' /\
    int_at (dread (drv (ide x')) dev start) 0 = 0 /\
    (forall k, 0 <= k < n -> blk_eq (dread (drv (ide x)) dev (lb k)) (dread (drv (ide x')) dev (sec k))) /\
    (forall d s, d <> nodev -> ~ (d = dev /\ s = start) -> (d = dev -> forall k, 0 <= k < n -> s <> sec k) ->
       blk_eq (dread (drv (ide x)) d s) (dread (drv (ide x')) d s)).
Proof.
  intros Hc Hh Hcl Hp E1 E2 Hhd Hn Hhome. pose proof Hp as (Hdev & Hst0 & Hst1).
  assert (dev <> nodev) as Hdn by (unfold nodev; lia).
  assert (spare x) as Hsp by (destruct (held_nil_spare x Hh Hcl 0) as (i & ? & _ & ?); by exists i).
  pose proof (proj1 (clean_dsec x l Hc) Hcl) as Hnd.
  assert (forall d s, d <> nodev -> blk_eq (dread (drv (ide x)) d s) (lv x d s)) as Hlv.
  { intros d s Hd. apply (lv_disk x l); auto. }
  assert (header_is (lv x dev start) n sec) as Hhd'.
  { destruct Hhd as [A B]. unfold LOGSIZE in Hn.
    split; [rewrite <- A|intros k Hk; rewrite <- B by done]; apply int_at_blk; auto; unfold BSIZE; lia. }
  destruct (read_head_spec x l n sec Hc Hh Hp E1 E2 (or_intror Hsp) Hhd' Hn)
    as (x1 & l1 & R1 & C1 & H1 & Lg1 & T1 & V1 & L1 & D1 & Cl1).
  destruct (install_spec n sec Hp Hhome (Z.to_nat n) x1 l1 0 C1 H1 Lg1) as (x2 & l2 & ms & R2 & C2 & H2 & S2 & V2 & M2 & L2 & D2 & Rd2).
  { left. by apply Cl1. } { lia. } { lia. }
  set (x3 := set_log (l_with_n 0 (log x2)) x2).
  assert (log_is x2 n sec) as Lg2 by by eapply log_is_rest.
  assert (log_is x3 0 sec) as Lg3 by (split; cbn; [apply Lg2|apply Lg2|done|unfold LOGSIZE; lia|lia]).
  destruct (write_head_spec x3 l2 0 sec (cache_set_log _ _ _ C2) H2 Hp Lg3) as (x4 & l4 & hdr & R4 & C4 & H4 & S4 & V4 & [Hh0 _] & L4 & D4 & N4 & Sp4).
  { lia. } { right. by apply (ready_spare x2 n n sec). }
  assert (forall d s, d <> nodev -> ~ dsec x4 d s) as Hnd4.
  { intros d s Hd. destruct (decide (d = dev /\ s = start)) as [[-> ->]|Hne]; [done|].
    rewrite D4 by done. change (~ dsec x2 d s). intros Hs.
    destruct (decide (d = dev)) as [->|Hdd].
    - assert (forall k, 0 <= k < n -> s <> sec k) as Hk by (intros k Hk ->; by apply (M2 k Hk)).
      rewrite D2, D1 in Hs by done. by apply (Hnd dev s).
    - rewrite D2, D1 in Hs by done. by apply (Hnd d s). }
  assert (forall d s, d <> nodev -> blk_eq (dread (drv (ide x4)) d s) (lv x4 d s)) as Hlv4.
  { intros d s Hd. apply (lv_disk x4 l4); auto. }
  exists x4, l4. split_and!; try done.
  - unfold recover_from_log. eapply runs_bind; [exact R1|]. cbv beta. eapply runs_bind.
    { unfold install_trans. rstep. rewrite (li_n _ _ _ Lg1). exact R2. }
    cbv beta. rstep. exact R4.
  - by apply (clean_dsec x4 l4).
  - destruct T1 as [? ? ? ?], S2 as [? ? ? ? ?], S4 as [? ? ? ? ?]. split; cbn in *; congruence.
  - rewrite V4, dread_dwrite, !Z.eqb_refl. done.
  - intros k Hk. assert (sec k <> start) as Hks by (pose proof (ho_out _ _ Hhome k Hk); unfold LOGSIZE in *; lia).
    rewrite Hlv4 by done. rewrite <- (L4 dev (sec k)) by (done || tauto). change (lv x3 dev (sec k)) with (lv x2 dev (sec k)).
    destruct (M2 k Hk) as (A & B & _). rewrite <- B, <- A, <- L1, <- Hlv by done. done.
  - intros d s Hd Hns Hk. rewrite Hlv4 by done. rewrite <- L4 by done. change (lv x3 d s) with (lv x2 d s).
    rewrite <- L2 by done. rewrite <- L1, <- Hlv by done. done.
Qed.

End log.
