(* ===== verification/Crash.v ===== *)
(** * Commit, and a crash at any of its disk writes *)

From Stdlib Require Import ZArith Lia String Bool.
From stdpp Require Import base numbers sets list.
From S2P Require Import Prelude Params Mem Spinlock FsState Bio Log FsRun BioSpec LogSpec.

(** ** Reading a drive through a list of writes *)

Lemma dread_from_skip ws ws' img d s :
  (forall m, (d, s, m) ∉ ws) -> dread_from (ws ++ ws') img d s = dread_from ws' img d s.
Proof.
  induction ws as [|[[d' s'] m'] ws IH]; intros H; cbn; [done|].
  destruct (Z.eqb_spec d d') as [->|], (Z.eqb_spec s s') as [->|]; cbn; try (apply IH; intros m Hm; apply (H m); set_solver).
  exfalso. apply (H m'). set_solver.
Qed.

Lemma dread_from_hit ws ws' img d s m :
  (d, s, m) ∈ ws -> (forall m', (d, s, m') ∈ ws -> m' = m) -> dread_from (ws ++ ws') img d s = m.
Proof.
  induction ws as [|[[d' s'] m'] ws IH]; intros Hin Hu; cbn; [by apply elem_of_nil in Hin|].
  destruct (Z.eqb_spec d d') as [->|], (Z.eqb_spec s s') as [->|]; cbn; [apply Hu; set_solver|..];
    (apply elem_of_cons in Hin as [Hin|Hin]; [congruence|]; apply IH; [done|]; intros; apply Hu; set_solver).
Qed.

(** The beginnings of a list that ends in a given way. *)
Lemma commit_suffix {A : Type} (a b : list A) (h1 h2 : A) (l : list A) :
  a ++ b = h2 :: rev l ++ [h1] ->
  b = [] \/ (exists j, (j <= length l)%nat /\ b = rev (take j l) ++ [h1]) \/ b = h2 :: rev l ++ [h1].
Proof.
  intros H. destruct a as [|h a]; [by right; right|]. injection H as <- H.
  destruct b as [|c b _] using rev_ind; [by left|]. right. left.
  rewrite app_assoc in H. apply app_inj_tail in H as [H ->].
  exists (length b). assert (l = rev b ++ rev a) as -> by by rewrite <- rev_app_distr, H, rev_involutive.
  rewrite length_app, length_rev. split; [lia|]. rewrite take_app_length' by by rewrite length_rev. by rewrite rev_involutive.
Qed.

Section commit.
Context {St : Type} {K : Kernel St} {KS : KernelSpec St}.
Context (dev start : Z).

Abbreviation lb := (lb start).

(** A transaction ready to commit: its blocks are in the log on disk and,
    changed, in the cache; the header on disk still says that there is none. *)
Record tx_ready (x : fsys) (l : list Z) (n : Z) (sec : Z -> Z) : Prop := {
  tr_cache : cache x l;
  tr_held : held x [];
  tr_place : log_place dev start;
  tr_log : log_is dev start x n sec;
  tr_home : home start n sec;
  tr_spare : spare x;
  tr_dirty : forall d s, d <> nodev -> dsec x d s <-> d = dev /\ exists k, 0 <= k < n /\ s = sec k;
  tr_same : forall k, 0 <= k < n -> blk_eq (lv x dev (lb k)) (lv x dev (sec k));
  tr_head : int_at (dread (drv (ide x)) dev start) 0 = 0
}.

(** The writes of a commit, the last one first. *)
Definition commit_writes (n : Z) (sec : Z -> Z) (ms : Z -> mem) (h1 h2 : mem) : list (Z * Z * mem) :=
  (dev, start, h2) :: rev (map (fun k => (dev, sec k, ms k)) (seqZ 0 n)) ++ [(dev, start, h1)].

Lemma commit_spec x l n sec :
  tx_ready x l n sec -> 0 < n -> log_busy (log x) <> 0 ->
  exists x' l' ms h1 h2, runs [] commit_trans x tt x' [] /\ cache x' l' /\ held x' [] /\ clean x' /\ same_tables x x' /\
    lh_n (log x') = 0 /\ log_busy (log x') = 0 /\ log_dev (log x') = dev /\ log_start (log x') = start /\
    drv (ide x') = mkDrive (image (drv (ide x))) (commit_writes n sec ms h1 h2 ++ writes (drv (ide x))) /\
    header_is h1 n sec /\ int_at h2 0 = 0 /\
    (forall k, 0 <= k < n -> blk_eq (lv x dev (lb k)) (ms k)) /\
    (forall d s, d <> nodev -> ~ (d = dev /\ s = start) -> blk_eq (lv x d s) (lv x' d s)).
Proof.
  intros [Hc Hh Hp Hlog Hhome Hsp Hd Hs Hz] Hn Hbusy. pose proof Hp as (Hdev & Hst0 & Hst1).
  assert (dev <> nodev) as Hdn by (unfold nodev; lia).
  assert (forall k, 0 <= k < n -> sec k <> start) as Hks.
  { intros k Hk. pose proof (ho_out _ _ _ Hhome k Hk). unfold LOGSIZE in *. lia. }
  destruct (write_head_spec dev start x l n sec Hc Hh Hp Hlog (ho_no _ _ _ Hhome) (or_intror Hsp))
    as (x1 & l1 & h1 & R1 & C1 & H1 & S1 & V1 & E1 & L1 & D1 & N1 & Sp1).
  assert (log_is dev start x1 n sec) as Lg1 by by eapply log_is_rest.
  destruct (install_spec dev start n sec Hp Hhome (Z.to_nat n) x1 l1 0 C1 H1 Lg1)
    as (x2 & l2 & ms & R2 & C2 & H2 & S2 & V2 & M2 & L2 & D2 & Rd2).
  { right. split; [done|]. intros k Hk. rewrite D1 by (done || (intros [_ E]; by apply (Hks k))). apply Hd; [done|]. split; [done|by exists k]. }
  { lia. } { lia. }
  assert (log_is dev start x2 n sec) as Lg2 by by eapply log_is_rest.
  set (x3 := set_log (l_with_n 0 (log x2)) x2).
  assert (log_is dev start x3 0 sec) as Lg3 by (split; cbn; [apply Lg2|apply Lg2|done|unfold LOGSIZE; lia|lia]).
  destruct (write_head_spec dev start x3 l2 0 sec (cache_set_log _ _ _ C2) H2 Hp Lg3) as (x4 & l4 & h2 & R4 & C4 & H4 & S4 & V4 & [E4 _] & L4 & D4 & N4 & Sp4).
  { lia. } { right. by apply (ready_spare dev x2 n n sec). }
  assert (forall d s, d <> nodev -> ~ dsec x4 d s) as Hnd4.
  { intros d s Hdd. destruct (decide (d = dev /\ s = start)) as [[-> ->]|Hne]; [done|].
    rewrite D4 by done. change (~ dsec x2 d s). intros Hds.
    assert (d = dev -> forall k, 0 <= k < n -> s <> sec k) as Hk by (intros -> k Hk ->; by apply (M2 k Hk)).
    rewrite D2, D1, Hd in Hds by done. destruct Hds as (-> & k & Hk' & ->). by apply (Hk eq_refl k). }
  set (x5 := set_log (l_with_busy 0 (log x4)) x4).
  exists x5, l4, ms, h1, h2. split_and!; try done.
  - unfold commit_trans. rstep. rewrite (li_n _ _ _ _ _ Hlog), (proj2 (Z.ltb_lt 0 n)) by lia.
    eapply runs_bind.
    { eapply runs_bind; [exact R1|]. cbv beta. eapply runs_bind.
      { unfold install_trans. rstep. rewrite (li_n _ _ _ _ _ Lg1). exact R2. }
      cbv beta. rstep. exact R4. }
    cbv beta. do 2 rstep. rlast.
  - by apply cache_set_log.
  - apply (clean_dsec x5 l4); [by apply cache_set_log|]. done.
  - destruct S1 as [? ? ? ? ?], S2 as [? ? ? ? ?], S4 as [? ? ? ? ?]. split; cbn in *; congruence.
  - cbn. rewrite (sr_log _ _ S4). done.
  - cbn. rewrite (sr_log _ _ S4). apply Lg3.
  - cbn. rewrite (sr_log _ _ S4). apply Lg3.
  - cbn. rewrite V4. cbn. rewrite V2, V1. unfold commit_writes, dwrite. cbn. rewrite Z.sub_0_r, <- app_assoc. done.
  - intros k Hk. destruct (M2 k Hk) as (A & _). rewrite <- A. apply L1; [done|]. unfold LogSpec.lb. lia.
  - intros d s Hdd Hne. change (lv x5 d s) with (lv x4 d s). rewrite <- L4 by done. change (lv x3 d s) with (lv x2 d s).
    destruct (decide (d = dev)) as [->|Hdv]; [|by rewrite <- L2, <- L1].
    destruct (decide (Exists (fun k => s = sec k) (seqZ 0 n))) as [He|He].
    + apply Exists_exists in He as (k & Hk%elem_of_seqZ & ->). assert (0 <= k < n) as Hk' by lia.
      destruct (M2 k Hk') as (A & B & _). rewrite <- B, <- A. rewrite <- (L1 dev (lb k)); [|done|unfold LogSpec.lb; lia].
      symmetry. by apply Hs.
    + rewrite <- L2, <- L1; [done|done|done|done|]. intros _ k Hk ->. apply He. apply Exists_exists. exists k.
      split; [apply elem_of_seqZ; lia|done].
Qed.

(** ** The disk after a crash *)

(** The drive after [k] of the writes that lead from [z0] to [z1]. *)
Definition after_writes (z0 z1 : drive) (k : nat) : drive :=
  mkDrive (image z1) (drop (length (writes z1) - length (writes z0) - k) (writes z1)).

(** Sectors of the file system, as opposed to the log. *)
Definition outside (d s : Z) : Prop := d <> nodev /\ ~ (d = dev /\ start <= s <= start + LOGSIZE).

(** What recovery makes of a drive on which nothing is committed. *)
Lemma recover_nothing y l :
  cache y l -> held y [] -> clean y -> log_place dev start -> log_dev (log y) = dev -> log_start (log y) = start ->
  int_at (dread (drv (ide y)) dev start) 0 = 0 ->
  exists y', runs [] recover_from_log y tt y' [] /\
    forall d s, outside d s -> blk_eq (dread (drv (ide y)) d s) (dread (drv (ide y')) d s).
Proof.
  intros Hc Hh Hcl Hp E1 E2 Hz. pose proof Hp as (_ & _ & _).
  destruct (recover_spec dev start y l 0 (fun _ => 0) Hc Hh Hcl Hp E1 E2) as (y' & l' & R & _ & _ & _ & _ & _ & _ & F).
  { by apply header_zero. } { unfold LOGSIZE. lia. } { split; lia. }
  exists y'. split; [done|]. intros d s [Hd Ho]. apply F; [done| |lia]. intros [-> ->]. apply Ho. unfold LOGSIZE. lia.
Qed.

(** Reading past the blocks installed so far. *)
Lemma installed_skip (sec : Z -> Z) (ms : Z -> mem) (js : list Z) w img d s :
  (d = dev -> forall k, k ∈ js -> s <> sec k) ->
  dread_from (rev (map (fun k => (dev, sec k, ms k)) js) ++ w) img d s = dread_from w img d s.
Proof.
  intros H. apply dread_from_skip. intros m Hm. apply list_elem_of_In, in_rev, in_map_iff in Hm as (k & E & Hk).
  injection E as <- <- <-. apply list_elem_of_In in Hk. by apply (H eq_refl k).
Qed.

(** A drive with the committed header: recovery yields the new contents. *)
Lemma recover_committed x l n sec ms h1 (js : list Z) y ly :
  tx_ready x l n sec -> header_is h1 n sec -> (forall k, k ∈ js -> 0 <= k < n) ->
  drv (ide y) = mkDrive (image (drv (ide x))) (rev (map (fun k => (dev, sec k, ms k)) js) ++ (dev, start, h1) :: writes (drv (ide x))) ->
  cache y ly -> held y [] -> clean y -> log_dev (log y) = dev -> log_start (log y) = start ->
  exists y', runs [] recover_from_log y tt y' [] /\
    forall d s, outside d s -> blk_eq (lv x d s) (dread (drv (ide y')) d s).
Proof.
  intros [Hc Hh Hp Hlog Hhome Hsp Hd Hs Hz] Hh1 Hjs Hdrv Hcy Hhy Hcl E1 E2. pose proof Hp as (Hdev & Hst0 & Hst1).
  assert (dev <> nodev) as Hdn by (unfold nodev; lia). pose proof (li_range _ _ _ _ _ Hlog) as Hn.
  assert (forall d s, (d = dev -> forall k, k ∈ js -> s <> sec k) -> ~ (d = dev /\ s = start) ->
    dread (drv (ide y)) d s = dread (drv (ide x)) d s) as Hrd.
  { intros d s Hk Hne. rewrite Hdrv. unfold dread. cbn [writes image]. rewrite installed_skip by done. cbn [dread_from].
    destruct (Z.eqb_spec d dev), (Z.eqb_spec s start); cbn [andb]; try done. tauto. }
  assert (dread (drv (ide y)) dev start = h1) as Hhead.
  { rewrite Hdrv. unfold dread. cbn [writes image]. rewrite installed_skip; [cbn; by rewrite !Z.eqb_refl|].
    intros _ k Hk E. pose proof (ho_out _ _ _ Hhome k (Hjs k Hk)). unfold LOGSIZE in *. lia. }
  destruct (recover_spec dev start y ly n sec Hcy Hhy Hcl Hp E1 E2) as (y' & l' & R & _ & _ & _ & _ & _ & F1 & F2);
    [by rewrite Hhead|done|done|].
  exists y'. split; [done|]. intros d s [Hdd Ho].
  assert (~ (d = dev /\ s = start)) as Hne by (intros [-> ->]; apply Ho; unfold LOGSIZE; lia).
  destruct (decide (d = dev /\ Exists (fun k => s = sec k) (seqZ 0 n))) as [[-> He]|He].
  - apply Exists_exists in He as (k & Hk%elem_of_seqZ & ->). assert (0 <= k < n) as Hk' by lia.
    rewrite <- F1 by done. rewrite <- (Hs k Hk'). rewrite Hrd.
    + symmetry. apply (lv_disk x l); [done|done|done|]. rewrite Hd by done. intros (_ & j & Hj & Ej).
      pose proof (ho_out _ _ _ Hhome j Hj). unfold LogSpec.lb, LOGSIZE in *. lia.
    + intros _ j Hj E. pose proof (ho_out _ _ _ Hhome j (Hjs j Hj)). unfold LogSpec.lb, LOGSIZE in *. lia.
    + unfold LogSpec.lb. lia.
  - assert (d = dev -> forall k, 0 <= k < n -> s <> sec k) as Hk.
    { intros -> k Hk ->. apply He. split; [done|]. apply Exists_exists. exists k. split; [apply elem_of_seqZ; lia|done]. }
    rewrite <- F2 by done. rewrite Hrd by (done || (intros; apply Hk; auto)).
    symmetry. apply (lv_disk x l); [done|done|done|]. rewrite Hd by done. intros (-> & j & Hj & ->). by apply (Hk eq_refl j).
Qed.

Lemma in_firstn {A : Type} (a : A) (l : list A) j : In a (take j l) -> In a l.
Proof. rewrite <- (take_drop j l) at 2. intros. apply in_or_app. by left. Qed.

(** The drive after the whole commit. *)
Lemma committed_drive x l n sec ms h1 h2 d s :
  tx_ready x l n sec -> (forall k, 0 <= k < n -> blk_eq (lv x dev (lb k)) (ms k)) -> outside d s ->
  blk_eq (lv x d s) (dread (mkDrive (image (drv (ide x))) (commit_writes n sec ms h1 h2 ++ writes (drv (ide x)))) d s).
Proof.
  intros [Hc Hh Hp Hlog Hhome Hsp Hd Hs Hz] M [Hdd Ho].
  assert (~ (d = dev /\ s = start)) as Hne by (intros [-> ->]; apply Ho; unfold LOGSIZE; lia).
  unfold dread, commit_writes. cbn [writes image app dread_from].
  assert ((d =? dev) && (s =? start) = false) as ->.
  { destruct (Z.eqb_spec d dev), (Z.eqb_spec s start); cbn; try done. tauto. }
  rewrite <- app_assoc.
  destruct (decide (d = dev /\ Exists (fun k => s = sec k) (seqZ 0 n))) as [[-> He]|He].
  - apply Exists_exists in He as (k & Hk%elem_of_seqZ & ->). assert (0 <= k < n) as Hk' by lia.
    rewrite (dread_from_hit _ _ _ dev (sec k) (ms k)).
    + by rewrite <- (Hs k Hk'), (M k Hk').
    + apply list_elem_of_In, in_rev. rewrite rev_involutive. apply in_map_iff. exists k. split; [done|].
      apply list_elem_of_In, elem_of_seqZ. lia.
    + intros m Hm. apply list_elem_of_In, in_rev, in_map_iff in Hm as (j & E & Hj%list_elem_of_In%elem_of_seqZ).
      injection E as E1 E2. apply (ho_inj _ _ _ Hhome) in E1; [congruence|lia|lia].
  - assert (d = dev -> forall k, 0 <= k < n -> s <> sec k) as Hk.
    { intros -> k Hk ->. apply He. split; [done|]. apply Exists_exists. exists k. split; [apply elem_of_seqZ; lia|done]. }
    rewrite installed_skip by (intros E k Hkk%elem_of_seqZ; apply (Hk E); lia). cbn [app dread_from].
    assert ((d =? dev) && (s =? start) = false) as ->.
    { destruct (Z.eqb_spec d dev), (Z.eqb_spec s start); cbn; try done. tauto. }
    symmetry. apply (lv_disk x l); [done|done|done|]. rewrite Hd by done. intros (-> & j & Hj & ->). by apply (Hk eq_refl j).
Qed.

(** Whatever number [k] of the writes of a commit a crash lets through,
    recovery on the restarted machine leaves every sector outside the log as
    before the transaction when [k] is 0, and as the transaction left it
    otherwise. *)
Lemma commit_crash (x : fsys) (l : list Z) (n : Z) (sec : Z -> Z) (z : drive) ms h1 h2 :
  tx_ready x l n sec -> 0 < n ->
  z = mkDrive (image (drv (ide x))) (commit_writes n sec ms h1 h2 ++ writes (drv (ide x))) ->
  header_is h1 n sec -> int_at h2 0 = 0 -> (forall k, 0 <= k < n -> blk_eq (lv x dev (lb k)) (ms k)) ->
  forall (k : nat) (y : fsys) (ly : list Z),
    drv (ide y) = after_writes (drv (ide x)) z k ->
    cache y ly -> held y [] -> clean y -> log_dev (log y) = dev -> log_start (log y) = start ->
    exists y', runs [] recover_from_log y tt y' [] /\
      forall d s, outside d s ->
        blk_eq (if (k =? 0)%nat then dread (drv (ide x)) d s else lv x d s) (dread (drv (ide y')) d s).
Proof.
  intros Hx Hn V E1 E2 M k y ly Hdy Hcy Hhy Hcl Hld Hls.
  set (W := commit_writes n sec ms h1 h2) in V. set (w0 := writes (drv (ide x))) in V.
  assert (drv (ide y) = mkDrive (image (drv (ide x))) (drop (length W - k) W ++ w0)) as Hy.
  { rewrite Hdy, V. unfold after_writes. cbn [image writes]. rewrite length_app. fold w0. f_equal.
    rewrite Nat.add_sub. rewrite drop_app_le by lia. done. }
  destruct (Nat.eqb_spec k 0) as [->|Hk].
  - rewrite Nat.sub_0_r, drop_all in Hy. cbn in Hy.
    assert (drv (ide y) = drv (ide x)) as Hyx by (rewrite Hy; by destruct (drv (ide x))).
    destruct (recover_nothing y ly Hcy Hhy Hcl (tr_place _ _ _ _ Hx) Hld Hls) as (y' & R' & F); [rewrite Hyx; by apply (tr_head x l n sec)|].
    exists y'. split; [done|]. by rewrite <- Hyx.
  - destruct (commit_suffix (take (length W - k) W) (drop (length W - k) W) (dev, start, h1) (dev, start, h2)
      (map (fun k => (dev, sec k, ms k)) (seqZ 0 n))) as [H0|[(j & Hj & Hw)|Hw]]; [apply take_drop|..].
    + exfalso. apply (f_equal length) in H0. rewrite length_drop in H0. cbn in H0.
      assert (0 < length W)%nat by (unfold W, commit_writes; cbn; lia). lia.
    + apply (recover_committed x l n sec ms h1 (take j (seqZ 0 n)) y ly); try done.
      * intros i Hi. apply list_elem_of_In, in_firstn, list_elem_of_In, elem_of_seqZ in Hi. lia.
      * rewrite Hy, Hw. f_equal. rewrite <- app_assoc. cbn. by rewrite firstn_map.
    + fold W in Hw. rewrite Hw in Hy.
      assert (forall d s, outside d s -> blk_eq (lv x d s) (dread (drv (ide y)) d s)) as Hnew.
      { intros d s Ho. rewrite Hy. by apply (committed_drive x l n sec ms h1 h2). }
      destruct (recover_nothing y ly Hcy Hhy Hcl (tr_place _ _ _ _ Hx) Hld Hls) as (y' & R' & F).
      { rewrite Hy. unfold dread. cbn. by rewrite !Z.eqb_refl. }
      exists y'. split; [done|]. intros d s Ho. rewrite Hnew by done. by apply F.
Qed.

End commit.
