(* ===== verification/Transaction.v ===== *)
(** * Transactions

    The state of the file system between begin_trans and commit_trans: what
    log_write, bread and brelse do to it, and what reaches the disk.  [tx]
    describes it by the buffers that are held, those whose changes are not yet
    logged, and the logged sectors. *)

From Stdlib Require Import ZArith Lia String Bool.
From stdpp Require Import base numbers sets list.
From S2P Require Import Prelude Params Mem Spinlock FsState Bio Log FsRun BioSpec LogSpec Crash.

Section tx.
Context {St : Type} {K : Kernel St} {KS : KernelSpec St}.
Context (dev start : Z).

Abbreviation lb := (lb start).
Abbreviation outside := (outside dev start).

(** The drive changes in blocks of the log only. *)
Definition log_only (z z' : drive) : Prop :=
  exists w, z' = mkDrive (image z) (w ++ writes z) /\ Forall (fun e => e.1.1 = dev /\ start < e.1.2 <= start + LOGSIZE) w.

#[export] Instance log_only_pre : PreOrder log_only.
Proof.
  split.
  - intros z. exists []. split; [by destruct z|done].
  - intros z1 z2 z3 (w & -> & Hw) (w' & -> & Hw'). exists (w' ++ w). cbn. rewrite app_assoc. split; [done|by apply Forall_app].
Qed.

Lemma log_only_write z k m : 0 <= k < LOGSIZE -> log_only z (dwrite z dev (lb k) m).
Proof. intros Hk. exists [(dev, lb k, m)]. split; [done|]. constructor; [|done]. cbn. unfold LogSpec.lb. split; [done|lia]. Qed.

Lemma log_only_read z z' d s : log_only z z' -> ~ (d = dev /\ start < s <= start + LOGSIZE) -> dread z' d s = dread z d s.
Proof.
  intros (w & -> & Hw) Hn. unfold dread. cbn. apply dread_from_skip. intros m Hm.
  rewrite Forall_forall in Hw. apply Hn. apply (Hw _ Hm).
Qed.

(** [hs]: the buffers held; [ms]: those with changes that are not logged;
    [sec]: the [n] sectors logged so far. *)
Record tx (x : fsys) (hs ms : list Z) (n : Z) (sec : Z -> Z) : Prop := {
  t_cache : exists l, cache x l;
  t_held : held x hs;
  t_nodup : NoDup hs;
  t_ms : forall b, b ∈ ms -> b ∈ hs;
  t_hs : forall b, b ∈ hs -> bno b /\ b_dev (bufs x b) = dev /\ outside dev (b_sector (bufs x b));
  t_place : log_place dev start;
  t_log : log_is dev start x n sec;
  t_home : home start n sec;
  t_busy : log_busy (log x) <> 0;
  t_dirty : forall d s, d <> nodev -> dsec x d s <-> d = dev /\ exists k, 0 <= k < n /\ s = sec k;
  t_same : forall k, 0 <= k < n -> (forall b, b ∈ ms -> b_sector (bufs x b) <> sec k) -> blk_eq (lv x dev (lb k)) (lv x dev (sec k));
  t_clean : forall b, b ∈ hs -> b ∉ ms -> dirty x b = false ->
    blk_eq (dread (drv (ide x)) dev (b_sector (bufs x b))) (b_data (bufs x b));
  t_head : int_at (dread (drv (ide x)) dev start) 0 = 0
}.

(** What an operation inside a transaction keeps. *)
Record kept (x x' : fsys) : Prop := {
  k_tables : same_tables x x';
  k_size : log_size (log x') = log_size (log x);
  k_drive : log_only (drv (ide x)) (drv (ide x'))
}.
#[export] Instance kept_pre : PreOrder kept.
Proof.
  split.
  - intros x. split; [by split|done|reflexivity].
  - intros x y z [[] ? ?] [[] ? ?]. split; [split; congruence|congruence|by etransitivity].
Qed.

Lemma place_dev x hs ms n sec : tx x hs ms n sec -> dev <> nodev.
Proof. intros H. destruct (t_place _ _ _ _ _ H). unfold nodev. lia. Qed.

(** The buffers in use are at most the held ones and one for each logged
    sector, so that below ten there is a spare one. *)
Lemma tx_spare x hs ms n sec : tx x hs ms n sec -> Z.of_nat (length hs) + n < NBUF -> spare x.
Proof.
  intros T Hlt. destruct (t_cache _ _ _ _ _ T) as [l Hc]. pose proof (li_range _ _ _ _ _ (t_log _ _ _ _ _ T)) as Hn.
  destruct (decide (Exists (fun i => evictable x i = true) (seqZ 0 NBUF))) as [He|He].
  { apply Exists_exists in He as (i & Hi%elem_of_seqZ & E). exists i. split; [unfold bno; lia|done]. }
  exfalso. set (g := fun k => first (at_sector x dev (sec k)) (seqZ 0 NBUF)).
  assert (seqZ 0 NBUF ⊆+ hs ++ map g (seqZ 0 n)) as Hsub.
  { apply NoDup_submseteq; [apply NoDup_seqZ|]. intros i Hi. apply elem_of_app.
    assert (bno i) as Hb by (apply elem_of_seqZ in Hi; unfold bno; lia).
    assert (evictable x i = false) as Ev.
    { apply not_true_is_false. intros E. apply He. apply Exists_exists. by exists i. }
    unfold evictable in Ev. apply andb_false_iff in Ev as [Eb%negb_false_iff|Ed%negb_false_iff].
    - left. by apply (t_held _ _ _ _ _ T).
    - right. destruct (decide (b_dev (bufs x i) = nodev)) as [Hu|Hu].
      { destruct (ca_free x l Hc i Hb) as [_ E]; [intros E; by apply E|congruence]. }
      destruct (proj1 (t_dirty _ _ _ _ _ T (b_dev (bufs x i)) (b_sector (bufs x i)) Hu)) as (E1 & k & Hk & E2).
      { by exists i. }
      apply list_elem_of_In, in_map_iff. exists k. split; [|apply list_elem_of_In, elem_of_seqZ; lia].
      assert (cached x dev (sec k) i) as Hci by done.
      unfold g. destruct (first_spec (at_sector x dev (sec k)) (seqZ 0 NBUF)) as [[_ Hno]|[Hin Ht]].
      + assert (at_sector x dev (sec k) i = true) as E by by apply at_sector_cached. rewrite (Hno i Hi) in E. done.
      + apply (ca_uniq x l Hc dev (sec k)); [by apply (place_dev x hs ms n sec)| |done]. apply at_sector_cached; [|done].
        apply elem_of_seqZ in Hin. unfold bno. lia. }
  apply submseteq_length in Hsub. rewrite length_app, length_map, !length_seqZ in Hsub. unfold NBUF in *. lia.
Qed.

Lemma tx_holding x hs ms n sec b : tx x hs ms n sec -> b ∈ hs -> holding_buf x b dev (b_sector (bufs x b)).
Proof.
  intros T Hb. destruct (t_cache _ _ _ _ _ T) as [l Hc]. destruct (t_hs _ _ _ _ _ T b Hb) as (Hbn & Ed & _).
  assert (used x b) as Hu by (unfold used; rewrite Ed; by apply (place_dev x hs ms n sec)).
  split; [done|by apply (t_held _ _ _ _ _ T)|]. rewrite <- Ed. by apply Hc.
Qed.

Lemma tx_lv x hs ms n sec b : tx x hs ms n sec -> b ∈ hs -> lv x dev (b_sector (bufs x b)) = b_data (bufs x b).
Proof.
  intros T Hb. destruct (t_cache _ _ _ _ _ T) as [l Hc].
  apply (lv_cached x l); [done|by apply (place_dev x hs ms n sec)|]. by apply (tx_holding x hs ms n sec).
Qed.

Lemma outside_lb k s : 0 <= k < LOGSIZE -> outside dev s -> lb k <> s.
Proof. intros Hk [_ Ho] <-. apply Ho. split; [done|]. unfold LogSpec.lb. lia. Qed.
Lemma outside_start s : outside dev s -> start <> s.
Proof. intros [_ Ho] <-. apply Ho. split; [done|]. unfold LOGSIZE. lia. Qed.

Lemma same_rest_tables x x' : same_rest x x' -> same_tables x x'.
Proof. by intros [? ? ? ? ?]. Qed.

(** bread of a sector of the file system that is not held. *)
Lemma tx_bread x hs ms n sec s :
  tx x hs ms n sec -> outside dev s -> sector_no s -> (forall b, b ∈ hs -> b_sector (bufs x b) <> s) ->
  Z.of_nat (length hs) + n < NBUF ->
  exists b x', runs [] (bread dev s) x b x' [] /\ tx x' (b :: hs) ms n sec /\ (b ∉ hs) /\ b_sector (bufs x' b) = s /\
    kept x x' /\ blk_eq (lv x dev s) (b_data (bufs x' b)) /\
    (forall d s', d <> nodev -> blk_eq (lv x d s') (lv x' d s')) /\ (forall i, i ∈ hs -> bufs x' i = bufs x i).
Proof.
  intros T Ho Hs Hn Hlt. pose proof (tx_spare _ _ _ _ _ T Hlt) as Hsp. destruct (t_cache _ _ _ _ _ T) as [l Hc].
  pose proof (t_place _ _ _ _ _ T) as (Hdev & _).
  destruct (take_spec x l hs dev s Hc (t_held _ _ _ _ _ T)) as (b & x' & R & C' & H' & N & B & G & D & _).
  { by split. } { intros b Hb (_ & _ & E). by apply (Hn b). } { by right. }
  destruct (hb_cached _ _ _ _ B) as (Hbn & Eb & Es).
  assert (forall i, i ∈ hs -> bufs x' i = bufs x i) as Hi by (intros i Hi; apply (g_other _ _ _ _ _ G); by intros ->).
  pose proof (g_rest _ _ _ _ _ G) as S.
  exists b, x'. split_and!; try done; [|..].
  - split; try done.
    + by exists l.
    + by constructor; [|apply T].
    + intros c Hcm. apply elem_of_cons. right. by apply (t_ms _ _ _ _ _ T).
    + intros c [->|Hch]%elem_of_cons; [by rewrite Es|]. rewrite Hi by done. by apply T.
    + apply T.
    + eapply log_is_rest; [done|apply T].
    + apply T.
    + rewrite (sr_log _ _ S). apply T.
    + intros d s' Hd. rewrite D by done. by apply T.
    + intros k Hk Hm. rewrite <- !(g_lv _ _ _ _ _ G) by by apply (place_dev x hs ms n sec).
      apply T; [done|]. intros c Hcm. rewrite <- Hi by by apply (t_ms _ _ _ _ _ T). by apply Hm.
    + intros c [->|Hch]%elem_of_cons Hcm Hd.
      * rewrite Es, (g_drv _ _ _ _ _ G). by apply (g_clean _ _ _ _ _ G).
      * rewrite Hi, (g_drv _ _ _ _ _ G) by done. apply T; [done|done|]. unfold dirty in *. by rewrite <- Hi.
    + rewrite (g_drv _ _ _ _ _ G). apply (t_head _ _ _ _ _ T).
  - split; [by apply same_rest_tables|by rewrite (sr_log _ _ S)|by rewrite (g_drv _ _ _ _ _ G)].
  - apply (g_data _ _ _ _ _ G).
  - apply (g_lv _ _ _ _ _ G).
Qed.

(** The holder of a buffer changes its data. *)
Lemma tx_modify x hs ms n sec b f :
  tx x hs ms n sec -> b ∈ hs ->
  let x' := set_bufs (upd (bufs x) b (b_with_data f (bufs x b))) x in
  tx x' hs (b :: ms) n sec /\ kept x x' /\ lv x' dev (b_sector (bufs x b)) = f /\
  (forall d s, d <> nodev -> ~ (d = dev /\ s = b_sector (bufs x b)) -> blk_eq (lv x d s) (lv x' d s)).
Proof.
  intros T Hb x'. pose proof (tx_holding _ _ _ _ _ _ T Hb) as B. destruct (t_cache _ _ _ _ _ T) as [l Hc].
  pose proof (place_dev _ _ _ _ _ T) as Hdn. pose proof (li_range _ _ _ _ _ (t_log _ _ _ _ _ T)) as Hnr.
  destruct (modified x x' l hs b dev (b_sector (bufs x b)) f Hc (t_held _ _ _ _ _ T) B) as (C' & H' & B' & E' & O' & L' & Lo & D' & Di'); [done..|].
  assert (forall i, b_dev (bufs x' i) = b_dev (bufs x i) /\ b_sector (bufs x' i) = b_sector (bufs x i)) as Hi.
  { intros i. unfold x'. cbn. unfold upd. by destruct (Z.eqb_spec i b) as [->|]. }
  assert (outside dev (b_sector (bufs x b))) as Ho by by apply T.
  split_and!; [|split; [by split|done|done]|done|done].
  split; try done.
  - by exists l.
  - apply T.
  - intros c [->|Hcm]%elem_of_cons; [done|by apply (t_ms _ _ _ _ _ T)].
  - intros c Hch. destruct (Hi c) as [-> ->]. by apply T.
  - apply T.
  - destruct (t_log _ _ _ _ _ T) as [? ? ? ? ?]. by split.
  - apply T.
  - apply T.
  - intros d s Hd. rewrite D'. by apply T.
  - intros k Hk Hm. rewrite <- !Lo; [apply T; [done|]| | | |]; try done.
    + intros c Hcm. rewrite <- (proj2 (Hi c)). apply Hm. set_solver.
    + intros [_ E]. apply (Hm b); [set_solver|]. by rewrite (proj2 (Hi b)).
    + intros [_ E]. by apply (outside_lb k (b_sector (bufs x b))); [lia|..].
  - intros c Hch Hcm. rewrite Di'. rewrite (proj2 (Hi c)). rewrite O' by set_solver. apply T; [done|set_solver].
  - apply (t_head _ _ _ _ _ T).
Qed.

(** brelse of a buffer whose changes are logged. *)
Lemma tx_brelse x hs hs' ms n sec b :
  tx x hs ms n sec -> hs ≡ₚ b :: hs' -> (b ∉ ms) ->
  exists x', runs [] (brelse b) x tt x' [] /\ tx x' hs' ms n sec /\ kept x x' /\
    (forall d s, lv x' d s = lv x d s) /\ (forall i, i ∈ hs' -> core (bufs x' i) = core (bufs x i)).
Proof.
  intros T Hp Hbm. assert (b ∈ hs) as Hb by (rewrite Hp; set_solver).
  pose proof (tx_holding _ _ _ _ _ _ T Hb) as B. destruct (t_cache _ _ _ _ _ T) as [l Hc].
  assert (NoDup (b :: hs')) as [Hbh Hnd]%NoDup_cons by (rewrite <- Hp; apply T).
  destruct (drop_spec x l hs' b dev (b_sector (bufs x b)) Hc) as (x' & l' & R & C' & H' & S & I & L & D & Di & Ca & Co & _); [|done|done|..].
  { intros i Hi. rewrite (t_held _ _ _ _ _ T i Hi). by rewrite Hp. }
  { intros Hd. by apply T. }
  assert (forall i, i ∈ hs' -> core (bufs x' i) = core (bufs x i)) as Hco by (intros i Hi; apply Co; by intros ->).
  assert (forall c, c ∈ hs' -> c ∈ hs) as Hin by (intros c; rewrite Hp; set_solver).
  assert (forall c, c ∈ ms -> c ∈ hs') as Hm.
  { intros c Hcm. pose proof (t_ms _ _ _ _ _ T c Hcm) as Hch. rewrite Hp in Hch. apply elem_of_cons in Hch as [->|]; done. }
  exists x'. split_and!; try done; [|split; [by apply same_rest_tables|by rewrite (sr_log _ _ S)|by rewrite I]].
  split; try done.
  - by exists l'.
  - intros c Hch. destruct (core_eq _ _ (Hco c Hch)) as (_ & -> & -> & _). by apply T, Hin.
  - apply T.
  - eapply log_is_rest; [done|apply T].
  - apply T.
  - rewrite (sr_log _ _ S). apply T.
  - intros d s Hd. rewrite D. by apply T.
  - intros k Hk Hmk. rewrite !L. apply T; [done|]. intros c Hcm.
    destruct (core_eq _ _ (Hco c (Hm c Hcm))) as (_ & _ & <- & _). by apply Hmk.
  - intros c Hch Hcm. rewrite Di, I. destruct (core_eq _ _ (Hco c Hch)) as (_ & _ & -> & ->). apply T; [by apply Hin|done].
  - rewrite I. apply (t_head _ _ _ _ _ T).
Qed.

(** ** log_write *)

Lemma find_logged_runs H x t m : forall i,
  exists r, runs H (find_logged m i t) x r x H /\ i <= r <= i + Z.of_nat m /\
    (r < i + Z.of_nat m -> u32 (lh_sector (log x) r) = t) /\ (forall k, i <= k < r -> u32 (lh_sector (log x) k) <> t).
Proof.
  induction m as [|m IH]; intros i; cbn [find_logged].
  - exists i. split_and!; try lia. rprim.
  - destruct (Z.eqb_spec (u32 (lh_sector (log x) i)) t) as [E|E].
    + exists i. split_and!; try lia. rstep. rewrite (proj2 (Z.eqb_eq _ _) E). rprim.
    + destruct (IH (i + 1)) as (r & R & Hr & H1 & H2). exists r. split_and!; [|lia|lia|lia|].
      * rstep. rewrite (proj2 (Z.eqb_neq _ _) E). exact R.
      * intros k Hk. destruct (decide (k = i)) as [->|]; [done|]. apply H2. lia.
Qed.

Lemma blit_blk m m' : blk_eq m' (blit m 0 m' BSIZE).
Proof.
  intros a Ha. cbv beta in Ha. unfold blit, ld8. rewrite (proj2 (Z.leb_le 0 a)), (proj2 (Z.ltb_lt a (0 + BSIZE))) by lia.
  cbn [andb]. by rewrite Z.sub_0_r.
Qed.

(** A held buffer is marked dirty. *)
Lemma mark_dirty x l hs b d n :
  cache x l -> held x hs -> holding_buf x b d n ->
  let x' := set_bufs (upd (bufs x) b (b_set B_DIRTY (bufs x b))) x in
  cache x' l /\ held x' hs /\ (forall d' n', d' <> nodev -> blk_eq (lv x d' n') (lv x' d' n')) /\
  dirty x' b = true /\ (forall i, i <> b -> dirty x' i = dirty x i) /\
  (forall d' n', d' <> nodev -> dsec x' d' n' <-> (d' = d /\ n' = n) \/ dsec x d' n').
Proof.
  intros Hc Hh B x'. destruct (hb_cached _ _ _ _ B) as (Hbn & Ed & Es). pose proof (flags_set (b_flags (bufs x b))) as (_ & _ & (F1 & F2 & F3)).
  pose proof (addressable_dev _ _ (hb_addr _ _ _ _ B)) as Hdn.
  destruct (hold_change x x' l b d n (b_set B_DIRTY (bufs x b)) Hc B) as (C' & B' & Eb & L1 & L2); try done.
  { cbn. rewrite F1. apply B. } { cbn. rewrite F2. apply Hc; [done|]. by apply (holding_used x b d n). }
  assert (forall i, i <> b -> bufs x' i = bufs x i) as O by (intros i Hi; unfold x'; cbn; by rewrite upd_ne).
  assert (dirty x' b = true) as Db by (unfold dirty; rewrite Eb; done).
  assert (forall i, i <> b -> dirty x' i = dirty x i) as Di by (intros i Hi; unfold dirty; by rewrite O).
  assert (forall i d' n', cached x' d' n' i <-> cached x d' n' i) as Ca.
  { intros i d' n'. unfold cached. destruct (decide (i = b)) as [->|Hi]; [rewrite Eb|rewrite O by done]; done. }
  split_and!; try done.
  - intros i Hi. destruct (decide (i = b)) as [->|Hib]; unfold busy; [rewrite Eb; cbn; rewrite F1|rewrite O by done]; by apply Hh.
  - intros d' n' Hd'. destruct (decide (d' = d /\ n' = n)) as [[-> ->]|Hne]; [|by apply L2].
    rewrite L1. rewrite (lv_cached x l d n b) by (done || apply B). done.
  - intros d' n' Hd'. split.
    + intros (i & Hi%Ca & Hdi). destruct (decide (i = b)) as [->|Hib].
      * left. destruct Hi as (_ & ? & ?). split; congruence.
      * right. exists i. by rewrite Di in Hdi.
    + intros [[-> ->]|(i & Hi & Hdi)]; [exists b; by rewrite Ca|]. exists i. rewrite Ca. split; [done|].
      destruct (decide (i = b)) as [->|Hib]; [done|by rewrite Di].
Qed.

(** The copy of a block to the log: log_write up to the flag of its buffer. *)
Lemma log_copy x l hs b i s m :
  cache x l -> held x hs -> log_place dev start -> log_dev (log x) = dev -> log_start (log x) = start -> 0 <= i < LOGSIZE ->
  (forall c, c ∈ hs -> ~ cached x dev (lb i) c) -> room x dev (lb i) -> ~ dsec x dev (lb i) ->
  b ∈ hs -> holding_buf x b dev s -> b_data (bufs x b) = m ->
  exists x' l' m', (forall (A : Type) (k : M St A) a y, runs [] k x' a y [] ->
      runs [] (let* lbuf := bread dev (u32 (start + i + 1)) in
               let* m := bget_ b b_data in
               bset lbuf (fun z => b_with_data (blit (b_data z) 0 m BSIZE) z) ;;
               bwrite lbuf ;; brelse lbuf ;; k) x a y []) /\
    cache x' l' /\ held x' hs /\ same_rest x x' /\ drv (ide x') = dwrite (drv (ide x)) dev (lb i) m' /\
    blk_eq m (lv x' dev (lb i)) /\
    (forall d t, d <> nodev -> ~ (d = dev /\ t = lb i) -> blk_eq (lv x d t) (lv x' d t)) /\
    (forall d t, d <> nodev -> dsec x' d t <-> dsec x d t) /\
    (forall c, c ∈ hs -> core (bufs x' c) = core (bufs x c)).
Proof.
  intros Hc Hh (Hdev & Hst0 & Hst1) Ed Es Hi Hnh Hroom Hnd Hb B Em.
  assert (dev <> nodev) as Hdn by (unfold nodev; lia).
  assert (addressable dev (lb i)) as Ha by (unfold addressable, LogSpec.lb, LOGSIZE in *; lia).
  destruct (take_spec x l hs dev (lb i) Hc Hh Ha Hnh Hroom) as (lbf & x2 & R2 & C2 & H2 & N2 & B2 & G2 & D2 & _).
  assert (forall c, c ∈ hs -> c <> lbf) as Hcl by (intros c Hch ->; done).
  set (m' := blit (b_data (bufs x2 lbf)) 0 m BSIZE).
  set (x3 := set_bufs (upd (bufs x2) lbf (b_with_data m' (bufs x2 lbf))) x2).
  destruct (modified x2 x3 l (lbf :: hs) lbf dev (lb i) m' C2 H2 B2) as (C3 & H3 & K3 & E3 & O3 & L3 & L3' & D3 & Di3); [done..|].
  destruct (flush_spec x3 l (lbf :: hs) lbf dev (lb i) C3 H3 K3) as (x4 & R4 & C4 & H4 & K4 & S4 & V4 & Di4 & E4 & O4 & L4 & D4).
  rewrite E3 in V4, E4.
  destruct (drop_spec x4 l hs lbf dev (lb i) C4 H4 N2 K4) as (x5 & l5 & R5 & C5 & H5 & S5 & I5 & L5 & D5 & Di5 & Ca5 & O5 & _).
  { intros _. by rewrite V4, dread_dwrite, !Z.eqb_refl, E4. }
  assert (b_data (bufs x2 b) = m) as Em2 by by rewrite (g_other _ _ _ _ _ G2 b (Hcl b Hb)).
  exists x5, l5, m'. split_and!; try done.
  - intros A k a y Hk. fold (lb i). rewrite u32_small by (unfold addressable in Ha; lia).
    eapply runs_bind; [exact R2|]. cbv beta. do 2 rstep. rewrite Em2. fold m' x3.
    eapply runs_bind; [exact R4|]. cbv beta. by eapply runs_bind; [exact R5|].
  - transitivity x2; [apply G2|]. transitivity x3; [by split|]. by transitivity x4.
  - rewrite I5, V4. cbn. by rewrite (g_drv _ _ _ _ _ G2).
  - rewrite L5. rewrite <- L4, L3 by done. apply blit_blk.
  - intros d t Hd Hne. rewrite L5. rewrite (g_lv _ _ _ _ _ G2 d t Hd), (L3' d t Hd Hne). by apply L4.
  - intros d t Hd. destruct (decide (d = dev /\ t = lb i)) as [[-> ->]|Hne]; [|by rewrite D5, D4, D3, D2].
    split; [|done]. intros (j & Hj & Hdj). exfalso. assert (j = lbf) as ->; [|rewrite Di5, Di4 in Hdj; done].
    apply (ca_uniq _ _ C5 dev (lb i)); [done|done|]. apply Ca5. apply K4.
  - intros c Hch. pose proof (Hcl c Hch) as Hne. rewrite O5, O4, O3 by done. by rewrite (g_other _ _ _ _ _ G2).
Qed.

(** The place [i] that log_write gives to sector [s]. *)
Record log_slot (n : Z) (sec : Z -> Z) (s i : Z) : Prop := {
  sl_range : 0 <= i <= n;
  sl_hit : i < n -> sec i = s;
  sl_miss : forall k, 0 <= k < i -> sec k <> s
}.
Definition slot_n (n i : Z) : Z := Z.max n (i + 1).

Lemma find_slot x hs ms n sec s : tx x hs ms n sec ->
  exists i, runs [] (find_logged (Z.to_nat n) 0 s) x i x [] /\ log_slot n sec s i.
Proof.
  intros T. pose proof (t_log _ _ _ _ _ T) as Hlog. pose proof (li_range _ _ _ _ _ Hlog) as Hnr.
  assert (forall k, 0 <= k < n -> u32 (lh_sector (log x) k) = sec k) as Hu.
  { intros k Hk. rewrite (li_sec _ _ _ _ _ Hlog) by done. apply u32_small.
    pose proof (ho_no _ _ _ (t_home _ _ _ _ _ T) k Hk). unfold sector_no in *. lia. }
  destruct (find_logged_runs [] x s (Z.to_nat n) 0) as (i & Rf & Hi & Hf1 & Hf2). rewrite Z2Nat.id in Hi, Hf1 by lia.
  exists i. split; [done|]. split; [lia|intros Hl; rewrite <- Hu by lia; apply Hf1; lia|].
  intros k Hk. rewrite <- Hu by lia. apply Hf2. lia.
Qed.

Lemma slot_uniq n sec s i k : home start n sec -> log_slot n sec s i -> 0 <= k < n -> sec k = s -> k = i.
Proof.
  intros H [Hr Hh Hm] Hk E. destruct (decide (k < i)); [by destruct (Hm k); [lia|]|].
  destruct (decide (i < n)) as [Hl|]; [|lia]. apply (ho_inj _ _ _ H); [done|lia|]. by rewrite (Hh Hl).
Qed.

(** The sectors of the log header with [s] in its place. *)
Lemma home_add n sec i s :
  home start n sec -> outside dev s -> sector_no s -> log_slot n sec s i -> home start (slot_n n i) (upd sec i s).
Proof.
  intros H [_ Ho] Hs Hi. pose proof (fun k => slot_uniq n sec s i k H Hi) as Hu. destruct H as [H1 H2 H3]. pose proof (sl_range _ _ _ _ Hi) as Hr.
  unfold slot_n, upd. split.
  - intros k Hk. destruct (Z.eqb_spec k i); [done|]. apply H1. lia.
  - intros k Hk. destruct (Z.eqb_spec k i); [|apply H2; lia]. intros E. by apply Ho.
  - intros j k Hj Hk. destruct (Z.eqb_spec j i), (Z.eqb_spec k i); intros E; try lia.
    + symmetry in E. apply Hu in E; lia.
    + apply Hu in E; lia.
    + apply H3 in E; lia.
Qed.

(** What the steps of log_write do. *)
Record log_steps (x x' : fsys) (hs : list Z) (b n : Z) (sec : Z -> Z) (i : Z) : Prop := {
  ls_cache : exists l, cache x' l;
  ls_held : held x' hs;
  ls_log : log_is dev start x' (slot_n n i) (upd sec i (b_sector (bufs x b)));
  ls_busy : log_busy (log x') = log_busy (log x);
  ls_kept : kept x x';
  ls_lv : forall d t, d <> nodev -> ~ (d = dev /\ t = lb i) -> blk_eq (lv x d t) (lv x' d t);
  ls_copy : blk_eq (b_data (bufs x b)) (lv x' dev (lb i));
  ls_dsec : forall d t, d <> nodev -> dsec x' d t <-> (d = dev /\ t = b_sector (bufs x b)) \/ dsec x d t;
  ls_bufs : forall c, c ∈ hs -> b_dev (bufs x' c) = b_dev (bufs x c) /\ b_sector (bufs x' c) = b_sector (bufs x c) /\
    b_data (bufs x' c) = b_data (bufs x c);
  ls_dirty : forall c, c ∈ hs -> dirty x' c = if c =? b then true else dirty x c
}.

(** The count of the header after the copy to the log. *)
Lemma log_count x5 l n sec s i :
  cache x5 l -> log_slot n sec s i -> n < LOGSIZE -> log_is dev start x5 n (upd sec i s) -> lh_sector (log x5) i = s ->
  let x6 := if i =? n then set_log (l_with_n (n + 1) (log x5)) x5 else x5 in
  runs [] (if i =? n then lset (l_with_n (n + 1)) else ret tt) x5 tt x6 [] /\
  bufs x6 = bufs x5 /\ ide x6 = ide x5 /\ same_tables x5 x6 /\ log_size (log x6) = log_size (log x5) /\ cache x6 l /\
  log_busy (log x6) = log_busy (log x5) /\ log_is dev start x6 (slot_n n i) (upd sec i s).
Proof.
  intros Hc Hi Hn Lg Ei. cbv zeta. pose proof (sl_range _ _ _ _ Hi) as Hr. unfold slot_n.
  destruct (Z.eqb_spec i n) as [->|E].
  - split_and!; try done; [rlast|by apply cache_set_log|]. rewrite Z.max_r by lia. destruct Lg as [? ? ? ? Hls]. split; cbn; try done; [lia|].
    intros k Hk. destruct (decide (k = n)) as [->|]; [by rewrite upd_same|]. apply Hls. lia.
  - split_and!; try done; [rprim|]. by rewrite Z.max_l by lia.
Qed.

Lemma log_write_steps x hs ms n sec b :
  tx x hs ms n sec -> b ∈ hs -> n < LOGSIZE -> n < log_size (log x) - 1 -> Z.of_nat (length hs) + n < NBUF ->
  exists x' i, runs [] (log_write b) x tt x' [] /\ log_slot n sec (b_sector (bufs x b)) i /\ log_steps x x' hs b n sec i.
Proof.
  intros T Hb Hn Hsz Hlt. set (s := b_sector (bufs x b)). pose proof (place_dev _ _ _ _ _ T) as Hdn.
  destruct (t_cache _ _ _ _ _ T) as [l Hc]. pose proof (t_log _ _ _ _ _ T) as Hlog.
  pose proof (tx_holding _ _ _ _ _ _ T Hb) as B. fold s in B. destruct (t_hs _ _ _ _ _ T b Hb) as (Hbn & Ebd & Ho). fold s in Ho.
  assert (sector_no s) as Hs by apply (hb_addr _ _ _ _ B).
  destruct (find_slot x hs ms n sec s T) as (i & Rf & Hi). pose proof (sl_range _ _ _ _ Hi) as Hr.
  set (x1 := set_log (l_with_sector i s (log x)) x).
  destruct (log_copy x1 l hs b i s (b_data (bufs x b))) as (x5 & l5 & m' & R5 & C5 & H5 & S5 & V5 & M5 & L5 & D5 & O5); try done.
  { by apply cache_set_log. } { apply T. } { apply T. } { apply Hlog. } { apply Hlog. } { lia. }
  { intros c Hch (_ & _ & E). destruct (t_hs _ _ _ _ _ T c Hch) as (_ & _ & Hoc). by apply (outside_lb i (b_sector (bufs x c))); [lia|..]. }
  { right. by apply (tx_spare x hs ms n sec). }
  { change (~ dsec x dev (lb i)). rewrite (t_dirty _ _ _ _ _ T) by done. intros (_ & k & Hk & E).
    pose proof (ho_out _ _ _ (t_home _ _ _ _ _ T) k Hk). unfold LogSpec.lb, LOGSIZE in *. lia. }
  { by destruct B. }
  assert (log_is dev start x5 n (upd sec i s)) as Lg5.
  { destruct Hlog as [? ? ? ? Hls]. split; rewrite ?(sr_log _ _ S5); try done. cbn. intros k Hk.
    unfold upd. destruct (Z.eqb_spec k i); [done|by apply Hls]. }
  destruct (log_count x5 l5 n sec s i C5 Hi Hn Lg5) as (R6 & E6 & I6 & T6 & Sz6 & C6 & Bu6 & Lg6).
  { rewrite (sr_log _ _ S5). cbn. by rewrite upd_same. }
  set (x6 := if i =? n then set_log (l_with_n (n + 1) (log x5)) x5 else x5) in *.
  assert (holding_buf x6 b dev s) as B6.
  { destruct (core_eq _ _ (O5 b Hb)) as (Eb1 & Eb2 & Eb3 & _). destruct B as [(? & ? & ?) ? ?].
    split; [unfold cached; rewrite E6, Eb2, Eb3; done|unfold busy in *; rewrite E6, Eb1; done|done]. }
  assert (held x6 hs) as H6 by (intros j Hj; unfold busy; rewrite E6; by apply H5).
  destruct (mark_dirty x6 l5 hs b dev s C6 H6 B6) as (C7 & H7 & L7 & Db7 & Di7 & D7).
  set (x7 := set_bufs (upd (bufs x6) b (b_set B_DIRTY (bufs x6 b))) x6) in *.
  assert (forall d t, lv x6 d t = lv x5 d t) as L6 by (intros; apply core_lv; [intros; left; by rewrite E6|by rewrite I6]).
  assert (forall d t, dsec x6 d t <-> dsec x5 d t) as D6 by (intros; unfold dsec, cached, dirty; by rewrite E6).
  exists x7, i. split_and!; [|done|split; try done].
  - unfold log_write. do 2 rstep. rewrite (li_n _ _ _ _ _ Hlog), (proj2 (Z.leb_gt LOGSIZE n)), (proj2 (Z.leb_gt (_ - 1) n)) by lia. cbn [orb].
    rstep. rewrite (proj2 (Z.eqb_neq (log_busy _) 0)) by apply T. rstep. fold s. eapply runs_bind; [exact Rf|]. cbv beta.
    rewrite s32_small by (unfold sector_no in Hs; lia). rstep. fold x1. do 2 rstep.
    change (b_dev (bufs x1 b)) with (b_dev (bufs x b)). rewrite Ebd. change (log_start (log x1)) with (log_start (log x)).
    rewrite (li_start _ _ _ _ _ Hlog). apply R5. rstep. rewrite (li_n _ _ _ _ _ Lg5).
    eapply runs_bind; [exact R6|]. cbv beta. rlast.
  - by exists l5.
  - destruct Lg6 as [? ? ? ? ?]. by split.
  - change (log_busy (log x7)) with (log_busy (log x6)). by rewrite Bu6, (sr_log _ _ S5).
  - split.
    + destruct S5 as [? ? ? ? ?], T6 as [? ? ? ?]. split; cbn in *; congruence.
    + cbn. rewrite Sz6, (sr_log _ _ S5). done.
    + cbn. rewrite I6, V5. apply log_only_write. lia.
  - intros d t Hd Hne. rewrite <- L7 by done. rewrite L6. by rewrite <- L5.
  - rewrite <- L7 by done. by rewrite L6.
  - intros d t Hd. rewrite D7, D6, D5 by done. done.
  - intros c Hch. unfold x7. cbn. unfold upd. destruct (core_eq _ _ (O5 c Hch)) as (_ & A1 & A2 & A3).
    destruct (Z.eqb_spec c b) as [->|]; cbn; rewrite E6, ?A1, ?A2, ?A3; done.
  - intros c Hch. destruct (Z.eqb_spec c b) as [->|]; [done|]. rewrite Di7 by done.
    destruct (core_eq _ _ (O5 c Hch)) as (A & _). unfold dirty. by rewrite E6, A.
Qed.

(** The transaction after the steps of log_write. *)
Lemma log_steps_tx x x' hs ms n sec b i :
  tx x hs ms n sec -> b ∈ hs -> n < LOGSIZE -> log_slot n sec (b_sector (bufs x b)) i -> log_steps x x' hs b n sec i ->
  tx x' hs (filter (fun c => c <> b) ms) (slot_n n i) (upd sec i (b_sector (bufs x b))).
Proof.
  intros T Hb Hn Hi Hst. set (s := b_sector (bufs x b)) in *. pose proof (place_dev _ _ _ _ _ T) as Hdn.
  destruct (t_hs _ _ _ _ _ T b Hb) as (_ & _ & Ho). fold s in Ho. pose proof (sl_range _ _ _ _ Hi) as Hr.
  pose proof (fun k => slot_uniq n sec s i k (t_home _ _ _ _ _ T) Hi) as Hu. pose proof (ls_bufs _ _ _ _ _ _ _ Hst) as Hbufs.
  pose proof (ls_kept _ _ _ _ _ _ _ Hst) as Kp. pose proof (ls_lv _ _ _ _ _ _ _ Hst) as Lx.
  split; [apply (ls_cache _ _ _ _ _ _ _ Hst)|apply (ls_held _ _ _ _ _ _ _ Hst)|apply (t_nodup _ _ _ _ _ T)| | |
    apply (t_place _ _ _ _ _ T)|apply (ls_log _ _ _ _ _ _ _ Hst)|..].
  - intros c [_ Hcm]%list_elem_of_filter. by apply (t_ms _ _ _ _ _ T).
  - intros c Hch. destruct (Hbufs c Hch) as (-> & -> & _). by apply (t_hs _ _ _ _ _ T).
  - apply home_add; [apply T|done| |done]. apply (hb_addr _ _ _ _ (tx_holding _ _ _ _ _ _ T Hb)).
  - rewrite (ls_busy _ _ _ _ _ _ _ Hst). apply (t_busy _ _ _ _ _ T).
  - intros d t Hd. rewrite (ls_dsec _ _ _ _ _ _ _ Hst) by done. rewrite (t_dirty _ _ _ _ _ T) by done. fold s. unfold slot_n, upd. split.
    + intros [[-> ->]|(-> & k & Hk & ->)]; split; try done; [exists i; rewrite Z.eqb_refl; split; [lia|done]|].
      exists k. split; [lia|]. destruct (Z.eqb_spec k i) as [->|]; [apply Hi; lia|done].
    + intros (-> & k & Hk & ->). destruct (Z.eqb_spec k i); [by left|]. right. split; [done|]. exists k. split; [lia|done].
  - intros k Hk Hm. unfold slot_n, upd in Hk, Hm |- *. destruct (Z.eqb_spec k i) as [->|Hki].
    + rewrite <- (ls_copy _ _ _ _ _ _ _ Hst), <- (Lx dev s Hdn) by (intros [_ E]; by apply (outside_lb i s); [lia|..]).
      unfold s. by rewrite (tx_lv _ _ _ _ _ b T Hb).
    + assert (0 <= k < n) as Hk' by lia. rewrite <- !Lx; [|done| |done|].
      * apply (t_same _ _ _ _ _ T); [done|]. intros c Hcm. destruct (decide (c = b)) as [->|Hcb]; [intros E; by apply Hki, Hu|].
        rewrite <- (proj1 (proj2 (Hbufs c (t_ms _ _ _ _ _ T c Hcm)))). apply Hm. by apply list_elem_of_filter.
      * intros [_ E]. pose proof (ho_out _ _ _ (t_home _ _ _ _ _ T) k Hk'). unfold LogSpec.lb, LOGSIZE in *. lia.
      * unfold LogSpec.lb. lia.
  - intros c Hch Hcm Hd. rewrite (ls_dirty _ _ _ _ _ _ _ Hst) in Hd by done. destruct (Z.eqb_spec c b) as [->|Hcb]; [done|].
    destruct (Hbufs c Hch) as (_ & -> & ->). rewrite (log_only_read _ _ dev _ (k_drive _ _ Kp)).
    + apply (t_clean _ _ _ _ _ T); [done| |done]. intros Hcm'. apply Hcm. by apply list_elem_of_filter.
    + destruct (t_hs _ _ _ _ _ T c Hch) as (_ & _ & [_ Hoc]). intros [_ E]. apply Hoc. split; [done|lia].
  - rewrite (log_only_read _ _ dev _ (k_drive _ _ Kp)) by lia. apply (t_head _ _ _ _ _ T).
Qed.

(** What log_write leaves: the buffer's block is in the log, and its sector
    among the logged ones. *)
Record logged (x x' : fsys) (hs ms : list Z) (b n : Z) (sec : Z -> Z) (n' : Z) (sec' : Z -> Z) : Prop := {
  lg_tx : tx x' hs (filter (fun c => c <> b) ms) n' sec';
  lg_kept : kept x x';
  lg_n : n <= n' <= n + 1;
  lg_absorb : (exists k, 0 <= k < n /\ sec k = b_sector (bufs x b)) -> n' = n;
  lg_sec : forall t, (exists k, 0 <= k < n' /\ sec' k = t) <-> t = b_sector (bufs x b) \/ (exists k, 0 <= k < n /\ sec k = t);
  lg_lv : forall d t, outside d t -> blk_eq (lv x d t) (lv x' d t);
  lg_bufs : forall c, c ∈ hs -> b_sector (bufs x' c) = b_sector (bufs x c) /\ b_data (bufs x' c) = b_data (bufs x c)
}.

Lemma tx_log_write x hs ms n sec b :
  tx x hs ms n sec -> b ∈ hs -> n < LOGSIZE -> n < log_size (log x) - 1 -> Z.of_nat (length hs) + n < NBUF ->
  exists x' n' sec', runs [] (log_write b) x tt x' [] /\ logged x x' hs ms b n sec n' sec'.
Proof.
  intros T Hb Hn Hsz Hlt. destruct (log_write_steps x hs ms n sec b T Hb Hn Hsz Hlt) as (x' & i & R & Hi & Hst).
  pose proof (sl_range _ _ _ _ Hi) as Hr. exists x', (slot_n n i), (upd sec i (b_sector (bufs x b))). split; [done|].
  split; [by apply log_steps_tx|apply Hst|..]; unfold slot_n, upd.
  - lia.
  - intros (k & Hk & E). apply (slot_uniq n sec _ i k (t_home _ _ _ _ _ T) Hi Hk) in E. lia.
  - intros t. split.
    + intros (k & Hk & E). destruct (Z.eqb_spec k i); [by left|right]. exists k. split; [lia|done].
    + intros [->|(k & Hk & E)]; [exists i; rewrite Z.eqb_refl; split; [lia|done]|].
      exists k. split; [lia|]. destruct (Z.eqb_spec k i) as [->|]; [|done]. rewrite <- E. symmetry. apply Hi. lia.
  - intros d t Hot. apply (ls_lv _ _ _ _ _ _ _ Hst); [apply Hot|]. intros [-> ->]. destruct Hot as [_ Hot]. apply Hot.
    split; [done|]. unfold LogSpec.lb. lia.
  - intros c Hch. by destruct (ls_bufs _ _ _ _ _ _ _ Hst c Hch) as (_ & ? & ?).
Qed.

(** ** A whole transaction *)

(** The use of the log that log.c describes: read a block, modify it, log it,
    release it. *)
Definition update (s : Z) (f : mem -> mem) : M St unit :=
  let* b := bread dev s in
  bset b (fun z => b_with_data (f (b_data z)) z) ;;
  log_write b ;;
  brelse b.
Fixpoint updates (us : list (Z * (mem -> mem))) : M St unit :=
  match us with
  | [] => ret tt
  | (s, f) :: us => update s f ;; updates us
  end.
Definition transaction (us : list (Z * (mem -> mem))) : M St unit := begin_trans ;; updates us ;; commit_trans.

(** What the updates do to the contents of the sectors. *)
Fixpoint apply_updates (us : list (Z * (mem -> mem))) (c : Z -> mem) : Z -> mem :=
  match us with
  | [] => c
  | (s, f) :: us => apply_updates us (upd c s (f (c s)))
  end.

(** Updates of sectors of the file system that look at the block only. *)
Definition update_ok (u : Z * (mem -> mem)) : Prop :=
  outside dev (fst u) /\ sector_no (fst u) /\ forall m m', blk_eq m m' -> blk_eq (snd u m) (snd u m').

Lemma apply_updates_eq us : Forall update_ok us -> forall c c',
  (forall s, outside dev s -> blk_eq (c s) (c' s)) ->
  forall s, outside dev s -> blk_eq (apply_updates us c s) (apply_updates us c' s).
Proof.
  induction 1 as [|[t f] us (Ho & _ & Hf) _ IH]; intros c c' Hc s Hs; cbn; [by apply Hc|]. cbn in Ho, Hf.
  apply IH; [|done]. intros s' Hs'. unfold upd. destruct (Z.eqb_spec s' t) as [->|]; [apply Hf|]; by apply Hc.
Qed.

Lemma update_spec x n sec s f :
  tx x [] [] n sec -> update_ok (s, f) -> n < NBUF - 1 -> n < log_size (log x) - 1 ->
  exists x' n' sec', runs [] (update s f) x tt x' [] /\ tx x' [] [] n' sec' /\ kept x x' /\ n <= n' /\
    (forall t, (exists k, 0 <= k < n' /\ sec' k = t) <-> t = s \/ (exists k, 0 <= k < n /\ sec k = t)) /\
    (forall d t, outside d t -> blk_eq (if (d =? dev) && (t =? s) then f (lv x d t) else lv x d t) (lv x' d t)).
Proof.
  intros T (Ho & Hs & Hf) Hn Hsz. cbn in Ho, Hs, Hf. unfold NBUF in Hn.
  destruct (tx_bread x [] [] n sec s T Ho Hs) as (b & x1 & R1 & T1 & _ & E1 & K1 & V1 & L1 & _); [set_solver|unfold NBUF; cbn; lia|].
  assert (b ∈ [b]) as Hb by set_solver.
  destruct (tx_modify x1 [b] [] n sec b (f (b_data (bufs x1 b))) T1 Hb) as (T2 & K2 & V2 & L2).
  set (x2 := set_bufs (upd (bufs x1) b (b_with_data (f (b_data (bufs x1 b))) (bufs x1 b))) x1) in *. rewrite E1 in V2, L2.
  assert (b_sector (bufs x2 b) = s) as E2 by (cbn; rewrite upd_same; done).
  destruct (tx_log_write x2 [b] [b] n sec b T2 Hb) as (x3 & n' & sec' & R3 & Lg).
  { unfold LOGSIZE. lia. } { rewrite (k_size _ _ K2), (k_size _ _ K1). done. } { unfold NBUF; cbn; lia. }
  destruct (tx_brelse x3 [b] [] _ n' sec' b (lg_tx _ _ _ _ _ _ _ _ _ Lg)) as (x4 & R4 & T4 & K4 & L4 & _); [done|by intros [? _]%list_elem_of_filter|].
  rewrite filter_cons_False in T4 by tauto. cbn in T4.
  exists x4, n', sec'. split_and!; try done.
  - unfold update. eapply runs_bind; [exact R1|]. cbv beta. rstep. fold x2. eapply runs_bind; [exact R3|]. exact R4.
  - transitivity x1; [done|]. transitivity x2; [done|]. transitivity x3; [apply Lg|done].
  - apply Lg.
  - intros t. rewrite (lg_sec _ _ _ _ _ _ _ _ _ Lg), E2. done.
  - intros d t Hot. rewrite L4. rewrite <- (lg_lv _ _ _ _ _ _ _ _ _ Lg d t Hot).
    destruct (Z.eqb_spec d dev) as [->|Hd], (Z.eqb_spec t s) as [->|Ht]; cbn [andb].
    + rewrite V2. apply Hf. by rewrite V1.
    + rewrite <- L2 by (apply Hot || tauto). by rewrite <- L1 by apply Hot.
    + rewrite <- L2 by (apply Hot || tauto). by rewrite <- L1 by apply Hot.
    + rewrite <- L2 by (apply Hot || tauto). by rewrite <- L1 by apply Hot.
Qed.

(** The number of different sectors in a list. *)
Definition count (ts : list Z) : Z := Z.of_nat (length (remove_dups ts)).

Lemma logged_count n sec ts : home start n sec -> 0 <= n -> (forall k, 0 <= k < n -> sec k ∈ ts) -> n <= count ts.
Proof.
  intros H Hn Hin. unfold count.
  assert (map sec (seqZ 0 n) ⊆+ remove_dups ts) as Hs.
  { apply NoDup_submseteq.
    - apply NoDup_ListNoDup, Finite.Injective_map_NoDup_in; [|apply NoDup_ListNoDup, NoDup_seqZ].
      intros j k Hj%list_elem_of_In%elem_of_seqZ Hk%list_elem_of_In%elem_of_seqZ. apply (ho_inj _ _ _ H); lia.
    - intros t Ht%list_elem_of_In. apply in_map_iff in Ht as (k & <- & Hk%list_elem_of_In%elem_of_seqZ).
      apply elem_of_remove_dups, Hin. lia. }
  apply submseteq_length in Hs. rewrite length_map, length_seqZ in Hs. lia.
Qed.

Lemma updates_spec ts : count ts < NBUF - 1 -> forall us x n sec,
  tx x [] [] n sec -> Forall update_ok us -> count ts < log_size (log x) - 1 ->
  (forall k, 0 <= k < n -> sec k ∈ ts) -> Forall (fun u => fst u ∈ ts) us ->
  exists x' n' sec', runs [] (updates us) x tt x' [] /\ tx x' [] [] n' sec' /\ kept x x' /\ n <= n' <= count ts /\
    (us <> [] -> 0 < n') /\
    (forall d t, outside d t -> blk_eq (if d =? dev then apply_updates us (lv x dev) t else lv x d t) (lv x' d t)).
Proof.
  intros Hts. induction us as [|[s f] us IH]; intros x n sec T Hok Hsz Hin Hus.
  - exists x, n, sec. split_and!; try done; [rprim|..].
    + pose proof (li_range _ _ _ _ _ (t_log _ _ _ _ _ T)). apply (logged_count n sec ts); [apply T|lia|done].
    + intros d t _. cbn. destruct (Z.eqb_spec d dev) as [->|]; done.
  - apply Forall_cons in Hok as [Hu Hok]. apply Forall_cons in Hus as [Hs Hus]. cbn in Hs.
    pose proof (li_range _ _ _ _ _ (t_log _ _ _ _ _ T)) as Hnr.
    pose proof (logged_count n sec ts (t_home _ _ _ _ _ T) ltac:(lia) Hin) as Hn.
    destruct (update_spec x n sec s f T Hu) as (x1 & n1 & sec1 & R1 & T1 & K1 & N1 & S1 & L1); [lia|lia|].
    destruct (IH x1 n1 sec1 T1 Hok) as (x2 & n2 & sec2 & R2 & T2 & K2 & N2 & _ & L2); [by rewrite (k_size _ _ K1)| |done|].
    { intros k Hk. destruct (proj1 (S1 (sec1 k))) as [->|(j & Hj & <-)]; [by exists k|done|by apply Hin]. }
    exists x2, n2, sec2. split_and!; try done; try lia.
    + cbn [updates]. eapply runs_bind; [exact R1|exact R2].
    + by transitivity x1.
    + intros _. destruct (proj2 (S1 s) (or_introl eq_refl)) as (k & Hk & _). lia.
    + intros d t Ho. rewrite <- (L2 d t Ho). cbn [apply_updates]. destruct (Z.eqb_spec d dev) as [->|Hd].
      * apply apply_updates_eq; [done| |done]. intros s' Hs'. rewrite <- (L1 dev s' Hs'). rewrite Z.eqb_refl. cbn [andb].
        unfold upd. by destruct (Z.eqb_spec s' s) as [->|].
      * rewrite <- (L1 d t Ho). by rewrite (proj2 (Z.eqb_neq d dev)).
Qed.

(** Between transactions: nothing is held or pending, and the log is empty. *)
Record quiet (x : fsys) : Prop := {
  q_cache : exists l, cache x l;
  q_held : held x [];
  q_clean : clean x;
  q_place : log_place dev start;
  q_dev : log_dev (log x) = dev;
  q_start : log_start (log x) = start;
  q_n : lh_n (log x) = 0;
  q_free : log_busy (log x) = 0;
  q_head : int_at (dread (drv (ide x)) dev start) 0 = 0
}.

Lemma begin_spec x : quiet x ->
  let x' := set_log (l_with_busy 1 (log x)) x in runs [] begin_trans x tt x' [] /\ tx x' [] [] 0 (fun _ => 0) /\ kept x x'.
Proof.
  intros [[l Hc] Hh Hcl Hp Ed Es En Hf Hz] x'. split_and!.
  - unfold begin_trans. do 2 rstep. rewrite Hf. rstep. rlast.
  - split; try done; try set_solver.
    + exists l. by apply cache_set_log.
    + constructor.
    + split; cbn; try done; unfold LOGSIZE; lia.
    + split; lia.
    + intros d s Hd. split; [|intros (_ & k & Hk & _); lia]. intros (i & Hi & Hdi). pose proof (Hcl i (proj1 Hi)) as E. change (dirty x i = true) in Hdi. congruence.
    + lia.
  - split; [by split|done|done].
Qed.

Lemma tx_commit x n sec : tx x [] [] n sec -> 0 < n < NBUF -> exists l, tx_ready dev start x l n sec.
Proof.
  intros T Hn. destruct (t_cache _ _ _ _ _ T) as [l Hc]. exists l.
  split; [done|apply T|apply T|apply T|apply T|apply (tx_spare x [] [] n sec T); cbn; lia|apply (t_dirty _ _ _ _ _ T)|..].
  - intros k Hk. apply (t_same _ _ _ _ _ T); [done|set_solver].
  - apply (t_head _ _ _ _ _ T).
Qed.

(** The file system the updates make of the drive of [x]. *)
Definition contents (us : list (Z * (mem -> mem))) (x : fsys) (d s : Z) : mem :=
  if d =? dev then apply_updates us (dread (drv (ide x)) dev) s else dread (drv (ide x)) d s.

(** A restarted machine: an empty cache, and the log where the superblock says. *)
Record rebooted (y : fsys) : Prop := {
  rb_cache : exists l, cache y l;
  rb_held : held y [];
  rb_clean : clean y;
  rb_dev : log_dev (log y) = dev;
  rb_start : log_start (log y) = start
}.

Lemma quiet_lv x d s : quiet x -> d <> nodev -> blk_eq (dread (drv (ide x)) d s) (lv x d s).
Proof.
  intros [[l Hc] Hh Hcl _ _ _ _ _ _] Hd. apply (lv_disk x l); [done..|]. by apply (proj1 (clean_dsec x l Hc)).
Qed.

(** A crash before the commit: only blocks of the log have been written. *)
Lemma crash_before z1 (x y : fsys) w (k : nat) :
  quiet x -> z1 = mkDrive (image (drv (ide x))) (w ++ writes (drv (ide x))) ->
  Forall (fun e => e.1.1 = dev /\ start < e.1.2 <= start + LOGSIZE) w -> rebooted y ->
  drv (ide y) = mkDrive (image (drv (ide x))) (drop k w ++ writes (drv (ide x))) ->
  exists y', runs [] recover_from_log y tt y' [] /\
    forall d s, outside d s -> blk_eq (dread (drv (ide x)) d s) (dread (drv (ide y')) d s).
Proof.
  intros Hq _ Hw [[ly Hcy] Hhy Hcl Ed Es] Hy.
  assert (log_only (drv (ide x)) (drv (ide y))) as Hlo.
  { exists (drop k w). split; [done|]. rewrite <- (take_drop k w) in Hw. by apply Forall_app in Hw as [_ Hw]. }
  destruct (recover_nothing dev start y ly Hcy Hhy Hcl (q_place _ Hq) Ed Es) as (y' & R & F).
  { rewrite (log_only_read _ _ dev start Hlo) by lia. apply (q_head _ Hq). }
  exists y'. split; [done|]. intros d s Ho. rewrite <- F by done. rewrite (log_only_read _ _ d s Hlo); [done|].
  destruct Ho as [_ Ho]. intros [-> ?]. apply Ho. split; [done|lia].
Qed.

Lemma after_writes_split img (W w w0 : list (Z * Z * mem)) (k : nat) :
  after_writes (mkDrive img w0) (mkDrive img (W ++ w ++ w0)) k =
  if (k <=? length w)%nat then mkDrive img (drop (length w - k) w ++ w0)
  else after_writes (mkDrive img (w ++ w0)) (mkDrive img (W ++ w ++ w0)) (k - length w).
Proof.
  unfold after_writes. cbn. rewrite !length_app. destruct (Nat.leb_spec k (length w)) as [Hk|Hk]; f_equal.
  - replace (length W + (length w + length w0) - length w0 - k)%nat with (length W + (length w - k))%nat by lia.
    rewrite <- drop_drop, drop_app_length. apply drop_app_le. lia.
  - f_equal. lia.
Qed.

(** A crash after [k] of the disk writes from [x] to [x'] and the recovery that
    follows leave the [old] contents or the [new] ones, the new ones once some
    number of writes has been done. *)
Definition crash_safe (x x' : fsys) (old new : Z -> Z -> mem) : Prop :=
  exists n : nat, (n <= length (writes (drv (ide x'))) - length (writes (drv (ide x))))%nat /\
    forall (k : nat) (y : fsys), rebooted y -> drv (ide y) = after_writes (drv (ide x)) (drv (ide x')) k ->
      exists y', runs [] recover_from_log y tt y' [] /\
        forall d s, outside d s -> blk_eq ((if (k <? n)%nat then old else new) d s) (dread (drv (ide y')) d s).

(** commit_trans with nothing logged: only the log has been written to. *)
Lemma commit_nothing x x1 sec : quiet x -> tx x1 [] [] 0 sec -> log_only (drv (ide x)) (drv (ide x1)) ->
  exists x', runs [] commit_trans x1 tt x' [] /\ quiet x' /\ same_tables x1 x' /\
    (forall d s, outside d s -> blk_eq (lv x1 d s) (dread (drv (ide x')) d s)) /\
    crash_safe x x' (dread (drv (ide x))) (lv x1).
Proof.
  intros Hq T Hlo. pose proof (t_log _ _ _ _ _ T) as Hl. destruct (t_cache _ _ _ _ _ T) as [l Hc]. exists (set_log (l_with_busy 0 (log x1)) x1).
  assert (forall d s, outside d s -> blk_eq (lv x1 d s) (dread (drv (ide x1)) d s)) as Hd.
  { intros d s [Hdn _]. symmetry. apply (lv_disk x1 l); [done|apply T|done|]. rewrite (t_dirty _ _ _ _ _ T) by done. intros (_ & k & Hk & _). lia. }
  split_and!; try done.
  - unfold commit_trans. rstep. rewrite (li_n _ _ _ _ _ Hl). rstep. do 2 rstep. rlast.
  - split; try done; [exists l; by apply cache_set_log|apply T| |apply T|apply Hl|apply Hl|apply Hl|apply (t_head _ _ _ _ _ T)].
    intros i Hi. change (dirty x1 i = false). apply not_true_is_false. intros E. destruct (decide (b_dev (bufs x1 i) = nodev)) as [Hu|Hu].
    + destruct (ca_free x1 l Hc i Hi) as [_ E']; [intros E'; by apply E'|congruence].
    + destruct (proj1 (t_dirty _ _ _ _ _ T (b_dev (bufs x1 i)) (b_sector (bufs x1 i)) Hu)) as (_ & k & Hk & _); [by exists i|lia].
  - exists 0%nat. split; [lia|]. intros k y Hrb Hy. destruct Hlo as (w & V1 & Hw).
    change (drv (ide (set_log (l_with_busy 0 (log x1)) x1))) with (drv (ide x1)) in Hy.
    destruct (crash_before (drv (ide x1)) x y w (length w - k) Hq V1 Hw Hrb) as (y' & R' & F).
    { rewrite Hy, V1. destruct (drv (ide x)) as [img w0]. unfold after_writes. cbn. f_equal. rewrite length_app, Nat.add_sub.
      destruct (Nat.leb_spec k (length w)); [by rewrite drop_app_le by lia|]. replace (length w - k)%nat with 0%nat by lia. done. }
    exists y'. split; [done|]. intros d s Ho. rewrite <- (F d s Ho), (Hd d s Ho). rewrite (log_only_read (drv (ide x)) _ d s); [done|by exists w|].
    destruct Ho as [_ Ho]. intros [-> ?]. apply Ho. split; [done|lia].
Qed.

(** commit_trans at the end of any transaction begun in [x]. *)
Lemma commit_atomic x x1 n sec : quiet x -> tx x1 [] [] n sec -> log_only (drv (ide x)) (drv (ide x1)) -> n < NBUF ->
  exists x', runs [] commit_trans x1 tt x' [] /\ quiet x' /\ same_tables x1 x' /\
    (forall d s, outside d s -> blk_eq (lv x1 d s) (dread (drv (ide x')) d s)) /\
    crash_safe x x' (dread (drv (ide x))) (lv x1).
Proof.
  intros Hq T Hlo Hn. pose proof (li_range _ _ _ _ _ (t_log _ _ _ _ _ T)) as Hr. destruct (decide (n = 0)) as [->|Hn0]; [by apply (commit_nothing x x1 sec)|].
  destruct (tx_commit x1 n sec T) as [l Hrd]; [lia|]. destruct Hlo as (w & V1 & Hw).
  destruct (commit_spec dev start x1 l n sec Hrd ltac:(lia) (t_busy _ _ _ _ _ T)) as (x' & l' & ms & h1 & h2 & R2 & C2 & H2 & Cl2 & St2 & N2 & B2 & Ld2 & Ls2 & V2 & E1 & E2 & M & _).
  rewrite V1 in V2. cbn [image writes] in V2. exists x'. split_and!; try done.
  - split; try done; [by exists l'|apply Hq|]. rewrite V2. unfold dread. cbn. rewrite !Z.eqb_refl. done.
  - intros d s Ho. rewrite V2. pose proof (committed_drive dev start x1 l n sec ms h1 h2 d s Hrd M Ho) as H. by rewrite V1 in H.
  - exists (S (length w)). split; [rewrite V2; cbn; rewrite !length_app; lia|].
    intros k y Hrb Hy. destruct (drv (ide x)) as [img w0] eqn:Ez. cbn [image writes] in *. rewrite V2, after_writes_split in Hy.
    destruct (Nat.leb_spec k (length w)) as [Hk|Hk].
    + destruct (crash_before (drv (ide x1)) x y w (length w - k) Hq) as (y' & R' & F); rewrite ?Ez; try done.
      exists y'. split; [done|]. intros d s Ho. rewrite (proj2 (Nat.ltb_lt k (S (length w)))) by lia. rewrite <- Ez. by apply F.
    + destruct Hrb as [[ly Hcy] Hhy Hcl Ed Es].
      destruct (commit_crash dev start x1 l n sec (drv (ide x')) ms h1 h2 Hrd ltac:(lia)) with (k := (k - length w)%nat) (y := y) (ly := ly)
        as (y' & R' & F); rewrite ?V2, ?V1; try done.
      exists y'. split; [done|]. intros d s Ho. rewrite (proj2 (Nat.ltb_ge k (S (length w)))) by lia.
      by rewrite <- (F d s Ho), (proj2 (Nat.eqb_neq (k - length w) 0)) by lia.
Qed.

(** C2 Transactions are atomic and durable: from a quiet file system, a
    transaction that reads, modifies, logs and releases any blocks, at most
    eight different ones and fewer than the log has room for, runs to its end
    and leaves the file system quiet with every update on the disk.  For some
    number of its disk writes, a crash before that many leaves a disk from
    which recovery restores the old contents of every sector outside the log,
    and a crash after them a disk from which recovery restores the new ones. *)
Theorem transaction_atomic (x : fsys) (us : list (Z * (mem -> mem))) :
  quiet x -> Forall update_ok us -> count (map fst us) < NBUF - 1 -> count (map fst us) < log_size (log x) - 1 ->
  exists x', runs [] (transaction us) x tt x' [] /\ quiet x' /\ same_tables x x' /\
    (forall d s, outside d s -> blk_eq (contents us x d s) (dread (drv (ide x')) d s)) /\
    crash_safe x x' (dread (drv (ide x))) (contents us x).
Proof.
  intros Hq Hok Hc1 Hc2. destruct (begin_spec x Hq) as (R0 & T0 & K0). set (x0 := set_log (l_with_busy 1 (log x)) x) in *.
  destruct (updates_spec (map fst us) Hc1 us x0 0 (fun _ => 0) T0 Hok) as (x1 & n & sec & R1 & T1 & K1 & N1 & _ & L1).
  { done. } { lia. } { apply Forall_forall. intros u Hu. apply list_elem_of_In, in_map_iff. exists u. split; [done|by apply list_elem_of_In]. }
  assert (forall d s, outside d s -> blk_eq (contents us x d s) (lv x1 d s)) as Lc.
  { intros d s Ho. rewrite <- (L1 d s Ho). unfold contents. change (lv x0) with (lv x).
    destruct (Z.eqb_spec d dev) as [->|]; [|by apply quiet_lv; [|apply Ho]].
    apply apply_updates_eq; [done| |done]. intros t Ht. apply (quiet_lv x); [done|apply Ht]. }
  destruct (commit_atomic x x1 n sec Hq T1 (k_drive _ _ K1)) as (x' & R2 & Hq' & Hst & D & n' & Hn' & C); [lia|].
  exists x'. split_and!; try done.
  - unfold transaction. eapply runs_bind; [exact R0|]. cbv beta. eapply runs_bind; [exact R1|exact R2].
  - destruct Hst as [? ? ? ?], (k_tables _ _ K1) as [? ? ? ?]. split; cbn in *; congruence.
  - intros d s Ho. by rewrite (Lc d s Ho), D.
  - exists n'. split; [done|]. intros k y Hrb Hy. destruct (C k y Hrb Hy) as (y' & R' & F). exists y'. split; [done|].
    intros d s Ho. rewrite <- (F d s Ho). destruct (k <? n')%nat; [done|by apply Lc].
Qed.

End tx.

(** ** A restarted machine *)

(** After binit nothing is held or dirty. *)
Lemma booted_clean z : held (booted z) [] /\ clean (booted z) /\ drv (ide (booted z)) = z.
Proof.
  assert (forall i, bno i -> busy (booted z) i = false /\ dirty (booted z) i = false) as Hf.
  { intros i Hi. unfold busy, dirty. by rewrite (proj1 (booted_bufs z i Hi)). }
  split_and!.
  - intros i Hi. rewrite (proj1 (Hf i Hi)). split; [done|]. by intros ?%elem_of_nil.
  - intros i Hi. by apply Hf.
  - reflexivity.
Qed.

(** A file system on the second drive, with its log from block 900 on. *)
Definition demo_log : log_t := mkLog 900 10 0 1 0 (fun _ => 0).
Definition demo_fs (z : drive) : fsys := set_log demo_log (booted z).
Definition demo_drive : drive := mkDrive (fun _ _ _ => 0) [].

(** A clean cache with an idle log is quiet. *)
Lemma quiet_set_log dev start x l v :
  cache x l -> held x [] -> clean x -> log_place dev start -> log_dev v = dev -> log_start v = start -> lh_n v = 0 -> log_busy v = 0 ->
  int_at (dread (drv (ide x)) dev start) 0 = 0 -> quiet dev start (set_log v x).
Proof. intros. split; try done. exists l. by apply cache_set_log. Qed.

Lemma demo_quiet : quiet 1 900 (demo_fs demo_drive).
Proof.
  pose proof (booted_cache demo_drive) as Hc. destruct (booted_clean demo_drive) as (Hh & Hcl & Hd). unfold demo_fs.
  apply (quiet_set_log 1 900 (booted demo_drive) boot_ring demo_log Hc Hh Hcl); [unfold log_place, LOGSIZE; lia|reflexivity..|].
  rewrite Hd. reflexivity.
Qed.

Lemma drv_set_log v x : drv (ide (set_log v x)) = drv (ide x).
Proof. done. Qed.
Lemma demo_disk : drv (ide (demo_fs demo_drive)) = demo_drive.
Proof. unfold demo_fs. destruct (booted_clean demo_drive) as (_ & _ & H). by rewrite drv_set_log. Qed.

(** Three updates of two blocks. *)
Definition demo_updates : list (Z * (mem -> mem)) :=
  [(50, fun m => st8 m 0 7); (51, fun m => st8 m 3 9); (50, fun m => st8 m 1 8)].

Lemma demo_updates_ok : Forall (update_ok 1 900) demo_updates.
Proof.
  assert (forall s a v, 2 <= s < 900 -> update_ok 1 900 (s, fun m => st8 m a v)) as H.
  { intros s a v Hs. split_and!; cbn.
    - split; [done|]. unfold LOGSIZE. lia.
    - unfold sector_no. lia.
    - intros m m' Hm b Hb. unfold ld8, st8. destruct (b =? a); [done|by apply Hm]. }
  unfold demo_updates. rewrite !Forall_cons. split_and!; [apply H; lia..|constructor].
Qed.

(** The updates of the example are on the disk after the transaction. *)
Lemma transaction_atomic_witness :
  exists x', runs [] (transaction 1 demo_updates : M alone unit) (demo_fs demo_drive) tt x' [] /\ quiet 1 900 x' /\
    ld8 (dread (drv (ide x')) 1 50) 0 = 7 /\ ld8 (dread (drv (ide x')) 1 50) 1 = 8 /\ ld8 (dread (drv (ide x')) 1 51) 3 = 9.
Proof.
  destruct (transaction_atomic 1 900 (demo_fs demo_drive) demo_updates demo_quiet demo_updates_ok) as (x' & R & Q & _ & C & _);
    [vm_compute; reflexivity|vm_compute; reflexivity|].
  exists x'. assert (outside 1 900 1 50 /\ outside 1 900 1 51) as [O1 O2] by (split; split; [done|unfold LOGSIZE; lia|done|unfold LOGSIZE; lia]).
  assert (forall s, contents 1 demo_updates (demo_fs demo_drive) 1 s = apply_updates demo_updates (fun _ _ => 0) s) as E.
  { intros s. unfold contents. rewrite demo_disk. reflexivity. }
  split; [exact R|]. split; [exact Q|].
  split; [|split]; [rewrite (C 1 50 O1)|rewrite (C 1 50 O1)|rewrite (C 1 51 O2)]; try (rewrite E; reflexivity); unfold BSIZE; lia.
Defined.
