(* ===== verification/Inode.v ===== *)
(** * Blocks and inodes (fs.c): the code

    Inode pointers are numbers of entries of icache, -1 for none. *)

From Stdlib Require Import ZArith Lia String Bool.
From stdpp Require Import base numbers list.
From S2P Require Import Prelude Params Mem Spinlock FsState Bio Log.

Section ops.
Context {St : Type} {K : Kernel St}.

(** ** Blocks *)

Definition bzero (dev b : Z) : M St unit :=
  let* bp := bread dev b in
  bset bp (fun x => b_with_data (memset (b_data x) 0 0 BSIZE) x) ;;
  log_write bp ;;
  brelse bp.

(** The bit of block [bi] in a bitmap block. *)
Definition bit_mask (bi : Z) : Z := Z.shiftl 1 (Z.rem bi 8).
Definition bit_set (m : mem) (bi : Z) : bool := negb (Z.land (ld8 m (Z.quot bi 8)) (bit_mask bi) =? 0).

(** The inner loop of balloc: the first free bit of a bitmap block from [bi]. *)
Fixpoint find_free (n : nat) (m : mem) (b bi size : Z) : Z :=
  match n with
  | O => -1
  | S n =>
    if (bi <? BPB) && (u32 (b + bi) <? size) then
      if bit_set m bi then find_free n m b (bi + 1) size else bi
    else -1
  end.

Fixpoint balloc_loop (fuel : nat) (dev : Z) (sb : superblock) (b : Z) : M St Z :=
  if u32 b <? sb_size sb then
    match fuel with
    | O => nofuel
    | S fuel =>
      let* bp := bread dev (BBLOCK b (sb_ninodes sb)) in
      let* m := bget_ bp b_data in
      let bi := find_free (Z.to_nat BPB) m b 0 (sb_size sb) in
      if 0 <=? bi then
        bset bp (fun x => b_with_data (st8 (b_data x) (Z.quot bi 8) (Z.lor (ld8 (b_data x) (Z.quot bi 8)) (bit_mask bi))) x) ;;
        log_write bp ;;
        brelse bp ;;
        bzero dev (b + bi) ;;
        ret (u32 (b + bi))
      else
        brelse bp ;;
        balloc_loop fuel dev sb (s32 (b + BPB))
    end
  else panic "balloc: out of blocks".

Definition balloc (dev : Z) : M St Z :=
  let* sb := readsb dev in
  balloc_loop (Z.to_nat (sb_size sb / BPB + 1)) dev sb 0.

Definition bfree (dev b : Z) : M St unit :=
  let* sb := readsb dev in
  let* bp := bread dev (BBLOCK b (sb_ninodes sb)) in
  let bi := b mod BPB in
  let* m := bget_ bp b_data in
  if negb (bit_set m bi) then panic "freeing free block" else
  bset bp (fun x => b_with_data (st8 (b_data x) (Z.quot bi 8) (Z.ldiff (ld8 (b_data x) (Z.quot bi 8)) (bit_mask bi))) x) ;;
  log_write bp ;;
  brelse bp.

(** ** Inodes *)

Definition iinit : M St unit := initlock_ L_icache.

(** A short field, read and written. *)
Definition s16 (v : Z) : Z := if u16 v <? 0x8000 then u16 v else u16 v - 0x10000.
Definition ld16 (m : mem) (a : Z) : Z := ld8 m a + ld8 m (a + 1) * 0x100.
Definition st16 (m : mem) (a v : Z) : mem := st8 (st8 m a v) (a + 1) (Z.shiftr v 8).

(** iget: the entry that caches the inode, or else the first empty entry. *)
Fixpoint iget_loop (n : nat) (i dev inum empty : Z) : M St (Z * bool) :=
  match n with
  | O => ret (empty, false)
  | S n =>
    let* r := iget_ i i_ref in
    let* d := iget_ i i_dev in
    let* m := iget_ i i_inum in
    if (0 <? r) && (d =? dev) && (m =? inum) then
      iset i (i_with_ref (r + 1)) ;; ret (i, true)
    else
      let empty := if (empty =? -1) && (r =? 0) then i else empty in
      iget_loop n (i + 1) dev inum empty
  end.

Definition iget (dev inum : Z) : M St Z :=
  lock_ L_icache ;;
  let* r := iget_loop (Z.to_nat NINODE) 0 dev inum (-1) in
  let (i, found) := r in
  if found then unlock_ L_icache ;; ret i else
  if i =? -1 then panic "iget: no inodes" else
  iset i (i_with_dev dev) ;;
  iset i (i_with_inum inum) ;;
  iset i (i_with_ref 1) ;;
  iset i (i_with_flags 0) ;;
  unlock_ L_icache ;;
  ret i.

Fixpoint ialloc_loop (fuel : nat) (dev type : Z) (sb : superblock) (inum : Z) : M St Z :=
  if u32 inum <? sb_ninodes sb then
    match fuel with
    | O => nofuel
    | S fuel =>
      let* bp := bread dev (IBLOCK inum) in
      let off := Z.rem inum IPB * sizeof_dinode in
      let* m := bget_ bp b_data in
      if ld16 m (off + di_type) =? 0 then
        bset bp (fun x => b_with_data (memset (b_data x) off 0 sizeof_dinode) x) ;;
        bset bp (fun x => b_with_data (st16 (b_data x) (off + di_type) type) x) ;;
        log_write bp ;;
        brelse bp ;;
        iget dev (u32 inum)
      else
        brelse bp ;;
        ialloc_loop fuel dev type sb (inum + 1)
    end
  else panic "ialloc: no inodes".

Definition ialloc (dev type : Z) : M St Z :=
  let* sb := readsb dev in
  ialloc_loop (Z.to_nat (sb_ninodes sb)) dev type sb 1.

(** The addresses of an inode, from and to its place in a block. *)
Fixpoint put_addrs (n : nat) (m : mem) (a : Z) (f : Z -> Z) (i : Z) : mem :=
  match n with
  | O => m
  | S n => put_addrs n (st32 m (a + 4 * i) (f i)) a f (i + 1)
  end.
Definition get_addrs (m : mem) (a : Z) : Z -> Z := fun i => ld32 m (a + 4 * i).

Definition iupdate (ip : Z) : M St unit :=
  let* v := iget_ ip (fun i => i) in
  let* bp := bread (i_dev v) (IBLOCK (i_inum v)) in
  let off := (i_inum v) mod IPB * sizeof_dinode in
  bset bp (fun x => b_with_data (st16 (b_data x) (off + di_type) (i_type v)) x) ;;
  bset bp (fun x => b_with_data (st16 (b_data x) (off + di_major) (i_major v)) x) ;;
  bset bp (fun x => b_with_data (st16 (b_data x) (off + di_minor) (i_minor v)) x) ;;
  bset bp (fun x => b_with_data (st16 (b_data x) (off + di_nlink) (i_nlink v)) x) ;;
  bset bp (fun x => b_with_data (st32 (b_data x) (off + di_size) (i_size v)) x) ;;
  bset bp (fun x => b_with_data (put_addrs (Z.to_nat (NDIRECT + 1)) (b_data x) (off + di_addrs) (i_addrs v) 0) x) ;;
  log_write bp ;;
  brelse bp.

Definition idup (ip : Z) : M St Z :=
  lock_ L_icache ;;
  let* r := iget_ ip i_ref in
  iset ip (i_with_ref (r + 1)) ;;
  unlock_ L_icache ;;
  ret ip.

Definition ihas (ip f : Z) : M St bool := iget_ ip (fun i => has (i_flags i) f).

Definition ilock (ip : Z) : M St unit :=
  if ip =? -1 then panic "ilock" else
  let* r := iget_ ip i_ref in
  if r <? 1 then panic "ilock" else
  lock_ L_icache ;;
  let* busy := ihas ip I_BUSY in
  if busy then sleep_ unit (O_inode ip) L_icache else
  iset ip (fun i => i_with_flags (Z.lor (i_flags i) I_BUSY) i) ;;
  unlock_ L_icache ;;
  let* valid := ihas ip I_VALID in
  if valid then ret tt else
  let* dev := iget_ ip i_dev in
  let* inum := iget_ ip i_inum in
  let* bp := bread dev (IBLOCK inum) in
  let off := inum mod IPB * sizeof_dinode in
  let* m := bget_ bp b_data in
  iset ip (i_with_type (s16 (ld16 m (off + di_type)))) ;;
  iset ip (i_with_major (s16 (ld16 m (off + di_major)))) ;;
  iset ip (i_with_minor (s16 (ld16 m (off + di_minor)))) ;;
  iset ip (i_with_nlink (s16 (ld16 m (off + di_nlink)))) ;;
  iset ip (i_with_size (ld32 m (off + di_size))) ;;
  iset ip (i_with_addrs (get_addrs m (off + di_addrs))) ;;
  brelse bp ;;
  iset ip (fun i => i_with_flags (Z.lor (i_flags i) I_VALID) i) ;;
  let* t := iget_ ip i_type in
  if t =? 0 then panic "ilock: no type" else ret tt.

Definition iunlock (ip : Z) : M St unit :=
  if ip =? -1 then panic "iunlock" else
  let* busy := ihas ip I_BUSY in
  let* r := iget_ ip i_ref in
  if negb busy || (r <? 1) then panic "iunlock" else
  lock_ L_icache ;;
  iset ip (fun i => i_with_flags (Z.ldiff (i_flags i) I_BUSY) i) ;;
  wakeup_ (O_inode ip) ;;
  unlock_ L_icache.

(** ** Contents *)

Definition set_addr (ip n v : Z) : M St unit := iset ip (fun i => i_with_addrs (upd (i_addrs i) n v) i).

Definition bmap (ip bn : Z) : M St Z :=
  let* dev := iget_ ip i_dev in
  if bn <? NDIRECT then
    let* addr := iget_ ip (fun i => i_addrs i bn) in
    if addr =? 0 then
      let* addr := balloc dev in set_addr ip bn addr ;; ret addr
    else ret addr
  else
  let bn := bn - NDIRECT in
  if bn <? NINDIRECT then
    let* addr := iget_ ip (fun i => i_addrs i NDIRECT) in
    let* addr :=
      (if addr =? 0 then let* addr := balloc dev in set_addr ip NDIRECT addr ;; ret addr else ret addr) in
    let* bp := bread dev addr in
    let* m := bget_ bp b_data in
    let addr := ld32 m (4 * bn) in
    let* addr :=
      (if addr =? 0 then
         let* addr := balloc dev in
         bset bp (fun x => b_with_data (st32 (b_data x) (4 * bn) addr) x) ;;
         log_write bp ;;
         ret addr
       else ret addr) in
    brelse bp ;;
    ret addr
  else panic "bmap: out of range".

Fixpoint itrunc_direct (n : nat) (ip i : Z) : M St unit :=
  match n with
  | O => ret tt
  | S n =>
    let* a := iget_ ip (fun v => i_addrs v i) in
    (if negb (a =? 0) then
       let* dev := iget_ ip i_dev in bfree dev a ;; set_addr ip i 0
     else ret tt) ;;
    itrunc_direct n ip (i + 1)
  end.

Fixpoint itrunc_indirect (n : nat) (dev bp j : Z) : M St unit :=
  match n with
  | O => ret tt
  | S n =>
    let* m := bget_ bp b_data in
    let a := ld32 m (4 * j) in
    (if negb (a =? 0) then bfree dev a else ret tt) ;;
    itrunc_indirect n dev bp (j + 1)
  end.

Definition itrunc (ip : Z) : M St unit :=
  itrunc_direct (Z.to_nat NDIRECT) ip 0 ;;
  let* a := iget_ ip (fun v => i_addrs v NDIRECT) in
  (if negb (a =? 0) then
     let* dev := iget_ ip i_dev in
     let* bp := bread dev a in
     itrunc_indirect (Z.to_nat NINDIRECT) dev bp 0 ;;
     brelse bp ;;
     let* a := iget_ ip (fun v => i_addrs v NDIRECT) in
     bfree dev a ;;
     set_addr ip NDIRECT 0
   else ret tt) ;;
  iset ip (i_with_size 0) ;;
  iupdate ip.

Definition iput (ip : Z) : M St unit :=
  lock_ L_icache ;;
  let* r := iget_ ip i_ref in
  let* valid := ihas ip I_VALID in
  let* nl := iget_ ip i_nlink in
  (if (r =? 1) && valid && (nl =? 0) then
     let* busy := ihas ip I_BUSY in
     if busy then panic "iput busy" else
     iset ip (fun i => i_with_flags (Z.lor (i_flags i) I_BUSY) i) ;;
     unlock_ L_icache ;;
     itrunc ip ;;
     iset ip (i_with_type 0) ;;
     iupdate ip ;;
     lock_ L_icache ;;
     iset ip (i_with_flags 0) ;;
     wakeup_ (O_inode ip)
   else ret tt) ;;
  let* r := iget_ ip i_ref in
  iset ip (i_with_ref (r - 1)) ;;
  unlock_ L_icache.

Definition iunlockput (ip : Z) : M St unit := iunlock ip ;; iput ip.

(** struct stat. *)
Record stat : Type := mkStat { st_type : Z; st_dev : Z; st_ino : Z; st_nlink : Z; st_size : Z }.
Definition stati (ip : Z) : M St stat :=
  iget_ ip (fun i => mkStat (i_type i) (s32 (i_dev i)) (i_inum i) (i_nlink i) (i_size i)).

End ops.
