(* ===== verification/Console.v ===== *)
(** * The console (console.c) and the serial port (uart.c): the code

    Output goes to the screen and to the serial port; input lines are edited in
    a ring of [INPUT_BUF] bytes.  A read that finds no complete line gives up
    the lock of the buffer and sleeps, so its loop tells whether it is done or
    sleeps, with what it has read. *)

From Stdlib Require Import ZArith Lia String Bool.
From stdpp Require Import base numbers list.
From S2P Require Import Prelude Params Mem Spinlock FsState Bio Log Inode.

(** How a section of consoleread under the lock ends: the number of bytes
    still wanted, and the bytes read. *)
Inductive read_piece : Type := RDone (n : Z) (acc : mem) | RSleeps (n : Z) (acc : mem) | RKilled.

(** ** Numbers in text *)

Definition digits (d : Z) : Z := if d <? 10 then 48 + d else 97 + (d - 10).

(** The do loop of printint: the digits of [x], the last one first. *)
Fixpoint digit_loop (fuel : nat) (x base : Z) : list Z :=
  match fuel with
  | O => []
  | S fuel => digits (x mod base) :: (if x / base =? 0 then [] else digit_loop fuel (x / base) base)
  end.

(** The contents of [buf], in the order it is filled. *)
Definition printint_buf (xx base : Z) (sign : bool) : list Z :=
  let neg := sign && (xx <? 0) in
  let x := if neg then u32 (- xx) else u32 xx in
  digit_loop 32 x base ++ (if neg then [45] else []).

Section ops.
Context {St : Type} {K : Kernel St}.

(** ** Output *)

Definition BACKSPACE : Z := 0x100.

(** The wait for the transmitter is over after 128 rounds in any case. *)
Definition uartputc (c : Z) : M St unit :=
  let* u := cget uart in
  if u =? 0 then ret tt else cset (fun x => c_with_serial (u8 c :: serial x) x).

(** The position of the cursor in the registers. *)
Definition cursor (c : console) : Z := Z.lor (Z.shiftl (crt_hi c) 8) (crt_lo c).

Definition scroll (m : Z -> Z) : Z -> Z := fun i => if (0 <=? i) && (i <? 23 * 80) then m (i + 80) else m i.
Definition blank (m : Z -> Z) (pos : Z) : Z -> Z := fun i => if (pos <=? i) && (i <? 24 * 80) then 0 else m i.

(** The screen and the cursor after a character, before scrolling. *)
Definition cga_char (c : Z) (m : Z -> Z) (pos : Z) : (Z -> Z) * Z :=
  if c =? 10 then (m, pos + (80 - pos mod 80))
  else if c =? BACKSPACE then (m, if 0 <? pos then pos - 1 else pos)
  else (upd m pos (Z.lor (Z.land c 0xff) 0x0700), pos + 1).

Definition cgaputc (c : Z) : M St unit :=
  let* pos := cget cursor in
  let* m := cget crt in
  let (m, pos) := cga_char c m pos in
  let* r :=
    (if 24 <=? pos / 80 then
       let pos' := pos - 80 in
       if 24 * 80 <? pos' then fault "cgaputc: memset of a negative size" else
       ret (blank (scroll m) pos', pos')
     else ret (m, pos)) in
  let (m, pos) := (r : (Z -> Z) * Z) in
  cset (c_with_hi (u8 (Z.shiftr pos 8))) ;;
  cset (c_with_lo (u8 pos)) ;;
  cset (c_with_crt (upd m pos (Z.lor 32 0x0700))).

(** After a panic the CPU stops here. *)
Definition consputc (c : Z) : M St unit :=
  let* p := cget panicked in
  if negb (p =? 0) then fun _ => Blocked else
  (if c =? BACKSPACE then uartputc 8 ;; uartputc 32 ;; uartputc 8 else uartputc c) ;;
  cgaputc c.

Fixpoint consputs (l : list Z) : M St unit :=
  match l with [] => ret tt | c :: l => consputc c ;; consputs l end.

(** The last loop prints [buf] from its end. *)
Definition printint (xx base : Z) (sign : bool) : M St unit := consputs (reverse (printint_buf xx base sign)).

(** The arguments after the format: words, and strings or the null pointer. *)
Inductive carg : Type := AInt (x : Z) | AStr (s : option (list Z)).

Definition null_text : list Z := [40; 110; 117; 108; 108; 41].

(** The loop of cprintf; an argument that is not there, or of another kind, is
    outside the model. *)
Fixpoint cprintf_loop (fmt : list Z) (args : list carg) : M St unit :=
  match fmt with
  | [] => ret tt
  | c :: fmt =>
    if negb (c =? 37) then consputc c ;; cprintf_loop fmt args else
    match fmt with
    | [] => ret tt
    | c :: fmt =>
      if c =? 100 then
        match args with
        | AInt x :: args => printint (s32 x) 10 true ;; cprintf_loop fmt args
        | _ => fault "cprintf: argument"
        end
      else if (c =? 120) || (c =? 112) then
        match args with
        | AInt x :: args => printint x 16 false ;; cprintf_loop fmt args
        | _ => fault "cprintf: argument"
        end
      else if c =? 115 then
        match args with
        | AStr s :: args => consputs (default null_text s) ;; cprintf_loop fmt args
        | _ => fault "cprintf: argument"
        end
      else if c =? 37 then consputc 37 ;; cprintf_loop fmt args
      else consputc 37 ;; consputc c ;; cprintf_loop fmt args
    end
  end.

Definition cprintf (fmt : list Z) (args : list carg) : M St unit :=
  let* locking := cget locking in
  (if negb (locking =? 0) then lock_ L_cons else ret tt) ;;
  cprintf_loop fmt args ;;
  if negb (locking =? 0) then unlock_ L_cons else ret tt.

(** ** Input *)

(** The loop under C('U'): the line is erased up to its start. *)
Fixpoint kill_line (fuel : nat) : M St unit :=
  let* e := cget in_e in
  let* w := cget in_w in
  if e =? w then ret tt else
  let* c := cget (fun x => in_buf x (u32 (e - 1) mod INPUT_BUF)) in
  if c =? 10 then ret tt else
  match fuel with
  | O => nofuel
  | S fuel => cset (c_with_e (u32 (e - 1))) ;; consputc BACKSPACE ;; kill_line fuel
  end.

(** One character of consoleintr's loop; [dump] is procdump. *)
Definition console_char (dump : M St unit) (c : Z) : M St unit :=
  if c =? 16 then dump
  else if c =? 21 then kill_line (Z.to_nat INPUT_BUF)
  else if (c =? 8) || (c =? 127) then
    let* e := cget in_e in
    let* w := cget in_w in
    if negb (e =? w) then cset (c_with_e (u32 (e - 1))) ;; consputc BACKSPACE else ret tt
  else
    let* e := cget in_e in
    let* r := cget in_r in
    if negb (c =? 0) && (u32 (e - r) <? INPUT_BUF) then
      let c := if c =? 13 then 10 else c in
      cset (c_with_buf (e mod INPUT_BUF) (u8 c)) ;;
      cset (c_with_e (u32 (e + 1))) ;;
      consputc c ;;
      let* e := cget in_e in
      let* r := cget in_r in
      if (c =? 10) || (c =? 4) || (e =? u32 (r + INPUT_BUF)) then
        cset (c_with_w e) ;; wakeup_ O_input
      else ret tt
    else ret tt.

(** [cs]: what getc returns before it returns a negative number. *)
Fixpoint console_chars (dump : M St unit) (cs : list Z) : M St unit :=
  match cs with [] => ret tt | c :: cs => console_char dump c ;; console_chars dump cs end.
Definition consoleintr (dump : M St unit) (cs : list Z) : M St unit :=
  lock_ L_input ;; console_chars dump cs ;; unlock_ L_input.

(** The loop of consoleread with [n] bytes still wanted of [target], under the
    lock.  The bytes are kept in [acc] and moved to [dst] by the caller. *)
Fixpoint consoleread_loop (fuel : nat) (target n : Z) (acc : mem) : M St read_piece :=
  if 0 <? n then
    let* r := cget in_r in
    let* w := cget in_w in
    if r =? w then
      let* k := killed_ in
      if negb (k =? 0) then ret RKilled else ret (RSleeps n acc)
    else
      match fuel with
      | O => nofuel
      | S fuel =>
        let* c := cget (fun x => in_buf x (r mod INPUT_BUF)) in
        cset (c_with_r (u32 (r + 1))) ;;
        if c =? 4 then
          (if u32 n <? target then cset (c_with_r r) else ret tt) ;; ret (RDone n acc)
        else
          let acc := upd acc (target - n) c in
          if c =? 10 then ret (RDone (n - 1) acc) else consoleread_loop fuel target (n - 1) acc
      end
  else ret (RDone n acc).

(** The count and the bytes. *)
Definition consoleread (ip n : Z) : M St (Z * mem) :=
  iunlock ip ;;
  lock_ L_input ;;
  let* r := consoleread_loop (Z.to_nat n) (u32 n) n (fun _ => 0) in
  match r with
  | RKilled => unlock_ L_input ;; ilock ip ;; ret (-1, fun _ => 0)
  | RSleeps _ _ => sleep_ _ O_input L_input
  | RDone m acc => unlock_ L_input ;; ilock ip ;; ret (s32 (u32 n - m), acc)
  end.

Definition consolewrite (ip : Z) (m : mem) (n : Z) : M St Z :=
  iunlock ip ;;
  lock_ L_cons ;;
  consputs (map (fun i => ld8 m (Z.of_nat i)) (seq 0 (Z.to_nat n))) ;;
  unlock_ L_cons ;;
  ilock ip ;;
  ret n.

(** consoleinit, up to the interrupt controllers. *)
Definition consoleinit : M St unit :=
  initlock_ L_cons ;;
  initlock_ L_input ;;
  fmod (fun x => set_devsw (upd (devsw x) CONSOLE (mkDevsw true true)) x) ;;
  cset (c_with_locking 1).

End ops.
