(* ===== verification/Fs.v ===== *)
(** * File contents, directories and paths (fs.c): the code

    Structures on the stack of a function are values: readi and writei come
    with the bytes they transfer ([readi_data], [writei_data]), and the versions
    that take an address move them to and from memory. *)

From Stdlib Require Import ZArith Lia String Bool.
From stdpp Require Import base numbers list.
From S2P Require Import Prelude Params Mem Spinlock FsState Bio Log Inode Console.

(** The bytes of a string before its NUL. *)
Fixpoint cstr (l : list Z) : list Z :=
  match l with
  | [] => []
  | c :: l => if c =? 0 then [] else c :: cstr l
  end.

Section ops.
Context {St : Type} {K : Kernel St}.

(** ** Contents *)

(** The loop of readi: [tot] bytes of [n] are done, collected in [acc]. *)
Fixpoint readi_loop (fuel : nat) (ip off n tot : Z) (acc : mem) : M St mem :=
  if tot <? n then
    match fuel with
    | O => nofuel
    | S fuel =>
      let* dev := iget_ ip i_dev in
      let* bno := bmap ip (off / BSIZE) in
      let* bp := bread dev bno in
      let m := Z.min (n - tot) (BSIZE - off mod BSIZE) in
      let* data := bget_ bp b_data in
      brelse bp ;;
      readi_loop fuel ip (u32 (off + m)) n (tot + m) (blit acc tot (fun a => data (off mod BSIZE + a)) m)
    end
  else ret acc.

Definition readi_data (ip off n : Z) : M St (Z * mem) :=
  let* t := iget_ ip i_type in
  if t =? T_DEV then
    let* mj := iget_ ip i_major in
    let* dv := fget (fun x => dv_read (devsw x mj)) in
    if (mj <? 0) || (NDEV <=? mj) || negb dv then ret (-1, fun _ => 0) else consoleread ip (s32 n)
  else
  let* size := iget_ ip i_size in
  if (size <? off) || (u32 (off + n) <? off) then ret (-1, fun _ => 0) else
  let n := if size <? u32 (off + n) then u32 (size - off) else n in
  let* data := readi_loop (Z.to_nat (n / BSIZE + 2)) ip off n 0 (fun _ => 0) in
  ret (n, data).

Fixpoint writei_loop (fuel : nat) (ip : Z) (src : mem) (off n tot : Z) : M St Z :=
  if tot <? n then
    match fuel with
    | O => nofuel
    | S fuel =>
      let* dev := iget_ ip i_dev in
      let* bno := bmap ip (off / BSIZE) in
      let* bp := bread dev bno in
      let m := Z.min (n - tot) (BSIZE - off mod BSIZE) in
      bset bp (fun x => b_with_data (blit (b_data x) (off mod BSIZE) (fun a => src (tot + a)) m) x) ;;
      log_write bp ;;
      brelse bp ;;
      writei_loop fuel ip src (u32 (off + m)) n (tot + m)
    end
  else ret off.

(** [src] yields the bytes, once the checks have passed. *)
Definition writei_from (src : M St mem) (ip off n : Z) : M St Z :=
  let* t := iget_ ip i_type in
  if t =? T_DEV then
    let* mj := iget_ ip i_major in
    let* dv := fget (fun x => dv_write (devsw x mj)) in
    if (mj <? 0) || (NDEV <=? mj) || negb dv then ret (-1) else let* m := src in consolewrite ip m (s32 n)
  else
  let* size := iget_ ip i_size in
  if (size <? off) || (u32 (off + n) <? off) then ret (-1) else
  if MAXFILE * BSIZE <? u32 (off + n) then ret (-1) else
  let* m := src in
  let* off := writei_loop (Z.to_nat (n / BSIZE + 2)) ip m off n 0 in
  let* size := iget_ ip i_size in
  (if (0 <? n) && (size <? off) then iset ip (i_with_size off) ;; iupdate ip else ret tt) ;;
  ret (s32 n).

(** With the bytes of a structure on the stack. *)
Definition writei_data (ip : Z) (src : mem) (off n : Z) : M St Z := writei_from (ret src) ip off n.
(** With the bytes in memory. *)
Definition readi (ip dst off n : Z) : M St Z :=
  let* r := readi_data ip off n in
  let (c, data) := r in
  store_ dst data (if c <? 0 then 0 else c) ;;
  ret (s32 c).
Definition writei (ip src off n : Z) : M St Z := writei_from (fetch_ src n) ip off n.

(** ** Directories *)

(** strncmp (string.c) on two arrays. *)
Fixpoint str_ncmp (f g : Z -> Z) (i : Z) (n : nat) : Z :=
  match n with
  | O => 0
  | S n => if negb (f i =? 0) && (f i =? g i) then str_ncmp f g (i + 1) n else f i - g i
  end.

(** A name as the array it is kept in: zero after its last byte. *)
Definition name_at (nm : list Z) (i : Z) : Z := if i <? 0 then 0 else nth (Z.to_nat i) nm 0.

Definition namecmp (s : list Z) (t : Z -> Z) : Z := str_ncmp (name_at s) t 0 (Z.to_nat DIRSIZ).

(** A directory entry in [sizeof_dirent] bytes. *)
Definition de_inum (de : mem) : Z := ld16 de 0.
Definition de_name (de : mem) (i : Z) : Z := ld8 de (2 + i).
(** strncpy of the name and the assignment of the number. *)
Definition make_dirent (nm : list Z) (inum : Z) : mem :=
  st16 (fun a => if a <? 2 then 0 else name_at (take (Z.to_nat DIRSIZ) (cstr nm)) (a - 2)) 0 inum.

(** The entry at [off]; both users of it panic with the same message. *)
Definition read_dirent (dp off : Z) : M St mem :=
  let* r := readi_data dp off sizeof_dirent in
  let (c, de) := r in
  if negb (c =? sizeof_dirent) then panic "dirlink read" else ret de.

Fixpoint dirlookup_loop (fuel : nat) (dp : Z) (nm : list Z) (off : Z) : M St (option (Z * Z)) :=
  let* size := iget_ dp i_size in
  if off <? size then
    match fuel with
    | O => nofuel
    | S fuel =>
      let* de := read_dirent dp off in
      if de_inum de =? 0 then dirlookup_loop fuel dp nm (u32 (off + sizeof_dirent)) else
      if namecmp nm (de_name de) =? 0 then
        let* dev := iget_ dp i_dev in
        let* ip := iget dev (de_inum de) in
        ret (Some (ip, off))
      else dirlookup_loop fuel dp nm (u32 (off + sizeof_dirent))
    end
  else ret None.

(** The inode found and the offset of its entry. *)
Definition dirlookup (dp : Z) (nm : list Z) : M St (option (Z * Z)) :=
  let* t := iget_ dp i_type in
  if negb (t =? T_DIR) then panic "dirlookup not DIR" else
  let* size := iget_ dp i_size in
  dirlookup_loop (Z.to_nat (size / sizeof_dirent + 1)) dp nm 0.

Fixpoint free_dirent (fuel : nat) (dp off : Z) : M St Z :=
  let* size := iget_ dp i_size in
  if u32 off <? size then
    match fuel with
    | O => nofuel
    | S fuel =>
      let* de := read_dirent dp (u32 off) in
      if de_inum de =? 0 then ret off else free_dirent fuel dp (s32 (off + sizeof_dirent))
    end
  else ret off.

Definition dirlink (dp : Z) (nm : list Z) (inum : Z) : M St Z :=
  let* r := dirlookup dp nm in
  match r with
  | Some (ip, _) => iput ip ;; ret (-1)
  | None =>
    let* size := iget_ dp i_size in
    let* off := free_dirent (Z.to_nat (size / sizeof_dirent + 1)) dp 0 in
    let* c := writei_data dp (make_dirent nm inum) (u32 off) sizeof_dirent in
    if negb (c =? sizeof_dirent) then panic "dirlink" else ret 0
  end.

(** ** Paths *)

Fixpoint skip_slashes (path : list Z) : list Z :=
  match path with
  | c :: rest => if c =? 47 then skip_slashes rest else path
  | [] => []
  end.
(** The bytes before the next slash, and the rest. *)
Fixpoint elem_end (path : list Z) : list Z * list Z :=
  match path with
  | c :: rest => if c =? 47 then ([], path) else let (a, b) := elem_end rest in (c :: a, b)
  | [] => ([], [])
  end.

(** The remaining path and the element; None for the null pointer. *)
Definition skipelem (path : list Z) : option (list Z * list Z) :=
  match skip_slashes path with
  | [] => None
  | p => let (s, rest) := elem_end p in
         Some (skip_slashes rest, take (Z.to_nat DIRSIZ) s)
  end.

Fixpoint namex_loop (fuel : nat) (ip : Z) (path : list Z) (parent : bool) (nm : list Z) : M St (Z * list Z) :=
  match skipelem path with
  | None => if parent then iput ip ;; ret (-1, nm) else ret (ip, nm)
  | Some (path, nm) =>
    match fuel with
    | O => nofuel
    | S fuel =>
      ilock ip ;;
      let* t := iget_ ip i_type in
      if negb (t =? T_DIR) then iunlockput ip ;; ret (-1, nm) else
      if parent && bool_decide (path = []) then iunlock ip ;; ret (ip, nm) else
      let* next := dirlookup ip nm in
      match next with
      | None => iunlockput ip ;; ret (-1, nm)
      | Some (next, _) => iunlockput ip ;; namex_loop fuel next path parent nm
      end
    end
  end.

Definition namex (path : list Z) (parent : bool) : M St (Z * list Z) :=
  let* ip := (if bool_decide (hd 0 path = 47) then iget ROOTDEV ROOTINO
              else let* c := cwd_ in idup c) in
  namex_loop (length path) ip path parent [].

Definition namei (path : list Z) : M St Z := let* r := namex path false in ret (fst r).
Definition nameiparent (path : list Z) : M St (Z * list Z) := namex path true.

End ops.
