(* ===== verification/File.v ===== *)
(** * Open files (file.c) and pipes (pipe.c): the code

    File pointers are numbers of entries of ftable, -1 for none; a pipe is
    named by the address of its page, 0 for none.  A pipe operation that has to
    wait gives up its lock inside its loop, so the loops of pipewrite and
    piperead are separate definitions that tell whether the operation is done
    or goes to sleep, and where it goes on after that. *)

From Stdlib Require Import ZArith Lia String Bool.
From stdpp Require Import base numbers list.
From S2P Require Import Prelude Params Mem Spinlock FsState Bio Log Inode Console Fs.

(** How a section of a pipe operation under the lock ends. *)
Inductive piece : Type := Done (r : Z) | Sleeps (i : Z).

Section ops.
Context {St : Type} {K : Kernel St}.

(** ** The file table *)

Definition fileinit : M St unit := initlock_ L_ftable.

Fixpoint filealloc_loop (n : nat) (f : Z) : M St Z :=
  match n with
  | O => unlock_ L_ftable ;; ret (-1)
  | S n =>
    let* r := fdget f f_ref in
    if r =? 0 then fdset f (f_with_ref 1) ;; unlock_ L_ftable ;; ret f
    else filealloc_loop n (f + 1)
  end.
Definition filealloc : M St Z := lock_ L_ftable ;; filealloc_loop (Z.to_nat NFILE) 0.

Definition filedup (f : Z) : M St Z :=
  lock_ L_ftable ;;
  let* r := fdget f f_ref in
  if r <? 1 then panic "filedup" else
  fdset f (f_with_ref (r + 1)) ;;
  unlock_ L_ftable ;;
  ret f.

(** ** Pipes *)

Definition pipeclose (p writable : Z) : M St unit :=
  lock_ (L_pipe p) ;;
  (if negb (writable =? 0) then
     pset_ p (p_with_writeopen 0) ;; wakeup_ (O_nread p)
   else
     pset_ p (p_with_readopen 0) ;; wakeup_ (O_nwrite p)) ;;
  let* ro := pget_ p readopen in
  let* wo := pget_ p writeopen in
  if (ro =? 0) && (wo =? 0) then unlock_ (L_pipe p) ;; kfree_ p
  else unlock_ (L_pipe p).

Definition fileclose (f : Z) : M St unit :=
  lock_ L_ftable ;;
  let* r := fdget f f_ref in
  if r <? 1 then panic "fileclose" else
  fdset f (f_with_ref (r - 1)) ;;
  if 0 <? r - 1 then unlock_ L_ftable else
  let* ff := fdget f (fun x => x) in
  fdset f (f_with_ref 0) ;;
  fdset f (f_with_type FD_NONE) ;;
  unlock_ L_ftable ;;
  match f_type ff with
  | FD_PIPE => pipeclose (f_pipe ff) (f_writable ff)
  | FD_INODE =>
    begin_trans ;;
    iput (f_ip ff) ;;
    commit_trans
  | FD_NONE => ret tt
  end.

(** The end of a file structure of a new pipe. *)
Definition pipe_end (f p readable writable : Z) : M St unit :=
  fdset f (f_with_type FD_PIPE) ;;
  fdset f (f_with_readable readable) ;;
  fdset f (f_with_writable writable) ;;
  fdset f (f_with_pipe p).

(** The two files, or nothing. *)
Definition pipealloc : M St (option (Z * Z)) :=
  let* f0 := filealloc in
  if f0 =? -1 then ret None else
  let* f1 := filealloc in
  if f1 =? -1 then fileclose f0 ;; ret None else
  let* p := kalloc_ in
  if p =? 0 then fileclose f0 ;; fileclose f1 ;; ret None else
  pset_ p (p_with_readopen 1) ;;
  pset_ p (p_with_writeopen 1) ;;
  pset_ p (p_with_nwrite 0) ;;
  pset_ p (p_with_nread 0) ;;
  initlock_ (L_pipe p) ;;
  pipe_end f0 p 1 0 ;;
  pipe_end f1 p 0 1 ;;
  ret (Some (f0, f1)).

(** The loop of pipewrite from byte [i] on, with the pipe's lock held; the lock
    is given up when it is done, and held when it goes to sleep. *)
Fixpoint pipewrite_loop (fuel : nat) (p addr n i : Z) : M St piece :=
  if i <? n then
    let* nw := pget_ p nwrite in
    let* nr := pget_ p nread in
    if nw =? u32 (nr + PIPESIZE) then
      let* ro := pget_ p readopen in
      let* k := killed_ in
      if (ro =? 0) || negb (k =? 0) then unlock_ (L_pipe p) ;; ret (Done (-1))
      else wakeup_ (O_nread p) ;; ret (Sleeps i)
    else
      match fuel with
      | O => nofuel
      | S fuel =>
        let* c := fetch_ (u32 (addr + i)) 1 in
        pset_ p (p_with_nwrite (u32 (nw + 1))) ;;
        pset_ p (p_with_data (nw mod PIPESIZE) (c 0)) ;;
        pipewrite_loop fuel p addr n (i + 1)
      end
  else
    wakeup_ (O_nread p) ;;
    unlock_ (L_pipe p) ;;
    ret (Done n).

Definition pipewrite (p addr n : Z) : M St Z :=
  lock_ (L_pipe p) ;;
  let* r := pipewrite_loop (Z.to_nat n) p addr n 0 in
  match r with Done r => ret r | Sleeps _ => sleep_ Z (O_nwrite p) (L_pipe p) end.

Fixpoint piperead_copy (n : nat) (p addr i : Z) : M St Z :=
  match n with
  | O => ret i
  | S n =>
    let* nr := pget_ p nread in
    let* nw := pget_ p nwrite in
    if nr =? nw then ret i else
    let* c := pget_ p (fun x => p_data x (nr mod PIPESIZE)) in
    pset_ p (p_with_nread (u32 (nr + 1))) ;;
    store_ (u32 (addr + i)) (fun _ => c) 1 ;;
    piperead_copy n p addr (i + 1)
  end.

(** piperead from its wait on, with the lock held. *)
Definition piperead_wait (p addr n : Z) : M St piece :=
  let* nr := pget_ p nread in
  let* nw := pget_ p nwrite in
  let* wo := pget_ p writeopen in
  if (nr =? nw) && negb (wo =? 0) then
    let* k := killed_ in
    if negb (k =? 0) then unlock_ (L_pipe p) ;; ret (Done (-1)) else ret (Sleeps 0)
  else
    let* i := piperead_copy (Z.to_nat n) p addr 0 in
    wakeup_ (O_nwrite p) ;;
    unlock_ (L_pipe p) ;;
    ret (Done i).

Definition piperead (p addr n : Z) : M St Z :=
  lock_ (L_pipe p) ;;
  let* r := piperead_wait p addr n in
  match r with Done r => ret r | Sleeps _ => sleep_ Z (O_nread p) (L_pipe p) end.

(** ** Reading and writing files *)

(** struct stat, field by field, at [addr]. *)
Definition put_stat (addr : Z) (s : stat) : M St unit :=
  store_ addr (st16 (fun _ => 0) 0 (st_type s)) 2 ;;
  store_ (u32 (addr + 4)) (st32 (fun _ => 0) 0 (st_dev s)) 4 ;;
  store_ (u32 (addr + 8)) (st32 (fun _ => 0) 0 (st_ino s)) 4 ;;
  store_ (u32 (addr + 12)) (st16 (fun _ => 0) 0 (st_nlink s)) 2 ;;
  store_ (u32 (addr + 16)) (st32 (fun _ => 0) 0 (st_size s)) 4.

Definition filestat (f addr : Z) : M St Z :=
  let* t := fdget f f_type in
  match t with
  | FD_INODE =>
    let* ip := fdget f f_ip in
    ilock ip ;;
    let* s := stati ip in
    put_stat addr s ;;
    iunlock ip ;;
    ret 0
  | _ => ret (-1)
  end.

Definition fileread (f addr n : Z) : M St Z :=
  let* rd := fdget f f_readable in
  if rd =? 0 then ret (-1) else
  let* t := fdget f f_type in
  match t with
  | FD_PIPE => let* p := fdget f f_pipe in piperead p addr n
  | FD_INODE =>
    let* ip := fdget f f_ip in
    ilock ip ;;
    let* off := fdget f f_off in
    let* r := readi ip addr off (u32 n) in
    (if 0 <? r then fdset f (fun x => f_with_off (u32 (f_off x + r)) x) else ret tt) ;;
    iunlock ip ;;
    ret r
  | FD_NONE => panic "fileread"
  end.

Definition max_write : Z := Z.quot (LOGSIZE - 1 - 1 - 2) 2 * 512.

(** The loop of filewrite: the number of bytes written when it stops. *)
Fixpoint filewrite_loop (fuel : nat) (f addr n i : Z) : M St Z :=
  if i <? n then
    match fuel with
    | O => nofuel
    | S fuel =>
      let n1 := if max_write <? n - i then max_write else n - i in
      begin_trans ;;
      let* ip := fdget f f_ip in
      ilock ip ;;
      let* off := fdget f f_off in
      let* r := writei ip (u32 (addr + i)) off n1 in
      (if 0 <? r then fdset f (fun x => f_with_off (u32 (f_off x + r)) x) else ret tt) ;;
      let* ip := fdget f f_ip in
      iunlock ip ;;
      commit_trans ;;
      if r <? 0 then ret i else
      if negb (r =? n1) then panic "short filewrite" else
      filewrite_loop fuel f addr n (i + r)
    end
  else ret i.

Definition filewrite (f addr n : Z) : M St Z :=
  let* wr := fdget f f_writable in
  if wr =? 0 then ret (-1) else
  let* t := fdget f f_type in
  match t with
  | FD_PIPE => let* p := fdget f f_pipe in pipewrite p addr n
  | FD_INODE =>
    let* i := filewrite_loop (Z.to_nat (n / max_write + 1)) f addr n 0 in
    ret (if i =? n then n else -1)
  | FD_NONE => panic "filewrite"
  end.

End ops.
