(* ===== verification/PipeSpec.v ===== *)
(** * Pipes are queues

    What pipewrite and piperead do to the queue of bytes a pipe holds, and
    that in every interleaving of the sections they run under the lock the
    bytes come out in the order they went in, none lost and none twice. *)

From Stdlib Require Import ZArith Lia String Bool.
From stdpp Require Import base numbers sets relations list.
From S2P Require Import Prelude Params Mem Spinlock FsState Bio Log FsRun Inode Console Fs File.

(** ** The ring as a queue *)

Record pipe_ok (p : pipe) : Prop := {
  po_r : 0 <= nread p < 0x100000000;
  po_w : 0 <= nwrite p < 0x100000000;
  po_n : u32 (nwrite p - nread p) <= PIPESIZE
}.

Definition used_bytes (p : pipe) : Z := u32 (nwrite p - nread p).
Definition queue (p : pipe) : list Z := map (fun i => p_data p ((nread p + i) mod PIPESIZE)) (seqZ 0 (used_bytes p)).

Definition push (c : Z) (p : pipe) : pipe := p_with_data (nwrite p mod PIPESIZE) c (p_with_nwrite (u32 (nwrite p + 1)) p).
Definition pop (p : pipe) : pipe := p_with_nread (u32 (nread p + 1)) p.

Lemma used_range p : pipe_ok p -> 0 <= used_bytes p <= PIPESIZE.
Proof. intros [_ _ H]. unfold used_bytes in *. unfold u32 in *. split; [mlia|done]. Qed.

Lemma queue_length p : pipe_ok p -> Z.of_nat (length (queue p)) = used_bytes p.
Proof. intros H. pose proof (used_range p H). unfold queue. rewrite length_map, length_seqZ. lia. Qed.

Lemma full_iff p : pipe_ok p -> (nwrite p =? u32 (nread p + PIPESIZE)) = (used_bytes p =? PIPESIZE).
Proof.
  intros [? ? ?]. unfold used_bytes, u32, PIPESIZE in *.
  destruct (Z.eqb_spec (nwrite p) ((nread p + 512) mod 4294967296)), (Z.eqb_spec ((nwrite p - nread p) mod 4294967296) 512); try done; exfalso; mlia.
Qed.
Lemma empty_iff p : pipe_ok p -> (nread p =? nwrite p) = (used_bytes p =? 0).
Proof.
  intros [? ? ?]. unfold used_bytes, u32, PIPESIZE in *.
  destruct (Z.eqb_spec (nread p) (nwrite p)), (Z.eqb_spec ((nwrite p - nread p) mod 4294967296) 0); try done; exfalso; mlia.
Qed.

Lemma u32_add_l a b : u32 (u32 a + b) = u32 (a + b).
Proof. unfold u32. by rewrite Z.add_mod_idemp_l. Qed.

(** Positions in the ring do not notice the wrap of the counters. *)
Lemma ring_wrap a i : (u32 a + i) mod PIPESIZE = (a + i) mod PIPESIZE.
Proof.
  rewrite <- Z.add_mod_idemp_l, <- (Z.add_mod_idemp_l a) by done. unfold u32.
  rewrite Z.mod_mod_divide by (by exists 0x800000). done.
Qed.

Lemma diff_succ w r : u32 (w - r) < 0xFFFFFFFF -> u32 (u32 (w + 1) - r) = u32 (w - r) + 1.
Proof. unfold u32. intros H. mlia. Qed.
Lemma diff_pred w r : u32 (w - r) <> 0 -> u32 (w - u32 (r + 1)) = u32 (w - r) - 1.
Proof. unfold u32. intros H. mlia. Qed.

(** Byte [i] of the queue is where the next byte goes only if [i] is its length. *)
Lemma slot_iff p i : pipe_ok p -> 0 <= i < PIPESIZE -> used_bytes p < PIPESIZE ->
  (nread p + i) mod PIPESIZE = nwrite p mod PIPESIZE <-> i = used_bytes p.
Proof.
  intros Hp Hi Hf. pose proof (used_range p Hp) as Hu.
  assert (nwrite p mod PIPESIZE = (nread p + used_bytes p) mod PIPESIZE) as ->.
  { unfold used_bytes. rewrite Z.add_comm, ring_wrap. f_equal. lia. }
  split; [|by intros ->]. unfold PIPESIZE in *. mlia.
Qed.

Lemma push_ok c p : pipe_ok p -> used_bytes p <> PIPESIZE -> pipe_ok (push c p) /\ queue (push c p) = queue p ++ [c].
Proof.
  intros Hp Hf. pose proof (used_range p Hp) as Hu. pose proof Hp as [Hr Hw Hn].
  assert (used_bytes (push c p) = used_bytes p + 1) as Hu'.
  { apply (diff_succ (nwrite p) (nread p)). unfold used_bytes, PIPESIZE in *. lia. }
  split.
  - split; [done|apply u32_range|]. change (used_bytes (push c p) <= PIPESIZE). lia.
  - unfold queue. rewrite Hu'. rewrite seqZ_app by lia. rewrite map_app. f_equal.
    + apply map_ext_in. intros i Hi%list_elem_of_In%elem_of_seqZ. cbn [p_data push p_with_data p_with_nwrite nread]. apply upd_ne.
      rewrite slot_iff by (done || lia). lia.
    + rewrite seqZ_cons by lia. replace (Z.pred 1) with 0 by lia. cbn [map seqZ seq fmap list_fmap]. f_equal.
      cbn [p_data push p_with_data p_with_nwrite nread]. rewrite Z.add_0_l.
      rewrite (proj2 (slot_iff p (used_bytes p) Hp ltac:(lia) ltac:(lia)) eq_refl). apply upd_same.
Qed.

Lemma pop_ok p : pipe_ok p -> used_bytes p <> 0 ->
  pipe_ok (pop p) /\ queue p = p_data p (nread p mod PIPESIZE) :: queue (pop p).
Proof.
  intros Hp Hf. pose proof (used_range p Hp) as Hu. destruct Hp as [Hr Hw Hn].
  assert (used_bytes (pop p) = used_bytes p - 1) as Hu' by by apply diff_pred.
  split.
  - split; [apply u32_range|done|]. change (used_bytes (pop p) <= PIPESIZE). lia.
  - unfold queue. rewrite Hu'. rewrite (seqZ_cons 0) by lia. cbn [map]. rewrite Z.add_0_r. f_equal.
    rewrite <- Z.sub_1_r. change (Z.succ 0) with (1 + 0). rewrite <- fmap_add_seqZ. change (Z.add 1 <$> ?l) with (map (Z.add 1) l). rewrite map_map.
    apply map_ext. intros i. cbn [p_data pop p_with_nread nread]. f_equal. rewrite ring_wrap. f_equal. lia.
Qed.

(** ** The sections of pipewrite and piperead *)

Section code.
Context {St : Type} {K : Kernel St} {KS : KernelSpec St} {US : UserSpec St}.

Definition pipe_of (s : St) (p : Z) : pipe := pipes (view fsL s) p.

(** Only the pipe changes in the file system. *)
Definition only_pipe (p : Z) (s s' : St) : Prop :=
  view fsL s' = set_pipes (pipes (view fsL s')) (view fsL s) /\ (forall q, q <> p -> pipe_of s' q = pipe_of s q) /\
  readopen (pipe_of s' p) = readopen (pipe_of s p) /\ writeopen (pipe_of s' p) = writeopen (pipe_of s p).

Lemma only_pipe_refl p s : only_pipe p s s.
Proof. split_and!; try done. by destruct (view fsL s). Qed.
Lemma only_pipe_trans p s1 s2 s3 : only_pipe p s1 s2 -> only_pipe p s2 s3 -> only_pipe p s1 s3.
Proof.
  intros (E1 & O1 & R1 & W1) (E2 & O2 & R2 & W2). split_and!; [|intros q Hq; by rewrite O2, O1|congruence..].
  rewrite E2 at 1. rewrite E1. done.
Qed.
Lemma only_pipe_view p s s' : view fsL s' = view fsL s -> only_pipe p s s'.
Proof. intros E. unfold only_pipe, pipe_of. rewrite E. split_and!; try done. by destruct (view fsL s). Qed.

(** The bytes [i] to [i + k] of the buffer at [addr]. *)
Definition ubytes (s : St) (addr i k : Z) : list Z := map (fun j => umem s (u32 (addr + j))) (seqZ i k).

Lemma ubytes_same s s' addr i k : umem s' = umem s -> ubytes s' addr i k = ubytes s addr i k.
Proof. intros E. unfold ubytes. by rewrite E. Qed.
Lemma ubytes_cons s addr i k : 0 < k -> ubytes s addr i k = umem s (u32 (addr + i)) :: ubytes s addr (i + 1) (k - 1).
Proof. intros Hk. unfold ubytes. rewrite seqZ_cons by lia. cbn [map]. by rewrite <- Z.sub_1_r, <- Z.add_1_r. Qed.

(** How a section of pipewrite that has written up to byte [j] ends. *)
Definition write_end (n j : Z) (p : pipe) (k : Z) : piece :=
  if j =? n then Done n else if (readopen p =? 0) || negb (k =? 0) then Done (-1) else Sleeps j.
Definition held_after (r : piece) (p : Z) (H : list fslock) : list fslock :=
  match r with Done _ => H | Sleeps _ => L_pipe p :: H end.

Lemma pipewrite_stop s H p addr n i fuel :
  kin s (L_pipe p :: H) -> pipe_ok (pipe_of s p) -> i <= n -> (i = n \/ used_bytes (pipe_of s p) = PIPESIZE) ->
  exists s', pipewrite_loop fuel p addr n i s = Ret (write_end n i (pipe_of s p) (ukilled s), s') /\
    kin s' (held_after (write_end n i (pipe_of s p) (ukilled s)) p H) /\ view fsL s' = view fsL s /\ user_same s s'.
Proof.
  intros Hs Hp Hi Hstop. unfold write_end.
  destruct (Z.eqb_spec i n) as [->|Hne].
  - assert (pipewrite_loop fuel p addr n n = (wakeup_ (O_nread p) ;; unlock_ (L_pipe p) ;; ret (Done n))) as E.
    { destruct fuel; cbn [pipewrite_loop]; by rewrite Z.ltb_irrefl. }
    rewrite E. destruct (runs_at _ _ (fun _ => unlock_ (L_pipe p) ;; ret (Done n)) _ _ _ _ s (runs_wakeup (L_pipe p :: H) (O_nread p) (view fsL s)) Hs eq_refl) as (s1 & E1 & H1 & V1 & U1).
    destruct (runs_at _ _ (fun _ => ret (Done n)) _ _ _ _ s1 (runs_unlock H (L_pipe p) (view fsL s)) H1 V1) as (s2 & E2 & H2 & V2 & U2).
    exists s2. split_and!; [by rewrite E1, E2|done|done|by transitivity s1].
  - destruct Hstop as [|Hfull]; [done|].
    assert (pipewrite_loop fuel p addr n i s = (
      if (readopen (pipe_of s p) =? 0) || negb (ukilled s =? 0) then (unlock_ (L_pipe p) ;; ret (Done (-1))) s
      else (wakeup_ (O_nread p) ;; ret (Sleeps i)) s)) as E.
    { destruct fuel; cbn [pipewrite_loop]; rewrite (proj2 (Z.ltb_lt i n)) by lia; unfold pget_, fget;
        repeat (erewrite bind_ret_eq by reflexivity); fold (pipe_of s p); rewrite full_iff by done; rewrite (proj2 (Z.eqb_eq _ _) Hfull);
        repeat (erewrite bind_ret_eq by reflexivity); rewrite (bind_ret_eq _ _ _ _ _ (killed_spec s)); fold (pipe_of s p);
        by destruct (_ || _). }
    rewrite E. destruct (_ || _).
    + destruct (runs_at _ _ (fun _ => ret (Done (-1))) _ _ _ _ s (runs_unlock H (L_pipe p) (view fsL s)) Hs eq_refl) as (s1 & E1 & H1 & V1 & U1).
      exists s1. by rewrite E1.
    + destruct (runs_at _ _ (fun _ => ret (Sleeps i)) _ _ _ _ s (runs_wakeup (L_pipe p :: H) (O_nread p) (view fsL s)) Hs eq_refl) as (s1 & E1 & H1 & V1 & U1).
      exists s1. by rewrite E1.
Qed.

(** One byte goes into the ring. *)
Lemma pipewrite_byte s H p addr n i fuel :
  kin s (L_pipe p :: H) -> pipe_ok (pipe_of s p) -> i < n -> used_bytes (pipe_of s p) <> PIPESIZE -> uok s (u32 (addr + i)) ->
  exists s', pipewrite_loop (S fuel) p addr n i s = pipewrite_loop fuel p addr n (i + 1) s' /\
    kin s' (L_pipe p :: H) /\ pipe_of s' p = push (umem s (u32 (addr + i))) (pipe_of s p) /\ only_pipe p s s' /\ user_same s s'.
Proof.
  intros Hs Hp Hi Hf Hok. destruct (fetch_byte s _ (u32_range _) Hok) as (m & Em & Ec).
  set (x := view fsL s). set (c := umem s (u32 (addr + i))).
  set (g1 := p_with_nwrite (u32 (nwrite (pipe_of s p) + 1))).
  set (g2 := p_with_data (nwrite (pipe_of s p) mod PIPESIZE) c).
  set (x1 := set_pipes (upd (pipes x) p (g1 (pipes x p))) x).
  destruct (runs_at (L_pipe p :: H) (pset_ p g1) (fun _ => pset_ p g2 ;; pipewrite_loop fuel p addr n (i + 1)) x tt x1 _ s (runs_fmod _ _ x) Hs eq_refl) as (s1 & E1 & H1 & V1 & U1).
  set (x2 := set_pipes (upd (pipes x1) p (g2 (pipes x1 p))) x1).
  destruct (runs_at (L_pipe p :: H) (pset_ p g2) (fun _ => pipewrite_loop fuel p addr n (i + 1)) x1 tt x2 _ s1 (runs_fmod _ _ x1) H1 V1) as (s2 & E2 & H2 & V2 & U2).
  assert (pipe_of s2 p = push c (pipe_of s p)) as Ep.
  { unfold pipe_of. rewrite V2. cbn. rewrite !upd_same. done. }
  exists s2. split_and!; [|done|done|..].
  - cbn [pipewrite_loop]. rewrite (proj2 (Z.ltb_lt i n)) by lia. unfold pget_ at 1 2, fget at 1 2.
    do 2 (erewrite bind_ret_eq by reflexivity). fold (pipe_of s p). rewrite full_iff by done. rewrite (proj2 (Z.eqb_neq _ _) Hf).
    rewrite (bind_ret_eq _ _ _ _ _ Em). cbv beta. rewrite Ec. fold c g1 g2. by rewrite E1, E2.
  - unfold only_pipe. rewrite Ep. split_and!; try done.
    + rewrite V2. done.
    + intros q Hq. unfold pipe_of. rewrite V2. cbn. rewrite !upd_ne by done. done.
  - by transitivity s1.
Qed.

(** The loop of pipewrite from byte [i] on writes what there is room for. *)
Lemma pipewrite_spec fuel : forall s H p addr n i,
  kin s (L_pipe p :: H) -> pipe_ok (pipe_of s p) -> i <= n -> fuel = Z.to_nat (n - i) ->
  (forall j, i <= j < n -> uok s (u32 (addr + j))) ->
  let k := Z.min (n - i) (PIPESIZE - used_bytes (pipe_of s p)) in
  let r := write_end n (i + k) (pipe_of s p) (ukilled s) in
  exists s', pipewrite_loop fuel p addr n i s = Ret (r, s') /\ kin s' (held_after r p H) /\
    pipe_ok (pipe_of s' p) /\ queue (pipe_of s' p) = queue (pipe_of s p) ++ ubytes s addr i k /\ nwrite (pipe_of s' p) = u32 (nwrite (pipe_of s p) + k) /\
    only_pipe p s s' /\ user_same s s'.
Proof.
  induction fuel as [|fuel IH]; intros s H p addr n i Hs Hp Hi Hfu Hok; cbv zeta; pose proof (used_range _ Hp) as Hu.
  - assert (i = n) as -> by lia. rewrite Z.sub_diag, Z.min_l, Z.add_0_r by lia.
    destruct (pipewrite_stop s H p addr n n 0 Hs Hp) as (s' & E & Hk & V & U); [lia|by left|]. exists s'.
    unfold pipe_of in *. rewrite V. rewrite ?Z.add_0_r. split_and!; try done; [by rewrite app_nil_r|rewrite u32_small; [lia|]; apply Hp|by apply only_pipe_view].
  - destruct (decide (used_bytes (pipe_of s p) = PIPESIZE)) as [Hf|Hf].
    + rewrite Hf, Z.sub_diag, Z.min_r, Z.add_0_r by lia.
      destruct (pipewrite_stop s H p addr n i (S fuel) Hs Hp) as (s' & E & Hk & V & U); [lia|by right|]. exists s'.
      unfold pipe_of in *. rewrite V. rewrite ?Z.add_0_r. split_and!; try done; [by rewrite app_nil_r|rewrite u32_small; [lia|]; apply Hp|by apply only_pipe_view].
    + destruct (pipewrite_byte s H p addr n i fuel Hs Hp) as (s1 & E1 & H1 & P1 & O1 & U1); [lia|done|apply Hok; lia|].
      destruct (push_ok (umem s (u32 (addr + i))) (pipe_of s p) Hp Hf) as [Hp1 Hq1]. rewrite <- P1 in Hp1, Hq1.
      assert (used_bytes (pipe_of s1 p) = used_bytes (pipe_of s p) + 1) as Hu1.
      { rewrite <- !queue_length by done. rewrite Hq1, length_app. cbn. lia. }
      destruct (IH s1 H p addr n (i + 1) H1 Hp1) as (s2 & E2 & H2 & P2 & Q2 & N2 & O2 & U2); [lia|lia|rewrite (us_ok _ _ U1); intros; apply Hok; lia|].
      destruct O1 as (O11 & O12 & O13 & O14) eqn:EO. clear EO.
      rewrite Hu1, (us_killed _ _ U1) in *. unfold write_end in *. rewrite O13 in *.
      replace (i + 1 + Z.min (n - (i + 1)) (PIPESIZE - (used_bytes (pipe_of s p) + 1)))
        with (i + Z.min (n - i) (PIPESIZE - used_bytes (pipe_of s p))) in * by lia.
      exists s2. split_and!; try done.
      * by rewrite E1.
      * rewrite Q2, Hq1, (ubytes_cons s) by lia. rewrite <- app_assoc. cbn. do 2 f_equal. rewrite (ubytes_same s s1) by apply U1. f_equal; lia.
      * rewrite N2, P1. cbn [nwrite push p_with_data p_with_nwrite]. rewrite u32_add_l. f_equal. lia.
      * eapply only_pipe_trans; [|done]. by split_and!.
      * by transitivity s1.
Qed.

(** Memory changes only in bytes [i] to [i + k] of the buffer. *)
Definition only_buffer (s s' : St) (addr i k : Z) : Prop :=
  (forall b, (forall j, i <= j < i + k -> b <> u32 (addr + j)) -> umem s' b = umem s b) /\ uok s' = uok s /\ ukilled s' = ukilled s.

Lemma user_same_buffer s s' addr i k : user_same s s' -> only_buffer s s' addr i k.
Proof. intros [? ? ?]. split_and!; [|done..]. intros b _. congruence. Qed.

(** One byte comes out of the ring. *)
Lemma piperead_byte s H p addr i n :
  kin s H -> pipe_ok (pipe_of s p) -> used_bytes (pipe_of s p) <> 0 -> uok s (u32 (addr + i)) ->
  exists s', piperead_copy (S n) p addr i s = piperead_copy n p addr (i + 1) s' /\ kin s' H /\
    pipe_of s' p = pop (pipe_of s p) /\ only_pipe p s s' /\
    umem s' (u32 (addr + i)) = p_data (pipe_of s p) (nread (pipe_of s p) mod PIPESIZE) /\ only_buffer s s' addr i 1.
Proof.
  intros Hs Hp Hf Hok. set (x := view fsL s). set (c := p_data (pipe_of s p) (nread (pipe_of s p) mod PIPESIZE)).
  set (g := p_with_nread (u32 (nread (pipe_of s p) + 1))). set (x1 := set_pipes (upd (pipes x) p (g (pipes x p))) x).
  destruct (runs_at H (pset_ p g) (fun _ => store_ (u32 (addr + i)) (fun _ => c) 1 ;; piperead_copy n p addr (i + 1)) x tt x1 _ s (runs_fmod _ _ x) Hs eq_refl) as (s1 & E1 & H1 & V1 & U1).
  destruct (store_spec s1 H (u32 (addr + i)) (fun _ => c) H1) as (s2 & E2 & H2 & V2 & M2 & K2 & D2); [by rewrite (us_ok _ _ U1)|].
  assert (pipe_of s2 p = pop (pipe_of s p)) as Ep by (unfold pipe_of; rewrite V2, V1; cbn; by rewrite upd_same).
  exists s2. split_and!; [|done|done|..].
  - cbn [piperead_copy]. unfold pget_ at 1 2, fget at 1 2. do 2 (erewrite bind_ret_eq by reflexivity). fold (pipe_of s p).
    rewrite empty_iff by done. rewrite (proj2 (Z.eqb_neq _ _) Hf). unfold pget_ at 1, fget at 1. erewrite bind_ret_eq by reflexivity.
    fold (pipe_of s p) c g. by rewrite E1, (bind_ret_eq _ _ _ _ _ E2).
  - unfold only_pipe. rewrite Ep, V2, V1. split_and!; try done. intros q Hq. unfold pipe_of. rewrite V2, V1. cbn. by rewrite upd_ne.
  - rewrite M2, Z.eqb_refl. done.
  - split_and!; [|rewrite K2; apply U1|rewrite D2; apply U1]. intros b Hb. rewrite M2, (proj2 (Z.eqb_neq _ _)) by (apply Hb; lia).
    by rewrite (us_mem _ _ U1).
Qed.

Lemma buffer_ne addr i j : i < j < i + 0x100000000 -> u32 (addr + i) <> u32 (addr + j).
Proof. unfold u32. intros H E. mlia. Qed.

(** The loop of piperead takes what is there. *)
Lemma piperead_copy_spec n : forall s H p addr i,
  kin s H -> pipe_ok (pipe_of s p) -> (forall j, i <= j < i + Z.of_nat n -> uok s (u32 (addr + j))) ->
  let k := Z.min (Z.of_nat n) (used_bytes (pipe_of s p)) in
  exists s', piperead_copy n p addr i s = Ret (i + k, s') /\ kin s' H /\ pipe_ok (pipe_of s' p) /\
    queue (pipe_of s p) = ubytes s' addr i k ++ queue (pipe_of s' p) /\ only_pipe p s s' /\ only_buffer s s' addr i k.
Proof.
  induction n as [|n IH]; intros s H p addr i Hs Hp Hok; cbv zeta; pose proof (used_range _ Hp) as Hu.
  - rewrite Z.min_l, Z.add_0_r by lia. exists s. split_and!; try done; try apply only_pipe_refl; by apply user_same_buffer.
  - destruct (decide (used_bytes (pipe_of s p) = 0)) as [Hf|Hf].
    + rewrite Hf, Z.min_r, Z.add_0_r by lia. exists s. split_and!; try done; try apply only_pipe_refl; try (by apply user_same_buffer).
      cbn [piperead_copy]. unfold pget_, fget. do 2 (erewrite bind_ret_eq by reflexivity). fold (pipe_of s p).
      rewrite empty_iff by done. by rewrite (proj2 (Z.eqb_eq _ _) Hf).
    + destruct (piperead_byte s H p addr i n Hs Hp Hf) as (s1 & E1 & H1 & P1 & O1 & M1 & (B1 & K1 & D1)); [apply Hok; lia|].
      destruct (pop_ok (pipe_of s p) Hp Hf) as [Hp1 Hq1]. rewrite <- P1 in Hp1, Hq1. rewrite <- M1 in Hq1.
      assert (used_bytes (pipe_of s1 p) = used_bytes (pipe_of s p) - 1) as Hu1.
      { rewrite <- !queue_length by done. rewrite Hq1. cbn. lia. }
      destruct (IH s1 H p addr (i + 1) H1 Hp1) as (s2 & E2 & H2 & P2 & Q2 & O2 & (B2 & K2 & D2)); [rewrite K1; intros; apply Hok; lia|].
      rewrite Hu1 in *. remember (Z.min (Z.of_nat (S n)) (used_bytes (pipe_of s p))) as k eqn:Ek.
      replace (Z.min (Z.of_nat n) (used_bytes (pipe_of s p) - 1)) with (k - 1) in * by lia.
      exists s2. split_and!; try done.
      * rewrite E1, E2. do 2 f_equal. lia.
      * rewrite Hq1, Q2, (ubytes_cons s2 addr i k) by lia. cbn. f_equal. symmetry. apply B2. intros j Hj. apply buffer_ne. unfold PIPESIZE in Hu. lia.
      * by eapply only_pipe_trans.
      * split_and!; [|congruence..]. intros b Hb. rewrite B2 by (intros; apply Hb; lia). apply B1. intros; apply Hb; lia.
Qed.

(** piperead from its wait on: it sleeps only on an empty pipe that writers
    have open. *)
Definition read_end (n : Z) (p : pipe) (k : Z) : piece :=
  if (used_bytes p =? 0) && negb (writeopen p =? 0) then (if negb (k =? 0) then Done (-1) else Sleeps 0)
  else Done (Z.min n (used_bytes p)).
(** The number of bytes a section has read. *)
Definition read_count (r : piece) : Z := match r with Done c => Z.max 0 c | Sleeps _ => 0 end.

Lemma piperead_spec s H p addr n :
  kin s (L_pipe p :: H) -> pipe_ok (pipe_of s p) -> 0 <= n -> (forall j, 0 <= j < n -> uok s (u32 (addr + j))) ->
  let r := read_end n (pipe_of s p) (ukilled s) in
  exists s', piperead_wait p addr n s = Ret (r, s') /\ kin s' (held_after r p H) /\ pipe_ok (pipe_of s' p) /\
    queue (pipe_of s p) = ubytes s' addr 0 (read_count r) ++ queue (pipe_of s' p) /\ only_pipe p s s' /\
    only_buffer s s' addr 0 (read_count r).
Proof.
  intros Hs Hp Hn Hok. cbv zeta. unfold read_end. pose proof (used_range _ Hp) as Hu.
  assert (piperead_wait p addr n s =
    if (used_bytes (pipe_of s p) =? 0) && negb (writeopen (pipe_of s p) =? 0) then
      if negb (ukilled s =? 0) then (unlock_ (L_pipe p) ;; ret (Done (-1))) s else Ret (Sleeps 0, s)
    else (let* i := piperead_copy (Z.to_nat n) p addr 0 in wakeup_ (O_nwrite p) ;; unlock_ (L_pipe p) ;; ret (Done i)) s) as E.
  { unfold piperead_wait, pget_, fget. do 3 (erewrite bind_ret_eq by reflexivity). fold (pipe_of s p).
    rewrite empty_iff by done. destruct (_ && _); [|done]. rewrite (bind_ret_eq _ _ _ _ _ (killed_spec s)). by destruct (negb _). }
  rewrite E. destruct (_ && _) eqn:Eb.
  - destruct (negb (ukilled s =? 0)).
    + destruct (runs_at _ _ (fun _ => ret (Done (-1))) _ _ _ _ s (runs_unlock H (L_pipe p) (view fsL s)) Hs eq_refl) as (s1 & E1 & H1 & V1 & U1).
      exists s1. rewrite E1. unfold pipe_of. rewrite V1. split_and!; try done; [by apply only_pipe_view|by apply user_same_buffer].
    + exists s. split_and!; try done; try apply only_pipe_refl; by apply user_same_buffer.
  - destruct (piperead_copy_spec (Z.to_nat n) s (L_pipe p :: H) p addr 0 Hs Hp) as (s1 & E1 & H1 & P1 & Q1 & O1 & B1).
    { intros j Hj. apply Hok. lia. }
    rewrite Z2Nat.id in * by lia. rewrite Z.add_0_l in E1. set (c := Z.min n (used_bytes (pipe_of s p))) in *.
    destruct (runs_at _ _ (fun _ => unlock_ (L_pipe p) ;; ret (Done c)) _ _ _ _ s1 (runs_wakeup (L_pipe p :: H) (O_nwrite p) (view fsL s1)) H1 eq_refl) as (s2 & E2 & H2 & V2 & U2).
    destruct (runs_at _ _ (fun _ => ret (Done c)) _ _ _ _ s2 (runs_unlock H (L_pipe p) (view fsL s1)) H2 V2) as (s3 & E3 & H3 & V3 & U3).
    assert (user_same s1 s3) as U by by transitivity s2.
    assert (read_count (Done c) = c) as -> by (cbn; lia).
    exists s3. rewrite (bind_ret_eq _ _ _ _ _ E1), E2, E3. assert (pipe_of s3 p = pipe_of s1 p) as -> by (unfold pipe_of; by rewrite V3). split_and!; try done.
    + by rewrite (ubytes_same s1 s3) by apply U.
    + eapply only_pipe_trans; [exact O1|by apply only_pipe_view].
    + destruct B1 as (B1 & K1 & D1), U as [? ? ?]. split_and!; [|congruence..]. intros b Hb. rewrite <- B1 by done. congruence.
Qed.

(** ** Interleavings *)

(** The end of a section: a process that goes to sleep gives up the lock. *)
Definition section_end (r : piece) (p : Z) (s s' : St) : Prop :=
  match r with Done _ => s' = s | Sleeps _ => unlock_ (L_pipe p) s = Ret (tt, s') end.

(** The bytes written so far, the bytes read so far, and the sections that any
    number of writers and readers run, with anything else in between that
    leaves the ring alone.  A writer goes on at the byte [i] it was at when it
    went to sleep. *)
Inductive pstep (p : Z) : St * list Z * list Z -> St * list Z * list Z -> Prop :=
| ps_write s s1 r s2 s3 addr n i W R :
    lock_ (L_pipe p) s = Ret (tt, s1) -> 0 <= i <= n -> (forall j, i <= j < n -> uok s1 (u32 (addr + j))) ->
    pipewrite_loop (Z.to_nat (n - i)) p addr n i s1 = Ret (r, s2) -> section_end r p s2 s3 ->
    pstep p (s, W, R) (s3, W ++ ubytes s1 addr i (u32 (nwrite (pipe_of s2 p) - nwrite (pipe_of s1 p))), R)
| ps_read s s1 r s2 s3 addr n W R :
    lock_ (L_pipe p) s = Ret (tt, s1) -> 0 <= n -> (forall j, 0 <= j < n -> uok s1 (u32 (addr + j))) ->
    piperead_wait p addr n s1 = Ret (r, s2) -> section_end r p s2 s3 ->
    pstep p (s, W, R) (s3, W, R ++ ubytes s2 addr 0 (read_count r))
| ps_other s s' W R :
    kin s' [] -> nread (pipe_of s' p) = nread (pipe_of s p) -> nwrite (pipe_of s' p) = nwrite (pipe_of s p) ->
    p_data (pipe_of s' p) = p_data (pipe_of s p) -> pstep p (s, W, R) (s', W, R).

Definition fifo (p : Z) (c : St * list Z * list Z) : Prop :=
  let '(s, W, R) := c in kin s [] /\ pipe_ok (pipe_of s p) /\ W = R ++ queue (pipe_of s p).

Lemma lock_at s p : kin s [] ->
  exists s1, lock_ (L_pipe p) s = Ret (tt, s1) /\ kin s1 [L_pipe p] /\ pipe_of s1 p = pipe_of s p /\ user_same s s1.
Proof.
  intros Hs. destruct (lock_spec s [] (L_pipe p) Hs) as (s1 & E & Hk & V & Kp); [set_solver|]. exists s1.
  split_and!; [done..|unfold pipe_of; by rewrite V|by apply keep_user_same].
Qed.

Lemma section_end_at r p s s' : kin s (held_after r p []) -> section_end r p s s' -> kin s' [] /\ pipe_of s' p = pipe_of s p.
Proof.
  destruct r as [c|i]; cbn; [by intros ? ->|]. intros Hs E.
  destruct (unlock_spec s [] (L_pipe p) Hs) as (s1 & E1 & Hk & V & _). rewrite E in E1. injection E1 as <-.
  split; [done|]. unfold pipe_of. by rewrite V.
Qed.

Lemma pstep_fifo p c c' : fifo p c -> pstep p c c' -> fifo p c'.
Proof.
  intros Hf Hst. destruct Hst as [s s1 r s2 s3 addr n i W R El Hi Hok Ew Ee|s s1 r s2 s3 addr n W R El Hn Hok Ew Ee|s s' W R Hk E1 E2 E3];
    destruct Hf as (Hs & Hp & ->).
  - destruct (lock_at s p Hs) as (s1' & El' & H1 & P1 & U1). rewrite El in El'. injection El' as <-. rewrite <- P1 in Hp |- *.
    destruct (pipewrite_spec (Z.to_nat (n - i)) s1 [] p addr n i H1 Hp) as (s2' & Ew' & H2 & P2 & Q2 & N2 & _ & _); [lia|done|done|].
    rewrite Ew in Ew'. injection Ew' as -> <-. destruct (section_end_at _ _ _ _ H2 Ee) as [H3 P3].
    pose proof (used_range _ Hp) as Hu. set (k := Z.min _ _) in *.
    assert (u32 (nwrite (pipe_of s2 p) - nwrite (pipe_of s1 p)) = k) as ->.
    { rewrite N2. destruct Hp as [_ Hw _]. unfold u32, PIPESIZE in *. assert (0 <= k <= 512) by lia. clearbody k. clear -Hw H. mlia. }
    split_and!; [done|by rewrite P3|]. by rewrite P3, Q2, app_assoc.
  - destruct (lock_at s p Hs) as (s1' & El' & H1 & P1 & U1). rewrite El in El'. injection El' as <-. rewrite <- P1 in Hp |- *.
    destruct (piperead_spec s1 [] p addr n H1 Hp Hn Hok) as (s2' & Ew' & H2 & P2 & Q2 & _ & _).
    rewrite Ew in Ew'. injection Ew' as -> <-. destruct (section_end_at _ _ _ _ H2 Ee) as [H3 P3].
    split_and!; [done|by rewrite P3|]. by rewrite P3, Q2, app_assoc.
  - assert (queue (pipe_of s' p) = queue (pipe_of s p)) as Eq by (unfold queue, used_bytes; by rewrite E1, E2, E3).
    destruct Hp as [? ? ?]. split_and!; [done|split; congruence|by rewrite Eq].
Qed.

(** C7 A pipe is a queue: from a new pipe, in every interleaving of the
    sections that writers and readers run under its lock, the bytes read so far
    followed by the bytes in the ring are the bytes written so far, in order,
    none lost and none twice, and the ring never holds more than its size,
    although the counters wrap around. *)
Theorem pipe_fifo (p : Z) (s0 s : St) (W R : list Z) :
  kin s0 [] -> nread (pipe_of s0 p) = 0 -> nwrite (pipe_of s0 p) = 0 -> rtc (pstep p) (s0, [], []) (s, W, R) ->
  W = R ++ queue (pipe_of s p) /\ Z.of_nat (length (queue (pipe_of s p))) <= PIPESIZE.
Proof.
  intros Hk Er Ew Hst. assert (fifo p (s0, [], [])) as Hf.
  { split_and!; [done|split; rewrite ?Er, ?Ew; [lia|lia|vm_compute; congruence]|]. unfold queue, used_bytes. by rewrite Er, Ew. }
  assert (fifo p (s, W, R)) as (_ & Hp & ->).
  { remember (s0, [], []) as c eqn:Ec. clear Ec. induction Hst as [|c1 c2 c3 H1 H2 IH]; [done|]. by apply IH, (pstep_fifo p c1). }
  split; [done|]. rewrite queue_length by done. by apply used_range.
Qed.

(** C28 Every section of a pipe operation returns and moves as many bytes as it
    can.  On a pipe in order, a section of pipewrite appends to the queue the next
    bytes of its buffer, all that are left or as many as there is room for; with all
    written it returns the count, otherwise -1 if no reader has the pipe open or the
    writer is killed, and otherwise it sleeps at the byte it has come to.  A section of
    piperead of a pipe that has bytes, or that no writer has open, moves the first
    bytes of the queue to its buffer, all of them or as many as it was asked for,
    and returns their number; of an empty pipe that a writer has open it sleeps, or
    returns -1 if the reader is killed.  A section that does not sleep has let
    go of the lock. *)
Theorem pipe_sections_total (s : St) (p addr n : Z) :
  kin s [] -> pipe_ok (pipe_of s p) -> 0 <= n -> (forall j, 0 <= j < n -> uok s (u32 (addr + j))) ->
  let q := queue (pipe_of s p) in let len := Z.of_nat (length q) in
  exists s1, lock_ (L_pipe p) s = Ret (tt, s1) /\
    (forall i, 0 <= i <= n -> let k := Z.min (n - i) (PIPESIZE - len) in
     exists r s2, pipewrite_loop (Z.to_nat (n - i)) p addr n i s1 = Ret (r, s2) /\ kin s2 (held_after r p []) /\
       queue (pipe_of s2 p) = q ++ ubytes s addr i k /\ (i + k = n -> r = Done n) /\
       (i + k < n -> readopen (pipe_of s p) = 0 \/ ukilled s <> 0 -> r = Done (-1)) /\
       (i + k < n -> readopen (pipe_of s p) <> 0 -> ukilled s = 0 -> r = Sleeps (i + k))) /\
    (let k := Z.min n len in
     exists r s2, piperead_wait p addr n s1 = Ret (r, s2) /\ kin s2 (held_after r p []) /\
       (q <> [] \/ writeopen (pipe_of s p) = 0 ->
          r = Done k /\ ubytes s2 addr 0 k = take (Z.to_nat k) q /\ queue (pipe_of s2 p) = drop (Z.to_nat k) q) /\
       (q = [] -> writeopen (pipe_of s p) <> 0 -> queue (pipe_of s2 p) = [] /\ r = if ukilled s =? 0 then Sleeps 0 else Done (-1))).
Proof.
  intros Hs Hp Hn Hok q len. destruct (lock_at s p Hs) as (s1 & El & H1 & P1 & U1). exists s1. pose proof (used_range _ Hp) as Hu.
  assert (forall j, 0 <= j < n -> uok s1 (u32 (addr + j))) as Hok1 by by rewrite (us_ok _ _ U1).
  assert (pipe_ok (pipe_of s1 p)) as Hp1 by by rewrite P1. assert (len = used_bytes (pipe_of s p)) as El' by by apply queue_length.
  split_and!; [done| |].
  - intros i Hi k. destruct (pipewrite_spec (Z.to_nat (n - i)) s1 [] p addr n i H1 Hp1) as (s2 & Ew & H2 & P2 & Q2 & _); [lia|done|intros; apply Hok1; lia|].
    rewrite P1, (us_killed _ _ U1), (ubytes_same s s1), <- El' in * by apply U1. fold k in Ew, H2, Q2. eexists _, s2. split_and!; [exact Ew|exact H2|exact Q2|..];
      unfold write_end; destruct (Z.eqb_spec (i + k) n), (Z.eqb_spec (readopen (pipe_of s p)) 0), (Z.eqb_spec (ukilled s) 0); cbn [orb negb]; intros; done || lia || naive_solver.
  - destruct (piperead_spec s1 [] p addr n H1 Hp1 Hn Hok1) as (s2 & Ew & H2 & P2 & Q2 & _).
    rewrite P1, (us_killed _ _ U1) in *. eexists _, s2. split; [exact Ew|]. split; [exact H2|].
    assert (q = [] <-> used_bytes (pipe_of s p) = 0) as Hq by (rewrite <- El'; unfold len; destruct q; cbn; [done|split; [done|lia]]).
    fold q in Q2. unfold read_end in *. rewrite <- El' in *. split.
    + intros Hc. assert ((len =? 0) && negb (writeopen (pipe_of s p) =? 0) = false) as Ec by (destruct (Z.eqb_spec len 0), (Z.eqb_spec (writeopen (pipe_of s p)) 0); naive_solver).
      rewrite Ec in *. cbn [read_count] in Q2. rewrite Z.max_r in Q2 by lia. set (k := Z.min n len) in *.
      assert (length (ubytes s2 addr 0 k) = Z.to_nat k) as Ek by (unfold ubytes; rewrite length_map, length_seqZ; done).
      rewrite Q2. split_and!; [done|by rewrite take_app_length'|by rewrite drop_app_length'].
    + intros Hc Hw. assert (len = 0) as E0 by (apply Hq in Hc; lia).
      assert ((len =? 0) && negb (writeopen (pipe_of s p) =? 0) = true) as Ec by (rewrite E0, (proj2 (Z.eqb_neq _ _) Hw); done). rewrite Ec in Q2 |- *.
      split; [|by destruct (ukilled s =? 0)]. rewrite Hc in Q2. symmetry in Q2. by apply app_eq_nil in Q2 as [_ ?].
Qed.

End code.

(** ** An example *)

(** A new pipe, and three bytes at address 100. *)
Definition demo_pipe : alone := mkAlone (blank_fs (mkDrive (fun _ _ _ => 0) [])) (fun a => a - 95) 0.

Definition state_after {A : Type} (o : outcome (A * alone)) : alone := match o with Ret (_, s) => s | _ => demo_pipe end.
Definition result_of {A : Type} (o : outcome (A * alone)) : option A := match o with Ret (a, _) => Some a | _ => None end.
Lemma after_eq {A : Type} (o : outcome (A * alone)) r : result_of o = Some r -> o = Ret (r, state_after o).
Proof. destruct o as [[a s]| | | |]; cbn; congruence. Qed.

(** Three bytes are written, then two are read. *)
Definition demo_written : alone := state_after (pipewrite_loop (Z.to_nat (3 - 0)) 0 100 3 0 demo_pipe).
Definition demo_read : alone := state_after (piperead_wait 0 200 2 demo_written).

Lemma demo_run : rtc (pstep 0) (demo_pipe, [], []) (demo_read, [5; 6; 7], [5; 6]).
Proof.
  assert (pstep 0 (demo_pipe, [], []) (demo_written,
    [] ++ ubytes demo_pipe 100 0 (u32 (nwrite (pipe_of demo_written 0) - nwrite (pipe_of demo_pipe 0))), [])) as H1.
  { assert (result_of (pipewrite_loop (Z.to_nat (3 - 0)) 0 100 3 0 demo_pipe) = Some (Done 3)) as Er by (vm_compute; reflexivity).
    eapply (ps_write 0 demo_pipe demo_pipe (Done 3) demo_written demo_written 100 3 0); [reflexivity|lia|done|exact (after_eq _ _ Er)|exact eq_refl]. }
  assert (pstep 0 (demo_written, [5; 6; 7], []) (demo_read, [5; 6; 7], [] ++ ubytes demo_read 200 0 (read_count (Done 2)))) as H2.
  { assert (result_of (piperead_wait 0 200 2 demo_written) = Some (Done 2)) as Er by (vm_compute; reflexivity).
    eapply (ps_read 0 demo_written demo_written (Done 2) demo_read demo_read 200 2); [reflexivity|lia|done|exact (after_eq _ _ Er)|exact eq_refl]. }
  replace ([] ++ ubytes demo_pipe 100 0 (u32 (nwrite (pipe_of demo_written 0) - nwrite (pipe_of demo_pipe 0)))) with [5; 6; 7] in H1
    by (vm_compute; reflexivity).
  replace ([] ++ ubytes demo_read 200 0 (read_count (Done 2))) with [5; 6] in H2 by (vm_compute; reflexivity).
  eapply rtc_l; [exact H1|]. eapply rtc_l; [exact H2|]. apply rtc_refl.
Qed.

Lemma pipe_fifo_witness :
  rtc (pstep 0) (demo_pipe, [], []) (demo_read, [5; 6; 7], [5; 6]) /\ [5; 6; 7] = [5; 6] ++ queue (pipe_of demo_read 0).
Proof. split; [exact demo_run|]. apply (@pipe_fifo alone alone_kernel alone_spec alone_user 0 demo_pipe demo_read [5; 6; 7] [5; 6] I eq_refl eq_refl demo_run). Defined.

(** Of the three bytes a reader that asks for two gets the first two; a writer of 600
    more, with the read end closed, returns -1. *)
Lemma pipe_sections_total_witness :
  (exists s2, piperead_wait 0 200 2 demo_written = Ret (Done 2, s2) /\ ubytes s2 200 0 2 = [5; 6] /\ queue (pipe_of s2 0) = [7]) /\
  (exists s2, pipewrite_loop (Z.to_nat (600 - 0)) 0 200 600 0 demo_written = Ret (Done (-1), s2)).
Proof.
  assert (pipe_ok (pipe_of demo_written 0)) as Hp by (split; vm_compute; split || idtac; congruence).
  assert (queue (pipe_of demo_written 0) = [5; 6; 7]) as Hq by (vm_compute; reflexivity).
  split.
  - destruct (@pipe_sections_total alone alone_kernel alone_spec alone_user demo_written 0 200 2 I Hp ltac:(lia) ltac:(done)) as (s1 & E & _ & (r & s2 & E2 & _ & H & _)).
    injection E as <-. destruct H as (-> & H1 & H2); [left; by rewrite Hq|]. rewrite Hq in H1, H2. by exists s2.
  - destruct (@pipe_sections_total alone alone_kernel alone_spec alone_user demo_written 0 200 600 I Hp ltac:(lia) ltac:(done)) as (s1 & E & H & _).
    injection E as <-. destruct (H 0 ltac:(lia)) as (r & s2 & E2 & _ & _ & _ & H' & _). rewrite Hq in H'. exists s2. rewrite E2, H'; [done|vm_compute; reflexivity|left; reflexivity].
Defined.
