(* ===== verification/Blocks.v ===== *)
(** * Disk blocks in a transaction

    The file system sees a disk of blocks: [lv x dev s] is the contents of
    sector [s], wherever it is.  The lemmas say what reading, changing and
    allocating a block inside a transaction does to that view.  A transaction
    has a footprint, the sectors it may log; it must leave room in the log and
    in the buffer cache. *)

From Stdlib Require Import ZArith Lia String Bool.
From stdpp Require Import base numbers sets list.
From S2P Require Import Prelude Params Mem Spinlock FsState Bio Log Inode FsRun BioSpec LogSpec Crash Transaction.

Section blocks.
Context {St : Type} {K : Kernel St} {KS : KernelSpec St}.
Context (dev start : Z) (ts : list Z).

Abbreviation outside := (outside dev start).
Abbreviation tx := (tx dev start).
Abbreviation kept := (kept dev start).

(** A transaction whose footprint is [ts], with the buffers [hs] held and the
    changes of [ms] not yet logged. *)
Record intx (x : fsys) (hs ms : list Z) : Prop := {
  ix_tx : exists n sec, tx x hs ms n sec /\ forall k, 0 <= k < n -> sec k ∈ ts;
  ix_log : count ts < log_size (log x) - 1;
  ix_bufs : count ts <= NBUF - 3
}.

(** The buffers held through an operation are as they were. *)
Definition hold_same (x x' : fsys) (hs : list Z) : Prop :=
  forall c, c ∈ hs -> b_sector (bufs x' c) = b_sector (bufs x c) /\ b_data (bufs x' c) = b_data (bufs x c).

Lemma hold_same_refl x hs : hold_same x x hs.
Proof. by intros c _. Qed.
Lemma hold_same_trans x y z hs : hold_same x y hs -> hold_same y z hs -> hold_same x z hs.
Proof. intros H1 H2 c Hc. destruct (H1 c Hc) as [<- <-]. by apply H2. Qed.

(** Two views of the disk agree outside the log. *)
Definition deq (V V' : Z -> mem) : Prop := forall s, outside dev s -> blk_eq (V s) (V' s).
#[export] Instance deq_equiv : Equivalence deq.
Proof.
  split.
  - intros V s _. reflexivity.
  - intros V V' H s Hs. symmetry. by apply H.
  - intros V V' V'' H H' s Hs. etransitivity; [by apply H|by apply H'].
Qed.

(** An operation that leaves the disk looking like [V], and the buffers [hs] as
    they were; it ends with [hs'] held. *)
Record goes (x x' : fsys) (hs hs' ms : list Z) (V : Z -> mem) : Prop := {
  go_in : intx x' hs' ms;
  go_kept : kept x x';
  go_view : deq V (lv x' dev);
  go_hold : hold_same x x' hs
}.

Lemma ix_dev x hs ms : intx x hs ms -> dev <> nodev.
Proof. intros [(n & sec & T & _) _ _]. by eapply place_dev. Qed.

Lemma ix_count x hs ms n sec : intx x hs ms -> tx x hs ms n sec -> (forall k, 0 <= k < n -> sec k ∈ ts) ->
  0 <= n <= count ts /\ n <= NBUF - 3 /\ n < log_size (log x) - 1.
Proof.
  intros [_ Hl Hb] T Hin. pose proof (li_range _ _ _ _ _ (t_log _ _ _ _ _ _ _ T)).
  pose proof (logged_count start n sec ts (t_home _ _ _ _ _ _ _ T) ltac:(lia) Hin). lia.
Qed.

Lemma ix_held x hs ms b : intx x hs ms -> b ∈ hs ->
  outside dev (b_sector (bufs x b)) /\ lv x dev (b_sector (bufs x b)) = b_data (bufs x b).
Proof. intros [(n & sec & T & _) _ _] Hb. split; [by apply (t_hs _ _ _ _ _ _ _ T)|by eapply tx_lv]. Qed.

(** bread *)
Lemma ix_bread x hs ms s :
  intx x hs ms -> outside dev s -> sector_no s -> (forall b, b ∈ hs -> b_sector (bufs x b) <> s) -> (length hs <= 1)%nat ->
  exists b x', runs [] (bread dev s) x b x' [] /\ goes x x' hs (b :: hs) ms (lv x dev) /\ (b ∉ hs) /\
    b_sector (bufs x' b) = s /\ blk_eq (lv x dev s) (b_data (bufs x' b)).
Proof.
  intros I Ho Hs Hn Hl. destruct (ix_tx _ _ _ I) as (n & sec & T & Hin). destruct (ix_count _ _ _ _ _ I T Hin) as (H1 & H2 & H3).
  destruct (tx_bread dev start x hs ms n sec s T Ho Hs Hn) as (b & x' & R & T' & Hb & Es & Kp & Eb & L & O); [lia|].
  exists b, x'. split_and!; try done. destruct I as [_ ? ?]. split; try done.
  - split; [by exists n, sec|by rewrite (k_size _ _ _ _ Kp)|done].
  - intros t Ht. apply L, Ht.
  - intros c Hc. by rewrite O.
Qed.

(** A change of the data of a held buffer *)
Lemma ix_modify x hs ms b f :
  intx x hs ms -> b ∈ hs ->
  let x' := set_bufs (upd (bufs x) b (b_with_data (f (b_data (bufs x b))) (bufs x b))) x in
  goes x x' (filter (fun c => c <> b) hs) hs (b :: ms) (upd (lv x dev) (b_sector (bufs x b)) (f (b_data (bufs x b)))) /\
  b_sector (bufs x' b) = b_sector (bufs x b) /\ b_data (bufs x' b) = f (b_data (bufs x b)).
Proof.
  intros I Hb x'. pose proof (ix_dev _ _ _ I) as Hd. destruct (ix_tx _ _ _ I) as (n & sec & T & Hin).
  destruct (tx_modify dev start x hs ms n sec b (f (b_data (bufs x b))) T Hb) as (T' & Kp & V & L). fold x' in T', Kp, V, L.
  split_and!; try (unfold x'; cbn; by rewrite upd_same). destruct I as [_ ? ?]. split; try done.
  - split; [by exists n, sec|done|done].
  - intros t Ht. unfold upd. destruct (Z.eqb_spec t (b_sector (bufs x b))) as [->|Hne]; [by rewrite V|]. apply L; [done|tauto].
  - intros c [Hc _]%list_elem_of_filter. unfold x'. cbn. by rewrite upd_ne.
Qed.

(** log_write of the only changed buffer *)
Lemma ix_log_write x hs ms b :
  intx x hs ms -> b ∈ hs -> Forall (eq b) ms -> (length hs <= 2)%nat -> b_sector (bufs x b) ∈ ts ->
  exists x', runs [] (log_write b) x tt x' [] /\ goes x x' hs hs [] (lv x dev).
Proof.
  intros I Hb Hms Hl Hin'. destruct (ix_tx _ _ _ I) as (n & sec & T & Hin). destruct (ix_count _ _ _ _ _ I T Hin) as (H1 & H2 & H3).
  unfold NBUF in H2. destruct (tx_log_write dev start x hs ms n sec b T Hb) as (x' & n' & sec' & R & Lg); try (unfold LOGSIZE, NBUF; lia).
  exists x'. split; [done|]. destruct I as [_ ? ?].
  assert (filter (fun c => c <> b) ms = []) as E.
  { clear -Hms. induction Hms as [|? ms <- _ IH]; [done|]. rewrite filter_cons_False; [done|tauto]. }
  destruct Lg as [T' Kp _ _ Hs L Hbu]. rewrite E in T'. split; try done.
  - split; [|by rewrite (k_size _ _ _ _ Kp)|done]. exists n', sec'. split; [done|]. intros k Hk.
    destruct (proj1 (Hs (sec' k)) (ex_intro _ k (conj Hk eq_refl))) as [->|(j & Hj & <-)]; [done|by apply Hin].
  - intros t Ht. by apply L.
Qed.

(** brelse *)
Lemma ix_brelse x hs ms b :
  intx x (b :: hs) ms -> (b ∉ ms) -> exists x', runs [] (brelse b) x tt x' [] /\ goes x x' hs hs ms (lv x dev).
Proof.
  intros I Hm. destruct (ix_tx _ _ _ I) as (n & sec & T & Hin).
  destruct (tx_brelse dev start x (b :: hs) hs ms n sec b T) as (x' & R & T' & Kp & L & O); [done|done|].
  exists x'. split; [done|]. destruct I as [_ ? ?]. split; try done.
  - split; [by exists n, sec|by rewrite (k_size _ _ _ _ Kp)|done].
  - intros t Ht. by rewrite L.
  - intros c Hc. by destruct (core_eq _ _ (O c Hc)) as (_ & _ & -> & ->).
Qed.

Lemma goes_trans x y z hs hs1 hs2 ms1 ms2 V V' : goes x y hs hs1 ms1 V -> goes y z hs hs2 ms2 V' -> goes x z hs hs2 ms2 V'.
Proof.
  intros [I1 K1 V1 H1] [I2 K2 V2 H2]. split; [done|by transitivity y|done|by apply (hold_same_trans x y)].
Qed.
Lemma goes_view x y hs hs' ms V V' : goes x y hs hs' ms V -> deq V V' -> goes x y hs hs' ms V'.
Proof. intros [? ? Hv ?] E. split; try done. by rewrite <- E. Qed.
Lemma goes_less x y hs hs' hs'' ms V : goes x y hs hs' ms V -> hs'' ⊆ hs -> goes x y hs'' hs' ms V.
Proof. intros [? ? ? Hh] E. split; try done. intros c Hc. by apply Hh, E. Qed.

#[export] Instance upd_deq : Proper (deq ==> eq ==> blk_eq ==> deq) upd.
Proof. intros V V' HV k _ <- m m' Hm s Hs. unfold upd. destruct (s =? k); [done|by apply HV]. Qed.

(** The changed buffer is logged and released. *)
Lemma ix_finish x hs b ms :
  intx x (b :: hs) ms -> Forall (eq b) ms -> (length hs <= 1)%nat -> b_sector (bufs x b) ∈ ts ->
  exists x1 x2, runs [] (log_write b) x tt x1 [] /\ runs [] (brelse b) x1 tt x2 [] /\ goes x x2 hs hs [] (lv x dev).
Proof.
  intros I Hms Hl Hin. destruct (ix_log_write x (b :: hs) ms b I) as (x1 & R1 & G1); [set_solver|done|cbn; lia|done|].
  destruct (ix_brelse x1 hs [] b (go_in _ _ _ _ _ _ G1)) as (x2 & R2 & G2); [apply not_elem_of_nil|].
  exists x1, x2. split_and!; try done. eapply goes_view.
  - eapply goes_trans; [|exact G2]. apply (goes_less _ _ (b :: hs)); [exact G1|set_solver].
  - symmetry. apply G1.
Qed.

(** Since [x0] the buffer [b] of sector [s] has been taken, and its data made [d]. *)
Record holding (x0 x : fsys) (hs : list Z) (b s : Z) (d : mem) : Prop := {
  ho_in : exists ms, intx x (b :: hs) ms /\ Forall (eq b) ms;
  ho_new : b ∉ hs;
  ho_sector : b_sector (bufs x b) = s;
  ho_data : b_data (bufs x b) = d;
  ho_view : deq (upd (lv x0 dev) s d) (lv x dev);
  ho_kept : kept x0 x;
  ho_same : hold_same x0 x hs
}.

Lemma holding_bread x hs s :
  intx x hs [] -> outside dev s -> sector_no s -> (forall b, b ∈ hs -> b_sector (bufs x b) <> s) -> (length hs <= 1)%nat ->
  exists b x' d, runs [] (bread dev s) x b x' [] /\ holding x x' hs b s d /\ blk_eq (lv x dev s) d.
Proof.
  intros I Ho Hs Hn Hl. destruct (ix_bread x hs [] s I Ho Hs Hn Hl) as (b & x1 & R1 & G1 & Hb & Es & Eb).
  exists b, x1, (b_data (bufs x1 b)). split_and!; try done. split; try done; [exists []; split; [apply G1|done]| |apply G1|apply G1].
  rewrite <- (go_view _ _ _ _ _ _ G1). intros t Ht. unfold upd. by destruct (Z.eqb_spec t s) as [->|].
Qed.

Lemma holding_bset x0 x hs b s d f : holding x0 x hs b s d ->
  exists x', runs [] (bset b (fun z => b_with_data (f (b_data z)) z)) x tt x' [] /\ holding x0 x' hs b s (f d).
Proof.
  intros [(ms & I & Hms) Hn Es Ed V Kp Hh]. eexists. split; [rprim|].
  destruct (ix_modify x (b :: hs) ms b f I) as (G2 & Es2 & Eb2); [set_solver|]. rewrite Es, Ed in *. split; try done.
  - exists (b :: ms). split; [apply G2|by constructor].
  - rewrite <- (go_view _ _ _ _ _ _ G2), <- V. intros t Ht. unfold upd. by destruct (t =? s).
  - transitivity x; [done|apply G2].
  - eapply hold_same_trans; [done|]. intros c Hc. apply G2, list_elem_of_filter. set_solver.
Qed.

Lemma holding_finish x0 x hs b s d : holding x0 x hs b s d -> (length hs <= 1)%nat -> s ∈ ts ->
  exists x1 x2, runs [] (log_write b) x tt x1 [] /\ runs [] (brelse b) x1 tt x2 [] /\ goes x0 x2 hs hs [] (upd (lv x0 dev) s d).
Proof.
  intros [(ms & I & Hms) Hn Es Ed V Kp Hh] Hl Hts. destruct (ix_finish x hs b ms I Hms Hl) as (x1 & x2 & R1 & R2 & G); [by rewrite Es|].
  exists x1, x2. split_and!; try done. split; [apply G| | |].
  - transitivity x; [done|apply G].
  - rewrite V. apply G.
  - eapply hold_same_trans; [done|apply G].
Qed.

(** Read a block, change it, log it, release it. *)
Lemma ix_update x hs s f :
  intx x hs [] -> outside dev s -> sector_no s -> (forall b, b ∈ hs -> b_sector (bufs x b) <> s) -> (length hs <= 1)%nat ->
  s ∈ ts -> (forall m m', blk_eq m m' -> blk_eq (f m) (f m')) ->
  exists x', runs [] (update dev s f) x tt x' [] /\ goes x x' hs hs [] (upd (lv x dev) s (f (lv x dev s))).
Proof.
  intros I Ho Hs Hn Hl Hts Hf. destruct (ix_bread x hs [] s I Ho Hs Hn Hl) as (b & x1 & R1 & G1 & Hb & Es & Eb).
  destruct (ix_modify x1 (b :: hs) [] b f (go_in _ _ _ _ _ _ G1)) as (G2 & Es2 & Eb2); [set_solver|].
  set (x2 := set_bufs (upd (bufs x1) b (b_with_data (f (b_data (bufs x1 b))) (bufs x1 b))) x1) in *.
  destruct (ix_finish x2 hs b [b] (go_in _ _ _ _ _ _ G2)) as (x3 & x4 & R3 & R4 & G4); [by constructor|done|by rewrite Es2, Es|].
  exists x4. split.
  - unfold update. eapply runs_bind; [exact R1|]. cbv beta. rstep. fold x2. eapply runs_bind; [exact R3|exact R4].
  - eapply goes_view; [|etransitivity; [symmetry; apply (go_view _ _ _ _ _ _ G2)|]].
    + eapply goes_trans; [exact G1|]. eapply goes_trans; [|exact G4]. eapply goes_less; [exact G2|]. intros c Hc. apply list_elem_of_filter. set_solver.
    + rewrite Es. apply upd_deq; [symmetry; apply G1|done|]. apply Hf. by rewrite Eb.
Qed.

Lemma memset_zero m : blk_eq (fun _ => 0) (memset m 0 0 BSIZE).
Proof. intros a Ha. cbv beta in Ha. rewrite ld8_memset, (proj2 (Z.leb_le 0 a)), (proj2 (Z.ltb_lt a (0 + BSIZE))) by lia. done. Qed.

Lemma bzero_spec x hs s :
  intx x hs [] -> outside dev s -> sector_no s -> (forall b, b ∈ hs -> b_sector (bufs x b) <> s) -> (length hs <= 1)%nat -> s ∈ ts ->
  exists x', runs [] (bzero dev s) x tt x' [] /\ goes x x' hs hs [] (upd (lv x dev) s (fun _ => 0)).
Proof.
  intros I Ho Hs Hn Hl Hts. destruct (ix_update x hs s (fun m => memset m 0 0 BSIZE) I Ho Hs Hn Hl Hts) as (x' & R & G).
  { intros m m' _. by rewrite <- !memset_zero. }
  exists x'. split; [exact R|]. eapply goes_view; [exact G|]. apply upd_deq; [done|done|]. by rewrite <- memset_zero.
Qed.

(** ** The free-block bitmap *)

Definition super (V : Z -> mem) : superblock := mkSb (ld32 (V 1) 0) (ld32 (V 1) 4) (ld32 (V 1) 8) (ld32 (V 1) 12).

Lemma ld32_blk m m' a : blk_eq m m' -> 0 <= a <= BSIZE - 4 -> ld32 m' a = ld32 m a.
Proof. intros H Ha. apply (ld32_agree _ _ _ _ H). intros b Hb. cbn. lia. Qed.

Lemma super_deq V V' : deq V V' -> outside dev 1 -> super V' = super V.
Proof. intros H Ho. unfold super. by rewrite !(ld32_blk _ _ _ (H 1 Ho)) by done. Qed.

Lemma readsb_spec x hs :
  intx x hs [] -> outside dev 1 -> (forall b, b ∈ hs -> b_sector (bufs x b) <> 1) -> (length hs <= 1)%nat ->
  exists x', runs [] (readsb dev) x (super (lv x dev)) x' [] /\ goes x x' hs hs [] (lv x dev).
Proof.
  intros I Ho Hn Hl. destruct (ix_bread x hs [] 1 I Ho ltac:(done) Hn Hl) as (b & x1 & R1 & G1 & Hb & Es & Eb).
  destruct (ix_brelse x1 hs [] b (go_in _ _ _ _ _ _ G1)) as (x2 & R2 & G2); [apply not_elem_of_nil|].
  exists x2. split.
  - unfold readsb. eapply runs_bind; [exact R1|]. cbv beta. rstep. eapply runs_bind; [exact R2|]. cbv beta.
    eapply runs_eq; [apply runs_ret| |done]. unfold super. by rewrite !(ld32_blk _ _ _ Eb) by done.
  - eapply goes_view; [eapply goes_trans; [exact G1|exact G2]|]. symmetry. apply G1.
Qed.

Context (sb : superblock).
Abbreviation N := (sb_ninodes sb).
Abbreviation size := (sb_size sb).

(** The first block after the bitmap. *)
Definition data0 : Z := N / IPB + 3 + size / BPB + 1.

(** The disk's layout: the bitmap, the data blocks, the log. *)
Record geom (V : Z -> mem) : Prop := {
  ge_sb : super V = sb;
  ge_n : 0 <= N;
  ge_size : start < size < 2 ^ 28;
  ge_data : data0 <= start
}.

Definition in_use (V : Z -> mem) (b : Z) : bool := bit_set (V (BBLOCK b N)) (b mod BPB).
(** The free blocks, in order. *)
Definition free_list (V : Z -> mem) : list Z := List.filter (fun b => negb (in_use V b)) (seqZ 0 size).

(** A bitmap block with the bit of [b] set. *)
Definition with_bit (m : mem) (b : Z) : mem :=
  st8 m (Z.quot (b mod BPB) 8) (Z.lor (ld8 m (Z.quot (b mod BPB) 8)) (bit_mask (b mod BPB))).
(** The disk after [b] has been allocated. *)
Definition allocated (V : Z -> mem) (b : Z) : Z -> mem :=
  upd (upd V (BBLOCK b N) (with_bit (V (BBLOCK b N)) b)) b (fun _ => 0).

Lemma bblock_range V b : geom V -> 0 <= b < size -> BBLOCK b N = b / BPB + N / IPB + 3 /\ 3 <= BBLOCK b N < data0.
Proof.
  intros [_ Hn Hs Hd] Hb. unfold BBLOCK, data0 in *. change IPB with 8 in *. change BPB with 4096 in *. change (2 ^ 28) with 268435456 in *.
  pose proof (Z.div_le_mono b size 4096 ltac:(lia) ltac:(lia)). rewrite u32_small by mlia. mlia.
Qed.

Lemma in_data V b : geom V -> log_place dev start -> 0 <= b < start -> outside dev b /\ sector_no b.
Proof. intros [_ _ Hs _] (Hd & _ & _) Hb. split; [split; [unfold nodev; lia|lia]|]. unfold sector_no. lia. Qed.

Lemma bit_set_blk m m' bi : blk_eq m m' -> 0 <= bi < BPB -> bit_set m' bi = bit_set m bi.
Proof.
  intros H Hb. unfold bit_set. rewrite (H (Z.quot bi 8)); [done|]. cbn. unfold BPB, BSIZE in *. rewrite Z.quot_div_nonneg by lia. mlia.
Qed.

Lemma mod_bpb b : 0 <= b mod BPB < BPB.
Proof. by apply Z.mod_pos_bound. Qed.

Lemma in_use_deq V V' b : deq V V' -> outside dev (BBLOCK b N) -> in_use V' b = in_use V b.
Proof. intros H Ho. apply bit_set_blk; [by apply H|apply mod_bpb]. Qed.

(** Setting a bit *)
Lemma lor_bit v k j : 0 <= k < 8 -> 0 <= j < 8 -> 0 <= v < 256 ->
  (Z.land (u8 (Z.lor v (Z.shiftl 1 k))) (Z.shiftl 1 j) =? 0) = negb (j =? k) && (Z.land v (Z.shiftl 1 j) =? 0).
Proof.
  intros Hk Hj Hv. apply Bool.eq_iff_eq_true. rewrite andb_true_iff, negb_true_iff, !Z.eqb_eq, Z.eqb_neq.
  assert (forall w, 0 <= w -> Z.land w (Z.shiftl 1 j) = 0 <-> Z.testbit w j = false) as Hl.
  { intros w Hw. split.
    - intros E. assert (Z.testbit (Z.land w (Z.shiftl 1 j)) j = false) as E' by by rewrite E, Z.bits_0.
      rewrite Z.land_spec, Z.shiftl_spec, Z.sub_diag in E' by lia. by rewrite andb_true_r in E'.
    - intros E. apply Z.bits_inj'. intros i Hi. rewrite Z.land_spec, Z.bits_0, Z.shiftl_spec by lia.
      destruct (decide (i = j)) as [->|Hne]; [by rewrite E|]. destruct (decide (i < j)).
      + by rewrite (Z.testbit_neg_r 1), andb_false_r by lia.
      + change 1 with (2 ^ 0). rewrite Z.pow2_bits_false by lia. by rewrite andb_false_r. }
  unfold u8. rewrite !Hl by (try apply Z.mod_pos_bound; lia).
  change 0x100 with (2 ^ 8). rewrite Z.mod_pow2_bits_low, Z.lor_spec, Z.shiftl_spec by lia.
  destruct (decide (j = k)) as [->|Hne].
  - rewrite Z.sub_diag, orb_true_r. intuition congruence.
  - assert (Z.testbit 1 (j - k) = false) as ->.
    { destruct (decide (j < k)); [by apply Z.testbit_neg_r; lia|]. change 1 with (2 ^ 0). apply Z.pow2_bits_false. lia. }
    rewrite orb_false_r. intuition.
Qed.

Lemma bit_with_bit m b j : 0 <= j < BPB -> bit_set (with_bit m b) j = (j =? b mod BPB) || bit_set m j.
Proof.
  intros Hj. pose proof (mod_bpb b) as Hb. set (k := b mod BPB) in *. unfold bit_set, with_bit. fold k. unfold bit_mask.
  rewrite !Z.quot_div_nonneg, !Z.rem_mod_nonneg by lia. rewrite ld8_st8. pose proof (ld8_range m (k / 8)).
  destruct (Z.eqb_spec (j / 8) (k / 8)) as [E|E].
  - rewrite lor_bit by (try lia; apply Z.mod_pos_bound; lia). rewrite E.
    assert ((j mod 8 =? k mod 8) = (j =? k)) as -> by (destruct (Z.eqb_spec (j mod 8) (k mod 8)), (Z.eqb_spec j k); mlia).
    by destruct (j =? k).
  - destruct (Z.eqb_spec j k) as [->|]; done.
Qed.

Lemma filter_seqZ_head P n : forall a f L, List.filter P (seqZ a (Z.of_nat n)) = f :: L ->
  a <= f < a + Z.of_nat n /\ P f = true /\ (forall j, a <= j < f -> P j = false) /\
  (forall Q, (forall j, a <= j < a + Z.of_nat n -> Q j = P j && negb (j =? f)) -> List.filter Q (seqZ a (Z.of_nat n)) = L).
Proof.
  induction n as [|n IH]; intros a f L E; [done|]. rewrite seqZ_cons in E |- * by lia. cbn [List.filter] in E |- *.
  replace (Z.pred (Z.of_nat (S n))) with (Z.of_nat n) in * by lia. replace (Z.succ a) with (a + 1) in * by lia.
  destruct (P a) eqn:Pa.
  - injection E as -> E. split_and!; [lia|lia|done|lia|]. intros Q HQ. rewrite (HQ f), Pa, Z.eqb_refl by lia. cbn.
    rewrite <- E. apply List.filter_ext_in. intros j Hj%list_elem_of_In%elem_of_seqZ. rewrite HQ by lia.
    rewrite (proj2 (Z.eqb_neq j f)) by lia. by rewrite andb_true_r.
  - destruct (IH (a + 1) f L E) as (H1 & H2 & H3 & H4). split_and!; [lia|lia|done| |].
    + intros j Hj. destruct (decide (j = a)) as [->|]; [done|]. apply H3. lia.
    + intros Q HQ. rewrite (HQ a), Pa by lia. cbn. apply H4. intros j Hj. apply HQ. lia.
Qed.

Lemma free_head V f L : geom V -> free_list V = f :: L ->
  0 <= f < size /\ in_use V f = false /\ (forall j, 0 <= j < f -> in_use V j = true) /\
  (forall V', (forall j, 0 <= j < size -> in_use V' j = in_use V j || (j =? f)) -> free_list V' = L).
Proof.
  intros [_ _ Hs _] E. unfold free_list in *. destruct (decide (size <= 0)); [by rewrite seqZ_nil in E by lia|].
  rewrite <- (Z2Nat.id size) in E |- * by lia. destruct (filter_seqZ_head _ _ _ _ _ E) as (H1 & H2 & H3 & H4).
  split_and!; [lia|lia|by apply negb_true_iff| |].
  - intros j Hj. apply negb_false_iff, H3. lia.
  - intros V' HV'. apply H4. intros j Hj. rewrite HV' by lia. by rewrite negb_orb.
Qed.

(** What allocation does to the bitmap. *)
Lemma bblock_eq V b c : geom V -> 0 <= b < size -> 0 <= c < size -> BBLOCK b N = BBLOCK c N <-> b / BPB = c / BPB.
Proof. intros G Hb Hc. destruct (bblock_range V b G Hb) as [-> _], (bblock_range V c G Hc) as [-> _]. lia. Qed.

Lemma in_use_allocated V f b : geom V -> data0 <= f < size -> 0 <= b < size ->
  in_use (allocated V f) b = in_use V b || (b =? f).
Proof.
  intros G Hf Hb. destruct (bblock_range V b G Hb) as [_ Hr]. assert (0 <= f) as Hf0 by lia.
  unfold in_use, allocated, upd. rewrite (proj2 (Z.eqb_neq (BBLOCK b N) f)) by lia.
  destruct (Z.eqb_spec (BBLOCK b N) (BBLOCK f N)) as [E|E].
  - rewrite E, bit_with_bit by apply mod_bpb. rewrite orb_comm. f_equal. apply (bblock_eq V) in E; [|done..|lia].
    pose proof (Z.div_mod b BPB ltac:(done)). pose proof (Z.div_mod f BPB ltac:(done)). rewrite E in *.
    destruct (Z.eqb_spec (b mod BPB) (f mod BPB)), (Z.eqb_spec b f); try lia; congruence.
  - rewrite (proj2 (Z.eqb_neq b f)), orb_false_r; [done|]. congruence.
Qed.

Lemma allocated_other V f s : s <> f -> s <> BBLOCK f N -> allocated V f s = V s.
Proof. intros H1 H2. unfold allocated. by rewrite !upd_ne. Qed.

Lemma geom_allocated V f L : geom V -> free_list V = f :: L -> data0 <= f -> geom (allocated V f) /\ free_list (allocated V f) = L.
Proof.
  intros G E Hd. destruct (free_head V f L G E) as (Hf & _ & _ & Hl). destruct (bblock_range V f G Hf) as [_ Hr]. split.
  - destruct G. split; try done. rewrite <- ge_sb0. unfold super. by rewrite allocated_other by lia.
  - apply Hl. intros j Hj. apply in_use_allocated; [done|lia|done].
Qed.

(** ** balloc *)

Lemma find_free_hit m b k : 0 <= b -> b + BPB < 2 ^ 32 -> k < BPB -> b + k < size -> bit_set m k = false -> forall n bi,
  0 <= bi <= k -> k - bi < Z.of_nat n -> (forall j, bi <= j < k -> bit_set m j = true) -> find_free n m b bi size = k.
Proof.
  intros Hb Hb2 Hk Hs Ek. induction n as [|n IH]; intros bi Hbi Hn Hj; cbn [find_free]; [lia|].
  rewrite u32_small by lia. rewrite (proj2 (Z.ltb_lt bi BPB)), (proj2 (Z.ltb_lt (b + bi) size)) by lia. cbn [andb].
  destruct (decide (bi = k)) as [->|]; [by rewrite Ek|]. rewrite Hj by lia. apply IH; [lia|lia|]. intros j Hj'. apply Hj. lia.
Qed.

Lemma find_free_miss m b : 0 <= b -> b + BPB < 2 ^ 32 -> forall n bi,
  0 <= bi -> (forall j, bi <= j < BPB -> b + j < size -> bit_set m j = true) -> find_free n m b bi size = -1.
Proof.
  intros Hb Hb2. induction n as [|n IH]; intros bi Hbi Hj; cbn [find_free]; [done|].
  destruct (Z.ltb_spec bi BPB); [|done]. cbn [andb]. rewrite u32_small by lia. destruct (Z.ltb_spec (b + bi) size); [|done].
  rewrite Hj by lia. apply IH; [lia|]. intros j Hj'. apply Hj. lia.
Qed.

Lemma bitmap_outside V b : geom V -> log_place dev start -> 0 <= b < size -> outside dev (BBLOCK b N) /\ sector_no (BBLOCK b N).
Proof. intros G P Hb. destruct (bblock_range V b G Hb) as [_ Hr]. apply (in_data V); [done|done|]. destruct G. lia. Qed.

Lemma geom_deq V V' : deq V V' -> log_place dev start -> geom V -> geom V' /\ free_list V' = free_list V.
Proof.
  intros E P G. pose proof G as [Hsb ? ? ?]. split.
  - split; try done. rewrite <- Hsb. apply super_deq; [done|]. apply (in_data V); [done|done|]. destruct P as (_ & ? & _).
    unfold data0 in *. change IPB with 8 in *. change BPB with 4096 in *. mlia.
  - unfold free_list. apply List.filter_ext_in. intros j Hj%list_elem_of_In%elem_of_seqZ. f_equal. apply in_use_deq; [done|].
    eapply bitmap_outside; [done|done|lia].
Qed.

Lemma with_bit_blk m m' b : blk_eq m m' -> blk_eq (with_bit m b) (with_bit m' b).
Proof.
  intros H. pose proof (mod_bpb b) as Hb. assert (0 <= Z.quot (b mod BPB) 8 < BSIZE) as Hq.
  { rewrite Z.quot_div_nonneg by lia. change BPB with 4096 in *. change BSIZE with 512. mlia. }
  intros a Ha. cbv beta in Ha. unfold with_bit. rewrite !ld8_st8. rewrite (H _ Hq). destruct (a =? _); [done|by apply H].
Qed.

Lemma allocated_deq V V' f : deq V V' -> outside dev (BBLOCK f N) -> deq (allocated V f) (allocated V' f).
Proof. intros E Ho. unfold allocated. apply upd_deq; [|done|done]. apply upd_deq; [done|done|]. by apply with_bit_blk, E. Qed.

(** The block that balloc will find, and what it may touch. *)
Record next_free (x : fsys) (hs : list Z) (f : Z) (L : list Z) : Prop := {
  nf_geom : geom (lv x dev);
  nf_list : free_list (lv x dev) = f :: L;
  nf_data : data0 <= f < start;
  nf_ts : f ∈ ts /\ BBLOCK f N ∈ ts;
  nf_held : forall c, c ∈ hs -> data0 <= b_sector (bufs x c) /\ b_sector (bufs x c) <> f;
  nf_few : (length hs <= 1)%nat
}.

Lemma ix_place x hs ms : intx x hs ms -> log_place dev start.
Proof. intros [(n & sec & T & _) _ _]. apply (t_place _ _ _ _ _ _ _ T). Qed.

Lemma next_free_deq x x' hs f L : log_place dev start -> deq (lv x dev) (lv x' dev) -> hold_same x x' hs -> next_free x hs f L -> next_free x' hs f L.
Proof.
  intros P E H [G Hl ? ? Hh ?]. destruct (geom_deq _ _ E P G) as [G' El]. split; try done; [congruence|].
  intros c Hc. destruct (H c Hc) as [-> _]. by apply Hh.
Qed.

Lemma set_bit_spec x hs b f L :
  intx x (b :: hs) [] -> next_free x hs f L -> b_sector (bufs x b) = BBLOCK f N -> (b ∉ hs) ->
  exists x2 x3 x4 x5, runs [] (bset b (fun z => b_with_data (with_bit (b_data z) f) z)) x tt x2 [] /\
    runs [] (log_write b) x2 tt x3 [] /\ runs [] (brelse b) x3 tt x4 [] /\ runs [] (bzero dev f) x4 tt x5 [] /\
    goes x x5 hs hs [] (allocated (lv x dev) f).
Proof.
  intros I [G Hl Hd [Ht1 Ht2] Hh Hf] Es Hb. pose proof (ix_place _ _ _ I) as P.
  destruct (free_head _ _ _ G Hl) as (Hfs & _). destruct (ix_held _ _ _ b I ltac:(set_solver)) as [_ Eb]. rewrite Es in Eb.
  destruct (ix_modify x (b :: hs) [] b (fun m => with_bit m f) I) as (G2 & Es2 & Eb2); [set_solver|]. rewrite Es in *.
  set (x2 := set_bufs (upd (bufs x) b (b_with_data (with_bit (b_data (bufs x b)) f) (bufs x b))) x) in *.
  destruct (ix_finish x2 hs b [b] (go_in _ _ _ _ _ _ G2)) as (x3 & x4 & R3 & R4 & G4); [by constructor|done|by rewrite Es2|].
  assert (hold_same x x4 hs) as H4.
  { eapply hold_same_trans; [|apply G4]. intros c Hc. apply G2. apply list_elem_of_filter. set_solver. }
  destruct (in_data _ f G P) as [Ho Hs]; [destruct (bblock_range _ _ G Hfs); lia|].
  destruct (bzero_spec x4 hs f (go_in _ _ _ _ _ _ G4) Ho Hs) as (x5 & R5 & G5); [|done|done|].
  { intros c Hc. destruct (H4 c Hc) as [-> _]. by apply Hh. }
  exists x2, x3, x4, x5. split_and!; [rprim|done|done|done|]. eapply goes_view.
  - eapply goes_trans; [|exact G5]. eapply goes_trans; [|exact G4]. eapply goes_less; [exact G2|].
    intros c Hc. apply list_elem_of_filter. set_solver.
  - unfold allocated. apply upd_deq; [|done|done]. rewrite Eb. rewrite <- (go_view _ _ _ _ _ _ G4). symmetry. apply G2.
Qed.

Lemma balloc_loop_spec hs f L fuel : forall x b,
  intx x hs [] -> next_free x hs f L -> 0 <= b <= f -> b mod BPB = 0 -> f - b < Z.of_nat fuel * BPB ->
  exists x', runs [] (balloc_loop fuel dev sb b) x f x' [] /\ goes x x' hs hs [] (allocated (lv x dev) f).
Proof.
  induction fuel as [|fuel IH]; intros x b I F Hb Hm Hfu; [lia|]. pose proof (ix_place _ _ _ I) as P. pose proof F as [G Hl Hd Ht Hh Hf].
  destruct (free_head _ _ _ G Hl) as (Hfs & Hff & Hfl & _). pose proof (ge_size _ G) as Hsz. change (2 ^ 28) with 268435456 in Hsz.
  assert (0 <= b < size) as Hbs by lia. destruct (bitmap_outside _ b G P Hbs) as [Ho Hs]. destruct (bblock_range _ _ G Hbs) as [Ebb Hbb].
  destruct (ix_bread x hs [] (BBLOCK b N) I Ho Hs) as (p & x1 & R1 & G1 & Hp & Es & Eb); [|done|].
  { intros c Hc. destruct (Hh c Hc). lia. }
  assert (next_free x1 hs f L) as F1 by (eapply next_free_deq; [done|apply G1|apply G1|done]).
  assert (forall j, 0 <= j < BPB -> b + j < size -> bit_set (b_data (bufs x1 p)) j = in_use (lv x dev) (b + j)) as Hbit.
  { intros j Hj Hjs. rewrite (bit_set_blk _ _ _ Eb Hj). unfold in_use. change BPB with 4096 in *.
    assert ((b + j) mod 4096 = j) as -> by mlia. assert (b / 4096 = (b + j) / 4096) as Ed by mlia. by rewrite (proj2 (bblock_eq _ _ (b + j) G Hbs ltac:(lia)) Ed). }
  assert (b + BPB < 2 ^ 32) as Hb32 by (change BPB with 4096; lia).
  cbn [balloc_loop]. rewrite (u32_small b), (proj2 (Z.ltb_lt b size)) by lia.
  destruct (decide (f - b < BPB)) as [Hlt|Hge].
  - assert (f mod BPB = f - b /\ f / BPB = b / BPB) as [Efm Efd] by (change BPB with 4096 in *; split; mlia).
    destruct (set_bit_spec x1 hs p f L (go_in _ _ _ _ _ _ G1) F1) as (x2 & x3 & x4 & x5 & R2 & R3 & R4 & R5 & G5); [|done|].
    { rewrite Es. by apply (bblock_eq (lv x dev)). }
    assert (find_free (Z.to_nat BPB) (b_data (bufs x1 p)) b 0 size = f - b) as Ef.
    { apply find_free_hit; try lia; [rewrite Hbit by lia; by replace (b + (f - b)) with f by lia|].
      intros j Hj. rewrite Hbit by lia. apply Hfl. lia. }
    exists x5. split.
    + eapply runs_bind; [exact R1|]. cbv beta. rstep. rewrite Ef, (proj2 (Z.leb_le 0 (f - b))) by lia. rewrite <- Efm. eapply runs_bind; [exact R2|].
      cbv beta. eapply runs_bind; [exact R3|]. cbv beta. eapply runs_bind; [exact R4|]. cbv beta. rewrite Efm. replace (b + (f - b)) with f by lia.
      eapply runs_bind; [exact R5|]. cbv beta. rewrite u32_small by lia. rprim.
    + eapply goes_view; [eapply goes_trans; [exact G1|exact G5]|]. apply allocated_deq; [symmetry; apply G1|]. by eapply bitmap_outside.
  - assert (find_free (Z.to_nat BPB) (b_data (bufs x1 p)) b 0 size = -1) as Ef.
    { apply find_free_miss; try lia. intros j Hj Hjs. rewrite Hbit by lia. apply Hfl. lia. }
    destruct (ix_brelse x1 hs [] p (go_in _ _ _ _ _ _ G1)) as (x2 & R2 & G2); [apply not_elem_of_nil|].
    assert (deq (lv x dev) (lv x2 dev)) as E2 by (etransitivity; [apply (go_view _ _ _ _ _ _ G1)|apply (go_view _ _ _ _ _ _ G2)]).
    destruct (IH x2 (b + BPB) (go_in _ _ _ _ _ _ G2)) as (x3 & R3 & G3); [|change BPB with 4096 in *; lia|change BPB with 4096 in *; mlia|change BPB with 4096 in *; lia|].
    { eapply next_free_deq; [done|apply G2|apply G2|done]. }
    exists x3. split.
    + eapply runs_bind; [exact R1|]. cbv beta. rstep. rewrite Ef. eapply runs_bind; [exact R2|]. cbv beta.
      rewrite s32_small by (change BPB with 4096 in *; lia). exact R3.
    + eapply goes_view; [eapply goes_trans; [exact G1|]; eapply goes_trans; [exact G2|exact G3]|].
      apply allocated_deq; [by symmetry|]. by eapply bitmap_outside.
Qed.

(** balloc takes the first free block. *)
Lemma balloc_spec x hs f L : intx x hs [] -> next_free x hs f L ->
  exists x', runs [] (balloc dev) x f x' [] /\ goes x x' hs hs [] (allocated (lv x dev) f).
Proof.
  intros I F. pose proof (ix_place _ _ _ I) as P. pose proof F as [G Hl Hd Ht Hh Hf]. destruct (free_head _ _ _ G Hl) as (Hfs & _).
  assert (3 < data0 <= start) as Hd0.
  { destruct (bblock_range _ _ G Hfs) as [_ Hr]. pose proof (ge_data _ G). lia. }
  destruct (readsb_spec x hs I) as (x1 & R1 & G1); [apply (in_data _ _ G P); lia| |done|].
  { intros c Hc. destruct (Hh c Hc). lia. }
  destruct (balloc_loop_spec hs f L (Z.to_nat (size / BPB + 1)) x1 0 (go_in _ _ _ _ _ _ G1)) as (x2 & R2 & G2); [|lia|done| |].
  { eapply next_free_deq; [done|apply G1|apply G1|done]. }
  { change BPB with 4096. mlia. }
  exists x2. split.
  - unfold balloc. eapply runs_bind; [exact R1|]. cbv beta. rewrite (ge_sb _ G). exact R2.
  - eapply goes_view; [eapply goes_trans; [exact G1|exact G2]|]. apply allocated_deq; [symmetry; apply G1|]. by eapply bitmap_outside.
Qed.

End blocks.
