(* ===== verification/FileBlocks.v ===== *)
(** * The blocks of a file

    The addresses in an inode and its indirect block, and the bytes of the file
    they stand for; what the allocation of a block and a change of a block of
    the file do to them, to the other blocks in use and to the bitmap. *)

From Stdlib Require Import ZArith Lia String Bool.
From stdpp Require Import base numbers sets list.
From S2P Require Import Prelude Params Mem Spinlock FsState Bio Log Inode FsRun BioSpec LogSpec Crash Transaction Blocks.

Section file.
Context (dev start : Z) (sb : superblock).
Abbreviation outside := (outside dev start).
Abbreviation deq := (deq dev start).
Abbreviation geom := (geom start sb).
Abbreviation in_use := (in_use sb).
Abbreviation free_list := (free_list sb).
Abbreviation allocated := (allocated sb).
Abbreviation data0 := (data0 sb).
Abbreviation N := (sb_ninodes sb).
Abbreviation size := (sb_size sb).

(** The block of the file's block [bn], 0 if there is none. *)
Definition addr_of (a : Z -> Z) (V : Z -> mem) (bn : Z) : Z :=
  if bn <? NDIRECT then a bn else if a NDIRECT =? 0 then 0 else ld32 (V (a NDIRECT)) (4 * (bn - NDIRECT)).
(** The byte at position [p] of the file. *)
Definition byte_of (a : Z -> Z) (V : Z -> mem) (p : Z) : Z :=
  let s := addr_of a V (p / BSIZE) in if s =? 0 then 0 else ld8 (V s) (p mod BSIZE).

Definition fbn (bn : Z) : Prop := 0 <= bn < MAXFILE.
(** The blocks the file occupies. *)
Definition owns (a : Z -> Z) (V : Z -> mem) (s : Z) : Prop :=
  s <> 0 /\ (s = a NDIRECT \/ exists bn, fbn bn /\ addr_of a V bn = s).

Record file_ok (a : Z -> Z) (V : Z -> mem) : Prop := {
  fo_used : forall s, owns a V s -> data0 <= s < start /\ in_use V s = true;
  fo_inj : forall i j, fbn i -> fbn j -> addr_of a V i <> 0 -> addr_of a V i = addr_of a V j -> i = j;
  fo_ind : forall i, fbn i -> addr_of a V i <> 0 -> addr_of a V i <> a NDIRECT
}.

(** From (a, V) to (a', V') the file keeps its blocks and nothing else that is
    in use changes; the bytes of the file are then [h]. *)
Record evolves (a : Z -> Z) (V : Z -> mem) (a' : Z -> Z) (V' : Z -> mem) (h : Z -> Z) : Prop := {
  gr_geom : geom V';
  gr_ok : file_ok a' V';
  gr_addr : forall j, fbn j -> addr_of a V j <> 0 -> addr_of a' V' j = addr_of a V j;
  gr_byte : forall p, fbn (p / BSIZE) -> byte_of a' V' p = h p;
  gr_owns : forall s, owns a V s -> owns a' V' s;
  gr_frame : forall s, data0 <= s < start -> in_use V s = true -> ~ owns a V s ->
    blk_eq (V s) (V' s) /\ in_use V' s = true /\ ~ owns a' V' s;
  gr_meta : forall s, 0 <= s < N / IPB + 3 -> blk_eq (V s) (V' s)
}.

(** The file keeps its bytes. *)
Definition grown (a : Z -> Z) (V : Z -> mem) (a' : Z -> Z) (V' : Z -> mem) : Prop := evolves a V a' V' (byte_of a V).

Lemma grown_refl a V : geom V -> file_ok a V -> grown a V a V.
Proof. intros G F. by split. Qed.

Lemma evolves_trans a V a1 V1 a2 V2 h1 h2 : evolves a V a1 V1 h1 -> evolves a1 V1 a2 V2 h2 -> evolves a V a2 V2 h2.
Proof.
  intros [G1 F1 A1 B1 O1 H1 M1] [G2 F2 A2 B2 O2 H2 M2]. split; try done.
  - intros j Hj Hne. rewrite <- (A1 j Hj Hne). apply A2; [done|]. by rewrite A1.
  - intros s Hs. by apply O2, O1.
  - intros s Hs Hu Ho. destruct (H1 s Hs Hu Ho) as (E1 & U1 & N1). destruct (H2 s Hs U1 N1) as (E2 & U2 & N2).
    split_and!; try done. by transitivity (V1 s).
  - intros s Hs. transitivity (V1 s); auto.
Qed.
Lemma evolves_ext a V a' V' h h' : evolves a V a' V' h -> (forall p, fbn (p / BSIZE) -> h p = h' p) -> evolves a V a' V' h'.
Proof. intros [G F A B O H Me] E. split; try done. intros p Hp. by rewrite B, E. Qed.

Lemma data0_pos V : geom V -> 3 < data0 <= start.
Proof. intros [_ Hn Hs Hd]. unfold data0 in *. change IPB with 8 in *. change BPB with 4096 in *. mlia. Qed.

Lemma owned_outside a V s : log_place dev start -> geom V -> file_ok a V -> owns a V s -> outside dev s /\ sector_no s.
Proof. intros P G F O. apply (in_data dev start sb V); [done|done|]. destruct (fo_used _ _ F s O), (data0_pos V G). lia. Qed.

(** Views that agree outside the log show the same file. *)
Lemma addr_of_deq a V V' bn : log_place dev start -> geom V -> file_ok a V -> deq V V' -> fbn bn -> addr_of a V' bn = addr_of a V bn.
Proof.
  intros P G F E Hb. unfold addr_of. destruct (Z.ltb_spec bn NDIRECT); [done|]. destruct (Z.eqb_spec (a NDIRECT) 0); [done|].
  apply ld32_blk.
  - apply E, (owned_outside a V); [done..|]. split; [done|by left].
  - unfold fbn, MAXFILE in Hb. change NINDIRECT with 128 in Hb. change BSIZE with 512. lia.
Qed.

Lemma owns_deq a V V' s : log_place dev start -> geom V -> file_ok a V -> deq V V' -> owns a V' s <-> owns a V s.
Proof.
  intros P G F E. unfold owns. split; intros [Hs [H|(bn & Hb & Eb)]]; (split; [done|]); try (by left); right; exists bn; (split; [done|]).
  - by rewrite <- Eb, (addr_of_deq a V V').
  - by rewrite <- Eb, (addr_of_deq a V V').
Qed.

Lemma in_use_data V V' s : log_place dev start -> geom V -> deq V V' -> data0 <= s < start -> in_use V' s = in_use V s.
Proof.
  intros P G E Hs. apply (in_use_deq dev start); [done|]. pose proof (data0_pos V G).
  apply (bitmap_outside dev start sb V); [done|done|]. destruct G. lia.
Qed.

Lemma file_ok_deq a V V' : log_place dev start -> geom V -> deq V V' -> file_ok a V -> file_ok a V'.
Proof.
  intros P G E F. pose proof (fun bn => addr_of_deq a V V' bn P G F E) as A. split.
  - intros s Ho. apply (owns_deq a V) in Ho; [|done..]. destruct (fo_used _ _ F s Ho) as [Hs Hu]. split; [done|].
    by rewrite (in_use_data V V').
  - intros i j Hi Hj. rewrite !A by done. by apply F.
  - intros i Hi. rewrite !A by done. by apply F.
Qed.

Lemma byte_of_deq a V V' p : log_place dev start -> geom V -> file_ok a V -> deq V V' -> fbn (p / BSIZE) -> byte_of a V' p = byte_of a V p.
Proof.
  intros P G F E Hp. unfold byte_of. rewrite (addr_of_deq a V V') by done. destruct (Z.eqb_spec (addr_of a V (p / BSIZE)) 0); [done|].
  apply E; [|cbn; by apply Z.mod_pos_bound]. apply (owned_outside a V); [done..|]. split; [done|]. right. by exists (p / BSIZE).
Qed.

Lemma evolves_deq a V a' V' V'' h : log_place dev start -> geom V -> evolves a V a' V' h -> deq V' V'' -> evolves a V a' V'' h.
Proof.
  intros P G [G' F A B O H Me] E. destruct (geom_deq dev start sb V' V'' E P G') as [G'' _].
  pose proof (fun bn => addr_of_deq a' V' V'' bn P G' F E) as A'. pose proof (fun s => owns_deq a' V' V'' s P G' F E) as O'. split; try done.
  - by apply (file_ok_deq a' V').
  - intros j Hj Hne. by rewrite A', A.
  - intros p Hp. by rewrite (byte_of_deq a' V' V''), B.
  - intros s Hs. by apply O', O.
  - intros s Hs Hu Hn. destruct (H s Hs Hu Hn) as (E1 & U & No). split_and!.
    + etransitivity; [done|]. apply E. pose proof (data0_pos V G). apply (in_data dev start sb V); [done|done|lia].
    + by rewrite (in_use_data V' V'').
    + by rewrite O'.
  - intros s Hs. etransitivity; [by apply Me|]. apply E. pose proof (data0_pos V G). apply (in_data dev start sb V); [done|done|].
    destruct G. unfold data0 in *. change IPB with 8 in *. change BPB with 4096 in *. mlia.
Qed.

(** ** Allocation *)

(** [V'] is [V] with the free block [f] taken and zeroed, and perhaps a change
    of the block [i]. *)
Record taken (V V' : Z -> mem) (f i : Z) : Prop := {
  tk_geom : geom V';
  tk_range : data0 <= f < start;
  tk_free : in_use V f = false;
  tk_zero : blk_eq (fun _ => 0) (V' f);
  tk_used : forall s, data0 <= s < start -> in_use V' s = in_use V s || (s =? f);
  tk_data : forall s, data0 <= s < start -> s <> f -> s <> i -> V' s = V s;
  tk_meta : forall s, 0 <= s < N / IPB + 3 -> V' s = V s
}.

Lemma taken_allocated V f L i : geom V -> free_list V = f :: L -> data0 <= f < start -> taken V (allocated V f) f i.
Proof.
  intros G E Hf. destruct (free_head start sb V f L G E) as (Hs & Hu & _). destruct (geom_allocated start sb V f L G E) as [G' _]; [lia|].
  destruct (bblock_range start sb V f G Hs) as [Eb Hr]. pose proof (ge_size _ _ _ G). pose proof (data0_pos V G). split; try done.
  - unfold Blocks.allocated. by rewrite upd_same.
  - intros s Hs'. apply (in_use_allocated start); [done|lia|lia].
  - intros s Hs' Hne _. apply allocated_other; [done|lia].
  - intros s Hs'. apply allocated_other; [unfold data0 in *; change IPB with 8 in *; change BPB with 4096 in *; mlia|].
    rewrite Eb. change BPB with 4096. mlia.
Qed.

Lemma taken_upd V V1 f i m : taken V V1 f i -> data0 <= i < start -> i <> f -> taken V (upd V1 i m) f i.
Proof.
  intros [G Hf Hu Z0 U D Me] Hi Hne. pose proof (data0_pos V1 G) as Hd0. pose proof (ge_size _ _ _ G) as Hsz. split; try done.
  - destruct G as [Esb ? ? ?]. split; try done. rewrite <- Esb. unfold super. by rewrite upd_ne by lia.
  - by rewrite upd_ne by done.
  - intros s Hs. rewrite <- U by done. unfold Blocks.in_use. rewrite upd_ne; [done|].
    destruct (bblock_range start sb V1 s G); lia.
  - intros s Hs Hsf Hsi. rewrite upd_ne by done. by apply D.
  - intros s Hs. rewrite upd_ne; [by apply Me|]. unfold Blocks.data0 in *. change IPB with 8 in *. change BPB with 4096 in *. mlia.
Qed.

Section alloc.
Context (a : Z -> Z) (V V' : Z -> mem) (f : Z).
Context (G : geom V) (F : file_ok a V) (T : taken V V' f (a NDIRECT)).

Lemma new_not_owned s : owns a V s -> s <> f.
Proof. intros O ->. destruct (fo_used _ _ F f O) as [_ H]. rewrite (tk_free _ _ _ _ T) in H. done. Qed.
Lemma new_pos : f <> 0 /\ f <> a NDIRECT.
Proof.
  pose proof (tk_range _ _ _ _ T). pose proof (data0_pos V G). split; [lia|].
  intros E. apply (new_not_owned f); [|done]. split; [lia|by left].
Qed.

(** A data block is added to the file. *)
Lemma grow_addr a' bn : fbn bn -> addr_of a V bn = 0 -> a' NDIRECT = a NDIRECT ->
  (forall j, fbn j -> addr_of a' V' j = if j =? bn then f else addr_of a V j) -> grown a V a' V'.
Proof.
  intros Hbn E0 En A. destruct new_pos as [Hf0 Hfi]. pose proof (data0_pos V G) as Hd0.
  assert (forall s, owns a' V' s <-> owns a V s \/ s = f) as O.
  { intros s. unfold owns. rewrite En. split.
    - intros [Hs [->|(j & Hj & <-)]]; [left; split; [done|by left]|]. rewrite A in Hs |- * by done.
      destruct (Z.eqb_spec j bn); [by right|]. left. split; [done|]. right. by exists j.
    - intros [[Hs [->|(j & Hj & <-)]]| ->]; (split; [done|]); [by left|right; exists j|right; exists bn]; rewrite A by done; (split; [done|]).
      + by destruct (Z.eqb_spec j bn) as [->|].
      + by rewrite Z.eqb_refl. }
  assert (forall s, owns a V s -> s <> a NDIRECT -> V' s = V s) as Hsame.
  { intros s Hs Hi. apply (tk_data _ _ _ _ T); [by apply F|by apply new_not_owned|done]. }
  split; [apply T| | | | | |].
  - split.
    + intros s [Hs| ->]%O; [|split; [apply T|rewrite (tk_used _ _ _ _ T), Z.eqb_refl by apply T; apply orb_true_r]].
      destruct (fo_used _ _ F s Hs) as [Hr Hu]. split; [done|]. by rewrite (tk_used _ _ _ _ T), Hu.
    + intros i j Hi Hj. rewrite !A by done. destruct (Z.eqb_spec i bn) as [->|], (Z.eqb_spec j bn) as [->|]; intros Hne Eij; try done.
      * exfalso. apply (new_not_owned f); [|done]. split; [done|]. right. by exists j.
      * exfalso. apply (new_not_owned f); [|done]. split; [done|]. right. by exists i.
      * by apply F.
    + intros i Hi. rewrite A, En by done. destruct (Z.eqb_spec i bn); [done|by apply F].
  - intros j Hj Hne. rewrite A by done. by destruct (Z.eqb_spec j bn) as [->|].
  - intros p Hp. unfold byte_of. rewrite A by done. destruct (Z.eqb_spec (p / BSIZE) bn) as [->|Hne].
    + rewrite E0, (proj2 (Z.eqb_neq f 0)) by done. cbn. apply (tk_zero _ _ _ _ T). cbn. by apply Z.mod_pos_bound.
    + destruct (Z.eqb_spec (addr_of a V (p / BSIZE)) 0) as [|Hz]; [done|]. rewrite Hsame; [done| |by apply F].
      split; [done|]. right. by exists (p / BSIZE).
  - intros s Hs. apply O. by left.
  - intros s Hs Hu Hno. assert (s <> f) as Hsf by (intros ->; rewrite (tk_free _ _ _ _ T) in Hu; done).
    assert (s <> a NDIRECT) as Hsi by (intros Ei; apply Hno; split; [lia|by left]). split_and!.
    + by rewrite (tk_data _ _ _ _ T).
    + by rewrite (tk_used _ _ _ _ T), Hu.
    + by intros [?|?]%O.
  - intros s Hs. by rewrite (tk_meta _ _ _ _ T).
Qed.

(** The indirect block is added. *)
Lemma grow_indirect : a NDIRECT = 0 -> grown a V (upd a NDIRECT f) V' /\
  forall j, fbn j -> addr_of (upd a NDIRECT f) V' j = addr_of a V j.
Proof.
  intros E0. destruct new_pos as [Hf0 _]. pose proof (data0_pos V G) as Hd0.
  assert (forall j, fbn j -> addr_of (upd a NDIRECT f) V' j = addr_of a V j) as A.
  { intros j Hj. unfold addr_of. rewrite upd_same, E0. destruct (Z.ltb_spec j NDIRECT); [by rewrite upd_ne by lia|].
    rewrite (proj2 (Z.eqb_neq f 0)) by done. rewrite (ld32_blk _ _ _ (tk_zero _ _ _ _ T)); [done|].
    unfold fbn, MAXFILE in Hj. change NINDIRECT with 128 in Hj. change BSIZE with 512. lia. }
  split; [|done].
  assert (forall s, owns (upd a NDIRECT f) V' s <-> owns a V s \/ s = f) as O.
  { intros s. unfold owns. rewrite upd_same, E0. split.
    - intros [Hs [->|(j & Hj & <-)]]; [by right|]. left. rewrite A in Hs |- * by done. split; [done|]. right. by exists j.
    - intros [[Hs [->|(j & Hj & <-)]]| ->]; (split; [done|]); [done|right; exists j; by rewrite A|by left]. }
  assert (forall s, owns a V s -> V' s = V s) as Hsame.
  { intros s Hs. destruct (fo_used _ _ F s Hs). apply (tk_data _ _ _ _ T); [done|by apply new_not_owned|lia]. }
  split; [apply T| | | | | |].
  - split.
    + intros s [Hs| ->]%O; [|split; [apply T|rewrite (tk_used _ _ _ _ T), Z.eqb_refl by apply T; apply orb_true_r]].
      destruct (fo_used _ _ F s Hs) as [Hr Hu]. split; [done|]. by rewrite (tk_used _ _ _ _ T), Hu.
    + intros i j Hi Hj. rewrite !A by done. by apply F.
    + intros i Hi. rewrite A, upd_same by done. intros Hne. apply new_not_owned. split; [done|]. right. by exists i.
  - intros j Hj _. by apply A.
  - intros p Hp. unfold byte_of. rewrite A by done. destruct (Z.eqb_spec (addr_of a V (p / BSIZE)) 0) as [|Hz]; [done|].
    rewrite Hsame; [done|]. split; [done|]. right. by exists (p / BSIZE).
  - intros s Hs. apply O. by left.
  - intros s Hs Hu Hno. assert (s <> f) as Hsf by (intros ->; rewrite (tk_free _ _ _ _ T) in Hu; done). split_and!.
    + rewrite (tk_data _ _ _ _ T); [done|done|done|lia].
    + by rewrite (tk_used _ _ _ _ T), Hu.
    + by intros [?|?]%O.
  - intros s Hs. by rewrite (tk_meta _ _ _ _ T).
Qed.
End alloc.

(** ** A change of a block of the file *)

Lemma write_block a V bn m :
  geom V -> file_ok a V -> fbn bn -> addr_of a V bn <> 0 ->
  let V' := upd V (addr_of a V bn) m in
  evolves a V a V' (fun p => if p / BSIZE =? bn then ld8 m (p mod BSIZE) else byte_of a V p) /\
  (forall j, fbn j -> addr_of a V' j = addr_of a V j) /\ free_list V' = free_list V.
Proof.
  intros G F Hb Hne V'. set (s := addr_of a V bn) in *. pose proof (data0_pos V G) as Hd0. pose proof (ge_size _ _ _ G) as Hsz.
  assert (owns a V s) as Os by (split; [done|right; by exists bn]). destruct (fo_used _ _ F s Os) as [Hs Hu].
  assert (forall t, t <> s -> V' t = V t) as Hoth by (intros t Ht; unfold V'; by rewrite upd_ne).
  assert (forall b, 0 <= b < size -> in_use V' b = in_use V b) as Hin.
  { intros b Hb'. unfold Blocks.in_use. rewrite Hoth; [done|]. destruct (bblock_range start sb V b G Hb'). lia. }
  assert (forall j, fbn j -> addr_of a V' j = addr_of a V j) as A.
  { intros j Hj. unfold addr_of. destruct (j <? NDIRECT); [done|]. destruct (a NDIRECT =? 0); [done|]. rewrite Hoth; [done|].
    intros E. by apply (fo_ind _ _ F bn). }
  assert (forall t, owns a V' t <-> owns a V t) as O.
  { intros t. unfold owns. split; intros [Ht [E|(j & Hj & E)]]; (split; [done|]); try (by left); right; exists j; (split; [done|]); by rewrite A in *. }
  split_and!; [|done|].
  - split.
    + destruct G as [Esb ? ? ?]. split; try done. rewrite <- Esb. unfold super. by rewrite Hoth by lia.
    + split.
      * intros t Ht%O. destruct (fo_used _ _ F t Ht). by rewrite Hin by lia.
      * intros i j Hi Hj. rewrite !A by done. by apply F.
      * intros i Hi. rewrite A by done. by apply F.
    + intros j Hj _. by apply A.
    + intros p Hp. unfold byte_of. rewrite A by done. destruct (Z.eqb_spec (p / BSIZE) bn) as [->|Hpb].
      * fold s. rewrite (proj2 (Z.eqb_neq s 0)) by done. unfold V'. by rewrite upd_same.
      * destruct (Z.eqb_spec (addr_of a V (p / BSIZE)) 0); [done|]. rewrite Hoth; [done|]. intros E. apply Hpb. by apply (fo_inj _ _ F).
    + intros t Ht. by apply O.
    + intros t Ht Hut Hno. split_and!; [rewrite Hoth; [done|by intros ->]|by rewrite Hin by lia|by rewrite O].
    + intros t Ht. rewrite Hoth; [done|]. unfold Blocks.data0 in *. change IPB with 8 in *. change BPB with 4096 in *. mlia.
  - unfold Blocks.free_list. apply List.filter_ext_in. intros j Hj%list_elem_of_In%elem_of_seqZ. by rewrite Hin by lia.
Qed.

End file.
