(* ===== verification/FileSpec.v ===== *)
(** * Reading and writing files

    bmap, readi, writei and iupdate inside a transaction, as operations on the
    bytes of a file. *)

From Stdlib Require Import ZArith Lia String Bool.
From stdpp Require Import base numbers sets list.
From S2P Require Import Prelude Params Mem Spinlock FsState Bio Log Inode Console Fs FsRun BioSpec LogSpec Crash Transaction Blocks FileBlocks.

Section spec.
Context {St : Type} {K : Kernel St} {KS : KernelSpec St}.
Context (dev start : Z) (ts : list Z) (sb : superblock).
Abbreviation intx := (intx dev start ts).
Abbreviation goes := (goes dev start ts).
Abbreviation deq := (deq dev start).
Abbreviation geom := (geom start sb).
Abbreviation in_use := (in_use sb).
Abbreviation free_list := (free_list sb).
Abbreviation allocated := (allocated sb).
Abbreviation data0 := (data0 sb).
Abbreviation N := (sb_ninodes sb).
Abbreviation file_ok := (file_ok start sb).
Abbreviation evolves := (evolves start sb).
Abbreviation grown := (grown start sb).

(** ** The inode in the cache *)

Lemma ix_tables x x' hs ms :
  bufs x' = bufs x -> ide x' = ide x -> log x' = log x -> intx x hs ms -> intx x' hs ms /\ forall d s, lv x' d s = lv x d s.
Proof.
  intros E1 E2 E3 I. destruct x as [b i lg ? ? ? ? ?], x' as [b' i' lg' ? ? ? ? ?]. cbn in E1, E2, E3. subst. split; [|done].
  destruct I as [(n & sec & T & Hin) ? ?]. split; [|done..]. exists n, sec. split; [|done].
  destruct T as [[l Hc] ? ? ? ? ? Hl ? ? ? ? ? ?]. split; try done; [|by destruct Hl].
  exists l. by destruct Hc.
Qed.

(** What an operation on the file [ip] leaves alone. *)
Record fkept (ip : Z) (x x' : fsys) : Prop := {
  fk_other : forall i, i <> ip -> icache x' i = icache x i;
  fk_ftable : ftable x' = ftable x;
  fk_devsw : devsw x' = devsw x;
  fk_pipes : pipes x' = pipes x;
  fk_size : log_size (log x') = log_size (log x);
  fk_drive : log_only dev start (drv (ide x)) (drv (ide x'))
}.
#[export] Instance fkept_pre ip : PreOrder (fkept ip).
Proof.
  split.
  - intros x. by split.
  - intros x y z [? ? ? ? ? ?] [H ? ? ? ? ?]. split; try congruence; [|by etransitivity]. intros i Hi. rewrite H by done. auto.
Qed.
Lemma kept_fkept ip x x' : kept dev start x x' -> fkept ip x x'.
Proof. intros [[? ? ? ?] ? ?]. split; try done. intros i _. congruence. Qed.

Record at_file (x : fsys) (ip : Z) (v : inode) : Prop := {
  af_in : intx x [] [];
  af_ino : icache x ip = v;
  af_dev : i_dev v = dev;
  af_geom : geom (lv x dev);
  af_ok : file_ok (i_addrs v) (lv x dev)
}.

(** The next [k] free blocks are data blocks of the footprint, with the bitmap
    blocks that hold their bits. *)
Definition avail (k : nat) (V : Z -> mem) : Prop :=
  exists F L, free_list V = F ++ L /\ length F = k /\ Forall (fun f => data0 <= f < start /\ f ∈ ts /\ BBLOCK f N ∈ ts) F.

Lemma avail_drop k j V V' : avail (k + j) V -> free_list V' = drop k (free_list V) -> avail j V'.
Proof.
  intros (F & L & E & Hl & HF) E'. exists (drop k F), L. split_and!.
  - by rewrite E', E, drop_app_le by lia.
  - rewrite length_drop. lia.
  - by apply Forall_drop.
Qed.

Lemma avail_take k j V : avail k V -> (j <= k)%nat -> avail j V.
Proof.
  intros (F & L & E & Hl & HF) Hj. exists (take j F), (drop j F ++ L). split_and!.
  - by rewrite E, app_assoc, take_drop.
  - rewrite length_take. lia.
  - by apply Forall_take.
Qed.

(** An operation on the file that takes [k] blocks and leaves the blocks
    numbered [P] where they were. *)
Record moves (x x' : fsys) (ip : Z) (v : inode) (a' : Z -> Z) (h : Z -> Z) (k : nat) (P : Z -> Prop) : Prop := {
  mo_at : at_file x' ip (i_with_addrs a' v);
  mo_kept : fkept ip x x';
  mo_ev : evolves (i_addrs v) (lv x dev) a' (lv x' dev) h;
  mo_free : free_list (lv x' dev) = drop k (free_list (lv x dev));
  mo_same : forall j, fbn j -> P j -> addr_of a' (lv x' dev) j = addr_of (i_addrs v) (lv x dev) j
}.

Lemma moves_trans x y z ip v a1 a2 h1 h2 k1 k2 P1 P2 :
  moves x y ip v a1 h1 k1 P1 -> moves y z ip (i_with_addrs a1 v) a2 h2 k2 P2 ->
  moves x z ip v a2 h2 (k1 + k2) (fun j => P1 j /\ P2 j).
Proof.
  intros [A1 K1 E1 F1 S1] [A2 K2 E2 F2 S2]. split; try done.
  - by transitivity y.
  - by eapply evolves_trans.
  - by rewrite F2, F1, drop_drop.
  - intros j Hj [HP1 HP2]. by rewrite S2, <- S1.
Qed.

Lemma moves_weaken x y ip v a1 h h' k (P P' : Z -> Prop) :
  moves x y ip v a1 h k P -> (forall p, fbn (p / BSIZE) -> h p = h' p) -> (forall j, P' j -> P j) -> moves x y ip v a1 h' k P'.
Proof. intros [? ? ? ? S] Hh HP. split; try done; [by eapply evolves_ext|]. intros j Hj HP'. by apply S, HP. Qed.

Lemma with_same_addrs v : i_with_addrs (i_addrs v) v = v.
Proof. by destruct v. Qed.

(** Reading leaves everything as it is. *)
Lemma goes_moves x x' ip v : at_file x ip v -> goes x x' [] [] [] (lv x dev) -> moves x x' ip v (i_addrs v) (byte_of (i_addrs v) (lv x dev)) 0 (fun _ => True).
Proof.
  intros [I Ei Ed G F] [I' Kp E _]. pose proof (ix_place _ _ _ _ _ _ I) as P. destruct (geom_deq dev start sb _ _ E P G) as [G' El]. split.
  - rewrite with_same_addrs. split; try done; [|by apply (file_ok_deq dev start sb _ (lv x dev))].
    destruct Kp as [[-> _ _ _] _ _]. done.
  - by apply kept_fkept.
  - eapply evolves_deq; [done|done| |done]. by apply grown_refl.
  - by rewrite El.
  - intros j Hj _. by apply (addr_of_deq dev start sb).
Qed.

Lemma at_next x ip v k : at_file x ip v -> avail (S k) (lv x dev) -> exists f L, next_free dev start ts sb x [] f L.
Proof.
  intros [I _ _ G _] (F & L & E & Hl & HF). destruct F as [|f F]; [done|]. apply Forall_cons in HF as [(H1 & H2 & H3) _].
  exists f, (F ++ L). split; try done; [intros c Hc; set_solver|cbn; lia].
Qed.

(** ** bmap *)

(** Allocation does not change where the blocks of the file are. *)
Lemma addr_allocated a V f L j : geom V -> file_ok a V -> free_list V = f :: L -> data0 <= f < start -> fbn j ->
  addr_of a (allocated V f) j = addr_of a V j.
Proof.
  intros G F E Hf Hj. unfold addr_of. destruct (j <? NDIRECT); [done|]. destruct (Z.eqb_spec (a NDIRECT) 0) as [|Hne]; [done|].
  assert (owns a V (a NDIRECT)) as O by (split; [done|by left]).
  pose proof (new_not_owned start sb a V _ f F (taken_allocated start sb V f L _ G E Hf) _ O) as Hn.
  by rewrite (tk_data _ _ _ _ _ _ (taken_allocated start sb V f L f G E Hf)) by (done || by apply F).
Qed.

Lemma upd_addr a V f e j : 0 <= e < NDIRECT -> addr_of (upd a e f) V j = if j =? e then f else addr_of a V j.
Proof.
  intros He. unfold addr_of. rewrite (upd_ne a e NDIRECT f) by lia. unfold upd.
  destruct (Z.ltb_spec j NDIRECT); [done|]. by rewrite (proj2 (Z.eqb_neq j e)) by lia.
Qed.

(** The view after an allocation and an assignment to the inode *)
Lemma alloc_moves x x1 ip v f L e :
  at_file x ip v -> next_free dev start ts sb x [] f L -> goes x x1 [] [] [] (allocated (lv x dev) f) ->
  0 <= e <= NDIRECT -> i_addrs v e = 0 ->
  let x' := set_icache (upd (icache x1) ip (i_with_addrs (upd (i_addrs (icache x1 ip)) e f) (icache x1 ip))) x1 in
  moves x x' ip v (upd (i_addrs v) e f) (byte_of (i_addrs v) (lv x dev)) 1 (fun j => e = NDIRECT \/ j <> e).
Proof.
  intros [I Ei Ed G F] [_ Hl Hd _ _ _] [I1 K1 E1 _] He E0 x'. pose proof (ix_place _ _ _ _ _ _ I) as P. set (a := i_addrs v) in *. set (V := lv x dev) in *.
  assert (icache x1 ip = v) as Ei1 by (rewrite (st_icache _ _ (k_tables _ _ _ _ K1)); done).
  destruct (ix_tables x1 x' [] [] eq_refl eq_refl eq_refl I1) as [I' L']. destruct (geom_allocated start sb V f L G Hl) as [Ga El]; [lia|].
  assert (deq (allocated V f) (lv x' dev)) as E' by (intros s Hs; rewrite L'; by apply E1).
  destruct (geom_deq dev start sb _ _ E' P Ga) as [G' El'].
  pose proof (taken_allocated start sb V f L (a NDIRECT) G Hl Hd) as T.
  pose proof (fun j => addr_allocated a V f L j G F Hl Hd) as A.
  assert (evolves a V (upd a e f) (allocated V f) (byte_of a V) /\
    forall j, fbn j -> e = NDIRECT \/ j <> e -> addr_of (upd a e f) (allocated V f) j = addr_of a V j) as [Ev Hs].
  { destruct (decide (e = NDIRECT)) as [->|Hne].
    - destruct (grow_indirect start sb a V _ f G F T E0) as [Hg Ha]. split; [exact Hg|]. intros j Hj _. by apply Ha.
    - assert (0 <= e < NDIRECT) as He' by lia. split.
      + eapply (grow_addr start sb a V _ f G F T _ e).
        * unfold fbn, MAXFILE. change NINDIRECT with 128. lia.
        * unfold addr_of. by rewrite (proj2 (Z.ltb_lt e NDIRECT)) by lia.
        * by rewrite upd_ne by lia.
        * intros j Hj. rewrite upd_addr by done. by rewrite A.
      + intros j Hj [?|Hje]; [done|]. rewrite upd_addr, (proj2 (Z.eqb_neq j e)) by done. by apply A. }
  pose proof (evolves_deq dev start sb _ _ _ _ _ _ P G Ev E') as Ev'. split.
  - split; try done; [|apply Ev']. cbn. by rewrite upd_same, Ei1.
  - transitivity x1; [by apply kept_fkept|]. split; try done. intros i Hi. cbn. by rewrite upd_ne.
  - exact Ev'.
  - rewrite El', El. fold V. by rewrite Hl.
  - intros j Hj Hje. rewrite (addr_of_deq dev start sb _ (allocated V f)); [by apply Hs|done|done|apply Ev|done|done].
Qed.

(** A new block in the inode itself *)
Lemma new_entry x ip v e :
  at_file x ip v -> avail 1 (lv x dev) -> 0 <= e <= NDIRECT -> i_addrs v e = 0 ->
  exists f x', runs [] (let* addr := balloc dev in set_addr ip e addr ;; ret addr) x f x' [] /\ data0 <= f < start /\ f ∈ ts /\
    moves x x' ip v (upd (i_addrs v) e f) (byte_of (i_addrs v) (lv x dev)) 1 (fun j => e = NDIRECT \/ j <> e).
Proof.
  intros A Hav He E0. destruct (at_next x ip v 0 A Hav) as (f & L & F). destruct (balloc_spec dev start ts sb x [] f L (af_in _ _ _ A) F) as (x1 & R & G).
  exists f. eexists. split_and!; [|apply F|apply F|apply F|by eapply alloc_moves].
  eapply runs_bind; [exact R|]. cbv beta. rstep. rprim.
Qed.

(** The part of bmap that looks into the indirect block *)
Definition indirect_entry (s k : Z) : M St Z :=
  let* bp := bread dev s in
  let* m := bget_ bp b_data in
  let addr := ld32 m (4 * k) in
  let* addr :=
    (if addr =? 0 then
       let* addr := balloc dev in
       bset bp (fun x => b_with_data (st32 (b_data x) (4 * k) addr) x) ;;
       log_write bp ;;
       ret addr
     else ret addr) in
  brelse bp ;;
  ret addr.

Lemma indirect_range k : fbn (NDIRECT + k) -> 0 <= k -> 0 <= 4 * k <= BSIZE - 4.
Proof. unfold fbn, MAXFILE. change NINDIRECT with 128. change BSIZE with 512. lia. Qed.

Lemma addr_indirect a V k : 0 <= k -> a NDIRECT <> 0 -> addr_of a V (NDIRECT + k) = ld32 (V (a NDIRECT)) (4 * k).
Proof.
  intros Hk Hne. unfold addr_of. rewrite (proj2 (Z.ltb_ge (NDIRECT + k) NDIRECT)), (proj2 (Z.eqb_neq (a NDIRECT) 0)) by lia.
  do 2 f_equal. lia.
Qed.

Section indirect.
Context (x : fsys) (ip : Z) (v : inode) (k : Z).
Context (A : at_file x ip v) (Hk : 0 <= k) (Hbn : fbn (NDIRECT + k)) (Hnd : i_addrs v NDIRECT <> 0).
Abbreviation a := (i_addrs v).
Abbreviation V := (lv x dev).

Lemma indirect_bread : exists b x1, runs [] (bread dev (a NDIRECT)) x b x1 [] /\ goes x x1 [] [b] [] V /\
  b_sector (bufs x1 b) = a NDIRECT /\ blk_eq (V (a NDIRECT)) (b_data (bufs x1 b)) /\
  ld32 (b_data (bufs x1 b)) (4 * k) = addr_of a V (NDIRECT + k).
Proof.
  destruct A as [I Ei Ed G F]. destruct (owned_outside dev start sb a V (a NDIRECT)) as [Ho Hs]; [by eapply ix_place|done|done|by split; [|left]|].
  destruct (ix_bread dev start ts x [] [] (a NDIRECT) I Ho Hs) as (b & x1 & R & G1 & _ & Es & Eb); [set_solver|cbn; lia|].
  exists b, x1. split_and!; try done. rewrite addr_indirect by done. apply ld32_blk; [done|]. by apply indirect_range.
Qed.

Lemma indirect_old : addr_of a V (NDIRECT + k) <> 0 ->
  exists x', runs [] (indirect_entry (a NDIRECT) k) x (addr_of a V (NDIRECT + k)) x' [] /\ goes x x' [] [] [] V.
Proof.
  intros Hne. destruct indirect_bread as (b & x1 & R1 & G1 & Es & Eb & E).
  destruct (ix_brelse dev start ts x1 [] [] b (go_in _ _ _ _ _ _ _ _ _ G1)) as (x2 & R2 & G2); [apply not_elem_of_nil|].
  exists x2. split.
  - unfold indirect_entry. eapply runs_bind; [exact R1|]. cbv beta. rstep. rewrite E, (proj2 (Z.eqb_neq _ 0)) by done.
    rstep. eapply runs_bind; [exact R2|]. cbv beta. rprim.
  - eapply goes_view; [eapply goes_trans; [exact G1|exact G2]|]. symmetry. apply G1.
Qed.

(** The disk with the new entry in the indirect block *)
Definition entered (f : Z) : Z -> mem := upd (allocated V f) (a NDIRECT) (st32 (V (a NDIRECT)) (4 * k) f).

Lemma st32_blk m m' c w : blk_eq m m' -> blk_eq (st32 m c w) (st32 m' c w).
Proof. intros H i Hi. rewrite !ld8_st32. destruct (_ && _); [done|by apply H]. Qed.

Lemma next_free_indirect f L x1 b : next_free dev start ts sb x [] f L -> goes x x1 [] [b] [] V -> b_sector (bufs x1 b) = a NDIRECT ->
  next_free dev start ts sb x1 [b] f L /\ a NDIRECT <> f /\ data0 <= a NDIRECT < start.
Proof.
  intros [G Hl Hd Ht _ _] G1 Es. destruct A as [I _ _ _ F]. assert (owns a V (a NDIRECT)) as O by by split; [|left].
  destruct (geom_deq dev start sb _ _ (go_view _ _ _ _ _ _ _ _ _ G1) (ix_place _ _ _ _ _ _ I) G) as [G' El].
  assert (a NDIRECT <> f) as Hne by apply (new_not_owned start sb a V _ f F (taken_allocated start sb V f L _ G Hl Hd) _ O).
  split_and!; [split; try done; [congruence|]|done|by apply F|by apply F]. intros c ->%list_elem_of_singleton. rewrite Es. split; [by apply F|done].
Qed.

Lemma indirect_new_code f L :
  next_free dev start ts sb x [] f L -> addr_of a V (NDIRECT + k) = 0 -> a NDIRECT ∈ ts ->
  exists x', runs [] (indirect_entry (a NDIRECT) k) x f x' [] /\ goes x x' [] [] [] (entered f).
Proof.
  intros Fr E0 Hts. destruct indirect_bread as (b & x1 & R1 & G1 & Es & Eb & E). destruct (next_free_indirect f L x1 b Fr G1 Es) as (Fr1 & Hne & _).
  destruct (balloc_spec dev start ts sb x1 [b] f L (go_in _ _ _ _ _ _ _ _ _ G1) Fr1) as (x2 & R2 & G2).
  destruct (go_hold _ _ _ _ _ _ _ _ _ G2 b) as [Es2 Eb2]; [set_solver|]. rewrite Es in Es2.
  destruct (ix_modify dev start ts x2 [b] [] b (fun m => st32 m (4 * k) f) (go_in _ _ _ _ _ _ _ _ _ G2)) as (G3 & Es3 & _); [set_solver|].
  set (x3 := set_bufs _ x2) in *. rewrite Es2 in G3, Es3.
  destruct (ix_log_write dev start ts x3 [b] [b] b (go_in _ _ _ _ _ _ _ _ _ G3)) as (x4 & R4 & G4); [set_solver|by constructor|cbn; lia|by rewrite Es3|].
  destruct (ix_brelse dev start ts x4 [] [] b (go_in _ _ _ _ _ _ _ _ _ G4)) as (x5 & R5 & G5); [apply not_elem_of_nil|].
  assert (deq (entered f) (lv x4 dev)) as V4.
  { etransitivity; [|apply (go_view _ _ _ _ _ _ _ _ _ G4)]. etransitivity; [|apply (go_view _ _ _ _ _ _ _ _ _ G3)]. unfold entered.
    apply upd_deq; [|done|rewrite Eb2; by apply st32_blk]. etransitivity; [|apply (go_view _ _ _ _ _ _ _ _ _ G2)].
    apply allocated_deq; [apply (go_view _ _ _ _ _ _ _ _ _ G1)|]. destruct (free_head start sb _ _ _ (nf_geom _ _ _ _ _ _ _ _ Fr) (nf_list _ _ _ _ _ _ _ _ Fr)) as (Hf & _).
    apply (bitmap_outside dev start sb V f (nf_geom _ _ _ _ _ _ _ _ Fr)); [by eapply ix_place; destruct A|done]. }
  exists x5. split.
  - unfold indirect_entry. eapply runs_bind; [exact R1|]. cbv beta. rstep. rewrite E, E0. cbn [Z.eqb].
    eapply runs_bind; [|cbv beta; eapply runs_bind; [exact R5|cbv beta; rprim]].
    eapply runs_bind; [exact R2|]. cbv beta. rstep. fold x3. eapply runs_bind; [exact R4|]. cbv beta. rprim.
  - eapply goes_view; [|by symmetry]. eapply goes_trans; [exact G1|].
    eapply goes_trans; [eapply goes_less; [exact G2|set_solver]|]. eapply goes_trans; [eapply goes_less; [exact G3|set_solver]|].
    eapply goes_trans; [eapply goes_less; [exact G4|set_solver]|exact G5].
Qed.

Lemma indirect_new_view f L x' :
  next_free dev start ts sb x [] f L -> addr_of a V (NDIRECT + k) = 0 -> goes x x' [] [] [] (entered f) ->
  moves x x' ip v a (byte_of a V) 1 (fun j => j <> NDIRECT + k) /\ addr_of a (lv x' dev) (NDIRECT + k) = f.
Proof.
  intros Fr E0 [I' Kp E' _]. pose proof Fr as [G Hl Hd _ _ _]. destruct A as [I Ei Ed _ F]. pose proof (ix_place _ _ _ _ _ _ I) as P.
  assert (owns a V (a NDIRECT)) as O by by split; [|left]. destruct (fo_used _ _ _ _ F _ O) as [Hr _].
  pose proof (taken_allocated start sb V f L (a NDIRECT) G Hl Hd) as T0.
  pose proof (new_not_owned start sb a V _ f F T0 _ O) as Hne.
  pose proof (taken_upd start sb V _ f (a NDIRECT) (st32 (V (a NDIRECT)) (4 * k) f) T0 Hr Hne) as T. fold (entered f) in T.
  assert (forall j, fbn j -> addr_of a (entered f) j = if j =? NDIRECT + k then f else addr_of a V j) as Ad.
  { intros j Hj. unfold addr_of, entered. rewrite upd_same. rewrite (proj2 (Z.eqb_neq (a NDIRECT) 0)) by done.
    destruct (Z.ltb_spec j NDIRECT); [by rewrite (proj2 (Z.eqb_neq j _)) by lia|]. destruct (Z.eqb_spec j (NDIRECT + k)) as [->|].
    - replace (NDIRECT + k - NDIRECT) with k by lia. rewrite ld32_st32_same. apply u32_small. pose proof (data0_pos start sb V G). destruct G. lia.
    - rewrite ld32_st32_ne by lia. done. }
  pose proof (grow_addr start sb a V _ f G F T a (NDIRECT + k) Hbn E0 eq_refl Ad) as Ev.
  pose proof (evolves_deq dev start sb _ _ _ _ _ _ P G Ev E') as Ev'.
  assert (forall j, fbn j -> addr_of a (lv x' dev) j = if j =? NDIRECT + k then f else addr_of a V j) as Ad'.
  { intros j Hj. rewrite (addr_of_deq dev start sb _ (entered f)); [by apply Ad|done|apply Ev|apply Ev|done|done]. }
  split; [split|by rewrite Ad', Z.eqb_refl].
  - rewrite with_same_addrs. split; try done; [|apply Ev'|apply Ev']. rewrite (st_icache _ _ (k_tables _ _ _ _ Kp)). done.
  - by apply kept_fkept.
  - exact Ev'.
  - destruct (geom_deq dev start sb _ _ E' P (tk_geom _ _ _ _ _ _ T)) as [_ ->]. destruct (free_head start sb V f L G Hl) as (_ & _ & _ & Hn).
    rewrite Hl. cbn [drop]. apply Hn. intros j Hj. rewrite <- (in_use_allocated start sb V f j G) by (pose proof (ge_size _ _ _ G); lia).
    unfold Blocks.in_use, entered. rewrite upd_ne; [done|]. destruct (bblock_range start sb V j G Hj). lia.
  - intros j Hj Hjk. rewrite Ad' by done. by rewrite (proj2 (Z.eqb_neq _ _)).
Qed.

Lemma indirect_new : addr_of a V (NDIRECT + k) = 0 -> avail 1 V -> a NDIRECT ∈ ts ->
  exists f x', runs [] (indirect_entry (a NDIRECT) k) x f x' [] /\ data0 <= f < start /\ f ∈ ts /\
    moves x x' ip v a (byte_of a V) 1 (fun j => j <> NDIRECT + k) /\ addr_of a (lv x' dev) (NDIRECT + k) = f.
Proof.
  intros E0 Hav Hts. destruct (at_next x ip v 0 A Hav) as (f & L & Fr). destruct (indirect_new_code f L Fr E0 Hts) as (x' & R & G).
  exists f, x'. split_and!; try done; [apply Fr|apply Fr|apply Fr|by eapply indirect_new_view|by eapply indirect_new_view].
Qed.
End indirect.

(** The blocks bmap takes. *)
Definition need (a : Z -> Z) (V : Z -> mem) (bn : Z) : nat :=
  if addr_of a V bn =? 0 then if (NDIRECT <=? bn) && (a NDIRECT =? 0) then 2 else 1 else 0.

(** bmap [bn] returned [s]. *)
Record mapped (x x' : fsys) (ip : Z) (v : inode) (bn s : Z) (a' : Z -> Z) : Prop := {
  mp_moves : moves x x' ip v a' (byte_of (i_addrs v) (lv x dev)) (need (i_addrs v) (lv x dev) bn) (fun j => j <> bn);
  mp_addr : addr_of a' (lv x' dev) bn = s;
  mp_some : s <> 0;
  mp_ts : addr_of (i_addrs v) (lv x dev) bn = 0 -> s ∈ ts;
  mp_ind : a' NDIRECT = i_addrs v NDIRECT \/ i_addrs v NDIRECT = 0 /\ NDIRECT <= bn /\ a' NDIRECT <> 0 /\ a' NDIRECT ∈ ts;
  mp_has : NDIRECT <= bn -> a' NDIRECT <> 0
}.

Lemma bmap_direct x ip v bn :
  at_file x ip v -> 0 <= bn < NDIRECT -> avail (need (i_addrs v) (lv x dev) bn) (lv x dev) ->
  exists s x' a', runs [] (bmap ip bn) x s x' [] /\ mapped x x' ip v bn s a'.
Proof.
  intros A Hbn Hav. assert (fbn bn) as Hf by (unfold fbn, MAXFILE; change NINDIRECT with 128; lia).
  assert (addr_of (i_addrs v) (lv x dev) bn = i_addrs v bn) as Ea by (unfold addr_of; by rewrite (proj2 (Z.ltb_lt bn NDIRECT)) by lia).
  unfold need in Hav. rewrite Ea, (proj2 (Z.leb_gt NDIRECT bn)) in Hav by lia. cbn [andb] in Hav.
  destruct (Z.eqb_spec (i_addrs v bn) 0) as [E0|E0].
  - destruct (new_entry x ip v bn A Hav) as (f & x' & R & Hfr & Hts & Mv); [lia|done|]. exists f, x', (upd (i_addrs v) bn f). split.
    + unfold bmap. rstep. rewrite (proj2 (Z.ltb_lt bn NDIRECT)) by lia. rstep. rewrite (af_ino _ _ _ A), E0, (af_dev _ _ _ A). cbn [Z.eqb]. exact R.
    + split; try done.
      * unfold need. rewrite Ea, E0, (proj2 (Z.leb_gt NDIRECT bn)) by lia. eapply moves_weaken; [exact Mv|done|tauto].
      * by rewrite upd_addr, Z.eqb_refl by lia.
      * pose proof (data0_pos start sb _ (af_geom _ _ _ A)). lia.
      * left. by rewrite upd_ne by lia.
      * lia.
  - exists (i_addrs v bn), x, (i_addrs v). split.
    + unfold bmap. rstep. rewrite (proj2 (Z.ltb_lt bn NDIRECT)) by lia. rstep. rewrite (af_ino _ _ _ A), (proj2 (Z.eqb_neq (i_addrs v bn) 0)) by done. rprim.
    + split; [|done|done|congruence|by left|lia]. unfold need. rewrite Ea, (proj2 (Z.eqb_neq (i_addrs v bn) 0)) by done.
      eapply moves_weaken; [apply goes_moves; [done|]|done|done]. split; [apply A|done|done|apply hold_same_refl].
Qed.

(** bmap with the indirect block in place *)
Lemma indirect_spec x ip v k :
  at_file x ip v -> 0 <= k -> fbn (NDIRECT + k) -> i_addrs v NDIRECT <> 0 -> avail (need (i_addrs v) (lv x dev) (NDIRECT + k)) (lv x dev) ->
  (addr_of (i_addrs v) (lv x dev) (NDIRECT + k) = 0 -> i_addrs v NDIRECT ∈ ts) ->
  exists s x', runs [] (indirect_entry (i_addrs v NDIRECT) k) x s x' [] /\ mapped x x' ip v (NDIRECT + k) s (i_addrs v).
Proof.
  intros A Hk Hbn Hnd Hav Hts. unfold need in Hav. rewrite (proj2 (Z.eqb_neq (i_addrs v NDIRECT) 0)), andb_false_r in Hav by done.
  destruct (Z.eqb_spec (addr_of (i_addrs v) (lv x dev) (NDIRECT + k)) 0) as [E0|E0].
  - destruct (indirect_new x ip v k A Hk Hbn Hnd E0 Hav (Hts E0)) as (f & x' & R & Hf & Hfts & Mv & Ea). exists f, x'. split; [done|].
    split; try done; [| |by left].
    + unfold need. rewrite E0, (proj2 (Z.eqb_neq (i_addrs v NDIRECT) 0)), andb_false_r by done. exact Mv.
    + pose proof (data0_pos start sb _ (af_geom _ _ _ A)). lia.
  - destruct (indirect_old x ip v k A Hk Hbn Hnd E0) as (x' & R & G). pose proof (goes_moves x x' ip v A G) as Mv. eexists _, x'. split; [exact R|].
    split; [|exact (mo_same _ _ _ _ _ _ _ _ Mv _ Hbn I)|done|congruence|by left|done].
    unfold need. rewrite (proj2 (Z.eqb_neq _ 0) E0). by eapply moves_weaken; [exact Mv|done|done].
Qed.

(** bmap beyond the direct blocks: the indirect block, then its entry *)
Lemma bmap_via ip k s b x1 x2 x3 :
  0 <= k -> fbn (NDIRECT + k) -> i_dev (icache x1 ip) = dev ->
  runs [] (if i_addrs (icache x1 ip) NDIRECT =? 0 then let* addr := balloc dev in set_addr ip NDIRECT addr ;; ret addr
           else ret (i_addrs (icache x1 ip) NDIRECT)) x1 s x2 [] ->
  runs [] (indirect_entry s k) x2 b x3 [] -> runs [] (bmap ip (NDIRECT + k)) x1 b x3 [].
Proof.
  intros Hk Hbn Hd R1 R2. unfold bmap. rstep. rewrite Hd. rewrite (proj2 (Z.ltb_ge (NDIRECT + k) NDIRECT)) by lia.
  replace (NDIRECT + k - NDIRECT) with k by lia. rewrite (proj2 (Z.ltb_lt k NINDIRECT)) by (unfold fbn, MAXFILE in Hbn; lia).
  rstep. eapply runs_bind; [exact R1|exact R2].
Qed.

Lemma bmap_indirect x ip v k :
  at_file x ip v -> 0 <= k -> fbn (NDIRECT + k) -> avail (need (i_addrs v) (lv x dev) (NDIRECT + k)) (lv x dev) ->
  (i_addrs v NDIRECT <> 0 -> addr_of (i_addrs v) (lv x dev) (NDIRECT + k) = 0 -> i_addrs v NDIRECT ∈ ts) ->
  exists s x' a', runs [] (bmap ip (NDIRECT + k)) x s x' [] /\ mapped x x' ip v (NDIRECT + k) s a'.
Proof.
  intros A Hk Hbn Hav Hts.
  destruct (decide (i_addrs v NDIRECT = 0)) as [E0|E0].
  - assert (addr_of (i_addrs v) (lv x dev) (NDIRECT + k) = 0) as Ea.
    { unfold addr_of. rewrite (proj2 (Z.ltb_ge (NDIRECT + k) NDIRECT)), E0 by lia. done. }
    assert (need (i_addrs v) (lv x dev) (NDIRECT + k) = 2%nat) as En.
    { unfold need. rewrite Ea, E0, (proj2 (Z.leb_le NDIRECT (NDIRECT + k))) by lia. done. }
    rewrite En in Hav. destruct (new_entry x ip v NDIRECT A) as (f & x1 & R1 & Hf & Hfts & Mv1); [apply (avail_take 2 1); [done|lia]|unfold NDIRECT; lia|done|].
    set (v1 := i_with_addrs (upd (i_addrs v) NDIRECT f) v) in *.
    assert (i_addrs v1 NDIRECT = f) as Ev1 by apply upd_same.
    pose proof (data0_pos start sb _ (af_geom _ _ _ A)) as Hd0.
    assert (addr_of (i_addrs v1) (lv x1 dev) (NDIRECT + k) = 0) as Ea1 by (rewrite <- Ea; apply (mo_same _ _ _ _ _ _ _ _ Mv1); [done|by left]).
    assert (need (i_addrs v1) (lv x1 dev) (NDIRECT + k) = 1%nat) as En1.
    { unfold need. rewrite Ea1, Ev1, (proj2 (Z.eqb_neq f 0)), andb_false_r by lia. done. }
    destruct (indirect_spec x1 ip v1 k (mo_at _ _ _ _ _ _ _ _ Mv1) Hk Hbn) as (s & x2 & R2 & Mp).
    { rewrite Ev1. lia. } { rewrite En1. apply (avail_drop 1 1 (lv x dev)); [done|apply (mo_free _ _ _ _ _ _ _ _ Mv1)]. } { by rewrite Ev1. }
    exists s, x2, (i_addrs v1). split.
    + eapply bmap_via; [done|done|by rewrite (af_ino _ _ _ A), (af_dev _ _ _ A)| |exact R2]. rewrite (af_ino _ _ _ A), E0, Ev1. cbn [Z.eqb]. exact R1.
    + destruct Mp as [Mv2 ? ? Hin ? ?]. split; try done.
      * rewrite En. eapply moves_weaken; [eapply (moves_trans _ _ _ _ _ _ _ _ _ 1 1); [exact Mv1|rewrite En1 in Mv2; exact Mv2]| |tauto].
        intros p Hp. apply (gr_byte _ _ _ _ _ _ _ (mo_ev _ _ _ _ _ _ _ _ Mv1) p Hp).
      * intros _. by apply Hin.
      * right. rewrite Ev1. split_and!; [done|lia|lia|done].
  - destruct (indirect_spec x ip v k A Hk Hbn E0 Hav (Hts E0)) as (s & x' & R & Mp). exists s, x', (i_addrs v). split; [|done].
    eapply bmap_via; [done|done|by rewrite (af_ino _ _ _ A), (af_dev _ _ _ A)| |exact R].
    rewrite (af_ino _ _ _ A), (proj2 (Z.eqb_neq _ 0) E0). rprim.
Qed.

Lemma bmap_spec x ip v bn :
  at_file x ip v -> fbn bn -> avail (need (i_addrs v) (lv x dev) bn) (lv x dev) ->
  (NDIRECT <= bn -> i_addrs v NDIRECT <> 0 -> addr_of (i_addrs v) (lv x dev) bn = 0 -> i_addrs v NDIRECT ∈ ts) ->
  exists s x' a', runs [] (bmap ip bn) x s x' [] /\ mapped x x' ip v bn s a'.
Proof.
  intros A Hbn Hav Hts. destruct (decide (bn < NDIRECT)); [apply bmap_direct; [done|unfold fbn in Hbn; lia|done]|].
  replace bn with (NDIRECT + (bn - NDIRECT)) in * by lia. apply bmap_indirect; [done|lia|done|done|]. intros. apply Hts; [lia|done..].
Qed.

(** bmap of a block that is there only looks. *)
Lemma bmap_mapped x ip v bn :
  at_file x ip v -> fbn bn -> addr_of (i_addrs v) (lv x dev) bn <> 0 ->
  exists x', runs [] (bmap ip bn) x (addr_of (i_addrs v) (lv x dev) bn) x' [] /\ goes x x' [] [] [] (lv x dev).
Proof.
  intros A Hbn Hne. destruct (decide (bn < NDIRECT)) as [Hlt|Hge].
  - assert (addr_of (i_addrs v) (lv x dev) bn = i_addrs v bn) as Ea by (unfold addr_of; by rewrite (proj2 (Z.ltb_lt bn NDIRECT)) by lia).
    rewrite Ea in *. exists x. split; [|split; [apply A|done|done|apply hold_same_refl]].
    unfold bmap. rstep. rewrite (proj2 (Z.ltb_lt bn NDIRECT)) by lia. rstep. rewrite (af_ino _ _ _ A), (proj2 (Z.eqb_neq (i_addrs v bn) 0)) by done. rprim.
  - assert (i_addrs v NDIRECT <> 0) as Hnd.
    { intros E. apply Hne. unfold addr_of. rewrite (proj2 (Z.ltb_ge bn NDIRECT)), E by lia. done. }
    assert (bn = NDIRECT + (bn - NDIRECT)) as Eb by lia. rewrite Eb in Hbn, Hne |- *.
    destruct (indirect_old x ip v (bn - NDIRECT) A ltac:(lia) Hbn Hnd Hne) as (x' & R & G). exists x'. split; [|done].
    eapply bmap_via; [lia|done|by rewrite (af_ino _ _ _ A), (af_dev _ _ _ A)| |exact R].
    rewrite (af_ino _ _ _ A), (proj2 (Z.eqb_neq _ 0) Hnd). rprim.
Qed.

(** ** The blocks of a range of bytes *)

Definition blocks (off r : Z) : list Z := if r <=? 0 then [] else seqZ (off / BSIZE) ((off + r - 1) / BSIZE - off / BSIZE + 1).
(** The bytes of one step of readi or writei. *)
Definition chunk (off r : Z) : Z := Z.min r (BSIZE - off mod BSIZE).

Lemma blocks_cons off r : 0 < r -> blocks off r = off / BSIZE :: blocks (off + chunk off r) (r - chunk off r).
Proof.
  intros Hr. unfold blocks, chunk. change BSIZE with 512 in *. rewrite (proj2 (Z.leb_gt r 0)) by done.
  rewrite seqZ_cons by mlia. f_equal. destruct (decide (r <= 512 - off mod 512)) as [Hle|Hgt].
  - rewrite Z.min_l, (proj2 (Z.leb_le (r - r) 0)) by lia. apply seqZ_nil. mlia.
  - rewrite Z.min_r, (proj2 (Z.leb_gt _ 0)) by lia. f_equal; mlia.
Qed.

Lemma in_blocks off r j : j ∈ blocks off r -> 0 < r /\ off / BSIZE <= j <= (off + r - 1) / BSIZE.
Proof. unfold blocks. destruct (Z.leb_spec r 0); [by intros ?%elem_of_nil|]. intros ?%elem_of_seqZ. lia. Qed.

Lemma blocks_next off r j : 0 < r -> j ∈ blocks (off + chunk off r) (r - chunk off r) -> off / BSIZE < j.
Proof. intros Hr [H1 H2]%in_blocks. unfold chunk in *. change BSIZE with 512 in *. mlia. Qed.

Definition unmapped (a : Z -> Z) (V : Z -> mem) (bn : Z) : bool := addr_of a V bn =? 0.
(** The blocks that are taken for the file blocks [bl]. *)
Definition needs (a : Z -> Z) (V : Z -> mem) (bl : list Z) : nat :=
  length (List.filter (unmapped a V) bl) + (if (a NDIRECT =? 0) && existsb (Z.leb NDIRECT) bl then 1 else 0).

(** The footprint covers a write to the file blocks [bl]. *)
Record ready_for (a : Z -> Z) (V : Z -> mem) (bl : list Z) : Prop := {
  rf_avail : avail (needs a V bl) V;
  rf_old : forall j, j ∈ bl -> addr_of a V j <> 0 -> addr_of a V j ∈ ts;
  rf_ind : forall j, j ∈ bl -> NDIRECT <= j -> a NDIRECT <> 0 -> addr_of a V j = 0 -> a NDIRECT ∈ ts
}.

Lemma filter_same a V a' V' bl : (forall j, j ∈ bl -> addr_of a' V' j = addr_of a V j) -> List.filter (unmapped a' V') bl = List.filter (unmapped a V) bl.
Proof. intros H. apply List.filter_ext_in. intros j Hj%list_elem_of_In. unfold unmapped. by rewrite H. Qed.

Lemma needs_cons x x' ip v bn s a' bl :
  at_file x ip v -> fbn bn -> mapped x x' ip v bn s a' -> (forall j, j ∈ bl -> fbn j /\ bn < j) ->
  needs (i_addrs v) (lv x dev) (bn :: bl) = (need (i_addrs v) (lv x dev) bn + needs a' (lv x' dev) bl)%nat.
Proof.
  intros A Hbn Mp Hbl. set (a := i_addrs v). set (V := lv x dev). unfold needs.
  rewrite (filter_same a V a' (lv x' dev)).
  2:{ intros j Hj. destruct (Hbl j Hj). apply (mo_same _ _ _ _ _ _ _ _ (mp_moves _ _ _ _ _ _ _ Mp)); [done|lia]. }
  cbn [List.filter existsb]. unfold need. fold (unmapped a V bn). pose proof (mp_ind _ _ _ _ _ _ _ Mp) as Hi. pose proof (mp_has _ _ _ _ _ _ _ Mp) as Hh. fold a in Hi.
  destruct (Z.eqb_spec (a NDIRECT) 0) as [E0|E0]; cbn [andb].
  - destruct (Z.leb_spec NDIRECT bn) as [Hle|Hlt]; cbn [orb andb].
    + rewrite (proj2 (Z.eqb_neq (a' NDIRECT) 0)) by auto. cbn [andb]. assert (unmapped a V bn = true) as ->.
      { unfold unmapped, addr_of. by rewrite (proj2 (Z.ltb_ge bn NDIRECT)), E0 by done. }
      cbn [length]. lia.
    + destruct Hi as [->|(_ & ? & _)]; [|lia]. rewrite E0. cbn [Z.eqb andb]. destruct (unmapped a V bn); cbn [length]; lia.
  - destruct Hi as [->|(? & _)]; [|done]. rewrite (proj2 (Z.eqb_neq (a NDIRECT) 0)), andb_false_r by done. destruct (unmapped a V bn); cbn [length andb]; lia.
Qed.

Lemma ready_head x ip v bn bl : ready_for (i_addrs v) (lv x dev) (bn :: bl) -> at_file x ip v -> avail (need (i_addrs v) (lv x dev) bn) (lv x dev).
Proof.
  intros [Hav _ _] A. eapply avail_take; [exact Hav|]. set (a := i_addrs v). set (V := lv x dev). unfold needs, need. cbn [List.filter existsb].
  fold (unmapped a V bn). destruct (unmapped a V bn); [|lia]. cbn [length].
  destruct (Z.leb_spec NDIRECT bn), (Z.eqb_spec (a NDIRECT) 0); cbn [andb orb]; lia.
Qed.

Lemma ready_tail x x' ip v bn s a' bl :
  at_file x ip v -> fbn bn -> mapped x x' ip v bn s a' -> (forall j, j ∈ bl -> fbn j /\ bn < j) ->
  ready_for (i_addrs v) (lv x dev) (bn :: bl) -> ready_for a' (lv x' dev) bl /\ s ∈ ts.
Proof.
  intros A Hbn Mp Hbl [Hav Ho Hi]. pose proof (needs_cons x x' ip v bn s a' bl A Hbn Mp Hbl) as En.
  assert (forall j, j ∈ bl -> addr_of a' (lv x' dev) j = addr_of (i_addrs v) (lv x dev) j) as Hs.
  { intros j Hj. destruct (Hbl j Hj). apply (mo_same _ _ _ _ _ _ _ _ (mp_moves _ _ _ _ _ _ _ Mp)); [done|lia]. }
  split; [split|].
  - rewrite En in Hav. eapply avail_drop; [exact Hav|]. apply (mo_free _ _ _ _ _ _ _ _ (mp_moves _ _ _ _ _ _ _ Mp)).
  - intros j Hj. rewrite Hs by done. apply Ho. set_solver.
  - intros j Hj Hle Hne E0. destruct (mp_ind _ _ _ _ _ _ _ Mp) as [E|(_ & _ & _ & H)]; [|done]. rewrite E in *. apply (Hi j); [set_solver|done|done|].
    by rewrite <- Hs.
  - destruct (decide (addr_of (i_addrs v) (lv x dev) bn = 0)) as [E0|E0]; [by apply Mp|].
    rewrite <- (mp_addr _ _ _ _ _ _ _ Mp). rewrite (gr_addr _ _ _ _ _ _ _ (mo_ev _ _ _ _ _ _ _ _ (mp_moves _ _ _ _ _ _ _ Mp))) by done. apply Ho; [set_solver|done].
Qed.

(** ** writei *)

Lemma update_then {A : Type} s f (k : M St A) x x1 b y :
  runs [] (update dev s f) x tt x1 [] -> runs [] k x1 b y [] ->
  runs [] (let* bp := bread dev s in bset bp (fun z => b_with_data (f (b_data z)) z) ;; log_write bp ;; brelse bp ;; k) x b y [].
Proof.
  intros R1 R2 st Hst Hx. destruct (runs_bind _ _ _ _ _ _ _ _ _ _ R1 R2 st Hst Hx) as (st' & E & H). exists st'. split; [|done].
  rewrite <- E. unfold update, bind. destruct (bread dev s st) as [[bp st1]| | | |]; try done.
  destruct (bset bp _ st1) as [[[] st2]| | | |]; try done. by destruct (log_write bp st2) as [[[] st3]| | | |].
Qed.

(** The bytes [h] with [m] bytes of [src], from [tot], put at [off]. *)
Definition put_bytes (h : Z -> Z) (src : mem) (off tot m : Z) (p : Z) : Z :=
  if (off <=? p) && (p <? off + m) then ld8 src (tot + (p - off)) else h p.

Lemma put_bytes_app h src off tot m m' p : 0 <= m -> 0 <= m' ->
  put_bytes (put_bytes h src off tot m) src (off + m) (tot + m) m' p = put_bytes h src off tot (m + m') p.
Proof.
  intros Hm Hm'. unfold put_bytes.
  destruct (Z.leb_spec (off + m) p), (Z.leb_spec off p), (Z.ltb_spec p (off + m + m')), (Z.ltb_spec p (off + m)), (Z.ltb_spec p (off + (m + m')));
    cbn [andb]; try lia; try done. f_equal. lia.
Qed.

Lemma ld8_blit m d src n a : ld8 (blit m d src n) a = if (d <=? a) && (a <? d + n) then ld8 src (a - d) else ld8 m a.
Proof. unfold ld8, blit. by destruct (_ && _). Qed.

Lemma blit_blk_eq m m' d src n : blk_eq m m' -> blk_eq (blit m d src n) (blit m' d src n).
Proof. intros H i Hi. rewrite !ld8_blit. destruct (_ && _); [done|by apply H]. Qed.

(** The chunk as bytes of the file *)
Lemma chunk_bytes a V s off src tot r p : s <> 0 -> addr_of a V (off / BSIZE) = s -> 0 <= r -> 0 <= off ->
  (if p / BSIZE =? off / BSIZE then ld8 (blit (V s) (off mod BSIZE) (fun i => src (tot + i)) (chunk off r)) (p mod BSIZE) else byte_of a V p) =
  put_bytes (byte_of a V) src off tot (chunk off r) p.
Proof.
  intros Hs Ea Hr Ho. unfold put_bytes. rewrite ld8_blit. pose proof (Z.div_mod off BSIZE ltac:(done)). pose proof (Z.div_mod p BSIZE ltac:(done)).
  pose proof (Z.mod_pos_bound off BSIZE ltac:(done)). pose proof (Z.mod_pos_bound p BSIZE ltac:(done)). unfold chunk.
  change BSIZE with 512 in *. destruct (Z.eqb_spec (p / 512) (off / 512)) as [E|E].
  - assert (byte_of a V p = ld8 (V s) (p mod 512)) as ->.
    { unfold byte_of. change BSIZE with 512. by rewrite E, Ea, (proj2 (Z.eqb_neq s 0)). }
    replace (off <=? p) with (off mod 512 <=? p mod 512) by (destruct (Z.leb_spec (off mod 512) (p mod 512)), (Z.leb_spec off p); lia).
    replace (p <? off + Z.min r (512 - off mod 512)) with (p mod 512 <? off mod 512 + Z.min r (512 - off mod 512)).
    2:{ destruct (Z.ltb_spec (p mod 512) (off mod 512 + Z.min r (512 - off mod 512))), (Z.ltb_spec p (off + Z.min r (512 - off mod 512))); lia. }
    destruct (_ && _); [|done]. unfold ld8. do 2 f_equal. lia.
  - destruct (Z.leb_spec off p), (Z.ltb_spec p (off + Z.min r (512 - off mod 512))); cbn [andb]; try done. exfalso. apply E.
    symmetry. apply (Z.div_unique p 512 (off / 512) (p - 512 * (off / 512))); lia.
Qed.

(** One step of the loop after bmap *)
Lemma write_chunk x ip v off src tot r :
  at_file x ip v -> fbn (off / BSIZE) -> 0 <= off -> 0 <= r -> addr_of (i_addrs v) (lv x dev) (off / BSIZE) <> 0 ->
  addr_of (i_addrs v) (lv x dev) (off / BSIZE) ∈ ts ->
  exists x', runs [] (update dev (addr_of (i_addrs v) (lv x dev) (off / BSIZE)) (fun m => blit m (off mod BSIZE) (fun a => src (tot + a)) (chunk off r))) x tt x' [] /\
    moves x x' ip v (i_addrs v) (put_bytes (byte_of (i_addrs v) (lv x dev)) src off tot (chunk off r)) 0 (fun _ => True).
Proof.
  intros A Hbn Ho Hr Hne Hts. pose proof A as [I Ei Ed G F]. set (a := i_addrs v) in *. set (V := lv x dev) in *. set (s := addr_of a V (off / BSIZE)) in *.
  pose proof (ix_place _ _ _ _ _ _ I) as P. destruct (owned_outside dev start sb a V s P G F) as [Hos Hs].
  { split; [done|]. right. by exists (off / BSIZE). }
  destruct (ix_update dev start ts x [] s (fun m => blit m (off mod BSIZE) (fun i => src (tot + i)) (chunk off r)) I Hos Hs) as (x' & R & Gx); [set_solver|cbn; lia|done| |].
  { intros m m'. apply blit_blk_eq. }
  exists x'. split; [exact R|]. destruct Gx as [I' Kp E' _]. fold V in E'.
  destruct (write_block start sb a V (off / BSIZE) (blit (V s) (off mod BSIZE) (fun i => src (tot + i)) (chunk off r)) G F Hbn Hne) as (Ev & Ad & Fl). fold s in Ev, Ad, Fl.
  assert (evolves a V a (lv x' dev) (put_bytes (byte_of a V) src off tot (chunk off r))) as Ev'.
  { eapply evolves_ext; [eapply evolves_deq; [exact P|exact G|exact Ev|exact E']|]. intros p Hp. cbv beta. by apply chunk_bytes. }
  split.
  - unfold a; rewrite with_same_addrs. split; try done; [|apply Ev'|apply Ev']. by rewrite (st_icache _ _ (k_tables _ _ _ _ Kp)).
  - by apply kept_fkept.
  - exact Ev'.
  - destruct (geom_deq dev start sb _ _ E' P (gr_geom _ _ _ _ _ _ _ Ev)) as [_ ->]. exact Fl.
  - intros j Hj _. rewrite (addr_of_deq dev start sb _ _ _ j P (gr_geom _ _ _ _ _ _ _ Ev) (gr_ok _ _ _ _ _ _ _ Ev) E' Hj). by apply Ad.
Qed.

Lemma ready_same a V V' bl : ready_for a V bl -> (forall j, j ∈ bl -> addr_of a V' j = addr_of a V j) -> free_list V' = free_list V -> ready_for a V' bl.
Proof.
  intros [Hav Ho Hi] Hs Hf. split.
  - unfold needs. rewrite (filter_same a V a V') by done. destruct Hav as (F & L & E & H). exists F, L. by rewrite Hf.
  - intros j Hj. rewrite Hs by done. by apply Ho.
  - intros j Hj. rewrite Hs by done. by apply Hi.
Qed.

Lemma range_blocks off r j : 0 <= off -> off + r <= MAXFILE * BSIZE -> j ∈ blocks off r -> fbn j.
Proof. intros Ho Hr [H1 H2]%in_blocks. unfold fbn. change MAXFILE with 140 in *. change BSIZE with 512 in *. mlia. Qed.

Lemma chunk_range off r : 0 < r -> 0 < chunk off r <= r.
Proof. intros Hr. unfold chunk. change BSIZE with 512. mlia. Qed.

Lemma chunk_next off r : 0 <= off -> 0 < r -> forall j, j ∈ blocks (off + chunk off r) (r - chunk off r) -> off + r <= MAXFILE * BSIZE -> fbn j /\ off / BSIZE < j.
Proof.
  intros Ho Hr j Hj Hm. pose proof (chunk_range off r Hr). split; [|by eapply blocks_next].
  eapply range_blocks; [|..|exact Hj]; lia.
Qed.

Lemma moves_put x y ip v a1 k P src off tot m a2 y2 k2 P2 m2 : 0 <= m -> 0 <= m2 ->
  moves x y ip v a1 (put_bytes (byte_of (i_addrs v) (lv x dev)) src off tot m) k P ->
  moves y y2 ip (i_with_addrs a1 v) a2 (put_bytes (byte_of a1 (lv y dev)) src (off + m) (tot + m) m2) k2 P2 ->
  moves x y2 ip v a2 (put_bytes (byte_of (i_addrs v) (lv x dev)) src off tot (m + m2)) (k + k2) (fun j => P j /\ P2 j).
Proof.
  intros Hm Hm2 M1 M2. eapply moves_weaken; [eapply moves_trans; [exact M1|exact M2]| |done]. intros p Hp. rewrite <- put_bytes_app by done.
  unfold put_bytes at 1 2. by rewrite (gr_byte _ _ _ _ _ _ _ (mo_ev _ _ _ _ _ _ _ _ M1) p Hp).
Qed.

Lemma put_nothing h src off tot p : put_bytes h src off tot 0 p = h p.
Proof. unfold put_bytes. destruct (Z.leb_spec off p), (Z.ltb_spec p (off + 0)); cbn [andb]; done || lia. Qed.

Lemma moves_nothing x ip v src off tot : at_file x ip v ->
  moves x x ip v (i_addrs v) (put_bytes (byte_of (i_addrs v) (lv x dev)) src off tot 0) 0 (fun _ => True).
Proof.
  intros A. eapply moves_weaken; [apply goes_moves; [done|split; [apply A|done|done|apply hold_same_refl]]| |done].
  intros p _. by rewrite put_nothing.
Qed.

(** One step of the loop *)
Lemma write_step x ip v off src tot r bl :
  at_file x ip v -> fbn (off / BSIZE) -> 0 <= off -> 0 <= r -> (forall j, j ∈ bl -> fbn j /\ off / BSIZE < j) ->
  ready_for (i_addrs v) (lv x dev) (off / BSIZE :: bl) ->
  exists s x1 x2 a1, runs [] (bmap ip (off / BSIZE)) x s x1 [] /\
    runs [] (update dev s (fun m => blit m (off mod BSIZE) (fun a => src (tot + a)) (chunk off r))) x1 tt x2 [] /\
    moves x x2 ip v a1 (put_bytes (byte_of (i_addrs v) (lv x dev)) src off tot (chunk off r)) (need (i_addrs v) (lv x dev) (off / BSIZE)) (fun j => j <> off / BSIZE) /\
    ready_for a1 (lv x2 dev) bl /\ addr_of a1 (lv x2 dev) (off / BSIZE) <> 0 /\
    needs (i_addrs v) (lv x dev) (off / BSIZE :: bl) = (need (i_addrs v) (lv x dev) (off / BSIZE) + needs a1 (lv x2 dev) bl)%nat /\
    (a1 NDIRECT = i_addrs v NDIRECT \/ i_addrs v NDIRECT = 0 /\ NDIRECT <= off / BSIZE).
Proof.
  intros A Hbn Ho Hr Hbl Hrd.
  destruct (bmap_spec x ip v (off / BSIZE) A Hbn) as (s & x1 & a1 & R1 & Mp); [by eapply ready_head|by apply (rf_ind _ _ _ Hrd), elem_of_cons; left|].
  destruct (ready_tail x x1 ip v (off / BSIZE) s a1 bl A Hbn Mp Hbl Hrd) as [Hrd1 Hts].
  pose proof (mp_moves _ _ _ _ _ _ _ Mp) as M1. pose proof (mp_addr _ _ _ _ _ _ _ Mp) as Ea. pose proof (mp_some _ _ _ _ _ _ _ Mp) as Hs0.
  destruct (write_chunk x1 ip (i_with_addrs a1 v) off src tot r (mo_at _ _ _ _ _ _ _ _ M1) Hbn Ho Hr) as (x2 & R2 & M2); cbn [i_addrs i_with_addrs] in *; try congruence.
  rewrite Ea in R2. pose proof (mo_same _ _ _ _ _ _ _ _ M2) as Hs2. cbn [i_addrs i_with_addrs] in Hs2.
  exists s, x1, x2, a1. split_and!; [exact R1|exact R2| | | | |destruct (mp_ind _ _ _ _ _ _ _ Mp); tauto].
  - replace (need (i_addrs v) (lv x dev) (off / BSIZE)) with (need (i_addrs v) (lv x dev) (off / BSIZE) + 0)%nat by lia.
    eapply moves_weaken; [eapply moves_trans; [exact M1|exact M2]| |intros j Hj; exact (conj Hj I)]. intros p Hp. unfold put_bytes.
    by rewrite (gr_byte _ _ _ _ _ _ _ (mo_ev _ _ _ _ _ _ _ _ M1) p Hp).
  - apply (ready_same a1 (lv x1 dev)); [done| |apply (mo_free _ _ _ _ _ _ _ _ M2)]. intros j Hj. apply Hs2; [by apply Hbl|done].
  - rewrite (Hs2 _ Hbn Logic.I), Ea. exact Hs0.
  - rewrite (needs_cons x x1 ip v (off / BSIZE) s a1 bl A Hbn Mp Hbl). f_equal. unfold needs. f_equal. f_equal. symmetry. apply filter_same.
    intros j Hj. apply Hs2; [by apply Hbl|done].
Qed.

Lemma writei_loop_spec ip src n fuel : forall x v off tot,
  at_file x ip v -> 0 <= tot <= n -> 0 <= off -> off + (n - tot) <= MAXFILE * BSIZE ->
  (length (blocks off (n - tot)) <= fuel)%nat -> ready_for (i_addrs v) (lv x dev) (blocks off (n - tot)) ->
  exists x' a', runs [] (writei_loop fuel ip src off n tot) x (off + (n - tot)) x' [] /\
    moves x x' ip v a' (put_bytes (byte_of (i_addrs v) (lv x dev)) src off tot (n - tot))
      (needs (i_addrs v) (lv x dev) (blocks off (n - tot))) (fun j => j ∉ blocks off (n - tot)) /\
    (forall j, j ∈ blocks off (n - tot) -> addr_of a' (lv x' dev) j <> 0) /\
    (a' NDIRECT = i_addrs v NDIRECT \/ i_addrs v NDIRECT = 0 /\ exists j, j ∈ blocks off (n - tot) /\ NDIRECT <= j).
Proof.
  induction fuel as [|fuel IH]; intros x v off tot A Ht Ho Hm Hf Hrd; (destruct (decide (tot = n)) as [->|Hne];
    [rewrite Z.sub_diag; exists x, (i_addrs v); split_and!; [unfold writei_loop; rewrite Z.ltb_irrefl, Z.add_0_r; rprim| |intros j []%in_blocks; lia|by left];
     unfold needs; cbn; rewrite andb_false_r; eapply moves_weaken; [by apply moves_nothing|done|done]|]).
  { rewrite blocks_cons in Hf by lia. cbn in Hf. lia. }
  assert (0 < n - tot) as Hr by lia. pose proof (chunk_range off (n - tot) Hr) as Hc. pose proof (fun j Hj => chunk_next off (n - tot) Ho Hr j Hj Hm) as Hbl.
  rewrite blocks_cons in Hf, Hrd |- * by done. cbn [length] in Hf.
  assert (fbn (off / BSIZE)) as Hbn by (eapply (range_blocks off (n - tot)); [done|done|rewrite blocks_cons by done; apply elem_of_cons; by left]).
  destruct (write_step x ip v off src tot (n - tot) _ A Hbn Ho ltac:(lia) Hbl Hrd) as (s & x1 & x2 & a1 & R1 & R2 & M2 & Hrd2 & Ha & En & Hnd).
  set (m := chunk off (n - tot)) in *. replace (n - tot - m) with (n - (tot + m)) in * by lia. set (bl := blocks (off + m) (n - (tot + m))) in *.
  destruct (IH x2 (i_with_addrs a1 v) (off + m) (tot + m)) as (x3 & a3 & R3 & M3 & Hmap & Hnd3); [apply M2|lia|lia|lia|by apply le_S_n|exact Hrd2|].
  fold bl in M3, Hmap, Hnd3. cbn [i_addrs i_with_addrs] in M3. exists x3, a3. split_and!.
  - cbn [writei_loop]. rewrite (proj2 (Z.ltb_lt tot n)) by lia. rstep. rewrite (af_ino _ _ _ A), (af_dev _ _ _ A).
    eapply runs_bind; [exact R1|]. cbv beta zeta. fold (chunk off (n - tot)). fold m.
    apply (update_then s (fun y => blit y (off mod BSIZE) (fun a => src (tot + a)) m) _ _ x2); [exact R2|].
    clearbody m. rewrite u32_small by (change (MAXFILE * BSIZE) with 71680 in Hm; lia). replace (off + (n - tot)) with (off + m + (n - (tot + m))) by lia. exact R3.
  - rewrite En. replace (n - tot) with (m + (n - (tot + m))) by lia. eapply moves_weaken; [eapply (moves_put x x2 ip v a1 _ _ src off tot m a3 x3 _ _ (n - (tot + m))); [lia|lia|exact M2|exact M3]|done|].
    intros j Hj. apply not_elem_of_cons in Hj. tauto.
  - intros j [->|Hj]%elem_of_cons; [|by apply Hmap]. rewrite (gr_addr _ _ _ _ _ _ _ (mo_ev _ _ _ _ _ _ _ _ M3)); done.
  - cbn [i_addrs i_with_addrs] in Hnd3. destruct Hnd as [E|[E Hle]]; [|right; split; [done|]; exists (off / BSIZE); split; [apply elem_of_cons; by left|done]].
    rewrite <- E. destruct Hnd3 as [E3|(E3 & j & Hj & Hle)]; [by left|right]. split; [done|]. exists j. split; [apply elem_of_cons; by right|done].
Qed.
End spec.
