(* ===== verification/FileIO.v ===== *)
(** * Whole reads and writes of a file

    The inode on the disk and in the cache (iupdate, ilock), and what readi and
    writei do to the bytes of a file and to the other files. *)

From Stdlib Require Import ZArith Lia String Bool.
From stdpp Require Import base numbers sets list.
From S2P Require Import Prelude Params Mem Spinlock FsState Bio Log Inode Console Fs FsRun BioSpec LogSpec Crash Transaction Blocks FileBlocks FileSpec.

(** ** The on-disk inode *)

(** The offset of an inode in its block. *)
Definition ioff (inum : Z) : Z := inum mod IPB * sizeof_dinode.

(** The block with the inode copied into it, as iupdate does. *)
Definition put_dinode (v : inode) (m : mem) : mem :=
  let off := ioff (i_inum v) in
  put_addrs (Z.to_nat (NDIRECT + 1))
    (st32 (st16 (st16 (st16 (st16 m (off + di_type) (i_type v)) (off + di_major) (i_major v)) (off + di_minor) (i_minor v))
       (off + di_nlink) (i_nlink v)) (off + di_size) (i_size v)) (off + di_addrs) (i_addrs v) 0.

(** The block holds the inode [v]. *)
Record saved_in (m : mem) (v : inode) : Prop := {
  sv_type : s16 (ld16 m (ioff (i_inum v) + di_type)) = i_type v;
  sv_major : s16 (ld16 m (ioff (i_inum v) + di_major)) = i_major v;
  sv_minor : s16 (ld16 m (ioff (i_inum v) + di_minor)) = i_minor v;
  sv_nlink : s16 (ld16 m (ioff (i_inum v) + di_nlink)) = i_nlink v;
  sv_size : ld32 m (ioff (i_inum v) + di_size) = i_size v;
  sv_addrs : forall i, 0 <= i <= NDIRECT -> ld32 m (ioff (i_inum v) + di_addrs + 4 * i) = i_addrs v i
}.

(** The fields of an inode are of their C types. *)
Definition short (z : Z) : Prop := -0x8000 <= z < 0x8000.
Definition uint (z : Z) : Prop := 0 <= z < 0x100000000.
Record typed (v : inode) : Prop := {
  ty_type : short (i_type v); ty_major : short (i_major v); ty_minor : short (i_minor v); ty_nlink : short (i_nlink v);
  ty_size : uint (i_size v); ty_addrs : forall i, 0 <= i <= NDIRECT -> uint (i_addrs v i)
}.

Lemma ld8_st16 m a v b : ld8 (st16 m a v) b = if b =? a + 1 then u8 (Z.shiftr v 8) else if b =? a then u8 v else ld8 m b.
Proof. unfold st16. by rewrite !ld8_st8. Qed.

Lemma ld16_st16 m a v b : (b = a \/ b + 2 <= a \/ a + 2 <= b) -> ld16 (st16 m a v) b = if b =? a then u16 v else ld16 m b.
Proof.
  intros H. unfold ld16. rewrite !ld8_st16. destruct (Z.eqb_spec b a) as [->|].
  - rewrite (proj2 (Z.eqb_neq a (a + 1))), Z.eqb_refl by lia. unfold u8, u16. rewrite Z.shiftr_div_pow2 by lia. change (2 ^ 8) with 256. mlia.
  - rewrite !(proj2 (Z.eqb_neq _ _)) by lia. done.
Qed.

Lemma s16_u16 v : short v -> s16 (u16 v) = v.
Proof. unfold short, s16, u16. intros H. destruct (Z.ltb_spec (v mod 65536 mod 65536) 32768); mlia. Qed.

Lemma ld16_agree (P : Z -> Prop) m m' a : agree P m m' -> P a -> P (a + 1) -> ld16 m' a = ld16 m a.
Proof. intros H H1 H2. unfold ld16. by rewrite !H. Qed.

Lemma put_addrs_ld8 n : forall m a f i b, (b < a + 4 * i \/ a + 4 * (i + Z.of_nat n) <= b) -> ld8 (put_addrs n m a f i) b = ld8 m b.
Proof.
  induction n as [|n IH]; intros m a f i b H; cbn [put_addrs]; [done|]. rewrite IH by lia. rewrite ld8_st32.
  destruct (Z.leb_spec (a + 4 * i) b), (Z.ltb_spec b (a + 4 * i + 4)); cbn [andb]; done || lia.
Qed.
Lemma put_addrs_ld32 n : forall m a f i j, i <= j < i + Z.of_nat n -> ld32 (put_addrs n m a f i) (a + 4 * j) = u32 (f j).
Proof.
  induction n as [|n IH]; intros m a f i j H; cbn [put_addrs]; [lia|]. destruct (decide (j = i)) as [->|]; [|apply IH; lia].
  rewrite <- (ld32_st32_same m (a + 4 * i)). apply (ld32_agree (fun b => a + 4 * i <= b < a + 4 * i + 4)); [|lia].
  intros b Hb. apply put_addrs_ld8. lia.
Qed.

Lemma put_dinode_saved v m : typed v -> saved_in (put_dinode v m) v.
Proof.
  intros [T1 T2 T3 T4 T5 T6]. set (off := ioff (i_inum v)). unfold put_dinode. fold off. set (m4 := st16 (st16 _ _ _) _ _). set (m' := st32 _ _ _).
  assert (forall b, b < off + di_addrs -> ld8 (put_addrs (Z.to_nat (NDIRECT + 1)) m' (off + di_addrs) (i_addrs v) 0) b = ld8 m' b) as Hlow.
  { intros b Hb. apply put_addrs_ld8. lia. }
  assert (forall b, b + 2 <= off + di_size -> ld16 (put_addrs (Z.to_nat (NDIRECT + 1)) m' (off + di_addrs) (i_addrs v) 0) b = ld16 m4 b) as H16.
  { intros b Hb. unfold ld16. rewrite !Hlow by (unfold di_size, di_addrs in *; lia). unfold m'. rewrite !ld8_st32.
    by rewrite !(proj2 (Z.leb_gt (off + di_size) _)) by lia. }
  split; fold off; try (rewrite H16 by (unfold di_type, di_major, di_minor, di_nlink, di_size; lia); unfold m4, di_type, di_major, di_minor, di_nlink;
    rewrite !ld16_st16 by lia; repeat rewrite (proj2 (Z.eqb_neq (off + _) (off + _))) by lia; rewrite Z.eqb_refl; by apply s16_u16).
  - rewrite (ld32_agree (fun b => b < off + di_addrs) m'); [unfold m'; rewrite ld32_st32_same; by apply u32_small|exact Hlow|].
    unfold di_size, di_addrs. lia.
  - intros i Hi. rewrite put_addrs_ld32 by (unfold NDIRECT in *; lia). by apply u32_small, T6.
Qed.

Lemma st16_blk m m' c w : blk_eq m m' -> blk_eq (st16 m c w) (st16 m' c w).
Proof. intros H i Hi. rewrite !ld8_st16. repeat destruct (_ =? _); try done. by apply H. Qed.
Lemma put_addrs_blk n : forall m m' a f i, blk_eq m m' -> blk_eq (put_addrs n m a f i) (put_addrs n m' a f i).
Proof. induction n as [|n IH]; intros m m' a f i H; cbn [put_addrs]; [done|]. by apply IH, st32_blk. Qed.
Lemma put_dinode_blk v m m' : blk_eq m m' -> blk_eq (put_dinode v m) (put_dinode v m').
Proof. intros H. unfold put_dinode. by apply put_addrs_blk, st32_blk, st16_blk, st16_blk, st16_blk, st16_blk. Qed.

Lemma ioff_range inum : 0 <= ioff inum <= BSIZE - sizeof_dinode.
Proof. unfold ioff. pose proof (Z.mod_pos_bound inum IPB ltac:(done)). change IPB with 8 in *. change BSIZE with 512. unfold sizeof_dinode. lia. Qed.

Lemma saved_blk m m' v : blk_eq m m' -> saved_in m v -> saved_in m' v.
Proof.
  intros H [S1 S2 S3 S4 S5 S6]. pose proof (ioff_range (i_inum v)) as Hr. unfold sizeof_dinode in Hr. change BSIZE with 512 in Hr. set (off := ioff (i_inum v)) in *.
  assert (forall d, 0 <= d <= 60 -> ld16 m' (off + d) = ld16 m (off + d)) as H16.
  { intros d Hd. apply (ld16_agree _ _ _ _ H); cbv beta; change BSIZE with 512; lia. }
  split; fold off; rewrite ?H16 by (unfold di_type, di_major, di_minor, di_nlink; lia); try done.
  - rewrite (ld32_blk m) by (done || change BSIZE with 512; unfold di_size; lia). done.
  - intros i Hi. rewrite (ld32_blk m) by (done || change BSIZE with 512; unfold di_addrs, NDIRECT in *; lia). by apply S6.
Qed.

(** iupdate does not touch the other inodes of the block. *)
Lemma put_dinode_other v m b : 0 <= b < BSIZE -> (b < ioff (i_inum v) \/ ioff (i_inum v) + sizeof_dinode <= b) -> ld8 (put_dinode v m) b = ld8 m b.
Proof.
  intros Hb Ho. unfold put_dinode, sizeof_dinode in *. unfold di_type, di_major, di_minor, di_nlink, di_size, di_addrs.
  rewrite put_addrs_ld8 by (unfold NDIRECT; lia). rewrite ld8_st32, !ld8_st16.
  rewrite !(proj2 (Z.eqb_neq b _)) by lia. destruct (Z.leb_spec (ioff (i_inum v) + 8) b), (Z.ltb_spec b (ioff (i_inum v) + 8 + 4)); cbn [andb]; done || lia.
Qed.

Section io.
Context {St : Type} {K : Kernel St} {KS : KernelSpec St}.
Context (dev start : Z) (ts : list Z) (sb : superblock).
Abbreviation intx := (intx dev start ts).
Abbreviation goes := (goes dev start ts).
Abbreviation deq := (deq dev start).
Abbreviation geom := (geom start sb).
Abbreviation in_use := (in_use sb).
Abbreviation free_list := (free_list sb).
Abbreviation data0 := (data0 sb).
Abbreviation N := (sb_ninodes sb).
Abbreviation file_ok := (file_ok start sb).
Abbreviation evolves := (evolves start sb).
Abbreviation at_file := (at_file dev start ts sb).
Abbreviation moves := (moves dev start ts sb).
Abbreviation ready_for := (ready_for start ts sb).

Lemma iblock_range V inum : geom V -> log_place dev start -> 0 <= inum < N ->
  2 <= IBLOCK inum < N / IPB + 3 /\ IBLOCK inum < data0 /\ outside dev start dev (IBLOCK inum) /\ sector_no (IBLOCK inum).
Proof.
  intros G P Hi. pose proof (data0_pos start sb V G). pose proof G as [_ ? ? ?].
  assert (2 <= IBLOCK inum < N / IPB + 3 /\ IBLOCK inum < data0) as [H1 H2].
  { unfold IBLOCK, Blocks.data0 in *. change IPB with 8 in *. change BPB with 4096 in *. mlia. }
  split_and!; try lia; apply (in_data dev start sb V); try done; lia.
Qed.

(** ** iupdate and ilock *)

Lemma iupdate_spec x ip v :
  intx x [] [] -> icache x ip = v -> i_dev v = dev -> geom (lv x dev) -> 0 <= i_inum v < N -> IBLOCK (i_inum v) ∈ ts ->
  exists x', runs [] (iupdate ip) x tt x' [] /\
    goes x x' [] [] [] (upd (lv x dev) (IBLOCK (i_inum v)) (put_dinode v (lv x dev (IBLOCK (i_inum v))))).
Proof.
  intros I Ei Ed G Hi Hts. destruct (iblock_range _ _ G (ix_place _ _ _ _ _ _ I) Hi) as (_ & _ & Ho & Hs). set (off := ioff (i_inum v)).
  destruct (holding_bread dev start ts x [] (IBLOCK (i_inum v)) I Ho Hs) as (b & x0 & d & R0 & H0 & Eb); [set_solver|cbn; lia|].
  destruct (holding_bset _ _ _ _ _ _ _ _ _ (fun m => st16 m (off + di_type) (i_type v)) H0) as (x1 & R1 & H1).
  destruct (holding_bset _ _ _ _ _ _ _ _ _ (fun m => st16 m (off + di_major) (i_major v)) H1) as (x2 & R2 & H2).
  destruct (holding_bset _ _ _ _ _ _ _ _ _ (fun m => st16 m (off + di_minor) (i_minor v)) H2) as (x3 & R3 & H3).
  destruct (holding_bset _ _ _ _ _ _ _ _ _ (fun m => st16 m (off + di_nlink) (i_nlink v)) H3) as (x4 & R4 & H4).
  destruct (holding_bset _ _ _ _ _ _ _ _ _ (fun m => st32 m (off + di_size) (i_size v)) H4) as (x5 & R5 & H5).
  destruct (holding_bset _ _ _ _ _ _ _ _ _ (fun m => put_addrs (Z.to_nat (NDIRECT + 1)) m (off + di_addrs) (i_addrs v) 0) H5) as (x6 & R6 & H6).
  destruct (holding_finish dev start ts _ _ _ _ _ _ H6) as (x7 & x8 & R7 & R8 & G8); [cbn; lia|done|].
  exists x8. split.
  - unfold iupdate. rstep. rewrite Ei, Ed. fold (ioff (i_inum v)). fold off. eapply runs_bind; [exact R0|]. cbv beta.
    eapply runs_bind; [exact R1|]. cbv beta. eapply runs_bind; [exact R2|]. cbv beta. eapply runs_bind; [exact R3|]. cbv beta.
    eapply runs_bind; [exact R4|]. cbv beta. eapply runs_bind; [exact R5|]. cbv beta. eapply runs_bind; [exact R6|]. cbv beta.
    eapply runs_bind; [exact R7|exact R8].
  - eapply goes_view; [exact G8|]. apply upd_deq; [done|done|]. cbv beta. apply (put_dinode_blk v). by symmetry.
Qed.

(** A change of an inode block does not show in the files. *)
Lemma meta_view V s m : geom V -> 2 <= s < N / IPB + 3 ->
  let V' := upd V s m in geom V' /\ free_list V' = free_list V /\ (forall t, data0 <= t < start -> in_use V' t = in_use V t) /\
  forall a, file_ok a V -> file_ok a V' /\ (forall j, fbn j -> addr_of a V' j = addr_of a V j) /\
    (forall p, fbn (p / BSIZE) -> byte_of a V' p = byte_of a V p) /\ (forall t, owns a V' t <-> owns a V t).
Proof.
  intros G Hs V'. pose proof (data0_pos start sb V G) as Hd0. pose proof (ge_size _ _ _ G) as Hsz.
  assert (N / IPB + 3 <= data0) as Hnd by (destruct G; unfold Blocks.data0; change BPB with 4096; mlia).
  assert (forall t, t <> s -> V' t = V t) as Ho by (intros t Ht; unfold V'; by rewrite upd_ne).
  assert (forall t, 0 <= t < sb_size sb -> in_use V' t = in_use V t) as Hu.
  { intros t Ht. unfold Blocks.in_use. rewrite Ho; [done|]. destruct (bblock_range start sb V t G Ht) as [-> _]. change BPB with 4096. mlia. }
  split_and!.
  - destruct G as [E ? ? ?]. split; try done. rewrite <- E. unfold super. by rewrite Ho by lia.
  - unfold Blocks.free_list. apply List.filter_ext_in. intros j Hj%list_elem_of_In%elem_of_seqZ. by rewrite Hu by lia.
  - intros t Ht. apply Hu. lia.
  - intros a F. assert (forall t, owns a V t -> V' t = V t) as How by (intros t Ht; apply Ho; destruct (fo_used _ _ _ _ F t Ht); lia).
    assert (forall j, fbn j -> addr_of a V' j = addr_of a V j) as A.
    { intros j Hj. unfold addr_of. destruct (j <? NDIRECT); [done|]. destruct (Z.eqb_spec (a NDIRECT) 0); [done|]. rewrite How; [done|by split; [|left]]. }
    assert (forall t, owns a V' t <-> owns a V t) as O.
    { intros t. unfold owns. split; intros [Ht [E|(j & Hj & E)]]; (split; [done|]); try (by left); right; exists j; (split; [done|]); by rewrite A in *. }
    split_and!; try done.
    + split.
      * intros t Ht%O. destruct (fo_used _ _ _ _ F t Ht). by rewrite Hu by lia.
      * intros i j Hi Hj. rewrite !A by done. by apply F.
      * intros i Hi. rewrite A by done. by apply F.
    + intros p Hp. unfold byte_of. rewrite A by done. destruct (Z.eqb_spec (addr_of a V (p / BSIZE)) 0); [done|]. rewrite How; [done|].
      split; [done|]. right. by exists (p / BSIZE).
Qed.

Lemma addr_uint a V i : geom V -> file_ok a V -> 0 <= i <= NDIRECT -> uint (a i).
Proof.
  intros G F Hi. destruct (decide (a i = 0)) as [->|Hne]; [done|]. pose proof (data0_pos start sb V G). pose proof (ge_size _ _ _ G).
  destruct (fo_used _ _ _ _ F (a i)) as [Hr _]; [|unfold uint; lia]. split; [done|]. destruct (decide (i = NDIRECT)) as [->|]; [by left|right].
  exists i. split; [unfold fbn, MAXFILE; change NINDIRECT with 128; lia|]. unfold addr_of. by rewrite (proj2 (Z.ltb_lt i NDIRECT)) by lia.
Qed.

(** A file of [sz] bytes has no holes. *)
Definition full (a : Z -> Z) (V : Z -> mem) (sz : Z) : Prop := forall j, 0 <= j -> j * BSIZE < sz -> addr_of a V j <> 0.

(** The inode [v] in the cache: the file is in order and the disk has the same
    inode. *)
Record file_at (x : fsys) (ip : Z) (v : inode) : Prop := {
  fa_at : at_file x ip v;
  fa_inum : 0 <= i_inum v < N;
  fa_typed : typed v;
  fa_size : i_size v <= MAXFILE * BSIZE;
  fa_full : full (i_addrs v) (lv x dev) (i_size v);
  fa_saved : saved_in (lv x dev (IBLOCK (i_inum v))) v
}.

(** What writei has done. *)
Record wrote (x x' : fsys) (ip : Z) (v v' : inode) (src : mem) (off n : Z) : Prop := {
  wr_file : file_at x' ip v';
  wr_inode : v' = i_with_size (Z.max (i_size v) (off + n)) (i_with_addrs (i_addrs v') v);
  wr_bytes : forall p, fbn (p / BSIZE) -> byte_of (i_addrs v') (lv x' dev) p = put_bytes (byte_of (i_addrs v) (lv x dev)) src off 0 n p;
  wr_kept : fkept dev start ip x x';
  wr_free : free_list (lv x' dev) = drop (needs (i_addrs v) (lv x dev) (blocks off n)) (free_list (lv x dev));
  wr_frame : forall s, data0 <= s < start -> in_use (lv x dev) s = true -> ~ owns (i_addrs v) (lv x dev) s ->
    blk_eq (lv x dev s) (lv x' dev s) /\ in_use (lv x' dev) s = true /\ ~ owns (i_addrs v') (lv x' dev) s;
  wr_meta : forall s b, 0 <= s < N / IPB + 3 -> 0 <= b < BSIZE ->
    ~ (s = IBLOCK (i_inum v) /\ ioff (i_inum v) <= b < ioff (i_inum v) + sizeof_dinode) -> ld8 (lv x' dev s) b = ld8 (lv x dev s) b
}.

(** The blocks of a range inside a file without holes are all there. *)
Lemma full_blocks a V sz off n j : full a V sz -> 0 <= off -> off + n <= sz -> j ∈ blocks off n -> addr_of a V j <> 0.
Proof. intros H Ho Hn [Hn0 Hj]%in_blocks. apply H; change BSIZE with 512 in *; mlia. Qed.

(** The file without holes after a write. *)
Lemma full_after a V a' V' off n sz : 0 <= off <= sz -> sz <= MAXFILE * BSIZE -> off + n <= MAXFILE * BSIZE -> full a V sz ->
  (forall j, fbn j -> addr_of a V j <> 0 -> addr_of a' V' j = addr_of a V j) ->
  (forall j, j ∈ blocks off n -> addr_of a' V' j <> 0) -> full a' V' (Z.max sz (off + n)).
Proof.
  intros Ho Hs Hm Hf Ha Hb j Hj Hlt. change MAXFILE with 140 in *. change BSIZE with 512 in *.
  destruct (decide (j * 512 < sz)) as [Hlt'|Hge].
  - rewrite Ha; [by apply Hf|unfold fbn; change MAXFILE with 140; lia|by apply Hf].
  - apply Hb. unfold blocks. change BSIZE with 512. rewrite (proj2 (Z.leb_gt n 0)) by lia. apply elem_of_seqZ. mlia.
Qed.

(** The new size is stored in the inode and on the disk. *)
Record resized (x x' : fsys) (ip : Z) (v : inode) (sz : Z) : Prop := {
  rs_at : at_file x' ip (i_with_size sz v);
  rs_kept : fkept dev start ip x x';
  rs_saved : saved_in (lv x' dev (IBLOCK (i_inum v))) (i_with_size sz v);
  rs_addr : forall j, fbn j -> addr_of (i_addrs v) (lv x' dev) j = addr_of (i_addrs v) (lv x dev) j;
  rs_bytes : forall p, fbn (p / BSIZE) -> byte_of (i_addrs v) (lv x' dev) p = byte_of (i_addrs v) (lv x dev) p;
  rs_owns : forall s, owns (i_addrs v) (lv x' dev) s <-> owns (i_addrs v) (lv x dev) s;
  rs_free : free_list (lv x' dev) = free_list (lv x dev);
  rs_data : forall s, data0 <= s < start -> blk_eq (lv x dev s) (lv x' dev s) /\ in_use (lv x' dev) s = in_use (lv x dev) s;
  rs_meta : forall s b, 0 <= s < N / IPB + 3 -> 0 <= b < BSIZE ->
    ~ (s = IBLOCK (i_inum v) /\ ioff (i_inum v) <= b < ioff (i_inum v) + sizeof_dinode) -> ld8 (lv x' dev s) b = ld8 (lv x dev s) b
}.

Lemma save_size x ip v sz :
  at_file x ip v -> 0 <= i_inum v < N -> typed v -> uint sz -> IBLOCK (i_inum v) ∈ ts ->
  exists x1 x2, runs [] (iset ip (i_with_size sz)) x tt x1 [] /\ runs [] (iupdate ip) x1 tt x2 [] /\ resized x x2 ip v sz.
Proof.
  intros [I Ei Ed G F] Hi [Ty1 Ty2 Ty3 Ty4 Ty5 Ty6] Hsz Hts. pose proof (ix_place _ _ _ _ _ _ I) as P. set (v1 := i_with_size sz v).
  set (x1 := set_icache (upd (icache x) ip (i_with_size sz (icache x ip))) x).
  destruct (ix_tables dev start ts x x1 [] [] eq_refl eq_refl eq_refl I) as [I1 L1].
  assert (icache x1 ip = v1) as Ei1 by (unfold x1; cbn; by rewrite upd_same, Ei).
  destruct (iupdate_spec x1 ip v1 I1 Ei1 Ed G Hi Hts) as (x2 & R2 & [I2 K2 E2 _]). change (lv x1 dev) with (lv x dev) in E2. change (i_inum v1) with (i_inum v) in E2.
  destruct (iblock_range _ _ G P Hi) as (Hib & Hib2 & Ho & _). set (V := lv x dev) in *.
  set (V' := upd V (IBLOCK (i_inum v)) (put_dinode v1 (V (IBLOCK (i_inum v))))) in *.
  destruct (meta_view V (IBLOCK (i_inum v)) (put_dinode v1 (V (IBLOCK (i_inum v)))) G ltac:(lia)) as (G' & Fl & Us & Fi). fold V' in G', Fl, Us, Fi.
  destruct (Fi (i_addrs v) F) as (F' & A' & B' & O'). destruct (geom_deq dev start sb _ _ E2 P G') as [G2 Fl2].
  assert (blk_eq (put_dinode v1 (V (IBLOCK (i_inum v)))) (lv x2 dev (IBLOCK (i_inum v)))) as Eb.
  { rewrite <- (E2 _ Ho). unfold V'. by rewrite upd_same. }
  exists x1, x2. split_and!; [rprim|done|]. split.
  - split; try done; [|by apply (file_ok_deq dev start sb _ V')]. by rewrite (st_icache _ _ (k_tables _ _ _ _ K2)).
  - transitivity x1; [|by apply kept_fkept]. split; try done. intros i Hne. unfold x1. cbn. by rewrite upd_ne.
  - eapply saved_blk; [exact Eb|]. by apply put_dinode_saved.
  - intros j Hj. rewrite (addr_of_deq dev start sb _ V') by done. by apply A'.
  - intros p Hp. rewrite (byte_of_deq dev start sb _ V') by done. by apply B'.
  - intros s. rewrite (owns_deq dev start sb _ V') by done. by apply O'.
  - by rewrite Fl2.
  - intros s Hs. pose proof (data0_pos start sb V G). destruct (in_data dev start sb V s G P ltac:(lia)) as [Hos _]. split.
    + rewrite <- (E2 s Hos). unfold V'. by rewrite upd_ne by lia.
    + rewrite (in_use_data dev start sb V') by done. by apply Us.
  - intros s b Hs Hb Hn. destruct (in_data dev start sb V s G P) as [Hos _].
    { destruct G. unfold Blocks.data0 in *. change BPB with 4096 in *. mlia. }
    rewrite (E2 s Hos) by done. unfold V', upd. destruct (Z.eqb_spec s (IBLOCK (i_inum v))) as [->|]; [|done]. apply put_dinode_other; [done|].
    change (i_inum v1) with (i_inum v). lia.
Qed.

(** ** writei *)

Section write.
Context (x x1 : fsys) (ip : Z) (v : inode) (src : mem) (off n : Z) (a1 : Z -> Z).
Context (F : file_at x ip v) (Ho : 0 <= off <= i_size v) (Hn : 0 <= n) (Hm : off + n <= MAXFILE * BSIZE).
Context (Mv : moves x x1 ip v a1 (put_bytes (byte_of (i_addrs v) (lv x dev)) src off 0 n)
  (needs (i_addrs v) (lv x dev) (blocks off n)) (fun j => j ∉ blocks off n)).
Context (Hmap : forall j, j ∈ blocks off n -> addr_of a1 (lv x1 dev) j <> 0).
Context (Hnd : a1 NDIRECT = i_addrs v NDIRECT \/ i_addrs v NDIRECT = 0 /\ exists j, j ∈ blocks off n /\ NDIRECT <= j).

Lemma typed_addrs : typed (i_with_addrs a1 v).
Proof.
  destruct (fa_typed _ _ _ F). split; try done. intros i Hi. destruct (mo_at _ _ _ _ _ _ _ _ _ _ _ _ Mv) as [_ _ _ G1 F1]. by apply (addr_uint a1 (lv x1 dev)).
Qed.

Lemma full_moved : full a1 (lv x1 dev) (Z.max (i_size v) (off + n)).
Proof.
  apply (full_after (i_addrs v) (lv x dev)); [done|apply F|done|apply F| |done].
  apply (gr_addr _ _ _ _ _ _ _ (mo_ev _ _ _ _ _ _ _ _ _ _ _ _ Mv)).
Qed.

Lemma meta_moved s b : 0 <= s < N / IPB + 3 -> 0 <= b < BSIZE -> ld8 (lv x1 dev s) b = ld8 (lv x dev s) b.
Proof. intros Hs Hb. by apply (gr_meta _ _ _ _ _ _ _ (mo_ev _ _ _ _ _ _ _ _ _ _ _ _ Mv) s Hs). Qed.

(** Inside the file no address changes. *)
Lemma same_addrs i : off + n <= i_size v -> 0 <= i <= NDIRECT -> a1 i = i_addrs v i.
Proof.
  intros Hin Hi. pose proof (fun j Hj => full_blocks _ _ _ off n j (fa_full _ _ _ F) (proj1 Ho) Hin Hj) as Hf.
  destruct (decide (i = NDIRECT)) as [->|Hne].
  - destruct Hnd as [E|(E0 & j & Hj & Hle)]; [done|]. exfalso. apply (Hf j Hj). unfold addr_of. by rewrite (proj2 (Z.ltb_ge j NDIRECT)), E0 by done.
  - assert (fbn i) as Hb by (unfold fbn, MAXFILE; change NINDIRECT with 128; lia).
    assert (forall a V, addr_of a V i = a i) as Hd by (intros a V; unfold addr_of; by rewrite (proj2 (Z.ltb_lt i NDIRECT)) by lia).
    rewrite <- (Hd a1 (lv x1 dev)), <- (Hd (i_addrs v) (lv x dev)). destruct (decide (i ∈ blocks off n)) as [Hib|Hib].
    + apply (gr_addr _ _ _ _ _ _ _ (mo_ev _ _ _ _ _ _ _ _ _ _ _ _ Mv)); [done|by apply Hf].
    + by apply (mo_same _ _ _ _ _ _ _ _ _ _ _ _ Mv).
Qed.

Lemma wrote_inside : off + n <= i_size v -> wrote x x1 ip v (i_with_addrs a1 v) src off n.
Proof.
  intros Hin. pose proof typed_addrs as Ty. pose proof full_moved as Fm. rewrite Z.max_l in Fm by lia.
  pose proof (mo_ev _ _ _ _ _ _ _ _ _ _ _ _ Mv) as Ev. split.
  - split; [apply Mv|apply F|done|apply F|done|]. pose proof (fa_inum _ _ _ F) as Hi. pose proof (mo_at _ _ _ _ _ _ _ _ _ _ _ _ Mv) as A1.
    destruct (iblock_range _ (i_inum v) (af_geom _ _ _ _ _ _ _ A1) (ix_place _ _ _ _ _ _ (af_in _ _ _ _ _ _ _ A1)) Hi) as (Hib & _).
    assert (saved_in (lv x1 dev (IBLOCK (i_inum v))) v) as [? ? ? ? ? Sa].
    { eapply saved_blk; [|apply (fa_saved _ _ _ F)]. apply (gr_meta _ _ _ _ _ _ _ Ev). lia. }
    split; try done. intros i Hi'. rewrite Sa by done. cbn. by rewrite same_addrs.
  - rewrite Z.max_l by lia. by destruct v.
  - apply (gr_byte _ _ _ _ _ _ _ Ev).
  - apply (mo_kept _ _ _ _ _ _ _ _ _ _ _ _ Mv).
  - apply (mo_free _ _ _ _ _ _ _ _ _ _ _ _ Mv).
  - apply (gr_frame _ _ _ _ _ _ _ Ev).
  - intros s b Hs Hb _. by apply meta_moved.
Qed.

Lemma wrote_grown x2 : i_size v < off + n -> resized x1 x2 ip (i_with_addrs a1 v) (off + n) ->
  wrote x x2 ip v (i_with_size (off + n) (i_with_addrs a1 v)) src off n.
Proof.
  intros Hgr R. pose proof typed_addrs as [? ? ? ? ? ?]. pose proof full_moved as Fm. rewrite Z.max_r in Fm by lia.
  pose proof (mo_ev _ _ _ _ _ _ _ _ _ _ _ _ Mv) as Ev. destruct R as [Ra Rk Rs Rad Rb Ro Rf Rd Rm]. cbn [i_addrs i_with_addrs i_inum] in *. split; cbn [i_addrs i_with_size i_with_addrs].
  - split; try done; [apply F| |].
    + split; try done. cbn. change (MAXFILE * BSIZE) with 71680 in Hm. unfold uint. lia.
    + intros j Hj Hlt. cbn in Hlt. cbn [i_addrs i_with_size i_with_addrs]. rewrite Rad; [by apply Fm|]. unfold fbn. change MAXFILE with 140 in *. change BSIZE with 512 in *. lia.
  - by rewrite Z.max_r by lia.
  - intros p Hp. rewrite Rb by done. by apply (gr_byte _ _ _ _ _ _ _ Ev).
  - transitivity x1; [apply (mo_kept _ _ _ _ _ _ _ _ _ _ _ _ Mv)|done].
  - rewrite Rf. apply (mo_free _ _ _ _ _ _ _ _ _ _ _ _ Mv).
  - intros s Hs Hu Hno. destruct (gr_frame _ _ _ _ _ _ _ Ev s Hs Hu Hno) as (E1 & U1 & N1). destruct (Rd s Hs) as [E2 U2].
    split_and!; [by transitivity (lv x1 dev s)|by rewrite U2|by rewrite Ro].
  - intros s b Hs Hb Hne. rewrite Rm by done. by apply meta_moved.
Qed.
End write.

Lemma blocks_length off n : 0 <= off -> 0 <= n -> (length (blocks off n) <= Z.to_nat (n / BSIZE + 2))%nat.
Proof.
  intros Ho Hn. unfold blocks. destruct (Z.leb_spec n 0); [cbn; lia|]. rewrite length_seqZ. change BSIZE with 512. mlia.
Qed.

(** writei within the limits of the footprint. *)
Lemma writei_spec x ip v src off n :
  file_at x ip v -> i_type v <> T_DEV -> 0 <= off <= i_size v -> 0 <= n -> off + n <= MAXFILE * BSIZE ->
  ready_for (i_addrs v) (lv x dev) (blocks off n) -> (i_size v < off + n -> IBLOCK (i_inum v) ∈ ts) ->
  exists x' v', runs [] (writei_data ip src off n) x n x' [] /\ wrote x x' ip v v' src off n.
Proof.
  intros F Ht Ho Hn Hm Hrd Hts. pose proof (fa_at _ _ _ F) as A. pose proof (fa_size _ _ _ F) as Hsz. change (MAXFILE * BSIZE) with 71680 in Hsz.
  destruct (writei_loop_spec dev start ts sb ip src n (Z.to_nat (n / BSIZE + 2)) x v off 0 A) as (x1 & a1 & R1 & Mv & Hmap & Hnd); rewrite ?Z.sub_0_r in *;
    try done; try lia; [apply blocks_length; lia|].
  assert (forall x2, (i_size v < off + n -> exists x1', runs [] (iset ip (i_with_size (off + n))) x1 tt x1' [] /\ runs [] (iupdate ip) x1' tt x2 []) ->
    (off + n <= i_size v -> x2 = x1) -> runs [] (writei_data ip src off n) x n x2 []) as Hcode.
  { intros x2 Hg Hk. change (MAXFILE * BSIZE) with 71680 in Hm. unfold writei_data, writei_from. rstep. rewrite (af_ino _ _ _ _ _ _ _ A), (proj2 (Z.eqb_neq _ T_DEV) Ht). rstep.
    rewrite (af_ino _ _ _ _ _ _ _ A), u32_small by lia. rewrite (proj2 (Z.ltb_ge (i_size v) off)), (proj2 (Z.ltb_ge (off + n) off)) by lia. cbn [orb].
    change (MAXFILE * BSIZE) with 71680. rewrite (proj2 (Z.ltb_ge 71680 (off + n))) by lia. rstep. eapply runs_bind; [exact R1|]. cbv beta. rstep.
    rewrite (af_ino _ _ _ _ _ _ _ (mo_at _ _ _ _ _ _ _ _ _ _ _ _ Mv)). cbn [i_size i_with_addrs]. rewrite s32_small by lia.
    eapply runs_bind; [|cbv beta; apply runs_ret]. destruct (Z.ltb_spec 0 n), (Z.ltb_spec (i_size v) (off + n)); cbn [andb]; try lia.
    - destruct Hg as (x1' & Ra & Rb); [done|]. eapply runs_bind; [exact Ra|exact Rb].
    - rewrite Hk by done. rprim.
    - rewrite Hk by lia. rprim. }
  destruct (decide (i_size v < off + n)) as [Hg|Hk].
  - destruct (save_size x1 ip (i_with_addrs a1 v) (off + n)) as (x1' & x2 & Ra & Rb & Rz); [apply Mv|apply F|by apply (typed_addrs x x1 ip v src off n a1)| |by apply Hts|].
    { change (MAXFILE * BSIZE) with 71680 in Hm. unfold uint. lia. }
    exists x2, (i_with_size (off + n) (i_with_addrs a1 v)). split; [apply Hcode; [by exists x1'|lia]|]. by apply (wrote_grown x x1).
  - exists x1, (i_with_addrs a1 v). split; [apply Hcode; [lia|done]|]. apply wrote_inside; try done. lia.
Qed.

(** ** readi *)

Lemma goes_at x x' ip v : at_file x ip v -> goes x x' [] [] [] (lv x dev) -> at_file x' ip v.
Proof. intros A G. pose proof (mo_at _ _ _ _ _ _ _ _ _ _ _ _ (goes_moves dev start ts sb x x' ip v A G)) as A'. by rewrite with_same_addrs in A'. Qed.

Lemma read_chunk a V off s d acc tot r p :
  s <> 0 -> addr_of a V (off / BSIZE) = s -> blk_eq (V s) d -> 0 <= off -> 0 <= r ->
  ld8 (blit acc tot (fun i => d (off mod BSIZE + i)) (chunk off r)) p =
  if (tot <=? p) && (p <? tot + chunk off r) then byte_of a V (off + (p - tot)) else ld8 acc p.
Proof.
  intros Hs Ea Ed Ho Hr. rewrite ld8_blit. destruct (Z.leb_spec tot p), (Z.ltb_spec p (tot + chunk off r)); cbn [andb]; try done.
  unfold chunk in *. pose proof (Z.div_mod off BSIZE ltac:(done)). pose proof (Z.mod_pos_bound off BSIZE ltac:(done)). change BSIZE with 512 in *.
  assert ((off + (p - tot)) / 512 = off / 512) as E1 by (symmetry; apply (Z.div_unique _ 512 _ (off mod 512 + (p - tot))); lia).
  assert ((off + (p - tot)) mod 512 = off mod 512 + (p - tot)) as E2 by (symmetry; apply (Z.mod_unique _ 512 (off / 512)); lia).
  unfold byte_of. change BSIZE with 512. rewrite E1, E2, Ea, (proj2 (Z.eqb_neq s 0)) by done.
  change (ld8 d (off mod 512 + (p - tot)) = ld8 (V s) (off mod 512 + (p - tot))). apply Ed. change BSIZE with 512. lia.
Qed.

(** One step of the loop *)
Lemma read_step x ip v bn :
  at_file x ip v -> fbn bn -> addr_of (i_addrs v) (lv x dev) bn <> 0 ->
  exists d x', blk_eq (lv x dev (addr_of (i_addrs v) (lv x dev) bn)) d /\ goes x x' [] [] [] (lv x dev) /\
    forall (A : Type) (k : mem -> M St A) r y, runs [] (k d) x' r y [] ->
      runs [] (let* bno := bmap ip bn in let* bp := bread dev bno in let* data := bget_ bp b_data in brelse bp ;; k data) x r y [].
Proof.
  intros A Hbn Hne. destruct (bmap_mapped dev start ts sb x ip v bn A Hbn Hne) as (x1 & R1 & G1).
  set (s := addr_of (i_addrs v) (lv x dev) bn) in *. destruct A as [I Ei Ed G F]. pose proof (ix_place _ _ _ _ _ _ I) as P.
  destruct (owned_outside dev start sb (i_addrs v) (lv x dev) s P G F) as [Ho Hs]; [split; [done|right; by exists bn]|].
  destruct (ix_bread dev start ts x1 [] [] s (go_in _ _ _ _ _ _ _ _ _ G1) Ho Hs) as (b & x2 & R2 & G2 & _ & _ & Eb); [set_solver|cbn; lia|].
  destruct (ix_brelse dev start ts x2 [] [] b (go_in _ _ _ _ _ _ _ _ _ G2)) as (x3 & R3 & G3); [apply not_elem_of_nil|].
  pose proof (go_view _ _ _ _ _ _ _ _ _ G1) as V1. pose proof (go_view _ _ _ _ _ _ _ _ _ G2) as V2.
  exists (b_data (bufs x2 b)), x3. split_and!.
  - rewrite <- Eb. by apply V1.
  - eapply goes_view; [eapply goes_trans; [exact G1|]; eapply goes_trans; [exact G2|exact G3]|]. by rewrite <- V2, <- V1.
  - intros B k r y Hk. eapply runs_bind; [exact R1|]. cbv beta. eapply runs_bind; [exact R2|]. cbv beta. rstep. eapply runs_bind; [exact R3|exact Hk].
Qed.

Lemma goes_addr x x' ip v j : at_file x ip v -> goes x x' [] [] [] (lv x dev) -> fbn j ->
  addr_of (i_addrs v) (lv x' dev) j = addr_of (i_addrs v) (lv x dev) j.
Proof. intros A G Hj. by apply (mo_same _ _ _ _ _ _ _ _ _ _ _ _ (goes_moves dev start ts sb x x' ip v A G)). Qed.
Lemma goes_byte x x' ip v p : at_file x ip v -> goes x x' [] [] [] (lv x dev) -> fbn (p / BSIZE) ->
  byte_of (i_addrs v) (lv x' dev) p = byte_of (i_addrs v) (lv x dev) p.
Proof. intros A G Hp. by apply (gr_byte _ _ _ _ _ _ _ (mo_ev _ _ _ _ _ _ _ _ _ _ _ _ (goes_moves dev start ts sb x x' ip v A G))). Qed.

Lemma readi_loop_spec ip n fuel : forall x v off tot acc,
  at_file x ip v -> 0 <= tot <= n -> 0 <= off -> off + (n - tot) <= MAXFILE * BSIZE ->
  (length (blocks off (n - tot)) <= fuel)%nat -> (forall j, j ∈ blocks off (n - tot) -> addr_of (i_addrs v) (lv x dev) j <> 0) ->
  exists x' d, runs [] (readi_loop fuel ip off n tot acc) x d x' [] /\ goes x x' [] [] [] (lv x dev) /\
    forall p, ld8 d p = if (tot <=? p) && (p <? n) then byte_of (i_addrs v) (lv x dev) (off + (p - tot)) else ld8 acc p.
Proof.
  induction fuel as [|fuel IH]; intros x v off tot acc A Ht Ho Hm Hf Hmp; (destruct (decide (tot = n)) as [->|Hne];
    [exists x, acc; split_and!; [unfold readi_loop; rewrite Z.ltb_irrefl; rprim|split; [apply A|done|done|apply hold_same_refl]|];
     intros p; destruct (Z.leb_spec n p), (Z.ltb_spec p n); cbn [andb]; done || lia|]).
  { rewrite blocks_cons in Hf by lia. cbn in Hf. lia. }
  assert (0 < n - tot) as Hr by lia. pose proof (chunk_range off (n - tot) Hr) as Hc. pose proof (fun j Hj => chunk_next off (n - tot) Ho Hr j Hj Hm) as Hbl.
  rewrite blocks_cons in Hf, Hmp by done. cbn [length] in Hf.
  assert (fbn (off / BSIZE)) as Hbn by (eapply (range_blocks off (n - tot)); [done|done|rewrite blocks_cons by done; apply elem_of_cons; by left]).
  assert (addr_of (i_addrs v) (lv x dev) (off / BSIZE) <> 0) as Hs0 by (apply Hmp, elem_of_cons; by left).
  destruct (read_step x ip v (off / BSIZE) A Hbn Hs0) as (d1 & x1 & Ed & G1 & Hk). pose proof (goes_at x x1 ip v A G1) as A1.
  pose proof (fun acc p => read_chunk (i_addrs v) (lv x dev) off _ d1 acc tot (n - tot) p Hs0 eq_refl Ed Ho ltac:(lia)) as Hch.
  set (m := chunk off (n - tot)) in *. replace (n - tot - m) with (n - (tot + m)) in * by lia.
  destruct (IH x1 v (off + m) (tot + m) (blit acc tot (fun a => d1 (off mod BSIZE + a)) m) A1) as (x2 & d & R2 & G2 & Hd); [lia|lia|lia|by apply le_S_n| |].
  { intros j Hj. rewrite (goes_addr x x1 ip v j A G1) by by apply Hbl. apply Hmp, elem_of_cons. by right. }
  exists x2, d. split_and!.
  - cbn [readi_loop]. rewrite (proj2 (Z.ltb_lt tot n)) by lia. rstep. rewrite (af_ino _ _ _ _ _ _ _ A), (af_dev _ _ _ _ _ _ _ A).
    apply (Hk mem (fun data => readi_loop fuel ip (u32 (off + m)) n (tot + m) (blit acc tot (fun a => data (off mod BSIZE + a)) m))). cbv beta.
    clearbody m. rewrite u32_small by (change (MAXFILE * BSIZE) with 71680 in Hm; lia). exact R2.
  - eapply goes_view; [eapply goes_trans; [exact G1|exact G2]|]. symmetry. apply (go_view _ _ _ _ _ _ _ _ _ G1).
  - intros p. rewrite Hd, Hch. clearbody m. destruct (Z.leb_spec (tot + m) p), (Z.leb_spec tot p), (Z.ltb_spec p n), (Z.ltb_spec p (tot + m)); cbn [andb]; try lia; try done.
    replace (off + m + (p - (tot + m))) with (off + (p - tot)) by lia. apply (goes_byte x x1 ip v _ A G1).
    unfold fbn. change MAXFILE with 140 in *. change BSIZE with 512 in *. mlia.
Qed.

(** readi returns the bytes of the file and changes nothing. *)
Lemma readi_spec x ip v off n :
  file_at x ip v -> i_type v <> T_DEV -> 0 <= off <= i_size v -> 0 <= n -> off + n < 2 ^ 32 ->
  exists x' d, runs [] (readi_data ip off n) x (Z.min n (i_size v - off), d) x' [] /\ goes x x' [] [] [] (lv x dev) /\
    forall k, 0 <= k < Z.min n (i_size v - off) -> ld8 d k = byte_of (i_addrs v) (lv x dev) (off + k).
Proof.
  intros F Ht Ho Hn Hlt. pose proof (fa_at _ _ _ F) as A. pose proof (fa_size _ _ _ F) as Hsz. set (c := Z.min n (i_size v - off)).
  destruct (readi_loop_spec ip c (Z.to_nat (c / BSIZE + 2)) x v off 0 (fun _ => 0) A) as (x' & d & R & G & Hd); rewrite ?Z.sub_0_r; try lia.
  { apply blocks_length; lia. }
  { intros j Hj. apply (full_blocks _ _ (i_size v) off c); [apply F|lia|lia|done]. }
  exists x', d. split_and!; try done.
  - change (MAXFILE * BSIZE) with 71680 in Hsz. unfold readi_data. rstep. rewrite (af_ino _ _ _ _ _ _ _ A), (proj2 (Z.eqb_neq _ T_DEV) Ht). rstep. rewrite (af_ino _ _ _ _ _ _ _ A).
    rewrite (u32_small (off + n)) by lia. rewrite (proj2 (Z.ltb_ge (i_size v) off)), (proj2 (Z.ltb_ge (off + n) off)) by lia. cbn [orb].
    assert ((if i_size v <? off + n then u32 (i_size v - off) else n) = c) as ->.
    { unfold c. destruct (Z.ltb_spec (i_size v) (off + n)); [rewrite u32_small by lia|]; lia. }
    eapply runs_bind; [exact R|]. cbv beta. rprim.
  - intros k Hk. rewrite Hd. destruct (Z.leb_spec 0 k), (Z.ltb_spec k c); cbn [andb]; try lia. by rewrite Z.sub_0_r.
Qed.

(** ** The other files *)

(** Two inodes with no block in common. *)
Definition disjoint (x : fsys) (v w : inode) : Prop :=
  i_inum w <> i_inum v /\ forall s, owns (i_addrs v) (lv x dev) s -> ~ owns (i_addrs w) (lv x dev) s.

Lemma saved_bytes m m' v : (forall b, ioff (i_inum v) <= b < ioff (i_inum v) + sizeof_dinode -> ld8 m' b = ld8 m b) -> saved_in m v -> saved_in m' v.
Proof.
  intros H [S1 S2 S3 S4 S5 S6]. unfold sizeof_dinode in H. set (off := ioff (i_inum v)) in *.
  assert (forall d, 0 <= d <= 60 -> ld16 m' (off + d) = ld16 m (off + d)) as H16 by (intros d Hd; unfold ld16; by rewrite !H by lia).
  assert (forall d, 0 <= d <= 60 -> ld32 m' (off + d) = ld32 m (off + d)) as H32 by (intros d Hd; unfold ld32; by rewrite !H by lia).
  split; fold off; rewrite ?H16, ?H32 by (unfold di_type, di_major, di_minor, di_nlink, di_size; lia); try done.
  intros i Hi. rewrite <- S6 by done. fold off. rewrite <- !Z.add_assoc. apply H32. unfold di_addrs, NDIRECT in *. lia.
Qed.

(** Different inodes do not overlap on the disk. *)
Lemma ioff_apart i j b : 0 <= i -> 0 <= j -> i <> j -> ioff i <= b < ioff i + sizeof_dinode -> ~ (IBLOCK i = IBLOCK j /\ ioff j <= b < ioff j + sizeof_dinode).
Proof. unfold ioff, IBLOCK, sizeof_dinode. change IPB with 8. intros. mlia. Qed.

Lemma wrote_other x x' ip jp v v' w src off n :
  wrote x x' ip v v' src off n -> 0 <= i_inum v -> jp <> ip -> disjoint x v w -> file_at x jp w ->
  file_at x' jp w /\ forall p, fbn (p / BSIZE) -> byte_of (i_addrs w) (lv x' dev) p = byte_of (i_addrs w) (lv x dev) p.
Proof.
  intros W Hiv Hjp [Hin Hdis] F. pose proof (fa_at _ _ _ F) as [I Ei Ed G Fo]. pose proof (fa_at _ _ _ (wr_file _ _ _ _ _ _ _ _ W)) as A'.
  assert (forall s, owns (i_addrs w) (lv x dev) s -> blk_eq (lv x dev s) (lv x' dev s) /\ in_use (lv x' dev) s = true) as Hs.
  { intros s Hs. destruct (fo_used _ _ _ _ Fo s Hs) as [Hr Hu]. destruct (wr_frame _ _ _ _ _ _ _ _ W s Hr Hu) as (? & ? & _); [|done]. intros Ho. by apply (Hdis s). }
  assert (forall j, fbn j -> addr_of (i_addrs w) (lv x' dev) j = addr_of (i_addrs w) (lv x dev) j) as Ad.
  { intros j Hj. unfold addr_of. destruct (Z.ltb_spec j NDIRECT); [done|]. destruct (Z.eqb_spec (i_addrs w NDIRECT) 0); [done|]. apply ld32_blk; [apply Hs; by split; [|left]|].
    unfold fbn, MAXFILE in Hj. change NINDIRECT with 128 in Hj. change BSIZE with 512. lia. }
  assert (forall s, owns (i_addrs w) (lv x' dev) s -> owns (i_addrs w) (lv x dev) s) as Ow.
  { intros s [Hs0 [E|(j & Hj & E)]]; (split; [done|]); [by left|right]. exists j. by rewrite <- Ad. }
  split.
  - split; [split; [apply A'| |done|apply A'|]|apply F|apply F|apply F| |].
    + by rewrite (fk_other _ _ _ _ _ (wr_kept _ _ _ _ _ _ _ _ W)).
    + split.
      * intros s Ho%Ow. destruct (fo_used _ _ _ _ Fo s Ho). split; [done|by apply Hs].
      * intros i j Hi Hj. rewrite !Ad by done. by apply Fo.
      * intros i Hi. rewrite Ad by done. by apply Fo.
    + intros j Hj Hlt. pose proof (fa_size _ _ _ F). rewrite Ad; [by apply (fa_full _ _ _ F)|]. unfold fbn. change MAXFILE with 140 in *. change BSIZE with 512 in *. lia.
    + pose proof (fa_inum _ _ _ F) as Hiw. eapply saved_bytes; [|apply (fa_saved _ _ _ F)]. intros b Hb.
      destruct (iblock_range _ _ G (ix_place _ _ _ _ _ _ I) Hiw) as (Hr & _). pose proof (ioff_range (i_inum w)). unfold sizeof_dinode in *.
      apply (wr_meta _ _ _ _ _ _ _ _ W); [lia|lia|]. intros [E Hb']. by apply (ioff_apart (i_inum w) (i_inum v) b); [lia|lia|done|done|].
  - intros p Hp. unfold byte_of. rewrite Ad by done. destruct (Z.eqb_spec (addr_of (i_addrs w) (lv x dev) (p / BSIZE)) 0); [done|].
    apply Hs; [split; [done|right; by exists (p / BSIZE)]|]. by apply Z.mod_pos_bound.
Qed.

(** C3 Files keep what is written to them: in a transaction with room for it,
    writei at an offset inside a file or at its end returns the number of
    bytes, and readi of any range then returns, up to the new end of the
    file, the bytes written where the ranges meet and the old bytes elsewhere;
    a file with no block in common with it is in order as before, with the
    same bytes. *)
Theorem writei_readi (x : fsys) (ip : Z) (v : inode) (src : mem) (off n off2 n2 : Z) (jp : Z) (w : inode) :
  file_at x ip v -> i_type v <> T_DEV -> 0 <= off <= i_size v -> 0 <= n -> off + n <= MAXFILE * BSIZE ->
  ready_for (i_addrs v) (lv x dev) (blocks off n) -> (i_size v < off + n -> IBLOCK (i_inum v) ∈ ts) ->
  0 <= off2 <= Z.max (i_size v) (off + n) -> 0 <= n2 -> off2 + n2 < 2 ^ 32 ->
  file_at x jp w -> jp <> ip -> disjoint x v w ->
  exists x1 x2 d, let c := Z.min n2 (Z.max (i_size v) (off + n) - off2) in
    runs [] (writei_data ip src off n) x n x1 [] /\ runs [] (readi_data ip off2 n2) x1 (c, d) x2 [] /\
    (forall k, 0 <= k < c -> ld8 d k = put_bytes (byte_of (i_addrs v) (lv x dev)) src off 0 n (off2 + k)) /\
    file_at x2 jp w /\ (forall p, fbn (p / BSIZE) -> byte_of (i_addrs w) (lv x2 dev) p = byte_of (i_addrs w) (lv x dev) p).
Proof.
  intros F Ht Ho Hn Hm Hrd Hts Ho2 Hn2 Hlt Fw Hjp Hdis.
  destruct (writei_spec x ip v src off n F Ht Ho Hn Hm Hrd Hts) as (x1 & v' & R1 & W). pose proof (wr_inode _ _ _ _ _ _ _ _ W) as Ev.
  assert (i_size v' = Z.max (i_size v) (off + n)) as Es by by rewrite Ev.
  destruct (readi_spec x1 ip v' off2 n2 (wr_file _ _ _ _ _ _ _ _ W)) as (x2 & d & R2 & G2 & Hd); [by rewrite Ev|by rewrite Es|done|done|].
  rewrite Es in R2, Hd. destruct (wrote_other x x1 ip jp v v' w src off n W (proj1 (fa_inum _ _ _ F)) Hjp Hdis Fw) as [Fw1 Bw1].
  exists x1, x2, d. split_and!; try done.
  - intros k Hk. rewrite Hd by done. apply (wr_bytes _ _ _ _ _ _ _ _ W). pose proof (fa_size _ _ _ F).
    unfold fbn. change MAXFILE with 140 in *. change BSIZE with 512 in *. mlia.
  - destruct Fw1 as [A1 ? ? ? Ff Sv]. split; try done.
    + by apply (goes_at x1).
    + intros j Hj Hl. rewrite (goes_addr x1 x2 jp w j A1 G2); [by apply Ff|]. unfold fbn. change MAXFILE with 140 in *. change BSIZE with 512 in *. lia.
    + eapply saved_blk; [|exact Sv]. apply (go_view _ _ _ _ _ _ _ _ _ G2).
      apply (iblock_range (lv x1 dev)); [apply A1|by eapply ix_place, A1|done].
  - intros p Hp. rewrite (goes_byte x1 x2 jp w p (fa_at _ _ _ Fw1) G2 Hp). by apply Bw1.
Qed.
End io.
