(* ===== verification/FileWrite.v ===== *)
(** * The write system call and crashes

    filewrite on a file of the disk, from the locks and the transaction down to
    the sectors: the bytes it leaves, and that a crash leaves all of them or
    none. *)

From Stdlib Require Import ZArith Lia String Bool.
From stdpp Require Import base numbers sets list.
From S2P Require Import Prelude Params Mem Spinlock FsState Bio Log Inode Console Fs File FsRun BioSpec LogSpec Crash Transaction Blocks FileBlocks FileSpec FileIO.

Section inode.
Context (dev start : Z) (sb : superblock).
Abbreviation geom := (geom start sb).
Abbreviation file_ok := (file_ok start sb).
Abbreviation N := (sb_ninodes sb).

(** The file of the inode [v] in entry [ip]: in order on the disk as the cache
    shows it, without holes, and with its inode saved. *)
Record good_file (x : fsys) (ip : Z) (v : inode) : Prop := {
  gf_ino : icache x ip = v;
  gf_dev : i_dev v = dev;
  gf_geom : geom (lv x dev);
  gf_ok : file_ok (i_addrs v) (lv x dev);
  gf_inum : 0 <= i_inum v < N;
  gf_typed : typed v;
  gf_size : i_size v <= MAXFILE * BSIZE;
  gf_full : full (i_addrs v) (lv x dev) (i_size v);
  gf_saved : saved_in (lv x dev (IBLOCK (i_inum v))) v
}.

Lemma good_file_at ts x ip v : intx dev start ts x [] [] -> good_file x ip v -> file_at dev start ts sb x ip v.
Proof. intros I [? ? ? ? ? ? ? ? ?]. by split; [split|..]. Qed.
Lemma file_at_good ts x ip v : file_at dev start ts sb x ip v -> good_file x ip v.
Proof. intros [[? ? ? ? ?] ? ? ? ? ?]. by split. Qed.

(** Only the flags of the inode differ. *)
Definition same_file (v w : inode) : Prop := w = i_with_flags (i_flags w) v.

Lemma same_file_flags v w f : same_file v w -> same_file v (i_with_flags f w).
Proof. unfold same_file. intros E. rewrite E. done. Qed.

Lemma good_file_move x x' ip v w :
  log_place dev start -> good_file x ip v -> deq dev start (lv x dev) (lv x' dev) -> icache x' ip = w -> same_file v w ->
  good_file x' ip w /\ forall p, fbn (p / BSIZE) -> byte_of (i_addrs w) (lv x' dev) p = byte_of (i_addrs v) (lv x dev) p.
Proof.
  intros P [Ei Ed G F Hi Ty Hs Hf Sv] E Ew Sw. set (V := lv x dev) in *. unfold same_file in Sw. rewrite Sw in *. cbn [i_addrs i_with_flags].
  destruct (geom_deq dev start sb V _ E P G) as [G' _]. split.
  - split; try done; cbn [i_addrs i_size i_inum i_with_flags].
    + by apply (file_ok_deq dev start sb _ V).
    + destruct Ty. by split.
    + intros j Hj Hlt. rewrite (addr_of_deq dev start sb _ V); [by apply Hf|done..|]. unfold fbn. change MAXFILE with 140 in *. change BSIZE with 512 in *. lia.
    + destruct (iblock_range dev start sb V (i_inum v) G P Hi) as (_ & _ & Ho & _).
      assert (saved_in (lv x' dev (IBLOCK (i_inum v))) v) as [? ? ? ? ? ?] by (eapply saved_blk; [|exact Sv]; by apply E). by split.
  - intros p Hp. by apply (byte_of_deq dev start sb).
Qed.
End inode.

Section locks.
Context {St : Type} {K : Kernel St} {KS : KernelSpec St}.

Definition set_flags (ip fl : Z) (x : fsys) : fsys := set_icache (upd (icache x) ip (i_with_flags fl (icache x ip))) x.

(** ilock of an inode that is in the cache and not locked *)
Lemma ilock_cached x ip v :
  icache x ip = v -> ip <> -1 -> 1 <= i_ref v -> has (i_flags v) I_BUSY = false -> has (i_flags v) I_VALID = true ->
  runs [] (ilock ip) x tt (set_flags ip (Z.lor (i_flags v) I_BUSY) x) [].
Proof.
  intros Ei Hip Hr Hb Hv. destruct (flags_set (i_flags v)) as ((_ & Fv & _) & _).
  unfold ilock. rewrite (proj2 (Z.eqb_neq ip (-1))) by done. rstep. rewrite Ei, (proj2 (Z.ltb_ge _ 1)) by done. rstep.
  unfold ihas at 1. rstep. rewrite Ei, Hb. do 2 rstep. unfold ihas. rstep. cbn. rewrite upd_same, Ei. cbn.
  change I_BUSY with B_BUSY. change I_VALID with B_VALID in *. rewrite Fv, Hv. eapply runs_eq; [apply runs_ret|done|]. unfold set_flags. by rewrite Ei.
Qed.

Lemma iunlock_spec x ip v :
  icache x ip = v -> ip <> -1 -> 1 <= i_ref v -> has (i_flags v) I_BUSY = true ->
  runs [] (iunlock ip) x tt (set_flags ip (Z.ldiff (i_flags v) I_BUSY) x) [].
Proof.
  intros Ei Hip Hr Hb. unfold iunlock. rewrite (proj2 (Z.eqb_neq ip (-1))) by done. unfold ihas. rstep. rstep.
  rewrite Ei, Hb, (proj2 (Z.ltb_ge _ 1)) by done. cbn [negb orb]. do 3 rstep. eapply runs_eq; [rprim|done|]. unfold set_flags. by rewrite Ei.
Qed.

(** A run from one state. *)
Definition from {A : Type} (s : St) (c : M St A) (a : A) (x' : fsys) : Prop :=
  exists s', c s = Ret (a, s') /\ kin s' [] /\ view fsL s' = x' /\ keep s s'.

Lemma from_runs {A : Type} s (c : M St A) x a x' : runs [] c x a x' [] -> kin s [] -> view fsL s = x -> from s c a x'.
Proof. intros R Hs Hx. exact (R s Hs Hx). Qed.

Lemma from_bind {A B : Type} s (c : M St A) (k : A -> M St B) x a x1 b x2 :
  runs [] c x a x1 [] -> kin s [] -> view fsL s = x ->
  (forall s1, kin s1 [] -> view fsL s1 = x1 -> keep s s1 -> from s1 (k a) b x2) -> from s (bind c k) b x2.
Proof.
  intros R Hs Hx Hk. destruct (R s Hs Hx) as (s1 & E1 & H1 & V1 & K1). destruct (Hk s1 H1 V1 K1) as (s2 & E2 & H2 & V2 & K2).
  exists s2. split_and!; try done; [by rewrite (bind_ret_eq _ _ _ _ _ E1)|by etransitivity].
Qed.

(** writei with the bytes of the process's memory *)
Lemma writei_fetch s ip src off n m : fetch_ src n s = Ret (m, s) -> writei ip src off n s = writei_data ip m off n s.
Proof.
  intros E. unfold writei, writei_data, writei_from, iget_, fget, gets, bind, ret. destruct (_ =? T_DEV).
  - destruct (_ || _); [done|]. by rewrite E.
  - destruct (_ || _); [done|]. destruct (_ <? _); [done|]. by rewrite E.
Qed.
End locks.

(** ** One transaction of filewrite *)

Section filewrite.
Context {St : Type} {K : Kernel St} {KS : KernelSpec St} {US : UserSpec St}.
Context (dev start : Z) (ts : list Z) (sb : superblock).
Abbreviation good_file := (good_file dev start sb).
Abbreviation quiet := (quiet dev start).
Abbreviation ready_for := (ready_for start ts sb).

(** The open file [f] is the inode [ip], not locked, at offset [off]. *)
Record opened (x : fsys) (f ip : Z) (v : inode) (off : Z) : Prop := {
  op_type : f_type (ftable x f) = FD_INODE;
  op_writable : f_writable (ftable x f) <> 0;
  op_ip : f_ip (ftable x f) = ip;
  op_off : f_off (ftable x f) = off;
  op_some : ip <> -1;
  op_ref : 1 <= i_ref v;
  op_free : has (i_flags v) I_BUSY = false;
  op_valid : has (i_flags v) I_VALID = true;
  op_disk : i_type v <> T_DEV
}.

(** The transaction of a write fits into the log and the buffer cache. *)
Record fits (x : fsys) (v : inode) (off n : Z) : Prop := {
  ft_log : count ts < log_size (log x) - 1;
  ft_bufs : count ts <= NBUF - 3;
  ft_ready : ready_for (i_addrs v) (lv x dev) (blocks off n);
  ft_inode : i_size v < off + n -> IBLOCK (i_inum v) ∈ ts
}.

(** The file system while the inode is locked in the transaction *)
Definition locked_fs (x : fsys) (ip : Z) (v : inode) : fsys := set_flags ip (Z.lor (i_flags v) I_BUSY) (set_log (l_with_busy 1 (log x)) x).
(** The end of the transaction: the offset of the file, and the lock *)
Definition moved_fs (x : fsys) (f n : Z) : fsys := set_ftable (upd (ftable x) f (f_with_off (u32 (f_off (ftable x f) + n)) (ftable x f))) x.

Lemma locked_spec x f ip v off n : quiet x -> good_file x ip v -> opened x f ip v off -> fits x v off n ->
  let x0 := set_log (l_with_busy 1 (log x)) x in
  runs [] begin_trans x tt x0 [] /\ runs [] (ilock ip) x0 tt (locked_fs x ip v) [] /\
  file_at dev start ts sb (locked_fs x ip v) ip (i_with_flags (Z.lor (i_flags v) I_BUSY) v).
Proof.
  intros Hq G O Ft x0. destruct (begin_spec dev start x Hq) as (R0 & T0 & K0). fold x0 in R0, T0, K0. pose proof (gf_ino _ _ _ _ _ _ G) as Ei. split_and!; [done| |].
  - apply ilock_cached; [done|apply O..].
  - assert (intx dev start ts x0 [] []) as I0.
    { split; [|apply Ft|apply Ft]. exists 0, (fun _ => 0). split; [done|lia]. }
    destruct (ix_tables dev start ts x0 (locked_fs x ip v) [] [] eq_refl eq_refl eq_refl I0) as [I1 _]. apply good_file_at; [done|].
    eapply (good_file_move dev start sb x (locked_fs x ip v)); [apply Hq|done|by intros s Hs| |done].
    unfold locked_fs, set_flags. cbn. by rewrite upd_same, Ei.
Qed.

(** What the locked inode shows of the one before *)
Lemma wrote_locked x x2 ip v v2 src off n : let v1 := i_with_flags (Z.lor (i_flags v) I_BUSY) v in
  wrote dev start ts sb (locked_fs x ip v) x2 ip v1 v2 src off n ->
  i_ref v2 = i_ref v /\ i_flags v2 = Z.lor (i_flags v) I_BUSY /\ i_size v2 = Z.max (i_size v) (off + n) /\
  same_file (i_with_size (Z.max (i_size v) (off + n)) (i_with_addrs (i_addrs v2) v)) v2 /\
  forall p, fbn (p / BSIZE) -> byte_of (i_addrs v2) (lv x2 dev) p = put_bytes (byte_of (i_addrs v) (lv x dev)) src off 0 n p.
Proof.
  intros v1 W. pose proof (wr_inode _ _ _ _ _ _ _ _ _ _ _ _ W) as E. unfold same_file. rewrite E. split_and!; try done.
  rewrite <- E. apply (wr_bytes _ _ _ _ _ _ _ _ _ _ _ _ W).
Qed.

Lemma crash_safe_ext x x' old new new' : (forall d s, outside dev start d s -> blk_eq (new d s) (new' d s)) ->
  crash_safe dev start x x' old new -> crash_safe dev start x x' old new'.
Proof.
  intros E (c & Hc & H). exists c. split; [done|]. intros k y Hrb Hy. destruct (H k y Hrb Hy) as (y' & R & F). exists y'. split; [done|].
  intros d s Ho. rewrite <- (F d s Ho). destruct (k <? c)%nat; [done|]. symmetry. by apply E.
Qed.

(** The inode is unlocked and the transaction committed. *)
Lemma finish_spec x x2 f ip v v2 src off n : let v1 := i_with_flags (Z.lor (i_flags v) I_BUSY) v in
  quiet x -> opened x f ip v off -> wrote dev start ts sb (locked_fs x ip v) x2 ip v1 v2 src off n ->
  let x3 := moved_fs x2 f n in let x4 := set_flags ip (Z.ldiff (i_flags v2) I_BUSY) x3 in
  exists x5, runs [] (iunlock ip) x3 tt x4 [] /\ runs [] commit_trans x4 tt x5 [] /\ quiet x5 /\ same_tables x4 x5 /\
    deq dev start (lv x2 dev) (lv x5 dev) /\ crash_safe dev start x x5 (dread (drv (ide x))) (dread (drv (ide x5))).
Proof.
  intros v1 Hq O W x3 x4. destruct (wrote_locked x x2 ip v v2 src off n W) as (Er & Ef & _). destruct (flags_set (i_flags v)) as ((Fb & _ & _) & _).
  pose proof (fa_at _ _ _ _ _ _ _ (wr_file _ _ _ _ _ _ _ _ _ _ _ _ W)) as [I2 E2 _ _ _].
  destruct (ix_tables dev start ts x2 x4 [] [] eq_refl eq_refl eq_refl I2) as [I4 L4]. destruct (ix_tx _ _ _ _ _ _ I4) as (k & sec & T4 & Hin).
  destruct (ix_count _ _ _ _ _ _ k sec I4 T4 Hin) as (_ & Hk & _).
  destruct (commit_atomic dev start x x4 k sec Hq T4) as (x5 & R5 & Q5 & Tb & D5 & C5); [|unfold NBUF in *; lia|].
  { exact (fk_drive _ _ _ _ _ (wr_kept _ _ _ _ _ _ _ _ _ _ _ _ W)). }
  exists x5. split_and!; try done.
  - apply iunlock_spec; [done|apply O|rewrite Er; apply O|]. rewrite Ef. exact Fb.
  - intros s Hs. rewrite <- (quiet_lv dev start x5 dev s Q5 (proj1 Hs)). rewrite <- (D5 dev s Hs). by rewrite L4.
  - eapply crash_safe_ext; [exact D5|exact C5].
Qed.

(** What a write has made of the file system. *)
Record written (x x' : fsys) (f ip : Z) (v w : inode) (src : mem) (off n : Z) : Prop := {
  wn_file : good_file x' ip w;
  wn_inode : same_file (i_with_size (Z.max (i_size v) (off + n)) (i_with_addrs (i_addrs w) v)) w;
  wn_bytes : forall p, fbn (p / BSIZE) -> byte_of (i_addrs w) (lv x' dev) p = put_bytes (byte_of (i_addrs v) (lv x dev)) src off 0 n p;
  wn_off : ftable x' f = f_with_off (off + n) (ftable x f);
  wn_files : forall g, g <> f -> ftable x' g = ftable x g;
  wn_inodes : forall i, i <> ip -> icache x' i = icache x i;
  wn_frame : forall s, data0 sb <= s < start -> in_use sb (lv x dev) s = true -> ~ owns (i_addrs v) (lv x dev) s ->
    blk_eq (lv x dev s) (lv x' dev s) /\ in_use sb (lv x' dev) s = true /\ ~ owns (i_addrs w) (lv x' dev) s;
  wn_meta : forall s b, 0 <= s < sb_ninodes sb / IPB + 3 -> 0 <= b < BSIZE ->
    ~ (s = IBLOCK (i_inum v) /\ ioff (i_inum v) <= b < ioff (i_inum v) + sizeof_dinode) -> ld8 (lv x' dev s) b = ld8 (lv x dev s) b
}.

Lemma written_spec x x2 x5 f ip v v2 src off n : let v1 := i_with_flags (Z.lor (i_flags v) I_BUSY) v in
  quiet x -> good_file x ip v -> opened x f ip v off -> 0 <= off -> 0 <= n -> off + n <= MAXFILE * BSIZE ->
  wrote dev start ts sb (locked_fs x ip v) x2 ip v1 v2 src off n ->
  same_tables (set_flags ip (Z.ldiff (i_flags v2) I_BUSY) (moved_fs x2 f n)) x5 -> deq dev start (lv x2 dev) (lv x5 dev) ->
  written x x5 f ip v (i_with_flags (Z.ldiff (i_flags v2) I_BUSY) v2) src off n.
Proof.
  intros v1 Hq G O Ho Hn Hm W [Ti Tf _ _] E. destruct (wrote_locked x x2 ip v v2 src off n W) as (_ & _ & _ & Sf & By).
  pose proof (wr_file _ _ _ _ _ _ _ _ _ _ _ _ W) as F2. pose proof (file_at_good dev start sb ts x2 ip v2 F2) as G2. pose proof (gf_ino _ _ _ _ _ _ G2) as E2.
  destruct (good_file_move dev start sb x2 x5 ip v2 (i_with_flags (Z.ldiff (i_flags v2) I_BUSY) v2) (q_place _ _ _ Hq) G2 E) as [G5 By5].
  { rewrite Ti. unfold set_flags, moved_fs. cbn. by rewrite upd_same, E2. } { done. }
  pose proof (wr_kept _ _ _ _ _ _ _ _ _ _ _ _ W) as Kp. pose proof (data0_pos start sb _ (gf_geom _ _ _ _ _ _ G2)) as Hd0.
  assert (forall s, 0 <= s < start -> outside dev start dev s) as Hout by (intros s Hs; apply (in_data dev start sb (lv x2 dev) s (gf_geom _ _ _ _ _ _ G2) (q_place _ _ _ Hq) Hs)).
  split.
  - exact G5.
  - exact (same_file_flags _ _ _ Sf).
  - intros p Hp. rewrite By5 by done. by apply By.
  - rewrite Tf. cbn. rewrite upd_same, (fk_ftable _ _ _ _ _ Kp). change (ftable (locked_fs x ip v)) with (ftable x). rewrite (op_off _ _ _ _ _ O).
    rewrite u32_small by (change (MAXFILE * BSIZE) with 71680 in Hm; lia). done.
  - intros g Hg. rewrite Tf. cbn. rewrite upd_ne by done. by rewrite (fk_ftable _ _ _ _ _ Kp).
  - intros i Hi. rewrite Ti. cbn. rewrite upd_ne by done. rewrite (fk_other _ _ _ _ _ Kp) by done. cbn. by rewrite upd_ne.
  - intros s Hs Hu Hno. destruct (wr_frame _ _ _ _ _ _ _ _ _ _ _ _ W s Hs Hu Hno) as (B & U & No). split_and!.
    + etransitivity; [exact B|]. apply E, Hout. lia.
    + rewrite (in_use_data dev start sb (lv x2 dev)); [done|apply Hq|apply G2|done|done].
    + cbn [i_addrs i_with_flags]. rewrite (owns_deq dev start sb (i_addrs v2) (lv x2 dev)); [done|apply Hq|apply G2|apply G2|done].
  - intros s b Hs Hb Hne. transitivity (ld8 (lv x2 dev s) b); [|exact (wr_meta _ _ _ _ _ _ _ _ _ _ _ _ W s b Hs Hb Hne)]. apply E; [|done]. apply Hout.
    destruct (gf_geom _ _ _ _ _ _ G2). unfold Blocks.data0 in *. change BPB with 4096 in *. mlia.
Qed.

Lemma put_bytes_src h src src' off n p : (forall i, 0 <= i < n -> src i = src' i) -> put_bytes h src off 0 n p = put_bytes h src' off 0 n p.
Proof.
  intros E. unfold put_bytes, ld8. destruct (Z.leb_spec off p), (Z.ltb_spec p (off + n)); cbn [andb]; try done. rewrite E by lia. done.
Qed.

(** The code of filewrite for one transaction, up to writei and after it *)
Lemma filewrite_code s s0 s1 f ip off addr n r s2 (x x0 x1 x2 x5 : fsys) s5 :
  f_type (ftable x f) = FD_INODE -> f_writable (ftable x f) <> 0 -> f_ip (ftable x f) = ip -> f_off (ftable x f) = off ->
  ftable x0 = ftable x -> ftable x1 = ftable x -> 0 < n <= max_write -> 0 <= addr < 0x100000000 ->
  view fsL s = x -> view fsL s0 = x0 -> view fsL s1 = x1 -> begin_trans s = Ret (tt, s0) -> ilock ip s0 = Ret (tt, s1) ->
  writei ip addr off n s1 = Ret (n, s2) ->
  ((if 0 <? n then fdset f (fun y => f_with_off (u32 (f_off y + n)) y) else ret tt) ;;
   let* ip := fdget f f_ip in iunlock ip ;; commit_trans) s2 = Ret (r, s5) -> filewrite f addr n s = Ret (n, s5).
Proof.
  intros Et Ew Ei Eo T0 T1 Hn Ha Vs V0 V1 E0 E1 E2 E5. unfold filewrite, fdget, fget, gets. unfold bind at 1. rewrite Vs, (proj2 (Z.eqb_neq _ 0) Ew).
  unfold bind at 1. rewrite Vs, Et. unfold max_write in *. change (Z.quot (LOGSIZE - 1 - 1 - 2) 2 * 512) with 1536 in *.
  assert (exists k, Z.to_nat (n / 1536 + 1) = S k) as [k ->] by (exists (Z.to_nat (n / 1536)); mlia).
  unfold bind at 1. cbn [filewrite_loop]. rewrite (proj2 (Z.ltb_lt 0 n)) in E5 |- * by lia. rewrite Z.sub_0_r, Z.add_0_r, (u32_small addr) by lia.
  unfold max_write. change (Z.quot (LOGSIZE - 1 - 1 - 2) 2 * 512) with 1536. rewrite (proj2 (Z.ltb_ge 1536 n)) by lia.
  rewrite (bind_ret_eq _ _ _ _ _ E0). unfold fdget, fget, gets. unfold bind at 1. rewrite V0, T0, Ei. rewrite (bind_ret_eq _ _ _ _ _ E1).
  unfold bind at 1. rewrite V1, T1, Eo. rewrite (bind_ret_eq _ _ _ _ _ E2). rewrite (proj2 (Z.ltb_lt 0 n)) by lia.
  unfold bind in E5 |- *. unfold fdget, fget, gets in E5. destruct (fdset f _ s2) as [[[] s3]| | | |]; try done.
  destruct (iunlock _ s3) as [[[] s4]| | | |]; try done. rewrite E5. rewrite (proj2 (Z.ltb_ge n 0)), Z.eqb_refl by lia. cbn [negb].
  destruct k; cbn [filewrite_loop]; rewrite Z.ltb_irrefl; unfold ret; by rewrite Z.eqb_refl.
Qed.

(** C1 A write is all or nothing: from a quiet file system, filewrite of at most
    [max_write] bytes to an open file, at an offset inside it or at its end, with
    room on the disk, in the log and in the buffer cache, returns the number
    of bytes; the file then holds the bytes of the process's memory at that
    offset and its old bytes elsewhere, its size, its blocks and its inode on
    the disk are in order again, the offset has moved, and no block of
    another file, no other inode and no other open file has changed.  A crash
    after any number of the disk writes, followed by recovery, leaves on the
    disk the contents from before or the contents from after the call. *)
Theorem filewrite_atomic (s : St) (x : fsys) (f ip : Z) (v : inode) (off addr n : Z) :
  kin s [] -> view fsL s = x -> quiet x -> good_file x ip v -> opened x f ip v off -> fits x v off n ->
  0 <= off <= i_size v -> 0 < n <= max_write -> off + n <= MAXFILE * BSIZE ->
  0 <= addr -> addr + n <= 0x100000000 -> (forall b, addr <= b < addr + n -> uok s b) ->
  exists s' x' w, filewrite f addr n s = Ret (n, s') /\ kin s' [] /\ keep s s' /\ view fsL s' = x' /\ quiet x' /\
    written x x' f ip v w (fun i => umem s (addr + i)) off n /\
    crash_safe dev start x x' (dread (drv (ide x))) (dread (drv (ide x'))).
Proof.
  intros Hs Hx Hq G O Ft Ho Hn Hm Ha0 Ha1 Hu.
  destruct (locked_spec x f ip v off n Hq G O Ft) as (R0 & R1 & F1). set (x0 := set_log (l_with_busy 1 (log x)) x) in *. set (x1 := locked_fs x ip v) in *.
  destruct (R0 s Hs Hx) as (s0 & E0 & H0 & V0 & K0). destruct (R1 s0 H0 V0) as (s1 & E1 & H1 & V1 & K1).
  destruct (keep_user s s1 ltac:(by etransitivity)) as (Um & Uo & _).
  destruct (fetch_spec s1 addr n Ha0 ltac:(lia) Ha1) as (m & Ef & Em); [by rewrite Uo|]. rewrite Um in Em.
  destruct (writei_spec dev start ts sb x1 ip _ m off n F1) as (x2 & v2 & R2 & W); [apply O|done|lia|done|apply Ft|apply Ft|].
  destruct (R2 s1 H1 V1) as (s2 & E2 & H2 & V2 & K2). rewrite <- (writei_fetch s1 ip addr off n m Ef) in E2.
  destruct (finish_spec x x2 f ip v v2 m off n Hq O W) as (x5 & R3 & R5 & Q5 & Tb & D5 & C5).
  pose proof (written_spec x x2 x5 f ip v v2 m off n Hq G O ltac:(lia) ltac:(lia) Hm W Tb D5) as Wn.
  assert (f_ip (ftable x2 f) = ip) as Eip by (rewrite (fk_ftable _ _ _ _ _ (wr_kept _ _ _ _ _ _ _ _ _ _ _ _ W)); apply O).
  assert (runs [] ((if 0 <? n then fdset f (fun y => f_with_off (u32 (f_off y + n)) y) else ret tt) ;;
    let* ip := fdget f f_ip in iunlock ip ;; commit_trans) x2 tt x5 []) as Rest.
  { rewrite (proj2 (Z.ltb_lt 0 n)) by lia. rstep. fold (moved_fs x2 f n). rstep. cbn [ftable moved_fs set_ftable]. rewrite upd_same. cbn [f_ip f_with_off]. rewrite Eip.
    eapply runs_bind; [exact R3|exact R5]. }
  destruct (Rest s2 H2 V2) as (s5 & E5 & H5 & V5 & K5). exists s5, x5, (i_with_flags (Z.ldiff (i_flags v2) I_BUSY) v2). split_and!; try done.
  - eapply (filewrite_code s s0 s1 f ip off addr n tt s2 x x0 x1 x2 x5); try done; try apply O. lia.
  - do 3 (etransitivity; [eassumption|]). done.
  - destruct Wn. split; try done. intros p Hp. rewrite wn_bytes0 by done. by apply put_bytes_src.
Qed.
End filewrite.

(** ** An example *)

(** The good file of a quiet file system, from the disk alone *)
Lemma good_file_disk dev start sb x ip v : quiet dev start x -> let V := dread (drv (ide x)) dev in
  icache x ip = v -> i_dev v = dev -> geom start sb V -> file_ok start sb (i_addrs v) V -> 0 <= i_inum v < sb_ninodes sb ->
  typed v -> i_size v <= MAXFILE * BSIZE -> full (i_addrs v) V (i_size v) -> saved_in (V (IBLOCK (i_inum v))) v ->
  deq dev start V (lv x dev) /\ good_file dev start sb x ip v.
Proof.
  intros Hq V Ei Ed G F Hi Ty Hs Hf Sv. pose proof (q_place _ _ _ Hq) as P.
  assert (deq dev start V (lv x dev)) as E by (intros s Hs'; by apply (quiet_lv dev start); [|apply Hs']).
  split; [done|]. split; try done.
  - by apply (geom_deq dev start sb V).
  - by apply (file_ok_deq dev start sb _ V).
  - intros j Hj Hlt. rewrite (addr_of_deq dev start sb _ V); [by apply Hf|done..|]. unfold fbn. change MAXFILE with 140 in *. change BSIZE with 512 in *. lia.
  - eapply saved_blk; [|exact Sv]. apply E. by apply (iblock_range dev start sb V).
Qed.

Lemma ready_for_deq dev start ts sb a V V' bl : log_place dev start -> geom start sb V -> file_ok start sb a V -> deq dev start V V' ->
  (forall j, j ∈ bl -> fbn j) -> ready_for start ts sb a V bl -> ready_for start ts sb a V' bl.
Proof.
  intros P G F E Hbl R. destruct (geom_deq dev start sb V V' E P G) as [_ El].
  apply (ready_same start ts sb a V); [done| |done]. intros j Hj. by apply (addr_of_deq dev start sb); [..|apply Hbl].
Qed.

Lemma quiet_tables dev start x g h : quiet dev start x -> quiet dev start (set_ftable g (set_icache h x)).
Proof. intros [[l Hc] ? ? ? ? ? ? ? ?]. split; try done. exists l. by destruct Hc. Qed.
Lemma drv_tables x g h : drv (ide (set_ftable g (set_icache h x))) = drv (ide x).
Proof. done. Qed.

(** A disk of 920 blocks with eight inodes: inode 1 is a file of 511 bytes in
    block 5, inode 2 a file of one byte in block 6, and the blocks from 7 on
    are free. *)
Definition ex_sb : superblock := mkSb 920 890 8 10.
Definition ex_image (d s a : Z) : Z :=
  if s =? 1 then st32 (st32 (st32 (st32 (fun _ => 0) 0 920) 4 890) 8 8) 12 10 a
  else if s =? 2 then st16 (st16 (st32 (st32 (st16 (st16 (st32 (st32 (fun _ => 0) 72 511) 76 5) 64 2) 70 1) 136 1) 140 6) 128 2) 134 1 a
  else if s =? 4 then (if a =? 0 then 127 else 0)
  else if s =? 5 then 10 else if s =? 6 then 20 else 0.
(** A file in one block *)
Definition ex_inode (inum b size : Z) : inode := mkInode 1 inum 1 I_VALID 2 0 0 1 size (fun i => if i =? 0 then b else 0).
Definition ex_first : inode := ex_inode 1 5 511.
Definition ex_second : inode := ex_inode 2 6 1.
Definition ex_drive : drive := mkDrive ex_image [].
Definition ex_fs : fsys :=
  set_ftable (fun _ => mkFile FD_INODE 1 1 1 0 0 511) (set_icache (fun i => if i =? 0 then ex_first else ex_second) (demo_fs ex_drive)).
Definition ex_state : alone := mkAlone ex_fs (fun a => a - 95) 0.

Lemma ex_quiet : quiet 1 900 ex_fs.
Proof.
  unfold ex_fs. apply quiet_tables. pose proof (booted_cache ex_drive) as Hc. destruct (booted_clean ex_drive) as (Hh & Hcl & Hd). unfold demo_fs.
  apply (quiet_set_log 1 900 (booted ex_drive) boot_ring demo_log Hc Hh Hcl); [unfold log_place, LOGSIZE; lia|reflexivity..|].
  rewrite Hd. reflexivity.
Qed.

Lemma ex_drv : drv (ide ex_fs) = ex_drive.
Proof. unfold ex_fs, demo_fs. rewrite drv_tables, drv_set_log. destruct (booted_clean ex_drive) as (_ & _ & H). exact H. Qed.

Lemma ex_geom : geom 900 ex_sb (ex_image 1).
Proof. split; [vm_compute; reflexivity|done|done|done]. Qed.

Lemma ex_addr inum b size V j : addr_of (i_addrs (ex_inode inum b size)) V j = if j =? 0 then b else 0.
Proof. unfold addr_of. destruct (Z.ltb_spec j NDIRECT) as [|Hge]; [done|]. rewrite (proj2 (Z.eqb_neq j 0)) by (unfold NDIRECT in Hge; lia). done. Qed.

Lemma ex_owns inum b size V s : owns (i_addrs (ex_inode inum b size)) V s -> s = b.
Proof. intros [Hs [E|(j & Hj & E)]]; [by cbn in E|]. rewrite ex_addr in E. by destruct (j =? 0). Qed.

Lemma ex_file inum b size : data0 ex_sb <= b < 900 -> in_use ex_sb (ex_image 1) b = true -> file_ok 900 ex_sb (i_addrs (ex_inode inum b size)) (ex_image 1).
Proof.
  intros Hb Hu. split.
  - by intros s ->%ex_owns.
  - intros i j Hi Hj. rewrite !ex_addr. destruct (Z.eqb_spec i 0), (Z.eqb_spec j 0); try done. lia.
  - intros i Hi. rewrite ex_addr. by destruct (i =? 0).
Qed.

(** The inode is on the disk. *)
Definition ex_on_disk (v : inode) : bool :=
  let m := ex_image 1 (IBLOCK (i_inum v)) in let o := ioff (i_inum v) in
  (s16 (ld16 m (o + di_type)) =? i_type v) && (s16 (ld16 m (o + di_major)) =? i_major v) && (s16 (ld16 m (o + di_minor)) =? i_minor v) &&
  (s16 (ld16 m (o + di_nlink)) =? i_nlink v) && (ld32 m (o + di_size) =? i_size v) &&
  forallb (fun i => ld32 m (o + di_addrs + 4 * i) =? i_addrs v i) (seqZ 0 13).

Lemma ex_saved v : ex_on_disk v = true -> saved_in (ex_image 1 (IBLOCK (i_inum v))) v.
Proof.
  unfold ex_on_disk. intros H. repeat (apply andb_true_iff in H as [H ?]). split; try (by apply Z.eqb_eq).
  intros i Hi. apply Z.eqb_eq. match goal with Ha : forallb _ _ = true |- _ => rewrite forallb_forall in Ha; apply Ha end.
  apply list_elem_of_In, elem_of_seqZ. unfold NDIRECT in Hi. lia.
Qed.

Lemma ex_good ip inum b size : icache ex_fs ip = ex_inode inum b size -> 0 <= inum < 8 -> data0 ex_sb <= b < 900 -> in_use ex_sb (ex_image 1) b = true ->
  0 <= size <= 512 -> ex_on_disk (ex_inode inum b size) = true ->
  deq 1 900 (ex_image 1) (lv ex_fs 1) /\ good_file 1 900 ex_sb ex_fs ip (ex_inode inum b size).
Proof.
  intros Ei Hi Hb Hu Hs Hd. assert (5 <= b < 900) as Hb' by exact Hb. pose proof (good_file_disk 1 900 ex_sb ex_fs ip (ex_inode inum b size) ex_quiet) as H. rewrite ex_drv in H.
  change (dread ex_drive 1) with (ex_image 1) in H. apply H; [exact Ei|reflexivity|exact ex_geom|by apply ex_file|exact Hi| | | |by apply ex_saved].
  - split; try done; [unfold uint; cbn; lia|]. intros i _. unfold uint. cbn. destruct (i =? 0); lia.
  - change (MAXFILE * BSIZE) with 71680. cbn. lia.
  - intros j Hj Hlt. change (i_size (ex_inode inum b size)) with size in Hlt. change BSIZE with 512 in Hlt. replace j with 0 by lia. rewrite ex_addr. cbn.
    pose proof ex_geom as G. pose proof (data0_pos 900 ex_sb _ G). lia.
Qed.

Lemma ex_good1 : deq 1 900 (ex_image 1) (lv ex_fs 1) /\ good_file 1 900 ex_sb ex_fs 0 ex_first.
Proof. apply ex_good; [reflexivity|done|done|vm_compute; reflexivity|done|vm_compute; reflexivity]. Qed.
Lemma ex_good2 : good_file 1 900 ex_sb ex_fs 1 ex_second.
Proof. apply ex_good; [reflexivity|done|done|vm_compute; reflexivity|done|vm_compute; reflexivity]. Qed.

Definition ex_ts : list Z := [2; 4; 5; 7].

Lemma ex_ready : ready_for 900 ex_ts ex_sb (i_addrs ex_first) (ex_image 1) (blocks 511 2).
Proof.
  split.
  - exists [7], (drop 1 (free_list ex_sb (ex_image 1))). split_and!; [vm_compute; reflexivity|reflexivity|]. constructor; [|done].
    split; [done|]. split; [set_solver|]. change (4 ∈ ex_ts). set_solver.
  - intros j Hj. unfold ex_first. rewrite ex_addr. destruct (j =? 0); [set_solver|done].
  - intros j _ _ H. done.
Qed.

Lemma ex_opened : opened ex_fs 0 0 ex_first 511.
Proof. split; done. Qed.

Lemma ex_fits : fits 1 900 ex_ts ex_sb ex_fs ex_first 511 2.
Proof.
  split; [done|done| |intros _; change (2 ∈ ex_ts); set_solver].
  destruct ex_good1 as [E G]. apply (ready_for_deq 1 900 ex_ts ex_sb _ (ex_image 1)); [split_and!; done|exact ex_geom| |exact E| |exact ex_ready].
  - apply ex_file; [done|vm_compute; reflexivity].
  - intros j Hj. by apply (range_blocks 511 2).
Qed.

(** Two bytes are written across the end of the block. *)
Lemma filewrite_atomic_witness :
  exists s' x' w, filewrite 0 100 2 ex_state = Ret (2, s') /\ view fsL s' = x' /\
    written 1 900 ex_sb ex_fs x' 0 0 ex_first w (fun i => 100 + i - 95) 511 2 /\
    crash_safe 1 900 ex_fs x' (dread (drv (ide ex_fs))) (dread (drv (ide x'))).
Proof.
  destruct ex_good1 as [_ G].
  destruct (@filewrite_atomic alone alone_kernel alone_spec alone_user 1 900 ex_ts ex_sb ex_state ex_fs 0 0 ex_first 511 100 2 I eq_refl ex_quiet G ex_opened ex_fits)
    as (s' & x' & w & E & _ & _ & V & _ & W & C); [done|done|done|done|done|done|].
  exists s', x', w. split_and!; [exact E|exact V|exact W|exact C].
Defined.

Lemma good_file_log dev start sb x l ip v : good_file dev start sb x ip v -> good_file dev start sb (set_log l x) ip v.
Proof. intros [? ? ? ? ? ? ? ? ?]. by split. Qed.

(** The file system inside a transaction *)
Definition ex_tx : fsys := set_log (l_with_busy 1 (log ex_fs)) ex_fs.

Lemma ex_tx_file ip v : good_file 1 900 ex_sb ex_fs ip v -> file_at 1 900 ex_ts ex_sb ex_tx ip v.
Proof.
  intros G. destruct (begin_spec 1 900 ex_fs ex_quiet) as (_ & T & _). fold ex_tx in T. apply good_file_at.
  - split; [|done|done]. exists 0, (fun _ => 0). split; [exact T|lia].
  - unfold ex_tx. by apply good_file_log.
Qed.

Lemma lv_set_log l x : lv (set_log l x) = lv x.
Proof. done. Qed.
Lemma ex_tx_ready : ready_for 900 ex_ts ex_sb (i_addrs ex_first) (lv ex_tx 1) (blocks 511 2).
Proof. unfold ex_tx. rewrite lv_set_log. exact (ft_ready _ _ _ _ _ _ _ _ ex_fits). Qed.

(** The last old byte and the two new ones are read back. *)
Lemma writei_readi_witness :
  exists x1 x2 d, runs [] (writei_data (St := alone) 0 (fun a => a + 5) 511 2) ex_tx 2 x1 [] /\
    runs [] (readi_data (St := alone) 0 510 9) x1 (3, d) x2 [] /\ ld8 d 1 = 5 /\ ld8 d 2 = 6.
Proof.
  destruct ex_good1 as [_ G1].
  destruct (writei_readi 1 900 ex_ts ex_sb ex_tx 0 ex_first (fun a => a + 5) 511 2 510 9 1 ex_second (ex_tx_file 0 _ G1))
    as (x1 & x2 & d & R1 & R2 & Hd & _); [done|done|done|done|exact ex_tx_ready|exact (ft_inode _ _ _ _ _ _ _ _ ex_fits)|done|done|done|exact (ex_tx_file 1 _ ex_good2)|done| |].
  - split; [done|]. intros s Hs%ex_owns Hs'%ex_owns. congruence.
  - exists x1, x2, d. split; [exact R1|]. split; [exact R2|]. split; [rewrite (Hd 1) by done|rewrite (Hd 2) by done]; reflexivity.
Defined.
