(* ===== verification/Dirs.v ===== *)
(** * Directories are finite maps

    A directory is a file of 16-byte entries, an inode number and a name of at
    most 14 bytes; entries with the number 0 are free.  The lemmas say that
    iget gives an entry of the inode cache for an inode, that dirlookup (fs.c)
    searches the entries in order and that dirlink fills a free one, and the
    theorems that the two are lookup and insertion of a finite map from names
    to inode numbers. *)

From Stdlib Require Import ZArith Lia String Bool.
From stdpp Require Import base numbers sets gmap list.
From S2P Require Import Prelude Params Mem Spinlock FsState Bio Log Inode Console Fs FsRun BioSpec LogSpec Crash Transaction Blocks FileBlocks FileSpec FileIO FileWrite.

(** ** Names *)

(** The bytes of an array of 14, up to its NUL *)
Definition field (f : Z -> Z) : list Z := cstr (map f (seqZ 0 DIRSIZ)).
(** What a name is compared by *)
Definition key (nm : list Z) : list Z := cstr (take (Z.to_nat DIRSIZ) nm).

Lemma str_ncmp_zero f g n : forall i, str_ncmp f g i n = 0 <-> cstr (map f (seqZ i (Z.of_nat n))) = cstr (map g (seqZ i (Z.of_nat n))).
Proof.
  induction n as [|n IH]; intros i; [done|]. rewrite seqZ_cons by lia. replace (Z.pred (Z.of_nat (S n))) with (Z.of_nat n) by lia. cbn [str_ncmp map cstr].
  change (Z.succ i) with (i + 1). destruct (Z.eqb_spec (f i) 0) as [E|E]; cbn [negb andb].
  - destruct (Z.eqb_spec (g i) 0); split; intros; done || lia.
  - destruct (Z.eqb_spec (f i) (g i)) as [E2|E2].
    + rewrite IH, <- E2. destruct (Z.eqb_spec (f i) 0); [lia|]. split; [by intros ->|by intros [= H]].
    + destruct (Z.eqb_spec (g i) 0); split; intros H; try done; try lia. by injection H.
Qed.

Lemma field_name nm : field (name_at nm) = key nm.
Proof.
  unfold field, key, DIRSIZ. generalize (Z.to_nat 14) (eq_refl : 14 = Z.of_nat (Z.to_nat 14)). intros n ->. clear.
  enough (forall i, 0 <= i -> cstr (map (name_at nm) (seqZ i (Z.of_nat n))) = cstr (take n (drop (Z.to_nat i) nm))) as H by by rewrite H by lia.
  induction n as [|n IH]; intros i Hi; [done|]. rewrite seqZ_cons by lia. replace (Z.pred (Z.of_nat (S n))) with (Z.of_nat n) by lia. cbn [map cstr].
  rewrite IH by lia. unfold name_at. rewrite (proj2 (Z.ltb_ge i 0)) by lia. replace (Z.to_nat (Z.succ i)) with (S (Z.to_nat i)) by lia.
  destruct (drop (Z.to_nat i) nm) as [|c l] eqn:E.
  - assert (length nm <= Z.to_nat i)%nat by (apply length_zero_iff_nil in E; rewrite length_drop in E; lia). rewrite nth_overflow by lia. done.
  - assert (nm !! Z.to_nat i = Some c) as Hc by (rewrite <- (Nat.add_0_r (Z.to_nat i)), <- lookup_drop, E; done).
    rewrite (nth_lookup_Some _ _ _ _ Hc), (drop_S nm c (Z.to_nat i) Hc) in *. injection E as E. by rewrite E.
Qed.

Lemma namecmp_zero nm f : namecmp nm f = 0 <-> field f = key nm.
Proof. unfold namecmp. rewrite str_ncmp_zero, Z2Nat.id by (unfold DIRSIZ; lia). fold (field f) (field (name_at nm)). rewrite field_name. split; congruence. Qed.

Lemma cstr_take n l : cstr (take n l) = take n (cstr l).
Proof. revert n. induction l as [|c l IH]; intros [|n]; try done; cbn; destruct (c =? 0); try done. by rewrite IH. Qed.
Lemma cstr_idem l : cstr (cstr l) = cstr l.
Proof. induction l as [|c l IH]; [done|]. cbn. destruct (c =? 0) eqn:E; [done|]. cbn. by rewrite E, IH. Qed.
Lemma key_idem nm : key (key nm) = key nm.
Proof. unfold key. by rewrite cstr_take, cstr_idem, cstr_take, take_take, Nat.min_id. Qed.

Lemma field_ext f g : (forall k, 0 <= k < DIRSIZ -> f k = g k) -> field f = field g.
Proof. intros H. unfold field. f_equal. apply map_ext_in. intros k Hk%list_elem_of_In%elem_of_seqZ. apply H. lia. Qed.

(** ** Entries *)

Definition entry_inum (h : Z -> Z) (i : Z) : Z := h (16 * i) + h (16 * i + 1) * 0x100.
Definition entry_name (h : Z -> Z) (i : Z) : list Z := field (fun k => h (16 * i + 2 + k)).
(** Inode number and name, for entry [i] on *)
Fixpoint entries (h : Z -> Z) (n : nat) (i : Z) : list (Z * list Z) :=
  match n with
  | O => []
  | S n => (entry_inum h i, entry_name h i) :: entries h n (i + 1)
  end.

(** The number of the first entry with the name, and the entry's position *)
Fixpoint find_entry (nm : list Z) (es : list (Z * list Z)) (i : Z) : option (Z * Z) :=
  match es with
  | [] => None
  | (inum, name) :: es =>
    if negb (inum =? 0) && bool_decide (name = nm) then Some (inum, i) else find_entry nm es (i + 1)
  end.
(** The position of the first free entry, or the end *)
Fixpoint find_free_entry (es : list (Z * list Z)) (i : Z) : Z :=
  match es with
  | [] => i
  | (inum, _) :: es => if inum =? 0 then i else find_free_entry es (i + 1)
  end.

Lemma entries_ext h h' n : forall i, (forall p, 16 * i <= p < 16 * (i + Z.of_nat n) -> h p = h' p) -> entries h n i = entries h' n i.
Proof.
  induction n as [|n IH]; intros i H; [done|]. cbn [entries]. rewrite (IH (i + 1)) by (intros; apply H; lia). unfold entry_inum, entry_name. rewrite !H by lia.
  rewrite (field_ext _ (fun k => h' (16 * i + 2 + k))); [done|]. intros k Hk. apply H. unfold DIRSIZ in Hk. lia.
Qed.

Lemma length_entries h n : forall i, length (entries h n i) = n.
Proof. induction n as [|n IH]; intros i; cbn [entries length]; [done|]. by rewrite IH. Qed.

Lemma find_free_range es : forall i, i <= find_free_entry es i <= i + Z.of_nat (length es).
Proof.
  induction es as [|[inum nm] es IH]; intros i; cbn [find_free_entry length]; [lia|]. destruct (inum =? 0); [lia|]. specialize (IH (i + 1)). lia.
Qed.

(** An entry in the first free place, or at the end *)
Fixpoint link (e : Z * list Z) (es : list (Z * list Z)) : list (Z * list Z) :=
  match es with
  | [] => [e]
  | (inum, nm) :: es => if inum =? 0 then e :: es else (inum, nm) :: link e es
  end.

Lemma find_link nm inum nm' es : inum <> 0 -> forall i, find_entry nm es i = None ->
  find_entry nm' (link (inum, nm) es) i = if bool_decide (nm' = nm) then Some (inum, find_free_entry es i) else find_entry nm' es i.
Proof.
  intros Hn. induction es as [|[m q] es IH]; intros i Hf; cbn [link find_entry find_free_entry] in *.
  - rewrite (proj2 (Z.eqb_neq inum 0) Hn). cbn [negb andb]. rewrite (bool_decide_ext (nm = nm') (nm' = nm)) by (split; congruence). done.
  - destruct (Z.eqb_spec m 0) as [->|Hm]; cbn [find_entry].
    + rewrite (proj2 (Z.eqb_neq inum 0) Hn). cbn [negb andb Z.eqb] in *. rewrite (bool_decide_ext (nm = nm') (nm' = nm)) by (split; congruence). done.
    + rewrite (proj2 (Z.eqb_neq m 0) Hm) in *. cbn [negb andb] in *. destruct (bool_decide (q = nm)) eqn:Eq; [done|]. rewrite IH by done.
      destruct (bool_decide (q = nm')) eqn:Eq2; [|done]. apply bool_decide_eq_true in Eq2 as ->. by rewrite Eq.
Qed.

Lemma entries_link h h' inum nm n : forall i, let j := find_free_entry (entries h n i) i in
  entry_inum h' j = inum -> entry_name h' j = nm -> (forall p, 16 * i <= p < 16 * (i + Z.of_nat n) -> ~ (16 * j <= p < 16 * j + 16) -> h' p = h p) ->
  entries h' (if j <? i + Z.of_nat n then n else S n) i = link (inum, nm) (entries h n i).
Proof.
  induction n as [|n IH]; intros i j E1 E2 Hh.
  - unfold j in *. cbn [entries find_free_entry link] in *. rewrite Z.add_0_r, Z.ltb_irrefl. cbn [entries]. by rewrite E1, E2.
  - unfold j in *. cbn [entries find_free_entry link] in *. destruct (Z.eqb_spec (entry_inum h i) 0) as [Ez|Ez].
    + rewrite (proj2 (Z.ltb_lt _ _)) by lia. cbn [entries]. rewrite E1, E2. f_equal. apply entries_ext. intros p Hp. apply Hh; lia.
    + pose proof (find_free_range (entries h n (i + 1)) (i + 1)) as Hr. specialize (IH (i + 1) E1 E2 ltac:(intros; apply Hh; lia)). cbv zeta in IH.
      set (jj := find_free_entry _ _) in *. replace (i + Z.of_nat (S n)) with (i + 1 + Z.of_nat n) by lia.
      assert (entries h' 1 i = entries h 1 i) as E by (apply entries_ext; intros p Hp; apply Hh; lia). cbn [entries] in E.
      destruct (jj <? i + 1 + Z.of_nat n); cbn [entries]; rewrite <- IH; cbn [entries]; congruence.
Qed.

(** ** The map of a directory *)

(** From names to inode numbers; of two entries with a name the first counts. *)
Definition dmap (es : list (Z * list Z)) : gmap (list Z) Z :=
  foldr (fun e m => if fst e =? 0 then m else <[snd e := fst e]> m) ∅ es.

Lemma dmap_find nm es : forall i, dmap es !! nm = fst <$> find_entry nm es i.
Proof.
  induction es as [|[inum q] es IH]; intros i; cbn [dmap foldr find_entry fst snd]; [done|]. fold (dmap es). destruct (inum =? 0); cbn [negb andb]; [apply IH|].
  case_bool_decide as E; [subst q; by rewrite lookup_insert_eq|]. rewrite lookup_insert_ne by done. apply IH.
Qed.

Lemma dmap_link nm inum es : inum <> 0 -> dmap es !! nm = None -> dmap (link (inum, nm) es) = <[nm := inum]> (dmap es).
Proof.
  intros Hn Hf. rewrite (dmap_find nm es 0) in Hf. apply fmap_None in Hf. apply map_eq. intros k. rewrite (dmap_find k _ 0), (find_link nm inum k es Hn 0 Hf).
  case_bool_decide as E; [subst k; by rewrite lookup_insert_eq|]. by rewrite lookup_insert_ne, (dmap_find k es 0) by congruence.
Qed.

Section dirs.
Context {St : Type} {K : Kernel St} {KS : KernelSpec St}.
Context (dev start : Z) (ts : list Z) (sb : superblock).
Abbreviation intx := (intx dev start ts).
Abbreviation goes := (goes dev start ts).
Abbreviation file_at := (file_at dev start ts sb).
Abbreviation ready_for := (ready_for start ts sb).

(** ** The inode cache *)

(** The entry [ip] is for the inode, with one reference more than before. *)
Record got (x x' : fsys) (inum ip : Z) : Prop := {
  gt_range : 0 <= ip < NINODE;
  gt_state : exists c, x' = set_icache c x;
  gt_other : forall i, i <> ip -> icache x' i = icache x i;
  gt_dev : i_dev (icache x' ip) = dev;
  gt_inum : i_inum (icache x' ip) = inum;
  gt_ref : i_ref (icache x' ip) = i_ref (icache x ip) + 1;
  gt_fresh : i_ref (icache x ip) = 0 -> i_flags (icache x' ip) = 0;
  gt_cached : 0 < i_ref (icache x ip) -> icache x' ip = i_with_ref (i_ref (icache x ip) + 1) (icache x ip)
}.
(** The cache has the inode or an entry to spare. *)
Definition icache_room (x : fsys) (inum : Z) : Prop :=
  (forall i, 0 <= i < NINODE -> 0 <= i_ref (icache x i)) /\
  exists i, 0 <= i < NINODE /\ (i_ref (icache x i) = 0 \/ i_dev (icache x i) = dev /\ i_inum (icache x i) = inum).

Lemma iget_loop_spec H x inum n : forall i empty, 0 <= i -> (forall j, i <= j < i + Z.of_nat n -> 0 <= i_ref (icache x j)) ->
  (empty = -1 \/ 0 <= empty < i /\ i_ref (icache x empty) = 0) ->
  (exists j, i <= j < i + Z.of_nat n /\ 0 < i_ref (icache x j) /\ i_dev (icache x j) = dev /\ i_inum (icache x j) = inum /\
     runs H (iget_loop n i dev inum empty) x (j, true) (set_icache (upd (icache x) j (i_with_ref (i_ref (icache x j) + 1) (icache x j))) x) H) \/
  (exists e, (e = -1 /\ empty = -1 /\ (forall j, i <= j < i + Z.of_nat n -> i_ref (icache x j) <> 0 /\ ~ (i_dev (icache x j) = dev /\ i_inum (icache x j) = inum)) \/
      0 <= e < i + Z.of_nat n /\ i_ref (icache x e) = 0) /\ runs H (iget_loop n i dev inum empty) x (e, false) x H).
Proof.
  induction n as [|n IH]; intros i empty Hi Hr He.
  - right. exists empty. split; [|rprim]. destruct He as [->|He]; [left; split_and!; [done..|lia]|right; lia].
  - cbn [iget_loop]. destruct ((0 <? i_ref (icache x i)) && (i_dev (icache x i) =? dev) && (i_inum (icache x i) =? inum)) eqn:Eb.
    + left. apply andb_true_iff in Eb as [[?%Z.ltb_lt ?%Z.eqb_eq]%andb_true_iff ?%Z.eqb_eq]. exists i. split_and!; try done; try lia.
      rstep. rstep. rstep. rewrite (proj2 (Z.ltb_lt 0 _)), !(proj2 (Z.eqb_eq _ _)) by done. cbn [andb]. rstep. rprim.
    + set (e1 := if (empty =? -1) && (i_ref (icache x i) =? 0) then i else empty).
      assert (forall r y, runs H (iget_loop n (i + 1) dev inum e1) x r y H -> runs H (iget_loop (S n) i dev inum empty) x r y H) as Hrun.
      { intros r y R. cbn [iget_loop]. rstep. rstep. rstep. rewrite Eb. exact R. }
      assert (e1 = -1 \/ 0 <= e1 < i + 1 /\ i_ref (icache x e1) = 0) as He1.
      { unfold e1. destruct (Z.eqb_spec empty (-1)), (Z.eqb_spec (i_ref (icache x i)) 0); cbn [andb]; try (right; split; [lia|done]); destruct He as [?|[? ?]]; try (left; done); right; split; try lia; done. }
      destruct (IH (i + 1) e1) as [(j & ? & ? & ? & ? & R)|(e & He' & R)]; [lia|intros; apply Hr; lia|done| |].
      * left. exists j. split_and!; try done; try lia. by apply Hrun.
      * right. exists e. split; [|by apply Hrun]. destruct He' as [(-> & E1 & Hn)|[? ?]]; [|right; split; [lia|done]].
        left. unfold e1 in E1. destruct (Z.eqb_spec empty (-1)) as [Ee|Ee]; cbn [andb] in E1; [|lia]. split_and!; try done.
        destruct (Z.eqb_spec (i_ref (icache x i)) 0); [lia|]. intros j Hj. destruct (decide (j = i)) as [->|]; [|apply Hn; lia]. split; [done|].
        intros [Ed Em]. rewrite Ed, Em, !Z.eqb_refl, !andb_true_r in Eb. apply Z.ltb_ge in Eb. specialize (Hr i ltac:(lia)). lia.
Qed.

Lemma iget_spec x inum : icache_room x inum -> exists ip x', runs [] (iget dev inum) x ip x' [] /\ got x x' inum ip.
Proof.
  intros [Hr (i0 & Hi0 & Hroom)]. unfold iget. destruct (iget_loop_spec [L_icache] x inum (Z.to_nat NINODE) 0 (-1)) as [(j & Hj & Hp & Ed & En & R)|(e & He & R)].
  - lia.
  - intros; apply Hr. unfold NINODE in *; lia.
  - by left.
  - exists j. eexists. split.
    + eapply runs_bind; [apply runs_lock, not_elem_of_nil|]. cbv beta. eapply runs_bind; [exact R|]. cbv beta iota. rstep. rprim.
    + split; [unfold NINODE in *; lia|by eexists|..]; cbn [icache set_icache]; rewrite ?upd_same; try (destruct (icache x j); cbn in *; done || lia).
      intros i Hi. by rewrite upd_ne.
  - rewrite Z2Nat.id in He by (unfold NINODE; lia). destruct He as [(_ & _ & Hn)|[He Ez]].
    { exfalso. destruct (Hn i0 ltac:(lia)) as [? H]. destruct Hroom as [?|?]; [done|]. by apply H. }
    exists e. eexists. split.
    + eapply runs_bind; [apply runs_lock, not_elem_of_nil|]. cbv beta. eapply runs_bind; [exact R|]. cbv beta iota. rewrite (proj2 (Z.eqb_neq e (-1))) by lia.
      do 5 rstep. rprim.
    + split; [unfold NINODE in *; lia|by eexists|..]; cbn [icache set_icache]; rewrite ?upd_same; try (destruct (icache x e); cbn in *; done || lia).
      intros i Hi. by rewrite !upd_ne.
Qed.

(** ** Searching a directory *)

Definition bytes (x : fsys) (v : inode) : Z -> Z := byte_of (i_addrs v) (lv x dev).
(** A directory of [n] entries, in order in a transaction *)
Record dir_at (x : fsys) (dp : Z) (v : inode) (n : nat) : Prop := {
  da_file : file_at x dp v;
  da_type : i_type v = T_DIR;
  da_size : i_size v = 16 * Z.of_nat n
}.
Definition listing (x : fsys) (v : inode) (n : nat) : list (Z * list Z) := entries (bytes x v) n 0.

Lemma goes_file x x' ip v : file_at x ip v -> goes x x' [] [] [] (lv x dev) -> file_at x' ip v.
Proof.
  intros [A ? ? Hs Ff Sv] G. split; try done.
  - by apply (goes_at dev start ts sb x).
  - intros j Hj Hl. rewrite (goes_addr dev start ts sb x x' ip v j A G); [by apply Ff|]. unfold fbn. change MAXFILE with 140 in *. change BSIZE with 512 in *. lia.
  - eapply saved_blk; [|exact Sv]. apply (go_view _ _ _ _ _ _ _ _ _ G).
    apply (iblock_range dev start sb (lv x dev)); [apply A|by eapply ix_place, A|done].
Qed.
Lemma goes_icache x x' hs hs' ms V : goes x x' hs hs' ms V -> icache x' = icache x.
Proof. intros G. apply (go_kept _ _ _ _ _ _ _ _ _ G). Qed.

(** What the search has found: an entry of the inode cache and the offset of the
    directory entry. *)
Definition found (x x' : fsys) (f : option (Z * Z)) (r : option (Z * Z)) : Prop :=
  match f with
  | None => r = None /\ x' = x
  | Some (inum, i) => exists ip, r = Some (ip, 16 * i) /\ got x x' inum ip
  end.

Lemma read_dirent_spec x dp v n i : dir_at x dp v n -> 0 <= i < Z.of_nat n ->
  exists de x', runs [] (read_dirent dp (16 * i)) x de x' [] /\ goes x x' [] [] [] (lv x dev) /\
    de_inum de = entry_inum (bytes x v) i /\ field (de_name de) = entry_name (bytes x v) i.
Proof.
  intros [F Ht Hs] Hi. pose proof (fa_size _ _ _ _ _ _ _ F) as Hm. change (MAXFILE * BSIZE) with 71680 in Hm.
  destruct (readi_spec dev start ts sb x dp v (16 * i) 16 F) as (x' & d & R & G & Hd); [by rewrite Ht|lia|lia|change (2 ^ 32) with 4294967296; lia|].
  rewrite Z.min_l in * by lia. exists d, x'. split_and!; [|done|..].
  - unfold read_dirent, sizeof_dirent. eapply runs_bind; [exact R|]. cbv beta iota. cbn [Z.eqb Pos.eqb negb]. rprim.
  - unfold de_inum, ld16, entry_inum. rewrite !Hd by lia. unfold bytes. do 2 f_equal; lia.
  - unfold entry_name. apply field_ext. intros k Hk. unfold DIRSIZ in Hk. unfold de_name. rewrite Hd by lia. unfold bytes. f_equal. lia.
Qed.

Lemma bytes_goes x x' ip v p : file_at x ip v -> goes x x' [] [] [] (lv x dev) -> 0 <= p < i_size v -> bytes x' v p = bytes x v p.
Proof.
  intros F G Hp. apply (goes_byte dev start ts sb x x' ip v p); [apply F|done|]. pose proof (fa_size _ _ _ _ _ _ _ F).
  unfold fbn. change MAXFILE with 140 in *. change BSIZE with 512 in *. mlia.
Qed.

Lemma dir_goes x x' dp v n : dir_at x dp v n -> goes x x' [] [] [] (lv x dev) -> dir_at x' dp v n /\ listing x' v n = listing x v n.
Proof.
  intros [F Ht Hs] G. split; [split; try done; by eapply goes_file|]. apply entries_ext. intros p Hp. apply (bytes_goes x x' dp); [done|done|]. lia.
Qed.

Lemma dirlookup_loop_spec dp nm n v k : forall fuel x i, dir_at x dp v n -> i + Z.of_nat k = Z.of_nat n -> 0 <= i -> (k <= fuel)%nat ->
  (forall inum j, find_entry (key nm) (entries (bytes x v) k i) i = Some (inum, j) -> icache_room x inum) ->
  exists r x1 x2, runs [] (dirlookup_loop fuel dp nm (16 * i)) x r x2 [] /\ goes x x1 [] [] [] (lv x dev) /\
    found x1 x2 (find_entry (key nm) (entries (bytes x v) k i) i) r.
Proof.
  induction k as [|k IH]; intros fuel x i D Hn Hi Hf Hroom; pose proof (da_file _ _ _ _ D) as F; pose proof (fa_at _ _ _ _ _ _ _ F) as A;
    pose proof (da_size _ _ _ _ D) as Hs; pose proof (fa_size _ _ _ _ _ _ _ F) as Hm; change (MAXFILE * BSIZE) with 71680 in Hm.
  - exists None, x, x. split_and!; [|split; [apply A|done|done|apply hold_same_refl]|done].
    destruct fuel; cbn [dirlookup_loop]; rstep; rewrite (af_ino _ _ _ _ _ _ _ A), (proj2 (Z.ltb_ge _ _)) by lia; rprim.
  - destruct fuel as [|fuel]; [lia|]. destruct (read_dirent_spec x dp v n i D ltac:(lia)) as (de & x1 & R1 & G1 & En & Em).
    destruct (dir_goes x x1 dp v n D G1) as [D1 _]. pose proof (goes_icache _ _ _ _ _ _ G1) as Ec.
    assert (entries (bytes x1 v) k (i + 1) = entries (bytes x v) k (i + 1)) as El by (apply entries_ext; intros p Hp; apply (bytes_goes x x1 dp); [done|done|lia]).
    cbn [entries find_entry] in Hroom |- *.
    assert (forall r y, runs [] (if de_inum de =? 0 then dirlookup_loop fuel dp nm (u32 (16 * i + sizeof_dirent)) else
        if namecmp nm (de_name de) =? 0 then let* dev := iget_ dp i_dev in let* ip := iget dev (de_inum de) in ret (Some (ip, 16 * i))
        else dirlookup_loop fuel dp nm (u32 (16 * i + sizeof_dirent))) x1 r y [] -> runs [] (dirlookup_loop (S fuel) dp nm (16 * i)) x r y []) as Hrun.
    { intros r y R. cbn [dirlookup_loop]. rstep. rewrite (af_ino _ _ _ _ _ _ _ A), (proj2 (Z.ltb_lt _ _)) by lia. eapply runs_bind; [exact R1|]. exact R. }
    rewrite En in Hrun. assert ((namecmp nm (de_name de) =? 0) = bool_decide (entry_name (bytes x v) i = key nm)) as Ecmp.
    { rewrite <- Em. apply eq_true_iff_eq. rewrite bool_decide_eq_true, Z.eqb_eq. apply namecmp_zero. }
    rewrite Ecmp in Hrun. unfold sizeof_dirent in Hrun. rewrite u32_small in Hrun by lia. replace (16 * i + 16) with (16 * (i + 1)) in Hrun by lia.
    destruct (negb (entry_inum (bytes x v) i =? 0) && bool_decide (entry_name (bytes x v) i = key nm)) eqn:Eb.
    + apply andb_true_iff in Eb as [Eb1%negb_true_iff Eb2]. rewrite Eb1, Eb2 in Hrun.
      destruct (iget_spec x1 (entry_inum (bytes x v) i)) as (ip & x2 & R2 & G2).
      { destruct (Hroom _ _ eq_refl) as [? ?]. split; by rewrite Ec. }
      exists (Some (ip, 16 * i)), x1, x2. split_and!; [|done|by exists ip]. apply Hrun. rstep.
      rewrite (af_ino _ _ _ _ _ _ _ (fa_at _ _ _ _ _ _ _ (da_file _ _ _ _ D1))), (af_dev _ _ _ _ _ _ _ A). eapply runs_bind; [exact R2|]. cbv beta. rprim.
    + destruct (IH fuel x1 (i + 1) D1) as (r & x2 & x3 & R2 & G2 & Hr); [lia|lia|lia| |].
      { rewrite El. intros inum j Hj. destruct (Hroom _ _ Hj) as [? ?]. split; by rewrite Ec. }
      rewrite El in Hr. exists r, x2, x3. split_and!; [|eapply goes_view; [eapply goes_trans; [exact G1|exact G2]|]; symmetry; apply (go_view _ _ _ _ _ _ _ _ _ G1)|done].
      apply Hrun. apply andb_false_iff in Eb as [Eb|Eb]; [apply negb_false_iff in Eb|]; rewrite Eb; [done|]. by destruct (_ =? 0).
Qed.

Lemma dirlookup_spec x dp v n nm : dir_at x dp v n ->
  (forall inum j, find_entry (key nm) (listing x v n) 0 = Some (inum, j) -> icache_room x inum) ->
  exists r x1 x2, runs [] (dirlookup dp nm) x r x2 [] /\ goes x x1 [] [] [] (lv x dev) /\ found x1 x2 (find_entry (key nm) (listing x v n) 0) r.
Proof.
  intros D Hroom. pose proof (fa_at _ _ _ _ _ _ _ (da_file _ _ _ _ D)) as A. pose proof (da_size _ _ _ _ D) as Hs.
  destruct (dirlookup_loop_spec dp nm n v n (Z.to_nat (i_size v / sizeof_dirent + 1)) x 0 D) as (r & x1 & x2 & R & G & Hf); [lia|lia|unfold sizeof_dirent; mlia|done|].
  exists r, x1, x2. split_and!; try done. unfold dirlookup. rstep. rewrite (af_ino _ _ _ _ _ _ _ A), (da_type _ _ _ _ D). cbn [Z.eqb negb Pos.eqb]. rstep. rewrite (af_ino _ _ _ _ _ _ _ A).
  exact R.
Qed.

(** ** Adding an entry *)

Lemma free_dirent_spec dp n v k : forall fuel x i, dir_at x dp v n -> i + Z.of_nat k = Z.of_nat n -> 0 <= i -> (k <= fuel)%nat ->
  exists x', runs [] (free_dirent fuel dp (16 * i)) x (16 * find_free_entry (entries (bytes x v) k i) i) x' [] /\ goes x x' [] [] [] (lv x dev).
Proof.
  induction k as [|k IH]; intros fuel x i D Hn Hi Hf; pose proof (da_file _ _ _ _ D) as F; pose proof (fa_at _ _ _ _ _ _ _ F) as A;
    pose proof (da_size _ _ _ _ D) as Hs; pose proof (fa_size _ _ _ _ _ _ _ F) as Hm; change (MAXFILE * BSIZE) with 71680 in Hm.
  - exists x. split; [|split; [apply A|done|done|apply hold_same_refl]]. cbn [entries find_free_entry].
    destruct fuel; cbn [free_dirent]; rstep; rewrite (af_ino _ _ _ _ _ _ _ A), u32_small, (proj2 (Z.ltb_ge _ _)) by lia; rprim.
  - destruct fuel as [|fuel]; [lia|]. destruct (read_dirent_spec x dp v n i D ltac:(lia)) as (de & x1 & R1 & G1 & En & _).
    destruct (dir_goes x x1 dp v n D G1) as [D1 _].
    assert (entries (bytes x1 v) k (i + 1) = entries (bytes x v) k (i + 1)) as El by (apply entries_ext; intros p Hp; apply (bytes_goes x x1 dp); [done|done|lia]).
    cbn [entries find_free_entry free_dirent].
    assert (forall r y, runs [] (if de_inum de =? 0 then ret (16 * i) else free_dirent fuel dp (s32 (16 * i + sizeof_dirent))) x1 r y [] ->
      runs [] (free_dirent (S fuel) dp (16 * i)) x r y []) as Hrun.
    { intros r y R. cbn [free_dirent]. rstep. rewrite (af_ino _ _ _ _ _ _ _ A), u32_small, (proj2 (Z.ltb_lt _ _)) by lia. eapply runs_bind; [exact R1|]. exact R. }
    rewrite En in Hrun. unfold sizeof_dirent in Hrun. rewrite s32_small in Hrun by lia. replace (16 * i + 16) with (16 * (i + 1)) in Hrun by lia.
    destruct (entry_inum (bytes x v) i =? 0); [exists x1; split; [apply Hrun; rprim|done]|].
    destruct (IH fuel x1 (i + 1) D1) as (x2 & R2 & G2); [lia|lia|lia|]. rewrite El in R2. exists x2. split; [by apply Hrun|].
    eapply goes_view; [eapply goes_trans; [exact G1|exact G2]|]. symmetry. apply (go_view _ _ _ _ _ _ _ _ _ G1).
Qed.

Lemma dirent_entry nm inum h j : 0 <= inum < 0x10000 -> (forall p, 16 * j <= p < 16 * j + 16 -> h p = ld8 (make_dirent nm inum) (p - 16 * j)) ->
  Forall (fun c => 0 <= c < 256) nm -> entry_inum h j = inum /\ entry_name h j = key nm.
Proof.
  intros Hi H Hc. unfold make_dirent in H. split.
  - unfold entry_inum. rewrite !H by lia. rewrite !ld8_st16. replace (16 * j - 16 * j) with 0 by lia. replace (16 * j + 1 - 16 * j) with 1 by lia. change (0 =? 0 + 1) with false. change (0 =? 0) with true. change (1 =? 0 + 1) with true. cbv iota.
    unfold u8. rewrite Z.shiftr_div_pow2 by lia. change (2 ^ 8) with 256. mlia.
  - unfold entry_name.
    assert (key (take (Z.to_nat DIRSIZ) (cstr nm)) = key nm) as Ek.
    { unfold key. by rewrite take_take, Nat.min_id, cstr_take, cstr_idem, cstr_take. }
    rewrite <- Ek, <- field_name. apply field_ext. intros k Hk. unfold DIRSIZ in Hk. rewrite H by lia. rewrite ld8_st16. rewrite !(proj2 (Z.eqb_neq _ _)) by lia.
    unfold ld8. rewrite (proj2 (Z.ltb_ge _ _)) by lia. replace (16 * j + 2 + k - 16 * j - 2) with k by lia. apply u8_small.
    unfold name_at. destruct (k <? 0); [lia|]. destruct (nth_in_or_default (Z.to_nat k) (take (Z.to_nat DIRSIZ) (cstr nm)) 0) as [Hin|E]; [|rewrite E; lia].
    apply list_elem_of_In, elem_of_take in Hin as (q & Hq & _). rewrite Forall_forall in Hc. apply Hc.
    assert (forall l c, c ∈ cstr l -> c ∈ l) as Hsub; [|by eapply Hsub, list_elem_of_lookup_2].
    clear. induction l as [|d l IH]; intros c; cbn [cstr]; [done|]. destruct (d =? 0); [by intros ?%not_elem_of_nil|]. set_solver.
Qed.

Lemma dirlink_absent x dp v n nm inum : let j := find_free_entry (listing x v n) 0 in
  dir_at x dp v n -> find_entry (key nm) (listing x v n) 0 = None -> Forall (fun c => 0 <= c < 256) nm -> 0 < inum < 0x10000 ->
  16 * j + 16 <= MAXFILE * BSIZE -> ready_for (i_addrs v) (lv x dev) (blocks (16 * j) 16) -> (j = Z.of_nat n -> IBLOCK (i_inum v) ∈ ts) ->
  exists x' v' n', runs [] (dirlink dp nm inum) x 0 x' [] /\ dir_at x' dp v' n' /\ listing x' v' n' = link (inum, key nm) (listing x v n) /\
    fkept dev start dp x x'.
Proof.
  intros j D Hf Hc Hi Hmax Hrd Hts. pose proof (find_free_range (listing x v n) 0) as Hj. fold j in Hj. unfold listing in Hj. rewrite length_entries in Hj.
  pose proof (da_file _ _ _ _ D) as F. pose proof (fa_at _ _ _ _ _ _ _ F) as A. pose proof (da_size _ _ _ _ D) as Hs.
  destruct (dirlookup_spec x dp v n nm D) as (r & x1 & y & R1 & G1 & Hr); [by rewrite Hf|]. rewrite Hf in Hr. destruct Hr as [-> ->].
  destruct (dir_goes x x1 dp v n D G1) as [D1 L1].
  destruct (free_dirent_spec dp n v n (Z.to_nat (i_size v / sizeof_dirent + 1)) x1 0 D1) as (x2 & R2 & G2); [lia|lia|unfold sizeof_dirent; mlia|].
  fold (listing x1 v n) in R2. rewrite L1 in R2. fold j in R2.
  assert (goes x x2 [] [] [] (lv x dev)) as G by (eapply goes_view; [eapply goes_trans; [exact G1|exact G2]|]; symmetry; apply (go_view _ _ _ _ _ _ _ _ _ G1)).
  destruct (dir_goes x x2 dp v n D G) as [D2 L2]. pose proof (da_file _ _ _ _ D2) as F2. change (MAXFILE * BSIZE) with 71680 in Hmax.
  destruct (writei_spec dev start ts sb x2 dp v (make_dirent nm inum) (16 * j) 16 F2) as (x3 & v' & R3 & W); [by rewrite (da_type _ _ _ _ D)|lia|lia|exact Hmax| |intros; apply Hts; lia|].
  { apply (ready_for_deq dev start ts sb _ (lv x dev)); try done; try apply A; [by eapply ix_place, A|apply (go_view _ _ _ _ _ _ _ _ _ G)|].
    intros b Hb. eapply (range_blocks (16 * j) 16); [lia|exact Hmax|done]. }
  pose proof (wr_inode _ _ _ _ _ _ _ _ _ _ _ _ W) as Ev. set (n' := if j <? 0 + Z.of_nat n then n else S n). exists x3, v', n'.
  assert (i_size v' = 16 * Z.of_nat n') as Hs'.
  { rewrite Ev. cbn [i_size i_with_size i_with_addrs]. unfold n'. destruct (Z.ltb_spec j (0 + Z.of_nat n)); lia. }
  split_and!.
  - unfold dirlink. eapply runs_bind; [exact R1|]. cbv beta iota. rstep. rewrite (af_ino _ _ _ _ _ _ _ (fa_at _ _ _ _ _ _ _ (da_file _ _ _ _ D1))).
    eapply runs_bind; [exact R2|]. cbv beta. rewrite u32_small by lia. unfold sizeof_dirent. eapply runs_bind; [exact R3|]. cbv beta. cbn [Z.eqb Pos.eqb negb]. rprim.
  - split; [exact (wr_file _ _ _ _ _ _ _ _ _ _ _ _ W)|rewrite Ev; exact (da_type _ _ _ _ D)|done].
  - pose proof (fa_size _ _ _ _ _ _ _ (wr_file _ _ _ _ _ _ _ _ _ _ _ _ W)) as Hm'. change (MAXFILE * BSIZE) with 71680 in Hm'.
    assert (forall p, 0 <= p < 16 * Z.of_nat n' -> bytes x3 v' p = put_bytes (bytes x2 v) (make_dirent nm inum) (16 * j) 0 16 p) as Hb.
    { intros p Hp. apply (wr_bytes _ _ _ _ _ _ _ _ _ _ _ _ W). unfold fbn. change MAXFILE with 140. change BSIZE with 512. mlia. }
    assert (16 * j + 16 <= 16 * Z.of_nat n') as Hjn by (unfold n'; destruct (Z.ltb_spec j (0 + Z.of_nat n)); lia).
    destruct (dirent_entry nm inum (bytes x3 v') j) as [E1 E2]; [lia| |done|].
    { intros p Hp. rewrite Hb by lia. unfold put_bytes. rewrite (proj2 (Z.leb_le _ _)), (proj2 (Z.ltb_lt _ _)) by lia. done. }
    assert (j = find_free_entry (entries (bytes x2 v) n 0) 0) as Ej by (unfold j; by rewrite <- L2).
    pose proof (entries_link (bytes x2 v) (bytes x3 v') inum (key nm) n 0) as L. cbv zeta in L. rewrite <- Ej in L. rewrite <- L2. apply L; [done|done|].
    intros p Hp Ho. rewrite Hb by (unfold n'; destruct (_ <? _); lia). unfold put_bytes.
    destruct (Z.leb_spec (16 * j) p), (Z.ltb_spec p (16 * j + 16)); cbn [andb]; done || lia.
  - etransitivity; [apply kept_fkept, (go_kept _ _ _ _ _ _ _ _ _ G)|apply (wr_kept _ _ _ _ _ _ _ _ _ _ _ _ W)].
Qed.

(** ** Giving the inode back *)

Lemma iput_got x x' inum ip : got x x' inum ip -> 0 <= i_ref (icache x ip) ->
  exists c, runs [] (iput ip) x' tt (set_icache c x) [] /\ forall i, i_ref (c i) = i_ref (icache x i) /\ (0 < i_ref (icache x i) -> c i = icache x i).
Proof.
  intros [_ [c ->] Ho _ _ Hr Hf Hc] H0. cbn [icache set_icache] in *. exists (upd c ip (i_with_ref (i_ref (c ip) - 1) (c ip))). split.
  - unfold iput. eapply runs_bind; [apply runs_lock, not_elem_of_nil|]. cbv beta. unfold ihas. rstep. rstep. rstep. cbn [icache set_icache].
    assert (((i_ref (c ip) =? 1) && has (i_flags (c ip)) I_VALID && (i_nlink (c ip) =? 0)) = false) as ->.
    { destruct (Z.eqb_spec (i_ref (c ip)) 1); [|done]. rewrite Hf by lia. done. }
    rstep. rstep. rstep. cbn [icache set_icache]. eapply runs_eq; [apply runs_unlock|done|done].
  - intros i. destruct (decide (i = ip)) as [->|Hi].
    + rewrite upd_same. split; [destruct (c ip); cbn in *; lia|]. intros Hp. rewrite (Hc Hp). destruct (icache x ip) as [? ? r ? ? ? ? ? ? ?]. cbn. unfold i_with_ref. cbn. f_equal. lia.
    + rewrite upd_ne by done. by rewrite Ho.
Qed.

Lemma dir_tables x dp v n c : dir_at x dp v n -> c dp = v -> dir_at (set_icache c x) dp v n /\ listing (set_icache c x) v n = listing x v n.
Proof.
  intros [[[I ? ? ? ?] ? ? ? ? ?] ? ?] Hc. split; [|done]. destruct (ix_tables dev start ts x (set_icache c x) [] [] eq_refl eq_refl eq_refl I) as [I' _].
  by split; [split; [split|..]|..].
Qed.

Lemma dirlink_present x dp v n nm inum i k : dir_at x dp v n -> find_entry (key nm) (listing x v n) 0 = Some (i, k) -> icache_room x i -> 0 < i_ref v ->
  exists x', runs [] (dirlink dp nm inum) x (-1) x' [] /\ dir_at x' dp v n /\ listing x' v n = listing x v n /\
    forall j, i_ref (icache x' j) = i_ref (icache x j) /\ (0 < i_ref (icache x j) -> icache x' j = icache x j).
Proof.
  intros D Hf Hroom Hv. destruct (dirlookup_spec x dp v n nm D) as (r & x1 & x2 & R1 & G1 & Hr); [rewrite Hf; by intros ? ? [= <- <-]|].
  rewrite Hf in Hr. destruct Hr as (ip & -> & G2). pose proof (goes_icache _ _ _ _ _ _ G1) as Ec. destruct (dir_goes x x1 dp v n D G1) as [D1 L1].
  destruct (iput_got x1 x2 i ip G2) as (c & R3 & Hc); [rewrite Ec; apply Hroom, G2|]. exists (set_icache c x1).
  destruct (dir_tables x1 dp v n c D1) as [D3 L3].
  { rewrite <- (af_ino _ _ _ _ _ _ _ (fa_at _ _ _ _ _ _ _ (da_file _ _ _ _ D1))). apply Hc. by rewrite (af_ino _ _ _ _ _ _ _ (fa_at _ _ _ _ _ _ _ (da_file _ _ _ _ D1))). }
  split_and!; [|done|congruence|].
  - unfold dirlink. eapply runs_bind; [exact R1|]. cbv beta iota. eapply runs_bind; [exact R3|]. cbv beta. rprim.
  - intros j. cbn [icache set_icache]. rewrite <- Ec. apply Hc.
Qed.

(** C4 Directories are finite maps.  For a directory in order in a transaction,
    with the map from names to inode numbers that its entries give: dirlookup
    of a name, of which 14 bytes count, returns an inode of the cache with the
    number the map has for it, and nothing if the map has none; dirlink of a name
    the map does not have returns 0 and leaves a directory whose map is extended
    with the name, if there is room for the block that the entry falls into;
    dirlink of a name the map has returns -1 and leaves the directory and the
    inodes in use as they are. *)
Theorem directory_refines_map (x : fsys) (dp : Z) (v : inode) (n : nat) (nm : list Z) (inum : Z) :
  dir_at x dp v n -> 0 < i_ref v -> (forall i, icache_room x i) -> Forall (fun c => 0 <= c < 256) nm -> 0 < inum < 0x10000 ->
  let j := find_free_entry (listing x v n) 0 in
  16 * j + 16 <= MAXFILE * BSIZE -> ready_for (i_addrs v) (lv x dev) (blocks (16 * j) 16) -> (j = Z.of_nat n -> IBLOCK (i_inum v) ∈ ts) ->
  let d := dmap (listing x v n) in
  (exists r x', runs [] (dirlookup dp nm) x r x' [] /\
    match d !! key nm with
    | None => r = None
    | Some i => exists ip off, r = Some (ip, off) /\ 0 <= ip < NINODE /\ i_dev (icache x' ip) = dev /\ i_inum (icache x' ip) = i /\ 0 < i_ref (icache x' ip)
    end) /\
  exists r x' v' n', runs [] (dirlink dp nm inum) x r x' [] /\ dir_at x' dp v' n' /\
    match d !! key nm with
    | None => r = 0 /\ dmap (listing x' v' n') = <[key nm := inum]> d
    | Some _ => r = -1 /\ listing x' v' n' = listing x v n /\ forall i, 0 < i_ref (icache x i) -> icache x' i = icache x i
    end.
Proof.
  intros D Hv Hroom Hc Hi j Hm Hrd Hts d. split.
  - destruct (dirlookup_spec x dp v n nm D) as (r & x1 & x2 & R & G & Hr); [done|]. exists r, x2. split; [done|]. unfold d. rewrite (dmap_find _ _ 0).
    destruct (find_entry _ _ _) as [[i k]|]; cbn; [|by destruct Hr]. destruct Hr as (ip & -> & [? ? ? ? ? Er ? ?]). exists ip, (16 * k). split_and!; try done; try lia.
    rewrite Er, (goes_icache _ _ _ _ _ _ G). pose proof (proj1 (Hroom 0) ip). lia.
  - destruct (find_entry (key nm) (listing x v n) 0) as [[i k]|] eqn:Ef.
    + destruct (dirlink_present x dp v n nm inum i k D Ef (Hroom i) Hv) as (x' & R & D' & L & Hk). exists (-1), x', v, n. split_and!; try done.
      unfold d. rewrite (dmap_find _ _ 0), Ef. cbn. split_and!; try done. intros q. apply Hk.
    + destruct (dirlink_absent x dp v n nm inum D Ef Hc Hi Hm Hrd Hts) as (x' & v' & n' & R & D' & L & _). exists 0, x', v', n'. split_and!; try done.
      assert (d !! key nm = None) as En by (unfold d; by rewrite (dmap_find _ _ 0), Ef). rewrite En. split; [done|]. rewrite L. apply dmap_link; [lia|done].
Qed.
End dirs.
