(* ===== verification/Paths.v ===== *)
(** * Creating, opening and removing files by path (sysfile.c): the code

    The functions of sysfile.c that do not look at system-call arguments. *)

From Stdlib Require Import ZArith Lia String Bool.
From stdpp Require Import base numbers list.
From S2P Require Import Prelude Params Mem Spinlock FsState Bio Log Inode Console Fs File.

Section ops.
Context {St : Type} {K : Kernel St}.

(** The names of a directory itself and of its parent. *)
Definition dot : list Z := [46].
Definition dotdot : list Z := [46; 46].

Fixpoint isdirempty_loop (fuel : nat) (dp off : Z) : M St bool :=
  let* size := iget_ dp i_size in
  if u32 off <? size then
    match fuel with
    | O => nofuel
    | S fuel =>
      let* r := readi_data dp (u32 off) sizeof_dirent in
      let (c, de) := r in
      if negb (c =? sizeof_dirent) then panic "isdirempty: readi" else
      if negb (de_inum de =? 0) then ret false else
      isdirempty_loop fuel dp (s32 (off + sizeof_dirent))
    end
  else ret true.
Definition isdirempty (dp : Z) : M St bool :=
  let* size := iget_ dp i_size in
  isdirempty_loop (Z.to_nat (size / sizeof_dirent + 1)) dp (2 * sizeof_dirent).

(** [nlink] changed by [d], a short. *)
Definition add_nlink (ip d : Z) : M St unit := iset ip (fun i => i_with_nlink (s16 (i_nlink i + d)) i).

(** The label [bad] of unlink. *)
Definition unlink_bad (dp : Z) : M St Z := iunlockput dp ;; commit_trans ;; ret (-1).

Definition unlink (path : list Z) : M St Z :=
  let* r := nameiparent path in
  let (dp, nm) := r in
  if dp =? -1 then ret (-1) else
  begin_trans ;;
  ilock dp ;;
  if (namecmp nm (name_at dot) =? 0) || (namecmp nm (name_at dotdot) =? 0) then unlink_bad dp else
  let* r := dirlookup dp nm in
  match r with
  | None => unlink_bad dp
  | Some (ip, off) =>
    ilock ip ;;
    let* nl := iget_ ip i_nlink in
    if nl <? 1 then panic "unlink: nlink < 1" else
    let* t := iget_ ip i_type in
    let* empty := (if t =? T_DIR then isdirempty ip else ret true) in
    if negb empty then iunlockput ip ;; unlink_bad dp else
    let* c := writei_data dp (fun _ => 0) off sizeof_dirent in
    if negb (c =? sizeof_dirent) then panic "unlink: writei" else
    let* t := iget_ ip i_type in
    (if t =? T_DIR then add_nlink dp (-1) ;; iupdate dp else ret tt) ;;
    iunlockput dp ;;
    add_nlink ip (-1) ;;
    iupdate ip ;;
    iunlockput ip ;;
    commit_trans ;;
    ret 0
  end.

(** The new inode, locked; -1 for none. *)
Definition create (path : list Z) (type major minor : Z) : M St Z :=
  let* r := nameiparent path in
  let (dp, nm) := r in
  if dp =? -1 then ret (-1) else
  ilock dp ;;
  let* r := dirlookup dp nm in
  match r with
  | Some (ip, _) =>
    iunlockput dp ;;
    ilock ip ;;
    let* t := iget_ ip i_type in
    if (type =? T_FILE) && (t =? T_FILE) then ret ip else
    iunlockput ip ;;
    ret (-1)
  | None =>
    let* dev := iget_ dp i_dev in
    let* ip := ialloc dev type in
    if ip =? -1 then panic "create: ialloc" else
    ilock ip ;;
    iset ip (i_with_major (s16 major)) ;;
    iset ip (i_with_minor (s16 minor)) ;;
    iset ip (i_with_nlink 1) ;;
    iupdate ip ;;
    let* inum := iget_ ip i_inum in
    (if type =? T_DIR then
       add_nlink dp 1 ;;
       iupdate dp ;;
       let* r := dirlink ip dot inum in
       if r <? 0 then panic "create dots" else
       let* dinum := iget_ dp i_inum in
       let* r := dirlink ip dotdot dinum in
       if r <? 0 then panic "create dots" else ret tt
     else ret tt) ;;
    let* r := dirlink dp nm inum in
    if r <? 0 then panic "create: dirlink" else
    iunlockput dp ;;
    ret ip
  end.

(** The inode that fileopen and sys_open open, locked; -1 for none. *)
Definition open_inode (path : list Z) (omode : Z) : M St Z :=
  if has omode O_CREATE then
    begin_trans ;;
    let* ip := create path T_FILE 0 0 in
    commit_trans ;;
    ret ip
  else
    let* ip := namei path in
    if ip =? -1 then ret (-1) else
    ilock ip ;;
    let* t := iget_ ip i_type in
    if (t =? T_DIR) && negb (omode =? O_RDONLY) then iunlockput ip ;; ret (-1) else ret ip.

(** The assignments to the new file structure. *)
Definition init_file (f ip omode : Z) : M St unit :=
  fdset f (f_with_type FD_INODE) ;;
  fdset f (f_with_ip ip) ;;
  fdset f (f_with_off 0) ;;
  fdset f (f_with_readable (if has omode O_WRONLY then 0 else 1)) ;;
  fdset f (f_with_writable (if has omode O_WRONLY || has omode O_RDWR then 1 else 0)).

Definition fileopen (path : list Z) (omode : Z) : M St Z :=
  let* ip := open_inode path omode in
  if ip =? -1 then ret (-1) else
  let* f := filealloc in
  if f =? -1 then iunlockput ip ;; ret (-1) else
  iunlock ip ;;
  init_file f ip omode ;;
  ret f.

End ops.
