(* ===== verification/Machine.v ===== *)
(** * The machine: the file system running in the kernel

    Proc.v is written against what it uses of the file system ([FsOps]), and
    the file system against what it uses of the kernel ([Kernel]).  Here the two
    meet on one state: the locks of the file system are spin locks, its sleep is
    the sleep of proc.c, its memory is what the page tables of the running
    process map, and the operations proc.c calls are those of file.c, fs.c and
    sysfile.c.

    The two depend on each other, since sleep swaps a process out to a file:
    [fs_ops n] is the file system in which a sleep may start a nested sleep
    down to depth [n]. *)

From Stdlib Require Import ZArith Lia String Bool.
From stdpp Require Import base numbers list.
From S2P Require Import Prelude Params Mem Spinlock Pages Kalloc Vm Shm Proc FsState Bio Log Inode Console Fs File Paths.

(** ** State *)

(** The file system with its locks, the clock, and the keyboard's modifiers. *)
Record world : Type := mkWorld {
  w_fs : fsys; w_locks : fslock -> spinlock; ticks : Z; tickslock : spinlock; kbd_shift : Z
}.

Definition w_fsL : lens world fsys := Lens w_fs (fun x w => mkWorld x (w_locks w) (ticks w) (tickslock w) (kbd_shift w)).
Definition w_lockL (l : fslock) : lens world spinlock :=
  Lens (fun w => w_locks w l)
       (fun k w => mkWorld (w_fs w) (fun j => if decide (j = l) then k else w_locks w j) (ticks w) (tickslock w) (kbd_shift w)).
Definition w_ticksL : lens world Z := Lens ticks (fun t w => mkWorld (w_fs w) (w_locks w) t (tickslock w) (kbd_shift w)).
Definition w_tickslockL : lens world spinlock :=
  Lens tickslock (fun k w => mkWorld (w_fs w) (w_locks w) (ticks w) k (kbd_shift w)).
Definition w_shiftL : lens world Z := Lens kbd_shift (fun v w => mkWorld (w_fs w) (w_locks w) (ticks w) (tickslock w) v).

Abbreviation P := (pst world).

Definition m_fsL : lens P fsys := lens_comp ps_fsL w_fsL.
Definition m_lockL (l : fslock) : lens P spinlock := lens_comp ps_fsL (w_lockL l).
Definition ticksL : lens P Z := lens_comp ps_fsL w_ticksL.
Definition tickslockL : lens P spinlock := lens_comp ps_fsL w_tickslockL.
Definition shiftL : lens P Z := lens_comp ps_fsL w_shiftL.

Definition lock_name (l : fslock) : string :=
  match l with
  | L_bcache => "bcache" | L_ide => "ide" | L_log => "log" | L_icache => "icache" | L_ftable => "ftable"
  | L_pipe _ => "pipe" | L_cons => "console" | L_input => "input"
  end.

(** ** Memory as the processor addresses it *)

Section mmu.
Context {Lay : Layout}.

(** Kernel addresses are mapped linearly; a user address is looked up in the
    page tables, and an access they do not allow is a page fault. *)
Definition translate (a : Z) (write : bool) : M P Z :=
  if KERNBASE <=? a then ret a else
  let* pd := gets (fun s => p2v (cr3 (ps_r s))) in
  let* pde := load32 (pd + 4 * PDX a) in
  if negb (present pde) then fault "page fault" else
  let* pte := load32 (p2v (PTE_ADDR pde) + 4 * PTX a) in
  if negb (present pte) then fault "page fault" else
  if write && (Z.land pte PTE_W =? 0) then fault "page fault" else
  ret (p2v (PTE_ADDR pte) + a mod PGSIZE).

Fixpoint fetch_bytes (n : nat) (a i : Z) (acc : mem) : M P mem :=
  match n with
  | O => ret acc
  | S n =>
    let* pa := translate (u32 (a + i)) false in
    let* c := gets (fun s => mem_of s pa) in
    fetch_bytes n a (i + 1) (upd acc i c)
  end.
Fixpoint store_bytes (n : nat) (a i : Z) (m : mem) : M P unit :=
  match n with
  | O => ret tt
  | S n =>
    let* pa := translate (u32 (a + i)) true in
    on_mem (fun x => st8 x pa (m i)) ;;
    store_bytes n a (i + 1) m
  end.

End mmu.

(** ** The kernel under the file system *)

Section kernel.
Context {Lay : Layout}.
(** The addresses of the objects processes sleep on. *)
Context (chan_addr : fsobj -> Z).

(** The kernel whose sleep swaps processes out through [FS]. *)
#[export] Instance machine_kernel (FS : FsOps P) : Kernel P := {|
  fsL := m_fsL;
  initlock_ := fun l => setf (m_lockL l) (initlock (lock_name l));
  lock_ := fun l => acquire (m_lockL l);
  unlock_ := fun l => release (m_lockL l);
  sti_ := modify (fun s => put cpuL (sti (view cpuL s)) s);
  wakeup_ := fun o => wakeup (chan_addr o);
  sleep_ := fun A o l => sleep_before (FS := FS) (chan_addr o) (LkOther (m_lockL l)) ;; fun _ => Blocked;
  fetch_ := fun a n => fetch_bytes (Z.to_nat n) a 0 (fun _ => 0);
  store_ := fun a m n => store_bytes (Z.to_nat n) a 0 m;
  cwd_ := let* c := proc_ in let* d := pget c cwd in ret (d - 1);
  killed_ := let* c := proc_ in pget c killed;
  kalloc_ := kalloc;
  kfree_ := kfree
|}.

(** A pointer to the structure with number [i], and back. *)
Definition ptr (i : Z) : Z := i + 1.
Definition unptr (p : Z) : Z := p - 1.

Definition ops_on (K : Kernel P) : FsOps P := {|
  Proc.fileopen := fun nm omode => let* f := Paths.fileopen nm omode in ret (ptr f);
  Proc.filewrite := fun f addr n => File.filewrite (unptr f) addr n;
  Proc.fileclose := fun f => File.fileclose (unptr f);
  Proc.file_ip := fun f => let* ip := fdget (unptr f) f_ip in ret (ptr ip);
  Proc.readi := fun ip dst off n => Fs.readi (unptr ip) dst off n;
  Proc.unlink := fun nm => Paths.unlink nm;
  Proc.filedup := fun f => let* f := File.filedup (unptr f) in ret (ptr f);
  Proc.idup := fun ip => let* ip := Inode.idup (unptr ip) in ret (ptr ip);
  Proc.iput := fun ip => Inode.iput (unptr ip);
  Proc.namei := fun nm => let* ip := Fs.namei nm in ret (ptr ip)
|}.

(** No file system below the last level. *)
Definition no_ops : FsOps P := {|
  Proc.fileopen := fun _ _ => nofuel;
  Proc.filewrite := fun _ _ _ => nofuel;
  Proc.fileclose := fun _ => nofuel;
  Proc.file_ip := fun _ => nofuel;
  Proc.readi := fun _ _ _ _ => nofuel;
  Proc.unlink := fun _ => nofuel;
  Proc.filedup := fun _ => nofuel;
  Proc.idup := fun _ => nofuel;
  Proc.iput := fun _ => nofuel;
  Proc.namei := fun _ => nofuel
|}.

Fixpoint fs_ops (n : nat) : FsOps P :=
  match n with
  | O => no_ops
  | S n => ops_on (machine_kernel (fs_ops n))
  end.

End kernel.
