(* ===== verification/ForkFiles.v ===== *)
(** * fork on the machine

    file.c and fs.c keep what fork relies on ([FsDup] of Fork.v), so that fork
    copies the process on the machine with the file system of the kernel. *)

From Stdlib Require Import ZArith Lia String Bool FunctionalExtensionality.
From stdpp Require Import base numbers list.
From S2P Require Import Prelude Params Mem Spinlock Pages Kalloc Vm PageTable AddrSpace CopyVm Shm Proc Swap.
From S2P Require Import Fork FsState FsRun Inode File Machine.

Section files.
Context {Lay : Layout} (chan_addr : fsobj -> Z) (depth : nat).

(** ** The locks of the file system *)

#[local] Instance m_lockL_ok l : LensOk (m_lockL l).
Proof.
  split; [intros t s|intros t t' [? ? ? ? w]|intros [? ? ? ? w]]; cbn.
  - by rewrite decide_True.
  - f_equal. f_equal. apply functional_extensionality. intros j. by destruct (decide (j = l)).
  - destruct w as [x lk t tl k]. f_equal. cbn. f_equal. apply functional_extensionality. intros j. by destruct (decide (j = l)) as [->|].
Qed.
#[local] Instance m_lock_cpu l : LensApart (m_lockL l) cpuL.
Proof. by split. Qed.

(** A section of code under the lock [l] that leaves the file system as [x] *)
Lemma under_fslock (s : P) l lp (x : fsys) : free_pages (PageSpec := fork_page_spec) s lp -> locked (w_locks (ps_fs s) l) = 0 ->
  exists s1 s', acquire (m_lockL l) s = Ret (tt, s1) /\ w_fs (ps_fs s1) = w_fs (ps_fs s) /\ release (m_lockL l) (put m_fsL x s1) = Ret (tt, s') /\
    same_machine s s' /\ w_fs (ps_fs s') = x /\ forall j, locked (w_locks (ps_fs s') j) = locked (w_locks (ps_fs s) j).
Proof.
  intros Hf Hl. assert (cpu_ok (view cpuL s)) as Hc by (destruct Hf; done).
  set (s1 := put (m_lockL l) (mkLock (lk_name (view (m_lockL l) s)) 1 (cpu_ptr (view cpuL s))) (put cpuL (pushed (view cpuL s)) s)).
  set (s2 := put m_fsL x s1).
  set (s3 := put (m_lockL l) (mkLock (lk_name (view (m_lockL l) s2)) 0 0) (put cpuL (popped (view cpuL s2)) s2)).
  exists s1, s3. split_and!; [exact (acquire_free (m_lockL l) s Hl)|done| | |done|].
  - pose proof (ok_ncli _ Hc). apply release_held; cbn; rewrite ?decide_True by done; try done; [apply _|cbn in *; lia].
  - split; try done. intros l' [H1 H2 H3 H4 H5]. split; try done. cbn. cbn in H1. by apply (cpu_ok_proper _ _ (popped_pushed _ H1)).
  - intros j. cbn. by destruct (decide (j = l)) as [->|].
Qed.

(** ** What fork relies on *)

#[local] Instance files_kernel : Kernel P := machine_kernel chan_addr (fs_ops chan_addr depth).
#[local] Instance files_ops : FsOps P := fs_ops chan_addr (S depth).

Definition one_more_file (n : Z) (x : fsys) : fsys := set_ftable (upd (ftable x) n (f_with_ref (f_ref (ftable x n) + 1) (ftable x n))) x.
Definition one_more_inode (n : Z) (x : fsys) : fsys := set_icache (upd (icache x) n (i_with_ref (i_ref (icache x n) + 1) (icache x n))) x.

(** Nothing but the file system changes, to [x]; the locks are as before. *)
Record only_fs (s s' : P) (x : fsys) : Prop := {
  of_machine : same_machine s s';
  of_fs : w_fs (ps_fs s') = x;
  of_locks : forall j, locked (w_locks (ps_fs s') j) = locked (w_locks (ps_fs s) j)
}.

Lemma filedup_adds (s : P) lp n : free_pages (PageSpec := fork_page_spec) s lp -> locked (w_locks (ps_fs s) L_ftable) = 0 -> 1 <= f_ref (ftable (w_fs (ps_fs s)) n) ->
  exists s', File.filedup n s = Ret (n, s') /\ only_fs s s' (one_more_file n (w_fs (ps_fs s))).
Proof.
  intros Hf Ht Hr. destruct (under_fslock s L_ftable lp (one_more_file n (w_fs (ps_fs s))) Hf Ht) as (s1 & s' & E1 & Ex & E2 & Hs & Hg & Hl).
  exists s'. split; [|done]. unfold File.filedup. cbn [lock_ unlock_ files_kernel machine_kernel]. mstep_with E1. unfold fdget, fget. mstep. change (view fsL s1) with (w_fs (ps_fs s1)).
  rewrite Ex, (proj2 (Z.ltb_ge _ _)) by lia. unfold fdset, fmod. mstep. change (view fsL s1) with (w_fs (ps_fs s1)). rewrite Ex. by mstep_with E2.
Qed.

Lemma idup_adds (s : P) lp n : free_pages (PageSpec := fork_page_spec) s lp -> locked (w_locks (ps_fs s) L_icache) = 0 ->
  exists s', Inode.idup n s = Ret (n, s') /\ only_fs s s' (one_more_inode n (w_fs (ps_fs s))).
Proof.
  intros Hf Ht. destruct (under_fslock s L_icache lp (one_more_inode n (w_fs (ps_fs s))) Hf Ht) as (s1 & s' & E1 & Ex & E2 & Hs & Hg & Hl).
  exists s'. split; [|done]. unfold Inode.idup. cbn [lock_ unlock_ files_kernel machine_kernel]. mstep_with E1. unfold iget_, fget. mstep. change (view fsL s1) with (w_fs (ps_fs s1)).
  rewrite Ex. unfold iset, fmod. mstep. change (view fsL s1) with (w_fs (ps_fs s1)). rewrite Ex. by mstep_with E2.
Qed.

Lemma bump_count {A : Type} (cnt : A -> Z) (t : Z -> A) (x : A) f g : cnt x = cnt (t (unptr f)) + 1 ->
  cnt (upd t (unptr f) x (unptr g)) = one_more (fun h => cnt (t (unptr h))) f g.
Proof. intros H. unfold upd, one_more, unptr in *. destruct (Z.eqb_spec (g - 1) (f - 1)), (Z.eqb_spec g f); try lia. by subst. Qed.

(** The locks of the two tables are free. *)
Definition tables_free (w : world) : Prop := locked (w_locks w L_ftable) = 0 /\ locked (w_locks w L_icache) = 0.

#[local] Instance files_dup : FsDup.
Proof.
  refine {| fs_ready := tables_free; file_refs := fun w f => f_ref (ftable (w_fs w) (unptr f)); inode_refs := fun w d => i_ref (icache (w_fs w) (unptr d)) |}.
  - intros s l f Hf Ht Hr. destruct (filedup_adds s l (unptr f) Hf (proj1 Ht) Hr) as (s' & E & [Hs Hg Hl]). exists s'. unfold tables_free. rewrite !Hl, !Hg. split_and!; try done; try apply Ht.
    + cbn [Proc.filedup files_ops fs_ops ops_on]. rewrite (bind_ret_eq _ _ _ _ _ E). unfold ptr, unptr, ret. by rewrite Z.sub_add.
    + intros g. by apply (bump_count f_ref).
  - intros s l d Hf Ht. destruct (idup_adds s l (unptr d) Hf (proj2 Ht)) as (s' & E & [Hs Hg Hl]). exists s'. unfold tables_free. rewrite !Hl, !Hg. split_and!; try done; try apply Ht.
    + cbn [Proc.idup files_ops fs_ops ops_on]. rewrite (bind_ret_eq _ _ _ _ _ E). unfold ptr, unptr, ret. by rewrite Z.sub_add.
    + intros e. by apply (bump_count i_ref).
Defined.

(** C9 fork makes a copy of the process.  If an entry of the table and a page for
    the kernel stack are free, fork returns the next pid, and the entry is then a
    runnable child of the caller with that pid.  Its address space has the bytes of
    the caller's, in pages of its own; its trap frame is the caller's with 0 in
    eax; its kernel stack leads through forkret to trapret; its open files, its
    directory and its name are the caller's, and each descriptor and the directory
    count as one more reference.  Otherwise fork returns -1 with the entry unused
    again, which happens only when memory is short.  The caller's memory and all
    other entries stay as they are. *)
Theorem fork_copies (trapret forkret_addr : Z) (s : P) (np kp k : Z) (held l : list Z) : let c := curp (ps_r s) in let p := procs (ps_t s) c in
  can_fork s c kp held (k :: l) -> first_unused (ps_t s) np ->
  exists r s', fork trapret forkret_addr s = Ret (r, s') /\ forked s s' np (space (mem_of s) (pgdir p) ++ held) /\
    (forall va, 0 <= va < KERNBASE -> ubyte (mem_of s') (pgdir p) va = ubyte (mem_of s) (pgdir p) va) /\
    let q := procs (ps_t s') np in
    (r = nextpid (ps_t s) /\ child_of trapret forkret_addr c p q r (mem_of s) (mem_of s') /\ dup_refs (ps_fs s) (ps_fs s') p /\
       (exists l', owns (PS := fork_page_spec) s' (pgdir q) (space (mem_of s) (pgdir p) ++ k :: held) l') \/
     r = -1 /\ state q = UNUSED /\ Z.of_nat (length l) <= 1025 + 2 * npages (sz p)).
Proof.
  intros c p Hcf Hfu. destruct (fork_spec trapret forkret_addr s np kp k held l Hcf Hfu) as (r & s' & E & Hfk & Hres).
  exists r, s'. split_and!; [exact E|exact Hfk| |exact Hres].
  apply (space_frame (mem_of s) (mem_of s') (pgdir p)). intros a Ha. apply (fk_mem _ _ _ _ Hfk), in_pages_app. by left.
Qed.
End files.

(** ** An example *)

#[local] Existing Instance kernel_sym.

(** One process, at entry 0, on the memory of the example of CopyVm.v: one page of
    user memory, a kernel stack at 0x80303000, and the console open twice *)
Definition one_proc : proc := mkProc 4096 demo_dir 0x80303000 RUNNING 1 0 (0x80303000 + 4020) 0 0 0 (fun i => if (0 <=? i) && (i <? 2) then 1 else 0) 1 [105] 0 [] 0 0 0.
Definition no_proc : proc := mkProc 0 0 0 UNUSED 0 0 0 0 0 0 (fun _ => 0) 0 [] 0 [] 0 0 0.
Definition one_file (x : fsys) : fsys := set_ftable (fun _ => mkFile FD_INODE 2 1 1 0 0 0) x.
Definition one_running (x : fsys) : P :=
  mkPst demo (mkShm (fun _ _ => 0) (fun _ _ _ => 0) (initlock "shm"))
    (mkPtable (fun i => if i =? 0 then one_proc else no_proc) (initlock "ptable") (initlock "swap") (initlock "wakeup") 0 1 2 0 0)
    (mkRunning 0 (v2p demo_dir) 0 0) (mkWorld (one_file x) (fun l => initlock (lock_name l)) 0 (initlock "time") 0).

Lemma demo_free_cons : demo_free = 0x80400000 :: tail demo_free /\ Z.of_nat (length (tail demo_free)) = 2047.
Proof.
  pose proof demo_free_length as H. unfold demo_free in *. destruct demo_n as [|n]; [done|]. cbn [page_range tail length] in *. split; [done|lia].
Qed.

Lemma one_running_forks (ca : fsobj -> Z) (x : fsys) : can_fork (FD := files_dup ca 0) (one_running x) 0 0x80303000 [0x80303000] (0x80400000 :: tail demo_free).
Proof.
  rewrite <- (proj1 demo_free_cons). split.
  - apply owns_distinct. unfold space. change (mem_of (one_running x)) with demo_mem. change (pgdir _) with demo_dir. destruct demo_pages as [-> ->]. split; [by apply demo_alloc|].
    change (distinct_pages ([demo_dir; 0x80301000; 0x80302000; 0x80303000] ++ demo_free)). unfold demo_dir. demo_distinct_tac.
  - done.
  - done.
  - cbn. unfold KERNBASE. lia.
  - intros k Hk. change (mem_of (one_running x)) with demo_mem. change (npages _) with 1 in Hk. change (pgdir _) with demo_dir. replace k with 0 by lia. by rewrite demo_pte.
  - by apply list_elem_of_singleton.
  - cbn. unfold sizeof_tf, PGSIZE. lia.
  - done.
  - intros i Hi. cbn. lia.
Qed.

Lemma fork_copies_witness : exists s', fork (FS := files_ops (fun _ => 0) 0) 0x80105000 0x80104000 (one_running (blank_fs (mkDrive (fun _ _ _ => 0) []))) = Ret (2, s') /\
  state (procs (ps_t s') 1) = RUNNABLE /\ f_ref (ftable (w_fs (ps_fs s')) 0) = 4.
Proof.
  destruct (fork_copies (fun _ => 0) 0 0x80105000 0x80104000 (one_running (blank_fs (mkDrive (fun _ _ _ => 0) []))) 1 0x80303000 0x80400000 [0x80303000] (tail demo_free)
    (one_running_forks _ _)) as (r & s' & E & _ & _ & [(Hr & Hc & [Hf _] & _)|(_ & _ & Hlen)]).
  - split; [unfold NPROC; lia|done|]. intros j Hj. replace j with 0 by lia. discriminate.
  - exists s'. split; [by rewrite E, Hr|]. split; [apply Hc|]. exact (Hf 1).
  - rewrite (proj2 demo_free_cons) in Hlen. change (npages _) with 1 in Hlen. lia.
Defined.
