(* ===== verification/Syscall.v ===== *)
(** * System-call arguments (syscall.c), and the calls of sysproc.c and
      sysfile.c: the code

    Arguments are read from the user stack through the page tables of the
    running process.  A call that waits or exits ends in [Blocked]: from there
    on only other processes can run. *)

From Stdlib Require Import ZArith Lia String Ascii Bool.
From stdpp Require Import base numbers list.
From S2P Require Import Prelude Params Mem Spinlock Pages Kalloc Vm Shm Proc FsState Bio Log Inode Console Fs File Paths Machine.

(** The bytes of a string literal. *)
Fixpoint bytes (s : string) : list Z :=
  match s with
  | EmptyString => []
  | String c s => Z.of_N (N_of_ascii c) :: bytes s
  end.

Section ops.
Context {Lay : Layout} {FS : FsOps P} {K : Kernel P}.

(** ** Arguments *)

Definition cur {T : Type} (f : proc -> T) : M P T := let* c := proc_ in pget c f.
Definition set_cur (f : proc -> proc) : M P unit := let* c := proc_ in pset c f.

(** fetchint and fetchstr are only called for the running process.  The
    functions of this section return nothing where the code returns -1. *)
Definition fetchint (addr : Z) : M P (option Z) :=
  let* size := cur sz in
  if (size <=? addr) || (size <? u32 (addr + 4)) then ret None else
  let* m := fetch_ addr 4 in
  ret (Some (s32 (ld32 m 0))).

(** The scan for the NUL: the bytes before it, the last first in [acc]. *)
Fixpoint fetchstr_loop (n : nat) (s : Z) (acc : list Z) : M P (option (list Z)) :=
  match n with
  | O => ret None
  | S n =>
    let* m := fetch_ s 1 in
    if ld8 m 0 =? 0 then ret (Some (reverse acc)) else fetchstr_loop n (s + 1) (ld8 m 0 :: acc)
  end.
Definition fetchstr (addr : Z) : M P (option (list Z)) :=
  let* size := cur sz in
  if size <=? addr then ret None else fetchstr_loop (Z.to_nat (size - addr)) addr [].

Definition argint (n : Z) : M P (option Z) :=
  let* t := cur tf in
  let* esp := load32 (t + tf_esp) in
  fetchint (u32 (esp + 4 + 4 * n)).

(** The address, as the code compares it: unsigned. *)
Definition argptr (n size : Z) : M P (option Z) :=
  let* i := argint n in
  match i with
  | None => ret None
  | Some i =>
    let* sz := cur sz in
    if (sz <=? u32 i) || (sz <? u32 (u32 i + u32 size)) then ret None else ret (Some (u32 i))
  end.

Definition argstr (n : Z) : M P (option (list Z)) :=
  let* addr := argint n in
  match addr with None => ret None | Some addr => fetchstr (u32 addr) end.

(** A call returns -1 when an argument is not there. *)
Definition with_arg {T : Type} (c : M P (option T)) (k : T -> M P Z) : M P Z :=
  let* a := c in match a with None => ret (-1) | Some a => k a end.

(** ** sysproc.c *)

Context (trapret forkret_addr ptable_addr ticks_addr swapFlag_addr : Z).

(** The switch away from a process that does not go on. *)
Definition gone {T : Type} : M P T := fun _ => Blocked.

Definition sys_fork : M P Z := fork trapret forkret_addr.
Definition sys_exit : M P Z := exit_before ptable_addr ;; gone.
Definition sys_wait : M P Z :=
  let* r := wait_start ptable_addr in match r with Some id => ret id | None => gone end.
Definition sys_kill : M P Z := with_arg (argint 0) kill.
Definition sys_getpid : M P Z := cur pid.

Definition sys_sbrk : M P Z :=
  with_arg (argint 0) (fun n =>
    let* addr := cur sz in
    let* r := growproc n in
    if r <? 0 then ret (-1) else ret (s32 addr)).

(** One test of the condition of sys_sleep's loop, which compares unsigned. *)
Definition sys_sleep_round (ticks0 n : Z) : M P Z :=
  let* t := getf ticksL in
  if u32 (t - ticks0) <? u32 n then
    let* k := cur killed in
    if negb (k =? 0) then release tickslockL ;; ret (-1)
    else sleep_before ticks_addr (LkOther tickslockL) ;; gone
  else release tickslockL ;; ret 0.
Definition sys_sleep : M P Z :=
  with_arg (argint 0) (fun n =>
    acquire tickslockL ;;
    let* t := getf ticksL in
    sys_sleep_round t n).

Definition sys_uptime : M P Z :=
  acquire tickslockL ;;
  let* t := getf ticksL in
  release tickslockL ;;
  ret (s32 t).

Definition swapFlagL : lens P Z := lens_comp ps_tL
  (Lens swapFlag (fun v t => mkPtable (procs t) (ptable_lock t) (swaplock t) (wakeuplock t) (initproc t) (inswapper t) (nextpid t) v (swappedout t))).

(** The two calls return no value: what is left in the register is [eax]. *)
Definition sys_enableSwapping (eax : Z) : M P Z := setf swapFlagL 1 ;; ret eax.
Definition sys_disableSwapping (eax : Z) : M P Z := setf swapFlagL 0 ;; ret eax.

Definition sys_sleep2 : M P Z :=
  acquire tickslockL ;;
  let* k := cur killed in
  if negb (k =? 0) then release tickslockL ;; ret (-1)
  else sleep_before swapFlag_addr (LkOther tickslockL) ;; gone.
Definition sys_wakeup2 : M P Z := wakeup swapFlag_addr ;; ret 0.

Definition sys_getAllocatedPages : M P Z := with_arg (argint 0) getAllocatedPages.

Definition sys_shmget : M P Z :=
  with_arg (argint 0) (fun key =>
  with_arg (argint 1) (fun size =>
    if size <? 0 then ret (-1) else
    with_arg (argint 2) (fun shmflg => zoom sstL (shmget key size shmflg)))).
Definition sys_shmdel : M P Z := with_arg (argint 0) (fun shmid => zoom sstL (shmdel shmid)).
Definition sys_shmat : M P Z :=
  with_arg (argint 0) (fun shmid =>
  with_arg (argint 1) (fun shmflg => zoom sstL (shmat shmid shmflg))).
Definition sys_shmdt : M P Z := with_arg (argptr 0 4) (fun shmaddr => zoom sstL (shmdt shmaddr)).

(** ** sysfile.c *)

(** The descriptor and the file. *)
Definition argfd (n : Z) : M P (option (Z * Z)) :=
  let* fd := argint n in
  match fd with
  | None => ret None
  | Some fd =>
    if (fd <? 0) || (NOFILE <=? fd) then ret None else
    let* f := cur (fun p => ofile p fd) in
    if f =? 0 then ret None else ret (Some (fd, unptr f))
  end.

Fixpoint fdalloc_loop (n : nat) (fd f : Z) : M P Z :=
  match n with
  | O => ret (-1)
  | S n =>
    let* g := cur (fun p => ofile p fd) in
    if g =? 0 then set_cur (with_ofile fd (ptr f)) ;; ret fd else fdalloc_loop n (fd + 1) f
  end.
Definition fdalloc (f : Z) : M P Z := fdalloc_loop (Z.to_nat NOFILE) 0 f.

Definition sys_dup : M P Z :=
  with_arg (argfd 0) (fun '(_, f) =>
    let* fd := fdalloc f in
    if fd <? 0 then ret (-1) else
    let* _ := File.filedup f in
    ret fd).

Definition sys_read : M P Z :=
  with_arg (argfd 0) (fun '(_, f) =>
  with_arg (argint 2) (fun n =>
  with_arg (argptr 1 n) (fun p => fileread f p n))).

Definition sys_write : M P Z :=
  with_arg (argfd 0) (fun '(_, f) =>
  with_arg (argint 2) (fun n =>
  with_arg (argptr 1 n) (fun p => File.filewrite f p n))).

Definition sys_close : M P Z :=
  with_arg (argfd 0) (fun '(fd, f) =>
    set_cur (with_ofile fd 0) ;;
    File.fileclose f ;;
    ret 0).

Definition sizeof_stat : Z := 20.
Definition sys_fstat : M P Z :=
  with_arg (argfd 0) (fun '(_, f) =>
  with_arg (argptr 1 sizeof_stat) (fun st => filestat f st)).

(** The label [bad] of sys_link. *)
Definition link_bad (ip : Z) : M P Z :=
  ilock ip ;;
  add_nlink ip (-1) ;;
  iupdate ip ;;
  iunlockput ip ;;
  commit_trans ;;
  ret (-1).

Definition sys_link : M P Z :=
  with_arg (argstr 0) (fun old =>
  with_arg (argstr 1) (fun new =>
    let* ip := Fs.namei old in
    if ip =? -1 then ret (-1) else
    begin_trans ;;
    ilock ip ;;
    let* t := iget_ ip i_type in
    if t =? T_DIR then iunlockput ip ;; commit_trans ;; ret (-1) else
    add_nlink ip 1 ;;
    iupdate ip ;;
    iunlock ip ;;
    let* r := nameiparent new in
    let (dp, nm) := r in
    if dp =? -1 then link_bad ip else
    ilock dp ;;
    let* d := iget_ dp i_dev in
    let* d' := iget_ ip i_dev in
    if negb (d =? d') then iunlockput dp ;; link_bad ip else
    let* inum := iget_ ip i_inum in
    let* r := dirlink dp nm inum in
    if r <? 0 then iunlockput dp ;; link_bad ip else
    iunlockput dp ;;
    Inode.iput ip ;;
    commit_trans ;;
    ret 0)).

(** After the argument, the code repeats that of unlink. *)
Definition sys_unlink : M P Z := with_arg (argstr 0) Paths.unlink.

Definition sys_open : M P Z :=
  with_arg (argstr 0) (fun path =>
  with_arg (argint 1) (fun omode =>
    let* ip := open_inode path omode in
    if ip =? -1 then ret (-1) else
    let* f := filealloc in
    if f =? -1 then iunlockput ip ;; ret (-1) else
    let* fd := fdalloc f in
    if fd <? 0 then File.fileclose f ;; iunlockput ip ;; ret (-1) else
    iunlock ip ;;
    init_file f ip omode ;;
    ret fd)).

(** The end of sys_mkdir and sys_mknod: [ip] is -1 after a failure. *)
Definition made (ip : Z) : M P Z :=
  if ip =? -1 then commit_trans ;; ret (-1) else
  iunlockput ip ;;
  commit_trans ;;
  ret 0.

Definition sys_mkdir : M P Z :=
  begin_trans ;;
  let* path := argstr 0 in
  let* ip := match path with None => ret (-1) | Some path => create path T_DIR 0 0 end in
  made ip.

Definition sys_mknod : M P Z :=
  begin_trans ;;
  let* path := argstr 0 in
  let* ip :=
    match path with
    | None => ret (-1)
    | Some path => with_arg (argint 1) (fun major => with_arg (argint 2) (fun minor => create path T_DEV major minor))
    end in
  made ip.

Definition sys_chdir : M P Z :=
  with_arg (argstr 0) (fun path =>
    let* ip := Fs.namei path in
    if ip =? -1 then ret (-1) else
    ilock ip ;;
    let* t := iget_ ip i_type in
    if negb (t =? T_DIR) then iunlockput ip ;; ret (-1) else
    iunlock ip ;;
    let* d := cur cwd in
    Inode.iput (unptr d) ;;
    set_cur (with_cwd (ptr ip)) ;;
    ret 0).

Definition sys_pipe : M P Z :=
  with_arg (argptr 0 8) (fun fd =>
    let* r := pipealloc in
    match r with
    | None => ret (-1)
    | Some (rf, wf) =>
      let* fd0 := fdalloc rf in
      if fd0 <? 0 then File.fileclose rf ;; File.fileclose wf ;; ret (-1) else
      let* fd1 := fdalloc wf in
      if fd1 <? 0 then
        set_cur (with_ofile fd0 0) ;;
        File.fileclose rf ;;
        File.fileclose wf ;;
        ret (-1)
      else
        store_ fd (st32 (fun _ => 0) 0 fd0) 4 ;;
        store_ (u32 (fd + 4)) (st32 (fun _ => 0) 0 fd1) 4 ;;
        ret 0
    end).

End ops.
