(* ===== verification/Kbd.v ===== *)
(** * The keyboard (kbd.c, kbd.h)

    The tables of kbd.h and the translation of scan codes to characters, with
    the state of the modifier keys. *)

From Stdlib Require Import ZArith Lia String Bool.
From stdpp Require Import base numbers list.
From S2P Require Import Prelude Params Mem Spinlock FsState Bio Log Inode Console.

Definition SHIFT : Z := 1.
Definition CTL : Z := 2.
Definition ALT : Z := 4.
Definition CAPSLOCK : Z := 8.
Definition NUMLOCK : Z := 16.
Definition SCROLLLOCK : Z := 32.
Definition E0ESC : Z := 64.

Definition shiftcode (d : Z) : Z :=
  if (d =? 0x1D) || (d =? 0x9D) then CTL
  else if (d =? 0x2A) || (d =? 0x36) then SHIFT
  else if (d =? 0x38) || (d =? 0xB8) then ALT
  else 0.

Definition togglecode (d : Z) : Z :=
  if d =? 0x3A then CAPSLOCK else if d =? 0x45 then NUMLOCK else if d =? 0x46 then SCROLLLOCK else 0.

(** The entries with designators that the three maps share; [enter] and
    [slash] are those of the keypad. *)
Definition keypad (enter slash d : Z) : Z :=
  if d =? 0x9C then enter else if d =? 0xB5 then slash
  else if d =? 0xC8 then 0xE2 else if d =? 0xD0 then 0xE3
  else if d =? 0xC9 then 0xE6 else if d =? 0xD1 then 0xE7
  else if d =? 0xCB then 0xE4 else if d =? 0xCD then 0xE5
  else if d =? 0x97 then 0xE0 else if d =? 0xCF then 0xE1
  else if d =? 0xD2 then 0xE8 else if d =? 0xD3 then 0xE9
  else 0.

(** The entry of a table that lists its first ones. *)
Definition entry (l : list Z) (rest : Z -> Z) (d : Z) : Z :=
  if d <? Z.of_nat (length l) then nth (Z.to_nat d) l 0 else rest d.

Definition normalmap : Z -> Z := entry
  [0; 27; 49; 50; 51; 52; 53; 54; 55; 56; 57; 48; 45; 61; 8; 9;
   113; 119; 101; 114; 116; 121; 117; 105; 111; 112; 91; 93; 10; 0; 97; 115;
   100; 102; 103; 104; 106; 107; 108; 59; 39; 96; 0; 92; 122; 120; 99; 118;
   98; 110; 109; 44; 46; 47; 0; 42; 0; 32; 0; 0; 0; 0; 0; 0;
   0; 0; 0; 0; 0; 0; 0; 55; 56; 57; 45; 52; 53; 54; 43; 49;
   50; 51; 48; 46; 0; 0; 0; 0]
  (keypad 10 47).
Definition shiftmap : Z -> Z := entry
  [0; 27; 33; 64; 35; 36; 37; 94; 38; 42; 40; 41; 95; 43; 8; 9;
   81; 87; 69; 82; 84; 89; 85; 73; 79; 80; 123; 125; 10; 0; 65; 83;
   68; 70; 71; 72; 74; 75; 76; 58; 34; 126; 0; 124; 90; 88; 67; 86;
   66; 78; 77; 60; 62; 63; 0; 42; 0; 32; 0; 0; 0; 0; 0; 0;
   0; 0; 0; 0; 0; 0; 0; 55; 56; 57; 45; 52; 53; 54; 43; 49;
   50; 51; 48; 46; 0; 0; 0; 0]
  (keypad 10 47).
Definition ctlmap : Z -> Z := entry
  [0; 0; 0; 0; 0; 0; 0; 0; 0; 0; 0; 0; 0; 0; 0; 0;
   17; 23; 5; 18; 20; 25; 21; 9; 15; 16; 0; 0; 13; 0; 1; 19;
   4; 6; 7; 8; 10; 11; 12; 0; 0; 0; 0; 28; 26; 24; 3; 22;
   2; 14; 13; 0; 0; 239; 0; 0]
  (keypad 13 239).

(** charcode[4]. *)
Definition charcode (i : Z) : Z -> Z := if i =? 0 then normalmap else if i =? 1 then shiftmap else ctlmap.

(** kbdgetc with [data] in the data port: the result and the new [shift]. *)
Definition kbdgetc (shift data : Z) : Z * Z :=
  if data =? 0xE0 then (0, Z.lor shift E0ESC)
  else if negb (Z.land data 0x80 =? 0) then
    let data := if negb (Z.land shift E0ESC =? 0) then data else Z.land data 0x7F in
    (0, Z.ldiff shift (Z.lor (shiftcode data) E0ESC))
  else
    let esc := negb (Z.land shift E0ESC =? 0) in
    let data := if esc then Z.lor data 0x80 else data in
    let shift := if esc then Z.ldiff shift E0ESC else shift in
    let shift := Z.lor shift (shiftcode data) in
    let shift := Z.lxor shift (togglecode data) in
    let c := charcode (Z.land shift (Z.lor CTL SHIFT)) data in
    let c :=
      if negb (Z.land shift CAPSLOCK =? 0) then
        if (97 <=? c) && (c <=? 122) then c - 32
        else if (65 <=? c) && (c <=? 90) then c + 32
        else c
      else c in
    (c, shift).

(** The characters for the scan codes in the port, one after the other, until
    there is no data: what kbdintr hands to consoleintr. *)
Fixpoint kbd_chars (shift : Z) (codes : list Z) : list Z * Z :=
  match codes with
  | [] => ([], shift)
  | d :: codes =>
    let (c, shift) := kbdgetc shift d in
    let (cs, shift) := kbd_chars shift codes in
    (c :: cs, shift)
  end.
