(* ===== verification/Exec.v ===== *)
(** * exec (exec.c, sys_exec), the system-call table and traps (trap.c): the code *)

From Stdlib Require Import ZArith Lia String Ascii Bool.
From stdpp Require Import base numbers list.
From S2P Require Import Prelude Params Mem Spinlock Pages Kalloc Vm Shm Proc FsState Bio Log Inode Console Fs File Paths Machine Syscall Kbd.

(** ** The stack of the new image, over any state with page tables *)

Section stack.
Context {Lay : Layout} {St : Type} {PO : PageOps St}.

(** copyout (vm.c) of bytes that are not at a kernel address: strings of the
    old image, and the array ustack. *)
Fixpoint copyout_bytes (fuel : nat) (pgdir va : Z) (buf : list Z) : M St Z :=
  match buf, fuel with
  | [], _ => ret 0
  | _, O => nofuel
  | _, S fuel =>
    let va0 := PGROUNDDOWN va in
    let* pa0 := uva2ka pgdir va0 in
    if pa0 =? 0 then ret (-1) else
    let n := PGSIZE - (va - va0) in
    let n := if Z.of_nat (length buf) <? n then Z.of_nat (length buf) else n in
    on_mem (fun m => blit m (pa0 + (va - va0)) (fun i => nth (Z.to_nat i) buf 0) n) ;;
    copyout_bytes fuel pgdir (u32 (va0 + PGSIZE)) (drop (Z.to_nat n) buf)
  end.

(** The argument strings, pushed from [sp] down; the addresses they get. *)
Fixpoint push_args (pgdir sp argc : Z) (argv : list (list Z)) : M St (option (Z * list Z)) :=
  match argv with
  | [] => ret (Some (sp, []))
  | a :: argv =>
    if MAXARG <=? argc then ret None else
    let sp := Z.land (u32 (sp - (Z.of_nat (length a) + 1))) (u32 (Z.lnot 3)) in
    let* r := copyout_bytes (S (length a)) pgdir sp (a ++ [0]) in
    if r <? 0 then ret None else
    let* rest := push_args pgdir sp (argc + 1) argv in
    match rest with
    | None => ret None
    | Some (sp', l) => ret (Some (sp', sp :: l))
    end
  end.

(** The bytes of a word, and the array ustack. *)
Definition word_bytes (v : Z) : list Z :=
  [u8 v; u8 (Z.shiftr v 8); u8 (Z.shiftr v 16); u8 (Z.shiftr v 24)].
Definition ustack (sp : Z) (ptrs : list Z) : list Z :=
  let argc := Z.of_nat (length ptrs) in
  concat (map word_bytes (0xffffffff :: argc :: u32 (sp - (argc + 1) * 4) :: ptrs ++ [0])).

(** The stack of the new image, from its top [sp] down: the new stack pointer. *)
Definition exec_stack (pgdir sp : Z) (argv : list (list Z)) : M St (option Z) :=
  let* args := push_args pgdir sp 0 argv in
  match args with
  | None => ret None
  | Some (sp, ptrs) =>
    let st := ustack sp ptrs in
    let sp := u32 (sp - Z.of_nat (length st)) in
    let* r := copyout_bytes (length st) pgdir sp st in
    if r <? 0 then ret None else ret (Some sp)
  end.

End stack.

Section ops.
Context {Lay : Layout} {FS : FsOps P} {K : Kernel P}.

(** ** ELF files (elf.h) *)

Definition ELF_MAGIC : Z := 0x464C457F.
Definition ELF_PROG_LOAD : Z := 1.
Definition sizeof_elfhdr : Z := 52.
Definition elf_entry : Z := 24.
Definition elf_phoff : Z := 28.
Definition elf_phnum : Z := 44.
Definition sizeof_proghdr : Z := 32.
Definition ph_type : Z := 0.
Definition ph_off : Z := 4.
Definition ph_vaddr : Z := 8.
Definition ph_filesz : Z := 16.
Definition ph_memsz : Z := 20.

(** ** exec *)

(** The label [bad]: [pgdir] and [ip] are 0 and -1 when there is none. *)
Definition exec_bad (pgdir ip : Z) : M P Z :=
  (if negb (pgdir =? 0) then freevm pgdir else ret tt) ;;
  (if negb (ip =? -1) then iunlockput ip else ret tt) ;;
  ret (-1).

(** The loop over the program headers from header [i], at file offset [off]:
    the size of the image, or nothing where the code goes to [bad]. *)
Fixpoint load_segments (n : nat) (ip pgdir off sz : Z) : M P (option Z) :=
  match n with
  | O => ret (Some sz)
  | S n =>
    let* r := readi_data ip (u32 off) sizeof_proghdr in
    let (c, ph) := r in
    if negb (c =? sizeof_proghdr) then ret None else
    if negb (ld32 ph ph_type =? ELF_PROG_LOAD) then load_segments n ip pgdir (s32 (off + sizeof_proghdr)) sz else
    if ld32 ph ph_memsz <? ld32 ph ph_filesz then ret None else
    let* sz := allocuvm pgdir sz (u32 (ld32 ph ph_vaddr + ld32 ph ph_memsz)) in
    if sz =? 0 then ret None else
    let* r := loaduvm (fun dst o m => Fs.readi ip dst o m) pgdir (ld32 ph ph_vaddr) (ld32 ph ph_off) (ld32 ph ph_filesz) in
    if r <? 0 then ret None else
    load_segments n ip pgdir (s32 (off + sizeof_proghdr)) sz
  end.

(** The part of a path after its last slash. *)
Fixpoint last_elem (path last : list Z) : list Z :=
  match path with
  | [] => last
  | c :: rest => if c =? 47 then last_elem rest rest else last_elem rest last
  end.

Definition exec (path : list Z) (argv : list (list Z)) : M P Z :=
  let* ip := Fs.namei path in
  if ip =? -1 then ret (-1) else
  ilock ip ;;
  let* r := readi_data ip 0 sizeof_elfhdr in
  let (c, elf) := r in
  (* a negative count passes the unsigned test, with nothing in elf *)
  if u32 c <? sizeof_elfhdr then exec_bad 0 ip else
  if c <? 0 then fault "exec: elf header not read" else
  if negb (ld32 elf 0 =? ELF_MAGIC) then exec_bad 0 ip else
  let* pgdir := setupkvm in
  if pgdir =? 0 then exec_bad 0 ip else
  let* size := load_segments (Z.to_nat (ld16 elf elf_phnum)) ip pgdir (s32 (ld32 elf elf_phoff)) 0 in
  match size with
  | None => exec_bad pgdir ip
  | Some size =>
    iunlockput ip ;;
    let size := PGROUNDUP size in
    let* size := allocuvm pgdir size (u32 (size + 2 * PGSIZE)) in
    if size =? 0 then exec_bad pgdir (-1) else
    clearpteu pgdir (u32 (size - 2 * PGSIZE)) ;;
    let* sp := exec_stack pgdir size argv in
    match sp with
    | None => exec_bad pgdir (-1)
    | Some sp =>
      set_cur (with_name (str_copy 16 (last_elem path path))) ;;
      let* oldpgdir := cur Proc.pgdir in
      set_cur (with_pgdir pgdir) ;;
      set_cur (with_sz size) ;;
      let* t := cur tf in
      store32 (t + tf_eip) (ld32 elf elf_entry) ;;
      store32 (t + tf_esp) sp ;;
      let* c := proc_ in
      switchuvm c ;;
      freevm oldpgdir ;;
      ret 0
    end
  end.

(** The loop of sys_exec over the argument array. *)
Fixpoint exec_args (n : nat) (uargv i : Z) (acc : list (list Z)) : M P (option (list (list Z))) :=
  match n with
  | O => ret None
  | S n =>
    let* uarg := fetchint (u32 (uargv + 4 * i)) in
    match uarg with
    | None => ret None
    | Some uarg =>
      if uarg =? 0 then ret (Some (reverse acc)) else
      let* s := fetchstr (u32 uarg) in
      match s with None => ret None | Some s => exec_args n uargv (i + 1) (s :: acc) end
    end
  end.

Definition sys_exec : M P Z :=
  with_arg (argstr 0) (fun path =>
  with_arg (argint 1) (fun uargv =>
  with_arg (exec_args (Z.to_nat MAXARG) (u32 uargv) 0 []) (fun argv => exec path argv))).

(** ** The system-call table *)

Context (trapret forkret_addr ptable_addr ticks_addr swapFlag_addr : Z).

(** [eax]: what the two calls without a value leave in the register. *)
Definition syscalls (eax num : Z) : option (M P Z) :=
  if num =? 1 then Some (sys_fork trapret forkret_addr)
  else if num =? 2 then Some (sys_exit ptable_addr)
  else if num =? 3 then Some (sys_wait ptable_addr)
  else if num =? 4 then Some sys_pipe
  else if num =? 5 then Some sys_read
  else if num =? 6 then Some sys_kill
  else if num =? 7 then Some sys_exec
  else if num =? 8 then Some sys_fstat
  else if num =? 9 then Some sys_chdir
  else if num =? 10 then Some sys_dup
  else if num =? 11 then Some sys_getpid
  else if num =? 12 then Some sys_sbrk
  else if num =? 13 then Some (sys_sleep ticks_addr)
  else if num =? 14 then Some sys_uptime
  else if num =? 15 then Some sys_open
  else if num =? 16 then Some sys_write
  else if num =? 17 then Some sys_mknod
  else if num =? 18 then Some sys_unlink
  else if num =? 19 then Some sys_link
  else if num =? 20 then Some sys_mkdir
  else if num =? 21 then Some sys_close
  else if num =? 22 then Some (sys_enableSwapping eax)
  else if num =? 23 then Some (sys_disableSwapping eax)
  else if num =? 24 then Some (sys_sleep2 swapFlag_addr)
  else if num =? 25 then Some (sys_wakeup2 swapFlag_addr)
  else if num =? 26 then Some sys_getAllocatedPages
  else if num =? 27 then Some sys_shmget
  else if num =? 28 then Some sys_shmdel
  else if num =? 29 then Some sys_shmat
  else if num =? 30 then Some sys_shmdt
  else None.

(** The table has 31 entries, the first of them null. *)
Definition syscall (eax : Z) : M P unit :=
  let* t := cur tf in
  let* v := load32 (t + tf_eax) in
  match syscalls eax (s32 v) with
  | Some call =>
    let* r := call in
    let* t := cur tf in
    store32 (t + tf_eax) r
  | None =>
    let* id := cur pid in
    let* nm := cur name in
    cprintf (bytes "%d %s: unknown sys call %d" ++ [10]) [AInt id; AStr (Some nm); AInt (s32 v)] ;;
    let* t := cur tf in
    store32 (t + tf_eax) (-1)
  end.

(** ** Traps *)

Definition tf_trapno : Z := 48.
Definition tf_err : Z := 52.
Definition T_SYSCALL : Z := 64.
Definition T_IRQ0 : Z := 32.
Definition IRQ_TIMER : Z := 0.
Definition IRQ_KBD : Z := 1.
Definition IRQ_COM1 : Z := 4.
Definition IRQ_IDE : Z := 14.
Definition IRQ_SPURIOUS : Z := 31.

(** Whether the trap returns, or gives up the CPU in yield(). *)
Inductive trap_end : Type := Returns | Yields.

(** [proc && proc->killed && (tf->cs&3) == DPL_USER]: then the process exits. *)
Definition exit_if_killed (cs : Z) : M P unit :=
  let* c := proc_ in
  if c =? -1 then ret tt else
  let* k := pget c killed in
  if negb (k =? 0) && (Z.land cs 3 =? 3) then exit_before ptable_addr ;; gone else ret tt.

(** The return addresses on a stack; missing ones are 0 (spinlock.c). *)
Fixpoint getcallerpcs_loop (n : nat) (ebp : Z) : M P (list Z) :=
  match n with
  | O => ret []
  | S n' =>
    if (ebp =? 0) || (ebp <? KERNBASE) || (ebp =? 0xffffffff) then ret (repeat 0 n) else
    let* pc := load32 (ebp + 4) in
    let* up := load32 ebp in
    let* rest := getcallerpcs_loop n' up in
    ret (pc :: rest)
  end.
Definition getcallerpcs (v : Z) : M P (list Z) := getcallerpcs_loop 10 (u32 (v - 8)).

Definition state_name (st : procstate) : list Z :=
  bytes (match st with
         | UNUSED => "unused" | EMBRYO => "embryo" | SLEEPING => "sleep " | RUNNABLE => "runble"
         | RUNNING => "run   " | ZOMBIE => "zombie" | _ => "???"
         end)%string.

Fixpoint dump_pcs (pcs : list Z) : M P unit :=
  match pcs with
  | [] => ret tt
  | pc :: pcs => if pc =? 0 then ret tt else cprintf (bytes " %p") [AInt pc] ;; dump_pcs pcs
  end.

Definition context_ebp : Z := 12.
Fixpoint procdump_loop (n : nat) (i : Z) : M P unit :=
  match n with
  | O => ret tt
  | S n =>
    let* st := pget i state in
    (if decide (st = UNUSED) then ret tt else
     let* id := pget i pid in
     let* nm := pget i name in
     cprintf (bytes "%d %s %s") [AInt id; AStr (Some (state_name st)); AStr (Some nm)] ;;
     (if decide (st = SLEEPING) then
        let* cx := pget i context in
        let* ebp := load32 (cx + context_ebp) in
        let* pcs := getcallerpcs (u32 (ebp + 8)) in
        dump_pcs pcs
      else ret tt) ;;
     cprintf [10] []) ;;
    procdump_loop n (i + 1)
  end.
Definition procdump : M P unit := procdump_loop (Z.to_nat NPROC) 0.

(** kbdintr, with the scan codes the keyboard has ready. *)
Definition kbdintr (codes : list Z) : M P unit :=
  let* sh := getf shiftL in
  let (cs, sh') := kbd_chars sh codes in
  consoleintr procdump cs ;;
  setf shiftL sh'.

(** [cpu_id], [cr2]: the number of the CPU and the address of a page fault;
    [codes], [serial_in]: what the keyboard and the serial port have ready. *)
Context (cpu_id cr2 : Z) (codes serial_in : list Z).

(** The switch on the trap number. *)
Definition trap_device (t no cs : Z) : M P unit :=
  if no =? T_IRQ0 + IRQ_TIMER then
    if cpu_id =? 0 then
      acquire tickslockL ;;
      let* n := getf ticksL in
      setf ticksL (u32 (n + 1)) ;;
      wakeup ticks_addr ;;
      release tickslockL
    else ret tt
  else if no =? T_IRQ0 + IRQ_IDE then ideintr
  else if no =? T_IRQ0 + IRQ_IDE + 1 then ret tt
  else if no =? T_IRQ0 + IRQ_KBD then kbdintr codes
  else if no =? T_IRQ0 + IRQ_COM1 then consoleintr procdump serial_in
  else
    let* eip := load32 (t + tf_eip) in
    if (no =? T_IRQ0 + 7) || (no =? T_IRQ0 + IRQ_SPURIOUS) then
      cprintf (bytes "cpu%d: spurious interrupt at %x:%x" ++ [10]) [AInt cpu_id; AInt cs; AInt eip]
    else
      let* c := proc_ in
      if (c =? -1) || (Z.land cs 3 =? 0) then
        cprintf (bytes "unexpected trap %d from cpu %d eip %x (cr2=0x%x)" ++ [10])
          [AInt no; AInt cpu_id; AInt eip; AInt cr2] ;;
        panic "trap"
      else
        let* id := pget c pid in
        let* nm := pget c name in
        let* err := load32 (t + tf_err) in
        cprintf (bytes "pid %d %s: trap %d err %d on cpu %d eip 0x%x addr 0x%x--kill proc" ++ [10])
          [AInt id; AStr (Some nm); AInt no; AInt err; AInt cpu_id; AInt eip; AInt cr2] ;;
        pset c (with_killed 1).

Definition trap (eax t : Z) : M P trap_end :=
  let* no := load32 (t + tf_trapno) in
  if no =? T_SYSCALL then
    let* k := cur killed in
    (if negb (k =? 0) then exit_before ptable_addr ;; gone else ret tt) ;;
    set_cur (with_tf t) ;;
    syscall eax ;;
    let* k := cur killed in
    (if negb (k =? 0) then exit_before ptable_addr ;; gone else ret tt) ;;
    ret Returns
  else
    let* cs := gets (fun s => ld16 (mem_of s) (t + tf_cs)) in
    trap_device t no cs ;;
    exit_if_killed cs ;;
    let* c := proc_ in
    if c =? -1 then ret Returns else
    let* st := pget c state in
    if bool_decide (st = RUNNING) && (no =? T_IRQ0 + IRQ_TIMER) then yield_before ;; ret Yields
    else exit_if_killed cs ;; ret Returns.

(** The first process to run in forkret starts the log. *)
Definition forkret (first : Z) : M P Z :=
  release ptable_lockL ;;
  (if negb (first =? 0) then initlog else ret tt) ;;
  ret 0.

(** The rest of trap() when yield() comes back. *)
Definition trap_resumed (cs : Z) : M P unit := yield_after ;; exit_if_killed cs.

End ops.
