(* ===== verification/ExecSpec.v ===== *)
(** * The stack that exec builds

    exec pushes the argument strings and the array of their addresses onto the
    stack of the new image.  The theorem states what the program then finds
    there: the arguments of main, as the C calling convention has them. *)

From Stdlib Require Import ZArith Lia String Bool.
From stdpp Require Import base numbers list.
From S2P Require Import Prelude Params Mem Spinlock Pages Kalloc Vm PageTable AddrSpace CopyVm Shm Proc Swap FsState Machine Exec.

(** ** A user program's view of its memory *)

(** A word, and a string with its NUL, in a memory some of which is mapped *)
Definition uword (rd : Z -> option Z) (a v : Z) : Prop :=
  forall k b, word_bytes v !! k = Some b -> rd (a + Z.of_nat k) = Some b.
Definition ustring (rd : Z -> option Z) (a : Z) (str : list Z) : Prop :=
  forall k b, (str ++ [0]) !! k = Some b -> rd (a + Z.of_nat k) = Some b.

(** What main(argc, argv) is given when it starts with the stack pointer [sp]:
    a return address, the count, and the array of the strings' addresses, with a
    null pointer at its end. *)
Record main_args (rd : Z -> option Z) (sp : Z) (argv : list (list Z)) : Prop := {
  ma_ret : uword rd sp 0xffffffff;
  ma_argc : uword rd (sp + 4) (Z.of_nat (length argv));
  ma_argv : exists av, uword rd (sp + 8) av /\ uword rd (av + 4 * Z.of_nat (length argv)) 0 /\
    forall i a, argv !! i = Some a -> exists p, uword rd (av + 4 * Z.of_nat i) p /\ ustring rd p a
}.

Section exec.
Context {Lay : Layout} {St : Type} {PO : PageOps St} {PS : PageSpec St}.

(** ** copyout of a list *)

(** One turn: [n] bytes at [va], all in one page *)
Lemma copy_bytes_step (s : St) pgdir held l va (src : Z -> Z) n :
  owns s pgdir held l -> 0 <= va -> 0 < n -> va mod 4096 + n <= 4096 -> va + n <= KERNBASE ->
  user_ok (pte_of (mem_of s) pgdir (va / 4096)) = true -> (forall i, 0 <= i < n -> 0 <= src i < 256) ->
  let m' := blit (mem_of s) (p2v (PTE_ADDR (pte_of (mem_of s) pgdir (va / 4096))) + va mod 4096) src n in
  owns (put memL m' s) pgdir held l /\
  (forall k, 0 <= k < NVPN -> pte_of m' pgdir k = pte_of (mem_of s) pgdir k) /\
  (forall x, 0 <= x < KERNBASE -> ubyte m' pgdir x =
     if (va <=? x) && (x <? va + n) then Some (src (x - va)) else ubyte (mem_of s) pgdir x).
Proof.
  intros HO Hva Hn Hpage Htop Hok Hb m'. destruct (uva_range va ltac:(lia)) as [Hu Hv].
  destruct (user_ok_target _ _ _ Hok) as [Htg _]. set (p := p2v _) in *.
  assert (forall a, ld8 m' a = if (p + va mod 4096 <=? a) && (a <? p + va mod 4096 + n) then src (a - (p + va mod 4096)) else ld8 (mem_of s) a) as Hm.
  { intros a. unfold m', blit. unfold ld8 at 1. destruct (Z.leb_spec (p + va mod 4096) a), (Z.ltb_spec a (p + va mod 4096 + n)); cbn [andb]; try done. apply u8_small, Hb. lia. }
  assert (agree (fun a => ~ in_page p a) (mem_of s) m') as Hag.
  { intros a Ha. rewrite Hm. unfold in_page, PGSIZE in Ha.
    destruct (Z.leb_spec (p + va mod 4096) a), (Z.ltb_spec a (p + va mod 4096 + n)); cbn [andb]; try done. mlia. }
  pose proof (upages_elem _ _ _ _ Hu Htg) as Hin.
  destruct (write_held s pgdir held l p m' HO) as (HO' & _ & Hpte & _); [apply elem_of_app; by left|done|].
  split_and!; [done|done|]. intros x Hx. rewrite (write_ubyte s pgdir held l (va / 4096) p m' x HO Hu Htg Hag Hx).
  destruct (Z.eqb_spec (x / 4096) (va / 4096)) as [Heq|Hne].
  - rewrite Hm. unfold ubyte. rewrite Heq, Htg.
    destruct (Z.leb_spec va x), (Z.ltb_spec x (va + n)), (Z.leb_spec (p + va mod 4096) (p + x mod 4096)), (Z.ltb_spec (p + x mod 4096) (p + va mod 4096 + n));
      cbn [andb]; try done; try (f_equal; f_equal; mlia); mlia.
  - destruct (Z.leb_spec va x), (Z.ltb_spec x (va + n)); cbn [andb]; try done. mlia.
Qed.

(** The bytes of a list from [va] on, the rest as before *)
Definition with_bytes (f : Z -> option Z) (va : Z) (buf : list Z) (x : Z) : option Z :=
  match buf !! Z.to_nat (x - va) with
  | Some b => if va <=? x then Some b else f x
  | None => f x
  end.

Lemma copyout_bytes_eq fuel pgdir va buf (s : St) : buf <> [] -> copyout_bytes (S fuel) pgdir va buf s =
  (let va0 := PGROUNDDOWN va in let* pa0 := uva2ka pgdir va0 in if pa0 =? 0 then ret (-1) else
    let n := PGSIZE - (va - va0) in let n := if Z.of_nat (length buf) <? n then Z.of_nat (length buf) else n in
    on_mem (fun m => blit m (pa0 + (va - va0)) (fun i => nth (Z.to_nat i) buf 0) n) ;;
    copyout_bytes fuel pgdir (u32 (va0 + PGSIZE)) (drop (Z.to_nat n) buf)) s.
Proof. intros H. by destruct buf. Qed.

Lemma copyout_bytes_spec pgdir held l fuel : forall (s : St) va buf,
  owns s pgdir held l -> 0 <= va -> (length buf <= fuel)%nat -> va + Z.of_nat (length buf) <= KERNBASE ->
  (forall k, va <= k < va + Z.of_nat (length buf) -> user_ok (pte_of (mem_of s) pgdir (k / 4096)) = true) -> Forall (fun b => 0 <= b < 256) buf ->
  exists s', copyout_bytes fuel pgdir va buf s = Ret (0, s') /\ owns s' pgdir held l /\
    (forall k, 0 <= k < NVPN -> pte_of (mem_of s') pgdir k = pte_of (mem_of s) pgdir k) /\
    (forall x, 0 <= x < KERNBASE -> ubyte (mem_of s') pgdir x = with_bytes (ubyte (mem_of s) pgdir) va buf x).
Proof.
  induction fuel as [|fuel IH]; intros s va buf HO Hva Hf Htop Hok Hb; (destruct (decide (buf = [])) as [->|Hne0]; [exists s; split_and!; done|]).
  { destruct buf; cbn in Hf; [done|lia]. }
  assert (0 < Z.of_nat (length buf)) as Hpos by (destruct buf; [done|cbn; lia]). rewrite copyout_bytes_eq by done.
  remember (Z.of_nat (length buf)) as len eqn:Elen.
  destruct (uva_range va ltac:(lia)) as [Hu Hv]. pose proof (Hok va ltac:(lia)) as Hokva.
  rewrite PGROUNDDOWN_eq, (u32_small va) by (unfold KERNBASE in *; lia). replace (va - va mod 4096) with (va / 4096 * 4096) by mlia.
  destruct (user_ok_target _ _ _ Hokva) as [Htg Htab]. cbv zeta.
  mstep_with (uva2ka_spec s pgdir held l (va / 4096) HO Hu Htab). rewrite Hokva.
  assert (page_ok (p2v (PTE_ADDR (pte_of (mem_of s) pgdir (va / 4096))))) as Hpok.
  { destruct HO as [_ [_ Hall]]. rewrite Forall_forall in Hall. apply Hall.
    rewrite elem_of_cons, !elem_of_app. do 2 right. do 2 left. by apply (upages_elem _ _ (va / 4096)). }
  rewrite (proj2 (Z.eqb_neq _ 0)) by (pose proof (page_ok_bounds _ Hpok); lia).
  replace (va - va / 4096 * 4096) with (va mod 4096) by mlia.
  set (n := if len <? PGSIZE - va mod 4096 then len else PGSIZE - va mod 4096).
  assert (0 < n <= len /\ va mod 4096 + n <= 4096 /\ (n = len \/ va + n = (va / 4096 + 1) * 4096)) as (Hn1 & Hn2 & Hn3).
  { unfold n, PGSIZE. destruct (Z.ltb_spec len (4096 - va mod 4096)); mlia. }
  mstep. destruct (copy_bytes_step s pgdir held l va (fun i => nth (Z.to_nat i) buf 0) n HO) as (HO' & Hpte & Hub); try lia; [done| |].
  { intros i Hi. rewrite Forall_forall in Hb. apply Hb, list_elem_of_In, nth_In. lia. }
  set (m' := blit _ _ _ _) in *. set (s1 := put memL _ s) in *. assert (mem_of s1 = m') as Hm1 by apply mem_of_put. rewrite <- Hm1 in *.
  assert (Hdr : Z.of_nat (length (drop (Z.to_nat n) buf)) = len - n) by (rewrite length_drop; lia).
  assert (forall x, 0 <= x < KERNBASE -> with_bytes (ubyte (mem_of s1) pgdir) (va + n) (drop (Z.to_nat n) buf) x = with_bytes (ubyte (mem_of s) pgdir) va buf x) as Hstep.
  { intros x Hx. unfold with_bytes. rewrite lookup_drop, Hub by done. destruct (Z.leb_spec (va + n) x).
    - replace (Z.to_nat n + Z.to_nat (x - (va + n)))%nat with (Z.to_nat (x - va)) by lia. rewrite (proj2 (Z.leb_le va x)), (proj2 (Z.ltb_ge x (va + n))) by lia. done.
    - rewrite (proj2 (Z.ltb_lt x (va + n))), andb_true_r by lia. destruct (buf !! (Z.to_nat n + Z.to_nat (x - (va + n)))%nat); (destruct (Z.leb_spec va x); [|by destruct (buf !! _)]);
        (destruct (buf !! Z.to_nat (x - va)) as [b|] eqn:E; [by rewrite (nth_lookup_Some _ _ _ _ E)|apply lookup_ge_None in E; lia]). }
  destruct (Z.eq_dec n len) as [Heq|Hne].
  - exists s1. assert (drop (Z.to_nat n) buf = []) as Hd by (apply length_zero_iff_nil; lia). rewrite Hd in *. split; [by destruct fuel|]. split; [exact HO'|]. split; [exact Hpte|]. intros x Hx. rewrite <- Hstep by done. reflexivity.
  - replace (u32 (va / 4096 * 4096 + PGSIZE)) with (va + n) by (unfold u32, PGSIZE, KERNBASE in *; mlia).
    destruct (IH s1 (va + n) (drop (Z.to_nat n) buf)) as (s' & Hs' & HO2 & Hp2 & Hu2); [done|lia|lia|lia| |by apply Forall_drop|].
    { intros k Hk. rewrite Hpte by (apply uva_range; lia). apply Hok. lia. }
    exists s'. split_and!; [done|done| |].
    + intros k Hk. by rewrite Hp2, Hpte.
    + intros x Hx. by rewrite Hu2, Hstep.
Qed.

(** ** The strings *)

Lemma with_bytes_in f va buf k b : buf !! k = Some b -> with_bytes f va buf (va + Z.of_nat k) = Some b.
Proof. intros H. unfold with_bytes. replace (Z.to_nat (va + Z.of_nat k - va)) with k by lia. rewrite H, (proj2 (Z.leb_le _ _)) by lia. done. Qed.
Lemma with_bytes_out f va buf x : x < va \/ va + Z.of_nat (length buf) <= x -> with_bytes f va buf x = f x.
Proof.
  intros H. unfold with_bytes. destruct (buf !! Z.to_nat (x - va)) as [b|] eqn:E; [|done]. apply lookup_lt_Some in E. by rewrite (proj2 (Z.leb_gt _ _)) by lia.
Qed.

Lemma align4 x : 0 <= x < 0x100000000 -> Z.land x (u32 (Z.lnot 3)) = x - x mod 4.
Proof. intros Hx. change (u32 (Z.lnot 3)) with (2 ^ 32 - 2 ^ 2). rewrite (land_high_mask x 2 32) by (change (2 ^ 32) with 0x100000000; lia). done. Qed.

(** Room for the strings, with their NULs and rounding *)
Definition args_size (argv : list (list Z)) : Z := foldr (fun a n => Z.of_nat (length a) + 4 + n) 0 argv.

(** The stack region [lo, hi) is there for the user. *)
Definition stack_ok (s : St) (pgdir lo hi : Z) : Prop := forall x, lo <= x < hi -> user_ok (pte_of (mem_of s) pgdir (x / 4096)) = true.

Lemma push_args_spec pgdir held l lo argv : forall (s : St) sp argc,
  owns s pgdir held l -> stack_ok s pgdir lo sp -> 0 <= lo -> sp <= KERNBASE -> lo + args_size argv <= sp -> sp mod 4 = 0 ->
  0 <= argc -> argc + Z.of_nat (length argv) <= MAXARG -> Forall (Forall (fun b => 0 <= b < 256)) argv ->
  exists sp' ptrs s', push_args pgdir sp argc argv s = Ret (Some (sp', ptrs), s') /\ owns s' pgdir held l /\
    length ptrs = length argv /\ sp - args_size argv <= sp' <= sp /\ sp' mod 4 = 0 /\ Forall (fun p => 0 <= p < 0x100000000) ptrs /\
    (forall k, 0 <= k < NVPN -> pte_of (mem_of s') pgdir k = pte_of (mem_of s) pgdir k) /\
    (forall x, 0 <= x < KERNBASE -> x < sp' \/ sp <= x -> ubyte (mem_of s') pgdir x = ubyte (mem_of s) pgdir x) /\
    (forall i a p, argv !! i = Some a -> ptrs !! i = Some p -> sp' <= p /\ p + Z.of_nat (length a) < sp /\ ustring (ubyte (mem_of s') pgdir) p a).
Proof.
  induction argv as [|a argv IH]; intros s sp argc HO Hst Hlo Htop Hroom Hal Hc Hmax Hb.
  - exists sp, [], s. cbn [args_size foldr] in *. split_and!; try done; try lia. 
  - apply Forall_cons in Hb as [Ha Hb]. cbn [args_size foldr length] in *. fold (args_size argv) in *.
    assert (0 <= args_size argv) as Hge by (clear; induction argv as [|q argv IH]; cbn [args_size foldr]; [lia|fold (args_size argv); lia]).
    set (len := Z.of_nat (length a)) in *. unfold KERNBASE in *.
    cbn [push_args]. rewrite (proj2 (Z.leb_gt _ _)) by lia. fold len. rewrite u32_small, align4 by lia. set (sp1 := sp - (len + 1) - (sp - (len + 1)) mod 4).
    assert (sp - len - 4 <= sp1 <= sp - len - 1 /\ sp1 mod 4 = 0) as [Hsp1 Hal1] by (unfold sp1; mlia). clearbody sp1.
    assert (Z.of_nat (length (a ++ [0])) = len + 1) as Hlen by (rewrite length_app; cbn; lia).
    destruct (copyout_bytes_spec pgdir held l (S (length a)) s sp1 (a ++ [0])) as (s1 & E1 & HO1 & Hp1 & Hu1); [done|lia|rewrite length_app; cbn; lia|unfold KERNBASE; lia| | |].
    { intros k Hk. apply Hst. lia. }
    { apply Forall_app. split; [done|]. repeat constructor; lia. }
    destruct (IH s1 sp1 (argc + 1) HO1) as (sp' & ptrs & s' & E & HO' & Hl & Hsp & Hal' & Hpr & Hp & Hu & Hs); try done; try lia.
    { intros x Hx. rewrite Hp1; [apply Hst; lia|]. apply uva_range. unfold KERNBASE. lia. }
    exists sp', (sp1 :: ptrs), s'. split_and!; try done; try lia.
    + rewrite (bind_ret_eq _ _ _ _ _ E1). cbn [Z.ltb Z.compare]. by rewrite (bind_ret_eq _ _ _ _ _ E).
    + cbn. lia.
    + constructor; [lia|done].
    + intros k Hk. by rewrite Hp, Hp1.
    + intros x Hx Ho. rewrite Hu by lia. rewrite Hu1 by done. apply with_bytes_out. lia.
    + intros [|i] b p Hi Hpi; cbn in Hi, Hpi.
      * injection Hi as <-. injection Hpi as <-. split_and!; [lia|lia|]. intros k c Hk. pose proof (lookup_lt_Some _ _ _ Hk). rewrite Hu by (unfold KERNBASE; lia).
        rewrite Hu1 by (unfold KERNBASE; lia). by apply with_bytes_in.
      * destruct (Hs i b p Hi Hpi) as (? & ? & ?). split_and!; [done|lia|done].
Qed.

(** ** The array *)

Lemma length_words ws : length (concat (map word_bytes ws)) = (4 * length ws)%nat.
Proof. induction ws as [|w ws IH]; [done|]. cbn [map concat length]. rewrite length_app, IH. cbn. lia. Qed.

Lemma words_lookup ws i v k b : ws !! i = Some v -> word_bytes v !! k = Some b -> concat (map word_bytes ws) !! (4 * i + k)%nat = Some b.
Proof.
  intros Hi Hk. pose proof (lookup_lt_Some _ _ _ Hk) as Hlt. change (length (word_bytes v)) with 4%nat in Hlt. revert i Hi. induction ws as [|w ws IH]; intros [|i] Hi; try done; cbn [map concat].
  - injection Hi as ->. rewrite lookup_app_l by (cbn; lia). by replace (4 * 0 + k)%nat with k by lia.
  - rewrite lookup_app_r by (cbn; lia). change (length (word_bytes w)) with 4%nat. replace (4 * S i + k - 4)%nat with (4 * i + k)%nat by lia. by apply IH.
Qed.

Lemma words_range ws : Forall (fun b => 0 <= b < 256) (concat (map word_bytes ws)).
Proof.
  induction ws as [|w ws IH]; [constructor|]. cbn [map concat]. apply Forall_app. split; [|done]. unfold word_bytes. repeat constructor; apply u8_range.
Qed.

Lemma words_read f va ws i v : ws !! i = Some v -> uword (with_bytes f va (concat (map word_bytes ws))) (va + 4 * Z.of_nat i) v.
Proof.
  intros Hi k b Hk. replace (va + 4 * Z.of_nat i + Z.of_nat k) with (va + Z.of_nat (4 * i + k)) by lia. apply with_bytes_in. by eapply words_lookup.
Qed.

Lemma uword_ext (f g : Z -> option Z) a v : (forall k, 0 <= k < 4 -> f (a + k) = g (a + k)) -> uword f a v -> uword g a v.
Proof. intros H Hf k b Hk. pose proof (lookup_lt_Some _ _ _ Hk) as Hlt. change (length (word_bytes v)) with 4%nat in Hlt. rewrite <- H by lia. by apply Hf. Qed.

(** C14 exec gives main its arguments: when the page below [top] is mapped for the
    user and the strings, with the array of their addresses, fit in it, the code of
    exec that builds the stack succeeds, and the program finds at its stack
    pointer, which is a multiple of four, the return address 0xffffffff, argc,
    and argv: an array of pointers to its argument strings, NUL at their ends, and
    a null pointer.  No other byte of the address space changes. *)
Theorem exec_stack_args (s : St) (pgdir : Z) (held l : list Z) (top : Z) (argv : list (list Z)) :
  owns s pgdir held l -> PGSIZE <= top <= KERNBASE -> top mod 4 = 0 -> stack_ok s pgdir (top - PGSIZE) top ->
  Z.of_nat (length argv) <= MAXARG -> args_size argv + 4 * (Z.of_nat (length argv) + 4) <= PGSIZE -> Forall (Forall (fun b => 0 <= b < 256)) argv ->
  exists sp s', exec_stack pgdir top argv s = Ret (Some sp, s') /\ owns s' pgdir held l /\
    top - PGSIZE <= sp < top /\ sp mod 4 = 0 /\ main_args (ubyte (mem_of s') pgdir) sp argv /\
    (forall x, 0 <= x < KERNBASE -> x < sp \/ top <= x -> ubyte (mem_of s') pgdir x = ubyte (mem_of s) pgdir x).
Proof.
  intros HO Htop Hal Hst Hmax Hsz Hb. unfold PGSIZE, KERNBASE in *.
  destruct (push_args_spec pgdir held l (top - 4096) argv s top 0) as (sp1 & ptrs & s1 & E1 & HO1 & Hl1 & Hsp1 & Hal1 & Hpr & Hp1 & Hu1 & Hs1);
    unfold KERNBASE; try done; try lia.
  set (argc := Z.of_nat (length argv)) in *. assert (0 <= argc) as Hc by lia.
  set (W := 0xffffffff :: argc :: u32 (sp1 - (argc + 1) * 4) :: ptrs ++ [0]).
  assert (ustack sp1 ptrs = concat (map word_bytes W)) as EW by (unfold ustack; by rewrite Hl1).
  assert (Z.of_nat (length W) = argc + 4) as HW by (unfold W; cbn [length]; rewrite length_app, Hl1; cbn [length]; lia).
  set (sp := sp1 - 4 * (argc + 4)). assert (u32 (sp1 - (argc + 1) * 4) = sp + 12) as Eav by (rewrite u32_small by lia; unfold sp; lia).
  destruct (copyout_bytes_spec pgdir held l (length (ustack sp1 ptrs)) s1 sp (ustack sp1 ptrs)) as (s2 & E2 & HO2 & Hp2 & Hu2);
    unfold KERNBASE in *; rewrite ?EW, ?length_words in *; try done; try lia.
  { intros k Hk. rewrite Hp1; [apply Hst; lia|]. apply uva_range. unfold KERNBASE. lia. }
  { apply words_range. }
  assert (forall i v, W !! i = Some v -> uword (ubyte (mem_of s2) pgdir) (sp + 4 * Z.of_nat i) v) as Hw.
  { intros i v Hi. pose proof (lookup_lt_Some _ _ _ Hi). eapply uword_ext; [|by apply (words_read (ubyte (mem_of s1) pgdir) sp W i v)].
    intros k Hk. rewrite Hu2 by lia. done. }
  exists sp, s2. split_and!; try done; try lia.
  - unfold exec_stack. rewrite (bind_ret_eq _ _ _ _ _ E1). cbv zeta. rewrite EW, length_words, u32_small by lia.
    replace (sp1 - Z.of_nat (4 * length W)) with sp by (unfold sp; lia). by rewrite (bind_ret_eq _ _ _ _ _ E2).
  - unfold sp. mlia.
  - split.
    + pose proof (Hw 0%nat _ eq_refl) as H. by rewrite Z.add_0_r in H.
    + exact (Hw 1%nat _ eq_refl).
    + exists (sp + 12). split; [rewrite <- Eav; exact (Hw 2%nat _ eq_refl)|]. split.
      * fold argc. replace (sp + 12 + 4 * argc) with (sp + 4 * Z.of_nat (3 + length ptrs)) by lia. refine (Hw (3 + length ptrs)%nat 0 _).
        change ((ptrs ++ [0]) !! length ptrs = Some 0). by rewrite lookup_app_r, Nat.sub_diag by lia.
      * intros i a Hi. assert (i < length ptrs)%nat as Hip by (rewrite Hl1; by eapply lookup_lt_Some). destruct (lookup_lt_is_Some_2 ptrs i Hip) as [p Hp]. exists p. split.
        -- replace (sp + 12 + 4 * Z.of_nat i) with (sp + 4 * Z.of_nat (3 + i)) by lia. refine (Hw (3 + i)%nat p _).
           change ((ptrs ++ [0]) !! i = Some p). by rewrite lookup_app_l.
        -- destruct (Hs1 i a p Hi Hp) as (Hlo & Hhi & Hstr). intros k b Hk. pose proof (lookup_lt_Some _ _ _ Hk) as Hkl. rewrite length_app in Hkl. cbn in Hkl.
           rewrite Hu2 by lia. rewrite with_bytes_out by (rewrite length_words; lia). by apply Hstr.
  - intros x Hx Ho. rewrite Hu2 by done. rewrite with_bytes_out by (rewrite length_words; lia). apply Hu1; lia.
Qed.
End exec.

(** The machine whose state exec runs on is such a state. *)
#[export] Instance pst_page_spec {Lay : Layout} : PageSpec P := PageSpec_zoom ps_kL.

#[local] Existing Instance kernel_sym.
(** "ls -l" in a process of one page *)
Lemma exec_stack_args_witness : exists sp s', exec_stack demo_dir 4096 [[108; 115]; [45; 108]] demo = Ret (Some sp, s') /\
  sp mod 4 = 0 /\ main_args (ubyte (mem_of s') demo_dir) sp [[108; 115]; [45; 108]].
Proof.
  destruct (exec_stack_args demo demo_dir [] demo_free 4096 [[108; 115]; [45; 108]] demo_owns) as (sp & s' & E & _ & _ & Hal & Hm & _).
  - unfold PGSIZE, KERNBASE. lia.
  - reflexivity.
  - intros x Hx. change (mem_of demo) with demo_mem. replace (x / 4096) with 0 by (unfold PGSIZE in Hx; mlia). by rewrite demo_pte.
  - unfold MAXARG. cbn. lia.
  - unfold PGSIZE. cbn. lia.
  - repeat constructor; lia.
  - exists sp, s'. split; [exact E|]. split; [exact Hal|exact Hm].
Defined.
