(* ===== verification/Ulib.v ===== *)
(** * The user library (ulib.c, printf.c): the code

    Memory of the process as in Mem; a string is scanned up to its NUL, with
    fuel for the scan.  printf yields the bytes it passes to write, one call
    of write for each. *)

From Stdlib Require Import ZArith Lia String Bool.
From stdpp Require Import base numbers list.
From S2P Require Import Prelude Params Mem.

(** ** ulib.c *)

Fixpoint strcpy (fuel : nat) (m : mem) (s t : Z) : outcome mem :=
  match fuel with
  | O => NoFuel
  | S fuel => let m := st8 m s (ld8 m t) in if ld8 m s =? 0 then Ret m else strcpy fuel m (s + 1) (t + 1)
  end.

Fixpoint strcmp (fuel : nat) (m : mem) (p q : Z) : outcome Z :=
  match fuel with
  | O => NoFuel
  | S fuel => if negb (ld8 m p =? 0) && (ld8 m p =? ld8 m q) then strcmp fuel m (p + 1) (q + 1) else Ret (ld8 m p - ld8 m q)
  end.

(** The address of the first [c], 0 for none. *)
Fixpoint strchr (fuel : nat) (m : mem) (s c : Z) : outcome Z :=
  match fuel with
  | O => NoFuel
  | S fuel => if ld8 m s =? 0 then Ret 0 else if ld8 m s =? u8 c then Ret s else strchr fuel m (s + 1) c
  end.

Definition umemset (m : mem) (dst c n : Z) : mem := stosb m dst c n.

(** memmove of the library copies upwards whatever the overlap. *)
Definition umemmove (m : mem) (dst src n : Z) : mem := memmove_up m dst src (Z.to_nat n).

(** gets: what it puts into the buffer before the NUL, and the input it leaves.
    [input] is what is left to read, one byte for each call of read; read
    returns 0 at its end.  [n] counts the calls the buffer has room for. *)
Fixpoint ugets_loop (n : nat) (input : list Z) : list Z * list Z :=
  match n, input with
  | O, _ => ([], input)
  | _, [] => ([], [])
  | S n, c :: input => if (c =? 10) || (c =? 13) then ([c], input) else let (l, rest) := ugets_loop n input in (c :: l, rest)
  end.
Definition ugets (max : Z) (input : list Z) : list Z * list Z := ugets_loop (Z.to_nat (max - 1)) input.

(** [n] is an int and wraps. *)
Fixpoint atoi (s : list Z) (n : Z) : Z :=
  match s with
  | [] => n
  | c :: s => if (48 <=? c) && (c <=? 57) then atoi s (s32 (n * 10 + c - 48)) else n
  end.

(** ** printf.c *)

(** The digits, upper case. *)
Definition udigits (d : Z) : Z := if d <? 10 then 48 + d else 65 + (d - 10).
Fixpoint udigit_loop (fuel : nat) (x base : Z) : list Z :=
  match fuel with
  | O => []
  | S fuel => udigits (x mod base) :: (if x / base =? 0 then [] else udigit_loop fuel (x / base) base)
  end.
(** The contents of [buf], in the order it is filled. *)
Definition uprintint_buf (xx base : Z) (sgn : bool) : list Z :=
  let neg := sgn && (xx <? 0) in
  let x := if neg then u32 (- xx) else u32 xx in
  udigit_loop 32 x base ++ (if neg then [45] else []).
Definition uprintint (xx base : Z) (sgn : bool) : list Z := reverse (uprintint_buf xx base sgn).

(** The bytes of a string of the source *)
Definition text_of (s : string) : list Z := map (fun c => Z.of_nat (Ascii.nat_of_ascii c)) (list_ascii_of_string s).

(** The arguments after the format: words, and strings or the null pointer. *)
Inductive uarg : Type := UInt (x : Z) | UStr (s : option (list Z)).
Definition unull : list Z := [40; 110; 117; 108; 108; 41].

(** [state] is 0 or '%'; an argument that is not there, or of another kind, is
    outside the model. *)
Fixpoint printf_loop (fmt : list Z) (state : bool) (args : list uarg) : outcome (list Z) :=
  match fmt with
  | [] => Ret []
  | c :: fmt =>
    let out (l : list Z) (args : list uarg) :=
      match printf_loop fmt false args with Ret r => Ret (l ++ r) | o => o end in
    if negb state then
      if c =? 37 then printf_loop fmt true args else out [c] args
    else if c =? 100 then
      match args with UInt x :: args => out (uprintint (s32 x) 10 true) args | _ => Fault "printf: argument" end
    else if (c =? 120) || (c =? 112) then
      match args with UInt x :: args => out (uprintint x 16 false) args | _ => Fault "printf: argument" end
    else if c =? 115 then
      match args with UStr s :: args => out (default unull s) args | _ => Fault "printf: argument" end
    else if c =? 99 then
      match args with UInt x :: args => out [u8 x] args | _ => Fault "printf: argument" end
    else if c =? 37 then out [c] args
    else out [37; c] args
  end.
Definition printf (fmt : list Z) (args : list uarg) : outcome (list Z) := printf_loop fmt false args.

(** ** Strings in memory *)

(** [buf] holds [l] from [p] on. *)
Definition has_at (buf : mem) (p : Z) (l : list Z) : Prop := forall i c, l !! i = Some c -> ld8 buf (p + Z.of_nat i) = c.

Lemma has_at_cons buf p c l : has_at buf p (c :: l) <-> ld8 buf p = c /\ has_at buf (p + 1) l.
Proof.
  split.
  - intros H. split; [rewrite <- (H 0%nat c eq_refl); f_equal; lia|]. intros i d Hi. rewrite <- (H (S i) d Hi). f_equal. lia.
  - intros [H1 H2] [|i] d Hi; [injection Hi as <-; rewrite <- H1; f_equal; lia|]. rewrite <- (H2 i d Hi). f_equal. lia.
Qed.
Lemma has_at_app buf p l l' : has_at buf p (l ++ l') <-> has_at buf p l /\ has_at buf (p + Z.of_nat (length l)) l'.
Proof.
  revert p. induction l as [|c l IH]; intros p; cbn [app length].
  - rewrite Z.add_0_r. split; [intros H; split; [by intros i c|done]|by intros [_ H]].
  - rewrite !has_at_cons, IH. replace (p + 1 + Z.of_nat (length l)) with (p + Z.of_nat (S (length l))) by lia. tauto.
Qed.
Lemma has_at_agree buf buf' p l : (forall a, p <= a < p + Z.of_nat (length l) -> ld8 buf' a = ld8 buf a) -> has_at buf p l -> has_at buf' p l.
Proof. intros E H i c Hi. apply lookup_lt_Some in Hi as Hl. rewrite E by lia. by apply H. Qed.

(** A string at address 0. *)
Definition string_mem (l : list Z) : mem := fun a => nth (Z.to_nat a) l 0.
Lemma string_mem_has l : Forall (fun c => 0 <= c < 256) l -> has_at (string_mem l) 0 (l ++ [0]).
Proof.
  intros Hl i c Hi. unfold ld8, string_mem. rewrite Z.add_0_l, Nat2Z.id. destruct (decide (i < length l)%nat) as [Hlt|Hge].
  - rewrite lookup_app_l in Hi by done. rewrite (nth_lookup_Some _ _ _ _ Hi). apply u8_small. rewrite Forall_forall in Hl. apply Hl. by eapply list_elem_of_lookup_2.
  - rewrite lookup_app_r in Hi by lia. rewrite nth_overflow by lia. by destruct (i - length l)%nat as [|[|?]]; [injection Hi as <-|..].
Qed.
