(* ===== verification/Grep.v ===== *)
(** * grep (grep.c)

    The matcher of Kernighan and Pike against a semantics of its patterns, and
    the loop that reads, splits and prints lines. *)

From Stdlib Require Import ZArith Lia String Bool Sorting.Sorted.
From stdpp Require Import base numbers list.
From S2P Require Import Prelude Params Mem Ulib.

(** A C string is the list of its bytes before the NUL, so that s[0] of the
    empty one is NUL. *)
Definition c_star : Z := 42.
Definition c_dot : Z := 46.
Definition c_caret : Z := 94.
Definition c_dollar : Z := 36.
Definition c_newline : Z := 10.

(** ** The matcher *)

Section star.
Context (matchhere : list Z -> bool).

(** The loop of matchstar, for what matchhere makes of the rest of the pattern. *)
Fixpoint matchstar_loop (c : Z) (text : list Z) : bool :=
  if matchhere text then true else
  match text with
  | [] => false
  | t :: text => if (t =? c) || (c =? c_dot) then matchstar_loop c text else false
  end.
End star.

Fixpoint matchhere (re text : list Z) : bool :=
  match re with
  | [] => true
  | c :: re1 =>
    match re1 with
    | d :: re2 =>
      if d =? c_star then matchstar_loop (matchhere re2) c text else
      match text with
      | t :: text => if (c =? c_dot) || (c =? t) then matchhere re1 text else false
      | [] => false
      end
    | [] =>
      if c =? c_dollar then match text with [] => true | _ => false end else
      match text with
      | t :: text => if (c =? c_dot) || (c =? t) then matchhere re1 text else false
      | [] => false
      end
    end
  end.
Definition matchstar (c : Z) (re text : list Z) : bool := matchstar_loop (matchhere re) c text.

(** The loop of match over the suffixes of the text. *)
Fixpoint match_loop (re text : list Z) : bool :=
  if matchhere re text then true else
  match text with
  | [] => false
  | _ :: text => match_loop re text
  end.
Definition match_re (re text : list Z) : bool :=
  match re with
  | c :: re1 => if c =? c_caret then matchhere re1 text else match_loop re text
  | [] => match_loop re text
  end.

(** ** What a pattern means *)

Inductive atom : Type := Any | Lit (c : Z).
Inductive item : Type := One (a : atom) | Star (a : atom).

Definition atom_of (c : Z) : atom := if c =? c_dot then Any else Lit c.

(** The items of a pattern, and whether it ends in $. *)
Fixpoint items (re : list Z) : list item * bool :=
  match re with
  | [] => ([], false)
  | c :: re1 =>
    match re1 with
    | d :: re2 => if d =? c_star then let (l, e) := items re2 in (Star (atom_of c) :: l, e) else let (l, e) := items re1 in (One (atom_of c) :: l, e)
    | [] => if c =? c_dollar then ([], true) else ([One (atom_of c)], false)
    end
  end.

Definition fits_atom (a : atom) (c : Z) : Prop := match a with Any => True | Lit d => c = d end.

(** The texts of a list of items. *)
Inductive lang : list item -> list Z -> Prop :=
| lang_nil : lang [] []
| lang_one a c l w : fits_atom a c -> lang l w -> lang (One a :: l) (c :: w)
| lang_star_done a l w : lang l w -> lang (Star a :: l) w
| lang_star_more a c l w : fits_atom a c -> lang (Star a :: l) w -> lang (Star a :: l) (c :: w).

(** The pattern matches a beginning of the text, the whole text if it ends in $. *)
Definition matches_at (re text : list Z) : Prop :=
  exists w rest, text = w ++ rest /\ lang (items re).1 w /\ ((items re).2 = true -> rest = []).
(** The pattern occurs in the text, at its beginning if it starts with ^. *)
Definition matches (re text : list Z) : Prop :=
  match re with
  | c :: re1 => if c =? c_caret then matches_at re1 text else exists pre rest, text = pre ++ rest /\ matches_at re rest
  | [] => exists pre rest, text = pre ++ rest /\ matches_at re rest
  end.

(** ** The matcher is right *)

Lemma fits_spec a c : fits_atom (atom_of a) c <-> ((a =? c_dot) || (a =? c)) = true.
Proof.
  unfold atom_of. rewrite orb_true_iff, !Z.eqb_eq. destruct (Z.eqb_spec a c_dot) as [->|]; cbn; [tauto|].
  split; [by intros ->; right|]. intros [|]; [done|congruence].
Qed.

(** A match of items at the beginning of a text. *)
Definition prefix_in (l : list item) (e : bool) (text : list Z) : Prop :=
  exists w rest, text = w ++ rest /\ lang l w /\ (e = true -> rest = []).

Lemma prefix_one a l e text : prefix_in (One a :: l) e text <-> exists c t, text = c :: t /\ fits_atom a c /\ prefix_in l e t.
Proof.
  split.
  - intros (w & rest & -> & Hl & He). inversion Hl as [|? c ? w' Hf Hl'| |]; subst. exists c, (w' ++ rest). split_and!; [done|done|]. by exists w', rest.
  - intros (c & t & -> & Hf & w & rest & -> & Hl & He). exists (c :: w), rest. split_and!; [done|by constructor|done].
Qed.

Lemma prefix_star a l e text :
  prefix_in (Star a :: l) e text <-> prefix_in l e text \/ exists c t, text = c :: t /\ fits_atom a c /\ prefix_in (Star a :: l) e t.
Proof.
  split.
  - intros (w & rest & -> & Hl & He). inversion Hl as [| |? ? ? Hl'|? c ? w' Hf Hl']; subst; [left; by exists w, rest|].
    right. exists c, (w' ++ rest). split_and!; [done|done|]. by exists w', rest.
  - intros [(w & rest & -> & Hl & He)|(c & t & -> & Hf & w & rest & -> & Hl & He)].
    + exists w, rest. split_and!; [done|by apply lang_star_done|done].
    + exists (c :: w), rest. split_and!; [done|by apply lang_star_more|done].
Qed.

Lemma prefix_nil e text : prefix_in [] e text <-> (e = true -> text = []).
Proof.
  split; [intros (w & rest & -> & Hl & He) E; inversion Hl; subst; by apply He|]. intros H. exists [], text. split_and!; [done|constructor|done].
Qed.

Lemma star_spec (m : list Z -> bool) l e c : (forall text, m text = true <-> prefix_in l e text) ->
  forall text, matchstar_loop m c text = true <-> prefix_in (Star (atom_of c) :: l) e text.
Proof.
  intros Hm. induction text as [|t text IH]; cbn [matchstar_loop]; rewrite prefix_star.
  - destruct (m []) eqn:E; [rewrite <- Hm, E; tauto|]. split; [done|]. intros [H%Hm|(? & ? & ? & _)]; congruence.
  - destruct (m (t :: text)) eqn:E; [rewrite <- Hm, E; tauto|].
    assert ((t =? c) || (c =? c_dot) = ((c =? c_dot) || (c =? t))) as -> by (rewrite orb_comm; f_equal; apply Z.eqb_sym).
    destruct ((c =? c_dot) || (c =? t)) eqn:Ef.
    + rewrite IH. split; [intros H; right; exists t, text; split_and!; [done|by apply fits_spec|done]|].
      intros [H%Hm|(? & ? & [= <- <-] & _ & H)]; [congruence|done].
    + split; [done|]. intros [H%Hm|(? & ? & [= <- <-] & Hf%fits_spec & H)]; congruence.
Qed.

Lemma one_spec c l e (m : list Z -> bool) text : (forall text, m text = true <-> prefix_in l e text) ->
  match text with t :: text => if (c =? c_dot) || (c =? t) then m text else false | [] => false end = true <-> prefix_in (One (atom_of c) :: l) e text.
Proof.
  intros Hm. rewrite prefix_one. destruct text as [|t text]; [split; [done|by intros (? & ? & ? & _)]|].
  destruct ((c =? c_dot) || (c =? t)) eqn:Ef.
  - rewrite Hm. split; [intros H; exists t, text; split_and!; [done|by apply fits_spec|done]|by intros (? & ? & [= <- <-] & _ & H)].
  - split; [done|]. intros (? & ? & [= <- <-] & Hf%fits_spec & H). congruence.
Qed.

Lemma matchhere_spec n : forall re text, (length re <= n)%nat -> matchhere re text = true <-> prefix_in (items re).1 (items re).2 text.
Proof.
  induction n as [|n IH]; intros [|c [|d re]] text Hn; cbn in Hn; try lia.
  - by rewrite prefix_nil.
  - by rewrite prefix_nil.
  - cbn [matchhere items]. destruct (Z.eqb_spec c c_dollar) as [->|].
    + rewrite prefix_nil. cbn. destruct text; split; try done. intros H. by discriminate H.
    + apply (one_spec c [] false (matchhere [])). intros t. by rewrite prefix_nil.
  - cbn [matchhere items]. destruct (Z.eqb_spec d c_star) as [->|].
    + specialize (IH re). destruct (items re) as [l e]. apply star_spec. intros t. apply IH. lia.
    + specialize (IH (d :: re)). cbn [items] in IH. destruct (match re with [] => _ | _ => _ end) as [l e].
      apply (one_spec c l e (matchhere (d :: re))). intros t. apply IH. cbn. lia.
Qed.

Lemma matchhere_iff re text : matchhere re text = true <-> matches_at re text.
Proof. exact (matchhere_spec (length re) re text ltac:(lia)). Qed.

Lemma match_loop_iff re text : match_loop re text = true <-> exists pre rest, text = pre ++ rest /\ matches_at re rest.
Proof.
  induction text as [|t text IH]; cbn [match_loop].
  - destruct (matchhere re []) eqn:E.
    + split; [intros _; exists [], []; split; [done|by apply matchhere_iff]|done].
    + split; [done|]. intros (pre & rest & H & Hm). symmetry in H. apply app_eq_nil in H as [-> ->]. apply matchhere_iff in Hm. congruence.
  - destruct (matchhere re (t :: text)) eqn:E.
    + split; [intros _; exists [], (t :: text); split; [done|by apply matchhere_iff]|done].
    + rewrite IH. split; [intros (pre & rest & -> & Hm); by exists (t :: pre), rest|].
      intros ([|p pre] & rest & H & Hm); cbn in H; [subst; apply matchhere_iff in Hm; congruence|]. injection H as -> ->. by exists pre, rest.
Qed.

(** C24 grep's matcher is right: match returns true exactly if the text
    contains, at its beginning if the pattern starts with ^ and at its end if
    it ends in $, a word of the pattern, where c stands for itself, . for any
    character and * for any number of repetitions of the character before it. *)
Theorem match_correct (re text : list Z) : match_re re text = true <-> matches re text.
Proof.
  destruct re as [|c re]; cbn [match_re matches]; [apply match_loop_iff|].
  destruct (c =? c_caret); [apply matchhere_iff|apply match_loop_iff].
Qed.

(** ** The loop over lines *)

Definition BUFSIZE : Z := 1024.

(** strchr on [buf]: the index of the first [c] from [p] on, or none; the scan
    has no bound of its own and may leave the buffer. *)
Fixpoint buf_chr (fuel : nat) (buf : mem) (p c : Z) : outcome (option Z) :=
  match fuel with
  | O => NoFuel
  | S fuel =>
    if (p <? 0) || (BUFSIZE <=? p) then Fault "grep: strchr past buf" else
    if ld8 buf p =? 0 then Ret None else if ld8 buf p =? c then Ret (Some p) else buf_chr fuel buf (p + 1) c
  end.

(** The bytes from [p] to [q]. *)
Definition slice (buf : mem) (p q : Z) : list Z := map (fun i => ld8 buf (p + i)) (seqZ 0 (q - p)).

(** The lines of the buffer from [p] on: the buffer it leaves, where it stops,
    and what it writes.  The text that match sees is the line, which ends at
    the NUL put in place of the newline. *)
Fixpoint grep_lines (fuel : nat) (pattern : list Z) (buf : mem) (p : Z) : outcome (mem * Z * list Z) :=
  match buf_chr (Z.to_nat (BUFSIZE + 1)) buf p c_newline with
  | Ret None => Ret (buf, p, [])
  | Ret (Some q) =>
    match fuel with
    | O => NoFuel
    | S fuel =>
      let buf := st8 buf q 0 in
      let hit := match_re pattern (slice buf p q) in
      let buf := if hit then st8 buf q c_newline else buf in
      match grep_lines fuel pattern buf (q + 1) with
      | Ret (buf', p', out) => Ret (buf', p', (if hit then slice buf p (q + 1) else []) ++ out)
      | o => o
      end
    end
  | Panic m => Panic m
  | Fault w => Fault w
  | Blocked => Blocked
  | NoFuel => NoFuel
  end.

(** [l] stored at [a]. *)
Definition put_list (m : mem) (a : Z) (l : list Z) : mem :=
  fun b => if (a <=? b) && (b <? a + Z.of_nat (length l)) then nth (Z.to_nat (b - a)) l 0 else m b.

(** [reads]: the bytes there are at each call of read, which takes at most what
    is free in the buffer and leaves the rest; the end of the list is the end of the
    file.  The result is the buffer, which the next call uses as it is, and what is
    written. *)
Fixpoint grep_loop (fuel : nat) (pattern : list Z) (reads : list (list Z)) (buf : mem) (m : Z) : outcome (mem * list Z) :=
  match fuel with
  | O => NoFuel
  | S fuel =>
    match reads with
    | [] => Ret (buf, [])
    | chunk :: reads =>
      if m <? 0 then Fault "grep: read before buf" else
      let got := take (Z.to_nat (BUFSIZE - m)) chunk in
      let rest := drop (Z.to_nat (BUFSIZE - m)) chunk in
      match got with
      | [] => Ret (buf, [])
      | _ =>
        let buf := put_list buf m got in
        let m := m + Z.of_nat (length got) in
        match grep_lines (Z.to_nat BUFSIZE) pattern buf 0 with
        | Ret (buf, p, out) =>
          let m := if p =? 0 then 0 else m in
          let (buf, m) := if 0 <? m then (umemmove buf 0 p (m - p), m - p) else (buf, m) in
          match grep_loop fuel pattern (match rest with [] => reads | _ => rest :: reads end) buf m with
          | Ret (buf, out') => Ret (buf, out ++ out')
          | o => o
          end
        | Panic m => Panic m
        | Fault w => Fault w
        | Blocked => Blocked
        | NoFuel => NoFuel
        end
      end
    end
  end.

Definition grep (fuel : nat) (pattern : list Z) (reads : list (list Z)) (buf : mem) : outcome (mem * list Z) := grep_loop fuel pattern reads buf 0.

(** The loop of main over its files: a name, and the reads of the file or nothing if
    it cannot be opened *)
Fixpoint grep_files (fuel : nat) (pattern : list Z) (files : list (list Z * option (list (list Z)))) (buf : mem) : outcome (list Z) :=
  match files with
  | [] => Ret []
  | (name, None) :: _ => printf (text_of "grep: cannot open %s" ++ [c_newline]) [UStr (Some name)]
  | (_, Some reads) :: files =>
    match grep fuel pattern reads buf with
    | Ret (buf, out) => match grep_files fuel pattern files buf with Ret out' => Ret (out ++ out') | o => o end
    | Panic m => Panic m
    | Fault w => Fault w
    | Blocked => Blocked
    | NoFuel => NoFuel
    end
  end.

(** main: what it writes to the descriptors 1 and 2.  [buf] is zero when the program
    starts. *)
Definition grep_main (fuel : nat) (argv : option (list Z)) (stdin : list (list Z)) (files : list (list Z * option (list (list Z)))) : outcome (list Z * list Z) :=
  match argv with
  | None => Ret ([], text_of "usage: grep pattern [file ...]" ++ [c_newline])
  | Some pattern =>
    match (match files with [] => grep_files fuel pattern [([], Some stdin)] (fun _ => 0) | _ => grep_files fuel pattern files (fun _ => 0) end) with
    | Ret out => Ret (out, [])
    | Panic m => Panic m
    | Fault w => Fault w
    | Blocked => Blocked
    | NoFuel => NoFuel
    end
  end.

(** ** What grep prints *)

(** The lines of a text that end in a newline, without it. *)
Fixpoint lines_from (cur text : list Z) : list (list Z) :=
  match text with
  | [] => []
  | c :: text => if c =? c_newline then cur :: lines_from [] text else lines_from (cur ++ [c]) text
  end.
Definition lines (text : list Z) : list (list Z) := lines_from [] text.
Definition printed (pattern : list Z) (ls : list (list Z)) : list Z := concat (map (fun l => l ++ [c_newline]) (List.filter (match_re pattern) ls)).

Definition is_text (l : list Z) : Prop := Forall (fun c => 0 < c < 256) l.

Lemma slice_has buf p l : has_at buf p l -> slice buf p (p + Z.of_nat (length l)) = l.
Proof.
  intros H. unfold slice. replace (p + Z.of_nat (length l) - p) with (Z.of_nat (length l)) by lia.
  apply list_eq. intros i. destruct (l !! i) as [c|] eqn:E.
  - apply lookup_lt_Some in E as Hl. rewrite list_lookup_fmap, lookup_seqZ_lt by lia. cbn. f_equal. by apply H.
  - apply lookup_ge_None in E. rewrite list_lookup_fmap, lookup_seqZ_ge by lia. done.
Qed.

Lemma chr_found buf c l : forall p fuel, has_at buf p (l ++ [c]) -> Forall (fun d => d <> 0 /\ d <> c) l -> c <> 0 -> 0 <= p ->
  p + Z.of_nat (length l) < BUFSIZE -> (length l < fuel)%nat -> buf_chr fuel buf p c = Ret (Some (p + Z.of_nat (length l))).
Proof.
  induction l as [|d l IH]; intros p fuel H Hl Hc Hp Hb Hf; cbn in Hb, Hf; (destruct fuel as [|fuel]; [lia|]); cbn [buf_chr];
    rewrite (proj2 (Z.ltb_ge p 0)), (proj2 (Z.leb_gt BUFSIZE p)) by lia; cbn [orb]; apply has_at_cons in H as [Ed H].
  - rewrite Ed, (proj2 (Z.eqb_neq c 0)), Z.eqb_refl by done. by rewrite Z.add_0_r.
  - apply Forall_cons in Hl as [[Hd0 Hdc] Hl]. rewrite Ed, (proj2 (Z.eqb_neq d 0)), (proj2 (Z.eqb_neq d c)) by done.
    rewrite IH by (done || lia). do 2 f_equal. cbn. lia.
Qed.

Lemma chr_none buf c l : forall p fuel, has_at buf p (l ++ [0]) -> Forall (fun d => d <> 0 /\ d <> c) l -> 0 <= p ->
  p + Z.of_nat (length l) < BUFSIZE -> (length l < fuel)%nat -> buf_chr fuel buf p c = Ret None.
Proof.
  induction l as [|d l IH]; intros p fuel H Hl Hp Hb Hf; cbn in Hb, Hf; (destruct fuel as [|fuel]; [lia|]); cbn [buf_chr];
    rewrite (proj2 (Z.ltb_ge p 0)), (proj2 (Z.leb_gt BUFSIZE p)) by lia; cbn [orb]; apply has_at_cons in H as [Ed H].
  - by rewrite Ed.
  - apply Forall_cons in Hl as [[Hd0 Hdc] Hl]. rewrite Ed, (proj2 (Z.eqb_neq d 0)), (proj2 (Z.eqb_neq d c)) by done.
    by apply IH; [| |lia..].
Qed.

Lemma lines_split l rest cur : c_newline ∉ l -> lines_from cur (l ++ c_newline :: rest) = (cur ++ l) :: lines rest.
Proof.
  revert cur. induction l as [|c l IH]; intros cur Hl; cbn [app lines_from]; [by rewrite app_nil_r|].
  apply not_elem_of_cons in Hl as [Hc Hl]. rewrite (proj2 (Z.eqb_neq c c_newline)) by done. rewrite IH by done. by rewrite <- app_assoc.
Qed.
Lemma lines_none l cur : c_newline ∉ l -> lines_from cur l = [].
Proof.
  revert cur. induction l as [|c l IH]; intros cur Hl; cbn [lines_from]; [done|].
  apply not_elem_of_cons in Hl as [Hc Hl]. rewrite (proj2 (Z.eqb_neq c c_newline)) by done. by apply IH.
Qed.

Lemma text_no_newline l : is_text l -> c_newline ∉ l -> Forall (fun d => d <> 0 /\ d <> c_newline) l.
Proof.
  intros H Hn. apply Forall_forall. intros d Hd. unfold is_text in H. rewrite Forall_forall in H. destruct (H d Hd). split; [lia|by intros ->].
Qed.

(** The lines of a text that is followed by a NUL. *)
Lemma grep_lines_spec pattern fuel : forall text buf p, is_text text -> has_at buf p (text ++ [0]) -> 0 <= p -> p + Z.of_nat (length text) < BUFSIZE ->
  (length text <= fuel)%nat -> exists buf' p', grep_lines fuel pattern buf p = Ret (buf', p', printed pattern (lines text)) /\
    p <= p' <= p + Z.of_nat (length text) /\ forall a, p + Z.of_nat (length text) <= a -> ld8 buf' a = ld8 buf a.
Proof.
  induction fuel as [|fuel IH]; intros text buf p Ht Hb Hp Hl Hf; (destruct (decide (c_newline ∈ text)) as [Hin|Hin];
    [apply list_elem_of_split_l in Hin as (l & rest & -> & Hnl)|
     exists buf, p; unfold lines; rewrite lines_none by done; cbn [grep_lines];
     rewrite (chr_none buf c_newline text) by (done || (try by apply text_no_newline) || (unfold BUFSIZE in *; lia)); split_and!; done || lia]).
  { rewrite length_app in Hf. cbn in Hf. lia. }
  unfold is_text in Ht. apply Forall_app in Ht as [Htl [_ Htr]%Forall_cons]. pose proof (text_no_newline l Htl Hnl) as Hl'.
  rewrite length_app in Hl, Hf |- *. cbn [length] in Hl, Hf |- *. rewrite <- app_assoc in Hb. apply has_at_app in Hb as [Hbl Hbr]. cbn [app] in Hbr. apply has_at_cons in Hbr as [Hq Hbr].
  set (q := p + Z.of_nat (length l)) in *.
  assert (buf_chr (Z.to_nat (BUFSIZE + 1)) buf p c_newline = Ret (Some q)) as Ec.
  { apply chr_found; try done; [|unfold BUFSIZE in *; lia|unfold BUFSIZE in *; lia]. apply has_at_app. split; [done|]. apply has_at_cons. split; [done|]. by intros i d. }
  assert (forall b, (forall a, a <> q -> ld8 b a = ld8 buf a) -> has_at b p l /\ has_at b (q + 1) (rest ++ [0])) as Hkeep.
  { intros b Hne. split; (eapply has_at_agree; [|eassumption]); intros a Ha; apply Hne; unfold q in *; lia. }
  cbn [grep_lines]. rewrite Ec. set (b0 := st8 buf q 0). destruct (Hkeep b0) as [H0 H0r]; [intros a Ha; unfold b0; by rewrite ld8_st8, (proj2 (Z.eqb_neq a q)) by done|].
  fold b0. fold q in Ec. change (slice b0 p q) with (slice b0 p (p + Z.of_nat (length l))). rewrite (slice_has b0 p l H0). unfold lines. rewrite lines_split by done. cbn [app]. unfold printed. cbn [List.filter].
  destruct (match_re pattern l).
  - set (b1 := st8 b0 q c_newline). destruct (Hkeep b1) as [H1 H1r].
    { intros a Ha. unfold b1, b0. by rewrite !ld8_st8, (proj2 (Z.eqb_neq a q)). }
    destruct (IH rest b1 (q + 1)) as (b' & p' & -> & Hp' & Ha'); [done|done|lia|lia|lia|]. exists b', p'. split_and!; [|lia|lia|].
    2:{ intros a Ha. rewrite Ha' by lia. unfold b1, b0. rewrite !ld8_st8, (proj2 (Z.eqb_neq a q)) by lia. done. }
    do 2 f_equal. cbn [map concat]. f_equal.
    assert (has_at b1 p (l ++ [c_newline])) as Hl1.
    { apply has_at_app. split; [done|]. apply has_at_cons. split; [|by intros i d]. unfold b1. by rewrite ld8_st8, Z.eqb_refl. }
    rewrite <- (slice_has b1 p _ Hl1). f_equal. rewrite length_app. cbn. lia.
  - destruct (IH rest b0 (q + 1)) as (b' & p' & -> & Hp' & Ha'); [done|done|lia|lia|lia|]. exists b', p'. split_and!; [done|lia|lia|].
    intros a Ha. rewrite Ha' by lia. unfold b0. by rewrite ld8_st8, (proj2 (Z.eqb_neq a q)) by lia.
Qed.

Lemma put_list_has buf text : is_text text -> has_at (put_list buf 0 text) 0 text.
Proof.
  intros Ht i c Hi. apply lookup_lt_Some in Hi as Hl. unfold ld8, put_list. rewrite (proj2 (Z.leb_le 0 _)), (proj2 (Z.ltb_lt _ _)) by lia. cbn [andb].
  replace (Z.to_nat (0 + Z.of_nat i - 0)) with i by lia. rewrite (nth_lookup_Some _ _ _ _ Hi). apply u8_small.
  unfold is_text in Ht. rewrite Forall_forall in Ht. pose proof (Ht c (list_elem_of_lookup_2 _ _ _ Hi)). lia.
Qed.
Lemma put_list_after buf text a : Z.of_nat (length text) <= a -> ld8 (put_list buf 0 text) a = ld8 buf a.
Proof. intros Ha. unfold ld8, put_list. rewrite (proj2 (Z.ltb_ge a _)) by lia. by rewrite andb_false_r. Qed.

(** The calls of read that return a text at once *)
Definition once (text : list Z) : list (list Z) := match text with [] => [] | _ => [text] end.

(** A text that is shorter than the buffer, over a buffer that is zero from its end
    on; the buffer stays so. *)
Lemma grep_once pattern text buf fuel : is_text text -> Z.of_nat (length text) < BUFSIZE -> (2 <= fuel)%nat ->
  (forall a, Z.of_nat (length text) <= a -> ld8 buf a = 0) ->
  exists buf', grep fuel pattern (once text) buf = Ret (buf', printed pattern (lines text)) /\ forall a, Z.of_nat (length text) <= a -> ld8 buf' a = 0.
Proof.
  intros Ht Hl Hf Hz. destruct fuel as [|[|fuel]]; [lia|lia|]. unfold grep. remember (S fuel) as f eqn:Ef. destruct (decide (text = [])) as [->|Hne]; [by exists buf|].
  assert (once text = [text]) as -> by by destruct text. cbn [grep_loop].
  change (0 <? 0) with false. cbv iota. rewrite Z.sub_0_r, take_ge, drop_ge by lia. assert (forall (X Y : outcome (mem * list Z)), match text with [] => X | _ => Y end = Y) as -> by by destruct text.
  destruct (grep_lines_spec pattern (Z.to_nat BUFSIZE) text (put_list buf 0 text) 0 Ht) as (b' & p' & -> & Hp' & Ha'); [|lia|lia|unfold BUFSIZE in *; lia|].
  { apply has_at_app. split; [by apply put_list_has|]. apply has_at_cons. split; [|by intros i d]. rewrite put_list_after by lia. apply Hz. lia. }
  assert (forall a, Z.of_nat (length text) <= a -> ld8 b' a = 0) as Hz' by (intros a Ha; rewrite Ha', put_list_after by lia; by apply Hz).
  subst f. rewrite !Z.add_0_l in *. destruct (Z.eqb_spec p' 0) as [Ep|Ep].
  - cbn [grep_loop]. change (0 <? 0) with false. cbv iota. exists b'. by rewrite app_nil_r.
  - rewrite (proj2 (Z.ltb_lt 0 _)) by lia. cbn [grep_loop]. eexists. rewrite app_nil_r. split; [reflexivity|]. intros a Ha. unfold umemmove.
    rewrite memmove_up_spec by lia. rewrite (proj2 (Z.ltb_ge a _)), andb_false_r by lia. by apply Hz'.
Qed.

Lemma grep_files_spec pattern fuel texts : forall buf, (2 <= fuel)%nat -> Forall (fun f => is_text (snd f) /\ Z.of_nat (length (snd f)) < BUFSIZE) texts ->
  StronglySorted (fun f g => length (snd f) <= length (snd g))%nat texts -> Forall (fun f => forall a, Z.of_nat (length (snd f)) <= a -> ld8 buf a = 0) texts ->
  grep_files fuel pattern (map (fun f => (fst f, Some (once (snd f)))) texts) buf = Ret (concat (map (fun f => printed pattern (lines (snd f))) texts)).
Proof.
  induction texts as [|f texts IH]; intros buf Hf Ht Hs Hz; [done|]. apply Forall_cons in Ht as [[Htf Hlf] Ht]. apply Forall_cons in Hz as [Hzf Hz].
  apply StronglySorted_inv in Hs as [Hs Hle]. destruct (grep_once pattern (snd f) buf fuel Htf Hlf Hf Hzf) as (buf' & E & Hz'). cbn [map grep_files]. rewrite E.
  rewrite IH; [done|done|done|done|]. eapply Forall_impl; [exact Hle|]. intros g Hg a Ha. cbn in Hg. apply Hz'. lia.
Qed.

(** C38 grep prints the matching lines.  For files of texts shorter than the buffer,
    each read at once and none shorter than one before it, main writes exactly the
    lines that the pattern matches, of each file in order and with their newlines,
    and nothing to descriptor 2; a last line without a newline is not printed.  With no
    file it does so for the standard input.  The order of the lengths matters, since the
    buffer is not cleared between files. *)
Theorem grep_prints (pattern : list Z) (stdin : list Z) (texts : list (list Z * list Z)) (fuel : nat) :
  (2 <= fuel)%nat -> is_text stdin -> Z.of_nat (length stdin) < BUFSIZE ->
  Forall (fun f => is_text (snd f) /\ Z.of_nat (length (snd f)) < BUFSIZE) texts ->
  StronglySorted (fun f g => length (snd f) <= length (snd g))%nat texts ->
  grep_main fuel (Some pattern) (once stdin) (map (fun f => (fst f, Some (once (snd f)))) texts) =
  Ret (match texts with [] => printed pattern (lines stdin) | _ => concat (map (fun f => printed pattern (lines (snd f))) texts) end, []).
Proof.
  intros Hf Hi Hl Ht Hs. unfold grep_main. destruct texts as [|f fs].
  - pose proof (grep_files_spec pattern fuel [([], stdin)] (fun _ => 0) Hf) as H. cbn [map concat fst snd] in *. rewrite H; [by rewrite app_nil_r|repeat constructor; done..].
  - cbn [map]. rewrite <- (map_cons (fun f => (fst f, Some (once (snd f)))) f fs).
    by rewrite (grep_files_spec pattern fuel (f :: fs) (fun _ => 0) Hf Ht Hs) by (by apply Forall_true).
Qed.

(** The files "a" and "b" with the texts a, newline, b and ba, newline, a, newline *)
Lemma grep_prints_witness : grep_main 2 (Some [97]) [] [([97], Some [[97; 10; 98]]); ([98], Some [[98; 97; 10; 97; 10]])] = Ret ([97; 10] ++ [98; 97; 10; 97; 10], []).
Proof.
  refine (grep_prints [97] [] [([97], [97; 10; 98]); ([98], [98; 97; 10; 97; 10])] 2 _ _ _ _ _).
  - lia.
  - constructor.
  - cbn. unfold BUFSIZE. lia.
  - repeat constructor; cbn; unfold BUFSIZE; lia.
  - repeat constructor; cbn; lia.
Defined.

(** The lines of a longer file that come after the text of the next one are printed again:
    "a1", "a2" and then "b", with the pattern a *)
Example grep_stale_file : grep_main 2 (Some [97]) [] [([49], Some [[97; 49; 10; 97; 50; 10]]); ([50], Some [[98; 10]])] = Ret ([97; 49; 10; 97; 50; 10] ++ [97; 50; 10], []).
Proof. reflexivity. Qed.

(** ** Inputs that fill the buffer *)

(** strchr over bytes that are neither NUL nor the character up to the end of
    the buffer goes on past it. *)
Lemma chr_overruns buf c l : forall p fuel, has_at buf p l -> Forall (fun d => d <> 0 /\ d <> c) l -> 0 <= p ->
  p + Z.of_nat (length l) = BUFSIZE -> (length l < fuel)%nat -> buf_chr fuel buf p c = Fault "grep: strchr past buf".
Proof.
  induction l as [|d l IH]; intros p fuel H Hl Hp Hb Hf; cbn in Hb, Hf; (destruct fuel as [|fuel]; [lia|]); cbn [buf_chr].
  - rewrite (proj2 (Z.leb_le BUFSIZE p)) by lia. by rewrite orb_true_r.
  - rewrite (proj2 (Z.ltb_ge p 0)), (proj2 (Z.leb_gt BUFSIZE p)) by lia. cbn [orb]. apply has_at_cons in H as [Ed H].
    apply Forall_cons in Hl as [[Hd0 Hdc] Hl]. rewrite Ed, (proj2 (Z.eqb_neq d 0)), (proj2 (Z.eqb_neq d c)) by done.
    by apply IH; [| |lia..].
Qed.

Lemma grep_lines_overruns pattern fuel : forall text buf p, is_text text -> has_at buf p text -> 0 <= p -> p + Z.of_nat (length text) = BUFSIZE ->
  (length text <= fuel)%nat -> grep_lines fuel pattern buf p = Fault "grep: strchr past buf".
Proof.
  induction fuel as [|fuel IH]; intros text buf p Ht Hb Hp Hl Hf; (destruct (decide (c_newline ∈ text)) as [Hin|Hin];
    [apply list_elem_of_split_l in Hin as (l & rest & -> & Hnl)|
     cbn [grep_lines]; rewrite (chr_overruns buf c_newline text) by (done || (try by apply text_no_newline) || (unfold BUFSIZE in *; lia)); done]).
  { rewrite length_app in Hf. cbn in Hf. lia. }
  unfold is_text in Ht. apply Forall_app in Ht as [Htl [_ Htr]%Forall_cons]. pose proof (text_no_newline l Htl Hnl) as Hl'.
  rewrite length_app in Hl, Hf. cbn [length] in Hl, Hf. apply has_at_app in Hb as [Hbl Hbr]. apply has_at_cons in Hbr as [Hq Hbr].
  set (q := p + Z.of_nat (length l)) in *.
  assert (buf_chr (Z.to_nat (BUFSIZE + 1)) buf p c_newline = Ret (Some q)) as Ec.
  { apply chr_found; try done; [|unfold BUFSIZE in *; lia|unfold BUFSIZE in *; lia]. apply has_at_app. split; [done|]. apply has_at_cons. split; [done|]. by intros i d. }
  cbn [grep_lines]. rewrite Ec. rewrite (IH rest); [done|done| |lia|lia|lia].
  eapply has_at_agree; [|exact Hbr]. intros a Ha. destruct (match_re _ _); rewrite !ld8_st8, !(proj2 (Z.eqb_neq a q)) by lia; done.
Qed.

(** grep has no NUL after the bytes it reads: an input whose first 1024
    bytes hold no NUL, however they are divided into lines, makes strchr run
    past the end of the buffer. *)
Theorem grep_overruns (pattern text : list Z) (more : list (list Z)) (fuel : nat) :
  is_text text -> BUFSIZE <= Z.of_nat (length text) ->
  grep (S fuel) pattern (text :: more) (fun _ => 0) = Fault "grep: strchr past buf".
Proof.
  intros Ht Hl. unfold grep. cbn [grep_loop]. change (0 <? 0) with false. cbv iota. rewrite Z.sub_0_r.
  set (got := take (Z.to_nat BUFSIZE) text). assert (length got = Z.to_nat BUFSIZE) as Eg by (unfold got; rewrite length_take; unfold BUFSIZE in *; lia).
  assert (is_text got) as Hg by (by apply Forall_take).
  destruct got as [|c g] eqn:E; [by cbn in Eg; unfold BUFSIZE in Eg; lia|]. rewrite <- E in *.
  rewrite (grep_lines_overruns pattern (Z.to_nat BUFSIZE) got); [done|done| |lia|unfold BUFSIZE in *; lia|unfold BUFSIZE in *; lia].
  by apply put_list_has.
Qed.

Lemma grep_overruns_witness : grep 1 [97] [replicate (Z.to_nat 1024) 98] (fun _ => 0) = Fault "grep: strchr past buf".
Proof. apply (grep_overruns [97] (replicate (Z.to_nat 1024) 98) [] 0); [by apply Forall_replicate|rewrite length_replicate; unfold BUFSIZE; lia]. Defined.

(** A second read that is shorter than what the first one left behind: the
    line [cd] is written twice, the second time from bytes that memmove did not
    clear, and the next read starts before the buffer. *)
Example grep_stale_line :
  grep_main 3 (Some []) [[97; 98; 10; 99; 100; 10; 120]; [121; 10]] [] = Ret ([97; 98; 10; 99; 100; 10] ++ [120; 121; 10] ++ [99; 100; 10], []) /\
  grep_main 3 (Some []) [[97; 98; 10; 99; 100; 10; 120]; [121; 10]; [97]] [] = Fault "grep: read before buf".
Proof. split; reflexivity. Qed.
