(* ===== verification/Digits.v ===== *)
(** * Printing numbers

    printint of the kernel (console.c) and of the user library (printf.c):
    the digits fit the buffer of 16 bytes and are those of the number, and
    atoi (ulib.c) reads them back. *)

From Stdlib Require Import ZArith Lia String Bool.
From stdpp Require Import base numbers list.
From S2P Require Import Prelude Params Mem Console Ulib.

(** The values of the digits both loops print, the last one first. *)
Fixpoint digit_vals (fuel : nat) (x base : Z) : list Z :=
  match fuel with
  | O => []
  | S fuel => x mod base :: (if x / base =? 0 then [] else digit_vals fuel (x / base) base)
  end.

Lemma digit_loop_vals fuel : forall x base, digit_loop fuel x base = map digits (digit_vals fuel x base).
Proof. induction fuel as [|f IH]; intros x base; cbn; [done|]. f_equal. destruct (_ =? 0); [done|apply IH]. Qed.
Lemma udigit_loop_vals fuel : forall x base, udigit_loop fuel x base = map udigits (digit_vals fuel x base).
Proof. induction fuel as [|f IH]; intros x base; cbn; [done|]. f_equal. destruct (_ =? 0); [done|apply IH]. Qed.

(** [l] without the digits the number [x] does not need. *)
Lemma digit_vals_length base fuel : forall x k, 2 <= base -> 0 <= x < base ^ Z.of_nat k -> (1 <= k)%nat ->
  (length (digit_vals fuel x base) <= k)%nat.
Proof.
  induction fuel as [|f IH]; intros x k Hb Hx Hk; cbn; [lia|]. destruct (Z.eqb_spec (x / base) 0) as [|Hd]; [cbn; lia|].
  destruct k as [|[|k]]; [lia| |].
  - rewrite Z.pow_1_r in Hx. rewrite Z.div_small in Hd by lia. done.
  - specialize (IH (x / base) (S k) Hb). apply le_n_S, IH; [|lia]. split; [apply Z.div_pos; lia|].
    apply Z.div_lt_upper_bound; [lia|]. rewrite <- Z.pow_succ_r by lia. replace (Z.succ (Z.of_nat (S k))) with (Z.of_nat (S (S k))) by lia. lia.
Qed.

(** The number a list of digits stands for, the last digit first. *)
Fixpoint value (base : Z) (l : list Z) : Z := match l with [] => 0 | d :: l => d + base * value base l end.

Lemma digit_vals_value base fuel : forall x, 2 <= base -> 0 <= x < base ^ Z.of_nat fuel -> value base (digit_vals fuel x base) = x.
Proof.
  induction fuel as [|f IH]; intros x Hb Hx; cbn [digit_vals value]; [change (Z.of_nat 0) with 0 in Hx; rewrite Z.pow_0_r in Hx; lia|].
  pose proof (Z.div_mod x base ltac:(lia)) as D. destruct (Z.eqb_spec (x / base) 0) as [Hd|Hd]; cbn [value]; [rewrite Hd in D; lia|].
  rewrite IH; [lia|lia|]. split; [apply Z.div_pos; lia|]. apply Z.div_lt_upper_bound; [lia|].
  rewrite <- Z.pow_succ_r by lia. replace (Z.succ (Z.of_nat f)) with (Z.of_nat (S f)) by lia. lia.
Qed.

Lemma digit_vals_range base fuel : forall x, 0 < base -> Forall (fun d => 0 <= d < base) (digit_vals fuel x base).
Proof.
  induction fuel as [|f IH]; intros x Hb; cbn; constructor; [by apply Z.mod_pos_bound|]. destruct (_ =? 0); [constructor|by apply IH].
Qed.

(** The value a digit's character has in base 16 or below. *)
Definition digit_of (c : Z) : Z :=
  if (48 <=? c) && (c <=? 57) then c - 48 else if (97 <=? c) && (c <=? 102) then c - 87 else c - 55.

Lemma digit_of_digits d : 0 <= d < 16 -> digit_of (digits d) = d.
Proof.
  intros H. unfold digit_of, digits. destruct (Z.ltb_spec d 10).
  - rewrite (proj2 (Z.leb_le 48 _)), (proj2 (Z.leb_le _ 57)) by lia. cbn. lia.
  - rewrite (proj2 (Z.leb_gt _ 57)), andb_false_r, (proj2 (Z.leb_le 97 _)), (proj2 (Z.leb_le _ 102)) by lia. cbn. lia.
Qed.
Lemma digit_of_udigits d : 0 <= d < 16 -> digit_of (udigits d) = d.
Proof.
  intros H. unfold digit_of, udigits. destruct (Z.ltb_spec d 10).
  - rewrite (proj2 (Z.leb_le 48 _)), (proj2 (Z.leb_le _ 57)) by lia. cbn. lia.
  - rewrite (proj2 (Z.leb_gt _ 57)), andb_false_r, (proj2 (Z.leb_gt 97 _)) by lia. cbn. lia.
Qed.

Lemma map_digit_of f l : (forall d, 0 <= d < 16 -> digit_of (f d) = d) -> Forall (fun d => 0 <= d < 16) l -> map digit_of (map f l) = l.
Proof. intros Hf Hl. induction Hl as [|d l Hd _ IH]; cbn; [done|]. by rewrite Hf, IH by done. Qed.

(** What a text of digits with an optional sign in front says. *)
Definition read_number (base : Z) (l : list Z) : Z :=
  match l with
  | 45 :: l => - value base (map digit_of (reverse l))
  | _ => value base (map digit_of (reverse l))
  end.

Section text.
Context (f : Z -> Z) (Hf : forall d, 0 <= d < 16 -> digit_of (f d) = d) (Hs : forall d, 0 <= d -> f d <> 45).

(** The text of the digits of [x], a sign in front if it is to be negative. *)
Lemma text_value x base (neg : bool) : 2 <= base <= 16 -> 0 <= x < 0x100000000 ->
  read_number base (reverse (map f (digit_vals 32 x base) ++ (if neg then [45] else []))) = if neg then - x else x.
Proof.
  intros Hb Hx. pose proof (digit_vals_range base 32 x ltac:(lia)) as Hr.
  assert (map digit_of (map f (digit_vals 32 x base)) = digit_vals 32 x base) as E.
  { apply map_digit_of; [done|]. eapply Forall_impl; [exact Hr|]. intros d Hd. cbn in Hd. lia. }
  assert (value base (digit_vals 32 x base) = x) as V.
  { apply digit_vals_value; [lia|]. split; [lia|]. apply Z.lt_le_trans with (2 ^ Z.of_nat 32); [change (2 ^ Z.of_nat 32) with 0x100000000; lia|]. apply Z.pow_le_mono_l. lia. }
  assert (forall l, Forall (fun c => c <> 45) l -> read_number base l = value base (map digit_of (reverse l))) as Hplain.
  { intros [|c l] H; [done|]. apply Forall_cons in H as [Hc _]. unfold read_number.
    destruct c as [|p|p]; try done. do 6 (destruct p as [p|p|]; try done). }
  rewrite reverse_app. destruct neg; cbn [reverse rev_append app].
  - change (reverse [45]) with [45]. cbn [app read_number]. by rewrite reverse_involutive, E, V.
  - rewrite Hplain; [by rewrite reverse_involutive, E, V|]. apply Forall_reverse, Forall_map. eapply Forall_impl; [exact Hr|].
    intros d Hd. cbn in Hd. apply Hs. lia.
Qed.

Lemma text_length x base (neg : bool) : base = 10 \/ base = 16 -> 0 <= x < 0x100000000 ->
  (length (map f (digit_vals 32 x base) ++ (if neg then [45%Z] else [])) <= 11)%nat.
Proof.
  intros Hb Hx. rewrite length_app, length_map.
  assert (length (digit_vals 32 x base) <= 10)%nat as H.
  { destruct Hb as [-> | ->].
    - apply digit_vals_length; [lia|change (10 ^ Z.of_nat 10) with 10000000000; lia|lia].
    - transitivity 8%nat; [|lia]. apply digit_vals_length; [lia|change (16 ^ Z.of_nat 8) with 4294967296; lia|lia]. }
  destruct neg; cbn [length]; lia.
Qed.
End text.

Lemma digits_sign d : 0 <= d -> digits d <> 45.
Proof. unfold digits. destruct (d <? 10); lia. Qed.
Lemma udigits_sign d : 0 <= d -> udigits d <> 45.
Proof. unfold udigits. destruct (d <? 10); lia. Qed.

(** The number printint is to print: an int, or the same bits unsigned. *)
Definition printed_value (xx : Z) (sign : bool) : Z := if sign then xx else u32 xx.

Lemma printint_arg xx (sign : bool) : - 0x80000000 <= xx < 0x80000000 ->
  let neg := sign && (xx <? 0) in let x := if neg then u32 (- xx) else u32 xx in
  0 <= x < 0x100000000 /\ (if neg then - x else x) = printed_value xx sign.
Proof.
  intros Hx. cbn. unfold printed_value. destruct sign; cbn; [|split; [apply u32_range|done]].
  destruct (Z.ltb_spec xx 0); (split; [apply u32_range|]); rewrite u32_small; lia.
Qed.

(** C31 printint of the kernel and printint of the user library: for every int,
    in base 10 or 16, signed or not, the text fits the buffer of 16 bytes, and
    read as a number it is the int (or the int as an unsigned word). *)
Theorem printint_correct (xx base : Z) (sign : bool) :
  - 0x80000000 <= xx < 0x80000000 -> base = 10 \/ base = 16 ->
  (length (printint_buf xx base sign) <= 16)%nat /\ (length (uprintint_buf xx base sign) <= 16)%nat /\
  read_number base (reverse (printint_buf xx base sign)) = printed_value xx sign /\
  read_number base (uprintint xx base sign) = printed_value xx sign.
Proof.
  intros Hx Hb. unfold uprintint, printint_buf, uprintint_buf. destruct (printint_arg xx sign Hx) as [Hr Hv]. cbn zeta in Hr, Hv.
  rewrite digit_loop_vals, udigit_loop_vals. rewrite <- Hv. split_and!.
  - etransitivity; [by apply text_length|lia].
  - etransitivity; [by apply text_length|lia].
  - apply text_value; [apply digit_of_digits|apply digits_sign|lia|done].
  - apply text_value; [apply digit_of_udigits|apply udigits_sign|lia|done].
Qed.

Lemma printint_correct_witness :
  (length (printint_buf (-0x80000000) 10 true) <= 16)%nat /\ read_number 10 (uprintint (-0x80000000) 10 true) = -0x80000000.
Proof. destruct (printint_correct (-0x80000000) 10 true) as (H1 & _ & _ & H2); [lia|by left|]. by split. Defined.

(** ** atoi *)

Definition dec (l : list Z) : Z := fold_left (fun n d => n * 10 + d) l 0.

Lemma dec_snoc l d : dec (l ++ [d]) = dec l * 10 + d.
Proof. unfold dec. by rewrite fold_left_app. Qed.
Lemma dec_value l : dec (reverse l) = value 10 l.
Proof. induction l as [|d l IH]; [done|]. rewrite reverse_cons, dec_snoc, IH. cbn. lia. Qed.

Lemma dec_from_ge l : forall n, 0 <= n -> Forall (fun d => 0 <= d < 10) l -> n <= fold_left (fun n d => n * 10 + d) l n.
Proof.
  induction l as [|d l IH]; intros n Hn Hl; cbn; [lia|]. apply Forall_cons in Hl as [Hd Hl]. specialize (IH (n * 10 + d) ltac:(lia) Hl). lia.
Qed.

(** A character that ends a number. *)
Definition ends_number (l : list Z) : Prop := match l with [] => True | c :: _ => ~ (48 <= c <= 57) end.

Lemma atoi_digits rest l : ends_number rest -> forall n, 0 <= n -> Forall (fun d => 0 <= d < 10) l ->
  fold_left (fun n d => n * 10 + d) l n < 0x80000000 -> atoi (map udigits l ++ rest) n = fold_left (fun n d => n * 10 + d) l n.
Proof.
  intros Hrest. induction l as [|d l IH]; intros n Hn Hl Hb; cbn [map app fold_left atoi] in *.
  - destruct rest as [|c rest]; [done|]. cbn in *. destruct (Z.leb_spec 48 c), (Z.leb_spec c 57); cbn; try done. lia.
  - apply Forall_cons in Hl as [Hd Hl]. unfold udigits at 1 2. rewrite (proj2 (Z.ltb_lt d 10)) by lia.
    rewrite (proj2 (Z.leb_le 48 _)), (proj2 (Z.leb_le _ 57)) by lia. cbn [andb].
    pose proof (dec_from_ge l (n * 10 + d) ltac:(lia) Hl) as Hge.
    assert (s32 (n * 10 + udigits d - 48) = n * 10 + d) as ->; [|by apply IH; [lia|..]].
    unfold udigits. rewrite (proj2 (Z.ltb_lt d 10)) by lia. replace (n * 10 + (48 + d) - 48) with (n * 10 + d) by lia.
    unfold s32. rewrite u32_small by lia. by rewrite (proj2 (Z.ltb_lt _ _)) by lia.
Qed.

(** atoi reads back what printf prints: the text of a non-negative int in
    decimal, with whatever follows that is not a digit, gives the int. *)
Theorem printf_atoi (x : Z) (rest : list Z) :
  0 <= x < 0x80000000 -> ends_number rest -> atoi (uprintint x 10 true ++ rest) 0 = x.
Proof.
  intros Hx Hr. unfold uprintint, uprintint_buf. rewrite (proj2 (Z.ltb_ge x 0)) by lia. cbn [andb]. rewrite app_nil_r, u32_small by lia.
  rewrite udigit_loop_vals. change (reverse (map udigits ?l)) with (reverse (udigits <$> l)). rewrite <- fmap_reverse.
  assert (value 10 (digit_vals 32 x 10) = x) as V.
  { apply digit_vals_value; [lia|]. change (10 ^ Z.of_nat 32) with 100000000000000000000000000000000. lia. }
  change (udigits <$> ?l) with (map udigits l). rewrite atoi_digits; [| |lia| |]; try done.
  - change (dec (reverse (digit_vals 32 x 10)) = x). by rewrite dec_value.
  - apply Forall_reverse. by apply digit_vals_range.
  - change (dec (reverse (digit_vals 32 x 10)) < 0x80000000). rewrite dec_value, V. lia.
Qed.

Lemma printf_atoi_witness : atoi (uprintint 2147483647 10 true ++ [32; 49]) 0 = 2147483647.
Proof. apply (printf_atoi 2147483647 [32; 49]); [lia|cbn; lia]. Defined.
