(* ===== verification/ConsoleSpec.v ===== *)
(** * The console: the screen and the line discipline

    The screen: whatever is printed, the cursor stays on the 24 lines and only
    their cells change.  Input: the ring with its three indices is a queue of
    bytes that are ready for readers and a line that is being edited, and
    consoleintr and consoleread are functions on these two. *)

From Stdlib Require Import ZArith Lia String Bool.
From stdpp Require Import base numbers sets list.
From S2P Require Import Prelude Params Mem Spinlock FsState Bio Log FsRun Inode Console Ulib Digits.

(** ** The screen *)

(** Rows 0 to 23; the cells of row 24 are in the memory of the screen too. *)
Definition CELLS : Z := 24 * 80.

Record screen_ok (c : console) : Prop := {
  sc_hi : 0 <= crt_hi c < 256;
  sc_lo : 0 <= crt_lo c < 256;
  sc_pos : cursor c < CELLS
}.

(** Everything but the screen and the serial line. *)
Record out_only (c c' : console) : Prop := {
  oo_uart : uart c' = uart c;
  oo_panicked : panicked c' = panicked c;
  oo_locking : locking c' = locking c;
  oo_buf : in_buf c' = in_buf c;
  oo_r : in_r c' = in_r c;
  oo_w : in_w c' = in_w c;
  oo_e : in_e c' = in_e c;
  oo_cells : forall i, ~ (0 <= i < CELLS) -> crt c' i = crt c i
}.

#[export] Instance out_only_pre : PreOrder out_only.
Proof.
  split; [by intros c|]. intros c1 c2 c3 [] []. split; try congruence. intros i Hi. rewrite oo_cells1, oo_cells0 by done. done.
Qed.

Definition console_ok (c : console) : Prop := panicked c = 0 /\ screen_ok c.

Lemma cursor_bytes hi lo : 0 <= lo < 256 -> Z.lor (Z.shiftl hi 8) lo = hi * 256 + lo.
Proof.
  intros Hl. rewrite Z.shiftl_mul_pow2 by lia. change (2 ^ 8) with 256. symmetry. apply Z.add_nocarry_lor.
  apply Z.bits_inj'. intros n Hn. rewrite Z.land_spec, Z.bits_0. change 256 with (2 ^ 8).
  destruct (Z.lt_ge_cases n 8) as [H|H]; [by rewrite Z.mul_pow2_bits_low by lia|].
  rewrite (Z.bits_above_log2 lo n), andb_false_r; [done|lia|].
  destruct (Z.eq_dec lo 0) as [->|]; [cbn; lia|]. apply Z.log2_lt_pow2; [lia|]. apply Z.lt_le_trans with (2 ^ 8); [lia|]. apply Z.pow_le_mono_r; lia.
Qed.

Lemma cursor_range c : screen_ok c -> 0 <= cursor c < CELLS.
Proof. intros [Hh Hl Hp]. split; [|done]. unfold cursor. rewrite cursor_bytes by done. lia. Qed.

(** What cgaputc leaves: cells and cursor. *)
Definition cga_after (c : Z) (m : Z -> Z) (pos : Z) : (Z -> Z) * Z :=
  let (m, pos) := cga_char c m pos in
  let (m, pos) := if 24 <=? pos / 80 then (blank (scroll m) (pos - 80), pos - 80) else (m, pos) in
  (upd m pos (Z.lor 32 0x0700), pos).

Lemma cga_char_pos c m pos : 0 <= pos < CELLS -> 0 <= snd (cga_char c m pos) <= CELLS.
Proof.
  intros Hp. unfold cga_char, CELLS in *. destruct (c =? 10); cbn [snd]; [mlia|]. destruct (c =? BACKSPACE); cbn [snd]; [destruct (0 <? pos) eqn:E; lia|lia].
Qed.
Lemma cga_char_cells c m pos i : 0 <= pos < CELLS -> ~ (0 <= i < CELLS) -> fst (cga_char c m pos) i = m i.
Proof.
  intros Hp Hi. unfold cga_char. destruct (c =? 10); [done|]. destruct (c =? BACKSPACE); [done|]. cbn [fst]. unfold upd. destruct (Z.eqb_spec i pos); [lia|done].
Qed.

Lemma cga_after_pos c m pos : 0 <= pos < CELLS -> 0 <= snd (cga_after c m pos) < CELLS.
Proof.
  intros Hp. pose proof (cga_char_pos c m pos Hp) as H. unfold cga_after. destruct (cga_char c m pos) as [m1 p1]. cbn [snd] in H.
  unfold CELLS in *. destruct (Z.leb_spec 24 (p1 / 80)) as [E|E]; cbn [snd]; mlia.
Qed.
Lemma cga_after_cells c m pos i : 0 <= pos < CELLS -> ~ (0 <= i < CELLS) -> fst (cga_after c m pos) i = m i.
Proof.
  intros Hp Hi. pose proof (cga_char_cells c m pos i Hp Hi) as H. pose proof (cga_after_pos c m pos Hp) as Hp'. unfold cga_after in *.
  destruct (cga_char c m pos) as [m1 p1]. cbn [fst] in H. destruct (24 <=? p1 / 80) eqn:E; cbn [fst snd] in *.
  - unfold upd, blank, scroll. destruct (Z.eqb_spec i (p1 - 80)); [lia|]. unfold CELLS in *.
    destruct (Z.leb_spec (p1 - 80) i), (Z.ltb_spec i (24 * 80)), (Z.leb_spec 0 i), (Z.ltb_spec i (23 * 80)); cbn [andb]; lia || done.
  - unfold upd. destruct (Z.eqb_spec i p1); [lia|done].
Qed.

Section code.
Context {St : Type} {K : Kernel St} {KS : KernelSpec St}.

(** The console after [cgaputc c]. *)
Definition cga (c : Z) (s : console) : console :=
  let (m, pos) := cga_after c (crt s) (cursor s) in
  c_with_crt m (c_with_lo (u8 pos) (c_with_hi (u8 (Z.shiftr pos 8)) s)).

Lemma cgaputc_runs H c x : screen_ok (cons x) -> runs H (cgaputc c) x tt (set_cons (cga c (cons x)) x) H.
Proof.
  intros Hs. pose proof (cursor_range _ Hs) as Hp. pose proof (cga_char_pos c (crt (cons x)) _ Hp) as Hp1. unfold cgaputc, cget, cset, cga, cga_after.
  do 2 rstep. destruct (cga_char c (crt (cons x)) (cursor (cons x))) as [m1 p1]. cbn [snd] in Hp1. unfold CELLS in Hp1.
  destruct (Z.leb_spec 24 (p1 / 80)) as [E|E].
  - rewrite (proj2 (Z.ltb_ge (24 * 80) (p1 - 80))) by lia. do 3 rstep. rlast.
  - do 3 rstep. rlast.
Qed.

Lemma cga_ok c s : screen_ok s -> screen_ok (cga c s) /\ out_only s (cga c s).
Proof.
  intros Hs. pose proof (cursor_range _ Hs) as Hp. pose proof (cga_after_pos c (crt s) _ Hp) as Hp'.
  pose proof (fun i => cga_after_cells c (crt s) _ i Hp) as Hc. unfold cga. destruct (cga_after c (crt s) (cursor s)) as [m p]. cbn [fst snd] in *.
  unfold CELLS in Hp'. split.
  - split; cbn; [apply u8_range|apply u8_range|]. unfold cursor. cbn. rewrite cursor_bytes by apply u8_range.
    rewrite Z.shiftr_div_pow2 by lia. change (2 ^ 8) with 256. unfold u8, CELLS. mlia.
  - by split.
Qed.

(** The bytes a character is on the serial line. *)
Definition on_line (c : Z) : list Z := if c =? BACKSPACE then [8; 32; 8] else [u8 c].
Definition sent (out : list Z) : list Z := concat (map on_line out).

Lemma sent_app l l' : sent (l ++ l') = sent l ++ sent l'.
Proof. unfold sent. by rewrite map_app, concat_app. Qed.

(** Code that prints the characters [out]: nothing but the screen and the
    serial line changes. *)
Definition prints (H : list fslock) (code : M St unit) (out : list Z) : Prop :=
  forall x, console_ok (cons x) -> exists c, runs H code x tt (set_cons c x) H /\ out_only (cons x) c /\ console_ok c /\
    serial c = (if uart (cons x) =? 0 then [] else reverse (sent out)) ++ serial (cons x).

Lemma prints_ret H : prints H (ret tt) [].
Proof. intros x Hx. exists (cons x). split_and!; [|reflexivity|done|by destruct (_ =? 0)]. destruct x. apply runs_ret. Qed.
Lemma prints_bind H c1 c2 out1 out2 : prints H c1 out1 -> prints H c2 out2 -> prints H (c1 ;; c2) (out1 ++ out2).
Proof.
  intros H1 H2 x Hx. destruct (H1 x Hx) as (c & R1 & O1 & K1 & S1). destruct (H2 (set_cons c x) K1) as (c' & R2 & O2 & K2 & S2).
  exists c'. split_and!; [eapply runs_bind; [exact R1|exact R2]|by etransitivity|done|].
  cbn [cons set_cons] in S2. rewrite S2, S1, (oo_uart _ _ O1). destruct (_ =? 0); [done|]. by rewrite sent_app, reverse_app, app_assoc.
Qed.

(** One byte to the serial line. *)
Lemma uartputc_runs H c x : console_ok (cons x) -> exists c', runs H (uartputc c) x tt (set_cons c' x) H /\ out_only (cons x) c' /\ console_ok c' /\
  crt c' = crt (cons x) /\ serial c' = (if uart (cons x) =? 0 then [] else [u8 c]) ++ serial (cons x).
Proof.
  intros [Hp Hs]. unfold uartputc, cget, cset. destruct (uart (cons x) =? 0) eqn:E.
  - exists (cons x). split_and!; [|reflexivity|done..]. rstep. rewrite E. destruct x. apply runs_ret.
  - exists (c_with_serial (u8 c :: serial (cons x)) (cons x)). split_and!; [rstep; rewrite E; rlast|by split|split; [done|]|done|done]. destruct Hs. by split.
Qed.
Lemma prints_consputc H c : prints H (consputc c) [c].
Proof.
  assert (forall x, console_ok (cons x) -> exists c', runs H (if c =? BACKSPACE then uartputc 8 ;; uartputc 32 ;; uartputc 8 else uartputc c) x tt (set_cons c' x) H /\
    out_only (cons x) c' /\ console_ok c' /\ serial c' = (if uart (cons x) =? 0 then [] else reverse (sent [c])) ++ serial (cons x)) as Hu.
  { intros x Hx. unfold sent. cbn [map concat]. rewrite app_nil_r. unfold on_line. destruct (c =? BACKSPACE).
    - destruct (uartputc_runs H 8 x Hx) as (c1 & R1 & O1 & K1 & _ & S1). destruct (uartputc_runs H 32 (set_cons c1 x) K1) as (c2 & R2 & O2 & K2 & _ & S2).
      destruct (uartputc_runs H 8 (set_cons c2 (set_cons c1 x)) K2) as (c3 & R3 & O3 & K3 & _ & S3). cbn [cons set_cons] in *.
      exists c3. split_and!; [eapply runs_bind; [exact R1|]; eapply runs_bind; [exact R2|exact R3]|by do 2 (etransitivity; [eassumption|])|done|].
      rewrite S3, S2, S1, (oo_uart _ _ O2), (oo_uart _ _ O1). by destruct (_ =? 0).
    - destruct (uartputc_runs H c x Hx) as (c1 & R1 & O1 & K1 & _ & S1). by exists c1. }
  intros x Hx. destruct (Hu x Hx) as (c1 & R1 & O1 & [P1 K1] & S1). destruct (cga_ok c _ K1) as [K2 O2].
  exists (cga c c1). split_and!; [|by etransitivity|split; [by rewrite (oo_panicked _ _ O2)|done]|].
  - unfold consputc, cget. rstep. rewrite (proj1 Hx). eapply runs_bind; [exact R1|]. exact (cgaputc_runs H c (set_cons c1 x) K1).
  - rewrite <- S1. unfold cga. by destruct (cga_after _ _ _).
Qed.
Lemma prints_consputs H l : prints H (consputs l) l.
Proof. induction l as [|c l IH]; cbn [consputs]; [apply prints_ret|]. apply (prints_bind H _ _ [c] l); [apply prints_consputc|done]. Qed.

(** ** cprintf *)

Definition to_uarg (a : carg) : uarg := match a with AInt x => UInt x | AStr s => UStr s end.

(** The text of a number, with the digits [f] *)
Definition number (f : Z -> Z) (xx base : Z) (sign : bool) : list Z :=
  let neg := sign && (xx <? 0) in
  reverse (map f (digit_vals 32 (if neg then u32 (- xx) else u32 xx) base) ++ (if neg then [45] else [])).

(** The text of a format with the digits [f]: %d is a number in decimal, %x and %p
    in hexadecimal, %s a string, %% a percent sign, and another directive stands for
    itself.  There is none if an argument is missing or of another kind. *)
Fixpoint text (f : Z -> Z) (fmt : list Z) (args : list carg) : option (list Z) :=
  match fmt with
  | [] => Some []
  | c :: fmt =>
    if negb (c =? 37) then app [c] <$> text f fmt args else
    match fmt with
    | [] => Some []
    | d :: fmt =>
      if d =? 100 then match args with AInt x :: args => app (number f (s32 x) 10 true) <$> text f fmt args | _ => None end
      else if (d =? 120) || (d =? 112) then match args with AInt x :: args => app (number f x 16 false) <$> text f fmt args | _ => None end
      else if d =? 115 then match args with AStr s :: args => app (default null_text s) <$> text f fmt args | _ => None end
      else app (if d =? 37 then [37] else [37; d]) <$> text f fmt args
    end
  end.

(** The format has none of the directives [ds]. *)
Fixpoint lacks (ds : list Z) (fmt : list Z) (state : bool) : bool :=
  match fmt with
  | [] => true
  | c :: fmt => if negb state then lacks ds fmt (c =? 37) else negb (existsb (Z.eqb c) ds) && lacks ds fmt false
  end.

(** The same character, or the same hexadecimal digit in lower and in upper case *)
Definition same_letter (a b : Z) : Prop := a = b \/ 97 <= a <= 102 /\ b = a - 32.

Lemma printint_number xx base sign : reverse (printint_buf xx base sign) = number digits xx base sign.
Proof. unfold printint_buf, number. by rewrite digit_loop_vals. Qed.
Lemma uprintint_number xx base sign : uprintint xx base sign = number udigits xx base sign.
Proof. unfold uprintint, uprintint_buf, number. by rewrite udigit_loop_vals. Qed.

Lemma number_same xx base sign : 0 < base <= 16 -> Forall2 same_letter (number digits xx base sign) (number udigits xx base sign).
Proof.
  intros Hb. unfold number. set (neg := sign && (xx <? 0)). set (x := if neg then _ else _). apply Forall2_reverse, Forall2_app; [|destruct neg; repeat constructor].
  pose proof (digit_vals_range base 32 x ltac:(lia)) as Hr. induction Hr as [|d l Hd _ IH]; cbn [map]; constructor; [|done].
  unfold same_letter, digits, udigits. destruct (Z.ltb_spec d 10); lia.
Qed.
Lemma decimal_same xx sign : number digits xx 10 sign = number udigits xx 10 sign.
Proof.
  unfold number. set (neg := sign && (xx <? 0)). set (x := if neg then _ else _). do 2 f_equal. apply map_ext_in. intros d Hd%list_elem_of_In.
  assert (0 <= d < 10) by (eapply Forall_forall in Hd; [|by apply digit_vals_range]; exact Hd). unfold digits, udigits. by rewrite (proj2 (Z.ltb_lt d 10)) by lia.
Qed.
Lemma same_letter_refl l : Forall2 same_letter l l.
Proof. induction l; constructor; [by left|done]. Qed.

Lemma text_same n : forall fmt args out, (length fmt <= n)%nat -> text digits fmt args = Some out ->
  exists out', text udigits fmt args = Some out' /\ Forall2 same_letter out out' /\ (lacks [120; 112] fmt false = true -> out' = out).
Proof.
  assert (forall l l' fmt args out, Forall2 same_letter l l' ->
    (forall out, text digits fmt args = Some out -> exists out', text udigits fmt args = Some out' /\ Forall2 same_letter out out' /\ (lacks [120; 112] fmt false = true -> out' = out)) ->
    app l <$> text digits fmt args = Some out ->
    exists out', app l' <$> text udigits fmt args = Some out' /\ Forall2 same_letter out out' /\ (l' = l -> lacks [120; 112] fmt false = true -> out' = out)) as Hstep.
  { intros l l' fmt args out Hl IH (o & Ho & ->)%fmap_Some. destruct (IH o Ho) as (o' & -> & H1 & H2). exists (l' ++ o'). split_and!; [done|by apply Forall2_app|]. intros -> H. by rewrite (H2 H). }
  induction n as [|n IH]; intros [|c fmt] args out Hn Hp; cbn [length] in Hn; try lia; try (exists out; split_and!; [done|apply same_letter_refl|done]).
  cbn [text lacks negb] in *. destruct (c =? 37) eqn:E37; cbn [negb] in *.
  2:{ eapply Hstep in Hp as (o & E & H1 & H2); [exists o; split_and!; [exact E|exact H1|exact (H2 eq_refl)]|apply same_letter_refl|]. intros; by apply IH; [lia|]. }
  destruct fmt as [|d fmt]; [exists out; split_and!; [done|injection Hp as <-; constructor|done]|]. cbn [length lacks negb existsb orb] in *.
  assert (forall args out, text digits fmt args = Some out -> exists out', text udigits fmt args = Some out' /\ Forall2 same_letter out out' /\ (lacks [120; 112] fmt false = true -> out' = out)) as IH' by (intros; by apply IH; [lia|]).
  destruct (d =? 100) eqn:Ed; [|destruct (d =? 120) eqn:Ex; [|destruct (d =? 112) eqn:Epp; [|destruct (d =? 115) eqn:Es]]]; cbn [orb negb andb] in *.
  - destruct args as [|[x|s] args]; try done. eapply Hstep in Hp as (o & E & H1 & H2); [exists o; split_and!; [exact E|exact H1|]|apply number_same; lia|by apply IH'].
    intros Hh. apply H2; [symmetry; apply decimal_same|]. by apply andb_prop in Hh as [_ Hh].
  - destruct args as [|[x|s] args]; try done. eapply Hstep in Hp as (o & E & H1 & H2); [by exists o|apply number_same; lia|by apply IH'].
  - destruct args as [|[x|s] args]; try done. eapply Hstep in Hp as (o & E & H1 & H2); [by exists o|apply number_same; lia|by apply IH'].
  - destruct args as [|[x|s] args]; try done. eapply Hstep in Hp as (o & E & H1 & H2); [exists o; split_and!; [exact E|exact H1|exact (H2 eq_refl)]|apply same_letter_refl|by apply IH'].
  - eapply Hstep in Hp as (o & E & H1 & H2); [exists o; split_and!; [exact E|exact H1|exact (H2 eq_refl)]|apply same_letter_refl|by apply IH'].
Qed.

(** printf writes the text with capital digits. *)
Lemma printf_text n : forall fmt args out, (length fmt <= n)%nat -> lacks [99] fmt false = true -> text udigits fmt args = Some out -> printf fmt (map to_uarg args) = Ret out.
Proof.
  unfold printf. induction n as [|n IH]; intros [|c fmt] args out Hn Hc Hp; cbn [length] in Hn; try lia; try (by injection Hp as <-).
  cbn [text lacks negb printf_loop] in *. destruct (c =? 37) eqn:E37; cbn [negb] in *.
  2:{ apply fmap_Some in Hp as (o & Ho & ->). by rewrite (IH fmt args o) by (lia || done). }
  destruct fmt as [|d fmt]; [by injection Hp as <-|]. cbn [length lacks negb existsb orb printf_loop] in *. apply andb_prop in Hc as [Hd Hc]. rewrite orb_false_r in Hd. apply negb_true_iff in Hd. rewrite Hd.
  destruct (d =? 100); [|destruct ((d =? 120) || (d =? 112)); [|destruct (d =? 115)]].
  1-3: destruct args as [|[x|s] args]; try done; apply fmap_Some in Hp as (o & Ho & ->); cbn [map to_uarg]; by rewrite (IH fmt args o), ?uprintint_number by (lia || done).
  apply fmap_Some in Hp as (o & Ho & ->). rewrite (IH fmt args o) by (lia || done). destruct (d =? 37) eqn:Ed; [|done]. by apply Z.eqb_eq in Ed as ->.
Qed.

(** cprintf prints the text with small digits. *)
Lemma cprintf_loop_prints H n : forall fmt args out, (length fmt <= n)%nat -> text digits fmt args = Some out -> prints H (cprintf_loop fmt args) out.
Proof.
  induction n as [|n IH]; intros [|c fmt] args out Hn Hp; cbn [length] in Hn; try lia; try (injection Hp as <-; apply prints_ret).
  cbn [text cprintf_loop] in *. destruct (c =? 37) eqn:E37; cbn [negb] in *.
  2:{ apply fmap_Some in Hp as (o & Ho & ->). apply prints_bind; [apply prints_consputc|by apply IH; [lia|]]. }
  destruct fmt as [|d fmt]; [injection Hp as <-; apply prints_ret|]. cbn [length] in *.
  destruct (d =? 100); [|destruct ((d =? 120) || (d =? 112)); [|destruct (d =? 115); [|destruct (d =? 37) eqn:Ed]]].
  1-3: destruct args as [|[x|s] args]; try done; apply fmap_Some in Hp as (o & Ho & ->); (apply prints_bind; [|by apply IH; [lia|]]); rewrite <- ?printint_number; apply prints_consputs.
  - apply fmap_Some in Hp as (o & Ho & ->). apply prints_bind; [apply prints_consputc|by apply IH; [lia|]].
  - apply fmap_Some in Hp as (o & Ho & ->). change ([37; d] ++ o) with ([37] ++ [d] ++ o).
    apply prints_bind; [apply prints_consputc|]. apply prints_bind; [apply prints_consputc|by apply IH; [lia|]].
Qed.

Lemma prints_locked H code out l : l ∉ H -> prints (l :: H) code out -> prints H (lock_ l ;; code ;; unlock_ l) out.
Proof.
  intros Hl P x Hx. destruct (P x Hx) as (c & R & O & Hok & S1). exists c. split_and!; [|done..].
  eapply runs_bind; [by apply runs_lock|]. eapply runs_bind; [exact R|]. apply runs_unlock.
Qed.

(** C30 The kernel's cprintf and the library's printf print alike.  For every format
    that has no %c, which only printf knows, and arguments that match it, cprintf
    sends to the serial line the text of the format with small hexadecimal digits,
    takes and releases the console lock if locking is on, and leaves the cursor
    on the screen and every cell outside it as it was; printf writes the text with
    capital digits; the two texts are the same letter by letter but for the case of
    the digits, and the same if the format has no %x and no %p. *)
Theorem cprintf_as_printf (H : list fslock) (fmt : list Z) (args : list carg) (out : list Z) (x : fsys) :
  console_ok (cons x) -> (locking (cons x) <> 0 -> L_cons ∉ H) -> lacks [99] fmt false = true -> text digits fmt args = Some out ->
  (exists c, runs H (cprintf fmt args) x tt (set_cons c x) H /\ out_only (cons x) c /\ console_ok c /\
    serial c = (if uart (cons x) =? 0 then [] else reverse (sent out)) ++ serial (cons x)) /\
  exists out', text udigits fmt args = Some out' /\ printf fmt (map to_uarg args) = Ret out' /\
    Forall2 same_letter out out' /\ (lacks [120; 112] fmt false = true -> out' = out).
Proof.
  intros Hx Hl Hc Hp. split.
  - pose proof (fun H => cprintf_loop_prints H _ fmt args out (le_n _) Hp) as P. destruct (Z.eqb_spec (locking (cons x)) 0) as [E|E].
    + destruct (P H x Hx) as (c & R & O & Hok & S1). exists c. split_and!; [|done..]. unfold cprintf, cget. rstep. rewrite E. cbn [Z.eqb negb].
      rstep. eapply runs_bind; [exact R|]. apply runs_ret.
    + destruct (prints_locked H _ _ L_cons (Hl E) (P _) x Hx) as (c & R & O & Hok & S1). exists c. split_and!; [|done..].
      unfold cprintf, cget. rstep. by rewrite (proj2 (Z.eqb_neq _ _) E).
  - destruct (text_same _ fmt args out (le_n _) Hp) as (out' & E & H1 & H2). exists out'. split_and!; [done|by eapply printf_text|done|done].
Qed.
End code.

(** ** The line discipline *)

(** The bytes that readers may take, and the line that is being typed. *)
Record ldisc : Type := mkLd { ready : list Z; editing : list Z }.
Definition held (d : ldisc) : Z := Z.of_nat (length (ready d) + length (editing d)).

(** A character typed: ^P lists processes, ^U kills the line, ^H and DEL rub
    out, and everything else is added to the line if there is room; newline,
    ^D and a full buffer end the line. *)
Definition accept (d : ldisc) (c : Z) : ldisc :=
  if c =? 16 then d
  else if c =? 21 then mkLd (ready d) []
  else if (c =? 8) || (c =? 127) then mkLd (ready d) (removelast (editing d))
  else if negb (c =? 0) && (held d <? INPUT_BUF) then
    let c := if c =? 13 then 10 else c in
    let line := editing d ++ [c] in
    if (c =? 10) || (c =? 4) || (held d + 1 =? INPUT_BUF) then mkLd (ready d ++ line) [] else mkLd (ready d) line
  else d.

(** What a reader that wants [n] bytes takes, what it leaves, and whether it
    returns or waits for more.  ^D ends the read and stays for the next one if
    bytes were read before it. *)
Fixpoint take_line (n : nat) (first : bool) (q : list Z) : list Z * list Z * bool :=
  match n, q with
  | O, _ => ([], q, true)
  | _, [] => ([], [], false)
  | S n, c :: q =>
    if c =? 4 then ([], if first then q else c :: q, true)
    else if c =? 10 then ([c], q, true)
    else let '(l, q, done) := take_line n false q in (c :: l, q, done)
  end.

(** The ring holds a line discipline. *)
Record holds (c : console) (d : ldisc) : Prop := {
  ty_r : 0 <= in_r c < 0x100000000;
  ty_w : in_w c = u32 (in_r c + Z.of_nat (length (ready d)));
  ty_e : in_e c = u32 (in_r c + held d);
  ty_room : held d <= INPUT_BUF;
  ty_ring : forall i b, (ready d ++ editing d) !! i = Some b -> in_buf c ((in_r c + Z.of_nat i) mod INPUT_BUF) = b
}.
(** The line that is being typed has no newline yet. *)
Record typed (c : console) (d : ldisc) : Prop := { ty_holds : holds c d; ty_line : 10 ∉ editing d }.

Lemma held_nonneg d : 0 <= held d.
Proof. unfold held. lia. Qed.

Lemma u32_ring a : u32 a mod INPUT_BUF = a mod INPUT_BUF.
Proof. unfold u32, INPUT_BUF. rewrite Z.mod_mod_divide; [done|]. by exists 0x2000000. Qed.

Lemma u32_same_near a b c : 0 <= a <= 128 -> 0 <= b <= 128 -> u32 (c + a) = u32 (c + b) -> a = b.
Proof. unfold u32. intros Ha Hb H. mlia. Qed.

Lemma edit_end c d : holds c d -> (in_e c =? in_w c) = bool_decide (editing d = []).
Proof.
  intros T. rewrite (ty_e _ _ T), (ty_w _ _ T). pose proof (ty_room _ _ T) as Hr. unfold held, INPUT_BUF in *. case_bool_decide as E.
  - rewrite E. cbn [length]. rewrite Nat.add_0_r. apply Z.eqb_refl.
  - apply Z.eqb_neq. intros H. apply u32_same_near in H; [|lia..]. apply E, length_zero_iff_nil. lia.
Qed.
Lemma ready_end c d : holds c d -> (in_r c =? in_w c) = bool_decide (ready d = []).
Proof.
  intros T. rewrite (ty_w _ _ T). pose proof (ty_room _ _ T) as Hr. pose proof (ty_r _ _ T) as H0. unfold held, INPUT_BUF in *. case_bool_decide as E.
  - rewrite E. cbn [length]. rewrite Z.add_0_r, u32_small by lia. apply Z.eqb_refl.
  - apply Z.eqb_neq. intros H. rewrite <- (u32_small (in_r c)) in H at 1 by lia. rewrite <- (Z.add_0_r (in_r c)) in H at 1. apply u32_same_near in H; [|lia..].
    apply E, length_zero_iff_nil. lia.
Qed.

(** Rubbing out. *)
Lemma holds_rub c d l b : holds c d -> editing d = l ++ [b] -> holds (c_with_e (u32 (in_e c - 1)) c) (mkLd (ready d) l) /\
  in_buf c (u32 (in_e c - 1) mod INPUT_BUF) = b.
Proof.
  intros T E. destruct T as [Hr Hw He Hn Hb]. unfold held in *. rewrite E in *. rewrite length_app in *. cbn [length] in *.
  assert (u32 (in_e c - 1) = u32 (in_r c + Z.of_nat (length (ready d) + length l))) as E1.
  { rewrite He. unfold u32. rewrite Zminus_mod_idemp_l. f_equal. lia. }
  split.
  - split; cbn; try done.
    + unfold held. cbn. lia.
    + intros i a Hi. apply Hb. rewrite app_assoc. by apply lookup_app_l_Some.
  - rewrite E1, u32_ring. apply Hb. rewrite app_assoc, lookup_app_r by (rewrite length_app; lia). rewrite length_app, Nat.sub_diag. done.
Qed.

(** Adding a byte to the line. *)
Lemma holds_add c d b : holds c d -> held d < INPUT_BUF ->
  holds (c_with_e (u32 (in_e c + 1)) (c_with_buf (in_e c mod INPUT_BUF) b c)) (mkLd (ready d) (editing d ++ [b])).
Proof.
  intros [Hr Hw He Hn Hb] Hf. unfold held in *. split; cbn; try done; unfold held; cbn [ready editing]; rewrite ?length_app; cbn [length].
  - rewrite He. unfold u32. rewrite Zplus_mod_idemp_l. f_equal. lia.
  - lia.
  - intros i a Hi. rewrite He, u32_ring. set (n := (length (ready d) + length (editing d))%nat) in *. unfold INPUT_BUF in *.
    apply lookup_lt_Some in Hi as Hil. rewrite !length_app in Hil. cbn in Hil. rewrite app_assoc in Hi.
    destruct (decide (i = n)) as [->|Hne].
    + rewrite upd_same. rewrite lookup_app_r, length_app in Hi by (rewrite length_app; lia). unfold n in Hi. rewrite Nat.sub_diag in Hi. by injection Hi.
    + rewrite upd_ne by mlia. apply Hb. rewrite lookup_app_l in Hi by (rewrite length_app; lia). done.
Qed.
(** The line is handed to the readers. *)
Lemma holds_commit c d : holds c d -> holds (c_with_w (in_e c) c) (mkLd (ready d ++ editing d) []).
Proof.
  intros [Hr Hw He Hn Hb]. unfold held in *. split; cbn; try done; unfold held; cbn [ready editing]; rewrite ?length_app, ?app_nil_r, ?Nat.add_0_r; done.
Qed.
(** A reader takes a byte. *)
Lemma holds_take c d b l : holds c d -> ready d = b :: l -> holds (c_with_r (u32 (in_r c + 1)) c) (mkLd l (editing d)) /\
  in_buf c (in_r c mod INPUT_BUF) = b.
Proof.
  intros [Hr Hw He Hn Hb] E. unfold held in *. rewrite E in *. cbn [length] in *. split.
  - split; cbn; unfold held; cbn [ready editing].
    + apply u32_range.
    + rewrite Hw. unfold u32. rewrite Zplus_mod_idemp_l. f_equal. lia.
    + rewrite He. unfold u32. rewrite Zplus_mod_idemp_l. f_equal. lia.
    + lia.
    + intros i a Hi. rewrite <- (Hb (S i) a Hi). f_equal. rewrite <- Zplus_mod_idemp_l, u32_ring, Zplus_mod_idemp_l. f_equal. lia.
  - rewrite <- (Hb 0%nat b eq_refl). f_equal. f_equal. lia.
Qed.

Lemma holds_out c c' d : out_only c c' -> holds c d -> holds c' d.
Proof. intros [] []. split; [congruence..|]. intros i b Hi. rewrite oo_buf0, oo_r0. by apply ty_ring0. Qed.

(** The room that is left. *)
Lemma room_left c d : holds c d -> u32 (in_e c - in_r c) = held d.
Proof.
  intros [Hr Hw He Hn Hb]. rewrite He. unfold u32. rewrite Zminus_mod_idemp_l. replace (in_r c + held d - in_r c) with (held d) by lia.
  pose proof (held_nonneg d). unfold INPUT_BUF in *. apply Z.mod_small. lia.
Qed.
Lemma full_end c d : holds c d -> (in_e c =? u32 (in_r c + INPUT_BUF)) = (held d =? INPUT_BUF).
Proof.
  intros [Hr Hw He Hn Hb]. rewrite He. pose proof (held_nonneg d). unfold INPUT_BUF in *. destruct (Z.eqb_spec (held d) 128) as [->|E]; [apply Z.eqb_refl|].
  apply Z.eqb_neq. intros H0. apply u32_same_near in H0; lia.
Qed.

Section input.
Context {St : Type} {K : Kernel St} {KS : KernelSpec St}.

(** Code under the input lock: what it makes of the line discipline, with
    nothing else but the screen and the serial line changed. *)
Record ld_frame (c c' : console) : Prop := {
  lf_uart : uart c' = uart c;
  lf_locking : locking c' = locking c;
  lf_cells : forall i, ~ (0 <= i < CELLS) -> crt c' i = crt c i
}.
#[export] Instance ld_frame_pre : PreOrder ld_frame.
Proof. split; [by intros c|]. intros c1 c2 c3 [] []. split; try congruence. intros i Hi. rewrite lf_cells1, lf_cells0 by done. done. Qed.
Lemma out_frame c c' : out_only c c' -> ld_frame c c'.
Proof. intros []. by split. Qed.

Definition edits (H : list fslock) (code : M St unit) (f : ldisc -> ldisc) : Prop :=
  forall x d, console_ok (cons x) -> typed (cons x) d ->
  exists c, runs H code x tt (set_cons c x) H /\ console_ok c /\ typed c (f d) /\ ld_frame (cons x) c.

Lemma ok_input c c' : panicked c' = panicked c -> crt_hi c' = crt_hi c -> crt_lo c' = crt_lo c -> console_ok c -> console_ok c'.
Proof. intros E1 E2 E3 [Hp [H1 H2 H3]]. split; [congruence|]. split; unfold cursor in *; congruence. Qed.

(** Rubbing out one character. *)
Lemma rub_runs H x d l b : console_ok (cons x) -> holds (cons x) d -> editing d = l ++ [b] ->
  exists c, runs H (cset (c_with_e (u32 (in_e (cons x) - 1)))) x tt (set_cons (c_with_e (u32 (in_e (cons x) - 1)) (cons x)) x) H /\
    runs H (consputc BACKSPACE) (set_cons (c_with_e (u32 (in_e (cons x) - 1)) (cons x)) x) tt (set_cons c x) H /\
    console_ok c /\ holds c (mkLd (ready d) l) /\ ld_frame (cons x) c.
Proof.
  intros Hok Hh E. destruct (holds_rub _ _ _ _ Hh E) as [Hh' _]. set (c1 := c_with_e (u32 (in_e (cons x) - 1)) (cons x)) in *.
  destruct (prints_consputc H BACKSPACE (set_cons c1 x)) as (c & R & O & Hok' & _); [by eapply ok_input; [..|exact Hok]|].
  exists c. split_and!; [unfold cset; rlast|exact R|done|by eapply holds_out|etransitivity; [|by apply out_frame]; by split].
Qed.

Lemma kill_line_runs H n : forall x d, console_ok (cons x) -> typed (cons x) d -> (length (editing d) <= n)%nat ->
  exists c, runs H (kill_line n) x tt (set_cons c x) H /\ console_ok c /\ typed c (mkLd (ready d) []) /\ ld_frame (cons x) c.
Proof.
  induction n as [|n IH]; intros x d Hok [Hh Hl] Hn; destruct (editing d) as [|b l] eqn:E using rev_ind.
  1,3: exists (cons x); split_and!; [|done|split; [|by apply not_elem_of_nil]|reflexivity]; [|destruct d; cbn in *; by subst].
  - cbn [kill_line]. unfold cget. do 2 rstep. rewrite (edit_end _ _ Hh), E. cbn. destruct x. apply runs_ret.
  - cbn [kill_line]. unfold cget. do 2 rstep. rewrite (edit_end _ _ Hh), E. cbn. destruct x. apply runs_ret.
  - rewrite length_app in Hn. cbn in Hn. lia.
  - clear IHl. rewrite length_app in Hn. cbn in Hn. destruct (holds_rub _ _ _ _ Hh E) as [_ Hb].
    destruct (rub_runs H x d l b Hok Hh E) as (c1 & R0 & R1 & Hok1 & Hh1 & F1).
    destruct (IH (set_cons c1 x) (mkLd (ready d) l)) as (c & R & Hok' & T' & F'); [done|split; [done|]|cbn; lia|].
    { intros Hin. apply Hl. apply elem_of_app. by left. }
    exists c. split_and!; [|done|done|by etransitivity]. cbn [kill_line]. unfold cget. do 2 rstep. rewrite (edit_end _ _ Hh), E.
    rewrite bool_decide_false by (by intros [_ ?]%app_eq_nil). rstep. rewrite Hb. rewrite (proj2 (Z.eqb_neq b 10)) by (intros ->; apply Hl, elem_of_app; right; by apply list_elem_of_singleton).
    eapply runs_bind; [exact R0|]. eapply runs_bind; [exact R1|]. exact R.
Qed.

Lemma rub_char_edits H : edits H
  (let* e := cget in_e in let* w := cget in_w in
   if negb (e =? w) then cset (c_with_e (u32 (e - 1))) ;; consputc BACKSPACE else ret tt) (fun d => mkLd (ready d) (removelast (editing d))).
Proof.
  intros x d Hok [Hh Hl]. destruct (editing d) as [|b l _] eqn:E using rev_ind.
  - exists (cons x). split_and!; [|done|split; [|by apply not_elem_of_nil]|reflexivity]; [|destruct d; cbn in *; by subst].
    unfold cget. do 2 rstep. rewrite (edit_end _ _ Hh), E. cbn. destruct x. apply runs_ret.
  - destruct (rub_runs H x d l b Hok Hh E) as (c1 & R0 & R1 & Hok1 & Hh1 & F1). exists c1. rewrite removelast_last.
    split_and!; [|done|split; [done|]|done]; [|intros Hin; apply Hl, elem_of_app; by left].
    unfold cget. do 2 rstep. rewrite (edit_end _ _ Hh), E, bool_decide_false by (by intros [_ ?]%app_eq_nil). cbn [negb].
    eapply runs_bind; [exact R0|exact R1].
Qed.

(** Adding a byte and showing it. *)
Lemma add_runs H x d c b : console_ok (cons x) -> holds (cons x) d -> held d < INPUT_BUF ->
  let c1 := c_with_e (u32 (in_e (cons x) + 1)) (c_with_buf (in_e (cons x) mod INPUT_BUF) b (cons x)) in
  exists c', runs H (consputc c) (set_cons c1 x) tt (set_cons c' x) H /\ console_ok c' /\ holds c' (mkLd (ready d) (editing d ++ [b])) /\ ld_frame (cons x) c'.
Proof.
  intros Hok Hh Hf c1. pose proof (holds_add _ _ b Hh Hf) as Hh'. fold c1 in Hh'.
  destruct (prints_consputc H c (set_cons c1 x)) as (c' & R & O & Hok' & _); [by eapply ok_input; [..|exact Hok]|].
  exists c'. split_and!; [exact R|done|by eapply holds_out|etransitivity; [|by apply out_frame]; by split].
Qed.

(** A key: one character of consoleintr. *)
Lemma console_char_edits H dump out c : 0 <= c < 256 -> prints H dump out -> edits H (console_char dump c) (fun d => accept d c).
Proof.
  intros Hc Hd x d Hok [Hh Hl]. unfold console_char, accept.
  destruct (c =? 16).
  { destruct (Hd x Hok) as (c' & R & O & Hok' & _). exists c'. split_and!; [done|done|split; [by eapply holds_out|done]|by apply out_frame]. }
  destruct (c =? 21).
  { apply kill_line_runs; [done|done|]. pose proof (ty_room _ _ Hh). unfold held, INPUT_BUF in *. lia. }
  destruct ((c =? 8) || (c =? 127)); [by apply rub_char_edits|].
  destruct (negb (c =? 0) && (held d <? INPUT_BUF)) eqn:Ef.
  2:{ exists (cons x). split_and!; [|done|done|reflexivity]. unfold cget. do 2 rstep. rewrite (room_left _ _ Hh), Ef. destruct x. apply runs_ret. }
  pose proof Ef as [_ Hf%Z.ltb_lt]%andb_prop. set (b := if c =? 13 then 10 else c). assert (u8 b = b) as Eb by (apply u8_small; unfold b; destruct (c =? 13); lia).
  destruct (add_runs H x d b b Hok Hh Hf) as (c1 & R & Hok1 & Hh1 & F1).
  assert (held (mkLd (ready d) (editing d ++ [b])) = held d + 1) as E1 by (unfold held; cbn; rewrite length_app; cbn; lia).
  destruct ((b =? 10) || (b =? 4) || (held d + 1 =? INPUT_BUF)) eqn:Ec.
  - exists (c_with_w (in_e c1) c1). split_and!; [|by eapply ok_input; [..|exact Hok1]|split; [by apply holds_commit in Hh1|by apply not_elem_of_nil]|etransitivity; [exact F1|by split]].
    unfold cget, cset. do 2 rstep. rewrite (room_left _ _ Hh), Ef. cbv zeta. fold b. rewrite Eb. do 2 rstep. eapply runs_bind; [exact R|]. do 2 rstep.
    change (cons (set_cons c1 x)) with c1. rewrite (full_end _ _ Hh1), E1, Ec. rstep. apply runs_wakeup.
  - apply orb_false_iff in Ec as Ec'. destruct Ec' as [[E10 _]%orb_false_iff _].
    exists c1. split_and!; [|done|split; [done|]|done].
    + unfold cget, cset. do 2 rstep. rewrite (room_left _ _ Hh), Ef. cbv zeta. fold b. rewrite Eb. do 2 rstep. eapply runs_bind; [exact R|]. do 2 rstep.
      change (cons (set_cons c1 x)) with c1. rewrite (full_end _ _ Hh1), E1, Ec. apply runs_ret.
    + cbn. intros [Hin|Hin]%elem_of_app; [done|]. apply list_elem_of_singleton in Hin as Hb. apply Z.eqb_neq in E10. congruence.
Qed.

Lemma console_chars_edits H dump out cs : Forall (fun c => 0 <= c < 256) cs -> prints H dump out ->
  edits H (console_chars dump cs) (fun d => fold_left accept cs d).
Proof.
  intros Hcs Hd. induction Hcs as [|c cs Hc _ IH]; intros x d Hok Ht; cbn [console_chars fold_left].
  - exists (cons x). split_and!; [|done|done|reflexivity]. destruct x. apply runs_ret.
  - destruct (console_char_edits H dump out c Hc Hd x d Hok Ht) as (c1 & R1 & K1 & T1 & F1). destruct (IH (set_cons c1 x) _ K1 T1) as (c2 & R2 & K2 & T2 & F2).
    exists c2. split_and!; [|done|done|by etransitivity]. eapply runs_bind; [exact R1|exact R2].
Qed.
End input.

(** ** Reading *)

(** [l] put into [acc] from [i] on. *)
Fixpoint put_from (acc : mem) (i : Z) (l : list Z) : mem := match l with [] => acc | c :: l => put_from (upd acc i c) (i + 1) l end.

Section reading.
Context {St : Type} {K : Kernel St} {KS : KernelSpec St} {US : UserSpec St}.

(** How a section of consoleread ends that wants [n] bytes and takes [l]. *)
Definition read_end (killed target n : Z) (acc : mem) (l : list Z) (done : bool) : read_piece :=
  let n' := n - Z.of_nat (length l) in
  let acc' := put_from acc (target - n) l in
  if done then RDone n' acc' else if killed =? 0 then RSleeps n' acc' else RKilled.

Definition only_r (c c' : console) : Prop := c' = c_with_r (in_r c') c.

(** Storing the read index. *)
Lemma set_r_at {A : Type} H v (k : unit -> M St A) s : kin s H ->
  exists s', bind (cset (c_with_r v)) k s = k tt s' /\ kin s' H /\ view fsL s' = set_cons (c_with_r v (cons (view fsL s))) (view fsL s) /\ user_same s s'.
Proof. intros Hs. by apply (runs_at H (cset (c_with_r v)) k (view fsL s) tt _ H s (runs_fmod H _ _) Hs eq_refl). Qed.

(** A section that takes nothing. *)
Lemma take_nothing H s d : kin s H -> typed (cons (view fsL s)) d -> exists c', kin s H /\ view fsL s = set_cons c' (view fsL s) /\
  only_r (cons (view fsL s)) c' /\ typed c' (mkLd (ready d) (editing d)) /\ user_same s s.
Proof.
  intros Hs Ht. exists (cons (view fsL s)). split_and!; try done; [by destruct (view fsL s)|by destruct (cons (view fsL s))|by destruct d].
Qed.

(** ^D ends the read; it stays if bytes came before it. *)
Lemma take_eof H target n acc s d q : kin s H -> typed (cons (view fsL s)) d -> ready d = 4 :: q -> 0 < n <= target -> target < 0x80000000 ->
  exists s' c', (cset (c_with_r (u32 (in_r (cons (view fsL s)) + 1))) ;;
    (if u32 n <? target then cset (c_with_r (in_r (cons (view fsL s)))) else ret tt) ;; ret (RDone n acc)) s = Ret (RDone n acc, s') /\ kin s' H /\
    view fsL s' = set_cons c' (view fsL s) /\ only_r (cons (view fsL s)) c' /\ typed c' (mkLd (if n =? target then q else ready d) (editing d)) /\ user_same s s'.
Proof.
  intros Hs [Hh Hl] E Hn Ht. destruct (holds_take _ _ _ _ Hh E) as [Hh' _]. rewrite (u32_small n) by lia.
  destruct (set_r_at H (u32 (in_r (cons (view fsL s)) + 1)) (fun _ => (if n <? target then cset (c_with_r (in_r (cons (view fsL s)))) else ret tt) ;; ret (RDone n acc)) s Hs)
    as (s1 & E1 & K1 & V1 & U1). rewrite E1. destruct (Z.eqb_spec n target) as [->|Hne].
  - rewrite Z.ltb_irrefl. exists s1. eexists. split_and!; [reflexivity|done|exact V1|done|by split|done].
  - rewrite (proj2 (Z.ltb_lt n target)) by lia.
    destruct (set_r_at H (in_r (cons (view fsL s))) (fun _ => ret (RDone n acc)) s1 K1) as (s2 & E2 & K2 & V2 & U2). rewrite E2.
    exists s2, (cons (view fsL s)). split_and!; [done|done| |by destruct (cons (view fsL s))|by destruct d|by etransitivity].
    rewrite V2, V1. cbn [cons set_cons]. unfold set_cons. cbn. f_equal. by destruct (cons (view fsL s)).
Qed.

Lemma consoleread_loop_spec H target : target < 0x80000000 -> forall fuel n acc s d, kin s H -> typed (cons (view fsL s)) d ->
  n <= target -> (Z.to_nat n <= fuel)%nat ->
  let '(l, q, done) := take_line (Z.to_nat n) (n =? target) (ready d) in
  exists s' c', consoleread_loop fuel target n acc s = Ret (read_end (ukilled s) target n acc l done, s') /\ kin s' H /\
    view fsL s' = set_cons c' (view fsL s) /\ only_r (cons (view fsL s)) c' /\ typed c' (mkLd q (editing d)) /\ user_same s s'.
Proof.
  intros Ht. induction fuel as [|fuel IH]; intros n acc s d Hs Hd Hn Hf; (destruct (Z.ltb_spec 0 n) as [Hn0|Hn0];
    [|replace (Z.to_nat n) with 0%nat by lia; destruct (take_nothing H s d Hs Hd) as (c' & Hc'); exists s, c'; split; [|exact Hc'];
      cbn [consoleread_loop]; rewrite (proj2 (Z.ltb_ge 0 n)) by lia; unfold read_end; cbn; by rewrite Z.sub_0_r]); [lia|].
  pose proof Hd as [Hh Hl]. replace (Z.to_nat n) with (S (Z.to_nat (n - 1))) by lia. cbn [take_line consoleread_loop]. rewrite (proj2 (Z.ltb_lt 0 n)) by lia.
  unfold cget, fget. repeat (erewrite bind_ret_eq by reflexivity). rewrite (ready_end _ _ Hh). destruct (ready d) as [|b q] eqn:E.
  { rewrite bool_decide_true by done. rewrite (bind_ret_eq _ _ _ _ _ (killed_spec s)). destruct (take_nothing H s d Hs Hd) as (c' & Hc'). rewrite E in Hc'. exists s, c'.
    split; [|exact Hc']. unfold read_end. cbn. rewrite Z.sub_0_r. by destruct (ukilled s =? 0). }
  rewrite bool_decide_false by done. repeat (erewrite bind_ret_eq by reflexivity). destruct (holds_take _ _ _ _ Hh E) as [Hh' ->].
  destruct (Z.eqb_spec b 4) as [->|Hb4].
  { destruct (take_eof H target n acc s d q Hs Hd E ltac:(lia) Ht) as (s' & c' & E' & Hr). exists s', c'. split; [|by destruct (n =? target); rewrite <- ?E].
    etransitivity; [exact E'|]. unfold read_end. cbn. by rewrite Z.sub_0_r. }
  destruct (set_r_at H (u32 (in_r (cons (view fsL s)) + 1)) (fun _ => if b =? 10 then ret (RDone (n - 1) (upd acc (target - n) b)) else
     consoleread_loop fuel target (n - 1) (upd acc (target - n) b)) s Hs) as (s1 & E1 & K1 & V1 & U1).
  assert (typed (cons (view fsL s1)) (mkLd q (editing d))) as T1 by (rewrite V1; by split).
  destruct (b =? 10) eqn:E10.
  { exists s1. eexists. split_and!; [etransitivity; [exact E1|]; unfold read_end; cbn; reflexivity|done|exact V1|done|by rewrite V1 in T1|done]. }
  specialize (IH (n - 1) (upd acc (target - n) b) s1 _ K1 T1 ltac:(lia) ltac:(lia)). cbn [ready editing] in IH.
  rewrite (proj2 (Z.eqb_neq (n - 1) target)) in IH by lia. destruct (take_line (Z.to_nat (n - 1)) false q) as [[l q'] done].
  destruct IH as (s2 & c2 & E2 & K2 & V2 & O2 & T2 & U2). exists s2, c2. split_and!; [|done| | |done|by etransitivity].
  - etransitivity; [exact E1|]. rewrite E2, (us_killed _ _ U1). unfold read_end. cbn [length put_from]. do 2 f_equal. replace (target - (n - 1)) with (target - n + 1) by lia.
    by replace (n - 1 - Z.of_nat (length l)) with (n - Z.of_nat (S (length l))) by lia.
  - rewrite V2, V1. done.
  - rewrite V1 in O2. exact O2.
Qed.
(** ** The device *)

(** What happens at the console, one section under the input lock at a time:
    the keyboard or the serial line delivers characters, or a reader that wants
    [n] more of its [target] bytes runs until it returns or sleeps. *)
Inductive con_op : Type := Keys (cs : list Z) | Read (target n : Z) (acc : mem).

Definition con_section (dump : M St unit) (op : con_op) : M St (option read_piece) :=
  match op with
  | Keys cs => consoleintr dump cs ;; ret None
  | Read target n acc =>
    lock_ L_input ;; let* r := consoleread_loop (Z.to_nat n) target n acc in unlock_ L_input ;; ret (Some r)
  end.
Fixpoint con_run (dump : M St unit) (ops : list con_op) : M St (list (option read_piece)) :=
  match ops with
  | [] => ret []
  | op :: ops => let* r := con_section dump op in let* rs := con_run dump ops in ret (r :: rs)
  end.

Definition op_ok (op : con_op) : Prop :=
  match op with Keys cs => Forall (fun c => 0 <= c < 256) cs | Read target n _ => n <= target < 0x80000000 end.

(** The same on the line discipline. *)
Definition ld_step (killed : Z) (d : ldisc) (op : con_op) : ldisc * option read_piece :=
  match op with
  | Keys cs => (fold_left accept cs d, None)
  | Read target n acc =>
    let '(l, q, done) := take_line (Z.to_nat n) (n =? target) (ready d) in (mkLd q (editing d), Some (read_end killed target n acc l done))
  end.
Fixpoint ld_run (killed : Z) (d : ldisc) (ops : list con_op) : ldisc * list (option read_piece) :=
  match ops with
  | [] => (d, [])
  | op :: ops => let (d, r) := ld_step killed d op in let (d, rs) := ld_run killed d ops in (d, r :: rs)
  end.

(** A state in which the console holds [d]. *)
Record at_console (H : list fslock) (s : St) (d : ldisc) : Prop := {
  ac_kin : kin s H;
  ac_ok : console_ok (cons (view fsL s));
  ac_typed : typed (cons (view fsL s)) d
}.

Lemma con_section_spec H dump out op s d : L_input ∉ H -> prints (L_input :: H) dump out -> op_ok op -> at_console H s d ->
  exists s', con_section dump op s = Ret (snd (ld_step (ukilled s) d op), s') /\ at_console H s' (fst (ld_step (ukilled s) d op)) /\ user_same s s'.
Proof.
  intros HL Hd Hop [Hs Hok Ht]. destruct op as [cs|target n acc]; cbn [con_section ld_step fst snd op_ok] in *.
  - destruct (console_chars_edits (L_input :: H) dump out cs Hop Hd (view fsL s) d Hok Ht) as (c & R & Hok' & Ht' & F).
    destruct (runs_at H (consoleintr dump cs) (fun _ => ret (None : option read_piece)) (view fsL s) tt (set_cons c (view fsL s)) H s) as (s' & E & K' & V' & U'); [|done|done|].
    { eapply runs_bind; [by apply runs_lock|]. eapply runs_bind; [exact R|]. apply runs_unlock. }
    exists s'. split_and!; [by rewrite E|split; [done|by rewrite V'..]|done].
  - destruct (runs_at H (lock_ L_input) (fun _ => let* r := consoleread_loop (Z.to_nat n) target n acc in unlock_ L_input ;; ret (Some r)) _ _ _ _ s (runs_lock H L_input _ HL) Hs eq_refl)
      as (s1 & E1 & K1 & V1 & U1). rewrite E1.
    pose proof (consoleread_loop_spec (L_input :: H) target ltac:(lia) (Z.to_nat n) n acc s1 d K1 ltac:(by rewrite V1) ltac:(lia) (le_n _)) as Hr.
    destruct (take_line (Z.to_nat n) (n =? target) (ready d)) as [[l q] done]. destruct Hr as (s2 & c & E2 & K2 & V2 & O2 & T2 & U2). cbn [fst snd].
    rewrite (bind_ret_eq _ _ _ _ _ E2).
    destruct (runs_at (L_input :: H) (unlock_ L_input) (fun _ => ret (Some (read_end (ukilled s1) target n acc l done))) _ _ _ _ s2 (runs_unlock H L_input _) K2 eq_refl) as (s3 & E3 & K3 & V3 & U3).
    exists s3. split_and!; [rewrite E3; by rewrite (us_killed _ _ U1)| |by do 2 (etransitivity; [eassumption|])].
    split; [done| |by rewrite V3, V2]. rewrite V3, V2. cbn [cons set_cons]. rewrite O2, V1. by eapply ok_input; [..|exact Hok].
Qed.

(** C17 The console implements the line discipline: any sequence of keys and
    readers, in any order, each under the input lock, gives what the queue of
    ready bytes and the line being edited give: readers get the committed
    lines, byte for byte and in order, wait exactly when there is none, and
    see ^D as the end of file; editing never reaches bytes that are committed. *)
Theorem console_refines (H : list fslock) (dump : M St unit) (out : list Z) (ops : list con_op) (s : St) (d : ldisc) :
  L_input ∉ H -> prints (L_input :: H) dump out -> Forall op_ok ops -> at_console H s d ->
  exists s', con_run dump ops s = Ret (snd (ld_run (ukilled s) d ops), s') /\ at_console H s' (fst (ld_run (ukilled s) d ops)).
Proof.
  intros HL Hd Hops. revert s d. induction Hops as [|op ops Hop _ IH]; intros s d Hs; cbn [con_run ld_run]; [by exists s|].
  destruct (con_section_spec H dump out op s d HL Hd Hop Hs) as (s1 & E1 & H1 & U1). destruct (IH s1 _ H1) as (s2 & E2 & H2).
  rewrite (us_killed _ _ U1) in *. destruct (ld_step (ukilled s) d op) as [d1 r]. cbn [fst snd] in *.
  destruct (ld_run (ukilled s) d1 ops) as [d2 rs]. cbn [fst snd] in *. exists s2. split; [|done].
  rewrite (bind_ret_eq _ _ _ _ _ E1), (bind_ret_eq _ _ _ _ _ E2). done.
Qed.
End reading.

(** A console that has just started. *)
Definition con_start : alone := mkAlone (set_cons (mkCons (fun _ => 0) 0 0 1 [] 0 0 (fun _ => 0) 0 0 0) (blank_fs (mkDrive (fun _ _ _ => 0) []))) (fun _ => 0) 0.

Lemma con_start_at : at_console [] con_start (mkLd [] []).
Proof.
  split; [done| |].
  - split; [done|]. split; [cbn; lia|cbn; lia|reflexivity].
  - split; [|by apply not_elem_of_nil]. split; cbn; done.
Qed.

(** "ab", rub out, "c", newline; then a reader that wants ten bytes. *)
Lemma console_refines_witness :
  exists s', con_run (St := alone) (consputs [112]) [Keys [97; 98; 8; 99; 10]; Read 10 10 (fun _ => 0)] con_start =
    Ret ([None; Some (RDone 7 (put_from (fun _ => 0) 0 [97; 99; 10]))], s') /\ at_console [] s' (mkLd [] []).
Proof.
  exact (@console_refines alone alone_kernel alone_spec alone_user [] (consputs [112]) [112] [Keys [97; 98; 8; 99; 10]; Read 10 10 (fun _ => 0)] con_start (mkLd [] [])
    (not_elem_of_nil _) (prints_consputs _ [112]) ltac:(repeat constructor; cbn; lia) con_start_at).
Defined.

(** "%d%x" of -5 and 0xab *)
Lemma cprintf_as_printf_witness :
  (exists c, runs (K := alone_kernel) [] (cprintf [37; 100; 37; 120] [AInt (-5); AInt 0xab]) (a_fs con_start) tt (set_cons c (a_fs con_start)) [] /\ serial c = [98; 97; 53; 45]) /\
  printf [37; 100; 37; 120] [UInt (-5); UInt 0xab] = Ret [45; 53; 65; 66].
Proof.
  destruct (@cprintf_as_printf alone alone_kernel alone_spec [] [37; 100; 37; 120] [AInt (-5); AInt 0xab] [45; 53; 97; 98] (a_fs con_start)
    (ac_ok _ _ _ con_start_at) ltac:(done) eq_refl eq_refl) as ((c & R & _ & _ & S1) & (out' & E & P & _)).
  split; [exists c; split; [exact R|exact S1]|]. vm_compute in E. injection E as <-. exact P.
Defined.
