(* ===== verification/Sh.v ===== *)
(** * The shell's parser (sh.c)

    A line is the bytes before its NUL; a pointer into it is the rest of the
    line from there, and the parser's state is the pointer [*ps].  A command
    is a tree whose words are pairs of pointers, to the first byte and to the
    byte after the last.  The shell's panic is the outcome [Panic]; malloc is
    taken to succeed. *)

From Stdlib Require Import ZArith Lia String Bool.
From stdpp Require Import base numbers list.
From S2P Require Import Prelude Params Mem Ulib.

(** ** Commands *)

Definition MAXARGS : Z := 10.

(** The file of a redirection, the mode to open it with, and the descriptor. *)
Record redir (W : Type) : Type := mkRedir { r_file : W; r_mode : Z; r_fd : Z }.
Arguments mkRedir {W}.
Arguments r_file {W}.
Arguments r_mode {W}.
Arguments r_fd {W}.

(** [W]: what a word is. *)
Inductive cmd (W : Type) : Type :=
| EXEC (argv : list W)
| REDIR (c : cmd W) (r : redir W)
| PIPE (left right : cmd W)
| LIST (left right : cmd W)
| BACK (c : cmd W).
Arguments EXEC {W}.
Arguments REDIR {W}.
Arguments PIPE {W}.
Arguments LIST {W}.
Arguments BACK {W}.

Definition word : Type := list Z * list Z.

(** ** Tokens *)

Definition whitespace : list Z := [32; 9; 13; 10; 11].
Definition symbols : list Z := [60; 124; 62; 38; 59; 40; 41].
(** strchr on a string that is a constant. *)
Definition one_of (l : list Z) (c : Z) : bool := existsb (Z.eqb c) l.

Fixpoint skip (s : list Z) : list Z :=
  match s with c :: s' => if one_of whitespace c then skip s' else s | [] => [] end.
(** The end of the word that starts at [s]. *)
Fixpoint word_end (s : list Z) : list Z :=
  match s with c :: s' => if one_of whitespace c || one_of symbols c then s else word_end s' | [] => [] end.

(** The token, and its two ends. *)
Definition gettoken : M (list Z) (Z * word) :=
  fun s =>
    let s := skip s in
    match s with
    | [] => Ret ((0, (s, s)), skip s)
    | c :: s1 =>
      if one_of [124; 40; 41; 59; 38; 60] c then Ret ((c, (s, s1)), skip s1)
      else if c =? 62 then
        match s1 with
        | d :: s2 => if d =? 62 then Ret ((43, (s, s2)), skip s2) else Ret ((62, (s, s1)), skip s1)
        | [] => Ret ((62, (s, s1)), skip s1)
        end
      else let e := word_end s in Ret ((97, (s, e)), skip e)
    end.

Definition peek (toks : list Z) : M (list Z) bool :=
  fun s => let s := skip s in Ret (match s with [] => false | c :: _ => one_of toks c end, s).

(** ** The grammar *)

Definition redir_in (w : word) : redir word := mkRedir w O_RDONLY 0.
Definition redir_out (w : word) : redir word := mkRedir w (Z.lor O_WRONLY O_CREATE) 1.

(** The redirections from here on, in order. *)
Fixpoint parseredirs (fuel : nat) : M (list Z) (list (redir word)) :=
  let* b := peek [60; 62] in
  if negb b then ret [] else
  match fuel with
  | O => nofuel
  | S fuel =>
    let* tw := gettoken in
    let* fw := gettoken in
    if negb (fst fw =? 97) then panic "missing file for redirection" else
    let* rs := parseredirs fuel in
    ret ((if fst tw =? 60 then redir_in (snd fw) else redir_out (snd fw)) :: rs)
  end.
(** The command with its redirections around it, the first one innermost. *)
Definition redirected {W : Type} (c : cmd W) (rs : list (redir W)) : cmd W := fold_left REDIR rs c.

(** The words of a simple command; [argc] are stored.  The redirections go
    around the command that the words are stored into. *)
Fixpoint parseargs (fuel : nat) (argc : Z) : M (list Z) (list word * list (redir word)) :=
  let* b := peek [124; 41; 38; 59] in
  if b then ret ([], []) else
  let* tw := gettoken in
  if fst tw =? 0 then ret ([], []) else
  if negb (fst tw =? 97) then panic "syntax" else
  if MAXARGS <=? argc + 1 then panic "too many args" else
  match fuel with
  | O => nofuel
  | S fuel =>
    let* rs := parseredirs fuel in
    let* more := parseargs fuel (argc + 1) in
    ret (snd tw :: fst more, rs ++ snd more)
  end.

(** [while(peek("&"))]: the number of times the command goes to the background. *)
Fixpoint parsebacks (fuel : nat) : M (list Z) nat :=
  let* b := peek [38] in
  if negb b then ret 0%nat else
  match fuel with
  | O => nofuel
  | S fuel => let* _ := gettoken in let* n := parsebacks fuel in ret (S n)
  end.
Definition backed {W : Type} (n : nat) (c : cmd W) : cmd W := Nat.iter n BACK c.

Fixpoint parseline (fuel : nat) : M (list Z) (cmd word) :=
  match fuel with
  | O => nofuel
  | S fuel =>
    let* c := parsepipe fuel in
    let* n := parsebacks fuel in
    let c := backed n c in
    let* b := peek [59] in
    if b then
      let* _ := gettoken in
      let* r := parseline fuel in
      ret (LIST c r)
    else ret c
  end
with parsepipe (fuel : nat) : M (list Z) (cmd word) :=
  match fuel with
  | O => nofuel
  | S fuel =>
    let* c := parseexec fuel in
    let* b := peek [124] in
    if b then
      let* _ := gettoken in
      let* r := parsepipe fuel in
      ret (PIPE c r)
    else ret c
  end
with parseexec (fuel : nat) : M (list Z) (cmd word) :=
  match fuel with
  | O => nofuel
  | S fuel =>
    let* b := peek [40] in
    if b then parseblock fuel else
    let* rs := parseredirs fuel in
    let* more := parseargs fuel 0 in
    ret (redirected (EXEC (fst more)) (rs ++ snd more))
  end
with parseblock (fuel : nat) : M (list Z) (cmd word) :=
  match fuel with
  | O => nofuel
  | S fuel =>
    let* b := peek [40] in
    if negb b then panic "parseblock" else
    let* _ := gettoken in
    let* c := parseline fuel in
    let* b := peek [41] in
    if negb b then panic "syntax - missing )" else
    let* _ := gettoken in
    let* rs := parseredirs fuel in
    ret (redirected c rs)
  end.

(** parsecmd, up to nulterminate; a line of [n] bytes needs no more fuel. *)
Definition parse_fuel (line : list Z) : nat := 4 * length line + 4.
Definition parsecmd (line : list Z) : outcome (cmd word) :=
  match parseline (parse_fuel line) line with
  | Ret (c, s) => match skip s with [] => Ret c | _ => Panic "syntax" end
  | Panic m => Panic m
  | Fault w => Fault w
  | Blocked => Blocked
  | NoFuel => NoFuel
  end.

(** ** Terminating the words *)

(** The line is at [base] and has [es] bytes; where a pointer is. *)
Definition pos (base es : Z) (p : list Z) : Z := base + es - Z.of_nat (length p).

Fixpoint nulterminate (base es : Z) (c : cmd word) (m : mem) : mem :=
  match c with
  | EXEC argv => fold_left (fun m w => st8 m (pos base es (snd w)) 0) argv m
  | REDIR c r => st8 (nulterminate base es c m) (pos base es (snd (r_file r))) 0
  | PIPE l r | LIST l r => nulterminate base es r (nulterminate base es l m)
  | BACK c => nulterminate base es c m
  end.

(** ** What the parser does to every line *)

Definition wordchar (c : Z) : Prop := one_of whitespace c = false /\ one_of symbols c = false.
Definition at_end (e : list Z) : Prop := match e with [] => True | c :: _ => ~ wordchar c end.
Definition text (w : word) : list Z := take (length (fst w) - length (snd w)) (fst w).

Section line.
Context (line : list Z).

(** A word of the line: its bytes, up to a blank, a symbol or the end. *)
Record is_word (w : word) : Prop := {
  iw_in : fst w `suffix_of` line;
  iw_split : fst w = text w ++ snd w;
  iw_chars : Forall wordchar (text w);
  iw_some : text w <> [];
  iw_end : at_end (snd w)
}.
Definition is_redir (r : redir word) : Prop := is_word (r_file r).
Fixpoint is_cmd (c : cmd word) : Prop :=
  match c with
  | EXEC argv => Forall is_word argv /\ Z.of_nat (length argv) < MAXARGS
  | REDIR c r => is_cmd c /\ is_redir r
  | PIPE l r | LIST l r => is_cmd l /\ is_cmd r
  | BACK c => is_cmd c
  end.

(** [p] from [s] on returns something with [Q], or panics. *)
Definition gives {A : Type} (Q : A -> list Z -> Prop) (s : list Z) (p : M (list Z) A) : Prop :=
  match p s with Ret (a, s') => s' `suffix_of` s /\ Q a s' | Panic _ => True | _ => False end.

Lemma gives_ret {A : Type} (Q : A -> list Z -> Prop) s a : Q a s -> gives Q s (ret a).
Proof. by split. Qed.
Lemma gives_panic {A : Type} (Q : A -> list Z -> Prop) s msg : gives Q s (panic msg).
Proof. done. Qed.
Lemma gives_bind {A B : Type} (Q : A -> list Z -> Prop) (R : B -> list Z -> Prop) s p (k : A -> M (list Z) B) :
  gives Q s p -> (forall a s', s' `suffix_of` s -> Q a s' -> gives R s' (k a)) -> gives R s (bind p k).
Proof.
  unfold gives, bind. destruct (p s) as [[a s']| | | |]; try done. intros [Hs HQ] Hk. specialize (Hk a s' Hs HQ).
  destruct (k a s') as [[b s'']| | | |]; try done. destruct Hk as [H1 H2]. split; [by etransitivity|done].
Qed.

Lemma skip_suffix s : skip s `suffix_of` s.
Proof. induction s as [|c s IH]; cbn [skip]; [done|]. destruct (one_of whitespace c); [by apply suffix_cons_r|done]. Qed.
Lemma skip_head s c s' : skip s = c :: s' -> one_of whitespace c = false.
Proof. induction s as [|d s IH]; cbn [skip]; [done|]. destruct (one_of whitespace d) eqn:E; [done|]. intros [= <- <-]. exact E. Qed.
Lemma word_end_spec s : exists t, s = t ++ word_end s /\ Forall wordchar t /\ at_end (word_end s).
Proof.
  induction s as [|c s (t & Es & Ht & He)]; cbn [word_end]; [by exists []|].
  destruct (one_of whitespace c) eqn:E1; [exists []; split_and!; [done..|]; cbn; unfold wordchar; rewrite E1; by intros [? _]|].
  destruct (one_of symbols c) eqn:E2; [exists []; split_and!; [done..|]; cbn; unfold wordchar; rewrite E2; by intros [_ ?]|].
  exists (c :: t). cbn [orb app]. split_and!; [by f_equal|by constructor|done].
Qed.

Lemma suffix_length (l1 l2 : list Z) : l1 `suffix_of` l2 -> (length l1 <= length l2)%nat.
Proof. intros [k ->]. rewrite length_app. lia. Qed.

Lemma peek_gives toks s : gives (fun b s' => b = true -> exists c s1, s' = c :: s1 /\ one_of toks c = true /\ skip s' = s') s (peek toks).
Proof.
  unfold gives, peek. split; [apply skip_suffix|]. destruct (skip s) as [|c s1] eqn:E; [done|]. intros H. exists c, s1. split_and!; [done|done|].
  cbn [skip]. by rewrite (skip_head _ _ _ E).
Qed.

(** A token of a non-blank line takes at least one byte; the word it is. *)
Lemma gettoken_gives s : s `suffix_of` line ->
  gives (fun tw s' => (fst tw = 97 -> is_word (snd tw)) /\ (fst tw <> 0 -> skip s <> []) /\ (skip s <> [] -> (length s' < length s)%nat)) s gettoken.
Proof.
  intros Hin. unfold gettoken. pose proof (skip_suffix s) as Hs. pose proof (skip_head s) as Hh. unfold gives.
  assert (forall e t q, e `suffix_of` skip s -> (length e < length (skip s))%nat -> t <> 97 ->
    skip e `suffix_of` s /\ ((t = 97 -> is_word (q, e)) /\ (t <> 0 -> skip s <> []) /\ (skip s <> [] -> (length (skip e) < length s)%nat))) as Hsym.
  { intros e t q He Hl Ht. pose proof (skip_suffix e) as Hse. pose proof (suffix_length _ _ Hse). pose proof (suffix_length _ _ Hs).
    split_and!; [|done|intros _ E; rewrite E in Hl; cbn in Hl; lia|lia]. do 2 (etransitivity; [eassumption|]). done. }
  destruct (skip s) as [|c s1] eqn:E; [split; [apply suffix_nil|done]|].
  assert (s1 `suffix_of` c :: s1) as H1 by (by apply suffix_cons_r).
  destruct (one_of [124; 40; 41; 59; 38; 60] c) eqn:Es; cbn [fst snd]; [apply Hsym; [done|cbn; lia|]; intros ->; done|].
  destruct (c =? 62) eqn:E62.
  { destruct s1 as [|d s2]; cbn [fst snd]; [apply (Hsym [] 62 [c]); [done|cbn; lia|done]|].
    destruct (d =? 62); cbn [fst snd]; (apply Hsym; [|cbn; lia|done]); [by do 2 apply suffix_cons_r|done]. }
  specialize (Hh c s1 eq_refl). cbn [word_end]. rewrite Hh.
  assert (one_of symbols c = false) as Hsy.
  { cbn in Es |- *. apply Z.eqb_neq in E62. rewrite (proj2 (Z.eqb_neq c 62)) by done. cbn. repeat (apply orb_false_iff in Es as [? Es]).
    repeat (apply orb_false_iff; split; [done|]). done. }
  rewrite Hsy. cbn [orb]. destruct (word_end_spec s1) as (t & Et & Ht & He). pose proof (skip_suffix (word_end s1)) as Hse.
  assert (word_end s1 `suffix_of` s1) as Hw by (by exists t). pose proof (suffix_length _ _ Hse). pose proof (suffix_length _ _ Hw). pose proof (suffix_length _ _ Hs) as Hl. cbn in Hl.
  split; [do 2 (etransitivity; [eassumption|]); by etransitivity|]. split; [|split; [done|cbn; lia]]. intros _.
  assert (text (c :: s1, word_end s1) = c :: t) as Etx.
  { unfold text. cbn [fst snd]. rewrite Et at 1 3. rewrite app_comm_cons, length_app. rewrite take_app_le by (cbn; lia). rewrite take_ge; [done|cbn; lia]. }
  split; cbn [fst snd]; rewrite ?Etx; [by etransitivity|cbn; by f_equal|by constructor|done|done].
Qed.

(** After [peek] has seen a token. *)
Lemma gettoken_seen s c s1 : s `suffix_of` line -> s = c :: s1 -> skip s = s ->
  gives (fun tw s' => (fst tw = 97 -> is_word (snd tw)) /\ (length s' < length s)%nat) s gettoken.
Proof.
  intros Hin E Hs. pose proof (gettoken_gives s Hin) as H. unfold gives in *. destruct (gettoken s) as [[tw s']| | | |]; try done.
  destruct H as (H1 & H2 & _ & H3). split_and!; [done..|]. apply H3. by rewrite Hs, E.
Qed.

Lemma parseredirs_gives n : forall s, s `suffix_of` line -> (length s <= n)%nat -> gives (fun rs s' => Forall is_redir rs) s (parseredirs n).
Proof.
  induction n as [|n IH]; intros s Hin Hn; cbn [parseredirs]; (eapply gives_bind; [apply peek_gives|]); intros b s1 Hs1 Hb; pose proof (suffix_length _ _ Hs1);
    (destruct b; cbn [negb]; [|by apply gives_ret]); destruct (Hb eq_refl) as (c & s2 & E & _ & Hsk); [rewrite E in *; cbn in *; lia|].
  assert (s1 `suffix_of` line) as Hin1 by (by etransitivity).
  eapply gives_bind; [by apply (gettoken_seen s1 c s2)|]. intros tw s3 Hs3 [_ Hl]. assert (s3 `suffix_of` line) as Hin3 by (by etransitivity).
  eapply gives_bind; [by apply gettoken_gives|]. intros fw s4 Hs4 (Hw & _ & _). destruct (Z.eqb_spec (fst fw) 97) as [E97|]; cbn [negb]; [|apply gives_panic].
  pose proof (suffix_length _ _ Hs4). eapply gives_bind; [apply IH; [by etransitivity|lia]|]. intros rs s5 _ Hrs.
  apply gives_ret. constructor; [|done]. destruct (_ =? 60); by apply Hw.
Qed.

Lemma parsebacks_gives n : forall s, s `suffix_of` line -> (length s <= n)%nat -> gives (fun _ _ => True) s (parsebacks n).
Proof.
  induction n as [|n IH]; intros s Hin Hn; cbn [parsebacks]; (eapply gives_bind; [apply peek_gives|]); intros b s1 Hs1 Hb; pose proof (suffix_length _ _ Hs1);
    (destruct b; cbn [negb]; [|by apply gives_ret]); destruct (Hb eq_refl) as (c & s2 & E & _ & Hsk); [rewrite E in *; cbn in *; lia|].
  assert (s1 `suffix_of` line) as Hin1 by (by etransitivity).
  eapply gives_bind; [by apply (gettoken_seen s1 c s2)|]. intros tw s3 Hs3 [_ Hl].
  eapply gives_bind; [apply IH; [by etransitivity|lia]|]. intros k s4 _ _. by apply gives_ret.
Qed.

Definition args_ok (argc : Z) (a : list word * list (redir word)) : Prop :=
  Forall is_word (fst a) /\ Forall is_redir (snd a) /\ (fst a = [] \/ argc + Z.of_nat (length (fst a)) < MAXARGS).

Lemma parseargs_gives n : forall argc s, s `suffix_of` line -> (length s <= n)%nat -> gives (fun a _ => args_ok argc a) s (parseargs n argc).
Proof.
  induction n as [|n IH]; intros argc s Hin Hn; cbn [parseargs]; (eapply gives_bind; [apply peek_gives|]); intros b s1 Hs1 _; pose proof (suffix_length _ _ Hs1) as Hl1;
    (destruct b; [apply gives_ret; split_and!; [done|done|by left]|]);
    assert (s1 `suffix_of` line) as Hin1 by (by etransitivity);
    (eapply gives_bind; [by apply gettoken_gives|]); intros tw s2 Hs2 (Hw & Hne & Hl); (destruct (Z.eqb_spec (fst tw) 0) as [|E0]; [apply gives_ret; split_and!; [done|done|by left]|]);
    (destruct (Z.eqb_spec (fst tw) 97) as [E97|]; cbn [negb]; [|apply gives_panic]);
    (destruct (Z.leb_spec MAXARGS (argc + 1)) as [|Hm]; [apply gives_panic|]); specialize (Hl (Hne E0)); [lia|].
  assert (s2 `suffix_of` line) as Hin2 by (by etransitivity).
  eapply gives_bind; [apply parseredirs_gives; [done|lia]|]. intros rs s3 Hs3 Hrs. pose proof (suffix_length _ _ Hs3).
  eapply gives_bind; [apply (IH (argc + 1)); [by etransitivity|lia]|]. intros more s4 _ (H1 & H2 & H3). apply gives_ret.
  split_and!; cbn [fst snd]; [by constructor; [apply Hw|]|by apply Forall_app|]. right. cbn [length]. destruct H3 as [-> | H3]; cbn [length] in *; lia.
Qed.

Lemma redirected_is c rs : is_cmd c -> Forall is_redir rs -> is_cmd (redirected c rs).
Proof. intros Hc Hrs. revert c Hc. induction Hrs as [|r rs Hr _ IH]; intros c Hc; cbn; [done|]. by apply IH. Qed.
Lemma backed_is n c : is_cmd c -> is_cmd (backed n c).
Proof. intros H. by induction n. Qed.

(** Every line is parsed or refused, and what is parsed are words of the line. *)
Lemma parse_gives n : forall s, s `suffix_of` line ->
  ((4 * length s + 4 <= n)%nat -> gives (fun c _ => is_cmd c) s (parseline n)) /\
  ((4 * length s + 3 <= n)%nat -> gives (fun c _ => is_cmd c) s (parsepipe n)) /\
  ((4 * length s + 2 <= n)%nat -> gives (fun c _ => is_cmd c) s (parseexec n)) /\
  ((4 * length s + 1 <= n)%nat -> gives (fun c _ => is_cmd c) s (parseblock n)).
Proof.
  induction n as [|n IH]; intros s Hin; [split_and!; lia|]. cbn [parseline parsepipe parseexec parseblock]. split_and!; intros Hn.
  - eapply gives_bind; [apply IH; [done|lia]|]. intros c s1 Hs1 Hc. pose proof (suffix_length _ _ Hs1). assert (s1 `suffix_of` line) as Hin1 by (by etransitivity).
    eapply gives_bind; [apply parsebacks_gives; [done|lia]|]. intros k s2 Hs2 _. pose proof (suffix_length _ _ Hs2). pose proof (backed_is k c Hc) as Hck.
    eapply gives_bind; [apply peek_gives|]. intros b s3 Hs3 Hb. pose proof (suffix_length _ _ Hs3). destruct b; [|by apply gives_ret].
    destruct (Hb eq_refl) as (d & s4 & E & _ & Hsk). assert (s3 `suffix_of` line) as Hin3 by (by do 2 (etransitivity; [eassumption|])).
    eapply gives_bind; [by apply (gettoken_seen s3 d s4)|]. intros tw s5 Hs5 [_ Hl].
    eapply gives_bind; [apply IH; [by etransitivity|lia]|]. intros r s6 _ Hr. by apply gives_ret.
  - eapply gives_bind; [apply IH; [done|lia]|]. intros c s1 Hs1 Hc. pose proof (suffix_length _ _ Hs1). assert (s1 `suffix_of` line) as Hin1 by (by etransitivity).
    eapply gives_bind; [apply peek_gives|]. intros b s3 Hs3 Hb. pose proof (suffix_length _ _ Hs3). destruct b; [|by apply gives_ret].
    destruct (Hb eq_refl) as (d & s4 & E & _ & Hsk). assert (s3 `suffix_of` line) as Hin3 by (by etransitivity).
    eapply gives_bind; [by apply (gettoken_seen s3 d s4)|]. intros tw s5 Hs5 [_ Hl].
    eapply gives_bind; [apply IH; [by etransitivity|lia]|]. intros r s6 _ Hr. by apply gives_ret.
  - eapply gives_bind; [apply peek_gives|]. intros b s1 Hs1 Hb. pose proof (suffix_length _ _ Hs1). assert (s1 `suffix_of` line) as Hin1 by (by etransitivity).
    destruct b; [apply IH; [done|lia]|]. eapply gives_bind; [apply parseredirs_gives; [done|lia]|]. intros rs s2 Hs2 Hrs. pose proof (suffix_length _ _ Hs2).
    eapply gives_bind; [apply parseargs_gives; [by etransitivity|lia]|]. intros a s3 _ (H1 & H2 & H3). apply gives_ret.
    apply redirected_is; [split; [done|]|by apply Forall_app]. destruct H3 as [-> | H3]; cbn in *; unfold MAXARGS in *; lia.
  - eapply gives_bind; [apply peek_gives|]. intros b s1 Hs1 Hb. pose proof (suffix_length _ _ Hs1). destruct b; cbn [negb]; [|apply gives_panic].
    destruct (Hb eq_refl) as (d & s2 & E & _ & Hsk). assert (s1 `suffix_of` line) as Hin1 by (by etransitivity).
    eapply gives_bind; [by apply (gettoken_seen s1 d s2)|]. intros tw s3 Hs3 [_ Hl]. assert (s3 `suffix_of` line) as Hin3 by (by etransitivity).
    eapply gives_bind; [apply IH; [done|lia]|]. intros c s4 Hs4 Hc. pose proof (suffix_length _ _ Hs4).
    eapply gives_bind; [apply peek_gives|]. intros b s5 Hs5 Hb5. pose proof (suffix_length _ _ Hs5). destruct b; cbn [negb]; [|apply gives_panic].
    destruct (Hb5 eq_refl) as (d5 & s6 & E5 & _ & Hsk5). assert (s5 `suffix_of` line) as Hin5 by (by do 2 (etransitivity; [eassumption|])).
    eapply gives_bind; [by apply (gettoken_seen s5 d5 s6)|]. intros tw5 s7 Hs7 [_ Hl7].
    eapply gives_bind; [apply parseredirs_gives; [by etransitivity|lia]|]. intros rs s8 _ Hrs. apply gives_ret. by apply redirected_is.
Qed.
End line.

(** ** The words after nulterminate *)

Fixpoint words (c : cmd word) : list word :=
  match c with
  | EXEC argv => argv
  | REDIR c r => words c ++ [r_file r]
  | PIPE l r | LIST l r => words l ++ words r
  | BACK c => words c
  end.

Lemma nulterminate_words base es c : forall m, nulterminate base es c m = fold_left (fun m w => st8 m (pos base es (snd w)) 0) (words c) m.
Proof.
  induction c as [argv|c IH r|l IHl r IHr|l IHl r IHr|c IH]; intros m; cbn [nulterminate words]; rewrite ?fold_left_app; [done|by rewrite IH|by rewrite IHr, IHl|by rewrite IHr, IHl|done].
Qed.

Lemma fold_st8 {A : Type} (f : A -> Z) l a : forall m, (forall x, x ∈ l -> f x <> a) -> ld8 (fold_left (fun m x => st8 m (f x) 0) l m) a = ld8 m a.
Proof.
  induction l as [|x l IH]; intros m H; cbn [fold_left]; [done|]. rewrite IH by (intros y Hy; apply H, elem_of_cons; by right).
  rewrite ld8_st8, (proj2 (Z.eqb_neq a (f x))); [done|]. intros ->. apply (H x); [apply elem_of_cons; by left|done].
Qed.
Lemma fold_st8_hit {A : Type} (f : A -> Z) l x : forall m, x ∈ l -> ld8 (fold_left (fun m x => st8 m (f x) 0) l m) (f x) = 0.
Proof.
  induction l as [|y l IH] using rev_ind; intros m Hx; [by apply not_elem_of_nil in Hx|]. rewrite fold_left_app. cbn [fold_left].
  rewrite ld8_st8. destruct (Z.eqb_spec (f x) (f y)) as [|Hne]; [done|]. apply elem_of_app in Hx as [Hx|Hx]; [by apply IH|].
  apply list_elem_of_singleton in Hx. congruence.
Qed.

Lemma suffix_same_length (s1 s2 l : list Z) : s1 `suffix_of` l -> s2 `suffix_of` l -> length s1 = length s2 -> s1 = s2.
Proof. intros [k1 E1] [k2 E2] Hl. rewrite E1 in E2. apply app_inj_2 in E2; [by destruct E2|done]. Qed.

Lemma is_cmd_words line c : is_cmd line c -> Forall (is_word line) (words c).
Proof.
  induction c as [argv|c IH r|l IHl r IHr|l IHl r IHr|c IH]; cbn [is_cmd words].
  - by intros [? _].
  - intros [Hc Hr]. apply Forall_app. split; [by apply IH|by apply Forall_singleton].
  - intros [Hl Hr]. apply Forall_app. auto.
  - intros [Hl Hr]. apply Forall_app. auto.
  - done.
Qed.

(** The end of a word is not inside another one. *)
Lemma word_ends_apart line base w w' i : is_word line w -> is_word line w' -> (i < length (text w))%nat ->
  pos base (Z.of_nat (length line)) (snd w') <> pos base (Z.of_nat (length line)) (fst w) + Z.of_nat i.
Proof.
  intros Hw Hw' Hi E. assert (snd w' = drop i (fst w)) as Es.
  { apply (suffix_same_length _ _ line).
    - etransitivity; [|exact (iw_in _ _ Hw')]. rewrite (iw_split _ _ Hw'). by exists (text w').
    - etransitivity; [|exact (iw_in _ _ Hw)]. exists (take i (fst w)). by rewrite take_drop.
    - pose proof (suffix_length _ _ (iw_in _ _ Hw)) as H1. pose proof (f_equal length (iw_split _ _ Hw)) as H2. rewrite length_app in H2.
      rewrite length_drop. unfold pos in E. lia. }
  pose proof (iw_end _ _ Hw') as He. rewrite Es, (iw_split _ _ Hw), drop_app_le in He by lia.
  destruct (lookup_lt_is_Some_2 (text w) i Hi) as [c Hc]. rewrite (drop_S _ _ _ Hc) in He. apply He.
  pose proof (iw_chars _ _ Hw) as Hch. rewrite Forall_forall in Hch. apply Hch. by eapply list_elem_of_lookup_2.
Qed.

Lemma nulterminate_strings line base c m : is_cmd line c -> has_at m base (line ++ [0]) ->
  forall w, w ∈ words c -> has_at (nulterminate base (Z.of_nat (length line)) c m) (pos base (Z.of_nat (length line)) (fst w)) (text w ++ [0]).
Proof.
  intros Hc Hm w Hw. pose proof (is_cmd_words _ _ Hc) as Hall. rewrite Forall_forall in Hall. pose proof (Hall w Hw) as Iw.
  rewrite nulterminate_words. set (es := Z.of_nat (length line)) in *. apply has_at_app. split.
  - intros i b Hi. rewrite (fold_st8 (fun w => pos base es (snd w))).
    + destruct (iw_in _ _ Iw) as [pre Epre]. apply has_at_app in Hm as [Hm _]. rewrite Epre in Hm. apply has_at_app in Hm as [_ Hm].
      rewrite (iw_split _ _ Iw) in Hm. apply has_at_app in Hm as [Hm _]. rewrite <- (Hm i b Hi). f_equal. f_equal. unfold pos, es. rewrite Epre, length_app. lia.
    + intros w' Hw'. apply word_ends_apart; [done|by apply Hall|by eapply lookup_lt_Some].
  - apply has_at_cons. split; [|by intros i d].
    pose proof (f_equal length (iw_split _ _ Iw)) as El. rewrite length_app in El.
    replace (pos base es (fst w) + Z.of_nat (length (text w))) with (pos base es (snd w)) by (unfold pos; lia).
    exact (fold_st8_hit (fun w => pos base es (snd w)) (words c) w m Hw).
Qed.

(** C29 parsecmd on every line: it returns or refuses the line with a message,
    and never runs out of steps; every command it returns has fewer than
    MAXARGS words, so that argv ends in a null pointer, and after nulterminate
    every word and file name in it is, as a string in the buffer, the bytes of
    the line from the first to the last of the word. *)
Theorem parsecmd_words (line : list Z) (m : mem) (base : Z) :
  Forall (fun c => 0 < c < 256) line -> has_at m base (line ++ [0]) ->
  (exists msg, parsecmd line = Panic msg) \/
  exists c, parsecmd line = Ret c /\ is_cmd line c /\
    forall w, w ∈ words c -> has_at (nulterminate base (Z.of_nat (length line)) c m) (pos base (Z.of_nat (length line)) (fst w)) (text w ++ [0]).
Proof.
  intros _ Hm. destruct (parse_gives line (parse_fuel line) line) as (H & _); [done|]. specialize (H (le_n _)). unfold gives in H. unfold parsecmd.
  destruct (parseline (parse_fuel line) line) as [[c s]|msg| | |]; try done; [|left; by exists msg].
  destruct H as [_ Hc]. destruct (skip s); [|left; by eexists]. right. exists c. split_and!; [done|done|]. by apply nulterminate_strings.
Qed.

(** ** Every command can be written *)

Fixpoint cmd_map {A B : Type} (f : A -> B) (c : cmd A) : cmd B :=
  match c with
  | EXEC argv => EXEC (map f argv)
  | REDIR c r => REDIR (cmd_map f c) (mkRedir (f (r_file r)) (r_mode r) (r_fd r))
  | PIPE l r => PIPE (cmd_map f l) (cmd_map f r)
  | LIST l r => LIST (cmd_map f l) (cmd_map f r)
  | BACK c => BACK (cmd_map f c)
  end.

(** The tokens of a command where the grammar has a line (0), a command that
    may go to the background (1), a pipeline (2) and a simple command (3). *)
Definition paren (b : bool) (l : list (list Z)) : list (list Z) := if b then [40] :: l ++ [[41]] else l.
Definition redir_toks (r : redir (list Z)) : list (list Z) := [[if r_fd r =? 0 then 60 else 62]; r_file r].
Fixpoint show (lvl : nat) (c : cmd (list Z)) : list (list Z) :=
  match c with
  | EXEC argv => argv
  | REDIR c r => show 3 c ++ redir_toks r
  | PIPE l r => paren (3 <=? lvl)%nat (show 3 l ++ [124] :: show 2 r)
  | BACK c => paren (2 <=? lvl)%nat (show 1 c ++ [[38]])
  | LIST l r => paren (1 <=? lvl)%nat (show 1 l ++ [59] :: show 0 r)
  end.
(** The text: every token followed by a blank. *)
Definition untok (l : list (list Z)) : list Z := concat (map (fun t => t ++ [32]) l).

(** A word that a line can hold, and a command made of them. *)
Definition word_ok (w : list Z) : Prop := w <> [] /\ Forall wordchar w /\ Forall (fun c => 0 < c < 256) w.
Definition redir_ok (r : redir (list Z)) : Prop :=
  word_ok (r_file r) /\ ((r_fd r = 0 /\ r_mode r = O_RDONLY) \/ (r_fd r = 1 /\ r_mode r = Z.lor O_WRONLY O_CREATE)).
Fixpoint cmd_ok (c : cmd (list Z)) : Prop :=
  match c with
  | EXEC argv => Forall word_ok argv /\ Z.of_nat (length argv) < MAXARGS
  | REDIR c r => cmd_ok c /\ redir_ok r
  | PIPE l r | LIST l r => cmd_ok l /\ cmd_ok r
  | BACK c => cmd_ok c
  end.

Definition tok_ok (t : list Z) : Prop := match t with [] => False | c :: _ => one_of whitespace c = false end.
Definition toks_ok (l : list (list Z)) : Prop := match l with [] => True | t :: _ => tok_ok t end.

Lemma word_tok w : word_ok w -> tok_ok w.
Proof. intros (Hne & Hw & _). destruct w as [|c w]; [done|]. by apply Forall_cons in Hw as [[? _] _]. Qed.

Lemma untok_cons t l : untok (t :: l) = t ++ 32 :: untok l.
Proof. unfold untok. cbn. by rewrite <- app_assoc. Qed.
Lemma skip_untok l : toks_ok l -> skip (untok l) = untok l.
Proof. destruct l as [|[|c t] l]; [done|done|]. cbn [toks_ok tok_ok]. intros H. rewrite untok_cons. cbn [app skip]. by rewrite H. Qed.
Lemma skip_blank l : toks_ok l -> skip (32 :: untok l) = untok l.
Proof. intros H. cbn [skip]. change (one_of whitespace 32) with true. by apply skip_untok. Qed.

Definition starts (chars : list Z) (l : list (list Z)) : bool := match l with (c :: _) :: _ => one_of chars c | _ => false end.

Lemma peek_untok toks l : toks_ok l -> peek toks (untok l) = Ret (starts toks l, untok l).
Proof. intros H. unfold peek. rewrite skip_untok by done. destruct l as [|[|c t] l]; done. Qed.

Lemma gettoken_sym c l : one_of [124; 40; 41; 59; 38; 60] c = true -> toks_ok l ->
  exists w, gettoken (untok ([c] :: l)) = Ret ((c, w), untok l).
Proof.
  intros Hc Hl. unfold gettoken. rewrite skip_untok.
  2:{ cbn [toks_ok tok_ok]. apply existsb_exists in Hc as (x & Hin & ->%Z.eqb_eq). repeat (destruct Hin as [<-|Hin]; [done|]). done. }
  rewrite untok_cons. cbn [app]. rewrite Hc. eexists. by rewrite skip_blank.
Qed.
Lemma gettoken_gt l : toks_ok l -> exists w, gettoken (untok ([62] :: l)) = Ret ((62, w), untok l).
Proof. intros Hl. unfold gettoken. rewrite skip_untok by done. rewrite untok_cons. cbn [app]. change (one_of _ 62) with false. cbn [Z.eqb]. eexists. by rewrite skip_blank. Qed.

Lemma word_end_word w l : Forall wordchar w -> word_end (w ++ 32 :: l) = 32 :: l.
Proof. intros H. induction H as [|c w [H1 H2] _ IH]; cbn [app word_end]; [done|]. rewrite H1, H2. exact IH. Qed.
Lemma gettoken_word w l : word_ok w -> toks_ok l ->
  exists p, gettoken (untok (w :: l)) = Ret ((97, p), untok l) /\ text p = w.
Proof.
  intros Hok Hl. unfold gettoken. rewrite skip_untok by (by apply word_tok). destruct Hok as (Hne & Hw & _). rewrite untok_cons.
  pose proof (word_end_word w (untok l) Hw) as He. destruct w as [|c w]; [done|]. cbn [app] in *.
  apply Forall_cons in Hw as [[H1 H2] Hw]. assert (one_of [124; 40; 41; 59; 38; 60] c = false /\ (c =? 62) = false) as [-> ->].
  { cbn in H2 |- *. repeat (apply orb_false_iff in H2 as [? H2]). split; [|done]. repeat (apply orb_false_iff; split; [done|]). done. }
  rewrite He. eexists. split; [by rewrite skip_blank|]. unfold text. cbn [fst snd length]. rewrite length_app. cbn [length].
  replace (S (length w + S (length (untok l))) - S (length (untok l)))%nat with (length (c :: w)) by (cbn; lia).
  rewrite app_comm_cons. by rewrite take_app_length.
Qed.

Definition redir_map {A B : Type} (f : A -> B) (r : redir A) : redir B := mkRedir (f (r_file r)) (r_mode r) (r_fd r).
Definition redirs_toks (rs : list (redir (list Z))) : list (list Z) := concat (map redir_toks rs).

Lemma redirs_toks_ok rs rest : toks_ok rest -> toks_ok (redirs_toks rs ++ rest).
Proof. intros H. destruct rs as [|r rs]; [done|]. cbn. by destruct (r_fd r =? 0). Qed.
Lemma args_toks_ok argv rest : Forall word_ok argv -> toks_ok rest -> toks_ok (argv ++ rest).
Proof. intros Ha H. destruct Ha as [|w argv Hw _]; [done|]. by apply word_tok. Qed.

Lemma parseredirs_reads n : forall rs rest, Forall redir_ok rs -> toks_ok rest -> starts [60; 62] rest = false -> (length rs <= n)%nat ->
  exists rs', parseredirs n (untok (redirs_toks rs ++ rest)) = Ret (rs', untok rest) /\ map (redir_map text) rs' = rs.
Proof.
  induction n as [|n IH]; intros [|r rs] rest Hrs Hrest Hst Hn; cbn [length] in Hn; try lia; cbn [parseredirs];
    try (exists []; split; [|done]; rewrite (bind_ret_eq _ _ _ _ _ (peek_untok _ _ Hrest)); by rewrite Hst).
  apply Forall_cons in Hrs as [[Hw Hr] Hrs]. pose proof (redirs_toks_ok rs rest Hrest) as Hok.
  change (redirs_toks (r :: rs) ++ rest) with ([if r_fd r =? 0 then 60 else 62] :: r_file r :: (redirs_toks rs ++ rest)). set (c := if r_fd r =? 0 then 60 else 62).
  rewrite (bind_ret_eq _ _ _ _ _ (peek_untok [60; 62] ([c] :: r_file r :: redirs_toks rs ++ rest) ltac:(unfold c; by destruct (_ =? 0)))).
  assert (starts [60; 62] ([c] :: r_file r :: redirs_toks rs ++ rest) = true) as -> by (unfold c; by destruct (_ =? 0)). cbn [negb].
  destruct (IH rs rest Hrs Hrest Hst ltac:(lia)) as (rs' & E & Em). destruct (gettoken_word _ _ Hw Hok) as (p & Ep & Tp).
  assert (exists w, gettoken (untok ([c] :: r_file r :: redirs_toks rs ++ rest)) = Ret ((c, w), untok (r_file r :: redirs_toks rs ++ rest))) as (w & Ew).
  { unfold c. destruct (r_fd r =? 0); [by apply gettoken_sym; [|apply word_tok]|by apply gettoken_gt, word_tok]. }
  rewrite (bind_ret_eq _ _ _ _ _ Ew), (bind_ret_eq _ _ _ _ _ Ep). cbn [fst snd Z.eqb Pos.eqb negb]. rewrite (bind_ret_eq _ _ _ _ _ E).
  eexists. split; [done|]. cbn [map]. rewrite Em. f_equal. unfold c, redir_map. destruct Hr as [[H1 H2]|[H1 H2]]; rewrite H1; cbn; rewrite Tp; destruct r; cbn in *; by subst.
Qed.

Definition ends_args (rest : list (list Z)) : Prop := rest = [] \/ starts [124; 41; 38; 59] rest = true.
Lemma ends_toks_ok rest : ends_args rest -> toks_ok rest.
Proof.
  intros [-> |H]; [done|]. destruct rest as [|[|c t] rest]; [done|done|]. cbn [starts] in H. cbn.
  apply existsb_exists in H as (x & Hin & ->%Z.eqb_eq). repeat (destruct Hin as [<-|Hin]; [done|]). done.
Qed.
Lemma ends_not_redir rest : ends_args rest -> starts [60; 62] rest = false.
Proof.
  intros [-> |H]; [done|]. destruct rest as [|[|c t] rest]; [done|done|]. cbn [starts] in *.
  apply existsb_exists in H as (x & Hin & ->%Z.eqb_eq). repeat (destruct Hin as [<-|Hin]; [done|]). done.
Qed.

Lemma parseargs_stop n argc rest : ends_args rest -> parseargs n argc (untok rest) = Ret (([], []), untok rest).
Proof.
  intros He. pose proof (ends_toks_ok _ He) as Hok. destruct n as [|n]; cbn [parseargs]; rewrite (bind_ret_eq _ _ _ _ _ (peek_untok _ _ Hok));
    (destruct He as [-> |He]; [|by rewrite He]); reflexivity.
Qed.

Lemma word_starts w rest chars : word_ok w -> (forall c, one_of chars c = true -> one_of symbols c = true) -> starts chars (w :: rest) = false.
Proof.
  intros (Hne & Hw & _) Hc. destruct w as [|c w]; [done|]. cbn [starts]. apply Forall_cons in Hw as [[_ H2] _].
  destruct (one_of chars c) eqn:E; [|done]. apply Hc in E. congruence.
Qed.
Lemma stops_are_symbols c : one_of [124; 41; 38; 59] c = true -> one_of symbols c = true.
Proof. intros H. apply existsb_exists in H as (x & Hin & ->%Z.eqb_eq). repeat (destruct Hin as [<-|Hin]; [done|]). done. Qed.
Lemma redirs_are_symbols c : one_of [60; 62] c = true -> one_of symbols c = true.
Proof. intros H. apply existsb_exists in H as (x & Hin & ->%Z.eqb_eq). repeat (destruct Hin as [<-|Hin]; [done|]). done. Qed.

Lemma parseargs_reads n : forall argv rs rest argc, Forall word_ok argv -> argv <> [] -> Forall redir_ok rs -> ends_args rest ->
  argc + Z.of_nat (length argv) < MAXARGS -> (length argv + length rs <= n)%nat ->
  exists a, parseargs n argc (untok (argv ++ redirs_toks rs ++ rest)) = Ret (a, untok rest) /\ map text (fst a) = argv /\ map (redir_map text) (snd a) = rs.
Proof.
  induction n as [|n IH]; intros [|w argv] rs rest argc Hargv Hne Hrs He Hm Hn; cbn [length] in Hn, Hm; try done; try lia.
  apply Forall_cons in Hargv as [Hw Hargv]. pose proof (ends_toks_ok _ He) as Hok. pose proof (redirs_toks_ok rs rest Hok) as Hok1.
  pose proof (args_toks_ok argv _ Hargv Hok1) as Hok2. cbn [app parseargs].
  rewrite (bind_ret_eq _ _ _ _ _ (peek_untok _ (w :: argv ++ redirs_toks rs ++ rest) (word_tok _ Hw))), (word_starts w _ _ Hw stops_are_symbols).
  destruct (gettoken_word w _ Hw Hok2) as (p & Ep & Tp). rewrite (bind_ret_eq _ _ _ _ _ Ep). cbn [fst snd Z.eqb Pos.eqb negb].
  rewrite (proj2 (Z.leb_gt MAXARGS (argc + 1))) by lia. destruct argv as [|w2 argv].
  - cbn [app]. destruct (parseredirs_reads n rs rest Hrs Hok (ends_not_redir _ He) ltac:(cbn in Hn; lia)) as (rs' & E & Em).
    rewrite (bind_ret_eq _ _ _ _ _ E), (bind_ret_eq _ _ _ _ _ (parseargs_stop n (argc + 1) rest He)). eexists. split; [done|]. cbn [fst snd map].
    rewrite app_nil_r, Tp. done.
  - destruct (parseredirs_reads n [] ((w2 :: argv) ++ redirs_toks rs ++ rest) ltac:(done) Hok2) as (rs' & E & Em); [|cbn; lia|].
    { apply word_starts; [by apply Forall_cons in Hargv as [? _]|apply redirs_are_symbols]. }
    apply map_eq_nil in Em as ->. cbn [redirs_toks map concat app] in E. rewrite (bind_ret_eq _ _ _ _ _ E).
    destruct (IH (w2 :: argv) rs rest (argc + 1) Hargv ltac:(done) Hrs He ltac:(cbn [length] in *; lia) ltac:(cbn [length] in *; lia)) as (a & Ea & Ma & Mr).
    rewrite (bind_ret_eq _ _ _ _ _ Ea). eexists. split; [done|]. cbn [fst snd map app]. by rewrite Tp, Ma.
Qed.

Lemma parsebacks_reads n : forall k rest, toks_ok rest -> starts [38] rest = false -> (k <= n)%nat ->
  parsebacks n (untok (replicate k [38] ++ rest)) = Ret (k, untok rest).
Proof.
  induction n as [|n IH]; intros [|k] rest Hok Hst Hk; try lia; cbn [parsebacks replicate app];
    try (rewrite (bind_ret_eq _ _ _ _ _ (peek_untok _ _ Hok)); by rewrite Hst).
  assert (toks_ok (replicate k [38] ++ rest)) as Hok' by (by destruct k).
  rewrite (bind_ret_eq _ _ _ _ _ (peek_untok [38] ([38] :: replicate k [38] ++ rest) eq_refl)). cbn [starts].
  destruct (gettoken_sym 38 _ eq_refl Hok') as (w & Ew). change (one_of [38] 38) with true. cbn [negb]. rewrite (bind_ret_eq _ _ _ _ _ Ew), (bind_ret_eq _ _ _ _ _ (IH k rest Hok Hst ltac:(lia))). done.
Qed.

(** [p] reads the command [c] in front of [rest]. *)
Definition reads (p : M (list Z) (cmd word)) (l : list (list Z)) (c : cmd (list Z)) (rest : list (list Z)) : Prop :=
  exists t, p (untok (l ++ rest)) = Ret (t, untok rest) /\ cmd_map text t = c.

(** What may follow a line, a pipeline and a simple command. *)
Definition after (chars : list Z) (rest : list (list Z)) : Prop := rest = [] \/ starts chars rest = true.
Definition len (l : list (list Z)) : nat := length (untok l).

Definition reads_line (c : cmd (list Z)) : Prop := forall n rest, after [41] rest -> (4 * len (show 0 c ++ rest) + 4 <= n)%nat -> reads (parseline n) (show 0 c) c rest.
Definition reads_pipe (c : cmd (list Z)) : Prop := forall n rest, after [41; 38; 59] rest -> (4 * len (show 2 c ++ rest) + 3 <= n)%nat -> reads (parsepipe n) (show 2 c) c rest.
Definition reads_exec (c : cmd (list Z)) : Prop := forall n rest, ends_args rest -> (4 * len (show 3 c ++ rest) + 2 <= n)%nat -> reads (parseexec n) (show 3 c) c rest.

Lemma len_app l l' : len (l ++ l') = (len l + len l')%nat.
Proof. unfold len, untok. by rewrite map_app, concat_app, length_app. Qed.
Lemma len_cons t l : len (t :: l) = (length t + 1 + len l)%nat.
Proof. unfold len. rewrite untok_cons, length_app. cbn. lia. Qed.

(** What a token that ends one thing is not the start of. *)
Lemma after_starts chars other rest : after chars rest -> (forall c, one_of chars c = true -> one_of other c = false) -> starts other rest = false.
Proof. intros [-> |H] Hc; [done|]. destruct rest as [|[|c t] rest]; [done|done|]. by apply Hc. Qed.
Lemma after_weaken chars other rest : after chars rest -> (forall c, one_of chars c = true -> one_of other c = true) -> after other rest.
Proof. intros [-> |H] Hc; [by left|]. right. destruct rest as [|[|c t] rest]; [done|done|]. by apply Hc. Qed.

(** Membership of constants in constant strings. *)
Ltac chars :=
  let c := fresh in let H := fresh in let x := fresh in let Hin := fresh in
  intros c H; apply existsb_exists in H as (x & Hin & ->%Z.eqb_eq); repeat (destruct Hin as [<-|Hin]; [done|]); done.

Lemma pipe_of_exec c : show 2 c = show 3 c -> reads_exec c -> reads_pipe c.
Proof.
  intros Es He n rest Hr Hn. destruct n as [|n]; [lia|]. rewrite Es in *. assert (ends_args rest) as Hends by (eapply after_weaken; [exact Hr|chars]).
  destruct (He n rest Hends ltac:(lia)) as (t & Et & Mt). exists t. split; [|done]. cbn [parsepipe]. rewrite (bind_ret_eq _ _ _ _ _ Et).
  rewrite (bind_ret_eq _ _ _ _ _ (peek_untok _ _ (ends_toks_ok _ Hends))). rewrite (after_starts _ _ _ Hr) by chars. done.
Qed.

(** A pipeline and the marks that put it into the background. *)
Fixpoint unback (c : cmd (list Z)) : nat * cmd (list Z) := match c with BACK c => let (k, x) := unback c in (S k, x) | _ => (0%nat, c) end.
Lemma unback_show c : let (k, x) := unback c in c = backed k x /\ show 1 c = show 2 x ++ replicate k [38].
Proof.
  induction c as [argv|c IH r|l IHl r IHr|l IHl r IHr|c IH]; cbn [unback backed Nat.iter show replicate paren]; rewrite ?app_nil_r; try done.
  destruct (unback c) as [k x]. destruct IH as [-> ->]. cbn [paren Nat.leb]. split; [done|]. rewrite <- app_assoc. f_equal.
  symmetry. exact (replicate_cons_app k [38]).
Qed.
Lemma cmd_map_backed {A B : Type} (f : A -> B) k c : cmd_map f (backed k c) = backed k (cmd_map f c).
Proof. induction k as [|k IH]; cbn; [done|]. by f_equal. Qed.
Lemma cmd_map_redirected {A B : Type} (f : A -> B) rs : forall c, cmd_map f (redirected c rs) = redirected (cmd_map f c) (map (redir_map f) rs).
Proof. induction rs as [|r rs IH]; intros c; cbn; [done|]. apply IH. Qed.

(** parseline up to the semicolon. *)
Lemma line_start c : reads_pipe (snd (unback c)) -> forall n rest, after [41; 59] rest -> (4 * len (show 1 c ++ rest) + 3 <= n)%nat ->
  exists t, (let* p := parsepipe n in let* k := parsebacks n in ret (backed k p)) (untok (show 1 c ++ rest)) = Ret (t, untok rest) /\ cmd_map text t = c.
Proof.
  intros Hp n rest Hr Hn. pose proof (unback_show c) as Hu. destruct (unback c) as [k x]. cbn [snd] in Hp. destruct Hu as [Ec Es]. rewrite Es, <- app_assoc in *.
  assert (toks_ok rest) as Hok by (apply ends_toks_ok; eapply after_weaken; [exact Hr|chars]).
  destruct (Hp n (replicate k [38] ++ rest)) as (t & Et & Mt); [|done|].
  { destruct k; cbn [replicate app]; [eapply after_weaken; [exact Hr|chars]|by right]. }
  assert (k <= n)%nat as Hk.
  { rewrite !len_app in Hn. assert (k <= len (replicate k [38%Z]))%nat; [|lia]. clear. induction k as [|k IH]; cbn [replicate]; [done|]. rewrite len_cons. cbn. lia. }
  rewrite (bind_ret_eq _ _ _ _ _ Et), (bind_ret_eq _ _ _ _ _ (parsebacks_reads n k rest Hok (after_starts [41; 59] [38] rest Hr ltac:(chars)) Hk)).
  eexists. split; [done|]. by rewrite cmd_map_backed, Mt.
Qed.

Lemma show_toks_ok c : forall lvl rest, cmd_ok c -> toks_ok rest -> toks_ok (show lvl c ++ rest).
Proof.
  induction c as [argv|c IH r|l IHl r IHr|l IHl r IHr|c IH]; intros lvl rest Hc Hrest; cbn [cmd_ok show] in *.
  - by apply args_toks_ok; [apply Hc|].
  - rewrite <- app_assoc. apply IH; [apply Hc|]. cbn. by destruct (_ =? 0).
  - destruct (3 <=? lvl)%nat; cbn [paren]; [done|]. rewrite <- app_assoc. apply IHl; [apply Hc|done].
  - destruct (1 <=? lvl)%nat; cbn [paren]; [done|]. rewrite <- app_assoc. apply IHl; [apply Hc|done].
  - destruct (2 <=? lvl)%nat; cbn [paren]; [done|]. rewrite <- app_assoc. by apply IH.
Qed.

Lemma after_toks_ok rest : after [41] rest -> toks_ok rest.
Proof. intros H. apply ends_toks_ok. eapply after_weaken; [exact H|chars]. Qed.

(** A line is what comes before the semicolon, and the rest. *)
Lemma parseline_start n s t s' : (let* p := parsepipe n in let* k := parsebacks n in ret (backed k p)) s = Ret (t, s') ->
  parseline (S n) s = (let* b := peek [59] in if b then let* _ := gettoken in let* r := parseline n in ret (LIST t r) else ret t) s'.
Proof.
  intros H. cbn [parseline]. unfold bind at 1 2 in H. unfold bind at 1. destruct (parsepipe n s) as [[p s1]| | | |]; try done.
  unfold bind at 1. destruct (parsebacks n s1) as [[k s2]| | | |]; try done. injection H as <- <-. done.
Qed.

Lemma line_of_list l r : cmd_ok r -> reads_pipe (snd (unback l)) -> reads_line r -> reads_line (LIST l r).
Proof.
  intros Hok Hl Hr n rest Ha Hn. destruct n as [|n]; [lia|]. unfold reads. cbn [show paren Nat.leb] in *. rewrite <- app_assoc in *. cbn [app] in *.
  destruct (line_start l Hl n ([59] :: show 0 r ++ rest) ltac:(by right) ltac:(lia)) as (tl & El & Ml).
  rewrite len_app, len_cons in Hn. cbn [length] in Hn. destruct (Hr n rest Ha ltac:(lia)) as (tr & Er & Mr).
  destruct (gettoken_sym 59 _ eq_refl (show_toks_ok r 0 rest Hok (after_toks_ok _ Ha))) as (w & Ew).
  exists (LIST tl tr). split; [|cbn; congruence]. rewrite (parseline_start _ _ _ _ El).
  rewrite (bind_ret_eq _ _ _ _ _ (peek_untok [59] ([59] :: show 0 r ++ rest) eq_refl)). cbn [starts]. change (one_of [59] 59) with true. cbv iota.
  rewrite (bind_ret_eq _ _ _ _ _ Ew), (bind_ret_eq _ _ _ _ _ Er). done.
Qed.

(** A line without a semicolon. *)
Lemma line_of_back c : show 0 c = show 1 c -> reads_pipe (snd (unback c)) -> reads_line c.
Proof.
  intros Es Hc n rest Ha Hn. destruct n as [|n]; [lia|]. rewrite Es in *.
  assert (after [41; 59] rest) as Ha' by (eapply after_weaken; [exact Ha|chars]).
  destruct (line_start c Hc n rest Ha' ltac:(lia)) as (t & Et & Mt). exists t. split; [|done]. rewrite (parseline_start _ _ _ _ Et).
  rewrite (bind_ret_eq _ _ _ _ _ (peek_untok [59] rest (after_toks_ok _ Ha))), (after_starts [41] [59] rest Ha) by chars. done.
Qed.

Lemma pipe_of_pipe l r : cmd_ok r -> reads_exec l -> reads_pipe r -> reads_pipe (PIPE l r).
Proof.
  intros Hok Hl Hr n rest Ha Hn. destruct n as [|n]; [lia|]. unfold reads. cbn [show paren Nat.leb] in *. rewrite <- app_assoc in *. cbn [app] in *.
  destruct (Hl n ([124] :: show 2 r ++ rest) ltac:(by right) ltac:(lia)) as (tl & El & Ml).
  rewrite len_app, len_cons in Hn. cbn [length] in Hn. destruct (Hr n rest Ha ltac:(lia)) as (tr & Er & Mr).
  assert (toks_ok rest) as Hok' by (apply ends_toks_ok; eapply after_weaken; [exact Ha|chars]).
  destruct (gettoken_sym 124 _ eq_refl (show_toks_ok r 2 rest Hok Hok')) as (w & Ew).
  exists (PIPE tl tr). split; [|cbn; congruence]. cbn [parsepipe]. rewrite (bind_ret_eq _ _ _ _ _ El).
  rewrite (bind_ret_eq _ _ _ _ _ (peek_untok [124] ([124] :: show 2 r ++ rest) eq_refl)). cbn [starts]. change (one_of [124] 124) with true. cbv iota.
  rewrite (bind_ret_eq _ _ _ _ _ Ew), (bind_ret_eq _ _ _ _ _ Er). done.
Qed.

Lemma toks_length argv rs rest : (length argv + length rs <= len (argv ++ redirs_toks rs ++ rest))%nat.
Proof.
  rewrite !len_app. assert (length argv <= len argv)%nat as H1.
  { induction argv as [|w argv IH]; cbn [length]; [lia|]. rewrite len_cons. lia. }
  assert (length rs <= len (redirs_toks rs))%nat as H2.
  { induction rs as [|r rs IH]; cbn [length]; [lia|]. unfold redirs_toks in *. cbn [map concat redir_toks app]. rewrite !len_cons. cbn [length]. lia. }
  lia.
Qed.

(** A block with redirections. *)
Lemma block_reads c rs n rest : cmd_ok c -> Forall redir_ok rs -> reads_line c -> ends_args rest ->
  (4 * len (([40%Z] :: show 0 c ++ [[41%Z]]) ++ redirs_toks rs ++ rest) + 2 <= n)%nat ->
  exists t, parseexec n (untok (([40] :: show 0 c ++ [[41]]) ++ redirs_toks rs ++ rest)) = Ret (t, untok rest) /\ cmd_map text t = redirected c rs.
Proof.
  intros Hok Hrs Hc Ha Hn. destruct n as [|[|n]]; [lia|lia|]. cbn [app] in *. rewrite <- app_assoc in *. cbn [app] in *. rewrite len_cons in Hn. cbn [length] in Hn.
  pose proof (ends_toks_ok _ Ha) as Hrok. pose proof (redirs_toks_ok rs rest Hrok) as Hrok'.
  destruct (Hc n ([41] :: redirs_toks rs ++ rest) ltac:(by right) ltac:(lia)) as (t & Et & Mt).
  assert (length rs <= n)%nat as Hl.
  { rewrite len_app, len_cons in Hn. cbn [length] in Hn. pose proof (toks_length [] rs rest) as H0. cbn [length app] in H0. lia. }
  destruct (parseredirs_reads n rs rest Hrs Hrok (ends_not_redir _ Ha) Hl) as (rs' & Er & Mr).
  destruct (gettoken_sym 40 _ eq_refl (show_toks_ok c 0 ([41] :: redirs_toks rs ++ rest) Hok eq_refl)) as (w & Ew).
  destruct (gettoken_sym 41 _ eq_refl Hrok') as (w' & Ew').
  pose proof (peek_untok [40] ([40] :: show 0 c ++ [41] :: redirs_toks rs ++ rest) eq_refl) as Ep. cbn [starts] in Ep. change (one_of [40] 40) with true in Ep.
  exists (redirected t rs'). split; [|by rewrite cmd_map_redirected, Mt, Mr]. cbn [parseexec]. rewrite (bind_ret_eq _ _ _ _ _ Ep). cbn [parseblock].
  rewrite (bind_ret_eq _ _ _ _ _ Ep). cbn [negb]. rewrite (bind_ret_eq _ _ _ _ _ Ew), (bind_ret_eq _ _ _ _ _ Et).
  rewrite (bind_ret_eq _ _ _ _ _ (peek_untok [41] ([41] :: redirs_toks rs ++ rest) eq_refl)). cbn [starts]. change (one_of [41] 41) with true. cbn [negb].
  rewrite (bind_ret_eq _ _ _ _ _ Ew'), (bind_ret_eq _ _ _ _ _ Er). done.
Qed.

(** A simple command with redirections. *)
Lemma exec_reads argv rs n rest : Forall word_ok argv -> Z.of_nat (length argv) < MAXARGS -> Forall redir_ok rs -> ends_args rest ->
  (4 * len (argv ++ redirs_toks rs ++ rest) + 2 <= n)%nat ->
  exists t, parseexec n (untok (argv ++ redirs_toks rs ++ rest)) = Ret (t, untok rest) /\ cmd_map text t = redirected (EXEC argv) rs.
Proof.
  intros Hw Hm Hrs Ha Hn. destruct n as [|n]; [lia|]. pose proof (ends_toks_ok _ Ha) as Hok. pose proof (redirs_toks_ok rs rest Hok) as Hok1.
  pose proof (args_toks_ok argv _ Hw Hok1) as Hok2. pose proof (toks_length argv rs rest) as Hl.
  assert (starts [40] (argv ++ redirs_toks rs ++ rest) = false) as Hst.
  { destruct Hw as [|w argv Hw _]; cbn [app]; [|apply word_starts; [done|chars]].
    destruct rs as [|r rs]; [cbn [redirs_toks map concat app]; apply (after_starts [124; 41; 38; 59]); [done|chars]|]. cbn. by destruct (_ =? 0). }
  cbn [parseexec]. rewrite (bind_ret_eq _ _ _ _ _ (peek_untok [40] _ Hok2)), Hst. destruct argv as [|w argv].
  - cbn [app]. destruct (parseredirs_reads n rs rest Hrs Hok (ends_not_redir _ Ha) ltac:(cbn [length] in Hl; lia)) as (rs' & Er & Mr).
    rewrite (bind_ret_eq _ _ _ _ _ Er), (bind_ret_eq _ _ _ _ _ (parseargs_stop n 0 rest Ha)). eexists. split; [done|]. cbn [fst snd].
    by rewrite app_nil_r, cmd_map_redirected, Mr.
  - destruct (parseredirs_reads n [] ((w :: argv) ++ redirs_toks rs ++ rest) ltac:(done) Hok2) as (rs' & E & Em); [|cbn; lia|].
    { apply word_starts; [by apply Forall_cons in Hw as [? _]|apply redirs_are_symbols]. }
    apply map_eq_nil in Em as ->. cbn [redirs_toks map concat app] in E. rewrite (bind_ret_eq _ _ _ _ _ E).
    destruct (parseargs_reads n (w :: argv) rs rest 0 Hw ltac:(done) Hrs Ha ltac:(lia) ltac:(lia)) as (a & Ea & Ma & Mr).
    rewrite (bind_ret_eq _ _ _ _ _ Ea). eexists. split; [done|]. cbn [app]. rewrite cmd_map_redirected, Mr. cbn [cmd_map]. by rewrite Ma.
Qed.

(** A command is a block or a simple command inside its redirections. *)
Fixpoint unredir (c : cmd (list Z)) : cmd (list Z) * list (redir (list Z)) :=
  match c with REDIR c r => let (b, rs) := unredir c in (b, rs ++ [r]) | _ => (c, []) end.
Lemma unredir_show c : let (b, rs) := unredir c in c = redirected b rs /\ show 3 c = show 3 b ++ redirs_toks rs /\
  (cmd_ok c -> cmd_ok b /\ Forall redir_ok rs) /\ forall d r, b <> REDIR d r.
Proof.
  induction c as [argv|c IH r|l IHl r IHr|l IHl r IHr|c IH]; cbn [unredir]; try (split_and!; [done|by rewrite app_nil_r|done|done]).
  destruct (unredir c) as [b rs]. destruct IH as (E1 & E2 & E3 & E4). split_and!; [|cbn [show]; rewrite E2| |done].
  - unfold redirected in *. rewrite fold_left_app. cbn. by f_equal.
  - unfold redirs_toks. rewrite map_app, concat_app. cbn [map concat]. by rewrite app_nil_r, app_assoc.
  - intros [Hc Hr]. destruct (E3 Hc). split; [done|]. apply Forall_app. by split; [|apply Forall_singleton].
Qed.

(** Levels of commands that are not of one kind agree. *)
Fixpoint csize (c : cmd (list Z)) : nat :=
  match c with EXEC _ => 1%nat | REDIR c _ | BACK c => S (csize c) | PIPE l r | LIST l r => S (csize l + csize r) end.
Lemma csize_unback c : (csize (snd (unback c)) <= csize c)%nat.
Proof. induction c as [argv|c IH r|l IHl r IHr|l IHl r IHr|c IH]; cbn [unback snd]; try done. destruct (unback c). cbn in *. lia. Qed.
Lemma csize_unredir c : (csize (fst (unredir c)) <= csize c)%nat.
Proof. induction c as [argv|c IH r|l IHl r IHr|l IHl r IHr|c IH]; cbn [unredir fst]; try done. destruct (unredir c). cbn in *. lia. Qed.

Lemma exec_of_line c : show 3 c = [40] :: show 0 c ++ [[41]] -> cmd_ok c -> reads_line c -> reads_exec c.
Proof.
  intros Es Hok Hl n rest Ha Hn. rewrite Es in *. unfold reads.
  exact (block_reads c [] n rest Hok (List.Forall_nil _) Hl Ha Hn).
Qed.
Lemma unback_ok c : cmd_ok c -> cmd_ok (snd (unback c)).
Proof. induction c as [argv|c IH r|l IHl r IHr|l IHl r IHr|c IH]; cbn [unback snd]; try done. destruct (unback c). done. Qed.

Lemma redir_reads c r : cmd_ok (REDIR c r) -> (forall b, (csize b <= csize c)%nat -> cmd_ok b -> reads_line b) -> reads_exec (REDIR c r).
Proof.
  intros Hok IH n rest Ha Hn. pose proof (unredir_show (REDIR c r)) as Hu. pose proof (csize_unredir c) as Hsz. cbn [unredir] in Hu.
  destruct (unredir c) as [b rs]. cbn [fst] in Hsz. destruct Hu as (E1 & E2 & E3 & E4). destruct (E3 Hok) as [Hb Hrs]. set (rs' := rs ++ [r]) in *.
  unfold reads. rewrite E1, E2, <- app_assoc in *. destruct b as [argv|d r0|l r0|l r0|d].
  - destruct Hb as [H1 H2]. exact (exec_reads argv rs' n rest H1 H2 Hrs Ha Hn).
  - by destruct (E4 d r0).
  - exact (block_reads (PIPE l r0) rs' n rest Hb Hrs (IH _ Hsz Hb) Ha Hn).
  - exact (block_reads (LIST l r0) rs' n rest Hb Hrs (IH _ Hsz Hb) Ha Hn).
  - exact (block_reads (BACK d) rs' n rest Hb Hrs (IH _ Hsz Hb) Ha Hn).
Qed.

Lemma all_reads k : forall c, (csize c <= k)%nat -> cmd_ok c -> reads_line c /\ reads_pipe c /\ reads_exec c.
Proof.
  induction k as [|k IH]; intros c Hk Hok; [destruct c; cbn in Hk; lia|]. destruct c as [argv|c r|l r|l r|c]; cbn [csize] in Hk.
  - assert (reads_exec (EXEC argv)) as He by (intros n rest Ha Hn; destruct Hok; by apply (exec_reads argv [] n rest)).
    assert (reads_pipe (EXEC argv)) as Hp by (by apply pipe_of_exec). split_and!; [by apply line_of_back|done|done].
  - assert (reads_exec (REDIR c r)) as He by (apply redir_reads; [done|]; intros b Hb Hbok; apply IH; [lia|done]).
    assert (reads_pipe (REDIR c r)) as Hp by (by apply pipe_of_exec). split_and!; [by apply line_of_back|done|done].
  - destruct Hok as [Hl Hr]. destruct (IH l ltac:(lia) Hl) as (_ & _ & El). destruct (IH r ltac:(lia) Hr) as (_ & Pr & _).
    assert (reads_pipe (PIPE l r)) as Hp by (by apply pipe_of_pipe). assert (reads_line (PIPE l r)) as Hli by (by apply line_of_back).
    split_and!; [done|done|by apply exec_of_line].
  - destruct Hok as [Hl Hr]. destruct (IH (snd (unback l))) as (_ & Pl & _); [pose proof (csize_unback l); lia|by apply unback_ok|]. destruct (IH r ltac:(lia) Hr) as (Lr & _ & _).
    assert (reads_line (LIST l r)) as Hli by (by apply line_of_list). assert (reads_exec (LIST l r)) as He by (by apply exec_of_line).
    split_and!; [done|by apply pipe_of_exec|done].
  - destruct (IH (snd (unback c))) as (_ & Pc & _); [pose proof (csize_unback c); lia|by apply unback_ok|].
    assert (reads_line (BACK c)) as Hli by (apply line_of_back; [done|]; cbn [unback]; by destruct (unback c)).
    assert (reads_exec (BACK c)) as He by (by apply exec_of_line). split_and!; [done|by apply pipe_of_exec|done].
Qed.

(** The tree of strings that a tree of pointers is after nulterminate. *)
Definition strings_are (m : mem) (base es : Z) (t : cmd word) (c : cmd (list Z)) : Prop :=
  cmd_map text t = c /\ forall w, w ∈ words t -> has_at m (pos base es (fst w)) (text w ++ [0]).

(** C18 Every command can be given to the shell: the text of a command, written
    with parentheses where the grammar needs them, is parsed into that very
    command, with its words as strings in the buffer. *)
Theorem shell_roundtrip (c : cmd (list Z)) (m : mem) (base : Z) :
  cmd_ok c -> has_at m base (untok (show 0 c) ++ [0]) ->
  exists t, parsecmd (untok (show 0 c)) = Ret t /\
    strings_are (nulterminate base (Z.of_nat (length (untok (show 0 c)))) t m) base (Z.of_nat (length (untok (show 0 c)))) t c.
Proof.
  intros Hok Hm. set (line := untok (show 0 c)) in *. destruct (all_reads (csize c) c (le_n _) Hok) as (Hl & _ & _).
  destruct (Hl (parse_fuel line) [] ltac:(by left)) as (t & Et & Mt); [unfold parse_fuel, len; rewrite app_nil_r; fold line; lia|].
  rewrite app_nil_r in Et. fold line in Et.
  destruct (parse_gives line (parse_fuel line) line) as (H & _); [done|]. specialize (H (le_n _)). unfold gives in H. rewrite Et in H. destruct H as [_ Hc].
  exists t. split; [unfold parsecmd; by rewrite Et|]. split; [done|]. by apply nulterminate_strings.
Qed.

(** [ ( ls | wc ) > out & ; cat < in ] *)
Definition ex_cmd : cmd (list Z) :=
  LIST (BACK (REDIR (PIPE (EXEC [[108; 115]]) (EXEC [[119; 99]])) (mkRedir [111; 117; 116] (Z.lor O_WRONLY O_CREATE) 1)))
       (REDIR (EXEC [[99; 97; 116]]) (mkRedir [105; 110] O_RDONLY 0)).
Definition ex_line : mem := string_mem (untok (show 0 ex_cmd)).

Lemma ex_cmd_ok : cmd_ok ex_cmd.
Proof. cbn. unfold redir_ok, word_ok, wordchar. cbn. repeat first [done|left; split; done|right; split; done|split|constructor|lia]. Qed.
Lemma ex_line_at : has_at ex_line 0 (untok (show 0 ex_cmd) ++ [0]).
Proof. apply string_mem_has. cbn. repeat constructor; lia. Qed.

Lemma shell_roundtrip_witness : exists t, parsecmd (untok (show 0 ex_cmd)) = Ret t /\
  strings_are (nulterminate 0 (Z.of_nat (length (untok (show 0 ex_cmd)))) t ex_line) 0 (Z.of_nat (length (untok (show 0 ex_cmd)))) t ex_cmd.
Proof. exact (shell_roundtrip ex_cmd ex_line 0 ex_cmd_ok ex_line_at). Defined.

(** The line "a >b" *)
Lemma parsecmd_words_witness : exists c, parsecmd [97; 32; 62; 98] = Ret c /\ is_cmd [97; 32; 62; 98] c /\
  forall w, w ∈ words c -> has_at (nulterminate 0 4 c (string_mem [97; 32; 62; 98])) (pos 0 4 (fst w)) (text w ++ [0]).
Proof.
  destruct (parsecmd_words [97; 32; 62; 98] (string_mem [97; 32; 62; 98]) 0) as [[msg H]|H]; [repeat constructor; lia|apply string_mem_has; repeat constructor; lia|vm_compute in H; discriminate H|exact H].
Defined.
