(* ===== verification/Tools.v ===== *)
(** * Small user programs (wc.c, cat.c, and fmtname of ls.c)

    A call of read yields bytes, none at the end of the file, or fails; a
    program's output is the bytes it passes to write, in order. *)

From Stdlib Require Import ZArith Lia String Bool.
From stdpp Require Import base numbers list.
From S2P Require Import Prelude Params Mem FsState Ulib.

(** The results of the calls of read: a failure is [None]. *)
Definition input : Type := list (option (list Z)).

(** ** wc.c *)

(** strchr in the blanks: a NUL is not one of them. *)
Definition is_blank (c : Z) : bool := existsb (Z.eqb c) [32; 13; 9; 10; 11].

Record wc_t : Type := mkWc { wl : Z; ww : Z; wchars : Z; inword : bool }.
Definition wc_char (s : wc_t) (ch : Z) : wc_t :=
  let c := s32 (wchars s + 1) in
  let l := if ch =? 10 then s32 (wl s + 1) else wl s in
  if is_blank ch then mkWc l (ww s) c false
  else if negb (inword s) then mkWc l (s32 (ww s + 1)) c true
  else mkWc l (ww s) c (inword s).
(** The loop of wc: the counts, or none when a read fails *)
Fixpoint wc_loop (reads : input) (s : wc_t) : outcome (option wc_t) :=
  match reads with
  | [] => Blocked
  | None :: _ => Ret None
  | Some chunk :: reads => if (length chunk =? 0)%nat then Ret (Some s) else wc_loop reads (fold_left wc_char chunk s)
  end.
(** What wc prints, and whether it leaves the program *)
Definition wc (reads : input) (name : list Z) : outcome (list Z * bool) :=
  match wc_loop reads (mkWc 0 0 0 false) with
  | Ret None => Ret (text_of "wc: read error" ++ [10], true)
  | Ret (Some s) =>
    match printf (text_of "%d %d %d %s" ++ [10]) [UInt (wl s); UInt (ww s); UInt (wchars s); UStr (Some name)] with
    | Ret out => Ret (out, false) | Panic m => Panic m | Fault w => Fault w | Blocked => Blocked | NoFuel => NoFuel
    end
  | Panic m => Panic m | Fault w => Fault w | Blocked => Blocked | NoFuel => NoFuel
  end.

(** ** cat.c *)

Fixpoint cat (reads : input) : outcome (list Z * bool) :=
  match reads with
  | [] => Blocked
  | None :: _ => Ret (text_of "cat: read error" ++ [10], true)
  | Some chunk :: reads =>
    if (length chunk =? 0)%nat then Ret ([], false) else
    match cat reads with Ret (out, e) => Ret (chunk ++ out, e) | o => o end
  end.

(** ** fmtname of ls.c *)

Definition c_slash : Z := 47.
(** The scan from the end: the index of the last slash, or -1 *)
Fixpoint last_slash (n : nat) (path : list Z) : Z :=
  if nth n path 0 =? c_slash then Z.of_nat n else
  match n with O => -1 | S n => last_slash n path end.
Definition fmtname (path : list Z) : list Z :=
  let p := drop (Z.to_nat (last_slash (length path) path + 1)) path in
  if DIRSIZ <=? Z.of_nat (length p) then p
  else p ++ replicate (Z.to_nat (DIRSIZ - Z.of_nat (length p))) 32.

(** ** What they do *)

(** A text as blanks and words in turn: each pair is a word with the blanks before
    it; the last part is blanks. *)
Record split_text (text : list Z) (parts : list (list Z * list Z)) (rest : list Z) : Prop := {
  sp_text : text = concat (map (fun p => fst p ++ snd p) parts) ++ rest;
  sp_words : Forall (fun p => snd p <> [] /\ Forall (fun c => is_blank c = false) (snd p)) parts;
  sp_blanks : Forall (fun p => Forall (fun c => is_blank c = true) (fst p)) parts;
  sp_apart : Forall (fun p => fst p <> []) (tail parts);
  sp_rest : Forall (fun c => is_blank c = true) rest
}.

Definition newlines (text : list Z) : Z := Z.of_nat (length (List.filter (fun c => c =? 10) text)).

(** The counts after a text, from counts that do not overflow *)
Lemma wc_text text : forall s, 0 <= wl s <= wchars s -> 0 <= ww s <= wchars s -> wchars s + Z.of_nat (length text) < 2 ^ 31 ->
  let s' := fold_left wc_char text s in wl s' = wl s + newlines text /\ wchars s' = wchars s + Z.of_nat (length text) /\ 0 <= wl s' <= wchars s' /\ 0 <= ww s' <= wchars s'.
Proof.
  induction text as [|c text IH]; intros s Hl Hw Hc; cbn [fold_left length] in *; [unfold newlines; cbn; lia|].
  assert (forall x, 0 <= x <= wchars s -> s32 (x + 1) = x + 1) as H32 by (intros x Hx; apply s32_small; lia).
  assert (wchars (wc_char s c) = wchars s + 1) as E1 by (unfold wc_char; destruct (is_blank c), (inword s); cbn; apply H32; lia).
  assert (wl (wc_char s c) = wl s + (if c =? 10 then 1 else 0)) as E2 by (unfold wc_char; destruct (is_blank c), (inword s), (c =? 10); cbn; rewrite ?H32 by lia; lia).
  assert (ww s <= ww (wc_char s c) <= ww s + 1) as E3 by (unfold wc_char; destruct (is_blank c), (inword s); cbn; rewrite ?H32 by lia; lia).
  destruct (IH (wc_char s c)) as (H1 & H2 & H3 & H4); [destruct (c =? 10); lia|lia|lia|]. cbv zeta. split_and!; try lia. rewrite H1, E2. unfold newlines. cbn [List.filter]. destruct (c =? 10); cbn [length]; lia.
Qed.

Lemma wc_blanks t : Forall (fun c => is_blank c = true) t -> forall s, let s' := fold_left wc_char t s in ww s' = ww s /\ inword s' = match t with [] => inword s | _ => false end.
Proof.
  induction 1 as [|c t Hc Ht IH]; intros s; cbn [fold_left]; [done|]. destruct (IH (wc_char s c)) as [E1 E2]. cbv zeta. rewrite E1, E2.
  assert (ww (wc_char s c) = ww s /\ inword (wc_char s c) = false) as [-> ->] by (unfold wc_char; by rewrite Hc). by destruct t.
Qed.
Lemma wc_word t : Forall (fun c => is_blank c = false) t -> forall s, let s' := fold_left wc_char t s in
  ww s' = match t with [] => ww s | _ => if inword s then ww s else s32 (ww s + 1) end /\ inword s' = match t with [] => inword s | _ => true end.
Proof.
  induction 1 as [|c t Hc Ht IH]; intros s; cbn [fold_left]; [done|]. destruct (IH (wc_char s c)) as [E1 E2]. cbv zeta. rewrite E1, E2.
  assert (ww (wc_char s c) = (if inword s then ww s else s32 (ww s + 1)) /\ inword (wc_char s c) = true) as [-> ->] by (unfold wc_char; rewrite Hc; by destruct (inword s)). by destruct t.
Qed.

Lemma wc_parts rest parts : forall s, Forall (fun c => is_blank c = true) rest ->
  Forall (fun p => snd p <> [] /\ Forall (fun c => is_blank c = false) (snd p)) parts -> Forall (fun p => Forall (fun c => is_blank c = true) (fst p)) parts ->
  Forall (fun p => fst p <> []) (tail parts) -> (inword s = true -> match parts with p :: _ => fst p <> [] | [] => True end) ->
  0 <= ww s -> ww s + Z.of_nat (length parts) < 2 ^ 31 ->
  ww (fold_left wc_char (concat (map (fun p => fst p ++ snd p) parts) ++ rest) s) = ww s + Z.of_nat (length parts).
Proof.
  induction parts as [|[b w] parts IH]; intros s Hr Hw Hb Ha Hs H0 H1; cbn [map concat app fst snd length tail] in *.
  - rewrite (proj1 (wc_blanks rest Hr s)). lia.
  - apply Forall_cons in Hw as [[Hne Hww] Hw]. apply Forall_cons in Hb as [Hbb Hb]. rewrite <- !app_assoc, !fold_left_app.
    destruct (wc_blanks b Hbb s) as [E1 E2]. set (s1 := fold_left wc_char b s) in *. destruct (wc_word w Hww s1) as [E3 E4]. set (s2 := fold_left wc_char w s1) in *.
    assert (inword s1 = false) as Ei. { rewrite E2. destruct b; [|done]. destruct (inword s); [|done]. by destruct (Hs eq_refl). }
    rewrite Ei in E3. destruct w as [|c w]; [done|]. rewrite E1, s32_small in E3 by lia. rewrite <- fold_left_app, IH; try done; [lia| |intros _|lia|lia].
    + by destruct parts; [|apply Forall_cons in Ha as [_ ?]].
    + destruct parts; [done|]. by apply Forall_cons in Ha as [? _].
Qed.

Lemma wc_reads chunks tail : Forall (fun ch => ch <> []) chunks -> forall s, wc_loop (map Some chunks ++ Some [] :: tail) s = Ret (Some (fold_left wc_char (concat chunks) s)).
Proof.
  induction 1 as [|ch chunks Hch _ IH]; intros s; cbn [map app wc_loop concat]; [done|]. rewrite (proj2 (Nat.eqb_neq _ _)) by (by destruct ch). by rewrite IH, fold_left_app.
Qed.

Lemma print_counts a b c name : 0 <= a < 2 ^ 31 -> 0 <= b < 2 ^ 31 -> 0 <= c < 2 ^ 31 ->
  printf (text_of "%d %d %d %s" ++ [10]) [UInt a; UInt b; UInt c; UStr (Some name)] =
    Ret (uprintint a 10 true ++ [32] ++ uprintint b 10 true ++ [32] ++ uprintint c 10 true ++ [32] ++ name ++ [10]).
Proof.
  intros Ha Hb Hc. change (text_of "%d %d %d %s" ++ [10]) with [37; 100; 32; 37; 100; 32; 37; 100; 32; 37; 115; 10]. unfold printf. cbn -[uprintint s32 app]. rewrite !s32_small by lia. done.
Qed.

(** Every text is blanks and words in turn. *)
Lemma split_text_exists text : exists parts rest, split_text text parts rest.
Proof.
  induction text as [|c text (parts & rest & [Ht Hw Hb Ha Hr])]; [by exists [], []|]. destruct (is_blank c) eqn:Ec.
  - destruct parts as [|[b w] parts]; [exists [], (c :: rest); split; try done; [by rewrite Ht|by constructor]|].
    exists ((c :: b, w) :: parts), rest. apply Forall_cons in Hw as [Hw1 Hw], Hb as [Hb1 Hb]. split; try done; [by rewrite Ht|by constructor|by repeat constructor].
  - assert (Forall (fun d => is_blank d = false) [c]) as Hc by by constructor.
    destruct parts as [|[[|b0 b] w] parts].
    + exists [([], [c])], rest. split; try done; [by rewrite Ht|by repeat constructor|by repeat constructor].
    + exists (([], c :: w) :: parts), rest. apply Forall_cons in Hw as [[Hw0 Hw1] Hw], Hb as [Hb1 Hb]. split; try done; [by rewrite Ht|constructor; [split; [done|by constructor]|done]|by constructor].
    + exists (([], [c]) :: (b0 :: b, w) :: parts), rest. split; try done; [by rewrite Ht|by constructor|constructor; [constructor|exact Hb]|by constructor].
Qed.

(** wc prints the numbers of newlines, words and bytes of a file, however the calls
    of read divide it. *)
Lemma wc_counts chunks later name parts rest : let text := concat chunks in
  Forall (fun ch => ch <> []) chunks -> split_text text parts rest -> Z.of_nat (length text) < 2 ^ 31 ->
  wc (map Some chunks ++ Some [] :: later) name =
    Ret (uprintint (newlines text) 10 true ++ [32] ++ uprintint (Z.of_nat (length parts)) 10 true ++ [32] ++ uprintint (Z.of_nat (length text)) 10 true ++ [32] ++ name ++ [10], false).
Proof.
  intros text Hch [Ht Hw Hb Ha Hr] Hlen. unfold wc. rewrite wc_reads by done. fold text. set (s := fold_left wc_char text (mkWc 0 0 0 false)).
  destruct (wc_text text (mkWc 0 0 0 false)) as (H1 & H2 & H3 & H4); [cbn; lia|cbn; lia|cbn; lia|]. fold s in H1, H2, H3, H4. cbn [wl wchars] in H1, H2.
  assert (Z.of_nat (length parts) <= Z.of_nat (length text)) as Hp.
  { rewrite Ht, length_app. clear - Hw. induction parts as [|[b w] parts IH]; cbn [map concat length fst snd]; [lia|]. apply Forall_cons in Hw as [[Hne _] Hw]. cbn in Hne. specialize (IH Hw). rewrite !length_app in *. destruct w; [done|]. cbn [length]. lia. }
  assert (ww s = Z.of_nat (length parts)) as H5. { unfold s. rewrite Ht, wc_parts by (done || cbn; lia). done. }
  rewrite H1, H2, H5, !Z.add_0_l. rewrite print_counts by lia. done.
Qed.

(** cat copies its input. *)
Lemma cat_copies chunks later : Forall (fun ch => ch <> []) chunks -> cat (map Some chunks ++ Some [] :: later) = Ret (concat chunks, false).
Proof. induction 1 as [|ch chunks Hch _ IH]; cbn [map app cat concat]; [done|]. rewrite (proj2 (Nat.eqb_neq _ _)) by (by destruct ch). by rewrite IH. Qed.

Lemma last_slash_none n path : (forall i, (i <= n)%nat -> nth i path 0 <> c_slash) -> last_slash n path = -1.
Proof. induction n as [|n IH]; intros H; cbn [last_slash]; rewrite (proj2 (Z.eqb_neq _ _)) by (apply H; lia); [done|]. apply IH. intros i Hi. apply H. lia. Qed.
Lemma last_slash_at n k path : (k <= n)%nat -> nth k path 0 = c_slash -> (forall i, (k < i <= n)%nat -> nth i path 0 <> c_slash) -> last_slash n path = Z.of_nat k.
Proof.
  induction n as [|n IH]; intros Hk E H; cbn [last_slash].
  - assert (k = 0%nat) as -> by lia. by rewrite E.
  - destruct (decide (k = S n)) as [->|Hne]; [by rewrite E|]. rewrite (proj2 (Z.eqb_neq _ _)) by (apply H; lia). apply IH; [lia|done|]. intros i Hi. apply H. lia.
Qed.

(** fmtname yields the last element of a path, filled up with blanks to 14. *)
Lemma fmtname_last dir name : Forall (fun c => c <> c_slash) name ->
  fmtname (dir ++ c_slash :: name) = name ++ replicate (Z.to_nat (DIRSIZ - Z.of_nat (length name))) 32 /\ fmtname name = name ++ replicate (Z.to_nat (DIRSIZ - Z.of_nat (length name))) 32.
Proof.
  intros Hn. rewrite Forall_forall in Hn.
  assert (forall i, nth i name 0 <> c_slash) as Hni. { intros i. destruct (nth_in_or_default i name 0) as [Hin| ->]; [|done]. apply Hn. by apply list_elem_of_In. }
  assert (forall p, (if DIRSIZ <=? Z.of_nat (length p) then p else p ++ replicate (Z.to_nat (DIRSIZ - Z.of_nat (length p))) 32) = p ++ replicate (Z.to_nat (DIRSIZ - Z.of_nat (length p))) 32) as Hpad.
  { intros p. destruct (Z.leb_spec DIRSIZ (Z.of_nat (length p))); [|done]. rewrite Z2Nat.nonpos by lia. by rewrite app_nil_r. }
  unfold fmtname. rewrite !Hpad. split.
  - rewrite (last_slash_at _ (length dir)).
    + replace (Z.to_nat (Z.of_nat (length dir) + 1)) with (length dir + 1)%nat by lia. rewrite <- drop_drop, drop_app_length. done.
    + rewrite length_app. cbn. lia.
    + by rewrite app_nth2, Nat.sub_diag by lia.
    + intros i Hi. rewrite app_nth2 by lia. destruct (i - length dir)%nat as [|j] eqn:Ej; [lia|]. apply Hni.
  - rewrite last_slash_none by (intros i _; apply Hni). done.
Qed.
