(* ===== verification/ShRun.v ===== *)
(** * Running commands (runcmd of sh.c)

    What the shell does with a parsed command: the processes it forks, the
    descriptors it sets up, and the programs it starts with them. *)

From Stdlib Require Import ZArith Lia String Bool.
From stdpp Require Import base numbers list.
From S2P Require Import Prelude Params Ulib Sh Tools.

(** ** Processes and descriptors *)

(** What a descriptor refers to: something open before, a file, an end of a pipe *)
Inductive obj : Type :=
| Inherited (n : Z)
| Opened (file : list Z) (mode : Z)
| PipeRead (k : Z)
| PipeWrite (k : Z).
Definition fds_t : Type := Z -> option obj.
Definition set_fd (i : Z) (o : option obj) (f : fds_t) : fds_t := fun j => if j =? i then o else f j.

(** The calls of a process, with those of the children it forks; [Exec] and [Wait] with
    the descriptors that are open then *)
#[warnings="-register-all"]
Inductive act : Type :=
| Exec (argv : list (list Z)) (fds : fds_t)
| Say (msg : list Z)
| Fork (child : list act)
| Wait (fds : fds_t)
| Exit.

Section run.
(** Which files open and which programs exec finds; whether the n-th fork and the n-th
    pipe have the memory they need *)
Context (can_open : list Z -> Z -> bool) (can_exec : list Z -> bool) (fork_ok pipe_ok : Z -> bool).

(** The lowest descriptor that is free, from [i] on *)
Fixpoint fdalloc (n : nat) (i : Z) (f : fds_t) : option Z :=
  match n with
  | O => None
  | S n => match f i with None => Some i | Some _ => fdalloc n (i + 1) f end
  end.
Definition alloc_fd (f : fds_t) : option Z := fdalloc (Z.to_nat NOFILE) 0 f.

Definition close (fd : Z) (f : fds_t) : fds_t := set_fd fd None f.
Definition open (file : list Z) (mode : Z) (f : fds_t) : option fds_t :=
  if can_open file mode then match alloc_fd f with Some fd => Some (set_fd fd (Some (Opened file mode)) f) | None => None end else None.
(** A dup that fails changes nothing. *)
Definition dup (fd : Z) (f : fds_t) : fds_t :=
  match f fd, alloc_fd f with Some o, Some fd' => set_fd fd' (Some o) f | _, _ => f end.
(** pipe: the two descriptors *)
Definition pipe (k : Z) (f : fds_t) : option (Z * Z * fds_t) :=
  if negb (pipe_ok k) then None else
  match alloc_fd f with
  | Some p0 =>
    let f := set_fd p0 (Some (PipeRead k)) f in
    match alloc_fd f with Some p1 => Some (p0, p1, set_fd p1 (Some (PipeWrite k)) f) | None => None end
  | None => None
  end.

(** The pipes made and the forks called so far *)
Record sh_t : Type := mkSh { pipes_made : Z; forks : Z }.
Definition sh_panic (msg : string) : list act := [Say (text_of msg ++ [10]); Exit].
(** fork1: what the child does, and what the parent does after it *)
Definition fork1 (s : sh_t) (child : sh_t -> list act * sh_t) (parent : sh_t -> list act * sh_t) : list act * sh_t :=
  let s' := mkSh (pipes_made s) (forks s + 1) in
  if fork_ok (forks s) then
    let (a, s1) := child s' in
    let (b, s2) := parent s1 in
    (Fork a :: b, s2)
  else (sh_panic "fork", s').

(** Commands of strings, as nulterminate leaves them *)
Fixpoint runcmd (c : cmd (list Z)) (f : fds_t) (s : sh_t) : list act * sh_t :=
  match c with
  | EXEC argv =>
    match argv with
    | [] => ([Exit], s)
    | path :: _ => (if can_exec path then [Exec argv f] else [Say (text_of "exec " ++ path ++ text_of " failed" ++ [10]); Exit], s)
    end
  | REDIR c r =>
    match open (r_file r) (r_mode r) (close (r_fd r) f) with
    | Some f => runcmd c f s
    | None => ([Say (text_of "open " ++ r_file r ++ text_of " failed" ++ [10]); Exit], s)
    end
  | LIST c1 c2 =>
    fork1 s (runcmd c1 f) (fun s => let (a, s) := runcmd c2 f s in (Wait f :: a, s))
  | PIPE c1 c2 =>
    match pipe (pipes_made s) f with
    | None => (sh_panic "pipe", s)
    | Some (p0, p1, f) =>
      fork1 (mkSh (pipes_made s + 1) (forks s)) (runcmd c1 (close p1 (close p0 (dup p1 (close 1 f)))))
        (fun s => fork1 s (runcmd c2 (close p1 (close p0 (dup p0 (close 0 f))))) (fun s => let f := close p1 (close p0 f) in ([Wait f; Wait f; Exit], s)))
    end
  | BACK c => fork1 s (runcmd c f) (fun s => ([Exit], s))
  end.

(** ** What is run *)

(** The programs started, with the descriptors they get *)
Fixpoint exec_of (a : act) : list (list (list Z) * fds_t) :=
  match a with Exec argv f => [(argv, f)] | Fork l => flat_map exec_of l | _ => [] end.
(** The descriptors with which processes wait for their children *)
Fixpoint wait_of (a : act) : list fds_t :=
  match a with Wait f => [f] | Fork l => flat_map wait_of l | _ => [] end.
Definition waits (l : list act) : list fds_t := flat_map wait_of l.
Definition execs (l : list act) : list (list (list Z) * fds_t) := flat_map exec_of l.

(** Standard input, output and error, and nothing else *)
Record std : Type := mkStd { s_in : obj; s_out : obj; s_err : obj }.
Record only_std (f : fds_t) (d : std) : Prop := {
  os_in : f 0 = Some (s_in d); os_out : f 1 = Some (s_out d); os_err : f 2 = Some (s_err d);
  os_rest : forall i, i < 0 \/ 2 < i -> f i = None
}.
Definition redirect (fd : Z) (o : obj) (d : std) : std := if fd =? 0 then mkStd o (s_out d) (s_err d) else mkStd (s_in d) o (s_err d).

(** A command as the programs it starts, with pipes numbered from [k] on *)
Fixpoint programs (c : cmd (list Z)) (d : std) (k : Z) : list (list (list Z) * std) * Z :=
  match c with
  | EXEC argv => (match argv with [] => [] | _ => [(argv, d)] end, k)
  | REDIR c r => programs c (redirect (r_fd r) (Opened (r_file r) (r_mode r)) d) k
  | LIST c1 c2 => let (a, k1) := programs c1 d k in let (b, k2) := programs c2 d k1 in (a ++ b, k2)
  | PIPE c1 c2 =>
    let (a, k1) := programs c1 (redirect 1 (PipeWrite k) d) (k + 1) in
    let (b, k2) := programs c2 (redirect 0 (PipeRead k) d) k1 in (a ++ b, k2)
  | BACK c => programs c d k
  end.

(** Redirections are of standard input or output, as the parser makes them. *)
Fixpoint std_redirs (c : cmd (list Z)) : bool :=
  match c with
  | EXEC _ => true
  | REDIR c r => ((r_fd r =? 0) || (r_fd r =? 1)) && std_redirs c
  | LIST c1 c2 | PIPE c1 c2 => std_redirs c1 && std_redirs c2
  | BACK c => std_redirs c
  end.

Ltac fd_cases := unfold close, set_fd in *; repeat match goal with |- context [?x =? ?y] => destruct (Z.eqb_spec x y); try lia end.

Lemma fdalloc_at f k n : forall i, i <= k < i + Z.of_nat n -> (forall j, i <= j < k -> is_Some (f j)) -> f k = None -> fdalloc n i f = Some k.
Proof.
  induction n as [|n IH]; intros i Hk Hb Hf; [lia|]. cbn [fdalloc]. destruct (decide (i = k)) as [->|Hne]; [by rewrite Hf|].
  destruct (Hb i) as [o ->]; [lia|]. apply IH; [lia| |done]. intros j Hj. apply Hb. lia.
Qed.
Lemma alloc_at f k : 0 <= k < NOFILE -> (forall j, 0 <= j < k -> is_Some (f j)) -> f k = None -> alloc_fd f = Some k.
Proof. intros Hk. apply fdalloc_at. unfold NOFILE in *. lia. Qed.
Lemma std_open f d j : only_std f d -> 0 <= j <= 2 -> is_Some (f j).
Proof. intros [H0 H1 H2 _] Hj. assert (j = 0 \/ j = 1 \/ j = 2) as [-> |[-> | ->]] by lia; eauto. Qed.

(** Closing 0 or 1 makes it the descriptor that comes next. *)
Lemma alloc_closed f fd o : fd = 0 \/ fd = 1 -> f 0 = Some o -> alloc_fd (close fd f) = Some fd.
Proof.
  intros Hfd H0. apply alloc_at; [unfold NOFILE; lia| |fd_cases; done]. intros j Hj. assert (j = 0) as -> by lia. fd_cases. eauto.
Qed.

Lemma open_std f d fd file mode f' : only_std f d -> fd = 0 \/ fd = 1 -> open file mode (close fd f) = Some f' -> only_std f' (redirect fd (Opened file mode) d).
Proof.
  intros [H0 H1 H2 H3] Hfd. unfold open. rewrite (alloc_closed f fd _ Hfd H0). destruct (can_open file mode); [|done]. intros [= <-].
  destruct Hfd as [-> | ->]; split; cbn; fd_cases; done || (intros i Hi; fd_cases; by apply H3).
Qed.

Lemma pipe_std f d k : only_std f d -> pipe_ok k = true -> exists f', pipe k f = Some (3, 4, f') /\ only_std (close 4 (close 3 f')) d /\
  only_std (close 4 (close 3 (dup 4 (close 1 f')))) (redirect 1 (PipeWrite k) d) /\ only_std (close 4 (close 3 (dup 3 (close 0 f')))) (redirect 0 (PipeRead k) d).
Proof.
  intros Hs Hk. unfold pipe. rewrite Hk. cbn [negb]. rewrite (alloc_at f 3) by (unfold NOFILE; lia || (by apply Hs; lia) || (intros j Hj; apply (std_open f d); [done|lia])). set (f1 := set_fd 3 (Some (PipeRead k)) f).
  assert (alloc_fd f1 = Some 4) as E. { apply alloc_at; [unfold NOFILE; lia| |unfold f1; fd_cases; by apply Hs; lia]. intros j Hj. unfold f1. fd_cases; [eauto|]. apply (std_open f d); [done|lia]. }
  destruct Hs as [H0 H1 H2 H3].
  rewrite E. set (f2 := set_fd 4 (Some (PipeWrite k)) f1). exists f2. split; [done|].
  assert (forall fd, fd = 0 \/ fd = 1 -> alloc_fd (close fd f2) = Some fd) as Ha by (intros fd Hfd; by apply (alloc_closed f2 fd (s_in d))).
  split; [split; cbn; fd_cases; done || (intros i Hi; unfold f2, f1; fd_cases; first [done|by apply H3])|].
  unfold dup. rewrite !Ha by tauto. cbn [close set_fd]. split.
  - change (close 1 f2 4) with (Some (PipeWrite k)). split; cbn; fd_cases; done || (intros i Hi; unfold f2, f1; fd_cases; first [done|by apply H3]).
  - change (close 0 f2 3) with (Some (PipeRead k)). split; cbn; fd_cases; done || (intros i Hi; unfold f2, f1; fd_cases; first [done|by apply H3]).
Qed.

Definition runs_as (x : list (list Z) * fds_t) (y : list (list Z) * std) : Prop := fst x = fst y /\ only_std (snd x) (snd y).

Lemma fork1_execs s child parent l s' : fork1 s child parent = (l, s') ->
  (fork_ok (forks s) = true /\ exists a s1 b, child (mkSh (pipes_made s) (forks s + 1)) = (a, s1) /\ parent s1 = (b, s') /\ execs l = execs a ++ execs b /\ waits l = waits a ++ waits b) \/
  (fork_ok (forks s) = false /\ execs l = [] /\ waits l = []).
Proof.
  unfold fork1. destruct (fork_ok (forks s)); [|intros [= <- <-]; by right]. destruct (child _) as [a s1] eqn:Ea. destruct (parent s1) as [b s2] eqn:Eb. intros [= <- <-]. left. split; [done|]. by exists a, s1, b.
Qed.

(** Nothing but the standard descriptors *)
Definition no_leak (l : list act) : Prop := Forall (fun x => exists d', only_std (snd x) d') (execs l) /\ Forall (fun f => exists d', only_std f d') (waits l).

Lemma no_leak_none l : execs l = [] -> waits l = [] -> no_leak l.
Proof. intros E1 E2. split; [rewrite E1|rewrite E2]; constructor. Qed.
Lemma no_leak_app l a b : execs l = execs a ++ execs b -> waits l = waits a ++ waits b -> no_leak a -> no_leak b -> no_leak l.
Proof. intros E1 E2 [H1 H2] [H3 H4]. split; [rewrite E1|rewrite E2]; by apply Forall_app. Qed.
Lemma no_leak_wait f d l : only_std f d -> no_leak l -> no_leak (Wait f :: l).
Proof. intros Hf [H1 H2]. split; [exact H1|]. constructor; [by exists d|exact H2]. Qed.

(** No program gets a descriptor but the standard ones, and no process that waits has
    another one, whatever fails. *)
Lemma runcmd_no_leak c : forall f d s l s', std_redirs c = true -> only_std f d -> runcmd c f s = (l, s') -> no_leak l.
Proof.
  induction c as [argv|c IH r|c1 IH1 c2 IH2|c1 IH1 c2 IH2|c IH]; intros f d s l s' Hr Hf; cbn [runcmd std_redirs] in *.
  - destruct argv as [|path argv]; [intros [= <- <-]; by apply no_leak_none|]. destruct (can_exec path); intros [= <- <-]; [|by apply no_leak_none]. split; [|constructor]. constructor; [by exists d|constructor].
  - apply andb_true_iff in Hr as [Hfd Hr]. apply orb_true_iff in Hfd. rewrite !Z.eqb_eq in Hfd. destruct (open _ _ _) as [f'|] eqn:Eo; [|intros [= <- <-]; by apply no_leak_none].
    apply (IH f' (redirect (r_fd r) (Opened (r_file r) (r_mode r)) d) s); [done|by eapply open_std].
  - apply andb_true_iff in Hr as [Hr1 Hr2]. destruct (pipe_ok (pipes_made s)) eqn:Ek; [|unfold pipe; rewrite Ek; intros [= <- <-]; by apply no_leak_none].
    destruct (pipe_std f d (pipes_made s) Hf Ek) as (f' & -> & F0 & F1 & F2). intros E. apply fork1_execs in E as [(_ & a & s1 & b & Ea & Eb & E1 & E2)|(_ & E1 & E2)]; [|by apply no_leak_none].
    apply (no_leak_app _ _ _ E1 E2); [exact (IH1 _ _ _ _ _ Hr1 F1 Ea)|]. apply fork1_execs in Eb as [(_ & a' & s2 & b' & Ea' & Eb' & E3 & E4)|(_ & E3 & E4)]; [|by apply no_leak_none].
    apply (no_leak_app _ _ _ E3 E4); [exact (IH2 _ _ _ _ _ Hr2 F2 Ea')|]. injection Eb' as <- <-. do 2 (apply (no_leak_wait _ d); [exact F0|]). by apply no_leak_none.
  - apply andb_true_iff in Hr as [Hr1 Hr2]. intros E. apply fork1_execs in E as [(_ & a & s1 & b & Ea & Eb & E1 & E2)|(_ & E1 & E2)]; [|by apply no_leak_none]. destruct (runcmd c2 f s1) as [b2 s2] eqn:E3. injection Eb as <- <-.
    apply (no_leak_app _ _ _ E1 E2); [exact (IH1 _ _ _ _ _ Hr1 Hf Ea)|]. apply (no_leak_wait f d); [done|exact (IH2 _ _ _ _ _ Hr2 Hf E3)].
  - intros E. apply fork1_execs in E as [(_ & a & s1 & b & Ea & Eb & E1 & E2)|(_ & E1 & E2)]; [|by apply no_leak_none]. injection Eb as <- <-. apply (no_leak_app _ _ _ E1 E2); [exact (IH _ _ _ _ _ Hr Hf Ea)|by apply no_leak_none].
Qed.

Definition all_succeed : Prop := (forall file mode, can_open file mode = true) /\ (forall path, can_exec path = true) /\ (forall n, fork_ok n = true) /\ (forall n, pipe_ok n = true).

Lemma runcmd_programs c : all_succeed -> forall f d s l s', std_redirs c = true -> only_std f d -> runcmd c f s = (l, s') ->
  Forall2 runs_as (execs l) (fst (programs c d (pipes_made s))) /\ pipes_made s' = snd (programs c d (pipes_made s)).
Proof.
  intros (opens & finds & forks_ok & pipes_ok). induction c as [argv|c IH r|c1 IH1 c2 IH2|c1 IH1 c2 IH2|c IH]; intros f d s l s' Hr Hf; cbn [runcmd programs std_redirs] in *.
  - destruct argv as [|path argv]; [intros [= <- <-]; by split|]. rewrite finds. intros [= <- <-]. split; [|done]. constructor; [by split|constructor].
  - apply andb_true_iff in Hr as [Hfd Hr]. apply orb_true_iff in Hfd. rewrite !Z.eqb_eq in Hfd. destruct (open _ _ _) as [f'|] eqn:Eo.
    + apply (IH f' (redirect (r_fd r) (Opened (r_file r) (r_mode r)) d) s); [done|by eapply open_std].
    + unfold open in Eo. rewrite opens, (alloc_closed f _ _ Hfd (os_in _ _ Hf)) in Eo. done.
  - apply andb_true_iff in Hr as [Hr1 Hr2]. destruct (pipe_std f d (pipes_made s) Hf (pipes_ok _)) as (f' & -> & _ & F1 & F2). intros E. apply fork1_execs in E as [(_ & a & s1 & b & Ea & Eb & -> & _)|[Hn _]]; [|by rewrite forks_ok in Hn].
    apply fork1_execs in Eb as [(_ & a' & s2 & b' & Ea' & Eb' & -> & _)|[Hn _]]; [|by rewrite forks_ok in Hn]. injection Eb' as <- <-.
    destruct (IH1 _ _ _ _ _ Hr1 F1 Ea) as [G1 G2]. destruct (IH2 _ _ _ _ _ Hr2 F2 Ea') as [G3 G4]. cbn [pipes_made] in *. rewrite G2 in G3, G4.
    destruct (programs c1 _ _) as [d1 k1]. cbn [fst snd] in *. destruct (programs c2 _ _) as [d2 k2]. cbn [fst snd] in *. split; [|done]. apply Forall2_app; [done|]. by rewrite app_nil_r.
  - apply andb_true_iff in Hr as [Hr1 Hr2]. intros E. apply fork1_execs in E as [(_ & a & s1 & b & Ea & Eb & -> & _)|[Hn _]]; [|by rewrite forks_ok in Hn]. destruct (runcmd c2 f s1) as [b2 s2] eqn:E2. injection Eb as <- <-.
    destruct (IH1 _ _ _ _ _ Hr1 Hf Ea) as [G1 G2]. destruct (IH2 _ _ _ _ _ Hr2 Hf E2) as [G3 G4]. cbn [pipes_made] in *. rewrite G2 in G3, G4.
    destruct (programs c1 _ _) as [d1 k1]. cbn [fst snd] in *. destruct (programs c2 _ _) as [d2 k2]. cbn [fst snd] in *. split; [|done]. by apply Forall2_app.
  - intros E. apply fork1_execs in E as [(_ & a & s1 & b & Ea & Eb & -> & _)|[Hn _]]; [|by rewrite forks_ok in Hn]. injection Eb as <- <-. rewrite app_nil_r. exact (IH f d (mkSh (pipes_made s) (forks s + 1)) _ _ Hr Hf Ea).
Qed.

(** C19 The shell starts the programs of a command with the right descriptors.
    Whatever files, programs, forks and pipes fail, every program that runs has standard
    input, output and error and no other descriptor, and so has every process that waits
    for its children, so that no end of a pipe stays open in them.  When nothing fails, the programs are those of the command, in
    order: a redirection changes one of the two streams of the command below it,
    the two sides of a pipe have its two ends, and the sides of a list and a
    background command have the streams of the whole. *)
Theorem runcmd_plumbing (c : cmd (list Z)) (f : fds_t) (d : std) (s : sh_t) : std_redirs c = true -> only_std f d ->
  Forall (fun x => exists d', only_std (snd x) d') (execs (fst (runcmd c f s))) /\
  Forall (fun f => exists d', only_std f d') (waits (fst (runcmd c f s))) /\
  (all_succeed -> Forall2 runs_as (execs (fst (runcmd c f s))) (fst (programs c d (pipes_made s)))).
Proof.
  intros Hr Hf. destruct (runcmd c f s) as [l s'] eqn:E. destruct (runcmd_no_leak c f d s l s' Hr Hf E) as [H1 H2]. split; [exact H1|]. split; [exact H2|]. intros Ha. by eapply runcmd_programs.
Qed.
End run.

(** cat < a | wc, from a shell on a terminal *)
Definition terminal : fds_t := fun i => if (0 <=? i) && (i <=? 2) then Some (Inherited i) else None.
Definition cat_wc : cmd (list Z) := PIPE (REDIR (EXEC [[99; 97; 116]]) (mkRedir [97] 0 0)) (EXEC [[119; 99]]).

Lemma runcmd_plumbing_witness : Forall2 runs_as (execs (fst (runcmd (fun _ _ => true) (fun _ => true) (fun _ => true) (fun _ => true) cat_wc terminal (mkSh 0 0))))
  [([[99; 97; 116]], mkStd (Opened [97] 0) (PipeWrite 0) (Inherited 2)); ([[119; 99]], mkStd (PipeRead 0) (Inherited 1) (Inherited 2))].
Proof.
  apply (runcmd_plumbing (fun _ _ => true) (fun _ => true) (fun _ => true) (fun _ => true) cat_wc terminal (mkStd (Inherited 0) (Inherited 1) (Inherited 2)) (mkSh 0 0)).
  - reflexivity.
  - split; try reflexivity. intros i Hi. unfold terminal. destruct (Z.leb_spec 0 i), (Z.leb_spec i 2); done || lia.
  - by split_and!.
Defined.
