(* ===== verification/Umalloc.v ===== *)
(** * The user-level allocator (umalloc.c)

    Headers of 8 bytes, a pointer and a size in units of 8, lie in the memory
    of the process; the free blocks are a ring through their headers, in the
    order of their addresses and starting at [base].  sbrk is the system call:
    [grants brk n] says whether the kernel grows a process of size [brk] by
    [n]. *)

From Stdlib Require Import ZArith Lia String Bool Sorting.Sorted.
From stdpp Require Import base numbers sorting list.
From S2P Require Import Prelude Params Mem.

(** ** The code *)

Record ust : Type := mkU { um : mem; ufreep : Z; ubrk : Z }.

Definition hptr (m : mem) (p : Z) : Z := ld32 m p.
Definition hsize (m : mem) (p : Z) : Z := ld32 m (p + 4).
Definition set_ptr (p v : Z) (m : mem) : mem := st32 m p v.
Definition set_size (p v : Z) (m : mem) : mem := st32 m (p + 4) v.

Section code.
(** The address of [base]. *)
Context (B : Z) (grants : Z -> Z -> bool).

Definition sbrk (n : Z) : M ust Z :=
  fun s =>
    if grants (ubrk s) (s32 n) then Ret (ubrk s, mkU (um s) (ufreep s) (u32 (ubrk s + s32 n))) else Ret (0xFFFFFFFF, s).

(** The loop of free: the header after which [bp] goes. *)
Fixpoint free_search (fuel : nat) (m : mem) (bp p : Z) : outcome Z :=
  let nx := hptr m p in
  if (p <? bp) && (bp <? nx) then Ret p
  else if (nx <=? p) && ((p <? bp) || (bp <? nx)) then Ret p
  else match fuel with O => NoFuel | S fuel => free_search fuel m bp nx end.

Definition join_next (bp p : Z) (m : mem) : mem :=
  if u32 (bp + 8 * hsize m bp) =? hptr m p then
    let m := set_size bp (u32 (hsize m bp + hsize m (hptr m p))) m in set_ptr bp (hptr m (hptr m p)) m
  else set_ptr bp (hptr m p) m.
Definition join_prev (bp p : Z) (m : mem) : mem :=
  if u32 (p + 8 * hsize m p) =? bp then
    let m := set_size p (u32 (hsize m p + hsize m bp)) m in set_ptr p (hptr m bp) m
  else set_ptr p bp m.

(** The ring has fewer headers than there are units below the break. *)
Definition ring_fuel (s : ust) : nat := Z.to_nat (ubrk s / 8) + 2.

Definition ufree (ap : Z) : M ust unit :=
  fun s =>
    let bp := u32 (ap - 8) in
    match free_search (ring_fuel s) (um s) bp (ufreep s) with
    | Ret p => Ret (tt, mkU (join_prev bp p (join_next bp p (um s))) p (ubrk s))
    | Panic m => Panic m
    | Fault w => Fault w
    | Blocked => Blocked
    | NoFuel => NoFuel
    end.

Definition morecore (nu : Z) : M ust Z :=
  let nu := if nu <? 4096 then 4096 else nu in
  let* p := sbrk (u32 (nu * 8)) in
  if p =? 0xFFFFFFFF then ret 0 else
  modify (fun s => mkU (set_size p nu (um s)) (ufreep s) (ubrk s)) ;;
  ufree (u32 (p + 8)) ;;
  gets ufreep.

(** The block at [p] is large enough. *)
Definition take_block (nunits prevp p : Z) (m : mem) : mem * Z :=
  if hsize m p =? nunits then (set_ptr prevp (hptr m p) m, p)
  else
    let m := set_size p (u32 (hsize m p - nunits)) m in
    let p := u32 (p + 8 * hsize m p) in
    (set_size p nunits m, p).

Fixpoint malloc_loop (fuel : nat) (nunits prevp p : Z) : M ust Z :=
  let* m := gets um in
  if nunits <=? hsize m p then
    let (m, q) := take_block nunits prevp p m in
    modify (fun s => mkU m prevp (ubrk s)) ;;
    ret (u32 (q + 8))
  else
    let* fp := gets ufreep in
    match fuel with
    | O => nofuel
    | S fuel =>
      if p =? fp then
        let* p := morecore nunits in
        if p =? 0 then ret 0 else
        let* m := gets um in
        malloc_loop fuel nunits p (hptr m p)
      else malloc_loop fuel nunits p (hptr m p)
    end.

Definition units (nbytes : Z) : Z := u32 (nbytes + 7) / 8 + 1.

Definition malloc (nbytes : Z) : M ust Z :=
  let nunits := units nbytes in
  let* fp := gets ufreep in
  (if fp =? 0 then modify (fun s => mkU (set_size B 0 (set_ptr B B (um s))) B (ubrk s)) else ret tt) ;;
  let* fp := gets ufreep in
  let* m := gets um in
  let* n := gets ring_fuel in
  malloc_loop (n + n + 4) nunits fp (hptr m fp).

End code.

(** ** Blocks and cells *)

(** A block is the address of its header and its size in units, a cell the
    address of a unit. *)
Abbreviation block := (Z * Z)%type.
Definition cells (b : block) : list Z := map (fun i => fst b + 8 * i) (seqZ 0 (snd b)).
Definition all_cells (l : list block) : list Z := concat (map cells l).

Lemma cells_in c b : c ∈ cells b <-> exists i, 0 <= i < snd b /\ c = fst b + 8 * i.
Proof.
  unfold cells. rewrite list_elem_of_In, in_map_iff. split.
  - intros (i & <- & Hi%list_elem_of_In%elem_of_seqZ). exists i. split; [lia|done].
  - intros (i & Hi & ->). exists i. split; [done|]. apply list_elem_of_In, elem_of_seqZ. lia.
Qed.
Lemma cells_app a u v : 0 <= u -> 0 <= v -> cells (a, u + v) = cells (a, u) ++ cells (a + 8 * u, v).
Proof.
  intros Hu Hv. unfold cells. cbn [fst snd]. rewrite seqZ_app by lia. rewrite map_app. f_equal.
  replace (0 + u) with (u + 0) by lia. rewrite <- fmap_add_seqZ. change (Z.add u <$> ?l) with (map (Z.add u) l). rewrite map_map. apply map_ext. intros i. lia.
Qed.
Lemma all_cells_app l l' : all_cells (l ++ l') = all_cells l ++ all_cells l'.
Proof. unfold all_cells. by rewrite map_app, concat_app. Qed.
Lemma all_cells_in c l : c ∈ all_cells l <-> exists b, b ∈ l /\ c ∈ cells b.
Proof.
  unfold all_cells. rewrite list_elem_of_In, in_concat. split.
  - intros (x & Hx & Hc). apply in_map_iff in Hx as (b & <- & Hb). exists b. by rewrite !list_elem_of_In.
  - intros (b & Hb & Hc). exists (cells b). split; [apply in_map_iff; exists b; split; [done|by apply list_elem_of_In]|by apply list_elem_of_In].
Qed.

#[export] Instance all_cells_perm : Proper ((≡ₚ) ==> (≡ₚ)) all_cells.
Proof.
  intros l l' H. induction H as [|b l l' _ IH|b c l|l1 l2 l3 _ IH1 _ IH2]; [done| | |by etransitivity].
  - change (cells b ++ all_cells l ≡ₚ cells b ++ all_cells l'). by rewrite IH.
  - change (cells c ++ cells b ++ all_cells l ≡ₚ cells b ++ cells c ++ all_cells l). solve_Permutation.
Qed.

(** ** The ring *)

Section ring.
Context (B : Z).

(** From [p] through the headers of [l]. *)
Fixpoint links (m : mem) (p : Z) (l : list block) : Prop :=
  match l with
  | [] => True
  | (a, u) :: l => hptr m p = a /\ hsize m a = u /\ links m a l
  end.
Definition last_of (p : Z) (l : list block) : Z := match last l with Some b => fst b | None => p end.

Lemma last_of_snoc p l b : last_of p (l ++ [b]) = fst b.
Proof. unfold last_of. by rewrite last_snoc. Qed.
Lemma last_of_cons p b l : last_of p (b :: l) = last_of (fst b) l.
Proof. unfold last_of. rewrite last_cons. by destruct (last l). Qed.
Lemma last_of_app p l1 l2 : last_of p (l1 ++ l2) = last_of (last_of p l1) l2.
Proof. destruct l2 as [|b l2 _] using rev_ind; [by rewrite app_nil_r|]. by rewrite app_assoc, !last_of_snoc. Qed.
Lemma links_app m l1 l2 : forall p, links m p (l1 ++ l2) <-> links m p l1 /\ links m (last_of p l1) l2.
Proof. induction l1 as [|[a u] l1 IH]; intros p; cbn [app links]; [tauto|]. rewrite IH, last_of_cons. cbn [fst]. tauto. Qed.

Lemma last_of_in q l : last_of q l ∈ q :: map fst l.
Proof.
  unfold last_of. destruct (last l) as [b|] eqn:El; [|by left]. right. apply last_Some in El as [l' ->]. rewrite map_app. apply elem_of_app. right. by left.
Qed.

Record ring (m : mem) (fl : list block) : Prop := {
  ri_links : links m B fl;
  ri_back : hptr m (last_of B fl) = B;
  ri_base : hsize m B = 0
}.

Definition nodes (fl : list block) : list Z := B :: map fst fl.

Lemma nodes_split fl p : p ∈ nodes fl -> exists l1 l2, fl = l1 ++ l2 /\ p = last_of B l1.
Proof.
  intros [-> |Hp]%elem_of_cons; [by exists [], fl|]. apply list_elem_of_In, in_map_iff in Hp as (b & <- & Hb). apply in_split in Hb as (l1 & l2 & ->).
  exists (l1 ++ [b]), l2. rewrite <- app_assoc. split; [done|]. by rewrite last_of_snoc.
Qed.
Lemma last_in_nodes l1 l2 : last_of B l1 ∈ nodes (l1 ++ l2).
Proof.
  unfold nodes. destruct l1 as [|b l1 _] using rev_ind; [by left|]. rewrite last_of_snoc. right. rewrite !map_app. cbn. apply elem_of_app. left. apply elem_of_app. right. by left.
Qed.

(** The header after the last one of [l1]. *)
Definition after (l2 : list block) : Z := match l2 with [] => B | b :: _ => fst b end.
Lemma ring_next m l1 l2 : ring m (l1 ++ l2) -> hptr m (last_of B l1) = after l2.
Proof.
  intros [Hl Hb _]. destruct l2 as [|[a u] l2]; [by rewrite app_nil_r in Hb|]. apply links_app in Hl as [_ (H & _)]. done.
Qed.
Lemma ring_size m l1 a u l2 : ring m (l1 ++ (a, u) :: l2) -> hsize m a = u.
Proof. intros [Hl _ _]. apply links_app in Hl as [_ (_ & H & _)]. done. Qed.

(** ** Headers *)

Definition al (p : Z) : Prop := p mod 8 = 0.

Lemma hptr_set_ptr m p v q : al p -> al q -> hptr (set_ptr p v m) q = if q =? p then u32 v else hptr m q.
Proof.
  unfold al, hptr, set_ptr. intros Hp Hq. destruct (Z.eqb_spec q p) as [->|]; [apply ld32_st32_same|]. apply ld32_st32_ne. mlia.
Qed.
Lemma hsize_set_ptr m p v q : al p -> al q -> hsize (set_ptr p v m) q = hsize m q.
Proof. unfold al, hsize, set_ptr. intros Hp Hq. apply ld32_st32_ne. mlia. Qed.
Lemma hptr_set_size m p v q : al p -> al q -> hptr (set_size p v m) q = hptr m q.
Proof. unfold al, hptr, set_size. intros Hp Hq. apply ld32_st32_ne. mlia. Qed.
Lemma hsize_set_size m p v q : al p -> al q -> hsize (set_size p v m) q = if q =? p then u32 v else hsize m q.
Proof.
  unfold al, hsize, set_size. intros Hp Hq. destruct (Z.eqb_spec q p) as [->|]; [apply ld32_st32_same|]. apply ld32_st32_ne. mlia.
Qed.
Lemma hptr_range m p : 0 <= hptr m p < 0x100000000.
Proof. apply ld32_range. Qed.
Lemma hsize_range m p : 0 <= hsize m p < 0x100000000.
Proof. apply ld32_range. Qed.

(** Headers other than [p] are the same. *)
Definition heads_but (p : Z) (m m' : mem) : Prop := forall q, al q -> q <> p -> hptr m' q = hptr m q /\ hsize m' q = hsize m q.
Lemma heads_but_trans p m1 m2 m3 : heads_but p m1 m2 -> heads_but p m2 m3 -> heads_but p m1 m3.
Proof. intros H1 H2 q Hq Hne. destruct (H1 q Hq Hne) as [E1 E2], (H2 q Hq Hne) as [E3 E4]. by rewrite E3, E4. Qed.
Lemma heads_set_ptr p v m : al p -> heads_but p m (set_ptr p v m).
Proof. intros Hp q Hq Hne. by rewrite hptr_set_ptr, hsize_set_ptr, (proj2 (Z.eqb_neq q p)). Qed.
Lemma heads_set_size p v m : al p -> heads_but p m (set_size p v m).
Proof. intros Hp q Hq Hne. by rewrite hptr_set_size, hsize_set_size, (proj2 (Z.eqb_neq q p)). Qed.

(** Links that do not start at [p] or go through it, but may end there. *)
Lemma links_but p m m' l q : heads_but p m m' -> Forall al (q :: map fst l) -> p ∉ q :: map fst l -> links m q l -> links m' q l.
Proof.
  intros Hh. revert q. induction l as [|[a u] l IH]; intros q Hal Hp Hl; cbn [links map fst] in *; [done|]. destruct Hl as (H1 & H2 & H3).
  apply Forall_cons in Hal as [Hq Hal]. pose proof (Forall_inv Hal) as Ha. cbn in Ha. apply not_elem_of_cons in Hp as [Hpq Hp]. pose proof Hp as Hp'.
  apply not_elem_of_cons in Hp' as [Hpa _]. destruct (Hh q Hq) as [E1 _]; [done|]. destruct (Hh a Ha) as [_ E2]; [done|].
  split_and!; [congruence|congruence|]. by apply IH.
Qed.
(** Links whose last header is [p], of which the size may change. *)
Lemma links_end p m m' l u q : heads_but p m m' -> hsize m' p = u -> Forall al (q :: map fst l) -> p ∉ q :: map fst l -> al p -> forall u0, links m q (l ++ [(p, u0)]) -> links m' q (l ++ [(p, u)]).
Proof.
  intros Hh Hu Hal Hp Hpal u0 Hl. apply links_app in Hl as [Hl (H1 & _ & _)]. apply links_app. split; [by eapply links_but|]. cbn [links]. split_and!; [|done|done].
  pose proof (last_of_in q l) as Hin. rewrite Forall_forall in Hal. destruct (Hh (last_of q l)) as [-> _]; [by apply Hal|intros E; rewrite E in Hin; by apply Hp|done].
Qed.

(** From [q] through [l] and back to [base]. *)
Definition seg (m : mem) (q : Z) (l : list block) : Prop := links m q l /\ hptr m (last_of q l) = B.

Lemma ring_seg m l1 l2 : ring m (l1 ++ l2) -> seg m (last_of B l1) l2.
Proof.
  intros [Hl Hb _]. apply links_app in Hl as [_ Hl]. split; [done|]. by rewrite <- last_of_app.
Qed.
Lemma seg_ring m l1 l2 : links m B l1 -> seg m (last_of B l1) l2 -> hsize m B = 0 -> ring m (l1 ++ l2).
Proof.
  intros H1 [H2 H3] Hb. split; [by apply links_app| |done]. by rewrite last_of_app.
Qed.
Lemma seg_cons m q a u l : hptr m q = a -> hsize m a = u -> seg m a l -> seg m q ((a, u) :: l).
Proof. intros H1 H2 [H3 H4]. split; [by cbn|]. by rewrite last_of_cons. Qed.
Lemma seg_uncons m q a u l : seg m q ((a, u) :: l) -> hptr m q = a /\ hsize m a = u /\ seg m a l.
Proof. intros [(H1 & H2 & H3) H4]. rewrite last_of_cons in H4. by split_and!. Qed.

Lemma seg_but p m m' q l : heads_but p m m' -> Forall al (q :: map fst l) -> p ∉ q :: map fst l -> seg m q l -> seg m' q l.
Proof.
  intros Hh Hal Hp [H1 H2]. split; [by eapply links_but|]. pose proof (last_of_in q l) as Hin. rewrite Forall_forall in Hal.
  destruct (Hh (last_of q l)) as [-> _]; [by apply Hal|intros E; rewrite E in Hin; by apply Hp|done].
Qed.
(** The chain of [n] taken over by [q]. *)
Lemma seg_move m m' n q l : heads_but q m m' -> hptr m' q = hptr m n -> Forall al (map fst l) -> q ∉ map fst l -> seg m n l -> seg m' q l.
Proof.
  intros Hh Hq Hal Hn H. destruct l as [|[a u] l]; [split; [done|]; change (hptr m' q = B); rewrite Hq; by destruct H as [_ H]|].
  apply seg_uncons in H as (H1 & H2 & H3). cbn [map fst] in *. pose proof (Forall_inv Hal) as Ha. cbn in Ha.
  pose proof Hn as Hn'. apply not_elem_of_cons in Hn' as [Hne _].
  apply seg_cons; [congruence| |by eapply seg_but]. destruct (Hh a Ha) as [_ ->]; [done|done].
Qed.

(** ** free *)

(** The block is linked to what follows it, and the list before it is as it was. *)
Record pending (m : mem) (l1 : list block) (bp u : Z) (l2 : list block) : Prop := {
  pe_links : links m B l1;
  pe_size : hsize m bp = u;
  pe_seg : seg m bp l2;
  pe_base : hsize m B = 0
}.

(** Joining with the next block, and with the one before. *)
Definition merge_next (bp u : Z) (l2 : list block) : Z * list block :=
  match l2 with (n, un) :: l => if bp + 8 * u =? n then (u + un, l) else (u, l2) | [] => (u, []) end.
Definition merge_prev (l1 : list block) (bp u : Z) : list block :=
  match last l1 with Some (p, up) => if p + 8 * up =? bp then removelast l1 ++ [(p, up + u)] else l1 ++ [(bp, u)] | None => [(bp, u)] end.

Lemma join_next_pending m l1 l2 bp u : ring m (l1 ++ l2) -> hsize m bp = u -> B < bp -> bp ∉ nodes (l1 ++ l2) -> al bp -> Forall al (nodes (l1 ++ l2)) ->
  Forall (fun b => fst b + 8 * snd b < 0x100000000) ((bp, u) :: l2) -> 0 <= B -> 0 <= u ->
  let (u', l2') := merge_next bp u l2 in
  pending (join_next bp (last_of B l1) m) l1 bp u' l2' /\ heads_but bp m (join_next bp (last_of B l1) m).
Proof.
  intros Hr Hu HB Hn Hbp Hal Hb HB0 Hu0. pose proof (ring_next _ _ _ Hr) as Hnx. pose proof (ring_seg _ _ _ Hr) as Hs. pose proof Hr as [Hl _ Hz].
  apply links_app in Hl as [Hl1 _]. unfold nodes in *. rewrite map_app in *. apply not_elem_of_cons in Hn as [HnB [Hn1 Hn2]%not_elem_of_app].
  apply Forall_cons in Hal as [HalB [Hal1 Hal2]%Forall_app]. apply Forall_cons in Hb as [Hb Hb2]. cbn [fst snd] in Hb.
  assert (forall m', heads_but bp m m' -> links m' B l1 /\ hsize m' B = 0) as Hkeep.
  { intros m' Hh. split; [eapply links_but; [exact Hh|by constructor|by apply not_elem_of_cons|done]|]. destruct (Hh B HalB) as [_ ->]; [done|done]. }
  unfold join_next. rewrite Hu, Hnx, (u32_small (bp + 8 * u)) by lia. destruct l2 as [|[n un] l2]; cbn [merge_next after fst].
  - rewrite (proj2 (Z.eqb_neq (bp + 8 * u) B)) by lia. pose proof (heads_set_ptr bp B m Hbp) as Hh.
    assert (hsize (set_ptr bp B m) bp = u) as Hu' by (by rewrite hsize_set_ptr). destruct (Hkeep _ Hh) as [K1 K2]. split; [|done].
    split; [done|done| |done]. split; [done|]. cbn. rewrite hptr_set_ptr, Z.eqb_refl by done. apply u32_small. lia.
  - cbn [map fst] in *. apply not_elem_of_cons in Hn2 as [Hnn Hn2]. apply Forall_cons in Hal2 as [Haln Hal2]. apply Forall_cons in Hb2 as [Hbn Hb2]. cbn [fst snd] in Hbn.
    apply seg_uncons in Hs as (_ & Hsn & Hsg). pose proof (hsize_range m n) as Hrn. rewrite Hsn in Hrn.
    destruct (Z.eqb_spec (bp + 8 * u) n) as [En|En].
    + assert (al (last_of B l1)) as Hlast.
      { pose proof (last_of_in B l1) as Hin. apply elem_of_cons in Hin as [-> |Hin]; [done|]. rewrite Forall_forall in Hal1. by apply Hal1. }
      rewrite Hsn, (u32_small (u + un)) by lia. rewrite (hptr_set_size _ _ _ (last_of B l1)), Hnx by done. cbn [after fst]. rewrite hptr_set_size by done.
      pose proof (heads_set_size bp (u + un) m Hbp) as Hh1. set (m1 := set_size bp (u + un) m) in *.
      assert (heads_but bp m (set_ptr bp (hptr m n) m1)) as Hh by (eapply heads_but_trans; [exact Hh1|by apply heads_set_ptr]).
      assert (hsize (set_ptr bp (hptr m n) m1) bp = u + un) as Hu'.
      { rewrite hsize_set_ptr by done. unfold m1. rewrite hsize_set_size, Z.eqb_refl by done. apply u32_small. lia. }
      destruct (Hkeep _ Hh) as [K1 K2].
      split; [|done]. split; [done|done| |done]. eapply seg_move; [exact Hh| |done|done|exact Hsg].
      rewrite hptr_set_ptr, Z.eqb_refl by done. apply u32_small, hptr_range.
    + pose proof (heads_set_ptr bp n m Hbp) as Hh. assert (hsize (set_ptr bp n m) bp = u) as Hu' by (by rewrite hsize_set_ptr).
      destruct (Hkeep _ Hh) as [K1 K2]. split; [|done]. split; [done|done| |done]. apply seg_cons.
      * rewrite hptr_set_ptr, Z.eqb_refl by done. apply u32_small. pose proof (hptr_range m (last_of B l1)). rewrite Hnx in *. done.
      * by destruct (Hh n Haln) as [_ ->].
      * eapply seg_but; [exact Hh|by constructor|by apply not_elem_of_cons|done].
Qed.

Lemma join_prev_ring m l1 l2 bp u : pending m l1 bp u l2 -> B < bp < 0x100000000 -> bp ∉ nodes (l1 ++ l2) -> NoDup (nodes (l1 ++ l2)) -> al bp -> Forall al (nodes (l1 ++ l2)) ->
  Forall (fun b => fst b + 8 * snd b < 0x100000000) ((bp, u) :: l1) -> 0 <= B -> 0 <= u ->
  ring (join_prev bp (last_of B l1) m) (merge_prev l1 bp u ++ l2) /\ heads_but (last_of B l1) m (join_prev bp (last_of B l1) m).
Proof.
  intros [Hl Hu Hs Hz] HB Hn Hnd Hbp Hal Hb HB0 Hu0. unfold nodes in *. rewrite map_app in *. apply not_elem_of_cons in Hn as [HnB [Hn1 Hn2]%not_elem_of_app].
  apply Forall_cons in Hal as [HalB [Hal1 Hal2]%Forall_app]. apply Forall_cons in Hb as [Hb0 Hb1]. cbn [fst snd] in Hb0.
  apply NoDup_cons in Hnd as [HB1 (Hnd1 & Hnd12 & Hnd2)%NoDup_app]. apply not_elem_of_app in HB1 as [HB1 HB2].
  unfold join_prev, merge_prev. rewrite Hu. destruct l1 as [|[p up] l1 _] using rev_ind.
  - change (last_of B []) with B. rewrite Hz. rewrite Z.mul_0_r, Z.add_0_r, (u32_small B), (proj2 (Z.eqb_neq B bp)) by lia. cbn [last app].
    pose proof (heads_set_ptr B bp m HalB) as Hh. split; [|done]. apply (seg_ring _ []); [done| |by rewrite hsize_set_ptr]. cbn [app]. apply seg_cons.
    + change (last_of B []) with B. rewrite hptr_set_ptr, Z.eqb_refl by done. apply u32_small. lia.
    + by rewrite hsize_set_ptr.
    + eapply seg_but; [exact Hh|by constructor|by apply not_elem_of_cons|done].
  - rewrite last_of_snoc, last_snoc. cbn [fst]. rewrite map_app in *. cbn [map fst] in *.
    apply Forall_app in Hal1 as [Hal1 Halp]. apply Forall_inv in Halp. apply Forall_app in Hb1 as [_ Hbp1]. apply Forall_inv in Hbp1. cbn [fst snd] in Hbp1.
    apply not_elem_of_app in HB1 as [HB1 HBp]. assert (B <> p) as HBp' by (intros ->; apply HBp; by left).
    apply NoDup_app in Hnd1 as (Hnd1 & Hp1 & _). assert (p ∉ map fst l1) as Hpl1 by (intros Hin; apply (Hp1 p Hin); by left).
    assert (p ∉ map fst l2) as Hpl2 by (apply Hnd12, elem_of_app; right; by left).
    apply not_elem_of_app in Hn1 as [Hn1 Hnp]. assert (bp <> p) as Hbpp by (intros ->; apply Hnp; by left).
    assert (hsize m p = up) as Hup by (apply links_app in Hl as [_ (_ & ? & _)]; done). pose proof (hsize_range m p) as Hrp. rewrite Hup in *.
    assert (p ∉ B :: map fst l1) as Hpn by (by apply not_elem_of_cons). pose proof (hptr_range m bp) as Hrb. pose proof (hsize_range m bp) as Hrs.
    destruct (decide (0 <= p)) as [Hp0|Hp0]; [|exfalso].
    2:{ apply links_app in Hl as [_ (Hpp & _)]. pose proof (hptr_range m (last_of B l1)). lia. }
    rewrite (u32_small (p + 8 * up)) by lia. destruct (Z.eqb_spec (p + 8 * up) bp) as [E|E].
    + rewrite removelast_last. rewrite hptr_set_size by done. rewrite (u32_small (up + u)) by lia.
      pose proof (heads_set_size p (up + u) m Halp) as Hh1. set (m1 := set_size p (up + u) m) in *.
      assert (heads_but p m (set_ptr p (hptr m bp) m1)) as Hh by (eapply heads_but_trans; [exact Hh1|by apply heads_set_ptr]).
      split; [|done]. apply seg_ring.
      * eapply links_end; [exact Hh| |by constructor|done|done|exact Hl]. rewrite hsize_set_ptr by done. unfold m1. rewrite hsize_set_size, Z.eqb_refl by done. apply u32_small. lia.
      * rewrite last_of_snoc. cbn [fst]. eapply seg_move; [exact Hh| |done|done|exact Hs]. rewrite hptr_set_ptr, Z.eqb_refl by done. by apply u32_small.
      * by destruct (Hh B HalB HBp') as [_ ->].
    + pose proof (heads_set_ptr p bp m Halp) as Hh. split; [|done]. rewrite <- app_assoc. apply seg_ring.
      * eapply links_end; [exact Hh| |by constructor|done|done|exact Hl]. by rewrite hsize_set_ptr.
      * rewrite last_of_snoc. cbn [fst app]. apply seg_cons; [rewrite hptr_set_ptr, Z.eqb_refl by done; apply u32_small; lia|by rewrite hsize_set_ptr|].
        eapply seg_but; [exact Hh|by constructor|by apply not_elem_of_cons|done].
      * by destruct (Hh B HalB HBp') as [_ ->].
Qed.

(** The place of [bp] in the ring. *)
Record place (fl : list block) (bp : Z) (l1 l2 : list block) : Prop := {
  pl_split : fl = l1 ++ l2;
  pl_base : B < bp;
  pl_before : Forall (fun b => fst b < bp) l1;
  pl_after : Forall (fun b => bp < fst b) l2
}.

Lemma sorted_place fl bp : StronglySorted Z.lt (nodes fl) -> B < bp -> bp ∉ nodes fl -> exists l1 l2, place fl bp l1 l2.
Proof.
  intros Hs HB Hn. unfold nodes in *. apply StronglySorted_inv in Hs as [Hs _]. apply not_elem_of_cons in Hn as [_ Hn]. induction fl as [|[a u] fl IH]; [by exists [], []|].
  cbn [map fst] in *. apply StronglySorted_inv in Hs as [Hs Hlt]. apply not_elem_of_cons in Hn as [Hne Hn]. destruct (Z.lt_total a bp) as [H|[H|H]]; [|by exfalso; apply Hne|].
  - destruct (IH Hs Hn) as (l1 & l2 & [-> _ H1 H2]). exists ((a, u) :: l1), l2. split; [done|done|by constructor|done].
  - exists [], ((a, u) :: fl). split; [done|done|done|]. constructor; [done|]. apply List.Forall_forall. intros [b v] Hb. cbn.
    rewrite List.Forall_forall in Hlt. specialize (Hlt b). assert (In b (map fst fl)) as Hin by (apply in_map_iff; by exists (b, v)). specialize (Hlt Hin). lia.
Qed.

Lemma last_of_before bp l : B < bp -> Forall (fun b => fst b < bp) l -> last_of B l < bp.
Proof. intros HB H. destruct l as [|b l _] using rev_ind; [done|]. rewrite last_of_snoc. apply Forall_app in H as [_ H]. by apply Forall_inv in H. Qed.

Lemma sorted_last l0 l a : StronglySorted Z.lt (nodes (l0 ++ l)) -> a ∈ map fst l -> last_of B l0 < a.
Proof.
  unfold nodes. rewrite map_app, app_comm_cons. intros Hs Ha. by apply (StronglySorted_app_1_elem_of _ _ _ _ _ Hs (last_of_in B l0)).
Qed.
Lemma sorted_base l0 l : StronglySorted Z.lt (nodes (l0 ++ l)) -> B <= last_of B l0.
Proof.
  unfold nodes. intros [_ Hs]%StronglySorted_inv. pose proof (last_of_in B l0) as Hin. apply elem_of_cons in Hin as [-> |Hin]; [lia|].
  rewrite Forall_forall in Hs. apply Z.lt_le_incl, Hs. rewrite map_app. apply elem_of_app. by left.
Qed.

(** From a header before [bp]. *)
Lemma free_search_before m fl bp l1 l2 : ring m fl -> place fl bp l1 l2 -> StronglySorted Z.lt (nodes fl) ->
  forall l0' l0 fuel, l1 = l0 ++ l0' -> (length l0' <= fuel)%nat -> free_search fuel m bp (last_of B l0) = Ret (last_of B l1).
Proof.
  intros Hr [-> HB H1 H2] Hs. induction l0' as [|[a u] l0' IH]; intros l0 fuel -> Hf.
  - rewrite app_nil_r in *. pose proof (ring_next _ _ _ Hr) as Hn. pose proof (last_of_before bp l0 HB H1) as Hlt. pose proof (sorted_base _ _ Hs) as HBl.
    destruct fuel as [|fuel]; cbn [free_search]; rewrite Hn, (proj2 (Z.ltb_lt (last_of B l0) bp)) by done; cbn [andb orb];
      (destruct l2 as [|[b v] l2]; cbn [after fst]; [rewrite (proj2 (Z.ltb_ge bp B)), (proj2 (Z.leb_le B _)) by lia; done|
       apply Forall_inv in H2; cbn in H2; by rewrite (proj2 (Z.ltb_lt bp b))]).
  - destruct fuel as [|fuel]; cbn [length] in Hf; [lia|]. rewrite <- app_assoc in Hr, Hs. cbn [app] in Hr, Hs. pose proof (ring_next _ _ _ Hr) as Hn. cbn [after fst] in Hn.
    apply Forall_app in H1 as [H0 H1]. apply Forall_cons in H1 as [Ha H1]. cbn in Ha. pose proof (sorted_last _ _ a Hs ltac:(by left)) as Hla.
    cbn [free_search]. rewrite Hn, (proj2 (Z.ltb_ge bp a)), andb_false_r, (proj2 (Z.leb_gt a _)) by lia. cbn [andb].
    specialize (IH (l0 ++ [(a, u)]) fuel). rewrite last_of_snoc in IH. cbn [fst] in IH. rewrite <- app_assoc in IH. cbn [app] in IH. by apply IH; [|lia].
Qed.

(** From a header after it: to the end of the ring and on from [base]. *)
Lemma search_after m fl bp l1 l2 : ring m fl -> place fl bp l1 l2 -> StronglySorted Z.lt (nodes fl) ->
  forall lb la fuel, l2 = la ++ lb -> la <> [] -> (length lb + 1 + length l1 <= fuel)%nat -> free_search fuel m bp (last_of B (l1 ++ la)) = Ret (last_of B l1).
Proof.
  intros Hr Hp Hs. pose proof Hp as [-> HB H1 H2]. induction lb as [|[a u] lb IH]; intros la fuel -> Hne Hf.
  - rewrite app_nil_r in *. assert (bp < last_of B (l1 ++ la)) as Hlt.
    { rewrite last_of_app. destruct la as [|b la _] using rev_ind; [done|]. rewrite last_of_snoc. apply Forall_app in H2 as [_ H2]. by apply Forall_inv in H2. }
    destruct fuel as [|fuel]; [lia|]. cbn [free_search]. rewrite (ri_back _ _ Hr), (proj2 (Z.ltb_ge (last_of B (l1 ++ la)) bp)), (proj2 (Z.ltb_ge bp B)) by lia. cbn [andb orb].
    rewrite andb_false_r. apply (free_search_before m (l1 ++ la) bp l1 la Hr Hp Hs l1 []); [done|cbn in Hf; lia].
  - destruct fuel as [|fuel]; cbn [length] in Hf; [lia|]. assert (bp < last_of B (l1 ++ la)) as Hlt.
    { rewrite last_of_app. destruct la as [|b la _] using rev_ind; [done|]. rewrite last_of_snoc. apply Forall_app in H2 as [H2 _]. apply Forall_app in H2 as [_ H2]. by apply Forall_inv in H2. }
    rewrite app_assoc in Hr, Hs. pose proof (ring_next _ _ _ Hr) as Hn. cbn [after fst] in Hn. pose proof (sorted_last _ _ a Hs ltac:(by left)) as Hla.
    cbn [free_search]. rewrite Hn, (proj2 (Z.ltb_ge (last_of B (l1 ++ la)) bp)), (proj2 (Z.leb_gt a _)) by lia. cbn [andb].
    specialize (IH (la ++ [(a, u)]) fuel). rewrite app_assoc, last_of_snoc in IH. cbn [fst] in IH. apply IH; [by rewrite <- app_assoc| |lia]. by intros [_ ?]%app_eq_nil.
Qed.

Lemma free_search_finds m fl bp l1 l2 fp fuel : ring m fl -> place fl bp l1 l2 -> StronglySorted Z.lt (nodes fl) -> fp ∈ nodes fl -> (length fl + 1 <= fuel)%nat ->
  free_search fuel m bp fp = Ret (last_of B l1).
Proof.
  intros Hr Hp Hs Hfp Hf. destruct (nodes_split _ _ Hfp) as (k1 & k2 & Ek & ->). pose proof (pl_split _ _ _ _ Hp) as E. rewrite E in Ek. rewrite E, length_app in Hf.
  apply app_eq_app in Ek as [l [[-> ->]|[-> ->]]].
  - apply (free_search_before m fl bp (k1 ++ l) l2 Hr Hp Hs l k1); [done|]. rewrite length_app in Hf. lia.
  - destruct l as [|b l]; [rewrite app_nil_r; apply (free_search_before m fl bp l1 k2 Hr Hp Hs [] l1); [by rewrite app_nil_r|cbn; lia]|].
    apply (search_after m fl bp l1 _ Hr Hp Hs k2); [done|done|]. rewrite length_app in Hf. cbn in Hf. lia.
Qed.

(** ** The heap *)

Record heap (core : list Z) (s : ust) (fl live : list block) : Prop := {
  he_ring : ring (um s) fl;
  he_sorted : StronglySorted Z.lt (nodes fl);
  he_pos : Forall (fun b => 0 < snd b) (fl ++ live);
  he_cells : all_cells (fl ++ live) ≡ₚ core;
  he_nodup : NoDup core;
  he_core : Forall (fun c => al c /\ B + 8 <= c /\ c + 8 <= ubrk s) core;
  he_live : Forall (fun b => hsize (um s) (fst b) = snd b) live;
  he_freep : ufreep s ∈ nodes fl;
  he_base : 0 < B /\ al B;
  he_brk : al (ubrk s) /\ B + 8 <= ubrk s <= 0x80000000
}.

Lemma cells_head a u : 0 < u -> a ∈ cells (a, u).
Proof. intros Hu. apply cells_in. exists 0. cbn. lia. Qed.
Lemma cells_last a u : 0 < u -> a + 8 * (u - 1) ∈ cells (a, u).
Proof. intros Hu. apply cells_in. exists (u - 1). cbn. lia. Qed.

Lemma heap_block core s fl live b : heap core s fl live -> b ∈ fl ++ live ->
  0 < snd b /\ al (fst b) /\ B + 8 <= fst b /\ fst b + 8 * snd b <= ubrk s /\ forall c, c ∈ cells b -> c ∈ core.
Proof.
  intros H Hb. destruct b as [a u]. pose proof (he_pos _ _ _ _ H) as Hp. rewrite Forall_forall in Hp. specialize (Hp _ Hb). cbn in Hp.
  pose proof (he_core _ _ _ _ H) as Hc. rewrite Forall_forall in Hc.
  assert (forall c, c ∈ cells (a, u) -> c ∈ core) as Hin.
  { intros c Hcc. rewrite <- (he_cells _ _ _ _ H). apply all_cells_in. by exists (a, u). }
  destruct (Hc a) as (H1 & H2 & _); [by apply Hin, cells_head|]. destruct (Hc (a + 8 * (u - 1))) as (_ & _ & H3); [by apply Hin, cells_last|].
  cbn [fst snd]. split_and!; [done|done|done|lia|done].
Qed.

Lemma heap_apart core s fl live : heap core s fl live -> NoDup (all_cells (fl ++ live)).
Proof. intros H. rewrite (he_cells _ _ _ _ H). apply (he_nodup _ _ _ _ H). Qed.

Lemma sorted_nodup l : StronglySorted Z.lt l -> NoDup l.
Proof.
  induction 1 as [|a l _ IH Hlt]; constructor; [|done]. intros Hin. rewrite Forall_forall in Hlt. specialize (Hlt a Hin). lia.
Qed.
Lemma sorted_sublist (l l' : list Z) : sublist l l' -> StronglySorted Z.lt l' -> StronglySorted Z.lt l.
Proof.
  induction 1 as [|x l l' Hsub IH|x l l' Hsub IH]; intros Hs; [done| |].
  - apply StronglySorted_inv in Hs as [Hs Hlt]. constructor; [by apply IH|]. rewrite Forall_forall in *. intros y Hy. apply Hlt. by eapply elem_of_sublist.
  - apply StronglySorted_inv in Hs as [Hs _]. by apply IH.
Qed.

Lemma merge_next_cells bp u l2 : 0 <= u -> Forall (fun b => 0 < snd b) l2 ->
  let (u', l2') := merge_next bp u l2 in cells (bp, u') ++ all_cells l2' = cells (bp, u) ++ all_cells l2 /\ u <= u' /\ l2' `suffix_of` l2.
Proof.
  intros Hu Hp. destruct l2 as [|[n un] l2]; cbn [merge_next]; [done|]. apply Forall_cons in Hp as [Hun _]. cbn in Hun.
  destruct (Z.eqb_spec (bp + 8 * u) n) as [<-|]; [|split_and!; [done|lia|done]].
  split_and!; [|lia|by apply suffix_cons_r]. rewrite cells_app by lia. unfold all_cells. cbn [map concat]. by rewrite app_assoc.
Qed.
Lemma merge_prev_cells l1 bp u : 0 <= u -> Forall (fun b => 0 < snd b) l1 ->
  all_cells (merge_prev l1 bp u) = all_cells l1 ++ cells (bp, u) /\ sublist (map fst (merge_prev l1 bp u)) (map fst l1 ++ [bp]) /\
  (length (merge_prev l1 bp u) <= length l1 + 1)%nat /\ exists a v, (a, v) ∈ merge_prev l1 bp u /\ u <= v.
Proof.
  intros Hu Hp. unfold merge_prev. destruct l1 as [|[p up] l1 _] using rev_ind; cbn [last].
  - split_and!; [by unfold all_cells; cbn; rewrite app_nil_r|done|done|exists bp, u; split; [by left|lia]].
  - rewrite last_snoc. apply Forall_app in Hp as [_ Hp]. apply Forall_inv in Hp. cbn in Hp. destruct (Z.eqb_spec (p + 8 * up) bp) as [<-|].
    + rewrite removelast_last, !all_cells_app. unfold all_cells at 2 4. cbn [map concat]. rewrite !app_nil_r, cells_app by lia.
      split_and!; [by rewrite app_assoc|rewrite !map_app; cbn; apply sublist_inserts_r; done|rewrite !length_app; cbn; lia|].
      exists p, (up + u). split; [apply elem_of_app; right; by left|lia].
    + rewrite all_cells_app. unfold all_cells at 2. cbn [map concat]. rewrite app_nil_r.
      split_and!; [done|by rewrite !map_app|rewrite !length_app; cbn; lia|]. exists bp, u. split; [apply elem_of_app; right; by left|lia].
Qed.

Lemma cells_length b : 0 <= snd b -> Z.of_nat (length (cells b)) = snd b.
Proof. intros H. unfold cells. rewrite length_map, length_seqZ. lia. Qed.
Lemma all_cells_length l : Forall (fun b => 0 < snd b) l -> (length l <= length (all_cells l))%nat.
Proof.
  induction 1 as [|b l Hb _ IH]; cbn; [lia|]. unfold all_cells in *. cbn [map concat]. rewrite length_app. pose proof (cells_length b ltac:(lia)). lia.
Qed.

(** The ring is short enough for the fuel. *)
Lemma heap_length core s fl live : heap core s fl live -> (length fl + 1 <= ring_fuel s)%nat.
Proof.
  intros H. pose proof (he_core _ _ _ _ H) as Hc. destruct (he_brk _ _ _ _ H) as [Hb _]. destruct (he_base _ _ _ _ H) as [HB _]. unfold ring_fuel.
  assert (length core <= Z.to_nat (ubrk s / 8))%nat as Hl.
  { rewrite <- (length_seqZ 0 (ubrk s / 8)), <- (length_fmap (fun c => c / 8) core). apply submseteq_length, NoDup_submseteq.
    - apply NoDup_fmap_2_strong; [|apply (he_nodup _ _ _ _ H)]. intros x y Hx Hy E. rewrite Forall_forall in Hc. destruct (Hc x Hx) as (H1 & _), (Hc y Hy) as (H2 & _).
      unfold al in *. mlia.
    - intros q Hq. apply list_elem_of_fmap in Hq as (c & -> & Hin). rewrite Forall_forall in Hc. destruct (Hc c Hin) as (H1 & H2 & H3). apply elem_of_seqZ. unfold al in *. mlia. }
  pose proof (he_pos _ _ _ _ H) as Hp. apply Forall_app in Hp as [Hp _]. pose proof (all_cells_length fl Hp) as Hf.
  assert (length (all_cells fl) <= length core)%nat as Hf2; [|lia].
  rewrite <- (he_cells _ _ _ _ H), all_cells_app, length_app. lia.
Qed.

(** What a header's stores leave. *)
Lemma set_ptr_agree p v m : agree (fun x => ~ (p <= x < p + 8)) m (set_ptr p v m).
Proof. eapply agree_weaken; [|apply st32_agree]. cbn. lia. Qed.
Lemma set_size_agree p v m : agree (fun x => ~ (p <= x < p + 8)) m (set_size p v m).
Proof. eapply agree_weaken; [|apply st32_agree]. cbn. lia. Qed.
Lemma join_next_agree bp p m : agree (fun x => ~ (bp <= x < bp + 8)) m (join_next bp p m).
Proof. unfold join_next. destruct (_ =? _); [eapply agree_trans; [apply set_size_agree|apply set_ptr_agree]|apply set_ptr_agree]. Qed.
Lemma join_prev_agree bp p m : agree (fun x => ~ (p <= x < p + 8)) m (join_prev bp p m).
Proof. unfold join_prev. destruct (_ =? _); [eapply agree_trans; [apply set_size_agree|apply set_ptr_agree]|apply set_ptr_agree]. Qed.

(** A byte of one of the blocks, header included. *)
Definition byte_of (l : list block) (x : Z) : Prop := exists b, b ∈ l /\ fst b <= x < fst b + 8 * snd b.

Lemma byte_cell b x : fst b <= x < fst b + 8 * snd b -> exists c, c ∈ cells b /\ c <= x < c + 8.
Proof.
  intros Hx. exists (fst b + 8 * ((x - fst b) / 8)). split; [apply cells_in; exists ((x - fst b) / 8); split; [mlia|done]|mlia].
Qed.

(** A byte of a block is not in the cell of another block's header. *)
Lemma byte_apart live x a : (forall b, b ∈ live -> al (fst b)) -> byte_of live x -> al a -> (forall c, c ∈ all_cells live -> c <> a) -> ~ (a <= x < a + 8).
Proof.
  intros H (b & Hb & Hx) Ha Hne Hxa. destruct (byte_cell b x Hx) as (c & Hc & Hcx).
  apply (Hne c); [apply all_cells_in; by exists b|]. pose proof (H b Hb) as Hal. apply cells_in in Hc as (i & _ & ->). unfold al in *. mlia.
Qed.

(** A header that is not of a block in use. *)
Lemma node_not_live core s fl live p c : heap core s fl live -> p ∈ nodes fl -> c ∈ all_cells live -> c <> p.
Proof.
  intros H Hp Hc ->. apply elem_of_cons in Hp as [-> |Hp].
  - apply all_cells_in in Hc as (b & Hb & Hc). destruct (heap_block _ _ _ _ b H) as (_ & _ & Hlo & _); [apply elem_of_app; by right|].
    apply cells_in in Hc as (i & Hi & E). lia.
  - apply list_elem_of_In, in_map_iff in Hp as ([a u] & E & Hin). cbn in E. subst a. apply list_elem_of_In in Hin.
    pose proof (heap_apart _ _ _ _ H) as Hnd. rewrite all_cells_app in Hnd. apply NoDup_app in Hnd as (_ & Hd & _). apply (Hd p); [|done].
    apply all_cells_in. exists (p, u). split; [done|]. apply cells_head. destruct (heap_block _ _ _ _ (p, u) H) as (? & _); [apply elem_of_app; by left|done].
Qed.

Lemma nodes_al core s fl live : heap core s fl live -> Forall al (nodes fl).
Proof.
  intros H. constructor; [apply (he_base _ _ _ _ H)|]. apply Forall_forall. intros a Ha. apply list_elem_of_In, in_map_iff in Ha as (b & <- & Hb).
  apply list_elem_of_In in Hb. apply (heap_block _ _ _ _ b H). apply elem_of_app. by left.
Qed.
Lemma heap_bounds core s fl live : heap core s fl live -> Forall (fun b => fst b + 8 * snd b < 0x100000000) (fl ++ live).
Proof.
  intros H. apply Forall_forall. intros b Hb. destruct (heap_block _ _ _ _ b H Hb) as (_ & _ & _ & Hhi & _). destruct (he_brk _ _ _ _ H). lia.
Qed.

(** The new free list. *)
Lemma merge_cut bp u l2 : let (u', l2') := merge_next bp u l2 in exists k, l2 = k ++ l2' /\ (0 < u -> Forall (fun b => 0 < snd b) l2 -> u <= u').
Proof.
  destruct (merge_next bp u l2) as [u' l2'] eqn:E. destruct l2 as [|[n un] l2]; cbn in E.
  - injection E as <- <-. exists []. split; [done|lia].
  - destruct (bp + 8 * u =? n); injection E as <- <-; [exists [(n, un)]|exists []]; (split; [done|]); intros _ H; [apply Forall_inv in H; cbn in H|]; lia.
Qed.
Definition freed (l1 : list block) (bp u : Z) (l2 : list block) : list block :=
  let (u', l2') := merge_next bp u l2 in merge_prev l1 bp u' ++ l2'.

Lemma freed_spec l1 bp u l2 : 0 < u -> Forall (fun b => 0 < snd b) (l1 ++ l2) ->
  all_cells (freed l1 bp u l2) = all_cells l1 ++ cells (bp, u) ++ all_cells l2 /\
  sublist (map fst (freed l1 bp u l2)) (map fst l1 ++ bp :: map fst l2) /\
  (length (freed l1 bp u l2) <= length (l1 ++ l2) + 1)%nat /\ (exists a v, (a, v) ∈ freed l1 bp u l2 /\ u <= v) /\
  Forall (fun b => 0 < snd b) (freed l1 bp u l2).
Proof.
  intros Hu Hp. apply Forall_app in Hp as [Hp1 Hp2]. unfold freed. pose proof (merge_next_cells bp u l2 ltac:(lia) Hp2) as Hn.
  destruct (merge_next bp u l2) as [u' l2']. destruct Hn as (Ec & Hu' & Hsuf). destruct (merge_prev_cells l1 bp u' ltac:(lia) Hp1) as (Ep & Hsub & Hl & a & v & Hin & Hv).
  destruct Hsuf as [k Ek]. split_and!.
  - by rewrite all_cells_app, Ep, <- app_assoc, Ec.
  - rewrite map_app. change (bp :: map fst l2) with ([bp] ++ map fst l2). rewrite app_assoc. apply sublist_app; [done|]. rewrite Ek, map_app. by apply sublist_inserts_l.
  - rewrite !length_app. rewrite Ek, length_app. lia.
  - exists a, v. split; [apply elem_of_app; by left|lia].
  - apply Forall_app. split; [|rewrite Ek in Hp2; by apply Forall_app in Hp2 as [_ ?]]. unfold merge_prev.
    destruct l1 as [|[p up] l1 _] using rev_ind; cbn [last]; [by apply Forall_singleton; cbn; lia|]. rewrite last_snoc. apply Forall_app in Hp1 as [H1 H2]. apply Forall_inv in H2. cbn in H2.
    destruct (_ =? bp); [rewrite removelast_last|rewrite <- app_assoc]; apply Forall_app; (split; [done|]); repeat constructor; cbn; lia.
Qed.

Lemma merge_next_bound bp u l2 : Forall (fun b => fst b + 8 * snd b < 0x100000000) ((bp, u) :: l2) -> bp + 8 * fst (merge_next bp u l2) < 0x100000000.
Proof.
  intros [Hb Hl]%Forall_cons. cbn [fst snd] in Hb. destruct l2 as [|[n un] l2]; cbn [merge_next fst]; [done|]. apply Forall_inv in Hl. cbn in Hl.
  destruct (Z.eqb_spec (bp + 8 * u) n); cbn [fst]; lia.
Qed.
Lemma place_sorted l1 bp l2 : StronglySorted Z.lt (nodes (l1 ++ l2)) -> place (l1 ++ l2) bp l1 l2 -> StronglySorted Z.lt (B :: map fst l1 ++ bp :: map fst l2).
Proof.
  intros Hs [_ HB H1 H2]. unfold nodes in Hs. rewrite map_app in Hs. rewrite app_comm_cons in *. apply StronglySorted_app in Hs as (Hlt & Hs1 & Hs2).
  apply StronglySorted_app. split_and!; [|done|].
  - intros x y Hx Hy. apply elem_of_cons in Hy as [-> |Hy]; [|by apply Hlt]. apply elem_of_cons in Hx as [-> |Hx]; [done|].
    apply list_elem_of_In, in_map_iff in Hx as (b & <- & Hb). rewrite Forall_forall in H1. apply H1. by apply list_elem_of_In.
  - apply StronglySorted_cons. split; [|done]. apply Forall_forall. intros x Hx. apply list_elem_of_In, in_map_iff in Hx as (b & <- & Hb). rewrite Forall_forall in H2. apply H2. by apply list_elem_of_In.
Qed.
Lemma merge_prev_node l1 bp u l2 : last_of B l1 ∈ nodes (merge_prev l1 bp u ++ l2).
Proof.
  unfold merge_prev, nodes. destruct l1 as [|[p up] l1 _] using rev_ind; [by left|]. rewrite last_of_snoc, last_snoc. right. cbn [fst].
  destruct (_ =? bp); [rewrite removelast_last|]; rewrite !map_app; apply elem_of_app; left; [|apply elem_of_app; left]; apply elem_of_app; right; by left.
Qed.

(** Joining the block at [bp] to the ring [l1 ++ l2]. *)
Lemma join_ring m l1 l2 bp u : ring m (l1 ++ l2) -> hsize m bp = u -> B < bp -> 0 < u -> al bp -> Forall al (nodes (l1 ++ l2)) -> Forall (fun b => 0 < snd b) l2 ->
  StronglySorted Z.lt (B :: map fst l1 ++ bp :: map fst l2) -> Forall (fun b => fst b + 8 * snd b < 0x100000000) ((bp, u) :: l1 ++ l2) -> 0 <= B ->
  let m' := join_prev bp (last_of B l1) (join_next bp (last_of B l1) m) in
  ring m' (freed l1 bp u l2) /\ (forall q, al q -> q <> bp -> q <> last_of B l1 -> hsize m' q = hsize m q).
Proof.
  intros Hr Hsz HB Hu Hal Haln Hpos Hs Hb HB0 m'. apply Forall_cons in Hb as [Hb [Hb1 Hb2]%Forall_app]. pose proof (sorted_nodup _ Hs) as Hnd.
  assert ((bp ∉ nodes (l1 ++ l2)) /\ NoDup (nodes (l1 ++ l2))) as [Hn Hnd'].
  { rewrite app_comm_cons in Hnd. apply NoDup_app in Hnd as (H1 & H2 & [H3 H4]%NoDup_cons). unfold nodes. rewrite map_app, app_comm_cons. split.
    - apply not_elem_of_app. split; [|done]. intros Hin. apply (H2 bp Hin). by left.
    - apply NoDup_app. split_and!; [done| |done]. intros x Hx Hx2. apply (H2 x Hx). by right. }
  pose proof (join_next_pending m l1 l2 bp u Hr Hsz HB Hn Hal Haln ltac:(by constructor) HB0 ltac:(lia)) as Hjn.
  pose proof (merge_next_bound bp u l2 ltac:(by constructor)) as Hbn. pose proof (merge_cut bp u l2) as Hcut. unfold freed in *.
  destruct (merge_next bp u l2) as [u' l2']. cbn [fst] in Hbn. destruct Hjn as [Hpend Hh1]. destruct Hcut as (k & Ek & Hu'). specialize (Hu' Hu Hpos).
  assert (sublist (nodes (l1 ++ l2')) (nodes (l1 ++ l2))) as Hsub.
  { unfold nodes. rewrite Ek, !map_app. apply sublist_skip, sublist_app; [done|]. by apply sublist_inserts_l. }
  destruct (join_prev_ring _ l1 l2' bp u' Hpend) as [Hring Hh2]; [lia|..].
  - intros Hin. apply Hn. by eapply elem_of_sublist.
  - by eapply sublist_NoDup.
  - done.
  - rewrite Forall_forall in *. intros x Hx. apply Haln. by eapply elem_of_sublist.
  - by constructor.
  - lia.
  - lia.
  - split; [done|]. intros q Hq Hq1 Hq2. destruct (Hh2 q Hq Hq2) as [_ E2]. destruct (Hh1 q Hq Hq1) as [_ E1]. unfold m'. by rewrite E2, E1.
Qed.

Lemma ufree_spec core s fl live bp u : heap core s fl ((bp, u) :: live) ->
  exists s' fl', ufree (u32 (bp + 8)) s = Ret (tt, s') /\ heap core s' fl' live /\ ubrk s' = ubrk s /\ agree (byte_of live) (um s) (um s') /\
    (length fl' <= length fl + 1)%nat /\ exists a v, (a, v) ∈ fl' /\ u <= v.
Proof.
  intros H. destruct (heap_block _ _ _ _ (bp, u) H) as (Hu & Hal & Hlo & Hhi & _); [apply elem_of_app; right; by left|]. cbn [fst snd] in *.
  destruct (he_base _ _ _ _ H) as [HB HBal]. destruct (he_brk _ _ _ _ H) as [_ Hbrk].
  assert (bp ∉ nodes fl) as Hn.
  { intros Hin. apply (node_not_live _ _ _ _ bp bp H Hin); [|done]. apply all_cells_in. exists (bp, u). split; [by left|by apply cells_head]. }
  destruct (sorted_place fl bp (he_sorted _ _ _ _ H) ltac:(lia) Hn) as (l1 & l2 & Hpl). pose proof (heap_length _ _ _ _ H) as Hlen.
  pose proof (free_search_finds _ _ _ _ _ _ _ (he_ring _ _ _ _ H) Hpl (he_sorted _ _ _ _ H) (he_freep _ _ _ _ H) Hlen) as Es.
  pose proof (pl_split _ _ _ _ Hpl) as El. subst fl.
  unfold ufree. rewrite (u32_small (bp + 8)) by lia. replace (u32 (bp + 8 - 8)) with bp by (rewrite u32_small; lia). rewrite Es.
  pose proof (nodes_al _ _ _ _ H) as Haln. pose proof (heap_bounds _ _ _ _ H) as Hbd. apply Forall_app in Hbd as [Hbd [Hb3 _]%Forall_cons].
  pose proof (he_live _ _ _ _ H) as Hlv. apply Forall_cons in Hlv as [Hsz Hlv]. cbn [fst snd] in Hsz, Hb3.
  pose proof (he_pos _ _ _ _ H) as Hpos. apply Forall_app in Hpos as [Hposf [_ Hposl]%Forall_cons]. pose proof (place_sorted _ _ _ (he_sorted _ _ _ _ H) Hpl) as Hsort.
  destruct (join_ring (um s) l1 l2 bp u (he_ring _ _ _ _ H) Hsz ltac:(lia) Hu Hal Haln ltac:(by apply Forall_app in Hposf as [_ ?]) Hsort ltac:(by constructor) ltac:(lia)) as [Hring Hsizes].
  destruct (freed_spec l1 bp u l2 Hu Hposf) as (Ecells & Hsub & Hlength & Hfit & Hposn).
  assert (forall c, c ∈ all_cells live -> c <> bp) as Hlbp.
  { intros c Hc ->. pose proof (heap_apart _ _ _ _ H) as Hnd. rewrite all_cells_app in Hnd. apply NoDup_app in Hnd as (_ & _ & Hnd).
    change (all_cells ((bp, u) :: live)) with (cells (bp, u) ++ all_cells live) in Hnd. apply NoDup_app in Hnd as (_ & Hd & _). apply (Hd bp); [by apply cells_head|done]. }
  assert (forall c, c ∈ all_cells live -> c <> last_of B l1) as Hlp.
  { intros c Hc. apply (node_not_live _ _ _ _ _ c H (last_in_nodes l1 l2)). change (all_cells ((bp, u) :: live)) with (cells (bp, u) ++ all_cells live). apply elem_of_app. by right. }
  assert (forall b, b ∈ live -> al (fst b) /\ fst b ∈ all_cells live) as Hlb.
  { intros b Hb. destruct (heap_block _ _ _ _ b H) as (? & ? & _); [apply elem_of_app; right; by right|]. split; [done|]. apply all_cells_in. exists b. split; [done|]. destruct b. by apply cells_head. }
  eexists. exists (freed l1 bp u l2). split; [reflexivity|]. split_and!; [|done| |done|done].
  - split; cbn [um ufreep ubrk].
    + exact Hring.
    + eapply sorted_sublist; [|exact Hsort]. by apply sublist_skip.
    + by apply Forall_app.
    + rewrite <- (he_cells _ _ _ _ H), !all_cells_app, Ecells. change (all_cells ((bp, u) :: live)) with (cells (bp, u) ++ all_cells live). solve_Permutation.
    + apply (he_nodup _ _ _ _ H).
    + apply (he_core _ _ _ _ H).
    + rewrite Forall_forall in *. intros b Hb. destruct (Hlb b Hb) as [Ha Hc]. rewrite Hsizes; [by apply Hlv|done|by apply Hlbp|by apply Hlp].
    + unfold freed. destruct (merge_next bp u l2). apply merge_prev_node.
    + done.
    + apply (he_brk _ _ _ _ H).
  - cbn [um]. intros x Hx. rewrite join_prev_agree, join_next_agree; [done|..];
      (eapply byte_apart; [by intros b Hb; apply Hlb|exact Hx| |]); [done|done| |done].
    rewrite Forall_forall in Haln. apply Haln, last_in_nodes.
Qed.

(** ** malloc *)

Lemma ring_but p m m' fl : heads_but p m m' -> Forall al (nodes fl) -> p ∉ nodes fl -> ring m fl -> ring m' fl.
Proof.
  intros Hh Hal Hp Hr. pose proof (ring_seg m [] fl Hr) as Hs. apply (seg_ring m' [] fl); [done|by eapply seg_but|].
  destruct (Hh B) as [_ ->]; [by apply Forall_inv in Hal|intros E; apply Hp; rewrite <- E; by left|]. apply Hr.
Qed.
(** The pointer of the last header may change. *)
Lemma links_last m m' l : heads_but (last_of B l) m m' -> hsize m' (last_of B l) = hsize m (last_of B l) -> Forall al (nodes l) -> NoDup (nodes l) -> links m B l -> links m' B l.
Proof.
  intros Hh Hsz Hal Hnd Hl. destruct l as [|[p u] l _] using rev_ind; [done|]. rewrite last_of_snoc in *. cbn [fst] in *.
  assert (hsize m p = u) as Hu by (by apply links_app in Hl as [_ (_ & ? & _)]). unfold nodes in *. rewrite map_app in *. cbn [map fst] in *. rewrite app_comm_cons in *.
  apply Forall_app in Hal as [Hal Hp]. apply Forall_inv in Hp. apply NoDup_app in Hnd as (_ & Hd & _).
  eapply links_end; [exact Hh|congruence|done| |done|exact Hl]. intros Hin. apply (Hd p Hin). by left.
Qed.

(** The rest of the state does not depend on where the pieces are. *)
Lemma heap_change core s fl live fl' live' m' fp : heap core s fl live -> ring m' fl' -> StronglySorted Z.lt (nodes fl') ->
  Forall (fun b => 0 < snd b) (fl' ++ live') -> all_cells (fl' ++ live') ≡ₚ all_cells (fl ++ live) -> Forall (fun b => hsize m' (fst b) = snd b) live' -> fp ∈ nodes fl' ->
  heap core (mkU m' fp (ubrk s)) fl' live'.
Proof.
  intros H H1 H2 H3 H4 H5 H6. split; cbn [um ufreep ubrk]; try done; [|apply (he_nodup _ _ _ _ H)|apply (he_core _ _ _ _ H)|apply (he_base _ _ _ _ H)|apply (he_brk _ _ _ _ H)].
  by rewrite H4, (he_cells _ _ _ _ H).
Qed.

Lemma take_live_sizes core s fl live m' : heap core s fl live -> (forall q, al q -> q ∈ all_cells live -> hsize m' q = hsize (um s) q) -> Forall (fun b => hsize m' (fst b) = snd b) live.
Proof.
  intros H Hs. pose proof (he_live _ _ _ _ H) as Hl. rewrite Forall_forall in *. intros b Hb. rewrite Hs; [by apply Hl|..].
  - apply (heap_block _ _ _ _ b H). apply elem_of_app. by right.
  - apply all_cells_in. exists b. split; [done|]. destruct b. apply cells_head. by destruct (heap_block _ _ _ _ _ H ltac:(apply elem_of_app; right; exact Hb)) as (? & _).
Qed.

(** The whole block. *)
Lemma take_whole core s l1 p n l2 live : heap core s (l1 ++ (p, n) :: l2) live -> let m' := set_ptr (last_of B l1) (hptr (um s) p) (um s) in
  heap core (mkU m' (last_of B l1) (ubrk s)) (l1 ++ l2) ((p, n) :: live) /\ agree (byte_of live) (um s) m'.
Proof.
  intros H m'. pose proof (he_ring _ _ _ _ H) as Hr. pose proof (he_sorted _ _ _ _ H) as Hs. pose proof (nodes_al _ _ _ _ H) as Hal. pose proof (sorted_nodup _ Hs) as Hnd.
  destruct (heap_block _ _ _ _ (p, n) H) as (_ & Hpal & Hplo & _); [apply elem_of_app; left; apply elem_of_app; right; by left|]. cbn [fst snd] in *.
  assert (al (last_of B l1)) as Hlal by (rewrite Forall_forall in Hal; apply Hal, last_in_nodes).
  pose proof (heads_set_ptr (last_of B l1) (hptr (um s) p) (um s) Hlal) as Hh. fold m' in Hh.
  assert (sublist (nodes (l1 ++ l2)) (nodes (l1 ++ (p, n) :: l2))) as Hsub by (unfold nodes; rewrite !map_app; apply sublist_skip, sublist_app; [done|by apply sublist_cons]).
  unfold nodes in Hal, Hnd. rewrite map_app in Hal, Hnd. cbn [map fst] in Hal, Hnd. rewrite app_comm_cons in Hal, Hnd. apply Forall_app in Hal as [Hal1 [_ Hal2]%Forall_cons].
  apply NoDup_app in Hnd as (Hnd1 & Hd & [Hp2 Hnd2]%NoDup_cons).
  assert (p <> last_of B l1) as Hpl by (intros ->; apply (Hd _ (last_of_in B l1)); by left).
  split.
  - apply (heap_change _ _ _ _ _ _ _ _ H).
    + apply seg_ring; [|eapply (seg_move (um s)); [exact Hh| |done| |]|].
      * apply (links_last (um s)); [done|by unfold m'; rewrite hsize_set_ptr|done|done|]. pose proof (ri_links _ _ Hr) as Hl. by apply links_app in Hl as [? _].
      * unfold m'. rewrite hptr_set_ptr, Z.eqb_refl by done. by apply u32_small, hptr_range.
      * intros Hin. apply (Hd _ (last_of_in B l1)). by right.
      * pose proof (ring_seg _ _ _ Hr) as Hsg. by apply seg_uncons in Hsg as (_ & _ & ?).
      * unfold m'. rewrite hsize_set_ptr; [apply Hr|done|apply (he_base _ _ _ _ H)].
    + by eapply sorted_sublist.
    + pose proof (he_pos _ _ _ _ H) as Hp. rewrite !Forall_app, Forall_cons in *. tauto.
    + rewrite !all_cells_app. change (all_cells ((p, n) :: ?l)) with (cells (p, n) ++ all_cells l). solve_Permutation.
    + constructor; [|eapply take_live_sizes; [exact H|]; intros q Hq _; unfold m'; by rewrite hsize_set_ptr]. cbn. unfold m'. rewrite hsize_set_ptr by done. by apply (ring_size _ l1 p n l2).
    + apply last_in_nodes.
  - intros x Hx. apply set_ptr_agree. eapply byte_apart; [|exact Hx|done|].
    + intros b Hb. apply (heap_block _ _ _ _ b H), elem_of_app. by right.
    + intros c Hc. apply (node_not_live _ _ _ _ _ _ H (last_in_nodes _ _) Hc).
Qed.

(** The cells of a free block are in no other block. *)
Lemma cells_apart core s l1 b l2 live c : heap core s (l1 ++ b :: l2) live -> c ∈ cells b -> c ∉ all_cells (l1 ++ l2 ++ live).
Proof.
  intros H Hc Hin. pose proof (heap_apart _ _ _ _ H) as Hnd.
  assert (all_cells ((l1 ++ b :: l2) ++ live) ≡ₚ cells b ++ all_cells (l1 ++ l2 ++ live)) as E.
  { rewrite !all_cells_app. change (all_cells (b :: l2)) with (cells b ++ all_cells l2). solve_Permutation. }
  rewrite E in Hnd. apply NoDup_app in Hnd as (_ & Hd & _). by apply (Hd c).
Qed.

(** The end of a larger block. *)
Lemma take_tail core s l1 p u n l2 live : heap core s (l1 ++ (p, u) :: l2) live -> 0 < n < u -> let q := p + 8 * (u - n) in let m' := set_size q n (set_size p (u - n) (um s)) in
  heap core (mkU m' (last_of B l1) (ubrk s)) (l1 ++ (p, u - n) :: l2) ((q, n) :: live) /\ agree (byte_of live) (um s) m'.
Proof.
  intros H Hun q m'. pose proof (he_ring _ _ _ _ H) as Hr. pose proof (he_sorted _ _ _ _ H) as Hs. pose proof (nodes_al _ _ _ _ H) as Hal. pose proof (sorted_nodup _ Hs) as Hnd.
  assert (nodes (l1 ++ (p, u - n) :: l2) = nodes (l1 ++ (p, u) :: l2)) as En by (unfold nodes; by rewrite !map_app).
  destruct (heap_block _ _ _ _ (p, u) H) as (_ & Hpal & Hplo & Hphi & Hpc); [apply elem_of_app; left; apply elem_of_app; right; by left|]. cbn [fst snd] in *.
  destruct (he_brk _ _ _ _ H) as [_ Hbrk]. destruct (he_base _ _ _ _ H) as [HB HBal].
  assert (al q) as Hqal by (unfold al, q in *; mlia).
  assert (q ∈ cells (p, u)) as Hqc by (apply cells_in; exists (u - n); cbn; unfold q; lia).
  assert (q ∉ nodes (l1 ++ (p, u) :: l2)) as Hqn.
  { intros Hin. apply elem_of_cons in Hin as [E|Hin]; [unfold q in E; lia|]. rewrite map_app in Hin. cbn [map fst] in Hin.
    assert (q ∈ map fst (l1 ++ l2)) as Hin2.
    { rewrite map_app. apply elem_of_app in Hin as [Hin|Hin]; [apply elem_of_app; by left|]. apply elem_of_cons in Hin as [E|Hin]; [unfold q in E; lia|]. apply elem_of_app. by right. }
    apply (cells_apart _ _ _ _ _ _ q H Hqc). apply list_elem_of_In, in_map_iff in Hin2 as (b & Eb & Hb). apply list_elem_of_In in Hb.
    apply all_cells_in. exists b. split; [rewrite app_assoc; apply elem_of_app; by left|]. rewrite <- Eb. destruct b as [a v]. apply cells_head.
    apply (heap_block _ _ _ _ (a, v) H). apply elem_of_app. left. apply elem_of_app in Hb as [Hb|Hb]; apply elem_of_app; [by left|right; by right]. }
  set (m1 := set_size p (u - n) (um s)) in *. pose proof (heads_set_size p (u - n) (um s) Hpal) as Hh1. fold m1 in Hh1.
  pose proof (heads_set_size q n m1 Hqal) as Hh2. fold m' in Hh2.
  assert (ring m1 (l1 ++ (p, u - n) :: l2)) as Hr1.
  { pose proof Hal as Hal'. pose proof Hnd as Hnd'. unfold nodes in Hal', Hnd'. rewrite map_app in Hal', Hnd'. cbn [map fst] in Hal', Hnd'. rewrite app_comm_cons in Hal', Hnd'.
    apply Forall_app in Hal' as [Hal1 [_ Hal2]%Forall_cons]. apply NoDup_app in Hnd' as (_ & Hd & [Hp2 _]%NoDup_cons).
    change ((p, u - n) :: l2) with ([(p, u - n)] ++ l2). rewrite app_assoc. apply seg_ring.
    - eapply links_end; [exact Hh1| |done| |done|].
      + unfold m1. rewrite hsize_set_size, Z.eqb_refl by done. apply u32_small. lia.
      + intros Hin. apply (Hd p Hin). by left.
      + pose proof (ri_links _ _ Hr) as Hl. change ((p, u) :: l2) with ([(p, u)] ++ l2) in Hl. rewrite app_assoc in Hl. apply links_app in Hl as [Hl _]. exact Hl.
    - rewrite last_of_snoc. cbn [fst]. eapply (seg_move (um s)); [exact Hh1|unfold m1; by rewrite hptr_set_size|done|done|].
      pose proof (ring_seg _ _ _ Hr) as Hsg. by apply seg_uncons in Hsg as (_ & _ & ?).
    - destruct (Hh1 B HBal ltac:(lia)) as [_ ->]. apply Hr. }
  assert (forall c, c ∈ all_cells live -> c <> p /\ c <> q) as Hlne.
  { intros c Hc. split; intros ->; (eapply (cells_apart _ _ l1 (p, u) l2 live); [exact H| |rewrite !all_cells_app; apply elem_of_app; right; apply elem_of_app; right; exact Hc]); [|exact Hqc].
    apply cells_head. lia. }
  split.
  - apply (heap_change _ _ _ _ _ _ _ _ H).
    + eapply ring_but; [exact Hh2|by rewrite En|by rewrite En|done].
    + by rewrite En.
    + pose proof (he_pos _ _ _ _ H) as Hp. rewrite !Forall_app, !Forall_cons in *. cbn [snd] in *. split_and!; try tauto; lia.
    + rewrite !all_cells_app. change (all_cells ((q, n) :: live)) with (cells (q, n) ++ all_cells live).
      change (all_cells ((p, u - n) :: l2)) with (cells (p, u - n) ++ all_cells l2). change (all_cells ((p, u) :: l2)) with (cells (p, u) ++ all_cells l2).
      replace (cells (p, u)) with (cells (p, u - n) ++ cells (q, n)); [solve_Permutation|]. unfold q. rewrite <- cells_app by lia. by replace (u - n + n) with u by lia.
    + constructor; [cbn; unfold m'; rewrite hsize_set_size, Z.eqb_refl by done; apply u32_small; lia|].
      eapply take_live_sizes; [exact H|]. intros x Hx Hc. destruct (Hlne x Hc) as [H1 H2]. destruct (Hh2 x Hx H2) as [_ ->]. by destruct (Hh1 x Hx H1) as [_ ->].
    + rewrite En. apply last_in_nodes.
  - intros x Hx. unfold m', m1. rewrite set_size_agree, set_size_agree; [done|..]; (eapply byte_apart; [|exact Hx|done|]);
      try (by intros b Hb; apply (heap_block _ _ _ _ b H), elem_of_app; right); intros c Hc; by destruct (Hlne c Hc).
Qed.

Lemma take_block_spec core s fl live prevp n : heap core s fl live -> prevp ∈ nodes fl -> 0 < n -> n <= hsize (um s) (hptr (um s) prevp) ->
  let (m', q) := take_block n prevp (hptr (um s) prevp) (um s) in
  exists fl', heap core (mkU m' prevp (ubrk s)) fl' ((q, n) :: live) /\ agree (byte_of live) (um s) m'.
Proof.
  intros H Hin Hn Hfit. destruct (nodes_split _ _ Hin) as (l1 & l2 & -> & ->). pose proof (he_ring _ _ _ _ H) as Hr. pose proof (ring_next _ _ _ Hr) as Hnx.
  rewrite Hnx in *. destruct l2 as [|[p u] l2]; cbn [after fst] in *; [rewrite (ri_base _ _ Hr) in Hfit; lia|].
  pose proof (ring_size _ _ _ _ _ Hr) as Hu. rewrite Hu in Hfit. destruct (heap_block _ _ _ _ (p, u) H) as (_ & Hpal & Hplo & Hphi & _); [apply elem_of_app; left; apply elem_of_app; right; by left|].
  cbn [fst snd] in *. destruct (he_brk _ _ _ _ H) as [_ Hbrk]. destruct (he_base _ _ _ _ H) as [HB _]. unfold take_block. rewrite Hu. destruct (Z.eqb_spec u n) as [->|Hne].
  - exists (l1 ++ l2). apply (take_whole _ _ _ _ _ _ _ H).
  - rewrite (u32_small (u - n)) by lia. rewrite (hsize_set_size _ p), Z.eqb_refl, (u32_small (u - n)) by (done || lia). rewrite (u32_small (p + 8 * (u - n))) by lia.
    exists (l1 ++ (p, u - n) :: l2). by apply (take_tail _ _ _ _ _ _ _ _ H); lia.
Qed.

(** ** The scan *)

Fixpoint path (m : mem) (p : Z) (r : list Z) : Prop := match r with [] => True | x :: r => hptr m p = x /\ path m x r end.
Lemma path_links m l : forall p, links m p l -> path m p (map fst l).
Proof. induction l as [|[a u] l IH]; intros p; cbn; [done|]. intros (H1 & _ & H2). split; [done|by apply IH]. Qed.
Lemma path_app m r r' : forall p, path m p r -> path m (List.last r p) r' -> path m p (r ++ r').
Proof.
  induction r as [|x r IH]; intros p H H'; cbn [app path] in *; [done|]. destruct H as [H1 H2]. split; [done|]. apply IH; [done|].
  destruct r as [|y r]; [done|]. cbn [List.last] in *. clear -H'. revert H'. generalize y. clear. induction r as [|z r IH]; intros y; cbn; [done|]. apply IH.
Qed.

(** Once around the ring, from the header after the last one of [l1]. *)
Definition round (l1 l2 : list block) : list Z := map fst l2 ++ B :: map fst l1.

Lemma list_last_of p l : List.last (map fst l) p = last_of p l.
Proof. destruct l as [|b l _] using rev_ind; [done|]. rewrite map_app, last_of_snoc. cbn [map]. by rewrite List.last_last. Qed.

Lemma ring_path m l1 l2 : ring m (l1 ++ l2) -> path m (last_of B l1) (round l1 l2).
Proof.
  intros Hr. pose proof (ring_seg _ _ _ Hr) as [H1 H2]. pose proof (ri_links _ _ Hr) as Hl. apply links_app in Hl as [Hl _].
  apply path_app; [by apply path_links|]. rewrite list_last_of. split; [done|by apply path_links].
Qed.
Lemma round_nodes l1 l2 : round l1 l2 ≡ₚ nodes (l1 ++ l2).
Proof. unfold round, nodes. rewrite map_app. solve_Permutation. Qed.
Lemma round_last l1 l2 : List.last (round l1 l2) B = last_of B l1.
Proof.
  unfold round. destruct l1 as [|b l1 _] using rev_ind; [by rewrite List.last_last|]. rewrite map_app, last_of_snoc. cbn [map].
  rewrite app_comm_cons, app_assoc. by rewrite List.last_last.
Qed.

Lemma list_last_in (l : list Z) d : l <> [] -> List.last l d ∈ l.
Proof. destruct l as [|x l _] using rev_ind; [done|]. intros _. rewrite List.last_last. apply elem_of_app. right. by left. Qed.

Section scan.
Context (grants : Z -> Z -> bool).

(** What [malloc] does when it has come round. *)
Definition no_fit (fuel : nat) (n : Z) : M ust Z :=
  let* p := morecore grants n in
  if p =? 0 then ret 0 else
  let* m := gets um in
  malloc_loop grants fuel n p (hptr m p).

Lemma scan_round n s : forall r p fuel, path (um s) p r -> r <> [] -> List.last r B = ufreep s -> NoDup r -> (length r <= fuel)%nat ->
  (exists prev, prev ∈ p :: r /\ n <= hsize (um s) (hptr (um s) prev) /\
     malloc_loop grants fuel n p (hptr (um s) p) s =
     let (m, q) := take_block n prev (hptr (um s) prev) (um s) in Ret (u32 (q + 8), mkU m prev (ubrk s))) \/
  (Forall (fun x => hsize (um s) x < n) r /\ malloc_loop grants fuel n p (hptr (um s) p) s = no_fit (fuel - length r) n s).
Proof.
  induction r as [|x r IH]; intros p fuel Hp Hne Hlast Hnd Hf; [done|]. cbn [path length] in *. destruct Hp as [Hx Hp]. rewrite Hx.
  destruct fuel as [|fuel]; [lia|]. cbn [malloc_loop]. erewrite bind_ret_eq by reflexivity. destruct (Z.leb_spec n (hsize (um s) x)) as [Hfit|Hno].
  { left. exists p. rewrite Hx. split_and!; [by left|done|]. by destruct (take_block n p x (um s)). }
  erewrite bind_ret_eq by reflexivity. apply NoDup_cons in Hnd as [Hxr Hnd]. destruct r as [|y r].
  - cbn in Hlast. rewrite <- Hlast, Z.eqb_refl. right. split; [by apply Forall_singleton|]. cbn [length]. by replace (S fuel - 1)%nat with fuel by lia.
  - assert (x <> ufreep s) as Hxf.
    { intros E. apply Hxr. rewrite E, <- Hlast. exact (list_last_in (y :: r) B ltac:(done)). }
    rewrite (proj2 (Z.eqb_neq x (ufreep s))) by done. destruct (IH x fuel Hp ltac:(done) Hlast Hnd ltac:(lia)) as [(prev & Hin & Hfit & E)|[Hall E]].
    + left. exists prev. split_and!; [by right|done|exact E].
    + right. split; [by constructor|exact E].
Qed.

(** The scan from freep: a block is taken, or there is none. *)
Lemma malloc_scan core s fl live n fuel : heap core s fl live -> 0 < n -> (length fl + 1 <= fuel)%nat ->
  (exists q s' fl', malloc_loop grants fuel n (ufreep s) (hptr (um s) (ufreep s)) s = Ret (u32 (q + 8), s') /\
     heap core s' fl' ((q, n) :: live) /\ agree (byte_of live) (um s) (um s')) \/
  (Forall (fun b => snd b < n) fl /\
   malloc_loop grants fuel n (ufreep s) (hptr (um s) (ufreep s)) s = no_fit (fuel - (length fl + 1)) n s).
Proof.
  intros H Hn Hf. pose proof (he_freep _ _ _ _ H) as Hfp. destruct (nodes_split _ _ Hfp) as (l1 & l2 & -> & Ef). pose proof (he_ring _ _ _ _ H) as Hr.
  assert (length (round l1 l2) = length (l1 ++ l2) + 1)%nat as El by (unfold round; rewrite !length_app; cbn; rewrite !length_map; lia).
  destruct (scan_round n s (round l1 l2) (ufreep s) fuel) as [(prev & Hin & Hfit & E)|[Hall E]].
  - rewrite Ef. by apply ring_path.
  - unfold round. by destruct (map fst l2).
  - by rewrite round_last.
  - rewrite round_nodes. apply sorted_nodup, (he_sorted _ _ _ _ H).
  - lia.
  - left. assert (prev ∈ nodes (l1 ++ l2)) as Hprev by (apply elem_of_cons in Hin as [-> |Hin]; [done|by rewrite <- round_nodes]).
    pose proof (take_block_spec _ _ _ _ prev n H Hprev Hn Hfit) as Ht. destruct (take_block _ _ _ _) as [m' q]. destruct Ht as (fl' & H' & Ha).
    exists q, (mkU m' prev (ubrk s)), fl'. by split_and!.
  - right. rewrite El in E. split; [|done]. apply Forall_forall. intros [a u] Hb. cbn.
    assert (hsize (um s) a = u) as Eu.
    { apply list_elem_of_In, in_split in Hb as (k1 & k2 & Ek). rewrite Ek in Hr. by eapply ring_size. }
    rewrite <- Eu. rewrite Forall_forall in Hall. apply Hall. rewrite round_nodes. right. apply list_elem_of_In, in_map_iff. exists (a, u). by rewrite <- list_elem_of_In.
Qed.

(** The kernel keeps user memory below KERNBASE. *)
Context (Hgrants : forall b k, grants b k = true -> 0 <= k -> b + k <= 0x80000000).

(** The new memory as a block in use, which free then returns. *)
Lemma grown core s fl live nu : heap core s fl live -> 0 < nu -> ubrk s + 8 * nu <= 0x80000000 ->
  heap (core ++ cells (ubrk s, nu)) (mkU (set_size (ubrk s) nu (um s)) (ufreep s) (ubrk s + 8 * nu)) fl ((ubrk s, nu) :: live) /\
  agree (byte_of live) (um s) (set_size (ubrk s) nu (um s)).
Proof.
  intros H Hnu Hb. destruct (he_brk _ _ _ _ H) as [Hal Hbr]. destruct (he_base _ _ _ _ H) as [HB HBal]. set (m' := set_size (ubrk s) nu (um s)).
  pose proof (heads_set_size (ubrk s) nu (um s) Hal) as Hh. fold m' in Hh.
  assert (forall b, b ∈ fl ++ live -> fst b < ubrk s) as Hlt by (intros b Hbk; destruct (heap_block _ _ _ _ b H Hbk) as (? & _ & _ & ? & _); lia).
  pose proof (he_core _ _ _ _ H) as Hc. split.
  - split; cbn [um ufreep ubrk].
    + eapply ring_but; [exact Hh|by eapply nodes_al| |apply (he_ring _ _ _ _ H)]. intros Hin. apply elem_of_cons in Hin as [E|Hin]; [lia|].
      apply list_elem_of_In, in_map_iff in Hin as (b & E & Hin). specialize (Hlt b ltac:(apply elem_of_app; left; by apply list_elem_of_In)). lia.
    + apply (he_sorted _ _ _ _ H).
    + pose proof (he_pos _ _ _ _ H) as Hp. rewrite Forall_app, Forall_cons in *. cbn [snd]. tauto.
    + rewrite <- (he_cells _ _ _ _ H), !all_cells_app. change (all_cells ((ubrk s, nu) :: live)) with (cells (ubrk s, nu) ++ all_cells live). solve_Permutation.
    + apply NoDup_app. split_and!; [apply (he_nodup _ _ _ _ H)| |].
      * intros c Hin Hin2. rewrite Forall_forall in Hc. destruct (Hc c Hin) as (_ & _ & Hhi). apply cells_in in Hin2 as (i & Hi & E). cbn in *. lia.
      * unfold cells. apply (NoDup_fmap_2_strong (fun i => ubrk s + 8 * i)); [intros i j _ _; lia|]. apply NoDup_seqZ.
    + apply Forall_app. split; [eapply Forall_impl; [exact Hc|]; cbn; intros c (? & ? & ?); split_and!; [done|lia|lia]|]. apply Forall_forall. intros c Hin. apply cells_in in Hin as (i & Hi & ->). cbn [fst snd] in *.
      unfold al in *. split_and!; [mlia|lia|lia].
    + constructor; [cbn; unfold m'; rewrite hsize_set_size, Z.eqb_refl by done; apply u32_small; lia|]. eapply take_live_sizes; [exact H|].
      intros q Hq Hcq. destruct (Hh q Hq) as [_ E]; [|exact E]. intros ->. assert (ubrk s ∈ core) as Hin by (rewrite <- (he_cells _ _ _ _ H), all_cells_app; apply elem_of_app; by right).
      rewrite Forall_forall in Hc. destruct (Hc _ Hin) as (_ & _ & ?). lia.
    + apply (he_freep _ _ _ _ H).
    + done.
    + split; [unfold al in *; mlia|lia].
  - intros x (b & Hbl & Hx). apply set_size_agree. destruct (heap_block _ _ _ _ b H) as (_ & _ & _ & Hhi & _); [apply elem_of_app; by right|]. lia.
Qed.

Lemma morecore_spec core s fl live n : heap core s fl live -> 0 < n -> n * 8 < 0x80000000 ->
  morecore grants n s = Ret (0, s) \/
  exists s' core' fl', morecore grants n s = Ret (ufreep s', s') /\ heap core' s' fl' live /\ ufreep s' <> 0 /\ agree (byte_of live) (um s) (um s') /\
    (length fl' <= length fl + 1)%nat /\ exists a v, (a, v) ∈ fl' /\ n <= v.
Proof.
  intros H Hn Hlim. unfold morecore. set (nu := if n <? 4096 then 4096 else n). assert (n <= nu /\ nu * 8 < 0x80000000) as [Hnu Hnu8] by (unfold nu; destruct (Z.ltb_spec n 4096); lia).
  assert (s32 (u32 (nu * 8)) = nu * 8) as Es by (unfold s32; rewrite !(u32_small (nu * 8)) by (rewrite ?u32_small; lia); by rewrite (proj2 (Z.ltb_lt _ _)) by lia).
  destruct (grants (ubrk s) (nu * 8)) eqn:Eg.
  2:{ left. assert (sbrk grants (u32 (nu * 8)) s = Ret (0xFFFFFFFF, s)) as Eb by (unfold sbrk; by rewrite Es, Eg). by rewrite (bind_ret_eq _ _ _ _ _ Eb). }
  assert (sbrk grants (u32 (nu * 8)) s = Ret (ubrk s, mkU (um s) (ufreep s) (u32 (ubrk s + nu * 8)))) as Eb by (unfold sbrk; by rewrite Es, Eg).
  rewrite (bind_ret_eq _ _ _ _ _ Eb). right. pose proof (Hgrants _ _ Eg ltac:(lia)) as Hb. destruct (he_brk _ _ _ _ H) as [Hal Hbr]. destruct (he_base _ _ _ _ H) as [HB _].
  rewrite (proj2 (Z.eqb_neq (ubrk s) 0xFFFFFFFF)) by lia. rewrite (u32_small (ubrk s + nu * 8)) by lia. erewrite bind_ret_eq by reflexivity. cbn [um ufreep ubrk].
  destruct (grown core s fl live nu H ltac:(lia) ltac:(lia)) as [H1 Ha1]. replace (ubrk s + nu * 8) with (ubrk s + 8 * nu) by lia.
  destruct (ufree_spec _ _ _ _ _ _ H1) as (s' & fl' & Ef & H' & _ & Ha & Hl & a & v & Hin & Hv). rewrite (bind_ret_eq _ _ _ _ _ Ef).
  exists s', (core ++ cells (ubrk s, nu)), fl'. split_and!; [done|done| |by eapply agree_trans|done|exists a, v; split; [done|lia]].
  pose proof (he_freep _ _ _ _ H') as Hfp. intros E. rewrite E in Hfp. apply elem_of_cons in Hfp as [E0|Hfp]; [lia|].
  apply list_elem_of_In, in_map_iff in Hfp as (b & E0 & Hbin). destruct (heap_block _ _ _ _ b H') as (_ & _ & Hlo & _); [apply elem_of_app; left; by apply list_elem_of_In|]. lia.
Qed.

(** Before the first malloc there is no ring. *)
Record unborn (s : ust) : Prop := {
  ub_freep : ufreep s = 0;
  ub_base : 0 < B /\ al B;
  ub_brk : al (ubrk s) /\ B + 8 <= ubrk s <= 0x80000000
}.
Definition uheap (s : ust) (live : list block) : Prop := (unborn s /\ live = []) \/ exists core fl, heap core s fl live.

Lemma heap_freep core s fl live : heap core s fl live -> ufreep s <> 0.
Proof.
  intros H E. pose proof (he_freep _ _ _ _ H) as Hfp. destruct (he_base _ _ _ _ H) as [HB _]. rewrite E in Hfp. apply elem_of_cons in Hfp as [E0|Hfp]; [lia|].
  apply list_elem_of_In, in_map_iff in Hfp as (b & E0 & Hbin). destruct (heap_block _ _ _ _ b H) as (_ & _ & Hlo & _); [apply elem_of_app; left; by apply list_elem_of_In|]. lia.
Qed.

Lemma born s : unborn s -> heap [] (mkU (set_size B 0 (set_ptr B B (um s))) B (ubrk s)) [] [].
Proof.
  intros [_ [HB HBal] Hbrk]. split; cbn [um ufreep ubrk]; try done; [|by unfold nodes; cbn [map]; repeat constructor|by left|by constructor].
  split; [done| |by rewrite hsize_set_size, Z.eqb_refl]. change (last_of B []) with B. rewrite hptr_set_size, hptr_set_ptr, Z.eqb_refl by done. apply u32_small. lia.
Qed.

Lemma units_spec nbytes : 0 <= nbytes <= 0x70000000 -> 0 < units nbytes /\ units nbytes * 8 < 0x80000000 /\ nbytes <= 8 * (units nbytes - 1).
Proof. intros H. unfold units. rewrite u32_small by lia. mlia. Qed.

(** malloc with a ring. *)
Lemma malloc_heap core s fl live n fuel : heap core s fl live -> 0 < n -> n * 8 < 0x80000000 -> (2 * length fl + 4 <= fuel)%nat ->
  exists s', agree (byte_of live) (um s) (um s') /\
    ((malloc_loop grants fuel n (ufreep s) (hptr (um s) (ufreep s)) s = Ret (0, s') /\ uheap s' live) \/
     exists q, malloc_loop grants fuel n (ufreep s) (hptr (um s) (ufreep s)) s = Ret (u32 (q + 8), s') /\ uheap s' ((q, n) :: live)).
Proof.
  intros H Hn Hlim Hf. destruct (malloc_scan core s fl live n fuel H Hn ltac:(lia)) as [(q & s' & fl' & E & H' & Ha)|[_ E]].
  { exists s'. split; [done|]. right. exists q. split; [done|]. right. by exists core, fl'. }
  rewrite E. unfold no_fit. destruct (morecore_spec core s fl live n H Hn Hlim) as [E1|(s1 & core1 & fl1 & E1 & H1 & Hfp & Ha1 & Hl1 & a & v & Hin & Hv)]; rewrite (bind_ret_eq _ _ _ _ _ E1).
  { exists s. split; [by apply agree_refl|]. left. split; [done|]. right. by exists core, fl. }
  rewrite (proj2 (Z.eqb_neq (ufreep s1) 0)) by done. erewrite bind_ret_eq by reflexivity.
  destruct (malloc_scan core1 s1 fl1 live n (fuel - (length fl + 1)) H1 Hn ltac:(lia)) as [(q & s' & fl' & E2 & H' & Ha)|[Hall _]].
  - exists s'. split; [by eapply agree_trans|]. right. exists q. split; [done|]. right. by exists core1, fl'.
  - rewrite Forall_forall in Hall. specialize (Hall _ Hin). cbn in Hall. lia.
Qed.

Lemma malloc_spec s live nbytes : uheap s live -> 0 <= nbytes <= 0x70000000 ->
  exists s', agree (byte_of live) (um s) (um s') /\
    ((malloc B grants nbytes s = Ret (0, s') /\ uheap s' live) \/
     exists q, malloc B grants nbytes s = Ret (u32 (q + 8), s') /\ uheap s' ((q, units nbytes) :: live)).
Proof.
  intros Hs Hn. destruct (units_spec nbytes Hn) as (H1 & H2 & _). unfold malloc. erewrite bind_ret_eq by reflexivity.
  destruct Hs as [[Hu ->]|(core & fl & H)].
  - rewrite (ub_freep _ Hu), Z.eqb_refl. do 4 (erewrite bind_ret_eq by reflexivity). pose proof (born s Hu) as H. set (s0 := mkU _ _ _) in *.
    destruct (malloc_heap [] s0 [] [] (units nbytes) (ring_fuel s0 + ring_fuel s0 + 4) H H1 H2 ltac:(unfold ring_fuel; cbn; lia)) as (s' & _ & Hr).
    exists s'. split; [by intros x (b & Hb & _); apply not_elem_of_nil in Hb|]. exact Hr.
  - rewrite (proj2 (Z.eqb_neq (ufreep s) 0)) by (by eapply heap_freep). do 4 (erewrite bind_ret_eq by reflexivity). pose proof (heap_length _ _ _ _ H) as Hl.
    exact (malloc_heap core s fl live (units nbytes) (ring_fuel s + ring_fuel s + 4) H H1 H2 ltac:(lia)).
Qed.
End scan.

(** ** What a program sees *)

(** A block as the program knows it: its address, the bytes asked for, and
    their contents. *)
Record ablock : Type := mkA { a_ptr : Z; a_len : Z; a_val : Z -> Z }.

Inductive uop : Type := OMalloc (n : Z) | OFree (i : nat) | OWrite (i : nat) (off v : Z).

Section client.
Context (grants : Z -> Z -> bool).
Context (Hgrants : forall b k, grants b k = true -> 0 <= k -> b + k <= 0x80000000).

(** The program uses only what it has. *)
Definition legal (A : list ablock) (op : uop) : Prop :=
  match op with
  | OMalloc n => 0 <= n <= 0x70000000
  | OFree i => is_Some (A !! i)
  | OWrite i off v => exists b, A !! i = Some b /\ 0 <= off < a_len b /\ 0 <= v < 256
  end.

Definition uexec (A : list ablock) (op : uop) : M ust Z :=
  match op with
  | OMalloc n => malloc B grants n
  | OFree i => match A !! i with Some b => ufree (a_ptr b) ;; ret 0 | None => ret 0 end
  | OWrite i off v =>
    match A !! i with
    | Some b => modify (fun s => mkU (st8 (um s) (a_ptr b + off) v) (ufreep s) (ubrk s)) ;; ret 0
    | None => ret 0
    end
  end.

Definition apart (b b' : ablock) : Prop := a_ptr b + a_len b <= a_ptr b' \/ a_ptr b' + a_len b' <= a_ptr b.

(** What the operations are to mean. *)
Inductive astep (A : list ablock) : uop -> Z -> list ablock -> Prop :=
| as_fail n : astep A (OMalloc n) 0 A
| as_malloc n b : a_ptr b <> 0 -> a_len b = n -> Forall (apart b) A -> astep A (OMalloc n) (a_ptr b) (b :: A)
| as_free i : astep A (OFree i) 0 (delete i A)
| as_write i off v b : A !! i = Some b -> astep A (OWrite i off v) 0 (<[i := mkA (a_ptr b) (a_len b) (fun j => if j =? off then v else a_val b j)]> A).

(** The block in the heap that holds a block of the program. *)
Record holds_block (m : mem) (b : ablock) (c : block) : Prop := {
  hb_ptr : a_ptr b = fst c + 8;
  hb_len : 0 <= a_len b <= 8 * (snd c - 1);
  hb_val : forall j, 0 <= j < a_len b -> ld8 m (a_ptr b + j) = a_val b j
}.
Definition represents (s : ust) (A : list ablock) : Prop := exists live, uheap s live /\ Forall2 (holds_block (um s)) A live.

Lemma heap_perm core s fl live live' : live ≡ₚ live' -> heap core s fl live -> heap core s fl live'.
Proof.
  intros E [H1 H2 H3 H4 H5 H6 H7 H8 H9 H10]. split; try done; by rewrite <- E.
Qed.

(** Blocks of the heap do not overlap. *)
Lemma heap_disjoint core s fl c live : heap core s fl (c :: live) -> Forall (fun d => fst c + 8 * snd c <= fst d \/ fst d + 8 * snd d <= fst c) live.
Proof.
  intros H. apply Forall_forall. intros d Hd. pose proof (heap_apart _ _ _ _ H) as Hnd. rewrite all_cells_app in Hnd. apply NoDup_app in Hnd as (_ & _ & Hnd).
  change (all_cells (c :: live)) with (cells c ++ all_cells live) in Hnd. apply NoDup_app in Hnd as (_ & Hdis & _).
  destruct (heap_block _ _ _ _ c H) as (Hc & Hcal & _); [apply elem_of_app; right; by left|].
  destruct (heap_block _ _ _ _ d H) as (Hdp & Hdal & _); [apply elem_of_app; right; by right|].
  assert (forall x, x ∈ cells c -> x ∈ cells d -> False) as Hx by (intros x Hx1 Hx2; apply (Hdis x Hx1), all_cells_in; by exists d).
  destruct (Z.le_gt_cases (fst c + 8 * snd c) (fst d)) as [|H1]; [by left|]. right. destruct (Z.le_gt_cases (fst d + 8 * snd d) (fst c)) as [|H2]; [done|]. exfalso.
  unfold al in *. apply (Hx (Z.max (fst c) (fst d))); apply cells_in; [exists ((Z.max (fst c) (fst d) - fst c) / 8)|exists ((Z.max (fst c) (fst d) - fst d) / 8)]; split; mlia.
Qed.

Lemma holds_agree m m' A live : agree (byte_of live) m m' -> Forall2 (holds_block m) A live -> Forall2 (holds_block m') A live.
Proof.
  intros Ha H. apply Forall2_same_length_lookup. pose proof H as Hlk. apply Forall2_same_length_lookup in Hlk as [Hl Hlk]. split; [done|].
  intros i b c Hb Hc. destruct (Hlk i b c Hb Hc) as [H1 H2 H3]. split; [done|done|]. intros j Hj. rewrite Ha; [by apply H3|].
  exists c. split; [by eapply list_elem_of_lookup_2|]. lia.
Qed.

Lemma uheap_perm s live live' : live ≡ₚ live' -> uheap s live -> uheap s live'.
Proof.
  intros E [[Hu ->]|(core & fl & H)]; [left; split; [done|by apply Permutation_nil in E]|]. right. exists core, fl. by eapply heap_perm.
Qed.
Lemma uheap_block s live c : uheap s live -> c ∈ live -> 0 < snd c /\ al (fst c) /\ 0 < fst c /\ fst c + 8 * snd c <= 0x80000000 /\ hsize (um s) (fst c) = snd c.
Proof.
  intros [[_ ->]|(core & fl & H)] Hc; [by apply not_elem_of_nil in Hc|]. destruct (heap_block _ _ _ _ c H) as (H1 & H2 & H3 & H4 & _); [apply elem_of_app; by right|].
  destruct (he_brk _ _ _ _ H). destruct (he_base _ _ _ _ H). pose proof (he_live _ _ _ _ H) as Hl. rewrite Forall_forall in Hl. split_and!; [done|done|lia|lia|by apply Hl].
Qed.
Lemma uheap_disjoint s c live : uheap s (c :: live) -> Forall (fun d => fst c + 8 * snd c <= fst d \/ fst d + 8 * snd d <= fst c) live.
Proof. intros [[_ ?]|(core & fl & H)]; [done|]. by eapply heap_disjoint. Qed.

Lemma ufree_uheap s c live : uheap s (c :: live) ->
  exists s', ufree (fst c + 8) s = Ret (tt, s') /\ uheap s' live /\ agree (byte_of live) (um s) (um s').
Proof.
  intros Hs. destruct (uheap_block s (c :: live) c Hs ltac:(by left)) as (_ & _ & Hc0 & Hc1 & _). destruct (uheap_block s (c :: live) c Hs ltac:(by left)) as (Hcs & _).
  destruct Hs as [[_ ?]|(core & fl & H)]; [done|]. destruct c as [a u]. cbn [fst snd] in *.
  destruct (ufree_spec _ _ _ _ _ _ H) as (s' & fl' & E & H' & _ & Ha & _). rewrite u32_small in E by lia. exists s'. split_and!; [done|right; by exists core, fl'|done].
Qed.

(** A store into a block of the program leaves the heap as it is. *)
Lemma st8_heads m x v p : al p -> p <= x < p + 8 -> heads_but p m (st8 m x v).
Proof.
  intros Hp Hx q Hq Hne. unfold al, hptr, hsize in *. assert (agree (fun a => a <> x) m (st8 m x v)) as Ha by (intros a Hax; rewrite ld8_st8; by rewrite (proj2 (Z.eqb_neq a x))).
  split; (eapply ld32_agree; [exact Ha|]); intros a Hax; cbn; mlia.
Qed.
Lemma write_uheap s c live x v : uheap s (c :: live) -> fst c + 8 <= x < fst c + 8 * snd c -> uheap (mkU (st8 (um s) x v) (ufreep s) (ubrk s)) (c :: live).
Proof.
  intros Hs Hx. pose proof (uheap_disjoint _ _ _ Hs) as Hd. destruct Hs as [[_ ?]|(core & fl & H)]; [done|]. right. exists core, fl.
  destruct (heap_block _ _ _ _ c H) as (Hc & Hcal & Hlo & _); [apply elem_of_app; right; by left|].
  set (c' := fst c + 8 * ((x - fst c) / 8)). assert (c' ∈ cells c) as Hc' by (apply cells_in; exists ((x - fst c) / 8); split; [mlia|done]).
  assert (al c' /\ c' <= x < c' + 8 /\ fst c < c' < fst c + 8 * snd c) as (Hal' & Hx' & Hin') by (unfold al, c' in *; split_and!; mlia).
  pose proof (st8_heads (um s) x v c' Hal' Hx') as Hh. apply (heap_change _ _ _ _ _ _ _ _ H).
  - eapply ring_but; [exact Hh|by eapply nodes_al| |apply (he_ring _ _ _ _ H)]. intros Hin. apply (node_not_live _ _ _ _ c' c' H Hin); [|done]. apply all_cells_in. exists c. split; [by left|done].
  - apply (he_sorted _ _ _ _ H).
  - apply (he_pos _ _ _ _ H).
  - done.
  - pose proof (he_live _ _ _ _ H) as Hl. rewrite Forall_forall in *. intros d Hdin. rewrite <- (Hl d Hdin).
    destruct (heap_block _ _ _ _ d H) as (Hdp & Hdal & _); [apply elem_of_app; by right|]. destruct (Hh (fst d) Hdal) as [_ ->]; [|done].
    apply elem_of_cons in Hdin as [-> |Hdin]; [lia|]. specialize (Hd d Hdin). cbn in Hd. lia.
  - apply (he_freep _ _ _ _ H).
Qed.

Lemma delete_other {X : Type} (l : list X) i j x : l !! j = Some x -> j <> i -> x ∈ delete i l.
Proof.
  intros Hj Hne. destruct (decide (j < i)%nat) as [Hlt|Hge].
  - apply (list_elem_of_lookup_2 _ j). by rewrite list_lookup_delete_lt.
  - apply (list_elem_of_lookup_2 _ (j - 1)). rewrite list_lookup_delete_ge by lia. by replace (S (j - 1)) with j by lia.
Qed.

(** C15 The allocator does what a program expects: malloc returns null or an
    address whose bytes belong to no other block in use; free gives back any
    block in use; no call changes a byte of another block, and what is written
    to a block stays there until the program writes it again or frees it.
    Every call returns. *)
Theorem umalloc_refines (s : ust) (A : list ablock) (op : uop) :
  represents s A -> legal A op ->
  exists r s' A', uexec A op s = Ret (r, s') /\ astep A op r A' /\ represents s' A'.
Proof.
  intros (live & Hs & HA) Hop. destruct op as [n|i|i off v]; cbn [legal uexec] in *.
  - destruct (malloc_spec grants Hgrants s live n Hs Hop) as (s' & Ha & [[E Hs']|(q & E & Hs')]).
    + exists 0, s', A. split_and!; [done|apply as_fail|]. exists live. split; [done|by eapply holds_agree].
    + destruct (uheap_block _ _ (q, units n) Hs' ltac:(by left)) as (Hu & _ & Hq0 & Hq1 & _). cbn [fst snd] in *. rewrite u32_small in E by lia.
      destruct (units_spec n Hop) as (_ & _ & Hlen). set (b := mkA (q + 8) n (fun j => ld8 (um s') (q + 8 + j))). exists (q + 8), s', (b :: A).
      pose proof (holds_agree _ _ _ _ Ha HA) as HA'. split_and!; [done| |].
      * apply (as_malloc A n b); [cbn; lia|done|]. pose proof (uheap_disjoint _ _ _ Hs') as Hd. apply Forall_forall. intros b' Hb'.
        apply list_elem_of_lookup in Hb' as (i & Hi). destruct (Forall2_lookup_l _ _ _ _ _ HA' Hi) as (c & Hc & [H1 H2 _]). rewrite Forall_forall in Hd.
        specialize (Hd c ltac:(by eapply list_elem_of_lookup_2)). cbn [fst snd] in Hd. unfold apart. cbn. lia.
      * exists ((q, units n) :: live). split; [done|]. constructor; [|done]. split; cbn; [done|lia|done].
  - destruct Hop as [b Hb]. rewrite Hb. destruct (Forall2_lookup_l _ _ _ _ _ HA Hb) as (c & Hc & [H1 _ _]). pose proof (delete_Permutation _ _ _ Hc) as Ep.
    destruct (ufree_uheap s c (delete i live)) as (s' & E & Hs' & Ha); [by eapply uheap_perm|]. rewrite <- H1 in E. rewrite (bind_ret_eq _ _ _ _ _ E).
    exists 0, s', (delete i A). split_and!; [done|apply as_free|]. exists (delete i live). split; [done|]. eapply holds_agree; [exact Ha|]. by apply Forall2_delete.
  - destruct Hop as (b & Hb & Hoff & Hv). rewrite Hb. destruct (Forall2_lookup_l _ _ _ _ _ HA Hb) as (c & Hc & [H1 H2 H3]). pose proof (delete_Permutation _ _ _ Hc) as Ep.
    set (s' := mkU (st8 (um s) (a_ptr b + off) v) (ufreep s) (ubrk s)). exists 0, s'. eexists. split_and!; [reflexivity|by apply as_write|]. exists live.
    pose proof (uheap_perm _ _ _ Ep Hs) as Hs1. split; [eapply uheap_perm; [symmetry; exact Ep|]; apply write_uheap; [done|lia]|].
    apply Forall2_same_length_lookup. split; [rewrite length_insert; by eapply Forall2_length|]. intros j b' c' Hb' Hc'. destruct (decide (j = i)) as [->|Hne].
    + rewrite list_lookup_insert_eq in Hb' by (by eapply lookup_lt_Some). injection Hb' as <-. rewrite Hc in Hc'. injection Hc' as <-. split; cbn [a_ptr a_len a_val um s']; [done|done|].
      intros k Hk. unfold s'. cbn [um]. rewrite ld8_st8. destruct (Z.eqb_spec k off) as [->|]; [rewrite Z.eqb_refl; by apply u8_small|]. rewrite (proj2 (Z.eqb_neq _ _)) by lia. by apply H3.
    + rewrite list_lookup_insert_ne in Hb' by done. destruct (Forall2_lookup_lr _ _ _ _ _ _ HA Hb' Hc') as [K1 K2 K3]. split; [done|done|]. intros k Hk. unfold s'. cbn [um].
      rewrite ld8_st8. pose proof (uheap_disjoint _ _ _ Hs1) as Hd. rewrite Forall_forall in Hd. specialize (Hd c' (delete_other live i j c' Hc' Hne)). rewrite (proj2 (Z.eqb_neq _ _)) by lia. by apply K3.
Qed.

(** The program starts with an empty heap. *)
Lemma umalloc_start s : unborn s -> represents s [].
Proof. intros H. exists []. split; [by left|constructor]. Qed.
End client.
End ring.

(** A process with 1 MB; the kernel grants nothing above KERNBASE. *)
Definition ex_ust : ust := mkU (fun _ => 0) 0 0x4000.
Definition ex_grants (b k : Z) : bool := b + k <=? 0x80000000.

Lemma umalloc_refines_witness : exists r s' A', uexec 0x3000 ex_grants [] (OMalloc 100) ex_ust = Ret (r, s') /\ astep [] (OMalloc 100) r A' /\ represents 0x3000 s' A'.
Proof.
  apply (umalloc_refines 0x3000 ex_grants ltac:(unfold ex_grants; intros b k H _; lia) ex_ust [] (OMalloc 100)).
  - apply umalloc_start. split; [done|split; [lia|reflexivity]|split; [reflexivity|cbn; lia]].
  - cbn. lia.
Defined.

(** The rounding of the size wraps: a request for almost 4 GB is granted with a
    block that has a header and no bytes. *)
Example malloc_wraps : exists s', malloc 0x3000 ex_grants 0xFFFFFFFF ex_ust = Ret (0xC000, s') /\ hsize (um s') (0xC000 - 8) = 1 /\ ubrk s' = 0xC000.
Proof. eexists. split; [vm_compute; reflexivity|]. split; vm_compute; reflexivity. Qed.
