(* ===== verification/Mkfs.v ===== *)
(** * The file system builder (mkfs.c)

    mkfs runs on the build host and writes the disk image with the root
    directory and the files of its command line.  The image is a file of
    512-byte sectors; the model has its sectors, their number, and the counters
    of mkfs.  A failed assertion or an exit with an error is a panic.  The
    theorem says that the image is a file system as the kernel's code takes
    it: every file in order, with its bytes, in blocks of its own. *)

From Stdlib Require Import ZArith Lia String Bool.
From stdpp Require Import base numbers sets list.
From S2P Require Import Prelude Params Mem Spinlock FsState Bio Log Inode Console Fs FsRun BioSpec LogSpec Crash Transaction Blocks FileBlocks FileSpec FileIO FileWrite.

(** ** The program *)

Definition nblocks : Z := 985.
Definition nlog : Z := LOGSIZE.
Definition ninodes : Z := 200.
Definition mk_size : Z := 1024.
Definition bitblocks : Z := mk_size / (512 * 8) + 1.

(** The image, its length in sectors, and the counters. *)
Record mkfs_t : Type := mkMk { img : Z -> mem; nsec : Z; freeblock : Z; usedblocks : Z; freeinode : Z }.

(** The number in the host's memory whose bytes are those of [x] in the order of
    the target. *)
Definition xshort (x : Z) : Z := ld16 (st8 (st8 (fun _ => 0) 0 x) 1 (Z.shiftr x 8)) 0.
Definition xint (x : Z) : Z :=
  ld32 (st8 (st8 (st8 (st8 (fun _ => 0) 0 x) 1 (Z.shiftr x 8)) 2 (Z.shiftr x 16)) 3 (Z.shiftr x 24)) 0.

Definition wsect (sec : Z) (buf : mem) : M mkfs_t unit :=
  modify (fun s => mkMk (upd (img s) sec buf) (Z.max (nsec s) (sec + 1)) (freeblock s) (usedblocks s) (freeinode s)).
Definition rsect (sec : Z) : M mkfs_t mem :=
  let* n := gets nsec in
  if sec <? n then gets (fun s => img s sec) else panic "read".

(** [freeblock++] with [usedblocks++] *)
Definition next_block : M mkfs_t Z :=
  fun s => Ret (freeblock s, mkMk (img s) (nsec s) (u32 (freeblock s + 1)) (u32 (usedblocks s + 1)) (freeinode s)).

Record dinode : Type := mkDinode { d_type : Z; d_major : Z; d_minor : Z; d_nlink : Z; d_size : Z; d_addrs : Z -> Z }.
Definition d_with_size (z : Z) (d : dinode) : dinode := mkDinode (d_type d) (d_major d) (d_minor d) (d_nlink d) z (d_addrs d).
Definition d_with_addr (i z : Z) (d : dinode) : dinode :=
  mkDinode (d_type d) (d_major d) (d_minor d) (d_nlink d) (d_size d) (upd (d_addrs d) i z).
(** The inode that the kernel has in its cache for it. *)
Definition as_inode (inum : Z) (d : dinode) : inode :=
  mkInode ROOTDEV inum 1 I_VALID (d_type d) (d_major d) (d_minor d) (d_nlink d) (d_size d) (d_addrs d).

Definition i2b (inum : Z) : Z := inum / IPB + 2.
Definition dinode_at (m : mem) (off : Z) : dinode :=
  mkDinode (s16 (ld16 m (off + di_type))) (s16 (ld16 m (off + di_major))) (s16 (ld16 m (off + di_minor)))
    (s16 (ld16 m (off + di_nlink))) (ld32 m (off + di_size)) (get_addrs m (off + di_addrs)).
Definition winode (inum : Z) (d : dinode) : M mkfs_t unit :=
  let* buf := rsect (i2b inum) in
  wsect (i2b inum) (put_dinode (as_inode inum d) buf).
Definition rinode (inum : Z) : M mkfs_t dinode :=
  let* buf := rsect (i2b inum) in
  ret (dinode_at buf (inum mod IPB * sizeof_dinode)).

Definition mk_ialloc (type : Z) : M mkfs_t Z :=
  let* inum := gets freeinode in
  modify (fun s => mkMk (img s) (nsec s) (freeblock s) (usedblocks s) (u32 (freeinode s + 1))) ;;
  winode inum (mkDinode (xshort type) 0 0 (xshort 1) (xint 0) (fun _ => 0)) ;;
  ret inum.

Fixpoint set_bits (n : nat) (i : Z) (buf : mem) : mem :=
  match n with
  | O => buf
  | S n => set_bits n (i + 1) (st8 buf (Z.quot i 8) (Z.lor (ld8 buf (Z.quot i 8)) (Z.shiftl 1 (Z.rem i 8))))
  end.
Definition mk_balloc (used : Z) : M mkfs_t unit :=
  if negb (used <? 512 * 8) then panic "assert" else
  wsect (ninodes / IPB + 3) (set_bits (Z.to_nat used) 0 (fun _ => 0)).

(** The inode and the sector of block [fbn] of the file, allocated if need be. *)
Definition block_of (d : dinode) (fbn : Z) : M mkfs_t (dinode * Z) :=
  if fbn <? NDIRECT then
    if xint (d_addrs d fbn) =? 0 then
      let* b := next_block in
      let d := d_with_addr fbn (xint b) d in ret (d, xint (d_addrs d fbn))
    else ret (d, xint (d_addrs d fbn))
  else
    let* d := (if xint (d_addrs d NDIRECT) =? 0 then let* b := next_block in ret (d_with_addr NDIRECT (xint b) d) else ret d) in
    let* indirect := rsect (xint (d_addrs d NDIRECT)) in
    if ld32 indirect (4 * (fbn - NDIRECT)) =? 0 then
      let* b := next_block in
      let indirect := st32 indirect (4 * (fbn - NDIRECT)) (xint b) in
      wsect (xint (d_addrs d NDIRECT)) indirect ;;
      ret (d, xint (ld32 indirect (4 * (fbn - NDIRECT))))
    else ret (d, xint (ld32 indirect (4 * (fbn - NDIRECT)))).

(** The loop of iappend: the bytes of [xp] from [k] on, [n] of them. *)
Fixpoint iappend_loop (fuel : nat) (d : dinode) (xp : mem) (k n off : Z) : M mkfs_t (dinode * Z) :=
  if 0 <? n then
    match fuel with
    | O => nofuel
    | S fuel =>
      let fbn := off / 512 in
      if negb (fbn <? MAXFILE) then panic "assert" else
      let* dx := block_of d fbn in
      let (d, x) := dx : dinode * Z in
      let n1 := Z.min n ((fbn + 1) * 512 - off) in
      let* buf := rsect x in
      wsect x (fun a => let o := off - fbn * 512 in if (o <=? a) && (a <? o + n1) then xp (k + (a - o)) else buf a) ;;
      iappend_loop fuel d xp (k + n1) (n - n1) (u32 (off + n1))
    end
  else ret (d, off).
Definition iappend (inum : Z) (xp : mem) (n : Z) : M mkfs_t unit :=
  let* d := rinode inum in
  let* r := iappend_loop (Z.to_nat n) d xp 0 n (xint (d_size d)) in
  let (d, off) := r : dinode * Z in
  winode inum (d_with_size (xint off) d).

(** A file of the command line: its name, and what read returns until it returns
    zero, if open finds it. *)
Record host_file : Type := mkHost { h_name : list Z; h_reads : option (list (list Z)) }.

Fixpoint append_reads (inum : Z) (reads : list (list Z)) : M mkfs_t unit :=
  match reads with
  | [] => ret tt
  | buf :: reads => iappend inum (name_at buf) (Z.of_nat (length buf)) ;; append_reads inum reads
  end.

(** The name without a leading underscore. *)
Definition strip (name : list Z) : list Z := match name with c :: rest => if c =? 95 then rest else name | [] => name end.

Definition mk_file (rootino : Z) (f : host_file) : M mkfs_t unit :=
  if existsb (Z.eqb 47) (h_name f) then panic "assert" else
  match h_reads f with
  | None => panic "open"
  | Some reads =>
    let* inum := mk_ialloc T_FILE in
    iappend rootino (make_dirent (strip (h_name f)) (xshort inum)) sizeof_dirent ;;
    append_reads inum reads
  end.
Fixpoint mk_files (rootino : Z) (files : list host_file) : M mkfs_t unit :=
  match files with
  | [] => ret tt
  | f :: files => mk_file rootino f ;; mk_files rootino files
  end.

Fixpoint zero_sects (n : nat) (i : Z) : M mkfs_t unit :=
  match n with
  | O => ret tt
  | S n => wsect i (fun _ => 0) ;; zero_sects n (i + 1)
  end.

Definition mk_super : mem :=
  st32 (st32 (st32 (st32 (fun _ => 0) 0 (xint mk_size)) 4 (xint nblocks)) 8 (xint ninodes)) 12 (xint nlog).

(** main, from the opening of the image on: the zeroed disk with its super
    block, *)
Definition mk_empty : M mkfs_t unit :=
  let used := ninodes / IPB + 3 + bitblocks in
  modify (fun s => mkMk (img s) (nsec s) used used (freeinode s)) ;;
  if negb (nblocks + used + nlog =? mk_size) then panic "assert" else
  zero_sects (Z.to_nat (nblocks + used + nlog)) 0 ;;
  wsect 1 mk_super.
(** the root directory and the files, *)
Definition mk_fill (files : list host_file) : M mkfs_t Z :=
  let* rootino := mk_ialloc T_DIR in
  if negb (rootino =? ROOTINO) then panic "assert" else
  iappend rootino (make_dirent [46] (xshort rootino)) sizeof_dirent ;;
  iappend rootino (make_dirent [46; 46] (xshort rootino)) sizeof_dirent ;;
  mk_files rootino files ;;
  ret rootino.
(** the size of the root directory, and the bitmap. *)
Definition mk_finish (rootino : Z) : M mkfs_t unit :=
  let* din := rinode rootino in
  let off := u32 ((xint (d_size din) / BSIZE + 1) * BSIZE) in
  winode rootino (d_with_size (xint off) din) ;;
  let* used := gets usedblocks in
  mk_balloc used.
Definition mkfs_main (files : list host_file) : M mkfs_t unit :=
  mk_empty ;;
  let* rootino := mk_fill files in
  mk_finish rootino.

(** The opened image is empty. *)
Definition mkfs_start : mkfs_t := mkMk (fun _ _ => 0) 0 0 0 1.
Definition mkfs (files : list host_file) : outcome (unit * mkfs_t) := mkfs_main files mkfs_start.

(** ** Blocks in the order of their allocation *)

(** What a block is for: block [bn] of inode [i], or for -1 its indirect block. *)
Abbreviation label := (Z * Z)%type.

(** The block of [x] if those from [b] on are for [L]. *)
Fixpoint slot_from (b : Z) (L : list label) (x : label) : Z :=
  match L with
  | [] => 0
  | y :: L => if decide (y = x) then b else slot_from (b + 1) L x
  end.

Lemma slot_from_notin x L : forall b, x ∉ L -> slot_from b L x = 0.
Proof.
  induction L as [|y L IH]; intros b H; cbn [slot_from]; [done|]. apply not_elem_of_cons in H as [H1 H2].
  rewrite decide_False by done. by apply IH.
Qed.
Lemma slot_from_in x L : forall b, x ∈ L -> b <= slot_from b L x < b + Z.of_nat (length L).
Proof.
  induction L as [|y L IH]; intros b H; [by apply not_elem_of_nil in H|]. cbn [slot_from length]. destruct (decide (y = x)); [lia|].
  apply elem_of_cons in H as [->|H]; [done|]. specialize (IH (b + 1) H). lia.
Qed.
Lemma slot_from_inj x x' L : forall b, x ∈ L -> slot_from b L x = slot_from b L x' -> x' ∈ L -> x = x'.
Proof.
  induction L as [|y L IH]; intros b H E H'; [by apply not_elem_of_nil in H|]. cbn [slot_from] in E.
  apply elem_of_cons in H, H'. destruct (decide (y = x)) as [Hx|Hx], (decide (y = x')) as [Hx'|Hx']; [congruence| | |].
  - destruct H' as [->|H']; [done|]. pose proof (slot_from_in x' L (b + 1) H'). lia.
  - destruct H as [->|H]; [done|]. pose proof (slot_from_in x L (b + 1) H). lia.
  - destruct H as [->|H]; [done|]. destruct H' as [->|H']; [done|]. by apply (IH (b + 1)).
Qed.
Lemma slot_from_app x L L' : forall b, x ∈ L -> slot_from b (L ++ L') x = slot_from b L x.
Proof.
  induction L as [|y L IH]; intros b H; [by apply not_elem_of_nil in H|]. cbn [slot_from app]. destruct (decide (y = x)); [done|].
  apply elem_of_cons in H as [->|H]; [done|]. by apply IH.
Qed.
Lemma slot_from_new x L : forall b, x ∉ L -> slot_from b (L ++ [x]) x = b + Z.of_nat (length L).
Proof.
  induction L as [|y L IH]; intros b H; cbn [slot_from app length].
  - rewrite decide_True by done. lia.
  - apply not_elem_of_cons in H as [H1 H2]. rewrite decide_False by done. rewrite IH by done. lia.
Qed.
Lemma slot_from_onto L : forall b s, NoDup L -> b <= s < b + Z.of_nat (length L) -> exists x, x ∈ L /\ slot_from b L x = s.
Proof.
  induction L as [|y L IH]; intros b s H Hs; cbn [length] in Hs; [lia|]. apply NoDup_cons in H as [Hy H].
  destruct (decide (s = b)) as [->|].
  - exists y. split; [by left|]. cbn [slot_from]. by rewrite decide_True.
  - destruct (IH (b + 1) s H ltac:(lia)) as (x & Hx & E). exists x. split; [by right|]. cbn [slot_from].
    rewrite decide_False by (intros ->; done). done.
Qed.

(** The first data block. *)
Definition first : Z := 29.
Definition slot : list label -> label -> Z := slot_from first.

Lemma slot_in L x : x ∈ L -> first <= slot L x < first + Z.of_nat (length L).
Proof. apply slot_from_in. Qed.
Lemma slot_notin L x : x ∉ L -> slot L x = 0.
Proof. apply slot_from_notin. Qed.
Lemma slot_zero L x : slot L x = 0 <-> x ∉ L.
Proof. split; [|apply slot_notin]. intros E H%slot_in. unfold first in H. lia. Qed.
Lemma slot_nz L x : x ∈ L -> slot L x <> 0.
Proof. intros H%slot_in. unfold first in H. lia. Qed.
Lemma slot_inj L x x' : x ∈ L -> slot L x = slot L x' -> x = x'.
Proof.
  intros H E. assert (x' ∈ L) as H'.
  { destruct (decide (x' ∈ L)); [done|]. rewrite (slot_notin L x') in E by done. by apply slot_zero in E. }
  by apply (slot_from_inj x x' L first).
Qed.
Lemma slot_app L y x : y ∉ L -> slot (L ++ [y]) x = if decide (x = y) then first + Z.of_nat (length L) else slot L x.
Proof.
  intros Hy. destruct (decide (x = y)) as [->|Hne]; [by apply slot_from_new|]. destruct (decide (x ∈ L)); [by apply slot_from_app|].
  rewrite !slot_notin; [done|done|]. set_solver.
Qed.

Lemma xint_eq x : xint x = u32 x.
Proof. apply (ld32_st32_same (fun _ => 0) 0 x). Qed.
Lemma xshort_eq x : xshort x = u16 x.
Proof. pose proof (ld16_st16 (fun _ => 0) 0 x 0 ltac:(lia)) as H. exact H. Qed.

Definition wst (sec : Z) (buf : mem) (s : mkfs_t) : mkfs_t :=
  mkMk (upd (img s) sec buf) (Z.max (nsec s) (sec + 1)) (freeblock s) (usedblocks s) (freeinode s).
Definition nbst (s : mkfs_t) : mkfs_t := mkMk (img s) (nsec s) (u32 (freeblock s + 1)) (u32 (usedblocks s + 1)) (freeinode s).

Lemma rsect_ok s b : b < nsec s -> rsect b s = Ret (img s b, s).
Proof. intros H. unfold rsect. mstep. by rewrite (proj2 (Z.ltb_lt _ _) H). Qed.

(** ** What the blocks hold *)

(** The blocks are handed out in the order of [L], and they hold the indirect
    entries and the bytes [h i p] of the files. *)
Record core (s : mkfs_t) (L : list label) (h : Z -> Z -> Z) : Prop := {
  co_free : freeblock s = first + Z.of_nat (length L);
  co_used : usedblocks s = freeblock s;
  co_nsec : nsec s = mk_size;
  co_nodup : NoDup L;
  co_label : forall i bn, (i, bn) ∈ L -> 0 <= i < ninodes /\ -1 <= bn < MAXFILE;
  co_indin : forall i bn, (i, bn) ∈ L -> NDIRECT <= bn -> (i, -1) ∈ L;
  co_ind : forall i k, (i, -1) ∈ L -> 0 <= k < NINDIRECT -> ld32 (img s (slot L (i, -1))) (4 * k) = slot L (i, NDIRECT + k);
  co_bytes : forall i bn o, (i, bn) ∈ L -> 0 <= bn -> 0 <= o < 512 -> ld8 (img s (slot L (i, bn))) o = h i (bn * 512 + o);
  co_none : forall i bn o, (i, bn) ∉ L -> 0 <= bn -> 0 <= o < 512 -> h i (bn * 512 + o) = 0;
  co_fresh : forall b o, freeblock s <= b < mk_size -> 0 <= o < 512 -> ld8 (img s b) o = 0;
  co_super : blk_eq mk_super (img s 1)
}.

Lemma ld32_zero m a : (forall o, 0 <= o < 512 -> ld8 m o = 0) -> 0 <= a <= 508 -> ld32 m a = 0.
Proof. intros H Ha. unfold ld32. by rewrite !H by lia. Qed.

(** A block for a direct address or for the indirect block *)
Lemma core_take s L h i bn : core s L h -> (i, bn) ∉ L -> 0 <= i < ninodes -> -1 <= bn < NDIRECT -> first + Z.of_nat (length L) < mk_size ->
  core (nbst s) (L ++ [(i, bn)]) h.
Proof.
  intros C Hy Hi Hb Hl. unfold first, mk_size, NDIRECT in *. pose proof (co_free _ _ _ C) as Ef. unfold first in Ef.
  assert (u32 (freeblock s + 1) = freeblock s + 1) as Eu by (apply u32_small; lia). split; cbn [img nsec freeblock usedblocks nbst]; try apply C.
  - rewrite Eu, length_app, Ef. cbn [length]. unfold first. lia.
  - by rewrite (co_used _ _ _ C).
  - apply NoDup_app. split; [apply C|]. split; [set_solver|]. apply NoDup_singleton.
  - intros i' bn' [H|H%list_elem_of_singleton]%elem_of_app; [by apply (co_label _ _ _ C)|]. injection H as -> ->. unfold MAXFILE, NDIRECT. change NINDIRECT with 128. lia.
  - intros i' bn' [H|H%list_elem_of_singleton]%elem_of_app Hn; apply elem_of_app; [left; by apply (co_indin _ _ _ C i' bn')|]. injection H as -> ->. unfold NDIRECT in Hn. lia.
  - intros i' k Hin Hk. rewrite (slot_app L (i, bn) (i', NDIRECT + k)) by done. rewrite decide_False by (unfold NDIRECT; intros [= -> <-]; lia).
    rewrite slot_app by done. case_decide as E.
    + injection E as -> <-. rewrite (slot_notin L).
      * apply ld32_zero; [|change NINDIRECT with 128 in Hk; lia]. intros o Ho. apply (co_fresh _ _ _ C); [|done]. unfold first, mk_size. lia.
      * intros H. apply Hy, (co_indin _ _ _ C _ _ H). lia.
    + apply (co_ind _ _ _ C); [|done]. apply elem_of_app in Hin as [?|Hin%list_elem_of_singleton]; done.
  - intros i' bn' o Hin Hbn Ho. rewrite slot_app by done. case_decide as E.
    + injection E as -> ->. rewrite (co_none _ _ _ C) by done. apply (co_fresh _ _ _ C); [|done]. unfold first, mk_size. lia.
    + apply (co_bytes _ _ _ C); [|done..]. apply elem_of_app in Hin as [?|Hin%list_elem_of_singleton]; done.
  - intros i' bn' o Hn. apply (co_none _ _ _ C). set_solver.
  - intros b o Hb'. apply (co_fresh _ _ _ C). lia.
Qed.

(** A block entered in the indirect block *)
Lemma core_enter s L h i bn : core s L h -> (i, bn) ∉ L -> (i, -1) ∈ L -> NDIRECT <= bn < MAXFILE -> first + Z.of_nat (length L) < mk_size ->
  core (wst (slot L (i, -1)) (st32 (img s (slot L (i, -1))) (4 * (bn - NDIRECT)) (freeblock s)) (nbst s)) (L ++ [(i, bn)]) h.
Proof.
  intros C Hy Hi Hb Hl. pose proof (slot_in L _ Hi) as Hs. pose proof (co_free _ _ _ C) as Ef. set (c := slot L (i, -1)) in *.
  unfold first, mk_size, NDIRECT in *. change MAXFILE with 140 in Hb.
  assert (u32 (freeblock s + 1) = freeblock s + 1) as Eu by (apply u32_small; lia).
  assert (forall x, x ∈ L -> x <> (i, -1) -> slot L x <> c) as Hne by (intros x Hx Hxi E; by apply Hxi, (slot_inj L)).
  split; cbn [img nsec freeblock usedblocks wst nbst]; try apply C.
  - rewrite Eu, length_app, Ef. cbn [length]. unfold first. lia.
  - by rewrite (co_used _ _ _ C).
  - rewrite (co_nsec _ _ _ C). unfold mk_size. lia.
  - apply NoDup_app. split; [apply C|]. split; [set_solver|]. apply NoDup_singleton.
  - intros i' bn' [H|H%list_elem_of_singleton]%elem_of_app; [by apply (co_label _ _ _ C)|]. injection H as -> ->.
    split; [apply (co_label _ _ _ C _ _ Hi)|]. change MAXFILE with 140. lia.
  - intros i' bn' [H|H%list_elem_of_singleton]%elem_of_app Hn; apply elem_of_app; left; [by apply (co_indin _ _ _ C i' bn')|]. by injection H as -> ->.
  - intros i' k Hin Hk. rewrite !slot_app by done. rewrite (decide_False (P := (i', -1) = _)) by (intros [= -> <-]; lia).
    assert ((i', -1) ∈ L) as Hin'. { apply elem_of_app in Hin as [?|Hin%list_elem_of_singleton]; [done|]. injection Hin as -> Hx. lia. }
    change NINDIRECT with 128 in Hk. destruct (decide (i' = i)) as [->|Hii].
    + fold c. rewrite upd_same. case_decide as E.
      * injection E as <-. replace (4 * (NDIRECT + k - 12)) with (4 * k) by (unfold NDIRECT; lia). rewrite ld32_st32_same, Ef. unfold first. apply u32_small. lia.
      * rewrite ld32_st32_ne by (unfold NDIRECT in E; destruct (decide (k = bn - 12)) as [->|]; [exfalso; apply E; f_equal; lia|lia]).
        by apply (co_ind _ _ _ C).
    + rewrite upd_ne by (apply Hne; [done|congruence]). rewrite decide_False by congruence. by apply (co_ind _ _ _ C).
  - intros i' bn' o Hin Hbn Ho. rewrite slot_app by done. case_decide as E.
    + injection E as -> ->. rewrite upd_ne by (unfold first; lia). rewrite (co_none _ _ _ C) by done. apply (co_fresh _ _ _ C); [|done]. unfold first, mk_size. lia.
    + assert ((i', bn') ∈ L) by (apply elem_of_app in Hin as [?|Hin%list_elem_of_singleton]; done).
      rewrite upd_ne by (apply Hne; [done|]; intros [= -> ->]; lia). by apply (co_bytes _ _ _ C).
  - intros i' bn' o Hn. apply (co_none _ _ _ C). set_solver.
  - intros b o Hb'. rewrite upd_ne by lia. apply (co_fresh _ _ _ C). lia.
  - rewrite upd_ne by lia. apply C.
Qed.

(** Bytes of a file *)
Lemma core_put s L h i bn buf h' : core s L h -> (i, bn) ∈ L -> 0 <= bn ->
  (forall o, 0 <= o < 512 -> ld8 buf o = h' i (bn * 512 + o)) ->
  (forall i' bn' o, 0 <= bn' -> 0 <= o < 512 -> (i', bn') <> (i, bn) -> h' i' (bn' * 512 + o) = h i' (bn' * 512 + o)) ->
  first + Z.of_nat (length L) <= mk_size -> core (wst (slot L (i, bn)) buf s) L h'.
Proof.
  intros C Hi Hb Hbuf Hoth Hl. pose proof (slot_in L _ Hi) as Hs. pose proof (co_free _ _ _ C) as Ef. set (c := slot L (i, bn)) in *.
  assert (forall x, x ∈ L -> x <> (i, bn) -> slot L x <> c) as Hne by (intros x Hx Hxi E; by apply Hxi, (slot_inj L)).
  unfold first, mk_size in *. split; cbn [img nsec freeblock usedblocks wst]; try apply C.
  - rewrite (co_nsec _ _ _ C). unfold mk_size. lia.
  - intros i' k Hin Hk. rewrite upd_ne by (apply Hne; [done|]; intros [= -> <-]; lia). by apply (co_ind _ _ _ C).
  - intros i' bn' o Hin Hbn Ho. destruct (decide ((i', bn') = (i, bn))) as [E|E].
    + injection E as -> ->. fold c. rewrite upd_same. by apply Hbuf.
    + rewrite upd_ne by by apply Hne. rewrite Hoth by done. by apply (co_bytes _ _ _ C).
  - intros i' bn' o Hn Hbn Ho. rewrite Hoth by (done || congruence). by apply (co_none _ _ _ C).
  - intros b o Hb' Ho. rewrite upd_ne by lia. by apply (co_fresh _ _ _ C).
  - rewrite upd_ne by lia. apply C.
Qed.

Definition add (L : list label) (y : label) : list label := if decide (y ∈ L) then L else L ++ [y].
(** The blocks that block [bn] of inode [i] needs. *)
Definition want (i bn : Z) : list label := if bn <? NDIRECT then [(i, bn)] else [(i, -1); (i, bn)].
Definition adds (L : list label) (ys : list label) : list label := fold_left add ys L.

Lemma elem_of_add L y x : x ∈ add L y <-> x ∈ L \/ x = y.
Proof. unfold add. case_decide; set_solver. Qed.
Lemma length_add L y : (length L <= length (add L y))%nat.
Proof. unfold add. case_decide; [done|]. rewrite length_app. lia. Qed.
Lemma elem_of_adds ys : forall L x, x ∈ adds L ys <-> x ∈ L \/ x ∈ ys.
Proof. induction ys as [|y ys IH]; intros L x; cbn; [set_solver|]. fold (adds (add L y) ys). rewrite IH, elem_of_add. set_solver. Qed.

(** The addresses in inode [i]. *)
Definition gaddrs (L : list label) (i j : Z) : Z := slot L (i, if j <? NDIRECT then j else -1).

(** The inode in the memory of iappend has the addresses of inode [i]. *)
Definition has_addrs (d : dinode) (L : list label) (i : Z) : Prop := forall j, 0 <= j <= NDIRECT -> d_addrs d j = gaddrs L i j.
(** Only the addresses of an inode have changed. *)
Definition same_node (d d' : dinode) : Prop := d' = mkDinode (d_type d) (d_major d) (d_minor d) (d_nlink d) (d_size d) (d_addrs d').

Lemma same_fields d d' : same_node d d' -> d_type d' = d_type d /\ d_major d' = d_major d /\ d_minor d' = d_minor d /\ d_nlink d' = d_nlink d.
Proof. intros E. rewrite E. done. Qed.

Lemma gaddrs_ind L i : gaddrs L i NDIRECT = slot L (i, -1).
Proof. done. Qed.
Lemma gaddrs_dir L i j : j < NDIRECT -> gaddrs L i j = slot L (i, j).
Proof. intros H. unfold gaddrs. by rewrite (proj2 (Z.ltb_lt _ _) H). Qed.

Lemma has_addrs_new d L i bn : has_addrs d L i -> (i, bn) ∉ L -> -1 <= bn < NDIRECT ->
  has_addrs (d_with_addr (if bn =? -1 then NDIRECT else bn) (first + Z.of_nat (length L)) d) (L ++ [(i, bn)]) i.
Proof.
  intros H Hy Hb j Hj. cbn [d_addrs d_with_addr]. unfold upd, gaddrs. rewrite slot_app by done. destruct (Z.eqb_spec bn (-1)) as [->|Hn].
  - destruct (Z.eqb_spec j NDIRECT) as [->|]; [by rewrite decide_True|]. rewrite H by done. unfold gaddrs. rewrite (proj2 (Z.ltb_lt j NDIRECT)) by lia.
    rewrite decide_False; [done|]. intros [= ->]. lia.
  - destruct (Z.eqb_spec j bn) as [->|].
    + rewrite (proj2 (Z.ltb_lt bn NDIRECT)) by lia. by rewrite decide_True.
    + rewrite H by done. unfold gaddrs. rewrite decide_False; [done|]. intros [= E]. destruct (j <? NDIRECT); lia.
Qed.
Lemma has_addrs_app d L i bn : has_addrs d L i -> (i, bn) ∉ L -> NDIRECT <= bn -> has_addrs d (L ++ [(i, bn)]) i.
Proof.
  intros H Hy Hb j Hj. rewrite H by done. unfold gaddrs. rewrite slot_app by done. rewrite decide_False; [done|].
  intros [= E]. unfold NDIRECT in *. destruct (Z.ltb_spec j 12); lia.
Qed.

Lemma slot_u32 L x : first + Z.of_nat (length L) <= mk_size -> xint (slot L x) = slot L x.
Proof.
  intros H. rewrite xint_eq. apply u32_small. unfold first, mk_size in H. destruct (decide (x ∈ L)) as [Hx%slot_in|]; [unfold first in Hx; lia|].
  rewrite slot_notin by done. lia.
Qed.

Record block_found (s s' : mkfs_t) (d d' : dinode) (L L' : list label) (h : Z -> Z -> Z) (i : Z) : Prop := {
  bf_core : core s' L' h;
  bf_addrs : has_addrs d' L' i;
  bf_same : same_node d d';
  bf_low : forall b, b < first -> img s' b = img s b;
  bf_ino : freeinode s' = freeinode s
}.
Lemma block_found_refl s d L h i : core s L h -> has_addrs d L i -> block_found s s d d L L h i.
Proof. intros C H. split; try done. by destruct d. Qed.

Lemma block_of_direct s L h d i bn : core s L h -> 0 <= i < ninodes -> 0 <= bn < NDIRECT -> has_addrs d L i ->
  first + Z.of_nat (length (add L (i, bn))) <= mk_size ->
  exists s' d', block_of d bn s = Ret ((d', slot (add L (i, bn)) (i, bn)), s') /\ block_found s s' d d' L (add L (i, bn)) h i.
Proof.
  intros C Hi Hb Hd Hl. pose proof (length_add L (i, bn)) as Hle. unfold block_of. rewrite (proj2 (Z.ltb_lt bn NDIRECT)) by lia.
  rewrite (Hd bn), gaddrs_dir, slot_u32 by lia. unfold add in *. case_decide as Hin.
  - rewrite (proj2 (Z.eqb_neq _ 0)) by by apply slot_nz. exists s, d. split; [done|by apply block_found_refl].
  - rewrite (slot_notin L) by done. rewrite length_app in Hl. cbn [length] in Hl. cbn [Z.eqb]. unfold bind, next_block, ret. fold (nbst s).
    rewrite (co_free _ _ _ C). set (b := first + Z.of_nat (length L)).
    assert (xint b = b) as Eb by (rewrite xint_eq; apply u32_small; unfold b, first, mk_size in *; lia). rewrite Eb.
    exists (nbst s), (d_with_addr bn b d). split.
    + cbn [d_addrs d_with_addr]. rewrite upd_same, Eb, slot_app by done. by rewrite decide_True.
    + split; try done.
      * apply core_take; try done; lia.
      * pose proof (has_addrs_new d L i bn Hd Hin ltac:(lia)) as H. by rewrite (proj2 (Z.eqb_neq bn (-1))) in H by lia.
Qed.

(** The indirect block *)
Lemma indirect_of s L h d i : core s L h -> 0 <= i < ninodes -> has_addrs d L i -> first + Z.of_nat (length (add L (i, -1))) <= mk_size ->
  exists s' d', (if xint (d_addrs d NDIRECT) =? 0 then let* b := next_block in ret (d_with_addr NDIRECT (xint b) d) else ret d) s = Ret (d', s') /\
    block_found s s' d d' L (add L (i, -1)) h i.
Proof.
  intros C Hi Hd Hl. pose proof (length_add L (i, -1)) as Hle. rewrite (Hd NDIRECT), gaddrs_ind, slot_u32 by (unfold NDIRECT; lia). unfold add in *. case_decide as Hin.
  - rewrite (proj2 (Z.eqb_neq _ 0)) by by apply slot_nz. exists s, d. split; [done|by apply block_found_refl].
  - rewrite (slot_notin L) by done. rewrite length_app in Hl. cbn [length] in Hl. cbn [Z.eqb]. unfold bind, next_block, ret. fold (nbst s).
    rewrite (co_free _ _ _ C). set (b := first + Z.of_nat (length L)).
    assert (xint b = b) as Eb by (rewrite xint_eq; apply u32_small; unfold b, first, mk_size in *; lia). rewrite Eb.
    eexists _, _. split; [reflexivity|]. split; try done.
    + apply core_take; try done; lia.
    + by apply (has_addrs_new d L i (-1) Hd Hin).
Qed.

Lemma block_of_indirect s L h d i bn : core s L h -> 0 <= i < ninodes -> NDIRECT <= bn < MAXFILE -> has_addrs d L i ->
  first + Z.of_nat (length (adds L (want i bn))) <= mk_size ->
  exists s' d', block_of d bn s = Ret ((d', slot (adds L (want i bn)) (i, bn)), s') /\ block_found s s' d d' L (adds L (want i bn)) h i.
Proof.
  intros C Hi Hb Hd. unfold want, block_of. rewrite (proj2 (Z.ltb_ge bn NDIRECT)) by lia. cbn [adds fold_left]. intros Hl.
  pose proof (length_add (add L (i, -1)) (i, bn)) as Hle.
  destruct (indirect_of s L h d i C Hi Hd) as (s1 & d1 & E1 & [C1 H1 S1 Lo1 Fi1]); [lia|]. rewrite (bind_ret_eq _ _ _ _ _ E1).
  set (L1 := add L (i, -1)) in *. assert ((i, -1) ∈ L1) as Hin1 by (apply elem_of_add; by right).
  pose proof (slot_in L1 _ Hin1) as Hs1. unfold first, mk_size in *. change MAXFILE with 140 in Hb.
  rewrite (H1 NDIRECT), gaddrs_ind, slot_u32 by (unfold NDIRECT, first, mk_size in *; lia).
  rewrite (bind_ret_eq _ _ _ _ _ (rsect_ok s1 (slot L1 (i, -1)) ltac:(rewrite (co_nsec _ _ _ C1); unfold mk_size; lia))).
  assert (ld32 (img s1 (slot L1 (i, -1))) (4 * (bn - NDIRECT)) = slot L1 (i, bn)) as El.
  { rewrite (co_ind _ _ _ C1 i (bn - NDIRECT) Hin1) by (change NINDIRECT with 128; unfold NDIRECT in *; lia). do 2 f_equal. lia. }
  rewrite El, slot_u32 by (unfold first, mk_size; lia). unfold add in *. case_decide as Hin.
  - rewrite (proj2 (Z.eqb_neq _ 0)) by by apply slot_nz. exists s1, d1. done.
  - rewrite (slot_notin L1) by done. rewrite length_app in Hl. cbn [length] in Hl. cbn [Z.eqb]. unfold bind, next_block, ret, wsect, modify. fold (nbst s1).
    rewrite ld32_st32_same. set (b := freeblock s1). pose proof (co_free _ _ _ C1) as Ef. fold b in Ef. unfold first in Ef.
    assert (xint b = b) as Eb by (rewrite xint_eq; apply u32_small; lia). rewrite Eb. rewrite (u32_small b), Eb by lia.
    exists (wst (slot L1 (i, -1)) (st32 (img s1 (slot L1 (i, -1))) (4 * (bn - NDIRECT)) b) (nbst s1)), d1. split.
    + rewrite slot_app by done. rewrite decide_True by done. by rewrite Ef.
    + split; try done.
      * apply core_enter; try done. unfold first, mk_size. lia.
      * apply has_addrs_app; [done|done|lia].
      * intros b' Hb'. cbn [img wst nbst]. rewrite upd_ne by (unfold first in Hb'; lia). by apply Lo1.
Qed.

Lemma block_of_spec s L h d i bn : core s L h -> 0 <= i < ninodes -> 0 <= bn < MAXFILE -> has_addrs d L i ->
  first + Z.of_nat (length (adds L (want i bn))) <= mk_size ->
  exists s' d', block_of d bn s = Ret ((d', slot (adds L (want i bn)) (i, bn)), s') /\ block_found s s' d d' L (adds L (want i bn)) h i.
Proof.
  intros C Hi Hb Hd Hl. destruct (Z.ltb_spec bn NDIRECT) as [H|H].
  - unfold want in *. rewrite (proj2 (Z.ltb_lt _ _) H) in *. apply block_of_direct; try done. lia.
  - by apply block_of_indirect; [..|lia| |].
Qed.

(** ** Appending to a file *)

(** The blocks of files of sizes [sz]. *)
Definition in_size (sz : Z -> Z) (i bn : Z) : Prop :=
  0 <= i < ninodes /\ ((0 <= bn < MAXFILE /\ bn * 512 < sz i) \/ (bn = -1 /\ NDIRECT * 512 < sz i)).
Definition covers (L : list label) (sz : Z -> Z) : Prop := forall i bn, (i, bn) ∈ L <-> in_size sz i bn.

(** The bytes of the files after [n] bytes of [xp] have been appended to file [i],
    of size [off]. *)
Definition happ (h : Z -> Z -> Z) (i off : Z) (xp : mem) (k n : Z) : Z -> Z -> Z :=
  fun i' p => if (i' =? i) && (off <=? p) && (p <? off + n) then ld8 xp (k + (p - off)) else h i' p.

Lemma core_ext s L h h' : core s L h -> (forall i p, 0 <= p -> h' i p = h i p) -> core s L h'.
Proof.
  intros C E. split; try apply C.
  - intros i bn o Hin Hb Ho. rewrite E by lia. by apply C.
  - intros i bn o Hin Hb Ho. rewrite E by lia. by apply (co_none _ _ _ C).
Qed.

Section append.
Context (F : Z -> Z).
(** Blocks for files of the sizes [F] fit on the disk. *)
Context (Froom : forall L, NoDup L -> (forall i bn, (i, bn) ∈ L -> in_size F i bn) -> first + Z.of_nat (length L) <= mk_size).
Context (Fmax : forall i, F i <= MAXFILE * 512).

Lemma covers_room s L h sz : core s L h -> covers L sz -> (forall i, sz i <= F i) -> first + Z.of_nat (length L) <= mk_size.
Proof.
  intros C Hc Hs. apply Froom; [apply C|]. intros i bn [Hi Hb]%Hc. split; [done|]. specialize (Hs i). destruct Hb as [[? ?]|[? ?]]; [left|right]; lia.
Qed.

Lemma add_nodup L y : NoDup L -> NoDup (add L y).
Proof. intros H. unfold add. case_decide; [done|]. apply NoDup_app. split; [done|]. split; [set_solver|]. apply NoDup_singleton. Qed.
Lemma adds_nodup ys : forall L, NoDup L -> NoDup (adds L ys).
Proof. induction ys as [|y ys IH]; intros L H; cbn; [done|]. by apply IH, add_nodup. Qed.

(** One more block *)
Lemma covers_grow L sz i off n1 : 0 <= i < ninodes -> 0 <= off -> 0 < n1 <= (off / 512 + 1) * 512 - off -> off / 512 < MAXFILE ->
  covers L (upd sz i off) -> covers (adds L (want i (off / 512))) (upd sz i (off + n1)).
Proof.
  intros Hi Ho Hn Hm Hc i' bn'. rewrite elem_of_adds, (Hc i' bn'). unfold in_size, want, upd, NDIRECT. change MAXFILE with 140 in *.
  assert (512 * (off / 512) <= off < 512 * (off / 512) + 512) as Hq by mlia. set (q := off / 512) in *. clearbody q.
  destruct (Z.ltb_spec q 12); rewrite ?elem_of_cons, ?elem_of_nil, ?pair_equal_spec;
    destruct (Z.eqb_spec i' i) as [->|]; lia.
Qed.

Lemma gaddrs_other L i i' bn j : i' <> i -> gaddrs (adds L (want i bn)) i' j = gaddrs L i' j.
Proof.
  intros Hne. unfold gaddrs. generalize (if j <? NDIRECT then j else -1). intros b.
  assert (forall L x, fst x = i -> slot (add L x) (i', b) = slot L (i', b)) as Ha.
  { intros L0 x Hx. unfold add. case_decide; [done|]. rewrite slot_app by done. rewrite decide_False; [done|]. intros <-. by cbn in Hx. }
  unfold want. destruct (bn <? NDIRECT); cbn [adds fold_left]; by rewrite !Ha.
Qed.

Record appended (s s' : mkfs_t) (d d' : dinode) (L L' : list label) (sz : Z -> Z) (h' : Z -> Z -> Z) (i off' : Z) : Prop := {
  ap_core : core s' L' h';
  ap_covers : covers L' (upd sz i off');
  ap_addrs : has_addrs d' L' i;
  ap_same : same_node d d';
  ap_low : forall b, b < first -> img s' b = img s b;
  ap_ino : freeinode s' = freeinode s;
  ap_other : forall i' j, i' <> i -> gaddrs L' i' j = gaddrs L i' j
}.

Lemma appended_trans s s1 s2 d d1 d2 L L1 L2 sz h1 h2 i o1 o2 :
  appended s s1 d d1 L L1 sz h1 i o1 -> appended s1 s2 d1 d2 L1 L2 sz h2 i o2 -> appended s s2 d d2 L L2 sz h2 i o2.
Proof.
  intros [C1 V1 A1 S1 W1 I1 O1] [C2 V2 A2 S2 W2 I2 O2]. split; try done.
  - unfold same_node in *. rewrite S2, S1. done.
  - intros b Hb. by rewrite W2, W1.
  - congruence.
  - intros i' j Hi. by rewrite O2, O1.
Qed.

(** One round of the loop *)
Lemma append_round s L h sz d i off xp k n1 :
  core s L h -> covers L (upd sz i off) -> has_addrs d L i -> (forall i, sz i <= F i) -> 0 <= i < ninodes -> 0 <= off -> off / 512 < MAXFILE ->
  0 < n1 <= (off / 512 + 1) * 512 - off -> off + n1 <= F i ->
  exists s' d', (let* dx := block_of d (off / 512) in let (d, x) := dx : dinode * Z in let* buf := rsect x in
      wsect x (fun a => let o := off - off / 512 * 512 in if (o <=? a) && (a <? o + n1) then xp (k + (a - o)) else buf a) ;; ret d) s = Ret (d', s') /\
    appended s s' d d' L (adds L (want i (off / 512))) sz (happ h i off xp k n1) i (off + n1).
Proof.
  intros C Hc Hd Hs Hi Ho Hm Hn Hf. set (bn := off / 512) in *. pose proof (covers_grow L sz i off n1 Hi Ho Hn Hm Hc) as Hc'. fold bn in Hc'.
  set (L' := adds L (want i bn)) in *. assert (0 <= bn) as Hb0 by (unfold bn; mlia).
  assert (first + Z.of_nat (length L') <= mk_size) as Hl.
  { apply Froom; [by apply adds_nodup, C|]. intros i' bn' [Hi' Hb]%Hc'. split; [done|]. specialize (Hs i'). unfold upd in Hb. destruct (Z.eqb_spec i' i) as [->|]; lia. }
  destruct (block_of_spec s L h d i bn C Hi ltac:(lia) Hd Hl) as (s1 & d1 & E1 & [C1 H1 S1 Lo1 Fi1]). fold L' in E1, C1, H1.
  assert ((i, bn) ∈ L') as Hin. { unfold L'. apply elem_of_adds. right. unfold want. destruct (bn <? NDIRECT); set_solver. }
  pose proof (slot_in L' _ Hin) as Hsl. rewrite (bind_ret_eq _ _ _ _ _ E1).
  rewrite (bind_ret_eq _ _ _ _ _ (rsect_ok s1 (slot L' (i, bn)) ltac:(rewrite (co_nsec _ _ _ C1); lia))).
  unfold bind, wsect, modify, ret. cbv beta zeta.
  match goal with |- context [upd (img s1) _ ?f] => set (buf := f) end. exists (wst (slot L' (i, bn)) buf s1), d1. split; [reflexivity|]. split; try done.
  - apply (core_put s1 L' h); try done.
    + intros o Ho'. unfold buf, happ. rewrite Z.eqb_refl. cbn [andb].
      replace ((off <=? bn * 512 + o) && (bn * 512 + o <? off + n1)) with ((off - bn * 512 <=? o) && (o <? off - bn * 512 + n1)).
      2:{ f_equal; [apply Bool.eq_iff_eq_true; rewrite !Z.leb_le; lia|apply Bool.eq_iff_eq_true; rewrite !Z.ltb_lt; lia]. }
      unfold ld8 at 1. destruct (_ && _).
      * unfold ld8. do 2 f_equal. lia.
      * by apply (co_bytes _ _ _ C1).
    + intros i' bn' o Hb' Ho' Hne. unfold happ. destruct (Z.eqb_spec i' i) as [->|]; [|done]. cbn [andb].
      destruct (Z.leb_spec off (bn' * 512 + o)), (Z.ltb_spec (bn' * 512 + o) (off + n1)); try done. exfalso. apply Hne. f_equal.
      assert (512 * bn <= off < 512 * bn + 512) by (unfold bn; mlia). lia.
  - intros b Hb. cbn [img wst]. rewrite upd_ne by lia. by apply Lo1.
  - intros i' j Hne. by apply gaddrs_other.
Qed.

Lemma happ_happ h i off xp k n1 n i' p : 0 <= n1 <= n ->
  happ (happ h i off xp k n1) i (off + n1) xp (k + n1) (n - n1) i' p = happ h i off xp k n i' p.
Proof.
  intros Hn. unfold happ. destruct (Z.eqb_spec i' i); [|done]. cbn [andb].
  destruct (Z.leb_spec (off + n1) p), (Z.ltb_spec p (off + n1 + (n - n1))), (Z.leb_spec off p), (Z.ltb_spec p (off + n1)), (Z.ltb_spec p (off + n)); cbn [andb]; try done; try lia.
  f_equal. lia.
Qed.

Lemma appended_nil s d L h sz i off xp k : core s L h -> covers L (upd sz i off) -> has_addrs d L i ->
  appended s s d d L L sz (happ h i off xp k 0) i off.
Proof.
  intros C Hc Hd. split; try done; [|by destruct d]. apply (core_ext s L h); [done|]. intros i' p Hp. unfold happ.
  destruct (_ =? _), (Z.leb_spec off p), (Z.ltb_spec p (off + 0)); cbn [andb]; done || lia.
Qed.

Lemma iappend_loop_spec i xp sz : 0 <= i < ninodes -> (forall i, sz i <= F i) -> forall fuel s L h d k n off,
  core s L h -> covers L (upd sz i off) -> has_addrs d L i -> 0 <= n <= Z.of_nat fuel -> 0 <= off -> off + n <= F i ->
  exists s' d' L', iappend_loop fuel d xp k n off s = Ret ((d', off + n), s') /\ appended s s' d d' L L' sz (happ h i off xp k n) i (off + n).
Proof.
  intros Hi Hs. induction fuel as [|fuel IH]; intros s L h d k n off C Hc Hd Hn Ho Hf; cbn [iappend_loop].
  - assert (n = 0) as -> by lia. exists s, d, L. rewrite Z.add_0_r. split; [done|by apply appended_nil].
  - destruct (Z.ltb_spec 0 n) as [H0|H0].
    2:{ assert (n = 0) as -> by lia. exists s, d, L. rewrite Z.add_0_r. split; [done|by apply appended_nil]. }
    pose proof (Fmax i) as Hm. change (MAXFILE * 512) with 71680 in Hm. assert (off / 512 < MAXFILE) as Hb by (change MAXFILE with 140; mlia).
    rewrite (proj2 (Z.ltb_lt _ _) Hb). cbn [negb]. set (n1 := Z.min n ((off / 512 + 1) * 512 - off)).
    assert (0 < n1 <= (off / 512 + 1) * 512 - off) as Hn1 by (unfold n1; mlia). assert (n1 <= n) as Hn1' by (unfold n1; lia).
    destruct (append_round s L h sz d i off xp k n1 C Hc Hd Hs Hi Ho Hb Hn1 ltac:(lia)) as (s1 & d1 & E1 & A1).
    destruct (IH s1 _ _ d1 (k + n1) (n - n1) (off + n1) (ap_core _ _ _ _ _ _ _ _ _ _ A1) (ap_covers _ _ _ _ _ _ _ _ _ _ A1)
      (ap_addrs _ _ _ _ _ _ _ _ _ _ A1) ltac:(lia) ltac:(lia) ltac:(lia)) as (s2 & d2 & L2 & E2 & A2).
    replace (off + n1 + (n - n1)) with (off + n) in * by lia. exists s2, d2, L2. split.
    + rewrite (u32_small (off + n1)) by lia. unfold bind in E1 |- *. destruct (block_of d (off / 512) s) as [[[d0 x] s0]| | | |]; try done. cbv beta iota in E1 |- *.
      destruct (rsect x s0) as [[buf s0']| | | |]; try done. destruct (wsect _ _ s0') as [[[] s0'']| | | |]; try done.
      unfold ret in E1. injection E1 as -> ->. exact E2.
    + eapply appended_trans; [exact A1|]. destruct A2. split; try done. eapply core_ext; [done|].
      intros i' p Hp. symmetry. apply happ_happ. lia.
Qed.

(** ** The inodes *)

Definition node (L : list label) (ty sz : Z -> Z) (i : Z) : inode :=
  as_inode i (mkDinode (ty i) 0 0 (if ty i =? 0 then 0 else 1) (sz i) (gaddrs L i)).

(** The image holds files of types [ty], sizes [sz] and bytes [h]. *)
Record inv (s : mkfs_t) (L : list label) (ty sz : Z -> Z) (h : Z -> Z -> Z) : Prop := {
  iv_core : core s L h;
  iv_covers : covers L sz;
  iv_nodes : forall i, 0 <= i < ninodes -> saved_in (img s (i2b i)) (node L ty sz i);
  iv_tail : forall i p, sz i <= p -> h i p = 0;
  iv_sz : forall i, 0 <= sz i <= MAXFILE * 512;
  iv_ty : forall i, short (ty i);
  iv_len : first + Z.of_nat (length L) <= mk_size
}.

Lemma i2b_range i : 0 <= i < ninodes -> 2 <= i2b i < first.
Proof. intros H. unfold i2b, first, ninodes in *. change IPB with 8. mlia. Qed.

(** The addresses matter up to the indirect one. *)
Lemma saved_ext m v w : saved_in m v -> i_inum w = i_inum v -> i_type w = i_type v -> i_major w = i_major v -> i_minor w = i_minor v ->
  i_nlink w = i_nlink v -> i_size w = i_size v -> (forall j, 0 <= j <= NDIRECT -> i_addrs w j = i_addrs v j) -> saved_in m w.
Proof.
  intros [S1 S2 S3 S4 S5 S6] E1 E2 E3 E4 E5 E6 E7. split; rewrite E1; try congruence. intros j Hj. rewrite E7 by done. by apply S6.
Qed.

Lemma node_typed L ty sz i : short (ty i) -> 0 <= sz i <= MAXFILE * 512 -> first + Z.of_nat (length L) <= mk_size -> typed (node L ty sz i).
Proof.
  intros Ht Hs Hl. change (MAXFILE * 512) with 71680 in Hs. split; cbn [node as_inode d_type d_major d_minor d_nlink d_size d_addrs i_type i_major i_minor i_nlink i_size i_addrs]; try done.
  - unfold short. destruct (ty i =? 0); lia.
  - unfold uint. lia.
  - intros j Hj. unfold uint, gaddrs. set (x := (i, _)). destruct (decide (x ∈ L)) as [H%slot_in|H]; [unfold first, mk_size in *; lia|].
    rewrite slot_notin by done. lia.
Qed.

Lemma saved_other m v w : 0 <= i_inum v -> 0 <= i_inum w -> i_inum v <> i_inum w -> i_inum v / IPB = i_inum w / IPB ->
  saved_in m w -> saved_in (put_dinode v m) w.
Proof.
  intros Hv Hw Hne Hb Hs. apply (saved_bytes m); [|done]. intros b Hb'. pose proof (ioff_range (i_inum w)) as Hr.
  apply put_dinode_other; [unfold sizeof_dinode in *; lia|]. unfold ioff, sizeof_dinode in *. change IPB with 8 in *. mlia.
Qed.

Lemma core_low s L h b buf : core s L h -> 2 <= b < first -> core (wst b buf s) L h.
Proof.
  intros C Hb. pose proof (co_free _ _ _ C) as Ef. assert (forall x, x ∈ L -> slot L x <> b) as Hne by (intros x Hx%slot_in; lia).
  split; cbn [img nsec freeblock usedblocks wst]; try apply C.
  - rewrite (co_nsec _ _ _ C). unfold first, mk_size in *. lia.
  - intros i k Hin Hk. rewrite upd_ne by by apply Hne. by apply C.
  - intros i bn o Hin Hbn Ho. rewrite upd_ne by by apply Hne. by apply C.
  - intros b' o Hb' Ho. rewrite upd_ne by lia. by apply (co_fresh _ _ _ C).
  - rewrite upd_ne by lia. apply C.
Qed.

Lemma winode_run s L h i d : core s L h -> 0 <= i < ninodes ->
  winode i d s = Ret (tt, wst (i2b i) (put_dinode (as_inode i d) (img s (i2b i))) s).
Proof.
  intros C Hi. unfold winode. pose proof (i2b_range i Hi) as Hr.
  rewrite (bind_ret_eq _ _ _ _ _ (rsect_ok s (i2b i) ltac:(rewrite (co_nsec _ _ _ C); unfold first, mk_size in *; lia))). done.
Qed.

(** winode of the inode that [L], [ty] and [sz] give, when the others are in
    place. *)
Lemma winode_nodes s L ty sz i d :
  0 <= i < ninodes -> (forall i', 0 <= i' < ninodes -> i' <> i -> saved_in (img s (i2b i')) (node L ty sz i')) ->
  0 <= sz i <= MAXFILE * 512 -> short (ty i) -> first + Z.of_nat (length L) <= mk_size ->
  d_type d = ty i -> d_major d = 0 -> d_minor d = 0 -> d_nlink d = (if ty i =? 0 then 0 else 1) -> d_size d = sz i -> has_addrs d L i ->
  forall i', 0 <= i' < ninodes -> saved_in (img (wst (i2b i) (put_dinode (as_inode i d) (img s (i2b i))) s) (i2b i')) (node L ty sz i').
Proof.
  intros Hi Hn Hs Hty Hl E1 E2 E3 E4 E5 Hd i' Hi'. cbn [img wst]. destruct (decide (i' = i)) as [->|Hne].
  - rewrite upd_same. eapply saved_ext; [apply put_dinode_saved| | | | | | |]; cbn [node as_inode d_type d_major d_minor d_nlink d_size d_addrs i_inum i_type i_major i_minor i_nlink i_size i_addrs]; try done.
    + pose proof (node_typed L ty sz i Hty Hs Hl) as [T1 T2 T3 T4 T5 T6]. split; cbn [as_inode i_type i_major i_minor i_nlink i_size i_addrs];
        rewrite ?E1, ?E2, ?E3, ?E4, ?E5; try done. intros j Hj. rewrite Hd by done. by apply T6.
    + intros j Hj. by rewrite Hd.
  - destruct (decide (i2b i' = i2b i)) as [E|E].
    + rewrite E, upd_same, <- E. apply saved_other; cbn [node as_inode i_inum]; try lia; [|by apply Hn]. unfold i2b in E. lia.
    + rewrite upd_ne by done. by apply Hn.
Qed.

Lemma winode_spec s L h ty sz i d :
  core s L h -> covers L sz -> 0 <= i < ninodes -> (forall i', 0 <= i' < ninodes -> i' <> i -> saved_in (img s (i2b i')) (node L ty sz i')) ->
  (forall i p, sz i <= p -> h i p = 0) -> (forall i, 0 <= sz i <= MAXFILE * 512) -> (forall i, short (ty i)) -> first + Z.of_nat (length L) <= mk_size ->
  d_type d = ty i -> d_major d = 0 -> d_minor d = 0 -> d_nlink d = (if ty i =? 0 then 0 else 1) -> d_size d = sz i -> has_addrs d L i ->
  exists s', winode i d s = Ret (tt, s') /\ inv s' L ty sz h /\ freeinode s' = freeinode s.
Proof.
  intros C Hc Hi Hn Ht Hs Hty Hl E1 E2 E3 E4 E5 Hd. exists (wst (i2b i) (put_dinode (as_inode i d) (img s (i2b i))) s).
  split; [by apply (winode_run s L h)|]. split; [|done]. split; try done; [by apply core_low; [|apply i2b_range]|]. by apply winode_nodes.
Qed.

Lemma rinode_spec s L ty sz h i : inv s L ty sz h -> 0 <= i < ninodes ->
  exists d, rinode i s = Ret (d, s) /\ d_type d = ty i /\ d_major d = 0 /\ d_minor d = 0 /\ d_nlink d = (if ty i =? 0 then 0 else 1) /\
    d_size d = sz i /\ has_addrs d L i.
Proof.
  intros I Hi. pose proof (i2b_range i Hi) as Hr. destruct (iv_nodes _ _ _ _ _ I i Hi) as [S1 S2 S3 S4 S5 S6]. unfold rinode.
  rewrite (bind_ret_eq _ _ _ _ _ (rsect_ok s (i2b i) ltac:(rewrite (co_nsec _ _ _ (iv_core _ _ _ _ _ I)); unfold first, mk_size in *; lia))).
  eexists. split; [reflexivity|]. split_and!; try done.
Qed.

(** iappend *)
Lemma iappend_spec s L ty sz h i xp n : inv s L ty sz h -> 0 <= i < ninodes -> 0 <= n -> sz i + n <= F i -> (forall i, sz i <= F i) ->
  exists s' L', iappend i xp n s = Ret (tt, s') /\ inv s' L' ty (upd sz i (sz i + n)) (happ h i (sz i) xp 0 n) /\ freeinode s' = freeinode s.
Proof.
  intros I Hi Hn Hf Hs. destruct (rinode_spec s L ty sz h i I Hi) as (d & E & E1 & E2 & E3 & E4 & E5 & Hd). unfold iappend.
  rewrite (bind_ret_eq _ _ _ _ _ E). pose proof (iv_sz _ _ _ _ _ I) as Hsz. pose proof (Fmax i) as Hm. pose proof (Hsz i) as Hszi. change (MAXFILE * 512) with 71680 in *.
  rewrite E5, xint_eq, u32_small by lia.
  assert (covers L (upd sz i (sz i))) as Hc. { intros i' bn. rewrite (iv_covers _ _ _ _ _ I i' bn). unfold in_size, upd. by destruct (Z.eqb_spec i' i) as [->|]. }
  destruct (iappend_loop_spec i xp sz Hi Hs (Z.to_nat n) s L h d 0 n (sz i) (iv_core _ _ _ _ _ I) Hc Hd ltac:(lia) ltac:(lia) Hf) as (s1 & d1 & L1 & R1 & A).
  rewrite (bind_ret_eq _ _ _ _ _ R1). cbv beta iota. rewrite xint_eq, u32_small by lia. set (sz' := upd sz i (sz i + n)).
  assert (forall i', sz' i' <= F i') as Hs'. { intros i'. unfold sz', upd. destruct (Z.eqb_spec i' i) as [->|]; [done|apply Hs]. }
  destruct (same_fields d d1 (ap_same _ _ _ _ _ _ _ _ _ _ A)) as (T1 & T2 & T3 & T4).
  destruct (winode_spec s1 L1 (happ h i (sz i) xp 0 n) ty sz' i (d_with_size (sz i + n) d1)) as (s2 & R2 & I2 & Fi2); try done; try apply A; try apply I;
    cbn [d_type d_major d_minor d_nlink d_size d_with_size]; try congruence.
  - intros i' Hi' Hne. rewrite (ap_low _ _ _ _ _ _ _ _ _ _ A) by by apply i2b_range. eapply saved_ext; [by apply (iv_nodes _ _ _ _ _ I)|..]; try done;
      cbn [node as_inode i_size i_addrs d_size d_addrs].
    + unfold sz'. by rewrite upd_ne.
    + intros j Hj. by apply (ap_other _ _ _ _ _ _ _ _ _ _ A).
  - intros i' p Hp. unfold sz', upd, happ in *. destruct (Z.eqb_spec i' i) as [->|]; cbn [andb]; [|by apply (iv_tail _ _ _ _ _ I)].
    destruct (Z.ltb_spec p (sz i + n)); [lia|]. rewrite andb_false_r. apply (iv_tail _ _ _ _ _ I). lia.
  - intros i'. unfold sz', upd. destruct (Z.eqb_spec i' i) as [->|]; [change (MAXFILE * 512) with 71680; lia|apply Hsz].
  - eapply (covers_room s1 L1 _ sz'); [apply A|apply A|done].
  - unfold sz'. by rewrite upd_same.
  - exists s2, L1. split; [done|]. split; [done|]. rewrite Fi2. apply A.
Qed.

(** ialloc *)
Lemma ialloc_spec s L ty sz h i t : inv s L ty sz h -> freeinode s = i -> 0 <= i < ninodes -> sz i = 0 -> 0 < t < 0x8000 ->
  exists s', mk_ialloc t s = Ret (i, s') /\ inv s' L (upd ty i t) sz h /\ freeinode s' = i + 1.
Proof.
  intros I Ei Hi Hz Ht. unfold mk_ialloc. mstep. rewrite Ei. mstep. set (s1 := mkMk _ _ _ _ _).
  assert (core s1 L h) as C1 by (destruct (iv_core _ _ _ _ _ I); by split).
  assert (freeinode s1 = i + 1) as F1 by (unfold s1; cbn; rewrite Ei; apply u32_small; unfold ninodes in Hi; lia).
  destruct (winode_spec s1 L h (upd ty i t) sz i (mkDinode (xshort t) 0 0 (xshort 1) (xint 0) (fun _ => 0))) as (s2 & R2 & I2 & Fi2); try done; try apply I.
  - intros i' Hi' Hne. eapply saved_ext; [by apply (iv_nodes _ _ _ _ _ I)|..]; try done; cbn [node as_inode i_type i_nlink d_type d_nlink]; by rewrite upd_ne.
  - intros i'. unfold upd. destruct (i' =? i); [unfold short; lia|apply I].
  - cbn [d_type]. rewrite upd_same, xshort_eq. unfold u16. rewrite Z.mod_small; lia.
  - rewrite upd_same. by rewrite (proj2 (Z.eqb_neq t 0)) by lia.
  - intros j Hj. cbn [d_addrs]. unfold gaddrs. rewrite slot_notin; [done|]. intros [_ H]%(iv_covers _ _ _ _ _ I). rewrite Hz in H. unfold NDIRECT in *. lia.
  - exists s2. rewrite (bind_ret_eq _ _ _ _ _ R2). split; [done|]. split; [done|]. by rewrite Fi2.
Qed.

(** ** Files as lists of bytes *)

(** The image holds files of types [ty] and contents [B]. *)
Definition holds (s : mkfs_t) (ty : Z -> Z) (B : Z -> list Z) : Prop :=
  exists L, inv s L ty (fun i => Z.of_nat (length (B i))) (fun i => name_at (B i)).

Lemma inv_ext s L ty ty' sz sz' h h' : inv s L ty sz h -> (forall i, ty' i = ty i) -> (forall i, sz' i = sz i) -> (forall i p, 0 <= p -> h' i p = h i p) ->
  inv s L ty' sz' h'.
Proof.
  intros [C Hc Hn Ht Hs Hty Hl] E1 E2 E3. split; try done.
  - by apply (core_ext s L h).
  - intros i bn. rewrite (Hc i bn). unfold in_size. by rewrite E2.
  - intros i Hi. unfold node. rewrite E1, E2. by apply Hn.
  - intros i p. rewrite E2. intros Hp. rewrite E3 by (specialize (Hs i); lia). by apply Ht.
  - intros i. by rewrite E2.
  - intros i. by rewrite E1.
Qed.
Lemma holds_ext s ty ty' B B' : holds s ty B -> (forall i, ty' i = ty i) -> (forall i, B' i = B i) -> holds s ty' B'.
Proof. intros [L I] E1 E2. exists L. eapply inv_ext; [exact I|done|..]; cbv beta; intros; by rewrite E2. Qed.

Lemma name_at_ge l p : Z.of_nat (length l) <= p -> name_at l p = 0.
Proof. intros H. unfold name_at. destruct (p <? 0); [done|]. apply nth_overflow. lia. Qed.
Lemma name_at_app l l' p : 0 <= p -> name_at (l ++ l') p = if p <? Z.of_nat (length l) then name_at l p else name_at l' (p - Z.of_nat (length l)).
Proof.
  intros H. unfold name_at. rewrite (proj2 (Z.ltb_ge p 0)) by lia. destruct (Z.ltb_spec p (Z.of_nat (length l))).
  - apply app_nth1. lia.
  - rewrite (proj2 (Z.ltb_ge _ 0)) by lia. rewrite app_nth2 by lia. f_equal. lia.
Qed.

(** [xp] has the bytes [l]. *)
Definition gives (xp : mem) (l : list Z) : Prop := forall k, 0 <= k < Z.of_nat (length l) -> ld8 xp k = name_at l k.

Lemma iappend_holds s ty B i xp l : holds s ty B -> 0 <= i < ninodes -> gives xp l -> Z.of_nat (length (B i ++ l)) <= F i ->
  (forall i, Z.of_nat (length (B i)) <= F i) ->
  exists s', iappend i xp (Z.of_nat (length l)) s = Ret (tt, s') /\ holds s' ty (upd B i (B i ++ l)) /\ freeinode s' = freeinode s.
Proof.
  intros [L I] Hi Hx Hf Hs. rewrite length_app in Hf. destruct (iappend_spec s L ty _ _ i xp (Z.of_nat (length l)) I Hi ltac:(lia) ltac:(lia) Hs) as (s' & L' & E & I' & Fi).
  exists s'. split_and!; try done. exists L'. eapply inv_ext; [exact I'|done|..]; cbv beta.
  - intros i'. unfold upd. destruct (Z.eqb_spec i' i) as [->|]; [|done]. rewrite length_app. lia.
  - intros i' p Hp. unfold upd, happ. destruct (Z.eqb_spec i' i) as [->|]; [|done]. cbn [andb]. rewrite name_at_app by done.
    destruct (Z.leb_spec (Z.of_nat (length (B i))) p), (Z.ltb_spec p (Z.of_nat (length (B i)))); cbn [andb]; try (done || lia).
    destruct (Z.ltb_spec p (Z.of_nat (length (B i)) + Z.of_nat (length l))).
    + rewrite Hx by lia. done.
    + rewrite !name_at_ge; [done|lia|lia].
Qed.

Lemma ialloc_holds s ty B i t : holds s ty B -> freeinode s = i -> 0 <= i < ninodes -> B i = [] -> 0 < t < 0x8000 ->
  exists s', mk_ialloc t s = Ret (i, s') /\ holds s' (upd ty i t) B /\ freeinode s' = i + 1.
Proof.
  intros [L I] Ei Hi Hz Ht. destruct (ialloc_spec s L ty _ _ i t I Ei Hi) as (s' & E & I' & Fi); [by rewrite Hz|done|].
  exists s'. split_and!; try done. by exists L.
Qed.

Definition bytes (l : list Z) : Prop := Forall (fun c => 0 <= c < 256) l.

Lemma gives_bytes l : bytes l -> gives (name_at l) l.
Proof.
  intros H k Hk. unfold ld8. apply u8_small. unfold name_at. rewrite (proj2 (Z.ltb_ge k 0)) by lia.
  unfold bytes in H. rewrite Forall_forall in H. apply H, list_elem_of_In, nth_In. lia.
Qed.

Lemma append_reads_holds i : 0 <= i < ninodes -> forall reads s ty B, holds s ty B -> bytes (concat reads) ->
  Z.of_nat (length (B i ++ concat reads)) <= F i -> (forall i, Z.of_nat (length (B i)) <= F i) ->
  exists s', append_reads i reads s = Ret (tt, s') /\ holds s' ty (upd B i (B i ++ concat reads)) /\ freeinode s' = freeinode s.
Proof.
  intros Hi. induction reads as [|l reads IH]; intros s ty B H Hb Hf Hs; cbn [append_reads concat] in *.
  - exists s. split_and!; try done. eapply holds_ext; [exact H|done|]. intros i'. unfold upd. destruct (Z.eqb_spec i' i) as [->|]; [apply app_nil_r|done].
  - apply Forall_app in Hb as [Hb1 Hb2]. rewrite app_assoc in Hf. pose proof Hf as Hf'. rewrite length_app in Hf'.
    destruct (iappend_holds s ty B i (name_at l) l H Hi (gives_bytes l Hb1) ltac:(lia) Hs) as (s1 & E1 & H1 & F1).
    destruct (IH s1 ty (upd B i (B i ++ l)) H1 Hb2) as (s2 & E2 & H2 & F2).
    + by rewrite upd_same.
    + intros i'. unfold upd. destruct (Z.eqb_spec i' i) as [->|]; [lia|apply Hs].
    + exists s2. rewrite (bind_ret_eq _ _ _ _ _ E1). split_and!; [done| |congruence]. eapply holds_ext; [exact H2|done|]. intros i'. unfold upd.
      rewrite Z.eqb_refl. destruct (Z.eqb_spec i' i) as [->|]; [by rewrite app_assoc|done].
Qed.
End append.

(** ** The contents of the image *)

Definition content (f : host_file) : list Z := concat (default [] (h_reads f)).
Definition dirent_bytes (nm : list Z) (inum : Z) : list Z := map (ld8 (make_dirent nm inum)) (seqZ 0 sizeof_dirent).
Definition file_dirents (k : nat) (files : list host_file) : list Z :=
  concat (imap (fun j f => dirent_bytes (strip (h_name f)) (2 + Z.of_nat (k + j))) files).
Definition root_bytes (files : list host_file) : list Z := dirent_bytes [46] ROOTINO ++ dirent_bytes [46; 46] ROOTINO ++ file_dirents 0 files.
(** The bytes and the type of each inode: the root directory, then the files in
    order, and the rest free. *)
Definition contents (files : list host_file) (i : Z) : list Z :=
  if i =? 1 then root_bytes files else
  if i <? 2 then [] else match files !! Z.to_nat (i - 2) with Some f => content f | None => [] end.
Definition types (files : list host_file) (i : Z) : Z :=
  if i =? 1 then T_DIR else if (2 <=? i) && (i <? 2 + Z.of_nat (length files)) then T_FILE else 0.

(** Blocks for a file of [n] bytes *)
Definition need_blocks (n : Z) : Z := (n + 511) / 512 + (if NDIRECT * 512 <? n then 1 else 0).
Definition total (files : list host_file) : Z :=
  foldr (fun f n => need_blocks (Z.of_nat (length (content f))) + n) (need_blocks (16 * (2 + Z.of_nat (length files)))) files.

(** A file that mkfs takes. *)
Record good_host (f : host_file) : Prop := {
  gh_open : h_reads f <> None;
  gh_name : existsb (Z.eqb 47) (h_name f) = false;
  gh_bytes : bytes (content f);
  gh_size : Z.of_nat (length (content f)) <= MAXFILE * 512
}.

Lemma dirent_length nm inum : length (dirent_bytes nm inum) = 16%nat.
Proof. unfold dirent_bytes. by rewrite length_map, length_seqZ. Qed.
Lemma dirents_length files : forall k, length (file_dirents k files) = (16 * length files)%nat.
Proof.
  unfold file_dirents. induction files as [|f files IH]; intros k; cbn [imap concat length]; [done|]. rewrite length_app, dirent_length.
  specialize (IH (S k)). rewrite <- (imap_ext (fun j f0 => dirent_bytes (strip (h_name f0)) (2 + Z.of_nat (S k + j)))); [rewrite IH; lia|].
  intros j x _. cbn. do 2 f_equal. lia.
Qed.
Lemma root_length files : length (root_bytes files) = (16 * (2 + length files))%nat.
Proof. unfold root_bytes. rewrite !length_app, !dirent_length, dirents_length. lia. Qed.

Lemma dirent_gives nm inum : gives (make_dirent nm inum) (dirent_bytes nm inum).
Proof.
  intros k Hk. rewrite dirent_length in Hk. unfold name_at. rewrite (proj2 (Z.ltb_ge k 0)) by lia. symmetry. apply nth_lookup_Some.
  unfold dirent_bytes. rewrite list_lookup_fmap, lookup_seqZ_lt by (unfold sizeof_dirent; lia). cbn. do 2 f_equal. lia.
Qed.

Lemma root_snoc files f : root_bytes (files ++ [f]) = root_bytes files ++ dirent_bytes (strip (h_name f)) (2 + Z.of_nat (length files)).
Proof. unfold root_bytes, file_dirents. rewrite imap_app, concat_app, <- !app_assoc. cbn. by rewrite app_nil_r, Nat.add_0_r. Qed.

Lemma contents_snoc files f i : let n := 2 + Z.of_nat (length files) in
  contents (files ++ [f]) i = upd (upd (contents files) 1 (contents files 1 ++ dirent_bytes (strip (h_name f)) n)) n (content f) i.
Proof.
  intros n. unfold upd. destruct (Z.eqb_spec i n) as [->|Hn].
  - unfold contents. rewrite (proj2 (Z.eqb_neq n 1)), (proj2 (Z.ltb_ge n 2)) by lia. rewrite lookup_app_r by lia.
    replace (Z.to_nat (n - 2) - length files)%nat with 0%nat by lia. done.
  - destruct (Z.eqb_spec i 1) as [->|Hi]; [apply root_snoc|]. unfold contents. rewrite (proj2 (Z.eqb_neq i 1)) by done.
    destruct (Z.ltb_spec i 2); [done|]. destruct (decide (i < n)).
    + rewrite lookup_app_l by lia. done.
    + rewrite !lookup_ge_None_2; [done|lia|]. rewrite length_app. cbn [length]. lia.
Qed.
Lemma types_snoc files f i : types (files ++ [f]) i = upd (types files) (2 + Z.of_nat (length files)) T_FILE i.
Proof.
  unfold types, upd. rewrite length_app. cbn [length]. destruct (Z.eqb_spec i (2 + Z.of_nat (length files))) as [->|].
  - rewrite (proj2 (Z.eqb_neq _ 1)), (proj2 (Z.leb_le 2 _)), (proj2 (Z.ltb_lt _ _)) by lia. done.
  - destruct (i =? 1); [done|]. destruct (Z.leb_spec 2 i), (Z.ltb_spec i (2 + Z.of_nat (length files + 1))), (Z.ltb_spec i (2 + Z.of_nat (length files))); done || lia.
Qed.

(** More files, longer contents *)
Lemma contents_mono done todo i : (length (contents done i) <= length (contents (done ++ todo) i))%nat.
Proof.
  unfold contents. destruct (i =? 1); [rewrite !root_length, length_app; lia|]. destruct (i <? 2); [done|].
  destruct (done !! Z.to_nat (i - 2)) as [f|] eqn:E; [|cbn; lia]. by rewrite (lookup_app_l_Some _ _ _ _ E).
Qed.

Section files.
Context (F : Z -> Z).
Context (Froom : forall L, NoDup L -> (forall i bn, (i, bn) ∈ L -> in_size F i bn) -> first + Z.of_nat (length L) <= mk_size).
Context (Fmax : forall i, F i <= MAXFILE * 512).

Lemma mk_file_holds s ty B f i : holds s ty B -> good_host f -> freeinode s = i -> 2 <= i < ninodes -> B i = [] ->
  (forall j, Z.of_nat (length (upd (upd B 1 (B 1 ++ dirent_bytes (strip (h_name f)) i)) i (content f) j)) <= F j) ->
  exists s', mk_file 1 f s = Ret (tt, s') /\ holds s' (upd ty i T_FILE) (upd (upd B 1 (B 1 ++ dirent_bytes (strip (h_name f)) i)) i (content f)) /\ freeinode s' = i + 1.
Proof.
  intros H [Ho Hn Hb Hz] Ei Hi HB HF. unfold mk_file. rewrite Hn. unfold content in *. destruct (h_reads f) as [reads|]; [|done]. cbn [default from_option id] in *.
  destruct (ialloc_holds s ty B i T_FILE H Ei ltac:(lia) HB ltac:(done)) as (s1 & E1 & H1 & F1). rewrite (bind_ret_eq _ _ _ _ _ E1).
  assert (xshort i = i) as -> by (rewrite xshort_eq; unfold u16, ninodes in *; rewrite Z.mod_small; lia).
  pose proof (HF 1) as HF1. rewrite upd_ne, upd_same in HF1 by lia.
  assert (forall j, Z.of_nat (length (B j)) <= F j) as HFB.
  { intros j. pose proof (HF j) as HFj. destruct (decide (j = i)) as [->|]; [rewrite upd_same in HFj; rewrite HB; cbn [length]; lia|]. rewrite upd_ne in HFj by done.
    destruct (decide (j = 1)) as [->|]; [rewrite length_app in HF1; lia|]. by rewrite upd_ne in HFj. }
  destruct (iappend_holds F Froom Fmax s1 _ B 1 _ _ H1 ltac:(done) (dirent_gives (strip (h_name f)) i) HF1 HFB) as (s2 & E2 & H2 & F2).
  rewrite dirent_length in E2. change (Z.of_nat 16) with sizeof_dirent in E2. rewrite (bind_ret_eq _ _ _ _ _ E2).
  set (B1 := upd B 1 _) in *. assert (B1 i = []) as HB1 by (unfold B1; rewrite upd_ne by lia; done).
  pose proof (HF i) as HFi. rewrite upd_same in HFi.
  destruct (append_reads_holds F Froom Fmax i ltac:(lia) reads s2 _ B1 H2 Hb) as (s3 & E3 & H3 & F3).
  - by rewrite HB1.
  - intros j. pose proof (HF j) as HFj. destruct (decide (j = i)) as [->|]; [rewrite HB1; cbn [length]; lia|by rewrite upd_ne in HFj].
  - exists s3. split; [done|]. split; [|congruence]. by rewrite HB1 in H3.
Qed.

Lemma mk_files_holds todo : forall done s, holds s (types done) (contents done) -> Forall good_host todo -> freeinode s = 2 + Z.of_nat (length done) ->
  2 + Z.of_nat (length (done ++ todo)) <= ninodes -> (forall i, Z.of_nat (length (contents (done ++ todo) i)) <= F i) ->
  exists s', mk_files 1 todo s = Ret (tt, s') /\ holds s' (types (done ++ todo)) (contents (done ++ todo)).
Proof.
  induction todo as [|f todo IH]; intros done s H Hg Ei Hl HF; cbn [mk_files].
  - exists s. by rewrite app_nil_r.
  - rewrite (cons_middle f done todo), app_assoc in *. inversion_clear Hg as [|? ? Hf Hg'].
    destruct (mk_file_holds s _ _ f _ H Hf Ei) as (s1 & E1 & H1 & F1).
    + rewrite !length_app in Hl. cbn [length] in Hl. lia.
    + unfold contents. rewrite (proj2 (Z.eqb_neq _ 1)), (proj2 (Z.ltb_ge _ 2)) by lia. by rewrite lookup_ge_None_2 by lia.
    + intros j. rewrite <- contents_snoc. etransitivity; [|apply (HF j)]. apply Nat2Z.inj_le, contents_mono.
    + rewrite (bind_ret_eq _ _ _ _ _ E1). apply IH; try done.
      * eapply holds_ext; [exact H1| |]; intros j; [apply types_snoc|apply contents_snoc].
      * rewrite F1, length_app. cbn [length]. lia.
Qed.
End files.

(** ** Room on the disk *)

Definition labels (i n : Z) : list label := map (pair i) (seqZ 0 ((n + 511) / 512)) ++ (if NDIRECT * 512 <? n then [(i, -1)] else []).
Definition file_labels (k : nat) (files : list host_file) : list label :=
  concat (imap (fun j f => labels (2 + Z.of_nat (k + j)) (Z.of_nat (length (content f)))) files).

Lemma labels_length i n : 0 <= n -> Z.of_nat (length (labels i n)) = need_blocks n.
Proof.
  intros H. unfold labels, need_blocks. rewrite length_app, length_map, length_seqZ. assert (0 <= (n + 511) / 512) by mlia.
  destruct (_ <? _); cbn [length]; lia.
Qed.
Lemma elem_of_labels i n bn : (0 <= bn /\ bn * 512 < n) \/ (bn = -1 /\ NDIRECT * 512 < n) -> (i, bn) ∈ labels i n.
Proof.
  intros H. unfold labels. apply elem_of_app. destruct H as [[H1 H2]|[-> H]].
  - left. apply list_elem_of_fmap. exists bn. split; [done|]. apply elem_of_seqZ. mlia.
  - right. rewrite (proj2 (Z.ltb_lt _ _) H). by apply list_elem_of_singleton.
Qed.
Lemma file_labels_length files : forall k b,
  Z.of_nat (length (file_labels k files)) + b = foldr (fun f n => need_blocks (Z.of_nat (length (content f))) + n) b files.
Proof.
  unfold file_labels. induction files as [|f files IH]; intros k b; cbn [imap concat foldr length]; [lia|]. rewrite length_app, <- (IH (S k)).
  rewrite Nat2Z.inj_add, labels_length by lia. rewrite <- (imap_ext (fun j f0 => labels (2 + Z.of_nat (S k + j)) (Z.of_nat (length (content f0))))); [lia|].
  intros j x _. cbn. do 2 f_equal. lia.
Qed.
Lemma elem_of_file_labels files x j f : files !! j = Some f -> x ∈ labels (2 + Z.of_nat j) (Z.of_nat (length (content f))) -> x ∈ file_labels 0 files.
Proof.
  intros Hf Hx. unfold file_labels. rewrite list_elem_of_In, in_concat. exists (labels (2 + Z.of_nat j) (Z.of_nat (length (content f)))).
  split; [|by apply list_elem_of_In]. apply list_elem_of_In, elem_of_lookup_imap. by exists j, f.
Qed.

Definition size_of (files : list host_file) (i : Z) : Z := Z.of_nat (length (contents files i)).

Lemma total_room files L : NoDup L -> (forall i bn, (i, bn) ∈ L -> in_size (size_of files) i bn) -> Z.of_nat (length L) <= total files.
Proof.
  intros Hd Hin. set (all := labels 1 (16 * (2 + Z.of_nat (length files))) ++ file_labels 0 files).
  assert (length L <= length all)%nat as Hle.
  { apply submseteq_length, NoDup_submseteq; [done|]. intros [i bn] [_ H]%Hin. unfold all. apply elem_of_app. unfold size_of, contents in H.
    destruct (Z.eqb_spec i 1) as [->|]; [left; apply elem_of_labels; rewrite root_length in H; lia|]. right.
    destruct (Z.ltb_spec i 2); [cbn in H; unfold NDIRECT in H; lia|].
    destruct (files !! Z.to_nat (i - 2)) as [f|] eqn:E; [|cbn in H; unfold NDIRECT in H; lia].
    apply (elem_of_file_labels files _ _ f E). replace (2 + Z.of_nat (Z.to_nat (i - 2))) with i by lia. apply elem_of_labels. lia. }
  unfold total. rewrite <- (file_labels_length files 0). unfold all in Hle. rewrite length_app in Hle.
  rewrite <- (labels_length 1) by lia. lia.
Qed.

(** ** The empty file system *)

Lemma zero_sects_spec n : forall i s, exists s', zero_sects n i s = Ret (tt, s') /\
  (forall b, img s' b = if (i <=? b) && (b <? i + Z.of_nat n) then (fun _ => 0) else img s b) /\
  nsec s' = (if (n =? 0)%nat then nsec s else Z.max (nsec s) (i + Z.of_nat n)) /\
  freeblock s' = freeblock s /\ usedblocks s' = usedblocks s /\ freeinode s' = freeinode s.
Proof.
  induction n as [|n IH]; intros i s; cbn [zero_sects].
  - exists s. split_and!; try done. intros b. destruct (Z.leb_spec i b), (Z.ltb_spec b (i + Z.of_nat 0)); cbn [andb]; done || lia.
  - destruct (IH (i + 1) (wst i (fun _ => 0) s)) as (s' & E & Ei & En & E1 & E2 & E3). exists s'. split_and!; try done.
    + intros b. rewrite Ei. cbn [img wst]. unfold upd.
      destruct (Z.leb_spec (i + 1) b), (Z.ltb_spec b (i + 1 + Z.of_nat n)), (Z.leb_spec i b), (Z.ltb_spec b (i + Z.of_nat (S n))), (Z.eqb_spec b i); cbn [andb]; done || lia.
    + rewrite En. cbn [nsec wst]. destruct n; cbn [Nat.eqb]; lia.
Qed.

Lemma saved_zero m i : (forall o, ld8 m o = 0) -> saved_in m (node [] (fun _ => 0) (fun _ => 0) i).
Proof.
  intros H. split; cbn [node as_inode i_inum i_type i_major i_minor i_nlink i_size i_addrs d_type d_major d_minor d_nlink d_size d_addrs Z.eqb];
    unfold ld16, ld32; try (rewrite !H; done).
  intros j Hj. rewrite !H. unfold gaddrs. by rewrite slot_notin by apply not_elem_of_nil.
Qed.

Lemma empty_holds s : (forall b o, 0 <= b < mk_size -> b <> 1 -> ld8 (img s b) o = 0) -> img s 1 = mk_super -> nsec s = mk_size -> freeblock s = first -> usedblocks s = first ->
  holds s (fun _ => 0) (fun _ => []).
Proof.
  intros Hz H1 Hn Hf Hu. exists []. split.
  - split; cbn [length]; try done; try (by intros i bn ?%not_elem_of_nil); try (by intros i bn o ?%not_elem_of_nil).
    + by rewrite Hu, Hf.
    + apply NoDup_nil_2.
    + intros i bn o _ _ _. unfold name_at. destruct (_ <? 0); [done|]. by destruct (Z.to_nat _).
    + intros b o Hb _. rewrite Hf in Hb. apply Hz; unfold first in *; lia.
    + by rewrite H1.
  - intros i bn. split; [intros H; by apply not_elem_of_nil in H|]. intros [_ H]. cbn in H. unfold NDIRECT in H. lia.
  - intros i Hi. pose proof (i2b_range i Hi). apply saved_zero. intros o. apply Hz; unfold first, mk_size in *; lia.
  - intros i p _. unfold name_at. destruct (_ <? 0); [done|]. by destruct (Z.to_nat _).
  - intros i. cbn. change MAXFILE with 140. lia.
  - intros i. unfold short. lia.
  - cbn. unfold first, mk_size. lia.
Qed.

(** ** The bitmap *)

Lemma set_bits_spec n : forall i buf j, 0 <= i -> i + Z.of_nat n <= BPB -> 0 <= j < BPB ->
  bit_set (set_bits n i buf) j = (i <=? j) && (j <? i + Z.of_nat n) || bit_set buf j.
Proof.
  induction n as [|n IH]; intros i buf j Hi Hn Hj; cbn [set_bits].
  - destruct (Z.leb_spec i j), (Z.ltb_spec j (i + Z.of_nat 0)); cbn; done || lia.
  - rewrite IH by lia. pose proof (bit_with_bit buf i j Hj) as Hb. unfold with_bit, bit_mask in Hb. rewrite (Z.mod_small i BPB) in Hb by lia. rewrite Hb.
    destruct (Z.leb_spec (i + 1) j), (Z.ltb_spec j (i + 1 + Z.of_nat n)), (Z.leb_spec i j), (Z.ltb_spec j (i + Z.of_nat (S n))), (Z.eqb_spec j i); cbn; done || lia.
Qed.

(** ** The image *)

Definition fs_sb : superblock := mkSb mk_size nblocks ninodes nlog.
Definition fs_start : Z := mk_size - nlog.

(** A file system with the files [files], the inodes [T] and [u] blocks in use. *)
Record image_ok (V : Z -> mem) (files : list host_file) (T : Z -> inode) (u : Z) : Prop := {
  im_geom : geom fs_start fs_sb V;
  im_log : ld32 (V fs_start) 0 = 0;
  im_saved : forall i, 0 <= i < ninodes -> i_dev (T i) = ROOTDEV /\ i_inum (T i) = i /\ typed (T i) /\ saved_in (V (IBLOCK i)) (T i);
  im_type : forall i, 0 <= i < ninodes -> i_type (T i) = types files i /\ i_nlink (T i) = (if types files i =? 0 then 0 else 1);
  im_size : forall i, 0 <= i < ninodes ->
    i_size (T i) = (if i =? ROOTINO then (size_of files i / BSIZE + 1) * BSIZE else size_of files i);
  im_ok : forall i, 0 <= i < ninodes -> file_ok fs_start fs_sb (i_addrs (T i)) V;
  im_full : forall i, 0 <= i < ninodes -> full (i_addrs (T i)) V (size_of files i);
  im_bytes : forall i p, 0 <= i < ninodes -> 0 <= p < MAXFILE * BSIZE -> byte_of (i_addrs (T i)) V p = name_at (contents files i) p;
  im_apart : forall i j b, 0 <= i < ninodes -> 0 <= j < ninodes -> i <> j -> owns (i_addrs (T i)) V b -> ~ owns (i_addrs (T j)) V b;
  im_range : first <= u <= first + total files;
  im_owned : forall b, first <= b < u -> exists i, 0 <= i < ninodes /\ owns (i_addrs (T i)) V b;
  im_free : free_list fs_sb V = seqZ u (mk_size - u)
}.

(** Files that fit on the disk: *)
Record mkfs_fits (files : list host_file) : Prop := {
  mf_good : Forall good_host files;
  mf_inodes : 2 + Z.of_nat (length files) <= ninodes;
  mf_blocks : total files <= nblocks
}.

Section image.
Context (V : Z -> mem) (files : list host_file) (L : list label) (s : mkfs_t).
Context (Hfit : total files <= nblocks).
Context (I : inv s L (types files) (size_of files) (fun i => name_at (contents files i))).
(** The disk after the last steps of main *)
Context (VL : forall b, first <= b -> V b = img s b).

Lemma im_len : Z.of_nat (length L) <= total files.
Proof. apply total_room; [apply (co_nodup _ _ _ (iv_core _ _ _ _ _ I))|]. intros i bn H. by apply (iv_covers _ _ _ _ _ I). Qed.

Lemma im_addr i bn : fbn bn -> addr_of (gaddrs L i) V bn = slot L (i, bn).
Proof.
  intros Hb. unfold fbn in Hb. unfold addr_of. destruct (Z.ltb_spec bn NDIRECT) as [H|H]; [by apply gaddrs_dir|]. rewrite gaddrs_ind.
  destruct (decide ((i, -1) ∈ L)) as [Hin|Hin].
  - rewrite (proj2 (Z.eqb_neq _ 0)) by by apply slot_nz. pose proof (slot_in L _ Hin). rewrite VL by lia.
    rewrite (co_ind _ _ _ (iv_core _ _ _ _ _ I)); [do 2 f_equal; lia|done|]. unfold MAXFILE in Hb. lia.
  - rewrite (slot_notin L (i, -1)) by done. cbn [Z.eqb]. symmetry. apply slot_notin. intros Hin'. by apply Hin, (co_indin _ _ _ (iv_core _ _ _ _ _ I) i bn).
Qed.

Lemma im_owns i b : owns (gaddrs L i) V b <-> exists bn, (i, bn) ∈ L /\ slot L (i, bn) = b.
Proof.
  unfold owns. rewrite gaddrs_ind. split.
  - intros [Hb [->|(bn & Hf & E)]].
    + exists (-1). split; [|done]. destruct (decide ((i, -1) ∈ L)); [done|]. by rewrite slot_notin in Hb.
    + rewrite im_addr in E by done. exists bn. split; [|done]. destruct (decide ((i, bn) ∈ L)); [done|]. rewrite slot_notin in E by done. congruence.
  - intros (bn & Hin & <-). split; [by apply slot_nz|]. destruct (co_label _ _ _ (iv_core _ _ _ _ _ I) _ _ Hin) as [_ Hb].
    destruct (decide (bn = -1)) as [->|]; [by left|]. right. exists bn. assert (fbn bn) by (unfold fbn; lia). split; [done|by apply im_addr].
Qed.

Lemma im_byte i p : 0 <= p < MAXFILE * BSIZE -> byte_of (gaddrs L i) V p = name_at (contents files i) p.
Proof.
  intros Hp. change (MAXFILE * BSIZE) with 71680 in Hp. unfold byte_of. change BSIZE with 512.
  assert (fbn (p / 512)) as Hf by (unfold fbn; change MAXFILE with 140; mlia). rewrite im_addr by done.
  assert (p = p / 512 * 512 + p mod 512) as Ep by mlia. assert (0 <= p mod 512 < 512) as Hm by mlia.
  destruct (decide ((i, p / 512) ∈ L)) as [Hin|Hin].
  - rewrite (proj2 (Z.eqb_neq _ 0)) by by apply slot_nz. pose proof (slot_in L _ Hin). rewrite VL by lia.
    rewrite (co_bytes _ _ _ (iv_core _ _ _ _ _ I)); [by rewrite <- Ep|done|apply Hf|done].
  - rewrite slot_notin by done. cbn [Z.eqb]. symmetry. rewrite Ep. by apply (co_none _ _ _ (iv_core _ _ _ _ _ I)); [|apply Hf|].
Qed.

Lemma im_filled i : 0 <= i < ninodes -> full (gaddrs L i) V (size_of files i).
Proof.
  intros Hi j Hj Hlt. change BSIZE with 512 in Hlt. pose proof (iv_sz _ _ _ _ _ I i) as Hs. change (MAXFILE * 512) with 71680 in Hs.
  assert (fbn j) as Hf by (unfold fbn; change MAXFILE with 140; lia). rewrite im_addr by done. apply slot_nz, (iv_covers _ _ _ _ _ I).
  split; [done|]. by left.
Qed.

Lemma im_file_ok i : (forall b, first <= b < first + Z.of_nat (length L) -> in_use fs_sb V b = true) -> file_ok fs_start fs_sb (gaddrs L i) V.
Proof.
  intros Hu. pose proof im_len as Hl. unfold nblocks, first in *. split.
  - intros b (bn & Hin & <-)%im_owns. pose proof (slot_in L _ Hin) as Hs. split; [|by apply Hu]. change (data0 fs_sb) with 29. change fs_start with 1014.
    unfold first in Hs. lia.
  - intros j k Hj Hk. rewrite !im_addr by done. intros Hne E.
    assert ((i, j) ∈ L) as Hin by (destruct (decide ((i, j) ∈ L)); [done|]; by rewrite slot_notin in Hne).
    by injection (slot_inj L _ _ Hin E).
  - intros j Hj. rewrite im_addr, gaddrs_ind by done. intros Hne E.
    assert ((i, j) ∈ L) as Hin by (destruct (decide ((i, j) ∈ L)); [done|]; by rewrite slot_notin in Hne).
    injection (slot_inj L _ _ Hin E) as ->. by destruct Hj.
Qed.

Lemma im_disjoint i j b : i <> j -> owns (gaddrs L i) V b -> ~ owns (gaddrs L j) V b.
Proof. intros Hne (bn & Hin & <-)%im_owns (bn' & Hin' & E)%im_owns. symmetry in E. by injection (slot_inj L _ _ Hin E). Qed.
End image.

(** main up to the files *)
Lemma mkfs_empty : exists s, mk_empty mkfs_start = Ret (tt, s) /\ holds s (fun _ => 0) (fun _ => []) /\ freeinode s = 1.
Proof.
  unfold mk_empty. cbv zeta. change (negb (nblocks + (ninodes / IPB + 3 + bitblocks) + nlog =? mk_size)) with false. cbv iota.
  mstep. destruct (zero_sects_spec (Z.to_nat (nblocks + (ninodes / IPB + 3 + bitblocks) + nlog)) 0
    (mkMk (img mkfs_start) (nsec mkfs_start) (ninodes / IPB + 3 + bitblocks) (ninodes / IPB + 3 + bitblocks) (freeinode mkfs_start))) as (s1 & E1 & Ei & En & Ef & Eu & Eo).
  rewrite (bind_ret_eq _ _ _ _ _ E1). exists (wst 1 mk_super s1). split; [done|]. split; [|by cbn [freeinode wst]; rewrite Eo].
  change (Z.of_nat (Z.to_nat (nblocks + (ninodes / IPB + 3 + bitblocks) + nlog))) with 1024 in *. apply empty_holds; cbn [img nsec freeblock usedblocks wst].
  - intros b o Hb Hb1. rewrite upd_ne by done. rewrite Ei. unfold mk_size in Hb. rewrite (proj2 (Z.leb_le 0 b)), (proj2 (Z.ltb_lt b _)) by lia. done.
  - apply upd_same.
  - rewrite En. change (Z.to_nat (nblocks + (ninodes / IPB + 3 + bitblocks) + nlog) =? 0)%nat with false. done.
  - by rewrite Ef.
  - by rewrite Eu.
Qed.

Lemma size_of_max files : Forall good_host files -> 2 + Z.of_nat (length files) <= ninodes -> forall i, size_of files i <= MAXFILE * 512.
Proof.
  intros Hg Hn i. unfold size_of, contents. destruct (i =? 1); [rewrite root_length; unfold ninodes in Hn; change (MAXFILE * 512) with 71680; lia|].
  destruct (i <? 2); [done|]. destruct (files !! _) as [f|] eqn:E; [|done]. apply (Forall_lookup_1 _ _ _ _ Hg E).
Qed.

(** main up to the end of the root directory *)
Lemma mkfs_fill files : Forall good_host files -> 2 + Z.of_nat (length files) <= ninodes -> first + total files <= mk_size -> forall s,
  holds s (fun _ => 0) (fun _ => []) -> freeinode s = 1 ->
  exists s', mk_fill files s = Ret (ROOTINO, s') /\ holds s' (types files) (contents files).
Proof.
  intros Hg Hn Ht s H Hf. unfold mk_fill. set (F := size_of files).
  assert (forall L, NoDup L -> (forall i bn, (i, bn) ∈ L -> in_size F i bn) -> first + Z.of_nat (length L) <= mk_size) as Froom.
  { intros L Hd Hin. pose proof (total_room files L Hd Hin). lia. }
  pose proof (size_of_max files Hg Hn) as Fmax. fold F in Fmax.
  assert (32 <= F 1) as HF1 by (unfold F, size_of; change (contents files 1) with (root_bytes files); rewrite root_length; lia).
  assert (forall i, 0 <= F i) as HF0 by (intros i; unfold F, size_of; lia).
  destruct (ialloc_holds s _ _ 1 T_DIR H Hf) as (s1 & E1 & H1 & F1); try done.
  rewrite (bind_ret_eq _ _ _ _ _ E1). change (negb (1 =? ROOTINO)) with false. cbv iota. change (xshort 1) with ROOTINO. change sizeof_dirent with (Z.of_nat 16).
  destruct (iappend_holds F Froom Fmax s1 _ _ 1 _ _ H1 ltac:(done) (dirent_gives [46] ROOTINO)) as (s2 & E2 & H2 & F2).
  { cbn [app]. rewrite dirent_length. lia. } { intros i. apply HF0. }
  rewrite dirent_length in E2. rewrite (bind_ret_eq _ _ _ _ _ E2).
  destruct (iappend_holds F Froom Fmax s2 _ _ 1 _ _ H2 ltac:(done) (dirent_gives [46; 46] ROOTINO)) as (s3 & E3 & H3 & F3).
  { rewrite upd_same, length_app. cbn [app]. rewrite !dirent_length. lia. }
  { intros i. unfold upd. destruct (Z.eqb_spec i 1) as [->|]; [|apply HF0]. cbn [app]. rewrite dirent_length. lia. }
  rewrite dirent_length in E3. rewrite (bind_ret_eq _ _ _ _ _ E3).
  destruct (mk_files_holds F Froom Fmax files [] s3) as (s4 & E4 & H4); try done; [|by rewrite F3, F2|exists s4; by rewrite (bind_ret_eq _ _ _ _ _ E4)].
  eapply holds_ext; [exact H3| |]; intros i.
  - unfold types, upd. destruct (i =? 1); [done|]. cbn [length]. destruct (Z.leb_spec 2 i), (Z.ltb_spec i (2 + Z.of_nat 0)); done || lia.
  - unfold contents, upd. destruct (Z.eqb_spec i 1); [|by destruct (i <? 2)]. cbn [app Z.eqb Pos.eqb]. unfold root_bytes, file_dirents. cbn [imap concat]. by rewrite app_nil_r.
Qed.

Lemma in_use_bitmap V u b : V 28 = set_bits (Z.to_nat u) 0 (fun _ => 0) -> 0 <= u < 4096 -> 0 <= b < mk_size -> in_use fs_sb V b = (b <? u).
Proof.
  intros E Hu Hb. unfold in_use, mk_size in *. assert (BBLOCK b (sb_ninodes fs_sb) = 28) as ->.
  { unfold BBLOCK. change BPB with 4096. change (sb_ninodes fs_sb / IPB) with 25. rewrite (Z.div_small b) by lia. done. }
  rewrite E. change BPB with 4096. rewrite (Z.mod_small b) by lia. rewrite set_bits_spec by (change BPB with 4096; lia).
  rewrite (proj2 (Z.leb_le 0 b)), Z.add_0_l, Z2Nat.id by lia. cbn [andb]. unfold bit_set. cbn. by rewrite orb_false_r.
Qed.

Lemma filter_from n : forall a u, a <= u <= a + Z.of_nat n -> List.filter (fun b => negb (b <? u)) (seqZ a (Z.of_nat n)) = seqZ u (a + Z.of_nat n - u).
Proof.
  induction n as [|n IH]; intros a u Hu; [by replace u with a by lia; rewrite Z.add_0_r, Z.sub_diag|].
  rewrite seqZ_cons by lia. cbn [List.filter]. destruct (Z.ltb_spec a u); cbn [negb].
  - replace (Z.pred (Z.of_nat (S n))) with (Z.of_nat n) by lia. rewrite IH by lia. f_equal. lia.
  - replace u with a by lia. rewrite (seqZ_cons a) by lia. f_equal. rewrite List.forallb_filter_id; [f_equal; lia|].
    apply forallb_forall. intros b Hb%list_elem_of_In%elem_of_seqZ. apply negb_true_iff, Z.ltb_ge. lia.
Qed.
Lemma free_after V u : (forall b, 0 <= b < mk_size -> in_use fs_sb V b = (b <? u)) -> 0 <= u <= mk_size -> free_list fs_sb V = seqZ u (mk_size - u).
Proof.
  intros H Hu. unfold free_list. change (sb_size fs_sb) with (Z.of_nat 1024).
  rewrite (List.filter_ext_in _ (fun b => negb (b <? u))) by (intros b Hb%list_elem_of_In%elem_of_seqZ; rewrite H; [done|unfold mk_size; lia]).
  rewrite filter_from; [done|unfold mk_size in Hu; lia].
Qed.

(** The inodes of the image: those of [L], the root directory rounded up *)
Definition end_size (files : list host_file) : Z -> Z := upd (size_of files) ROOTINO ((size_of files ROOTINO / BSIZE + 1) * BSIZE).
Definition table (files : list host_file) (L : list label) : Z -> inode := node L (types files) (end_size files).

Lemma end_size_range files i : 2 + Z.of_nat (length files) <= ninodes -> 0 <= size_of files i <= MAXFILE * 512 -> 0 <= end_size files i <= MAXFILE * 512.
Proof.
  intros Hn Hi. unfold end_size, upd. destruct (i =? ROOTINO); [|done]. unfold size_of. change (contents files ROOTINO) with (root_bytes files). rewrite root_length.
  unfold ninodes in Hn. change (MAXFILE * 512) with 71680. change BSIZE with 512. mlia.
Qed.

Lemma image_table V files L s : mkfs_fits files -> inv s L (types files) (size_of files) (fun i => name_at (contents files i)) ->
  (forall b, first <= b -> V b = img s b) -> blk_eq mk_super (V 1) -> (forall i, 0 <= i < ninodes -> saved_in (V (IBLOCK i)) (table files L i)) ->
  (forall b, 0 <= b < mk_size -> in_use fs_sb V b = (b <? first + Z.of_nat (length L))) ->
  image_ok V files (table files L) (first + Z.of_nat (length L)).
Proof.
  intros [Hg Hn Ht] I VL V1 Sv Hu. pose proof (im_len files L s I) as Hl. pose proof (iv_core _ _ _ _ _ I) as C. unfold nblocks in Ht. split.
  - split; try done. unfold super. by rewrite !(ld32_blk _ _ _ V1) by done.
  - rewrite VL by done. apply ld32_zero; [|lia]. intros o Ho. apply (co_fresh _ _ _ C); [|done]. rewrite (co_free _ _ _ C). unfold first, fs_start, mk_size, nlog, LOGSIZE. lia.
  - intros i Hi. split_and!; [done|done| |by apply Sv]. apply node_typed; [apply I|by apply end_size_range, (iv_sz _ _ _ _ _ I)|apply I].
  - done.
  - intros i Hi. unfold table, node, end_size, upd. cbn [as_inode i_size d_size]. by destruct (Z.eqb_spec i ROOTINO) as [->|].
  - intros i Hi. apply (im_file_ok V files L s Ht I VL). intros b Hb. rewrite Hu by (unfold first, mk_size in *; lia). apply Z.ltb_lt. lia.
  - intros i Hi. by apply (im_filled V files L s I VL).
  - intros i p Hi. by apply (im_byte V files L s I VL).
  - intros i j b Hi Hj. by apply (im_disjoint V files L s I VL).
  - unfold first. lia.
  - intros b Hb. destruct (slot_from_onto L first b (co_nodup _ _ _ C) Hb) as ([i bn] & Hin & E). exists i.
    split; [apply (co_label _ _ _ C _ _ Hin)|]. apply (im_owns V files L s I VL). by exists bn.
  - apply free_after; [done|]. unfold first, mk_size. lia.
Qed.

(** The end of main *)
Lemma mkfs_finish files s : mkfs_fits files -> holds s (types files) (contents files) ->
  exists s' T u, mk_finish ROOTINO s = Ret (tt, s') /\ image_ok (img s') files T u.
Proof.
  intros Hfit [L I]. pose proof Hfit as [Hg Hn Ht]. change (inv s L (types files) (size_of files) (fun i => name_at (contents files i))) in I.
  pose proof (im_len files L s I) as Hl. unfold nblocks in Ht. pose proof (iv_core _ _ _ _ _ I) as C. pose proof (co_free _ _ _ C) as Ef.
  destruct (rinode_spec s L _ _ _ ROOTINO I ltac:(done)) as (d & E & E1 & E2 & E3 & E4 & E5 & Hd). unfold mk_finish. rewrite (bind_ret_eq _ _ _ _ _ E).
  pose proof (end_size_range files ROOTINO Hn (iv_sz _ _ _ _ _ I ROOTINO)) as Ho. pose proof (iv_sz _ _ _ _ _ I ROOTINO) as Hr. change (MAXFILE * 512) with 71680 in *.
  unfold end_size in Ho. rewrite upd_same in Ho. set (off := (size_of files ROOTINO / BSIZE + 1) * BSIZE) in *.
  rewrite E5, !xint_eq, (u32_small (size_of files ROOTINO)), u32_idem by lia. fold off. rewrite (u32_small off) by lia.
  rewrite (bind_ret_eq _ _ _ _ _ (winode_run s L _ ROOTINO _ C ltac:(done))). set (s1 := wst _ _ s).
  mstep. change (usedblocks s1) with (usedblocks s). rewrite (co_used _ _ _ C), Ef. set (u := first + Z.of_nat (length L)).
  assert (29 <= u <= 1014) as Hu by (unfold u, first; lia). unfold mk_balloc. rewrite (proj2 (Z.ltb_lt u (512 * 8))) by lia. cbn [negb].
  set (bm := set_bits _ _ _). exists (wst 28 bm s1), (table files L), u. split; [done|].
  assert (forall b, b <> 2 -> b <> 28 -> img (wst 28 bm s1) b = img s b) as VL.
  { intros b Hb2 Hb. cbn [img wst s1]. rewrite upd_ne by done. cbn [img wst s1]. by rewrite upd_ne. }
  apply (image_table _ files L s); try done.
  - intros b Hb. apply VL; unfold first in Hb; lia.
  - rewrite VL by done. apply C.
  - intros i Hi. change (IBLOCK i) with (i2b i). pose proof (i2b_range i Hi) as Hib. cbn [img wst]. rewrite upd_ne by (unfold first in Hib; unfold i2b, ninodes in *; change IPB with 8 in *; mlia).
    apply winode_nodes; try done; try apply I; cbn [d_type d_major d_minor d_nlink d_size d_with_size].
    + intros i' Hi' Hne. eapply saved_ext; [by apply (iv_nodes _ _ _ _ _ I)|..]; try done. cbn [node as_inode i_size d_size]. unfold end_size. by rewrite upd_ne.
  - intros b Hb. apply in_use_bitmap; [done|lia|done].
Qed.

Lemma mkfs_makes (files : list host_file) :
  mkfs_fits files -> exists s T u, mkfs files = Ret (tt, s) /\ image_ok (img s) files T u.
Proof.
  intros Hfit. destruct mkfs_empty as (s1 & E1 & H1 & F1).
  destruct (mkfs_fill files (mf_good _ Hfit) (mf_inodes _ Hfit)) with s1 as (s2 & E2 & H2); [destruct Hfit; unfold first, mk_size, nblocks in *; lia|done|done|].
  destruct (mkfs_finish files s2 Hfit H2) as (s3 & T & u & E3 & O). exists s3, T, u. split; [|done].
  unfold mkfs, mkfs_main. rewrite (bind_ret_eq _ _ _ _ _ E1), (bind_ret_eq _ _ _ _ _ E2). exact E3.
Qed.

(** C5 mkfs makes a file system: for files that fit on the disk, it succeeds,
    and on the image the super block and an empty log are in place; the root
    directory holds ".", ".." and the files' names with their inode numbers;
    the inode of each file has its type, size and one link, its blocks hold the
    file's bytes, as the kernel finds them, and are marked in use; no
    block belongs to two files, every block marked in use after the metadata
    belongs to one, and all the others are free. *)
Theorem mkfs_image (files : list host_file) : mkfs_fits files -> exists s T u, mkfs files = Ret (tt, s) /\ image_ok (img s) files T u.
Proof. apply mkfs_makes. Qed.

(** README, of 600 bytes read in two pieces, and _sh *)
Definition ex_files : list host_file :=
  [mkHost [82; 69; 65; 68; 77; 69] (Some [replicate 512 10; replicate 88 32]); mkHost [95; 115; 104] (Some [[127; 69; 76; 70]])].

Lemma ex_files_fit : mkfs_fits ex_files.
Proof. split; [|done|done]. repeat constructor; try done. Qed.

Lemma mkfs_image_witness : exists s T u, mkfs ex_files = Ret (tt, s) /\ image_ok (img s) ex_files T u.
Proof.
  exact (mkfs_image ex_files ex_files_fit).
Defined.

(** ** The image in the kernel *)

(** A quiet kernel on the image: each file is in order, as the operations of the
    kernel on it require. *)
Lemma image_good V files T u x ip i : image_ok V files T u -> quiet ROOTDEV fs_start x -> dread (drv (ide x)) ROOTDEV = V ->
  0 <= i < ninodes -> i <> ROOTINO -> size_of files i <= MAXFILE * BSIZE -> icache x ip = T i ->
  deq ROOTDEV fs_start V (lv x ROOTDEV) /\ good_file ROOTDEV fs_start fs_sb x ip (T i).
Proof.
  intros O Q EV Hi Hr Hs Ec. destruct (im_saved _ _ _ _ O i Hi) as (Ed & En & Ty & Sv). pose proof (im_size _ _ _ _ O i Hi) as Es. rewrite (proj2 (Z.eqb_neq _ _) Hr) in Es.
  pose proof (good_file_disk ROOTDEV fs_start fs_sb x ip (T i) Q) as H. rewrite EV in H. apply H; try done.
  - apply O.
  - by apply (im_ok _ _ _ _ O).
  - by rewrite En.
  - by rewrite Es.
  - rewrite Es. by apply (im_full _ _ _ _ O).
  - by rewrite En.
Qed.

(** A transaction that has just begun *)
Lemma begin_intx {St : Type} {K : Kernel St} {KS : KernelSpec St} dev start x : quiet dev start x -> 1 < log_size (log x) ->
  let x' := set_log (l_with_busy 1 (log x)) x in runs [] begin_trans x tt x' [] /\ intx dev start [] x' [] [].
Proof.
  intros Q Hl x'. destruct (begin_spec dev start x Q) as (R & T & _). split; [exact R|]. split; [|change (0 < log_size (log x) - 1); lia|done].
  exists 0, (fun _ => 0). split; [done|]. lia.
Qed.

Section readback.
Context {St : Type} {K : Kernel St} {KS : KernelSpec St}.

Lemma image_readi V files T u x ip i off n : image_ok V files T u -> quiet ROOTDEV fs_start x -> dread (drv (ide x)) ROOTDEV = V -> 1 < log_size (log x) ->
  2 <= i < 2 + Z.of_nat (length files) -> i < ninodes -> size_of files i <= MAXFILE * BSIZE -> icache x ip = T i ->
  0 <= off <= size_of files i -> 0 <= n -> off + n < 2 ^ 32 ->
  exists x' d, runs [] (begin_trans ;; readi_data ip off n) x (Z.min n (size_of files i - off), d) x' [] /\
    forall k, 0 <= k < Z.min n (size_of files i - off) -> ld8 d k = name_at (contents files i) (off + k).
Proof.
  intros O Q EV Hl Hi Hi' Hs Ec Ho Hn Hlt.
  destruct (image_good V files T u x ip i O Q EV ltac:(lia) ltac:(unfold ROOTINO; lia) Hs Ec) as [E G].
  destruct (begin_intx ROOTDEV fs_start x Q Hl) as [R1 I1]. set (x1 := set_log _ x) in *.
  assert (good_file ROOTDEV fs_start fs_sb x1 ip (T i)) as G1 by by destruct G.
  destruct (im_type _ _ _ _ O i ltac:(lia)) as [Et _]. pose proof (im_size _ _ _ _ O i ltac:(lia)) as Es.
  rewrite (proj2 (Z.eqb_neq i ROOTINO)) in Es by (unfold ROOTINO; lia).
  destruct (readi_spec ROOTDEV fs_start [] fs_sb x1 ip (T i) off n) as (x2 & d & R2 & _ & Hd); try done; try lia.
  - by apply good_file_at.
  - rewrite Et. unfold types. rewrite (proj2 (Z.eqb_neq i 1)), (proj2 (Z.leb_le 2 i)), (proj2 (Z.ltb_lt i _)) by lia. done.
  - rewrite Es in *. exists x2, d. split; [eapply runs_bind; [exact R1|exact R2]|]. intros k Hk. rewrite Hd by done.
    assert (0 <= off + k < MAXFILE * BSIZE) as Hp by lia. rewrite <- (im_bytes _ _ _ _ O i (off + k)) by (done || lia).
    apply (byte_of_deq ROOTDEV fs_start fs_sb); [apply Q|apply O|apply (im_ok _ _ _ _ O); lia|done|].
    unfold fbn. change (MAXFILE * BSIZE) with 71680 in Hp. change MAXFILE with 140. change BSIZE with 512. mlia.
Qed.
End readback.

(** What mkfs writes the kernel reads: with an image of mkfs in the drive of
    a quiet kernel, and an inode of the image cached for one of the files, readi
    in a transaction returns, for any offset and count, the bytes of that file,
    up to its end. *)
Theorem mkfs_readi {St : Type} {K : Kernel St} {KS : KernelSpec St} (files : list host_file) :
  mkfs_fits files -> exists s T, mkfs files = Ret (tt, s) /\
    (forall i, 0 <= i < ninodes -> saved_in (img s (IBLOCK i)) (T i)) /\
    forall x ip i off n, quiet ROOTDEV fs_start x -> dread (drv (ide x)) ROOTDEV = img s -> 1 < log_size (log x) ->
      2 <= i < 2 + Z.of_nat (length files) -> icache x ip = T i -> 0 <= off <= size_of files i -> 0 <= n -> off + n < 2 ^ 32 ->
      exists x' d, runs [] (begin_trans ;; readi_data ip off n) x (Z.min n (size_of files i - off), d) x' [] /\
        forall k, 0 <= k < Z.min n (size_of files i - off) -> ld8 d k = name_at (contents files i) (off + k).
Proof.
  intros Hfit. destruct (mkfs_makes files Hfit) as (s & T & u & E & O). exists s, T. split; [done|]. split.
  - intros i Hi. by apply (im_saved _ _ _ _ O).
  - intros x ip i off n Q EV Hl Hi Ec Ho Hn Hlt. pose proof (size_of_max files (mf_good _ Hfit) (mf_inodes _ Hfit) i) as Hs. pose proof (mf_inodes _ Hfit).
    exact (image_readi (img s) files T u x ip i off n O Q EV Hl Hi ltac:(lia) Hs Ec Ho Hn Hlt).
Qed.

(** A kernel with the image in its drive *)
Lemma quiet_icache dev start x h : quiet dev start x -> quiet dev start (set_icache h x).
Proof. intros [[l Hc] ? ? ? ? ? ? ? ?]. split; try done. exists l. by destruct Hc. Qed.
Lemma drv_icache x h : drv (ide (set_icache h x)) = drv (ide x).
Proof. done. Qed.

Definition mount_log : log_t := mkLog fs_start LOGSIZE 0 ROOTDEV 0 (fun _ => 0).
Definition mount (V : Z -> mem) (v : inode) : fsys := set_icache (fun _ => v) (set_log mount_log (booted (mkDrive (fun _ => V) []))).

Lemma mounted (V : Z -> mem) (v : inode) : int_at (V fs_start) 0 = 0 ->
  quiet ROOTDEV fs_start (mount V v) /\ dread (drv (ide (mount V v))) ROOTDEV = V /\ log_size (log (mount V v)) = 10 /\ icache (mount V v) 0 = v.
Proof.
  intros H. unfold mount. set (z := mkDrive (fun _ => V) []). pose proof (booted_cache z) as Hc. destruct (booted_clean z) as (Hh & Hcl & Hd).
  generalize dependent (booted z). intros y Hc Hh Hcl Hd. rewrite drv_icache, drv_set_log, Hd. split_and!; try done.
  apply quiet_icache, (quiet_set_log ROOTDEV fs_start y boot_ring _ Hc Hh Hcl); [unfold log_place, LOGSIZE; done|done..|]. by rewrite Hd.
Qed.

Lemma mkfs_readi_witness : exists s x x' d, mkfs ex_files = Ret (tt, s) /\ dread (drv (ide x)) ROOTDEV = img s /\
  runs [] (begin_trans ;; readi_data 0 2 9 : M alone (Z * mem)) x (2, d) x' [] /\ ld8 d 0 = 76 /\ ld8 d 1 = 70.
Proof.
  destruct (mkfs_readi (St := alone) ex_files ex_files_fit) as (s & T & E & Sv & H).
  destruct (mkfs_makes ex_files ex_files_fit) as (s2 & T2 & u & E2 & O). assert (s2 = s) as -> by congruence.
  destruct (mounted (img s) (T 3)) as (Q & EV & Hl & Ec); [exact (f_equal s32 (im_log _ _ _ _ O))|].
  generalize dependent (mount (img s) (T 3)). intros x Q EV Hl Ec. specialize (H x 0 3 2 9 Q EV).
  change (size_of ex_files 3) with 4 in H. change (contents ex_files 3) with [127; 69; 76; 70] in H. change (Z.min 9 (4 - 2)) with 2 in H.
  change (length ex_files) with 2%nat in H. rewrite Hl in H.
  destruct (H ltac:(lia) ltac:(lia) Ec ltac:(lia) ltac:(lia) ltac:(lia)) as (x' & d & R & Hd).
  exists s, x, x', d. split_and!; [exact E|exact EV|exact R|exact (Hd 0 ltac:(lia))|exact (Hd 1 ltac:(lia))].
Defined.
