(* ===== verification/Names.v ===== *)
(** * From a name to the bytes of a file

    The inode that ilock reads from the disk, the path that namei walks, and the
    two put together on the image that mkfs writes: the kernel opens by name and
    reads the files mkfs was given. *)

From Stdlib Require Import ZArith Lia String Bool.
From stdpp Require Import base numbers sets gmap list.
From S2P Require Import Prelude Params Mem Spinlock FsState Bio Log Inode Console Fs FsRun BioSpec LogSpec Crash Transaction Blocks FileBlocks FileSpec FileIO FileWrite Mkfs Dirs.

(** ** Files on the disk *)

(** The same file, perhaps through another entry of the cache *)
Record like (v w : inode) : Prop := {
  lk_dev : i_dev w = i_dev v; lk_inum : i_inum w = i_inum v; lk_type : i_type w = i_type v; lk_major : i_major w = i_major v;
  lk_minor : i_minor w = i_minor v; lk_nlink : i_nlink w = i_nlink v; lk_size : i_size w = i_size v;
  lk_addrs : forall i, 0 <= i <= NDIRECT -> i_addrs w i = i_addrs v i
}.
#[export] Instance like_equiv : Equivalence like.
Proof.
  split.
  - intros v. by split.
  - intros v w [? ? ? ? ? ? ? H]. split; try done. intros i Hi. symmetry. by apply H.
  - intros u v w [? ? ? ? ? ? ? H1] [? ? ? ? ? ? ? H2]. split; try congruence. intros i Hi. rewrite H2 by done. by apply H1.
Qed.
Lemma like_ref v n : like v (i_with_ref n v).
Proof. by split. Qed.
Lemma like_flags v n : like v (i_with_flags n v).
Proof. by split. Qed.

Lemma like_addr v w V j : like v w -> 0 <= j -> addr_of (i_addrs w) V j = addr_of (i_addrs v) V j.
Proof.
  intros L Hj. unfold addr_of. rewrite (lk_addrs _ _ L NDIRECT) by (unfold NDIRECT; lia). destruct (Z.ltb_spec j NDIRECT); [|done]. apply (lk_addrs _ _ L). lia.
Qed.
Lemma like_byte v w V p : like v w -> 0 <= p -> byte_of (i_addrs w) V p = byte_of (i_addrs v) V p.
Proof. intros L Hp. unfold byte_of. rewrite (like_addr v w) by (done || (change BSIZE with 512; mlia)). done. Qed.
Lemma like_owns v w V s : like v w -> owns (i_addrs w) V s -> owns (i_addrs v) V s.
Proof.
  intros L [Hs H]. split; [done|]. rewrite (lk_addrs _ _ L NDIRECT) in H by (unfold NDIRECT; lia). destruct H as [|(j & Hj & E)]; [by left|].
  right. exists j. split; [done|]. rewrite <- E. symmetry. apply like_addr; [done|]. unfold fbn in Hj. lia.
Qed.

(** The inode with the fields that block [m] has at [off] *)
Definition fill_inode (m : mem) (off : Z) (w : inode) : inode :=
  i_with_addrs (get_addrs m (off + di_addrs)) (i_with_size (ld32 m (off + di_size)) (i_with_nlink (s16 (ld16 m (off + di_nlink)))
    (i_with_minor (s16 (ld16 m (off + di_minor))) (i_with_major (s16 (ld16 m (off + di_major))) (i_with_type (s16 (ld16 m (off + di_type))) w))))).

Lemma fill_like m v w : saved_in m v -> i_dev w = i_dev v -> i_inum w = i_inum v -> like v (fill_inode m (ioff (i_inum v)) w).
Proof. intros [? ? ? ? ? S6] ? ?. split; try done. Qed.

Section files.
Context {St : Type} {K : Kernel St} {KS : KernelSpec St}.
Context (dev start : Z) (ts : list Z) (sb : superblock).
Abbreviation intx := (intx dev start ts).
Abbreviation deq := (deq dev start).
Abbreviation file_at := (file_at dev start ts sb).

(** A file in order on a disk *)
Record disk_file (V : Z -> mem) (v : inode) : Prop := {
  df_dev : i_dev v = dev;
  df_geom : geom start sb V;
  df_ok : file_ok start sb (i_addrs v) V;
  df_inum : 0 <= i_inum v < sb_ninodes sb;
  df_typed : typed v;
  df_size : i_size v <= MAXFILE * BSIZE;
  df_full : full (i_addrs v) V (i_size v);
  df_saved : saved_in (V (IBLOCK (i_inum v))) v
}.

Lemma disk_file_at x ip v : intx x [] [] -> icache x ip = v -> disk_file (lv x dev) v -> file_at x ip v.
Proof. intros I E [? ? ? ? ? ? ? ?]. by split; [split|..]. Qed.

Lemma disk_file_deq V V' v : log_place dev start -> deq V V' -> disk_file V v -> disk_file V' v.
Proof.
  intros P E [Ed G F Hi Ty Hs Hf Sv]. split; try done.
  - by apply (geom_deq dev start sb V).
  - by apply (file_ok_deq dev start sb _ V).
  - intros j Hj Hlt. rewrite (addr_of_deq dev start sb _ V); [by apply Hf|done..|]. unfold fbn. change MAXFILE with 140 in *. change BSIZE with 512 in *. lia.
  - eapply saved_blk; [|exact Sv]. apply E. by apply (iblock_range dev start sb V).
Qed.

Lemma disk_file_like V v w : like v w -> disk_file V v -> disk_file V w.
Proof.
  intros L [Ed G [F1 F2 F3] Hi [? ? ? ? ? Ta] Hs Hf [? ? ? ? ? Sa]]. pose proof L as [L1 L2 L3 L4 L5 L6 L7 L8]. assert (forall j, fbn j -> 0 <= j) as Hp by (unfold fbn; lia).
  split; rewrite ?L1, ?L2, ?L7; try done.
  - split.
    + intros s Ho. by apply F1, (like_owns v w).
    + intros i j Hi' Hj. rewrite !(like_addr v w) by auto. by apply F2.
    + intros i Hi'. rewrite (like_addr v w), L8 by (auto || (unfold NDIRECT; lia)). by apply F3.
  - split; try congruence. intros i Hi'. rewrite L8 by done. by apply Ta.
  - intros j Hj Hlt. rewrite (like_addr v w) by done. by apply Hf.
  - split; rewrite ?L2, ?L3, ?L4, ?L5, ?L6, ?L7; try done. intros i Hi'. rewrite L8 by done. by apply Sa.
Qed.

(** ** Locking an inode that is not in memory *)

(** An operation that only reads: the disk is the same and the entry [ip] alone
    of the inode cache changes. *)
Record reads (x x' : fsys) (ip : Z) : Prop := {
  rd_in : intx x' [] [];
  rd_view : deq (lv x dev) (lv x' dev);
  rd_other : forall i, i <> ip -> icache x' i = icache x i
}.

(** The copy of the fields from the block *)
Lemma fill_run x ip m off : exists c, c ip = fill_inode m off (icache x ip) /\ (forall i, i <> ip -> c i = icache x i) /\
  forall (A : Type) (k : M St A) r y, runs [] k (set_icache c x) r y [] -> runs [] (
    iset ip (i_with_type (s16 (ld16 m (off + di_type)))) ;; iset ip (i_with_major (s16 (ld16 m (off + di_major)))) ;;
    iset ip (i_with_minor (s16 (ld16 m (off + di_minor)))) ;; iset ip (i_with_nlink (s16 (ld16 m (off + di_nlink)))) ;;
    iset ip (i_with_size (ld32 m (off + di_size))) ;; iset ip (i_with_addrs (get_addrs m (off + di_addrs))) ;; k) x r y [].
Proof.
  eexists. split; [|split]; cycle 2.
  - intros A k r y R. do 6 rstep. exact R.
  - cbv beta. cbn [icache set_icache]. by rewrite !upd_same.
  - intros i Hi. cbn [icache set_icache]. by rewrite !upd_ne.
Qed.

Lemma ilock_load x ip w v : intx x [] [] -> icache x ip = w -> ip <> -1 -> 1 <= i_ref w -> i_flags w = 0 -> i_dev w = dev -> i_inum w = i_inum v ->
  disk_file (lv x dev) v -> i_type v <> 0 ->
  exists x', runs [] (ilock ip) x tt x' [] /\ reads x x' ip /\ like v (icache x' ip) /\ i_ref (icache x' ip) = i_ref w /\
    i_flags (icache x' ip) = Z.lor I_BUSY I_VALID.
Proof.
  intros I Ew Hip Hr Hf Hd Hn [Ed G F Hi Ty Hs Hfu Sv] Ht. pose proof (ix_place _ _ _ _ _ _ I) as P.
  destruct (iblock_range dev start sb (lv x dev) (i_inum v) G P Hi) as (_ & _ & Ho & Hsec).
  set (x1 := set_icache (upd (icache x) ip (i_with_flags (Z.lor 0 I_BUSY) w)) x).
  destruct (ix_tables dev start ts x x1 [] [] eq_refl eq_refl eq_refl I) as [I1 L1].
  destruct (ix_bread dev start ts x1 [] [] (IBLOCK (i_inum v)) I1 Ho Hsec) as (b & x2 & R2 & G2 & _ & _ & Eb); [set_solver|cbn; lia|].
  set (m := b_data (bufs x2 b)) in *. set (off := i_inum v mod IPB * sizeof_dinode). pose proof (goes_icache dev start ts _ _ _ _ _ _ G2) as Ec2.
  destruct (fill_run x2 ip m off) as (c & Hc & Hco & Hrun).
  destruct (ix_tables dev start ts x2 (set_icache c x2) [b] [] eq_refl eq_refl eq_refl (go_in _ _ _ _ _ _ _ _ _ G2)) as [I3 _].
  destruct (ix_brelse dev start ts (set_icache c x2) [] [] b I3) as (x4 & R4 & G4); [apply not_elem_of_nil|].
  pose proof (goes_icache dev start ts _ _ _ _ _ _ G4) as Ec4. cbn [icache set_icache] in Ec4.
  set (u := i_with_flags (Z.lor (i_flags (icache x4 ip)) I_VALID) (icache x4 ip)). set (x5 := set_icache (upd (icache x4) ip u) x4).
  destruct (ix_tables dev start ts x4 x5 [] [] eq_refl eq_refl eq_refl (go_in _ _ _ _ _ _ _ _ _ G4)) as [I5 _].
  assert (icache x1 ip = i_with_flags I_BUSY w) as E1 by (unfold x1; cbn [icache set_icache]; by rewrite upd_same).
  assert (icache x4 ip = fill_inode m off (i_with_flags I_BUSY w)) as E4 by (by rewrite Ec4, Hc, Ec2, E1).
  assert (saved_in m v) as Sm by (eapply saved_blk; [exact Eb|exact Sv]).
  assert (like v (icache x5 ip)) as L5.
  { unfold x5, u. cbn [icache set_icache]. rewrite upd_same, E4. etransitivity; [apply (fill_like m v (i_with_flags I_BUSY w) Sm); cbn; congruence|]. apply like_flags. }
  exists x5. split_and!.
  - unfold ilock. rewrite (proj2 (Z.eqb_neq ip (-1))) by done. rstep. rewrite Ew, (proj2 (Z.ltb_ge _ 1)) by done.
    eapply runs_bind; [apply runs_lock, not_elem_of_nil|]. cbv beta. unfold ihas at 1. rstep. rewrite Ew, Hf. cbn [has Z.land Z.eqb negb].
    rstep. rewrite Ew, Hf. fold x1. rstep. unfold ihas. rstep. rewrite E1. change (has (i_flags (i_with_flags I_BUSY w)) I_VALID) with false. cbv iota.
    rstep. rstep. rewrite E1. cbn [i_dev i_inum i_with_flags]. rewrite Hd, Hn. eapply runs_bind; [exact R2|]. cbv beta. fold off. rstep. fold m.
    apply Hrun. eapply runs_bind; [exact R4|]. cbv beta. rstep. fold u. fold x5. rstep. rewrite (lk_type _ _ L5), (proj2 (Z.eqb_neq _ 0)) by done. rprim.
  - split; [exact I5| |].
    + change (lv x5 dev) with (lv x4 dev). rewrite <- (go_view _ _ _ _ _ _ _ _ _ G4). change (lv (set_icache c x2) dev) with (lv x2 dev). exact (go_view _ _ _ _ _ _ _ _ _ G2).
    + intros i Hi'. unfold x5. cbn [icache set_icache]. rewrite upd_ne, Ec4, Hco, Ec2 by done. unfold x1. cbn [icache set_icache]. by rewrite upd_ne.
  - exact L5.
  - unfold x5, u. cbn [icache set_icache]. rewrite upd_same, E4. done.
  - unfold x5, u. cbn [icache set_icache]. rewrite upd_same, E4. done.
Qed.

(** Giving up a locked inode that keeps a link *)
Lemma iunlockput_linked x ip v : icache x ip = v -> ip <> -1 -> 1 <= i_ref v -> i_flags v = Z.lor I_BUSY I_VALID -> i_nlink v <> 0 ->
  exists c, runs [] (iunlockput ip) x tt (set_icache c x) [] /\ forall i, i <> ip -> c i = icache x i.
Proof.
  intros Ei Hip Hr Hf Hl. unfold iunlockput.
  pose proof (iunlock_spec x ip v Ei Hip Hr) as R1. rewrite Hf in R1. specialize (R1 eq_refl).
  set (x1 := set_flags ip _ x) in *. assert (icache x1 ip = i_with_flags (Z.ldiff (Z.lor I_BUSY I_VALID) I_BUSY) v) as E1.
  { unfold x1, set_flags. cbn [icache set_icache]. by rewrite upd_same, Ei. }
  eexists. split.
  - eapply runs_bind; [exact R1|]. cbv beta. unfold iput. eapply runs_bind; [apply runs_lock, not_elem_of_nil|]. cbv beta. unfold ihas. rstep. rstep. rstep.
    rewrite E1. cbn [i_ref i_flags i_nlink i_with_flags]. rewrite (proj2 (Z.eqb_neq _ 0)), andb_false_r by done. rstep. rstep. rstep.
    eapply runs_eq; [apply runs_unlock|done|]. unfold x1, set_flags. reflexivity.
  - intros i Hi. cbn [icache set_icache]. by rewrite !upd_ne.
Qed.
End files.

(** ** Walking a path *)

Definition slash : Z := 47.

Lemma elem_end_all nm : slash ∉ nm -> elem_end nm = (nm, []).
Proof.
  induction nm as [|c nm IH]; intros H; [done|]. apply not_elem_of_cons in H as [Hc H]. cbn [elem_end]. change 47 with slash. rewrite (proj2 (Z.eqb_neq c slash)) by congruence.
  by rewrite IH.
Qed.
Lemma skipelem_root nm : nm <> [] -> slash ∉ nm -> skipelem (slash :: nm) = Some ([], take (Z.to_nat DIRSIZ) nm).
Proof.
  intros Hn Hs. unfold skipelem. change (skip_slashes (slash :: nm)) with (skip_slashes nm). destruct nm as [|c nm]; [done|]. pose proof (not_elem_of_cons nm slash c) as [Hc _].
  assert (skip_slashes (c :: nm) = c :: nm) as ->.
  { cbn [skip_slashes]. change 47 with slash. rewrite (proj2 (Z.eqb_neq c slash)) by (destruct (Hc Hs); congruence). done. }
  by rewrite elem_end_all.
Qed.
Lemma key_take nm : key (take (Z.to_nat DIRSIZ) nm) = key nm.
Proof. unfold key. by rewrite take_take, Nat.min_id. Qed.

Section walk.
Context {St : Type} {K : Kernel St} {KS : KernelSpec St}.
Context (start : Z) (ts : list Z) (sb : superblock).
Abbreviation dev := ROOTDEV.
Abbreviation intx := (intx dev start ts).
Abbreviation deq := (deq dev start).
Abbreviation disk_file := (disk_file dev start sb).

(** The root directory [r] of [n] entries *)
Record root_dir (V : Z -> mem) (r : inode) (n : nat) : Prop := {
  rt_file : disk_file V r;
  rt_inum : i_inum r = ROOTINO;
  rt_type : i_type r = T_DIR;
  rt_links : i_nlink r <> 0;
  rt_size : i_size r = 16 * Z.of_nat n
}.
(** The entry of the cache for an inode that is not in memory yet *)
Record fresh (x : fsys) (ip inum : Z) : Prop := {
  fr_range : 0 <= ip < NINODE; fr_ref : i_ref (icache x ip) = 1; fr_flags : i_flags (icache x ip) = 0;
  fr_dev : i_dev (icache x ip) = dev; fr_inum : i_inum (icache x ip) = inum
}.

Lemma listing_like x x' v w n : like v w -> i_size v = 16 * Z.of_nat n -> log_place dev start -> disk_file (lv x dev) v -> deq (lv x dev) (lv x' dev) ->
  listing dev x' w n = entries (byte_of (i_addrs v) (lv x dev)) n 0.
Proof.
  intros L Hs P D E. apply entries_ext. intros p Hp. unfold bytes. rewrite (like_byte v w) by (done || lia). apply (byte_of_deq dev start sb); [done|apply D|apply D|done|].
  pose proof (df_size _ _ _ _ _ D). unfold fbn. change MAXFILE with 140 in *. change BSIZE with 512 in *. mlia.
Qed.

Lemma got_fresh x x' inum ip : got dev x x' inum ip -> i_ref (icache x ip) = 0 -> fresh x' ip inum.
Proof. intros [? ? ? ? ? Hr Hf ?] H0. split; try done; [lia|by apply Hf]. Qed.

Lemma namei_root x r n nm inum k : intx x [] [] -> (forall i, i_ref (icache x i) = 0) -> root_dir (lv x dev) r n -> nm <> [] -> slash ∉ nm ->
  find_entry (key nm) (entries (byte_of (i_addrs r) (lv x dev)) n 0) 0 = Some (inum, k) -> inum <> ROOTINO ->
  exists ip x', runs [] (namei (slash :: nm)) x ip x' [] /\ intx x' [] [] /\ deq (lv x dev) (lv x' dev) /\ fresh x' ip inum.
Proof.
  intros I H0 [Df Ei Et Hl Hs] Hn Hsl Hf Hne. pose proof (ix_place _ _ _ _ _ _ I) as P.
  destruct (iget_spec dev x ROOTINO) as (ip0 & x1 & R1 & G1). { split; [intros; by rewrite H0|]. exists 0. split; [done|left; apply H0]. }
  pose proof (got_fresh _ _ _ _ G1 (H0 ip0)) as [F1 F2 F3 F4 F5]. pose proof G1 as [_ [c1 E1] Ho1 _ _ _ _ _].
  destruct (ix_tables dev start ts x x1 [] []) as [I1 _]; [by rewrite E1..|done|]. assert (lv x1 dev = lv x dev) as V1 by (by rewrite E1).
  destruct (ilock_load dev start ts sb x1 ip0 _ r I1 eq_refl) as (x2 & R2 & [I2 V2 Ho2] & L2 & Er2 & Ef2); [lia|lia|done|done|by rewrite Ei|by rewrite V1|by rewrite Et|].
  rewrite V1 in V2. set (v := icache x2 ip0) in *.
  assert (dir_at dev start ts sb x2 ip0 v n) as D2.
  { split; [|by rewrite (lk_type _ _ L2)|by rewrite (lk_size _ _ L2)]. apply disk_file_at; [done|done|]. eapply disk_file_like; [exact L2|]. by eapply disk_file_deq. }
  assert (listing dev x2 v n = entries (byte_of (i_addrs r) (lv x dev)) n 0) as El by (by eapply listing_like).
  assert (forall i, i <> ip0 -> i_ref (icache x2 i) = 0) as H2 by (intros i Hi; by rewrite Ho2, Ho1).
  destruct (dirlookup_spec dev start ts sb x2 ip0 v n (take (Z.to_nat DIRSIZ) nm) D2) as (o & x3 & x4 & R4 & G3 & Hfd).
  { intros i j _. split.
    - intros q Hq. destruct (decide (q = ip0)) as [->|Hq0]; [fold v; lia|by rewrite H2].
    - exists (if ip0 =? 0 then 1 else 0). split; [by destruct (ip0 =? 0)|]. left. apply H2. destruct (Z.eqb_spec ip0 0); lia. }
  rewrite key_take, El, Hf in Hfd. destruct Hfd as (ip & -> & G4). pose proof (goes_icache _ _ _ _ _ _ _ _ _ G3) as Ec3.
  assert (ip <> ip0) as Hip.
  { intros ->. pose proof (gt_cached _ _ _ _ _ G4) as Hc. rewrite Ec3 in Hc. fold v in Hc. specialize (Hc ltac:(lia)). pose proof (gt_inum _ _ _ _ _ G4) as Hi.
    rewrite Hc in Hi. cbn [i_inum i_with_ref] in Hi. rewrite (lk_inum _ _ L2), Ei in Hi. congruence. }
  pose proof (got_fresh _ _ _ _ G4) as Fr. rewrite Ec3, H2 in Fr by done. specialize (Fr eq_refl). pose proof G4 as [_ [c4 E4] Ho4 _ _ _ _ _].
  destruct (ix_tables dev start ts x3 x4 [] []) as [I4 _]; [by rewrite E4..|apply (go_in _ _ _ _ _ _ _ _ _ G3)|].
  destruct (iunlockput_linked x4 ip0 v) as (c5 & R5 & Ho5); [by rewrite Ho4, Ec3|lia|lia|done|by rewrite (lk_nlink _ _ L2)|].
  destruct (ix_tables dev start ts x4 (set_icache c5 x4) [] [] eq_refl eq_refl eq_refl I4) as [I5 _].
  exists ip, (set_icache c5 x4). split_and!; [|done| |].
  - unfold namei, namex. cbn [hd]. rewrite bool_decide_true by done.
    apply (runs_bind [] [] [] _ _ x (ip, take (Z.to_nat DIRSIZ) nm) (set_icache c5 x4)); [|apply runs_ret]. eapply runs_bind; [exact R1|]. cbv beta.
    cbn [length namex_loop]. rewrite skipelem_root by done. eapply runs_bind; [exact R2|]. cbv beta. rstep. fold v. rewrite (lk_type _ _ L2), Et. cbn [Z.eqb Pos.eqb negb andb].
    eapply runs_bind; [exact R4|]. cbv beta iota. eapply runs_bind; [exact R5|]. cbv beta. destruct (length nm); apply runs_ret.
  - change (lv (set_icache c5 x4) dev) with (lv x4 dev). rewrite E4. change (lv (set_icache c4 x3) dev) with (lv x3 dev). etransitivity; [exact V2|apply (go_view _ _ _ _ _ _ _ _ _ G3)].
  - destruct Fr. split; cbn [icache set_icache]; rewrite ?Ho5; done.
Qed.

(** Opening and reading a file by name *)
Definition open_read (path : list Z) (off n : Z) : M St (Z * mem) :=
  let* ip := namei path in ilock ip ;; readi_data ip off n.

Lemma open_read_spec x r n nm k v off m : intx x [] [] -> (forall i, i_ref (icache x i) = 0) -> root_dir (lv x dev) r n -> nm <> [] -> slash ∉ nm ->
  find_entry (key nm) (entries (byte_of (i_addrs r) (lv x dev)) n 0) 0 = Some (i_inum v, k) -> i_inum v <> ROOTINO ->
  disk_file (lv x dev) v -> i_type v <> 0 -> i_type v <> T_DEV -> 0 <= off <= i_size v -> 0 <= m -> off + m < 2 ^ 32 ->
  exists x' d, runs [] (open_read (slash :: nm) off m) x (Z.min m (i_size v - off), d) x' [] /\
    forall q, 0 <= q < Z.min m (i_size v - off) -> ld8 d q = byte_of (i_addrs v) (lv x dev) (off + q).
Proof.
  intros I H0 Rt Hn Hs Hf Hne Df Ht Hd Ho Hm Hlt. pose proof (ix_place _ _ _ _ _ _ I) as P.
  destruct (namei_root x r n nm (i_inum v) k I H0 Rt Hn Hs Hf Hne) as (ip & x1 & R1 & I1 & V1 & [F1 F2 F3 F4 F5]).
  destruct (ilock_load dev start ts sb x1 ip _ v I1 eq_refl) as (x2 & R2 & [I2 V2 _] & L2 & _ & _); [lia|lia|done|done|done|by eapply disk_file_deq|done|].
  assert (deq (lv x dev) (lv x2 dev)) as V by (etransitivity; [exact V1|exact V2]).
  destruct (readi_spec dev start ts sb x2 ip (icache x2 ip) off m) as (x3 & d & R3 & _ & Hr).
  - apply disk_file_at; [done|done|]. eapply disk_file_like; [exact L2|]. by eapply disk_file_deq.
  - by rewrite (lk_type _ _ L2).
  - by rewrite (lk_size _ _ L2).
  - done.
  - done.
  - rewrite (lk_size _ _ L2) in R3, Hr. exists x3, d. split; [eapply runs_bind; [exact R1|]; eapply runs_bind; [exact R2|exact R3]|]. intros q Hq. rewrite Hr by done.
    rewrite (like_byte v) by (done || lia). apply (byte_of_deq dev start sb); [done|apply Df|apply Df|done|].
    pose proof (df_size _ _ _ _ _ Df). unfold fbn. change MAXFILE with 140 in *. change BSIZE with 512 in *. mlia.
Qed.
End walk.

(** ** The root directory of mkfs *)

(** The entries mkfs makes: number and name *)
Definition root_entries (files : list host_file) : list (Z * list Z) :=
  (ROOTINO, [46]) :: (ROOTINO, [46; 46]) :: imap (fun j f => (2 + Z.of_nat j, key (strip (h_name f)))) files.

Lemma entries_app h n m : forall i, entries h (n + m) i = entries h n i ++ entries h m (i + Z.of_nat n).
Proof.
  induction n as [|n IH]; intros i; cbn [Nat.add entries app]; [by rewrite Z.add_0_r|]. rewrite IH. do 3 f_equal. lia.
Qed.
Lemma entries_zero h m : forall i, (forall p, 16 * i <= p -> h p = 0) -> entries h m i = replicate m (0, []).
Proof.
  induction m as [|m IH]; intros i H; [done|]. cbn [entries replicate]. rewrite IH by (intros; apply H; lia). unfold entry_inum. rewrite !H by lia.
  assert (entry_name h i = []) as ->; [|done]. unfold entry_name. rewrite (field_ext _ (fun _ => 0)); [done|]. intros k Hk. apply H. lia.
Qed.
Lemma find_entry_pad nm es m : forall i, find_entry nm (es ++ replicate m (0, [])) i = find_entry nm es i.
Proof.
  induction es as [|[a q] es IH]; intros i; cbn [app find_entry]; [|by rewrite IH].
  revert i. induction m as [|m IHm]; intros i; [done|]. cbn [replicate find_entry Z.eqb negb andb]. apply IHm.
Qed.

(** With distinct names each entry is found. *)
Lemma find_entry_at es i0 j inum nm : NoDup (map snd es) -> Forall (fun e => fst e <> 0) es -> es !! j = Some (inum, nm) ->
  find_entry nm es i0 = Some (inum, i0 + Z.of_nat j).
Proof.
  revert i0 j. induction es as [|[a q] es IH]; intros i0 j Hd Hz Hj; [done|]. cbn [map snd] in Hd. apply NoDup_cons in Hd as [Hq Hd]. apply Forall_cons in Hz as [Ha Hz].
  cbn [find_entry fst] in *. rewrite (proj2 (Z.eqb_neq a 0)) by done. cbn [negb andb]. destruct j as [|j].
  - injection Hj as -> ->. rewrite bool_decide_true by done. by rewrite Z.add_0_r.
  - cbn in Hj. rewrite bool_decide_false; [rewrite (IH _ j) by done; do 2 f_equal; lia|]. intros ->. apply Hq, list_elem_of_fmap. exists (inum, nm). split; [done|]. by eapply list_elem_of_lookup_2.
Qed.

Lemma entries_dirents P : forall pre k h, (forall p, 0 <= p -> h p = name_at (pre ++ concat (map (fun q => dirent_bytes (fst q) (snd q)) P)) p) ->
  length pre = (16 * k)%nat -> Forall (fun q => 0 <= snd q < 0x10000 /\ Forall (fun c => 0 <= c < 256) (fst q)) P ->
  entries h (length P) (Z.of_nat k) = map (fun q => (snd q, key (fst q))) P.
Proof.
  induction P as [|[nm inum] P IH]; intros pre k h Hh Hl HP; [done|]. apply Forall_cons in HP as [[Hi Hc] HP]. cbn [length entries map fst snd concat] in *.
  destruct (dirent_entry nm inum h (Z.of_nat k) Hi) as [E1 E2]; [|done|].
  - intros p Hp. rewrite Hh by lia. unfold name_at. rewrite (proj2 (Z.ltb_ge p 0)), app_nth2, app_nth1 by (rewrite ?dirent_length; lia).
    unfold dirent_bytes. rewrite (nth_indep _ 0 (ld8 (make_dirent nm inum) 0)) by (rewrite length_map, length_seqZ; unfold sizeof_dirent; lia). rewrite map_nth. f_equal.
    assert (seqZ 0 sizeof_dirent !! (Z.to_nat p - length pre)%nat = Some (p - 16 * Z.of_nat k)) as Hq by (apply lookup_seqZ; unfold sizeof_dirent; lia).
    by apply nth_lookup_Some.
  - rewrite E1, E2. f_equal. replace (Z.of_nat k + 1) with (Z.of_nat (S k)) by lia. apply (IH (pre ++ dirent_bytes nm inum)); [|rewrite length_app, dirent_length; lia|done].
    intros p Hp. by rewrite <- app_assoc, Hh.
Qed.

Lemma map_imap {A B C : Type} (g : B -> C) (f : nat -> A -> B) (l : list A) : map g (imap f l) = imap (fun j a => g (f j a)) l.
Proof. exact (fmap_imap f g l). Qed.

Definition names_ok (files : list host_file) : Prop :=
  Forall (fun f => strip (h_name f) <> [] /\ Forall (fun c => 0 < c < 256) (h_name f)) files /\
  NoDup (map snd (root_entries files)).

Lemma strip_sub c nm : c ∈ strip nm -> c ∈ nm.
Proof. unfold strip. destruct nm as [|d nm]; [done|]. destruct (d =? 95); [|done]. set_solver. Qed.

Lemma root_listing files h n : names_ok files -> 2 + Z.of_nat (length files) <= ninodes -> (forall p, 0 <= p < 16 * Z.of_nat n -> h p = name_at (contents files 1) p) ->
  (2 + length files <= n)%nat -> entries h n 0 = root_entries files ++ replicate (n - (2 + length files)) (0, []).
Proof.
  intros [Hn _] Hi Hh Hl. set (P := ([46], ROOTINO) :: ([46; 46], ROOTINO) :: imap (fun j f => (strip (h_name f), 2 + Z.of_nat j)) files).
  assert (length P = (2 + length files)%nat) as HP by (unfold P; cbn [length]; by rewrite length_imap).
  assert (contents files 1 = concat (map (fun q => dirent_bytes (fst q) (snd q)) P)) as Ec.
  { change (contents files 1) with (root_bytes files). unfold root_bytes, file_dirents, P. cbn [map concat fst snd]. by rewrite map_imap. }
  rewrite (entries_ext h (name_at (contents files 1))) by (intros; apply Hh; lia).
  replace n with (length P + (n - (2 + length files)))%nat at 1 by lia. rewrite entries_app. f_equal.
  - rewrite (entries_dirents P [] 0).
    + unfold P, root_entries. cbn [map fst snd]. change (key [46]) with [46]. change (key [46; 46]) with [46; 46]. by rewrite map_imap.
    + intros p Hp. by rewrite Ec.
    + done.
    + unfold P. constructor; [split; [done|repeat constructor; lia]|]. constructor; [split; [done|repeat constructor; lia]|].
      apply Forall_lookup_2. intros j q Hq. rewrite list_lookup_imap in Hq. destruct (files !! j) as [f|] eqn:Ef; [|done]. injection Hq as <-. cbn [fst snd].
      apply lookup_lt_Some in Ef as Hj. unfold ninodes in Hi. split; [lia|]. destruct (Forall_lookup_1 _ _ _ _ Hn Ef) as [_ Hc]. rewrite Forall_forall in Hc |- *.
      intros c Hc'%strip_sub. specialize (Hc c Hc'). cbv beta in Hc. lia.
  - apply entries_zero. intros p Hp. unfold name_at. destruct (p <? 0); [done|]. apply nth_overflow.
    change (contents files 1) with (root_bytes files). rewrite root_length. lia.
Qed.

Section image.
Context {St : Type} {K : Kernel St} {KS : KernelSpec St}.
Context (V : Z -> mem) (files : list host_file) (T : Z -> inode) (u : Z).
Context (O : image_ok V files T u) (Hfit : mkfs_fits files).

Lemma image_file i : 0 <= i < ninodes -> i <> ROOTINO -> disk_file ROOTDEV fs_start fs_sb V (T i).
Proof.
  intros Hi Hr. destruct (im_saved _ _ _ _ O i Hi) as (Ed & En & Ty & Sv). pose proof (im_size _ _ _ _ O i Hi) as Es. rewrite (proj2 (Z.eqb_neq _ _) Hr) in Es.
  split; try done; rewrite ?En, ?Es; try done; [apply O|by apply (im_ok _ _ _ _ O)| |by apply (im_full _ _ _ _ O)].
  apply (size_of_max files (mf_good _ Hfit) (mf_inodes _ Hfit)).
Qed.

(** The blocks of the root directory are all there if its last block is not full. *)
Lemma image_root : (2 + Z.of_nat (length files)) mod 32 <> 0 -> exists n, root_dir fs_start fs_sb V (T ROOTINO) n /\ (2 + length files <= n)%nat.
Proof.
  intros Hm. assert (0 <= ROOTINO < ninodes) as Hi by done. destruct (im_saved _ _ _ _ O ROOTINO Hi) as (Ed & En & Ty & Sv).
  destruct (im_type _ _ _ _ O ROOTINO Hi) as [Et El]. pose proof (im_size _ _ _ _ O ROOTINO Hi) as Es. rewrite Z.eqb_refl in Es.
  pose proof (size_of_max files (mf_good _ Hfit) (mf_inodes _ Hfit) ROOTINO) as Hs. change (MAXFILE * 512) with 71680 in Hs.
  assert (size_of files ROOTINO = 16 * (2 + Z.of_nat (length files))) as Ez.
  { unfold size_of. change (contents files ROOTINO) with (root_bytes files). rewrite root_length. lia. }
  change BSIZE with 512 in *. exists (Z.to_nat (32 * (size_of files ROOTINO / 512 + 1))). split; [|mlia]. split; try done.
  - split; try done; rewrite ?En, ?Es; try done; [apply O|by apply (im_ok _ _ _ _ O)|change (MAXFILE * BSIZE) with 71680; mlia|].
    intros j Hj Hlt. apply (im_full _ _ _ _ O ROOTINO Hi); [done|]. change BSIZE with 512 in *. mlia.
  - rewrite El. done.
  - rewrite Es. rewrite Z2Nat.id by mlia. lia.
Qed.

(** A quiet kernel on the image with no inode in use *)
Lemma image_open_read x i f off m : names_ok files -> (2 + Z.of_nat (length files)) mod 32 <> 0 -> quiet ROOTDEV fs_start x -> dread (drv (ide x)) ROOTDEV = V -> 1 < log_size (log x) ->
  (forall k, i_ref (icache x k) = 0) -> files !! i = Some f -> 0 <= off <= Z.of_nat (length (content f)) -> 0 <= m -> off + m < 2 ^ 32 ->
  exists x' d, runs [] (begin_trans ;; open_read (slash :: strip (h_name f)) off m) x (Z.min m (Z.of_nat (length (content f)) - off), d) x' [] /\
    forall q, 0 <= q < Z.min m (Z.of_nat (length (content f)) - off) -> ld8 d q = name_at (content f) (off + q).
Proof.
  intros Hno Hm Q EV Hl H0 Hi Ho Hmm Hlt. apply lookup_lt_Some in Hi as Hil. pose proof (mf_inodes _ Hfit) as Hin.
  destruct (begin_intx ROOTDEV fs_start x Q Hl) as [R1 I1]. set (x1 := set_log _ x) in *. pose proof (q_place _ _ _ Q) as P.
  assert (deq ROOTDEV fs_start V (lv x1 ROOTDEV)) as E1 by (intros s Hs; rewrite <- EV; change (lv x1 ROOTDEV) with (lv x ROOTDEV); by apply (quiet_lv ROOTDEV fs_start); [|apply Hs]).
  set (inum := 2 + Z.of_nat i). assert (0 <= inum < ninodes) as Hn by lia. destruct (im_saved _ _ _ _ O inum Hn) as (_ & En & _). destruct (im_type _ _ _ _ O inum Hn) as [Et _].
  assert (types files inum = T_FILE) as Etf. { unfold types. rewrite (proj2 (Z.eqb_neq inum 1)), (proj2 (Z.leb_le 2 inum)), (proj2 (Z.ltb_lt inum _)) by lia. done. }
  assert (contents files inum = content f) as Econ. { unfold contents. rewrite (proj2 (Z.eqb_neq inum 1)), (proj2 (Z.ltb_ge inum 2)) by lia. replace (Z.to_nat (inum - 2)) with i by lia. by rewrite Hi. }
  pose proof (im_size _ _ _ _ O inum Hn) as Es. rewrite (proj2 (Z.eqb_neq inum ROOTINO)) in Es by (unfold ROOTINO; lia). unfold size_of in Es. rewrite Econ in Es.
  pose proof (image_file inum Hn ltac:(unfold ROOTINO; lia)) as Df. destruct (image_root Hm) as (n & [Rf ? ? ? Rs] & Hln).
  destruct (Forall_lookup_1 _ _ _ _ (proj1 Hno) Hi) as [Hne Hch].
  destruct (open_read_spec fs_start [] fs_sb x1 (T ROOTINO) n (strip (h_name f)) (Z.of_nat (2 + i)) (T inum) off m) as (x2 & d & R2 & Hd);
    rewrite ?Et, ?Etf, ?Es; try done.
  - split; try done. by eapply disk_file_deq.
  - intros Hs%strip_sub. pose proof (gh_name _ (Forall_lookup_1 _ _ _ _ (mf_good _ Hfit) Hi)) as Hg. apply not_true_iff_false in Hg. apply Hg, existsb_exists.
    exists 47. split; [by apply list_elem_of_In|done].
  - rewrite En. rewrite (root_listing files _ n Hno Hin); [|..|done].
    + rewrite find_entry_pad. apply (find_entry_at _ 0 (2 + i)); [apply Hno| |].
      * constructor; [done|]. constructor; [done|]. apply Forall_lookup_2. intros j e Hj. rewrite list_lookup_imap in Hj. destruct (files !! j); [|done]. injection Hj as <-. cbn. lia.
      * change (imap (fun j f => (2 + Z.of_nat j, key (strip (h_name f)))) files !! i = Some (inum, key (strip (h_name f)))). by rewrite list_lookup_imap, Hi.
    + intros p Hp. rewrite (byte_of_deq ROOTDEV fs_start fs_sb _ V); [apply (im_bytes _ _ _ _ O)|done|apply O|apply Rf|done|]; try done;
        pose proof (df_size _ _ _ _ _ Rf); unfold fbn; change (MAXFILE * BSIZE) with 71680 in *; change MAXFILE with 140; change BSIZE with 512; mlia.
  - rewrite En. unfold ROOTINO. lia.
  - by eapply disk_file_deq.
  - exists x2, d. split; [eapply runs_bind; [exact R1|]; rewrite Es in R2; exact R2|]. rewrite Es in Hd. intros q Hq. rewrite Hd by done.
    pose proof (df_size _ _ _ _ _ Df) as Hsz. rewrite Es in Hsz. rewrite (byte_of_deq ROOTDEV fs_start fs_sb _ V); [rewrite (im_bytes _ _ _ _ O), Econ; try done|done|apply O|apply Df|done|];
      unfold fbn; change (MAXFILE * BSIZE) with 71680 in *; change MAXFILE with 140; change BSIZE with 512; mlia.
Qed.
End image.

(** C6 From mkfs to read: for files that fit on the disk, with distinct names,
    and a root directory whose last block is not filled exactly, mkfs makes an
    image on which a kernel with no inode in use finds each file by its path and
    reads it: namei of the slash and the name, ilock and readi of any range, in a
    transaction, return the bytes of the host file, up to its end. *)
Theorem mkfs_open_read {St : Type} {K : Kernel St} {KS : KernelSpec St} (files : list host_file) :
  mkfs_fits files -> names_ok files -> (2 + Z.of_nat (length files)) mod 32 <> 0 -> exists s, mkfs files = Ret (tt, s) /\
    forall x i f off n, quiet ROOTDEV fs_start x -> dread (drv (ide x)) ROOTDEV = img s -> 1 < log_size (log x) -> (forall k, i_ref (icache x k) = 0) ->
      files !! i = Some f -> 0 <= off <= Z.of_nat (length (content f)) -> 0 <= n -> off + n < 2 ^ 32 ->
      exists x' d, runs [] (begin_trans ;; open_read (slash :: strip (h_name f)) off n) x (Z.min n (Z.of_nat (length (content f)) - off), d) x' [] /\
        forall q, 0 <= q < Z.min n (Z.of_nat (length (content f)) - off) -> ld8 d q = name_at (content f) (off + q).
Proof.
  intros Hfit Hno Hm. destruct (mkfs_makes files Hfit) as (s & T & u & E & O). exists s. split; [done|]. intros x i f off n Q EV Hl H0 Hi Ho Hn Hlt.
  exact (image_open_read (img s) files T u O Hfit x i f off n Hno Hm Q EV Hl H0 Hi Ho Hn Hlt).
Qed.

Definition no_inode : inode := mkInode 0 0 0 0 0 0 0 0 0 (fun _ => 0).

Lemma ex_names_ok : names_ok ex_files.
Proof.
  split; [repeat constructor; done || lia|]. change (map snd (root_entries ex_files)) with [[46]; [46; 46]; [82; 69; 65; 68; 77; 69]; [115; 104]].
  apply (bool_decide_unpack _). vm_compute. exact I.
Qed.

(** The two bytes "LF" of /sh *)
Lemma mkfs_open_read_witness : exists s x x' d, mkfs ex_files = Ret (tt, s) /\ dread (drv (ide x)) ROOTDEV = img s /\
  runs [] (begin_trans ;; open_read [47; 115; 104] 2 9 : M alone (Z * mem)) x (2, d) x' [] /\ ld8 d 0 = 76 /\ ld8 d 1 = 70.
Proof.
  destruct (mkfs_open_read (St := alone) ex_files ex_files_fit ex_names_ok ltac:(done)) as (s & E & H).
  destruct (mkfs_makes ex_files ex_files_fit) as (s2 & T & u & E2 & O). assert (s2 = s) as -> by congruence.
  destruct (mounted (img s) no_inode) as (Q & EV & Hl & _); [exact (f_equal s32 (im_log _ _ _ _ O))|].
  assert (forall k, i_ref (icache (mount (img s) no_inode) k) = 0) as H0 by reflexivity.
  generalize dependent (mount (img s) no_inode). intros x Q EV Hl H0.
  destruct (H x 1%nat (mkHost [95; 115; 104] (Some [[127; 69; 76; 70]])) 2 9 Q EV ltac:(lia) H0 eq_refl) as (x' & d & R & Hd); [cbn; lia|lia|lia|].
  change (Z.of_nat (length (content (mkHost [95; 115; 104] (Some [[127; 69; 76; 70]]))))) with 4 in *. change (Z.min 9 (4 - 2)) with 2 in *.
  exists s, x, x', d. split_and!; [exact E|exact EV|exact R|exact (Hd 0 ltac:(lia))|exact (Hd 1 ltac:(lia))].
Defined.

(** ** An entry for the root directory of the image *)

Definition with_root (v : inode) (x : fsys) : fsys := set_icache (fun i => if i =? 0 then v else no_inode) (set_log (l_with_busy 1 (log x)) x).

Lemma with_root_dir V files T u x : image_ok V files T u -> mkfs_fits files -> names_ok files -> (2 + Z.of_nat (length files)) mod 32 <> 0 ->
  quiet ROOTDEV fs_start x -> dread (drv (ide x)) ROOTDEV = V -> log_size (log x) = 10 ->
  let v := i_with_ref 1 (T ROOTINO) in let ts := [addr_of (i_addrs (T ROOTINO)) V 0; IBLOCK ROOTINO] in
  exists n, dir_at ROOTDEV fs_start ts fs_sb (with_root v x) 0 v n /\ (2 + length files <= n)%nat /\
    listing ROOTDEV (with_root v x) v n = root_entries files ++ replicate (n - (2 + length files)) (0, []) /\
    ready_for fs_start ts fs_sb (i_addrs v) (lv (with_root v x) ROOTDEV) [0].
Proof.
  intros O Hfit Hno Hm Q EV Hl v ts. destruct (image_root V files T u O Hfit Hm) as (n & [Rf ? ? ? Rs] & Hln). pose proof (q_place _ _ _ Q) as P.
  set (y := set_log (l_with_busy 1 (log x)) x). destruct (begin_spec (St := alone) ROOTDEV fs_start x Q) as (_ & Tx & _). fold y in Tx.
  assert (count ts <= 2) as Hc by (unfold count, ts; cbn [remove_dups]; repeat case_decide; cbn [length]; lia).
  assert (intx ROOTDEV fs_start ts y [] []) as I.
  { split; [exists 0, (fun _ => 0); split; [exact Tx|lia]| |].
    - change (log_size (log y)) with (log_size (log x)). lia.
    - unfold NBUF. lia. }
  set (z := with_root v x). destruct (ix_tables ROOTDEV fs_start ts y z [] [] eq_refl eq_refl eq_refl I) as [Iz _].
  assert (deq ROOTDEV fs_start V (lv z ROOTDEV)) as E1 by (intros s Hs; rewrite <- EV; change (lv z ROOTDEV) with (lv x ROOTDEV); by apply (quiet_lv ROOTDEV fs_start); [|apply Hs]).
  pose proof (disk_file_like ROOTDEV fs_start fs_sb V _ v (like_ref (T ROOTINO) 1) Rf) as Df. pose proof (disk_file_deq _ _ _ _ _ v P E1 Df) as Dz.
  exists n. split_and!; [split; [by apply disk_file_at|done|done]|done| |].
  - unfold listing. apply root_listing; [done|apply Hfit| |done]. intros p Hp. unfold bytes. rewrite (byte_of_deq ROOTDEV fs_start fs_sb _ V); [apply (im_bytes _ _ _ _ O ROOTINO)|done|apply O|apply Df|done|]; try done;
      pose proof (df_size _ _ _ _ _ Rf); unfold fbn; change (MAXFILE * BSIZE) with 71680 in *; change MAXFILE with 140; change BSIZE with 512; mlia.
  - assert (addr_of (i_addrs v) (lv z ROOTDEV) 0 = addr_of (i_addrs (T ROOTINO)) V 0) as Ea by (by apply (addr_of_deq ROOTDEV fs_start fs_sb); [| |apply Df| |]; try done; apply O).
    assert (addr_of (i_addrs v) (lv z ROOTDEV) 0 <> 0) as Hne by (apply (df_full _ _ _ _ _ Dz); [lia|change (i_size v) with (i_size (T ROOTINO)); lia]).
    split.
    + exists [], (free_list fs_sb (lv z ROOTDEV)). split; [symmetry; apply app_nil_l|]. split; [|constructor]. unfold needs, unmapped. cbn [List.filter existsb]. rewrite (proj2 (Z.eqb_neq _ 0) Hne).
      change (NDIRECT <=? 0) with false. by rewrite andb_false_r.
    + intros j ->%list_elem_of_singleton _. rewrite Ea. set_solver.
    + intros j ->%list_elem_of_singleton H. done.
Qed.

(** A file "a" with inode 5 is entered. *)
Lemma directory_refines_map_witness : exists ts x x' v n v' n',
  runs [] (dirlink (St := alone) 0 [97] 5) x 0 x' [] /\ dir_at ROOTDEV fs_start ts fs_sb x' 0 v' n' /\
  dmap (listing ROOTDEV x' v' n') = <[[97] := 5]> (dmap (listing ROOTDEV x v n)).
Proof.
  destruct (mkfs_makes ex_files ex_files_fit) as (s & T & u & E & O).
  destruct (mounted (img s) no_inode) as (Q & EV & Hl & _); [exact (f_equal s32 (im_log _ _ _ _ O))|].
  generalize dependent (mount (img s) no_inode). intros x0 Q EV Hl.
  destruct (with_root_dir (img s) ex_files T u x0 O ex_files_fit ex_names_ok ltac:(done) Q EV Hl) as (n & D & Hn & L & R).
  set (v := i_with_ref 1 (T ROOTINO)) in *. set (ts := [_; _]) in *.
  assert (forall i, icache_room ROOTDEV (with_root v x0) i) as Hroom.
  { intros i. split; [intros j _; cbn; destruct (j =? 0); cbn; lia|]. exists 1. split; [unfold NINODE; lia|left; reflexivity]. }
  assert (find_free_entry (listing ROOTDEV (with_root v x0) v n) 0 = 4) as Hj by (rewrite L; destruct (n - (2 + length ex_files))%nat; reflexivity).
  assert (dmap (listing ROOTDEV (with_root v x0) v n) !! key [97] = None) as Hd by (rewrite (dmap_find _ _ 0), L, find_entry_pad; reflexivity).
  pose proof (directory_refines_map ROOTDEV fs_start ts fs_sb (with_root v x0) 0 v n [97] 5 D) as H. cbv zeta in H. rewrite Hj, Hd in H.
  change (blocks (16 * 4) 16) with [0] in H.
  pose proof (im_saved _ _ _ _ O ROOTINO ltac:(unfold ROOTINO, ninodes; lia)) as (_ & Hiv & _).
  assert (IBLOCK (i_inum v) ∈ ts) as Hts by (change (i_inum v) with (i_inum (T ROOTINO)); rewrite Hiv; apply list_elem_of_further, list_elem_of_here).
  destruct (H ltac:(cbn; lia) Hroom ltac:(repeat constructor; lia) ltac:(lia) ltac:(change (MAXFILE * BSIZE) with 71680; lia) R (fun _ => Hts)) as [_ (r & x' & v' & n' & R' & D' & Er & Em)].
  rewrite Er in R'.
  exists ts, (with_root v x0), x', v, n, v', n'. split_and!; [exact R'|exact D'|exact Em].
Defined.
