(* ===== verification/Mp.v ===== *)
(** * The multiprocessor tables (mp.c, mp.h)

    mpinit looks for the tables of the firmware in low memory, checks them and
    counts the processors.  The memory is an argument: the model reads it at
    kernel virtual addresses.  The theorems say what mpinit makes of a table
    of any entries, and that an entry of an unknown type makes it loop. *)

From Stdlib Require Import ZArith Lia String Bool.
From stdpp Require Import base numbers sets list.
From S2P Require Import Prelude Params Mem Inode Ulib.

(** ** The tables *)

Definition NCPU : Z := 8.

(** struct mp and struct mpconf: byte offsets of the fields, and sizes. *)
Definition mp_physaddr : Z := 4.
Definition mp_imcrp : Z := 12.
Definition sizeof_mp : Z := 16.
Definition conf_length : Z := 4.
Definition conf_version : Z := 6.
Definition conf_lapicaddr : Z := 36.
Definition sizeof_mpconf : Z := 44.
(** struct mpproc and struct mpioapic *)
Definition proc_apicid : Z := 1.
Definition proc_flags : Z := 3.
Definition sizeof_mpproc : Z := 20.
Definition ioapic_apicno : Z := 1.
Definition sizeof_mpioapic : Z := 8.
Definition MPBOOT : Z := 0x02.
Definition MPPROC : Z := 0x00.
Definition MPBUS : Z := 0x01.
Definition MPIOAPIC : Z := 0x02.
Definition MPIOINTR : Z := 0x03.
Definition MPLINTR : Z := 0x04.

(** What mpinit prints. *)
Inductive mpmsg : Type :=
| MsgNcpu (ncpu apicid : Z)
| MsgUnknown (type : Z).

(** The variables of mp.c with the id of each cpu, the ports written, the newest
    first, and the messages. *)
Record mp_t : Type := mkMp {
  bcpu : Z; ismp : Z; ncpu : Z; ioapicid : Z; lapic : Z; cpu_id : Z -> Z;
  mp_outs : list (Z * Z); mp_msgs : list mpmsg
}.
Definition mp_with_bcpu (v : Z) (s : mp_t) := mkMp v (ismp s) (ncpu s) (ioapicid s) (lapic s) (cpu_id s) (mp_outs s) (mp_msgs s).
Definition mp_with_ismp (v : Z) (s : mp_t) := mkMp (bcpu s) v (ncpu s) (ioapicid s) (lapic s) (cpu_id s) (mp_outs s) (mp_msgs s).
Definition mp_with_ncpu (v : Z) (s : mp_t) := mkMp (bcpu s) (ismp s) v (ioapicid s) (lapic s) (cpu_id s) (mp_outs s) (mp_msgs s).
Definition mp_with_ioapicid (v : Z) (s : mp_t) := mkMp (bcpu s) (ismp s) (ncpu s) v (lapic s) (cpu_id s) (mp_outs s) (mp_msgs s).
Definition mp_with_lapic (v : Z) (s : mp_t) := mkMp (bcpu s) (ismp s) (ncpu s) (ioapicid s) v (cpu_id s) (mp_outs s) (mp_msgs s).
Definition mp_with_id (i v : Z) (s : mp_t) :=
  mkMp (bcpu s) (ismp s) (ncpu s) (ioapicid s) (lapic s) (fun j => if j =? i then v else cpu_id s j) (mp_outs s) (mp_msgs s).
Definition mp_with_out (p v : Z) (s : mp_t) := mkMp (bcpu s) (ismp s) (ncpu s) (ioapicid s) (lapic s) (cpu_id s) ((p, v) :: mp_outs s) (mp_msgs s).
Definition mp_with_msg (g : mpmsg) (s : mp_t) := mkMp (bcpu s) (ismp s) (ncpu s) (ioapicid s) (lapic s) (cpu_id s) (mp_outs s) (mp_msgs s ++ [g]).

(** The variables as the program starts. *)
Definition mp_zero : mp_t := mkMp 0 0 0 0 0 (fun _ => 0) [] [].

Definition mpbcpu (s : mp_t) : Z := bcpu s.

Section tables.
(** The memory, and what port 0x23 answers. *)
Context (m : mem) (imcr : Z).

Fixpoint sum_loop (n : nat) (addr acc : Z) : Z :=
  match n with
  | O => acc
  | S n => sum_loop n (addr + 1) (s32 (acc + ld8 m addr))
  end.
Definition sum (addr len : Z) : Z := u8 (sum_loop (Z.to_nat len) addr 0).

(** memcmp with a string *)
Fixpoint sig_at (p : Z) (l : list Z) : bool :=
  match l with
  | [] => true
  | c :: l => (ld8 m p =? c) && sig_at (p + 1) l
  end.

Fixpoint mpsearch_loop (fuel : nat) (p e : Z) : M mp_t Z :=
  if p <? e then
    match fuel with
    | O => nofuel
    | S fuel => if sig_at p [95; 77; 80; 95] && (sum p sizeof_mp =? 0) then ret p else mpsearch_loop fuel (p + sizeof_mp) e
    end
  else ret 0.
Definition mpsearch1 (a len : Z) : M mp_t Z :=
  let addr := p2v a in mpsearch_loop (Z.to_nat len) addr (addr + len).

Definition mpsearch : M mp_t Z :=
  let bda := p2v 0x400 in
  let p := Z.shiftl (Z.lor (Z.shiftl (ld8 m (bda + 0x0F)) 8) (ld8 m (bda + 0x0E))) 4 in
  if negb (p =? 0) then
    let* mp := mpsearch1 p 1024 in
    if negb (mp =? 0) then ret mp else mpsearch1 0xF0000 0x10000
  else
    let p := Z.lor (Z.shiftl (ld8 m (bda + 0x14)) 8) (ld8 m (bda + 0x13)) * 1024 in
    let* mp := mpsearch1 (u32 (p - 1024)) 1024 in
    if negb (mp =? 0) then ret mp else mpsearch1 0xF0000 0x10000.

(** The configuration table and the floating pointer; None for the null pointer. *)
Definition mpconfig : M mp_t (option (Z * Z)) :=
  let* mp := mpsearch in
  if (mp =? 0) || (ld32 m (mp + mp_physaddr) =? 0) then ret None else
  let conf := p2v (ld32 m (mp + mp_physaddr)) in
  if negb (sig_at conf [80; 67; 77; 80]) then ret None else
  if negb (ld8 m (conf + conf_version) =? 1) && negb (ld8 m (conf + conf_version) =? 4) then ret None else
  if negb (sum conf (ld16 m (conf + conf_length)) =? 0) then ret None else
  ret (Some (conf, mp)).

Definition mp_proc (p : Z) : M mp_t unit :=
  let apicid := ld8 m (p + proc_apicid) in
  let* n := gets ncpu in
  (if negb (n =? apicid) then modify (mp_with_msg (MsgNcpu n apicid)) ;; modify (mp_with_ismp 0) else ret tt) ;;
  (if negb (Z.land (ld8 m (p + proc_flags)) MPBOOT =? 0) then modify (mp_with_bcpu n) else ret tt) ;;
  if NCPU <=? n then fault "cpus[ncpu]" else
  modify (mp_with_id n (u8 n)) ;;
  modify (mp_with_ncpu (n + 1)).

Fixpoint mp_entries (fuel : nat) (p e : Z) : M mp_t unit :=
  if p <? e then
    match fuel with
    | O => nofuel
    | S fuel =>
      let t := ld8 m p in
      if t =? MPPROC then mp_proc p ;; mp_entries fuel (p + sizeof_mpproc) e
      else if t =? MPIOAPIC then modify (mp_with_ioapicid (ld8 m (p + ioapic_apicno))) ;; mp_entries fuel (p + sizeof_mpioapic) e
      else if (t =? MPBUS) || (t =? MPIOINTR) || (t =? MPLINTR) then mp_entries fuel (p + 8) e
      else modify (mp_with_msg (MsgUnknown t)) ;; modify (mp_with_ismp 0) ;; mp_entries fuel p e
    end
  else ret tt.

Definition mpinit (fuel : nat) : M mp_t unit :=
  modify (mp_with_bcpu 0) ;;
  let* r := mpconfig in
  match r with
  | None => ret tt
  | Some (conf, mp) =>
    modify (mp_with_ismp 1) ;;
    modify (mp_with_lapic (ld32 m (conf + conf_lapicaddr))) ;;
    mp_entries fuel (conf + sizeof_mpconf) (conf + ld16 m (conf + conf_length)) ;;
    let* mpok := gets ismp in
    if mpok =? 0 then modify (mp_with_ncpu 1) ;; modify (mp_with_lapic 0) ;; modify (mp_with_ioapicid 0)
    else if negb (ld8 m (mp + mp_imcrp) =? 0) then modify (mp_with_out 0x22 0x70) ;; modify (mp_with_out 0x23 (Z.lor imcr 1))
    else ret tt
  end.
End tables.

(** ** Finding the floating pointer *)

(** Where mpsearch looks, in order. *)
Definition places (a len : Z) : list Z := map (fun k => p2v a + sizeof_mp * k) (seqZ 0 (len / sizeof_mp)).
Definition candidates (m : mem) : list Z :=
  let ebda := Z.shiftl (Z.lor (Z.shiftl (ld8 m (p2v 0x40F)) 8) (ld8 m (p2v 0x40E))) 4 in
  let base := Z.lor (Z.shiftl (ld8 m (p2v 0x414)) 8) (ld8 m (p2v 0x413)) * 1024 in
  places (if ebda =? 0 then u32 (base - 1024) else ebda) 1024 ++ places 0xF0000 0x10000.
Definition is_mp (m : mem) (p : Z) : bool := sig_at m p [95; 77; 80; 95] && (sum m p sizeof_mp =? 0).

Lemma mpsearch_loop_spec m s n : forall p fuel, (n <= fuel)%nat ->
  mpsearch_loop m fuel p (p + sizeof_mp * Z.of_nat n) s =
    Ret (default 0 (hd_error (List.filter (is_mp m) (map (fun k => p + sizeof_mp * k) (seqZ 0 (Z.of_nat n))))), s).
Proof.
  unfold sizeof_mp. induction n as [|n IH]; intros p fuel Hf.
  - replace (p + 16 * Z.of_nat 0) with p by lia. destruct fuel; cbn [mpsearch_loop]; by rewrite Z.ltb_irrefl.
  - destruct fuel as [|fuel]; [lia|]. cbn [mpsearch_loop]. rewrite (proj2 (Z.ltb_lt p _)) by lia.
    rewrite seqZ_cons by lia. cbn [map List.filter]. rewrite Z.mul_0_r, Z.add_0_r. fold (is_mp m p). destruct (is_mp m p); [done|].
    replace (p + 16 * Z.of_nat (S n)) with (p + 16 + 16 * Z.of_nat n) by lia. unfold sizeof_mp. rewrite IH by lia.
    replace (Z.pred (Z.of_nat (S n))) with (Z.of_nat n) by lia.
    replace (map (fun k => p + 16 * k) (seqZ (Z.succ 0) (Z.of_nat n))) with (map (fun k => p + 16 + 16 * k) (seqZ 0 (Z.of_nat n))); [done|].
    change (Z.succ 0) with (1 + 0). rewrite <- fmap_add_seqZ. change (fmap (Z.add 1)) with (map (Z.add 1)). rewrite map_map. apply map_ext. intros k. lia.
Qed.
Lemma mpsearch1_spec m s a len : 0 <= len -> len mod sizeof_mp = 0 ->
  mpsearch1 m a len s = Ret (default 0 (hd_error (List.filter (is_mp m) (places a len))), s).
Proof.
  intros H0 Hm. unfold mpsearch1, places. unfold sizeof_mp in *. assert (len = 16 * Z.of_nat (Z.to_nat (len / 16))) as E by mlia.
  rewrite E at 2. rewrite mpsearch_loop_spec by (unfold sizeof_mp; mlia). rewrite Z2Nat.id by mlia. done.
Qed.

Lemma hd_filter_app (P : Z -> bool) l l' : (forall x, x ∈ l -> x <> 0) ->
  (let r := default 0 (hd_error (List.filter P l)) in if negb (r =? 0) then r else default 0 (hd_error (List.filter P l'))) =
  default 0 (hd_error (List.filter P (l ++ l'))).
Proof.
  intros H. rewrite List.filter_app. destruct (List.filter P l) as [|x r] eqn:E; [done|]. cbn.
  assert (x ∈ l) as Hx. { apply list_elem_of_In, (List.filter_In P). rewrite E. by left. }
  by rewrite (proj2 (Z.eqb_neq x 0)) by by apply H.
Qed.
Lemma places_nonzero a len x : x ∈ places a len -> 0 <= a < 0x100000000 -> p2v a <> 0 -> x <> 0.
Proof.
  intros (k & -> & Hk%elem_of_seqZ)%list_elem_of_fmap Ha Hp. pose proof (u32_range (a + KERNBASE)). unfold p2v, sizeof_mp in *. lia.
Qed.

Lemma byte_or m a b : 0 <= Z.lor (Z.shiftl (ld8 m a) 8) (ld8 m b) < 0x10000.
Proof.
  pose proof (ld8_range m a). pose proof (ld8_range m b). rewrite Z.shiftl_mul_pow2 by lia.
  rewrite (lor_low_add _ _ 8); [change (2 ^ 8) with 256; lia|lia|by apply Z.mod_mul|done].
Qed.

(** mpsearch returns the first candidate that is a floating pointer. *)
Lemma mpsearch_spec m s : mpsearch m s = Ret (default 0 (hd_error (List.filter (is_mp m) (candidates m))), s).
Proof.
  unfold mpsearch, candidates. cbv zeta. change (p2v 0x400 + 0x0F) with (p2v 0x40F). change (p2v 0x400 + 0x0E) with (p2v 0x40E).
  change (p2v 0x400 + 0x14) with (p2v 0x414). change (p2v 0x400 + 0x13) with (p2v 0x413).
  pose proof (byte_or m (p2v 0x40F) (p2v 0x40E)) as H1. pose proof (byte_or m (p2v 0x414) (p2v 0x413)) as H2.
  set (w := Z.lor (Z.shiftl (ld8 m (p2v 0x40F)) 8) _) in *. set (v := Z.lor (Z.shiftl (ld8 m (p2v 0x414)) 8) _) in *. clearbody w v. rewrite (Z.shiftl_mul_pow2 w) by lia. change (2 ^ 4) with 16.
  assert (forall a, 0 <= a < 0x100000000 -> a <> KERNBASE -> forall x, x ∈ places a 1024 -> x <> 0) as Hnz.
  { intros a Ha Hk x Hx. apply (places_nonzero a 1024 x Hx Ha). unfold p2v, u32, KERNBASE in *. mlia. }
  pose proof (fun a => mpsearch1_spec m s a 1024 ltac:(lia) eq_refl) as E1. pose proof (mpsearch1_spec m s 0xF0000 0x10000 ltac:(lia) eq_refl) as E2.
  assert (forall a, 0 <= a < 0x100000000 -> a <> KERNBASE ->
    (let* mp := mpsearch1 m a 1024 in if negb (mp =? 0) then ret mp else mpsearch1 m 0xF0000 0x10000) s =
    Ret (default 0 (hd_error (List.filter (is_mp m) (places a 1024 ++ places 0xF0000 0x10000))), s)) as Hs.
  { intros a Ha Hk. rewrite <- hd_filter_app by by apply Hnz. rewrite (bind_ret_eq _ _ _ _ _ (E1 a)). cbv beta zeta. destruct (negb _); [reflexivity|exact E2]. }
  destruct (Z.eqb_spec (w * 16) 0); cbn [negb]; apply Hs; try apply u32_range; unfold u32, KERNBASE; mlia.
Qed.

(** ** The entries *)

Inductive mpentry : Type :=
| EProc (apicid version flags : Z) (rest : list Z)
| EIoapic (apicno : Z) (rest : list Z)
| EOther (type : Z) (rest : list Z).

Definition byte (c : Z) : Prop := 0 <= c < 256.
Definition entry_ok (x : mpentry) : Prop :=
  match x with
  | EProc _ _ _ rest => length rest = 16%nat
  | EIoapic _ rest => length rest = 6%nat
  | EOther t rest => (t = MPBUS \/ t = MPIOINTR \/ t = MPLINTR) /\ length rest = 7%nat
  end.
Definition entry_bytes (x : mpentry) : list Z :=
  match x with
  | EProc apicid version flags rest => MPPROC :: apicid :: version :: flags :: rest
  | EIoapic apicno rest => MPIOAPIC :: apicno :: rest
  | EOther t rest => t :: rest
  end.
Definition table_bytes (es : list mpentry) : list Z := concat (map entry_bytes es).

(** The processors of the table: their ids and flags. *)
Fixpoint processors (es : list mpentry) : list (Z * Z) :=
  match es with
  | [] => []
  | EProc apicid _ flags _ :: es => (apicid, flags) :: processors es
  | _ :: es => processors es
  end.
(** The id of the last I/O APIC. *)
Definition last_ioapic (es : list mpentry) (d : Z) : Z := fold_left (fun d x => match x with EIoapic n _ => n | _ => d end) es d.
(** The last boot processor among those from number [n] on. *)
Fixpoint boot_cpu (ps : list (Z * Z)) (n d : Z) : Z :=
  match ps with
  | [] => d
  | (_, flags) :: ps => boot_cpu ps (n + 1) (if negb (Z.land flags MPBOOT =? 0) then n else d)
  end.
(** The ids are 0, 1, 2, ... *)
Fixpoint in_order (ps : list (Z * Z)) (n : Z) : bool :=
  match ps with
  | [] => true
  | (apicid, _) :: ps => (n =? apicid) && in_order ps (n + 1)
  end.

(** The variables after the entries [es]. *)
Record scanned (s s' : mp_t) (es : list mpentry) : Prop := {
  sc_bcpu : bcpu s' = boot_cpu (processors es) (ncpu s) (bcpu s);
  sc_ismp : ismp s' = if in_order (processors es) (ncpu s) then ismp s else 0;
  sc_ncpu : ncpu s' = ncpu s + Z.of_nat (length (processors es));
  sc_ioapicid : ioapicid s' = last_ioapic es (ioapicid s);
  sc_lapic : lapic s' = lapic s;
  sc_id : forall i, cpu_id s' i = if (ncpu s <=? i) && (i <? ncpu s') then i else cpu_id s i;
  sc_outs : mp_outs s' = mp_outs s;
  sc_msgs : in_order (processors es) (ncpu s) = true -> mp_msgs s' = mp_msgs s
}.

Lemma mp_proc_spec m p s : 0 <= ncpu s < NCPU -> exists s', mp_proc m p s = Ret (tt, s') /\
  forall version rest, scanned s s' [EProc (ld8 m (p + proc_apicid)) version (ld8 m (p + proc_flags)) rest].
Proof.
  intros Hn. unfold mp_proc. mstep. set (n := ncpu s) in *. set (a := ld8 m (p + proc_apicid)). set (f := ld8 m (p + proc_flags)).
  unfold NCPU in *. rewrite (proj2 (Z.leb_gt 8 n)) by lia.
  assert (u8 n = n) as Eu by (apply u8_small; lia).
  destruct (Z.eqb_spec n a) as [E|E], (Z.land f MPBOOT =? 0) eqn:Ef; cbn [negb]; repeat mstep; (eexists; split; [reflexivity|]; intros version rest;
    split; cbn; fold n; rewrite ?Ef, ?Eu, ?(proj2 (Z.eqb_eq n a) E), ?(proj2 (Z.eqb_neq n a) E); try done; try lia;
    try (intros ?; discriminate);
    try (intros i; destruct (Z.eqb_spec i n) as [Ei|], (Z.leb_spec n i), (Z.ltb_spec i (n + 1)); cbn [andb]; done || lia)).
Qed.

Lemma processors_app es es' : processors (es ++ es') = processors es ++ processors es'.
Proof. induction es as [|[] es IH]; cbn; by rewrite ?IH. Qed.
Lemma boot_cpu_app ps ps' : forall n d, boot_cpu (ps ++ ps') n d = boot_cpu ps' (n + Z.of_nat (length ps)) (boot_cpu ps n d).
Proof. induction ps as [|[a f] ps IH]; intros n d; cbn [app boot_cpu length]; [by rewrite Z.add_0_r|]. rewrite IH. f_equal. lia. Qed.
Lemma in_order_app ps ps' : forall n, in_order (ps ++ ps') n = in_order ps n && in_order ps' (n + Z.of_nat (length ps)).
Proof. induction ps as [|[a f] ps IH]; intros n; cbn [app in_order length]; [by rewrite Z.add_0_r|]. rewrite IH, andb_assoc. do 2 f_equal. lia. Qed.

Lemma scanned_nil s : scanned s s [].
Proof. split; cbn; try done; [lia|]. intros i. destruct (Z.leb_spec (ncpu s) i), (Z.ltb_spec i (ncpu s)); done || lia. Qed.
Lemma scanned_app s1 s2 s3 es es' : scanned s1 s2 es -> scanned s2 s3 es' -> scanned s1 s3 (es ++ es').
Proof.
  intros [A1 A2 A3 A4 A5 A6 A7 A8] [B1 B2 B3 B4 B5 B6 B7 B8]. split; rewrite ?processors_app, ?boot_cpu_app, ?in_order_app, ?length_app, <- ?A3; try congruence.
  - rewrite B2, A2. by destruct (in_order _ _), (in_order _ _).
  - rewrite B3, A3. lia.
  - rewrite B4, A4. unfold last_ioapic. by rewrite fold_left_app.
  - intros i. rewrite B6, A6. destruct (Z.leb_spec (ncpu s2) i), (Z.ltb_spec i (ncpu s3)), (Z.leb_spec (ncpu s1) i), (Z.ltb_spec i (ncpu s2)); cbn [andb]; done || lia.
  - intros [H1 H2]%andb_true_iff. by rewrite B8, A8.
Qed.

(** One entry *)
Lemma mp_entry_step m fuel p e s x : has_at m p (entry_bytes x) -> entry_ok x -> p < e -> 0 <= ncpu s -> ncpu s + Z.of_nat (length (processors [x])) <= NCPU ->
  exists s', mp_entries m (S fuel) p e s = mp_entries m fuel (p + Z.of_nat (length (entry_bytes x))) e s' /\ scanned s s' [x].
Proof.
  intros Hx Hok Hp Hn Hc. cbn [mp_entries]. rewrite (proj2 (Z.ltb_lt p e)) by done. destruct x as [a v f r|a r|t r]; cbn [entry_bytes entry_ok length] in *.
  - rewrite !has_at_cons in Hx. destruct Hx as (E0 & Ea & Ev & Ef & _). rewrite E0, Z.eqb_refl.
    destruct (mp_proc_spec m p s) as (s' & E & Sc); [cbn in Hc; lia|]. exists s'. rewrite (bind_ret_eq _ _ _ _ _ E). split.
    + f_equal. rewrite Hok. unfold sizeof_mpproc. lia.
    + specialize (Sc v r). unfold proc_apicid, proc_flags in Sc. rewrite Ea in Sc. replace (p + 3) with (p + 1 + 1 + 1) in Sc by lia. by rewrite Ef in Sc.
  - rewrite !has_at_cons in Hx. destruct Hx as (E0 & Ea & _). rewrite E0. change (MPIOAPIC =? MPPROC) with false. rewrite Z.eqb_refl. mstep.
    eexists. split; [f_equal; rewrite Hok; unfold sizeof_mpioapic; lia|]. pose proof (scanned_nil s) as [A1 A2 A3 A4 A5 A6 A7 A8]. split; cbn in *; try done.
  - rewrite has_at_cons in Hx. destruct Hx as (E0 & _), Hok as [Ht Hl]. rewrite E0. exists s. split.
    + assert ((t =? MPPROC) = false /\ (t =? MPIOAPIC) = false /\ (t =? MPBUS) || (t =? MPIOINTR) || (t =? MPLINTR) = true) as (-> & -> & ->).
      { by destruct Ht as [->|[->| ->]]. }
      f_equal. rewrite Hl. lia.
    + pose proof (scanned_nil s) as [A1 A2 A3 A4 A5 A6 A7 A8]. by split.
Qed.

Lemma entry_bytes_pos x : 0 < Z.of_nat (length (entry_bytes x)).
Proof. destruct x; cbn; lia. Qed.

Lemma mp_entries_run m es : forall fuel p e s, has_at m p (table_bytes es) -> Forall entry_ok es -> p + Z.of_nat (length (table_bytes es)) <= e ->
  0 <= ncpu s -> ncpu s + Z.of_nat (length (processors es)) <= NCPU ->
  exists s', mp_entries m (length es + fuel) p e s = mp_entries m fuel (p + Z.of_nat (length (table_bytes es))) e s' /\ scanned s s' es.
Proof.
  unfold table_bytes. induction es as [|x es IH]; intros fuel p e s Hx Hok He Hn Hc.
  - exists s. cbn. rewrite Z.add_0_r. split; [done|apply scanned_nil].
  - cbn [map concat] in *. apply has_at_app in Hx as [Hx Hxs]. inversion_clear Hok as [|? ? Hok1 Hok2]. rewrite length_app in *.
    pose proof (entry_bytes_pos x). change (x :: es) with ([x] ++ es) in *. rewrite processors_app, length_app in Hc.
    destruct (mp_entry_step m (length es + fuel) p e s x) as (s1 & E1 & S1); try done; [lia|lia|].
    destruct (IH fuel (p + Z.of_nat (length (entry_bytes x))) e s1) as (s2 & E2 & S2); try done; [lia| | |].
    + rewrite (sc_ncpu _ _ _ S1). lia.
    + rewrite (sc_ncpu _ _ _ S1). lia.
    + exists s2. split; [|by eapply scanned_app]. change (length ([x] ++ es) + fuel)%nat with (S (length es + fuel)). rewrite E1, E2. f_equal. lia.
Qed.

(** ** mpinit *)

(** The firmware's tables: the first floating pointer points to a valid
    configuration table, whose entries begin with [es] and take [len] bytes. *)
Record firmware (m : mem) (mp conf : Z) (es : list mpentry) (len : Z) : Prop := {
  fw_mp : hd_error (List.filter (is_mp m) (candidates m)) = Some mp;
  fw_phys : ld32 m (mp + mp_physaddr) <> 0;
  fw_conf : conf = p2v (ld32 m (mp + mp_physaddr));
  fw_sig : sig_at m conf [80; 67; 77; 80] = true;
  fw_version : ld8 m (conf + conf_version) = 1 \/ ld8 m (conf + conf_version) = 4;
  fw_sum : sum m conf (ld16 m (conf + conf_length)) = 0;
  fw_len : ld16 m (conf + conf_length) = sizeof_mpconf + len;
  fw_entries : has_at m (conf + sizeof_mpconf) (table_bytes es);
  fw_ok : Forall entry_ok es;
  fw_room : Z.of_nat (length (table_bytes es)) <= len;
  fw_ncpu : Z.of_nat (length (processors es)) <= NCPU
}.

Lemma candidates_nonzero m x : x ∈ candidates m -> x <> 0.
Proof.
  unfold candidates. cbv zeta. pose proof (byte_or m (p2v 0x40F) (p2v 0x40E)) as H1. pose proof (byte_or m (p2v 0x414) (p2v 0x413)) as H2.
  set (w := Z.lor (Z.shiftl (ld8 m (p2v 0x40F)) 8) _) in *. set (v := Z.lor (Z.shiftl (ld8 m (p2v 0x414)) 8) _) in *. clearbody w v. rewrite (Z.shiftl_mul_pow2 w) by lia. change (2 ^ 4) with 16.
  intros [H|H]%elem_of_app; [|by apply (places_nonzero _ _ _ H)]. apply (places_nonzero _ _ _ H); unfold p2v, u32, KERNBASE; destruct (w * 16 =? 0); mlia.
Qed.
Lemma firmware_found m mp s : hd_error (List.filter (is_mp m) (candidates m)) = Some mp -> mpsearch m s = Ret (mp, s) /\ mp <> 0.
Proof.
  intros H. split; [by rewrite mpsearch_spec, H|]. apply (candidates_nonzero m), list_elem_of_In, (List.filter_In (is_mp m)).
  destruct (List.filter _ _); [done|]. injection H as ->. by left.
Qed.

Lemma mpconfig_spec m mp conf es len s : firmware m mp conf es len -> mpconfig m s = Ret (Some (conf, mp), s).
Proof.
  intros [H1 H2 H3 H4 H5 H6 H7 _ _ _ _]. destruct (firmware_found m mp s H1) as [E Hn]. unfold mpconfig. rewrite (bind_ret_eq _ _ _ _ _ E).
  rewrite (proj2 (Z.eqb_neq mp 0) Hn), (proj2 (Z.eqb_neq _ 0) H2). cbn [orb]. rewrite <- H3, H4, H6. cbn [negb].
  by destruct H5 as [-> | ->].
Qed.

Lemma bind_cong {S A B : Type} (c c' : M S A) (k : A -> M S B) s s' : c s = c' s' -> bind c k s = bind c' k s'.
Proof. unfold bind. by intros ->. Qed.

(** mpinit up to the entries *)
Lemma mpinit_run m imcr mp conf es len fuel : firmware m mp conf es len -> exists s', scanned (mkMp 0 1 0 0 (ld32 m (conf + conf_lapicaddr)) (fun _ => 0) [] []) s' es /\
  mpinit m imcr (length es + fuel) mp_zero =
    (mp_entries m fuel (conf + sizeof_mpconf + Z.of_nat (length (table_bytes es))) (conf + sizeof_mpconf + len) ;;
     let* mpok := gets ismp in
     if mpok =? 0 then modify (mp_with_ncpu 1) ;; modify (mp_with_lapic 0) ;; modify (mp_with_ioapicid 0)
     else if negb (ld8 m (mp + mp_imcrp) =? 0) then modify (mp_with_out 0x22 0x70) ;; modify (mp_with_out 0x23 (Z.lor imcr 1))
     else ret tt) s'.
Proof.
  intros F. unfold mpinit. mstep. rewrite (bind_ret_eq _ _ _ _ _ (mpconfig_spec m mp conf es len _ F)). mstep. mstep.
  destruct (mp_entries_run m es fuel (conf + sizeof_mpconf) (conf + sizeof_mpconf + len) (mkMp 0 1 0 0 (ld32 m (conf + conf_lapicaddr)) (fun _ => 0) [] [])) as (s' & E & Sc);
    try apply F; [destruct F; lia|done|]. exists s'. split; [done|].
  replace (conf + ld16 m (conf + conf_length)) with (conf + sizeof_mpconf + len) by (rewrite (fw_len _ _ _ _ _ F); lia).
  by apply bind_cong.
Qed.

(** C36 mpinit reads the firmware's tables: with a valid table of at most NCPU
    processors, I/O APICs and other known entries, whose processors are numbered
    0, 1, 2, ... in order, mpinit counts them, numbers the cpus, finds the boot
    processor, the id of the last I/O APIC and the address of the local APIC,
    and switches the interrupt mode if the table asks for it; if the ids are
    in another order it falls back to one processor and no APICs. *)
Theorem mpinit_reads (m : mem) (imcr mp conf : Z) (es : list mpentry) (len : Z) (fuel : nat) :
  firmware m mp conf es len -> Z.of_nat (length (table_bytes es)) = len -> (length es <= fuel)%nat ->
  exists s, mpinit m imcr fuel mp_zero = Ret (tt, s) /\ bcpu s = boot_cpu (processors es) 0 0 /\
    if in_order (processors es) 0 then
      ismp s = 1 /\ ncpu s = Z.of_nat (length (processors es)) /\ (forall i, 0 <= i < ncpu s -> cpu_id s i = i) /\
      ioapicid s = last_ioapic es 0 /\ lapic s = ld32 m (conf + conf_lapicaddr) /\ mp_msgs s = [] /\
      mp_outs s = (if ld8 m (mp + mp_imcrp) =? 0 then [] else [(0x23, Z.lor imcr 1); (0x22, 0x70)])
    else ismp s = 0 /\ ncpu s = 1 /\ ioapicid s = 0 /\ lapic s = 0 /\ mp_outs s = [].
Proof.
  intros F Hl Hf. destruct (mpinit_run m imcr mp conf es len (fuel - length es) F) as (s1 & Sc & E).
  replace (length es + (fuel - length es))%nat with fuel in E by lia. rewrite E, Hl. clear E.
  assert (forall k e s, mp_entries m k e e s = Ret (tt, s)) as E0 by (intros [|k] e s; cbn [mp_entries]; by rewrite Z.ltb_irrefl).
  rewrite (bind_ret_eq _ _ _ _ _ (E0 _ _ s1)). mstep. destruct Sc as [S1 S2 S3 S4 S5 S6 S7 S8]. cbn [bcpu ismp ncpu ioapicid lapic cpu_id mp_outs mp_msgs] in *. rewrite S2.
  destruct (in_order (processors es) 0); cbn [Z.eqb].
  - destruct (ld8 m (mp + mp_imcrp) =? 0); cbn [negb]; repeat mstep; (eexists; split; [reflexivity|]; cbn; rewrite S1, ?S2, ?S3, ?S4, ?S5, ?S7, ?S8 by done;
      split_and!; try done; intros i Hi; rewrite S6, S3; rewrite (proj2 (Z.leb_le 0 i)), (proj2 (Z.ltb_lt i _)) by lia; done).
  - repeat mstep. eexists. split; [reflexivity|]. cbn. rewrite S1, S2, S7. done.
Qed.

(** An entry of an unknown type hangs the machine: mpinit reports it but
    does not step over it, so that it never returns. *)
Theorem mpinit_hangs (m : mem) (imcr mp conf : Z) (es : list mpentry) (len : Z) (fuel : nat) :
  firmware m mp conf es len -> Z.of_nat (length (table_bytes es)) < len -> MPLINTR < ld8 m (conf + sizeof_mpconf + Z.of_nat (length (table_bytes es))) ->
  mpinit m imcr (length es + fuel) mp_zero = NoFuel.
Proof.
  intros F Hl Ht. destruct (mpinit_run m imcr mp conf es len fuel F) as (s1 & _ & ->). set (p := conf + sizeof_mpconf + Z.of_nat (length (table_bytes es))) in *.
  set (e := conf + sizeof_mpconf + len). assert (p < e) as Hp by (unfold p, e; lia). unfold bind at 1.
  assert (forall k s, mp_entries m k p e s = NoFuel) as ->; [|done].
  induction k as [|k IH]; intros s; cbn [mp_entries]; rewrite (proj2 (Z.ltb_lt p e) Hp); [done|]. unfold MPLINTR in Ht.
  rewrite (proj2 (Z.eqb_neq _ MPPROC)), (proj2 (Z.eqb_neq _ MPIOAPIC)), (proj2 (Z.eqb_neq _ MPBUS)), (proj2 (Z.eqb_neq _ MPIOINTR)), (proj2 (Z.eqb_neq _ MPLINTR))
    by (unfold MPPROC, MPIOAPIC, MPBUS, MPIOINTR, MPLINTR; lia). cbn [orb]. mstep. mstep. apply IH.
Qed.

(** ** An example: two processors, a bus and an I/O APIC *)

Definition checksum (l : list Z) : Z := u8 (- fold_right Z.add 0 l).
(** A floating pointer in the extended BIOS data area and a table after it. *)
Definition ex_pointer : list Z :=
  let l := [95; 77; 80; 95; 0; 253; 9; 0; 1; 4] in l ++ checksum (l ++ [0; 128]) :: [0; 128; 0; 0; 0].
Definition ex_table (entries : list Z) : list Z :=
  let h := [80; 67; 77; 80; 44 + Z.of_nat (length entries); 0; 4] in
  let t := replicate 28 0 ++ [0; 0; 224; 254; 0; 0; 0; 0] ++ entries in
  h ++ checksum (h ++ t) :: t.
Definition ex_mem (entries : list Z) (a : Z) : Z :=
  if a =? 0x8000040E then 192 else if a =? 0x8000040F then 159 else
  if (0x8009FC00 <=? a) && (a <? 0x8009FC10) then nth (Z.to_nat (a - 0x8009FC00)) ex_pointer 0 else
  if (0x8009FD00 <=? a) && (a <? 0x8009FE00) then nth (Z.to_nat (a - 0x8009FD00)) (ex_table entries) 0 else 0.
Definition ex_entries : list mpentry :=
  [EProc 0 17 3 (replicate 16 7); EProc 1 17 1 (replicate 16 7); EOther MPBUS (replicate 7 32); EIoapic 2 [17; 1; 0; 0; 192; 254]].

Lemma has_at_nth m p l : (forall i, (i < length l)%nat -> ld8 m (p + Z.of_nat i) = nth i l 0) -> has_at m p l.
Proof. intros H i c Hi. rewrite H by by eapply lookup_lt_Some. by apply nth_lookup_Some. Qed.

Lemma mpinit_reads_witness : exists s, mpinit (ex_mem (table_bytes ex_entries)) 0 4 mp_zero = Ret (tt, s) /\ ncpu s = 2 /\ ioapicid s = 2 /\ lapic s = 0xFEE00000.
Proof.
  destruct (mpinit_reads (ex_mem (table_bytes ex_entries)) 0 0x8009FC00 0x8009FD00 ex_entries 56 4) as (s & E & _ & H).
  - split; [vm_compute; reflexivity|vm_compute; discriminate|vm_compute; reflexivity..|right; vm_compute; reflexivity|vm_compute; reflexivity|vm_compute; reflexivity| | | |].
    + repeat (apply has_at_cons; split; [vm_compute; reflexivity|]). by intros i c ?.
    + repeat constructor.
    + done.
    + done.
  - reflexivity.
  - reflexivity.
  - exists s. split; [exact E|]. destruct H as (_ & H1 & _ & H2 & H3 & _). rewrite H1, H2, H3. split; [reflexivity|]. split; vm_compute; reflexivity.
Defined.

Lemma mpinit_hangs_witness : mpinit (ex_mem [9; 0; 0; 0; 0; 0; 0; 0]) 0 1000 mp_zero = NoFuel.
Proof.
  apply (mpinit_hangs (ex_mem [9; 0; 0; 0; 0; 0; 0; 0]) 0 0x8009FC00 0x8009FD00 [] 8 1000).
  - split; [vm_compute; reflexivity|vm_compute; discriminate|vm_compute; reflexivity..|right; vm_compute; reflexivity|vm_compute; reflexivity|vm_compute; reflexivity| | | |].
    + by intros i c ?.
    + constructor.
    + done.
    + done.
  - reflexivity.
  - vm_compute. reflexivity.
Defined.
