(* ===== verification/Devices.v ===== *)
(** * Interrupt controllers, timer and serial port (picirq.c, ioapic.c, lapic.c,
    timer.c, uart.c, and ideinit of ide.c)

    The drivers write to ports and to memory-mapped registers.  The model keeps
    the ports written, in order, the registers of the I/O APIC and the writes to
    those of the local APIC; what a port or a register of the local APIC
    answers is the hardware's and an argument.  The theorem says which
    interrupts the machine delivers after the calls of main, and where. *)

From Stdlib Require Import ZArith Lia String Bool.
From stdpp Require Import base numbers sets list.
From S2P Require Import Prelude Params Mem FsState Inode Exec.

(** ** Ports and registers *)

Record dev_t : Type := mkDev {
  outs : list (Z * Z);        (* the ports written, the newest first *)
  nread : Z -> Z;             (* how often each port has been read *)
  irqmask : Z;
  io_reg : Z;                 (* the I/O APIC: the selected register *)
  io_regs : Z -> Z;
  apic_outs : list (Z * Z);   (* the local APIC: registers written, the newest first *)
  apic_polls : Z;             (* how often ICRLO has been read *)
  com1 : Z;                   (* is there a uart? *)
  disk1 : Z;                  (* is there a disk 1? *)
  lowmem : mem;
  not_mp : bool               (* ioapicinit has found another id *)
}.
Definition v_outs (v : list (Z * Z)) (d : dev_t) := mkDev v (nread d) (irqmask d) (io_reg d) (io_regs d) (apic_outs d) (apic_polls d) (com1 d) (disk1 d) (lowmem d) (not_mp d).
Definition v_nread (v : Z -> Z) (d : dev_t) := mkDev (outs d) v (irqmask d) (io_reg d) (io_regs d) (apic_outs d) (apic_polls d) (com1 d) (disk1 d) (lowmem d) (not_mp d).
Definition v_irqmask (v : Z) (d : dev_t) := mkDev (outs d) (nread d) v (io_reg d) (io_regs d) (apic_outs d) (apic_polls d) (com1 d) (disk1 d) (lowmem d) (not_mp d).
Definition v_io_reg (v : Z) (d : dev_t) := mkDev (outs d) (nread d) (irqmask d) v (io_regs d) (apic_outs d) (apic_polls d) (com1 d) (disk1 d) (lowmem d) (not_mp d).
Definition v_io_regs (v : Z -> Z) (d : dev_t) := mkDev (outs d) (nread d) (irqmask d) (io_reg d) v (apic_outs d) (apic_polls d) (com1 d) (disk1 d) (lowmem d) (not_mp d).
Definition v_apic_outs (v : list (Z * Z)) (d : dev_t) := mkDev (outs d) (nread d) (irqmask d) (io_reg d) (io_regs d) v (apic_polls d) (com1 d) (disk1 d) (lowmem d) (not_mp d).
Definition v_apic_polls (v : Z) (d : dev_t) := mkDev (outs d) (nread d) (irqmask d) (io_reg d) (io_regs d) (apic_outs d) v (com1 d) (disk1 d) (lowmem d) (not_mp d).
Definition v_com1 (v : Z) (d : dev_t) := mkDev (outs d) (nread d) (irqmask d) (io_reg d) (io_regs d) (apic_outs d) (apic_polls d) v (disk1 d) (lowmem d) (not_mp d).
Definition v_disk1 (v : Z) (d : dev_t) := mkDev (outs d) (nread d) (irqmask d) (io_reg d) (io_regs d) (apic_outs d) (apic_polls d) (com1 d) v (lowmem d) (not_mp d).
Definition v_lowmem (v : mem) (d : dev_t) := mkDev (outs d) (nread d) (irqmask d) (io_reg d) (io_regs d) (apic_outs d) (apic_polls d) (com1 d) (disk1 d) v (not_mp d).
Definition v_not_mp (v : bool) (d : dev_t) := mkDev (outs d) (nread d) (irqmask d) (io_reg d) (io_regs d) (apic_outs d) (apic_polls d) (com1 d) (disk1 d) (lowmem d) v.

Definition outb (port data : Z) : M dev_t unit := modify (fun d => v_outs ((port, u8 data) :: outs d) d).

Definition IO_PIC1 : Z := 0x20.
Definition IO_PIC2 : Z := 0xA0.
Definition IRQ_SLAVE : Z := 2.
Definition irqmask0 : Z := Z.land 0xFFFF (Z.lnot (Z.shiftl 1 IRQ_SLAVE)).

Definition picsetmask (mask : Z) : M dev_t unit :=
  let mask := u16 mask in
  modify (v_irqmask mask) ;;
  outb (IO_PIC1 + 1) mask ;;
  outb (IO_PIC2 + 1) (Z.shiftr mask 8).
Definition picenable (irq : Z) : M dev_t unit :=
  let* mask := gets irqmask in
  picsetmask (Z.land mask (Z.lnot (Z.shiftl 1 irq))).
Definition picinit : M dev_t unit :=
  outb (IO_PIC1 + 1) 0xFF ;;
  outb (IO_PIC2 + 1) 0xFF ;;
  outb IO_PIC1 0x11 ;;
  outb (IO_PIC1 + 1) T_IRQ0 ;;
  outb (IO_PIC1 + 1) (Z.shiftl 1 IRQ_SLAVE) ;;
  outb (IO_PIC1 + 1) 0x3 ;;
  outb IO_PIC2 0x11 ;;
  outb (IO_PIC2 + 1) (T_IRQ0 + 8) ;;
  outb (IO_PIC2 + 1) IRQ_SLAVE ;;
  outb (IO_PIC2 + 1) 0x3 ;;
  outb IO_PIC1 0x68 ;;
  outb IO_PIC1 0x0a ;;
  outb IO_PIC2 0x68 ;;
  outb IO_PIC2 0x0a ;;
  let* mask := gets irqmask in
  if negb (mask =? 0xFFFF) then picsetmask mask else ret tt.

(** ** Timer *)

Definition IO_TIMER1 : Z := 0x040.
Definition TIMER_FREQ : Z := 1193182.
Definition TIMER_DIV (x : Z) : Z := (TIMER_FREQ + x / 2) / x.
Definition TIMER_MODE : Z := IO_TIMER1 + 3.
Definition TIMER_SEL0 : Z := 0x00.
Definition TIMER_RATEGEN : Z := 0x04.
Definition TIMER_16BIT : Z := 0x30.
Definition timerinit : M dev_t unit :=
  outb TIMER_MODE (Z.lor (Z.lor TIMER_SEL0 TIMER_RATEGEN) TIMER_16BIT) ;;
  outb IO_TIMER1 (TIMER_DIV 100 mod 256) ;;
  outb IO_TIMER1 (TIMER_DIV 100 / 256) ;;
  picenable IRQ_TIMER.

(** ** The I/O APIC *)

Definition REG_ID : Z := 0x00.
Definition REG_VER : Z := 0x01.
Definition REG_TABLE : Z := 0x10.
Definition INT_DISABLED : Z := 0x00010000.

Definition ioapicread (reg : Z) : M dev_t Z :=
  modify (v_io_reg (u32 reg)) ;;
  gets (fun d => u32 (io_regs d (io_reg d))).
Definition ioapicwrite (reg data : Z) : M dev_t unit :=
  modify (v_io_reg (u32 reg)) ;;
  modify (fun d => v_io_regs (upd (io_regs d) (io_reg d) (u32 data)) d).

Fixpoint ioapic_disable (n : nat) (i : Z) : M dev_t unit :=
  match n with
  | O => ret tt
  | S n =>
    ioapicwrite (REG_TABLE + 2 * i) (Z.lor INT_DISABLED (T_IRQ0 + i)) ;;
    ioapicwrite (REG_TABLE + 2 * i + 1) 0 ;;
    ioapic_disable n (i + 1)
  end.

Section devices.
(** ismp, ncpu, ioapicid and lapic as mpinit leaves them; the answer of a port to
    the [n]-th inb, and of ICRLO to the [n]-th read; the version of the local
    APIC and its id register. *)
Context (mpok ncpus apicid lapicaddr : Z).
Context (answer : Z -> Z -> Z) (icrlo : Z -> Z) (lapic_ver lapic_id : Z).

Definition inb (port : Z) : M dev_t Z :=
  fun d => Ret (u8 (answer port (nread d port)), v_nread (upd (nread d) port (nread d port + 1)) d).

Definition ioapicinit : M dev_t unit :=
  if mpok =? 0 then ret tt else
  let* ver := ioapicread REG_VER in
  let maxintr := Z.land (Z.shiftr ver 16) 0xFF in
  let* r := ioapicread REG_ID in
  let id := Z.shiftr r 24 in
  (if negb (id =? apicid) then modify (v_not_mp true) else ret tt) ;;
  ioapic_disable (Z.to_nat (maxintr + 1)) 0.
Definition ioapicenable (irq cpunum : Z) : M dev_t unit :=
  if mpok =? 0 then ret tt else
  ioapicwrite (REG_TABLE + 2 * irq) (T_IRQ0 + irq) ;;
  ioapicwrite (REG_TABLE + 2 * irq + 1) (Z.shiftl cpunum 24).

(** ** The local APIC *)

Definition IRQ_ERROR : Z := 19.
Definition A_ID : Z := 0x0020 / 4.
Definition A_VER : Z := 0x0030 / 4.
Definition A_TPR : Z := 0x0080 / 4.
Definition A_EOI : Z := 0x00B0 / 4.
Definition A_SVR : Z := 0x00F0 / 4.
Definition A_ENABLE : Z := 0x00000100.
Definition A_ESR : Z := 0x0280 / 4.
Definition A_ICRLO : Z := 0x0300 / 4.
Definition A_INIT : Z := 0x00000500.
Definition A_STARTUP : Z := 0x00000600.
Definition A_DELIVS : Z := 0x00001000.
Definition A_ASSERT : Z := 0x00004000.
Definition A_LEVEL : Z := 0x00008000.
Definition A_BCAST : Z := 0x00080000.
Definition A_ICRHI : Z := 0x0310 / 4.
Definition A_TIMER : Z := 0x0320 / 4.
Definition A_X1 : Z := 0x0000000B.
Definition A_PERIODIC : Z := 0x00020000.
Definition A_PCINT : Z := 0x0340 / 4.
Definition A_LINT0 : Z := 0x0350 / 4.
Definition A_LINT1 : Z := 0x0360 / 4.
Definition A_ERROR : Z := 0x0370 / 4.
Definition A_MASKED : Z := 0x00010000.
Definition A_TICR : Z := 0x0380 / 4.
Definition A_TDCR : Z := 0x03E0 / 4.

(** The read of the id register only waits for the write. *)
Definition lapicw (index value : Z) : M dev_t unit := modify (fun d => v_apic_outs ((index, u32 value) :: apic_outs d) d).

(** The wait for the delivery of an interrupt command *)
Fixpoint lapic_wait (fuel : nat) : M dev_t unit :=
  match fuel with
  | O => nofuel
  | S fuel =>
    let* n := gets apic_polls in
    modify (v_apic_polls (n + 1)) ;;
    if negb (Z.land (icrlo n) A_DELIVS =? 0) then lapic_wait fuel else ret tt
  end.

Definition lapicinit (fuel : nat) : M dev_t unit :=
  if lapicaddr =? 0 then ret tt else
  lapicw A_SVR (Z.lor A_ENABLE (T_IRQ0 + IRQ_SPURIOUS)) ;;
  lapicw A_TDCR A_X1 ;;
  lapicw A_TIMER (Z.lor A_PERIODIC (T_IRQ0 + IRQ_TIMER)) ;;
  lapicw A_TICR 10000000 ;;
  lapicw A_LINT0 A_MASKED ;;
  lapicw A_LINT1 A_MASKED ;;
  (if 4 <=? Z.land (Z.shiftr lapic_ver 16) 0xFF then lapicw A_PCINT A_MASKED else ret tt) ;;
  lapicw A_ERROR (T_IRQ0 + IRQ_ERROR) ;;
  lapicw A_ESR 0 ;;
  lapicw A_ESR 0 ;;
  lapicw A_EOI 0 ;;
  lapicw A_ICRHI 0 ;;
  lapicw A_ICRLO (Z.lor (Z.lor A_BCAST A_INIT) A_LEVEL) ;;
  lapic_wait fuel ;;
  lapicw A_TPR 0.

(** cpunum, without its warning *)
Definition cpunum : Z := if negb (lapicaddr =? 0) then Z.shiftr (u32 lapic_id) 24 else 0.
Definition lapiceoi : M dev_t unit := if negb (lapicaddr =? 0) then lapicw A_EOI 0 else ret tt.

Definition IO_RTC : Z := 0x70.
Fixpoint startup_ipis (n : nat) (apicid addr : Z) : M dev_t unit :=
  match n with
  | O => ret tt
  | S n =>
    lapicw A_ICRHI (Z.shiftl apicid 24) ;;
    lapicw A_ICRLO (Z.lor A_STARTUP (Z.shiftr addr 12)) ;;
    startup_ipis n apicid addr
  end.
(** The warm reset vector is at 40:67. *)
Definition lapicstartap (apicid addr : Z) : M dev_t unit :=
  outb IO_RTC 0xF ;;
  outb (IO_RTC + 1) 0x0A ;;
  let wrv := p2v (Z.lor (Z.shiftl 0x40 4) 0x67) in
  modify (fun d => v_lowmem (st16 (st16 (lowmem d) wrv 0) (wrv + 2) (u16 (Z.shiftr addr 4))) d) ;;
  lapicw A_ICRHI (Z.shiftl apicid 24) ;;
  lapicw A_ICRLO (Z.lor (Z.lor A_INIT A_LEVEL) A_ASSERT) ;;
  lapicw A_ICRLO (Z.lor A_INIT A_LEVEL) ;;
  startup_ipis 2 apicid addr.

(** ** The serial port *)

Definition COM1 : Z := 0x3f8.

Fixpoint com_wait (n : nat) : M dev_t unit :=
  match n with
  | O => ret tt
  | S n => let* s := inb (COM1 + 5) in if negb (Z.land s 0x20 =? 0) then ret tt else com_wait n
  end.
Definition com_putc (c : Z) : M dev_t unit :=
  let* u := gets com1 in
  if u =? 0 then ret tt else com_wait 128 ;; outb (COM1 + 0) c.
Fixpoint com_puts (l : list Z) : M dev_t unit :=
  match l with [] => ret tt | c :: l => com_putc c ;; com_puts l end.
Definition uartinit : M dev_t unit :=
  outb (COM1 + 2) 0 ;;
  outb (COM1 + 3) 0x80 ;;
  outb (COM1 + 0) (115200 / 9600) ;;
  outb (COM1 + 1) 0 ;;
  outb (COM1 + 3) 0x03 ;;
  outb (COM1 + 4) 0 ;;
  outb (COM1 + 1) 0x01 ;;
  let* s := inb (COM1 + 5) in
  if s =? 0xFF then ret tt else
  modify (v_com1 1) ;;
  let* _ := inb (COM1 + 2) in
  let* _ := inb (COM1 + 0) in
  picenable IRQ_COM1 ;;
  ioapicenable IRQ_COM1 0 ;;
  com_puts [120; 118; 54; 46; 46; 46; 10].
(** The byte received, or -1 *)
Definition uartgetc : M dev_t Z :=
  let* u := gets com1 in
  if u =? 0 then ret (-1) else
  let* s := inb (COM1 + 5) in
  if Z.land s 0x01 =? 0 then ret (-1) else inb (COM1 + 0).

(** ** The disk *)

Fixpoint probe_disk1 (n : nat) : M dev_t unit :=
  match n with
  | O => ret tt
  | S n => let* s := inb 0x1f7 in if negb (s =? 0) then modify (v_disk1 1) else probe_disk1 n
  end.
(** idewait, without the check for errors *)
Fixpoint ide_ready (fuel : nat) : M dev_t unit :=
  match fuel with
  | O => nofuel
  | S fuel => let* r := inb 0x1f7 in if negb (Z.land r (Z.lor 0x80 0x40) =? 0x40) then ide_ready fuel else ret tt
  end.
Definition ideinit (fuel : nat) : M dev_t unit :=
  picenable IRQ_IDE ;;
  ioapicenable IRQ_IDE (ncpus - 1) ;;
  ide_ready fuel ;;
  outb 0x1f6 (Z.lor 0xe0 (Z.shiftl 1 4)) ;;
  probe_disk1 1000 ;;
  outb 0x1f6 (Z.lor 0xe0 (Z.shiftl 0 4)).

(** ** The calls of main *)

(** The end of consoleinit, and the calls of main that set up devices, in their
    order; the calls between them (seginit, pinit, tvinit, binit, fileinit,
    iinit) touch no device. *)
Definition kbd_enable : M dev_t unit := picenable IRQ_KBD ;; ioapicenable IRQ_KBD 0.
Definition main_devices (fuel : nat) : M dev_t unit :=
  lapicinit fuel ;;
  picinit ;;
  ioapicinit ;;
  kbd_enable ;;
  uartinit ;;
  ideinit fuel ;;
  if mpok =? 0 then timerinit else ret tt.
End devices.

(** ** What the calls change *)

Definition last_out (port : Z) (l : list (Z * Z)) : option Z := snd <$> List.find (fun x => fst x =? port) l.
(** The controllers hold the mask of the driver. *)
Definition synced (d : dev_t) : Prop :=
  last_out (IO_PIC1 + 1) (outs d) = Some (u8 (irqmask d)) /\ last_out (IO_PIC2 + 1) (outs d) = Some (u8 (Z.shiftr (irqmask d) 8)).

Definition unmask (m irq : Z) : Z := u16 (Z.land m (Z.lnot (Z.shiftl 1 irq))).
Definition route (r : Z -> Z) (e : Z * Z) : Z -> Z :=
  upd (upd r (REG_TABLE + 2 * fst e) (T_IRQ0 + fst e)) (REG_TABLE + 2 * fst e + 1) (u32 (Z.shiftl (snd e) 24)).

(** The interrupts [pics] have been unmasked and those of [ios] routed. *)
Record after (d d' : dev_t) (pics : list Z) (ios : list (Z * Z)) : Prop := {
  af_mask : irqmask d' = fold_left unmask pics (irqmask d);
  af_regs : io_regs d' = fold_left route ios (io_regs d);
  af_synced : synced d -> synced d';
  af_com1 : com1 d' = com1 d
}.
Definition acts (c : M dev_t unit) (pics : list Z) (ios : list (Z * Z)) : Prop := forall d, exists d', c d = Ret (tt, d') /\ after d d' pics ios.

Lemma after_refl d : after d d [] [].
Proof. by split. Qed.
Lemma after_trans d d1 d2 p1 p2 i1 i2 : after d d1 p1 i1 -> after d1 d2 p2 i2 -> after d d2 (p1 ++ p2) (i1 ++ i2).
Proof.
  intros [A1 A2 A3 A4] [B1 B2 B3 B4]. split; [| |auto|congruence].
  - by rewrite B1, A1, fold_left_app.
  - by rewrite B2, A2, fold_left_app.
Qed.

Lemma acts_ret : acts (ret tt) [] [].
Proof. intros d. exists d. split; [done|apply after_refl]. Qed.
Lemma acts_bind c k p1 p2 i1 i2 : acts c p1 i1 -> acts k p2 i2 -> acts (c ;; k) (p1 ++ p2) (i1 ++ i2).
Proof.
  intros H1 H2 d. destruct (H1 d) as (d1 & E1 & A1). destruct (H2 d1) as (d2 & E2 & A2). exists d2. rewrite (bind_ret_eq _ _ _ _ _ E1).
  split; [done|]. by eapply after_trans.
Qed.
(** The same, for a call that changes nothing of this. *)
Lemma acts_then c k p i : acts c [] [] -> acts k p i -> acts (c ;; k) p i.
Proof. apply acts_bind. Qed.

Lemma acts_outb port v : port <> IO_PIC1 + 1 -> port <> IO_PIC2 + 1 -> acts (outb port v) [] [].
Proof.
  intros H1 H2 d. eexists. split; [reflexivity|]. split; try done. intros [S1 S2]. split; unfold last_out; cbn [outs v_outs irqmask List.find fst].
  - by rewrite (proj2 (Z.eqb_neq _ _) H1).
  - by rewrite (proj2 (Z.eqb_neq _ _) H2).
Qed.
Lemma acts_lapicw i v : acts (lapicw i v) [] [].
Proof. intros d. eexists. split; [reflexivity|]. by split. Qed.
Lemma acts_picenable irq : acts (picenable irq) [irq] [].
Proof. intros d. unfold picenable, picsetmask. repeat mstep. eexists. split; [reflexivity|]. by split. Qed.

Lemma acts_ioapicenable mpok irq cpu : 0 <= irq < 240 -> acts (ioapicenable mpok irq cpu) [] (if mpok =? 0 then [] else [(irq, cpu)]).
Proof.
  intros Hi d. unfold ioapicenable. destruct (mpok =? 0); [apply acts_ret|]. unfold ioapicwrite. repeat mstep. eexists. split; [reflexivity|]. split; try done.
  cbn. unfold route. cbn [fst snd]. unfold REG_TABLE, T_IRQ0. by rewrite !u32_small by lia.
Qed.

Lemma inb_acts answer port d : exists r d', inb answer port d = Ret (r, d') /\ after d d' [] [].
Proof. eexists _, _. split; [reflexivity|]. by split. Qed.

Lemma acts_com_wait answer n : acts (com_wait answer n) [] [].
Proof.
  induction n as [|n IH]; cbn [com_wait]; [apply acts_ret|]. intros d. destruct (inb_acts answer (COM1 + 5) d) as (r & d1 & E & A).
  rewrite (bind_ret_eq _ _ _ _ _ E). destruct (negb _); [by exists d1|]. destruct (IH d1) as (d2 & E2 & A2). exists d2. split; [done|].
  by eapply (after_trans _ _ _ [] [] [] []).
Qed.
Lemma acts_com_puts answer l : acts (com_puts answer l) [] [].
Proof.
  induction l as [|c l IH]; cbn [com_puts]; [apply acts_ret|]. apply acts_then; [|done]. intros d. unfold com_putc. mstep. destruct (com1 d =? 0); [apply acts_ret|].
  by apply acts_then; [apply acts_com_wait|apply acts_outb].
Qed.

Lemma after_nil_l d d1 d2 p i : after d d1 [] [] -> after d1 d2 p i -> after d d2 p i.
Proof. apply (after_trans d d1 d2 [] p [] i). Qed.

(** What uartinit leaves, from [d]: *)
Definition uart_set (mpok : Z) (d d' : dev_t) : Prop :=
  (com1 d' = 0 /\ after d d' [] []) \/ (com1 d' = 1 /\ after (v_com1 1 d) d' [IRQ_COM1] (if mpok =? 0 then [] else [(IRQ_COM1, 0)])).
Lemma uart_set_l mpok d d1 d' : after d d1 [] [] -> uart_set mpok d1 d' -> uart_set mpok d d'.
Proof.
  intros A [[H1 H2]|[H1 H2]]; [left|right]; (split; [done|]); [by eapply after_nil_l|]. eapply after_nil_l; [|exact H2].
  destruct A as [A1 A2 A3 A4]. by split.
Qed.
Lemma uart_then mpok c k : acts c [] [] -> (forall d, com1 d = 0 -> exists d', k d = Ret (tt, d') /\ uart_set mpok d d') ->
  forall d, com1 d = 0 -> exists d', (c ;; k) d = Ret (tt, d') /\ uart_set mpok d d'.
Proof.
  intros H Hk d Hd. destruct (H d) as (d1 & E & A). destruct (Hk d1) as (d2 & E2 & S2); [by rewrite (af_com1 _ _ _ _ A)|].
  exists d2. rewrite (bind_ret_eq _ _ _ _ _ E). split; [done|]. by eapply uart_set_l.
Qed.

Lemma uartinit_spec mpok answer d : com1 d = 0 -> exists d', uartinit mpok answer d = Ret (tt, d') /\ uart_set mpok d d'.
Proof.
  revert d. unfold uartinit. do 7 (apply uart_then; [by apply acts_outb|]). intros d Hd.
  destruct (inb_acts answer (COM1 + 5) d) as (r & d1 & E & A). rewrite (bind_ret_eq _ _ _ _ _ E).
  destruct (r =? 0xFF); [exists d1; split; [done|]; left; split; [rewrite (af_com1 _ _ _ _ A); done|done]|]. mstep.
  destruct (inb_acts answer (COM1 + 2) (v_com1 1 d1)) as (r2 & d2 & E2 & A2). rewrite (bind_ret_eq _ _ _ _ _ E2).
  destruct (inb_acts answer (COM1 + 0) d2) as (r3 & d3 & E3 & A3). rewrite (bind_ret_eq _ _ _ _ _ E3).
  assert (acts (picenable IRQ_COM1 ;; ioapicenable mpok IRQ_COM1 0 ;; com_puts answer [120; 118; 54; 46; 46; 46; 10]) [IRQ_COM1] (if mpok =? 0 then [] else [(IRQ_COM1, 0)])) as H.
  { apply (acts_bind _ _ [IRQ_COM1] [] []); [apply acts_picenable|]. rewrite <- (app_nil_r (if mpok =? 0 then _ else _)).
    apply (acts_bind _ _ [] []); [by apply acts_ioapicenable|apply acts_com_puts]. }
  destruct (H d3) as (d4 & E4 & A4). exists d4. split; [done|]. apply (uart_set_l mpok d d1); [done|]. right.
  pose proof (after_nil_l _ _ _ _ _ A2 (after_nil_l _ _ _ _ _ A3 A4)) as A5. split; [|done]. by rewrite (af_com1 _ _ _ _ A5).
Qed.

(** ** The waits for the hardware *)

Definition disk_answers (answer : Z -> Z -> Z) (fuel : nat) : Prop :=
  forall n, exists k, (k < fuel)%nat /\ Z.land (u8 (answer 0x1f7 (n + Z.of_nat k))) (Z.lor 0x80 0x40) = 0x40.
Definition apic_answers (icrlo : Z -> Z) (fuel : nat) : Prop := forall n, exists k, (k < fuel)%nat /\ Z.land (icrlo (n + Z.of_nat k)) A_DELIVS = 0.

Lemma ide_ready_acts answer k : forall fuel d, (k < fuel)%nat -> Z.land (u8 (answer 0x1f7 (nread d 0x1f7 + Z.of_nat k))) (Z.lor 0x80 0x40) = 0x40 ->
  exists d', ide_ready answer fuel d = Ret (tt, d') /\ after d d' [] [].
Proof.
  induction k as [|k IH]; intros [|fuel] d Hf Hk; try lia; cbn [ide_ready]; unfold inb; unfold bind at 1; set (d1 := v_nread _ d);
    (assert (after d d1 [] []) as A by by split).
  - rewrite Z.add_0_r in Hk. rewrite Hk, Z.eqb_refl. cbn [negb]. by exists d1.
  - destruct (negb _); [|by exists d1]. destruct (IH fuel d1) as (d2 & E2 & A2); [lia| |].
    + unfold d1. cbn [nread v_nread]. rewrite upd_same. replace (nread d 503 + 1 + Z.of_nat k) with (nread d 503 + Z.of_nat (S k)) by lia. done.
    + exists d2. split; [done|by eapply after_nil_l].
Qed.
Lemma lapic_wait_acts icrlo k : forall fuel d, (k < fuel)%nat -> Z.land (icrlo (apic_polls d + Z.of_nat k)) A_DELIVS = 0 ->
  exists d', lapic_wait icrlo fuel d = Ret (tt, d') /\ after d d' [] [].
Proof.
  induction k as [|k IH]; intros [|fuel] d Hf Hk; try lia; cbn [lapic_wait]; mstep; mstep; set (d1 := v_apic_polls _ d);
    (assert (after d d1 [] []) as A by by split).
  - rewrite Z.add_0_r in Hk. rewrite Hk. cbn [negb Z.eqb]. by exists d1.
  - destruct (negb _); [|by exists d1]. destruct (IH fuel d1) as (d2 & E2 & A2); [lia| |].
    + unfold d1. cbn [apic_polls v_apic_polls]. replace (apic_polls d + 1 + Z.of_nat k) with (apic_polls d + Z.of_nat (S k)) by lia. done.
    + exists d2. split; [done|by eapply after_nil_l].
Qed.

Lemma lapicinit_acts lapicaddr icrlo ver fuel : apic_answers icrlo fuel -> acts (lapicinit lapicaddr icrlo ver fuel) [] [].
Proof.
  intros H. unfold lapicinit. destruct (lapicaddr =? 0); [apply acts_ret|].
  repeat (first [apply acts_lapicw | apply acts_then; [first [apply acts_lapicw | destruct (4 <=? _); [apply acts_lapicw|apply acts_ret] |
    intros d; destruct (H (apic_polls d)) as (k & Hk & E); by apply (lapic_wait_acts icrlo k)]|]]).
Qed.

Lemma probe_acts answer n : acts (probe_disk1 answer n) [] [].
Proof.
  induction n as [|n IH]; cbn [probe_disk1]; [apply acts_ret|]. intros d. destruct (inb_acts answer 0x1f7 d) as (r & d1 & E & A).
  rewrite (bind_ret_eq _ _ _ _ _ E). destruct (negb _).
  - eexists. split; [reflexivity|]. eapply after_nil_l; [exact A|]. by split.
  - destruct (IH d1) as (d2 & E2 & A2). exists d2. split; [done|by eapply after_nil_l].
Qed.
Lemma ideinit_acts mpok ncpus answer fuel : disk_answers answer fuel ->
  acts (ideinit mpok ncpus answer fuel) [IRQ_IDE] (if mpok =? 0 then [] else [(IRQ_IDE, ncpus - 1)]).
Proof.
  intros H. unfold ideinit. apply (acts_bind _ _ [IRQ_IDE] [] []); [apply acts_picenable|]. rewrite <- (app_nil_r (if mpok =? 0 then _ else _)).
  apply (acts_bind _ _ [] []); [by apply acts_ioapicenable|].
  apply acts_then; [intros d; destruct (H (nread d 0x1f7)) as (k & Hk & E); by apply (ide_ready_acts answer k)|].
  apply acts_then; [by apply acts_outb|]. apply acts_then; [apply probe_acts|by apply acts_outb].
Qed.

(** ** The controllers at the start *)

Lemma picinit_spec d : 0 <= irqmask d < 0xFFFF -> exists d', picinit d = Ret (tt, d') /\
  irqmask d' = irqmask d /\ io_regs d' = io_regs d /\ com1 d' = com1 d /\ synced d'.
Proof.
  intros H. unfold picinit. do 15 mstep. cbn [irqmask v_outs]. rewrite (proj2 (Z.eqb_neq _ 0xFFFF)) by lia. cbn [negb].
  unfold picsetmask. repeat mstep. eexists. split; [reflexivity|]. cbn [irqmask io_regs com1 v_outs v_irqmask].
  assert (u16 (irqmask d) = irqmask d) as Eu by (unfold u16; apply Z.mod_small; lia). rewrite !Eu. split_and!; try done.
Qed.

(** The entries from [i] on, [n] of them, are disabled. *)
Lemma ioapic_disable_spec n : forall i d, 0 <= i -> i + Z.of_nat n <= 256 -> exists d', ioapic_disable n i d = Ret (tt, d') /\
  irqmask d' = irqmask d /\ outs d' = outs d /\ com1 d' = com1 d /\
  (forall r, r < REG_TABLE + 2 * i -> io_regs d' r = io_regs d r) /\
  (forall j, i <= j < i + Z.of_nat n -> io_regs d' (REG_TABLE + 2 * j) = Z.lor INT_DISABLED (T_IRQ0 + j) /\ io_regs d' (REG_TABLE + 2 * j + 1) = 0).
Proof.
  unfold REG_TABLE. induction n as [|n IH]; intros i d Hi Hn; cbn [ioapic_disable]; [exists d; split_and!; try done; intros; lia|].
  unfold ioapicwrite. do 2 mstep. set (d1 := v_io_regs _ _). destruct (IH (i + 1) d1 ltac:(lia) ltac:(lia)) as (d2 & E2 & M2 & O2 & C2 & L2 & R2).
  assert (u32 (Z.lor INT_DISABLED (T_IRQ0 + i)) = Z.lor INT_DISABLED (T_IRQ0 + i)) as Eu.
  { unfold INT_DISABLED, T_IRQ0. rewrite (lor_low_add _ _ 16); [apply u32_small; lia|lia|done|]. change (2 ^ 16) with 65536. lia. }
  assert (forall r, io_regs d1 r = upd (upd (io_regs d) (16 + 2 * i) (Z.lor INT_DISABLED (T_IRQ0 + i))) (16 + 2 * i + 1) 0 r) as E1.
  { intros r. unfold d1. cbn [io_regs io_reg v_io_regs v_io_reg]. unfold REG_TABLE. rewrite Eu, !u32_small by lia. done. }
  exists d2. split_and!; try done.
  - intros r Hr. rewrite L2, E1 by lia. unfold upd. by rewrite !(proj2 (Z.eqb_neq _ _)) by lia.
  - intros j Hj. destruct (decide (j = i)) as [->|]; [|apply R2; lia]. rewrite !L2, !E1 by lia. unfold upd.
    rewrite !Z.eqb_refl, (proj2 (Z.eqb_neq (16 + 2 * i) _)) by lia. done.
Qed.

(** The number of the last entry of the I/O APIC *)
Definition maxintr (d : dev_t) : Z := Z.land (Z.shiftr (u32 (io_regs d REG_VER)) 16) 0xFF.
Lemma maxintr_range d : 0 <= maxintr d < 256.
Proof. unfold maxintr. change 0xFF with (2 ^ 8 - 1). rewrite land_low_mask by lia. by apply Z.mod_pos_bound. Qed.

Lemma ioapicinit_spec mpok apicid d : exists d', ioapicinit mpok apicid d = Ret (tt, d') /\
  irqmask d' = irqmask d /\ outs d' = outs d /\ com1 d' = com1 d /\
  (mpok <> 0 -> forall j, 0 <= j <= maxintr d -> io_regs d' (REG_TABLE + 2 * j) = Z.lor INT_DISABLED (T_IRQ0 + j) /\ io_regs d' (REG_TABLE + 2 * j + 1) = 0).
Proof.
  unfold ioapicinit. destruct (Z.eqb_spec mpok 0) as [E|E]; [exists d; split_and!; done|]. unfold ioapicread. do 2 mstep.
  cbn [io_regs io_reg v_io_reg]. change (u32 REG_VER) with REG_VER. fold (maxintr d). pose proof (maxintr_range d) as Hm.
  set (d1 := v_io_reg _ (v_io_reg _ d)).
  assert (exists d2, (if negb (Z.shiftr (u32 (io_regs d (u32 REG_ID))) 24 =? apicid) then modify (v_not_mp true) else ret tt) d1 = Ret (tt, d2) /\
    irqmask d2 = irqmask d /\ outs d2 = outs d /\ com1 d2 = com1 d) as (d2 & E2 & M2 & O2 & C2) by (destruct (negb _); eexists; split; [reflexivity|done|reflexivity|done]).
  rewrite (bind_ret_eq _ _ _ _ _ E2). destruct (ioapic_disable_spec (Z.to_nat (maxintr d + 1)) 0 d2 ltac:(lia) ltac:(lia)) as (d3 & E3 & M3 & O3 & C3 & _ & R3).
  exists d3. split_and!; [done|congruence|congruence|congruence|]. intros _ j Hj. apply R3. lia.
Qed.

(** ** The interrupts that reach the processors *)

(** The devices with interrupts, and the CPU for each *)
Definition devices_on (com : Z) (ncpus : Z) : list (Z * Z) := (IRQ_KBD, 0) :: (if com =? 0 then [] else [(IRQ_COM1, 0)]) ++ [(IRQ_IDE, ncpus - 1)].

Lemma route_other es : forall r x, (forall e, e ∈ es -> x <> REG_TABLE + 2 * fst e /\ x <> REG_TABLE + 2 * fst e + 1) -> fold_left route es r x = r x.
Proof.
  induction es as [|e es IH]; intros r x H; cbn [fold_left]; [done|]. rewrite IH by (intros e' He'; apply H; by right).
  destruct (H e ltac:(by left)) as [H1 H2]. unfold route, upd. by rewrite !(proj2 (Z.eqb_neq _ _)).
Qed.
Lemma route_in es : forall r i c, NoDup (map fst es) -> (i, c) ∈ es ->
  fold_left route es r (REG_TABLE + 2 * i) = T_IRQ0 + i /\ fold_left route es r (REG_TABLE + 2 * i + 1) = u32 (Z.shiftl c 24).
Proof.
  unfold REG_TABLE. induction es as [|e es IH]; intros r i c Hd Hin; [by apply not_elem_of_nil in Hin|]. cbn [fold_left map] in *. apply NoDup_cons in Hd as [He Hd].
  apply elem_of_cons in Hin as [<-|Hin]; [|by apply IH]. cbn [fst] in He.
  assert (forall e, e ∈ es -> fst e <> i) as Hne. { intros e He' E. apply He. rewrite <- E. apply list_elem_of_fmap. by exists e. }
  rewrite !route_other by (intros e He'; specialize (Hne e He'); unfold REG_TABLE; lia). unfold route, upd, REG_TABLE. cbn [fst snd].
  rewrite !Z.eqb_refl, (proj2 (Z.eqb_neq (16 + 2 * i) _)) by lia. done.
Qed.

Lemma mask_bits com mp irq : 0 <= irq < 16 ->
  Z.testbit (fold_left unmask (IRQ_KBD :: (if com : bool then [] else [IRQ_COM1]) ++ [IRQ_IDE] ++ (if mp : bool then [IRQ_TIMER] else [])) irqmask0) irq =
  negb (bool_decide (irq ∈ IRQ_SLAVE :: IRQ_KBD :: (if com : bool then [] else [IRQ_COM1]) ++ [IRQ_IDE] ++ (if mp : bool then [IRQ_TIMER] else []))).
Proof.
  intros H. assert (irq ∈ seqZ 0 16) as Hin by (apply elem_of_seqZ; lia). clear H. revert irq Hin.
  apply Forall_forall. destruct com, mp; repeat (constructor; [vm_compute; reflexivity|]); constructor.
Qed.

Lemma timerinit_acts : acts timerinit [IRQ_TIMER] [].
Proof. unfold timerinit. do 3 (apply acts_then; [by apply acts_outb|]). apply acts_picenable. Qed.
Lemma kbd_enable_acts mpok : acts (kbd_enable mpok) [IRQ_KBD] (if mpok =? 0 then [] else [(IRQ_KBD, 0)]).
Proof. apply (acts_bind _ _ [IRQ_KBD] [] []); [apply acts_picenable|by apply acts_ioapicenable]. Qed.

(** The calls after ioapicinit *)
Lemma enable_spec mpok ncpus answer fuel d : com1 d = 0 -> disk_answers answer fuel -> exists d',
  (kbd_enable mpok ;; uartinit mpok answer ;; ideinit mpok ncpus answer fuel ;; if mpok =? 0 then timerinit else ret tt) d = Ret (tt, d') /\
  irqmask d' = fold_left unmask (map fst (devices_on (com1 d') ncpus) ++ (if mpok =? 0 then [IRQ_TIMER] else [])) (irqmask d) /\
  io_regs d' = fold_left route (if mpok =? 0 then [] else devices_on (com1 d') ncpus) (io_regs d) /\ (synced d -> synced d').
Proof.
  intros Hc Hd. destruct (kbd_enable_acts mpok d) as (d1 & E1 & A1). rewrite (bind_ret_eq _ _ _ _ _ E1).
  destruct (uartinit_spec mpok answer d1) as (d2 & E2 & U2); [by rewrite (af_com1 _ _ _ _ A1)|]. rewrite (bind_ret_eq _ _ _ _ _ E2).
  destruct (ideinit_acts mpok ncpus answer fuel Hd d2) as (d3 & E3 & A3). rewrite (bind_ret_eq _ _ _ _ _ E3).
  assert (acts (if mpok =? 0 then timerinit else ret tt) (if mpok =? 0 then [IRQ_TIMER] else []) []) as H4 by (destruct (mpok =? 0); [apply timerinit_acts|apply acts_ret]).
  destruct (H4 d3) as (d4 & E4 & A4). exists d4. split; [done|]. pose proof (after_trans _ _ _ _ _ _ _ A3 A4) as A34.
  rewrite (af_com1 _ _ _ _ A34). destruct U2 as [[U C]|[U C]]; rewrite U.
  - destruct (after_trans _ _ _ _ _ _ _ A1 (after_trans _ _ _ _ _ _ _ C A34)) as [M R S _]. split_and!; [exact M| |exact S].
    rewrite R. by destruct (mpok =? 0).
  - pose proof (after_trans _ _ _ _ _ _ _ C A34) as [M R S _]. destruct A1 as [M1 R1 S1 _]. cbn [irqmask io_regs v_com1] in *. rewrite M1 in M. rewrite R1 in R.
    split_and!; [exact M| |intros Hs; apply S, S1, Hs]. rewrite R. by destruct (mpok =? 0).
Qed.

(** C34 The interrupts of the devices: whatever the hardware answers, as long as
    the disk becomes ready and the local APIC delivers, the calls of main end
    with the two interrupt controllers holding the driver's mask, in which the
    keyboard, the disk, the line of the slave controller, the serial port if
    there is one, and on a uniprocessor the timer, are on and nothing else is;
    on a multiprocessor the I/O APIC routes the keyboard and the serial port
    to CPU 0 and the disk to the last CPU, with the vectors that trap handles,
    and every other entry is disabled. *)
Theorem device_interrupts (mpok ncpus apicid lapicaddr : Z) (answer : Z -> Z -> Z) (icrlo : Z -> Z) (ver : Z) (fuel : nat) (d0 : dev_t) :
  irqmask d0 = irqmask0 -> com1 d0 = 0 -> apic_answers icrlo fuel -> disk_answers answer fuel ->
  exists d, main_devices mpok ncpus apicid lapicaddr answer icrlo ver fuel d0 = Ret (tt, d) /\ synced d /\
    (forall irq, 0 <= irq < 16 -> Z.testbit (irqmask d) irq =
      negb (bool_decide (irq ∈ IRQ_SLAVE :: map fst (devices_on (com1 d) ncpus) ++ (if mpok =? 0 then [IRQ_TIMER] else [])))) /\
    (mpok <> 0 -> forall i, 0 <= i <= maxintr d0 ->
      (forall c, (i, c) ∈ devices_on (com1 d) ncpus -> io_regs d (REG_TABLE + 2 * i) = T_IRQ0 + i /\ io_regs d (REG_TABLE + 2 * i + 1) = u32 (Z.shiftl c 24)) /\
      (i ∉ map fst (devices_on (com1 d) ncpus) -> io_regs d (REG_TABLE + 2 * i) = Z.lor INT_DISABLED (T_IRQ0 + i) /\ io_regs d (REG_TABLE + 2 * i + 1) = 0)).
Proof.
  intros Hm Hc Ha Hd. destruct (lapicinit_acts lapicaddr icrlo ver fuel Ha d0) as (d1 & E1 & A1). destruct A1 as [M1 R1 _ C1]. cbn [fold_left] in *.
  destruct (picinit_spec d1) as (d2 & E2 & M2 & R2 & C2 & S2); [by rewrite M1, Hm|].
  destruct (ioapicinit_spec mpok apicid d2) as (d3 & E3 & M3 & O3 & C3 & R3).
  destruct (enable_spec mpok ncpus answer fuel d3) as (d & E & M & R & S); [congruence|done|]. exists d.
  unfold main_devices. rewrite (bind_ret_eq _ _ _ _ _ E1), (bind_ret_eq _ _ _ _ _ E2), (bind_ret_eq _ _ _ _ _ E3). split; [exact E|]. split.
  { apply S. unfold synced. rewrite O3, M3. exact S2. } split.
  - intros irq Hi. rewrite M, M3, M2, M1, Hm. pose proof (mask_bits (com1 d =? 0) (mpok =? 0) irq Hi) as Hb. unfold devices_on.
    destruct (com1 d =? 0), (mpok =? 0); exact Hb.
  - intros Hp i Hi. rewrite R, (proj2 (Z.eqb_neq _ _) Hp).
    assert (maxintr d2 = maxintr d0) as Emax by (unfold maxintr; by rewrite R2, R1). destruct (R3 Hp i ltac:(lia)) as [T1 T2]. split.
    + intros c Hin. apply route_in; [|done]. unfold devices_on. destruct (com1 d =? 0); repeat (constructor; [set_solver|]); constructor.
    + intros Hn. rewrite !route_other; [done| |]; intros e He; (assert (fst e <> i) by (intros <-; apply Hn, list_elem_of_fmap; by exists e)); unfold REG_TABLE; lia.
Qed.

(** A machine with two CPUs, a serial port, and a disk that is ready at once *)
Lemma device_interrupts_witness : exists d,
  main_devices 1 2 0 0xFEE00000 (fun _ _ => 0x60) (fun _ => 0) 0x50014 1 (mkDev [] (fun _ => 0) irqmask0 0 (fun r => if r =? 1 then 0x170011 else 0) [] 0 0 0 (fun _ => 0) false) = Ret (tt, d) /\
  synced d.
Proof.
  destruct (device_interrupts 1 2 0 0xFEE00000 (fun _ _ => 0x60) (fun _ => 0) 0x50014 1
    (mkDev [] (fun _ => 0) irqmask0 0 (fun r => if r =? 1 then 0x170011 else 0) [] 0 0 0 (fun _ => 0) false)) as (d & E & S & _).
  - reflexivity.
  - reflexivity.
  - intros n. exists 0%nat. split; [lia|reflexivity].
  - intros n. exists 0%nat. split; [lia|reflexivity].
  - exists d. split; [exact E|exact S].
Defined.
