(* ===== verification/Descriptors.v ===== *)
(** * Segments and gates (mmu.h, seginit and switchuvm of vm.c, tvinit of trap.c)

    The descriptors that the processor reads: segments, the task state segment
    and interrupt gates, as records of the bit fields of mmu.h and as the 64-bit
    words they are laid out in.  The theorems decode the words the way the
    processor does. *)

From Stdlib Require Import ZArith Lia String Bool.
From stdpp Require Import base numbers sets list.
From S2P Require Import Prelude Params Spinlock FsState Exec.

(** ** Bit fields *)

(** A structure of bit fields: widths and values, from the lowest bit up. *)
Fixpoint pack (fs : list (Z * Z)) : Z :=
  match fs with
  | [] => 0
  | (w, v) :: fs => v mod 2 ^ w + 2 ^ w * pack fs
  end.
(** The [n] bits of a word from bit [o] on. *)
Definition bits (x o n : Z) : Z := (x / 2 ^ o) mod 2 ^ n.

Lemma bits_head w v fs : 0 <= w -> bits (pack ((w, v) :: fs)) 0 w = v mod 2 ^ w.
Proof.
  intros H. unfold bits. cbn [pack]. rewrite Z.pow_0_r, Z.div_1_r, Z.mul_comm, Z.mod_add by (apply Z.pow_nonzero; lia).
  apply Z.mod_mod, Z.pow_nonzero; lia.
Qed.
Lemma bits_tail w v fs o n : 0 <= w <= o -> bits (pack ((w, v) :: fs)) o n = bits (pack fs) (o - w) n.
Proof.
  intros H. unfold bits. cbn [pack]. replace o with (w + (o - w)) at 1 by lia. rewrite Z.pow_add_r by lia.
  pose proof (Z.pow_pos_nonneg 2 w ltac:(lia) ltac:(lia)). rewrite <- Z.div_div by (try apply Z.pow_nonzero; lia || apply Z.pow_pos_nonneg; lia).
  rewrite Z.mul_comm, Z.div_add by lia. rewrite (Z.div_small (v mod 2 ^ w)) by (by apply Z.mod_pos_bound). done.
Qed.
Ltac bit_field := repeat rewrite bits_tail by lia; match goal with |- context [bits (pack ((?w, _) :: _)) ?o ?w] => change o with 0 end; rewrite bits_head by lia.

(** ** Segments *)

Record segdesc : Type := mkSeg {
  lim_15_0 : Z; base_15_0 : Z; base_23_16 : Z; sd_type : Z; sd_s : Z; sd_dpl : Z; sd_p : Z;
  lim_19_16 : Z; sd_avl : Z; sd_rsv1 : Z; sd_db : Z; sd_g : Z; base_31_24 : Z
}.
Definition seg_word (d : segdesc) : Z :=
  pack [(16, lim_15_0 d); (16, base_15_0 d); (8, base_23_16 d); (4, sd_type d); (1, sd_s d); (2, sd_dpl d); (1, sd_p d);
        (4, lim_19_16 d); (1, sd_avl d); (1, sd_rsv1 d); (1, sd_db d); (1, sd_g d); (8, base_31_24 d)].

Definition SEG (type base lim dpl : Z) : segdesc :=
  mkSeg (Z.land (Z.shiftr lim 12) 0xffff) (Z.land (u32 base) 0xffff) (Z.land (Z.shiftr (u32 base) 16) 0xff) type 1 dpl 1
    (Z.shiftr (u32 lim) 28) 0 0 1 1 (Z.shiftr (u32 base) 24).
Definition SEG16 (type base lim dpl : Z) : segdesc :=
  mkSeg (Z.land lim 0xffff) (Z.land (u32 base) 0xffff) (Z.land (Z.shiftr (u32 base) 16) 0xff) type 1 dpl 1
    (Z.shiftr (u32 lim) 16) 0 0 1 0 (Z.shiftr (u32 base) 24).
Definition sd_with_s (v : Z) (d : segdesc) : segdesc :=
  mkSeg (lim_15_0 d) (base_15_0 d) (base_23_16 d) (sd_type d) v (sd_dpl d) (sd_p d) (lim_19_16 d) (sd_avl d) (sd_rsv1 d) (sd_db d) (sd_g d) (base_31_24 d).

Definition SEG_KCODE : Z := 1.
Definition SEG_KDATA : Z := 2.
Definition SEG_KCPU : Z := 3.
Definition SEG_UCODE : Z := 4.
Definition SEG_UDATA : Z := 5.
Definition SEG_TSS : Z := 6.
Definition NSEGS : Z := 7.
Definition DPL_USER : Z := 0x3.
Definition STA_X : Z := 0x8.
Definition STA_W : Z := 0x2.
Definition STA_R : Z := 0x2.
Definition STS_T32A : Z := 0x9.
Definition STS_IG32 : Z := 0xE.
Definition STS_TG32 : Z := 0xF.

(** How the processor reads a segment descriptor. *)
Record seg_view : Type := mkView { v_base : Z; v_limit : Z; v_type : Z; v_code_or_data : bool; v_dpl : Z; v_present : bool }.
Definition seg_decode (w : Z) : seg_view :=
  let limit := bits w 0 16 + 0x10000 * bits w 48 4 in
  mkView (bits w 16 16 + 0x10000 * bits w 32 8 + 0x1000000 * bits w 56 8)
    (if bits w 55 1 =? 1 then limit * 4096 + 4095 else limit)
    (bits w 40 4) (bits w 44 1 =? 1) (bits w 45 2) (bits w 47 1 =? 1).

Lemma seg_word_fields d : let w := seg_word d in
  bits w 0 16 = lim_15_0 d mod 2 ^ 16 /\ bits w 16 16 = base_15_0 d mod 2 ^ 16 /\ bits w 32 8 = base_23_16 d mod 2 ^ 8 /\
  bits w 40 4 = sd_type d mod 2 ^ 4 /\ bits w 44 1 = sd_s d mod 2 ^ 1 /\ bits w 45 2 = sd_dpl d mod 2 ^ 2 /\ bits w 47 1 = sd_p d mod 2 ^ 1 /\
  bits w 48 4 = lim_19_16 d mod 2 ^ 4 /\ bits w 55 1 = sd_g d mod 2 ^ 1 /\ bits w 56 8 = base_31_24 d mod 2 ^ 8.
Proof. cbv zeta. unfold seg_word. split_and!; bit_field; done. Qed.

Lemma land_ffff x : Z.land x 0xffff = x mod 65536.
Proof. apply (land_low_mask x 16). lia. Qed.
Lemma land_ff x : Z.land x 0xff = x mod 256.
Proof. apply (land_low_mask x 8). lia. Qed.

(** The base of both kinds of segments *)
Lemma split_base b : 0 <= b < 0x100000000 ->
  Z.land (u32 b) 0xffff mod 2 ^ 16 + 0x10000 * (Z.land (Z.shiftr (u32 b) 16) 0xff mod 2 ^ 8) + 0x1000000 * (Z.shiftr (u32 b) 24 mod 2 ^ 8) = b.
Proof.
  intros H. rewrite u32_small by done. rewrite land_ffff, land_ff, !Z.shiftr_div_pow2 by lia.
  change (2 ^ 16) with 65536. change (2 ^ 8) with 256. change (2 ^ 24) with 16777216. mlia.
Qed.

Lemma SEG_decode type base lim dpl : 0 <= type < 16 -> 0 <= base < 0x100000000 -> 0 <= lim < 0x100000000 -> 0 <= dpl < 4 ->
  seg_decode (seg_word (SEG type base lim dpl)) = mkView base (Z.lor lim 0xfff) type true dpl true.
Proof.
  intros Ht Hb Hl Hd. destruct (seg_word_fields (SEG type base lim dpl)) as (E1 & E2 & E3 & E4 & E5 & E6 & E7 & E8 & E9 & E10).
  unfold seg_decode. cbv zeta in *. rewrite E1, E2, E3, E4, E5, E6, E7, E8, E9, E10. cbn [SEG lim_15_0 base_15_0 base_23_16 sd_type sd_s sd_dpl sd_p lim_19_16 sd_g base_31_24].
  rewrite split_base by done. change (1 mod 2 ^ 1 =? 1) with true. cbv iota. f_equal; [|apply Z.mod_small; done|apply Z.mod_small; done].
  rewrite u32_small, land_ffff, !Z.shiftr_div_pow2 by lia. change (2 ^ 12) with 4096. change (2 ^ 16) with 65536. change (2 ^ 28) with 268435456. change (2 ^ 4) with 16.
  assert (Z.lor lim 0xfff = lim / 4096 * 4096 + 4095) as ->; [|mlia].
  replace lim with (Z.lor (lim / 4096 * 4096) (lim mod 4096)) at 1 by (rewrite (lor_low_add _ _ 12); [mlia|lia|by apply Z.mod_mul|by apply Z.mod_pos_bound]).
  rewrite <- Z.lor_assoc. assert (Z.lor (lim mod 4096) 4095 = 4095) as ->.
  { apply Z.bits_inj'. intros i Hi. rewrite Z.lor_spec. change 4095 with (Z.ones 12). rewrite Z.testbit_ones by lia. change 4096 with (2 ^ 12).
    destruct (Z.ltb_spec i 12); [by rewrite (proj2 (Z.leb_le 0 i)) by lia; rewrite orb_true_r|]. rewrite Z.mod_pow2_bits_high by lia. by rewrite andb_false_r. }
  apply (lor_low_add _ _ 12); [lia|by apply Z.mod_mul|done].
Qed.
Lemma SEG16_decode type base lim dpl : 0 <= type < 16 -> 0 <= base < 0x100000000 -> 0 <= lim < 0x100000 -> 0 <= dpl < 4 ->
  seg_decode (seg_word (sd_with_s 0 (SEG16 type base lim dpl))) = mkView base lim type false dpl true.
Proof.
  intros Ht Hb Hl Hd. destruct (seg_word_fields (sd_with_s 0 (SEG16 type base lim dpl))) as (E1 & E2 & E3 & E4 & E5 & E6 & E7 & E8 & E9 & E10).
  unfold seg_decode. cbv zeta in *. rewrite E1, E2, E3, E4, E5, E6, E7, E8, E9, E10.
  cbn [SEG16 sd_with_s lim_15_0 base_15_0 base_23_16 sd_type sd_s sd_dpl sd_p lim_19_16 sd_g base_31_24].
  rewrite split_base by done. change (0 mod 2 ^ 1 =? 1) with false. change (1 mod 2 ^ 1 =? 1) with true. cbv iota. f_equal; [|apply Z.mod_small; done|apply Z.mod_small; done].
  rewrite u32_small, land_ffff, !Z.shiftr_div_pow2 by lia. change (2 ^ 16) with 65536. change (2 ^ 4) with 16. mlia.
Qed.

(** ** Gates *)

Record gatedesc : Type := mkGate {
  off_15_0 : Z; gd_cs : Z; gd_args : Z; gd_rsv1 : Z; gd_type : Z; gd_s : Z; gd_dpl : Z; gd_p : Z; off_31_16 : Z
}.
Definition gate_word (g : gatedesc) : Z :=
  pack [(16, off_15_0 g); (16, gd_cs g); (5, gd_args g); (3, gd_rsv1 g); (4, gd_type g); (1, gd_s g); (2, gd_dpl g); (1, gd_p g); (16, off_31_16 g)].
Definition SETGATE (istrap sel off d : Z) : gatedesc :=
  mkGate (Z.land (u32 off) 0xffff) sel 0 0 (if negb (istrap =? 0) then STS_TG32 else STS_IG32) 0 d 1 (Z.shiftr (u32 off) 16).

(** How the processor reads a gate: where it enters, in which segment, whether it
    leaves interrupts on, and from which privilege level an int instruction may
    use it. *)
Record gate_view : Type := mkGateView { g_offset : Z; g_selector : Z; g_trap : bool; g_system : bool; g_dpl : Z; g_present : bool }.
Definition gate_decode (w : Z) : gate_view :=
  mkGateView (bits w 0 16 + 0x10000 * bits w 48 16) (bits w 16 16) (bits w 40 4 =? STS_TG32)
    ((bits w 44 1 =? 0) && ((bits w 40 4 =? STS_TG32) || (bits w 40 4 =? STS_IG32))) (bits w 45 2) (bits w 47 1 =? 1).

Lemma SETGATE_decode istrap sel off d : 0 <= sel < 0x10000 -> 0 <= off < 0x100000000 -> 0 <= d < 4 ->
  gate_decode (gate_word (SETGATE istrap sel off d)) = mkGateView off sel (negb (istrap =? 0)) true d true.
Proof.
  intros Hs Ho Hd. unfold gate_decode, gate_word. set (g := SETGATE istrap sel off d).
  assert (forall fs : list (Z * Z), fs = [(16, off_15_0 g); (16, gd_cs g); (5, gd_args g); (3, gd_rsv1 g); (4, gd_type g); (1, gd_s g); (2, gd_dpl g); (1, gd_p g); (16, off_31_16 g)] ->
    bits (pack fs) 0 16 = off_15_0 g mod 2 ^ 16 /\ bits (pack fs) 16 16 = gd_cs g mod 2 ^ 16 /\ bits (pack fs) 40 4 = gd_type g mod 2 ^ 4 /\ bits (pack fs) 44 1 = gd_s g mod 2 ^ 1 /\
    bits (pack fs) 45 2 = gd_dpl g mod 2 ^ 2 /\ bits (pack fs) 47 1 = gd_p g mod 2 ^ 1 /\ bits (pack fs) 48 16 = off_31_16 g mod 2 ^ 16) as H.
  { intros fs ->. split_and!; bit_field; done. }
  destruct (H _ eq_refl) as (-> & -> & -> & -> & -> & -> & ->). cbn [g SETGATE off_15_0 gd_cs gd_type gd_s gd_dpl gd_p off_31_16].
  assert ((if negb (istrap =? 0) then STS_TG32 else STS_IG32) mod 2 ^ 4 = (if negb (istrap =? 0) then STS_TG32 else STS_IG32)) as -> by by destruct (negb _).
  f_equal; try (by apply Z.mod_small); try (by destruct (negb _)).
  rewrite u32_small, land_ffff, !Z.shiftr_div_pow2 by lia. change (2 ^ 16) with 65536. mlia.
Qed.

(** ** The tables of a CPU, and the interrupt descriptor table *)

(** The address and the limit that lgdt and lidt load *)
Definition table_reg (p size : Z) : Z * Z := (u16 p + 0x10000 * u16 (Z.shiftr (u32 p) 16), u16 (size - 1)).

Record tables : Type := mkTables {
  gdt : Z -> segdesc; ts_esp0 : Z; ts_ss0 : Z;
  gdtr : Z * Z; gs_reg : Z; task_reg : Z; page_reg : Z
}.
Definition set_gdt (i : Z) (d : segdesc) (t : tables) : tables :=
  mkTables (upd (gdt t) i d) (ts_esp0 t) (ts_ss0 t) (gdtr t) (gs_reg t) (task_reg t) (page_reg t).
Definition sizeof_segdesc : Z := 8.
(** struct taskstate: its fields and their sizes, which leave no padding *)
Definition taskstate : list (string * Z) :=
  [("link"%string, 4); ("esp0"%string, 4); ("ss0"%string, 2); ("padding1"%string, 2); ("esp1"%string, 4); ("ss1"%string, 2); ("padding2"%string, 2); ("esp2"%string, 4);
   ("ss2"%string, 2); ("padding3"%string, 2); ("cr3"%string, 4); ("eip"%string, 4); ("eflags"%string, 4); ("eax"%string, 4); ("ecx"%string, 4); ("edx"%string, 4);
   ("ebx"%string, 4); ("esp"%string, 4); ("ebp"%string, 4); ("esi"%string, 4); ("edi"%string, 4); ("es"%string, 2); ("padding4"%string, 2); ("cs"%string, 2);
   ("padding5"%string, 2); ("ss"%string, 2); ("padding6"%string, 2); ("ds"%string, 2); ("padding7"%string, 2); ("fs"%string, 2); ("padding8"%string, 2); ("gs"%string, 2);
   ("padding9"%string, 2); ("ldt"%string, 2); ("padding10"%string, 2); ("t"%string, 2); ("iomb"%string, 2)]%Z.
Definition sizeof_ts : Z := foldr (fun f n => snd f + n) 0 taskstate.

(** seginit: [gdt_addr] and [cpu_addr] are the addresses of c->gdt and c->cpu. *)
Definition seginit (gdt_addr cpu_addr : Z) (t : tables) : tables :=
  let t := set_gdt SEG_KCODE (SEG (Z.lor STA_X STA_R) 0 0xffffffff 0) t in
  let t := set_gdt SEG_KDATA (SEG STA_W 0 0xffffffff 0) t in
  let t := set_gdt SEG_UCODE (SEG (Z.lor STA_X STA_R) 0 0xffffffff DPL_USER) t in
  let t := set_gdt SEG_UDATA (SEG STA_W 0 0xffffffff DPL_USER) t in
  let t := set_gdt SEG_KCPU (SEG STA_W cpu_addr 8 0) t in
  mkTables (gdt t) (ts_esp0 t) (ts_ss0 t) (table_reg gdt_addr (sizeof_segdesc * NSEGS)) (Z.shiftl SEG_KCPU 3) (task_reg t) (page_reg t).

(** switchuvm, between pushcli and popcli: [ts_addr] is the address of cpu->ts;
    the panic is for a process without a page directory. *)
Definition load_task (ts_addr kstack pgdir : Z) (t : tables) : outcome tables :=
  let t := set_gdt SEG_TSS (SEG16 STS_T32A ts_addr (sizeof_ts - 1) 0) t in
  let t := set_gdt SEG_TSS (sd_with_s 0 (gdt t SEG_TSS)) t in
  let t := mkTables (gdt t) (u32 (kstack + KSTACKSIZE)) (Z.shiftl SEG_KDATA 3) (gdtr t) (gs_reg t) (Z.shiftl SEG_TSS 3) (page_reg t) in
  if pgdir =? 0 then Panic "switchuvm: no pgdir" else
  Ret (mkTables (gdt t) (ts_esp0 t) (ts_ss0 t) (gdtr t) (gs_reg t) (task_reg t) (v2p pgdir)).

(** tvinit, for the entry points [vectors] *)
Fixpoint set_gates (n : nat) (i : Z) (vectors : Z -> Z) (idt : Z -> gatedesc) : Z -> gatedesc :=
  match n with
  | O => idt
  | S n => set_gates n (i + 1) vectors (upd idt i (SETGATE 0 (Z.shiftl SEG_KCODE 3) (vectors i) 0))
  end.
Definition tvinit (vectors : Z -> Z) (idt : Z -> gatedesc) : Z -> gatedesc :=
  upd (set_gates 256 0 vectors idt) T_SYSCALL (SETGATE 1 (Z.shiftl SEG_KCODE 3) (vectors T_SYSCALL) DPL_USER).
Definition sizeof_gatedesc : Z := 8.
Definition idtinit (idt_addr : Z) : Z * Z := table_reg idt_addr (sizeof_gatedesc * 256).

(** ** What the processor enforces *)

Lemma set_gates_spec vectors n : forall i idt j, i <= j < i + Z.of_nat n -> set_gates n i vectors idt j = SETGATE 0 (Z.shiftl SEG_KCODE 3) (vectors j) 0.
Proof.
  assert (forall n i idt j, j < i -> set_gates n i vectors idt j = idt j) as Hlow.
  { intros k. induction k as [|k IH]; intros i idt j H; cbn [set_gates]; [done|]. rewrite IH by lia. by rewrite upd_ne by lia. }
  induction n as [|n IH]; intros i idt j H; [lia|]. cbn [set_gates]. destruct (decide (j = i)) as [->|]; [|apply IH; lia].
  rewrite Hlow by lia. apply upd_same.
Qed.

Lemma table_reg_spec p size : 0 <= p < 0x100000000 -> 0 < size <= 0x10000 -> table_reg p size = (p, size - 1).
Proof.
  intros Hp Hs. unfold table_reg, u16. rewrite u32_small, Z.shiftr_div_pow2 by lia. change (2 ^ 16) with 65536. f_equal; mlia.
Qed.

(** The segment registers of a CPU, as the processor reads them: *)
Record segments_ok (t : tables) (gdt_addr cpu_addr : Z) : Prop := {
  so_table : gdtr t = (gdt_addr, 8 * NSEGS - 1);
  so_kcode : seg_decode (seg_word (gdt t SEG_KCODE)) = mkView 0 0xffffffff (Z.lor STA_X STA_R) true 0 true;
  so_kdata : seg_decode (seg_word (gdt t SEG_KDATA)) = mkView 0 0xffffffff STA_W true 0 true;
  so_ucode : seg_decode (seg_word (gdt t SEG_UCODE)) = mkView 0 0xffffffff (Z.lor STA_X STA_R) true 3 true;
  so_udata : seg_decode (seg_word (gdt t SEG_UDATA)) = mkView 0 0xffffffff STA_W true 3 true;
  so_gs : gs_reg t = Z.shiftl SEG_KCPU 3 /\ seg_decode (seg_word (gdt t SEG_KCPU)) = mkView cpu_addr 0xfff STA_W true 0 true
}.

(** C35 The descriptor tables protect the kernel: after seginit on a CPU,
    switchuvm to a process and tvinit, the processor reads flat kernel and user
    segments, of levels 0 and 3, a per-CPU segment at c->cpu for level 0 only,
    and a task state segment whose stack for traps is the process's kernel stack;
    each of the 256 gates enters the kernel's code segment at its vector with
    interrupts off, and only from level 0, but for the one gate of system calls,
    which user code may use and which leaves interrupts on. *)
Theorem descriptors_protect (t : tables) (idt : Z -> gatedesc) (vectors : Z -> Z) (gdt_addr cpu_addr ts_addr kstack pgdir : Z) :
  0 <= gdt_addr < 0x100000000 -> 0 <= cpu_addr < 0x100000000 -> 0 <= ts_addr < 0x100000000 ->
  0 <= kstack -> kstack + KSTACKSIZE < 0x100000000 -> KERNBASE <= pgdir < 0x100000000 -> (forall i, 0 <= i < 256 -> 0 <= vectors i < 0x100000000) ->
  exists t', load_task ts_addr kstack pgdir (seginit gdt_addr cpu_addr t) = Ret t' /\ segments_ok t' gdt_addr cpu_addr /\
    seg_decode (seg_word (gdt t' (Z.shiftr (task_reg t') 3))) = mkView ts_addr (sizeof_ts - 1) STS_T32A false 0 true /\
    ts_esp0 t' = kstack + KSTACKSIZE /\ ts_ss0 t' = Z.shiftl SEG_KDATA 3 /\ page_reg t' = pgdir - KERNBASE /\
    forall i, 0 <= i < 256 -> gate_decode (gate_word (tvinit vectors idt i)) =
      mkGateView (vectors i) (Z.shiftl SEG_KCODE 3) (i =? T_SYSCALL) true (if i =? T_SYSCALL then 3 else 0) true.
Proof.
  intros Hg Hc Ht Hk Hk' Hp Hv. unfold KERNBASE, KSTACKSIZE in *. unfold load_task. rewrite (proj2 (Z.eqb_neq pgdir 0)) by lia. eexists. split; [reflexivity|].
  split; [split|split_and!].
  - cbn [gdtr]. by apply table_reg_spec.
  - exact (SEG_decode (Z.lor STA_X STA_R) 0 0xffffffff 0 ltac:(done) ltac:(done) ltac:(done) ltac:(done)).
  - exact (SEG_decode STA_W 0 0xffffffff 0 ltac:(done) ltac:(done) ltac:(done) ltac:(done)).
  - exact (SEG_decode (Z.lor STA_X STA_R) 0 0xffffffff 3 ltac:(done) ltac:(done) ltac:(done) ltac:(done)).
  - exact (SEG_decode STA_W 0 0xffffffff 3 ltac:(done) ltac:(done) ltac:(done) ltac:(done)).
  - split; [reflexivity|]. exact (SEG_decode STA_W cpu_addr 8 0 ltac:(done) Hc ltac:(done) ltac:(done)).
  - exact (SEG16_decode STS_T32A ts_addr (sizeof_ts - 1) 0 ltac:(done) Ht ltac:(done) ltac:(done)).
  - cbn [ts_esp0]. unfold KSTACKSIZE. apply u32_small. lia.
  - reflexivity.
  - cbn [page_reg]. unfold v2p, KERNBASE. apply u32_small. lia.
  - intros i Hi. unfold tvinit. destruct (Z.eqb_spec i T_SYSCALL) as [->|Hne].
    + rewrite upd_same. exact (SETGATE_decode 1 (Z.shiftl SEG_KCODE 3) (vectors T_SYSCALL) DPL_USER ltac:(done) (Hv _ Hi) ltac:(done)).
    + rewrite upd_ne, set_gates_spec by (done || lia). exact (SETGATE_decode 0 (Z.shiftl SEG_KCODE 3) (vectors i) 0 ltac:(done) (Hv _ Hi) ltac:(done)).
Qed.

Lemma descriptors_protect_witness : exists t', load_task 0x80112000 0x8dffe000 0x8dfbc000
    (seginit 0x80112100 0x80112200 (mkTables (fun _ => SEG 0 0 0 0) 0 0 (0, 0) 0 0 0)) = Ret t' /\ segments_ok t' 0x80112100 0x80112200.
Proof.
  destruct (descriptors_protect (mkTables (fun _ => SEG 0 0 0 0) 0 0 (0, 0) 0 0 0) (fun _ => SETGATE 0 0 0 0) (fun i => 0x80105000 + 10 * i)
    0x80112100 0x80112200 0x80112000 0x8dffe000 0x8dfbc000) as (t' & E & S & _);
    [lia|lia|lia|lia|unfold KSTACKSIZE; lia|unfold KERNBASE; lia|intros; lia|]. exists t'. split; [exact E|exact S].
Defined.
