(* ===== verification/Asm.v ===== *)
(** * The processor: registers, the stack, interrupts

    What the assembly files use of the processor.  Instructions are commands on
    the registers and on memory; the address of a piece of code is a number that
    the code of the model passes around and never looks into. *)

From Stdlib Require Import ZArith Lia String Bool.
From stdpp Require Import base numbers list.
From S2P Require Import Prelude Params Mem Descriptors.

Inductive reg : Type :=
| EAX | ECX | EDX | EBX | ESP | EBP | ESI | EDI
| DS | ES | FS | GS | CS | SS
| EIP | EFLAGS | CR0 | CR3 | CR4 | GDTR | IDTR.
Definition reg_num (r : reg) : Z :=
  match r with
  | EAX => 0 | ECX => 1 | EDX => 2 | EBX => 3 | ESP => 4 | EBP => 5 | ESI => 6 | EDI => 7
  | DS => 8 | ES => 9 | FS => 10 | GS => 11 | CS => 12 | SS => 13 | EIP => 14 | EFLAGS => 15 | CR0 => 16 | CR3 => 17 | CR4 => 18 | GDTR => 19 | IDTR => 20
  end.

Record machine : Type := mkMachine { rg : reg -> Z; am : mem }.
Definition set_reg (r : reg) (v : Z) (s : machine) : machine := mkMachine (fun q => if reg_num q =? reg_num r then v else rg s q) (am s).
Definition set_am (m : mem) (s : machine) : machine := mkMachine (rg s) m.
Definition is_seg (r : reg) : bool := match r with DS | ES | FS | GS | CS | SS => true | _ => false end.

Definition is_control (r : reg) : bool := match r with CR0 | CR3 | CR4 | GDTR | IDTR => true | _ => false end.

(** Registers hold 32 bits, segment registers 16. *)
Definition regs_ok (s : machine) : Prop := forall r, 0 <= rg s r < (if is_seg r then 0x10000 else 0x100000000).

(** ** Instructions *)

Definition rget (r : reg) : M machine Z := gets (fun s => rg s r).
Definition rset (r : reg) (v : Z) : M machine unit := modify (set_reg r v).
Definition amset (f : mem -> mem) : M machine unit := modify (fun s => set_am (f (am s)) s).
Definition amget (a : Z) : M machine Z := gets (fun s => ld32 (am s) a).

Definition movl (r q : reg) : M machine unit := let* v := rget r in rset q v.
Definition addl (n : Z) (r : reg) : M machine unit := let* v := rget r in rset r (u32 (v + n)).
Definition pushl (v : Z) : M machine unit :=
  let* sp := rget ESP in rset ESP (u32 (sp - 4)) ;; amset (fun m => st32 m (u32 (sp - 4)) v).
Definition pushr (r : reg) : M machine unit := let* v := rget r in pushl v.
Definition pop : M machine Z := let* sp := rget ESP in let* v := amget sp in rset ESP (u32 (sp + 4)) ;; ret v.
Definition popl (r : reg) : M machine unit := let* v := pop in rset r v.
(** Pushing a segment register writes 16 bits; the upper half of the word is the
    processor's choice [pad]. *)
Definition pushs (pad : Z) (r : reg) : M machine unit := let* v := rget r in pushl (u16 v + 0x10000 * pad).
Definition pops (r : reg) : M machine unit := let* v := pop in rset r (u16 v).
Definition pushal : M machine unit :=
  let* sp := rget ESP in
  pushr EAX ;; pushr ECX ;; pushr EDX ;; pushr EBX ;; pushl sp ;; pushr EBP ;; pushr ESI ;; pushr EDI.
Definition popal : M machine unit :=
  popl EDI ;; popl ESI ;; popl EBP ;; let* _ := pop in popl EBX ;; popl EDX ;; popl ECX ;; popl EAX.
(** The low half of EAX, from a constant and to a segment register *)
Definition movw_ax (v : Z) : M machine unit := let* a := rget EAX in rset EAX (a - a mod 0x10000 + v).
Definition ax_to (r : reg) : M machine unit := let* a := rget EAX in rset r (u16 a).
Definition retn : M machine unit := popl EIP.

(** ** Interrupts *)

Definition user_mode (cs : Z) : bool := negb (Z.land cs 3 =? 0).

(** Delivery through the gate [g]: from user mode the processor takes the kernel's
    stack from the task state segment. *)
Definition interrupt (pad : Z) (g : gate_view) (ss0 esp0 : Z) (err : option Z) : M machine unit :=
  let* cs := rget CS in let* ss := rget SS in let* sp := rget ESP in let* fl := rget EFLAGS in let* ip := rget EIP in
  (if user_mode cs then rset SS ss0 ;; rset ESP esp0 ;; pushl (ss + 0x10000 * pad) ;; pushl sp else ret tt) ;;
  pushl fl ;; pushl (cs + 0x10000 * pad) ;; pushl ip ;;
  (match err with Some e => pushl e | None => ret tt end) ;;
  rset CS (g_selector g) ;; rset EIP (g_offset g) ;;
  if g_trap g then ret tt else rset EFLAGS (Z.ldiff fl FL_IF).

(** Return from an interrupt: the stack comes back too when the mode changes. *)
Definition iret : M machine unit :=
  let* cs := rget CS in
  popl EIP ;; pops CS ;; popl EFLAGS ;;
  let* cs' := rget CS in
  if user_mode cs' && negb (user_mode cs) then let* sp := pop in let* ss := pop in rset SS (u16 ss) ;; rset ESP sp else ret tt.

(** ** The stack *)

(** The words [vs] lie from the top of the stack up. *)
Fixpoint words_at (m : mem) (a : Z) (vs : list Z) : Prop :=
  match vs with [] => True | v :: vs => ld32 m a = v /\ words_at m (a + 4) vs end.

Lemma words_at_st32 m a v b vs : a + 4 <= b -> words_at m b vs -> words_at (st32 m a v) b vs.
Proof.
  revert b. induction vs as [|w vs IH]; intros b Hb; cbn [words_at]; [done|]. intros [H1 H2]. split; [by rewrite ld32_st32_ne by lia|]. apply IH; [lia|done].
Qed.

Lemma words_at_lookup m vs : forall a i v, words_at m a vs -> vs !! i = Some v -> ld32 m (a + 4 * Z.of_nat i) = v.
Proof.
  induction vs as [|w vs IH]; intros a [|i] v; cbn [words_at]; try done; intros [H1 H2] Hv.
  - injection Hv as <-. by rewrite Z.add_0_r.
  - rewrite <- (IH (a + 4) i v H2 Hv). f_equal. lia.
Qed.
Lemma words_at_skip m vs ws a : words_at m a (vs ++ ws) -> words_at m (a + 4 * Z.of_nat (length vs)) ws.
Proof.
  revert a. induction vs as [|v vs IH]; intros a; cbn [words_at app length]; [by rewrite Z.add_0_r|]. intros [_ H]. apply IH in H.
  replace (a + 4 * Z.of_nat (S (length vs))) with (a + 4 + 4 * Z.of_nat (length vs)) by lia. done.
Qed.

Lemma words_at_agree (P : Z -> Prop) m m' vs : agree P m m' -> forall a, (forall b, a <= b < a + 4 * Z.of_nat (length vs) -> P b) -> words_at m a vs -> words_at m' a vs.
Proof.
  intros Hag. induction vs as [|v vs IH]; intros a Hb; cbn [words_at length] in *; [done|]. intros [H1 H2]. split.
  - rewrite (ld32_agree P m m' a Hag); [done|]. intros b H. apply Hb. lia.
  - apply IH; [|done]. intros b H. apply Hb. lia.
Qed.

(** Since memory was [m], the words [vs] have been pushed on the stack below
    [base]; nothing else was written. *)
Record stacked (base : Z) (m : mem) (s : machine) (vs : list Z) : Prop := {
  sk_esp : rg s ESP = base - 4 * Z.of_nat (length vs);
  sk_words : words_at (am s) (rg s ESP) vs;
  sk_mem : agree (fun a => ~ (rg s ESP <= a < base)) m (am s)
}.

Definition do_push (v : Z) (s : machine) : machine := set_am (st32 (am s) (u32 (rg s ESP - 4)) v) (set_reg ESP (u32 (rg s ESP - 4)) s).

Lemma stacked_push base m s vs v w : stacked base m s vs -> base <= 0x100000000 -> 4 * Z.of_nat (length vs) + 4 <= base -> u32 v = w -> stacked base m (do_push v s) (w :: vs).
Proof.
  intros [E W A] Hb Hr <-. assert (u32 (rg s ESP - 4) = rg s ESP - 4) as Eu by (apply u32_small; lia). unfold do_push. rewrite Eu. split; cbn [rg am set_am set_reg reg_num Z.eqb Pos.eqb length].
  - lia.
  - split; [apply ld32_st32_same|]. replace (rg s ESP - 4 + 4) with (rg s ESP) by lia. apply words_at_st32; [lia|done].
  - eapply agree_trans; [eapply agree_weaken; [|exact A]|eapply agree_weaken; [|apply st32_agree]]; cbn; intros a; lia.
Qed.
Lemma stacked_set base m s vs r v : r <> ESP -> stacked base m s vs -> stacked base m (set_reg r v s) vs.
Proof. intros Hr [E W A]. assert (rg (set_reg r v s) ESP = rg s ESP) as Ee by (destruct r; by cbn). split; rewrite Ee; done. Qed.
Lemma stacked_nil s : stacked (rg s ESP) (am s) s [].
Proof. split; [cbn; lia|done|by apply agree_refl]. Qed.

Lemma push_k {A : Type} v (k : M machine A) s : (pushl v ;; k) s = k (do_push v s).
Proof. reflexivity. Qed.
Lemma pushr_k {A : Type} r (k : M machine A) s : (pushr r ;; k) s = k (do_push (rg s r) s).
Proof. reflexivity. Qed.
Lemma rset_k {A : Type} r v (k : M machine A) s : (rset r v ;; k) s = k (set_reg r v s).
Proof. reflexivity. Qed.
Lemma pushl_eq v s : pushl v s = Ret (tt, do_push v s).
Proof. reflexivity. Qed.
Lemma pushr_eq r s : pushr r s = Ret (tt, do_push (rg s r) s).
Proof. reflexivity. Qed.
Lemma rg_set_ne q v s r : (reg_num r =? reg_num q) = false -> rg (set_reg q v s) r = rg s r.
Proof. intros H. cbn [rg set_reg]. by rewrite H. Qed.
Lemma rg_push v s r : r <> ESP -> rg (do_push v s) r = rg s r.
Proof. by destruct r. Qed.

Definition pushes (vs : list Z) (s : machine) : machine := fold_left (fun s v => do_push v s) vs s.

Lemma stacked_pushes base m vs : forall s ws, stacked base m s ws -> base <= 0x100000000 -> 4 * Z.of_nat (length vs + length ws) <= base ->
  stacked base m (pushes vs s) (rev (map u32 vs) ++ ws).
Proof.
  induction vs as [|v vs IH]; intros s ws H Hb Hr; cbn [pushes fold_left map rev length] in *; [done|]. rewrite <- app_assoc. cbn [app].
  apply IH; [|lia|cbn [length]; lia]. apply stacked_push; [done|lia|lia|done].
Qed.
Lemma rg_pushes vs : forall s r, r <> ESP -> rg (pushes vs s) r = rg s r.
Proof. induction vs as [|v vs IH]; intros s r Hr; [done|]. cbn [pushes fold_left]. change (rg (pushes vs (do_push v s)) r = rg s r). by rewrite IH, rg_push. Qed.

(** [s] has the memory [m], and its stack pointer is [a]. *)
Definition at_sp (m : mem) (a : Z) (s : machine) : Prop := rg s ESP = a /\ am s = m.

Lemma pop_at {A : Type} m a s (k : Z -> M machine A) : at_sp m a s -> 0 <= a -> a + 4 < 0x100000000 -> (let* v := pop in k v) s = k (ld32 m a) (set_reg ESP (a + 4) s).
Proof. intros [<- <-] H1 H2. unfold pop. cbn. by rewrite u32_small by lia. Qed.
Lemma popl_at {A : Type} m a s r (k : M machine A) : at_sp m a s -> 0 <= a -> a + 4 < 0x100000000 -> (popl r ;; k) s = k (set_reg r (ld32 m a) (set_reg ESP (a + 4) s)).
Proof. intros [<- <-] H1 H2. unfold popl, pop. cbn. by rewrite u32_small by lia. Qed.
Lemma pops_at {A : Type} m a s r (k : M machine A) : at_sp m a s -> 0 <= a -> a + 4 < 0x100000000 -> (pops r ;; k) s = k (set_reg r (u16 (ld32 m a)) (set_reg ESP (a + 4) s)).
Proof. intros [<- <-] H1 H2. unfold pops, pop. cbn. by rewrite u32_small by lia. Qed.
Lemma popl_last m a s r : at_sp m a s -> 0 <= a -> a + 4 < 0x100000000 -> popl r s = Ret (tt, set_reg r (ld32 m a) (set_reg ESP (a + 4) s)).
Proof. intros [<- <-] H1 H2. unfold popl, pop. cbn. by rewrite u32_small by lia. Qed.

Ltac pop_step H m a := first [rewrite (popl_at m a) | rewrite (popl_last m a) | rewrite (pops_at m a) | rewrite (pop_at m a)]; [|first [exact H|split; [cbn; lia|exact (proj2 H)]]|lia|lia].

Lemma u16_low a v : 0 <= v < 0x10000 -> u16 (a - a mod 0x10000 + v) = v.
Proof. intros H. unfold u16. mlia. Qed.
