(* ===== verification/TrapAsm.v ===== *)
(** * Traps and the switch between processes (vectors.S, trapasm.S, swtch.S)

    The way into the kernel and out of it: the trap frame that the hardware, the
    vectors and alltraps build, what trapret makes of it, and the exchange of
    stacks in swtch. *)

From Stdlib Require Import ZArith Lia String Bool.
From stdpp Require Import base numbers list.
From S2P Require Import Prelude Params Mem Exec Descriptors Asm.

Section traps.
(** The upper halves of pushed segment registers, and the address after the call
    of trap in alltraps *)
Context (pad trap_return : Z).

(** ** Code *)

(** The exceptions for which the processor pushes an error code *)
Definition has_errcode (n : Z) : bool := (n =? 8) || ((10 <=? n) && (n <=? 14)) || (n =? 17).

(** vector<n> *)
Definition vector (n : Z) : M machine unit :=
  (if has_errcode n then ret tt else pushl 0) ;;
  pushl n.

(** alltraps up to the call of trap *)
Definition alltraps : M machine unit :=
  pushs pad DS ;; pushs pad ES ;; pushs pad FS ;; pushs pad GS ;;
  pushal ;;
  movw_ax (Z.shiftl SEG_KDATA 3) ;; ax_to DS ;; ax_to ES ;;
  movw_ax (Z.shiftl SEG_KCPU 3) ;; ax_to FS ;; ax_to GS ;;
  pushr ESP ;;
  pushl trap_return.
(** The rest *)
Definition trapret : M machine unit :=
  popal ;; pops GS ;; pops FS ;; pops ES ;; pops DS ;;
  addl 8 ESP ;;
  iret.
Definition alltraps_end : M machine unit := addl 4 ESP ;; trapret.

(** ** The trap frame *)

(** struct trapframe, with the part that exists only when the mode changes *)
Record trapframe : Type := mkTf {
  t_edi : Z; t_esi : Z; t_ebp : Z; t_oesp : Z; t_ebx : Z; t_edx : Z; t_ecx : Z; t_eax : Z;
  t_gs : Z; t_fs : Z; t_es : Z; t_ds : Z; t_trapno : Z; t_err : Z; t_eip : Z; t_cs : Z; t_eflags : Z;
  t_user : option (Z * Z)
}.
Definition frame_at (m : mem) (a : Z) : trapframe :=
  let w i := ld32 m (a + 4 * i) in
  mkTf (w 0) (w 1) (w 2) (w 3) (w 4) (w 5) (w 6) (w 7) (u16 (w 8)) (u16 (w 9)) (u16 (w 10)) (u16 (w 11)) (w 12) (w 13) (w 14) (u16 (w 15)) (w 16)
    (if user_mode (u16 (w 15)) then Some (w 17, u16 (w 18)) else None).

(** The frame at [tf] of a trap [n] that comes in state [s] *)
Definition frame_of (s : machine) (tf n err : Z) : trapframe :=
  let r := rg s in
  mkTf (r EDI) (r ESI) (r EBP) (tf + 32) (r EBX) (r EDX) (r ECX) (r EAX) (r GS) (r FS) (r ES) (r DS) n err (r EIP) (r CS) (r EFLAGS)
    (if user_mode (r CS) then Some (r ESP, r SS) else None).

(** The registers after a return through the frame [f] at [tf], from a state with
    the registers [r] *)
Definition resumed (f : trapframe) (tf : Z) (r : reg -> Z) (q : reg) : Z :=
  match q with
  | EAX => t_eax f | ECX => t_ecx f | EDX => t_edx f | EBX => t_ebx f | EBP => t_ebp f | ESI => t_esi f | EDI => t_edi f
  | DS => t_ds f | ES => t_es f | FS => t_fs f | GS => t_gs f | CS => t_cs f | EIP => t_eip f | EFLAGS => t_eflags f
  | ESP => match t_user f with Some (sp, _) => sp | None => tf + 68 end
  | SS => match t_user f with Some (_, ss) => ss | None => r SS end
  | _ => r q
  end.

(** ** Return *)

Lemma popal_at m a s : at_sp m a s -> 0 <= a -> a + 32 < 0x100000000 ->
  exists s', popal s = Ret (tt, s') /\ at_sp m (a + 32) s' /\ forall q, rg s' q = match q with
    | EDI => ld32 m a | ESI => ld32 m (a + 4) | EBP => ld32 m (a + 8) | EBX => ld32 m (a + 16) | EDX => ld32 m (a + 20) | ECX => ld32 m (a + 24) | EAX => ld32 m (a + 28) | ESP => a + 32 | _ => rg s q end.
Proof.
  intros H H0 H1. eexists. split.
  { unfold popal. pop_step H m a. pop_step H m (a + 4). pop_step H m (a + 8). pop_step H m (a + 12). pop_step H m (a + 16). pop_step H m (a + 20). pop_step H m (a + 24). pop_step H m (a + 28). reflexivity. }
  split; [split; [cbn; lia|exact (proj2 H)]|]. intros q. destruct q; cbn; try done; lia.
Qed.

Lemma trapret_resumes s : let tf := rg s ESP in 0 <= tf -> tf + 76 < 0x100000000 -> user_mode (rg s CS) = false ->
  exists s', trapret s = Ret (tt, s') /\ am s' = am s /\ forall q, rg s' q = resumed (frame_at (am s) tf) tf (rg s) q.
Proof.
  intros tf H0 H1 Hcs. set (m := am s). assert (at_sp m tf s) as H by done. clearbody m tf.
  unfold trapret. edestruct (popal_at m tf s) as (s1 & E1 & S1 & R1); [done|lia|lia|]. mstep_with E1. clear E1.
  pop_step S1 m (tf + 32). pop_step S1 m (tf + 36). pop_step S1 m (tf + 40). pop_step S1 m (tf + 44).
  unfold addl. mstep. cbn [rg set_reg reg_num Z.eqb Pos.eqb]. replace (u32 (tf + 44 + 4 + 8)) with (tf + 56) by (rewrite u32_small; lia).
  unfold iret. mstep. pop_step S1 m (tf + 56). pop_step S1 m (tf + 60). pop_step S1 m (tf + 64). mstep.
  cbn [rg set_reg reg_num Z.eqb Pos.eqb]. rewrite (R1 CS), Hcs. cbn [negb]. rewrite andb_true_r.
  destruct (user_mode (u16 (ld32 m (tf + 60)))) eqn:Eu.
 - pop_step S1 m (tf + 68). pop_step S1 m (tf + 72). eexists. split; [reflexivity|]. split; [exact (proj2 S1)|].
   intros q. unfold resumed, frame_at. change (tf + 4 * 15) with (tf + 60). rewrite Eu. destruct q; cbn; rewrite ?R1; first [done|f_equal; lia].
 - eexists. split; [reflexivity|]. split; [exact (proj2 S1)|].
   intros q. unfold resumed, frame_at. change (tf + 4 * 15) with (tf + 60). rewrite Eu. destruct q; cbn; rewrite ?R1; first [done|f_equal; lia|lia].
Qed.
(** ** Entry *)

(** The interrupt [n] is taken: the processor, the vector and alltraps. *)
Definition trap_enter (g : gate_view) (ss0 esp0 n err : Z) : M machine unit :=
  interrupt pad g ss0 esp0 (if has_errcode n then Some err else None) ;; vector n ;; alltraps.

Lemma pushs_k {A : Type} r (k : M machine A) s : (pushs pad r ;; k) s = k (do_push (u16 (rg s r) + 0x10000 * pad) s).
Proof. reflexivity. Qed.
Definition seg_word32 (v : Z) : Z := u32 (v + 0x10000 * pad).

Lemma interrupt_spec g ss0 esp0 err s : let user := user_mode (rg s CS) in let base := if user then esp0 else rg s ESP in
  regs_ok s -> 24 <= base < 0x100000000 ->
  exists s', interrupt pad g ss0 esp0 err s = Ret (tt, s') /\
    stacked base (am s) s' (match err with Some e => [u32 e] | None => [] end ++ [rg s EIP; seg_word32 (rg s CS); rg s EFLAGS] ++ (if user then [rg s ESP; seg_word32 (rg s SS)] else [])) /\
    forall r, r <> ESP -> rg s' r = match r with
      | CS => g_selector g | EIP => g_offset g | SS => if user then ss0 else rg s SS
      | EFLAGS => if g_trap g then rg s EFLAGS else Z.ldiff (rg s EFLAGS) FL_IF | _ => rg s r end.
Proof.
  intros user base Hok Hb. assert (forall r, is_seg r = false -> u32 (rg s r) = rg s r) as Hu by (intros r Hr; apply u32_small; specialize (Hok r); by rewrite Hr in Hok).
  unfold interrupt. mstep. mstep. mstep. mstep. mstep. fold user.
  set (s1 := if user then do_push (rg s ESP) (do_push (rg s SS + 0x10000 * pad) (set_reg ESP esp0 (set_reg SS ss0 s))) else s).
  assert ((if user then rset SS ss0 ;; rset ESP esp0 ;; pushl (rg s SS + 0x10000 * pad) ;; pushl (rg s ESP) else ret tt) s = Ret (tt, s1)) as E1 by (unfold s1; by destruct user).
  assert (stacked base (am s) s1 (if user then [rg s ESP; seg_word32 (rg s SS)] else [])) as K1.
  { unfold s1, base. destruct user; [|apply stacked_nil]. apply stacked_push; [apply stacked_push; [exact (stacked_nil (set_reg ESP esp0 (set_reg SS ss0 s)))|cbn; lia..|done]|cbn; lia..|by apply Hu]. }
  assert (forall r, r <> ESP -> rg s1 r = match r with SS => if user then ss0 else rg s SS | _ => rg s r end) as R1 by (unfold s1; destruct user; by intros []).
  assert (Z.of_nat (length (if user then [rg s ESP; seg_word32 (rg s SS)] else [])) <= 2) as Hlen by (destruct user; cbn; lia).
  mstep_with E1. rewrite !push_k. set (s2 := do_push _ _).
  assert (stacked base (am s) s2 ([rg s EIP; seg_word32 (rg s CS); rg s EFLAGS] ++ (if user then [rg s ESP; seg_word32 (rg s SS)] else []))) as K2.
  { unfold s2. apply stacked_push; [apply stacked_push; [apply stacked_push; [exact K1|..]|..]|..]; cbn [length]; try lia; try done; by apply Hu. }
  set (s3 := match err with Some e => do_push e s2 | None => s2 end). assert ((match err with Some e => pushl e | None => ret tt end) s2 = Ret (tt, s3)) as E3 by (unfold s3; by destruct err).
  assert (stacked base (am s) s3 (match err with Some e => [u32 e] | None => [] end ++ [rg s EIP; seg_word32 (rg s CS); rg s EFLAGS] ++ (if user then [rg s ESP; seg_word32 (rg s SS)] else []))) as K3.
  { unfold s3. destruct err; [|exact K2]. apply stacked_push; [exact K2|lia| |done]. rewrite length_app. cbn [length]. lia. }
  assert (forall r, r <> ESP -> rg s3 r = rg s1 r) as R3 by (intros r Hr; unfold s3, s2; destruct err; by rewrite !rg_push).
  mstep_with E3. rewrite !rset_k. set (s4 := set_reg EIP _ _).
  exists (if g_trap g then s4 else set_reg EFLAGS (Z.ldiff (rg s EFLAGS) FL_IF) s4). split_and!; [by destruct (g_trap g)|destruct (g_trap g); unfold s4; repeat apply stacked_set; done|].
  intros r Hr. destruct (g_trap g), r; try done; cbn; rewrite ?R3, ?R1 by done; done.
Qed.

(** What alltraps pushes, from a stack pointer [sp] *)
Definition alltraps_words (r : reg -> Z) (sp : Z) : list Z :=
  [seg_word32 (r DS); seg_word32 (r ES); seg_word32 (r FS); seg_word32 (r GS); r EAX; r ECX; r EDX; r EBX; sp - 16; r EBP; r ESI; r EDI; sp - 48; u32 trap_return].

Lemma pushal_eq s : pushal s = Ret (tt, pushes [rg s EAX; rg s ECX; rg s EDX; rg s EBX; rg s ESP; rg s EBP; rg s ESI; rg s EDI] s).
Proof.
  unfold pushal. mstep. repeat first [rewrite pushr_k|rewrite push_k]. rewrite !rg_push by done. rewrite pushr_eq, !rg_push by done. cbn [pushes fold_left]. reflexivity.
Qed.

Definition alltraps_saves (r : reg) : bool := match r with EAX | ECX | EDX | EBX | EBP | ESI | EDI | DS | ES | FS | GS => true | _ => false end.

Lemma kernel_segments s : exists s', (forall (A : Type) (k : M machine A), (movw_ax (Z.shiftl SEG_KDATA 3) ;; ax_to DS ;; ax_to ES ;; movw_ax (Z.shiftl SEG_KCPU 3) ;; ax_to FS ;; ax_to GS ;; k) s = k s') /\
  am s' = am s /\ rg s' ESP = rg s ESP /\ forall r, r <> EAX -> rg s' r = match r with DS | ES => Z.shiftl SEG_KDATA 3 | FS | GS => Z.shiftl SEG_KCPU 3 | _ => rg s r end.
Proof.
  eexists. split; [intros A k; reflexivity|]. split; [reflexivity|]. split; [reflexivity|]. intros r Hr. destruct r; try reflexivity; try done; by apply u16_low.
Qed.

Lemma alltraps_spec base m s ws : (forall r, alltraps_saves r = true -> 0 <= rg s r < (if is_seg r then 0x10000 else 0x100000000)) -> stacked base m s ws -> base < 0x100000000 -> 4 * Z.of_nat (length ws) + 56 <= base ->
  exists s', alltraps s = Ret (tt, s') /\ stacked base m s' (rev (alltraps_words (rg s) (rg s ESP)) ++ ws) /\
    forall r, r <> ESP -> r <> EAX -> rg s' r = match r with DS | ES => Z.shiftl SEG_KDATA 3 | FS | GS => Z.shiftl SEG_KCPU 3 | _ => rg s r end.
Proof.
  intros Hok K Hb Hr. 
  set (s1 := pushes (map (fun r => u16 (rg s r) + 0x10000 * pad) [DS; ES; FS; GS]) s).
  set (s2 := pushes [rg s EAX; rg s ECX; rg s EDX; rg s EBX; rg s1 ESP; rg s EBP; rg s ESI; rg s EDI] s1).
  destruct (kernel_segments s2) as (s3 & E3 & M3 & Sp3 & R3).
  exists (pushes [rg s3 ESP; trap_return] s3). split_and!.
  - unfold alltraps. rewrite !pushs_k, !rg_push by done. fold (pushes (map (fun r => u16 (rg s r) + 0x10000 * pad) [DS; ES; FS; GS]) s). fold s1.
    assert (pushal s1 = Ret (tt, s2)) as E2 by (rewrite pushal_eq; unfold s1 at 1 2 3 4 6 7 8; by rewrite !rg_pushes). mstep_with E2. rewrite E3, pushr_k, pushl_eq. cbn [pushes fold_left]. reflexivity.
  - pose proof (sk_esp _ _ _ _ K) as Ke. assert (forall r, alltraps_saves r = true -> is_seg r = false -> u32 (rg s r) = rg s r) as Hu by (intros r Hs' Hr'; apply u32_small; specialize (Hok r Hs'); by rewrite Hr' in Hok).
    assert (forall r, alltraps_saves r = true -> is_seg r = true -> u16 (rg s r) = rg s r) as Hs by (intros r Hs' Hr'; apply Z.mod_small; specialize (Hok r Hs'); by rewrite Hr' in Hok).
    epose proof (stacked_pushes base m _ s ws K _ _ : stacked base m s1 _) as K1. cbn [map rev app] in K1. rewrite !Hs in K1 by done.
    assert (u32 (rg s1 ESP) = rg s ESP - 16) as Ke1 by (rewrite (sk_esp _ _ _ _ K1), u32_small; cbn [length]; lia).
    epose proof (stacked_pushes base m _ s1 _ K1 _ _ : stacked base m s2 _) as K2. cbn [map rev app] in K2. rewrite !Hu, Ke1 in K2 by done.
    assert (stacked base m s3 _) as K3 by (destruct K2 as [Q1 Q2 Q3]; split; rewrite ?M3, ?Sp3; [exact Q1|exact Q2|exact Q3]).
    pose proof (stacked_pushes base m [rg s3 ESP; trap_return] s3 _ K3 ltac:(lia) ltac:(cbn [length]; lia)) as K4. cbn [map rev app] in K4.
    assert (u32 (rg s3 ESP) = rg s ESP - 48) as Ke3 by (rewrite (sk_esp _ _ _ _ K3), u32_small; cbn [length]; lia).
    rewrite Ke3 in K4. exact K4. Unshelve. all: cbn [length map]; lia.
  - intros r Hr1 Hr2. rewrite rg_pushes, R3 by done. unfold s2, s1. destruct r; try done; by rewrite !rg_pushes.
Qed.

Lemma seg_word32_low v : 0 <= v < 0x10000 -> u16 (seg_word32 v) = v.
Proof. intros H. unfold u16, seg_word32, u32. rewrite Z.add_comm, Z.mul_comm. mlia. Qed.

(** The words of a frame at [tf] *)
Lemma frame_at_words m tf s n err : let user := user_mode (rg s CS) in regs_ok s ->
  words_at m tf ([rg s EDI; rg s ESI; rg s EBP; tf + 32; rg s EBX; rg s EDX; rg s ECX; rg s EAX; seg_word32 (rg s GS); seg_word32 (rg s FS); seg_word32 (rg s ES); seg_word32 (rg s DS);
    n; err; rg s EIP; seg_word32 (rg s CS); rg s EFLAGS] ++ (if user then [rg s ESP; seg_word32 (rg s SS)] else [])) ->
  frame_at m tf = frame_of s tf n err.
Proof.
  intros user Hok Hw. pose proof (fun i v => words_at_lookup m _ tf i v Hw) as W. 
  assert (forall r, is_seg r = true -> u16 (seg_word32 (rg s r)) = rg s r) as Hs by (intros r Hr; apply seg_word32_low; specialize (Hok r); by rewrite Hr in Hok).
  unfold frame_at, frame_of. fold user. do 17 match goal with |- context [ld32 m (tf + 4 * ?k)] => rewrite (W (Z.to_nat k) _ eq_refl : ld32 m (tf + 4 * k) = _) end.
  rewrite !Hs by done. fold user. destruct user; [|done]. rewrite (W 17%nat _ eq_refl : ld32 m (tf + 4 * 17) = _), (W 18%nat _ eq_refl : ld32 m (tf + 4 * 18) = _), Hs by done. done.
Qed.

Lemma trap_enter_spec (g : gate_view) (ss0 esp0 n err : Z) (s : machine) :
  let user := user_mode (rg s CS) in let base := if user then esp0 else rg s ESP in let tf := base - (if user then 76 else 68) in
  regs_ok s -> 0 <= n < 256 -> 0 <= err < 0x100000000 -> 84 <= base < 0xfffffff0 -> g_selector g = Z.shiftl SEG_KCODE 3 ->
  exists s1, trap_enter g ss0 esp0 n err s = Ret (tt, s1) /\
    rg s1 ESP = tf - 8 /\ ld32 (am s1) (tf - 8) = u32 trap_return /\ ld32 (am s1) (tf - 4) = tf /\
    frame_at (am s1) tf = frame_of s tf n (if has_errcode n then err else 0) /\
    rg s1 CS = Z.shiftl SEG_KCODE 3 /\ rg s1 DS = Z.shiftl SEG_KDATA 3 /\ rg s1 ES = Z.shiftl SEG_KDATA 3 /\ rg s1 FS = Z.shiftl SEG_KCPU 3 /\ rg s1 GS = Z.shiftl SEG_KCPU 3 /\
    rg s1 SS = (if user then ss0 else rg s SS) /\ agree (fun a => ~ (tf - 8 <= a < base)) (am s) (am s1).
Proof.
  intros user base tf Hok Hn He Hb Hg. unfold trap_enter.
  pose proof (interrupt_spec g ss0 esp0 (if has_errcode n then Some err else None) s Hok) as HI. cbv zeta in HI. fold user in HI. fold base in HI. destruct HI as (s1 & E1 & K1 & R1); [lia|]. mstep_with E1.
  set (e := if has_errcode n then err else 0) in *. set (uw := if user then [rg s ESP; seg_word32 (rg s SS)] else []) in *.
  assert (base - 76 <= tf <= base - 68) as Ht by (unfold tf; destruct user; lia).
  assert (4 * Z.of_nat (length uw) = base - tf - 68) as Hl by (unfold uw, tf; destruct user; cbn; lia).
  assert (exists s2, vector n s1 = Ret (tt, s2) /\ stacked base (am s) s2 (n :: e :: [rg s EIP; seg_word32 (rg s CS); rg s EFLAGS] ++ uw) /\ forall r, r <> ESP -> rg s2 r = rg s1 r) as (s2 & E2 & K2 & R2).
  { unfold vector, e. destruct (has_errcode n); cbn [app] in K1.
    - exists (do_push n s1). split_and!; [reflexivity| |intros r Hr; by apply rg_push]. rewrite (u32_small err) in K1 by lia. apply stacked_push; [exact K1|lia|cbn [app length]; lia|apply u32_small; lia].
    - exists (do_push n (do_push 0 s1)). split_and!; [reflexivity| |intros r Hr; by rewrite !rg_push]. apply stacked_push; [apply stacked_push; [exact K1|lia|cbn [app length]; lia|done]|lia|cbn [app length]; lia|apply u32_small; lia]. }
  mstep_with E2.
  destruct (alltraps_spec base (am s) s2 (n :: e :: [rg s EIP; seg_word32 (rg s CS); rg s EFLAGS] ++ uw)) as (s3 & E3 & K3 & R3);
    [intros r Hr; rewrite R2, R1 by (by destruct r); by destruct r; try done; apply Hok|exact K2|lia|cbn [length app]; lia|].
  assert (rg s2 ESP = tf + 48) as Esp by (rewrite (sk_esp _ _ _ _ K2); cbn [length app]; lia). rewrite Esp in K3.
  assert (rev (alltraps_words (rg s2) (tf + 48)) = u32 trap_return :: tf :: [rg s EDI; rg s ESI; rg s EBP; tf + 32; rg s EBX; rg s EDX; rg s ECX; rg s EAX; seg_word32 (rg s GS); seg_word32 (rg s FS); seg_word32 (rg s ES); seg_word32 (rg s DS)]) as Ew.
  { unfold alltraps_words. cbn [rev app]. rewrite !R2, !R1 by done. replace (tf + 48 - 48) with tf by lia. replace (tf + 48 - 16) with (tf + 32) by lia. done. }
  destruct K3 as [Ke Kw Km]. rewrite Ew in Ke, Kw. cbn [app length] in Ke. assert (rg s3 ESP = tf - 8) as Esp3 by lia. rewrite Esp3 in Kw, Km.
  destruct Kw as (Kw1 & Kw2 & Kw3). replace (tf - 8 + 4) with (tf - 4) in Kw2 by lia. replace (tf - 8 + 4 + 4) with tf in Kw3 by lia.
  assert (frame_at (am s3) tf = frame_of s tf n e) as Hf by (apply frame_at_words; [done|exact Kw3]).
  exists s3. split; [exact E3|]. split; [exact Esp3|]. split; [exact Kw1|]. split; [exact Kw2|]. split; [exact Hf|]. split; [rewrite R3, R2, R1 by done; exact Hg|]. do 4 (split; [by rewrite R3 by done|]). split; [by rewrite R3, R2, R1 by done|exact Km].
Qed.

(** C11 The way into the kernel and back.  An interrupt [n], from user or from
    kernel mode, leads to a call of trap with the kernel's segments and a pointer
    to a struct trapframe, in which every register of the interrupted code, the
    number and the error code are in the fields of that name; no memory outside the
    frame and the call's arguments is written.  When trap returns, the registers
    are those in the frame, whatever trap made of it; when trap leaves the frame as
    it was, the interrupted code finds all its registers unchanged. *)
Theorem trap_roundtrip (g : gate_view) (ss0 esp0 n err : Z) (s : machine) :
  let user := user_mode (rg s CS) in let base := if user then esp0 else rg s ESP in let tf := base - (if user then 76 else 68) in
  regs_ok s -> 0 <= n < 256 -> 0 <= err < 0x100000000 -> 84 <= base < 0xfffffff0 -> g_selector g = Z.shiftl SEG_KCODE 3 ->
  exists s1, trap_enter g ss0 esp0 n err s = Ret (tt, s1) /\
    rg s1 ESP = tf - 8 /\ ld32 (am s1) (tf - 8) = u32 trap_return /\ ld32 (am s1) (tf - 4) = tf /\
    frame_at (am s1) tf = frame_of s tf n (if has_errcode n then err else 0) /\
    rg s1 CS = Z.shiftl SEG_KCODE 3 /\ rg s1 DS = Z.shiftl SEG_KDATA 3 /\ rg s1 ES = Z.shiftl SEG_KDATA 3 /\ rg s1 FS = Z.shiftl SEG_KCPU 3 /\ rg s1 GS = Z.shiftl SEG_KCPU 3 /\
    agree (fun a => ~ (tf - 8 <= a < base)) (am s) (am s1) /\
    forall s2, rg s2 ESP = tf - 4 -> rg s2 CS = rg s1 CS -> rg s2 SS = rg s1 SS ->
      exists s3, alltraps_end s2 = Ret (tt, s3) /\ am s3 = am s2 /\
        (forall q, rg s3 q = resumed (frame_at (am s2) tf) tf (rg s2) q) /\
        (frame_at (am s2) tf = frame_at (am s1) tf -> forall q, is_control q = false -> rg s3 q = rg s q).
Proof.
  intros user base tf Hok Hn He Hb Hg. destruct (trap_enter_spec g ss0 esp0 n err s Hok Hn He Hb Hg) as (s1 & E & Esp & W1 & W2 & Hf & Hcs & Hds & Hes & Hfs & Hgs & Hss & Km).
  fold user in Hss. exists s1. do 11 (split; [assumption|]).
  intros s4 H1 H2 H3. rewrite Hcs in H2. rewrite Hss in H3. assert (base - 76 <= tf <= base - 68) as Ht by (unfold tf; destruct user; lia).
  set (s5 := set_reg ESP tf s4). assert (addl 4 ESP s4 = Ret (tt, s5)) as E5. { unfold addl. mstep. rewrite H1, u32_small by lia. unfold rset, modify, s5. repeat f_equal. lia. }
  destruct (trapret_resumes s5) as (s6 & E6 & M6 & R6); [cbn; lia|cbn; lia|cbn; by rewrite H2|].
  exists s6. unfold alltraps_end. mstep_with E5. split_and!; [exact E6|exact M6|intros q; rewrite R6; by destruct q|].
  intros Hsame q Q. rewrite R6. change (rg s5 ESP) with tf. change (am s5) with (am s4). rewrite Hsame. fold user base tf in Hf. rewrite Hf. unfold resumed, frame_of. cbn [t_user]. fold user.
  clear - H3 Q. unfold tf, base. clearbody user. destruct q; try reflexivity; try discriminate Q; cbn; destruct user; try reflexivity; [lia|exact H3].
Qed.
End traps.

(** ** System calls from user code (usys.S) *)

(** syscall.h *)
Definition SYS : list (string * Z) :=
  [("fork", 1); ("exit", 2); ("wait", 3); ("pipe", 4); ("read", 5); ("kill", 6); ("exec", 7); ("fstat", 8);
   ("chdir", 9); ("dup", 10); ("getpid", 11); ("sbrk", 12); ("sleep", 13); ("uptime", 14); ("open", 15);
   ("write", 16); ("mknod", 17); ("unlink", 18); ("link", 19); ("mkdir", 20); ("close", 21);
   ("enableSwapping", 22); ("disableSwapping", 23); ("sleep2", 24); ("wakeup2", 25); ("getAllocatedPages", 26);
   ("shmget", 27); ("shmdel", 28); ("shmat", 29); ("shmdt", 30)]%string.
(** The stubs of usys.S *)
Definition usys : list string :=
  ["fork"; "exit"; "wait"; "pipe"; "read"; "write"; "close"; "kill"; "exec"; "open"; "mknod"; "unlink"; "fstat";
   "link"; "mkdir"; "chdir"; "dup"; "getpid"; "sbrk"; "sleep"; "uptime"; "enableSwapping"; "disableSwapping";
   "sleep2"; "wakeup2"; "getAllocatedPages"; "shmget"; "shmdel"; "shmat"; "shmdt"]%string.
Definition number (nm : string) : option Z := snd <$> List.find (fun x => String.eqb (fst x) nm) SYS.

Section user.
Context (pad trap_return : Z) (g : gate_view) (ss0 esp0 : Z).

(** SYSCALL(name), up to the entry of trap: int does not push an error code. *)
Definition SYSCALL (n : Z) : M machine unit := rset EAX n ;; trap_enter pad trap_return g ss0 esp0 T_SYSCALL 0.

(** Every stub has its number, and brings it to the kernel in the frame's eax. *)
Lemma usys_numbers : forallb (fun nm => match number nm with Some n => (1 <=? n) && (n <=? 30) | None => false end) usys = true.
Proof. reflexivity. Qed.

Lemma SYSCALL_enters n s : regs_ok s -> user_mode (rg s CS) = true -> 0 <= n < 0x100000000 -> 84 <= esp0 < 0xfffffff0 -> g_selector g = Z.shiftl SEG_KCODE 3 ->
  exists s1, SYSCALL n s = Ret (tt, s1) /\ t_eax (frame_at (am s1) (esp0 - 76)) = n /\ t_trapno (frame_at (am s1) (esp0 - 76)) = T_SYSCALL /\
    t_user (frame_at (am s1) (esp0 - 76)) = Some (rg s ESP, rg s SS).
Proof.
  intros Hok Hu Hn Hb Hg. set (s0 := set_reg EAX n s). assert (user_mode (rg s0 CS) = true) as Hu0 by exact Hu.
  pose proof (trap_enter_spec pad trap_return g ss0 esp0 T_SYSCALL 0 s0) as H. cbv zeta in H. rewrite Hu0 in H.
  destruct H as (s1 & E & _ & _ & _ & Hf & _); [intros r; destruct r; try exact (Hok _); exact Hn|done|lia|done|done|].
  exists s1. split; [exact E|]. rewrite Hf. unfold frame_of. rewrite Hu0. split; [reflexivity|]. split; reflexivity.
Qed.
End user.

(** ** The switch between two stacks *)

(** swtch(old, new): the caller has pushed new, old and the return address. *)
Definition swtch : M machine unit :=
  (let* sp := rget ESP in let* v := amget (u32 (sp + 4)) in rset EAX v) ;;
  (let* sp := rget ESP in let* v := amget (u32 (sp + 8)) in rset EDX v) ;;
  pushr EBP ;; pushr EBX ;; pushr ESI ;; pushr EDI ;;
  (let* a := rget EAX in let* sp := rget ESP in amset (fun m => st32 m a sp)) ;;
  movl EDX ESP ;;
  popl EDI ;; popl ESI ;; popl EBX ;; popl EBP ;;
  retn.

(** struct context *)
Record context_t : Type := mkContext { c_edi : Z; c_esi : Z; c_ebx : Z; c_ebp : Z; c_eip : Z }.
Definition context_at (m : mem) (a : Z) : context_t :=
  mkContext (ld32 m a) (ld32 m (a + 4)) (ld32 m (a + 8)) (ld32 m (a + 12)) (ld32 m (a + 16)).

Definition apart (a n b k : Z) : Prop := a + n <= b \/ b + k <= a.

Record can_switch (s : machine) (old new : Z) : Prop := {
  cs_regs : regs_ok s;
  cs_room : 16 <= rg s ESP /\ rg s ESP + 12 < 0x100000000;
  cs_old : ld32 (am s) (rg s ESP + 4) = old;
  cs_new : ld32 (am s) (rg s ESP + 8) = new;
  cs_top : new + 20 < 0x100000000;
  cs_apart : apart old 4 (rg s ESP - 16) 20 /\ apart new 20 (rg s ESP - 16) 16 /\ apart old 4 new 20
}.

Lemma context_at_agree (P : Z -> Prop) m m' a : agree P m m' -> (forall b, a <= b < a + 20 -> P b) -> context_at m' a = context_at m a.
Proof. intros H Hb. unfold context_at. by rewrite !(ld32_agree P m m') by (try done; intros b ?; apply Hb; lia). Qed.

Definition swtch_keeps (r : reg) : bool := match r with ECX | DS | ES | FS | GS | CS | SS | EFLAGS | CR0 | CR3 | CR4 | GDTR | IDTR => true | _ => false end.

Lemma swtch_spec s old new : can_switch s old new ->
  let sp := rg s ESP in let c := context_at (am s) new in
  exists s', swtch s = Ret (tt, s') /\
    rg s' EDI = c_edi c /\ rg s' ESI = c_esi c /\ rg s' EBX = c_ebx c /\ rg s' EBP = c_ebp c /\ rg s' EIP = c_eip c /\ rg s' ESP = new + 20 /\
    (forall r, swtch_keeps r = true -> rg s' r = rg s r) /\
    ld32 (am s') old = sp - 16 /\
    context_at (am s') (sp - 16) = mkContext (rg s EDI) (rg s ESI) (rg s EBX) (rg s EBP) (ld32 (am s) sp) /\
    agree (fun a => ~ (sp - 16 <= a < sp) /\ ~ (old <= a < old + 4)) (am s) (am s').
Proof.
  intros [Hok [Hr1 Hr2] Ho Hn Ht (A1 & A2 & A3)] sp c. fold sp in Hr1, Hr2, Ho, Hn, A1, A2.
  assert (forall r, is_seg r = false -> u32 (rg s r) = rg s r) as Hu by (intros r Hr; apply u32_small; specialize (Hok r); by rewrite Hr in Hok).
  unfold swtch. mstep. fold sp. rewrite u32_small, Ho by lia. mstep. cbn [rg set_reg reg_num Z.eqb Pos.eqb]. change (am (set_reg EAX old s)) with (am s). fold sp. rewrite u32_small, Hn by lia.
  set (s1 := set_reg EDX new (set_reg EAX old s)). rewrite !pushr_k, !rg_push by done.
  set (s2 := pushes [rg s1 EBP; rg s1 EBX; rg s1 ESI; rg s1 EDI] s1).
  assert (forall v1 v2 v3 v4 x, do_push v4 (do_push v3 (do_push v2 (do_push v1 x))) = pushes [v1; v2; v3; v4] x) as Ep by reflexivity. rewrite Ep. fold s2.
  assert (stacked sp (am s) s2 [rg s EDI; rg s ESI; rg s EBX; rg s EBP]) as K2.
  { pose proof (stacked_pushes sp (am s) [rg s1 EBP; rg s1 EBX; rg s1 ESI; rg s1 EDI] s1 [] (stacked_nil s1) ltac:(lia) ltac:(cbn; lia)) as K. cbn [map rev app] in K. fold s2 in K. clearbody s2. unfold s1 in K. cbn [rg set_reg reg_num Z.eqb Pos.eqb] in K. rewrite !Hu in K by done. exact K. }
  destruct K2 as [Ke (W1 & W2 & W3 & W4 & _) Km]. assert (rg s2 ESP = sp - 16) as Ke2 by (cbn [length] in Ke; lia). rewrite Ke2, <- ?Z.add_assoc in W1, W2, W3, W4. rewrite Ke2 in Km.
  assert (forall r, r <> ESP -> rg s2 r = rg s1 r) as R2 by (intros r Hr; by apply rg_pushes). clearbody s2.
  mstep. rewrite (R2 EAX), Ke2 by done. change (rg s1 EAX) with old. set (m3 := st32 (am s2) old (sp - 16)). set (s3 := set_am m3 s2).
  unfold movl. mstep. change (rg s3 EDX) with (rg s2 EDX). rewrite (R2 EDX) by done. change (rg s1 EDX) with new. set (s4 := set_reg ESP new s3). assert (at_sp m3 new s4) as S4 by done.
  assert (0 <= new) as Hn0 by (rewrite <- Hn; apply ld32_range).
  pop_step S4 m3 new. pop_step S4 m3 (new + 4). pop_step S4 m3 (new + 8). pop_step S4 m3 (new + 12). unfold retn. pop_step S4 m3 (new + 16).
  assert (agree (fun a => ~ (sp - 16 <= a < sp) /\ ~ (old <= a < old + 4)) (am s) m3) as Hag.
  { eapply agree_trans; [eapply agree_weaken; [|exact Km]; by intros a [? ?]|]. eapply agree_weaken; [|apply st32_agree]. by intros a [? ?]. }
  assert (context_at m3 new = c) as Ec. { eapply context_at_agree; [exact Hag|]. unfold apart in *. intros b Hb. lia. }
  match goal with |- context [Ret (tt, ?x)] => set (s5 := x) end. assert (am s5 = m3) as E5 by exact (proj2 S4).
  exists s5. rewrite E5, <- Ec. split; [reflexivity|]. cbn [c_edi c_esi c_ebx c_ebp c_eip context_at]. do 5 (split; [reflexivity|]). split; [cbn; lia|]. split; [|split; [|split; [|exact Hag]]].
  - intros r Hr. destruct r; try discriminate; unfold s5, s4, s3; rewrite !rg_set_ne by reflexivity; cbn [rg set_am]; rewrite R2 by done; unfold s1; by rewrite !rg_set_ne by reflexivity.
  - unfold m3. rewrite ld32_st32_same. apply u32_small. lia.
  - unfold context_at, m3, apart in *. rewrite !ld32_st32_ne by lia.
    replace (sp - 16 + 8) with (sp - 16 + 4 + 4) by lia. replace (sp - 16 + 12) with (sp - 16 + 4 + 4 + 4) by lia. replace (sp - 16 + 16) with sp by lia.
    rewrite W1, W2, W3, W4. f_equal. apply (ld32_agree _ _ _ _ Km). intros b Hb. cbn. lia.
Qed.

(** C12 swtch leaves one stack and enters another.  The registers that a C function
    preserves come from the context at new, execution goes on at the address saved
    in it, and the pointer at old is set to the context of the caller, which is left
    on the caller's stack.  A later switch, from any stack, to that context returns
    from the first call as from an ordinary one: to its return address, with the
    stack pointer and the preserved registers that the caller had. *)
Theorem swtch_returns (s : machine) (old new : Z) : can_switch s old new ->
  let sp := rg s ESP in let c := context_at (am s) new in
  exists s', swtch s = Ret (tt, s') /\
    rg s' EDI = c_edi c /\ rg s' ESI = c_esi c /\ rg s' EBX = c_ebx c /\ rg s' EBP = c_ebp c /\ rg s' EIP = c_eip c /\ rg s' ESP = new + 20 /\
    agree (fun a => ~ (sp - 16 <= a < sp) /\ ~ (old <= a < old + 4)) (am s) (am s') /\
    forall t old', can_switch t old' (ld32 (am s') old) -> agree (fun a => sp - 16 <= a < sp + 4) (am s') (am t) ->
      exists t', swtch t = Ret (tt, t') /\
        rg t' EIP = ld32 (am s) sp /\ rg t' ESP = sp + 4 /\ rg t' EBX = rg s EBX /\ rg t' ESI = rg s ESI /\ rg t' EDI = rg s EDI /\ rg t' EBP = rg s EBP.
Proof.
  intros H sp c. destruct (swtch_spec s old new H) as (s' & E & R1 & R2 & R3 & R4 & R5 & R6 & _ & Ho & Hc & Hag). fold sp in Hc, Ho. exists s'. do 7 (split; [done|]). split; [done|].
  intros t old' Ht Hagt. rewrite Ho in Ht. destruct (swtch_spec t old' (sp - 16) Ht) as (t' & E' & Q1 & Q2 & Q3 & Q4 & Q5 & Q6 & _).
  assert (context_at (am t) (sp - 16) = context_at (am s') (sp - 16)) as Ec by (eapply context_at_agree; [exact Hagt|]; cbn; intros b; lia).
  rewrite Ec, Hc in Q1, Q2, Q3, Q4, Q5. exists t'. split; [exact E'|]. split; [exact Q5|]. split; [lia|]. split; [exact Q3|]. split; [exact Q2|]. split; [exact Q1|exact Q4].
Qed.

(** ** Examples *)

(** A system call from user mode, with 7 in EAX *)
Definition user_regs (r : reg) : Z :=
  match r with EAX => 7 | ESP => 0x3f00 | EIP => 0x100 | CS => 0x23 | DS | ES | SS => 0x2b | EFLAGS => 0x202 | _ => 0 end.
Definition user_machine : machine := mkMachine user_regs (fun _ => 0).

Lemma trap_roundtrip_witness : exists s1, trap_enter 0 0x80106000 (mkGateView 0x80107000 8 true true 3 true) 0x10 0x80400000 64 0 user_machine = Ret (tt, s1) /\
    t_eax (frame_at (am s1) (0x80400000 - 76)) = 7 /\ t_trapno (frame_at (am s1) (0x80400000 - 76)) = 64 /\ t_user (frame_at (am s1) (0x80400000 - 76)) = Some (0x3f00, 0x2b).
Proof.
  destruct (trap_roundtrip 0 0x80106000 (mkGateView 0x80107000 8 true true 3 true) 0x10 0x80400000 64 0 user_machine) as (s1 & E & _ & _ & _ & Hf & _).
  - intros r. destruct r; cbn; lia.
  - lia.
  - lia.
  - change (84 <= 0x80400000 < 0xfffffff0). lia.
  - reflexivity.
  - exists s1. split; [exact E|]. change (if user_mode (rg user_machine CS) then 76 else 68) with 76 in Hf. change (if user_mode (rg user_machine CS) then 0x80400000 else rg user_machine ESP) with 0x80400000 in Hf.
    rewrite Hf. split; [reflexivity|]. split; reflexivity.
Defined.

(** From the stack at 0x80500000 to a context at 0x80600000 *)
Definition switch_machine : machine :=
  mkMachine (fun r => match r with ESP => 0x80500000 | EBX => 5 | _ => 0 end)
    (st32 (st32 (st32 (fun _ => 0) 0x80500004 0x80700000) 0x80500008 0x80600000) 0x80600010 0x80104000).

Lemma swtch_returns_witness : exists s', swtch switch_machine = Ret (tt, s') /\ rg s' EIP = 0x80104000 /\ rg s' ESP = 0x80600014.
Proof.
  destruct (swtch_returns switch_machine 0x80700000 0x80600000) as (s' & E & _ & _ & _ & _ & Hi & Hs & _).
  - split; [intros r; destruct r; cbn; lia|cbn; lia|reflexivity|reflexivity|lia|]. unfold apart. cbn. lia.
  - exists s'. split; [exact E|]. split; [exact Hi|exact Hs].
Defined.
