(* ===== verification/Resume.v ===== *)
(** * A child of fork returns to user mode

    What fork leaves in the child's kernel stack (Fork.v), carried through swtch,
    forkret and trapret (TrapAsm.v). *)

From Stdlib Require Import ZArith Lia String Bool.
From stdpp Require Import base numbers list.
From S2P Require Import Prelude Params Mem Pages Kalloc PageTable AddrSpace Proc Fork Descriptors Asm TrapAsm.

(** Words whose bytes are the same are the same. *)
Lemma ld32_same m m' a b : (forall i, 0 <= i < 4 -> ld8 m' (b + i) = ld8 m (a + i)) -> ld32 m' b = ld32 m a.
Proof.
  intros H. unfold ld32. pose proof (H 0 ltac:(lia)) as H0. rewrite !Z.add_0_r in H0. rewrite H0, !H by lia. done.
Qed.
Lemma ld32_zeros m a : (forall i, 0 <= i < 4 -> ld8 m (a + i) = 0) -> ld32 m a = 0.
Proof. intros H. unfold ld32. pose proof (H 0 ltac:(lia)) as H0. rewrite Z.add_0_r in H0. rewrite H0, !H by lia. done. Qed.

Definition with_eax (v : Z) (f : trapframe) : trapframe :=
  mkTf (t_edi f) (t_esi f) (t_ebp f) (t_oesp f) (t_ebx f) (t_edx f) (t_ecx f) v (t_gs f) (t_fs f) (t_es f) (t_ds f)
    (t_trapno f) (t_err f) (t_eip f) (t_cs f) (t_eflags f) (t_user f).

Lemma child_frame trapret_addr forkret_addr c p q id m m' : child_of trapret_addr forkret_addr c p q id m m' ->
  frame_at m' (tf q) = with_eax 0 (frame_at m (tf p)).
Proof.
  intros H. pose proof (co_frame _ _ _ _ _ _ _ _ H) as Hf. unfold sizeof_tf, tf_eax in Hf.
  assert (forall k, 0 <= k < 19 -> k <> 7 -> ld32 m' (tf q + 4 * k) = ld32 m (tf p + 4 * k)) as Hw.
  { intros k Hk Hne. apply ld32_same. intros i Hi. replace (tf q + 4 * k + i) with (tf q + (4 * k + i)) by lia. rewrite Hf by lia.
    destruct (Z.leb_spec 28 (4 * k + i)), (Z.ltb_spec (4 * k + i) (28 + 4)); cbn [andb]; try lia; f_equal; lia. }
  assert (ld32 m' (tf q + 4 * 7) = 0) as He.
  { apply ld32_zeros. intros i Hi. replace (tf q + 4 * 7 + i) with (tf q + (28 + i)) by lia. rewrite Hf by lia.
    destruct (Z.leb_spec 28 (28 + i)), (Z.ltb_spec (28 + i) (28 + 4)); cbn [andb]; lia || done. }
  unfold frame_at, with_eax. rewrite He, !Hw by lia. done.
Qed.

Lemma frame_at_agree m m' a : agree (fun b => a <= b < a + 76) m m' -> frame_at m' a = frame_at m a.
Proof. intros H. unfold frame_at. rewrite !(ld32_agree _ m m' _ H) by (intros b Hb; lia). done. Qed.

(** C10 The child of fork goes on in user mode where its parent called fork.  The
    scheduler's first swtch to the child enters forkret on the child's kernel
    stack; when forkret returns, with that part of the stack as it was, execution
    goes on at trapret, which leaves the kernel with the registers that the parent
    had when it made the system call, except that EAX, the result, is 0. *)
Theorem fork_child_resumes (trapret_addr forkret_addr c id n err old : Z) (p q : proc) (m : mem) (u s : machine) :
  child_of trapret_addr forkret_addr c p q id m (am s) ->
  frame_at m (tf p) = frame_of u (tf p) n err -> user_mode (rg u CS) = true ->
  can_switch s old (context q) -> apart old 4 (context q) 100 -> apart (rg s ESP - 16) 16 (context q) 100 -> tf q + 76 < 0x100000000 ->
  exists s1, swtch s = Ret (tt, s1) /\ rg s1 EIP = u32 forkret_addr /\ rg s1 ESP = tf q - 4 /\
    forall s2, rg s2 ESP = tf q - 4 -> user_mode (rg s2 CS) = false -> agree (fun a => tf q - 4 <= a < tf q + 76) (am s1) (am s2) ->
      exists s3 s4, retn s2 = Ret (tt, s3) /\ rg s3 EIP = u32 trapret_addr /\ trapret s3 = Ret (tt, s4) /\ am s4 = am s2 /\
        rg s4 EAX = 0 /\ forall r, r <> EAX -> is_control r = false -> rg s4 r = rg u r.
Proof.
  intros Hch Hp Hu Hsw A1 A2 Ht. destruct (co_resume _ _ _ _ _ _ _ _ Hch) as (Ec & Ei & Er). unfold sizeof_context, context_eip in Ec, Ei.
  destruct (swtch_spec s old (context q) Hsw) as (s1 & E1 & _ & _ & _ & _ & R5 & R6 & _ & _ & _ & Hag). exists s1. split; [exact E1|]. split; [rewrite R5; exact Ei|]. split; [lia|].
  assert (0 <= context q) as H0 by (rewrite <- (cs_new _ _ _ Hsw); apply ld32_range).
  intros s2 Hs Hcs Hag2. assert (agree (fun a => tf q - 4 <= a < tf q + 76) (am s) (am s2)) as Hag3.
  { eapply agree_trans; [eapply agree_weaken; [|exact Hag]|exact Hag2]. unfold apart in *. cbn. intros a. lia. }
  set (s3 := set_reg EIP (ld32 (am s2) (tf q - 4)) (set_reg ESP (tf q) s2)).
  assert (retn s2 = Ret (tt, s3)) as E3. { unfold retn. rewrite (popl_last (am s2) (tf q - 4) s2 EIP (conj Hs eq_refl) ltac:(lia) ltac:(lia)). unfold s3. replace (tf q - 4 + 4) with (tf q) by lia. done. }
  destruct (trapret_resumes s3) as (s4 & E4 & M4 & R4); [cbn; lia|cbn; lia|exact Hcs|]. change (rg s3 ESP) with (tf q) in R4. change (am s3) with (am s2) in R4.
  assert (frame_at (am s2) (tf q) = with_eax 0 (frame_of u (tf p) n err)) as Ef.
  { rewrite <- Hp, <- (child_frame _ _ _ _ _ _ _ _ Hch). apply frame_at_agree. eapply agree_weaken; [|exact Hag3]. cbn. intros a. lia. }
  rewrite Ef in R4. exists s3, s4. split; [exact E3|]. split.
  { change (ld32 (am s2) (tf q - 4) = u32 trapret_addr). rewrite <- Er. apply (ld32_agree _ _ _ _ Hag3). intros b Hb. cbn. lia. }
  split; [exact E4|]. split; [exact M4|]. split; [exact (R4 EAX)|].
  intros r N1 N2. rewrite R4. unfold resumed, with_eax, frame_of. cbn [t_user t_edi t_esi t_ebp t_ebx t_edx t_ecx t_ds t_es t_fs t_gs t_cs t_eip t_eflags]. rewrite Hu. clear - N1 N2. destruct r; try reflexivity; try discriminate N2; congruence.
Qed.

(** ** An example *)

#[local] Existing Instance kernel_sym.

(** A parent with its frame at 0x80500fb4, a child with its kernel stack at
    0x80600000, and the scheduler's stack at 0x80700000 *)
Definition ex_parent : proc := mkProc 0 0x80300000 0x80500000 RUNNING 1 0 0x80500fb4 0 0 0 (fun _ => 0) 1 [] 0 [] 0 0 0.
Definition ex_child : proc := mkProc 0 0x80400000 0x80600000 RUNNABLE 2 0 0x80600fb4 0x80600f9c 0 0 (fun _ => 0) 1 [] 0 [] 0 0 0.
Definition ex_before : mem := st32 (st32 (fun _ => 0) (0x80500fb4 + 60) 0x23) (0x80500fb4 + 12) 0x80500fd4.
Definition ex_after : mem :=
  st32 (st32 (st32 (st32 (st32 (st32 ex_before (0x80600fb4 + 60) 0x23) (0x80600fb4 + 12) 0x80500fd4) (0x80600fb4 - 4) 0x80106000) (0x80600f9c + 16) 0x80104000) 0x80700004 0x80800000) 0x80700008 0x80600f9c.
Definition ex_user : machine := mkMachine (fun r => match r with CS => 0x23 | _ => 0 end) (fun _ => 0).
Definition ex_sched : machine := mkMachine (fun r => match r with ESP => 0x80700000 | CS => 8 | _ => 0 end) ex_after.

Lemma ex_child_of : child_of 0x80106000 0x80104000 0 ex_parent ex_child 2 ex_before ex_after.
Proof.
  split; try done.
  - intros va Hva. change (npages (sz ex_parent)) with 0. rewrite (proj2 (Z.ltb_ge _ _)) by mlia.
    destruct (empty_dir ex_after 0x80400000) as [_ Hp]; [page_ok_tac| |].
    + intros a Ha. unfold ex_after, ex_before. unfold in_page, PGSIZE in Ha. rewrite !ld8_st32. 
      repeat match goal with |- context [(?x <=? a) && (a <? ?y)] => destruct (Z.leb_spec x a), (Z.ltb_spec a y); cbn [andb]; try lia end; done.
    + unfold ubyte. change (pgdir ex_child) with 0x80400000. rewrite Hp; [done|]. unfold NVPN, KERNBASE in *. mlia.
  - intros i Hi. change (tf ex_child) with 0x80600fb4. change (tf ex_parent) with 0x80500fb4. unfold ex_after, ex_before, tf_eax, sizeof_tf in *. rewrite !ld8_st32.
    repeat match goal with |- context [(?x <=? ?a) && (?a <? ?y)] => destruct (Z.leb_spec x a), (Z.ltb_spec a y); cbn [andb]; try lia end; try done; f_equal; f_equal; lia.
Qed.

Lemma fork_child_resumes_witness : exists s1, swtch ex_sched = Ret (tt, s1) /\ rg s1 EIP = 0x80104000 /\ rg s1 ESP = 0x80600fb0.
Proof.
  destruct (fork_child_resumes 0x80106000 0x80104000 0 2 0 0 0x80800000 ex_parent ex_child ex_before ex_user ex_sched ex_child_of) as (s1 & E & H1 & H2 & _).
  - vm_compute. reflexivity.
  - reflexivity.
  - split; [intros r; destruct r; cbn; lia|cbn; lia|vm_compute; reflexivity|vm_compute; reflexivity|cbn; lia|]. unfold apart. cbn. lia.
  - unfold apart. cbn. lia.
  - unfold apart. cbn. lia.
  - cbn. lia.
  - exists s1. split; [exact E|]. split; [exact H1|exact H2].
Defined.
