(* ===== verification/Start.v ===== *)
(** * Starting the processors (bootasm.S, entry.S, entryother.S, main.c)

    The first processor goes from real mode through the boot loader to entry.S
    and main; main starts the others, which run entryother.S on a stack of their
    own.  Addresses are physical until paging is on; the memory of the model is
    indexed by the kernel's addresses, p2v of the physical ones. *)

From Stdlib Require Import ZArith Lia String Bool.
From stdpp Require Import base numbers list.
From S2P Require Import Prelude Params Mem Spinlock Pages Kalloc Vm PageTable FsState Descriptors Devices Asm TrapAsm.

(** ** Instructions *)

Definition CR0_PE : Z := 1.
Definition CR0_WP : Z := 0x10000.
Definition CR0_PG : Z := 0x80000000.
Definition CR4_PSE : Z := 0x10.

Definition cli_ : M machine unit := let* f := rget EFLAGS in rset EFLAGS (Z.ldiff f FL_IF).
Definition orl (v : Z) (r : reg) : M machine unit := let* a := rget r in rset r (Z.lor a v).
Definition load (a : Z) (r : reg) : M machine unit := let* v := amget a in rset r v.

(** ** Into protected mode *)

(** SEG_NULLASM and SEG_ASM: the bytes of a descriptor *)
Definition SEG_NULLASM : list Z := [0; 0; 0; 0; 0; 0; 0; 0].
Definition SEG_ASM (type base lim : Z) : list Z :=
  let word v := [v mod 256; v / 256] in
  word (Z.land (Z.shiftr lim 12) 0xffff) ++ word (Z.land base 0xffff) ++
  [Z.land (Z.shiftr base 16) 0xff; Z.lor 0x90 type; Z.lor 0xC0 (Z.land (Z.shiftr lim 28) 0xf); Z.land (Z.shiftr base 24) 0xff].
Definition boot_gdt : list (list Z) := [SEG_NULLASM; SEG_ASM (Z.lor STA_X STA_R) 0 0xffffffff; SEG_ASM STA_W 0 0xffffffff].

(** From real mode, with the table of segments at [gdt_addr] *)
Definition real_mode : M machine unit :=
  cli_ ;;
  movw_ax 0 ;; ax_to DS ;; ax_to ES ;; ax_to SS.
Definition protected_mode (gdt_addr : Z) : M machine unit :=
  rset GDTR gdt_addr ;;
  movl CR0 EAX ;; orl CR0_PE EAX ;; movl EAX CR0 ;;
  rset CS (Z.shiftl SEG_KCODE 3) ;;
  movw_ax (Z.shiftl SEG_KDATA 3) ;; ax_to DS ;; ax_to ES ;; ax_to SS ;;
  movw_ax 0 ;; ax_to FS ;; ax_to GS.

Lemma real_mode_spec s : exists s', real_mode s = Ret (tt, s') /\ am s' = am s /\
  forall r, rg s' r = match r with EAX => rg s EAX - rg s EAX mod 0x10000 + 0 | DS | ES | SS => 0 | EFLAGS => Z.ldiff (rg s EFLAGS) FL_IF | _ => rg s r end.
Proof. eexists. split; [reflexivity|]. split; [reflexivity|]. intros r. destruct r; try reflexivity; cbn; by apply u16_low. Qed.

Lemma protected_mode_spec gdt_addr s : exists s', protected_mode gdt_addr s = Ret (tt, s') /\ am s' = am s /\
  forall r, r <> EAX -> rg s' r = match r with DS | ES | SS => Z.shiftl SEG_KDATA 3 | FS | GS => 0 | CS => Z.shiftl SEG_KCODE 3 | GDTR => gdt_addr | CR0 => Z.lor (rg s CR0) CR0_PE | _ => rg s r end.
Proof. eexists. split; [reflexivity|]. split; [reflexivity|]. intros r Hr. destruct r; try reflexivity; try done; cbn; by apply u16_low. Qed.

(** ** bootasm.S *)

(** The processor, the answers of the keyboard controller's status port, and what
    is written to ports (the latest first) *)
Record boot_m : Type := mkBoot { b_m : machine; b_status : list Z; b_out : list (Z * Z) }.
Definition b_mL : lens boot_m machine := Lens b_m (fun m s => mkBoot m (b_status s) (b_out s)).
Definition set_al (v : Z) : M machine unit := let* a := rget EAX in rset EAX (a - a mod 0x100 + v).
Definition al_out (port v : Z) : M boot_m unit :=
  zoom b_mL (set_al v) ;; modify (fun s => mkBoot (b_m s) (b_status s) ((port, v) :: b_out s)).

(** inb $0x64,%al; testb $0x2,%al; jnz *)
Fixpoint seta20_wait (l : list Z) : M boot_m unit :=
  match l with
  | [] => fun _ => Blocked
  | v :: l =>
    modify (fun s => mkBoot (b_m s) l (b_out s)) ;;
    zoom b_mL (set_al v) ;;
    if negb (Z.land v 0x2 =? 0) then seta20_wait l else ret tt
  end.
Definition seta20 (cmd port : Z) : M boot_m unit := (let* l := gets b_status in seta20_wait l) ;; al_out port cmd.

(** start of bootasm.S up to the call of bootmain; memory is addressed as it is,
    without paging. *)
Definition bootasm (gdt_addr bootmain_addr after : Z) : M boot_m unit :=
  zoom b_mL real_mode ;;
  seta20 0xd1 0x64 ;;
  seta20 0xdf 0x60 ;;
  zoom b_mL (protected_mode gdt_addr ;; rset ESP 0x7c00 ;; pushl after ;; rset EIP bootmain_addr).

Lemma seta20_spec cmd port busy v rest s : Forall (fun b => Z.land b 0x2 <> 0) busy -> Z.land v 0x2 = 0 -> b_status s = busy ++ v :: rest ->
  exists s', seta20 cmd port s = Ret (tt, s') /\ b_status s' = rest /\ b_out s' = (port, cmd) :: b_out s /\ am (b_m s') = am (b_m s) /\ forall r, r <> EAX -> rg (b_m s') r = rg (b_m s) r.
Proof.
  intros Hb Hv Hs. unfold seta20. assert (forall s, exists s', seta20_wait (busy ++ v :: rest) s = Ret (tt, s') /\ b_status s' = rest /\ b_out s' = b_out s /\ am (b_m s') = am (b_m s) /\
    forall r, r <> EAX -> rg (b_m s') r = rg (b_m s) r) as Hw.
  { clear s Hs. induction Hb as [|b busy Hb _ IH]; intros s; cbn [app seta20_wait].
    - mstep. mstep. rewrite Hv. cbn [Z.eqb negb]. eexists. split; [reflexivity|]. repeat split. intros r Hr. by destruct r.
    - mstep. mstep. rewrite (proj2 (Z.eqb_neq _ _) Hb). cbn [negb]. edestruct IH as (s' & E & H1 & H2 & H3 & H4). exists s'. split; [exact E|]. split_and!; [done|by rewrite H2|by rewrite H3|].
      intros r Hr. rewrite H4 by done. by destruct r. }
  destruct (Hw s) as (s1 & E & H1 & H2 & H3 & H4).
  assert ((let* l := gets b_status in seta20_wait l) s = Ret (tt, s1)) as E' by (mstep; by rewrite Hs). mstep_with E'. eexists. split; [reflexivity|]. cbn [b_status b_out b_m put view b_mL]. split_and!; [done|by rewrite H2|exact H3|].
  intros r Hr. rewrite <- H4 by done. by destruct r.
Qed.

(** The boot sector enters bootmain in protected mode, on the flat segments of its
    table, with a stack below itself and with address line 20 on. *)
Lemma bootasm_enters gdt_addr bootmain_addr after s b1 v1 b2 v2 rest :
  Forall (fun b => Z.land b 0x2 <> 0) (b1 ++ b2) -> Z.land v1 0x2 = 0 -> Z.land v2 0x2 = 0 -> b_status s = b1 ++ v1 :: b2 ++ v2 :: rest ->
  exists s', bootasm gdt_addr bootmain_addr after s = Ret (tt, s') /\ b_out s' = (0x60, 0xdf) :: (0x64, 0xd1) :: b_out s /\
    Z.land (rg (b_m s') CR0) CR0_PE = CR0_PE /\ rg (b_m s') GDTR = gdt_addr /\ rg (b_m s') CS = 8 /\ rg (b_m s') DS = 0x10 /\ rg (b_m s') ES = 0x10 /\ rg (b_m s') SS = 0x10 /\
    rg (b_m s') EIP = bootmain_addr /\ rg (b_m s') ESP = 0x7bfc /\ ld32 (am (b_m s')) 0x7bfc = u32 after.
Proof.
  intros [Hb1 Hb2]%Forall_app Hv1 Hv2 Hs. unfold bootasm. destruct (real_mode_spec (b_m s)) as (m1 & E1 & M1 & R1).
  rewrite (bind_ret_eq _ _ _ _ _ (zoom_ret b_mL _ _ _ _ E1)). set (s1 := put b_mL m1 s).
  destruct (seta20_spec 0xd1 0x64 b1 v1 (b2 ++ v2 :: rest) s1 Hb1 Hv1 Hs) as (s2 & E2 & St2 & O2 & M2 & R2). mstep_with E2.
  destruct (seta20_spec 0xdf 0x60 b2 v2 rest s2 Hb2 Hv2 St2) as (s3 & E3 & St3 & O3 & M3 & R3). mstep_with E3.
  destruct (protected_mode_spec gdt_addr (b_m s3)) as (m4 & E4 & M4 & R4).
  unfold zoom. cbn [view b_mL]. rewrite (bind_ret_eq _ _ _ _ _ E4), !rset_k, push_k. eexists. split; [reflexivity|]. cbn [b_out put b_mL b_m]. split; [by rewrite O3, O2|].
  set (s5 := set_reg EIP bootmain_addr (do_push after (set_reg ESP 0x7c00 m4))).
  assert (forall r, r <> EAX -> r <> EIP -> r <> ESP -> rg s5 r = rg m4 r) as R5 by (intros r H1 H2 H3; by destruct r).
  split; [rewrite R5, R4 by done; apply Z.bits_inj'; intros n Hn; rewrite Z.land_spec, Z.lor_spec; by destruct (Z.testbit CR0_PE n), (Z.testbit (rg (b_m s3) CR0) n)|].
  do 5 (split; [by rewrite R5, R4|]). do 2 (split; [reflexivity|]). exact (ld32_st32_same (am m4) 0x7bfc after).
Qed.

(** Its two segments are all of memory. *)
Lemma boot_gdt_flat : map (fun d => seg_decode (foldr (fun b w => b + 256 * w) 0 d)) (tail boot_gdt) =
  [mkView 0 0xffffffff (Z.lor STA_X STA_R) true 0 true; mkView 0 0xffffffff STA_W true 0 true].
Proof. reflexivity. Qed.

(** ** entry.S *)

Section start.
Context {Lay : Layout}.
(** Addresses of the kernel image *)
Context (entrypgdir_addr stack_addr main_addr mpenter_addr : Z).

Definition entry : M machine unit :=
  movl CR4 EAX ;; orl CR4_PSE EAX ;; movl EAX CR4 ;;
  rset EAX (v2p entrypgdir_addr) ;; movl EAX CR3 ;;
  movl CR0 EAX ;; orl (Z.lor CR0_PG CR0_WP) EAX ;; movl EAX CR0 ;;
  rset ESP (u32 (stack_addr + KSTACKSIZE)) ;;
  rset EAX main_addr ;;
  movl EAX EIP.

(** The page directory that entry.S and entryother.S load *)
Definition PTE_PS : Z := 0x80.
Definition entrypgdir (i : Z) : Z :=
  if i =? 0 then Z.lor (Z.lor PTE_P PTE_W) PTE_PS else
  if i =? Z.shiftr KERNBASE 22 then Z.lor (Z.lor PTE_P PTE_W) PTE_PS else 0.
(** What the processor makes of an address with pages of 4 Mbyte *)
Definition large_page (pd : Z -> Z) (va : Z) : option Z :=
  let pde := pd (PDX va) in
  if present pde && negb (Z.land pde PTE_PS =? 0) then Some (Z.land pde 0xffc00000 + va mod 0x400000) else None.

Lemma entry_starts s : exists s', entry s = Ret (tt, s') /\ am s' = am s /\
  rg s' EIP = main_addr /\ rg s' ESP = u32 (stack_addr + KSTACKSIZE) /\ rg s' CR3 = v2p entrypgdir_addr /\
  rg s' CR0 = Z.lor (rg s CR0) (Z.lor CR0_PG CR0_WP) /\ rg s' CR4 = Z.lor (rg s CR4) CR4_PSE.
Proof. eexists. split; [reflexivity|]. repeat split. Qed.

(** The directory maps the first 4 Mbyte where they are, for the code that turns
    paging on, and from KERNBASE on, for main. *)
Lemma entrypgdir_maps pa : 0 <= pa < 0x400000 -> large_page entrypgdir pa = Some pa /\ large_page entrypgdir (p2v pa) = Some pa.
Proof.
  intros H. unfold large_page, p2v, KERNBASE. rewrite (u32_small (pa + _)) by lia.
  assert (forall k, 0 <= k < 1024 -> PDX (pa + 0x400000 * k) = k) as E.
  { intros k Hk. unfold PDX, PDXSHIFT. rewrite u32_small, Z.shiftr_div_pow2 by lia. replace ((pa + 0x400000 * k) / 2 ^ 22) with k by (change (2 ^ 22) with 0x400000; mlia).
    change 0x3FF with (Z.ones 10). by rewrite Z.land_ones, Z.mod_small by (change (2 ^ 10) with 1024; lia). }
  pose proof (E 0 ltac:(lia)) as E0. rewrite Z.mul_0_r, Z.add_0_r in E0. rewrite E0. change 0x80000000 with (0x400000 * 512). rewrite (E 512) by lia. split.
  - change (Some (0 + pa mod 0x400000) = Some pa). by rewrite Z.mod_small.
  - change (Some (0 + (pa + 0x400000 * 512) mod 0x400000) = Some pa). f_equal. mlia.
Qed.

(** ** entryother.S *)

(** [start] is the physical address of the code, [after] that of the code after
    the call. *)
Definition entryother (start gdt_addr after : Z) : M machine unit :=
  real_mode ;;
  protected_mode gdt_addr ;;
  movl CR4 EAX ;; orl CR4_PSE EAX ;; movl EAX CR4 ;;
  load (p2v (start - 12)) EAX ;; movl EAX CR3 ;;
  movl CR0 EAX ;; orl (Z.lor (Z.lor CR0_PE CR0_PG) CR0_WP) EAX ;; movl EAX CR0 ;;
  load (p2v (start - 4)) ESP ;;
  let* target := amget (p2v (start - 8)) in
  pushl after ;; rset EIP target.

(** ** The other processors *)

(** What a processor sends through the interrupt command register of its local APIC:
    an INIT, or a STARTUP with the number of the page where the code is.  [to] is an
    APIC id.  The INIT that takes the level back reaches nobody. *)
Inductive ipi : Type := Init (to : Z) | Startup (to page : Z).
Definition ipi_of (hi lo : Z) : list ipi :=
  let to := Z.shiftr hi 24 in
  let mode := Z.land lo 0x700 in
  if (mode =? A_INIT) && negb (Z.land lo A_ASSERT =? 0) then [Init to]
  else if mode =? A_STARTUP then [Startup to (Z.land lo 0xff)] else [].
(** The interrupts of a list of writes, the oldest first; [hi] is in ICRHI. *)
Fixpoint ipis (hi : Z) (ws : list (Z * Z)) : list ipi :=
  match ws with
  | [] => []
  | (r, v) :: ws => if r =? A_ICRHI then ipis v ws else (if r =? A_ICRLO then ipi_of hi v else []) ++ ipis hi ws
  end.
(** The writes to the local APIC between two states *)
Definition written (d d' : dev_t) : list (Z * Z) := rev (take (length (apic_outs d') - length (apic_outs d)) (apic_outs d')).

(** A processor: its registers, its tables, its local APIC, the index of the struct cpu
    in its variable cpu, and whether it waits for a STARTUP *)
Record ap_t : Type := mkAp { ap_regs : reg -> Z; ap_tab : tables; ap_dev : dev_t; ap_cpu : Z; ap_wait : bool }.
(** The machine as main sees it: memory and the allocator, the devices, the field started
    of each struct cpu, and the processors *)
Record smp_t : Type := mkSmp { sm_k : kst; sm_dev : dev_t; started : Z -> Z; aps : Z -> ap_t }.
Definition sm_kL : lens smp_t kst := Lens sm_k (fun k s => mkSmp k (sm_dev s) (started s) (aps s)).
Definition sm_devL : lens smp_t dev_t := Lens sm_dev (fun d s => mkSmp (sm_k s) d (started s) (aps s)).
#[export] Instance smp_pages : PageOps smp_t := PageOps_zoom sm_kL.
Definition set_ap (c : Z) (f : ap_t -> ap_t) : M smp_t unit :=
  modify (fun s => mkSmp (sm_k s) (sm_dev s) (started s) (upd (aps s) c (f (aps s c)))).
Definition ap_with_tab (f : tables -> tables) (a : ap_t) : ap_t := mkAp (ap_regs a) (f (ap_tab a)) (ap_dev a) (ap_cpu a) (ap_wait a).
Definition ap_with_regs (r : reg -> Z) (a : ap_t) : ap_t := mkAp r (ap_tab a) (ap_dev a) (ap_cpu a) (ap_wait a).
Definition ap_with_dev (d : dev_t) (a : ap_t) : ap_t := mkAp (ap_regs a) (ap_tab a) d (ap_cpu a) (ap_wait a).
Definition ap_with_cpu (n : Z) (a : ap_t) : ap_t := mkAp (ap_regs a) (ap_tab a) (ap_dev a) n (ap_wait a).
Definition ap_with_wait (w : bool) (a : ap_t) : ap_t := mkAp (ap_regs a) (ap_tab a) (ap_dev a) (ap_cpu a) w.
Definition ap_set (q : reg) (v : Z) (a : ap_t) : ap_t := ap_with_regs (fun r => if reg_num r =? reg_num q then v else ap_regs a r) a.

(** The kernel's page directory, the interrupt table, the tables in cpus[], and the
    hardware: the number of processors, the registers of their local APICs, and the
    registers of a processor after an INIT *)
Context (kpgdir_addr idt_addr : Z) (gdt_of cpu_of : Z -> Z) (lapicaddr lapic_ver : Z) (nproc : nat) (lapic_id : Z -> Z) (icrlo : Z -> Z) (fuel : nat) (reset_regs : reg -> Z).
(** The assembled code of entryother.S, and its symbols gdt and the address after the
    call, which the Makefile links for the physical address 0x7000; where the kernel
    has this image, and its size as the linker gives it *)
Context (image : list Z) (ap_gdt ap_after image_addr image_size : Z).
Definition link_addr : Z := 0x7000.
Definition entry_code : Z := 0x7000.
Definition apic_id (c : Z) : Z := Z.shiftr (u32 (lapic_id c)) 24.

(** mpmain up to the call of scheduler, without its message *)
Definition mpmain (c : Z) : M smp_t unit :=
  set_ap c (ap_set IDTR (fst (idtinit idt_addr))) ;;
  let* n := gets (fun s => ap_cpu (aps s c)) in
  modify (fun s => mkSmp (sm_k s) (sm_dev s) (upd (started s) n 1) (aps s)).
Definition mpenter (c : Z) : M smp_t unit :=
  set_ap c (ap_set CR3 (v2p kpgdir_addr)) ;;
  let n := cpunum lapicaddr (lapic_id c) in
  set_ap c (ap_with_tab (seginit (gdt_of n) (cpu_of n))) ;; set_ap c (ap_with_cpu n) ;;
  (let* a := gets (fun s => aps s c) in
   match lapicinit lapicaddr icrlo lapic_ver fuel (ap_dev a) with
   | Ret (_, d) => set_ap c (ap_with_dev d)
   | Panic msg => panic msg | Fault why => fault why | Blocked => fun _ => Blocked | NoFuel => nofuel
   end) ;;
  mpmain c.

(** A processor that is started at the physical address [addr].  If the code there is
    that of entryother.S, where it was linked for, it runs it on the shared memory;
    with paging on it needs the directory that maps the code where it is; then it runs
    the function that it calls. *)
Definition code_at (m : mem) (a : Z) : list Z := map (fun i => ld8 m (a + i)) (seqZ 0 (Z.of_nat (length image))).
Definition ap_run (c addr : Z) : M smp_t unit :=
  let* a := gets (fun s => aps s c) in
  let* m := gets mem_of in
  if negb ((addr =? link_addr) && bool_decide (code_at m (p2v addr) = image)) then fault "unknown code" else
  match entryother addr ap_gdt ap_after (mkMachine (ap_regs a) m) with
  | Ret (_, s') =>
    modify (put memL (am s')) ;; set_ap c (ap_with_regs (rg s')) ;;
    if negb (rg s' CR3 =? v2p entrypgdir_addr) then fault "page fault in entryother" else
    if rg s' EIP =? mpenter_addr then mpenter c else fault "jump to nowhere"
  | Panic msg => panic msg | Fault why => fault why | Blocked => fun _ => Blocked | NoFuel => nofuel
  end.

(** The processor [c] gets an interrupt if it is for its APIC id.  After an INIT it waits
    for a STARTUP, and ignores one that it does not wait for. *)
Definition receive (msg : ipi) (c : Z) : M smp_t unit :=
  match msg with
  | Init to => if apic_id c =? to then set_ap c (fun a => ap_with_wait true (ap_with_regs reset_regs a)) else ret tt
  | Startup to page =>
    let* w := gets (fun s => ap_wait (aps s c)) in
    if (apic_id c =? to) && w then
      set_ap c (fun a => ap_with_wait false (ap_set CS (Z.shiftl page 8) (ap_set EIP 0 a))) ;; ap_run c (Z.shiftl page 12)
    else ret tt
  end.
Fixpoint receive_all (n : nat) (msg : ipi) (c : Z) : M smp_t unit :=
  match n with
  | O => ret tt
  | S n => receive msg c ;; receive_all n msg (c + 1)
  end.
Fixpoint deliver (msgs : list ipi) : M smp_t unit :=
  match msgs with
  | [] => ret tt
  | msg :: msgs => receive_all nproc msg 0 ;; deliver msgs
  end.

(** One round of the loop of startothers; what lapicstartap writes is delivered.  The
    wait for c->started is over when a processor has set it; meanwhile this one does
    nothing else. *)
Definition start_cpu (cpu_id : Z -> Z) (c : Z) : M smp_t unit :=
  let code := p2v entry_code in
  let* stack := kalloc in
  store32 (code - 4) (stack + KSTACKSIZE) ;;
  store32 (code - 8) mpenter_addr ;;
  store32 (code - 12) (v2p entrypgdir_addr) ;;
  let* d := gets sm_dev in
  zoom sm_devL (lapicstartap (u8 (cpu_id c)) (v2p code)) ;;
  let* d' := gets sm_dev in
  deliver (ipis 0 (written d d')) ;;
  let* f := gets (fun s => started s c) in
  if f =? 0 then fun _ => Blocked else ret tt.
Fixpoint start_cpus (n : nat) (cpu_id : Z -> Z) (me c : Z) : M smp_t unit :=
  match n with
  | O => ret tt
  | S n => (if c =? me then ret tt else start_cpu cpu_id c) ;; start_cpus n cpu_id me (c + 1)
  end.
(** [this] is the processor that runs it. *)
Definition startothers (ncpu : Z) (cpu_id : Z -> Z) (this : Z) : M smp_t unit :=
  on_mem (fun m => memmove m (p2v entry_code) image_addr image_size) ;;
  start_cpus (Z.to_nat ncpu) cpu_id (cpunum lapicaddr (lapic_id this)) 0.

(** ** They start *)

#[local] Instance sm_kL_ok : LensOk sm_kL.
Proof. by split; try intros ?? []; try intros []. Qed.
#[local] Instance smp_spec : PageSpec smp_t := PageSpec_zoom sm_kL.

Lemma entryother_enters start gdt_addr after s : let m := am s in let sp := u32 (ld32 m (p2v (start - 4)) - 4) in
  exists s', entryother start gdt_addr after s = Ret (tt, s') /\ am s' = st32 m sp after /\ rg s' ESP = sp /\
    rg s' EIP = ld32 m (p2v (start - 8)) /\ rg s' CR3 = ld32 m (p2v (start - 12)) /\ rg s' CR0 = Z.lor (Z.lor (rg s CR0) CR0_PE) (Z.lor (Z.lor CR0_PE CR0_PG) CR0_WP) /\
    rg s' CR4 = Z.lor (rg s CR4) CR4_PSE /\ rg s' CS = 8 /\ rg s' DS = 0x10 /\ rg s' ES = 0x10 /\ rg s' SS = 0x10.
Proof.
  intros m sp. unfold entryother. destruct (real_mode_spec s) as (s1 & E1 & M1 & R1). mstep_with E1. destruct (protected_mode_spec gdt_addr s1) as (s2 & E2 & M2 & R2). mstep_with E2.
  assert (am s2 = m) as Em by (unfold m; congruence). clearbody m. subst m. eexists. split; [reflexivity|].
  split; [reflexivity|]. do 3 (split; [reflexivity|]). split; [change (Z.lor (rg s2 CR0) (Z.lor (Z.lor CR0_PE CR0_PG) CR0_WP) = Z.lor (Z.lor (rg s CR0) CR0_PE) (Z.lor (Z.lor CR0_PE CR0_PG) CR0_WP)); by rewrite R2, R1|].
  split; [change (Z.lor (rg s2 CR4) CR4_PSE = Z.lor (rg s CR4) CR4_PSE); by rewrite R2, R1|].
  split; [exact (R2 CS ltac:(done))|]. split; [exact (R2 DS ltac:(done))|]. split; [exact (R2 ES ltac:(done))|exact (R2 SS ltac:(done))].
Qed.

(** lapicstartap sends an INIT and twice a STARTUP to the processor it is called for. *)
Lemma lapicstartap_sends id d : 0 <= id < 256 ->
  exists d', lapicstartap id 0x7000 d = Ret (tt, d') /\ ipis 0 (written d d') = [Init id; Startup id 7; Startup id 7].
Proof.
  intros Hid. unfold lapicstartap, startup_ipis, lapicw. eexists. split; [repeat mstep; reflexivity|]. unfold written. cbn [apic_outs v_apic_outs v_lowmem v_outs length].
  match goal with |- context [take ?n _] => replace n with 7%nat by lia end.
  assert (Z.shiftr (u32 (Z.shiftl id 24)) 24 = id) as E by (rewrite Z.shiftl_mul_pow2, u32_small, Z.shiftr_div_pow2 by lia; apply Z.div_mul; lia).
  set (h := u32 (Z.shiftl id 24)) in *. clearbody h. transitivity [Init (Z.shiftr h 24); Startup (Z.shiftr h 24) 7; Startup (Z.shiftr h 24) 7]; [reflexivity|by rewrite E].
Qed.

(** The processor [c] is in the kernel on the stack [p], with the kernel's
    segments, page directory and interrupt table, and has said so. *)
Record ap_ready (s : smp_t) (c p : Z) : Prop := {
  ar_started : started s c = 1;
  ar_stack : ap_regs (aps s c) ESP = p + KSTACKSIZE - 4;
  ar_cs : ap_regs (aps s c) CS = Z.shiftl SEG_KCODE 3;
  ar_ss : ap_regs (aps s c) SS = Z.shiftl SEG_KDATA 3;
  ar_paging : Z.testbit (ap_regs (aps s c) CR0) 31 = true;
  ar_pgdir : ap_regs (aps s c) CR3 = v2p kpgdir_addr;
  ar_cpu : ap_cpu (aps s c) = c;
  ar_gdt : gdtr (ap_tab (aps s c)) = table_reg (gdt_of c) (sizeof_segdesc * NSEGS);
  ar_idt : ap_regs (aps s c) IDTR = fst (idtinit idt_addr)
}.

Context (Hfuel : apic_answers icrlo fuel) (Hmp : 0 <= mpenter_addr < 0x100000000) (Hentry : 0 <= v2p entrypgdir_addr < 0x100000000).
(** The APIC ids of the processors are 0, 1, 2, and so on, as mpinit requires. *)
Context (Hlapic : lapicaddr <> 0) (Hids : forall c, 0 <= c < Z.of_nat nproc -> apic_id c = c).

Lemma cpunum_of c : cpunum lapicaddr (lapic_id c) = apic_id c.
Proof. unfold cpunum. by rewrite (proj2 (Z.eqb_neq _ _) Hlapic). Qed.

Lemma mpenter_spec (s : smp_t) c : apic_id c = c -> exists s', mpenter c s = Ret (tt, s') /\ sm_k s' = sm_k s /\
  (forall c', c' <> c -> aps s' c' = aps s c' /\ started s' c' = started s c') /\ started s' c = 1 /\ ap_wait (aps s' c) = ap_wait (aps s c) /\
  gdtr (ap_tab (aps s' c)) = table_reg (gdt_of c) (sizeof_segdesc * NSEGS) /\ ap_cpu (aps s' c) = c /\
  forall r, ap_regs (aps s' c) r = match r with CR3 => v2p kpgdir_addr | IDTR => fst (idtinit idt_addr) | _ => ap_regs (aps s c) r end.
Proof.
  intros Hc. unfold mpenter. cbv zeta. rewrite cpunum_of, Hc. mstep. mstep. mstep. set (s1 := mkSmp _ _ _ _).
  destruct (lapicinit_acts lapicaddr icrlo lapic_ver fuel Hfuel (ap_dev (aps s1 c))) as (d & E & _).
  set (s2 := mkSmp (sm_k s1) (sm_dev s1) (started s1) (upd (aps s1) c (ap_with_dev d (aps s1 c)))).
  erewrite (bind_ret_eq _ _ _ s2 tt); [|mstep; by rewrite E].
  assert (ap_cpu (aps s2 c) = c) as Ec by (unfold s2, s1; cbn [aps]; rewrite !upd_same; reflexivity).
  unfold mpmain. mstep. mstep. cbn [aps]. rewrite upd_same. change (ap_cpu (ap_set IDTR (fst (idtinit idt_addr)) (aps s2 c))) with (ap_cpu (aps s2 c)). rewrite Ec.
  eexists. split; [reflexivity|]. cbn [started aps sm_k sm_dev]. rewrite !upd_same. split; [reflexivity|].
  split; [intros c' Hc'; unfold s2, s1; cbn [aps started]; by rewrite !upd_ne by done|]. split; [reflexivity|].
  unfold s2, s1. cbn [aps]. rewrite !upd_same. split; [reflexivity|]. split; [reflexivity|]. split; [reflexivity|]. intros r. by destruct r.
Qed.

Lemma ap_ready_same s s' c p : aps s' c = aps s c /\ started s' c = started s c -> ap_ready s c p -> ap_ready s' c p.
Proof. intros [E1 E2] []. split; by rewrite ?E1, ?E2. Qed.

(** What startothers leaves below the code for the processor it starts on the stack [p] *)
Record ap_args (m : mem) (p : Z) : Prop := {
  aa_code : code_at m 0x80007000 = image;
  aa_stack : ld32 m (0x80007000 - 4) = p + KSTACKSIZE;
  aa_enter : ld32 m (0x80007000 - 8) = mpenter_addr;
  aa_pgdir : ld32 m (0x80007000 - 12) = v2p entrypgdir_addr
}.

Lemma ap_run_spec (s : smp_t) c p : page_ok p -> apic_id c = c -> ap_args (mem_of s) p ->
  exists s', ap_run c 0x7000 s = Ret (tt, s') /\ sm_k s' = sm_k (put memL (st32 (mem_of s) (p + KSTACKSIZE - 4) ap_after) s) /\
    (forall c', c' <> c -> aps s' c' = aps s c' /\ started s' c' = started s c') /\ ap_ready s' c p /\ ap_wait (aps s' c) = ap_wait (aps s c).
Proof.
  intros Hok Hc [H1 H2 H3 H4]. pose proof (page_ok_bounds p Hok) as Hpb. set (m2 := mem_of s) in *.
  set (r0 := ap_regs (aps s c)). destruct (entryother_enters 0x7000 ap_gdt ap_after (mkMachine r0 m2)) as (x & Ex & Xm & Xsp & Xip & Xcr3 & Xcr0 & _ & Xcs & _ & _ & Xss).
  cbn [am rg] in Xm, Xsp, Xip, Xcr0, Xcr3.
  change (p2v (0x7000 - 4)) with (0x80007000 - 4) in *. change (p2v (0x7000 - 8)) with (0x80007000 - 8) in *. change (p2v (0x7000 - 12)) with (0x80007000 - 12) in *.
  rewrite H4 in Xcr3. rewrite H3 in Xip. rewrite H2, (u32_small (p + KSTACKSIZE - 4)) in Xm, Xsp by (unfold KSTACKSIZE, PGSIZE in *; lia).
  set (s4 := mkSmp (sm_k (put memL (am x) s)) (sm_dev s) (started s) (upd (aps s) c (ap_with_regs (rg x) (aps s c)))).
  destruct (mpenter_spec s4 c Hc) as (s5 & E5 & K5 & O5 & T5 & W5 & G5 & C5 & R5). exists s5.
  assert (aps s4 c = ap_with_regs (rg x) (aps s c)) as A4 by (unfold s4; cbn [aps]; by rewrite upd_same). rewrite A4 in W5, R5. cbn [ap_regs ap_with_regs] in R5.
  split_and!.
  - unfold ap_run. mstep. mstep. fold m2. change (p2v 0x7000) with 0x80007000. rewrite (bool_decide_eq_true_2 _ H1). change ((0x7000 =? link_addr) && true) with true. cbn [negb].
    fold r0. rewrite Ex. mstep. mstep. rewrite Xcr3, Z.eqb_refl, Xip, Z.eqb_refl. cbn [negb]. exact E5.
  - rewrite K5. unfold s4. cbn [sm_k]. by rewrite Xm.
  - intros c' Hc'. destruct (O5 c' Hc') as [-> ->]. unfold s4. cbn [aps started]. split; [by apply upd_ne|reflexivity].
  - split; [exact T5|rewrite R5; exact Xsp|rewrite R5; exact Xcs|rewrite R5; exact Xss| |exact (R5 CR3)|exact C5|exact G5|exact (R5 IDTR)].
    rewrite R5, Xcr0, !Z.lor_spec. by rewrite !orb_true_r.
  - exact W5.
Qed.

Definition ipi_to (msg : ipi) : Z := match msg with Init to => to | Startup to _ => to end.

(** An interrupt reaches the one processor that has the id. *)
Lemma receive_other msg c (s : smp_t) : apic_id c <> ipi_to msg -> receive msg c s = Ret (tt, s).
Proof. intros H. apply Z.eqb_neq in H. destruct msg; cbn [receive ipi_to] in *; rewrite H; [reflexivity|]. by mstep. Qed.
Lemma receive_all_none msg (s : smp_t) n : forall c0, (forall c', c0 <= c' < c0 + Z.of_nat n -> apic_id c' = c') ->
  ~ (c0 <= ipi_to msg < c0 + Z.of_nat n) -> receive_all n msg c0 s = Ret (tt, s).
Proof.
  induction n as [|n IH]; intros c0 Hid Hn; [done|]. cbn [receive_all]. erewrite bind_ret_eq by (apply receive_other; rewrite Hid by lia; lia).
  apply IH; [intros; apply Hid; lia|lia].
Qed.
Lemma receive_all_eq msg (s s' : smp_t) n : forall c0, (forall c', c0 <= c' < c0 + Z.of_nat n -> apic_id c' = c') ->
  c0 <= ipi_to msg < c0 + Z.of_nat n -> receive msg (ipi_to msg) s = Ret (tt, s') -> receive_all n msg c0 s = Ret (tt, s').
Proof.
  induction n as [|n IH]; intros c0 Hid Hc Hr; [lia|]. cbn [receive_all]. destruct (decide (c0 = ipi_to msg)) as [->|Hne].
  - mstep_with Hr. apply receive_all_none; [intros; apply Hid; lia|lia].
  - erewrite bind_ret_eq by (apply receive_other; rewrite Hid by lia; done). apply IH; [intros; apply Hid; lia|lia|done].
Qed.

(** An INIT and two STARTUPs run the processor's code once. *)
Lemma deliver_spec (s : smp_t) c p : page_ok p -> 0 <= c < Z.of_nat nproc -> ap_args (mem_of s) p ->
  exists s', deliver [Init c; Startup c 7; Startup c 7] s = Ret (tt, s') /\ sm_k s' = sm_k (put memL (st32 (mem_of s) (p + KSTACKSIZE - 4) ap_after) s) /\
    (forall c', c' <> c -> aps s' c' = aps s c' /\ started s' c' = started s c') /\ ap_ready s' c p.
Proof.
  intros Hok Hc Ha. pose proof (Hids c Hc) as Hid.
  set (s1 := mkSmp (sm_k s) (sm_dev s) (started s) (upd (aps s) c (ap_with_wait true (ap_with_regs reset_regs (aps s c))))).
  set (s2 := mkSmp (sm_k s1) (sm_dev s1) (started s1) (upd (aps s1) c (ap_with_wait false (ap_set CS (Z.shiftl 7 8) (ap_set EIP 0 (aps s1 c)))))).
  assert (receive_all nproc (Init c) 0 s = Ret (tt, s1)) as E1 by (apply receive_all_eq; [done|done|]; cbn [receive ipi_to]; by rewrite Hid, Z.eqb_refl).
  assert (ap_args (mem_of s2) p) as Ha2 by exact Ha. destruct (ap_run_spec s2 c p Hok Hid Ha2) as (s3 & E3 & K3 & O3 & R3 & W3).
  assert (ap_wait (aps s1 c) = true) as W1 by (unfold s1; cbn [aps]; by rewrite upd_same).
  assert (ap_wait (aps s3 c) = false) as W3' by (rewrite W3; unfold s2; cbn [aps]; by rewrite upd_same).
  assert (receive_all nproc (Startup c 7) 0 s1 = Ret (tt, s3)) as E2.
  { apply receive_all_eq; [done|done|]. cbn [receive ipi_to]. mstep. rewrite W1, Hid, Z.eqb_refl. cbn [andb]. mstep. exact E3. }
  assert (receive_all nproc (Startup c 7) 0 s3 = Ret (tt, s3)) as E4.
  { apply receive_all_eq; [done|done|]. cbn [receive ipi_to]. mstep. by rewrite W3', andb_false_r. }
  exists s3. split_and!; [|exact K3| |exact R3].
  - cbn [deliver]. mstep_with E1. mstep_with E2. mstep_with E4. reflexivity.
  - intros c' Hc'. destruct (O3 c' Hc') as [-> ->]. unfold s2, s1. cbn [aps started]. by rewrite !upd_ne by done.
Qed.

(** The code stays where it is. *)
Definition code_low (m : mem) : Prop := code_at m 0x80007000 = image.
Lemma code_low_agree m m' : (length image <= 4096)%nat -> agree (fun a => 0x80007000 <= a < 0x80008000) m m' -> code_low m -> code_low m'.
Proof. intros Hl Ha Hm. transitivity (code_at m 0x80007000); [|exact Hm]. apply map_ext_in. intros i Hi%list_elem_of_In%elem_of_seqZ. apply Ha. lia. Qed.

Lemma start_cpu_spec (s : smp_t) cpu_id c p l : (length image <= 4096)%nat -> 0 <= c < Z.of_nat nproc -> c < 256 -> cpu_id c = c -> code_low (mem_of s) -> free_pages s (p :: l) ->
  exists s', start_cpu cpu_id c s = Ret (tt, s') /\ free_pages s' l /\ code_low (mem_of s') /\ ap_ready s' c p /\
    forall c', c' <> c -> aps s' c' = aps s c' /\ started s' c' = started s c'.
Proof.
  intros Hil Hc Hc8 Hcid Hcode Hf. pose proof (free_ok _ _ Hf) as [Hok _]%Forall_cons. pose proof (page_ok_bounds p Hok) as Hpb.
  destruct (kalloc_spec s _ Hf) as (s1 & E1 & F1 & M1 & [_ V1]). cbn [hd tail] in E1, F1.
  unfold start_cpu. cbv zeta. mstep_with E1. change (p2v entry_code) with 0x80007000. change (v2p 0x80007000) with 0x7000. rewrite Hcid, u8_small by lia.
  assert (forall a, 0x80006000 <= a < 0x80008000 -> ~ in_pages l a) as Hlow.
  { intros a Ha (q & Hq & Hqa). pose proof (free_ok _ _ F1) as Hq'. rewrite Forall_forall in Hq'. specialize (Hq' q Hq). apply page_ok_bounds in Hq'. unfold in_page in Hqa. lia. }
  set (m2 := st32 (st32 (st32 (mem_of s1) (0x80007000 - 4) (p + KSTACKSIZE)) (0x80007000 - 8) mpenter_addr) (0x80007000 - 12) (v2p entrypgdir_addr)).
  set (s2 := put memL m2 s1). mstep. mstep. mstep. rewrite !mem_of_put, !put_put. fold m2. fold s2. mstep.
  assert (free_pages s2 l) as F2. { apply free_frame; [done|]. intros a Ha. assert (~ (0x80006000 <= a < 0x80008000)) as Hna by (intros Hx; by apply (Hlow a)).
    unfold m2. by rewrite !st32_agree by lia. }
  destruct (lapicstartap_sends c (sm_dev s2) ltac:(lia)) as (d & Ed & Ei).
  rewrite (bind_ret_eq _ _ _ _ _ (zoom_ret sm_devL _ _ _ _ Ed)). set (s3 := put sm_devL d s2). mstep. change (sm_dev s3) with d. rewrite Ei.
  assert (mem_of s3 = m2) as M3 by reflexivity. assert (aps s3 = aps s /\ started s3 = started s) as [A3 T3] by (unfold s3, s2; rewrite V1; done). assert (free_pages s3 l) as F3 by exact F2. clearbody s3.
  assert (ap_args (mem_of s3) p) as Ha.
  { rewrite M3. unfold m2. split.
    - apply (code_low_agree (mem_of s)); [done| |done]. rewrite <- M1. intros a Ha. cbn in Ha. by rewrite !st32_agree by lia.
    - rewrite !ld32_st32_ne, ld32_st32_same by lia. apply u32_small. unfold KSTACKSIZE, PGSIZE in *. lia.
    - rewrite ld32_st32_ne, ld32_st32_same by lia. by apply u32_small.
    - rewrite ld32_st32_same. by apply u32_small. }
  destruct (deliver_spec s3 c p Hok Hc Ha) as (s5 & E5 & K5 & O5 & R5). mstep_with E5. mstep. rewrite (ar_started _ _ _ R5). cbn [Z.eqb]. exists s5. split; [reflexivity|].
  assert (agree (fun a => ~ in_page p a) (mem_of s3) (st32 (mem_of s3) (p + KSTACKSIZE - 4) ap_after)) as Hag by (intros a Ha'; apply st32_agree; intros Hin; apply Ha'; unfold in_page, KSTACKSIZE, PGSIZE in *; lia).
  split_and!; [| |exact R5|].
  - change (free_pages (sm_k s5) l). rewrite K5. apply (free_frame s3 l _ F3). intros a Ha'. apply Hag. intros Hin.
    apply (distinct_apart [p] l a); [split; [by apply (free_nodup s (p :: l))|by apply (free_ok s (p :: l))]|apply (in_pages_1 p); [by apply list_elem_of_singleton|done]|done].
  - assert (mem_of s5 = st32 (mem_of s3) (p + KSTACKSIZE - 4) ap_after) as -> by (change (mem_of s5) with (ks_mem (sm_k s5)); rewrite K5; reflexivity).
    apply (code_low_agree (mem_of s3)); [done| |exact (aa_code _ _ Ha)]. intros a Ha'. cbn in Ha'. apply Hag. unfold in_page. lia.
  - intros c' Hc'. destruct (O5 c' Hc') as [-> ->]. by rewrite A3, T3.
Qed.

(** The processors from [c] to [c'] that are not [me] *)
Definition others (me c c' : Z) : Z := c' - c - (if (c <=? me) && (me <? c') then 1 else 0).

Lemma start_cpus_spec cpu_id me n : (length image <= 4096)%nat -> (forall c, 0 <= c < Z.of_nat nproc -> c < 256 /\ cpu_id c = c) ->
  forall c (s : smp_t) l, 0 <= c -> c + Z.of_nat n <= Z.of_nat nproc -> code_low (mem_of s) -> free_pages s l -> others me c (c + Z.of_nat n) <= Z.of_nat (length l) ->
  exists s', start_cpus n cpu_id me c s = Ret (tt, s') /\
    (forall c', c <= c' < c + Z.of_nat n -> c' <> me -> exists p, l !! Z.to_nat (others me c c') = Some p /\ ap_ready s' c' p) /\
    (forall c', c' < c \/ c' = me -> aps s' c' = aps s c' /\ started s' c' = started s c').
Proof.
  intros Hil Hid. induction n as [|n IH]; intros c s l Hc0 Hcn Hcode Hf Hl; cbn [start_cpus].
  - exists s. split; [done|]. split; [lia|done].
  - destruct (Z.eqb_spec c me) as [->|Hne].
    + mstep. destruct (IH (me + 1) s l ltac:(lia) ltac:(lia) Hcode Hf) as (s' & E & H1 & H2).
      { unfold others in *. destruct (Z.leb_spec me me), (Z.ltb_spec me (me + Z.of_nat (S n))), (Z.leb_spec (me + 1) me); cbn [andb] in *; lia. }
      exists s'. split; [exact E|]. split; [|intros c' Hc; apply H2; lia].
      intros c' Hc Hm. destruct (H1 c') as (p & Hp & Hr); [lia|done|]. exists p. split; [|done]. rewrite <- Hp. f_equal. f_equal.
      unfold others. destruct (Z.leb_spec me me), (Z.ltb_spec me c'), (Z.leb_spec (me + 1) me); cbn [andb]; lia.
    + destruct l as [|p l]. { unfold others in Hl. cbn [length] in Hl. destruct (Z.leb_spec c me), (Z.ltb_spec me (c + Z.of_nat (S n))); cbn [andb] in Hl; lia. }
      destruct (Hid c ltac:(lia)) as [Hc8 Hcid]. destruct (start_cpu_spec s cpu_id c p l Hil ltac:(lia) Hc8 Hcid Hcode Hf) as (s1 & E1 & F1 & C1 & R1 & O1). mstep_with E1.
      destruct (IH (c + 1) s1 l ltac:(lia) ltac:(lia) C1 F1) as (s' & E & H1 & H2).
      { unfold others in *. cbn [length] in Hl. destruct (Z.leb_spec c me), (Z.leb_spec (c + 1) me), (Z.ltb_spec me (c + Z.of_nat (S n))), (Z.ltb_spec me (c + 1 + Z.of_nat n)); cbn [andb] in *; lia. }
      exists s'. split; [exact E|]. split.
      * intros c' Hc Hm. destruct (decide (c' = c)) as [->|Hcc].
        -- exists p. split; [|apply (ap_ready_same s1); [|exact R1]; apply H2; lia]. replace (others me c c) with 0; [done|]. unfold others. destruct (Z.leb_spec c me), (Z.ltb_spec me c); cbn [andb]; lia.
        -- destruct (H1 c') as (q & Hq & Hr); [lia|done|]. exists q. split; [|done]. replace (Z.to_nat (others me c c')) with (S (Z.to_nat (others me (c + 1) c'))); [done|].
           unfold others. destruct (Z.leb_spec c me), (Z.leb_spec (c + 1) me), (Z.ltb_spec me c'); cbn [andb]; lia.
      * intros c' Hc. destruct (H2 c') as [G1 G2]; [lia|]. destruct (O1 c') as [G3 G4]; [intros ->; lia|]. split; congruence.
Qed.

(** C22 main starts every other processor of the machine.  The processors have the
    APIC ids 0, 1, 2, ..., which are the ids in cpus[], and the kernel holds the code of
    entryother.S.  startothers copies the code to where it is linked for and sends to each
    other processor in turn the interrupts that make it run there; the processor goes
    through entryother.S and paging into mpenter, and ends in mpmain with the flag of its
    own struct cpu set, on a stack page of its own from the allocator, with the kernel's
    segments, page directory and interrupt table; this processor is left alone. *)
Theorem startothers_starts (s : smp_t) (l : list Z) (cpu_id : Z -> Z) (this : Z) :
  free_pages s l -> 0 <= this < Z.of_nat nproc -> Z.of_nat nproc - 1 <= Z.of_nat (length l) ->
  (forall c, 0 <= c < Z.of_nat nproc -> cpu_id c = c) ->
  image_size = Z.of_nat (length image) -> image_size <= 4096 -> code_at (mem_of s) image_addr = image ->
  exists s', startothers (Z.of_nat nproc) cpu_id this s = Ret (tt, s') /\
    (forall c, 0 <= c < Z.of_nat nproc -> c <> this -> exists p, l !! Z.to_nat (if c <? this then c else c - 1) = Some p /\ ap_ready s' c p) /\
    aps s' this = aps s this /\ started s' this = started s this.
Proof.
  intros Hf Hme Hl Hcid Hsz Hsz' Himg. unfold startothers. rewrite cpunum_of, (Hids this Hme). mstep. set (s1 := put memL _ s).
  assert (forall c, 0 <= c < Z.of_nat nproc -> c < 256 /\ cpu_id c = c) as Hid.
  { intros c Hc. split; [|by apply Hcid]. rewrite <- (Hids c Hc). unfold apic_id. pose proof (u32_range (lapic_id c)). rewrite Z.shiftr_div_pow2 by lia. change (2 ^ 24) with 0x1000000. mlia. }
  assert (free_pages s1 l) as F1. { apply free_frame; [done|]. intros a (q & Hq & Ha). pose proof (free_ok _ _ Hf) as Hq'. rewrite Forall_forall in Hq'. specialize (Hq' q Hq). apply page_ok_bounds in Hq'.
    rewrite ld8_memmove by lia. change (p2v entry_code) with 0x80007000. unfold in_page in Ha. destruct (Z.leb_spec 0x80007000 a), (Z.ltb_spec a (0x80007000 + image_size)); cbn [andb]; done || lia. }
  assert (code_low (mem_of s1)) as C1.
  { transitivity (code_at (mem_of s) image_addr); [|exact Himg]. unfold s1. rewrite mem_of_put. apply map_ext_in. intros i Hi%list_elem_of_In%elem_of_seqZ. rewrite ld8_memmove by lia.
    change (p2v entry_code) with 0x80007000. rewrite (proj2 (Z.leb_le _ _)), (proj2 (Z.ltb_lt _ _)) by lia. cbn [andb]. f_equal. lia. }
  destruct (start_cpus_spec cpu_id this (Z.to_nat (Z.of_nat nproc)) ltac:(lia) Hid 0 s1 l ltac:(lia) ltac:(lia) C1 F1) as (s' & E & H1 & H2).
  { unfold others. destruct (Z.leb_spec 0 this), (Z.ltb_spec this (0 + Z.of_nat (Z.to_nat (Z.of_nat nproc)))); cbn [andb]; lia. }
  exists s'. split; [exact E|]. split; [|apply (H2 this); lia]. intros c Hc Hm. destruct (H1 c) as (p & Hp & Hr); [lia|done|]. exists p. split; [|done]. rewrite <- Hp. f_equal. f_equal.
  unfold others. destruct (Z.leb_spec 0 this), (Z.ltb_spec this c), (Z.ltb_spec c this); cbn [andb]; lia.
Qed.
End start.

(** Three processors, of which the first starts the others; the code is a stand-in of
    four bytes in the kernel at 0x8010b4e0. *)
#[local] Existing Instance kernel_sym.
Definition blank_dev : dev_t := mkDev [] (fun _ => 0) irqmask0 0 (fun _ => 0) [] 0 0 0 (fun _ => 0) false.
Definition demo_image : list Z := [0xfa; 0x31; 0xc0; 0x8e].
Definition three_cpus : smp_t :=
  mkSmp (put memL (fun a => if (0x8010b4e0 <=? a) && (a <? 0x8010b4e4) then nth (Z.to_nat (a - 0x8010b4e0)) demo_image 0 else mem_of two_pages a) two_pages) blank_dev (fun c => if c =? 0 then 1 else 0)
    (fun _ => mkAp (fun _ => 0) (mkTables (fun _ => SEG 0 0 0 0) 0 0 (0, 0) 0 0 0) blank_dev 0 false).

Lemma startothers_starts_witness : exists s',
  startothers 0x8010a000 0x80103000 0x803ff000 0x80114000 (fun c => 0x80112000 + 0xbc * c) (fun c => 0x80113000 + 0xbc * c) 0xFEE00000 0x50014 3 (fun c => Z.shiftl c 24) (fun _ => 0) 1 (fun _ => 0)
    demo_image 0x7070 0x7068 0x8010b4e0 4 3 (fun c => c) 0 three_cpus = Ret (tt, s') /\
  started s' 1 = 1 /\ started s' 2 = 1 /\ ap_regs (aps s' 2) ESP = 0x80201ffc.
Proof.
  destruct (startothers_starts 0x8010a000 0x80103000 0x803ff000 0x80114000 (fun c => 0x80112000 + 0xbc * c) (fun c => 0x80113000 + 0xbc * c) 0xFEE00000 0x50014 3 (fun c => Z.shiftl c 24) (fun _ => 0) 1 (fun _ => 0)
    demo_image 0x7070 0x7068 0x8010b4e0 4) with (s := three_cpus) (l := [0x80200000; 0x80201000]) (cpu_id := fun c : Z => c) (this := 0) as (s' & E & H & _).
  - intros n. exists 0%nat. split; [lia|reflexivity].
  - lia.
  - split; reflexivity || (intros; discriminate).
  - lia.
  - intros c Hc. assert (c = 0 \/ c = 1 \/ c = 2) as [-> |[-> | ->]] by lia; reflexivity.
  - unfold three_cpus. apply (free_frame two_pages); [exact two_pages_inv|]. intros a (q & Hq & Ha). rewrite !elem_of_cons, elem_of_nil in Hq.
    unfold in_page, PGSIZE in Ha. unfold ld8. rewrite (proj2 (Z.ltb_ge a 0x8010b4e4)) by (destruct Hq as [-> |[-> |[]]]; lia). by rewrite andb_false_r.
  - lia.
  - cbn. lia.
  - done.
  - reflexivity.
  - lia.
  - reflexivity.
  - exists s'. split; [exact E|]. destruct (H 1 ltac:(lia) ltac:(lia)) as (p1 & _ & R1). destruct (H 2 ltac:(lia) ltac:(lia)) as (p2 & Hp & R2). injection Hp as <-.
    split; [exact (ar_started _ _ _ _ _ _ R1)|]. split; [exact (ar_started _ _ _ _ _ _ R2)|]. exact (ar_stack _ _ _ _ _ _ R2).
Defined.
