(* ===== verification/Boot.v ===== *)
(** * The boot loader (bootmain.c)

    bootmain reads the kernel's ELF file from the disk, sector by sector, into
    memory.  The disk controller and its drive are those of the disk driver's
    model.  The theorem says that the memory then holds the kernel's segments,
    whatever else the loader, which reads whole sectors, has written. *)

From Stdlib Require Import ZArith Lia String Bool.
From stdpp Require Import base numbers sets list.
From S2P Require Import Prelude Params Mem FsState Bio Inode Exec.

Definition SECTSIZE : Z := 512.

Section boot.
Context (z : drive).

(** The controller's registers and the memory *)
Abbreviation boot_t := (ctrl * mem)%type.

(** The registers after the writes of readsect; waitdisk returns once the drive is
    ready. *)
Definition boot_regs (offset : Z) (c : ctrl) : ctrl :=
  let c := outb 0x1F2 1 c in
  let c := outb 0x1F3 (u8 offset) c in
  let c := outb 0x1F4 (u8 (Z.shiftr offset 8)) c in
  let c := outb 0x1F5 (u8 (Z.shiftr offset 16)) c in
  let c := outb 0x1F6 (u8 (Z.lor (Z.shiftr offset 24) 0xE0)) c in
  outb 0x1F7 0x20 c.
Definition readsect (dst offset : Z) (s : boot_t) : boot_t :=
  let c := boot_regs offset (fst s) in
  let data := dread z (reg_drive c) (reg_sector c) in
  (c, fun a => if (dst <=? a) && (a <? dst + SECTSIZE) then ld8 data (a - dst) else snd s a).

Fixpoint readseg_loop (fuel : nat) (pa epa offset : Z) (s : boot_t) : outcome boot_t :=
  if pa <? epa then
    match fuel with
    | O => NoFuel
    | S fuel => readseg_loop fuel (u32 (pa + SECTSIZE)) epa (u32 (offset + 1)) (readsect pa offset s)
    end
  else Ret s.
Definition readseg (pa count offset : Z) (s : boot_t) : outcome boot_t :=
  let epa := u32 (pa + count) in
  let pa := u32 (pa - offset mod SECTSIZE) in
  let offset := u32 (offset / SECTSIZE + 1) in
  readseg_loop (Z.to_nat (count / SECTSIZE + 2)) pa epa offset s.

Definition ph_paddr : Z := 12.
Definition scratch : Z := 0x10000.

Fixpoint load_kernel (fuel : nat) (ph eph : Z) (s : boot_t) : outcome boot_t :=
  if ph <? eph then
    match fuel with
    | O => NoFuel
    | S fuel =>
      let pa := ld32 (snd s) (ph + ph_paddr) in
      match readseg pa (ld32 (snd s) (ph + ph_filesz)) (ld32 (snd s) (ph + ph_off)) s with
      | Ret (c, m) =>
        let filesz := ld32 m (ph + ph_filesz) in
        let memsz := ld32 m (ph + ph_memsz) in
        let m := if filesz <? memsz then stosb m (u32 (pa + filesz)) 0 (memsz - filesz) else m in
        load_kernel fuel (u32 (ph + sizeof_proghdr)) eph (c, m)
      | Panic msg => Panic msg | Fault w => Fault w | Blocked => Blocked | NoFuel => NoFuel
      end
    end
  else Ret s.

(** The entry point that bootmain calls, with the memory; None if it returns. *)
Definition bootmain (s : boot_t) : outcome (option Z * boot_t) :=
  match readseg scratch 4096 0 s with
  | Ret (c, m) =>
    if negb (ld32 m scratch =? ELF_MAGIC) then Ret (None, (c, m)) else
    let ph := u32 (scratch + ld32 m (scratch + elf_phoff)) in
    let phnum := ld16 m (scratch + elf_phnum) in
    match load_kernel (Z.to_nat phnum) ph (u32 (ph + phnum * sizeof_proghdr)) (c, m) with
    | Ret (c, m) => Ret (Some (ld32 m (scratch + elf_entry)), (c, m))
    | Panic msg => Panic msg | Fault w => Fault w | Blocked => Blocked | NoFuel => NoFuel
    end
  | Panic msg => Panic msg | Fault w => Fault w | Blocked => Blocked | NoFuel => NoFuel
  end.

(** ** Sectors *)

Lemma boot_regs_spec s c : 0 <= s < 2 ^ 28 -> reg_drive (boot_regs s c) = 0 /\ reg_sector (boot_regs s c) = s.
Proof.
  intros Hs. change (2 ^ 28) with 268435456 in Hs. unfold reg_drive, reg_sector, boot_regs. cbn [outb r_lba0 r_lba1 r_lba2 r_dev Z.eqb Pos.eqb].
  rewrite !Z.shiftr_div_pow2 by lia. change (2 ^ 24) with 16777216. change (2 ^ 16) with 65536. change (2 ^ 8) with 256.
  assert (Z.lor (s / 16777216) 0xE0 = 0xE0 + s / 16777216) as ->.
  { rewrite Z.lor_comm. apply (lor_low_add _ _ 5); [lia|done|]. change (2 ^ 5) with 32. mlia. }
  assert (u8 (224 + s / 16777216) = 224 + s / 16777216) as -> by (apply u8_small; mlia).
  assert (forall x, Z.land x 1 = x mod 2) as -> by (intros x; apply (land_low_mask x 1); lia).
  assert (forall x, Z.land x 0x0f = x mod 16) as -> by (intros x; apply (land_low_mask x 4); lia). change (2 ^ 4) with 16. split; [mlia|]. rewrite !Z.shiftl_mul_pow2 by lia. change (2 ^ 8) with 256. change (2 ^ 16) with 65536. change (2 ^ 24) with 16777216.
  unfold u8. rewrite (Z.lor_comm (s mod 256)), (lor_low_add (s / 256 mod 256 * 256) (s mod 256) 8) by (lia || (by apply Z.mod_mul) || (by apply Z.mod_pos_bound)).
  rewrite (Z.lor_comm (s / 65536 mod 256 * 65536)), (lor_low_add _ (s / 65536 mod 256 * 65536) 24); [|lia|by apply Z.mod_mul|change (2 ^ 24) with 16777216; mlia].
  rewrite Z.lor_comm, (lor_low_add _ _ 16); [mlia|lia| |change (2 ^ 16) with 65536; mlia].
  change (2 ^ 16) with 65536. replace ((224 + s / 16777216) mod 16 * 16777216 + s / 65536 mod 256 * 65536) with (((224 + s / 16777216) mod 16 * 256 + s / 65536 mod 256) * 65536) by lia. by apply Z.mod_mul.
Qed.

(** The kernel's file, from sector 1 on *)
Definition kfile : mem := fun k => ld8 (dread z 0 (1 + k / SECTSIZE)) (k mod SECTSIZE).

Lemma ld8_kfile k : ld8 kfile k = kfile k.
Proof. unfold ld8, kfile. unfold ld8. apply u8_idem. Qed.

Lemma readsect_spec dst offset c m : 1 <= offset < 2 ^ 28 -> exists c' m', readsect dst offset (c, m) = (c', m') /\
  forall a, ld8 m' a = if (dst <=? a) && (a <? dst + SECTSIZE) then kfile ((offset - 1) * SECTSIZE + (a - dst)) else ld8 m a.
Proof.
  intros Ho. destruct (boot_regs_spec offset c) as [E1 E2]; [lia|]. unfold readsect. cbn [fst snd]. rewrite E1, E2.
  eexists _, _. split; [reflexivity|]. intros a. unfold ld8 at 1, SECTSIZE. destruct (Z.leb_spec dst a), (Z.ltb_spec a (dst + 512)); cbn [andb]; try done.
  unfold kfile, SECTSIZE. replace (((offset - 1) * 512 + (a - dst)) / 512) with (offset - 1) by mlia. replace (((offset - 1) * 512 + (a - dst)) mod 512) with (a - dst) by mlia.
  replace (1 + (offset - 1)) with offset by lia. unfold ld8. apply u8_idem.
Qed.

Lemma readseg_loop_spec n : forall fuel pa epa offset c m, (n <= fuel)%nat -> 0 <= pa -> pa + 512 * Z.of_nat n < 2 ^ 32 -> 1 <= offset -> offset + Z.of_nat n <= 2 ^ 28 ->
  pa + 512 * (Z.of_nat n - 1) < epa <= pa + 512 * Z.of_nat n -> exists c' m', readseg_loop fuel pa epa offset (c, m) = Ret (c', m') /\
    forall a, ld8 m' a = if (pa <=? a) && (a <? pa + 512 * Z.of_nat n) then kfile ((offset - 1) * 512 + (a - pa)) else ld8 m a.
Proof.
  change (2 ^ 32) with 4294967296. change (2 ^ 28) with 268435456. induction n as [|n IH]; intros fuel pa epa offset c m Hf Hp Hw Ho Ho2 He.
  - exists c, m. split; [destruct fuel; cbn [readseg_loop]; by rewrite (proj2 (Z.ltb_ge pa epa)) by lia|]. intros a.
    destruct (Z.leb_spec pa a), (Z.ltb_spec a (pa + 512 * Z.of_nat 0)); cbn [andb]; done || lia.
  - destruct fuel as [|fuel]; [lia|]. cbn [readseg_loop]. rewrite (proj2 (Z.ltb_lt pa epa)) by lia. unfold SECTSIZE. rewrite !u32_small by lia.
    destruct (readsect_spec pa offset c m) as (c1 & m1 & E1 & H1); [change (2 ^ 28) with 268435456; lia|]. rewrite E1.
    destruct (IH fuel (pa + 512) epa (offset + 1) c1 m1) as (c2 & m2 & E2 & H2); try lia. exists c2, m2. split; [done|]. intros a. rewrite H2, H1. unfold SECTSIZE.
    destruct (Z.leb_spec (pa + 512) a), (Z.ltb_spec a (pa + 512 + 512 * Z.of_nat n)), (Z.leb_spec pa a), (Z.ltb_spec a (pa + 512)), (Z.ltb_spec a (pa + 512 * Z.of_nat (S n))); cbn [andb]; try done; try lia.
    f_equal. lia.
Qed.

(** The sectors of [count] bytes at [offset] of the file *)
Definition span (count offset : Z) : Z := 512 * ((count + offset mod 512 + 511) / 512).

Lemma readseg_spec pa count offset c m : 512 <= pa -> 0 <= count -> 0 <= offset -> pa + count + 1024 < 2 ^ 32 -> offset + count + 1024 < 2 ^ 32 ->
  exists c' m', readseg pa count offset (c, m) = Ret (c', m') /\ let lo := pa - offset mod 512 in
    forall a, ld8 m' a = if (lo <=? a) && (a <? lo + span count offset) then kfile (offset + (a - pa)) else ld8 m a.
Proof.
  change (2 ^ 32) with 4294967296. intros Hp Hc Ho Hw Hw2. unfold readseg, span, SECTSIZE. rewrite !u32_small by mlia.
  destruct (readseg_loop_spec (Z.to_nat ((count + offset mod 512 + 511) / 512)) (Z.to_nat (count / 512 + 2)) (pa - offset mod 512) (pa + count) (offset / 512 + 1) c m)
    as (c' & m' & E & H); try (change (2 ^ 32) with 4294967296); try (change (2 ^ 28) with 268435456); try mlia.
  exists c', m'. split; [done|]. cbv zeta. intros a. rewrite H, Z2Nat.id by mlia. destruct (_ && _); [|done]. f_equal. mlia.
Qed.

(** ** Segments *)

Record kseg : Type := mkKseg { k_paddr : Z; k_filesz : Z; k_memsz : Z; k_off : Z }.
(** The program header at [ph] of a file or a memory *)
Definition header_at (m : mem) (ph : Z) (g : kseg) : Prop :=
  ld32 m (ph + ph_paddr) = k_paddr g /\ ld32 m (ph + ph_filesz) = k_filesz g /\ ld32 m (ph + ph_memsz) = k_memsz g /\ ld32 m (ph + ph_off) = k_off g.
(** What the segment needs, and what reading it writes. *)
Definition wanted (g : kseg) (a : Z) : Prop := k_paddr g <= a < k_paddr g + Z.max (k_filesz g) (k_memsz g).
Definition written (g : kseg) (a : Z) : Prop :=
  k_paddr g - k_off g mod 512 <= a < Z.max (k_paddr g - k_off g mod 512 + span (k_filesz g) (k_off g)) (k_paddr g + k_memsz g).
Definition kloaded (m : mem) (g : kseg) : Prop :=
  (forall k, 0 <= k < k_filesz g -> ld8 m (k_paddr g + k) = kfile (k_off g + k)) /\
  (forall k, k_filesz g <= k < k_memsz g -> ld8 m (k_paddr g + k) = 0).
Record kseg_ok (g : kseg) : Prop := {
  ko_low : 512 <= k_paddr g;
  ko_high : k_paddr g + Z.max (k_filesz g) (k_memsz g) + 1024 < 2 ^ 32;
  ko_file : k_off g + k_filesz g + 1024 < 2 ^ 32;
  ko_clear : forall a, written g a -> ~ (scratch <= a < scratch + 4096)
}.
(** No segment is written over by the loading of a later one. *)
Fixpoint apart (gs : list kseg) : Prop :=
  match gs with
  | [] => True
  | g :: gs => Forall (fun g' => forall a, wanted g a -> ~ written g' a) gs /\ apart gs
  end.

(** The first page of the file is in the scratch page. *)
Definition has_page (m : mem) : Prop := forall k, 0 <= k < 4096 -> ld8 m (scratch + k) = kfile k.

Lemma page_ld32 m k : has_page m -> 0 <= k <= 4092 -> ld32 m (scratch + k) = ld32 kfile k.
Proof. intros H Hk. unfold ld32. rewrite <- !Z.add_assoc, !H by lia. by rewrite !ld8_kfile. Qed.

Lemma load_one ph g c m : has_page m -> scratch <= ph -> ph + 32 <= scratch + 4096 -> header_at kfile (ph - scratch) g -> kseg_ok g ->
  exists c' m1, readseg (ld32 m (ph + ph_paddr)) (ld32 m (ph + ph_filesz)) (ld32 m (ph + ph_off)) (c, m) = Ret (c', m1) /\
    let m2 := if ld32 m1 (ph + ph_filesz) <? ld32 m1 (ph + ph_memsz)
              then stosb m1 (u32 (ld32 m (ph + ph_paddr) + ld32 m1 (ph + ph_filesz))) 0 (ld32 m1 (ph + ph_memsz) - ld32 m1 (ph + ph_filesz)) else m1 in
    has_page m2 /\ kloaded m2 g /\ forall a, ~ written g a -> ld8 m2 a = ld8 m a.
Proof.
  intros Hpg H1 H2 (E1 & E2 & E3 & E4) [Kl Kh Kf Kc].
  assert (forall m', has_page m' -> ld32 m' (ph + ph_paddr) = k_paddr g /\ ld32 m' (ph + ph_filesz) = k_filesz g /\ ld32 m' (ph + ph_memsz) = k_memsz g /\ ld32 m' (ph + ph_off) = k_off g) as Hh.
  { intros m' Hm'. rewrite <- E1, <- E2, <- E3, <- E4. unfold ph_paddr, ph_filesz, ph_memsz, ph_off in *.
    repeat split; (rewrite <- (page_ld32 m') by (done || lia); f_equal; lia). }
  destruct (Hh m Hpg) as (-> & -> & _ & ->). pose proof (ld32_range kfile (ph - scratch + ph_filesz)) as R2. pose proof (ld32_range kfile (ph - scratch + ph_memsz)) as R3.
  pose proof (ld32_range kfile (ph - scratch + ph_off)) as R4. rewrite E2 in R2. rewrite E3 in R3. rewrite E4 in R4.
  destruct (readseg_spec (k_paddr g) (k_filesz g) (k_off g) c m) as (c' & m1 & E & Hm1); try lia. exists c', m1. split; [done|]. cbv zeta in *.
  assert (k_filesz g <= span (k_filesz g) (k_off g) - k_off g mod 512) as Hsp by (unfold span; mlia).
  assert (forall a, ~ written g a -> ld8 m1 a = ld8 m a) as Hf1.
  { intros a Ha. rewrite Hm1. destruct (Z.leb_spec (k_paddr g - k_off g mod 512) a), (Z.ltb_spec a (k_paddr g - k_off g mod 512 + span (k_filesz g) (k_off g))); cbn [andb]; try done.
    exfalso. apply Ha. unfold written. lia. }
  assert (forall m', (forall a, ~ written g a -> ld8 m' a = ld8 m a) -> has_page m') as Hpage.
  { intros m' H k Hk. rewrite H; [by apply Hpg|]. intros Hw. apply (Kc _ Hw). lia. }
  destruct (Hh m1 (Hpage m1 Hf1)) as (_ & -> & -> & _). change (2 ^ 32) with 4294967296 in *. rewrite u32_small by lia.
  assert (forall k, 0 <= k < k_filesz g -> ld8 m1 (k_paddr g + k) = kfile (k_off g + k)) as Hfile.
  { intros k Hk. rewrite Hm1. pose proof (Z.mod_pos_bound (k_off g) 512 ltac:(lia)). rewrite (proj2 (Z.leb_le _ _)), (proj2 (Z.ltb_lt _ _)) by lia. cbn [andb]. f_equal. lia. }
  destruct (Z.ltb_spec (k_filesz g) (k_memsz g)) as [Hlt|Hge].
  - set (m2 := stosb m1 _ _ _). assert (forall a, ld8 m2 a = if (k_paddr g + k_filesz g <=? a) && (a <? k_paddr g + k_memsz g) then 0 else ld8 m1 a) as Hm2.
    { intros a. unfold m2, stosb, ld8 at 1. replace (k_paddr g + k_filesz g + (k_memsz g - k_filesz g)) with (k_paddr g + k_memsz g) by lia. by destruct (_ && _). }
    assert (forall a, ~ written g a -> ld8 m2 a = ld8 m a) as Hf2.
    { intros a Ha. rewrite Hm2. destruct (Z.leb_spec (k_paddr g + k_filesz g) a), (Z.ltb_spec a (k_paddr g + k_memsz g)); cbn [andb]; try (by apply Hf1).
      exfalso. apply Ha. unfold written. pose proof (Z.mod_pos_bound (k_off g) 512 ltac:(lia)). lia. }
    split; [by apply Hpage|]. split; [split|done].
    + intros k Hk. rewrite Hm2, (proj2 (Z.leb_gt _ _)) by lia. cbn [andb]. by apply Hfile.
    + intros k Hk. rewrite Hm2, (proj2 (Z.leb_le _ _)), (proj2 (Z.ltb_lt _ _)) by lia. done.
  - split; [by apply Hpage|]. split; [split; [done|intros; lia]|done].
Qed.

Lemma load_kernel_spec gs : forall ph c m, has_page m -> scratch <= ph -> ph + 32 * Z.of_nat (length gs) <= scratch + 4096 ->
  (forall i g, gs !! i = Some g -> header_at kfile (ph - scratch + 32 * Z.of_nat i) g) -> Forall kseg_ok gs -> apart gs ->
  exists c' m', load_kernel (length gs) ph (ph + 32 * Z.of_nat (length gs)) (c, m) = Ret (c', m') /\ has_page m' /\ Forall (kloaded m') gs /\
    forall a, (forall g, g ∈ gs -> ~ written g a) -> ld8 m' a = ld8 m a.
Proof.
  induction gs as [|g gs IH]; intros ph c m Hpg H1 H2 Hh Hok Hap.
  - exists c, m. cbn [length load_kernel]. rewrite (proj2 (Z.ltb_ge _ _)) by lia. done.
  - apply Forall_cons in Hok as [Hg Hok]. destruct Hap as [Ha Hap]. cbn [length] in *. set (eph := ph + 32 * Z.of_nat (S (length gs))). cbn [load_kernel].
    rewrite (proj2 (Z.ltb_lt _ _)) by (unfold eph; lia). cbn [snd].
    destruct (load_one ph g c m) as (c1 & m1 & E1 & H); [done|done|lia|replace (ph - scratch) with (ph - scratch + 32 * Z.of_nat 0) by lia; by apply Hh|done|].
    rewrite E1. cbv zeta in *. set (m2 := if _ <? _ then _ else _) in *. clearbody m2. destruct H as (Hp2 & Hl2 & Hf2).
    unfold sizeof_proghdr. unfold scratch in *. rewrite u32_small by lia.
    destruct (IH (ph + 32) c1 m2) as (c' & m' & E & Hp & Hl & Hf); [done|lia|lia| |done|done|].
    { intros i g' Hi. replace (ph + 32 - 65536 + 32 * Z.of_nat i) with (ph - 65536 + 32 * Z.of_nat (S i)) by lia. by apply Hh. }
    replace eph with (ph + 32 + 32 * Z.of_nat (length gs)) by (unfold eph; lia). exists c', m'. split; [done|]. split; [done|].
    assert (forall a, wanted g a -> ld8 m' a = ld8 m2 a) as Hk.
    { intros a Hw. apply Hf. intros g' Hg'. rewrite Forall_forall in Ha. by apply Ha. }
    assert (0 <= k_filesz g) by (destruct (Hh 0%nat g eq_refl) as (_ & <- & _); apply ld32_range).
    split.
    + constructor; [|done]. destruct Hl2 as [L1 L2]. split; intros k Hk'; rewrite Hk by (unfold wanted; lia); auto.
    + intros a Hw. rewrite Hf by (intros; apply Hw; set_solver). apply Hf2, Hw. set_solver.
Qed.

Lemma first_page c m : exists c' m', readseg scratch 4096 0 (c, m) = Ret (c', m') /\ has_page m' /\
  forall a, ~ (scratch <= a < scratch + 4096) -> ld8 m' a = ld8 m a.
Proof.
  destruct (readseg_spec scratch 4096 0 c m) as (c' & m' & E & H); unfold scratch; try lia. exists c', m'. split; [done|]. cbv zeta in H.
  change (span 4096 0) with 4096 in H. change (0 mod 512) with 0 in H. unfold scratch in *. split.
  - intros k Hk. rewrite H. unfold scratch. rewrite (proj2 (Z.leb_le _ _)), (proj2 (Z.ltb_lt _ _)) by lia. cbn [andb]. f_equal. lia.
  - intros a Ha. rewrite H. destruct (Z.leb_spec (65536 - 0) a), (Z.ltb_spec a (65536 - 0 + 4096)); cbn [andb]; done || lia.
Qed.

(** The kernel's file has the program headers [gs] within its first page, for
    segments that can be loaded. *)
Record kernel_image (gs : list kseg) : Prop := {
  ki_magic : ld32 kfile 0 = ELF_MAGIC;
  ki_phnum : ld16 kfile elf_phnum = Z.of_nat (length gs);
  ki_phoff : ld32 kfile elf_phoff + 32 * Z.of_nat (length gs) <= 4096;
  ki_headers : forall i g, gs !! i = Some g -> header_at kfile (ld32 kfile elf_phoff + 32 * Z.of_nat i) g;
  ki_segs : Forall kseg_ok gs;
  ki_apart : apart gs
}.

(** C21 Booting.  If the kernel's ELF file lies on the disk from sector 1 on, with
    its program headers in its first page, and no sector that the loader reads for
    a segment falls on the scratch page or on an earlier segment, then bootmain
    returns the entry point of the file, each segment's bytes of the file are at
    its physical address, the rest of the segment is zero, and memory outside the
    scratch page and the sectors read is what it was. *)
Theorem boot_loads gs c m : kernel_image gs -> exists c' m', bootmain (c, m) = Ret (Some (ld32 kfile elf_entry), (c', m')) /\
  Forall (kloaded m') gs /\
  forall a, ~ (scratch <= a < scratch + 4096) -> (forall g, g ∈ gs -> ~ written g a) -> ld8 m' a = ld8 m a.
Proof.
  intros [K1 K2 K3 K4 K5 K6]. destruct (first_page c m) as (c1 & m1 & E1 & Hp & Hf). unfold bootmain. rewrite E1.
  pose proof (ld32_range kfile elf_phoff) as Ho.
  rewrite (page_ld32 m1 elf_phoff) by (done || (unfold elf_phoff; lia)). replace (ld32 m1 scratch) with (ld32 kfile 0) by (rewrite <- (page_ld32 m1) by (done || lia); f_equal; lia).
  assert (ld16 m1 (scratch + elf_phnum) = ld16 kfile elf_phnum) as ->.
  { unfold ld16. rewrite <- Z.add_assoc, !Hp by (unfold elf_phnum; lia). by rewrite !ld8_kfile. }
  rewrite K1, K2, Z.eqb_refl, Nat2Z.id. cbn [negb]. cbv zeta. rewrite (u32_small (scratch + _)) by (unfold scratch; lia). unfold sizeof_proghdr.
  rewrite u32_small by (unfold scratch; lia). rewrite (Z.mul_comm _ 32).
  destruct (load_kernel_spec gs (scratch + ld32 kfile elf_phoff) c1 m1) as (c' & m' & E & Hp' & Hl & Hf'); [done|lia|lia| |done|done|].
  { intros i g Hi. replace (scratch + ld32 kfile elf_phoff - scratch) with (ld32 kfile elf_phoff) by lia. by apply K4. }
  rewrite E, (page_ld32 m') by (done || (unfold elf_entry; lia)). exists c', m'. split; [done|]. split; [done|].
  intros a Ha Hw. rewrite Hf' by done. by apply Hf.
Qed.
End boot.

(** A kernel of two segments, of which the second shares its first sector with
    other bytes of the file *)
Definition small_segs : list kseg := [mkKseg 0x100000 600 1000 0x1000; mkKseg 0x102010 16 4096 0x2010].
Definition small_header : mem :=
  let m := st32 (fun _ => 0) 0 ELF_MAGIC in
  let m := st16 (st32 (st32 m elf_entry 0x10000c) elf_phoff 52) elf_phnum 2 in
  let m := st32 (st32 (st32 (st32 m (52 + ph_off) 0x1000) (52 + ph_paddr) 0x100000) (52 + ph_filesz) 600) (52 + ph_memsz) 1000 in
  st32 (st32 (st32 (st32 m (84 + ph_off) 0x2010) (84 + ph_paddr) 0x102010) (84 + ph_filesz) 16) (84 + ph_memsz) 4096.
Definition small_drive : drive := mkDrive (fun d n a => if n =? 1 then small_header a else u8 (n + a)) [].

Lemma small_kernel_image : kernel_image small_drive small_segs.
Proof.
  constructor.
  - vm_compute. reflexivity.
  - vm_compute. reflexivity.
  - vm_compute. discriminate.
  - intros [|[|i]] g Hi; [| |destruct i; discriminate Hi]; injection Hi as <-; (split; [|split; [|split]]); vm_compute; reflexivity.
  - constructor; [|constructor; [|constructor]]; (constructor; [| | |unfold written, scratch]); cbn [k_paddr k_filesz k_memsz k_off]; try lia; intros a;
      [change (span 600 0x1000) with 1024; change (0x1000 mod 512) with 0|change (span 16 0x2010) with 512; change (0x2010 mod 512) with 16]; lia.
  - split; [constructor; [|constructor]|split; [constructor|exact I]]. unfold written, wanted. cbn [k_paddr k_filesz k_memsz k_off]. intros a.
    change (span 16 0x2010) with 512. change (0x2010 mod 512) with 16. lia.
Qed.

Lemma boot_loads_witness : exists c' m', bootmain small_drive ((mkCtrl 0 0 0 0 0 0 (fun _ => 0) 0), fun _ => 0) = Ret (Some 0x10000c, (c', m')) /\
  ld8 m' 0x10010a = 19 /\ ld8 m' 0x100258 = 0.
Proof.
  destruct (boot_loads small_drive small_segs (mkCtrl 0 0 0 0 0 0 (fun _ => 0) 0) (fun _ => 0) small_kernel_image) as (c' & m' & E & Hl & _).
  exists c', m'. split; [exact E|]. apply Forall_cons in Hl as [[H1 H2] _]. split.
  - refine (eq_trans (H1 266 _) _); [cbn; lia|vm_compute; reflexivity].
  - refine (H2 600 _). cbn. lia.
Defined.
